(* ===== verification/_CoqProject ===== *)
-Q . S2P
Prelude.v
RingBuffer.v
MoveMem.v
StrLib.v
EdpBuffer.v
Double.v
Json.v
JsonPrint.v
JsonParse.v
JsonRound.v
EdpPacket.v
EdpStream.v
EdpUnpack.v
Cloud.v
DMem.v
Dhcp.v
DhcpLease.v
DnsServer.v
Base64.v
Aes.v
Flash.v
Param.v
Agent.v
Crc.v
NetAdapter.v
Ntp.v
CStr.v
SaveData.v
Sensors.v
ReadyList.v
Kernel.v
MsgQueue.v
KernelInv.v
KernelStep.v
KernelSafe.v
KernelView.v
KernelQueue.v
KernelSem.v
KernelSplit.v
KernelTime.v
Timers.v
TimerWheel.v
TimerTask.v
TimerActs.v
TimerSpec.v
Timeouts.v
TimeoutSpec.v
InetChksum.v
Pbuf.v
PbufRef.v
PbufData.v
IpAddr.v
Etharp.v
EtharpBufs.v
EtharpTable.v
EtharpSend.v
EtharpRecv.v
EtharpSpec.v
