(* ===== verification/Prelude.v ===== *)
(** Verification of the NL6621-OneNet firmware (src/Device/Source).

    * The program

    The firmware runs on a Cortex-M3 WiFi chip (NL6621) with uC/OS-II and lwIP.
    This library verifies its own code, which is the agent App/NuAgent, the
    DHCP and DNS servers of the soft access point (App/DhcpServer,
    App/DnsServer), the system layer Sys, the memory pool of Ports/Cortex-M3
    and the flash driver of BSP, the core of the kernel its tasks run on, and
    the timeouts, checksums, packet buffers, addresses and address resolution of
    lwIP.
    The life of a device:
      - start-up (wifi_conn.c): the stored record is read from flash; the device
        joins a network or opens its own access point;
      - provisioning (lan.c): a phone joins the access point, is given an
        address by the DHCP server and the device's by the DNS server, and
        sends network name and key in a datagram; the device tries them,
        stores them in flash (nl6621_drv.c, flash.c) and resets;
      - operation (network_adapter.c, cloud.c, sensors.c): a TCP connection to
        the OneNet platform, over which EDP messages (EdpKit.c) go both ways;
        a heartbeat keeps it alive; NTP sets the clock (ntp_client.c).

    * The files

    Each file models one source file or a part of it; a definition carries the
    name of the C function, loop bodies have names of their own.
      - [Prelude]: machine words, byte lists, memory accesses, the monad [M] of
        stateful code and its rules ([wpe], [preserves]), the allocator's
        interface [Heap], the automation ([word_lia], [zlen_lia], hints [nl]).
      - [RingBuffer] (Lib/ring_buffer.c), [MoveMem], [Crc] and [CStr] (parts of
        Sys/util.c), [Base64] (Lib/base64.c), [StrLib] (Lib/str_lib.c), [Aes]
        (Lib/AES.c): library code over byte arrays.
      - [DMem] (Ports/Cortex-M3/os_dmem.c): the pool behind malloc and free, on
        an explicit memory of block headers.
      - [EdpBuffer], [EdpPacket], [EdpStream], [EdpUnpack] (OneNet/EdpKit.c): the
        byte buffer and its primitives, the packet builders and parsers, the
        splitting of the stream, and the two sides against each other.
      - [Double]: binary64 arithmetic, conversions and the formats of sprintf,
        as far as the code uses them.
      - [Json], [JsonPrint], [JsonParse], [JsonRound] (Lib/cJSON.c): the trees,
        the printer and the parser; what each is safe for; both together.
      - [SaveData] (the macros of OneNet/EdpKit.c): packing and unpacking an int,
        a double or a string as JSON, on the JSON and the EDP files.
      - [Cloud] (User/cloud.c, heartbeat of User/sensors.c): the session, on top
        of the EDP files; [Sensors] (User/sensors.c): the readings and their
        upload.
      - [Dhcp], [DhcpLease] (App/DhcpServer/dhcp_server.c): the server as a state
        machine over its eight clients, and what it achieves over any run.
      - [DnsServer] (App/DnsServer/dns_server.c).
      - [Flash] (BSP/flash.c, System/nl6621_drv.c): the driver over the interface
        of an SPI flash chip, the configuration record.
      - [Param] (Sys/param.c): parameters and the messages to the radio library.
      - [Agent] (Wifi/wifi_conn.c, User/lan.c, button of System/agent_core.c), on
        [Param] and [Flash].
      - [NetAdapter] (System/network_adapter.c), [Ntp] (Lib/ntp_client.c) on an
        interface of the socket calls.
      - the kernel, uC/OS-II in the configuration of the project: [ReadyList]
        (sets of priorities as bit maps), [Kernel] (the state and the services of
        os_core.c, os_task.c, os_time.c, os_sem.c and os_q.c, their critical
        sections, and runs of whole calls and interrupts), [MsgQueue] (the ring of a queue), [KernelInv], [KernelStep]
        and [KernelSafe] (the invariant, that every service and interrupt keeps
        it), [KernelView], [KernelQueue] and [KernelSem] (abstract queues and
        semaphores, and the kernel as their refinement), [KernelSplit] (tasks
        preempted inside their calls, and that whole calls stand for such runs),
        [KernelTime] (delays and timeouts).
      - [Timers] (uCOS-II/os_tmr.c, the wrappers of Sys/util.c), [TimerWheel] (the
        doubly linked spokes of the wheel as lists), [TimerTask] (the task and
        the services on them), [TimerActs] (callbacks as programs), [TimerSpec].
      - parts of lwIP as it is compiled here: [Timeouts] (src/core/timers.c and the
        waits of port/sys_arch.c), [TimeoutSpec] (the list of timeouts as a calendar);
        [InetChksum] (src/core/ipv4/inet_chksum.c, with RFC 1071 as reference);
        [Pbuf] (src/core/pbuf.c), [PbufRef] (references, lengths and lifetime of
        packet buffers), [PbufData] (their contents); [IpAddr]
        (src/core/ipv4/ip_addr.c), addresses and their texts.
      - [Etharp] (LwIP/src/netif/etharp.c): address resolution; [EtharpBufs] (what
        it does with packet buffers), [EtharpTable] (its invariant and its table),
        [EtharpSend] and [EtharpRecv] (what goes out and what comes in),
        [EtharpSpec] (its runs and what they achieve).

    * The kernel

    The state [Kernel] is that of the global variables of ucos_ii.h: ready list,
    table of TCBs by priority, list of TCBs, tables and free lists of events and
    queues, time, current priority, nesting counters.  A call is the tests it
    makes with interrupts enabled (the type of the event, the lock and interrupt
    counters) and its critical section, which have definitions of their own
    ([OSQPend], [OSQPend_section]).  A call that blocks has a third part: what the
    task does when it runs again, noted in the TCB while it waits.  A run
    ([kruns]) is any sequence of whole calls of the current task, of such third
    parts, of ticks and of posts by interrupts; what a task may call is
    [allowed].  [KernelSplit] has the finer machine: a task that made its tests
    may be preempted by any other task or interrupt before its section
    ([IState], [imove], [iruns]), and an event may be deleted only when no other
    task is inside a call on it.  [interleaved_calls_merge] makes of a run of this
    machine a run of whole calls with the same kernel, so the theorems on
    [kruns] hold of it, and [kernel_safe] is about it directly.  The creation of
    a task, a semaphore or a queue, an interrupt, and a section with the
    [OS_Sched] after it are one step each; the header of [Kernel] says why.  The
    loop that readies all waiting tasks has fuel 65, one turn for each of 64
    priorities and one to see the end.

    Timers have a state of their own ([Timers]): each service holds the scheduler
    lock from its first access on, and is refused in an interrupt, so services
    and turns of the timer task are steps of a sequence ([tmr_run]).  The code
    behind a callback is an interface ([Callbacks]) with a law ([Gentle]): it
    leaves other running timers alone.  [TimerActs] discharges it for any
    program ([Script]) that starts, stops, sets and deletes its own timer,
    creates others and asks for states and times; the theorems of [TimerSpec]
    are about such programs.  The walk along a spoke has fuel 17, one turn for each timer and one for the end.

    * lwIP

    The lwIP thread waits for messages in [sys_timeouts_mbox_fetch]; the ticks
    between messages are part of the state, and what a timeout's function does to
    the list is a parameter ([Handlers]).  The wait is that of the port
    (sys_arch.c): milliseconds become ticks, rounded down to tens, and the ticks
    that passed become milliseconds again, so lwIP's time is not the time that
    passes; the record of the waits ([waits]) says by how much they differ, and
    where a wait ends in the tick in which it began they part for hours
    ([same_tick_message_expires]).  A turn of the loop takes one unit of fuel, and
    the theorem on lwIP's timers gives the number that is enough.

    Packet buffers are a finite map from addresses to [pbuf] records, each with its
    memory; freeing deletes the entry, so a use after it fails.  The pools and the
    heap are an interface ([PbufMemory]) that hands out addresses not in use.
    Walks along chains have as fuel the number of buffers and one.  Callers own
    pointers: [allowed] says which calls an owner may make, [preach] is any sequence
    of them.

    Address resolution works on these buffers: its state ([Arp]) is the table of ten
    entries, the cached index and the buffers, with a record of what was handed
    to the driver, to the IP layer and to the DHCP client.  The driver ([Driver]) is a
    parameter: it reads a frame and returns some result.  A run ([areach]) is any
    sequence of calls of etharp.c, of ticks, and of steps of the driver and the layers
    above, which allocate, fill and free buffers of their own ([arp_allowed]).

    * How C is modelled

    A word is a [Z] in its range; [u8], [u16], [u32], [s32] are the conversions
    of C and stand wherever the code wraps.  [char] is unsigned and words are
    little endian in memory, as the project is compiled.  An object in memory
    is the list of its cells; [ld], [st], [fetch], [blit] access it and fail
    outside it.  A pure function returns an option, [None] for an access
    outside an object; a function with state is of type [M S A]: [Done] is a
    normal return, [Err] an error code or a step that does not return, [Crash]
    what C leaves undefined.  A theorem that ends in [Some], [Done] or [wpe]
    therefore includes memory safety.  Loops that are not structural run on
    fuel: the callers pass a bound that depends on the data (length plus one,
    the number of blocks, three turns of the ring buffer's copy), and the
    theorems say that it suffices, so they include termination; where a wait
    depends on the environment the fuel is an argument of the theorem, with
    the amount that is enough ([QSpiFlashWaitBusy_polls], [send_data_complete]).

    Code outside src, and code of vendored parts that is not modelled, is a
    parameter: [Heap] for
    malloc, [Spi] and [NorFlash] for the flash chip, [Sockets], [SocketLaws] and
    [Inet] for lwIP, [LibM] for pow and for the conversion of a double that is
    no int, [Calendar] for ctime, pbuf and udp calls of the two servers, the
    events of the radio library.  Each interface has a concrete instance, used
    by the witnesses.

    * The theorems

      - the kernel: [kernel_safe] (every run, with tasks preempted inside their
        calls, is free of wild accesses and goes on), [interleaved_calls_merge],
        [deletion_inside_a_call_crashes], [highest_ready_runs], [queue_refines], [queue_exactly_once], [queue_fifo],
        [semaphore_refines], [semaphore_excludes] (mutual exclusion),
        [delay_exact], [timeout_bounds];
      - timers: [timers_safe], [task_calls_due], [set_timer_exact],
        [timer_ticks_exact], [timer_ticks_wraps], [stop_next_crashes];
      - lwIP: [timeouts_refine] (the list of differences as a calendar of times,
        in lwIP's time and in ticks), [lwip_timers_periodic] (its own timers, with
        the error of the port's clock), [same_tick_message_expires],
        [inet_chksum_pseudo_correct], [inet_chksum_pseudo_partial_correct],
        [chksum_accepted]; [pbufs_safe] (reference counts, no use after free),
        [pbufs_no_leak], [pbuf_copy_partial_correct], [pbuf_get_at_correct],
        [pbuf_take_correct], [pbuf_memfind_sound], [pbuf_memfind_misses],
        [alloc_ram_fits], [alloc_ram_wraps]; [ipaddr_roundtrip] (the network
        adapter's interface [Inet] holds of the code), [ipaddr_aton_safe]; [arp_safe] (one
        entry for an address, references of the packets that wait, no use after free),
        [arp_message_handled] (a reply releases the packet that waits, a request is
        answered), [arp_output_routes], [arp_lifetime], [arp_recycles];
      - data structures: [ring_run_refines] (a bounded queue), [dmem_safe],
        [OSMMalloc_complete], [dmem_no_leak] (the allocator, for sizes that do not
        wrap), [OSMMalloc_wraps], [base64_roundtrip],
        [base64_encode_correct], [base64_decode_safe], [NST_MoveMemOvlap_memmove],
        [NST_GetCrc32_correct], [NST_GetCrc8_correct], [strncpy_correct],
        [strcpy_correct], [strcat_correct], [strspn_correct], [strpbrk_correct],
        [AtoH_roundtrip], [Search_str_correct], [itoa_correct], [strncmp_correct],
        [strrmvspace_correct], [utoa_atou_hex];
      - cryptography: [AES_roundtrip], [AES_Encrypt_cbc], [AES_Init_schedule],
        [SBox_fips];
      - the EDP protocol: [push_roundtrip], [save_string_roundtrip],
        [save_bin_roundtrip], [ping_resp_body_crashes];
      - JSON: [cJSON_roundtrip] (the parser inverts the printer on trees whose
        numbers are integers), [cJSON_Parse_returns], [cJSON_Parse_safe],
        [cJSON_Print_safe], [parse_string_overflow], [backslash_overread], and with
        the protocol [savedata_value_roundtrip], [savedata_json_roundtrip];
      - the session: [recv_data_process_stream] (each message once, in order),
        [session_messages] (refinement of a fold over messages),
        [recv_data_process_terminates] (on any bytes), [unterminated_text_crashes]
        (what the first two leave out), [savedata_without_address_crashes],
        [Agent_cloud_connect_attempts], [Agent_cloud_recv_full],
        [SenserTask_turn_sends] (a turn of the sensor task);
      - DHCP: [dhcp_leases] (uniqueness over any run, on a subnet with room for
        the pool), [pool_wraps] and [start_without_hosts] (on others),
        [dhcp_handshake], [ParseDhcpOptions_roundtrip], [pool_is_next_eight],
        [offer_expires];
      - DNS: [DNSS_RecvCb_answers], [DnsCompareName_correct], [DNSS_Start_name];
      - flash and configuration: [WriteFlash_refines] (the chip as an array of
        bytes), [QSpiFlashWaitBusy_polls], [config_survives_restart],
        [retry_inverted];
      - parameters and provisioning: [calls_well_formed], [credentials_stored],
        [agent_memory_safe], [direct_config_key_overread] (the key it leaves
        out), [softap_provisioning], [reset_button],
        [softap_join_failure_resets], [saved_network_not_used];
      - the network adapter: [tcp_server_safe], [tcp_sixth_client],
        [client7_overread], [send_data_ok], [send_data_complete], [send_deadlock];
      - the clock: [ntp_sets_clock], [USEC_accurate], [ntp_task_attempts].

    Several of them state how the code fails (a length that wraps, an entry
    behind a table, a mutex that is not released): they are theorems about the
    code as it is, next to the conditions under which it is right.

    * Not modelled

    Of the kernel: mutexes, mailboxes, event flags, memory partitions,
    aborting a wait, deleting, suspending or moving a task, waiting for several
    events, queries, names, statistics, hooks and the stepping of ticks.  Of
    lwIP, which is third-party code, IP and the protocols above it, its clients of
    DHCP and DNS, the sockets (but for the scan of [select]), PPP and SNMP, the memory pools, and the custom
    buffers of IP fragmentation; of its port all but the conversions of its
    waits.  The radio library is binary.  Of cJSON, the
    functions the agent calls are modelled; the buffered printer, duplicating,
    minifying and the functions that replace, detach, insert or reference items
    have no caller.  The CPU port, the drivers
    of BSP other than the flash, start-up (Sys/main.c, Sys/sys_mgmt.c,
    AgentEntrance.c), the LED task and the samples move registers or
    print.  Logging is left out but for what [%s] reads of a block that may lack
    a terminator.  restful.c, simu_uart.c, gpio_int.c and nl6621_uart.c are not compiled
    in the configuration of the project (Devid_Mode 2, NUAGENT_UART_SWITCH 0).
    Of sensors.c the other modes are left out, of util.c the wrappers of kernel
    calls and the assembler.  The agent's tasks are modelled one at a time, with
    what the others do as part of the environment; the files above the kernel
    do not use its model. *)
From stdpp Require Export base list numbers option.
From Stdlib Require Export ZArith Lia.

#[global] Open Scope Z_scope.

(** * Machine integers

    A [w]-bit unsigned value is a [Z] in [0, 2^w); the wrap-around of the C
    conversions is written out with [mod]. *)

Definition u8 (x : Z) : Z := x mod 256.
Definition u16 (x : Z) : Z := x mod 65536.
Definition u32 (x : Z) : Z := x mod 4294967296.

(** Conversion to a signed 32-bit [int] (two's complement). *)
Definition s32 (x : Z) : Z := (x + 2147483648) mod 4294967296 - 2147483648.

(** Conversion to a signed [char]. *)
Definition s8 (x : Z) : Z := (x + 128) mod 256 - 128.

Definition is_u8 (x : Z) : Prop := 0 <= x < 256.
Definition is_u16 (x : Z) : Prop := 0 <= x < 65536.
Definition is_u32 (x : Z) : Prop := 0 <= x < 4294967296.

#[export] Instance is_u8_dec x : Decision (is_u8 x).
Proof. unfold is_u8. apply _. Defined.
#[export] Instance is_u32_dec x : Decision (is_u32 x).
Proof. unfold is_u32. apply _. Defined.

Create HintDb nl discriminated.
#[export] Hint Constants Opaque : nl.

Lemma u8_small x : is_u8 x -> u8 x = x.
Proof. intros H. apply Z.mod_small, H. Qed.

Lemma u16_small x : is_u16 x -> u16 x = x.
Proof. intros H. apply Z.mod_small, H. Qed.

Lemma u32_small x : is_u32 x -> u32 x = x.
Proof. intros H. apply Z.mod_small, H. Qed.

Lemma s32_small x : -2147483648 <= x < 2147483648 -> s32 x = x.
Proof. intros H. unfold s32. rewrite Z.mod_small; lia. Qed.

Lemma u8_range x : is_u8 (u8 x).
Proof. apply Z.mod_pos_bound. lia. Qed.

Lemma u16_range x : is_u16 (u16 x).
Proof. apply Z.mod_pos_bound. lia. Qed.

Lemma u32_range x : is_u32 (u32 x).
Proof. apply Z.mod_pos_bound. lia. Qed.

#[export] Hint Resolve u8_range u16_range u32_range : nl.

(** [word_lia] closes linear goals about words: it unfolds the range
    predicates and the conversions and leaves the rest to [lia]. *)
Ltac word_lia :=
  unfold is_u8, is_u16, is_u32, u8, u16, u32, s32, s8 in *;
  Z.div_mod_to_equations; lia.

(** [zcases] splits on every [Z] comparison of the goal. *)
Ltac zcases :=
  repeat match goal with
  | |- context [?a =? ?b] => destruct (Z.eqb_spec a b); try lia
  | |- context [?a <? ?b] => destruct (Z.ltb_spec a b); try lia
  | |- context [?a <=? ?b] => destruct (Z.leb_spec a b); try lia
  end.

(** [by_decide] evaluates a decidable proposition. *)
Ltac by_decide :=
  match goal with |- ?P => refine (@bool_decide_unpack P _ _); vm_compute; exact I end.

(** * Byte strings *)

Definition zlen {A} (l : list A) : Z := Z.of_nat (length l).
Definition ztake {A} (n : Z) (l : list A) : list A := take (Z.to_nat n) l.
Definition zdrop {A} (n : Z) (l : list A) : list A := drop (Z.to_nat n) l.

(** A C byte array holds values of [unsigned char]. *)
Definition Bytes (l : list Z) : Prop := Forall is_u8 l.

#[export] Instance Bytes_dec l : Decision (Bytes l).
Proof. unfold Bytes. apply _. Defined.

Section Slices.
Context {A : Type}.
Implicit Types l k : list A.

Lemma zlen_nil : zlen (@nil A) = 0.
Proof. reflexivity. Qed.

Lemma zlen_cons x l : zlen (x :: l) = 1 + zlen l.
Proof. unfold zlen. simpl. lia. Qed.

Lemma zlen_app l k : zlen (l ++ k) = zlen l + zlen k.
Proof. unfold zlen. rewrite length_app. lia. Qed.

Lemma zlen_nonneg l : 0 <= zlen l.
Proof. unfold zlen. lia. Qed.

Lemma zlen_ztake n l : zlen (ztake n l) = Z.max 0 (Z.min n (zlen l)).
Proof. unfold zlen, ztake. rewrite length_take. lia. Qed.

Lemma zlen_zdrop n l : zlen (zdrop n l) = Z.max 0 (zlen l - Z.max 0 n).
Proof. unfold zlen, zdrop. rewrite length_drop. lia. Qed.

Lemma ztake_app_zdrop n l : ztake n l ++ zdrop n l = l.
Proof. apply take_drop. Qed.

Lemma ztake_0 n l : n <= 0 -> ztake n l = [].
Proof. intros H. unfold ztake. by replace (Z.to_nat n) with 0%nat by lia. Qed.

Lemma zdrop_0 n l : n <= 0 -> zdrop n l = l.
Proof. intros H. unfold zdrop. by replace (Z.to_nat n) with 0%nat by lia. Qed.

Lemma ztake_all n l : zlen l <= n -> ztake n l = l.
Proof. intros H. apply take_ge. unfold zlen in H. lia. Qed.

Lemma zdrop_all n l : zlen l <= n -> zdrop n l = [].
Proof. intros H. apply drop_ge. unfold zlen in H. lia. Qed.

Lemma ztake_app_l n l k : n <= zlen l -> ztake n (l ++ k) = ztake n l.
Proof. intros H. apply take_app_le. unfold zlen in H. lia. Qed.

Lemma ztake_app_r n l k : zlen l <= n -> ztake n (l ++ k) = l ++ ztake (n - zlen l) k.
Proof.
  intros H. unfold ztake, zlen in *. rewrite take_app.
  rewrite take_ge by lia. f_equal. f_equal. lia.
Qed.

Lemma zdrop_app_l n l k : n <= zlen l -> zdrop n (l ++ k) = zdrop n l ++ k.
Proof. intros H. apply drop_app_le. unfold zlen in H. lia. Qed.

Lemma zdrop_app_r n l k : zlen l <= n -> zdrop n (l ++ k) = zdrop (n - zlen l) k.
Proof.
  intros H. unfold zdrop, zlen in *. rewrite drop_app.
  rewrite (drop_ge l) by lia. simpl. f_equal. lia.
Qed.

Lemma ztake_zlen_app l k : ztake (zlen l) (l ++ k) = l.
Proof. rewrite ztake_app_l by lia. by apply ztake_all. Qed.

Lemma zdrop_zlen_app l k : zdrop (zlen l) (l ++ k) = k.
Proof. rewrite zdrop_app_r by lia. apply zdrop_0. lia. Qed.

Lemma zdrop_zdrop n m l : 0 <= n -> 0 <= m -> zdrop n (zdrop m l) = zdrop (m + n) l.
Proof. intros. unfold zdrop. rewrite drop_drop. f_equal. lia. Qed.

Lemma ztake_ztake n m l : ztake n (ztake m l) = ztake (Z.min n m) l.
Proof. unfold ztake. rewrite take_take. f_equal. lia. Qed.

Lemma ztake_zdrop n m l : 0 <= m -> ztake n (zdrop m l) = zdrop m (ztake (m + n) l).
Proof.
  intros. unfold ztake, zdrop.
  destruct (decide (0 <= n)).
  - rewrite take_drop_commute. f_equal. f_equal. lia.
  - replace (Z.to_nat n) with 0%nat by lia. simpl.
    symmetry. apply drop_ge. rewrite length_take. lia.
Qed.

(** Splitting a prefix at an intermediate point. *)
Lemma ztake_split n m l : 0 <= n <= m -> ztake m l = ztake n l ++ ztake (m - n) (zdrop n l).
Proof.
  intros. rewrite <- (ztake_app_zdrop n (ztake m l)) at 1.
  rewrite ztake_ztake, Z.min_l by lia. f_equal.
  rewrite ztake_zdrop by lia. do 2 f_equal. lia.
Qed.
End Slices.

Create Rewrite HintDb zlen.
#[export] Hint Resolve zlen_nonneg : nl.
#[export] Hint Rewrite @zlen_nil @zlen_cons @zlen_app @zlen_ztake @zlen_zdrop : zlen.

(** [zlen_lia] normalises list lengths and closes linear goals. *)
Ltac zlen_lia :=
  autorewrite with zlen in *;
  repeat match goal with
  | |- context [zlen ?l] =>
      lazymatch goal with
      | _ : 0 <= zlen l |- _ => fail
      | _ => pose proof (zlen_nonneg l)
      end
  | H : context [zlen ?l] |- _ =>
      lazymatch goal with
      | _ : 0 <= zlen l |- _ => fail
      | _ => pose proof (zlen_nonneg l)
      end
  end; lia.

(** * Array accesses

    [None] is an access outside the array: undefined behaviour in C. *)

(** [l[i]] *)
Definition ld {A} (l : list A) (i : Z) : option A :=
  if 0 <=? i then l !! Z.to_nat i else None.

(** [l[i] = x] *)
Definition st {A} (l : list A) (i : Z) (x : A) : option (list A) :=
  if (0 <=? i) && (i <? zlen l) then Some (<[Z.to_nat i := x]> l) else None.

(** The [n] elements at offset [off]: the source of a [memcpy]. *)
Definition fetch {A} (l : list A) (off n : Z) : option (list A) :=
  if (0 <=? off) && (0 <=? n) && (off + n <=? zlen l)
  then Some (ztake n (zdrop off l)) else None.

(** Overwriting from offset [off]: the destination of a [memcpy]. *)
Definition blit {A} (l : list A) (off : Z) (src : list A) : option (list A) :=
  if (0 <=? off) && (off + zlen src <=? zlen l)
  then Some (ztake off l ++ src ++ zdrop (off + zlen src) l) else None.

Section Accesses.
Context {A : Type}.
Implicit Types l k : list A.

Lemma ld_app_r l k i : zlen l <= i -> ld (l ++ k) i = ld k (i - zlen l).
Proof.
  unfold ld, zlen. intros.
  destruct (Z.leb_spec 0 i), (Z.leb_spec 0 (i - Z.of_nat (length l))); try lia.
  rewrite lookup_app_r by lia. f_equal. lia.
Qed.

Lemma ld_app_l l k i : i < zlen l -> ld (l ++ k) i = ld l i.
Proof.
  unfold ld, zlen. intros. destruct (Z.leb_spec 0 i); [|done].
  apply lookup_app_l. lia.
Qed.

Lemma ld_head x l : ld (x :: l) 0 = Some x.
Proof. reflexivity. Qed.

Lemma ld_cons x l i : 0 < i -> ld (x :: l) i = ld l (i - 1).
Proof.
  intros. apply (ld_app_r [x] l i). unfold zlen. simpl. lia.
Qed.

Lemma ld_is_Some l i : 0 <= i < zlen l -> is_Some (ld l i).
Proof.
  unfold ld, zlen. intros. destruct (Z.leb_spec 0 i); [|lia].
  apply lookup_lt_is_Some. lia.
Qed.

Lemma ld_Some_range l i x : ld l i = Some x -> 0 <= i < zlen l.
Proof.
  unfold ld, zlen. destruct (Z.leb_spec 0 i); [|done].
  intros E%lookup_lt_Some. lia.
Qed.

Lemma ld_zdrop l i x : ld l i = Some x -> zdrop i l = x :: zdrop (i + 1) l.
Proof.
  intros E. pose proof (ld_Some_range _ _ _ E). unfold ld, zdrop in *.
  destruct (Z.leb_spec 0 i); [|done].
  rewrite (drop_S _ x) by done. do 2 f_equal. lia.
Qed.

Lemma st_spec l i x :
  0 <= i < zlen l -> st l i x = Some (ztake i l ++ x :: zdrop (i + 1) l).
Proof.
  intros. unfold st.
  destruct (Z.leb_spec 0 i), (Z.ltb_spec i (zlen l)); try lia. simpl. f_equal.
  unfold zlen, ztake, zdrop in *. rewrite insert_take_drop by lia.
  do 3 f_equal. lia.
Qed.

Lemma st_insert l i x : 0 <= i < zlen l -> st l i x = Some (<[Z.to_nat i := x]> l).
Proof.
  intros. unfold st. destruct (Z.leb_spec 0 i), (Z.ltb_spec i (zlen l)); (done || lia).
Qed.

Lemma st_blit l i x : 0 <= i < zlen l -> st l i x = blit l i [x].
Proof.
  intros. rewrite st_spec by done. unfold blit.
  destruct (Z.leb_spec 0 i); [|lia]. simpl.
  destruct (Z.leb_spec (i + zlen [x]) (zlen l)); [done|zlen_lia].
Qed.

Lemma fetch_spec l off n :
  0 <= off -> 0 <= n -> off + n <= zlen l ->
  fetch l off n = Some (ztake n (zdrop off l)).
Proof.
  intros. unfold fetch.
  destruct (Z.leb_spec 0 off), (Z.leb_spec 0 n), (Z.leb_spec (off + n) (zlen l));
    done || lia.
Qed.

Lemma blit_spec l off src :
  0 <= off -> off + zlen src <= zlen l ->
  blit l off src = Some (ztake off l ++ src ++ zdrop (off + zlen src) l).
Proof.
  intros. unfold blit.
  destruct (Z.leb_spec 0 off), (Z.leb_spec (off + zlen src) (zlen l)); done || lia.
Qed.

Lemma blit_length l off src l' : blit l off src = Some l' -> zlen l' = zlen l.
Proof.
  unfold blit.
  destruct (Z.leb_spec 0 off), (Z.leb_spec (off + zlen src) (zlen l)); intros; try done.
  simplify_eq/=. zlen_lia.
Qed.

(** The prefix up to the end of the written range. *)
Lemma blit_prefix l off src l' :
  blit l off src = Some l' -> ztake (off + zlen src) l' = ztake off l ++ src.
Proof.
  unfold blit.
  destruct (Z.leb_spec 0 off), (Z.leb_spec (off + zlen src) (zlen l)); intros; try done.
  simplify_eq/=. rewrite app_assoc.
  replace (off + zlen src) with (zlen (ztake off l ++ src)) at 1 by zlen_lia.
  apply ztake_zlen_app.
Qed.
End Accesses.

(** * Pointwise views of the accesses *)

Section Pointwise.
Context {A : Type}.
Implicit Types l k : list A.

Lemma ld_ext l k : (forall i, ld l i = ld k i) -> l = k.
Proof.
  intros H. apply list_eq. intros i. specialize (H (Z.of_nat i)). unfold ld in H.
  destruct (Z.leb_spec 0 (Z.of_nat i)); [|lia]. by rewrite Nat2Z.id in H.
Qed.

Lemma ld_neg l i : i < 0 -> ld l i = None.
Proof. intros. unfold ld. destruct (Z.leb_spec 0 i); [lia|done]. Qed.

Lemma ld_ge l i : zlen l <= i -> ld l i = None.
Proof.
  intros. unfold ld, zlen in *. destruct (Z.leb_spec 0 i); [|done].
  apply lookup_ge_None. lia.
Qed.

Lemma ld_ztake l n i : ld (ztake n l) i = if i <? n then ld l i else None.
Proof.
  destruct (Z.ltb_spec i n).
  - unfold ld, ztake. destruct (Z.leb_spec 0 i); [|done]. apply lookup_take_lt. lia.
  - destruct (Z.lt_ge_cases i 0); [by apply ld_neg|]. apply ld_ge. zlen_lia.
Qed.

Lemma ld_zdrop_add l n i : 0 <= n -> 0 <= i -> ld (zdrop n l) i = ld l (n + i).
Proof.
  intros. unfold ld, zdrop.
  destruct (Z.leb_spec 0 i), (Z.leb_spec 0 (n + i)); try lia.
  rewrite lookup_drop. f_equal. lia.
Qed.

Lemma ld_st l i x l' j : st l i x = Some l' -> ld l' j = if j =? i then Some x else ld l j.
Proof.
  unfold st. destruct (Z.leb_spec 0 i), (Z.ltb_spec i (zlen l)); simpl; intros; try done.
  simplify_eq. unfold ld, zlen in *.
  destruct (Z.leb_spec 0 j), (Z.eqb_spec j i); subst; try done; try lia.
  - apply list_lookup_insert_eq. lia.
  - apply list_lookup_insert_ne. lia.
Qed.

Lemma st_length l i x l' : st l i x = Some l' -> zlen l' = zlen l.
Proof.
  unfold st. case_match; intros; simplify_eq. unfold zlen. by rewrite length_insert.
Qed.

Lemma ld_blit l off src l' j : blit l off src = Some l' ->
  ld l' j = if (off <=? j) && (j <? off + zlen src) then ld src (j - off) else ld l j.
Proof.
  unfold blit. destruct (Z.leb_spec 0 off), (Z.leb_spec (off + zlen src) (zlen l));
    simpl; intros; try done. simplify_eq. pose proof (zlen_nonneg src).
  destruct (Z.leb_spec off j); simpl.
  - rewrite ld_app_r by zlen_lia.
    replace (j - zlen (ztake off l)) with (j - off) by zlen_lia.
    destruct (Z.ltb_spec j (off + zlen src)).
    + apply ld_app_l. lia.
    + rewrite ld_app_r by lia. rewrite ld_zdrop_add by lia. f_equal. lia.
  - rewrite ld_app_l by zlen_lia. rewrite ld_ztake. destruct (Z.ltb_spec j off); [done|lia].
Qed.
End Pointwise.

Lemma st_Some {A} (l : list A) i x : 0 <= i < zlen l -> exists l', st l i x = Some l'.
Proof. intros. rewrite st_spec by done. eauto. Qed.

Lemma Forall_ztake {A} (P : A -> Prop) n (l : list A) : Forall P l -> Forall P (ztake n l).
Proof. apply Forall_take. Qed.

Lemma Forall_zdrop {A} (P : A -> Prop) n (l : list A) : Forall P l -> Forall P (zdrop n l).
Proof. apply Forall_drop. Qed.

#[export] Hint Resolve Forall_ztake Forall_zdrop : nl.

Lemma ld_Forall {A} (P : A -> Prop) (l : list A) i x : Forall P l -> ld l i = Some x -> P x.
Proof.
  unfold ld. intros H. case_match; [|done]. by apply Forall_lookup_1.
Qed.

Lemma Forall_blit {A} (P : A -> Prop) (l : list A) off src l' :
  blit l off src = Some l' -> Forall P l -> Forall P src -> Forall P l'.
Proof.
  unfold blit. case_match; [|done]. intros [= <-] Hl Hs.
  rewrite !Forall_app. eauto using Forall_ztake, Forall_zdrop.
Qed.

(** * Stateful code

    A C function that works on a structure is a state transformer.  [Done] is
    a normal return; [Err] a return with a non-zero status code (the state as
    the function leaves it); [Crash] an access outside an object, a null
    dereference or a failed assertion, after which C promises nothing. *)

Inductive outcome (S A : Type) :=
  | Done (a : A) (s : S)
  | Err (code : Z) (s : S)
  | Crash.
Arguments Done {S A} a s.
Arguments Err {S A} code s.
Arguments Crash {S A}.

Definition M (S A : Type) : Type := S -> outcome S A.

#[export] Instance M_ret S : MRet (M S) := fun A a s => Done a s.
#[export] Instance M_bind S : MBind (M S) := fun A B f m s =>
  match m s with
  | Done a s' => f a s'
  | Err c s' => Err c s'
  | Crash => Crash
  end.

Section Outcome.
Context {S : Type}.

Definition fail {A} (code : Z) : M S A := fun s => Err code s.
Definition crash {A} : M S A := fun _ => Crash.
Definition gets {A} (f : S -> A) : M S A := fun s => Done (f s) s.
Definition modify (f : S -> S) : M S unit := fun s => Done tt (f s).

(** [assert(c)] *)
Definition massert (c : S -> bool) : M S unit :=
  fun s => if c s then Done tt s else Crash.

(** A memory access: outside the object it crashes. *)
Definition access {A} (f : S -> option A) : M S A :=
  fun s => match f s with Some a => Done a s | None => Crash end.

(** [if (m) return code;] *)
Definition onerr {A} (code : Z) (m : M S A) : M S A :=
  fun s => match m s with Err _ s' => Err code s' | o => o end.

(** A call whose status code is not looked at. *)
Definition ignore (m : M S unit) : M S unit :=
  fun s => match m s with Err _ s' => Done tt s' | o => o end.

(** [return m1 || m2;] on status codes: C's [||] yields 1. *)
Definition mor (m1 m2 : M S unit) : M S unit :=
  onerr 1 (mbind (fun _ => m2) m1).

Lemma bind_done {A B} (m : M S A) (f : A -> M S B) s a s' :
  m s = Done a s' -> mbind f m s = f a s'.
Proof. unfold mbind, M_bind. by intros ->. Qed.

Lemma bind_err {A B} (m : M S A) (f : A -> M S B) s c s' :
  m s = Err c s' -> mbind f m s = Err c s'.
Proof. unfold mbind, M_bind. by intros ->. Qed.

Lemma bind_crash {A B} (m : M S A) (f : A -> M S B) s :
  m s = Crash -> mbind f m s = Crash.
Proof. unfold mbind, M_bind. by intros ->. Qed.

Lemma bind_assoc {A B C} (m : M S A) (f : A -> M S B) (g : B -> M S C) s :
  ((m ≫= f) ≫= g) s = (m ≫= (fun a => f a ≫= g)) s.
Proof. unfold mbind, M_bind. by destruct (m s). Qed.

Lemma bind_ext {A B} (m : M S A) (f g : A -> M S B) s :
  (forall a s, f a s = g a s) -> (m ≫= f) s = (m ≫= g) s.
Proof. intros H. unfold mbind, M_bind. by destruct (m s). Qed.

Lemma bind_inv {A B} (m : M S A) (f : A -> M S B) s b s' :
  mbind f m s = Done b s' -> exists a s1, m s = Done a s1 /\ f a s1 = Done b s'.
Proof. unfold mbind, M_bind. destruct (m s) as [a s1| |]; [eauto|done..]. Qed.

(** [m] keeps the invariant [I] when it returns normally. *)
Definition preserves {A} (I : S -> Prop) (m : M S A) : Prop :=
  forall s a s', I s -> m s = Done a s' -> I s'.

Lemma preserves_bind {A B} I (m : M S A) (f : A -> M S B) :
  preserves I m -> (forall a, preserves I (f a)) -> preserves I (mbind f m).
Proof.
  intros Hm Hf s b s' HI. unfold mbind, M_bind. destruct (m s) as [a s1| |] eqn:E; [|done..].
  intros E'. eapply Hf; [|exact E']. by eapply Hm.
Qed.

Lemma preserves_ret {A} I (a : A) : preserves I (mret a : M S A).
Proof. intros s b s' HI E. by injection E as _ <-. Qed.

Lemma preserves_access {A} I (f : S -> option A) : preserves I (access f).
Proof. intros s a s' HI. unfold access. case_match; [|done]. by intros [= _ <-]. Qed.

Lemma preserves_modify I (f : S -> S) : (forall s, I s -> I (f s)) -> preserves I (modify f).
Proof. intros Hf s a s' HI E. injection E as _ <-. by apply Hf. Qed.

(** [m] does not crash from [s]; a normal return satisfies [Q], any other [E]. *)
Definition wpe {A} (E : S -> Prop) (m : M S A) (s : S) (Q : A -> S -> Prop) : Prop :=
  match m s with
  | Done a s' => Q a s'
  | Err _ s' => E s'
  | Crash => False
  end.

Lemma wpe_bind {A B} E (m : M S A) (f : A -> M S B) s Q :
  wpe E m s (fun a s' => wpe E (f a) s' Q) -> wpe E (mbind f m) s Q.
Proof. unfold wpe, mbind, M_bind. by destruct (m s). Qed.

Lemma wpe_mono {A} E (m : M S A) s (P Q : A -> S -> Prop) :
  wpe E m s P -> (forall a s', P a s' -> Q a s') -> wpe E m s Q.
Proof. unfold wpe. destruct (m s); auto. Qed.

Lemma wpe_access {A} E (f : S -> option A) s (Q : A -> S -> Prop) :
  (exists a, f s = Some a /\ Q a s) -> wpe E (access f) s Q.
Proof. unfold wpe, access. by intros (a & -> & H). Qed.

Lemma wpe_done {A} E (m : M S A) s a s' (Q : A -> S -> Prop) : m s = Done a s' -> Q a s' -> wpe E m s Q.
Proof. unfold wpe. by intros ->. Qed.

Lemma wpe_err {A} (E : S -> Prop) (m : M S A) s c s' (Q : A -> S -> Prop) : m s = Err c s' -> E s' -> wpe E m s Q.
Proof. unfold wpe. by intros ->. Qed.

Lemma onerr_done {A} c (m : M S A) s a s' : m s = Done a s' -> onerr c m s = Done a s'.
Proof. unfold onerr. by intros ->. Qed.

Lemma ignore_done (m : M S unit) s s' : m s = Done tt s' -> ignore m s = Done tt s'.
Proof. unfold ignore. by intros ->. Qed.
End Outcome.

(** [m] returns normally from [s], in a state with [Q]. *)
Definition runs {S A} (m : M S A) (s : S) (Q : A -> S -> Prop) : Prop := wpe (fun _ => False) m s Q.

Lemma runs_done {S A} (m : M S A) s Q : runs m s Q <-> exists a s', m s = Done a s' /\ Q a s'.
Proof.
  unfold runs, wpe. split; [|by intros (? & ? & -> & ?)]. destruct (m s) as [a s'| |]; [eauto|done..].
Qed.

(** [kdo] takes one step that cannot fail, [kread H] one that reads what [H]
    says, [kret] the last one. *)
Ltac kdo := apply wpe_bind; eapply wpe_done; [reflexivity|]; cbv beta.
Ltac kread H := apply wpe_bind; apply wpe_access; cbn; rewrite ?H; eexists; split; [reflexivity|]; cbv beta.
Ltac kret := eapply wpe_done; [reflexivity|]; cbv beta.

(** * The allocator interface

    What clients of [malloc] rely on.  [None] is a null result; the bytes of
    a fresh block are arbitrary.  Sizes within three bytes of 2^32 are
    excluded: the allocator's rounding wraps there (file [DMem]). *)
Class Heap := {
  malloc : Z -> option (list Z);
  malloc_len : forall n b, 0 <= n < 4294967293 -> malloc n = Some b -> zlen b = n;
  malloc_bytes : forall n b, malloc n = Some b -> Bytes b
}.

(** Every request up to [lim] bytes is granted. *)
Class Grants {H : Heap} (lim : Z) : Prop :=
  granted : forall n, 0 <= n <= lim -> is_Some (malloc n).

(** A concrete allocator: zeroed blocks up to [lim] bytes. *)
Program Definition zero_heap (lim : Z) : Heap := {|
  malloc n := if n <=? lim then Some (replicate (Z.to_nat n) 0) else None
|}.
Next Obligation.
  intros lim n b H1. simpl. case_match; intros; simplify_eq/=.
  unfold zlen. rewrite length_replicate. lia.
Qed.
Next Obligation.
  intros lim n b. simpl. case_match; intros; simplify_eq/=.
  apply Forall_replicate. unfold is_u8. lia.
Qed.

Lemma zero_heap_grants lim : @Grants (zero_heap lim) lim.
Proof. intros n ?. simpl. rewrite (proj2 (Z.leb_le n lim)) by lia. eauto. Qed.

(** * Bytes by exhaustive evaluation *)

Lemma u8_forall (P : Z -> bool) :
  forallb P (seqZ 0 256) = true -> forall x, is_u8 x -> P x = true.
Proof.
  rewrite forallb_forall. intros H x Hx. apply H.
  apply list_elem_of_In, elem_of_seqZ. word_lia.
Qed.

(** [u8_exhaust x] proves a boolean-decidable equation about the byte [x]. *)
Lemma u8_eq_forall (f g : Z -> Z) :
  forallb (fun x => f x =? g x) (seqZ 0 256) = true -> forall x, is_u8 x -> f x = g x.
Proof. intros H x Hx. apply Z.eqb_eq, (u8_forall (fun x => f x =? g x)); done. Qed.

Lemma land_255 x : Z.land x 255 = x mod 256.
Proof. apply (Z.land_ones x 8). lia. Qed.

Lemma land_127 x : Z.land x 127 = x mod 128.
Proof. apply (Z.land_ones x 7). lia. Qed.

Lemma land_128_zero x : is_u8 x -> (Z.land x 128 =? 0) = (x <? 128).
Proof.
  intros H. apply eqb_prop.
  apply (u8_forall (fun x => eqb (Z.land x 128 =? 0) (x <? 128))); [by vm_compute|done].
Qed.

Lemma lor_128 x : 0 <= x < 128 -> Z.lor x 128 = x + 128.
Proof.
  intros H. assert (Hx : is_u8 x) by word_lia.
  pose proof (u8_eq_forall (fun x => Z.lor (x mod 128) 128) (fun x => x mod 128 + 128)
    ltac:(by vm_compute) x Hx) as E. simpl in E. rewrite Z.mod_small in E; done.
Qed.

(** Disjoint bit ranges: [Z.lor] is an addition. *)
Lemma lor_shiftl_add a b n : 0 <= n -> 0 <= b < 2 ^ n -> Z.lor (Z.shiftl a n) b = a * 2 ^ n + b.
Proof.
  intros Hn Hb. rewrite <- Z.lxor_lor.
  - rewrite <- Z.add_nocarry_lxor; [by rewrite Z.shiftl_mul_pow2|].
    apply Z.bits_inj'. intros i Hi. rewrite Z.land_spec, Z.bits_0.
    destruct (Z.lt_ge_cases i n).
    + rewrite Z.shiftl_spec_low by done. done.
    + rewrite <- (Z.mod_small b (2 ^ n)) by done. rewrite Z.mod_pow2_bits_high by lia.
      apply andb_false_r.
  - apply Z.bits_inj'. intros i Hi. rewrite Z.land_spec, Z.bits_0.
    destruct (Z.lt_ge_cases i n).
    + rewrite Z.shiftl_spec_low by done. done.
    + rewrite <- (Z.mod_small b (2 ^ n)) by done. rewrite Z.mod_pow2_bits_high by lia.
      apply andb_false_r.
Qed.

(** * Big-endian words on the wire *)

Definition be16 (v : Z) : list Z := [v / 256; v mod 256].
Definition be32 (v : Z) : list Z :=
  [v / 16777216; v / 65536 mod 256; v / 256 mod 256; v mod 256].

Lemma be16_bytes v : is_u16 v -> Bytes (be16 v).
Proof. intros. repeat constructor; word_lia. Qed.

Lemma be32_bytes v : is_u32 v -> Bytes (be32 v).
Proof. intros. repeat constructor; word_lia. Qed.

#[export] Hint Resolve be16_bytes be32_bytes : nl.

(** * Words in memory

    The Cortex-M3 is little endian. *)

Definition le16 (v : Z) : list Z := [v mod 256; v / 256 mod 256].
Definition le32 (v : Z) : list Z := [v mod 256; v / 256 mod 256; v / 65536 mod 256; v / 16777216 mod 256].

Definition of_le16 (l : list Z) : Z :=
  match l with
  | [a; b] => a + 256 * b
  | _ => 0
  end.

Definition of_le32 (l : list Z) : Z :=
  match l with
  | [a; b; c; d] => a + 256 * b + 65536 * c + 16777216 * d
  | _ => 0
  end.

(** Byte swaps. *)
Definition htons (v : Z) : Z := of_le16 (rev (le16 v)).
Definition htonl (v : Z) : Z := of_le32 (rev (le32 v)).
Definition ntohl : Z -> Z := htonl.

Lemma le16_of_le16 a b : is_u8 a -> is_u8 b -> le16 (of_le16 [a; b]) = [a; b].
Proof. intros. unfold le16, of_le16. repeat f_equal; word_lia. Qed.

Lemma le32_of_le32 a b c d :
  is_u8 a -> is_u8 b -> is_u8 c -> is_u8 d -> le32 (of_le32 [a; b; c; d]) = [a; b; c; d].
Proof.
  unfold is_u8. intros Ha Hb Hc Hd. unfold le32, of_le32.
  assert ((a + 256 * b + 65536 * c + 16777216 * d) / 256 = b + 256 * c + 65536 * d) as E1
    by (symmetry; apply (Z.div_unique _ _ _ a); lia).
  assert ((a + 256 * b + 65536 * c + 16777216 * d) / 65536 = c + 256 * d) as E2
    by (symmetry; apply (Z.div_unique _ _ _ (a + 256 * b)); lia).
  assert ((a + 256 * b + 65536 * c + 16777216 * d) / 16777216 = d) as E3
    by (symmetry; apply (Z.div_unique _ _ _ (a + 256 * b + 65536 * c)); lia).
  rewrite E1, E2, E3. repeat f_equal.
  - symmetry. apply (Z.mod_unique _ _ (b + 256 * c + 65536 * d)); lia.
  - symmetry. apply (Z.mod_unique _ _ (c + 256 * d)); lia.
  - symmetry. apply (Z.mod_unique _ _ d); lia.
  - apply Z.mod_small. lia.
Qed.

Lemma of_le32_le32 v : is_u32 v -> of_le32 (le32 v) = v.
Proof. intros H. unfold of_le32, le32. word_lia. Qed.

Lemma of_le32_rev_be32 v : of_le32 (rev (be32 v)) = v.
Proof.
  unfold be32, of_le32. cbn [rev app].
  pose proof (Z.div_mod v 256 ltac:(lia)). pose proof (Z.div_mod (v / 256) 256 ltac:(lia)).
  pose proof (Z.div_mod (v / 65536) 256 ltac:(lia)).
  assert (v / 65536 = v / 256 / 256) by (change 65536 with (256 * 256); symmetry; apply Z.div_div; lia).
  assert (v / 16777216 = v / 65536 / 256) by (change 16777216 with (65536 * 256); symmetry; apply Z.div_div; lia). lia.
Qed.

Lemma be32_split v : is_u32 v -> exists a b c d,
  be32 v = [a; b; c; d] /\ is_u8 a /\ is_u8 b /\ is_u8 c /\ is_u8 d.
Proof.
  intros H. pose proof (be32_bytes v H) as Hb. unfold be32 in *. do 4 eexists. split; [done|].
  repeat (apply Forall_cons_1 in Hb as [? Hb]). done.
Qed.

Lemma ntohl_be32 v : is_u32 v -> ntohl (of_le32 (be32 v)) = v.
Proof.
  intros H. pose proof (of_le32_rev_be32 v) as Hr. destruct (be32_split v H) as (a & b & c & d & E & ? & ? & ? & ?).
  rewrite E in *. unfold ntohl, htonl. by rewrite le32_of_le32.
Qed.

Lemma le16_bytes v : Bytes (le16 v).
Proof. repeat constructor; word_lia. Qed.

Lemma le32_bytes v : Bytes (le32 v).
Proof. repeat constructor; word_lia. Qed.

#[export] Hint Resolve le16_bytes le32_bytes : nl.

Lemma zlen_le16 v : zlen (le16 v) = 2.
Proof. reflexivity. Qed.

Lemma zlen_le32 v : zlen (le32 v) = 4.
Proof. reflexivity. Qed.

Lemma zlen_be16 v : zlen (be16 v) = 2.
Proof. reflexivity. Qed.

Lemma zlen_be32 v : zlen (be32 v) = 4.
Proof. reflexivity. Qed.

#[export] Hint Rewrite zlen_le16 zlen_le32 zlen_be16 zlen_be32 : zlen.

(** [strlen] of the string that starts at offset [p] of an object: [None]
    when no terminator is inside it. *)
Fixpoint strlen_list (l : list Z) : option Z :=
  match l with
  | [] => None
  | c :: l => if c =? 0 then Some 0 else Z.succ <$> strlen_list l
  end.

Definition strlen (obj : list Z) (p : Z) : option Z := strlen_list (zdrop p obj).

Lemma strlen_list_app s l : Forall (fun c => c <> 0) s -> strlen_list (s ++ 0 :: l) = Some (zlen s).
Proof.
  induction 1 as [|c s Hc _ IH]; [done|]. simpl. destruct (Z.eqb_spec c 0); [done|].
  rewrite IH. simpl. f_equal. zlen_lia.
Qed.

Lemma strlen_app pre s l :
  Forall (fun c => c <> 0) s -> strlen (pre ++ s ++ 0 :: l) (zlen pre) = Some (zlen s).
Proof. intros. unfold strlen. rewrite zdrop_zlen_app. by apply strlen_list_app. Qed.

Lemma strlen_list_None l : Forall (fun c => c <> 0) l -> strlen_list l = None.
Proof.
  induction 1 as [|c l Hc _ IH]; [done|]. simpl. destruct (Z.eqb_spec c 0); [done|]. by rewrite IH.
Qed.

Lemma ld_mid {A} (pre : list A) x l : ld (pre ++ x :: l) (zlen pre) = Some x.
Proof. rewrite ld_app_r by lia. by rewrite Z.sub_diag. Qed.

Lemma fetch_mid {A} (pre l post : list A) n :
  zlen l = n -> fetch (pre ++ l ++ post) (zlen pre) n = Some l.
Proof.
  intros <-. rewrite fetch_spec by zlen_lia.
  by rewrite zdrop_zlen_app, ztake_zlen_app.
Qed.

(** Writing the bytes after a filled prefix. *)
Lemma blit_next {A} (done todo src : list A) :
  zlen src <= zlen todo ->
  blit (done ++ todo) (zlen done) src = Some ((done ++ src) ++ zdrop (zlen src) todo).
Proof.
  intros. rewrite blit_spec by zlen_lia. f_equal. rewrite ztake_zlen_app, zdrop_app_r by zlen_lia.
  rewrite <- app_assoc. repeat f_equal. lia.
Qed.

Lemma lxor_u8 a b : is_u8 a -> is_u8 b -> is_u8 (Z.lxor a b).
Proof.
  intros Ha Hb. rewrite <- (u8_small a), <- (u8_small b) by done. unfold u8. rewrite <- !land_255.
  replace (Z.lxor _ _) with (Z.land (Z.lxor a b) 255); [rewrite land_255; apply u8_range|].
  apply Z.bits_inj'. intros i _. rewrite !Z.land_spec, !Z.lxor_spec, !Z.land_spec.
  by destruct (Z.testbit a i), (Z.testbit b i), (Z.testbit 255 i).
Qed.

#[export] Hint Resolve lxor_u8 : nl.

Lemma ztake_neg {A} n (l : list A) : n <= 0 -> ztake n l = [].
Proof. intros H. unfold ztake. by replace (Z.to_nat n) with O by lia. Qed.
