(* ===== verification/RingBuffer.v ===== *)
(** The byte ring buffer of [App/NuAgent/Lib/ring_buffer.c].

    [ring_buffer_t] is a record over a byte array; the copy loops of
    [ring_buf_write] and [ring_buf_read] are recursive on a fuel that three
    turns always satisfy.  [contents] reads the buffer as a queue and [Queue]
    is the bounded queue the operations implement. *)
From S2P Require Import Prelude.

Record ring_buffer_t := mkRing {
  size : Z;
  head : Z;
  tail : Z;
  buffer : list Z
}.

Definition set_head (r : ring_buffer_t) (h : Z) : ring_buffer_t :=
  mkRing (size r) h (tail r) (buffer r).
Definition set_tail (r : ring_buffer_t) (t : Z) : ring_buffer_t :=
  mkRing (size r) (head r) t (buffer r).
Definition set_buffer (r : ring_buffer_t) (b : list Z) : ring_buffer_t :=
  mkRing (size r) (head r) (tail r) b.

Definition ring_buf_clear (r : ring_buffer_t) : ring_buffer_t :=
  mkRing (size r) 0 0 (buffer r).

Definition ring_buf_empty (r : ring_buffer_t) : bool := tail r =? head r.

Definition ring_buf_full (r : ring_buffer_t) : bool :=
  u32 (tail r + 1) mod size r =? head r.

(** The counters are computed in [unsigned int] and returned as [int]. *)
Definition ring_buf_cnt (r : ring_buffer_t) : Z :=
  if head r <=? tail r then s32 (u32 (tail r - head r))
  else s32 (u32 (size r + tail r - head r)).

Definition ring_buf_space (r : ring_buffer_t) : Z :=
  if tail r <? head r then s32 (u32 (head r - tail r - 1))
  else s32 (u32 (size r - 1 + head r - tail r)).

Definition ring_buf_cnt_to_end (r : ring_buffer_t) : Z :=
  if head r <=? tail r then s32 (u32 (tail r - head r))
  else s32 (u32 (size r - head r)).

Definition ring_buf_space_to_end (r : ring_buffer_t) : Z :=
  if tail r <? head r then s32 (u32 (head r - tail r - 1))
  else s32 (u32 (size r - 1 - tail r + (if 0 <? head r then 1 else 0))).

(** [p += c; if (p >= size) p -= size;] *)
Definition advance (r : ring_buffer_t) (p c : Z) : Z :=
  let p' := u32 (p + c) in
  if size r <=? p' then u32 (p' - size r) else p'.

(** Returns 1 and the new buffer, or 0 when full; [None] is a store outside
    the buffer. *)
Definition ring_buf_write_char (r : ring_buffer_t) (data : Z)
  : option (ring_buffer_t * Z) :=
  if ring_buf_full r then Some (r, 0)
  else
    b ← st (buffer r) (tail r) (u8 data);
    Some (set_tail (set_buffer r b) (advance r (tail r) 1), 1).

(** The [while (1)] loop of [ring_buf_write]; [ret] is its running result. *)
Fixpoint ring_buf_write_loop (fuel : nat) (r : ring_buffer_t) (buf : list Z)
  (count ret : Z) : option (ring_buffer_t * Z) :=
  match fuel with
  | O => None
  | S fuel =>
      let space := ring_buf_space_to_end r in
      let c := if count <? space then count else space in
      if c <=? 0 then Some (r, ret)
      else
        src ← fetch buf 0 c;
        b ← blit (buffer r) (tail r) src;
        ring_buf_write_loop fuel
          (set_tail (set_buffer r b) (advance r (tail r) c))
          (zdrop c buf) (count - c) (ret + c)
  end.

Definition ring_buf_write (r : ring_buffer_t) (buf : list Z) (count : Z)
  : option (ring_buffer_t * Z) :=
  ring_buf_write_loop 3 r buf count 0.

(** The [while (1)] loop of [ring_buf_read]; [out] is what has been copied to
    the caller's buffer so far. *)
Fixpoint ring_buf_read_loop (fuel : nat) (r : ring_buffer_t) (out : list Z)
  (count ret : Z) : option (ring_buffer_t * list Z * Z) :=
  match fuel with
  | O => None
  | S fuel =>
      let avail := ring_buf_cnt_to_end r in
      let c := if count <? avail then count else avail in
      if c <=? 0 then Some (r, out, ret)
      else
        src ← fetch (buffer r) (head r) c;
        ring_buf_read_loop fuel (set_head r (advance r (head r) c))
          (out ++ src) (count - c) (ret + c)
  end.

Definition ring_buf_read (r : ring_buffer_t) (count : Z)
  : option (ring_buffer_t * list Z * Z) :=
  ring_buf_read_loop 3 r [] count 0.

(** [block] is what the allocator handed out for [data_len] bytes. *)
Definition ring_buf_alloc (data_len : Z) (block : list Z) : ring_buffer_t :=
  mkRing data_len 0 0 block.

(** * Well-formedness and the queue view *)

(** Sizes are positive and fit an [int], as the counters are returned as
    [int]. *)
Record wf (r : ring_buffer_t) : Prop := {
  wf_size : 0 < size r < 2147483648;
  wf_head : 0 <= head r < size r;
  wf_tail : 0 <= tail r < size r;
  wf_buffer : zlen (buffer r) = size r;
  wf_bytes : Bytes (buffer r)
}.

(** The bytes waiting in the buffer, oldest first. *)
Definition contents (r : ring_buffer_t) : list Z :=
  if head r <=? tail r then ztake (tail r - head r) (zdrop (head r) (buffer r))
  else zdrop (head r) (buffer r) ++ ztake (tail r) (buffer r).

(** Free places: one byte of the array is never used. *)
Definition room (r : ring_buffer_t) : Z := size r - 1 - zlen (contents r).

Lemma zlen_contents r : wf r ->
  zlen (contents r) =
    if head r <=? tail r then tail r - head r else size r + tail r - head r.
Proof.
  intros [? ? ? Hb ?]. unfold contents.
  destruct (Z.leb_spec (head r) (tail r)); zlen_lia.
Qed.

Lemma room_nonneg r : wf r -> 0 <= room r.
Proof.
  intros Hwf. unfold room. rewrite zlen_contents by done. destruct Hwf.
  case_match; lia.
Qed.

(** [ring_lia] compares the counters of a well-formed buffer. *)
Ltac ring_lia :=
  repeat match goal with H : wf _ |- _ => destruct H end;
  zcases; word_lia.

Lemma ring_buf_cnt_spec r : wf r -> ring_buf_cnt r = zlen (contents r).
Proof. intros H. rewrite zlen_contents by done. unfold ring_buf_cnt. ring_lia. Qed.

Lemma ring_buf_space_spec r : wf r -> ring_buf_space r = room r.
Proof.
  intros H. unfold room. rewrite zlen_contents by done.
  unfold ring_buf_space. ring_lia.
Qed.

Lemma ring_buf_empty_spec r : wf r -> ring_buf_empty r = true <-> contents r = [].
Proof.
  intros H. pose proof (zlen_contents r H) as Hl. unfold ring_buf_empty.
  destruct H. rewrite Z.eqb_eq. split.
  - intros E. destruct (Z.leb_spec (head r) (tail r)); [|lia].
    apply length_zero_iff_nil. unfold zlen in Hl. lia.
  - intros E. rewrite E, zlen_nil in Hl. case_match; lia.
Qed.

Lemma advance_spec r p c :
  0 < size r < 2147483648 -> 0 <= p -> 0 <= c -> p + c <= size r ->
  advance r p c = if p + c =? size r then 0 else p + c.
Proof.
  intros. unfold advance. rewrite u32_small by word_lia.
  destruct (Z.leb_spec (size r) (p + c)), (Z.eqb_spec (p + c) (size r)); try lia.
  word_lia.
Qed.

(** What the producer and the consumer can move in one [memcpy]. *)
Lemma space_to_end_spec r : wf r ->
  ring_buf_space_to_end r =
    if tail r <? head r then head r - tail r - 1
    else size r - 1 - tail r + (if 0 <? head r then 1 else 0).
Proof. intros H. unfold ring_buf_space_to_end. ring_lia. Qed.

Lemma cnt_to_end_spec r : wf r ->
  ring_buf_cnt_to_end r =
    if head r <=? tail r then tail r - head r else size r - head r.
Proof. intros H. unfold ring_buf_cnt_to_end. ring_lia. Qed.

(** ** One chunk of the write loop *)

Lemma put_chunk r src :
  wf r -> Bytes src -> zlen src <= ring_buf_space_to_end r ->
  exists b, blit (buffer r) (tail r) src = Some b /\
    let r' := set_tail (set_buffer r b) (advance r (tail r) (zlen src)) in
    wf r' /\ contents r' = contents r ++ src.
Proof.
  intros Hwf Hs Hc. rewrite space_to_end_spec in Hc by done.
  pose proof (zlen_nonneg src). destruct Hwf as [Hsz Hh Ht Hb Hby].
  assert (tail r + zlen src <= size r) by (repeat case_match; lia).
  rewrite blit_spec by lia. eexists; split; [done|]. simpl.
  rewrite advance_spec by lia.
  assert (Hl : zlen (ztake (tail r) (buffer r) ++ src ++
    zdrop (tail r + zlen src) (buffer r)) = size r) by zlen_lia.
  split.
  { split; simpl; [lia|lia| |done|].
    - destruct (Z.eqb_spec (tail r + zlen src) (size r)); lia.
    - unfold Bytes in *. rewrite !Forall_app. eauto with nl. }
  unfold contents; simpl.
  destruct (Z.ltb_spec (tail r) (head r)).
  - (* the free run lies between tail and head *)
    destruct (Z.eqb_spec (tail r + zlen src) (size r)); [lia|].
    destruct (Z.leb_spec (head r) (tail r + zlen src)); [lia|].
    destruct (Z.leb_spec (head r) (tail r)); [lia|].
    rewrite <- app_assoc. f_equal.
    + rewrite app_assoc, zdrop_app_r by zlen_lia.
      rewrite zdrop_zdrop by zlen_lia. f_equal. zlen_lia.
    + rewrite app_assoc.
      replace (tail r + zlen src) with (zlen (ztake (tail r) (buffer r) ++ src))
        at 1 by zlen_lia.
      apply ztake_zlen_app.
  - (* the free run starts at tail *)
    destruct (Z.leb_spec (head r) (tail r)); [|lia].
    destruct (Z.eqb_spec (tail r + zlen src) (size r)) as [E|E].
    + destruct (Z.leb_spec (head r) 0).
      { destruct (Z.ltb_spec 0 (head r)); lia. }
      rewrite (ztake_0 0), app_nil_r by lia.
      rewrite (zdrop_all (tail r + zlen src)), app_nil_r by lia.
      rewrite zdrop_app_l by zlen_lia. f_equal.
      rewrite ztake_zdrop by lia. do 2 f_equal. lia.
    + destruct (Z.leb_spec (head r) (tail r + zlen src)); [|lia].
      rewrite ztake_zdrop by lia.
      replace (head r + (tail r + zlen src - head r)) with (tail r + zlen src) by lia.
      rewrite app_assoc.
      replace (tail r + zlen src) with (zlen (ztake (tail r) (buffer r) ++ src))
        at 1 by zlen_lia.
      rewrite ztake_zlen_app, zdrop_app_l by zlen_lia. f_equal.
      rewrite ztake_zdrop by lia. do 2 f_equal. lia.
Qed.

(** ** One chunk of the read loop *)

Lemma get_chunk r c :
  wf r -> 0 <= c <= ring_buf_cnt_to_end r ->
  exists src, fetch (buffer r) (head r) c = Some src /\ zlen src = c /\
    let r' := set_head r (advance r (head r) c) in
    wf r' /\ contents r = src ++ contents r'.
Proof.
  intros Hwf Hc. rewrite cnt_to_end_spec in Hc by done.
  destruct Hwf as [Hsz Hh Ht Hb Hby].
  assert (head r + c <= size r) by (repeat case_match; lia).
  rewrite fetch_spec by lia. eexists; split; [done|].
  split; [zlen_lia|]. simpl. rewrite advance_spec by lia. split.
  { split; simpl; try done; [].
    destruct (Z.eqb_spec (head r + c) (size r)); lia. }
  unfold contents; simpl.
  destruct (Z.leb_spec (head r) (tail r)).
  - destruct (Z.eqb_spec (head r + c) (size r)); [lia|].
    destruct (Z.leb_spec (head r + c) (tail r)); [|lia].
    rewrite (ztake_split c) by lia. f_equal.
    rewrite zdrop_zdrop by lia. f_equal. lia.
  - destruct (Z.eqb_spec (head r + c) (size r)) as [E|E].
    + destruct (Z.leb_spec 0 (tail r)); [|lia].
      rewrite (ztake_all c) by zlen_lia. f_equal.
      rewrite zdrop_0 by lia. f_equal. lia.
    + destruct (Z.leb_spec (head r + c) (tail r)); [lia|].
      rewrite app_assoc. f_equal.
      rewrite <- (ztake_app_zdrop c (zdrop (head r) (buffer r))) at 1.
      f_equal. rewrite zdrop_zdrop by lia. done.
Qed.

(** ** The loops *)

(** Turns the write loop still needs: a full turn, one after the wrap, and
    the one that finds no room. *)
Definition write_turns (r : ring_buffer_t) : nat :=
  if ring_buf_space_to_end r <=? 0 then 1
  else if (tail r <? head r) || (head r =? 0) then 2 else 3.

Definition read_turns (r : ring_buffer_t) : nat :=
  if ring_buf_cnt_to_end r <=? 0 then 1
  else if head r <=? tail r then 2 else 3.

Lemma write_turns_step r b :
  wf r -> 0 < ring_buf_space_to_end r ->
  let r' := set_tail (set_buffer r b) (advance r (tail r) (ring_buf_space_to_end r)) in
  wf r' -> (S (write_turns r') <= write_turns r)%nat.
Proof.
  intros Hwf Hp r' Hwf'. pose proof (space_to_end_spec r' Hwf') as E'.
  unfold write_turns. rewrite E'. revert E' Hp. unfold r'; simpl.
  rewrite (space_to_end_spec r Hwf). destruct Hwf as [Hsz Hh Ht _ _]. clear Hwf' r'.
  destruct (Z.ltb_spec (tail r) (head r)).
  - rewrite advance_spec by lia. zcases; simpl; lia.
  - destruct (Z.ltb_spec 0 (head r)); rewrite advance_spec by lia; zcases; simpl; lia.
Qed.

Lemma read_turns_step r :
  wf r -> 0 < ring_buf_cnt_to_end r ->
  let r' := set_head r (advance r (head r) (ring_buf_cnt_to_end r)) in
  wf r' -> (S (read_turns r') <= read_turns r)%nat.
Proof.
  intros Hwf Hp r' Hwf'. pose proof (cnt_to_end_spec r' Hwf') as E'.
  unfold read_turns. rewrite E'. revert E' Hp. unfold r'; simpl.
  rewrite (cnt_to_end_spec r Hwf). destruct Hwf as [Hsz Hh Ht _ _]. clear Hwf' r'.
  destruct (Z.leb_spec (head r) (tail r)); rewrite advance_spec by lia; zcases; simpl; lia.
Qed.

Lemma chunk_nonpos r : wf r -> ring_buf_space_to_end r <= 0 -> room r = 0.
Proof.
  intros H. rewrite space_to_end_spec by done. unfold room.
  rewrite zlen_contents by done. destruct H. zcases.
Qed.

Lemma chunk_le_room r : wf r -> ring_buf_space_to_end r <= room r.
Proof.
  intros H. rewrite space_to_end_spec by done. unfold room.
  rewrite zlen_contents by done. destruct H. zcases.
Qed.

Lemma cnt_nonpos r : wf r -> ring_buf_cnt_to_end r <= 0 -> contents r = [].
Proof.
  intros H. rewrite cnt_to_end_spec by done. intros.
  apply length_zero_iff_nil. pose proof (zlen_contents r H) as E.
  unfold zlen in E. destruct H. revert H0 E. zcases.
Qed.

Lemma cnt_le r : wf r -> 0 <= ring_buf_cnt_to_end r <= zlen (contents r).
Proof.
  intros H. rewrite cnt_to_end_spec, zlen_contents by done. destruct H. zcases.
Qed.

Lemma ring_buf_write_loop_spec fuel : forall r buf count ret,
  wf r -> Bytes buf -> 0 <= count <= zlen buf ->
  (write_turns r <= fuel \/ count = 0%Z /\ 1 <= fuel)%nat ->
  exists r', ring_buf_write_loop fuel r buf count ret
               = Some (r', ret + Z.min count (room r)) /\
    wf r' /\ contents r' = contents r ++ ztake (Z.min count (room r)) buf.
Proof.
  induction fuel as [|fuel IH]; intros r buf count ret Hwf Hb Hc Ht.
  { unfold write_turns in Ht. repeat case_match; lia. }
  cbn [ring_buf_write_loop]. pose proof (chunk_nonpos r Hwf). pose proof (chunk_le_room r Hwf).
  pose proof (room_nonneg r Hwf).
  set (c := if count <? _ then count else _).
  assert (Hcc : c = Z.min count (ring_buf_space_to_end r)) by (unfold c; zcases).
  destruct (Z.leb_spec c 0).
  { exists r. assert (Z.min count (room r) = 0) as -> by lia.
    rewrite ztake_0, app_nil_r by lia. by rewrite Z.add_0_r. }
  rewrite fetch_spec by lia. simpl. rewrite (zdrop_0 0) by lia.
  assert (Hlen : zlen (ztake c buf) = c) by zlen_lia.
  destruct (put_chunk r (ztake c buf)) as (b & Hbl & Hwf' & Hcont);
    [done|by apply Forall_ztake|lia|].
  rewrite Hbl. simpl. rewrite Hlen in *.
  set (r1 := set_tail (set_buffer r b) (advance r (tail r) c)) in *.
  assert (Hroom : room r1 = room r - c).
  { unfold room. rewrite Hcont, zlen_app, Hlen. simpl. lia. }
  destruct (IH r1 (zdrop c buf) (count - c) (ret + c)) as (r' & E & Hw & Hcs);
    [done|by apply Forall_zdrop|zlen_lia| |].
  { destruct (Z.le_gt_cases count (ring_buf_space_to_end r)).
    - (* the request is exhausted: the next turn stops *)
      right. split; [lia|]. destruct Ht as [Ht|]; [|lia]. revert Ht.
      unfold write_turns. zcases; repeat case_match; lia.
    - left. assert (c = ring_buf_space_to_end r) as Ec by lia. unfold r1 in *.
      rewrite Ec in *. pose proof (write_turns_step r b Hwf ltac:(lia) Hwf'). lia. }
  exists r'. rewrite E, Hroom. split; [|split; [done|]].
  - do 2 f_equal. lia.
  - rewrite Hcs, Hcont, Hroom, <- app_assoc. f_equal.
    rewrite (ztake_split c (Z.min count (room r))) by lia.
    do 2 f_equal. lia.
Qed.

Lemma ring_buf_read_loop_spec fuel : forall r out count ret,
  wf r -> 0 <= count ->
  (read_turns r <= fuel \/ count = 0%Z /\ 1 <= fuel)%nat ->
  let n := Z.min count (zlen (contents r)) in
  exists r', ring_buf_read_loop fuel r out count ret
               = Some (r', out ++ ztake n (contents r), ret + n) /\
    wf r' /\ contents r' = zdrop n (contents r).
Proof.
  induction fuel as [|fuel IH]; intros r out count ret Hwf Hc Ht n.
  { unfold read_turns in Ht. repeat case_match; lia. }
  cbn [ring_buf_read_loop]. pose proof (cnt_le r Hwf).
  set (c := if count <? _ then count else _).
  assert (Hcc : c = Z.min count (ring_buf_cnt_to_end r)) by (unfold c; zcases).
  destruct (Z.leb_spec c 0).
  { exists r. assert (n = 0) as ->.
    { unfold n. destruct (Z.le_gt_cases count 0); [lia|].
      rewrite (cnt_nonpos r) by (done || lia). zlen_lia. }
    rewrite ztake_0, app_nil_r, zdrop_0, Z.add_0_r by lia. done. }
  destruct (get_chunk r c) as (src & Hf & Hlen & Hwf' & Hcont); [done|lia|].
  rewrite Hf. simpl.
  set (r1 := set_head r (advance r (head r) c)) in *.
  destruct (IH r1 (out ++ src) (count - c) (ret + c)) as (r' & E & Hw & Hcs);
    [done|lia| |].
  { destruct (Z.le_gt_cases count (ring_buf_cnt_to_end r)).
    - right. split; [lia|]. destruct Ht as [Ht|]; [|lia]. revert Ht.
      unfold read_turns. zcases.
    - left. assert (c = ring_buf_cnt_to_end r) as Ec by lia. unfold r1 in *.
      rewrite Ec in *. pose proof (read_turns_step r Hwf ltac:(lia) Hwf'). lia. }
  assert (Hn : n = c + Z.min (count - c) (zlen (contents r1))).
  { unfold n. rewrite Hcont, zlen_app. lia. }
  exists r'. rewrite E, Hcont, Hn. split; [|split; [done|]].
  - rewrite ztake_app_r by zlen_lia. rewrite <- app_assoc. do 2 f_equal; [|lia].
    do 4 f_equal. lia.
  - rewrite Hcs, zdrop_app_r by zlen_lia. f_equal. lia.
Qed.

Lemma write_turns_le r : (write_turns r <= 3)%nat.
Proof. unfold write_turns. repeat case_match; lia. Qed.

Lemma read_turns_le r : (read_turns r <= 3)%nat.
Proof. unfold read_turns. repeat case_match; lia. Qed.

Lemma ring_buf_write_spec r buf count :
  wf r -> Bytes buf -> 0 <= count <= zlen buf ->
  let n := Z.min count (room r) in
  exists r', ring_buf_write r buf count = Some (r', n) /\
    wf r' /\ contents r' = contents r ++ ztake n buf.
Proof.
  intros. apply ring_buf_write_loop_spec; try done. left. apply write_turns_le.
Qed.

Lemma ring_buf_read_spec r count :
  wf r -> 0 <= count ->
  let n := Z.min count (zlen (contents r)) in
  exists r', ring_buf_read r count = Some (r', ztake n (contents r), n) /\
    wf r' /\ contents r' = zdrop n (contents r).
Proof.
  intros. apply (ring_buf_read_loop_spec 3 r [] count 0); try done.
  left. apply read_turns_le.
Qed.

Lemma ring_buf_full_spec r : wf r -> ring_buf_full r = true <-> room r = 0.
Proof.
  intros H. unfold ring_buf_full, room. rewrite zlen_contents by done.
  destruct H. rewrite u32_small by word_lia. rewrite Z.eqb_eq.
  destruct (decide (tail r + 1 = size r)) as [E|].
  - rewrite E, Z_mod_same_full. zcases.
  - rewrite Z.mod_small by lia. zcases.
Qed.

Lemma ring_buf_write_char_spec r data :
  wf r ->
  exists r', ring_buf_write_char r data
               = Some (r', if room r =? 0 then 0 else 1) /\
    wf r' /\ contents r' = contents r ++ ztake (room r) [u8 data].
Proof.
  intros Hwf. unfold ring_buf_write_char. pose proof (room_nonneg r Hwf).
  pose proof (ring_buf_full_spec r Hwf). destruct (Z.eqb_spec (room r) 0) as [E|E].
  - destruct (ring_buf_full r); [|by intuition].
    exists r. by rewrite E, app_nil_r.
  - destruct (ring_buf_full r); [by intuition|].
    destruct (put_chunk r [u8 data]) as (b & Hb & Hw & Hc); [done| | |].
    + constructor; [apply u8_range|done].
    + pose proof (chunk_nonpos r Hwf). change (zlen [u8 data]) with 1. lia.
    + rewrite st_blit by (destruct Hwf; lia). rewrite Hb. simpl.
      change (zlen [u8 data]) with 1 in *.
      eexists; split; [done|]. split; [done|]. rewrite Hc.
      rewrite (ztake_all (room r)) by zlen_lia. done.
Qed.

Lemma ring_buf_clear_spec r :
  wf r -> wf (ring_buf_clear r) /\ contents (ring_buf_clear r) = [].
Proof. intros []. split; [split; simpl; lia || done|done]. Qed.

Lemma ring_buf_alloc_spec n block :
  0 < n < 2147483648 -> zlen block = n -> Bytes block ->
  wf (ring_buf_alloc n block) /\ contents (ring_buf_alloc n block) = [].
Proof. intros. split; [split; simpl; lia || done|done]. Qed.

(** * The bounded queue it implements *)

Inductive ring_op :=
  | OpWrite (buf : list Z)
  | OpWriteChar (c : Z)
  | OpRead (count : Z)
  | OpClear.

(** What a caller sees of an operation. *)
Inductive ring_res :=
  | ResCount (n : Z)
  | ResBytes (bs : list Z) (n : Z)
  | ResUnit.

Definition ring_exec (r : ring_buffer_t) (o : ring_op)
  : option (ring_buffer_t * ring_res) :=
  match o with
  | OpWrite buf =>
      '(r', n) ← ring_buf_write r buf (zlen buf); Some (r', ResCount n)
  | OpWriteChar c => '(r', n) ← ring_buf_write_char r c; Some (r', ResCount n)
  | OpRead count =>
      '(r', out, n) ← ring_buf_read r count; Some (r', ResBytes out n)
  | OpClear => Some (ring_buf_clear r, ResUnit)
  end.

(** The same operations on a queue of at most [cap] bytes. *)
Definition queue_exec (cap : Z) (q : list Z) (o : ring_op)
  : list Z * ring_res :=
  match o with
  | OpWrite buf =>
      let n := Z.min (zlen buf) (cap - zlen q) in (q ++ ztake n buf, ResCount n)
  | OpWriteChar c =>
      if zlen q =? cap then (q, ResCount 0) else (q ++ [u8 c], ResCount 1)
  | OpRead count =>
      let n := Z.min count (zlen q) in (zdrop n q, ResBytes (ztake n q) n)
  | OpClear => ([], ResUnit)
  end.

Fixpoint ring_run (r : ring_buffer_t) (os : list ring_op)
  : option (ring_buffer_t * list ring_res) :=
  match os with
  | [] => Some (r, [])
  | o :: os =>
      '(r', x) ← ring_exec r o; '(r'', xs) ← ring_run r' os; Some (r'', x :: xs)
  end.

Fixpoint queue_run (cap : Z) (q : list Z) (os : list ring_op)
  : list Z * list ring_res :=
  match os with
  | [] => (q, [])
  | o :: os =>
      let '(q', x) := queue_exec cap q o in
      let '(q'', xs) := queue_run cap q' os in (q'', x :: xs)
  end.

(** The arguments C can pass: bytes, and a non-negative count. *)
Definition op_ok (o : ring_op) : Prop :=
  match o with
  | OpWrite buf => Bytes buf
  | OpRead count => 0 <= count
  | _ => True
  end.

#[export] Instance op_ok_dec o : Decision (op_ok o).
Proof. destruct o; simpl; apply _. Defined.

Lemma ring_exec_size r o r' x : ring_exec r o = Some (r', x) -> size r' = size r.
Proof.
  assert (Hw : forall fuel r buf c ret r' n,
    ring_buf_write_loop fuel r buf c ret = Some (r', n) -> size r' = size r).
  { induction fuel as [|fuel IH]; intros r0 buf c ret r0' n; [done|].
    cbn [ring_buf_write_loop]. case_match; [by intros [= <- _]|].
    destruct (fetch _ _ _); [|done]. simpl. destruct (blit _ _ _); [|done]. simpl.
    intros E%IH. done. }
  assert (Hr : forall fuel r out c ret r' out' n,
    ring_buf_read_loop fuel r out c ret = Some (r', out', n) -> size r' = size r).
  { induction fuel as [|fuel IH]; intros r0 out c ret r0' out' n; [done|].
    cbn [ring_buf_read_loop]. case_match; [by intros [= <- _]|].
    destruct (fetch _ _ _); [|done]. simpl. intros E%IH. done. }
  destruct o; simpl; intros H.
  - destruct (ring_buf_write r buf (zlen buf)) as [[]|] eqn:E; simplify_eq/=. eauto.
  - unfold ring_buf_write_char in H. destruct (ring_buf_full r); simplify_eq/=; [done|].
    destruct (st _ _ _); by simplify_eq/=.
  - destruct (ring_buf_read r count) as [[[]]|] eqn:E; simplify_eq/=. eauto.
  - by simplify_eq.
Qed.

Lemma ring_exec_refines r o :
  wf r -> op_ok o ->
  exists r', ring_exec r o = Some (r', (queue_exec (size r - 1) (contents r) o).2) /\
    wf r' /\ contents r' = (queue_exec (size r - 1) (contents r) o).1.
Proof.
  intros Hwf Ho. destruct o as [buf|c|count|]; simpl in *.
  - destruct (ring_buf_write_spec r buf (zlen buf)) as (r' & E & ? & ?);
      [done..|by pose proof (zlen_nonneg buf)|].
    exists r'. by rewrite E.
  - destruct (ring_buf_write_char_spec r c) as (r' & E & Hw & Hc); [done|].
    exists r'. rewrite E. simpl. revert Hc. unfold room.
    destruct (Z.eqb_spec (zlen (contents r)) (size r - 1)) as [El|El].
    + rewrite El, Z.sub_diag. simpl. rewrite ztake_0, app_nil_r by lia. done.
    + destruct (Z.eqb_spec (size r - 1 - zlen (contents r)) 0); [lia|].
      pose proof (room_nonneg r Hwf) as Hr. unfold room in Hr.
      rewrite ztake_all by zlen_lia. done.
  - destruct (ring_buf_read_spec r count) as (r' & E & ? & ?); [done..|].
    exists r'. by rewrite E.
  - eexists. split; [done|]. by apply ring_buf_clear_spec.
Qed.

(** C1: any sequence of writes, single-byte writes, reads and clears on a
    well-formed ring buffer runs without an access outside its array and
    without exhausting the loops, returns exactly what a bounded FIFO queue of
    [size - 1] bytes returns, and leaves the queue's contents. *)
Theorem ring_run_refines os : forall r,
  wf r -> Forall op_ok os ->
  exists r', ring_run r os = Some (r', (queue_run (size r - 1) (contents r) os).2) /\
    wf r' /\ contents r' = (queue_run (size r - 1) (contents r) os).1.
Proof.
  induction os as [|o os IH]; intros r Hwf Hos; [by exists r|].
  inversion_clear Hos as [|?? Ho Hos']; simpl.
  destruct (ring_exec_refines r o) as (r1 & E1 & Hw1 & Hc1); [done..|].
  rewrite E1. simpl. pose proof (ring_exec_size _ _ _ _ E1) as Hsz.
  destruct (IH r1) as (r2 & E2 & Hw2 & Hc2); [done..|].
  rewrite Hsz, Hc1 in *. exists r2. rewrite E2. simpl.
  destruct (queue_exec _ _ o) as [q x]. simpl in *.
  destruct (queue_run _ q os) as [q' xs]. done.
Qed.

Definition ring_run_demo : list ring_op :=
  [OpWrite [1; 2; 3]; OpRead 2; OpWrite [4; 5; 6]; OpWriteChar 300; OpRead 9].

Lemma ring_run_refines_witness :
  ring_run (ring_buf_alloc 5 [0; 0; 0; 0; 0]) ring_run_demo <> None /\
  exists r', ring_run (ring_buf_alloc 5 [0; 0; 0; 0; 0]) ring_run_demo
    = Some (r', [ResCount 3; ResBytes [1; 2] 2; ResCount 3; ResCount 0;
                 ResBytes [3; 4; 5; 6] 4]).
Proof.
  split; [vm_compute; done|].
  destruct (ring_run_refines ring_run_demo (ring_buf_alloc 5 [0; 0; 0; 0; 0]))
    as (r' & E & _).
  - split; simpl; [lia|lia|lia|done|by_decide].
  - by_decide.
  - exists r'. exact E.
Defined.
