(* ===== verification/MoveMem.v ===== *)
(** [NST_MoveMemOvlap] of [Sys/util.c]: the byte-by-byte copy inside one
    block that tolerates overlap. *)
From S2P Require Import Prelude.

(** The ascending loop: [*pDst++ = *pSrc++], [size] times. *)
Fixpoint move_up (size : nat) (mem : list Z) (dst src : Z) : option (list Z) :=
  match size with
  | O => Some mem
  | S size =>
      v ← ld mem src;
      mem ← st mem dst v;
      move_up size mem (dst + 1) (src + 1)
  end.

(** The descending loop: [*pDstStart-- = *pSrcStart--]. *)
Fixpoint move_down (size : nat) (mem : list Z) (dst src : Z) : option (list Z) :=
  match size with
  | O => Some mem
  | S size =>
      v ← ld mem src;
      mem ← st mem dst v;
      move_down size mem (dst - 1) (src - 1)
  end.

(** [Size] is a [UINT16]; [dst] and [src] are offsets into the block [mem]. *)
Definition NST_MoveMemOvlap (mem : list Z) (dst src size : Z) : option (list Z) :=
  let size := u16 size in
  if src <? dst
  then move_down (Z.to_nat size) mem (dst + size - 1) (src + size - 1)
  else move_up (Z.to_nat size) mem dst src.

(** What a correct move leaves in the block. *)
Definition moved (mem mem' : list Z) (dst src size : Z) : Prop :=
  zlen mem' = zlen mem /\
  forall i, ld mem' i =
    if (dst <=? i) && (i <? dst + size) then ld mem (src + (i - dst)) else ld mem i.

Lemma move_up_spec n : forall mem dst src,
  0 <= dst <= src -> src + Z.of_nat n <= zlen mem ->
  exists mem', move_up n mem dst src = Some mem' /\ moved mem mem' dst src (Z.of_nat n).
Proof.
  induction n as [|n IH]; intros mem dst src Hd Hs.
  { exists mem. split; [done|]. split; [done|]. intros i. zcases; done. }
  simpl. destruct (ld_is_Some mem src) as [v Hv]; [lia|]. rewrite Hv. simpl.
  destruct (st_Some mem dst v) as [m1 E1]; [lia|]. rewrite E1. simpl.
  pose proof (st_length _ _ _ _ E1) as Hl.
  destruct (IH m1 (dst + 1) (src + 1)) as (m2 & E2 & Hl2 & H2); [lia|lia|].
  exists m2. split; [done|]. split; [lia|]. intros i. rewrite H2.
  rewrite !(ld_st _ _ _ _ _ E1). zcases; simpl; try done;
    try (exfalso; lia); try (f_equal; lia); rewrite <- Hv; f_equal; lia.
Qed.

Lemma move_down_spec n : forall mem dst src,
  src <= dst -> 0 <= src - Z.of_nat n + 1 -> dst < zlen mem ->
  exists mem', move_down n mem dst src = Some mem' /\
    moved mem mem' (dst - Z.of_nat n + 1) (src - Z.of_nat n + 1) (Z.of_nat n).
Proof.
  induction n as [|n IH]; intros mem dst src Hd Hs Hlen.
  { exists mem. split; [done|]. split; [done|]. intros i. zcases; done. }
  simpl. destruct (ld_is_Some mem src) as [v Hv]; [lia|]. rewrite Hv. simpl.
  destruct (st_Some mem dst v) as [m1 E1]; [lia|]. rewrite E1. simpl.
  pose proof (st_length _ _ _ _ E1) as Hl.
  destruct (IH m1 (dst - 1) (src - 1)) as (m2 & E2 & Hl2 & H2); [lia|lia|lia|].
  exists m2. split; [done|]. split; [lia|]. intros i. rewrite H2.
  rewrite !(ld_st _ _ _ _ _ E1). zcases; simpl; try done;
    try (exfalso; lia); try (f_equal; lia); rewrite <- Hv; f_equal; lia.
Qed.

(** An overlap-tolerant move of fewer than 2^16 bytes. *)
Lemma NST_MoveMemOvlap_moved mem dst src size :
  0 <= dst -> 0 <= src -> 0 <= size < 65536 ->
  dst + size <= zlen mem -> src + size <= zlen mem ->
  exists mem', NST_MoveMemOvlap mem dst src size = Some mem' /\
    moved mem mem' dst src size.
Proof.
  intros. unfold NST_MoveMemOvlap. rewrite u16_small by done.
  destruct (Z.ltb_spec src dst).
  - destruct (Z.eq_dec size 0) as [->|].
    { exists mem. split; [done|]. split; [done|]. intros i. zcases; done. }
    destruct (move_down_spec (Z.to_nat size) mem (dst + size - 1) (src + size - 1))
      as (m & E & Hm); [lia..|].
    rewrite Z2Nat.id in Hm by lia. exists m. split; [done|].
    by replace (dst + size - 1 - size + 1) with dst in Hm by lia;
      replace (src + size - 1 - size + 1) with src in Hm by lia.
  - destruct (move_up_spec (Z.to_nat size) mem dst src) as (m & E & Hm); [lia..|].
    rewrite Z2Nat.id in Hm by lia. eauto.
Qed.

Lemma moved_blit mem mem' dst src size :
  0 <= dst -> 0 <= src -> 0 <= size -> dst + size <= zlen mem -> src + size <= zlen mem ->
  moved mem mem' dst src size ->
  blit mem dst (ztake size (zdrop src mem)) = Some mem'.
Proof.
  intros ????? [Hl Hm]. assert (Hz : zlen (ztake size (zdrop src mem)) = size) by zlen_lia.
  destruct (blit mem dst (ztake size (zdrop src mem))) as [m|] eqn:E.
  - f_equal. apply ld_ext. intros i. rewrite (ld_blit _ _ _ _ _ E), Hm, Hz.
    zcases; simpl; try done.
    rewrite ld_ztake, ld_zdrop_add by lia. destruct (Z.ltb_spec (i - dst) size); [done|lia].
  - rewrite blit_spec in E by lia. done.
Qed.

(** For a size that fits the [UINT16] parameter the move behaves as
    [memmove]: the destination range holds what the source range held before
    the call, in either direction of overlap, and no byte outside the
    destination changes. *)
Theorem NST_MoveMemOvlap_memmove mem dst src size :
  0 <= dst -> 0 <= src -> 0 <= size < 65536 ->
  dst + size <= zlen mem -> src + size <= zlen mem ->
  NST_MoveMemOvlap mem dst src size = blit mem dst (ztake size (zdrop src mem)).
Proof.
  intros. destruct (NST_MoveMemOvlap_moved mem dst src size) as (m & -> & Hm); [done..|].
  symmetry. apply moved_blit; done || lia.
Qed.

Lemma NST_MoveMemOvlap_memmove_witness :
  NST_MoveMemOvlap [1; 2; 3; 4; 5; 6] 2 0 4 = Some [1; 2; 1; 2; 3; 4].
Proof.
  rewrite (NST_MoveMemOvlap_memmove [1; 2; 3; 4; 5; 6] 2 0 4);
    [vm_compute; reflexivity|lia|lia|lia|by vm_compute|by vm_compute].
Defined.
