(* ===== verification/StrLib.v ===== *)
(** The string functions of [App/NuAgent/Lib/str_lib.c].

    A string argument is the list of the bytes from the pointer to the end of
    the object it points into ([char] is unsigned on this target); running
    past that end is [None].  A destination is its block and an offset. *)
From S2P Require Import Prelude.

(** * Character classes of the C library *)

Definition isspace (c : Z) : bool := (c =? 32) || ((9 <=? c) && (c <=? 13)).
Definition toupper (c : Z) : Z := if (97 <=? c) && (c <=? 122) then c - 32 else c.
Definition tolower (c : Z) : Z := if (65 <=? c) && (c <=? 90) then c + 32 else c.

(** [strcpy(dst + off, src)], as the C library promises it. *)
Definition strcpy (dst : list Z) (off : Z) (src : list Z) : option (list Z) :=
  n ← strlen_list src;
  blit dst off (ztake (n + 1) src).

(** * Searching and comparing *)

(** The result is the offset of the character found. *)
Fixpoint strchr (s : list Z) (c : Z) (i : Z) : option (option Z) :=
  match s with
  | [] => None
  | x :: s =>
      if negb (x =? 0) && negb (x =? c) then strchr s c (i + 1)
      else Some (if x =? c then Some i else None)
  end.

(** The [do ... while (--n > 0)] loop and what follows it; [n] counts the
    iterations left, this one included. *)
Fixpoint strncmp_loop (s1 s2 : list Z) (n : nat) : option Z :=
  match n with
  | O => Some 0
  | S n =>
      match s1, s2 with
      | a :: s1, b :: s2 =>
          if negb (a =? b) then
            Some (if a =? 0 then -1 else if b =? 0 then 1 else a - b)
          else if a =? 0 then Some 0
          else strncmp_loop s1 s2 n
      | _, _ => None
      end
  end.

Definition strncmp (s1 s2 : list Z) (n : Z) : option Z :=
  if negb (n =? 0) then strncmp_loop s1 s2 (Z.to_nat n) else Some 0.

Fixpoint strncmpi_loop (s1 s2 : list Z) (n : nat) : option Z :=
  match s1, s2 with
  | a :: s1, b :: s2 =>
      let c1 := tolower a in
      let c2 := tolower b in
      if (c1 =? 0) || (c2 =? 0) then Some (c1 - c2)
      else
        match n with
        | S (S _ as n) => if c1 =? c2 then strncmpi_loop s1 s2 n else Some (c1 - c2)
        | _ => Some (c1 - c2)
        end
  | _, _ => None
  end.

Definition strncmpi (s1 s2 : list Z) (n : Z) : option Z :=
  if n =? 0 then Some 0 else strncmpi_loop s1 s2 (Z.to_nat n).

(** * Trimming and case *)

(** [for (i = 0; isspace(src[i]); i++)]: the rest of [src] from [i]. *)
Fixpoint skip_space (src : list Z) : option (list Z) :=
  match src with
  | [] => None
  | c :: rest => if isspace c then skip_space rest else Some src
  end.

(** The loop that clears the trailing space; [i] is unsigned. *)
Fixpoint clear_space (fuel : nat) (dst : list Z) (i : Z) : option (option (list Z)) :=
  match fuel with
  | O => None
  | S fuel =>
      match ld dst i with
      | None => Some None
      | Some c =>
          if isspace c then
            match st dst i 0 with
            | None => Some None
            | Some dst => clear_space fuel dst (u32 (i - 1))
            end
          else Some (Some dst)
      end
  end.

(** Outer [None] is out of fuel, inner [None] an access outside an object. *)
Definition strrmvspace (dst src : list Z) : option (option (list Z)) :=
  match src with
  | [] => Some None
  | c :: _ =>
      if c =? 0 then Some (st dst 0 0)
      else
        match skip_space src ≫= strcpy dst 0 with
        | None => Some None
        | Some dst =>
            match strlen_list dst with
            | None => Some None
            | Some n => clear_space (S (length dst)) dst (u32 (n - 1))
            end
        end
  end.

(** The result is the block and the returned pointer, which is left at the
    terminator. *)
Fixpoint strtoupper (dst : list Z) (d : Z) (src : list Z) : option (list Z * Z) :=
  match src with
  | [] => None
  | c :: src =>
      if negb (c =? 0) then
        dst ← st dst d (u8 (toupper c));
        strtoupper dst (d + 1) src
      else
        dst ← st dst d 0;
        Some (dst, d)
  end.

(** * Numbers *)

Definition digit_table : list Z := seqZ 48 10 ++ seqZ 97 26 ++ [0].

(** [val] and [radix] as [unsigned], [radix] not 0; [p] is the buffer pointer
    as an offset of the block. *)
Fixpoint utoa_rec (fuel : nat) (val : Z) (buf : list Z) (p radix : Z) : option (option (list Z)) :=
  match fuel with
  | O => None
  | S fuel =>
      if val <? radix then
        Some (c ← ld digit_table val;
              buf ← st buf p c;
              st buf (p + 1) 0)
      else
        match utoa_rec fuel (val / radix) buf p radix with
        | Some (Some buf) =>
            match strlen buf p with
            | None => Some None
            | Some n => utoa_rec fuel (val mod radix) buf (p + n) radix
            end
        | r => r
        end
  end.

(** A block that is absent is the null pointer; the fuel is more than the
    bits of [val]. *)
Definition utoa (val : Z) (buf : list Z) (p radix : Z) : option (option (list Z)) :=
  let radix := if radix =? 0 then 10 else radix in
  utoa_rec 40 val buf p (u32 radix).

(** [u = -val] wraps for the least [int]. *)
Definition itoa (val : Z) (buf : list Z) (radix : Z) : option (option (list Z)) :=
  let radix := if radix =? 0 then 10 else radix in
  if val <? 0 then
    match st buf 0 45 with
    | None => Some None
    | Some buf => utoa (u32 (- val)) buf 1 radix
    end
  else utoa (u32 val) buf 0 radix.

Fixpoint atou_hex (s : list Z) (value : Z) : option Z :=
  match s with
  | [] => None
  | c :: s =>
      if c =? 0 then Some value
      else if (48 <=? c) && (c <=? 57) then atou_hex s (u32 (value * 16 + (c - 48)))
      else if (65 <=? c) && (c <=? 70) then atou_hex s (u32 (value * 16 + (c - 65 + 10)))
      else if (97 <=? c) && (c <=? 102) then atou_hex s (u32 (value * 16 + (c - 97 + 10)))
      else Some value
  end.

(** * [Search_str] *)

(** How the inner loop ends: at the terminator of [chars], or at a difference
    with [source] and [len] advanced. *)
Inductive inner :=
  | Found (len : Z)
  | Mismatch (source : list Z) (len : Z).

Fixpoint Search_inner (temp source : list Z) (len : Z) : option inner :=
  match temp with
  | [] => None
  | t :: temp =>
      if t =? 0 then Some (Found len)
      else
        match source with
        | [] => None
        | c :: rest =>
            if t =? c then Search_inner temp rest (len + 1)
            else Some (Mismatch source len)
        end
  end.

(** [temp] is [chars] whenever the outer loop tests it.  The comparisons of
    the pointers with [""] are false. *)
Fixpoint Search_loop (fuel : nat) (source chars : list Z) (len : Z) : option (option Z) :=
  match fuel with
  | O => None
  | S fuel =>
      match source, chars with
      | c :: rest, t :: _ =>
          if c =? 0 then Some (Some 0)
          else if c =? t then
            match Search_inner chars source len with
            | None => Some None
            | Some (Found len) => Some (Some len)
            | Some (Mismatch source len) => Search_loop fuel source chars len
            end
          else Search_loop fuel rest chars (len + 1)
      | _, _ => Some None
      end
  end.

(** [None] for a null pointer. *)
Definition Search_str (source chars : option (list Z)) : option (option Z) :=
  match source, chars with
  | Some source, Some chars => Search_loop (S (length source)) source chars 0
  | _, _ => Some (Some 0)
  end.

(** * Printing numbers *)

Definition digit (d : Z) : Z := nth (Z.to_nat d) digit_table 0.

(** The digits of [val], the most significant first. *)
Fixpoint digits (fuel : nat) (radix val : Z) : list Z :=
  match fuel with
  | O => []
  | S fuel => if val <? radix then [digit val] else digits fuel radix (val / radix) ++ [digit (val mod radix)]
  end.

(** The number a digit string denotes. *)
Definition digit_value (c : Z) : Z := if c <? 58 then c - 48 else c - 87.
Definition number (radix : Z) (s : list Z) : Z := fold_left (fun v c => v * radix + digit_value c) s 0.

Lemma digit_ok d : 0 <= d < 36 ->
  ld digit_table d = Some (digit d) /\ digit_value (digit d) = d /\ 0 < digit d < 256.
Proof.
  intros Hd. assert (Hx : is_u8 d) by word_lia.
  pose proof (u8_forall (fun d => implb (d <? 36) (bool_decide (ld digit_table d = Some (digit d) /\
    digit_value (digit d) = d /\ 0 < digit d < 256))) ltac:(by vm_compute) d Hx) as E.
  cbv beta in E. destruct (Z.ltb_spec d 36); [|lia]. by apply bool_decide_eq_true in E.
Qed.

Lemma digits_nonempty fuel radix val : (0 < fuel)%nat -> 1 <= zlen (digits fuel radix val).
Proof.
  destruct fuel as [|fuel]; [lia|]. intros _. simpl. destruct (val <? radix); [done|]. zlen_lia.
Qed.

Section Radix.
Variable radix : Z.
Hypothesis Hr : 2 <= radix <= 36.

Lemma div_pow2 val k : 0 <= val < 2 ^ Z.of_nat (S k) -> 0 <= val / radix < 2 ^ Z.of_nat k.
Proof.
  intros [H0 H1]. rewrite Nat2Z.inj_succ, Z.pow_succ_r in H1 by lia.
  split; [apply Z.div_pos; lia|]. apply Z.div_lt_upper_bound; [lia|]. nia.
Qed.

Lemma pow2_0 val : 0 <= val < 2 ^ Z.of_nat 0 -> (val <? radix) = true.
Proof. intros H. apply Z.ltb_lt. change (2 ^ Z.of_nat 0) with 1 in H. lia. Qed.

Lemma digits_nonzero fuel : forall val, 0 <= val -> Forall (fun c => 0 < c < 256) (digits fuel radix val).
Proof.
  induction fuel as [|fuel IH]; intros val Hv; simpl; [constructor|].
  destruct (Z.ltb_spec val radix).
  - constructor; [|constructor]. apply digit_ok. lia.
  - apply Forall_app. split; [apply IH, Z.div_pos; lia|]. constructor; [|constructor].
    apply digit_ok. pose proof (Z.mod_pos_bound val radix). lia.
Qed.

Lemma number_digits k : forall fuel val, 0 <= val < 2 ^ Z.of_nat k -> (k < fuel)%nat ->
  number radix (digits fuel radix val) = val.
Proof.
  induction k as [|k IH]; intros fuel val Hv Hf; (destruct fuel as [|fuel]; [lia|]); simpl.
  - rewrite pow2_0 by done. unfold number. simpl. apply digit_ok. change (2 ^ Z.of_nat 0) with 1 in Hv. lia.
  - destruct (Z.ltb_spec val radix).
    + unfold number. simpl. apply digit_ok. lia.
    + unfold number. rewrite fold_left_app. fold (number radix (digits fuel radix (val / radix))).
      rewrite IH by (by apply div_pow2 || lia). simpl.
      pose proof (Z.mod_pos_bound val radix ltac:(lia)).
      destruct (digit_ok (val mod radix)) as (_ & -> & _); [lia|].
      rewrite (Z.div_mod val radix) at 3 by lia. lia.
Qed.

Lemma digits_length n : forall fuel val, (1 <= n)%nat -> 0 <= val < radix ^ Z.of_nat n ->
  zlen (digits fuel radix val) <= Z.of_nat n.
Proof.
  induction n as [|n IH]; intros fuel val Hn Hv; [lia|].
  destruct fuel as [|fuel]; simpl; [zlen_lia|].
  destruct (Z.ltb_spec val radix); [change (zlen [digit val]) with 1; lia|].
  destruct n as [|n].
  { change (Z.of_nat 1) with 1 in Hv. lia. }
  rewrite zlen_app. change (zlen [_]) with 1.
  rewrite Nat2Z.inj_succ, Z.pow_succ_r in Hv by lia.
  assert (Hd : 0 <= val / radix < radix ^ Z.of_nat (S n)).
  { split; [apply Z.div_pos; lia|]. apply Z.div_lt_upper_bound; lia. }
  pose proof (IH fuel (val / radix) ltac:(lia) Hd). lia.
Qed.

Lemma utoa_small fuel val pre t : 0 <= val < radix -> 2 <= zlen t ->
  utoa_rec (S fuel) val (pre ++ t) (zlen pre) radix =
  Some (Some (pre ++ [digit val] ++ 0 :: zdrop 2 t)).
Proof.
  intros Hv Ht. simpl. destruct (Z.ltb_spec val radix); [|lia].
  destruct (digit_ok val) as (-> & _); [lia|]. cbn [mbind option_bind].
  rewrite st_blit, blit_next by zlen_lia. cbn [mbind option_bind].
  rewrite st_blit by zlen_lia. replace (zlen pre + 1) with (zlen (pre ++ [digit val])) by zlen_lia.
  rewrite blit_next by zlen_lia. rewrite zdrop_zdrop by zlen_lia. by rewrite <- !app_assoc.
Qed.

Lemma utoa_rec_spec k : forall fuel val pre t,
  0 <= val < 2 ^ Z.of_nat k -> (k < fuel)%nat -> zlen (digits fuel radix val) < zlen t ->
  utoa_rec fuel val (pre ++ t) (zlen pre) radix =
  Some (Some (pre ++ digits fuel radix val ++ 0 :: zdrop (zlen (digits fuel radix val) + 1) t)).
Proof.
  induction k as [|k IH]; intros fuel val pre t Hv Hf Ht; (destruct fuel as [|fuel]; [lia|]).
  - pose proof (pow2_0 val Hv) as E. simpl digits in *. rewrite E in *. change (zlen [digit val]) with 1 in *.
    apply Z.ltb_lt in E. by rewrite utoa_small by lia.
  - simpl digits in *. destruct (Z.ltb_spec val radix) as [Hs|Hs].
    { change (zlen [digit val]) with 1 in *. by rewrite utoa_small by lia. }
    pose proof (Z.mod_pos_bound val radix ltac:(lia)) as Hm.
    rewrite zlen_app in *. change (zlen [digit (val mod radix)]) with 1 in *.
    pose proof (div_pow2 val k Hv) as Hd.
    cbn [utoa_rec]. rewrite (proj2 (Z.ltb_ge val radix)) by lia. rewrite IH by (done || lia).
    set (D := digits fuel radix (val / radix)) in *.
    assert (HD : Forall (fun c => c <> 0) D).
    { eapply Forall_impl; [|apply digits_nonzero; lia]. simpl. lia. }
    rewrite strlen_app by done.
    destruct fuel as [|fuel]; [lia|].
    replace (pre ++ D ++ 0 :: zdrop (zlen D + 1) t) with ((pre ++ D) ++ 0 :: zdrop (zlen D + 1) t)
      by (by rewrite <- app_assoc).
    rewrite <- zlen_app, utoa_small by (done || zlen_lia). rewrite <- !app_assoc. do 5 f_equal.
    change (0 :: zdrop (zlen D + 1) t) with ([0] ++ zdrop (zlen D + 1) t).
    pose proof (zlen_nonneg D). rewrite zdrop_app_r by zlen_lia. rewrite zdrop_zdrop by zlen_lia.
    change (zlen [0]) with 1. by replace (2 - 1) with 1 by lia; rewrite <- Z.add_assoc.
Qed.
End Radix.

Lemma utoa_spec radix val pre t : 2 <= radix <= 36 -> is_u32 val -> zlen (digits 40 radix val) < zlen t ->
  utoa val (pre ++ t) (zlen pre) radix =
  Some (Some (pre ++ digits 40 radix val ++ 0 :: zdrop (zlen (digits 40 radix val) + 1) t)).
Proof.
  intros Hr Hv Ht. unfold utoa. destruct (Z.eqb_spec radix 0); [lia|]. rewrite u32_small by word_lia.
  apply (utoa_rec_spec radix Hr 32); [done|lia|done].
Qed.

(** [itoa] prints every [int] in every radix from 2 to 36, the least one
    included, when the block has room for the sign, the digits and the
    terminator (12 bytes in radix 10): the block then starts with the
    zero-terminated text, and the digits denote the magnitude. *)
Theorem itoa_correct val buf radix :
  2 <= radix <= 36 -> -2147483648 <= val < 2147483648 ->
  (if val <? 0 then 1 else 0) + zlen (digits 40 radix (Z.abs val)) < zlen buf ->
  exists t,
    itoa val buf radix =
      Some (Some ((if val <? 0 then [45] else []) ++ digits 40 radix (Z.abs val) ++ 0 :: t)) /\
    number radix (digits 40 radix (Z.abs val)) = Z.abs val /\
    (radix = 10 -> zlen (digits 40 radix (Z.abs val)) <= 10).
Proof.
  intros Hr Hv Hb. pose proof (zlen_nonneg (digits 40 radix (Z.abs val))) as Hn.
  assert (Hnum : number radix (digits 40 radix (Z.abs val)) = Z.abs val).
  { apply (number_digits radix Hr 32); [|lia]. change (2 ^ Z.of_nat 32) with 4294967296. lia. }
  assert (Hlen : radix = 10 -> zlen (digits 40 radix (Z.abs val)) <= 10).
  { intros ->. apply (digits_length 10 ltac:(lia) 10); [lia|].
    change (10 ^ Z.of_nat 10) with 10000000000. lia. }
  unfold itoa. destruct (Z.eqb_spec radix 0); [lia|].
  destruct (Z.ltb_spec val 0).
  - rewrite st_blit by lia. change buf with ([] ++ buf) at 1. change 0 with (zlen (@nil Z)) at 1.
    rewrite blit_next by (change (zlen [45]) with 1; lia). rewrite app_nil_l.
    replace (u32 (- val)) with (Z.abs val) by (rewrite u32_small; word_lia).
    pose proof (utoa_spec radix (Z.abs val) [45] (zdrop (zlen [45]) buf) Hr ltac:(word_lia)
      ltac:(change (zlen [45]) with 1; rewrite zlen_zdrop; lia)) as E.
    change (zlen [45]) with 1 in *. rewrite E. eexists. split; [reflexivity|]. auto.
  - replace (u32 val) with (Z.abs val) by (rewrite u32_small; word_lia).
    pose proof (utoa_spec radix (Z.abs val) [] buf Hr ltac:(word_lia) ltac:(lia)) as E.
    change (zlen []) with 0 in E. rewrite !app_nil_l in *. rewrite E. eexists. split; [reflexivity|]. auto.
Qed.

(** * Reading hexadecimal *)

Lemma atou_hex_digit d s v : 0 <= d < 16 -> atou_hex (digit d :: s) v = atou_hex s (u32 (v * 16 + d)).
Proof.
  intros Hd.
  assert (E : digit d = if d <? 10 then d + 48 else d + 87).
  { assert (Hx : is_u8 d) by word_lia.
    pose proof (u8_forall (fun d => implb (d <? 16) (digit d =? (if d <? 10 then d + 48 else d + 87)))
      ltac:(by vm_compute) d Hx) as E. cbv beta in E.
    destruct (Z.ltb_spec d 16); [|lia]. by apply Z.eqb_eq in E. }
  rewrite E. cbn [atou_hex]. destruct (Z.ltb_spec d 10); zcases; cbn [andb]; do 2 f_equal; lia.
Qed.

Lemma atou_hex_digits k : forall fuel val s,
  is_u32 val -> val < 2 ^ Z.of_nat k -> (k < fuel)%nat ->
  atou_hex (digits fuel 16 val ++ s) 0 = atou_hex s val.
Proof.
  induction k as [|k IH]; intros fuel val s Hv Hk Hf; (destruct fuel as [|fuel]; [lia|]); cbn [digits].
  - change (2 ^ Z.of_nat 0) with 1 in Hk. replace val with 0 by word_lia. simpl app.
    by rewrite atou_hex_digit.
  - destruct (Z.ltb_spec val 16).
    + simpl app. rewrite atou_hex_digit by word_lia. f_equal. apply u32_small. word_lia.
    + rewrite <- app_assoc. rewrite IH; [|word_lia| |lia].
      * simpl app. rewrite atou_hex_digit by word_lia. f_equal. word_lia.
      * apply (div_pow2 16); [lia|]. split; [word_lia|done].
Qed.

(** Reading back the hexadecimal text of a 32-bit word gives the word; nine
    bytes are room enough for the text. *)
Theorem utoa_atou_hex val buf : is_u32 val -> 9 <= zlen buf ->
  exists out, utoa val buf 0 16 = Some (Some out) /\ zlen out = zlen buf /\ atou_hex out 0 = Some val.
Proof.
  intros Hv Hb.
  assert (Hl : zlen (digits 40 16 val) <= 8).
  { apply (digits_length 16 ltac:(lia) 8); [lia|]. change (16 ^ Z.of_nat 8) with 4294967296. word_lia. }
  pose proof (zlen_nonneg (digits 40 16 val)).
  pose proof (utoa_spec 16 val [] buf ltac:(lia) Hv ltac:(lia)) as E.
  change (zlen []) with 0 in E. rewrite !app_nil_l in E. rewrite E.
  eexists. split; [reflexivity|]. split.
  - rewrite zlen_app, zlen_cons, zlen_zdrop. zlen_lia.
  - rewrite (atou_hex_digits 32) by (done || word_lia || lia). done.
Qed.

(** * Trimming *)

Definition spaces (s : list Z) : Prop := Forall (fun c => isspace c = true) s.

#[export] Instance spaces_dec s : Decision (spaces s).
Proof. unfold spaces. apply _. Defined.

Lemma space_nonzero s : spaces s -> Forall (fun c => c <> 0) s.
Proof. intros H. eapply Forall_impl; [|exact H]. intros c Hc ->. by vm_compute in Hc. Qed.

Lemma skip_space_app a s : spaces a -> skip_space (a ++ s) = skip_space s.
Proof. induction 1 as [|c a Hc _ IH]; [done|]. simpl. by rewrite Hc. Qed.

Lemma clear_space_spec b : forall fuel s rest,
  spaces b -> (length b < fuel)%nat -> zlen (s ++ b) < 4294967296 ->
  (exists s' c, s = s' ++ [c] /\ isspace c = false) ->
  clear_space fuel (s ++ b ++ rest) (zlen (s ++ b) - 1) = Some (Some (s ++ replicate (length b) 0 ++ rest)).
Proof.
  induction b as [|c b IH] using rev_ind; intros fuel s rest Hb Hf Hw Hs.
  - destruct fuel as [|fuel]; [lia|]. destruct Hs as (s' & c & -> & Hc). simpl.
    rewrite app_nil_r. replace (zlen (s' ++ [c]) - 1) with (zlen s') by zlen_lia.
    rewrite <- app_assoc. simpl. by rewrite ld_mid, Hc.
  - destruct fuel as [|fuel]; [lia|]. unfold spaces in *. apply Forall_app in Hb as [Hb Hc].
    apply Forall_cons_1 in Hc as [Hc _]. simpl.
    replace (zlen (s ++ b ++ [c]) - 1) with (zlen (s ++ b)) by zlen_lia.
    replace (s ++ (b ++ [c]) ++ rest) with ((s ++ b) ++ c :: rest) by (by rewrite <- !app_assoc).
    rewrite ld_mid, Hc, st_blit, blit_next by zlen_lia. change (zdrop (zlen [0]) (c :: rest)) with rest.
    rewrite <- !app_assoc. rewrite length_app in *. simpl in Hf. rewrite !zlen_app in Hw.
    assert (1 <= zlen s) by (destruct Hs as (s' & ? & -> & _); zlen_lia).
    pose proof (zlen_nonneg b). change (zlen [c]) with 1 in Hw.
    rewrite u32_small by (rewrite zlen_app; word_lia).
    rewrite IH by (done || lia || (rewrite zlen_app; lia)).
    rewrite replicate_add, <- !app_assoc. done.
Qed.

(** Trimming copies the text between the leading and the trailing white
    space and clears the space behind it; the destination needs room for the
    text with its trailing space and terminator.  A text that is nothing but
    white space makes the index of the trailing loop wrap around, and the
    block is read four gigabytes past its start. *)
Theorem strrmvspace_correct dst a s b r :
  spaces a -> spaces b -> Forall (fun c => c <> 0) s ->
  zlen (s ++ b) < zlen dst -> zlen dst < 4294967295 ->
  (forall s' c, s = s' ++ [c] -> isspace c = false) -> (forall c s', s = c :: s' -> isspace c = false) ->
  strrmvspace dst (a ++ s ++ b ++ 0 :: r) =
    if bool_decide (s = []) then
      if bool_decide (a = [] /\ b = []) then Some (Some (0 :: zdrop 1 dst)) else Some None
    else Some (Some (s ++ replicate (length b) 0 ++ 0 :: zdrop (zlen (s ++ b) + 1) dst)).
Proof.
  intros Ha Hb Hs Hl Hw Hlast Hfirst. pose proof (zlen_nonneg (s ++ b)).
  assert (Hcpy : forall u, Forall (fun c => c <> 0) u -> zlen u < zlen dst ->
    strcpy dst 0 (u ++ 0 :: r) = Some (u ++ 0 :: zdrop (zlen u + 1) dst)).
  { intros u Hu Hlu. unfold strcpy. rewrite strlen_list_app by done. cbn [mbind option_bind].
    replace (u ++ 0 :: r) with ((u ++ [0]) ++ r) by (by rewrite <- app_assoc).
    replace (zlen u + 1) with (zlen (u ++ [0])) by zlen_lia. rewrite ztake_zlen_app.
    pose proof (blit_next [] dst (u ++ [0]) ltac:(zlen_lia)) as E. change (zlen []) with 0 in E.
    rewrite !app_nil_l in E. rewrite E, <- app_assoc, zlen_app. done. }
  assert (Hclear : clear_space (S (length (0 :: zdrop 1 dst))) (0 :: zdrop 1 dst) (u32 (0 - 1)) = Some None).
  { change (u32 (0 - 1)) with 4294967295. cbn [clear_space]. rewrite ld_ge; [done|].
    rewrite zlen_cons, zlen_zdrop. lia. }
  unfold strrmvspace. case_bool_decide as E.
  - subst s. rewrite app_nil_l in *. rewrite app_assoc. assert (Hu : spaces (a ++ b)) by by apply Forall_app.
    case_bool_decide as E2.
    + destruct E2 as [-> ->]. simpl. rewrite st_spec by (rewrite zlen_nil in Hl; lia). done.
    + destruct (a ++ b) as [|c u] eqn:Eu; [by apply app_eq_nil in Eu|]. cbn [app].
      assert (Hc : c <> 0) by (apply space_nonzero in Hu; by apply Forall_cons_1 in Hu as []).
      destruct (Z.eqb_spec c 0); [done|]. change (c :: u ++ 0 :: r) with ((c :: u) ++ 0 :: r).
      rewrite skip_space_app by done. simpl skip_space. cbn [mbind option_bind].
      pose proof (Hcpy [] ltac:(constructor) ltac:(zlen_lia)) as Hc0. simpl in Hc0. rewrite Hc0.
      change (strlen_list (0 :: _)) with (Some 0). cbv iota beta. done.
  - assert (Hsk : skip_space (a ++ (s ++ b) ++ 0 :: r) = Some ((s ++ b) ++ 0 :: r)).
    { rewrite skip_space_app by done. destruct s as [|c s]; [done|]. simpl. by rewrite (Hfirst c s). }
    assert (Hsb : Forall (fun c => c <> 0) (s ++ b)) by (apply Forall_app; split; [done|by apply space_nonzero]).
    assert (Hall : Forall (fun c => c <> 0) (a ++ s)) by (apply Forall_app; split; [by apply space_nonzero|done]).
    rewrite app_assoc in Hsk. rewrite !app_assoc in *. rewrite <- (app_assoc (a ++ s)) in *.
    destruct (a ++ s) as [|c u] eqn:Eu; [by apply app_eq_nil in Eu as [_ ->]|]. cbn [app] in *.
    apply Forall_cons_1 in Hall as [Hc _]. destruct (Z.eqb_spec c 0); [done|].
    rewrite Hsk. cbn [mbind option_bind]. rewrite Hcpy by done. rewrite strlen_list_app by done.
    pose proof (zlen_nonneg b). assert (1 <= zlen s) by (destruct s; [done|zlen_lia]).
    rewrite u32_small by (rewrite zlen_app in *; word_lia). rewrite <- !app_assoc.
    apply clear_space_spec; [done| |lia|].
    + rewrite !length_app. simpl. lia.
    + destruct (exists_last E) as (s' & d & Es). exists s', d. split; [done|]. by apply (Hlast s').
Qed.

(** * Searching *)

(** [chars] starts at the offset [n] of [s]. *)
Definition occurs (s chars : list Z) (n : Z) : Prop :=
  exists pre post, s = pre ++ chars ++ post /\ zlen pre = n.

Lemma Search_inner_spec temp : forall cur r r' len,
  Forall (fun c => c <> 0) temp -> Forall (fun c => c <> 0) cur ->
  (exists post, cur = temp ++ post /\
     Search_inner (temp ++ 0 :: r') (cur ++ 0 :: r) len = Some (Found (len + zlen temp))) \/
  (exists p t temp' cur', temp = p ++ t :: temp' /\ cur = p ++ cur' /\ head cur' <> Some t /\
     Search_inner (temp ++ 0 :: r') (cur ++ 0 :: r) len = Some (Mismatch (cur' ++ 0 :: r) (len + zlen p))).
Proof.
  induction temp as [|t temp IH]; intros cur r r' len Ht Hc.
  - left. exists cur. split; [done|]. simpl. do 2 f_equal. zlen_lia.
  - apply Forall_cons_1 in Ht as [Ht0 Ht]. simpl. destruct (Z.eqb_spec t 0); [done|].
    destruct cur as [|c cur]; simpl.
    + right. destruct (Z.eqb_spec t 0); [done|]. exists [], t, temp, []. repeat split; [done|].
      do 2 f_equal. zlen_lia.
    + apply Forall_cons_1 in Hc as [_ Hc]. destruct (Z.eqb_spec t c) as [<-|Hne].
      * destruct (IH cur r r' (len + 1) Ht Hc) as [(post & -> & E)|(p & t' & temp' & cur' & -> & -> & Hh & E)].
        -- left. exists post. split; [done|]. rewrite E. do 2 f_equal. zlen_lia.
        -- right. exists (t :: p), t', temp', cur'. repeat split; [done|]. rewrite E. do 2 f_equal. zlen_lia.
      * right. exists [], t, temp, (c :: cur). repeat split; [simpl; congruence|]. do 2 f_equal. zlen_lia.
Qed.

Lemma ld_elem {A} (l : list A) i x : ld l i = Some x -> x ∈ l.
Proof. unfold ld. case_match; [|done]. apply list_elem_of_lookup_2. Qed.

(** The text of a string argument is found iff it occurs; what the search
    returns is the offset behind an occurrence. *)
Lemma Search_loop_spec fuel : forall done_ cur r t chars r',
  Forall (fun c => c <> 0) cur -> Forall (fun c => c <> 0) (t :: chars) ->
  (length cur < fuel)%nat ->
  exists n, Search_loop fuel (cur ++ 0 :: r) ((t :: chars) ++ 0 :: r') (zlen done_) = Some (Some n) /\
    (n = 0 \/ occurs (done_ ++ cur) (t :: chars) (n - zlen (t :: chars))) /\
    (t ∉ chars ->
       (forall m, occurs (done_ ++ cur) (t :: chars) m -> zlen done_ <= m) ->
       forall m, occurs (done_ ++ cur) (t :: chars) m -> 0 < n /\ n - zlen (t :: chars) <= m).
Proof.
  induction fuel as [|fuel IH]; intros done_ cur r t chars r' Hc Ht Hf; [lia|].
  destruct cur as [|c cur].
  { exists 0. split; [done|]. split; [by left|]. intros _ Hlow m Hm. exfalso.
    pose proof (Hlow m Hm). destruct Hm as (pre & post & E & <-).
    apply (f_equal zlen) in E. rewrite app_nil_r in E. autorewrite with zlen in E.
    pose proof (zlen_nonneg post). pose proof (zlen_nonneg chars). lia. }
  pose proof (Forall_cons_1 _ _ _ Hc) as [Hc0 Hc']. cbn [Search_loop app].
  destruct (Z.eqb_spec c 0); [done|].
  destruct (Z.eqb_spec c t) as [->|Hne].
  - change (t :: chars ++ 0 :: r') with ((t :: chars) ++ 0 :: r').
    change (t :: cur ++ 0 :: r) with ((t :: cur) ++ 0 :: r).
    destruct (Search_inner_spec (t :: chars) (t :: cur) r r' (zlen done_) Ht Hc)
      as [(post & Ep & E)|(p & t' & temp' & cur' & Et & Ec & Hh & E)]; rewrite E.
    + exists (zlen done_ + zlen (t :: chars)). split; [done|]. split.
      * right. exists done_, post. rewrite Ep. split; [done|]. lia.
      * intros _ Hlow m Hm. pose proof (zlen_nonneg done_). specialize (Hlow m Hm). zlen_lia.
    + destruct p as [|t0 p]; [simplify_eq/=; done|]. simpl in Et, Ec. injection Et as <- Et. injection Ec as Ec.
      rewrite <- zlen_app. rewrite Ec in Hc'. apply Forall_app in Hc' as [_ Hc'].
      destruct (IH (done_ ++ t :: p) cur' r t chars r' Hc' Ht) as (n' & E' & Hs & Hfull).
      { rewrite Ec in Hf. simpl in Hf. rewrite length_app in Hf. lia. }
      replace ((done_ ++ t :: p) ++ cur') with (done_ ++ t :: cur) in * by (by rewrite Ec, <- app_assoc).
      exists n'. split; [exact E'|]. split; [exact Hs|]. intros Hnot Hlow. apply Hfull; [done|].
      intros m Hm. pose proof (Hlow m Hm) as Hge. destruct Hm as (pre & post & Eo & Em).
      destruct (Z.lt_ge_cases m (zlen (done_ ++ t :: p))) as [Hlt|]; [exfalso|lia].
      apply (f_equal (fun l => (ld l m, ld l (zlen (done_ ++ t :: p))))) in Eo. injection Eo as Em1 Em2.
      destruct (Z.eq_dec m (zlen done_)) as [E0|].
      * replace (done_ ++ t :: cur) with ((done_ ++ t :: p) ++ cur') in Em2 by (by rewrite Ec, <- app_assoc).
        replace (pre ++ t :: chars ++ post) with ((pre ++ t :: p) ++ t' :: temp' ++ post) in Em2
          by (rewrite Et, <- !app_assoc; done).
        rewrite ld_app_r, Z.sub_diag in Em2 by lia.
        replace (zlen (done_ ++ t :: p)) with (zlen (pre ++ t :: p)) in Em2 by zlen_lia.
        rewrite ld_mid in Em2. apply Hh. destruct cur' as [|x cur']; [done|]. exact Em2.
      * apply Hnot. rewrite Et. apply elem_of_app. left. apply (ld_elem p (m - zlen done_ - 1)).
        rewrite <- Em, ld_mid, Em in Em1. rewrite <- Em1.
        replace (done_ ++ t :: cur) with ((done_ ++ [t]) ++ p ++ cur') by (by rewrite Ec, <- app_assoc).
        rewrite zlen_app, zlen_cons in Hlt. rewrite ld_app_r, ld_app_l by zlen_lia. f_equal. zlen_lia.
  - destruct (IH (done_ ++ [c]) cur r t chars r' Hc' Ht) as (n' & E' & Hs & Hfull); [simpl in Hf; lia|].
    rewrite zlen_app in E', Hfull. change (zlen [c]) with 1 in *. rewrite <- app_assoc in Hs, Hfull.
    exists n'. split; [exact E'|]. split; [exact Hs|]. intros Hnot Hlow. apply Hfull; [done|].
    intros m Hm. pose proof (Hlow m Hm) as Hge. destruct Hm as (pre & post & Eo & Em).
    destruct (Z.eq_dec m (zlen done_)) as [E0|]; [exfalso|lia].
    apply (f_equal (fun l => ld l (zlen done_))) in Eo. change (done_ ++ [c] ++ cur) with (done_ ++ c :: cur) in Eo.
    rewrite ld_mid in Eo. rewrite <- E0, <- Em in Eo. change ((t :: chars) ++ post) with (t :: (chars ++ post)) in Eo.
    rewrite ld_mid in Eo. by injection Eo as ->.
Qed.

(** On two strings [Search_str] terminates without reading past their
    ends, and a result other than 0 is the offset behind an occurrence.  When
    the first character of the text looked for is not repeated in it, as in
    the uses of [restful.c], the result is the offset behind the first
    occurrence, and 0 only if there is none. *)
Theorem Search_str_correct s r t chars r' :
  Forall (fun c => c <> 0) s -> Forall (fun c => c <> 0) (t :: chars) ->
  exists n, Search_str (Some (s ++ 0 :: r)) (Some ((t :: chars) ++ 0 :: r')) = Some (Some n) /\
    (n = 0 \/ occurs s (t :: chars) (n - zlen (t :: chars))) /\
    (t ∉ chars ->
       (n = 0 -> forall m, ~ occurs s (t :: chars) m) /\
       forall m, occurs s (t :: chars) m -> n - zlen (t :: chars) <= m).
Proof.
  intros Hs Ht.
  destruct (Search_loop_spec (S (length (s ++ 0 :: r))) [] s r t chars r' Hs Ht) as (n & E & Hsound & Hfull).
  { rewrite length_app. simpl. lia. }
  exists n. split; [exact E|]. split; [exact Hsound|]. intros Hnot.
  assert (Hlow : forall m, occurs ([] ++ s) (t :: chars) m -> zlen (@nil Z) <= m).
  { intros m (pre & post & _ & <-). change (zlen (@nil Z)) with 0. apply zlen_nonneg. }
  split.
  - intros -> m Hm. destruct (Hfull Hnot Hlow m Hm). lia.
  - intros m Hm. by destruct (Hfull Hnot Hlow m Hm).
Qed.

(** When the first character is repeated an occurrence can be missed: "aab" is
    not found in "aaab". *)
Lemma Search_str_overlap :
  Search_str (Some [97; 97; 97; 98; 0]) (Some [97; 97; 98; 0]) = Some (Some 0) /\
  occurs [97; 97; 97; 98] [97; 97; 98] 1.
Proof. split; [reflexivity|]. by exists [97], []. Qed.

(** * Comparing *)

(** The C order on strings cut at [n] characters. *)
Fixpoint compare_spec (s1 s2 : list Z) (n : nat) : Z :=
  match n, s1, s2 with
  | O, _, _ => 0
  | _, [], [] => 0
  | _, [], _ => -1
  | _, _, [] => 1
  | S n, a :: s1, b :: s2 => if a =? b then compare_spec s1 s2 n else a - b
  end.

Lemma strncmp_spec n : forall s1 s2 r1 r2,
  Forall (fun c => c <> 0) s1 -> Forall (fun c => c <> 0) s2 ->
  strncmp_loop (s1 ++ 0 :: r1) (s2 ++ 0 :: r2) n = Some (compare_spec s1 s2 n).
Proof.
  induction n as [|n IH]; intros s1 s2 r1 r2 H1 H2; [by destruct s1, s2|].
  destruct s1 as [|a s1], s2 as [|b s2]; simpl.
  - done.
  - apply Forall_cons_1 in H2 as [Hb _]. destruct b; [done|..]; done.
  - apply Forall_cons_1 in H1 as [Ha _]. destruct (Z.eqb_spec a 0); [done|]. done.
  - apply Forall_cons_1 in H1 as [Ha H1], H2 as [Hb H2].
    destruct (Z.eqb_spec a 0), (Z.eqb_spec b 0); try done.
    destruct (Z.eqb_spec a b); simpl; [by apply IH|done].
Qed.

Lemma compare_zero n : forall s1 s2, compare_spec s1 s2 n = 0 <-> take n s1 = take n s2.
Proof.
  induction n as [|n IH]; intros s1 s2; [by destruct s1, s2|].
  destruct s1 as [|a s1], s2 as [|b s2]; simpl; try (split; [lia|done]); [done|].
  destruct (Z.eqb_spec a b) as [->|Hne].
  - rewrite IH. split; [by intros ->|by intros [= ->]].
  - split; [lia|]. by intros [= ? ?].
Qed.

(** [strncmp] returns 0 exactly for strings that agree on their first [n]
    characters, and never reads past a terminator. *)
Theorem strncmp_correct s1 s2 r1 r2 n :
  Forall (fun c => c <> 0) s1 -> Forall (fun c => c <> 0) s2 -> 0 <= n ->
  exists v, strncmp (s1 ++ 0 :: r1) (s2 ++ 0 :: r2) n = Some v /\ (v = 0 <-> ztake n s1 = ztake n s2).
Proof.
  intros H1 H2 Hn. unfold strncmp. destruct (Z.eqb_spec n 0) as [->|]; simpl.
  - exists 0. by split.
  - rewrite strncmp_spec by done. eexists. split; [reflexivity|]. apply compare_zero.
Qed.

(** * Witnesses *)

Lemma itoa_correct_witness :
  exists t, itoa (-2147483648) (replicate 12 7) 10 =
    Some (Some ([45; 50; 49; 52; 55; 52; 56; 51; 54; 52; 56] ++ 0 :: t)).
Proof.
  destruct (itoa_correct (-2147483648) (replicate 12 7) 10) as (t & E & _ & _); [by_decide..|].
  exists t. exact E.
Defined.

Lemma utoa_atou_hex_witness :
  exists out, utoa 3735928559 (replicate 9 7) 0 16 = Some (Some out) /\ zlen out = 9 /\
    atou_hex out 0 = Some 3735928559.
Proof. exact (utoa_atou_hex 3735928559 (replicate 9 7) ltac:(by_decide) ltac:(by_decide)). Defined.

Lemma strrmvspace_correct_witness :
  strrmvspace (replicate 8 7) [32; 9; 97; 32; 98; 32; 0] = Some (Some [97; 32; 98; 0; 0; 7; 7; 7]) /\
  strrmvspace (replicate 8 7) [32; 32; 0] = Some None.
Proof.
  split.
  - refine (eq_trans (strrmvspace_correct (replicate 8 7) [32; 9] [97; 32; 98] [32] [] _ _ _ _ _ _ _) _);
      try solve [by_decide | reflexivity].
    + intros s' c E. by destruct (app_inj_2 [97; 32] s' [98] [c] eq_refl E) as [_ [= <-]].
    + by intros c s' [= <- _].
  - refine (eq_trans (strrmvspace_correct (replicate 8 7) [32; 32] [] [] [] _ _ _ _ _ _ _) _);
      try solve [by_decide | reflexivity | by intros [] ? ? | by intros].
Defined.

Lemma Search_str_correct_witness :
  exists n, Search_str (Some ([72; 32; 50; 48; 48] ++ 0 :: [])) (Some ([50; 48] ++ 0 :: [])) = Some (Some n) /\
    n = 4 /\ occurs [72; 32; 50; 48; 48] [50; 48] (n - 2).
Proof.
  destruct (Search_str_correct [72; 32; 50; 48; 48] [] 50 [48] []) as (n & E & Hs & _); [by_decide..|].
  exists n. split; [exact E|]. assert (En : n = 4) by (vm_compute in E; congruence). split; [exact En|].
  destruct Hs as [->|Hs]; [discriminate En|exact Hs].
Defined.

Lemma strncmp_correct_witness :
  exists v, strncmp ([97; 98; 99] ++ 0 :: []) ([97; 98] ++ 0 :: []) 2 = Some v /\
    (v = 0 <-> ztake 2 [97; 98; 99] = ztake 2 [97; 98]).
Proof. exact (strncmp_correct [97; 98; 99] [97; 98] [] [] 2 ltac:(by_decide) ltac:(by_decide) ltac:(lia)). Defined.
