(* ===== verification/EdpBuffer.v ===== *)
(** The EDP byte buffer of [App/NuAgent/OneNet/EdpKit.c]: [NewBuffer],
    [CheckCapacity] and the [Read*]/[Write*] primitives, as state transformers
    over [Buffer] in the [M] monad of the prelude.

    [Writes m bs] and [Reads m bs a] are the interface the packet functions
    are proved against: [m] appends exactly [bs], respectively consumes
    exactly [bs] and returns [a]. *)
From S2P Require Import Prelude.

Record Buffer := mkBuffer {
  _data : list Z;
  _write_pos : Z;
  _read_pos : Z;
  _capacity : Z
}.

Definition BUFFER_SIZE : Z := 1500.

Definition set_data (b : Buffer) (d : list Z) : Buffer :=
  mkBuffer d (_write_pos b) (_read_pos b) (_capacity b).
Definition set_write_pos (b : Buffer) (w : Z) : Buffer :=
  mkBuffer (_data b) w (_read_pos b) (_capacity b).
Definition set_read_pos (b : Buffer) (r : Z) : Buffer :=
  mkBuffer (_data b) (_write_pos b) r (_capacity b).

(** [MOSQ_MSB], [MOSQ_LSB] *)
Definition MOSQ_MSB (a : Z) : Z := u8 (Z.shiftr (Z.land a 65280) 8).
Definition MOSQ_LSB (a : Z) : Z := u8 (Z.land a 255).

(** A C string is the list of its bytes before the terminator. *)
Definition is_cstr (s : list Z) : Prop := Forall (fun c => 0 < c < 256) s.

#[export] Instance is_cstr_dec s : Decision (is_cstr s).
Proof. unfold is_cstr. apply _. Defined.

(** The bytes before the first terminator. *)
Fixpoint cstr (l : list Z) : list Z :=
  match l with
  | [] => []
  | c :: l => if c =? 0 then [] else c :: cstr l
  end.

(** The doubling loop of [CheckCapacity]: the new capacity and [flag]. *)
Fixpoint grow (fuel : nat) (cap_len write_pos len flag : Z) : Z * Z :=
  match fuel with
  | O => (cap_len, flag)
  | S fuel =>
      if u32 (cap_len - write_pos) <? len then
        let cap_len := u32 (Z.shiftl cap_len 1) in
        let flag := flag + 1 in
        if 32 <? flag then (cap_len, flag)
        else grow fuel cap_len write_pos len flag
      else (cap_len, flag)
  end.

Section Buffer.
Context {HP : Heap}.

(** The header block of 16 bytes, then the data block; a failed allocation is
    dereferenced. *)
Definition NewBuffer : option Buffer :=
  _ ← malloc 16;
  d ← malloc BUFFER_SIZE;
  Some (mkBuffer d 0 0 BUFFER_SIZE).

Definition CheckCapacity (len : Z) : M Buffer unit := fun buf =>
  let '(cap_len, flag) := grow 33 (_capacity buf) (_write_pos buf) len 0 in
  if 32 <? flag then Err (-1) buf
  else if _capacity buf <? cap_len then
    match
      pdata ← malloc cap_len;
      old ← fetch (_data buf) 0 (_write_pos buf);
      blit pdata 0 old
    with
    | None => Crash
    | Some pdata => Done tt (mkBuffer pdata (_write_pos buf) (_read_pos buf) cap_len)
    end
  else Done tt buf.

(** ** Reading *)

Definition ReadByte : M Buffer Z := fun pkg =>
  if _write_pos pkg <? u32 (_read_pos pkg + 1) then Err (-1) pkg
  else match ld (_data pkg) (_read_pos pkg) with
       | None => Crash
       | Some v => Done v (set_read_pos pkg (u32 (_read_pos pkg + 1)))
       end.

Definition ReadBytes (count : Z) : M Buffer (list Z) := fun pkg =>
  if _write_pos pkg <? u32 (_read_pos pkg + count) then Err (-1) pkg
  else match
         _ ← malloc count;
         fetch (_data pkg) (_read_pos pkg) count
       with
       | None => Crash
       | Some v => Done v (set_read_pos pkg (u32 (_read_pos pkg + count)))
       end.

Definition ReadUint16 : M Buffer Z := fun pkg =>
  if _write_pos pkg <? u32 (_read_pos pkg + 2) then Err (-1) pkg
  else (msb ← access (fun p => ld (_data p) (_read_pos p));
        modify (fun p => set_read_pos p (u32 (_read_pos p + 1)));;
        lsb ← access (fun p => ld (_data p) (_read_pos p));
        modify (fun p => set_read_pos p (u32 (_read_pos p + 1)));;
        mret (u16 (Z.shiftl msb 8 + lsb))) pkg.

Fixpoint ReadUint32_loop (n : nat) (tmpval : Z) : M Buffer Z :=
  match n with
  | O => mret tmpval
  | S n =>
      d ← access (fun p => ld (_data p) (_read_pos p));
      modify (fun p => set_read_pos p (u32 (_read_pos p + 1)));;
      ReadUint32_loop n (Z.lor (u32 (Z.shiftl tmpval 8)) d)
  end.

Definition ReadUint32 : M Buffer Z := fun pkg =>
  if _write_pos pkg <? u32 (_read_pos pkg + 4) then Err (-1) pkg
  else ReadUint32_loop 4 0 pkg.

(** The part of [ReadStr] after the length.  The block is zeroed and [strncpy]
    stops at a terminator, so the caller's string is what precedes the first
    zero byte. *)
Definition ReadStr_body (len : Z) : M Buffer (list Z) := fun pkg =>
  if _write_pos pkg <? u32 (_read_pos pkg + len) then Err (-1) pkg
  else match
         _ ← malloc (len + 1);
         fetch (_data pkg) (_read_pos pkg) len
       with
       | None => Crash
       | Some v => Done (cstr v) (set_read_pos pkg (u32 (_read_pos pkg + len)))
       end.

Definition ReadStr : M Buffer (list Z) := len ← ReadUint16; ReadStr_body len.

(** The [do] loop; [len_len] counts the length bytes read. *)
Fixpoint ReadRemainlen_loop (fuel : nat) (len_val multiplier len_len : Z)
  : M Buffer Z :=
  match fuel with
  | O => crash
  | S fuel =>
      onebyte ← ReadByte;
      let len_val := u32 (len_val + Z.land onebyte 127 * multiplier) in
      let multiplier := u32 (multiplier * 128) in
      let len_len := len_len + 1 in
      if 4 <? len_len then fail (-1)
      else if Z.land onebyte 128 =? 0 then mret len_val
      else ReadRemainlen_loop fuel len_val multiplier len_len
  end.

Definition ReadRemainlen : M Buffer Z := ReadRemainlen_loop 5 0 1 0.

(** ** Writing *)

Definition assert_unread : M Buffer unit := massert (fun b => _read_pos b =? 0).

Definition WriteByte (byte : Z) : M Buffer unit :=
  assert_unread;;
  onerr (-1) (CheckCapacity 1);;
  d ← access (fun b => st (_data b) (_write_pos b) (u8 byte));
  modify (fun b => set_write_pos (set_data b d) (u32 (_write_pos b + 1))).

Definition WriteBytes (bytes : list Z) (count : Z) : M Buffer unit :=
  assert_unread;;
  onerr (-1) (CheckCapacity count);;
  d ← access (fun b => src ← fetch bytes 0 count; blit (_data b) (_write_pos b) src);
  modify (fun b => set_write_pos (set_data b d) (u32 (_write_pos b + count))).

Definition WriteUint16 (val : Z) : M Buffer unit :=
  assert_unread;;
  mor (WriteByte (MOSQ_MSB val)) (WriteByte (MOSQ_LSB val)).

Definition WriteUint32 (val : Z) : M Buffer unit :=
  assert_unread;;
  mor (mor (mor (WriteByte (Z.land (Z.shiftr val 24) 255))
                (WriteByte (Z.land (Z.shiftr val 16) 255)))
           (WriteByte (Z.land (Z.shiftr val 8) 255)))
      (WriteByte (Z.land val 255)).

Definition WriteStr (str : list Z) : M Buffer unit :=
  let length := u16 (zlen str) in
  assert_unread;;
  mor (WriteUint16 length) (WriteBytes (str ++ [0]) length).

(** The [do] loop stores without [CheckCapacity]. *)
Fixpoint WriteRemainlen_loop (fuel : nat) (remaining_length remaining_count : Z)
  : M Buffer unit :=
  match fuel with
  | O => crash
  | S fuel =>
      let byte := remaining_length mod 128 in
      let remaining_length := remaining_length / 128 in
      let byte := if 0 <? remaining_length then Z.lor byte 128 else byte in
      d ← access (fun b => st (_data b) (_write_pos b) byte);
      modify (fun b => set_write_pos (set_data b d) (u32 (_write_pos b + 1)));;
      let remaining_count := remaining_count + 1 in
      if (0 <? remaining_length) && (remaining_count <? 5)
      then WriteRemainlen_loop fuel remaining_length remaining_count
      else massert (fun _ => negb (remaining_count =? 5))
  end.

Definition WriteRemainlen (len_val : Z) : M Buffer unit :=
  assert_unread;; WriteRemainlen_loop 5 len_val 0.

End Buffer.

(** * Capacities *)

(** 1500 * 2^21, the largest capacity that doubling reaches in 32 bits. *)
Definition CAP_MAX : Z := 3145728000.

Definition cap_ok (c : Z) : Prop := exists k, 0 <= k <= 21 /\ c = BUFFER_SIZE * 2 ^ k.

Lemma cap_ok_range c : cap_ok c -> BUFFER_SIZE <= c <= CAP_MAX.
Proof.
  intros (k & Hk & ->). unfold BUFFER_SIZE.
  pose proof (Z.pow_le_mono_r 2 0 k). pose proof (Z.pow_le_mono_r 2 k 21).
  change CAP_MAX with (1500 * 2 ^ 21). lia.
Qed.

Lemma cap_ok_double c : cap_ok c -> c < CAP_MAX -> cap_ok (2 * c).
Proof.
  intros (k & Hk & ->) Hlt. exists (k + 1).
  assert (k < 21).
  { destruct (decide (k = 21)) as [->|]; [|lia]. vm_compute in Hlt. done. }
  split; [lia|]. rewrite Z.pow_add_r by lia. lia.
Qed.

(** Doublings that may still happen before a capacity reaches [CAP_MAX]. *)
Lemma cap_ok_steps c (n : nat) :
  cap_ok c -> c < CAP_MAX -> CAP_MAX < c * 2 ^ Z.of_nat (S n) ->
  CAP_MAX < 2 * c * 2 ^ Z.of_nat n.
Proof.
  intros _ _. rewrite Nat2Z.inj_succ, Z.pow_succ_r by lia. lia.
Qed.

Lemma grow_spec fuel : forall c wp len flag,
  cap_ok c -> 0 <= wp <= c -> 0 <= len -> wp + len <= CAP_MAX ->
  CAP_MAX < c * 2 ^ Z.of_nat fuel -> 0 <= flag -> flag + Z.of_nat fuel <= 33 ->
  exists c' flag', grow fuel c wp len flag = (c', flag') /\ flag' <= 32 /\
    cap_ok c' /\ c <= c' /\ wp + len <= c' /\ (c' = c \/ c < wp + len /\ c' < 2 * (wp + len)).
Proof.
  induction fuel as [|fuel IH]; intros c wp len flag Hc Hwp Hlen Hn Hf Hfl Hff.
  { pose proof (cap_ok_range c Hc). change (2 ^ Z.of_nat 0) with 1 in Hf. lia. }
  pose proof (cap_ok_range c Hc) as Hr. unfold BUFFER_SIZE, CAP_MAX in Hr.
  cbn [grow]. rewrite u32_small by word_lia.
  destruct (Z.ltb_spec (c - wp) len).
  - rewrite Z.shiftl_mul_pow2 by lia. change (2 ^ 1) with 2.
    assert (Hlt : c < CAP_MAX) by lia.
    pose proof (cap_ok_double c Hc Hlt) as Hd.
    pose proof (cap_ok_range _ Hd) as Hr2. unfold BUFFER_SIZE, CAP_MAX in Hr2.
    rewrite u32_small by word_lia.
    destruct (Z.ltb_spec 32 (flag + 1)).
    { assert (fuel = 0%nat) as -> by lia. change (2 ^ Z.of_nat 1) with 2 in Hf.
      unfold CAP_MAX in *. lia. }
    rewrite (Z.mul_comm c 2).
    destruct (IH (2 * c) wp len (flag + 1)) as (c' & flag' & E & ? & ? & ? & ? & Hor);
      try lia; [done|by apply cap_ok_steps|].
    exists c', flag'. rewrite E. repeat split; try done; try lia.
  - exists c, flag. repeat split; try done; try lia.
Qed.

Lemma grow_33 c wp len :
  cap_ok c -> 0 <= wp <= c -> 0 <= len -> wp + len <= CAP_MAX ->
  exists c' flag', grow 33 c wp len 0 = (c', flag') /\ flag' <= 32 /\
    cap_ok c' /\ c <= c' /\ wp + len <= c' /\ (c' = c \/ c < wp + len /\ c' < 2 * (wp + len)).
Proof.
  intros Hc ???. apply grow_spec; try done. pose proof (cap_ok_range c Hc) as Hr.
  unfold BUFFER_SIZE, CAP_MAX in *. change (2 ^ Z.of_nat 33) with 8589934592. lia.
Qed.

(** * Buffers being written and read *)

(** A buffer under construction: nothing has been read from it. *)
Record wbuf (lim : Z) (b : Buffer) : Prop := {
  wbuf_len : zlen (_data b) = _capacity b;
  wbuf_cap : cap_ok (_capacity b);
  wbuf_lim : _capacity b <= lim;
  wbuf_wp : 0 <= _write_pos b <= _capacity b;
  wbuf_rp : _read_pos b = 0;
  wbuf_bytes : Bytes (_data b)
}.

(** A buffer being read. *)
Record rbuf (lim : Z) (b : Buffer) : Prop := {
  rbuf_len : zlen (_data b) = _capacity b;
  rbuf_cap : 0 <= _capacity b <= lim;
  rbuf_rp : 0 <= _read_pos b <= _write_pos b;
  rbuf_wp : _write_pos b <= _capacity b;
  rbuf_bytes : Bytes (_data b)
}.

(** What has been written, and what is left to read. *)
Definition written (b : Buffer) : list Z := ztake (_write_pos b) (_data b).
Definition unread (b : Buffer) : list Z := zdrop (_read_pos b) (written b).

Lemma zlen_written_w lim b : wbuf lim b -> zlen (written b) = _write_pos b.
Proof. intros []. unfold written. zlen_lia. Qed.

Lemma zlen_unread lim b : rbuf lim b -> zlen (unread b) = _write_pos b - _read_pos b.
Proof. intros []. unfold unread, written. zlen_lia. Qed.

Lemma wbuf_rbuf lim b : wbuf lim b -> rbuf lim b /\ unread b = written b.
Proof.
  intros []. split.
  - split; done || lia.
  - unfold unread. apply zdrop_0. lia.
Qed.

(** A total length that fits: without growing, or growing under [lim]. *)
Definition fits (lim n : Z) : Prop :=
  n <= BUFFER_SIZE \/ 2 * n <= lim /\ n <= CAP_MAX.

Lemma fits_le lim n m : fits lim m -> n <= m -> fits lim n.
Proof. unfold fits. lia. Qed.

Section Specs.
Context {HP : Heap} (lim : Z) {HG : Grants lim}.

(** [m] appends exactly [bs]. *)
Definition Writes (m : M Buffer unit) (bs : list Z) : Prop :=
  forall b, wbuf lim b -> fits lim (_write_pos b + zlen bs) ->
  exists b', m b = Done tt b' /\ wbuf lim b' /\ written b' = written b ++ bs.

(** [m] consumes exactly [bs] and returns [a]. *)
Definition Reads {A} (m : M Buffer A) (bs : list Z) (a : A) : Prop :=
  forall b rest, rbuf lim b -> unread b = bs ++ rest ->
  exists b', m b = Done a b' /\ rbuf lim b' /\ unread b' = rest /\
    _data b' = _data b /\ _write_pos b' = _write_pos b /\
    _read_pos b' = _read_pos b + zlen bs.

Lemma CheckCapacity_spec b len :
  wbuf lim b -> 0 <= len -> fits lim (_write_pos b + len) ->
  exists b', CheckCapacity len b = Done tt b' /\ wbuf lim b' /\
    written b' = written b /\ _write_pos b' = _write_pos b /\
    _write_pos b + len <= _capacity b'.
Proof.
  intros Hb Hlen Hfit. pose proof (zlen_written_w _ _ Hb) as Hw.
  destruct Hb as [Hl Hc Hli Hwp Hrp Hby].
  pose proof (cap_ok_range _ Hc) as Hr.
  assert (Hmax : _write_pos b + len <= CAP_MAX).
  { destruct Hfit; unfold BUFFER_SIZE, CAP_MAX in *; lia. }
  destruct (grow_33 (_capacity b) (_write_pos b) len)
    as (c' & flag' & E & Hf & Hc' & Hle & Hfit' & Hor); try done.
  pose proof (cap_ok_range _ Hc') as Hr'. unfold fits, BUFFER_SIZE, CAP_MAX in *.
  unfold CheckCapacity. rewrite E.
  destruct (Z.ltb_spec 32 flag'); [lia|].
  destruct (Z.ltb_spec (_capacity b) c').
  - assert (Hg : c' <= lim) by (destruct Hfit; lia).
    destruct (granted (lim := lim) c' ltac:(lia)) as [pd Hpd].
    pose proof (malloc_len c' pd ltac:(lia) Hpd). pose proof (malloc_bytes _ _ Hpd).
    rewrite Hpd. simpl. rewrite fetch_spec by lia. simpl. rewrite (zdrop_0 0) by lia.
    fold (written b).
    destruct (blit pd 0 (written b)) as [pd'|] eqn:Ebl.
    2:{ rewrite blit_spec in Ebl by lia. done. }
    eexists. split; [done|]. simpl. split; [|split; [|split; [done|lia]]].
    + split; simpl; try done; try lia.
      * by rewrite (blit_length _ _ _ _ Ebl).
      * eapply Forall_blit; [done..|]. by apply Forall_ztake.
    + pose proof (blit_prefix _ _ _ _ Ebl) as Hp. unfold written at 1. simpl.
      rewrite <- Hw at 1. rewrite Z.add_0_l in Hp. rewrite Hp.
      by rewrite ztake_0 by lia.
  - exists b. split; [done|]. split; [by split|]. split; [done|]. split; [done|]. lia.
Qed.

Lemma store_spec b bs :
  wbuf lim b -> Bytes bs -> _write_pos b + zlen bs <= _capacity b ->
  exists d, blit (_data b) (_write_pos b) bs = Some d /\
    let b' := set_write_pos (set_data b d) (u32 (_write_pos b + zlen bs)) in
    wbuf lim b' /\ written b' = written b ++ bs.
Proof.
  intros [Hl Hc Hli Hwp Hrp Hby] Hbs Hfit.
  pose proof (cap_ok_range _ Hc) as Hr. unfold BUFFER_SIZE, CAP_MAX in Hr.
  pose proof (zlen_nonneg bs).
  destruct (blit _ _ bs) as [d|] eqn:E.
  2:{ rewrite blit_spec in E by lia. done. }
  exists d. split; [done|]. simpl. rewrite u32_small by word_lia. split.
  - split; simpl; try done; try lia.
    + by rewrite (blit_length _ _ _ _ E).
    + by eapply Forall_blit.
  - by apply blit_prefix in E.
Qed.

(** ** Composing writers *)

Lemma Writes_bind m1 m2 bs1 bs2 :
  Writes m1 bs1 -> Writes m2 bs2 -> Writes (m1;; m2) (bs1 ++ bs2).
Proof.
  intros H1 H2 b Hb Hf. pose proof (zlen_nonneg bs2).
  destruct (H1 b) as (b1 & E1 & Hb1 & W1);
    [done|eapply fits_le; [done|zlen_lia]|].
  destruct (H2 b1) as (b2 & E2 & Hb2 & W2); [done| |].
  { rewrite <- (zlen_written_w _ _ Hb1), W1. rewrite <- (zlen_written_w _ _ Hb) in Hf.
    eapply fits_le; [done|zlen_lia]. }
  exists b2. rewrite (bind_done _ _ _ _ _ E1). split; [done|]. split; [done|].
  by rewrite W2, W1, app_assoc.
Qed.

Lemma Writes_ret : Writes (mret tt) [].
Proof. intros b Hb _. exists b. by rewrite app_nil_r. Qed.

Lemma Writes_map (f : M Buffer unit -> M Buffer unit) m bs :
  (forall b b', m b = Done tt b' -> f m b = Done tt b') -> Writes m bs -> Writes (f m) bs.
Proof.
  intros Hf Hm b Hb Hfit. destruct (Hm b Hb Hfit) as (b' & E & ?).
  exists b'. split; [by apply Hf|done].
Qed.

Lemma Writes_ignore m bs : Writes m bs -> Writes (ignore m) bs.
Proof. apply (Writes_map ignore). intros. by apply ignore_done. Qed.

Lemma Writes_onerr c m bs : Writes m bs -> Writes (onerr c m) bs.
Proof. apply (Writes_map (onerr c)). intros. by apply onerr_done. Qed.

Lemma Writes_mor m1 m2 bs1 bs2 :
  Writes m1 bs1 -> Writes m2 bs2 -> Writes (mor m1 m2) (bs1 ++ bs2).
Proof. intros. apply Writes_onerr. by apply Writes_bind. Qed.

Lemma assert_unread_ok b : wbuf lim b -> assert_unread b = Done tt b.
Proof. intros []. unfold assert_unread, massert. by rewrite wbuf_rp0. Qed.

Lemma Writes_assert m bs : Writes m bs -> Writes (assert_unread;; m) bs.
Proof.
  intros Hm b Hb Hf. destruct (Hm b Hb Hf) as (b' & E & ?).
  exists b'. split; [|done]. by rewrite (bind_done _ _ _ _ _ (assert_unread_ok b Hb)).
Qed.

(** ** The primitive writers *)

Lemma Writes_WriteByte v : Writes (WriteByte v) [u8 v].
Proof.
  apply Writes_assert. intros b Hb Hf.
  destruct (CheckCapacity_spec b 1) as (b1 & E & Hb1 & W1 & P1 & C1); [done|lia|done|].
  rewrite (bind_done _ _ _ _ _ (onerr_done _ _ _ _ _ E)).
  destruct (store_spec b1 [u8 v]) as (d & Ed & Hb' & W'); [done| |change (zlen [u8 v]) with 1; lia|].
  { repeat constructor; apply u8_range. }
  eexists. split; [|split; [exact Hb'|by rewrite W', W1]].
  unfold mbind, M_bind, access. rewrite st_blit, Ed; [done|].
  destruct Hb1. lia.
Qed.

Lemma Writes_WriteBytes bytes count :
  Bytes bytes -> 0 <= count <= zlen bytes ->
  Writes (WriteBytes bytes count) (ztake count bytes).
Proof.
  intros Hby Hc. apply Writes_assert. intros b Hb Hf.
  assert (Hl : zlen (ztake count bytes) = count) by zlen_lia. rewrite Hl in Hf.
  destruct (CheckCapacity_spec b count) as (b1 & E & Hb1 & W1 & P1 & C1); [done|lia|done|].
  rewrite (bind_done _ _ _ _ _ (onerr_done _ _ _ _ _ E)).
  destruct (store_spec b1 (ztake count bytes)) as (d & Ed & Hb' & W');
    [done|by apply Forall_ztake|lia|].
  rewrite Hl in Hb', W'.
  eexists. split; [|split; [exact Hb'|by rewrite W', W1]].
  unfold mbind, M_bind, access. rewrite fetch_spec by lia. simpl.
  by rewrite (zdrop_0 0), Ed by lia.
Qed.

Lemma MOSQ_spec v : is_u16 v -> MOSQ_MSB v = v / 256 /\ MOSQ_LSB v = v mod 256.
Proof.
  intros Hv. unfold MOSQ_MSB, MOSQ_LSB. split.
  - rewrite Z.shiftr_land. change (Z.shiftr 65280 8) with 255.
    rewrite land_255, Z.shiftr_div_pow2 by lia. change (2 ^ 8) with 256. word_lia.
  - rewrite land_255. word_lia.
Qed.

Lemma Writes_WriteUint16 v : is_u16 v -> Writes (WriteUint16 v) (be16 v).
Proof.
  intros Hv. destruct (MOSQ_spec v Hv) as [E1 E2].
  apply Writes_assert. rewrite E1, E2.
  assert (be16 v = [u8 (v / 256)] ++ [u8 (v mod 256)]) as ->.
  { unfold be16. simpl. rewrite !u8_small by word_lia. done. }
  apply Writes_mor; apply Writes_WriteByte.
Qed.

Lemma Writes_WriteUint32 v : is_u32 v -> Writes (WriteUint32 v) (be32 v).
Proof.
  intros Hv. apply Writes_assert. rewrite !land_255, !Z.shiftr_div_pow2 by lia.
  change (2 ^ 24) with 16777216. change (2 ^ 16) with 65536. change (2 ^ 8) with 256.
  assert (be32 v = (([u8 (v / 16777216 mod 256)] ++ [u8 (v / 65536 mod 256)])
    ++ [u8 (v / 256 mod 256)]) ++ [u8 (v mod 256)]) as ->.
  { unfold be32. simpl. rewrite !u8_small by word_lia.
    by rewrite (Z.mod_small (v / 16777216)) by word_lia. }
  repeat apply Writes_mor; apply Writes_WriteByte.
Qed.

(** A length-prefixed string on the wire. *)
Definition wstr (s : list Z) : list Z := be16 (zlen s) ++ s.

Lemma is_cstr_bytes s : is_cstr s -> Bytes s.
Proof. apply Forall_impl. unfold is_u8. lia. Qed.

Lemma Writes_WriteStr s : is_cstr s -> zlen s < 65536 -> Writes (WriteStr s) (wstr s).
Proof.
  intros Hs Hl. pose proof (zlen_nonneg s).
  unfold WriteStr. rewrite u16_small by word_lia. apply Writes_assert.
  apply Writes_mor; [apply Writes_WriteUint16; word_lia|].
  pose proof (Writes_WriteBytes (s ++ [0]) (zlen s)) as HW.
  rewrite ztake_zlen_app in HW. apply HW; [|zlen_lia].
  apply Forall_app. split; [by apply is_cstr_bytes|]. repeat constructor; word_lia.
Qed.

(** ** The remaining-length code: base 128, least significant digit first, a
    set top bit meaning that more digits follow *)

Fixpoint remlen_digits (fuel : nat) (n : Z) : list Z :=
  match fuel with
  | O => []
  | S fuel => if n <? 128 then [n] else (n mod 128 + 128) :: remlen_digits fuel (n / 128)
  end.

Definition remlen (n : Z) : list Z := remlen_digits 4 n.

(** What four digits can express. *)
Definition REMLEN_MAX : Z := 268435456.

Lemma zlen_remlen_digits fuel n : zlen (remlen_digits fuel n) <= Z.of_nat fuel.
Proof.
  revert n. induction fuel as [|fuel IH]; intros n; [done|].
  cbn [remlen_digits]. case_match; rewrite zlen_cons; [change (zlen (@nil Z)) with 0; lia|].
  specialize (IH (n / 128)). lia.
Qed.

Lemma zlen_remlen n : 0 <= zlen (remlen n) <= 4.
Proof. split; [apply zlen_nonneg|apply (zlen_remlen_digits 4)]. Qed.

Lemma remlen_digits_bytes fuel n : 0 <= n -> Bytes (remlen_digits fuel n).
Proof.
  revert n. induction fuel as [|fuel IH]; intros n Hn; [constructor|].
  cbn [remlen_digits]. destruct (Z.ltb_spec n 128).
  - repeat constructor; word_lia.
  - constructor; [word_lia|]. apply IH. word_lia.
Qed.

Lemma WriteRemainlen_loop_spec fuel : forall b n count,
  wbuf lim b -> 0 <= n -> 1 <= Z.of_nat fuel <= 4 - count -> 0 <= count ->
  n < 128 ^ Z.of_nat fuel ->
  _write_pos b + zlen (remlen_digits fuel n) <= _capacity b ->
  exists b', WriteRemainlen_loop (S fuel) n count b = Done tt b' /\ wbuf lim b' /\
    written b' = written b ++ remlen_digits fuel n.
Proof.
  induction fuel as [|fuel IH]; intros b n count Hb Hn Hf Hc Hlt Hfit; [lia|].
  cbn [remlen_digits] in Hfit |- *. remember (S fuel) as fuel1.
  cbn [WriteRemainlen_loop].
  set (byte := if 0 <? n / 128 then _ else _).
  assert (Hbyte : byte = if n <? 128 then n else n mod 128 + 128).
  { unfold byte. destruct (Z.ltb_spec 0 (n / 128)), (Z.ltb_spec n 128); try word_lia.
    apply lor_128. word_lia. }
  assert (Hu8 : is_u8 byte).
  { rewrite Hbyte. destruct (Z.ltb_spec n 128); word_lia. }
  destruct (store_spec b [byte]) as (d & Ed & Hb1 & W1); [done|by repeat constructor; apply Hu8| |].
  { change (zlen [byte]) with 1. destruct (Z.ltb_spec n 128); rewrite zlen_cons in Hfit.
    - change (zlen (@nil Z)) with 0 in Hfit. lia.
    - pose proof (zlen_nonneg (remlen_digits fuel (n / 128))). lia. }
  change (zlen [byte]) with 1 in *.
  assert (Hacc : access (fun b => st (_data b) (_write_pos b) byte) b = Done d b).
  { unfold access. rewrite st_blit, Ed; [done|]. destruct Hb.
    destruct (Z.ltb_spec n 128); rewrite zlen_cons in Hfit;
      [change (zlen (@nil Z)) with 0 in Hfit|
       pose proof (zlen_nonneg (remlen_digits fuel (n / 128)))]; lia. }
  rewrite (bind_done _ _ _ _ _ Hacc).
  set (b1 := set_write_pos (set_data b d) (u32 (_write_pos b + 1))) in *.
  rewrite (bind_done _ _ _ tt b1) by done.
  destruct (Z.ltb_spec n 128).
  - assert (n / 128 = 0) as -> by word_lia. simpl.
    exists b1. rewrite Hbyte in W1. split; [|done].
    unfold massert. destruct (Z.eqb_spec (count + 1) 5); [lia|done].
  - destruct (Z.ltb_spec 0 (n / 128)); [|word_lia].
    assert (1 <= Z.of_nat fuel).
    { destruct fuel; [|lia]. subst. change (128 ^ Z.of_nat 1) with 128 in Hlt. lia. }
    destruct (Z.ltb_spec (count + 1) 5); [|lia]. simpl. subst fuel1.
    rewrite Nat2Z.inj_succ, Z.pow_succ_r in Hlt by lia.
    destruct (IH b1 (n / 128) (count + 1)) as (b' & E & Hb' & W');
      [done|lia|lia|lia|apply Z.div_lt_upper_bound; lia| |].
    + rewrite <- (zlen_written_w _ _ Hb1), W1, zlen_app.
      rewrite (zlen_written_w _ _ Hb). rewrite zlen_cons in Hfit.
      unfold b1. simpl. change (zlen [byte]) with 1. lia.
    + exists b'. split; [done|]. split; [done|]. by rewrite W', W1, Hbyte, <- app_assoc.
Qed.

Lemma WriteRemainlen_spec b n :
  wbuf lim b -> 0 <= n < REMLEN_MAX -> _write_pos b + 4 <= _capacity b ->
  exists b', WriteRemainlen n b = Done tt b' /\ wbuf lim b' /\
    written b' = written b ++ remlen n.
Proof.
  intros Hb Hn Hfit. unfold WriteRemainlen.
  rewrite (bind_done _ _ _ _ _ (assert_unread_ok b Hb)).
  pose proof (zlen_remlen n).
  apply WriteRemainlen_loop_spec; [done|lia|lia|lia|exact (proj2 Hn)|].
  unfold remlen in *. lia.
Qed.

(** ** Composing readers *)

Lemma Reads_bind {A B} (m : M Buffer A) (f : A -> M Buffer B) bs1 bs2 a c :
  Reads m bs1 a -> Reads (f a) bs2 c -> Reads (m ≫= f) (bs1 ++ bs2) c.
Proof.
  intros H1 H2 b rest Hb Hu. rewrite <- app_assoc in Hu.
  destruct (H1 b _ Hb Hu) as (b1 & E1 & Hb1 & U1 & D1 & P1 & R1).
  destruct (H2 b1 _ Hb1 U1) as (b2 & E2 & Hb2 & U2 & D2 & P2 & R2).
  exists b2. rewrite (bind_done _ _ _ _ _ E1). split; [done|]. split; [done|].
  rewrite zlen_app. repeat split; try congruence; lia.
Qed.

Lemma Reads_ret {A} (a : A) : Reads (mret a) [] a.
Proof. intros b rest Hb Hu. exists b. rewrite zlen_nil, Z.add_0_r. done. Qed.

Lemma Reads_onerr {A} c (m : M Buffer A) bs a : Reads m bs a -> Reads (onerr c m) bs a.
Proof.
  intros H b rest Hb Hu. destruct (H b rest Hb Hu) as (b' & E & ?).
  exists b'. by rewrite (onerr_done _ _ _ _ _ E).
Qed.

(** Moving the read position over a prefix of the unread bytes. *)
Lemma skip_spec b bs rest :
  rbuf lim b -> lim < 2147483648 -> unread b = bs ++ rest ->
  _read_pos b + zlen bs <= _write_pos b /\
  u32 (_read_pos b + zlen bs) = _read_pos b + zlen bs /\
  let b' := set_read_pos b (_read_pos b + zlen bs) in rbuf lim b' /\ unread b' = rest.
Proof.
  intros Hb Hlim Hu. pose proof (zlen_unread _ _ Hb) as Hl. rewrite Hu, zlen_app in Hl.
  pose proof (zlen_nonneg bs). pose proof (zlen_nonneg rest).
  destruct Hb as [H1 H2 H3 H4 H5]. split; [lia|]. split; [rewrite u32_small; word_lia|].
  split; [split; simpl; done || lia|].
  unfold unread, written. simpl. rewrite <- zdrop_zdrop by lia.
  change (zdrop (zlen bs) (unread b) = rest). rewrite Hu. apply zdrop_zlen_app.
Qed.

Lemma fetch_unread b bs rest :
  rbuf lim b -> unread b = bs ++ rest -> fetch (_data b) (_read_pos b) (zlen bs) = Some bs.
Proof.
  intros Hb Hu. pose proof (zlen_unread _ _ Hb) as Hl. rewrite Hu, zlen_app in Hl.
  pose proof (zlen_nonneg bs). pose proof (zlen_nonneg rest). destruct Hb as [H1 H2 H3 H4 H5].
  rewrite fetch_spec by lia. f_equal.
  transitivity (ztake (zlen bs) (unread b)); [|rewrite Hu; apply ztake_zlen_app].
  unfold unread, written. rewrite !ztake_zdrop by lia. f_equal. rewrite ztake_ztake. f_equal. lia.
Qed.

Lemma ld_unread b v rest :
  rbuf lim b -> unread b = v :: rest -> ld (_data b) (_read_pos b) = Some v.
Proof.
  intros Hb Hu. pose proof (fetch_unread b [v] rest Hb Hu) as Hf.
  change (zlen [v]) with 1 in Hf. unfold fetch in Hf.
  destruct ((0 <=? _read_pos b) && _ && _) eqn:E in Hf; [|done].
  rewrite !andb_true_iff, !Z.leb_le in E. destruct (ld_is_Some (_data b) (_read_pos b)) as [w Ew].
  { lia. }
  rewrite (ld_zdrop _ _ _ Ew) in Hf. rewrite Ew.
  injection Hf as Hf. congruence.
Qed.

Lemma Reads_ReadByte v : lim < 2147483648 -> Reads ReadByte [v] v.
Proof.
  intros Hlim b rest Hb Hu. destruct (skip_spec b [v] rest Hb Hlim Hu) as (H1 & H2 & H3 & H4).
  change (zlen [v]) with 1 in *. unfold ReadByte. rewrite H2.
  destruct (Z.ltb_spec (_write_pos b) (_read_pos b + 1)); [lia|].
  rewrite (ld_unread b v rest) by done. eexists. split; [done|]. done.
Qed.

Lemma Reads_ReadBytes bs : lim < 2147483648 -> Reads (ReadBytes (zlen bs)) bs bs.
Proof.
  intros Hlim b rest Hb Hu. destruct (skip_spec b bs rest Hb Hlim Hu) as (H1 & H2 & H3 & H4).
  pose proof (zlen_nonneg bs). unfold ReadBytes. rewrite H2.
  destruct (Z.ltb_spec (_write_pos b) (_read_pos b + zlen bs)); [lia|].
  destruct (granted (lim := lim) (zlen bs) ltac:(destruct Hb; lia)) as [blk ->]. simpl.
  rewrite (fetch_unread b bs rest) by done. eexists. split; [done|]. done.
Qed.

(** One byte at the read position, without a bounds test. *)
Lemma take_byte {A} b v rest (k : Z -> M Buffer A) :
  rbuf lim b -> lim < 2147483648 -> unread b = v :: rest ->
  let b' := set_read_pos b (_read_pos b + 1) in
  (d ← access (fun p => ld (_data p) (_read_pos p));
   modify (fun p => set_read_pos p (u32 (_read_pos p + 1)));; k d) b = k v b' /\
  rbuf lim b' /\ unread b' = rest.
Proof.
  intros Hb Hlim Hu b'. destruct (skip_spec b [v] rest Hb Hlim Hu) as (H1 & H2 & H3 & H4).
  change (zlen [v]) with 1 in *. split; [|done].
  rewrite (bind_done _ _ _ v b); [|unfold access; by rewrite (ld_unread b v rest)].
  rewrite (bind_done _ _ _ tt b'); [done|]. unfold modify. by rewrite H2.
Qed.

Lemma u16_be v : is_u16 v -> u16 (Z.shiftl (v / 256) 8 + v mod 256) = v.
Proof.
  intros Hv. rewrite Z.shiftl_mul_pow2 by lia. change (2 ^ 8) with 256. word_lia.
Qed.

Lemma Reads_ReadUint16 v : lim < 2147483648 -> is_u16 v -> Reads ReadUint16 (be16 v) v.
Proof.
  intros Hlim Hv b rest Hb Hu.
  destruct (skip_spec b (be16 v) rest Hb Hlim Hu) as (H1 & H2 & _).
  change (zlen (be16 v)) with 2 in *. unfold ReadUint16. rewrite H2.
  destruct (Z.ltb_spec (_write_pos b) (_read_pos b + 2)); [lia|].
  destruct (take_byte b (v / 256) ((v mod 256) :: rest)
    (fun msb => lsb ← access (fun p => ld (_data p) (_read_pos p));
        modify (fun p => set_read_pos p (u32 (_read_pos p + 1)));;
        mret (u16 (Z.shiftl msb 8 + lsb)))) as (E1 & Hb1 & U1); [done..|].
  rewrite E1.
  destruct (take_byte _ (v mod 256) rest
    (fun lsb => mret (u16 (Z.shiftl (v / 256) 8 + lsb))) Hb1 Hlim U1) as (E2 & Hb2 & U2).
  rewrite E2, u16_be by done. eexists. split; [reflexivity|].
  simpl. change (zlen (be16 v)) with 2. repeat split; done || (apply Hb2) || lia.
Qed.

Lemma ReadUint32_loop_spec bs : forall b rest tmp,
  rbuf lim b -> lim < 2147483648 -> unread b = bs ++ rest ->
  exists b', ReadUint32_loop (length bs) tmp b
      = Done (foldl (fun t d => Z.lor (u32 (Z.shiftl t 8)) d) tmp bs) b' /\
    rbuf lim b' /\ unread b' = rest /\ _data b' = _data b /\
    _write_pos b' = _write_pos b /\ _read_pos b' = _read_pos b + zlen bs.
Proof.
  induction bs as [|d bs IH]; intros b rest tmp Hb Hlim Hu.
  { exists b. by rewrite zlen_nil, Z.add_0_r. }
  cbn [length ReadUint32_loop foldl].
  destruct (take_byte b d (bs ++ rest)
    (fun d => ReadUint32_loop (length bs) (Z.lor (u32 (Z.shiftl tmp 8)) d)) Hb Hlim Hu)
    as (E & Hb1 & U1).
  rewrite E. edestruct IH as (b' & E' & ? & ? & ? & ? & R); [exact Hb1|done|exact U1|].
  exists b'. split; [exact E'|]. rewrite R, zlen_cons. simpl. repeat split; done || (apply H) || lia.
Qed.

Lemma lor_byte t d : 0 <= t < 16777216 -> is_u8 d ->
  Z.lor (u32 (Z.shiftl t 8)) d = t * 256 + d.
Proof.
  intros Ht Hd. rewrite u32_small.
  - rewrite (lor_shiftl_add t d 8) by (word_lia). lia.
  - rewrite Z.shiftl_mul_pow2 by lia. change (2 ^ 8) with 256. word_lia.
Qed.

Lemma Reads_ReadUint32 v : lim < 2147483648 -> is_u32 v -> Reads ReadUint32 (be32 v) v.
Proof.
  intros Hlim Hv b rest Hb Hu.
  destruct (skip_spec b (be32 v) rest Hb Hlim Hu) as (H1 & H2 & _).
  change (zlen (be32 v)) with 4 in *. unfold ReadUint32. rewrite H2.
  destruct (Z.ltb_spec (_write_pos b) (_read_pos b + 4)); [lia|].
  destruct (ReadUint32_loop_spec (be32 v) b rest 0) as (b' & E & Hrest); [done..|].
  exists b'. split; [|done]. change 4%nat with (length (be32 v)). rewrite E. f_equal.
  cbn [be32 foldl].
  rewrite (lor_byte 0), (lor_byte (0 * 256 + _)), (lor_byte (_ * 256 + v / 65536 mod 256)),
    (lor_byte (_ * 256 + v / 256 mod 256)) by word_lia.
  word_lia.
Qed.

Lemma cstr_id s : is_cstr s -> cstr s = s.
Proof.
  induction 1 as [|c s Hc Hs IH]; [done|]. simpl. rewrite IH.
  destruct (Z.eqb_spec c 0); [lia|done].
Qed.

Lemma Reads_ReadStr s :
  lim < 2147483648 -> is_cstr s -> zlen s < 65536 -> Reads ReadStr (wstr s) s.
Proof.
  intros Hlim Hs Hl. pose proof (zlen_nonneg s).
  intros b0 rest Hb0 Hu0. unfold wstr in Hu0. rewrite <- app_assoc in Hu0.
  destruct (Reads_ReadUint16 (zlen s) Hlim ltac:(word_lia) b0 _ Hb0 Hu0)
    as (b & E & Hb & Hu & D & P & R). change (zlen (be16 (zlen s))) with 2 in R.
  unfold ReadStr. rewrite (bind_done _ _ _ _ _ E).
  destruct (skip_spec b s rest Hb Hlim Hu) as (H1 & H2 & H3 & H4).
  unfold ReadStr_body. rewrite H2.
  destruct (Z.ltb_spec (_write_pos b) (_read_pos b + zlen s)); [lia|].
  assert (Hm : 0 <= zlen s + 1 <= lim).
  { destruct Hb0, Hb. lia. }
  destruct (granted (lim := lim) _ Hm) as [blk ->]. simpl.
  rewrite (fetch_unread b s rest) by done. rewrite cstr_id by done.
  eexists. split; [done|]. split; [done|]. split; [done|]. simpl.
  unfold wstr. rewrite zlen_app. change (zlen (be16 (zlen s))) with 2.
  repeat split; try congruence. lia.
Qed.

Lemma remlen_digit n : 0 <= n ->
  let v := n mod 128 + 128 in
  is_u8 v /\ Z.land v 127 = n mod 128 /\ (Z.land v 128 =? 0) = false.
Proof.
  intros Hn v. assert (is_u8 v) by (unfold v; word_lia). split; [done|].
  rewrite land_127, land_128_zero by done. unfold v.
  split; [word_lia|]. apply Z.ltb_ge. word_lia.
Qed.

Lemma ReadRemainlen_loop_spec fuel : forall n mult len_len acc,
  lim < 2147483648 -> 0 <= n < 128 ^ Z.of_nat fuel -> (0 < fuel)%nat ->
  0 <= len_len -> len_len + Z.of_nat fuel = 4 -> mult = 128 ^ len_len ->
  0 <= acc < mult ->
  Reads (ReadRemainlen_loop (S fuel) acc mult len_len) (remlen_digits fuel n)
    (acc + n * mult).
Proof.
  induction fuel as [|fuel IH]; intros n mult len_len acc Hlim Hn Hpos Hl Hlf Hm Hacc; [lia|].
  cbn [remlen_digits]. remember (S fuel) as fuel1. cbn [ReadRemainlen_loop]. subst fuel1.
  assert (Hmax : (n + 1) * mult <= 268435456).
  { change 268435456 with (128 ^ 4). rewrite <- Hlf, Z.pow_add_r by lia. nia. }
  destruct (Z.ltb_spec n 128).
  - rewrite <- (app_nil_r [n]). apply (Reads_bind _ _ _ _ n); [by apply Reads_ReadByte|].
    destruct (Z.ltb_spec 4 (len_len + 1)); [lia|].
    rewrite land_128_zero by word_lia. destruct (Z.ltb_spec n 128); [|lia].
    rewrite land_127, (Z.mod_small n 128), u32_small by (unfold is_u32; nia || lia).
    apply Reads_ret.
  - destruct (remlen_digit n) as (Hv & Hv1 & Hv2); [lia|].
    apply (Reads_bind _ _ [n mod 128 + 128] _ (n mod 128 + 128)); [by apply Reads_ReadByte|].
    destruct (Z.ltb_spec 4 (len_len + 1)); [lia|]. rewrite Hv1, Hv2.
    rewrite Nat2Z.inj_succ, Z.pow_succ_r in Hn by lia.
    assert (Hd : n = 128 * (n / 128) + n mod 128) by (apply Z.div_mod; lia).
    pose proof (Z.mod_pos_bound n 128 ltac:(lia)).
    assert (0 < fuel)%nat.
    { destruct fuel; [|lia]. change (128 ^ Z.of_nat 0) with 1 in Hn. lia. }
    rewrite !u32_small by (unfold is_u32; nia).
    replace (acc + n * mult) with (acc + n mod 128 * mult + n / 128 * (mult * 128)) by nia.
    apply IH; [lia|lia|lia|lia|lia| |nia].
    rewrite Z.pow_add_r, <- Hm by lia. lia.
Qed.

Lemma Reads_ReadRemainlen n :
  lim < 2147483648 -> 0 <= n < REMLEN_MAX -> Reads ReadRemainlen (remlen n) n.
Proof.
  intros Hlim Hn. pose proof (ReadRemainlen_loop_spec 4 n 1 0 0) as H.
  rewrite Z.mul_1_r, Z.add_0_l in H. apply H; try lia. exact Hn.
Qed.

End Specs.
