(* ===== verification/Double.v ===== *)
(** Binary64 arithmetic, as the firmware uses C's type [double].

    A double is an IEEE 754 number of the Standard Library's [spec_float]; the
    operations are those of [SpecFloat] at 53 bits of precision and exponents
    up to 1024, rounding to nearest, ties to even.  The theorems say that the
    arithmetic is exact on integers up to 2^53, which is what the agent's
    readings and the JSON numbers are.  The conversions of printf that the
    JSON printer uses are written out, correctly rounded; [LibM] stands for
    the two operations that C leaves open. *)
From S2P Require Import Prelude StrLib.
From Stdlib Require Import Floats.SpecFloat.

Definition double : Type := spec_float.
Definition dadd : double -> double -> double := SFadd 53 1024.
Definition dsub : double -> double -> double := SFsub 53 1024.
Definition dmul : double -> double -> double := SFmul 53 1024.

(** [(double)z] for an [int]. *)
Definition of_int (z : Z) : double := binary_normalize 53 1024 z 0 false.

(** The integer a double is truncated to; none for NaN and infinities. *)
Definition trunc (d : double) : option Z :=
  match d with
  | S754_zero _ => Some 0
  | S754_finite s m e =>
      Some (cond_Zopp s (if 0 <=? e then Z.pos m * 2 ^ e else Z.pos m / 2 ^ (- e)))
  | _ => None
  end.

Definition is_int (z : Z) : Prop := -2147483648 <= z < 2147483648.

#[export] Instance is_int_dec z : Decision (is_int z).
Proof. unfold is_int. apply _. Defined.

(** What C leaves to the implementation: how exact [pow] is (C99 F.9.4.4 fixes
    [pow(x, 0)]), and the value of [(int)d] outside the range of [int]. *)
Class LibM := {
  pow : double -> double -> double;
  pow_0 : forall x, pow x (of_int 0) = of_int 1;
  int_overflow : double -> Z;
  int_overflow_int : forall d, is_int (int_overflow d)
}.

(** [(int)d] *)
Definition to_int `{LibM} (d : double) : Z :=
  match trunc d with
  | Some z => if bool_decide (is_int z) then z else int_overflow d
  | None => int_overflow d
  end.

(** [floor(d)] *)
Definition dfloor (d : double) : double :=
  match d with
  | S754_finite s m e =>
      if 0 <=? e then d
      else
        let z := cond_Zopp s (Z.pos m) / 2 ^ (- e) in
        if z =? 0 then S754_zero s else of_int z
  | _ => d
  end.

(** * printf *)

(** A number in decimal; [pad0 w] fills up with zeros to [w] digits. *)
Definition dec (n : Z) : list Z := digits (S (S (Z.to_nat (Z.log2 n)))) 10 n.
Definition pad0 (w : Z) (n : Z) : list Z := replicate (Z.to_nat (w - zlen (dec n))) 48 ++ dec n.

(** ["%d"] *)
Definition fmt_d (n : Z) : list Z := if n <? 0 then 45 :: dec (- n) else dec n.

(** [num / den] rounded to the nearest integer, ties to even. *)
Definition round_half_even (num den : Z) : Z :=
  let q := num / den in
  match 2 * (num mod den) ?= den with
  | Lt => q
  | Gt => q + 1
  | Eq => if Z.even q then q else q + 1
  end.

(** [n] with [prec] digits behind the point. *)
Definition fixed (prec n : Z) : list Z :=
  dec (n / 10 ^ prec) ++ (if prec =? 0 then [] else 46 :: pad0 prec (n mod 10 ^ prec)).

Definition sign (s : bool) : list Z := if s then [45] else [].
Definition fmt_special (d : double) : list Z :=
  match d with
  | S754_infinity s => sign s ++ [105; 110; 102]
  | _ => [110; 97; 110]
  end.

(** ["%.<prec>f"] *)
Definition fmt_f (prec : Z) (d : double) : list Z :=
  match d with
  | S754_zero s => sign s ++ fixed prec 0
  | S754_finite s m e =>
      sign s ++ fixed prec
        (if 0 <=? e then Z.pos m * 2 ^ e * 10 ^ prec
         else round_half_even (Z.pos m * 10 ^ prec) (2 ^ (- e)))
  | _ => fmt_special d
  end.

(** Scale [num / den] into [1, 10), counting the powers of ten. *)
Fixpoint scale_down (fuel : nat) (num den x : Z) : Z * Z * Z :=
  match fuel with
  | S fuel => if 10 * den <=? num then scale_down fuel num (10 * den) (x + 1) else (num, den, x)
  | O => (num, den, x)
  end.

Fixpoint scale_up (fuel : nat) (num den x : Z) : Z * Z * Z :=
  match fuel with
  | S fuel => if num <? den then scale_up fuel (10 * num) den (x - 1) else (num, den, x)
  | O => (num, den, x)
  end.

(** ["%e"]: six digits behind the point, an exponent of at least two; a double
    lies between 10^-324 and 10^309. *)
Definition exp_text (n x : Z) : list Z :=
  fixed 6 n ++ [101; if x <? 0 then 45 else 43] ++ pad0 2 (Z.abs x).

Definition fmt_e (d : double) : list Z :=
  match d with
  | S754_zero s => sign s ++ exp_text 0 0
  | S754_finite s m e =>
      let '(num, den, x) := scale_down 310 (Z.pos m * 2 ^ Z.max 0 e) (2 ^ Z.max 0 (- e)) 0 in
      let '(num, den, x) := scale_up 330 num den x in
      let n := round_half_even (num * 10 ^ 6) den in
      sign s ++ (if n =? 10 ^ 7 then exp_text (10 ^ 6) (x + 1) else exp_text n x)
  | _ => fmt_special d
  end.

(** * The number of binary digits *)

Lemma digits_spec p : 2 ^ (Z.pos (digits2_pos p) - 1) <= Z.pos p < 2 ^ Z.pos (digits2_pos p).
Proof.
  induction p as [p IH|p IH|]; [| |done]; simpl digits2_pos; rewrite Pos2Z.inj_succ;
    replace (Z.succ (Z.pos (digits2_pos p)) - 1) with (Z.succ (Z.pos (digits2_pos p) - 1)) by lia;
    rewrite !Z.pow_succ_r by lia; lia.
Qed.

Lemma digits_unique p d : 2 ^ (d - 1) <= Z.pos p < 2 ^ d -> Z.pos (digits2_pos p) = d.
Proof.
  intros H. pose proof (digits_spec p) as H'. set (k := Z.pos (digits2_pos p)) in *.
  assert (0 <= d) by (destruct (Z.lt_ge_cases d 0); [rewrite (Z.pow_neg_r 2 d) in H by done; lia|done]).
  destruct (Z.lt_trichotomy k d) as [E|[E|E]]; [|done|].
  - assert (2 ^ k <= 2 ^ (d - 1)) by (apply Z.pow_le_mono_r; lia). lia.
  - assert (2 ^ d <= 2 ^ (k - 1)) by (apply Z.pow_le_mono_r; lia). lia.
Qed.

Lemma pow2_pos n : 0 <= n -> 0 < 2 ^ n.
Proof. intros. apply Z.pow_pos_nonneg; lia. Qed.

Lemma digits_shift m p j : Z.pos m = Z.pos p * 2 ^ j -> 0 <= j ->
  Z.pos (digits2_pos m) = Z.pos (digits2_pos p) + j.
Proof.
  intros E Hj. apply digits_unique. rewrite E. pose proof (digits_spec p).
  pose proof (pow2_pos j Hj).
  replace (Z.pos (digits2_pos p) + j - 1) with (Z.pos (digits2_pos p) - 1 + j) by lia.
  rewrite !Z.pow_add_r by lia. split; [apply Z.mul_le_mono_nonneg_r|apply Z.mul_lt_mono_pos_r]; lia.
Qed.

Lemma digits_le p d : 0 <= d -> Z.pos p < 2 ^ d -> Z.pos (digits2_pos p) <= d.
Proof.
  intros Hd H. pose proof (digits_spec p). apply Z.nlt_ge. intros Hlt.
  assert (2 ^ d <= 2 ^ (Z.pos (digits2_pos p) - 1)) by (apply Z.pow_le_mono_r; lia). lia.
Qed.

Lemma digits_mul p q : Z.pos (digits2_pos p) + Z.pos (digits2_pos q) - 1 <= Z.pos (digits2_pos (p * q)).
Proof.
  pose proof (digits_spec p). pose proof (digits_spec q).
  destruct (Z.lt_ge_cases (Z.pos (digits2_pos (p * q))) (Z.pos (digits2_pos p) + Z.pos (digits2_pos q) - 1)) as [Hlt|]; [|lia].
  pose proof (digits_spec (p * q)) as [_ H1]. rewrite Pos2Z.inj_mul in H1.
  assert (2 ^ Z.pos (digits2_pos (p * q)) <= 2 ^ (Z.pos (digits2_pos p) - 1 + (Z.pos (digits2_pos q) - 1)))
    by (apply Z.pow_le_mono_r; lia).
  rewrite Z.pow_add_r in H2 by lia. nia.
Qed.

(** * Rounding what is representable *)

Lemma iter_pos_nat {A} (f : A -> A) p : forall x, iter_pos f p x = Nat.iter (Pos.to_nat p) f x.
Proof.
  induction p as [p IH|p IH|]; intros x; cbn [iter_pos]; [| |done]; rewrite !IH.
  - replace (Pos.to_nat p~1) with (S (Pos.to_nat p + Pos.to_nat p)) by lia.
    by rewrite Nat.iter_succ_r, Nat.iter_add.
  - replace (Pos.to_nat p~0) with (Pos.to_nat p + Pos.to_nat p)%nat by lia.
    by rewrite Nat.iter_add.
Qed.

Lemma shr_1_double m : shr_1 (Build_shr_record (Z.pos m~0) false false) = Build_shr_record (Z.pos m) false false.
Proof. done. Qed.

Lemma shr_exact n : forall m q, Z.pos m = Z.pos q * 2 ^ Z.of_nat n ->
  Nat.iter n shr_1 (Build_shr_record (Z.pos m) false false) = Build_shr_record (Z.pos q) false false.
Proof.
  induction n as [|n IH]; intros m q E.
  - replace m with q by lia. done.
  - rewrite Nat.iter_succ_r. rewrite Nat2Z.inj_succ, Z.pow_succ_r in E by lia.
    destruct m as [m|m|]; [lia| |lia]. rewrite shr_1_double. apply IH. lia.
Qed.

(** The double with the value of the integer [p], of at most 53 digits. *)
Definition can (s : bool) (p : positive) : double :=
  S754_finite s (Z.to_pos (Z.pos p * 2 ^ (53 - Z.pos (digits2_pos p)))) (Z.pos (digits2_pos p) - 53).

Lemma to_pos_mul p j : 0 <= j -> Z.pos (Z.to_pos (Z.pos p * 2 ^ j)) = Z.pos p * 2 ^ j.
Proof. intros. apply Z2Pos.id. pose proof (pow2_pos j). nia. Qed.

Lemma fexp_small d : -1021 <= d -> fexp 53 1024 d = d - 53.
Proof. unfold fexp, emin. lia. Qed.

Lemma shr_zero mrs e : shr mrs e 0 = (mrs, e).
Proof. done. Qed.

Lemma binary_round_aux_can s m p j : Z.pos m = Z.pos p * 2 ^ j -> 0 <= j ->
  Z.pos (digits2_pos p) <= 53 <= Z.pos (digits2_pos m) ->
  binary_round_aux 53 1024 s (Z.pos m) (- j) loc_Exact = can s p.
Proof.
  intros E Hj [Hp Hm]. pose proof (digits_shift m p j E Hj) as Hd.
  set (d := Z.pos (digits2_pos p)) in *.
  assert (Ec : Z.pos (Z.to_pos (Z.pos p * 2 ^ (53 - d))) = Z.pos p * 2 ^ (53 - d)) by (apply to_pos_mul; lia).
  set (c := Z.to_pos (Z.pos p * 2 ^ (53 - d))) in *.
  assert (Dc : Z.pos (digits2_pos c) = 53) by (rewrite (digits_shift c p (53 - d)) by (done || lia); fold d; lia).
  assert (Sm : shr_fexp 53 1024 (Z.pos m) (- j) loc_Exact = (Build_shr_record (Z.pos c) false false, d - 53)).
  { unfold shr_fexp, Zdigits2. rewrite Hd, fexp_small by lia.
    replace (d + j + - j - 53 - - j) with (d + j - 53) by lia. simpl shr_record_of_loc.
    destruct (d + j - 53) as [|n|n] eqn:En; [|simpl|lia].
    - rewrite shr_zero. f_equal; [|lia]. f_equal. rewrite E, Ec. do 2 f_equal. lia.
    - rewrite iter_pos_nat, (shr_exact _ m c); [f_equal; lia|].
      rewrite E, Ec, positive_nat_Z, <- Z.mul_assoc, <- Z.pow_add_r by lia. do 2 f_equal. lia. }
  unfold binary_round_aux. rewrite Sm. simpl loc_of_shr_record. simpl round_nearest_even.
  unfold shr_fexp, Zdigits2. rewrite Dc, fexp_small by lia.
  replace (53 + (d - 53) - 53 - (d - 53)) with 0 by lia. cbn [shr shr_record_of_loc shr_m].
  unfold can. fold d. fold c. by rewrite (proj2 (Z.leb_le (d - 53) (1024 - 53))) by lia.
Qed.

Lemma shl_pos m n : Z.pos (Pos.iter xO m n) = Z.pos m * 2 ^ Z.pos n.
Proof.
  induction n as [|n IH] using Pos.peano_ind; [simpl; lia|].
  rewrite Pos.iter_succ, Pos2Z.inj_succ, Z.pow_succ_r by lia. lia.
Qed.

Lemma binary_round_can s m p j : Z.pos m = Z.pos p * 2 ^ j -> 0 <= j ->
  Z.pos (digits2_pos p) <= 53 -> binary_round 53 1024 s m (- j) = can s p.
Proof.
  intros E Hj Hp. pose proof (digits_shift m p j E Hj) as Hd.
  unfold binary_round. rewrite Hd, fexp_small by lia. unfold shl_align.
  destruct (_ - - j) as [|n|n] eqn:En.
  - apply (binary_round_aux_can s m p j); [done..|]. lia.
  - apply (binary_round_aux_can s m p j); [done..|]. lia.
  - pose proof (shl_pos m n) as Hs.
    replace (Z.pos (digits2_pos p) + j + - j - 53) with (- (j + Z.pos n)) by lia.
    assert (E' : Z.pos (Pos.iter xO m n) = Z.pos p * 2 ^ (j + Z.pos n)).
    { rewrite Hs, E, <- Z.mul_assoc, <- Z.pow_add_r by lia. done. }
    apply (binary_round_aux_can s _ p); [done|lia|].
    rewrite (digits_shift _ _ _ E'); lia.
Qed.

Lemma of_int_pos p : Z.pos (digits2_pos p) <= 53 -> of_int (Z.pos p) = can false p.
Proof. intros. apply (binary_round_can false p p 0); [|lia|done]. simpl. lia. Qed.

Lemma of_int_neg p : Z.pos (digits2_pos p) <= 53 -> of_int (Z.neg p) = can true p.
Proof. intros. apply (binary_round_can true p p 0); [|lia|done]. simpl. lia. Qed.

(** [z] is an integer of at most 53 binary digits. *)
Definition exact (z : Z) : Prop := Z.abs z < 2 ^ 53.

Lemma exact_digits z p : exact z -> Z.abs z = Z.pos p -> Z.pos (digits2_pos p) <= 53.
Proof. intros H E. apply digits_le; [lia|]. unfold exact in H. lia. Qed.

(** An exact integer as a double. *)
Lemma of_int_cases z : exact z ->
  z = 0 /\ of_int z = S754_zero false \/
  exists s p, z = cond_Zopp s (Z.pos p) /\ Z.pos (digits2_pos p) <= 53 /\ of_int z = can s p.
Proof.
  intros H. destruct z as [|p|p]; [by left|right..].
  - assert (D : Z.pos (digits2_pos p) <= 53) by by eapply exact_digits.
    exists false, p. auto using of_int_pos.
  - assert (D : Z.pos (digits2_pos p) <= 53) by by eapply exact_digits.
    exists true, p. auto using of_int_neg.
Qed.

(** * Exact arithmetic on integers *)

Lemma normalize_of_int z j : exact z -> 0 <= j -> binary_normalize 53 1024 (z * 2 ^ j) (- j) false = of_int z.
Proof.
  intros Hz Hj. pose proof (pow2_pos j Hj) as Hp. destruct z as [|p|p]; [done| |].
  - assert (D : Z.pos (digits2_pos p) <= 53) by by eapply exact_digits.
    rewrite of_int_pos by done. destruct (Z.pos p * 2 ^ j) as [|m|m] eqn:E; [lia| |lia].
    by apply binary_round_can.
  - assert (D : Z.pos (digits2_pos p) <= 53) by by eapply exact_digits.
    rewrite of_int_neg by done. destruct (Z.neg p * 2 ^ j) as [|m|m] eqn:E; [lia|lia|].
    apply binary_round_can; [lia|done..].
Qed.

Lemma shl_align_fst m e e' : e' <= e -> Z.pos (fst (shl_align m e e')) = Z.pos m * 2 ^ (e - e').
Proof.
  intros H. unfold shl_align. destruct (e' - e) as [|n|n] eqn:E; [|lia|].
  - replace (e - e') with 0 by lia. simpl. lia.
  - cbn [fst]. rewrite shl_pos. do 2 f_equal. lia.
Qed.

Lemma can_aligned s p ez : Z.pos (digits2_pos p) <= 53 -> ez <= Z.pos (digits2_pos p) - 53 ->
  cond_Zopp s (Z.pos (fst (shl_align (Z.to_pos (Z.pos p * 2 ^ (53 - Z.pos (digits2_pos p))))
    (Z.pos (digits2_pos p) - 53) ez))) = cond_Zopp s (Z.pos p) * 2 ^ (- ez).
Proof.
  intros D H. rewrite shl_align_fst by done. rewrite to_pos_mul by lia.
  rewrite <- Z.mul_assoc, <- Z.pow_add_r by lia.
  replace (53 - _ + (_ - 53 - ez)) with (- ez) by lia. destruct s; simpl cond_Zopp; lia.
Qed.

Lemma cond_Zopp_nonzero s p : cond_Zopp s (Z.pos p) <> 0.
Proof. by destruct s. Qed.

Lemma of_int_add a b : exact a -> exact b -> exact (a + b) -> dadd (of_int a) (of_int b) = of_int (a + b).
Proof.
  intros Ha Hb Hab.
  destruct (of_int_cases a Ha) as [[-> Ea]|(s & p & -> & Dp & Ea)],
    (of_int_cases b Hb) as [[-> Eb]|(t & q & -> & Dq & Eb)].
  - done.
  - rewrite Eb. simpl. rewrite Z.add_0_l, Eb. done.
  - rewrite Ea. simpl. rewrite Z.add_0_r, Ea. done.
  - rewrite Ea, Eb. unfold dadd, can, SFadd.
    set (ez := Z.min _ _). assert (Hez : ez <= 0) by lia.
    rewrite !can_aligned by lia. rewrite <- Z.mul_add_distr_r.
    pose proof (normalize_of_int _ (- ez) Hab ltac:(lia)) as E. by rewrite Z.opp_involutive in E.
Qed.

Lemma dsub_self z : exact z -> dsub (of_int z) (of_int z) = S754_zero false.
Proof.
  intros Hz. destruct (of_int_cases z Hz) as [[-> E]|(s & p & -> & D & E)]; [done|].
  rewrite E. unfold dsub, can, SFsub. by rewrite Z.sub_diag.
Qed.

Lemma of_int_mul a b : exact a -> exact b -> exact (a * b) -> (0 <= a /\ 0 <= b \/ a <> 0 /\ b <> 0) ->
  dmul (of_int a) (of_int b) = of_int (a * b).
Proof.
  intros Ha Hb Hab Hs.
  destruct (of_int_cases a Ha) as [[-> Ea]|(s & p & -> & Dp & Ea)],
    (of_int_cases b Hb) as [[-> Eb]|(t & q & -> & Dq & Eb)].
  - done.
  - rewrite Eb. destruct t; [|done]. simpl in Hs. lia.
  - rewrite Ea, Z.mul_0_r. destruct s; [|done]. simpl in Hs. lia.
  - assert (Epq : cond_Zopp s (Z.pos p) * cond_Zopp t (Z.pos q) = cond_Zopp (xorb s t) (Z.pos (p * q)))
      by (destruct s, t; simpl; lia).
    assert (Dpq : Z.pos (digits2_pos (p * q)) <= 53).
    { eapply exact_digits; [exact Hab|]. rewrite Epq. destruct (xorb s t); simpl; lia. }
    rewrite Epq, Ea, Eb. unfold dmul, can, SFmul.
    set (dp := Z.pos (digits2_pos p)) in *. set (dq := Z.pos (digits2_pos q)) in *.
    replace (dp - 53 + (dq - 53)) with (- (53 - dp + (53 - dq))) by lia.
    assert (Em : Z.pos (Z.to_pos (Z.pos p * 2 ^ (53 - dp)) * Z.to_pos (Z.pos q * 2 ^ (53 - dq)))
      = Z.pos (p * q) * 2 ^ (53 - dp + (53 - dq))).
    { rewrite !Pos2Z.inj_mul, !to_pos_mul, Z.pow_add_r by lia. lia. }
    rewrite (binary_round_aux_can _ _ (p * q) _ Em) by
      (try rewrite (digits_shift _ _ _ Em); pose proof (digits_mul p q); lia).
    symmetry. destruct (xorb s t); [by apply of_int_neg|by apply of_int_pos].
Qed.

(** * Comparison and truncation *)

Lemma trunc_of_int z : exact z -> trunc (of_int z) = Some z.
Proof.
  intros Hz. destruct (of_int_cases z Hz) as [[-> E]|(s & p & -> & D & E)]; [done|].
  rewrite E. unfold can, trunc. rewrite to_pos_mul by lia.
  destruct (Z.leb_spec 0 (Z.pos (digits2_pos p) - 53)).
  - replace (Z.pos (digits2_pos p) - 53) with 0 by lia. replace (53 - Z.pos (digits2_pos p)) with 0 by lia.
    by rewrite !Z.mul_1_r.
  - rewrite Z.opp_sub_distr. replace (- Z.pos (digits2_pos p) + 53) with (53 - Z.pos (digits2_pos p)) by lia.
    rewrite Z.div_mul by (pose proof (pow2_pos (53 - Z.pos (digits2_pos p))); lia). done.
Qed.

Lemma of_int_inj a b : exact a -> exact b -> of_int a = of_int b -> a = b.
Proof. intros Ha Hb E. pose proof (trunc_of_int a Ha). rewrite E, trunc_of_int in H by done. congruence. Qed.

(** The values a [double] can hold. *)
Definition valid (d : double) : Prop := valid_binary 53 1024 d = true.

(** The finite double [d] is [units d] times the smallest positive one, 2^-1074. *)
Definition units (d : double) : Z :=
  match d with
  | S754_finite s m e => cond_Zopp s (Z.pos m) * 2 ^ (e + 1074)
  | _ => 0
  end.

Definition finite (d : double) : Prop := match d with S754_nan | S754_infinity _ => False | _ => True end.

Lemma valid_bounds s m e : valid (S754_finite s m e) ->
  -1074 <= e <= 971 /\ Z.pos m < 2 ^ 53 /\ (-1074 < e -> 2 ^ 52 <= Z.pos m).
Proof.
  unfold valid, valid_binary, bounded, canonical_mantissa. intros H.
  apply andb_prop in H as [H1 H2]. apply Z.eqb_eq in H1. apply Z.leb_le in H2.
  unfold fexp, emin in H1. pose proof (digits_spec m) as [Hl Hu]. set (d := Z.pos (digits2_pos m)) in *.
  split; [lia|split].
  - eapply Z.lt_le_trans; [exact Hu|]. apply Z.pow_le_mono_r; lia.
  - intros He. assert (d = 53) as Ed by lia. by rewrite Ed in Hl.
Qed.

Lemma finite_compare_lt m1 e1 m2 e2 s1 s2 : valid (S754_finite s1 m1 e1) -> valid (S754_finite s2 m2 e2) ->
  e1 < e2 -> Z.pos m1 * 2 ^ (e1 + 1074) < Z.pos m2 * 2 ^ (e2 + 1074).
Proof.
  intros V1 V2 He. apply valid_bounds in V1 as (B1 & U1 & _). apply valid_bounds in V2 as (B2 & _ & L2).
  specialize (L2 ltac:(lia)). set (k := e1 + 1074). replace (e2 + 1074) with (k + 1 + (e2 - e1 - 1)) by lia.
  rewrite (Z.pow_add_r 2 (k + 1)), (Z.pow_add_r 2 k) by lia.
  pose proof (pow2_pos k ltac:(lia)). pose proof (pow2_pos (e2 - e1 - 1) ltac:(lia)).
  change (2 ^ 53) with (2 ^ 52 * 2) in U1. change (2 ^ 1) with 2.
  assert (Z.pos m1 < Z.pos m2 * 2) by lia.
  apply Z.lt_le_trans with (Z.pos m2 * 2 * 2 ^ k); [by apply Z.mul_lt_mono_pos_r; lia|]. nia.
Qed.

(** The comparison of the hardware is the comparison of the values. *)
Lemma SFcompare_units x y : valid x -> valid y -> finite x -> finite y ->
  SFcompare x y = Some (units x ?= units y).
Proof.
  intros Vx Vy Fx Fy.
  assert (Pos : forall s m e, valid (S754_finite s m e) -> 0 < 2 ^ (e + 1074))
    by (intros s m e V; apply valid_bounds in V; apply pow2_pos; lia).
  destruct x as [sx|sx| |sx mx ex], y as [sy|sy| |sy my ey]; try done.
  - unfold SFcompare, units. pose proof (Pos _ _ _ Vy). f_equal. symmetry.
    destruct sy; simpl cond_Zopp; [apply Z.compare_gt_iff|apply Z.compare_lt_iff]; nia.
  - unfold SFcompare, units. pose proof (Pos _ _ _ Vx). f_equal. symmetry.
    destruct sx; simpl cond_Zopp; [apply Z.compare_lt_iff|apply Z.compare_gt_iff]; nia.
  - pose proof (Pos _ _ _ Vx). pose proof (Pos _ _ _ Vy).
    pose proof (finite_compare_lt mx ex my ey sx sy Vx Vy) as L.
    pose proof (finite_compare_lt my ey mx ex sy sx Vy Vx) as G.
    unfold SFcompare, units. fold (Pos.compare mx my). f_equal. symmetry.
    destruct sx, sy; cbn [cond_Zopp]; rewrite ?Z.mul_opp_l.
    + destruct (Z.compare_spec ex ey) as [->|E|E].
      * change (Pos.compare mx my) with (Z.pos mx ?= Z.pos my). rewrite <- Z.compare_antisym.
        rewrite Z.compare_opp. symmetry. apply Zmult_compare_compat_r. lia.
      * apply Z.compare_gt_iff. specialize (L E). lia.
      * apply Z.compare_lt_iff. specialize (G E). lia.
    + apply Z.compare_lt_iff. nia.
    + apply Z.compare_gt_iff. nia.
    + destruct (Z.compare_spec ex ey) as [->|E|E].
      * change (Pos.compare mx my) with (Z.pos mx ?= Z.pos my). symmetry. apply Zmult_compare_compat_r. lia.
      * apply Z.compare_lt_iff. by apply L.
      * apply Z.compare_gt_iff. by apply G.
Qed.

Lemma of_int_finite z : exact z -> valid (of_int z) /\ finite (of_int z) /\ units (of_int z) = z * 2 ^ 1074.
Proof.
  intros Hz. destruct (of_int_cases z Hz) as [[-> E]|(s & p & -> & D & E)]; rewrite E; [done|].
  split; [|split; [done|]].
  - unfold valid, can, valid_binary, bounded, canonical_mantissa.
    rewrite (digits_shift _ p (53 - Z.pos (digits2_pos p))) by (try apply to_pos_mul; lia).
    rewrite fexp_small by lia. apply andb_true_intro. split; [apply Z.eqb_eq|apply Z.leb_le]; lia.
  - unfold can, units.
    assert (cond_Zopp s (Z.pos (Z.to_pos (Z.pos p * 2 ^ (53 - Z.pos (digits2_pos p)))))
      = cond_Zopp s (Z.pos p) * 2 ^ (53 - Z.pos (digits2_pos p))) as ->.
    { rewrite to_pos_mul by lia. destruct s; simpl cond_Zopp; lia. }
    rewrite <- Z.mul_assoc, <- Z.pow_add_r by lia. do 2 f_equal. lia.
Qed.

Lemma of_int_compare a b : exact a -> exact b -> SFcompare (of_int a) (of_int b) = Some (a ?= b).
Proof.
  intros Ha Hb. destruct (of_int_finite a Ha) as (? & ? & Ua), (of_int_finite b Hb) as (? & ? & Ub).
  rewrite SFcompare_units, Ua, Ub by done. f_equal. symmetry.
  apply Zmult_compare_compat_r. pose proof (pow2_pos 1074). lia.
Qed.

Lemma of_int_leb a b : exact a -> exact b -> SFleb (of_int a) (of_int b) = (a <=? b).
Proof. intros. unfold SFleb. rewrite of_int_compare by done. unfold Z.leb. by destruct (a ?= b). Qed.

Lemma of_int_eqb a b : exact a -> exact b -> SFeqb (of_int a) (of_int b) = (a =? b).
Proof.
  intros. unfold SFeqb. rewrite of_int_compare by done.
  destruct (Z.compare_spec a b), (Z.eqb_spec a b); done || lia.
Qed.

Lemma is_int_exact z : is_int z -> exact z.
Proof. unfold is_int, exact. change (2 ^ 53) with 9007199254740992. lia. Qed.

(** * Conversion, and the library *)

Lemma to_int_of_int `{LibM} z : is_int z -> to_int (of_int z) = z.
Proof.
  intros Hz. unfold to_int. rewrite trunc_of_int by by apply is_int_exact. by rewrite bool_decide_eq_true_2.
Qed.

Lemma to_int_int `{LibM} d : is_int (to_int d).
Proof. unfold to_int. repeat case_match; try apply int_overflow_int. by eapply bool_decide_eq_true_1. Qed.

(** A library: powers of ten (the only base used) by correctly rounded division, a conversion that
    gives the smallest [int] outside the range, as the x86 does. *)
Definition pow10 (x : double) : double :=
  match trunc x with
  | Some z =>
      if z <? 0 then SFdiv 53 1024 (of_int 1) (of_int (10 ^ Z.min 400 (- z)))
      else of_int (10 ^ Z.min 400 z)
  | None => S754_nan
  end.

#[export] Program Instance sim_libm : LibM := {|
  pow b x := if SFeqb x (of_int 0) then of_int 1 else pow10 x;
  int_overflow d := -2147483648
|}.
Solve Obligations with done.
