(* ===== verification/Json.v ===== *)
(** The JSON library, Lib/cJSON.c: the data, the functions that build and read
    it, and the printer.

    An item is a tree: [child] is the list that the C structure chains by its
    [next] pointers.  A string is the list of its bytes, without the
    terminator; a null pointer is [None].  A printing function computes the
    size of its block before it writes: [out_block] allocates that size and
    fails if text and terminator do not fit, so that a result other than
    [Undef] means that nothing was written behind the block.  The buffered
    printer (a [printbuffer] other than null) and the functions that replace,
    detach, insert or reference items have no caller. *)
From S2P Require Import Prelude Double StrLib EdpBuffer.
From Stdlib Require Import Floats.SpecFloat.

Definition cJSON_False : Z := 0.
Definition cJSON_True : Z := 1.
Definition cJSON_NULL : Z := 2.
Definition cJSON_Number : Z := 3.
Definition cJSON_String : Z := 4.
Definition cJSON_Array : Z := 5.
Definition cJSON_Object : Z := 6.

#[local] Unset Elimination Schemes.

Inductive cJSON := Item {
  type : Z;
  valuestring : option (list Z);
  valueint : Z;
  valuedouble : double;
  string : option (list Z);
  child : list cJSON
}.

#[local] Set Elimination Schemes.

(** * Results

    [Null] is a null pointer returned; [Undef] an access outside an object or
    through a null pointer. *)
Inductive res (A : Type) :=
  | Ok (a : A)
  | Null
  | Undef.
Arguments Ok {A} a.
Arguments Null {A}.
Arguments Undef {A}.

#[export] Instance res_ret : MRet res := fun A a => Ok a.
#[export] Instance res_bind : MBind res := fun A B f m =>
  match m with Ok a => f a | Null => Null | Undef => Undef end.

(** A pointer that is used without a test. *)
Definition deref {A} (m : res A) : res A := match m with Null => Undef | m => m end.
Definition of_option {A} (o : option A) : res A := match o with Some a => Ok a | None => Null end.

Section Heap.
Context `{HP : Heap}.

(** * Building and reading *)

(** [sizeof(cJSON)] and [sizeof(char * )] *)
Definition sizeof_cJSON : Z := 40.
Definition sizeof_ptr : Z := 4.

Definition blank : cJSON := Item 0 None 0 (S754_zero false) None [].

Definition cJSON_New_Item : res cJSON :=
  match malloc sizeof_cJSON with Some _ => Ok blank | None => Null end.

Definition cJSON_strdup (str : list Z) : option (list Z) :=
  match malloc (zlen str + 1) with Some _ => Some str | None => None end.

Definition cJSON_CreateNumber `{LibM} (num : double) : res cJSON :=
  _ ← cJSON_New_Item; Ok (Item cJSON_Number None (to_int num) num None []).
Definition cJSON_CreateString (s : list Z) : res cJSON :=
  _ ← cJSON_New_Item; Ok (Item cJSON_String (cJSON_strdup s) 0 (S754_zero false) None []).
Definition cJSON_CreateArray : res cJSON :=
  _ ← cJSON_New_Item; Ok (Item cJSON_Array None 0 (S754_zero false) None []).
Definition cJSON_CreateObject : res cJSON :=
  _ ← cJSON_New_Item; Ok (Item cJSON_Object None 0 (S754_zero false) None []).

Definition set_child (l : list cJSON) (c : cJSON) : cJSON :=
  Item (type c) (valuestring c) (valueint c) (valuedouble c) (string c) l.
Definition set_string (s : option (list Z)) (c : cJSON) : cJSON :=
  Item (type c) (valuestring c) (valueint c) (valuedouble c) s (child c).

(** The container is used unconditionally, a null item is ignored. *)
Definition cJSON_AddItemToArray (array item : res cJSON) : res cJSON :=
  array ← deref array;
  match item with
  | Ok item => Ok (set_child (child array ++ [item]) array)
  | Null => Ok array
  | Undef => Undef
  end.

Definition cJSON_AddItemToObject (object : res cJSON) (name : list Z) (item : res cJSON) : res cJSON :=
  match item with
  | Ok item => cJSON_AddItemToArray object (Ok (set_string (cJSON_strdup name) item))
  | Null => object
  | Undef => Undef
  end.

Definition cJSON_AddNumberToObject `{LibM} (object : res cJSON) (name : list Z) (n : double) : res cJSON :=
  cJSON_AddItemToObject object name (cJSON_CreateNumber n).
Definition cJSON_AddStringToObject (object : res cJSON) (name s : list Z) : res cJSON :=
  cJSON_AddItemToObject object name (cJSON_CreateString s).
End Heap.

(** [tolower] of the C library *)
Definition lower (c : Z) : Z := if (65 <=? c) && (c <=? 90) then c + 32 else c.

(** The comparison of two strings: 0 when they agree up to case. *)
Fixpoint strcasecmp_loop (s1 s2 : list Z) : Z :=
  match s1, s2 with
  | [], [] => 0
  | [], b :: _ => 0 - lower b
  | a :: _, [] => lower a
  | a :: s1, b :: s2 => if lower a =? lower b then strcasecmp_loop s1 s2 else lower a - lower b
  end.

Definition cJSON_strcasecmp (s1 s2 : option (list Z)) : Z :=
  match s1, s2 with
  | None, None => 0
  | None, Some _ => 1
  | Some _, None => 1
  | Some s1, Some s2 => strcasecmp_loop s1 s2
  end.

Definition cJSON_GetArraySize (array : cJSON) : Z := zlen (child array).

Definition cJSON_GetArrayItem (array : cJSON) (item : Z) : option cJSON := child array !! Z.to_nat item.

Definition cJSON_GetObjectItem (object : cJSON) (name : list Z) : option cJSON :=
  find (fun c => cJSON_strcasecmp (string c) (Some name) =? 0) (child object).

(** * Printing *)

(** Bytes of the texts the printer writes. *)
Definition t_quote : Z := 34.
Definition t_null : list Z := [110; 117; 108; 108].
Definition t_false : list Z := [102; 97; 108; 115; 101].
Definition t_true : list Z := [116; 114; 117; 101].

(** [fabs(x) <= DBL_EPSILON] *)
Definition DBL_EPSILON : double := S754_finite false 4503599627370496 (-104).
Definition tiny (x : double) : bool := SFleb (SFabs x) DBL_EPSILON.

(** The constants 1.0e60, 1.0e-6 and 1.0e9. *)
Definition d_1e60 : double := of_int (10 ^ 60).
Definition d_1em6 : double := SFdiv 53 1024 (of_int 1) (of_int 1000000).
Definition d_1e9 : double := of_int 1000000000.

(** The bytes that are written with a backslash. *)
Definition is_special (c : Z) : bool := (0 <? c) && (c <? 32) || (c =? 34) || (c =? 92).

(** The room counted for a byte in the first pass ... *)
Definition esc_len (c : Z) : Z :=
  if existsb (Z.eqb c) [34; 92; 8; 12; 10; 13; 9] then 2 else if c <? 32 then 6 else 1.

(** ... and what the second pass writes for it. *)
Definition esc (c : Z) : list Z :=
  if (31 <? c) && negb (c =? 34) && negb (c =? 92) then [c]
  else 92 ::
    (if c =? 92 then [92]
     else if c =? 34 then [34]
     else if c =? 8 then [98]
     else if c =? 12 then [102]
     else if c =? 10 then [110]
     else if c =? 13 then [114]
     else if c =? 9 then [116]
     else 117 :: [digit (c / 4096 mod 16); digit (c / 256 mod 16); digit (c / 16 mod 16); digit (c mod 16)]).

Definition sum (l : list Z) : Z := fold_right Z.add 0 l.

(** [entries] separated by [sep]. *)
Fixpoint join (sep : list Z) (entries : list (list Z)) : list Z :=
  match entries with
  | [] => []
  | [e] => e
  | e :: entries => e ++ sep ++ join sep entries
  end.

Definition tabs (n : Z) : list Z := replicate (Z.to_nat n) 9.
Definition if_fmt (fmt : bool) (l : list Z) : list Z := if fmt then l else [].

(** A member of an object: indentation, name, colon, value. *)
Definition member (fmt : bool) (depth : Z) (e : list Z * list Z) : list Z :=
  if_fmt fmt (tabs depth) ++ e.1 ++ [58] ++ if_fmt fmt [9] ++ e.2.

Section Print.
Context `{HP : Heap}.

(** A text written with its terminator into a new block of [size] bytes. *)
Definition out_block (size : Z) (text : list Z) : res (list Z) :=
  match malloc size with
  | Some out => match blit out 0 (text ++ [0]) with Some _ => Ok text | None => Undef end
  | None => Null
  end.

Definition print_number (item : cJSON) : res (list Z) :=
  let d := valuedouble item in
  if SFeqb d (of_int 0) then out_block 2 [48]
  else if tiny (dsub (of_int (valueint item)) d) && SFleb d (of_int 2147483647)
          && SFleb (of_int (-2147483648)) d
  then out_block 21 (fmt_d (valueint item))
  else out_block 64
    (if tiny (dsub (dfloor d) d) && SFltb (SFabs d) d_1e60 then fmt_f 0 d
     else if SFltb (SFabs d) d_1em6 || SFltb d_1e9 (SFabs d) then fmt_e d
     else fmt_f 6 d).

(** The pointer is used before it is tested. *)
Definition print_string_ptr (str : option (list Z)) : res (list Z) :=
  match str with
  | None => Undef
  | Some str =>
      if existsb is_special str
      then out_block (sum (map esc_len str) + 3) ([t_quote] ++ concat (map esc str) ++ [t_quote])
      else out_block (zlen str + 3) ([t_quote] ++ str ++ [t_quote])
  end.

Section Children.
Context (print_child : cJSON -> res (list Z)).

(** The texts of the elements, up to the first that fails. *)
Fixpoint array_entries (child : list cJSON) : res (list (list Z)) :=
  match child with
  | [] => Ok []
  | c :: child => ret ← print_child c; entries ← array_entries child; Ok (ret :: entries)
  end.

Definition print_array (fmt : bool) (child : list cJSON) : res (list Z) :=
  match child with
  | [] => out_block 3 [91; 93]
  | _ =>
      _ ← of_option (malloc (zlen child * sizeof_ptr));
      entries ← array_entries child;
      out_block (5 + sum (map (fun e => zlen e + 2 + (if fmt then 1 else 0)) entries))
        ([91] ++ join ([44] ++ if_fmt fmt [32]) entries ++ [93])
  end.

(** Names and values of the members; a failure is noticed when all are done. *)
Fixpoint object_entries (child : list cJSON) : res (list (list Z * list Z)) :=
  match child with
  | [] => Ok []
  | c :: child =>
      match print_string_ptr (string c), print_child c, object_entries child with
      | Undef, _, _ | _, Undef, _ | _, _, Undef => Undef
      | Ok str, Ok ret, Ok entries => Ok ((str, ret) :: entries)
      | _, _, _ => Null
      end
  end.

(** [depth] is that of the object itself. *)
Definition print_object (fmt : bool) (depth : Z) (child : list cJSON) : res (list Z) :=
  match child with
  | [] =>
      out_block (if fmt then depth + 4 else 3)
        ([123] ++ if_fmt fmt ([10] ++ tabs (depth - 1)) ++ [125])
  | _ =>
      _ ← of_option (malloc (zlen child * sizeof_ptr));
      _ ← of_option (malloc (zlen child * sizeof_ptr));
      let depth := depth + 1 in
      entries ← object_entries child;
      out_block (7 + (if fmt then depth else 0)
          + sum (map (fun e => zlen e.2 + zlen e.1 + 2 + (if fmt then 2 + depth else 0)) entries))
        ([123] ++ if_fmt fmt [10]
          ++ join ([44] ++ if_fmt fmt [10]) (map (member fmt depth) entries) ++ if_fmt fmt [10]
          ++ if_fmt fmt (tabs (depth - 1)) ++ [125])
  end.
End Children.

Fixpoint print_value (depth : Z) (fmt : bool) (item : cJSON) : res (list Z) :=
  let t := Z.land (type item) 255 in
  let strdup text := of_option (cJSON_strdup text) in
  if t =? cJSON_NULL then strdup t_null
  else if t =? cJSON_False then strdup t_false
  else if t =? cJSON_True then strdup t_true
  else if t =? cJSON_Number then print_number item
  else if t =? cJSON_String then print_string_ptr (valuestring item)
  else if t =? cJSON_Array then
    match item with Item _ _ _ _ _ child => print_array (print_value (depth + 1) fmt) fmt child end
  else if t =? cJSON_Object then
    match item with Item _ _ _ _ _ child => print_object (print_value (depth + 1) fmt) fmt depth child end
  else Null.

Definition cJSON_Print (item : cJSON) : res (list Z) := print_value 0 true item.
Definition cJSON_PrintUnformatted (item : cJSON) : res (list Z) := print_value 0 false item.
End Print.

(** * Parsing

    A pointer into the text is the list of the bytes from there to the end of
    the text's block; reading the empty list is reading behind the block.
    [PNull] is a null result, with the error pointer [ep] (null when memory
    was short); [PFuel] is not a behaviour of the code, and
    [JsonParse.cJSON_Parse_returns] shows that it does not occur. *)
Inductive pres (A : Type) :=
  | POk (a : A) (rest : list Z)
  | PNull (ep : option (list Z))
  | PUndef
  | PFuel.
Arguments POk {A} a rest.
Arguments PNull {A} ep.
Arguments PUndef {A}.
Arguments PFuel {A}.

(** Go on behind a parsed part; a null pointer is handed on. *)
Definition pbind {A B} (m : pres A) (k : A -> list Z -> pres B) : pres B :=
  match m with
  | POk a rest => k a rest
  | PNull ep => PNull ep
  | PUndef => PUndef
  | PFuel => PFuel
  end.

Definition defined {A B} (o : option A) (k : A -> pres B) : pres B :=
  match o with Some a => k a | None => PUndef end.

Definition is_digit (c : Z) : bool := (48 <=? c) && (c <=? 57).

(** Jump over white space and control characters. *)
Fixpoint skip (s : list Z) : option (list Z) :=
  match s with
  | [] => None
  | c :: s' => if c =? 0 then Some s else if c <=? 32 then skip s' else Some s
  end.

(** [!strncmp(value, keyword, strlen(keyword))] *)
Fixpoint starts (keyword s : list Z) : option bool :=
  match keyword, s with
  | [], _ => Some true
  | _, [] => None
  | k :: keyword, c :: s => if k =? c then starts keyword s else Some false
  end.

(** The three loops over digits: before the point, behind it, and in the
    exponent. *)
Definition ten : double := of_int 10.

Fixpoint int_digits (s : list Z) (n : double) : option (double * list Z) :=
  match s with
  | [] => None
  | c :: s' => if is_digit c then int_digits s' (dadd (dmul n ten) (of_int (c - 48))) else Some (n, s)
  end.

Fixpoint frac_digits (s : list Z) (n scale : double) : option (double * double * list Z) :=
  match s with
  | [] => None
  | c :: s' =>
      if is_digit c then frac_digits s' (dadd (dmul n ten) (of_int (c - 48))) (dsub scale (of_int 1))
      else Some (n, scale, s)
  end.

Fixpoint exp_digits (s : list Z) (subscale : Z) : option (Z * list Z) :=
  match s with
  | [] => None
  | c :: s' => if is_digit c then exp_digits s' (s32 (subscale * 10 + (c - 48))) else Some (subscale, s)
  end.

(** The exponent behind [e] or [E]. *)
Definition parse_exponent (num : list Z) : option (Z * Z * list Z) :=
  c ← head num;
  if (c =? 101) || (c =? 69) then
    let num := tail num in
    c ← head num;
    let '(signsubscale, num) :=
      if c =? 43 then (1, tail num) else if c =? 45 then (-1, tail num) else (1, num) in
    '(subscale, num) ← exp_digits num 0;
    Some (subscale, signsubscale, num)
  else Some (0, 1, num).

(** The stages of [parse_number]: point and exponent with the final product, ... *)
Definition after_digits `{LibM} (sgn n : double) (num : list Z) : option (cJSON * list Z) :=
  c ← head num;
  '(n, scale, num) ←
    (if c =? 46 then
       c1 ← head (tail num);
       if is_digit c1 then frac_digits (tail num) n (of_int 0) else Some (n, of_int 0, num)
     else Some (n, of_int 0, num));
  '(subscale, signsubscale, num) ← parse_exponent num;
  let n := dmul (dmul sgn n) (pow ten (dadd scale (of_int (s32 (subscale * signsubscale))))) in
  Some (Item cJSON_Number None (to_int n) n None [], num).

(** ... a leading zero and the digits before the point, ... *)
Definition before_point `{LibM} (sgn : double) (num : list Z) : option (cJSON * list Z) :=
  c ← head num;
  let num := if c =? 48 then tail num else num in
  c ← head num;
  '(n, num) ← (if (49 <=? c) && (c <=? 57) then int_digits num (of_int 0) else Some (of_int 0, num));
  after_digits sgn n num.

(** ... and the sign. *)
Definition parse_number `{LibM} (num : list Z) : option (cJSON * list Z) :=
  c ← head num;
  if c =? 45 then before_point (of_int (-1)) (tail num) else before_point (of_int 1) num.

(** The value of a hexadecimal digit; [None] for any other character. *)
Definition hex_value (c : Z) : option Z :=
  if is_digit c then Some (c - 48)
  else if (65 <=? c) && (c <=? 70) then Some (10 + c - 65)
  else if (97 <=? c) && (c <=? 102) then Some (10 + c - 97)
  else None.

(** Four hexadecimal digits; 0 when one of them is not. *)
Definition parse_hex4 (str : list Z) : Z :=
  default 0 (foldl (fun h c => h ← h; v ← hex_value c; Some (Z.shiftl h 4 + v)) (Some 0) str).

(** The UTF-8 bytes of a character; [len] as the code chooses it. *)
Definition utf8_len (uc : Z) : Z :=
  if uc <? 128 then 1 else if uc <? 2048 then 2 else if uc <? 65536 then 3 else 4.
Definition firstByteMark (len : Z) : Z := nth (Z.to_nat len) [0; 0; 192; 224; 240; 248; 252] 0.
Definition continuation (uc : Z) : Z := Z.land (Z.lor uc 128) 191.

Definition utf8 (uc : Z) : list Z :=
  let len := utf8_len uc in
  let first uc := u8 (Z.lor uc (firstByteMark len)) in
  if len =? 1 then [first uc]
  else if len =? 2 then [first (Z.shiftr uc 6); u8 (continuation uc)]
  else if len =? 3 then
    [first (Z.shiftr uc 12); u8 (continuation (Z.shiftr uc 6)); u8 (continuation uc)]
  else
    [first (Z.shiftr uc 18); u8 (continuation (Z.shiftr uc 12)); u8 (continuation (Z.shiftr uc 6));
     u8 (continuation uc)].

(** The first pass over a string: the room that is allocated. *)
Fixpoint scan_len (s : list Z) : option Z :=
  match s with
  | [] => None
  | c :: s =>
      if (c =? 34) || (c =? 0) then Some 0
      else if c =? 92 then
        match s with [] => None | _ :: s => len ← scan_len s; Some (1 + len) end
      else len ← scan_len s; Some (1 + len)
  end.

Definition is_high (uc : Z) : bool := (55296 <=? uc) && (uc <=? 56319).
Definition is_low (uc : Z) : bool := (56320 <=? uc) && (uc <=? 57343).

(** The character an escape letter stands for. *)
Definition escaped (e : Z) : Z :=
  if e =? 98 then 8 else if e =? 102 then 12 else if e =? 110 then 10
  else if e =? 114 then 13 else if e =? 116 then 9 else e.

(** The second pass: copy to [out] at [pos] up to the closing quote or the
    terminator.  Behind [\u] the four digits are skipped without a look at
    what they are; a text too short for them is read behind its end. *)
Fixpoint unescape (ptr : list Z) (out : list Z) (pos : Z) : option (list Z * list Z * Z) :=
  match ptr with
  | [] => None
  | c :: s1 =>
      if (c =? 34) || (c =? 0) then Some (ptr, out, pos)
      else if negb (c =? 92) then out ← st out pos c; unescape s1 out (pos + 1)
      else
        match s1 with
        | [] => None
        | e :: s2 =>
            if negb (e =? 117) then out ← st out pos (escaped e); unescape s2 out (pos + 1)
            else
              match s2 with
              | h1 :: h2 :: h3 :: h4 :: s3 =>
                  let uc := parse_hex4 [h1; h2; h3; h4] in
                  let put uc := blit out pos (utf8 uc) in
                  if is_low uc || (uc =? 0) then unescape s3 out pos
                  else if is_high uc then
                    match s3 with
                    | b :: s4 =>
                        if negb (b =? 92) then unescape s3 out pos
                        else
                          match s4 with
                          | u :: s5 =>
                              if negb (u =? 117) then unescape s3 out pos
                              else
                                match s5 with
                                | g1 :: g2 :: g3 :: g4 :: s6 =>
                                    let uc2 := parse_hex4 [g1; g2; g3; g4] in
                                    if negb (is_low uc2) then unescape s6 out pos
                                    else
                                      let uc := 65536 + Z.lor (Z.shiftl (Z.land uc 1023) 10) (Z.land uc2 1023) in
                                      out ← put uc; unescape s6 out (pos + utf8_len uc)
                                | _ => None
                                end
                          | [] => None
                          end
                    | [] => None
                    end
                  else out ← put uc; unescape s3 out (pos + utf8_len uc)
              | _ => None
              end
        end
  end.

(** A string ends at its first zero byte. *)
Fixpoint until_nul (l : list Z) : list Z :=
  match l with [] => [] | c :: l => if c =? 0 then [] else c :: until_nul l end.

Section Parse.
Context `{HP : Heap} `{LM : LibM}.

Definition parse_string (str : list Z) : pres (list Z) :=
  defined (head str) (fun c =>
    if negb (c =? 34) then PNull (Some str)
    else
      defined (scan_len (tail str)) (fun len =>
        match malloc (len + 1) with
        | None => PNull None
        | Some out =>
            defined (unescape (tail str) out 0) (fun '(ptr, out, pos) =>
              defined (st out pos 0) (fun out =>
                defined (head ptr) (fun c => POk (until_nul out) (if c =? 34 then tail ptr else ptr))))
        end)).

Section Values.
Context (parse_value : list Z -> pres cJSON).

(** [skip(value)], then a value, then [skip] again. *)
Definition parse_element (value : list Z) : pres cJSON :=
  match cJSON_New_Item with
  | Ok _ =>
      defined (skip value) (fun value =>
        pbind (parse_value value) (fun item value => defined (skip value) (POk item)))
  | _ => PNull None
  end.

(** The elements from the next one to the closing bracket. *)
Fixpoint parse_elements (fuel : nat) (value : list Z) : pres (list cJSON) :=
  match fuel with
  | O => PFuel
  | S fuel =>
      pbind (parse_element value) (fun item value =>
        defined (head value) (fun c =>
          if c =? 44 then
            pbind (parse_elements fuel (tail value)) (fun items value => POk (item :: items) value)
          else if c =? 93 then POk [item] (tail value)
          else PNull (Some value)))
  end.

Definition array (items : list cJSON) : cJSON := Item cJSON_Array None 0 (S754_zero false) None items.
Definition object (items : list cJSON) : cJSON := Item cJSON_Object None 0 (S754_zero false) None items.

(** [value] points to the opening bracket. *)
Definition parse_array (fuel : nat) (value : list Z) : pres cJSON :=
  defined (skip (tail value)) (fun value =>
    defined (head value) (fun c =>
      if c =? 93 then POk (array []) (tail value)
      else pbind (parse_elements fuel value) (fun items value => POk (array items) value))).

(** A member: name, colon and value. *)
Definition parse_member (value : list Z) : pres cJSON :=
  match cJSON_New_Item with
  | Ok _ =>
      defined (skip value) (fun value =>
        pbind (parse_string value) (fun name value =>
          defined (skip value) (fun value =>
            defined (head value) (fun c =>
              if negb (c =? 58) then PNull (Some value)
              else
                defined (skip (tail value)) (fun value =>
                  pbind (parse_value value) (fun item value =>
                    defined (skip value) (POk (set_string (Some name) item))))))))
  | _ => PNull None
  end.

Fixpoint parse_members (fuel : nat) (value : list Z) : pres (list cJSON) :=
  match fuel with
  | O => PFuel
  | S fuel =>
      pbind (parse_member value) (fun item value =>
        defined (head value) (fun c =>
          if c =? 44 then
            pbind (parse_members fuel (tail value)) (fun items value => POk (item :: items) value)
          else if c =? 125 then POk [item] (tail value)
          else PNull (Some value)))
  end.

(** [value] points to the opening brace. *)
Definition parse_object (fuel : nat) (value : list Z) : pres cJSON :=
  defined (skip (tail value)) (fun value =>
    defined (head value) (fun c =>
      if c =? 125 then POk (object []) (tail value)
      else pbind (parse_members fuel value) (fun items value => POk (object items) value))).
End Values.

Definition literal (type valueint : Z) : cJSON := Item type None valueint (S754_zero false) None [].

Fixpoint parse_value (fuel : nat) (value : list Z) : pres cJSON :=
  match fuel with
  | O => PFuel
  | S fuel =>
      defined (starts t_null value) (fun is_null =>
      if is_null then POk (literal cJSON_NULL 0) (drop 4 value) else
      defined (starts t_false value) (fun is_false =>
      if is_false then POk (literal cJSON_False 0) (drop 5 value) else
      defined (starts t_true value) (fun is_true =>
      if is_true then POk (literal cJSON_True 1) (drop 4 value) else
      defined (head value) (fun c =>
        if c =? 34 then
          pbind (parse_string value) (fun s value =>
            POk (Item cJSON_String (Some s) 0 (S754_zero false) None []) value)
        else if (c =? 45) || is_digit c then
          defined (parse_number value) (fun '(item, value) => POk item value)
        else if c =? 91 then parse_array (parse_value fuel) fuel value
        else if c =? 123 then parse_object (parse_value fuel) fuel value
        else PNull (Some value)))))
  end.

(** [text] is the block the text lies in. *)
Definition cJSON_ParseWithOpts (text : list Z) (require_null_terminated : bool) : pres cJSON :=
  match cJSON_New_Item with
  | Ok _ =>
      defined (skip text) (fun value =>
        pbind (parse_value (S (length text)) value) (fun c end_ =>
          if require_null_terminated then
            defined (skip end_) (fun end_ =>
              defined (head end_) (fun b => if b =? 0 then POk c end_ else PNull (Some end_)))
          else POk c end_))
  | _ => PNull None
  end.

Definition cJSON_Parse (text : list Z) : pres cJSON := cJSON_ParseWithOpts text false.

(** [cJSON_Parse(s)] for a string [s] at the end of its block. *)
Definition parse_text (s : list Z) : res cJSON :=
  match cJSON_Parse (s ++ [0]) with
  | POk c _ => Ok c
  | PNull _ => Null
  | PUndef | PFuel => Undef
  end.
End Parse.
