(* ===== verification/JsonPrint.v ===== *)
(** What the JSON printer writes.

    [json] is a JSON value, [repr] the tree of the library for it and [render]
    its text.  [print_value_repr]: the printer produces that text whenever
    memory suffices.  [cJSON_Print_safe]: on any tree with well-formed fields,
    doubles of every size included, it never writes behind one of its blocks. *)
From S2P Require Import Prelude Double StrLib EdpBuffer Json.
From Stdlib Require Import Floats.SpecFloat.

#[local] Unset Elimination Schemes.

Inductive json :=
  | JNull
  | JBool (b : bool)
  | JInt (n : Z)
  | JStr (s : list Z)
  | JArr (l : list json)
  | JObj (l : list (list Z * json)).

#[local] Set Elimination Schemes.

Section JsonInd.
Context (P : json -> Prop).
Hypothesis Hnull : P JNull.
Hypothesis Hbool : forall b, P (JBool b).
Hypothesis Hint : forall n, P (JInt n).
Hypothesis Hstr : forall s, P (JStr s).
Hypothesis Harr : forall l, Forall P l -> P (JArr l).
Hypothesis Hobj : forall l, Forall (fun e => P e.2) l -> P (JObj l).

Fixpoint json_induction (j : json) : P j :=
  match j with
  | JNull => Hnull
  | JBool b => Hbool b
  | JInt n => Hint n
  | JStr s => Hstr s
  | JArr l => Harr l ((fix go l : Forall P l :=
      match l with [] => Forall_nil_2 _ | j :: l => Forall_cons_2 _ _ _ (json_induction j) (go l) end) l)
  | JObj l => Hobj l ((fix go l : Forall (fun e => P e.2) l :=
      match l with [] => Forall_nil_2 _ | (k, j) :: l => Forall_cons_2 _ (k, j) _ (json_induction j) (go l) end) l)
  end.
End JsonInd.

(** The tree of a value; a member carries its name. *)
Fixpoint repr (j : json) : cJSON :=
  match j with
  | JNull => literal cJSON_NULL 0
  | JBool b => if b then literal cJSON_True 1 else literal cJSON_False 0
  | JInt n => Item cJSON_Number None n (of_int n) None []
  | JStr s => Item cJSON_String (Some s) 0 (S754_zero false) None []
  | JArr l => array (map repr l)
  | JObj l => object (map (fun e => set_string (Some e.1) (repr e.2)) l)
  end.

(** Strings without zero bytes, numbers that are an [int]. *)
Fixpoint wf (j : json) : Prop :=
  match j with
  | JNull | JBool _ => True
  | JInt n => is_int n
  | JStr s => is_cstr s
  | JArr l => (fix go l := match l with [] => True | j :: l => wf j /\ go l end) l
  | JObj l => (fix go l := match l with [] => True | (k, j) :: l => (is_cstr k /\ wf j) /\ go l end) l
  end.

Definition render_string (s : list Z) : list Z := [t_quote] ++ concat (map esc s) ++ [t_quote].

(** The text of a value; [depth] is the number of tabs in front of its members. *)
Fixpoint render (depth : Z) (fmt : bool) (j : json) : list Z :=
  match j with
  | JNull => t_null
  | JBool b => if b then t_true else t_false
  | JInt n => fmt_d n
  | JStr s => render_string s
  | JArr l => [91] ++ join ([44] ++ if_fmt fmt [32]) (map (render (depth + 1) fmt) l) ++ [93]
  | JObj [] => [123] ++ if_fmt fmt ([10] ++ tabs (depth - 1)) ++ [125]
  | JObj l =>
      [123] ++ if_fmt fmt [10]
        ++ join ([44] ++ if_fmt fmt [10])
             (map (fun e => member fmt (depth + 1) (render_string e.1, render (depth + 1) fmt e.2)) l)
        ++ if_fmt fmt [10] ++ if_fmt fmt (tabs (depth + 1 - 1)) ++ [125]
  end.

Lemma wf_arr l : wf (JArr l) <-> Forall wf l.
Proof. induction l as [|j l IH]; simpl in *; [done|]. rewrite Forall_cons_iff. tauto. Qed.

Lemma wf_obj l : wf (JObj l) <-> Forall (fun e => is_cstr e.1 /\ wf e.2) l.
Proof. induction l as [|[k j] l IH]; simpl in *; [done|]. rewrite Forall_cons_iff. tauto. Qed.

(** * Escaping *)

Lemma esc_plain c : is_u8 c -> c <> 0 -> is_special c = false -> esc c = [c].
Proof.
  intros Hc H0 Hs.
  pose proof (u8_forall (fun c => (c =? 0) || is_special c || bool_decide (esc c = [c])) ltac:(by vm_compute) c Hc) as E.
  cbv beta in E. rewrite Hs, orb_false_r in E. apply orb_true_iff in E as [E|E]; [lia|by apply bool_decide_eq_true in E].
Qed.

Lemma esc_plain_all s : is_cstr s -> existsb is_special s = false -> concat (map esc s) = s.
Proof.
  induction 1 as [|c s Hc Hs IH]; [done|]. intros E. simpl in E. apply orb_false_iff in E as [E1 E2].
  simpl. rewrite esc_plain, IH by (done || word_lia). done.
Qed.

Lemma esc_len_ok c : is_u8 c -> c <> 0 -> zlen (esc c) = esc_len c.
Proof.
  intros Hc H0.
  pose proof (u8_forall (fun c => (c =? 0) || (zlen (esc c) =? esc_len c)) ltac:(by vm_compute) c Hc) as E.
  cbv beta in E. apply orb_true_iff in E as [E|E]; lia.
Qed.

Lemma esc_len_sum s : is_cstr s -> zlen (concat (map esc s)) = sum (map esc_len s).
Proof.
  induction 1 as [|c s Hc Hs IH]; [done|]. cbn [map concat sum fold_right].
  rewrite zlen_app, esc_len_ok, IH by word_lia. done.
Qed.

Lemma fmt_d_length n : is_int n -> 1 <= zlen (fmt_d n) <= 11.
Proof.
  intros Hn. unfold fmt_d, dec, is_int in *.
  destruct (Z.ltb_spec n 0); [rewrite zlen_cons|];
    match goal with |- context [digits ?f 10 ?v] =>
      pose proof (digits_nonempty f 10 v ltac:(lia));
      pose proof (digits_length 10 ltac:(lia) 10 f v ltac:(lia) ltac:(change (10 ^ Z.of_nat 10) with 10000000000; lia))
    end; lia.
Qed.

(** * Blocks *)

Lemma zlen_join sep es : es <> [] -> zlen (join sep es) + zlen sep = sum (map (fun e => zlen e + zlen sep) es).
Proof.
  induction es as [|e es IH]; [done|]. intros _. destruct es as [|e' es]; [simpl; lia|].
  change (join sep (e :: e' :: es)) with (e ++ sep ++ join sep (e' :: es)).
  cbn [map sum fold_right] in *. rewrite !zlen_app. specialize (IH ltac:(done)). unfold sum in IH. simpl in IH |- *. lia.
Qed.

Lemma join_elem sep es e : e ∈ es -> zlen e <= zlen (join sep es).
Proof.
  induction es as [|x es IH]; [by intros ?%elem_of_nil|]. intros H.
  destruct es as [|y es].
  - by apply list_elem_of_singleton in H as ->.
  - change (join sep (x :: y :: es)) with (x ++ sep ++ join sep (y :: es)). rewrite !zlen_app.
    apply elem_of_cons in H as [->|H]; [zlen_lia|]. specialize (IH H). zlen_lia.
Qed.

Lemma join_count sep es : Forall (fun e => 1 <= zlen e) es -> zlen es <= zlen (join sep es).
Proof.
  induction 1 as [|x es Hx Hes IH]; [done|]. destruct es as [|y es]; [done|].
  change (join sep (x :: y :: es)) with (x ++ sep ++ join sep (y :: es)).
  rewrite zlen_cons, !zlen_app. zlen_lia.
Qed.

Lemma sum_le {A} (f g : A -> Z) l : (forall x, f x <= g x) -> sum (map f l) <= sum (map g l).
Proof. intros H. induction l as [|x l IH]; simpl; [lia|]. specialize (H x). lia. Qed.

Lemma sum_eq {A} (f g : A -> Z) l : (forall x, f x = g x) -> sum (map f l) = sum (map g l).
Proof. intros H. induction l as [|x l IH]; simpl; [done|]. rewrite H, IH. done. Qed.

Lemma sum_count {A} (f : A -> Z) k l : sum (map (fun x => f x + k) l) = sum (map f l) + k * zlen l.
Proof. unfold sum. induction l as [|x l IH]; cbn [map fold_right]; [change (zlen (@nil A)) with 0; lia|].
  rewrite IH, zlen_cons. lia. Qed.

(** The block of an array against its text. *)
Definition array_text (fmt : bool) (es : list (list Z)) : list Z :=
  [91] ++ join ([44] ++ if_fmt fmt [32]) es ++ [93].

Lemma array_block fmt es : es <> [] ->
  zlen (array_text fmt es) + 1 <= 5 + sum (map (fun e => zlen e + 2 + (if fmt then 1 else 0)) es)
    <= zlen (array_text fmt es) + 5 + zlen es.
Proof.
  intros He. unfold array_text. rewrite !zlen_app.
  pose proof (zlen_join ([44] ++ if_fmt fmt [32]) es He) as J.
  assert (sum (map (fun e => zlen e + 2 + (if fmt then 1 else 0)) es)
    = sum (map (fun e => zlen e + zlen ([44] ++ if_fmt fmt [32])) es) + 1 * zlen es) as ->.
  { rewrite <- sum_count. apply sum_eq. intros x. destruct fmt; simpl if_fmt; zlen_lia. }
  rewrite <- J. change (zlen [91]) with 1. change (zlen [93]) with 1.
  destruct fmt; simpl if_fmt; zlen_lia.
Qed.

(** The block of an object against its text: six bytes more. *)
Definition object_text (fmt : bool) (depth : Z) (es : list (list Z * list Z)) : list Z :=
  [123] ++ if_fmt fmt [10]
    ++ join ([44] ++ if_fmt fmt [10]) (map (member fmt depth) es) ++ if_fmt fmt [10]
    ++ if_fmt fmt (tabs (depth - 1)) ++ [125].

Lemma zlen_tabs n : 0 <= n -> zlen (tabs n) = n.
Proof. intros. unfold tabs, zlen. rewrite length_replicate. lia. Qed.

Lemma zlen_member fmt depth e : 0 <= depth ->
  zlen (member fmt depth e) = zlen e.2 + zlen e.1 + 1 + (if fmt then 1 + depth else 0).
Proof.
  intros. unfold member. destruct fmt; simpl if_fmt; rewrite !zlen_app; rewrite ?zlen_tabs by done;
    change (zlen [58]) with 1; change (zlen [9]) with 1; change (zlen (@nil Z)) with 0; lia.
Qed.

Lemma object_block (fmt : bool) depth es : es <> [] -> 1 <= depth ->
  7 + (if fmt then depth else 0)
    + sum (map (fun e : list Z * list Z => zlen e.2 + zlen e.1 + 2 + (if fmt then 2 + depth else 0)) es)
  = zlen (object_text fmt depth es) + 6.
Proof.
  intros He Hd. unfold object_text. rewrite !zlen_app.
  assert (Hm : map (member fmt depth) es <> []) by by destruct es.
  pose proof (zlen_join ([44] ++ if_fmt fmt [10]) _ Hm) as J. rewrite map_map in J.
  assert (sum (map (fun e : list Z * list Z => zlen e.2 + zlen e.1 + 2 + (if fmt then 2 + depth else 0)) es)
    = sum (map (fun e => zlen (member fmt depth e) + zlen ([44] ++ if_fmt fmt [10])) es)) as ->.
  { apply sum_eq. intros x. rewrite zlen_member by lia. destruct fmt; simpl if_fmt; zlen_lia. }
  rewrite <- J. change (zlen [123]) with 1. change (zlen [125]) with 1.
  destruct fmt; simpl if_fmt; rewrite ?zlen_tabs by lia; zlen_lia.
Qed.

(** * The printer prints the value *)

Lemma render_nonempty depth fmt j : wf j -> 1 <= zlen (render depth fmt j).
Proof.
  destruct j as [|[]|n|s|l|[|e l]]; intros Hw; cbn [render]; unfold render_string; try done;
    [by apply fmt_d_length|zlen_lia..].
Qed.

Lemma print_value_named `{Heap} depth fmt s c : print_value depth fmt (set_string s c) = print_value depth fmt c.
Proof. by destruct c. Qed.

Section Granted.
Context `{HP : Heap} (lim : Z) {HG : Grants lim}.
Hypothesis Hlim : lim < 2147483648.

Lemma alloc_ok n : 0 <= n <= lim -> exists b, malloc n = Some b.
Proof. intros Hn. apply (HG n Hn). Qed.

Lemma out_block_ok size text : zlen text + 1 <= size <= lim -> out_block size text = Ok text.
Proof.
  intros Hs. pose proof (zlen_nonneg text). unfold out_block.
  destruct (alloc_ok size ltac:(lia)) as [b Eb]. rewrite Eb.
  rewrite blit_spec; [done|lia|]. rewrite (malloc_len size b ltac:(lia) Eb), zlen_app. change (zlen [0]) with 1. lia.
Qed.

Lemma strdup_ok text : zlen text + 1 <= lim -> cJSON_strdup text = Some text.
Proof.
  intros Hs. pose proof (zlen_nonneg text). unfold cJSON_strdup.
  by destruct (alloc_ok (zlen text + 1) ltac:(lia)) as [b ->].
Qed.

Lemma print_int n : is_int n -> 64 <= lim ->
  print_number (Item cJSON_Number None n (of_int n) None []) = Ok (fmt_d n).
Proof.
  intros Hn Hl. pose proof (is_int_exact n Hn) as He. pose proof (fmt_d_length n Hn).
  unfold print_number. cbn [valuedouble valueint]. rewrite of_int_eqb by done.
  destruct (Z.eqb_spec n 0) as [->|]; [apply (out_block_ok 2 [48]); change (zlen [48]) with 1; lia|].
  rewrite dsub_self, !of_int_leb by done. unfold is_int in Hn.
  rewrite (proj2 (Z.leb_le n _)), (proj2 (Z.leb_le _ n)) by lia. apply out_block_ok. lia.
Qed.

Lemma print_string_ok s : is_cstr s -> zlen (render_string s) + 1 <= lim ->
  print_string_ptr (Some s) = Ok (render_string s).
Proof.
  intros Hs Hl. unfold print_string_ptr. destruct (existsb is_special s) eqn:E.
  - apply out_block_ok. rewrite <- esc_len_sum by done. unfold render_string in *. rewrite !zlen_app in *.
    change (zlen [t_quote]) with 1 in *. lia.
  - unfold render_string in *. rewrite esc_plain_all in * by done. apply out_block_ok.
    rewrite !zlen_app in *. change (zlen [t_quote]) with 1 in *. lia.
Qed.

Lemma array_entries_ok print (f : json -> list Z) l : Forall (fun j => print (repr j) = Ok (f j)) l ->
  array_entries print (map repr l) = Ok (map f l).
Proof. induction 1 as [|j l E _ IH]; [done|]. cbn [map array_entries]. rewrite E. simpl. by rewrite IH. Qed.

Lemma object_entries_ok print (f : json -> list Z) l :
  Forall (fun e => print_string_ptr (Some e.1) = Ok (render_string e.1) /\
    print (set_string (Some e.1) (repr e.2)) = Ok (f e.2)) l ->
  object_entries print (map (fun e => set_string (Some e.1) (repr e.2)) l)
    = Ok (map (fun e => (render_string e.1, f e.2)) l).
Proof.
  induction 1 as [|[k j] l [E1 E2] _ IH]; [done|]. cbn [map object_entries fst snd] in *.
  cbn [string set_string]. by rewrite E1, E2, IH.
Qed.

(** A granted array. *)
Lemma print_array_ok print (f : json -> list Z) fmt l :
  Forall (fun j => print (repr j) = Ok (f j) /\ 1 <= zlen (f j)) l ->
  4 * zlen (array_text fmt (map f l)) + 64 <= lim ->
  print_array print fmt (map repr l) = Ok (array_text fmt (map f l)).
Proof.
  intros Hf Hl. destruct l as [|j l].
  { apply (out_block_ok 3 [91; 93]). change (zlen (array_text _ _)) with 2 in Hl. change (zlen [91; 93]) with 2. lia. }
  set (js := j :: l) in *.
  assert (Hn : map f js <> []) by done.
  pose proof (array_block fmt (map f js) Hn) as B.
  pose proof (join_count ([44] ++ if_fmt fmt [32]) (map f js)) as C.
  assert (Forall (fun e => 1 <= zlen e) (map f js)) as Hc by (apply Forall_map; eapply Forall_impl; [|exact Hf]; simpl; tauto).
  specialize (C Hc). unfold array_text in *. rewrite !zlen_app in *. change (zlen [91]) with 1 in *. change (zlen [93]) with 1 in *.
  unfold print_array. subst js. cbn [map].
  destruct (alloc_ok (zlen (repr j :: map repr l) * sizeof_ptr)) as [b Eb].
  { unfold sizeof_ptr. unfold zlen in *. cbn [map length] in *. rewrite length_map in *. lia. }
  cbn [map] in *. rewrite Eb. simpl of_option. cbn [mbind res_bind].
  change (repr j :: map repr l) with (map repr (j :: l)). rewrite (array_entries_ok print f).
  - cbn [mbind res_bind]. apply out_block_ok. rewrite !zlen_app.
    change (zlen [91]) with 1. change (zlen [93]) with 1. cbn [map]. lia.
  - eapply Forall_impl; [|exact Hf]. simpl. tauto.
Qed.

(** A granted object. *)
Lemma print_object_ok print (f : json -> list Z) (fmt : bool) depth l : 0 <= depth -> l <> [] ->
  Forall (fun e => print_string_ptr (Some e.1) = Ok (render_string e.1) /\
    print (set_string (Some e.1) (repr e.2)) = Ok (f e.2)) l ->
  let es := map (fun e => (render_string e.1, f e.2)) l in
  4 * zlen (object_text fmt (depth + 1) es) + 64 <= lim ->
  print_object print fmt depth (map (fun e => set_string (Some e.1) (repr e.2)) l)
    = Ok (object_text fmt (depth + 1) es).
Proof.
  intros Hd Hl Hf es Hs.
  assert (He : es <> []) by by destruct l.
  pose proof (object_block fmt (depth + 1) es He ltac:(lia)) as B.
  pose proof (join_count ([44] ++ if_fmt fmt [10]) (map (member fmt (depth + 1)) es)) as C.
  assert (Forall (fun e => 1 <= zlen e) (map (member fmt (depth + 1)) es)) as Hc.
  { apply Forall_map, List.Forall_forall. intros e _. rewrite zlen_member by lia. destruct fmt; zlen_lia. }
  specialize (C Hc). set (T := zlen (object_text fmt (depth + 1) es)) in *.
  assert (HT : zlen (join ([44] ++ if_fmt fmt [10]) (map (member fmt (depth + 1)) es)) <= T)
    by (unfold T, object_text; destruct fmt; simpl if_fmt; zlen_lia).
  assert (Hn : zlen (map (fun e => set_string (Some e.1) (repr e.2)) l) <= T)
    by (unfold es, zlen in *; rewrite !length_map in *; lia).
  destruct (alloc_ok (zlen (map (fun e => set_string (Some e.1) (repr e.2)) l) * sizeof_ptr)) as [b Eb].
  { unfold sizeof_ptr. pose proof (zlen_nonneg (map (fun e => set_string (Some e.1) (repr e.2)) l)). lia. }
  unfold print_object. destruct l as [|e l]; [done|]. cbn [map] in *. rewrite Eb. simpl of_option.
  cbn [mbind res_bind]. rewrite <- (map_cons (fun e => set_string (Some e.1) (repr e.2))).
  rewrite (object_entries_ok print f) by done. cbn [mbind res_bind]. fold es. apply out_block_ok.
  pose proof (zlen_nonneg (object_text fmt (depth + 1) es)) as H0. fold T in H0.
  split; [apply Z.le_trans with (T + 6); [fold T; lia|by rewrite <- B]|].
  apply Z.le_trans with (T + 6); [by rewrite <- B|lia].
Qed.

Lemma zlen_member_value fmt depth k v : zlen k <= zlen (member fmt depth (k, v)) /\ zlen v <= zlen (member fmt depth (k, v)).
Proof. unfold member. cbn [fst snd]. zlen_lia. Qed.

Lemma render_elem fmt depth l j : j ∈ l -> zlen (render (depth + 1) fmt j) <= zlen (render depth fmt (JArr l)).
Proof.
  intros Hj. cbn [render]. rewrite !zlen_app.
  pose proof (join_elem ([44] ++ if_fmt fmt [32]) (map (render (depth + 1) fmt) l) (render (depth + 1) fmt j)) as H.
  specialize (H ltac:(by apply list_elem_of_fmap_2)). zlen_lia.
Qed.

Lemma render_member fmt depth l e : e ∈ l ->
  zlen (render_string e.1) <= zlen (render depth fmt (JObj l)) /\
  zlen (render (depth + 1) fmt e.2) <= zlen (render depth fmt (JObj l)).
Proof.
  intros He. destruct l as [|e0 l]; [by apply elem_of_nil in He|]. cbn [render].
  pose proof (zlen_member_value fmt (depth + 1) (render_string e.1) (render (depth + 1) fmt e.2)).
  pose proof (join_elem ([44] ++ if_fmt fmt [10])
    (map (fun e => member fmt (depth + 1) (render_string e.1, render (depth + 1) fmt e.2)) (e0 :: l))
    (member fmt (depth + 1) (render_string e.1, render (depth + 1) fmt e.2))) as J.
  specialize (J ltac:(by apply (list_elem_of_fmap_2 (fun e => member fmt (depth + 1) (render_string e.1, render (depth + 1) fmt e.2))))).
  rewrite !(zlen_app [123]), !(zlen_app (if_fmt fmt [10])), (zlen_app (join _ _)). zlen_lia.
Qed.

Lemma zlen_empty_object (fmt : bool) depth :
  zlen ([123] ++ if_fmt fmt ([10] ++ tabs (depth - 1)) ++ [125]) = if fmt then 3 + Z.max 0 (depth - 1) else 2.
Proof.
  destruct fmt; [|done]. unfold if_fmt, tabs, zlen. rewrite !length_app, length_replicate. simpl length. lia.
Qed.

Lemma print_value_repr fmt j : forall depth, 0 <= depth -> wf j -> 4 * zlen (render depth fmt j) + 64 <= lim ->
  print_value depth fmt (repr j) = Ok (render depth fmt j).
Proof.
  induction j as [|b|n|s|l IH|l IH] using json_induction; intros depth Hd Hw Hl.
  - cbn -[zlen t_null]. rewrite strdup_ok; [done|]. cbn [render] in Hl. zlen_lia.
  - assert (zlen t_true = 4 /\ zlen t_false = 5 /\ 64 <= lim) as (? & ? & ?) by (split; [done|split; [done|zlen_lia]]).
    destruct b; [change (of_option (cJSON_strdup t_true) = Ok t_true)|change (of_option (cJSON_strdup t_false) = Ok t_false)];
      rewrite strdup_ok by lia; done.
  - pose proof (fmt_d_length n Hw). cbn [render] in Hl. apply print_int; [done|]. lia.
  - cbn [render] in Hl. apply print_string_ok; [done|]. zlen_lia.
  - apply wf_arr in Hw. change (print_value depth fmt (repr (JArr l)))
      with (print_array (print_value (depth + 1) fmt) fmt (map repr l)).
    apply (print_array_ok _ (render (depth + 1) fmt)); [|done].
    apply List.Forall_forall. intros j Hj%list_elem_of_In. rewrite !List.Forall_forall in IH, Hw.
    pose proof (render_elem fmt depth l j Hj). apply list_elem_of_In in Hj.
    split; [apply IH; auto; lia|apply render_nonempty; auto].
  - apply wf_obj in Hw. change (print_value depth fmt (repr (JObj l))) with
      (print_object (print_value (depth + 1) fmt) fmt depth (map (fun e => set_string (Some e.1) (repr e.2)) l)).
    destruct l as [|e0 l]; [|set (es := e0 :: l) in *].
    { cbn [map print_object render] in *. apply out_block_ok.
      pose proof (zlen_empty_object fmt depth) as E. destruct fmt; lia. }
    transitivity (Ok (object_text fmt (depth + 1) (map (fun e => (render_string e.1, render (depth + 1) fmt e.2)) es))).
    + apply print_object_ok; [done|done| |].
      * apply List.Forall_forall. intros e He%list_elem_of_In. rewrite !List.Forall_forall in IH, Hw.
        destruct (render_member fmt depth es e He). pose proof (zlen_nonneg (render depth fmt (JObj es))). apply list_elem_of_In in He. destruct (Hw e He).
        split; [apply print_string_ok; [done|lia]|]. rewrite print_value_named. apply IH; auto; lia.
      * unfold object_text. rewrite map_map. done.
    + unfold object_text. rewrite map_map. done.
Qed.
End Granted.

(** * The length of a printed number *)

Lemma dec_length n (k : Z) : 1 <= k -> 0 <= n < 10 ^ k -> 1 <= zlen (dec n) <= k.
Proof.
  intros Hk Hn. unfold dec. split; [apply digits_nonempty; lia|].
  pose proof (digits_length 10 ltac:(lia) (Z.to_nat k) (S (S (Z.to_nat (Z.log2 n)))) n ltac:(lia)) as H.
  rewrite Z2Nat.id in H by lia. auto.
Qed.

Lemma pad0_length w n k : 1 <= k -> 0 <= n < 10 ^ k -> zlen (pad0 w n) <= Z.max w k.
Proof.
  intros Hk Hn. pose proof (dec_length n k Hk Hn). unfold pad0. rewrite zlen_app.
  unfold zlen at 1. rewrite length_replicate. lia.
Qed.

Lemma fixed_length prec n k : 0 <= prec -> 1 <= k -> 0 <= n < 10 ^ (k + prec) -> zlen (fixed prec n) <= k + 1 + prec.
Proof.
  intros Hp Hk Hn. rewrite Z.pow_add_r in Hn by lia. pose proof (Z.pow_pos_nonneg 10 prec ltac:(lia) Hp).
  assert (0 <= n / 10 ^ prec < 10 ^ k) as Hq
    by (split; [apply Z.div_pos; lia|apply Z.div_lt_upper_bound; lia]).
  pose proof (dec_length _ k Hk Hq). unfold fixed. destruct (Z.eqb_spec prec 0); [zlen_lia|].
  pose proof (pad0_length prec (n mod 10 ^ prec) prec ltac:(lia) (Z.mod_pos_bound n (10 ^ prec) ltac:(lia))).
  rewrite zlen_app, zlen_cons. lia.
Qed.

Lemma round_bound num den B : 0 <= num -> 0 < den -> num <= B * den -> 0 <= round_half_even num den <= B.
Proof.
  intros Hn Hd HB. unfold round_half_even.
  pose proof (Z.div_pos num den Hn Hd). pose proof (Z.mod_pos_bound num den Hd).
  pose proof (Z.div_mod num den ltac:(lia)) as E.
  assert (Hq : num / den <= B) by (apply Z.div_le_upper_bound; lia).
  destruct (Z.eq_dec (num / den) B) as [Eq|].
  - assert (num mod den = 0) as -> by nia. rewrite Z.mul_0_r, (proj2 (Z.compare_lt_iff 0 den)) by lia. lia.
  - repeat case_match; lia.
Qed.

Lemma zlen_sign s : zlen (sign s) <= 1.
Proof. by destruct s. Qed.

Lemma fmt_special_length d : zlen (fmt_special d) <= 4.
Proof. destruct d as [|[]| |]; done. Qed.

(** A number below [B]: sign, the digits of [B], point and fraction. *)
Lemma fmt_f_length prec d B k : valid d -> 0 <= prec -> 1 <= k -> 0 <= B < 10 ^ k ->
  units (SFabs d) <= B * 2 ^ 1074 -> zlen (fmt_f prec d) <= k + 2 + prec \/ zlen (fmt_f prec d) <= 4.
Proof.
  intros V Hp Hk HB Hu. destruct d as [s|s| |s m e]; [left|right; apply fmt_special_length..|left];
    unfold fmt_f; pose proof (zlen_sign s); rewrite zlen_app.
  - pose proof (fixed_length prec 0 k Hp Hk ltac:(split; [lia|apply Z.pow_pos_nonneg; lia])). lia.
  - apply valid_bounds in V as (He & _ & _). unfold SFabs, units in Hu. cbn [cond_Zopp] in Hu.
    set (n := if 0 <=? e then _ else _).
    pose proof (Z.pow_pos_nonneg 10 prec ltac:(lia) Hp) as Hpp.
    assert (0 <= n <= B * 10 ^ prec) as Hn.
    { unfold n. destruct (Z.leb_spec 0 e).
      - rewrite Z.pow_add_r, Z.mul_assoc in Hu by lia. pose proof (pow2_pos e ltac:(lia)).
        apply Z.mul_le_mono_pos_r in Hu; [|by apply pow2_pos]. nia.
      - apply round_bound; [nia|apply pow2_pos; lia|].
        assert (2 ^ 1074 = 2 ^ (- e) * 2 ^ (e + 1074)) as E by (rewrite <- Z.pow_add_r by lia; f_equal; lia).
        rewrite E, Z.mul_assoc in Hu. apply Z.mul_le_mono_pos_r in Hu; [|apply pow2_pos; lia]. nia. }
    pose proof (fixed_length prec n k Hp Hk) as F. rewrite Z.pow_add_r in F by lia. specialize (F ltac:(nia)). lia.
Qed.

Lemma scale_down_spec fuel : forall num den x num' den' x', 0 <= num -> 0 < den ->
  num < 10 ^ Z.of_nat (S fuel) * den -> scale_down fuel num den x = (num', den', x') ->
  0 <= num' < 10 * den' /\ x <= x' <= x + Z.of_nat fuel.
Proof.
  induction fuel as [|fuel IH]; intros num den x num' den' x' Hn Hd Hb E; simpl scale_down in E.
  - injection E as <- <- <-. change (10 ^ Z.of_nat 1) with 10 in Hb. lia.
  - destruct (Z.leb_spec (10 * den) num); [|injection E as <- <- <-; lia].
    rewrite Nat2Z.inj_succ, Z.pow_succ_r in Hb by lia. apply IH in E; lia.
Qed.

Lemma scale_up_spec fuel : forall num den x num' den' x', 0 <= num < 10 * den ->
  scale_up fuel num den x = (num', den', x') -> 0 <= num' < 10 * den' /\ x - Z.of_nat fuel <= x' <= x.
Proof.
  induction fuel as [|fuel IH]; intros num den x num' den' x' Hn E; simpl scale_up in E.
  - injection E as <- <- <-. lia.
  - destruct (Z.ltb_spec num den); [|injection E as <- <- <-; lia]. apply IH in E; lia.
Qed.

Lemma exp_text_length n x : 0 <= n < 10 ^ 7 -> Z.abs x < 1000 -> zlen (exp_text n x) <= 13.
Proof.
  intros Hn Hx. unfold exp_text. rewrite !zlen_app.
  pose proof (fixed_length 6 n 1 ltac:(lia) ltac:(lia) Hn).
  pose proof (pad0_length 2 (Z.abs x) 3 ltac:(lia) ltac:(change (10 ^ 3) with 1000; lia)).
  change (zlen [101; _]) with 2. lia.
Qed.

Lemma fmt_e_length d : valid d -> zlen (fmt_e d) <= 14.
Proof.
  intros V. destruct d as [s|s| |s m e]; unfold fmt_e; try (pose proof (fmt_special_length (S754_infinity s)); lia);
    [pose proof (zlen_sign s); rewrite zlen_app; change (zlen (exp_text 0 0)) with 12; lia
    |pose proof (fmt_special_length S754_nan); lia|].
  apply valid_bounds in V as (He & Hm & _).
  destruct (scale_down _ _ _ _) as [[num den] x] eqn:E1. destruct (scale_up _ _ _ _) as [[num' den'] x'] eqn:E2.
  pose proof (pow2_pos (Z.max 0 e) ltac:(lia)). pose proof (pow2_pos (Z.max 0 (- e)) ltac:(lia)).
  apply scale_down_spec in E1 as [B1 X1]; [|lia..|].
  2: { assert (2 ^ Z.max 0 e <= 2 ^ 971) by (apply Z.pow_le_mono_r; lia).
    assert (2 ^ 53 * 2 ^ 971 < 10 ^ Z.of_nat 311) by by vm_compute. nia. }
  apply scale_up_spec in E2 as [B2 X2]; [|lia]. cbv zeta.
  pose proof (round_bound (num' * 10 ^ 6) den' (10 ^ 7) ltac:(lia) ltac:(lia) ltac:(lia)) as R.
  set (n := round_half_even _ _) in *. pose proof (zlen_sign s). rewrite zlen_app.
  destruct (Z.eqb_spec n (10 ^ 7)).
  - pose proof (exp_text_length (10 ^ 6) (x' + 1) ltac:(done) ltac:(lia)). lia.
  - pose proof (exp_text_length n x' ltac:(lia) ltac:(lia)). lia.
Qed.

(** * No write behind a block *)

Section CJsonInd.
Context (P : cJSON -> Prop).
Hypothesis Hitem : forall t vs vi vd s l, Forall P l -> P (Item t vs vi vd s l).

Fixpoint cJSON_induction (c : cJSON) : P c :=
  match c with
  | Item t vs vi vd s l => Hitem t vs vi vd s l ((fix go l : Forall P l :=
      match l with [] => Forall_nil_2 _ | c :: l => Forall_cons_2 _ _ _ (cJSON_induction c) (go l) end) l)
  end.
End CJsonInd.

(** A string field that is set. *)
Definition is_str (s : option (list Z)) : Prop := match s with Some s => is_cstr s | None => False end.

(** The fields hold values of their C types; strings and names are set where
    the printer uses them.  Nothing is asked of the kind of an item. *)
Fixpoint well_formed (c : cJSON) : Prop :=
  match c with
  | Item t vs vi vd s l =>
      is_int vi /\ valid vd /\
      (Z.land t 255 = cJSON_String -> is_str vs) /\
      (Z.land t 255 = cJSON_Object -> Forall (fun c => is_str (string c)) l) /\
      (fix go l := match l with [] => True | c :: l => well_formed c /\ go l end) l
  end.

Lemma well_formed_item t vs vi vd s l : well_formed (Item t vs vi vd s l) ->
  is_int vi /\ valid vd /\ (Z.land t 255 = cJSON_String -> is_str vs) /\
  (Z.land t 255 = cJSON_Object -> Forall (fun c => is_str (string c)) l) /\ Forall well_formed l.
Proof.
  intros (? & ? & ? & ? & Hl). repeat (split; [done|]). clear -Hl.
  induction l as [|c l IH]; constructor; [apply Hl|]. apply IH, Hl.
Qed.

(** A result that is no access outside an object, with a non-empty text. *)
Definition safe (r : res (list Z)) : Prop := match r with Ok t => 1 <= zlen t | Null => True | Undef => False end.

Section Safe.
Context `{HP : Heap}.
(** There is no block of nearly the whole address space. *)
Hypothesis Hmem : forall n b, malloc n = Some b -> n < 4294967293.

Lemma out_block_safe size text : 1 <= zlen text < size -> safe (out_block size text).
Proof.
  intros Hs. unfold out_block. destruct (malloc size) as [b|] eqn:E; [|done].
  pose proof (Hmem _ _ E). pose proof (malloc_len size b ltac:(lia) E).
  rewrite blit_spec; [apply Hs|lia|]. rewrite zlen_app. change (zlen [0]) with 1. lia.
Qed.

Lemma strdup_safe text : 1 <= zlen text -> safe (of_option (cJSON_strdup text)).
Proof. intros. unfold cJSON_strdup. by destruct (malloc _). Qed.

Lemma print_string_safe s : is_str s -> safe (print_string_ptr s).
Proof.
  destruct s as [s|]; [|done]. intros Hs. unfold print_string_ptr. pose proof (zlen_nonneg s).
  destruct (existsb is_special s).
  - apply out_block_safe. rewrite <- esc_len_sum by done. pose proof (zlen_nonneg (concat (map esc s))).
    rewrite !zlen_app. change (zlen [t_quote]) with 1. lia.
  - apply out_block_safe. rewrite !zlen_app. change (zlen [t_quote]) with 1. lia.
Qed.

Lemma dec_nonempty n : 1 <= zlen (dec n).
Proof. apply digits_nonempty. lia. Qed.

Lemma fmt_f_nonempty prec d : 1 <= zlen (fmt_f prec d).
Proof.
  destruct d as [s|[]| |s m e]; unfold fmt_f, fixed; try done;
    match goal with |- context [dec ?n] => pose proof (dec_nonempty n) end; zlen_lia.
Qed.

Lemma fmt_e_nonempty d : 1 <= zlen (fmt_e d).
Proof.
  destruct d as [s|[]| |s m e]; unfold fmt_e; try done; [unfold exp_text; zlen_lia|].
  repeat case_match; unfold exp_text; zlen_lia.
Qed.

Lemma SFltb_units x B : valid x -> finite x -> valid B -> finite B -> SFltb x B = (units x <? units B).
Proof. intros. unfold SFltb, Z.ltb. by rewrite SFcompare_units by done. Qed.

Lemma valid_abs d : valid d -> valid (SFabs d).
Proof. by destruct d. Qed.

Lemma ltb_1e60_finite d : SFltb (SFabs d) d_1e60 = true -> finite d.
Proof. destruct d; intros H; [exact I|vm_compute in H; discriminate H..|exact I]. Qed.

Lemma ltb_1e9_finite d : SFltb d_1e9 (SFabs d) = false -> finite d \/ d = S754_nan.
Proof. destruct d; intros H; [left; exact I|vm_compute in H; discriminate H|by right|left; exact I]. Qed.

Lemma finite_abs d : finite d -> finite (SFabs d).
Proof. by destruct d. Qed.

Lemma d_1e60_ok : valid d_1e60 /\ finite d_1e60 /\ units d_1e60 <= (10 ^ 61 - 1) * 2 ^ 1074.
Proof. by vm_compute. Qed.

Lemma d_1e9_ok : valid d_1e9 /\ finite d_1e9 /\ units d_1e9 = 1000000000 * 2 ^ 1074.
Proof. by vm_compute. Qed.

Lemma below_1e61 : 0 <= 10 ^ 61 - 1 < 10 ^ 61.
Proof. by vm_compute. Qed.

Lemma fmt_f_fits prec d B k size : valid d -> units (SFabs d) <= B * 2 ^ 1074 ->
  0 <= prec -> 1 <= k -> 0 <= B < 10 ^ k -> k + 2 + prec < size -> 4 < size -> 1 <= zlen (fmt_f prec d) < size.
Proof.
  intros V U Hp Hk HB Hs Hs'. split; [apply fmt_f_nonempty|].
  destruct (fmt_f_length prec d B k V Hp Hk HB U) as [L|L]; clear -L Hs Hs'; lia.
Qed.

Lemma f0_fits d : valid d -> units (SFabs d) <= (10 ^ 61 - 1) * 2 ^ 1074 -> 1 <= zlen (fmt_f 0 d) < 64.
Proof. intros V U. by apply (fmt_f_fits 0 d _ 61 64 V U ltac:(done) ltac:(done) below_1e61). Qed.

Lemma f6_fits d : valid d -> units (SFabs d) <= 1000000000 * 2 ^ 1074 -> 1 <= zlen (fmt_f 6 d) < 64.
Proof. intros V U. by apply (fmt_f_fits 6 d _ 10 64 V U). Qed.

Lemma nan_fits : 1 <= zlen (fmt_f 6 S754_nan) < 64.
Proof. by vm_compute. Qed.

Lemma print_number_safe item : is_int (valueint item) -> valid (valuedouble item) -> safe (print_number item).
Proof.
  intros Hi V. unfold print_number. set (d := valuedouble item) in *.
  destruct (SFeqb d _); [by apply out_block_safe|].
  destruct (tiny _ && _ && _); [pose proof (fmt_d_length _ Hi); apply out_block_safe; lia|].
  assert (1 <= zlen (fmt_e d) < 64) as He.
  { pose proof (fmt_e_length d V). pose proof (fmt_e_nonempty d). lia. }
  apply out_block_safe.
  destruct d_1e60_ok as (V60 & F60 & U60), d_1e9_ok as (V9 & F9 & U9).
  destruct (tiny (dsub (dfloor d) d) && SFltb (SFabs d) d_1e60) eqn:E.
  { apply andb_prop in E as [_ E].
    pose proof (ltb_1e60_finite d E) as F.
    rewrite (SFltb_units _ _ (valid_abs d V) (finite_abs d F) V60 F60) in E. apply Z.ltb_lt in E.
    pose proof (Z.lt_le_incl _ _ (Z.lt_le_trans _ _ _ E U60)) as U.
    exact (f0_fits d V U). }
  destruct (SFltb (SFabs d) d_1em6 || SFltb d_1e9 (SFabs d)) eqn:E'; [exact He|].
  apply orb_false_iff in E' as [_ E'].
  destruct (ltb_1e9_finite d E') as [F|F]; [|rewrite F; exact nan_fits].
  rewrite (SFltb_units _ _ V9 F9 (valid_abs d V) (finite_abs d F)) in E'. apply Z.ltb_ge in E'.
  rewrite U9 in E'. exact (f6_fits d V E').
Qed.

Section SafeChildren.
Context (print : cJSON -> res (list Z)).

Lemma array_entries_safe l : Forall (fun c => safe (print c)) l ->
  match array_entries print l with Ok es => length es = length l | Null => True | Undef => False end.
Proof.
  induction 1 as [|c l Hc _ IH]; [done|]. simpl. destruct (print c); [|done..]. simpl.
  destruct (array_entries print l); [|done..]. simpl. lia.
Qed.

Lemma print_array_safe fmt l : Forall (fun c => safe (print c)) l -> safe (print_array print fmt l).
Proof.
  intros Hl. pose proof (array_entries_safe l Hl) as He. unfold print_array. destruct l as [|c l]; [by apply out_block_safe|].
  destruct (malloc _); [|done]. cbn [of_option mbind res_bind]. destruct (array_entries print (c :: l)) as [es| |]; [|done..].
  cbn [mbind res_bind]. apply out_block_safe. change ([91] ++ _) with (array_text fmt es).
  pose proof (array_block fmt es ltac:(by destruct es)).
  assert (1 <= zlen (array_text fmt es)) by (unfold array_text; zlen_lia). lia.
Qed.

Lemma object_entries_safe l : Forall (fun c => is_str (string c) /\ safe (print c)) l ->
  match object_entries print l with Ok es => length es = length l | Null => True | Undef => False end.
Proof.
  induction 1 as [|c l [Hs Hc] _ IH]; [done|]. simpl. apply print_string_safe in Hs.
  destruct (print_string_ptr (string c)), (print c), (object_entries print l); done || simpl; lia.
Qed.

Lemma print_object_safe fmt depth l : 0 <= depth -> Forall (fun c => is_str (string c) /\ safe (print c)) l ->
  safe (print_object print fmt depth l).
Proof.
  intros Hd Hl. pose proof (object_entries_safe l Hl) as He. unfold print_object. destruct l as [|c l].
  { apply out_block_safe. rewrite zlen_empty_object. destruct fmt; lia. }
  destruct (malloc _); [|done]. cbn [of_option mbind res_bind].
  destruct (object_entries print (c :: l)) as [es| |]; [|done..].
  cbn [mbind res_bind]. apply out_block_safe. change ([123] ++ _) with (object_text fmt (depth + 1) es).
  rewrite object_block by (lia || by destruct es).
  assert (1 <= zlen (object_text fmt (depth + 1) es)) by (unfold object_text; zlen_lia). lia.
Qed.
End SafeChildren.

Lemma print_value_safe fmt c : forall depth, 0 <= depth -> well_formed c -> safe (print_value depth fmt c).
Proof.
  induction c as [t vs vi vd s l IH] using cJSON_induction. intros depth Hd Hw.
  apply well_formed_item in Hw as (Hi & V & Hs & Ho & Hl). cbn [print_value type valuestring].
  assert (Hc : Forall (fun c => safe (print_value (depth + 1) fmt c)) l).
  { rewrite List.Forall_forall in *. intros c Hc. apply IH; auto. lia. }
  destruct (Z.eqb_spec (Z.land t 255) cJSON_NULL); [by apply strdup_safe|].
  destruct (Z.eqb_spec (Z.land t 255) cJSON_False); [by apply strdup_safe|].
  destruct (Z.eqb_spec (Z.land t 255) cJSON_True); [by apply strdup_safe|].
  destruct (Z.eqb_spec (Z.land t 255) cJSON_Number); [by apply print_number_safe|].
  destruct (Z.eqb_spec (Z.land t 255) cJSON_String); [by apply print_string_safe; auto|].
  destruct (Z.eqb_spec (Z.land t 255) cJSON_Array); [by apply print_array_safe|].
  destruct (Z.eqb_spec (Z.land t 255) cJSON_Object) as [E|]; [|done].
  apply print_object_safe; [done|]. specialize (Ho E). rewrite List.Forall_forall in *. auto.
Qed.
End Safe.

(** C31: printing never writes behind a block: for every tree whose fields hold
    values of their C types, formatted or not, and whichever allocations fail,
    the text and its terminator fit into the block whose size was computed in
    advance; numbers of every magnitude fit into their 64 bytes. *)
Theorem cJSON_Print_safe `{HP : Heap} c :
  (forall n b, malloc n = Some b -> n < 4294967293) -> well_formed c ->
  cJSON_Print c <> Undef /\ cJSON_PrintUnformatted c <> Undef.
Proof.
  intros Hmem Hw. split; intros E.
  - pose proof (print_value_safe Hmem true c 0 ltac:(lia) Hw) as S. unfold cJSON_Print in E. by rewrite E in S.
  - pose proof (print_value_safe Hmem false c 0 ltac:(lia) Hw) as S. unfold cJSON_PrintUnformatted in E. by rewrite E in S.
Qed.

(** A tree with a huge, a tiny, a fractional and a negative number and a name
    with control characters. *)
Definition tree0 : cJSON :=
  object [set_string (Some [97; 10; 1; 255]) (array
    [Item cJSON_Number None (-2147483648) (S754_finite false 4503599627370496 971) None [];
     Item cJSON_Number None 0 (S754_finite true 1 (-1074)) None [];
     Item cJSON_Number None (-36) (S754_finite true 5136918324969472 (-47)) None [];
     Item cJSON_Number None (-7) (of_int (-7)) None [];
     Item cJSON_String (Some [34; 92; 47]) 0 (S754_zero false) None []])].

Lemma tree0_well_formed : well_formed tree0.
Proof. vm_compute. repeat (split; try discriminate; try (intros; repeat constructor; done)). Qed.

Lemma cJSON_Print_safe_witness :
  let H := zero_heap 20480 in
  cJSON_Print tree0 <> Undef /\ cJSON_PrintUnformatted tree0 <> Undef.
Proof.
  intros H. apply (@cJSON_Print_safe H tree0); [|exact tree0_well_formed].
  intros n b. simpl. destruct (Z.leb_spec n 20480); [lia|done].
Defined.
