(* ===== verification/JsonParse.v ===== *)
(** The JSON parser: termination, the texts it reads safely, and the round
    trip with the printer.

    [traversal] follows the parser over its text once, for an arbitrary
    property [G] of what is left of the text; it is used for termination (no
    condition on the text) and for safety ([good]: up to its terminator, every
    backslash starts a complete escape sequence).  [parse_string_overflow]
    shows what happens otherwise. *)
From S2P Require Import Prelude Double StrLib EdpBuffer Json JsonPrint.
From Stdlib Require Import Floats.SpecFloat.

(** A parsed part: what is left satisfies [G] and is shorter than [n]; an
    access outside the text happens only if [U]. *)
Definition parsed {A} (U : Prop) (G : list Z -> Prop) (n : nat) (r : pres A) : Prop :=
  match r with
  | POk _ rest => G rest /\ (length rest < n)%nat
  | PNull _ => True
  | PUndef => U
  | PFuel => False
  end.

Lemma parsed_mono {A} U G n m (r : pres A) : parsed U G n r -> (n <= m)%nat -> parsed U G m r.
Proof. destruct r; simpl; [intros []; split; [done|lia]|done..]. Qed.

Lemma parsed_bind {A B} U (G : list Z -> Prop) n m (r : pres A) (k : A -> list Z -> pres B) :
  parsed U G n r -> (forall a s, G s -> (length s < n)%nat -> parsed U G m (k a s)) -> parsed U G m (pbind r k).
Proof. destruct r; simpl; [intros [] Hk; by apply Hk|done..]. Qed.

Section Traversal.
Context `{HP : Heap} `{LM : LibM} (U : Prop) (G : list Z -> Prop).

(** Reading, and moving past a byte other than the terminator and a backslash. *)
Hypothesis G_nil : G [] -> U.
Hypothesis G_tail : forall c s, G (c :: s) -> c <> 0 -> c <> 92 -> G s.
Hypothesis G_string : forall s, G s -> parsed U G (length s) (parse_string s).

Lemma parsed_defined {A B} m (o : option A) (k : A -> pres B) :
  (o = None -> U) -> (forall a, o = Some a -> parsed U G m (k a)) -> parsed U G m (defined o k).
Proof. destruct o; simpl; auto. Qed.

Lemma parsed_head {A} m s (k : Z -> pres A) : G s ->
  (forall c s', s = c :: s' -> parsed U G m (k c)) -> parsed U G m (defined (head s) k).
Proof. intros Hs Hk. destruct s as [|c s]; simpl; [by apply G_nil|by eapply Hk]. Qed.

Lemma skip_parsed {A} m s (k : list Z -> pres A) : G s ->
  (forall s', G s' -> (length s' <= length s)%nat -> parsed U G m (k s')) -> parsed U G m (defined (skip s) k).
Proof.
  revert k. induction s as [|c s IH]; intros k Hs Hk; simpl; [by apply G_nil|].
  destruct (Z.eqb_spec c 0); [by apply Hk|]. destruct (Z.leb_spec c 32); [|by apply Hk].
  apply IH; [apply (G_tail c); [done..|lia]|]. intros s' ? ?. apply Hk; simpl; [done|lia].
Qed.

Lemma starts_some kw : forall s, G s -> Forall (fun c => c <> 0 /\ c <> 92) kw ->
  match starts kw s with
  | Some true => G (drop (length kw) s) /\ (length kw <= length s)%nat
  | Some false => True
  | None => U
  end.
Proof.
  induction kw as [|k kw IH]; intros s Hs Hk; [simpl; split; [done|lia]|].
  destruct s as [|c s]; simpl; [by apply G_nil|]. destruct (Z.eqb_spec k c) as [->|]; [|done].
  inversion Hk as [|? ? [] Hk']; subst. specialize (IH s (G_tail c s Hs ltac:(done) ltac:(done)) Hk').
  destruct (starts kw s) as [[]|]; [|done..]. destruct IH. split; [done|lia].
Qed.

(** A keyword: taken, or the next case. *)
Lemma parsed_starts {A} m kw s (x : A) (k : pres A) : G s -> kw <> [] -> Forall (fun c => c <> 0 /\ c <> 92) kw ->
  (length s <= m)%nat -> parsed U G m k ->
  parsed U G m (defined (starts kw s) (fun b => if b then POk x (drop (length kw) s) else k)).
Proof.
  intros Hs H0 Hk Hm Hn. pose proof (starts_some kw s Hs Hk) as H. destruct (starts kw s) as [[]|]; [|done..].
  destruct H as [H1 H2]. simpl. split; [done|]. rewrite length_drop. destruct kw; [done|]. simpl in *. lia.
Qed.

(** ** Numbers *)

Lemma digit_not_special c : is_digit c = true -> c <> 0 /\ c <> 92.
Proof. unfold is_digit. lia. Qed.

Definition left_of {A} (n : nat) (o : option (A * list Z)) : Prop :=
  match o with Some (_, rest) => G rest /\ (length rest <= n)%nat | None => U end.

Lemma int_digits_left s : forall n, G s -> left_of (length s) (int_digits s n).
Proof.
  induction s as [|c s IH]; intros n Hs; simpl; [by apply G_nil|]. destruct (is_digit c) eqn:D; [|simpl; split; [done|lia]].
  destruct (digit_not_special c D). specialize (IH (dadd (dmul n ten) (of_int (c - 48))) (G_tail _ _ Hs ltac:(done) ltac:(done))).
  destruct (int_digits s _) as [[]|]; [|done]. simpl in *. split; [apply IH|lia].
Qed.

Lemma frac_digits_left s : forall n scale, G s -> left_of (length s) (frac_digits s n scale).
Proof.
  induction s as [|c s IH]; intros n scale Hs; simpl; [by apply G_nil|].
  destruct (is_digit c) eqn:D; [|simpl; split; [done|lia]]. destruct (digit_not_special c D).
  specialize (IH (dadd (dmul n ten) (of_int (c - 48))) (dsub scale (of_int 1)) (G_tail _ _ Hs ltac:(done) ltac:(done))).
  destruct (frac_digits s _ _) as [[]|]; [|done]. simpl in *. split; [apply IH|lia].
Qed.

Lemma exp_digits_left s : forall k, G s -> left_of (length s) (exp_digits s k).
Proof.
  induction s as [|c s IH]; intros k Hs; simpl; [by apply G_nil|]. destruct (is_digit c) eqn:D; [|simpl; split; [done|lia]].
  destruct (digit_not_special c D). specialize (IH (s32 (k * 10 + (c - 48))) (G_tail _ _ Hs ltac:(done) ltac:(done))).
  destruct (exp_digits s _) as [[]|]; [|done]. simpl in *. split; [apply IH|lia].
Qed.

Lemma exponent_left s : G s -> left_of (length s) (parse_exponent s).
Proof.
  intros Hs. unfold parse_exponent. destruct s as [|c s]; [by apply G_nil|]. cbn [head mbind option_bind].
  destruct (Z.eqb_spec c 101), (Z.eqb_spec c 69); try (simpl; split; [done|lia]); cbn [orb tail];
    (assert (Ht : G s) by (apply (G_tail c); [done|lia..])); clear Hs;
    destruct s as [|d s]; try (by apply G_nil); cbn [head mbind option_bind].
  all: destruct (Z.eqb_spec d 43); [|destruct (Z.eqb_spec d 45)]; cbn [tail].
  all: match goal with |- context [exp_digits ?t 0] => assert (Hd : left_of (length t) (exp_digits t 0)) end;
    [apply exp_digits_left; done || (apply (G_tail d); [done|lia..])|].
  all: destruct (exp_digits _ 0) as [[]|]; [|done]; simpl in *; split; [apply Hd|lia].
Qed.

Lemma after_digits_left sgn n s : G s -> left_of (length s) (after_digits sgn n s).
Proof.
  intros Hs. unfold after_digits. destruct s as [|c s]; [by apply G_nil|]. cbn [head mbind option_bind].
  assert (Hf : left_of (S (length s))
    (if c =? 46 then c1 ← head (tail (c :: s)); if is_digit c1 then frac_digits (tail (c :: s)) n (of_int 0)
       else Some (n, of_int 0, c :: s) else Some (n, of_int 0, c :: s))).
  { destruct (Z.eqb_spec c 46); [|simpl; split; [done|lia]]. assert (Ht : G s) by (apply (G_tail c); [done|lia..]).
    cbn [tail]. destruct s as [|d s]; [by apply G_nil|]. cbn [head mbind option_bind]. destruct (is_digit d); [|simpl; split; [done|lia]].
    pose proof (frac_digits_left (d :: s) n (of_int 0) Ht) as H. destruct (frac_digits _ _ _) as [[]|]; [|done].
    simpl in *. split; [apply H|lia]. }
  destruct (if c =? 46 then _ else _) as [[[m scale] num]|]; [|done]. cbn [mbind option_bind]. destruct Hf as [Hg Hl].
  pose proof (exponent_left num Hg) as He. destruct (parse_exponent num) as [[[] rest]|]; [|done].
  simpl in *. split; [apply He|lia].
Qed.

Lemma int_part_left sgn n0 s : G s ->
  left_of (length s) (c ← head s; '(n, num) ← (if (49 <=? c) && (c <=? 57) then int_digits s n0 else Some (n0, s));
    after_digits sgn n num).
Proof.
  intros Hs. destruct s as [|c s]; [by apply G_nil|]. cbn [head mbind option_bind].
  pose proof (int_digits_left (c :: s) n0 Hs) as Hi.
  assert (Hb : left_of (S (length s)) (if (49 <=? c) && (c <=? 57) then int_digits (c :: s) n0 else Some (n0, c :: s)))
    by (case_match; [exact Hi|simpl; split; [done|lia]]).
  destruct (if _ && _ then _ else _) as [[m num]|]; [|done]. cbn [mbind option_bind]. destruct Hb as [Hg Hl].
  pose proof (after_digits_left sgn m num Hg) as Ha. destruct (after_digits _ _ _) as [[]|]; [|done].
  simpl in *. split; [apply Ha|lia].
Qed.

Lemma before_point_left sgn s : G s -> left_of (length s) (before_point sgn s).
Proof.
  intros Hs. unfold before_point. destruct s as [|c s]; [by apply G_nil|]. cbn [head mbind option_bind].
  destruct (Z.eqb_spec c 48); [|by apply int_part_left]. cbn [tail].
  assert (Ht : G s) by (apply (G_tail c); [done|lia..]). pose proof (int_part_left sgn (of_int 0) s Ht) as H.
  cbv zeta. destruct (head s ≫= _) as [[]|]; [|done]. simpl in *. split; [apply H|lia].
Qed.

(** A digit is consumed. *)
Lemma before_point_digit sgn c s : G (c :: s) -> is_digit c = true -> left_of (length s) (before_point sgn (c :: s)).
Proof.
  intros Hs D. destruct (digit_not_special c D) as [D0 D1]. pose proof (G_tail c s Hs D0 D1) as Ht.
  unfold before_point. cbn [head mbind option_bind tail].
  destruct (Z.eqb_spec c 48); [by apply int_part_left|]. cbv zeta. cbn [head mbind option_bind].
  unfold is_digit in D. rewrite (proj2 (andb_true_iff (49 <=? c) (c <=? 57))) by lia.
  change (int_digits (c :: s) (of_int 0)) with
    (if is_digit c then int_digits s (dadd (dmul (of_int 0) ten) (of_int (c - 48))) else Some (of_int 0, c :: s)).
  replace (is_digit c) with true by (unfold is_digit; lia).
  pose proof (int_digits_left s (dadd (dmul (of_int 0) ten) (of_int (c - 48))) Ht) as Hi.
  destruct (int_digits s _) as [[m num]|]; [|done]. cbn [mbind option_bind]. destruct Hi as [Hg Hl].
  pose proof (after_digits_left sgn m num Hg) as Ha. destruct (after_digits _ _ _) as [[]|]; [|done].
  simpl in *. split; [apply Ha|lia].
Qed.

Lemma parse_number_parsed c s : G (c :: s) -> (c =? 45) || is_digit c = true ->
  parsed U G (length (c :: s)) (defined (parse_number (c :: s)) (fun '(item, value) => POk item value)).
Proof.
  intros Hs Hc. unfold parse_number. cbn [head mbind option_bind tail].
  assert (H : left_of (length s) (if c =? 45 then before_point (of_int (-1)) s else before_point (of_int 1) (c :: s))).
  { destruct (Z.eqb_spec c 45).
    - apply before_point_left. apply (G_tail c); [done|lia..].
    - by apply before_point_digit. }
  destruct (if c =? 45 then _ else _) as [[]|]; [|done]. simpl in *. split; [apply H|lia].
Qed.

(** ** Values *)

Section Values.
Context (pv : list Z -> pres cJSON) (n : nat).
Hypothesis Hpv : forall s, G s -> (length s < n)%nat -> parsed U G (length s) (pv s).

Lemma element_parsed s : G s -> (length s < n)%nat -> parsed U G (length s) (parse_element pv s).
Proof.
  intros Hs Hn. unfold parse_element. destruct cJSON_New_Item; [|done..].
  apply skip_parsed; [done|]. intros s1 H1 L1.
  eapply parsed_bind; [apply Hpv; [done|lia]|]. intros item s2 H2 L2. cbv beta.
  apply skip_parsed; [done|]. intros s3 H3 L3. simpl. split; [done|lia].
Qed.

Lemma member_parsed s : G s -> (length s < n)%nat -> parsed U G (length s) (parse_member pv s).
Proof.
  intros Hs Hn. unfold parse_member. destruct cJSON_New_Item; [|done..].
  apply skip_parsed; [done|]. intros s1 H1 L1.
  eapply parsed_bind; [by apply G_string|]. intros name s2 H2 L2. cbv beta.
  apply skip_parsed; [done|]. intros s3 H3 L3.
  apply parsed_head; [done|]. intros c s4 ->. destruct (Z.eqb_spec c 58); [|done]. cbn [negb tail].
  apply skip_parsed; [apply (G_tail c); [done|lia..]|]. intros s5 H5 L5. simpl in L3.
  eapply parsed_bind; [apply Hpv; [done|lia]|]. intros item s6 H6 L6. cbv beta.
  apply skip_parsed; [done|]. intros s7 H7 L7. simpl. split; [done|lia].
Qed.

Lemma elements_parsed fuel : forall s, G s -> (length s < n)%nat -> (length s < fuel)%nat ->
  parsed U G (length s) (parse_elements pv fuel s).
Proof.
  induction fuel as [|fuel IH]; intros s Hs Hn Hf; [lia|]. cbn [parse_elements].
  eapply parsed_bind; [by apply element_parsed|]. intros item s1 H1 L1. cbv beta.
  apply parsed_head; [done|]. intros c s2 ->. simpl in L1. cbn [tail].
  destruct (Z.eqb_spec c 44).
  { eapply parsed_bind; [apply IH; [apply (G_tail c); [done|lia..]|lia|lia]|].
    intros items s3 H3 L3. simpl. split; [done|lia]. }
  destruct (Z.eqb_spec c 93); [|done]. simpl. split; [apply (G_tail c); [done|lia..]|lia].
Qed.

Lemma members_parsed fuel : forall s, G s -> (length s < n)%nat -> (length s < fuel)%nat ->
  parsed U G (length s) (parse_members pv fuel s).
Proof.
  induction fuel as [|fuel IH]; intros s Hs Hn Hf; [lia|]. cbn [parse_members].
  eapply parsed_bind; [by apply member_parsed|]. intros item s1 H1 L1. cbv beta.
  apply parsed_head; [done|]. intros c s2 ->. simpl in L1. cbn [tail].
  destruct (Z.eqb_spec c 44).
  { eapply parsed_bind; [apply IH; [apply (G_tail c); [done|lia..]|lia|lia]|].
    intros items s3 H3 L3. simpl. split; [done|lia]. }
  destruct (Z.eqb_spec c 125); [|done]. simpl. split; [apply (G_tail c); [done|lia..]|lia].
Qed.

Lemma array_parsed fuel c s : G (c :: s) -> c <> 0 -> c <> 92 -> (length s < n)%nat -> (length s < fuel)%nat ->
  parsed U G (length (c :: s)) (parse_array pv fuel (c :: s)).
Proof.
  intros Hs H0 H92 Hn Hf. unfold parse_array. cbn [tail].
  apply skip_parsed; [by apply (G_tail c)|]. intros s1 H1 L1.
  apply parsed_head; [done|]. intros d s2 ->. simpl in L1. destruct (Z.eqb_spec d 93).
  { simpl. split; [apply (G_tail d); [done|lia..]|lia]. }
  eapply parsed_bind; [apply elements_parsed; simpl; [done|lia..]|]. intros items s3 H3 L3. simpl in *. split; [done|lia].
Qed.

Lemma object_parsed fuel c s : G (c :: s) -> c <> 0 -> c <> 92 -> (length s < n)%nat -> (length s < fuel)%nat ->
  parsed U G (length (c :: s)) (parse_object pv fuel (c :: s)).
Proof.
  intros Hs H0 H92 Hn Hf. unfold parse_object. cbn [tail].
  apply skip_parsed; [by apply (G_tail c)|]. intros s1 H1 L1.
  apply parsed_head; [done|]. intros d s2 ->. simpl in L1. destruct (Z.eqb_spec d 125).
  { simpl. split; [apply (G_tail d); [done|lia..]|lia]. }
  eapply parsed_bind; [apply members_parsed; simpl; [done|lia..]|]. intros items s3 H3 L3. simpl in *. split; [done|lia].
Qed.
End Values.

Lemma value_parsed fuel : forall s, G s -> (length s < fuel)%nat -> parsed U G (length s) (parse_value fuel s).
Proof.
  induction fuel as [|fuel IH]; intros s Hs Hf; [lia|]. cbn [parse_value].
  change (drop 4 s) with (drop (length t_null) s) at 1. apply parsed_starts; [done|done|by repeat constructor|done|].
  change (drop 5 s) with (drop (length t_false) s). apply parsed_starts; [done|done|by repeat constructor|done|].
  change (drop 4 s) with (drop (length t_true) s). apply parsed_starts; [done|done|by repeat constructor|done|].
  apply parsed_head; [done|]. intros c s' ->. destruct (Z.eqb_spec c 34).
  { eapply parsed_bind; [by apply G_string|]. intros str rest H1 L1. done. }
  destruct ((c =? 45) || is_digit c) eqn:D; [by apply parse_number_parsed|].
  simpl in Hf. destruct (Z.eqb_spec c 91); [apply (array_parsed _ fuel); [|done|lia..]; intros; apply IH; done|].
  destruct (Z.eqb_spec c 123); [apply (object_parsed _ fuel); [|done|lia..]; intros; apply IH; done|]. done.
Qed.

Lemma parse_parsed text b : G text -> parsed U G (S (length text)) (cJSON_ParseWithOpts text b).
Proof.
  intros Hs. unfold cJSON_ParseWithOpts. destruct cJSON_New_Item; [|done..].
  apply skip_parsed; [done|]. intros s1 H1 L1.
  eapply parsed_bind; [apply value_parsed; [done|lia]|]. intros c s2 H2 L2. cbv beta.
  destruct b; [|simpl; split; [done|lia]]. apply skip_parsed; [done|]. intros s3 H3 L3.
  apply parsed_head; [done|]. intros d s4 ->. destruct (d =? 0); [|done]. simpl in *. split; [done|lia].
Qed.
End Traversal.

(** * Termination *)

Lemma unescape_shorter n : forall s out pos ptr out' pos', (length s <= n)%nat ->
  unescape s out pos = Some (ptr, out', pos') -> (length ptr <= length s)%nat.
Proof.
  induction n as [|n IH]; intros s out pos ptr out' pos' Hn E; (destruct s as [|c s]; [done|]); simpl in Hn; [lia|].
  assert (Rec : forall t o p, (length t <= length s)%nat -> unescape t o p = Some (ptr, out', pos') ->
    (length ptr <= length (c :: s))%nat).
  { intros t o p Ht Et. simpl. apply Nat.le_trans with (length t); [|lia]. eapply IH; [lia|exact Et]. }
  cbn [unescape] in E. clear IH Hn.
  repeat match type of E with
  | Some _ = Some _ => injection E as <- <- <-; done
  | None = Some _ => discriminate E
  | mbind _ ?o = Some _ => destruct o; cbn [mbind option_bind] in E; [|discriminate E]
  | unescape _ _ _ = Some _ => eapply Rec; [|exact E]; simpl; lia
  | (if ?b then _ else _) = Some _ => destruct b
  | (match ?l with [] => _ | _ => _ end) = Some _ => destruct l
  end.
Qed.

Lemma parse_string_returns `{Heap} s : parsed True (fun _ => True) (length s) (parse_string s).
Proof.
  unfold parse_string. destruct s as [|c s]; [done|]. cbn [head defined tail]. destruct (negb _); [done|].
  destruct (scan_len s); [|done]. simpl. destruct (malloc _) as [out|]; [|done].
  destruct (unescape s out 0) as [[[ptr out'] pos]|] eqn:E; [|done]. simpl. destruct (st out' pos 0); [|done]. simpl.
  apply (unescape_shorter (length s)) in E; [|lia]. destruct ptr as [|d ptr]; [done|]. simpl in *.
  split; [done|]. destruct (d =? 34); simpl; lia.
Qed.

(** C22: The parser terminates on every text, well-formed or not and terminated
    or not: the recursion over nested values and the loops over elements,
    members, digits and characters each consume the text.  (The bound on the
    number of steps is the length of the text, [PFuel] is never returned.) *)
Theorem cJSON_Parse_returns `{HP : Heap} `{LM : LibM} text b : cJSON_ParseWithOpts text b <> PFuel.
Proof.
  intros E. pose proof (parse_parsed True (fun _ => True) ltac:(done) ltac:(done)
    (fun s _ => parse_string_returns s) text b I) as H. by rewrite E in H.
Qed.

(** * Texts that are read safely *)

Definition is_hex (c : Z) : bool := bool_decide (is_Some (hex_value c)).

(** Up to its first zero byte, every backslash of the text is followed by a
    byte, and every [\u] by four hexadecimal digits. *)
Fixpoint good (s : list Z) : bool :=
  match s with
  | [] => false
  | c :: s1 =>
      if c =? 0 then true
      else if c =? 92 then
        match s1 with
        | [] => false
        | e :: s2 =>
            if e =? 0 then false
            else if e =? 117 then
              match s2 with
              | h1 :: h2 :: h3 :: h4 :: s3 => is_hex h1 && is_hex h2 && is_hex h3 && is_hex h4 && good s3
              | _ => false
              end
            else good s2
        end
      else good s1
  end.

Lemma hex_plain h : is_hex h = true -> h <> 34 /\ h <> 0 /\ h <> 92.
Proof. unfold is_hex, hex_value, is_digit. intros H. repeat split; intros ->; vm_compute in H; discriminate. Qed.

Lemma scan_len_plain c s : c <> 34 -> c <> 0 -> c <> 92 ->
  scan_len (c :: s) = (len ← scan_len s; Some (1 + len)).
Proof. intros. cbn [scan_len]. by rewrite !(proj2 (Z.eqb_neq c _)) by done. Qed.

Lemma scan_len_hex h1 h2 h3 h4 s : is_hex h1 && is_hex h2 && is_hex h3 && is_hex h4 = true ->
  scan_len (h1 :: h2 :: h3 :: h4 :: s) = (len ← scan_len s; Some (4 + len)).
Proof.
  intros H. apply andb_prop in H as [H H4]. apply andb_prop in H as [H H3]. apply andb_prop in H as [H1 H2].
  apply hex_plain in H1 as (? & ? & ?), H2 as (? & ? & ?), H3 as (? & ? & ?), H4 as (? & ? & ?).
  rewrite !scan_len_plain by done. destruct (scan_len s); [|done]. cbn [mbind option_bind]. f_equal. lia.
Qed.

Lemma scan_len_nonneg n : forall s len, (length s <= n)%nat -> scan_len s = Some len -> 0 <= len.
Proof.
  induction n as [|n IH]; intros s len Hn E; (destruct s as [|c s]; [done|]); simpl in Hn; [lia|].
  cbn [scan_len] in E. destruct ((c =? 34) || (c =? 0)); [injection E as <-; lia|].
  destruct (c =? 92).
  - destruct s as [|d s]; [done|]. simpl in Hn. destruct (scan_len s) as [l|] eqn:El; [|done].
    injection E as <-. specialize (IH s l ltac:(lia) El). lia.
  - destruct (scan_len s) as [l|] eqn:El; [|done]. injection E as <-. specialize (IH s l ltac:(lia) El). lia.
Qed.

Lemma zlen_utf8 uc : zlen (utf8 uc) = utf8_len uc.
Proof. unfold utf8, utf8_len. repeat case_match; done || lia. Qed.

Lemma utf8_len_bounds uc : 1 <= utf8_len uc <= 4.
Proof. unfold utf8_len. repeat case_match; lia. Qed.

(** A good text that goes on with an escape sequence, and its first pass. *)
Lemma good_unicode s : good (92 :: 117 :: s) = true -> exists h1 h2 h3 h4 s3, s = h1 :: h2 :: h3 :: h4 :: s3 /\
  good s3 = true /\ scan_len (92 :: 117 :: s) = (len ← scan_len s3; Some (5 + len)).
Proof.
  intros H. cbn [good] in H. change (92 =? 0) with false in H. change (92 =? 92) with true in H.
  change (117 =? 0) with false in H. change (117 =? 117) with true in H. cbv iota in H.
  destruct s as [|h1 [|h2 [|h3 [|h4 s3]]]]; try discriminate. apply andb_prop in H as [H Hs].
  exists h1, h2, h3, h4, s3. split; [done|split; [done|]].
  change (scan_len (92 :: 117 :: h1 :: h2 :: h3 :: h4 :: s3)) with
    (len ← scan_len (h1 :: h2 :: h3 :: h4 :: s3); Some (1 + len)).
  rewrite scan_len_hex by done. destruct (scan_len s3); [|done]. cbn [mbind option_bind]. f_equal. lia.
Qed.

Lemma good_scan n : forall s, (length s <= n)%nat -> good s = true -> is_Some (scan_len s).
Proof.
  induction n as [|n IH]; intros s Hn H; (destruct s as [|c s]; [done|]); simpl in Hn; [lia|].
  destruct (Z.eqb_spec c 92) as [->|Hc].
  - destruct s as [|e s]; [done|]. destruct (Z.eqb_spec e 117) as [->|He].
    + destruct (good_unicode s H) as (h1 & h2 & h3 & h4 & s3 & -> & Hg & ->).
      destruct (IH s3 ltac:(simpl in Hn; lia) Hg) as [l ->]. by eexists.
    + cbn [good] in H. change (92 =? 0) with false in H. change (92 =? 92) with true in H. cbv iota in H.
      destruct (Z.eqb_spec e 0); [done|]. rewrite (proj2 (Z.eqb_neq e 117)) in H by done.
      destruct (IH s ltac:(simpl in Hn; lia) H) as [l Hl].
      change (is_Some (len ← scan_len s; Some (1 + len))). rewrite Hl. by eexists.
  - cbn [good scan_len] in *. destruct (Z.eqb_spec c 34); [by eexists|]. destruct (Z.eqb_spec c 0); [by eexists|].
    rewrite (proj2 (Z.eqb_neq c 92)) in * by done. cbn [orb].
    destruct (IH s ltac:(lia) H) as [l ->]. by eexists.
Qed.

(** The room counted in the first pass is enough for the second. *)
Definition copied (out : list Z) (r : option (list Z * list Z * Z)) : Prop :=
  match r with
  | Some (ptr, out', pos') => good ptr = true /\ zlen out' = zlen out /\ 0 <= pos' < zlen out
  | None => False
  end.

Lemma put_copied out uc pos l (k : list Z -> option (list Z * list Z * Z)) :
  0 <= pos -> pos + 5 + l < zlen out -> 0 <= l ->
  (forall o, zlen o = zlen out -> copied o (k o)) ->
  copied out (o ← blit out pos (utf8 uc); k o).
Proof.
  intros Hp Hl H0 Hk. pose proof (utf8_len_bounds uc). pose proof (zlen_utf8 uc).
  destruct (blit out pos (utf8 uc)) as [o|] eqn:E; [|rewrite blit_spec in E by lia; done].
  cbn [mbind option_bind]. apply blit_length in E. specialize (Hk o E). unfold copied in *. by rewrite E in Hk.
Qed.

Lemma st_copied out c pos (k : list Z -> option (list Z * list Z * Z)) : 0 <= pos < zlen out ->
  (forall o, zlen o = zlen out -> copied o (k o)) -> copied out (o ← st out pos c; k o).
Proof.
  intros Hp Hk. destruct (st_Some out pos c Hp) as [o Eo]. rewrite Eo. cbn [mbind option_bind].
  apply st_length in Eo. specialize (Hk o Eo). unfold copied in *. by rewrite Eo in Hk.
Qed.

(** The pass continues in [Rec] behind an escape sequence of four digits. *)
Lemma unicode_copied n out pos s len : good (92 :: 117 :: s) = true -> scan_len (92 :: 117 :: s) = Some len ->
  (length s <= n)%nat -> 0 <= pos -> pos + len < zlen out ->
  (forall t o p l, (length t <= n)%nat -> good t = true -> scan_len t = Some l -> 0 <= p ->
    zlen o = zlen out -> p + l < zlen out -> copied o (unescape t o p)) ->
  copied out (unescape (92 :: 117 :: s) out pos).
Proof.
  intros H Hs Hn Hp Hl Rec.
  destruct (good_unicode s H) as (h1 & h2 & h3 & h4 & s3 & -> & Hg & Es). rewrite Es in Hs.
  destruct (scan_len s3) as [l3|] eqn:El; [|done]. injection Hs as <-. clear Es.
  pose proof (scan_len_nonneg _ _ _ (Nat.le_refl _) El). simpl in Hn.
  cbn [unescape]. change ((92 =? 34) || (92 =? 0)) with false. change (negb (92 =? 92)) with false.
  change (negb (117 =? 117)) with false. cbv iota. set (uc := parse_hex4 _).
  destruct (is_low uc || (uc =? 0)); [eapply Rec; done || lia|].
  destruct (is_high uc); [|apply (put_copied _ _ _ l3); [done|lia|done|]; intros o Eo; pose proof (utf8_len_bounds uc);
    eapply Rec; done || lia].
  destruct s3 as [|b s4]; [done|]. destruct (Z.eqb_spec b 92) as [->|]; [|eapply Rec; done || lia]. cbn [negb].
  destruct s4 as [|u s5]; [done|]. destruct (Z.eqb_spec u 117) as [->|]; [|eapply Rec; done || lia]. cbn [negb].
  destruct (good_unicode s5 Hg) as (g1 & g2 & g3 & g4 & s6 & -> & Hg6 & Es). rewrite Es in El.
  destruct (scan_len s6) as [l6|] eqn:El6; [|done]. injection El as <-. simpl in Hn.
  pose proof (scan_len_nonneg _ _ _ (Nat.le_refl _) El6).
  set (uc2 := parse_hex4 _). destruct (negb (is_low uc2)); [eapply Rec; done || lia|].
  cbv zeta. apply (put_copied _ _ _ l6); [done|lia|done|]. intros o Eo.
  match goal with |- context [utf8_len ?u] => pose proof (utf8_len_bounds u) end. eapply Rec; done || lia.
Qed.

Lemma unescape_copied n : forall s out pos len, (length s <= n)%nat -> good s = true -> scan_len s = Some len ->
  0 <= pos -> pos + len < zlen out -> copied out (unescape s out pos).
Proof.
  induction n as [|n IH]; intros s out pos len Hn H Hs Hp Hl; (destruct s as [|c s]; [done|]); simpl in Hn; [lia|].
  pose proof (scan_len_nonneg _ _ _ (Nat.le_refl _) Hs) as H0.
  assert (Rec : forall t o p l, (length t <= n)%nat -> good t = true -> scan_len t = Some l -> 0 <= p ->
    zlen o = zlen out -> p + l < zlen out -> copied o (unescape t o p)).
  { intros t o p l ? ? ? ? E ?. eapply IH; try eassumption. lia. }
  destruct (Z.eqb_spec c 92) as [->|Hc].
  - destruct s as [|e s]; [done|]. destruct (Z.eqb_spec e 117) as [->|He].
    { apply (unicode_copied n out pos s len); simpl in Hn; done || lia. }
    cbn [good] in H. change (92 =? 0) with false in H. change (92 =? 92) with true in H. cbv iota in H.
    destruct (Z.eqb_spec e 0); [done|]. rewrite (proj2 (Z.eqb_neq e 117)) in H by done.
    change (scan_len (92 :: e :: s)) with (len ← scan_len s; Some (1 + len)) in Hs.
    destruct (scan_len s) as [l|] eqn:El; [|done]. injection Hs as <-.
    pose proof (scan_len_nonneg _ _ _ (Nat.le_refl _) El). simpl in Hn.
    cbn [unescape]. change ((92 =? 34) || (92 =? 0)) with false. change (negb (92 =? 92)) with false. cbv iota.
    rewrite (proj2 (Z.eqb_neq e 117)) by done. cbn [negb].
    apply st_copied; [lia|]. intros o Eo. eapply Rec; done || lia.
  - cbn [good scan_len unescape] in *. destruct ((c =? 34) || (c =? 0)) eqn:Ec.
    { injection Hs as <-. simpl. rewrite (proj2 (Z.eqb_neq c 92)) in H by done. split; [|lia].
      destruct (c =? 0); [done|]. by rewrite (proj2 (Z.eqb_neq c 92)) by done. }
    apply orb_false_iff in Ec as [_ E0]. rewrite E0 in H. rewrite (proj2 (Z.eqb_neq c 92)) in * by done. cbn [negb].
    destruct (scan_len s) as [l|] eqn:El; [|done]. injection Hs as <-.
    pose proof (scan_len_nonneg _ _ _ (Nat.le_refl _) El).
    apply st_copied; [lia|]. intros o Eo. eapply Rec; done || lia.
Qed.

Lemma good_tail c s : good (c :: s) = true -> c <> 0 -> c <> 92 -> good s = true.
Proof. intros H H0 H92. cbn [good] in H. by rewrite !(proj2 (Z.eqb_neq c _)) in H by done. Qed.

Lemma parse_string_good `{HP : Heap} s : (forall n b, malloc n = Some b -> n < 4294967293) -> good s = true ->
  parsed False (fun s => good s = true) (length s) (parse_string s).
Proof.
  intros Hmem Hg. unfold parse_string. destruct s as [|c s]; [done|]. cbn [head defined tail].
  destruct (Z.eqb_spec c 34) as [->|]; [|done]. cbn [negb]. apply good_tail in Hg; [|done..].
  destruct (good_scan _ s (Nat.le_refl _) Hg) as [len El]. rewrite El. simpl.
  pose proof (scan_len_nonneg _ _ _ (Nat.le_refl _) El).
  destruct (malloc (len + 1)) as [out|] eqn:Eo; [|done]. pose proof (Hmem _ _ Eo).
  apply malloc_len in Eo; [|lia].
  pose proof (unescape_copied _ s out 0 len (Nat.le_refl _) Hg El ltac:(lia) ltac:(lia)) as C.
  destruct (unescape s out 0) as [[[ptr out'] pos]|] eqn:E; [|done]. destruct C as (Hg' & Ho & Hp). simpl.
  destruct (st_Some out' pos 0) as [o ->]; [lia|]. simpl. apply (unescape_shorter (length s)) in E; [|lia].
  destruct ptr as [|d ptr]; [done|]. simpl in *.
  destruct (Z.eqb_spec d 34); simpl; (split; [|lia]); [|done]. apply (good_tail d); [done|lia..].
Qed.

(** C21: whatever else the text is - no JSON at all, truncated, with unpaired
    surrogates - the parser reads and writes inside its blocks if, up to the
    terminator, every backslash is followed by a byte other than the
    terminator and every [\u] by four hexadecimal digits, and no granted block
    reaches 2^32 - 3 bytes. What this leaves out are texts with a unicode
    escape cut off or with a letter that is no hexadecimal digit, and texts
    with a backslash right before the terminator; [parse_string_overflow] and
    [backslash_overread] show what the parser does with them. *)
Theorem cJSON_Parse_safe `{HP : Heap} `{LM : LibM} text b :
  (forall n b, malloc n = Some b -> n < 4294967293) -> good text = true -> cJSON_ParseWithOpts text b <> PUndef.
Proof.
  intros Hmem Hg E. pose proof (parse_parsed False (fun s => good s = true) ltac:(done) good_tail
    (fun s Hs => parse_string_good s Hmem Hs) text b Hg) as H. by rewrite E in H.
Qed.

Lemma small_heap lim n b : lim < 4294967293 -> @malloc (zero_heap lim) n = Some b -> n < 4294967293.
Proof. intros Hl. simpl. destruct (Z.leb_spec n lim); [lia|done]. Qed.

(** A malformed text with an unpaired surrogate. *)
Lemma cJSON_Parse_safe_witness :
  let H := zero_heap 20480 in
  let text := [123; 34; 97; 92; 117; 100; 56; 51; 100; 92; 117; 48; 48; 101; 57; 34; 58; 91; 49; 46; 53; 101; 51; 44; 93; 125; 0] in
  cJSON_ParseWithOpts text true <> PUndef.
Proof.
  intros H text. apply (@cJSON_Parse_safe H _ text true); [|by vm_compute].
  intros n b. by apply small_heap.
Defined.

(** * Texts that are not *)

Definition plain (c : Z) : Prop := c <> 34 /\ c <> 0 /\ c <> 92.

Lemma unescape_full rest : forall tail out pos, Forall plain rest -> 0 <= pos <= zlen out ->
  zlen out < pos + zlen rest -> unescape (rest ++ tail) out pos = None.
Proof.
  induction rest as [|c rest IH]; intros tail out pos Hr Hp Hl.
  - change (zlen (@nil Z)) with 0 in Hl. lia.
  - inversion Hr as [|? ? (N34 & N0 & N92) Hr']; subst. cbn [app unescape].
    rewrite !(proj2 (Z.eqb_neq c _)) by done. cbn [orb negb]. rewrite zlen_cons in Hl.
    destruct (Z.eq_dec pos (zlen out)) as [->|].
    + unfold st. by rewrite Z.ltb_irrefl, andb_false_r.
    + destruct (st_Some out pos c ltac:(lia)) as [o Eo]. rewrite Eo. cbn [mbind option_bind].
      apply st_length in Eo. apply IH; [done|lia|lia].
Qed.

(** A [\u] that is cut off by the closing quote makes the parser write
    behind its block: the first pass counts one byte for the string, the second
    skips four characters, the quote among them, and copies what follows up to
    the next quote.  The bytes are the sender's choice. *)
Theorem parse_string_overflow `{HP : Heap} `{LM : LibM} a b c rest more :
  is_Some (malloc sizeof_cJSON) -> is_Some (malloc 2) -> Forall plain rest -> 2 < zlen rest ->
  cJSON_Parse ([34; 92; 117; 34; a; b; c] ++ rest ++ more) = PUndef.
Proof.
  intros [b1 E1] [out E2] Hr Hl. unfold cJSON_Parse, cJSON_ParseWithOpts, cJSON_New_Item. rewrite E1.
  cbn [app skip]. change (34 =? 0) with false. change (34 <=? 32) with false. cbn [defined]. cbv iota.
  cbn [parse_value]. change (starts t_null _) with (Some false). change (starts t_false _) with (Some false).
  change (starts t_true _) with (Some false). cbn [defined head]. cbv iota. change (34 =? 34) with true. cbv iota.
  unfold parse_string. cbn [head defined tail]. change (negb (34 =? 34)) with false. cbv iota.
  change (scan_len _) with (Some 1). cbn [defined]. change (1 + 1) with 2. rewrite E2.
  pose proof (malloc_len 2 out ltac:(lia) E2) as Ho.
  change (unescape _ out 0) with (unescape (rest ++ more) out 0). by rewrite unescape_full by (done || lia).
Qed.

(** The cut-off escape, a comma, and 24 bytes for the heap. *)
Lemma parse_string_overflow_witness :
  let H := zero_heap 20480 in
  cJSON_Parse ([34; 92; 117; 34; 44; 32; 120] ++ replicate 24 65 ++ [34; 0]) = PUndef.
Proof.
  intros H. apply (@parse_string_overflow H _ 44 32 120 (replicate 24 65) [34; 0]);
    [by eexists|by eexists|by repeat constructor|by vm_compute].
Defined.

Lemma scan_len_backslash rest : Forall plain rest -> scan_len (rest ++ [92; 0]) = None.
Proof.
  induction 1 as [|c rest (N34 & N0 & N92) _ IH]; [done|].
  cbn [app]. rewrite scan_len_plain by done. by rewrite IH.
Qed.

(** A string that ends in a backslash and the terminator of the text: the
    first pass steps over both and reads on behind the text. *)
Theorem backslash_overread `{HP : Heap} `{LM : LibM} rest :
  is_Some (malloc sizeof_cJSON) -> Forall plain rest ->
  cJSON_Parse ([34] ++ rest ++ [92; 0]) = PUndef.
Proof.
  intros [b E1] Hr. unfold cJSON_Parse, cJSON_ParseWithOpts, cJSON_New_Item. rewrite E1.
  cbn [app skip]. change (34 =? 0) with false. change (34 <=? 32) with false. cbn [defined]. cbv iota.
  cbn [parse_value]. change (starts t_null _) with (Some false). change (starts t_false _) with (Some false).
  change (starts t_true _) with (Some false). cbn [defined head]. cbv iota. change (34 =? 34) with true. cbv iota.
  unfold parse_string. cbn [head defined tail]. change (negb (34 =? 34)) with false. cbv iota.
  by rewrite scan_len_backslash.
Qed.

(** A quote, a letter, a backslash and the terminator. *)
Lemma backslash_overread_witness :
  let H := zero_heap 20480 in cJSON_Parse [34; 97; 92; 0] = PUndef.
Proof.
  intros H. apply (@backslash_overread H _ [97]); [by eexists|by repeat constructor].
Defined.
