(* ===== verification/JsonRound.v ===== *)
(** Printing and parsing JSON are inverse.

    [cJSON_roundtrip]: the parser reads the text of a value back as its tree,
    for values of any depth with strings of arbitrary non-zero bytes and
    numbers that are an [int], formatted or not.  Doubles are only used for
    integers here: [print_number] keeps six digits of any other. *)
From S2P Require Import Prelude Double StrLib EdpBuffer Json JsonPrint JsonParse.
From Stdlib Require Import Floats.SpecFloat.

(** * Strings *)

(** The three ways a byte is written. *)
Inductive esc_form (c : Z) : list Z -> Prop :=
  | Esc_plain : plain c -> esc_form c [c]
  | Esc_letter e : e <> 117 -> escaped e = c -> esc_form c [92; e]
  | Esc_unicode h3 h4 : parse_hex4 [48; 48; h3; h4] = c -> is_hex h3 = true -> is_hex h4 = true ->
      c < 32 -> utf8 c = [c] -> esc_form c [92; 117; 48; 48; h3; h4].

Definition esc_form_check (c : Z) : bool :=
  match esc c with
  | [x] => (x =? c) && negb (c =? 34) && negb (c =? 92)
  | [a; e] => (a =? 92) && negb (e =? 117) && (escaped e =? c)
  | [a; b; h1; h2; h3; h4] =>
      (a =? 92) && (b =? 117) && (h1 =? 48) && (h2 =? 48) && (parse_hex4 [48; 48; h3; h4] =? c) &&
      is_hex h3 && is_hex h4 && (c <? 32) && bool_decide (utf8 c = [c])
  | _ => false
  end.

Lemma esc_has_form c : 0 < c < 256 -> esc_form c (esc c).
Proof.
  intros Hc. assert (Hu : is_u8 c) by word_lia.
  pose proof (u8_forall (fun c => (c =? 0) || esc_form_check c) ltac:(by vm_compute) c Hu) as E.
  cbv beta in E. rewrite (proj2 (Z.eqb_neq c 0)) in E by lia. cbn [orb] in E. unfold esc_form_check in E.
  destruct (esc c) as [|a [|b [|h1 [|h2 [|h3 [|h4 [|]]]]]]]; try discriminate E;
    repeat match type of E with _ && _ = true => apply andb_prop in E as [E ?] end.
  - assert (a = c) as -> by lia. constructor. unfold plain. lia.
  - assert (a = 92) as -> by lia. constructor; lia.
  - assert (a = 92 /\ b = 117 /\ h1 = 48 /\ h2 = 48) as (-> & -> & -> & ->) by lia.
    constructor; try done; try lia. by eapply bool_decide_eq_true_1.
Qed.

Lemma scan_len_plain' c s : plain c -> scan_len (c :: s) = (len ← scan_len s; Some (1 + len)).
Proof. intros (? & ? & ?). by apply scan_len_plain. Qed.

(** What the first pass counts for an escaped string. *)
Lemma scan_len_esc s more : is_cstr s ->
  exists len, scan_len (concat (map esc s) ++ 34 :: more) = Some len /\
    zlen s <= len <= zlen (concat (map esc s)).
Proof.
  induction 1 as [|c s Hc Hs (len & IH & Hl)]; [by exists 0|]. cbn [map concat].
  destruct (esc_has_form c Hc) as [Hp|e He Ee|h3 h4 Ep H3 H4 Hlt Eu]; cbn [app].
  - rewrite scan_len_plain', IH by done. eexists. split; [done|]. rewrite !zlen_cons. lia.
  - change (scan_len (92 :: e :: concat (map esc s) ++ 34 :: more)) with
      (len ← scan_len (concat (map esc s) ++ 34 :: more); Some (1 + len)).
    rewrite IH. eexists. split; [done|]. rewrite !zlen_cons. lia.
  - change (scan_len (92 :: 117 :: 48 :: 48 :: h3 :: h4 :: concat (map esc s) ++ 34 :: more)) with
      (len ← scan_len (48 :: 48 :: h3 :: h4 :: concat (map esc s) ++ 34 :: more); Some (1 + len)).
    rewrite scan_len_hex, IH by (by rewrite H3, H4). eexists. split; [done|]. rewrite !zlen_cons. lia.
Qed.

Lemma blit_one {A} (done0 : list A) x y junk : blit (done0 ++ x :: junk) (zlen done0) [y] = Some ((done0 ++ [y]) ++ junk).
Proof.
  rewrite blit_spec by zlen_lia. rewrite ztake_zlen_app, <- app_assoc. cbn [app]. do 3 f_equal.
  rewrite (zdrop_app_r _ done0) by zlen_lia. replace (zlen done0 + zlen [y] - zlen done0) with 1 by zlen_lia. done.
Qed.

Lemma st_one {A} (done0 : list A) x y junk : st (done0 ++ x :: junk) (zlen done0) y = Some ((done0 ++ [y]) ++ junk).
Proof. rewrite st_blit by zlen_lia. apply blit_one. Qed.

(** The second pass restores the string. *)
Lemma unescape_esc s more : is_cstr s -> forall written junk, zlen s <= zlen junk ->
  exists junk', unescape (concat (map esc s) ++ 34 :: more) (written ++ junk) (zlen written)
    = Some (34 :: more, (written ++ s) ++ junk', zlen (written ++ s)) /\ zlen junk' = zlen junk - zlen s.
Proof.
  induction 1 as [|c s Hc Hs IH]; intros written junk Hl.
  { exists junk. rewrite !app_nil_r. split; [done|]. zlen_lia. }
  destruct junk as [|x junk]; [rewrite zlen_cons in Hl; change (zlen (@nil Z)) with 0 in Hl; zlen_lia|].
  rewrite !zlen_cons in Hl. destruct (IH (written ++ [c]) junk ltac:(lia)) as (junk' & E & Hj).
  exists junk'. rewrite !zlen_cons. split; [|lia].
  replace (written ++ c :: s) with ((written ++ [c]) ++ s) by by rewrite <- app_assoc.
  rewrite <- E, zlen_app. change (zlen [c]) with 1. cbn [map concat].
  destruct (esc_has_form c Hc) as [(N34 & N0 & N92)|e He Ee|h3 h4 Ep H3 H4 Hlt Eu]; cbn [app unescape].
  - rewrite !(proj2 (Z.eqb_neq c _)) by done. cbn [orb negb]. by rewrite st_one.
  - change ((92 =? 34) || (92 =? 0)) with false. change (negb (92 =? 92)) with false. cbv iota.
    rewrite (proj2 (Z.eqb_neq e 117)) by done. cbn [negb]. by rewrite Ee, st_one.
  - change ((92 =? 34) || (92 =? 0)) with false. change (negb (92 =? 92)) with false.
    change (negb (117 =? 117)) with false. cbv iota. rewrite Ep.
    assert (is_low c || (c =? 0) = false /\ is_high c = false /\ utf8_len c = 1) as (-> & -> & ->).
    { unfold is_low, is_high, utf8_len. split; [lia|split; [lia|]]. by rewrite (proj2 (Z.ltb_lt c 128)) by lia. }
    by rewrite Eu, blit_one.
Qed.

Lemma until_nul_app s junk : is_cstr s -> until_nul (s ++ 0 :: junk) = s.
Proof.
  induction 1 as [|c s Hc Hs IH]; [done|]. cbn [app until_nul].
  rewrite (proj2 (Z.eqb_neq c 0)) by lia. by rewrite IH.
Qed.

(** * Numbers *)

(** What may follow a number: nothing that belongs to it. *)
Definition delimiter (more : list Z) : Prop :=
  match more with c :: _ => is_digit c = false /\ c <> 46 /\ c <> 101 /\ c <> 69 | [] => False end.

Lemma digit_decimal d : 0 <= d < 10 -> digit d = 48 + d.
Proof.
  intros Hd. assert (Hu : is_u8 d) by word_lia.
  pose proof (u8_forall (fun d => implb (d <? 10) (digit d =? 48 + d)) ltac:(by vm_compute) d Hu) as E.
  cbv beta in E. rewrite (proj2 (Z.ltb_lt d 10)) in E by lia. simpl in E. lia.
Qed.

Lemma is_digit_decimal d : 0 <= d < 10 -> is_digit (digit d) = true.
Proof. intros Hd. rewrite digit_decimal by done. unfold is_digit. lia. Qed.

Lemma digits_are_digits fuel : forall v, 0 <= v -> Forall (fun c => is_digit c = true) (digits fuel 10 v).
Proof.
  induction fuel as [|fuel IH]; intros v Hv; simpl; [constructor|]. destruct (Z.ltb_spec v 10).
  - constructor; [|constructor]. apply is_digit_decimal. lia.
  - apply Forall_app. split; [apply IH, Z.div_pos; lia|]. constructor; [|constructor].
    apply is_digit_decimal, Z.mod_pos_bound. lia.
Qed.

Lemma digits_first k : forall fuel v, 0 < v < 2 ^ Z.of_nat k -> (k < fuel)%nat ->
  exists c ds, digits fuel 10 v = c :: ds /\ 49 <= c <= 57.
Proof.
  induction k as [|k IH]; intros fuel v Hv Hf; (destruct fuel as [|fuel]; [lia|]); simpl.
  - change (2 ^ Z.of_nat 0) with 1 in Hv. lia.
  - destruct (Z.ltb_spec v 10).
    + exists (digit v), []. split; [done|]. rewrite digit_decimal by lia. lia.
    + destruct (IH fuel (v / 10)) as (c & ds & -> & Hc); [|lia|by exists c, (ds ++ [digit (v mod 10)])].
      split; [apply Z.div_str_pos; lia|]. apply (div_pow2 10); lia.
Qed.

Lemma dec_spec n : 0 <= n -> Forall (fun c => is_digit c = true) (dec n) /\ number 10 (dec n) = n.
Proof.
  intros Hn. split; [by apply digits_are_digits|]. unfold dec.
  destruct (Z.eq_dec n 0) as [->|]; [done|].
  apply (number_digits 10 ltac:(lia) (S (Z.to_nat (Z.log2 n)))); [|lia].
  pose proof (Z.log2_spec n ltac:(lia)). pose proof (Z.log2_nonneg n).
  replace (Z.of_nat (S (Z.to_nat (Z.log2 n)))) with (Z.succ (Z.log2 n)) by lia. lia.
Qed.

Lemma dec_first n : 0 < n -> exists c ds, dec n = c :: ds /\ 49 <= c <= 57.
Proof.
  intros Hn. unfold dec. apply (digits_first (S (Z.to_nat (Z.log2 n)))); [|lia].
  pose proof (Z.log2_spec n ltac:(lia)). pose proof (Z.log2_nonneg n).
  replace (Z.of_nat (S (Z.to_nat (Z.log2 n)))) with (Z.succ (Z.log2 n)) by lia. lia.
Qed.

Definition push_digit (v c : Z) : Z := v * 10 + digit_value c.

Lemma push_digits_le ds : forall a, 0 <= a -> Forall (fun c => is_digit c = true) ds -> a <= fold_left push_digit ds a.
Proof.
  induction ds as [|c ds IH]; intros a Ha Hd; cbn [fold_left]; [lia|]. inversion Hd as [|? ? Hc Hds]; subst.
  unfold is_digit in Hc. assert (a <= push_digit a c) by (unfold push_digit, digit_value; case_match; lia).
  specialize (IH (push_digit a c) ltac:(lia) Hds). lia.
Qed.

Lemma int_digits_push ds : forall a more, 0 <= a -> Forall (fun c => is_digit c = true) ds ->
  fold_left push_digit ds a < 2 ^ 53 -> delimiter more ->
  int_digits (ds ++ more) (of_int a) = Some (of_int (fold_left push_digit ds a), more).
Proof.
  induction ds as [|c ds IH]; intros a more Ha Hd Hv Hm.
  - destruct more as [|c more]; [done|]. cbn [app int_digits fold_left]. destruct Hm as [-> _]. done.
  - inversion Hd as [|? ? Hc Hds]; subst. cbn [app int_digits fold_left] in *. rewrite Hc.
    assert (Ep : push_digit a c = a * 10 + (c - 48))
      by (unfold push_digit, digit_value, is_digit in *; case_match; lia).
    assert (0 <= push_digit a c) by (unfold is_digit in Hc; lia).
    pose proof (push_digits_le ds (push_digit a c) ltac:(done) Hds).
    assert (0 <= c - 48 <= 9) by (unfold is_digit in Hc; lia).
    unfold ten. rewrite of_int_mul, of_int_add, <- Ep; [by apply IH|unfold exact; lia..|lia].
Qed.

(** The product with a power of ten to the zero. *)
Lemma mul_pow_zero `{LibM} sgn v : exact v -> sgn = 1 /\ 0 <= v \/ sgn = -1 /\ 0 < v ->
  dmul (dmul (of_int sgn) (of_int v)) (pow ten (dadd (of_int 0) (of_int (s32 (0 * 1))))) = of_int (sgn * v).
Proof.
  intros Hv Hs. change (s32 (0 * 1)) with 0. change (dadd (of_int 0) (of_int 0)) with (of_int 0).
  rewrite pow_0. unfold exact in *.
  rewrite (of_int_mul sgn v) by (unfold exact; lia).
  rewrite (of_int_mul (sgn * v) 1) by (unfold exact; lia). by rewrite Z.mul_1_r.
Qed.

Lemma after_digits_int `{LibM} sgn v more : is_int (sgn * v) -> sgn = 1 /\ 0 <= v \/ sgn = -1 /\ 0 < v -> delimiter more ->
  after_digits (of_int sgn) (of_int v) more
    = Some (Item cJSON_Number None (sgn * v) (of_int (sgn * v)) None [], more).
Proof.
  intros Hi Hs Hm. destruct more as [|c more]; [done|]. destruct Hm as (_ & N46 & N101 & N69).
  unfold after_digits, parse_exponent. cbn [head mbind option_bind].
  rewrite (proj2 (Z.eqb_neq c 46)) by done. cbn [mbind option_bind head].
  rewrite (proj2 (Z.eqb_neq c 101)), (proj2 (Z.eqb_neq c 69)) by done.
  cbn [orb mbind option_bind]. cbv zeta.
  rewrite mul_pow_zero by (done || (pose proof (is_int_exact _ Hi); unfold exact in *; lia)).
  by rewrite to_int_of_int.
Qed.

Lemma before_point_dec `{LibM} sgn v more : is_int (sgn * v) -> sgn = 1 /\ 0 <= v \/ sgn = -1 /\ 0 < v -> delimiter more ->
  before_point (of_int sgn) (dec v ++ more)
    = Some (Item cJSON_Number None (sgn * v) (of_int (sgn * v)) None [], more).
Proof.
  intros Hi Hs Hm. destruct (Z.eq_dec v 0) as [->|Hv].
  - change (dec 0 ++ more) with (48 :: more). destruct more as [|c more]; [done|].
    unfold before_point. cbn [head mbind option_bind tail]. change (48 =? 48) with true. cbv iota zeta. cbn [head mbind option_bind].
    rewrite (proj2 (andb_false_iff (49 <=? c) (c <=? 57))) by (destruct Hm as [Hm _]; unfold is_digit in Hm; lia).
    cbn [mbind option_bind]. by apply after_digits_int.
  - destruct (dec_first v ltac:(lia)) as (c & ds & E & Hc). destruct (dec_spec v ltac:(lia)) as [Hd Hn].
    rewrite E in Hd, Hn |- *. unfold before_point. cbn [app head mbind option_bind].
    rewrite (proj2 (Z.eqb_neq c 48)) by lia. cbv zeta. cbn [head mbind option_bind].
    rewrite (proj2 (andb_true_iff (49 <=? c) (c <=? 57))) by lia.
    change (number 10 (c :: ds)) with (fold_left push_digit (c :: ds) 0) in Hn.
    change (c :: ds ++ more) with ((c :: ds) ++ more). rewrite (int_digits_push (c :: ds) 0 more) by (done || (rewrite Hn; pose proof (is_int_exact _ Hi); unfold exact in *; lia)).
    rewrite Hn. cbn [mbind option_bind]. by apply after_digits_int.
Qed.

Lemma parse_number_fmt `{LibM} n more : is_int n -> delimiter more ->
  parse_number (fmt_d n ++ more) = Some (Item cJSON_Number None n (of_int n) None [], more).
Proof.
  intros Hi Hm. unfold fmt_d, parse_number. destruct (Z.ltb_spec n 0) as [Hn|Hn].
  - cbn [app head mbind option_bind tail]. change (45 =? 45) with true. cbv iota.
    rewrite before_point_dec by (done || lia || (by replace (-1 * - n) with n by lia)).
    by replace (-1 * - n) with n by lia.
  - assert (exists c ds, dec n = c :: ds /\ c <> 45) as (c & ds & E & Hc).
    { destruct (Z.eq_dec n 0) as [->|]; [by exists 48, []|]. destruct (dec_first n ltac:(lia)) as (c & ds & -> & ?).
      exists c, ds. split; [done|lia]. }
    pose proof (before_point_dec 1 n more) as B. rewrite Z.mul_1_l in B. rewrite E in B |- *.
    cbn [app head mbind option_bind] in *. rewrite (proj2 (Z.eqb_neq c 45)) by done. apply B; [done|lia|done].
Qed.

(** * Values *)

(** White space of the printer, and a byte that is none. *)
Definition white (ws : list Z) : Prop := Forall (fun c => 0 < c <= 32) ws.

Lemma white_tabs n : white (tabs n).
Proof. apply Forall_replicate. lia. Qed.

Lemma white_if (fmt : bool) ws : white ws -> white (if_fmt fmt ws).
Proof. by destruct fmt; [|constructor]. Qed.

Lemma white_app ws ws' : white ws -> white ws' -> white (ws ++ ws').
Proof. intros. by apply Forall_app. Qed.

Lemma skip_white ws c more : white ws -> 32 < c -> skip (ws ++ c :: more) = Some (c :: more).
Proof.
  intros Hw Hc. induction Hw as [|d ws Hd Hw IH]; cbn [app skip].
  - rewrite (proj2 (Z.eqb_neq c 0)), (proj2 (Z.leb_gt c 32)) by lia. done.
  - rewrite (proj2 (Z.eqb_neq d 0)), (proj2 (Z.leb_le d 32)) by lia. done.
Qed.

(** The byte behind a value. *)
Definition closes (d : Z) : Prop := d = 44 \/ d = 93 \/ d = 125.

Lemma delimiter_white ws d more : white ws -> closes d -> delimiter (ws ++ d :: more).
Proof.
  intros Hw Hd. destruct Hw as [|c ws Hc Hw]; simpl; unfold is_digit, closes in *; lia.
Qed.

Definition starts_value (t : list Z) : Prop :=
  match t with c :: _ => 32 < c /\ c <> 93 /\ c <> 125 | [] => False end.

(** [pv] reads [t] as [v], in texts shorter than [n]. *)
Definition reads (pv : list Z -> pres cJSON) (n : nat) (t : list Z) (v : cJSON) : Prop :=
  starts_value t /\
  forall more, delimiter more -> (length (t ++ more) < n)%nat -> pv (t ++ more) = POk v more.

Section Granted.
Context `{HP : Heap} `{LM : LibM} (lim : Z) {HG : Grants lim}.
Hypothesis Hlim : 64 <= lim < 2147483648.

Lemma new_item_ok : cJSON_New_Item = Ok blank.
Proof. unfold cJSON_New_Item. by destruct (HG sizeof_cJSON ltac:(unfold sizeof_cJSON; lia)) as [b ->]. Qed.

Lemma parse_string_render s more : is_cstr s -> zlen (render_string s) <= lim ->
  parse_string (render_string s ++ more) = POk s more.
Proof.
  intros Hs Hl. unfold render_string in *. rewrite !zlen_app in Hl. change (zlen [t_quote]) with 1 in Hl.
  rewrite <- !app_assoc. cbn [app]. unfold parse_string. cbn [head defined tail].
  change (negb (t_quote =? 34)) with false. cbv iota. change (t_quote :: more) with (34 :: more).
  destruct (scan_len_esc s more Hs) as (len & -> & Hlen). cbn [defined]. pose proof (zlen_nonneg s).
  destruct (HG (len + 1) ltac:(lia)) as [out Eo]. rewrite Eo. apply malloc_len in Eo; [|lia].
  destruct (unescape_esc s more Hs [] out ltac:(lia)) as (junk & E & Hj). cbn [app] in E. change (zlen (@nil Z)) with 0 in E.
  rewrite E. cbn [defined].
  destruct junk as [|x junk]; [change (zlen (@nil Z)) with 0 in Hj; lia|].
  rewrite st_one. cbn [defined head]. change (34 =? 34) with true.
  cbv iota. cbn [tail]. rewrite <- app_assoc. cbn [app]. by rewrite until_nul_app.
Qed.

Section Children.
Context (pv : list Z -> pres cJSON) (n : nat).

Lemma element_reads ws t v ws' d more : white ws -> white ws' -> closes d -> reads pv n t v ->
  (length (t ++ ws' ++ d :: more) < n)%nat ->
  parse_element pv (ws ++ t ++ ws' ++ d :: more) = POk v (d :: more).
Proof.
  intros Hw Hw' Hd [Ht Hr] Hn. unfold parse_element. rewrite new_item_ok.
  assert (skip (ws ++ t ++ ws' ++ d :: more) = Some (t ++ ws' ++ d :: more)) as ->.
  { destruct t as [|c t]; [done|]. apply skip_white; [done|]. apply Ht. }
  cbn [defined]. rewrite Hr by (done || by apply delimiter_white). cbn [pbind].
  rewrite skip_white by (done || (unfold closes in Hd; lia)). done.
Qed.

Lemma member_reads ws k t v ws' d more fmt : white ws -> white ws' -> closes d -> is_cstr k ->
  zlen (render_string k) <= lim -> reads pv n t v ->
  (length (t ++ ws' ++ d :: more) < n)%nat ->
  parse_member pv (ws ++ render_string k ++ [58] ++ if_fmt fmt [9] ++ t ++ ws' ++ d :: more)
    = POk (set_string (Some k) v) (d :: more).
Proof.
  intros Hw Hw' Hd Hk Hl [Ht Hr] Hn. unfold parse_member. rewrite new_item_ok.
  set (after := [58] ++ if_fmt fmt [9] ++ t ++ ws' ++ d :: more).
  assert (skip (ws ++ render_string k ++ after) = Some (render_string k ++ after)) as ->
    by (by apply skip_white).
  cbn [defined]. rewrite parse_string_render by done. cbn [pbind].
  unfold after. cbn [app]. change (skip (58 :: ?x)) with (Some (58 :: x)). cbn [defined head tail].
  change (negb (58 =? 58)) with false. cbv iota.
  assert (skip (if_fmt fmt [9] ++ t ++ ws' ++ d :: more) = Some (t ++ ws' ++ d :: more)) as ->.
  { destruct t as [|c t]; [done|]. apply skip_white; [|apply Ht]. apply white_if. by repeat constructor. }
  cbn [defined]. rewrite Hr by (done || by apply delimiter_white). cbn [pbind].
  rewrite skip_white by (done || (unfold closes in Hd; lia)). done.
Qed.

Lemma join_cons sep e es more : es <> [] -> join sep (e :: es) ++ more = e ++ sep ++ join sep es ++ more.
Proof. destruct es as [|e' es]; [done|]. intros _. change (join sep (e :: e' :: es)) with (e ++ sep ++ join sep (e' :: es)). by rewrite <- !app_assoc. Qed.

Lemma length_join_cons sep e es : es <> [] ->
  length (join sep (e :: es)) = (length e + length sep + length (join sep es))%nat.
Proof.
  intros He. pose proof (join_cons sep e es [] He) as E. rewrite !app_nil_r in E. rewrite E, !length_app. lia.
Qed.

Lemma elements_reads (f : json -> list Z) ws' l : white ws' -> l <> [] -> Forall (fun j => reads pv n (f j) (repr j)) l ->
  forall fuel ws more, white ws -> let text := ws ++ join ([44] ++ ws') (map f l) ++ 93 :: more in
  (length text < n)%nat -> (length text < fuel)%nat ->
  parse_elements pv fuel text = POk (map repr l) more.
Proof.
  intros Hw' Hne Hl. induction Hl as [|j l Hj Hl IH]; [done|]. intros fuel ws more Hw text Hn Hf. unfold text in *.
  destruct fuel as [|fuel]; [lia|]. cbn [parse_elements]. rewrite !length_app in Hn, Hf.
  destruct l as [|j' l].
  - pose proof (element_reads ws (f j) (repr j) [] 93 more Hw ltac:(constructor) ltac:(by right; left) Hj) as E.
    cbn [map join app] in *. rewrite E by (rewrite !length_app; simpl in *; lia). done.
  - rewrite map_cons in *. rewrite join_cons by done.
    rewrite length_join_cons in Hn, Hf by done. set (todo := ws' ++ join ([44] ++ ws') (map f (j' :: l)) ++ 93 :: more).
    pose proof (element_reads ws (f j) (repr j) [] 44 todo Hw ltac:(constructor) ltac:(by left) Hj) as E.
    cbn [app] in E. change (([44] ++ ws') ++ join ([44] ++ ws') (map f (j' :: l)) ++ 93 :: more) with (44 :: todo).
    rewrite E by (unfold todo; rewrite !length_app; simpl in *; rewrite !length_app; simpl; lia).
    cbn [pbind defined head tail]. change (44 =? 44) with true. cbv iota.
    assert (parse_elements pv fuel todo = POk (map repr (j' :: l)) more) as ->; [|done].
    apply IH; [done|done|..]; cbn [map] in *; rewrite !length_app in *; simpl in *; lia.
Qed.

Lemma member_text_reads ws fmt depth k t v ws' d more : white ws -> white ws' -> closes d -> is_cstr k ->
  zlen (render_string k) <= lim -> reads pv n t v ->
  (length (t ++ ws' ++ d :: more) < n)%nat ->
  parse_member pv (ws ++ member fmt depth (render_string k, t) ++ ws' ++ d :: more)
    = POk (set_string (Some k) v) (d :: more).
Proof.
  intros Hw Hw' Hd Hk Hl Hr Hn. unfold member. cbn [fst snd]. rewrite <- !app_assoc.
  rewrite (app_assoc ws). apply member_reads; try done. apply white_app; [done|]. apply white_if, white_tabs.
Qed.

Lemma members_reads (f : json -> list Z) fmt depth nl ws2 l : white nl -> white ws2 -> l <> [] ->
  Forall (fun e => is_cstr e.1 /\ zlen (render_string e.1) <= lim /\ reads pv n (f e.2) (repr e.2)) l ->
  forall fuel ws more, white ws ->
  let text := ws ++ join ([44] ++ nl) (map (fun e => member fmt depth (render_string e.1, f e.2)) l) ++ ws2 ++ 125 :: more in
  (length text < n)%nat -> (length text < fuel)%nat ->
  parse_members pv fuel text = POk (map (fun e => set_string (Some e.1) (repr e.2)) l) more.
Proof.
  intros Hnl Hw2 Hne Hl. induction Hl as [|[k j] l (Hk & Hz & Hj) Hl IH]; [done|].
  intros fuel ws more Hw text Hn Hf. unfold text in *. set (m := fun e : list Z * json => member fmt depth (render_string e.1, f e.2)) in *.
  destruct fuel as [|fuel]; [lia|]. cbn [parse_members]. rewrite !length_app in Hn, Hf.
  assert (Hm : (length (f j) <= length (m (k, j)))%nat).
  { unfold m, member. cbn [fst snd]. rewrite !length_app. lia. }
  cbn [fst snd] in *. destruct l as [|e' l].
  - pose proof (member_text_reads ws fmt depth k (f j) (repr j) ws2 125 more Hw Hw2 ltac:(by right; right) Hk Hz Hj) as E.
    change (member fmt depth (render_string k, f j)) with (m (k, j)) in E. cbn [map join] in *. rewrite E by (rewrite !length_app; simpl in *; lia). done.
  - rewrite map_cons in *. rewrite join_cons by done. rewrite length_join_cons in Hn, Hf by done.
    set (todo := nl ++ join ([44] ++ nl) (map m (e' :: l)) ++ ws2 ++ 125 :: more).
    pose proof (member_text_reads ws fmt depth k (f j) (repr j) [] 44 todo Hw ltac:(constructor) ltac:(by left) Hk Hz Hj) as E.
    cbn [app] in E. change (([44] ++ nl) ++ join ([44] ++ nl) (map m (e' :: l)) ++ ws2 ++ 125 :: more) with (44 :: todo).
    change (member fmt depth (render_string k, f j)) with (m (k, j)) in E.
    rewrite E by (unfold todo; rewrite !length_app; simpl in *; rewrite !length_app; simpl; lia).
    cbn [pbind defined head tail]. change (44 =? 44) with true. cbv iota.
    assert (parse_members pv fuel todo = POk (map (fun e => set_string (Some e.1) (repr e.2)) (e' :: l)) more) as ->; [|done].
    apply IH; [done|done|..]; cbn [map] in *; rewrite !length_app in *; simpl in *; lia.
Qed.
End Children.

Lemma render_starts depth fmt j : wf j -> starts_value (render depth fmt j).
Proof.
  destruct j as [|[]|n|s|l|[|e l]]; intros Hw; cbn [render starts_value]; try (cbn; unfold t_quote; lia).
  unfold fmt_d. destruct (Z.ltb_spec n 0); [unfold starts_value; lia|].
  destruct (Z.eq_dec n 0) as [->|]; [vm_compute; repeat split; discriminate|].
  destruct (dec_first n ltac:(lia)) as (c & ds & -> & Hc). unfold starts_value. lia.
Qed.

(** No keyword, and the dispatch on the first byte. *)
Lemma value_by_head fuel c t : c <> 110 -> c <> 102 -> c <> 116 ->
  parse_value (S fuel) (c :: t) =
    (if c =? 34 then pbind (parse_string (c :: t)) (fun s value => POk (Item cJSON_String (Some s) 0 (S754_zero false) None []) value)
     else if (c =? 45) || is_digit c then defined (parse_number (c :: t)) (fun '(item, value) => POk item value)
     else if c =? 91 then parse_array (parse_value fuel) fuel (c :: t)
     else if c =? 123 then parse_object (parse_value fuel) fuel (c :: t)
     else PNull (Some (c :: t))).
Proof.
  intros Hn Hf Ht. cbn [parse_value starts t_null t_false t_true head].
  rewrite (proj2 (Z.eqb_neq 110 c)), (proj2 (Z.eqb_neq 102 c)), (proj2 (Z.eqb_neq 116 c)) by done. done.
Qed.

Lemma literal_reads fuel kw v more : kw = t_null /\ v = literal cJSON_NULL 0 \/ kw = t_false /\ v = literal cJSON_False 0
    \/ kw = t_true /\ v = literal cJSON_True 1 ->
  parse_value (S fuel) (kw ++ more) = POk v more.
Proof. by intros [[-> ->]|[[-> ->]|[-> ->]]]. Qed.

Lemma int_reads fuel m more : is_int m -> delimiter more ->
  parse_value (S fuel) (fmt_d m ++ more) = POk (repr (JInt m)) more.
Proof.
  intros Hm Hd. pose proof (parse_number_fmt m more Hm Hd) as E.
  assert (exists c t, fmt_d m = c :: t /\ (c = 45 \/ 48 <= c <= 57)) as (c & t & Ec & Hc).
  { unfold fmt_d. destruct (Z.ltb_spec m 0); [exists 45, (dec (- m)); auto|].
    destruct (Z.eq_dec m 0) as [->|]; [exists 48, []; split; [done|lia]|].
    destruct (dec_first m ltac:(lia)) as (c & ds & -> & Hc). exists c, ds. split; [done|lia]. }
  rewrite Ec in *. cbn [app] in *. rewrite value_by_head by lia. rewrite (proj2 (Z.eqb_neq c 34)) by lia.
  assert ((c =? 45) || is_digit c = true) as -> by (unfold is_digit; lia). by rewrite E.
Qed.

Lemma join_prefix sep x es more : exists t, join sep (x :: es) ++ more = x ++ t.
Proof. destruct es as [|y es]; [by exists more|]. eexists. by rewrite join_cons. Qed.

Lemma array_reads pv n fuel (f : json -> list Z) ws' l more : white ws' ->
  Forall (fun j => reads pv n (f j) (repr j)) l ->
  let text := join ([44] ++ ws') (map f l) ++ 93 :: more in
  (length text < n)%nat -> (length text < fuel)%nat ->
  parse_array pv fuel (91 :: text) = POk (array (map repr l)) more.
Proof.
  intros Hw Hl text Hn Hf. unfold parse_array. cbn [tail]. destruct l as [|j l]; [done|].
  assert (R : parse_elements pv fuel text = POk (map repr (j :: l)) more)
    by (apply (elements_reads pv n f ws' (j :: l) Hw ltac:(done) Hl fuel [] more ltac:(constructor) Hn Hf)).
  destruct (join_prefix ([44] ++ ws') (f j) (map f l) (93 :: more)) as [t E].
  inversion Hl as [|? ? [Hj _]]; subst. destruct (f j) as [|c t'] eqn:Ej; [done|].
  assert (Et : text = c :: t' ++ t) by (unfold text; cbn [map]; by rewrite Ej). rewrite Et. simpl in Hj.
  change (skip (c :: t' ++ t)) with (skip ([] ++ c :: t' ++ t)). rewrite skip_white by (constructor || lia).
  cbn [defined head]. rewrite (proj2 (Z.eqb_neq c 93)) by lia. rewrite <- Et, R. done.
Qed.

Lemma skip_idem s : forall s', skip s = Some s' -> skip s' = Some s'.
Proof.
  induction s as [|c s IH]; intros s' E; [done|]. cbn [skip] in E.
  destruct (c =? 0) eqn:E0; [injection E as <-; cbn [skip]; by rewrite E0|].
  destruct (c <=? 32) eqn:E32; [by apply IH|]. injection E as <-. cbn [skip]. by rewrite E0, E32.
Qed.

(** The first member is read from behind the white space as from before it. *)
Lemma parse_members_skip pv fuel s s' : skip s = Some s' -> parse_members pv fuel s' = parse_members pv fuel s.
Proof.
  intros E. destruct fuel as [|fuel]; [done|]. cbn [parse_members]. unfold parse_member.
  by rewrite E, (skip_idem s s' E).
Qed.

Lemma object_reads pv n fuel (f : json -> list Z) fmt depth nl ws2 l more : white nl -> white ws2 -> l <> [] ->
  Forall (fun e => is_cstr e.1 /\ zlen (render_string e.1) <= lim /\ reads pv n (f e.2) (repr e.2)) l ->
  let text := nl ++ join ([44] ++ nl) (map (fun e => member fmt depth (render_string e.1, f e.2)) l) ++ ws2 ++ 125 :: more in
  (length text < n)%nat -> (length text < fuel)%nat ->
  parse_object pv fuel (123 :: text) = POk (object (map (fun e => set_string (Some e.1) (repr e.2)) l)) more.
Proof.
  intros Hnl Hw2 Hne Hl text Hn Hf. unfold parse_object. cbn [tail].
  pose proof (members_reads pv n f fmt depth nl ws2 l Hnl Hw2 Hne Hl fuel nl more Hnl Hn Hf) as R. fold text in R.
  assert (exists t, text = (nl ++ if_fmt fmt (tabs depth)) ++ 34 :: t) as [t Et].
  { destruct l as [|[k j] l]; [done|]. unfold text. cbn [map].
    destruct (join_prefix ([44] ++ nl) (member fmt depth (render_string k, f j))
      (map (fun e => member fmt depth (render_string e.1, f e.2)) l) (ws2 ++ 125 :: more)) as [t E].
    cbn [fst snd]. rewrite E. unfold member, render_string. cbn [fst snd]. eexists. rewrite <- !app_assoc. reflexivity. }
  assert (Es : skip text = Some (34 :: t)).
  { rewrite Et. apply skip_white; [|lia]. apply white_app; [done|]. apply white_if, white_tabs. }
  rewrite Es. cbn [defined head]. change (34 =? 125) with false. cbv iota.
  rewrite (parse_members_skip pv fuel text (34 :: t) Es), R. done.
Qed.

(** Reading back any value, in front of any delimiter. *)
Lemma value_reads fmt j : forall fuel depth, wf j -> zlen (render depth fmt j) <= lim ->
  reads (parse_value (S fuel)) (S fuel) (render depth fmt j) (repr j).
Proof.
  induction j as [|b|m|s|l IH|l IH] using json_induction; intros fuel depth Hw Hl;
    (split; [by apply render_starts|]); intros more Hm Hn.
  - by apply literal_reads; auto.
  - destruct b; apply literal_reads; auto.
  - by apply int_reads.
  - cbn [render] in *. unfold render_string in *. cbn [app] in *. rewrite value_by_head by done.
    change (t_quote =? 34) with true. cbv iota. change (t_quote :: (concat (map esc s) ++ [t_quote]) ++ more) with (render_string s ++ more).
    by rewrite parse_string_render.
  - apply wf_arr in Hw. cbn [render] in *. rewrite <- !app_assoc in *. cbn [app] in *. rewrite value_by_head by done.
    change (91 =? 34) with false. change ((91 =? 45) || is_digit 91) with false. change (91 =? 91) with true. cbv iota.
    simpl in Hn. destruct fuel as [|fuel]; [lia|].
    apply (array_reads _ (S fuel)); [apply white_if; by repeat constructor| |simpl; lia..].
    apply List.Forall_forall. intros j Hj%list_elem_of_In. rewrite !List.Forall_forall in IH, Hw.
    pose proof (render_elem fmt depth l j Hj). apply list_elem_of_In in Hj. apply IH; auto. cbn [render] in *. cbn [app] in *. lia.
  - apply wf_obj in Hw. destruct l as [|e0 l]; [|set (es := e0 :: l) in *].
    { cbn [render]. rewrite <- !app_assoc. cbn [app]. rewrite value_by_head by done.
      change (123 =? 34) with false. change ((123 =? 45) || is_digit 123) with false. change (123 =? 91) with false.
      change (123 =? 123) with true. cbv iota. unfold parse_object. cbn [tail].
      assert (white (if_fmt fmt ([10] ++ tabs (depth - 1)))) as W
        by (apply white_if, white_app; [by repeat constructor|apply white_tabs]).
      rewrite skip_white by done. done. }
    assert (Hes : forall e, e ∈ es -> zlen (render_string e.1) <= lim /\ zlen (render (depth + 1) fmt e.2) <= lim)
      by (intros e He; destruct (render_member fmt depth es e He); lia).
    change (render depth fmt (JObj es)) with ([123] ++ if_fmt fmt [10]
        ++ join ([44] ++ if_fmt fmt [10])
             (map (fun e => member fmt (depth + 1) (render_string e.1, render (depth + 1) fmt e.2)) es)
        ++ if_fmt fmt [10] ++ if_fmt fmt (tabs (depth + 1 - 1)) ++ [125]) in *.
    rewrite <- !app_assoc in *. rewrite (app_assoc (if_fmt fmt [10]) (if_fmt fmt (tabs _)) _) in *. cbn [app] in *.
    rewrite value_by_head by done.
    change (123 =? 34) with false. change ((123 =? 45) || is_digit 123) with false. change (123 =? 91) with false.
    change (123 =? 123) with true. cbv iota. simpl in Hn. destruct fuel as [|fuel]; [lia|].
    apply (object_reads _ (S fuel)); [apply white_if; by repeat constructor| |done| |simpl; lia..].
    { apply white_app; apply white_if; [by repeat constructor|apply white_tabs]. }
    apply List.Forall_forall. intros e He%list_elem_of_In. rewrite !List.Forall_forall in IH, Hw.
    destruct (Hes e He). apply list_elem_of_In in He. destruct (Hw e He). auto.
Qed.
End Granted.

(** The text of a value is a C string. *)
Lemma esc_cstr c : 0 < c < 256 -> is_cstr (esc c).
Proof.
  intros Hc. assert (Hu : is_u8 c) by word_lia.
  pose proof (u8_forall (fun c => (c =? 0) || bool_decide (is_cstr (esc c))) ltac:(by vm_compute) c Hu) as E.
  cbv beta in E. rewrite (proj2 (Z.eqb_neq c 0)) in E by lia. by apply bool_decide_eq_true in E.
Qed.

Lemma cstr_app s t : is_cstr s -> is_cstr t -> is_cstr (s ++ t).
Proof. intros. by apply Forall_app. Qed.

Lemma cstr_if (fmt : bool) s : is_cstr s -> is_cstr (if_fmt fmt s).
Proof. by destruct fmt; [|constructor]. Qed.

Lemma cstr_tabs n : is_cstr (tabs n).
Proof. apply Forall_replicate. lia. Qed.

Lemma render_string_cstr s : is_cstr s -> is_cstr (render_string s).
Proof.
  intros Hs. unfold render_string. repeat apply cstr_app; [by repeat constructor| |by repeat constructor].
  induction Hs as [|c s Hc Hs IH]; [constructor|]. cbn [map concat]. apply cstr_app; [by apply esc_cstr|done].
Qed.

Lemma cstr_join sep es : is_cstr sep -> Forall is_cstr es -> is_cstr (join sep es).
Proof.
  intros Hs He. induction He as [|e es He Hes IH]; [constructor|]. destruct es as [|e' es]; [done|].
  change (join sep (e :: e' :: es)) with (e ++ sep ++ join sep (e' :: es)). by repeat apply cstr_app.
Qed.

Lemma fmt_d_cstr n : is_int n -> is_cstr (fmt_d n).
Proof.
  intros Hn. unfold fmt_d, dec, is_int in *.
  case_match; [constructor; [lia|]|]; apply (digits_nonzero 10); lia.
Qed.

Lemma render_cstr fmt j : forall depth, wf j -> is_cstr (render depth fmt j).
Proof.
  induction j as [|b|m|s|l IH|l IH] using json_induction; intros depth Hw.
  - by repeat constructor.
  - destruct b; by repeat constructor.
  - by apply fmt_d_cstr.
  - by apply render_string_cstr.
  - apply wf_arr in Hw. cbn [render]. repeat apply cstr_app; [by repeat constructor| |by repeat constructor].
    apply cstr_join; [apply cstr_app; [by repeat constructor|by apply cstr_if; repeat constructor]|].
    apply Forall_map, List.Forall_forall. intros j Hj. rewrite !List.Forall_forall in IH, Hw. simpl. auto.
  - apply wf_obj in Hw. destruct l as [|e0 l]; [|set (es := e0 :: l) in *].
    { cbn [render]. repeat apply cstr_app; try (by repeat constructor). apply cstr_if, cstr_app; [by repeat constructor|apply cstr_tabs]. }
    change (is_cstr ([123] ++ if_fmt fmt [10]
        ++ join ([44] ++ if_fmt fmt [10])
             (map (fun e => member fmt (depth + 1) (render_string e.1, render (depth + 1) fmt e.2)) es)
        ++ if_fmt fmt [10] ++ if_fmt fmt (tabs (depth + 1 - 1)) ++ [125])).
    repeat apply cstr_app; try (by repeat constructor); try (apply cstr_if; apply cstr_tabs || by repeat constructor).
    apply cstr_join; [apply cstr_app; [by repeat constructor|by apply cstr_if; repeat constructor]|].
    apply Forall_map, List.Forall_forall. intros e He. rewrite !List.Forall_forall in IH, Hw. destruct (Hw e He).
    unfold member. cbn [fst snd]. apply cstr_app; [apply cstr_if, cstr_tabs|].
    apply cstr_app; [by apply render_string_cstr|]. apply cstr_app; [by repeat constructor|].
    apply cstr_app; [apply cstr_if; by repeat constructor|auto].
Qed.

Lemma cJSON_Parse_repr `{HP : Heap} `{LM : LibM} lim {HG : Grants lim} (fmt : bool) j :
  lim < 2147483648 -> wf j -> 4 * zlen (render 0 fmt j) + 64 <= lim ->
  cJSON_Parse (render 0 fmt j ++ [0]) = POk (repr j) [0].
Proof.
  intros Hlim Hw Hl. pose proof (zlen_nonneg (render 0 fmt j)).
  unfold cJSON_Parse, cJSON_ParseWithOpts. rewrite (new_item_ok lim) by lia.
  destruct (value_reads lim ltac:(lia) fmt j (length (render 0 fmt j ++ [0])) 0 Hw ltac:(lia)) as [Hs Hr].
  assert (skip (render 0 fmt j ++ [0]) = Some (render 0 fmt j ++ [0])) as ->.
  { destruct (render 0 fmt j) as [|c t]; [done|]. apply (skip_white [] c); [constructor|apply Hs]. }
  cbn [defined]. rewrite Hr; [done|by repeat split|lia].
Qed.

(** C2: printing and parsing are inverse on the trees whose numbers are
    integers (other doubles are printed with six digits and come back
    rounded): for every value built of objects, arrays, strings of any
    non-zero bytes (quotes, control characters and bytes above 127 included),
    integers in the range of [int], booleans and null, of any depth, the printer produces a text - with or without
    formatting - and the parser reads it back as the same tree, up to its
    terminator, when the blocks this takes are granted. *)
Theorem cJSON_roundtrip `{HP : Heap} `{LM : LibM} lim {HG : Grants lim} (fmt : bool) j :
  lim < 2147483648 -> wf j -> 4 * zlen (render 0 fmt j) + 64 <= lim ->
  exists text, (if fmt then cJSON_Print (repr j) else cJSON_PrintUnformatted (repr j)) = Ok text /\
    cJSON_Parse (text ++ [0]) = POk (repr j) [0].
Proof.
  intros Hlim Hw Hl. exists (render 0 fmt j). pose proof (zlen_nonneg (render 0 fmt j)).
  split; [|by apply (cJSON_Parse_repr lim)].
  pose proof (print_value_repr lim Hlim fmt j 0 ltac:(lia) Hw Hl) as E. by destruct fmt.
Qed.

(** An object with a name that needs escapes, an empty name, empty containers. *)
Definition value0 : json :=
  JObj [([97; 10; 34], JArr [JInt (-2147483648); JInt 0; JObj []; JArr []]);
        ([], JObj [([1; 255], JNull); ([98], JBool true)])].

Lemma cJSON_roundtrip_witness :
  let H := zero_heap 20480 in
  exists text, cJSON_Print (repr value0) = Ok text /\ cJSON_Parse (text ++ [0]) = POk (repr value0) [0].
Proof.
  intros H. apply (@cJSON_roundtrip H _ 20480 (zero_heap_grants 20480) true value0); [done| |by vm_compute].
  vm_compute. repeat (split || constructor || discriminate).
Defined.
