(* ===== verification/EdpPacket.v ===== *)
(** Packing and unpacking of EDP messages: [Packet*], [Unpack*],
    [EdpPacketType] of [App/NuAgent/OneNet/EdpKit.c], on the buffer of file
    [EdpBuffer].

    A packet builder returns [None] when the code dereferences a failed
    allocation or leaves a buffer; every [Write*] status is ignored, as in the
    code.  JSON is printed and parsed by the functions of file [Json]. *)
From S2P Require Import Prelude EdpBuffer Double Json.

(** * Constants *)

Definition CONNREQ : Z := 16.
Definition CONNRESP : Z := 32.
Definition PUSHDATA : Z := 48.
Definition SAVEDATA : Z := 128.
Definition SAVEACK : Z := 144.
Definition CMDREQ : Z := 160.
Definition CMDRESP : Z := 176.
Definition PINGREQ : Z := 192.
Definition PINGRESP : Z := 208.

Definition PROTOCOL_NAME : list Z := [69; 68; 80].
Definition PROTOCOL_VERSION : Z := 1.

Inductive SaveDataType :=
  | kTypeFullJson
  | kTypeBin
  | kTypeSimpleJsonWithoutTime
  | kTypeSimpleJsonWithTime
  | kTypeString.

Definition type_code (t : SaveDataType) : Z :=
  match t with
  | kTypeFullJson => 1
  | kTypeBin => 2
  | kTypeSimpleJsonWithoutTime => 3
  | kTypeSimpleJsonWithTime => 4
  | kTypeString => 5
  end.

Definition ERR_UNPACK_CONNRESP_REMAIN : Z := -1000.
Definition ERR_UNPACK_CONNRESP_FLAG : Z := -1001.
Definition ERR_UNPACK_CONNRESP_RTN : Z := -1002.
Definition ERR_UNPACK_PUSHD_REMAIN : Z := -1010.
Definition ERR_UNPACK_PUSHD_DEVID : Z := -1011.
Definition ERR_UNPACK_PUSHD_DATA : Z := -1012.
Definition ERR_UNPACK_SAVED_REMAIN : Z := -1020.
Definition ERR_UNPACK_SAVED_TANSFLAG : Z := -1021.
Definition ERR_UNPACK_SAVED_DEVID : Z := -1022.
Definition ERR_UNPACK_SAVED_DATAFLAG : Z := -1023.
Definition ERR_UNPACK_SAVED_JSON : Z := -1024.
Definition ERR_UNPACK_SAVED_PARSEJSON : Z := -1025.
Definition ERR_UNPACK_SAVED_BIN_DESC : Z := -1026.
Definition ERR_UNPACK_SAVED_PARSEDESC : Z := -1027.
Definition ERR_UNPACK_SAVED_BINLEN : Z := -1028.
Definition ERR_UNPACK_SAVED_BINDATA : Z := -1029.
Definition ERR_UNPACK_PING_REMAIN : Z := -1030.
Definition ERR_UNPACK_CMDREQ : Z := -1031.
Definition ERR_UNPACK_SAVEDATA_ACK : Z := -1033.

(** A whole packet on the wire. *)
Definition frame (mtype : Z) (body : list Z) : list Z :=
  mtype :: remlen (zlen body) ++ body.

Section Packets.
Context {HP : Heap}.

(** Run the writes of a packet function on a fresh buffer. *)
Definition build (m : M Buffer unit) : option Buffer :=
  pkg ← NewBuffer;
  match m pkg with
  | Done _ pkg' | Err _ pkg' => Some pkg'
  | Crash => None
  end.

(** * Packing (client to server) *)

Definition PacketConnect1 (devid auth_key : list Z) : option Buffer := build (
  ignore (WriteByte CONNREQ);;
  ignore (WriteRemainlen
    (u32 ((2 + 3) + 1 + 1 + 2 + (2 + zlen devid) + (2 + zlen auth_key))));;
  ignore (WriteStr PROTOCOL_NAME);;
  ignore (WriteByte PROTOCOL_VERSION);;
  ignore (WriteByte 64);;
  ignore (WriteUint16 128);;
  ignore (WriteStr devid);;
  ignore (WriteStr auth_key)).

Definition PacketConnect2 (userid auth_info : list Z) : option Buffer := build (
  ignore (WriteByte CONNREQ);;
  ignore (WriteRemainlen
    (u32 ((2 + 3) + 1 + 1 + 2 + 2 + (2 + zlen userid) + (2 + zlen auth_info))));;
  ignore (WriteStr PROTOCOL_NAME);;
  ignore (WriteByte PROTOCOL_VERSION);;
  ignore (WriteByte 192);;
  ignore (WriteUint16 128);;
  ignore (WriteByte 0);;
  ignore (WriteByte 0);;
  ignore (WriteStr userid);;
  ignore (WriteStr auth_info)).

Definition PacketPushdata (dst_devid data : list Z) (data_len : Z) : option Buffer := build (
  ignore (WriteByte PUSHDATA);;
  ignore (WriteRemainlen (u32 ((2 + zlen dst_devid) + data_len)));;
  ignore (WriteStr dst_devid);;
  ignore (WriteBytes data data_len)).

(** The address part common to the save-data packets: [tail_len] is the
    length of what follows it. *)
Definition write_address (dst_devid : option (list Z)) (tail_len : Z) : M Buffer unit :=
  match dst_devid with
  | Some dst =>
      ignore (WriteRemainlen (u32 (1 + (2 + zlen dst) + 1 + tail_len)));;
      ignore (WriteByte 128);;
      ignore (WriteStr dst)
  | None =>
      ignore (WriteRemainlen (u32 (1 + 1 + tail_len)));;
      ignore (WriteByte 0)
  end.

Definition PacketSavedataText (dst_devid : option (list Z)) (json_out : list Z)
  (type : Z) : option Buffer := build (
  ignore (WriteByte SAVEDATA);;
  write_address dst_devid (2 + zlen json_out);;
  ignore (WriteByte type);;
  ignore (WriteStr json_out)).

(** The printed text is used without a test for null. *)
Definition PacketSavedataJson (dst_devid : option (list Z)) (json_obj : cJSON) (type : Z) : option Buffer :=
  match cJSON_Print json_obj with
  | Ok json_out => PacketSavedataText dst_devid json_out type
  | Null | Undef => None
  end.

(** The name ds_id, which a description must have. *)
Definition t_ds_id : list Z := [100; 115; 95; 105; 100].

(** The inner [None] is the null result of the argument check. *)
Definition PacketSavedataBin (dst_devid : option (list Z)) (desc_obj : cJSON) (bin_data : list Z)
  (bin_len : Z) : option (option Buffer) :=
  match cJSON_Print desc_obj with
  | Ok desc_out =>
      if (65536 <? zlen desc_out) || (3145728 <? bin_len)
         || bool_decide (cJSON_GetObjectItem desc_obj t_ds_id = None)
      then Some None
      else Some <$> build (
        ignore (WriteByte SAVEDATA);;
        write_address dst_devid ((2 + zlen desc_out) + (4 + bin_len));;
        ignore (WriteByte 2);;
        ignore (WriteStr desc_out);;
        ignore (WriteUint32 bin_len);;
        ignore (WriteBytes bin_data bin_len))
  | Null | Undef => None
  end.

Definition PacketSavedataBinStr (dst_devid : option (list Z)) (desc_str bin_data : list Z)
  (bin_len : Z) : option (option Buffer) :=
  if (65536 <? zlen desc_str) || (3145728 <? bin_len)
  then Some None
  else Some <$> build (
    ignore (WriteByte SAVEDATA);;
    write_address dst_devid ((2 + zlen desc_str) + (4 + bin_len));;
    ignore (WriteByte 2);;
    ignore (WriteStr desc_str);;
    ignore (WriteUint32 bin_len);;
    ignore (WriteBytes bin_data bin_len)).

Definition PacketCmdResp (cmdid : list Z) (cmdid_len : Z) (resp : list Z) (resp_len : Z)
  : option Buffer := build (
  ignore (WriteByte CMDRESP);;
  ignore (WriteRemainlen (u32 (cmdid_len + resp_len + (if resp_len =? 0 then 2 else 6))));;
  ignore (WriteUint16 cmdid_len);;
  ignore (WriteBytes cmdid cmdid_len);;
  if resp_len =? 0 then mret tt
  else (ignore (WriteUint32 resp_len);; ignore (WriteBytes resp resp_len))).

Definition PacketPing : option Buffer := build (
  ignore (WriteByte PINGREQ);;
  ignore (WriteRemainlen 0)).

Definition PacketSavedataSimpleString (dst_devid : option (list Z)) (input : list Z)
  : option Buffer := build (
  ignore (WriteByte SAVEDATA);;
  write_address dst_devid (2 + zlen input);;
  ignore (WriteByte (type_code kTypeString));;
  ignore (WriteStr input)).

(** * Unpacking (server to client) *)

(** [assert(pkg->_read_pos == pkg->_write_pos)] *)
Definition assert_consumed : M Buffer unit :=
  massert (fun b => _read_pos b =? _write_pos b).

(** The status of [ReadByte] is not looked at; the type then stays 0. *)
Definition EdpPacketType : M Buffer Z := fun pkg =>
  match ReadByte pkg with
  | Err _ pkg' => Done 0 pkg'
  | o => o
  end.

Definition UnpackConnectResp : M Buffer Z :=
  remainlen ← onerr ERR_UNPACK_CONNRESP_REMAIN ReadRemainlen;
  flag ← onerr ERR_UNPACK_CONNRESP_FLAG ReadByte;
  rtn ← onerr ERR_UNPACK_CONNRESP_RTN ReadByte;
  assert_consumed;;
  mret rtn.

Definition UnpackPushdata : M Buffer (list Z * list Z * Z) :=
  remainlen ← onerr ERR_UNPACK_PUSHD_REMAIN ReadRemainlen;
  src_devid ← onerr ERR_UNPACK_PUSHD_DEVID ReadStr;
  let remainlen := u32 (remainlen - (2 + zlen src_devid)) in
  data ← onerr ERR_UNPACK_PUSHD_DATA (ReadBytes remainlen);
  assert_consumed;;
  mret (src_devid, data, remainlen).

Definition UnpackSavedata : M Buffer (option (list Z) * Z) :=
  remainlen ← onerr ERR_UNPACK_SAVED_REMAIN ReadRemainlen;
  ta_flag ← onerr ERR_UNPACK_SAVED_TANSFLAG ReadByte;
  src_devid ←
    (if ta_flag =? 128
     then (s ← onerr ERR_UNPACK_SAVED_DEVID ReadStr; mret (Some s))
     else mret None);
  jb_flag ← onerr ERR_UNPACK_SAVED_DATAFLAG ReadByte;
  mret (src_devid, jb_flag).

Section WithParser.
Context `{LM : LibM}.

Definition UnpackSavedataJson : M Buffer cJSON :=
  json_str ← onerr ERR_UNPACK_SAVED_JSON ReadStr;
  match parse_text json_str with
  | Undef => crash
  | Null => fail ERR_UNPACK_SAVED_PARSEJSON
  | Ok json_obj => assert_consumed;; mret json_obj
  end.

Definition UnpackSavedataBin : M Buffer (cJSON * list Z * Z) :=
  desc_str ← onerr ERR_UNPACK_SAVED_BIN_DESC ReadStr;
  match parse_text desc_str with
  | Undef => crash
  | Null => fail ERR_UNPACK_SAVED_PARSEDESC
  | Ok desc_obj =>
      bin_len ← onerr ERR_UNPACK_SAVED_BINLEN ReadUint32;
      bin_data ← onerr ERR_UNPACK_SAVED_BINDATA (ReadBytes bin_len);
      assert_consumed;;
      mret (desc_obj, bin_data, bin_len)
  end.
End WithParser.

Definition UnpackSavedataBinStr : M Buffer (list Z * list Z * Z) :=
  desc_str ← onerr ERR_UNPACK_SAVED_BIN_DESC ReadStr;
  bin_len ← onerr ERR_UNPACK_SAVED_BINLEN ReadUint32;
  bin_data ← onerr ERR_UNPACK_SAVED_BINDATA (ReadBytes bin_len);
  assert_consumed;;
  mret (desc_str, bin_data, bin_len).

Definition UnpackCmdReq : M Buffer (list Z * Z * list Z * Z) :=
  remainlen ← onerr ERR_UNPACK_CMDREQ ReadRemainlen;
  cmdid_len ← ReadUint16;
  cmdid ← onerr ERR_UNPACK_CMDREQ (ReadBytes cmdid_len);
  req_len ← ReadUint32;
  req ← onerr ERR_UNPACK_CMDREQ (ReadBytes req_len);
  assert_consumed;;
  mret (cmdid, cmdid_len, req, req_len).

Definition UnpackPingResp : M Buffer unit :=
  remainlen ← onerr ERR_UNPACK_PING_REMAIN ReadRemainlen;
  assert_consumed.

Definition UnpackSavedataAck : M Buffer (list Z) :=
  remainlen ← onerr ERR_UNPACK_SAVEDATA_ACK ReadRemainlen;
  flag ← onerr ERR_UNPACK_SAVEDATA_ACK ReadByte;
  json_len ← onerr ERR_UNPACK_SAVEDATA_ACK ReadUint16;
  onerr ERR_UNPACK_SAVEDATA_ACK (ReadBytes json_len).

Definition UnpackSavedataSimpleString : M Buffer (list Z) :=
  onerr ERR_UNPACK_SAVED_JSON ReadStr.

End Packets.

(** * What the builders put on the wire *)

Section Frames.
Context {HP : Heap} (lim : Z) {HG : Grants lim}.
Hypothesis Hlim : BUFFER_SIZE <= lim < 2147483648.

Lemma NewBuffer_spec : exists b, NewBuffer = Some b /\ wbuf lim b /\ written b = [] /\
  _write_pos b = 0 /\ _capacity b = BUFFER_SIZE.
Proof.
  unfold BUFFER_SIZE in *. unfold NewBuffer, BUFFER_SIZE.
  destruct (granted (lim := lim) 16 ltac:(lia)) as [h ->].
  destruct (granted (lim := lim) 1500 ltac:(lia)) as [d Hd]. rewrite Hd.
  pose proof (malloc_len 1500 d ltac:(lia) Hd). pose proof (malloc_bytes _ _ Hd).
  eexists. split; [reflexivity|]. split; [|done].
  split; simpl; try done; try lia. exists 0. done.
Qed.

(** The first two writes never grow the buffer, the rest may. *)
Lemma build_frame mtype body m :
  is_u8 mtype -> zlen body < REMLEN_MAX ->
  fits lim (zlen (frame mtype body)) ->
  Writes lim m body ->
  exists b, build (ignore (WriteByte mtype);; ignore (WriteRemainlen (zlen body));; m)
      = Some b /\ wbuf lim b /\ written b = frame mtype body.
Proof.
  intros Ht Hl Hfit Hm. pose proof (zlen_nonneg body). pose proof (zlen_remlen (zlen body)).
  unfold frame in Hfit. rewrite zlen_cons, zlen_app in Hfit.
  destruct NewBuffer_spec as (b0 & E0 & Hb0 & W0 & P0 & C0).
  unfold build. rewrite E0. simpl.
  destruct (Writes_WriteByte lim mtype b0 Hb0) as (b1 & E1 & Hb1 & W1).
  { rewrite P0. change (zlen [u8 mtype]) with 1. left. unfold BUFFER_SIZE. lia. }
  rewrite (bind_done _ _ _ _ _ (ignore_done _ _ _ E1)).
  pose proof (zlen_written_w _ _ Hb1) as P1. rewrite W1, W0 in P1.
  change (zlen ([] ++ [u8 mtype])) with 1 in P1.
  destruct (WriteRemainlen_spec lim b1 (zlen body)) as (b2 & E2 & Hb2 & W2); [done|lia| |].
  { pose proof (cap_ok_range _ (wbuf_cap _ _ Hb1)). unfold BUFFER_SIZE in *. lia. }
  rewrite (bind_done _ _ _ _ _ (ignore_done _ _ _ E2)).
  pose proof (zlen_written_w _ _ Hb2) as P2. rewrite W2, W1, W0, zlen_app in P2.
  change (zlen ([] ++ [u8 mtype])) with 1 in P2.
  destruct (Hm b2 Hb2) as (b3 & E3 & Hb3 & W3).
  { eapply fits_le; [exact Hfit|]. lia. }
  exists b3. rewrite E3. split; [done|]. split; [done|].
  rewrite W3, W2, W1, W0, u8_small by done. done.
Qed.

Lemma Writes_bytes_all bs : Bytes bs -> Writes lim (WriteBytes bs (zlen bs)) bs.
Proof.
  intros Hb. pose proof (Writes_WriteBytes lim bs (zlen bs) Hb) as H.
  rewrite ztake_all in H by lia. apply H. pose proof (zlen_nonneg bs). lia.
Qed.

Lemma Writes_byte v : is_u8 v -> Writes lim (WriteByte v) [v].
Proof. intros H. pose proof (Writes_WriteByte lim v) as W. by rewrite (u8_small v H) in W. Qed.
End Frames.

(** Message bodies. *)

Definition connect1_body (devid auth_key : list Z) : list Z :=
  wstr PROTOCOL_NAME ++ [1] ++ [64] ++ be16 128 ++ wstr devid ++ wstr auth_key.

Definition connect2_body (userid auth_info : list Z) : list Z :=
  wstr PROTOCOL_NAME ++ [1] ++ [192] ++ be16 128 ++ [0] ++ [0] ++ wstr userid ++ wstr auth_info.

Definition push_body (devid data : list Z) : list Z := wstr devid ++ data.

Definition address (dst_devid : option (list Z)) : list Z :=
  match dst_devid with Some dst => [128] ++ wstr dst | None => [0] end.

Definition text_body (dst_devid : option (list Z)) (type : Z) (text : list Z) : list Z :=
  address dst_devid ++ [type] ++ wstr text.

Definition bin_body (dst_devid : option (list Z)) (desc bin : list Z) : list Z :=
  address dst_devid ++ [2] ++ wstr desc ++ be32 (zlen bin) ++ bin.

Definition cmd_body (cmdid data : list Z) : list Z :=
  be16 (zlen cmdid) ++ cmdid ++ (if zlen data =? 0 then [] else be32 (zlen data) ++ data).

(** A C string that fits a 16-bit length field. *)
Definition short_str (s : list Z) : Prop := is_cstr s /\ zlen s < 65536.

#[export] Instance short_str_dec s : Decision (short_str s).
Proof. unfold short_str. apply _. Defined.

Definition short_dst (d : option (list Z)) : Prop :=
  match d with Some s => short_str s | None => True end.

#[export] Instance short_dst_dec d : Decision (short_dst d).
Proof. destruct d; simpl; apply _. Defined.

Lemma zlen_wstr s : zlen (wstr s) = 2 + zlen s.
Proof. unfold wstr. rewrite zlen_app. done. Qed.

Lemma zlen_name : zlen PROTOCOL_NAME = 3. Proof. done. Qed.

#[export] Hint Rewrite zlen_wstr zlen_name : zlen.

Section Emitted.
Context {HP : Heap} (lim : Z) {HG : Grants lim}.
Hypothesis Hlim : BUFFER_SIZE <= lim < 2147483648.

(** [pkt] is a finished buffer that holds the frame. *)
Definition emits (pkt : option Buffer) (mtype : Z) (body : list Z) : Prop :=
  exists b, pkt = Some b /\ wbuf lim b /\ written b = frame mtype body.

(** Body lengths the packet functions can express. *)
Definition sendable (mtype : Z) (body : list Z) : Prop :=
  zlen body < REMLEN_MAX /\ fits lim (zlen (frame mtype body)).

Lemma emits_build mtype body n m :
  is_u8 mtype -> sendable mtype body -> n = zlen body -> Writes lim m body ->
  emits (build (ignore (WriteByte mtype);; ignore (WriteRemainlen (u32 n));; m)) mtype body.
Proof.
  intros Ht [Hl Hf] -> Hm. pose proof (zlen_nonneg body). unfold REMLEN_MAX in *.
  rewrite u32_small by word_lia. by apply build_frame.
Qed.

(** [emit] composes the writers of a packet function; the lengths and the
    side conditions on strings are discharged on the way. *)
Ltac writer_side := first [done | word_lia | by_decide].

Ltac writer :=
  match goal with
  | |- Writes _ (ignore _) _ => apply Writes_ignore; writer
  | |- Writes _ (_ ≫= _) _ => apply Writes_bind; [writer|writer]
  | |- Writes _ (WriteByte _) _ => apply Writes_byte; writer_side
  | |- Writes _ (WriteStr _) _ => apply Writes_WriteStr; writer_side
  | |- Writes _ (WriteUint16 _) _ => apply Writes_WriteUint16; writer_side
  | |- Writes _ (WriteUint32 _) _ => apply Writes_WriteUint32; writer_side
  | |- Writes _ (WriteBytes _ _) _ => apply Writes_bytes_all; writer_side
  | |- Writes _ (mret _) _ => apply Writes_ret
  end.

Ltac emit :=
  apply emits_build; [by_decide|done|zlen_lia|];
  repeat match goal with H : short_str _ |- _ => destruct H end;
  writer.

Lemma emits_connect1 devid auth_key :
  short_str devid -> short_str auth_key ->
  sendable CONNREQ (connect1_body devid auth_key) ->
  emits (PacketConnect1 devid auth_key) CONNREQ (connect1_body devid auth_key).
Proof.
  intros Hd Ha Hs. unfold PacketConnect1, connect1_body in *. emit.
Qed.

Lemma emits_connect2 userid auth_info :
  short_str userid -> short_str auth_info ->
  sendable CONNREQ (connect2_body userid auth_info) ->
  emits (PacketConnect2 userid auth_info) CONNREQ (connect2_body userid auth_info).
Proof. intros. unfold PacketConnect2, connect2_body in *. emit. Qed.

Lemma emits_push devid data :
  short_str devid -> Bytes data -> sendable PUSHDATA (push_body devid data) ->
  emits (PacketPushdata devid data (zlen data)) PUSHDATA (push_body devid data).
Proof. intros. unfold PacketPushdata, push_body in *. emit. Qed.

Lemma Writes_address dst_devid n :
  short_dst dst_devid ->
  exists m, write_address dst_devid n
    = (ignore (WriteRemainlen (u32 (zlen (address dst_devid) + 1 + n)));; m) /\
  Writes lim m (address dst_devid).
Proof.
  destruct dst_devid as [dst|]; simpl; intros Hd.
  - exists (ignore (WriteByte 128);; ignore (WriteStr dst)). split.
    + do 3 f_equal. zlen_lia.
    + destruct Hd. apply (Writes_bind lim _ _ [128] (wstr dst)); writer.
  - exists (ignore (WriteByte 0)). split; [|writer]. by do 3 f_equal; zlen_lia.
Qed.

Lemma build_ext m m' : (forall b, m b = m' b) -> build m = build m'.
Proof. intros H. unfold build. destruct NewBuffer; [|done]. simpl. by rewrite H. Qed.

(** The save-data packets: type, address part, and what follows it. *)
Lemma emits_save dst_devid tail n m :
  short_dst dst_devid -> sendable SAVEDATA (address dst_devid ++ tail) ->
  1 + n = zlen tail -> Writes lim m tail ->
  emits (build (ignore (WriteByte SAVEDATA);; write_address dst_devid n;; m))
    SAVEDATA (address dst_devid ++ tail).
Proof.
  intros Hd Hs Hn Hm. destruct (Writes_address dst_devid n Hd) as (ma & -> & Ha).
  rewrite (build_ext _ (ignore (WriteByte SAVEDATA);;
    ignore (WriteRemainlen (u32 (zlen (address dst_devid) + 1 + n)));; (ma;; m))).
  2:{ intros b. apply bind_ext. intros _ s. apply bind_assoc. }
  apply emits_build; [by_decide|done|zlen_lia|by apply Writes_bind].
Qed.

Ltac emit_save :=
  apply emits_save; [done|done|zlen_lia|];
  repeat match goal with H : short_str _ |- _ => destruct H end;
  writer.

Lemma emits_json dst_devid type text :
  short_dst dst_devid -> short_str text -> is_u8 type ->
  sendable SAVEDATA (text_body dst_devid type text) ->
  emits (PacketSavedataText dst_devid text type) SAVEDATA (text_body dst_devid type text).
Proof. intros. unfold PacketSavedataText, text_body in *. emit_save. Qed.

Lemma emits_string dst_devid text :
  short_dst dst_devid -> short_str text ->
  sendable SAVEDATA (text_body dst_devid 5 text) ->
  emits (PacketSavedataSimpleString dst_devid text) SAVEDATA (text_body dst_devid 5 text).
Proof. intros. unfold PacketSavedataSimpleString, text_body in *. emit_save. Qed.

Lemma emits_bin_str dst_devid desc bin :
  short_dst dst_devid -> short_str desc -> Bytes bin -> zlen bin <= 3145728 ->
  sendable SAVEDATA (bin_body dst_devid desc bin) ->
  exists pkt, PacketSavedataBinStr dst_devid desc bin (zlen bin) = Some (Some pkt) /\
    emits (Some pkt) SAVEDATA (bin_body dst_devid desc bin).
Proof.
  intros Hd Hde Hb Hl Hs. unfold PacketSavedataBinStr, bin_body in *.
  pose proof Hde as [? ?]. pose proof (zlen_nonneg bin).
  destruct (Z.ltb_spec 65536 (zlen desc)), (Z.ltb_spec 3145728 (zlen bin)); try lia. cbn [orb].
  match goal with |- context [build ?m] =>
    assert (He : emits (build m) SAVEDATA (address dst_devid ++ [2] ++ wstr desc ++
      be32 (zlen bin) ++ bin)) end.
  { emit_save. }
  pose proof He as (pkt & E & ?). rewrite E in *. by exists pkt.
Qed.

Lemma emits_bin dst_devid desc_obj desc bin :
  cJSON_Print desc_obj = Ok desc -> cJSON_GetObjectItem desc_obj t_ds_id <> None -> short_dst dst_devid -> short_str desc -> Bytes bin -> zlen bin <= 3145728 ->
  sendable SAVEDATA (bin_body dst_devid desc bin) ->
  exists pkt, PacketSavedataBin dst_devid desc_obj bin (zlen bin) = Some (Some pkt) /\
    emits (Some pkt) SAVEDATA (bin_body dst_devid desc bin).
Proof.
  intros Ep Hg Hd Hde Hb Hl Hs.
  destruct (emits_bin_str dst_devid desc bin Hd Hde Hb Hl Hs) as (pkt & E & He).
  exists pkt. split; [|done]. rewrite <- E.
  unfold PacketSavedataBin, PacketSavedataBinStr. rewrite Ep.
  by rewrite bool_decide_eq_false_2, orb_false_r by done.
Qed.

Lemma emits_cmd cmdid data :
  Bytes cmdid -> zlen cmdid < 65536 -> Bytes data ->
  sendable CMDRESP (cmd_body cmdid data) ->
  emits (PacketCmdResp cmdid (zlen cmdid) data (zlen data)) CMDRESP (cmd_body cmdid data).
Proof.
  intros Hc Hl Hd Hs. unfold PacketCmdResp, cmd_body in *.
  pose proof (zlen_nonneg cmdid). pose proof (zlen_nonneg data).
  assert (Hr : zlen data < REMLEN_MAX).
  { destruct Hs as [Hs _]. revert Hs. destruct (Z.eqb_spec (zlen data) 0); zlen_lia. }
  unfold REMLEN_MAX in Hr.
  apply emits_build; [by_decide|done| |].
  - destruct (Z.eqb_spec (zlen data) 0); zlen_lia.
  - destruct (Z.eqb_spec (zlen data) 0); writer.
Qed.

Lemma emits_ping : emits PacketPing PINGREQ [].
Proof.
  destruct (build_frame lim Hlim PINGREQ [] (mret tt)) as (b & E & Hb & W);
    [by_decide|done|left; by vm_compute|apply Writes_ret|].
  exists b. split; [|done]. rewrite <- E. unfold PacketPing. apply build_ext.
  intros b0. apply bind_ext. intros _ s. unfold mbind, M_bind, mret, M_ret.
  change (zlen []) with 0. destruct (ignore (WriteRemainlen 0) s) as [[]| |]; done.
Qed.

End Emitted.
