(* ===== verification/EdpStream.v ===== *)
(** Splitting the received byte stream into EDP packets: [IsPkgComplete] and
    [GetEdpPacket] of [App/NuAgent/OneNet/EdpKit.c]. *)
From S2P Require Import Prelude MoveMem EdpBuffer EdpPacket.

(** The [do] loop over the length digits: [inl] is a [return] inside the loop,
    [inr (len_len, len_val)] its normal exit. *)
Fixpoint IsPkgComplete_loop (fuel : nat) (data : list Z)
  (data_len multiplier len_val len_len pdigit : Z) : option (Z + Z * Z) :=
  match fuel with
  | O => None
  | S fuel =>
      if 4 <? len_len then Some (inl (-1))
      else if u32 (data_len - 1) <? len_len then Some (inl 0)
      else
        let len_len := len_len + 1 in
        let pdigit := pdigit + 1 in
        d ← ld data pdigit;
        let len_val := u32 (len_val + Z.land d 127 * multiplier) in
        let multiplier := u32 (multiplier * 128) in
        if Z.land d 128 =? 0 then Some (inr (len_len, len_val))
        else IsPkgComplete_loop fuel data data_len multiplier len_val len_len pdigit
  end.

(** [None] is a read outside the buffer. *)
Definition IsPkgComplete (buf : Buffer) : option Z :=
  let data_len := _write_pos buf in
  if data_len <=? 1 then Some 0
  else
    r ← IsPkgComplete_loop 5 (_data buf) data_len 1 0 1 0;
    match r with
    | inl code => Some code
    | inr (len_len, len_val) =>
        let pkg_total_len := u32 (len_len + len_val) in
        if pkg_total_len <=? data_len then Some (s32 pkg_total_len) else Some 0
    end.

(** [None] of the inner option is a null result: no complete packet yet. *)
Definition GetEdpPacket {HP : Heap} : M Buffer (option Buffer) :=
  flag ← access IsPkgComplete;
  massert (fun b => _read_pos b =? 0);;
  if flag <=? 0 then mret None
  else
    pkg ← access (fun b =>
      pkg ← NewBuffer;
      match WriteBytes (_data b) flag pkg with
      | Done _ pkg | Err _ pkg => Some pkg
      | Crash => None
      end);
    d ← access (fun b => NST_MoveMemOvlap (_data b) 0 flag (_write_pos b - flag));
    modify (fun b => set_write_pos (set_data b d) (u32 (_write_pos b - flag)));;
    mret (Some pkg).

(** * The receive buffer *)

(** The caller's view of the receive buffer; [_capacity] plays no part. *)
Record recv_ok (b : Buffer) : Prop := {
  recv_wp : 0 <= _write_pos b <= zlen (_data b);
  recv_size : zlen (_data b) < 65536;
  recv_rp : _read_pos b = 0;
  recv_bytes : Bytes (_data b)
}.

Lemma zlen_written_recv b : recv_ok b -> zlen (written b) = _write_pos b.
Proof. intros []. unfold written. zlen_lia. Qed.

Lemma zlen_frame t body : zlen (frame t body) = 1 + zlen (remlen (zlen body)) + zlen body.
Proof. unfold frame. zlen_lia. Qed.

Lemma remlen_digits_pos fuel n : (0 < fuel)%nat -> 1 <= zlen (remlen_digits fuel n).
Proof.
  intros. destruct fuel; [lia|]. cbn [remlen_digits].
  case_match; rewrite zlen_cons; [done|].
  match goal with |- context [zlen ?l] => pose proof (zlen_nonneg l) end. lia.
Qed.

Lemma remlen_pos n : 1 <= zlen (remlen n).
Proof. apply remlen_digits_pos. lia. Qed.

(** A frame is at least two bytes, at most five more than its body. *)
Lemma zlen_frame_bounds t body : 2 + zlen body <= zlen (frame t body) <= 5 + zlen body.
Proof.
  rewrite zlen_frame. pose proof (zlen_remlen (zlen body)). pose proof (remlen_pos (zlen body)). lia.
Qed.

(** * Recognising a packet *)

(** The accumulated length stays within the digits read so far. *)
Lemma digit_acc lv m d : 0 <= lv < m -> 1 <= m <= 2097152 -> is_u8 d ->
  u32 (lv + Z.land d 127 * m) = lv + d mod 128 * m /\
  (0 <= lv + d mod 128 * m < 128 * m) /\ u32 (m * 128) = 128 * m.
Proof.
  intros Hlv Hm Hd. rewrite land_127.
  pose proof (Z.mod_pos_bound d 128 ltac:(lia)).
  assert (0 <= lv + d mod 128 * m < 128 * m) by nia.
  rewrite !u32_small by (unfold is_u32; lia). lia.
Qed.

Lemma IsPkgComplete_loop_total fuel : forall data dl mult lv ll,
  1 <= dl < 65536 -> dl <= zlen data -> Bytes data ->
  1 <= ll <= 5 -> 5 < ll + Z.of_nat fuel ->
  mult = 128 ^ (ll - 1) -> 0 <= lv < mult ->
  exists r, IsPkgComplete_loop fuel data dl mult lv ll (ll - 1) = Some r /\
    match r with
    | inl c => c = -1 \/ c = 0
    | inr (n, v) => 2 <= n <= 5 /\ 0 <= v < 268435456
    end.
Proof.
  induction fuel as [|fuel IH]; intros data dl mult lv ll Hdl Hle Hby Hll Hf Hm Hlv; [lia|].
  cbn [IsPkgComplete_loop]. rewrite (u32_small (dl - 1)) by word_lia.
  destruct (Z.ltb_spec 4 ll); [eexists; split; [done|simpl; lia]|].
  destruct (Z.ltb_spec (dl - 1) ll); [eexists; split; [done|simpl; lia]|].
  assert (Hmult : 1 <= mult <= 2097152).
  { rewrite Hm. change 2097152 with (128 ^ 3). split; [apply (Z.pow_le_mono_r 128 0); lia|].
    apply (Z.pow_le_mono_r 128); lia. }
  destruct (ld_is_Some data (ll - 1 + 1)) as [d Hd]; [lia|]. rewrite Hd. simpl.
  assert (Hd8 : is_u8 d) by (eapply ld_Forall; done).
  destruct (digit_acc lv mult d) as (-> & Hacc & ->); [done..|].
  destruct (Z.eqb_spec (Z.land d 128) 0).
  - eexists. split; [done|]. simpl. lia.
  - replace (ll - 1 + 1) with (ll + 1 - 1) by lia. apply IH; try done; try lia.
    replace (ll + 1 - 1) with (1 + (ll - 1)) by lia. rewrite Z.pow_add_r by lia. lia.
Qed.

Lemma IsPkgComplete_total b : recv_ok b ->
  exists r, IsPkgComplete b = Some r /\ (-1 <= r <= 0 \/ 2 <= r <= _write_pos b).
Proof.
  intros [Hw Hs Hr Hby]. unfold IsPkgComplete.
  destruct (Z.leb_spec (_write_pos b) 1); [eexists; split; [done|lia]|].
  destruct (IsPkgComplete_loop_total 5 (_data b) (_write_pos b) 1 0 1) as (r & E & HR);
    try done; try lia.
  change (1 - 1) with 0 in E. rewrite E. simpl. destruct r as [c|[n v]].
  - eexists. split; [done|]. lia.
  - rewrite u32_small by word_lia. destruct (Z.leb_spec (n + v) (_write_pos b)).
    + rewrite s32_small by lia. eexists. split; [done|]. lia.
    + eexists. split; [done|]. lia.
Qed.

(** On the start of a frame the loop finds the frame's length digits, or
    reports that they are not all there yet. *)
Lemma IsPkgComplete_loop_frame fuel : forall data s dl mult lv ll n rest,
  1 <= dl < 65536 -> ztake dl data = ztake dl s ->
  zdrop ll s = remlen_digits fuel n ++ rest ->
  ll <= dl -> dl <= zlen data ->
  1 <= ll -> ll + Z.of_nat fuel = 5 -> (0 < fuel)%nat ->
  mult = 128 ^ (ll - 1) -> 0 <= lv < mult -> 0 <= n < 128 ^ Z.of_nat fuel ->
  IsPkgComplete_loop (S fuel) data dl mult lv ll (ll - 1) =
    if ll + zlen (remlen_digits fuel n) <=? dl
    then Some (inr (ll + zlen (remlen_digits fuel n), lv + n * mult))
    else Some (inl 0).
Proof.
  induction fuel as [|fuel IH];
    intros data s dl mult lv ll n rest Hdl Hs Hd0 Hlle Hdle Hll Hf Hp Hm Hlv Hn; [lia|].
  pose proof (remlen_digits_pos (S fuel) n Hp) as Hdp.
  remember (S fuel) as f1 eqn:Ef1. cbn [IsPkgComplete_loop]. 
  rewrite (u32_small (dl - 1)) by word_lia.
  destruct (Z.ltb_spec 4 ll); [lia|].
  destruct (Z.ltb_spec (dl - 1) ll).
  { destruct (Z.leb_spec (ll + zlen (remlen_digits f1 n)) dl); [lia|done]. }
  set (d := if n <? 128 then n else n mod 128 + 128).
  assert (Hd : ld data (ll - 1 + 1) = Some d).
  { transitivity (ld (ztake dl data) ll).
    { rewrite ld_ztake. destruct (Z.ltb_spec ll dl); [|lia]. f_equal. lia. }
    rewrite Hs, ld_ztake. destruct (Z.ltb_spec ll dl); [|lia].
    transitivity (ld (zdrop ll s) 0); [rewrite ld_zdrop_add by lia; f_equal; lia|].
    rewrite Hd0, Ef1. cbn [remlen_digits]. unfold d. case_match; done. }
  rewrite Hd. simpl. subst f1.
  assert (Hmult : 1 <= mult <= 2097152).
  { rewrite Hm. change 2097152 with (128 ^ 3). split; [apply (Z.pow_le_mono_r 128 0); lia|].
    apply (Z.pow_le_mono_r 128); lia. }
  assert (Hd8 : is_u8 d) by (unfold d; destruct (Z.ltb_spec n 128); word_lia).
  destruct (digit_acc lv mult d) as (-> & Hacc & ->); [done..|].
  rewrite land_128_zero by done. cbn [remlen_digits] in *. unfold d in *.
  destruct (Z.ltb_spec n 128).
  - destruct (Z.ltb_spec n 128); [|lia]. rewrite (Z.mod_small n 128) by lia.
    change (zlen [n]) with 1. destruct (Z.leb_spec (ll + 1) dl); [|lia]. done.
  - destruct (Z.ltb_spec (n mod 128 + 128) 128); [pose proof (Z.mod_pos_bound n 128); lia|].
    rewrite Nat2Z.inj_succ, Z.pow_succ_r in Hn by lia.
    assert (Hdiv : n = 128 * (n / 128) + n mod 128) by (apply Z.div_mod; lia).
    pose proof (Z.mod_pos_bound n 128 ltac:(lia)).
    replace ((n mod 128 + 128) mod 128) with (n mod 128) in * by word_lia.
    assert (0 < fuel)%nat.
    { destruct fuel; [|lia]. change (128 ^ Z.of_nat 0) with 1 in Hn. lia. }
    replace (ll - 1 + 1) with (ll + 1 - 1) by lia.
    rewrite (IH data s dl (128 * mult) _ (ll + 1) (n / 128) rest); try lia; try done.
    + rewrite zlen_cons, Z.add_assoc.
      destruct (Z.leb_spec (ll + 1 + zlen (remlen_digits fuel (n / 128))) dl); [|done].
      do 3 f_equal. nia.
    + destruct (Z.ltb_spec n 128) in Hd0; [lia|].
      rewrite <- (zdrop_zdrop 1 ll), Hd0 by lia. done.
    + replace (ll + 1 - 1) with (1 + (ll - 1)) by lia. rewrite Z.pow_add_r by lia. lia.
Qed.

(** On any prefix of a stream that starts with a frame: the frame's length
    once it is all there, 0 before. *)
Lemma IsPkgComplete_frame b t body rest :
  recv_ok b -> zlen body < REMLEN_MAX ->
  written b = ztake (_write_pos b) (frame t body ++ rest) ->
  IsPkgComplete b =
    Some (if zlen (frame t body) <=? _write_pos b then zlen (frame t body) else 0).
Proof.
  intros [Hw Hs Hr Hby] Hl Hwr. unfold written in Hwr.
  pose proof (zlen_frame t body) as Hf. pose proof (zlen_nonneg body).
  pose proof (remlen_pos (zlen body)). unfold IsPkgComplete.
  destruct (Z.leb_spec (_write_pos b) 1).
  { destruct (Z.leb_spec (zlen (frame t body)) (_write_pos b)); [lia|done]. }
  pose proof (IsPkgComplete_loop_frame 4 (_data b) (frame t body ++ rest) (_write_pos b) 1 0 1
    (zlen body) (body ++ rest)) as E.
  change (1 - 1) with 0 in E. rewrite E; try done; try lia.
  2:{ unfold frame, remlen. simpl. by rewrite <- app_assoc. }
  fold (remlen (zlen body)) in *. unfold REMLEN_MAX in Hl.
  pose proof (zlen_remlen (zlen body)).
  destruct (Z.leb_spec (1 + zlen (remlen (zlen body))) (_write_pos b)); simpl.
  - rewrite u32_small by word_lia.
    replace (1 + zlen (remlen (zlen body)) + (0 + zlen body * 1)) with (zlen (frame t body)) by lia.
    destruct (Z.leb_spec (zlen (frame t body)) (_write_pos b)); [|done].
    rewrite s32_small by lia. done.
  - destruct (Z.leb_spec (zlen (frame t body)) (_write_pos b)); [lia|done].
Qed.

(** * Taking a packet *)

Section Get.
Context {HP : Heap} (lim : Z) {HG : Grants lim}.
Hypothesis Hlim : BUFFER_SIZE <= lim < 2147483648.

(** Whatever the buffer holds: a positive length takes that many bytes as the
    packet and keeps the rest, a null result leaves the buffer alone. *)
Lemma GetEdpPacket_flag b flag :
  recv_ok b -> fits lim (_write_pos b) -> IsPkgComplete b = Some flag ->
  0 < flag <= _write_pos b ->
  exists pkg b', GetEdpPacket b = Done (Some pkg) b' /\ wbuf lim pkg /\
    written pkg = ztake flag (written b) /\ recv_ok b' /\
    written b' = zdrop flag (written b) /\ zlen (_data b') = zlen (_data b).
Proof.
  intros [Hw Hs Hr Hby] Hfit E Hflag. unfold GetEdpPacket.
  rewrite (bind_done _ _ _ flag b) by (unfold access; by rewrite E).
  rewrite (bind_done _ _ _ tt b) by (unfold massert; by rewrite Hr).
  destruct (Z.leb_spec flag 0); [lia|].
  destruct (NewBuffer_spec lim Hlim) as (p0 & Ep & Hp0 & W0 & P0 & _).
  destruct (Writes_WriteBytes lim (_data b) flag Hby ltac:(lia) p0 Hp0) as (p1 & E1 & Hp1 & W1).
  { rewrite P0. eapply fits_le; [exact Hfit|zlen_lia]. }
  rewrite (bind_done _ _ _ p1 b) by (unfold access; rewrite Ep; simpl; by rewrite E1).
  destruct (NST_MoveMemOvlap_moved (_data b) 0 flag (_write_pos b - flag))
    as (m & Em & Hm); [lia..|].
  rewrite (bind_done _ _ _ m b) by (unfold access; by rewrite Em).
  apply moved_blit in Hm as Hbl; [|lia..].
  pose proof (blit_length _ _ _ _ Hbl) as Hml.
  pose proof (blit_prefix _ _ _ _ Hbl) as Hpre. rewrite (ztake_0 0), Z.add_0_l in Hpre by lia.
  eexists p1, _. split; [reflexivity|]. rewrite (u32_small (_write_pos b - flag)) by word_lia.
  split; [done|]. split.
  { rewrite W1, W0. unfold written. rewrite ztake_ztake. simpl. f_equal. lia. }
  split; [|split; [|done]].
  - split; simpl; [lia|lia|done|]. eapply Forall_blit; [done..|].
    by apply Forall_ztake, Forall_zdrop.
  - unfold written. simpl in *.
    replace (zlen (ztake (_write_pos b - flag) (zdrop flag (_data b))))
      with (_write_pos b - flag) in Hpre by zlen_lia.
    rewrite Hpre, ztake_zdrop by lia. do 2 f_equal. lia.
Qed.

Lemma GetEdpPacket_none b flag :
  recv_ok b -> IsPkgComplete b = Some flag -> flag <= 0 -> GetEdpPacket b = Done None b.
Proof.
  intros Hb E Hflag. unfold GetEdpPacket.
  rewrite (bind_done _ _ _ flag b) by (unfold access; by rewrite E).
  rewrite (bind_done _ _ _ tt b) by (unfold massert; by rewrite (recv_rp _ Hb)).
  destruct (Z.leb_spec flag 0); [done|lia].
Qed.

(** A stream that starts with a whole frame. *)
Lemma GetEdpPacket_frame b t body rest :
  recv_ok b -> fits lim (_write_pos b) -> zlen body < REMLEN_MAX ->
  written b = frame t body ++ rest ->
  exists pkg b', GetEdpPacket b = Done (Some pkg) b' /\ wbuf lim pkg /\
    written pkg = frame t body /\ recv_ok b' /\ written b' = rest /\
    zlen (_data b') = zlen (_data b).
Proof.
  intros Hb Hfit Hl Hw. pose proof (zlen_written_recv b Hb) as Hlen.
  pose proof (zlen_frame_bounds t body). pose proof (zlen_nonneg body).
  pose proof (zlen_nonneg rest).
  assert (Hwl : _write_pos b = zlen (frame t body) + zlen rest) by (rewrite <- Hlen, Hw; zlen_lia).
  pose proof (IsPkgComplete_frame b t body rest Hb Hl) as E.
  rewrite ztake_all in E by (rewrite <- Hw; lia). specialize (E Hw).
  destruct (Z.leb_spec (zlen (frame t body)) (_write_pos b)); [|lia].
  destruct (GetEdpPacket_flag b _ Hb Hfit E ltac:(lia))
    as (pkg & b' & EG & Hp & Wp & Hb' & W' & Hd).
  rewrite Hw in Wp, W'. rewrite ztake_zlen_app in Wp. rewrite zdrop_zlen_app in W'.
  eauto 10.
Qed.

(** A strict prefix of a frame: nothing to take yet. *)
Lemma GetEdpPacket_prefix b t body rest :
  recv_ok b -> zlen body < REMLEN_MAX -> written b ++ rest = frame t body -> rest <> [] ->
  GetEdpPacket b = Done None b.
Proof.
  intros Hb Hl Hw Hne. pose proof (zlen_written_recv b Hb) as Hlen.
  assert (0 < zlen rest).
  { destruct rest; [done|]. rewrite zlen_cons. pose proof (zlen_nonneg rest). lia. }
  assert (Hf : zlen (frame t body) = _write_pos b + zlen rest) by (rewrite <- Hw; zlen_lia).
  apply (GetEdpPacket_none b 0 Hb); [|lia].
  rewrite (IsPkgComplete_frame b t body [] Hb Hl).
  - destruct (Z.leb_spec (zlen (frame t body)) (_write_pos b)); [lia|done].
  - rewrite app_nil_r, <- Hw, <- Hlen. symmetry. apply ztake_zlen_app.
Qed.

(** Whatever the bytes are, the call is memory safe and makes progress: the
    packet has at least two bytes and packet and rest make up the input. *)
Lemma GetEdpPacket_total b :
  recv_ok b -> fits lim (_write_pos b) ->
  GetEdpPacket b = Done None b \/
  exists pkg b', GetEdpPacket b = Done (Some pkg) b' /\ wbuf lim pkg /\
    2 <= zlen (written pkg) /\ recv_ok b' /\ written b = written pkg ++ written b' /\
    zlen (_data b') = zlen (_data b).
Proof.
  intros Hb Hfit. destruct (IsPkgComplete_total b Hb) as (r & E & [Hr|Hr]).
  - left. apply (GetEdpPacket_none b r); done || lia.
  - right. destruct (GetEdpPacket_flag b r Hb Hfit E ltac:(lia))
      as (pkg & b' & EG & Hp & Wp & Hb' & W' & Hd).
    exists pkg, b'. rewrite Wp, W', ztake_app_zdrop. pose proof (zlen_written_recv b Hb).
    split; [done|]. split; [done|]. split; [zlen_lia|done].
Qed.
End Get.
