(* ===== verification/EdpUnpack.v ===== *)
(** What the [Unpack*] functions of [App/NuAgent/OneNet/EdpKit.c] return on
    whole packets, and the round trips with the [Packet*] functions. *)
From S2P Require Import Prelude EdpBuffer EdpPacket Double Json.

Section Unpack.
Context {HP : Heap} (lim : Z) {HG : Grants lim}.
Hypothesis Hlim : BUFFER_SIZE <= lim < 2147483648.

(** [m] accepts a packet with exactly [bs] left to read and returns [a]. *)
Definition Parses {A} (m : M Buffer A) (bs : list Z) (a : A) : Prop :=
  forall b, rbuf lim b -> unread b = bs -> exists b', m b = Done a b' /\ rbuf lim b'.

Lemma Parses_bind {A B} (m : M Buffer A) (f : A -> M Buffer B) bs1 bs2 a c :
  Reads lim m bs1 a -> Parses (f a) bs2 c -> Parses (m ≫= f) (bs1 ++ bs2) c.
Proof.
  intros H1 H2 b Hb Hu. destruct (H1 b bs2 Hb Hu) as (b1 & E & Hb1 & U1 & _).
  rewrite (bind_done _ _ _ _ _ E). by apply H2.
Qed.

Lemma Parses_last {A} (m : M Buffer A) bs a : Reads lim m bs a -> Parses m bs a.
Proof.
  intros H b Hb Hu. rewrite <- (app_nil_r bs) in Hu.
  destruct (H b [] Hb Hu) as (b' & E & Hb' & _). eauto.
Qed.

Lemma Parses_done {A} (a : A) : Parses (assert_consumed;; mret a) [] a.
Proof.
  intros b Hb Hu. exists b. split; [|done]. pose proof (zlen_unread _ _ Hb) as Hl.
  rewrite Hu in Hl. change (zlen []) with 0 in Hl.
  unfold assert_consumed. rewrite (bind_done _ _ _ tt b); [done|].
  unfold massert. destruct (Z.eqb_spec (_read_pos b) (_write_pos b)); [done|lia].
Qed.

(** The counterpart: bytes left over trip the assertion. *)
Lemma assert_consumed_crash {A} (a : A) b :
  rbuf lim b -> unread b <> [] -> (assert_consumed;; mret a) b = Crash.
Proof.
  intros Hb Hu. pose proof (zlen_unread _ _ Hb) as Hl.
  unfold assert_consumed. rewrite bind_crash; [done|]. unfold massert.
  destruct (Z.eqb_spec (_read_pos b) (_write_pos b)); [|done].
  destruct Hu. apply length_zero_iff_nil. unfold zlen in Hl. lia.
Qed.

(** [reader] composes the readers of an unpack function. *)
Ltac reader_side := first [done | word_lia | by_decide].

Ltac reader :=
  match goal with
  | |- Reads _ (onerr _ _) _ _ => apply Reads_onerr; reader
  | |- Reads _ ReadByte _ _ => apply Reads_ReadByte; reader_side
  | |- Reads _ (ReadBytes _) _ _ => apply Reads_ReadBytes; reader_side
  | |- Reads _ ReadUint16 _ _ => apply Reads_ReadUint16; reader_side
  | |- Reads _ ReadUint32 _ _ => apply Reads_ReadUint32; reader_side
  | |- Reads _ ReadStr _ _ => apply Reads_ReadStr; reader_side
  | |- Reads _ ReadRemainlen _ _ => apply Reads_ReadRemainlen; reader_side
  | |- Parses (_;; mret _) [] _ => apply Parses_done
  end.

Lemma Reads_EdpPacketType t : Reads lim EdpPacketType [t] t.
Proof.
  intros b rest Hb Hu. destruct (Reads_ReadByte lim t ltac:(lia) b rest Hb Hu) as (b' & E & H).
  exists b'. unfold EdpPacketType. by rewrite E.
Qed.

(** What follows the type byte of a frame. *)
Definition payload (body : list Z) : list Z := remlen (zlen body) ++ body.

Lemma Reads_payload_len (body : list Z) : zlen body < REMLEN_MAX ->
  Reads lim ReadRemainlen (remlen (zlen body)) (zlen body).
Proof. intros. pose proof (zlen_nonneg body). apply Reads_ReadRemainlen; lia. Qed.

Lemma Parses_ConnectResp flag rtn : Parses UnpackConnectResp (payload [flag; rtn]) rtn.
Proof.
  unfold UnpackConnectResp, payload. change (zlen [flag; rtn]) with 2.
  eapply (Parses_bind _ _ (remlen 2)); [reader|].
  eapply (Parses_bind _ _ [flag] [rtn]); [reader|].
  eapply (Parses_bind _ _ [rtn] []); [reader|]. reader.
Qed.

Lemma Parses_PingResp : Parses UnpackPingResp (payload []) tt.
Proof.
  unfold UnpackPingResp, payload. eapply (Parses_bind _ _ (remlen 0)); [reader|].
  intros b Hb Hu. destruct (Parses_done tt b Hb Hu) as (b' & E & ?). exists b'. split; [|done].
  rewrite <- E. unfold mbind, M_bind. by destruct (assert_consumed b) as [[]| |].
Qed.

Lemma Parses_Pushdata devid data :
  short_str devid -> Bytes data -> zlen (push_body devid data) < REMLEN_MAX ->
  Parses UnpackPushdata (payload (push_body devid data)) (devid, data, zlen data).
Proof.
  intros [Hd Hl] Hb Hr. unfold UnpackPushdata, payload.
  pose proof (Reads_payload_len _ Hr).
  eapply (Parses_bind _ _ (remlen _)); [by apply Reads_onerr|]. unfold push_body.
  eapply Parses_bind; [reader|].
  assert (Hz : u32 (zlen (wstr devid ++ data) - (2 + zlen devid)) = zlen data).
  { unfold push_body, REMLEN_MAX in *. pose proof (zlen_nonneg data).
    pose proof (zlen_nonneg devid).
    assert (E : zlen (wstr devid ++ data) = 2 + zlen devid + zlen data) by zlen_lia.
    rewrite E in *. rewrite u32_small by word_lia. lia. }
  rewrite Hz. cbv zeta. rewrite <- (app_nil_r data) at 2.
  eapply Parses_bind; [reader|]. reader.
Qed.

Lemma Parses_SavedataAck flag text :
  zlen text < 65536 -> zlen ([flag] ++ be16 (zlen text) ++ text) < REMLEN_MAX ->
  Parses UnpackSavedataAck (payload ([flag] ++ be16 (zlen text) ++ text)) text.
Proof.
  intros Hl Hr. unfold UnpackSavedataAck, payload. pose proof (zlen_nonneg text).
  eapply (Parses_bind _ _ (remlen _)); [by apply Reads_onerr, Reads_payload_len|].
  eapply Parses_bind; [reader|]. eapply Parses_bind; [reader|]. apply Parses_last. reader.
Qed.

Lemma Parses_CmdReq cmdid req :
  let body := be16 (zlen cmdid) ++ cmdid ++ be32 (zlen req) ++ req in
  zlen cmdid < 65536 -> zlen body < REMLEN_MAX ->
  Parses UnpackCmdReq (payload body) (cmdid, zlen cmdid, req, zlen req).
Proof.
  intros body Hl Hr. unfold UnpackCmdReq, payload.
  pose proof (zlen_nonneg cmdid). pose proof (zlen_nonneg req).
  assert (Hq : zlen req < 268435456).
  { unfold body, REMLEN_MAX in Hr. revert Hr. autorewrite with zlen. lia. }
  eapply (Parses_bind _ _ (remlen _)); [by apply Reads_onerr, Reads_payload_len|].
  eapply Parses_bind; [reader|]. eapply Parses_bind; [reader|]. eapply Parses_bind; [reader|].
  rewrite <- (app_nil_r req) at 2. eapply Parses_bind; [reader|]. reader.
Qed.

(** The address and type part, shared by the save-data messages. *)
Lemma Reads_Savedata dst type n :
  short_dst dst -> 0 <= n < REMLEN_MAX ->
  Reads lim UnpackSavedata (remlen n ++ address dst ++ [type]) (dst, type).
Proof.
  intros Hd Hr. unfold UnpackSavedata.
  eapply Reads_bind; [apply Reads_onerr, Reads_ReadRemainlen; lia|].
  destruct dst as [dst|]; simpl in Hd; cbn [address].
  - destruct Hd. change ([128] ++ wstr dst) with (128 :: wstr dst).
    eapply (Reads_bind _ _ _ [128]); [reader|]. simpl.
    eapply (Reads_bind _ _ _ (wstr dst) _ (Some dst)).
    + rewrite <- (app_nil_r (wstr dst)). eapply Reads_bind; [reader|]. apply Reads_ret.
    + rewrite <- (app_nil_r [type]). eapply Reads_bind; [reader|]. apply Reads_ret.
  - eapply (Reads_bind _ _ _ [0]); [reader|]. simpl.
    eapply (Reads_bind _ _ _ [] _ None); [apply Reads_ret|].
    rewrite <- (app_nil_r [type]). eapply Reads_bind; [reader|]. apply Reads_ret.
Qed.

(** A save-data message whose part after the type is read by [m]. *)
Lemma Parses_Savedata {A} dst type tail (m : M Buffer A) a :
  short_dst dst -> zlen (address dst ++ [type] ++ tail) < REMLEN_MAX -> Parses m tail a ->
  Parses (h ← UnpackSavedata; r ← m; mret (h, r)) (payload (address dst ++ [type] ++ tail))
    (dst, type, a).
Proof.
  intros Hd Hr Hm. unfold payload.
  replace (remlen _ ++ _) with
    ((remlen (zlen (address dst ++ [type] ++ tail)) ++ address dst ++ [type]) ++ tail)
    by (by rewrite <- !app_assoc).
  eapply Parses_bind.
  - apply Reads_Savedata; [done|]. pose proof (zlen_nonneg (address dst ++ [type] ++ tail)). lia.
  - intros b Hb Hu. destruct (Hm b Hb Hu) as (b' & E & Hb').
    exists b'. by rewrite (bind_done _ _ _ _ _ E).
Qed.

Lemma Parses_SimpleString text : short_str text ->
  Parses UnpackSavedataSimpleString (wstr text) text.
Proof. intros [? ?]. apply Parses_last. unfold UnpackSavedataSimpleString. reader. Qed.

Lemma Parses_BinStr desc bin : short_str desc -> zlen bin < 4294967296 ->
  Parses UnpackSavedataBinStr (wstr desc ++ be32 (zlen bin) ++ bin) (desc, bin, zlen bin).
Proof.
  intros [? ?] ?. unfold UnpackSavedataBinStr. pose proof (zlen_nonneg bin).
  eapply Parses_bind; [reader|]. eapply Parses_bind; [reader|].
  rewrite <- (app_nil_r bin) at 2. eapply Parses_bind; [reader|]. reader.
Qed.

Section WithParser.
Context `{LM : LibM}.

Lemma Parses_Json text j : short_str text -> parse_text text = Ok j ->
  Parses UnpackSavedataJson (wstr text) j.
Proof.
  intros [? ?] Hj. unfold UnpackSavedataJson. rewrite <- (app_nil_r (wstr text)).
  eapply Parses_bind; [reader|]. rewrite Hj. reader.
Qed.

Lemma Parses_Bin desc bin j : short_str desc -> zlen bin < 4294967296 ->
  parse_text desc = Ok j ->
  Parses UnpackSavedataBin (wstr desc ++ be32 (zlen bin) ++ bin) (j, bin, zlen bin).
Proof.
  intros [? ?] ? Hj. unfold UnpackSavedataBin. pose proof (zlen_nonneg bin).
  eapply Parses_bind; [reader|]. rewrite Hj. eapply Parses_bind; [reader|].
  rewrite <- (app_nil_r bin) at 2. eapply Parses_bind; [reader|]. reader.
Qed.
End WithParser.

(** A packet built by one side and taken apart by the other. *)
Definition receive {A} (m : M Buffer A) (pkt : option Buffer) : option (Z * A) :=
  pkg ← pkt;
  match (t ← EdpPacketType; a ← m; mret (t, a)) pkg with
  | Done r _ => Some r
  | _ => None
  end.

Lemma receive_frame {A} pkt t body (m : M Buffer A) a :
  emits lim pkt t body -> Parses m (payload body) a -> receive m pkt = Some (t, a).
Proof.
  intros (pkg & -> & Hb & W) Hm. destruct (wbuf_rbuf lim pkg Hb) as [Hr Hu].
  rewrite W in Hu. change (frame t body) with ([t] ++ payload body) in Hu.
  destruct (Reads_EdpPacketType t pkg _ Hr Hu) as (b1 & E1 & Hb1 & U1 & _).
  destruct (Hm b1 Hb1 U1) as (b2 & E2 & _).
  unfold receive. simpl. rewrite (bind_done _ _ _ _ _ E1), (bind_done _ _ _ _ _ E2). done.
Qed.
End Unpack.

(** C7: a push-data packet carries its destination and its payload, every byte
    value included, unchanged from [PacketPushdata] through [EdpPacketType] to
    [UnpackPushdata]. *)
Theorem push_roundtrip {HP : Heap} lim {HG : Grants lim} devid data :
  BUFFER_SIZE <= lim < 2147483648 -> short_str devid -> Bytes data ->
  sendable lim PUSHDATA (push_body devid data) ->
  receive UnpackPushdata (PacketPushdata devid data (zlen data))
    = Some (PUSHDATA, (devid, data, zlen data)).
Proof.
  intros Hl Hd Hb Hs. apply (receive_frame lim Hl _ PUSHDATA (push_body devid data)).
  - by apply emits_push.
  - apply Parses_Pushdata; try done. apply Hs.
Qed.

Lemma push_roundtrip_witness :
  let H := zero_heap 20480 in
  receive UnpackPushdata (PacketPushdata [49; 53; 49] [0; 255; 10; 0] 4)
  = Some (PUSHDATA, ([49; 53; 49], [0; 255; 10; 0], 4)).
Proof.
  intros H. apply (@push_roundtrip H 20480 (zero_heap_grants 20480)
    [49; 53; 49] [0; 255; 10; 0]); [by vm_compute|by_decide|by_decide|].
  split; [by vm_compute|left; by vm_compute].
Defined.

(** A save-data string packet, with or without an address, round trips:
    type byte, address, data type and text come back as they were packed. *)
Theorem save_string_roundtrip {HP : Heap} lim {HG : Grants lim} dst text :
  BUFFER_SIZE <= lim < 2147483648 -> short_dst dst -> short_str text ->
  sendable lim SAVEDATA (text_body dst 5 text) ->
  receive (h ← UnpackSavedata; s ← UnpackSavedataSimpleString; mret (h, s))
    (PacketSavedataSimpleString dst text) = Some (SAVEDATA, (dst, type_code kTypeString, text)).
Proof.
  intros Hl Hd Ht Hs. apply (receive_frame lim Hl _ SAVEDATA (text_body dst 5 text)).
  - by apply emits_string.
  - apply Parses_Savedata; try done; [apply Hs|by apply Parses_SimpleString].
Qed.

Lemma save_string_roundtrip_witness :
  let H := zero_heap 20480 in
  receive (h ← UnpackSavedata; s ← UnpackSavedataSimpleString; mret (h, s))
    (PacketSavedataSimpleString None [116; 58; 50]) = Some (SAVEDATA, (None, 5, [116; 58; 50])).
Proof.
  intros H. apply (@save_string_roundtrip H 20480 (zero_heap_grants 20480) None [116; 58; 50]);
    [by vm_compute|done|by_decide|].
  split; [by vm_compute|left; by vm_compute].
Defined.

(** A binary save-data packet round trips: description, binary bytes and
    their count. *)
Theorem save_bin_roundtrip {HP : Heap} lim {HG : Grants lim} dst desc bin :
  BUFFER_SIZE <= lim < 2147483648 -> short_dst dst -> short_str desc -> Bytes bin ->
  zlen bin <= 3145728 -> sendable lim SAVEDATA (bin_body dst desc bin) ->
  exists pkg, PacketSavedataBinStr dst desc bin (zlen bin) = Some (Some pkg) /\
    receive (h ← UnpackSavedata; r ← UnpackSavedataBinStr; mret (h, r)) (Some pkg)
    = Some (SAVEDATA, (dst, type_code kTypeBin, (desc, bin, zlen bin))).
Proof.
  intros Hl Hd Ht Hb Hm Hs.
  destruct (emits_bin_str lim Hl dst desc bin) as (pkg & E & He); try done.
  exists pkg. split; [done|].
  apply (receive_frame lim Hl _ SAVEDATA (bin_body dst desc bin)); [done|].
  apply Parses_Savedata; try done; [apply Hs|]. apply Parses_BinStr; done || lia.
Qed.

Lemma save_bin_roundtrip_witness :
  let H := zero_heap 20480 in
  exists pkg, PacketSavedataBinStr (Some [65]) [123; 125] [0; 1; 255] 3 = Some (Some pkg) /\
    receive (h ← UnpackSavedata; r ← UnpackSavedataBinStr; mret (h, r)) (Some pkg)
    = Some (SAVEDATA, (Some [65], 2, ([123; 125], [0; 1; 255], 3))).
Proof.
  intros H. apply (@save_bin_roundtrip H 20480 (zero_heap_grants 20480) (Some [65]));
    [by vm_compute|by_decide|by_decide|by_decide|by vm_compute|].
  split; [by vm_compute|left; by vm_compute].
Defined.

(** A heartbeat response that carries a body is not rejected: the closing
    assertion of [UnpackPingResp] fails, whatever the body is. *)
Theorem ping_resp_body_crashes {HP : Heap} lim {HG : Grants lim} body b :
  lim < 2147483648 -> body <> [] -> zlen body < REMLEN_MAX ->
  rbuf lim b -> unread b = payload body -> UnpackPingResp b = Crash.
Proof.
  intros Hl Hne Hr Hb Hu. pose proof (zlen_nonneg body).
  destruct (Reads_ReadRemainlen lim (zlen body) Hl ltac:(lia) b body Hb Hu)
    as (b' & E & Hb' & U' & _).
  unfold UnpackPingResp. rewrite (bind_done _ _ _ _ _ (onerr_done _ _ _ _ _ E)).
  pose proof (assert_consumed_crash lim tt b' Hb') as Hc. rewrite U' in Hc. specialize (Hc Hne).
  revert Hc. unfold mbind, M_bind. by destruct (assert_consumed b') as [[]| |].
Qed.

Lemma ping_resp_body_crashes_witness :
  UnpackPingResp (mkBuffer [208; 1; 7] 3 1 3) = Crash.
Proof.
  apply (@ping_resp_body_crashes (zero_heap 10) 10 (zero_heap_grants 10) [7]);
    [lia|done|by vm_compute|split; simpl; try lia; [done|by_decide]|done].
Defined.
