(* ===== verification/Cloud.v ===== *)
(** The cloud connection: [recv_data_process] of [App/NuAgent/User/cloud.c] and
    the heartbeat of [App/NuAgent/User/sensors.c].

    The connection state is explicit; what the code logs about a packet is
    recorded as a [Report] and what it hands to [Socket_TCPClientSendData] in
    [sent].  A block printed with [%s] is read up to its first zero byte; one
    without is read past its end, a [Crash].  [free] of a pointer that no live block stands behind (not set by
    a failed call, already freed, or null: [OSMFree] tests nothing) is a
    [Crash]. *)
From S2P Require Import Prelude EdpBuffer EdpPacket EdpStream EdpUnpack Double Json.

Inductive CONN_STATUS :=
  | SOCK_NONE | SOCK_ERROR | SOCK_DONE
  | CLOUD_CONN_NONE | CLOUD_CONN_ERROR | CLOUD_CONN_DONE.

(** What is logged for each kind of packet. *)
Inductive Report :=
  | RConnect (rtn : Z)
  | RPing
  | RPush (src_devid data : list Z) (len : Z)
  | RJson (src_devid json : list Z)
  | RBin (src_devid desc bin : list Z) (len : Z)
  | RString (text : list Z)
  | RError
  | RAck (json_ack : list Z)
  | RCmd (pkg : list Z)
  | RUnknown.

Record Cloud := mkCloud {
  conn_status : CONN_STATUS;
  SensorTaskFlag : Z;
  reports : list Report;
  sent : list (list Z)
}.

Definition report (r : Report) (c : Cloud) : Cloud :=
  mkCloud (conn_status c) (SensorTaskFlag c) (reports c ++ [r]) (sent c).
Definition send (bytes : list Z) (c : Cloud) : Cloud :=
  mkCloud (conn_status c) (SensorTaskFlag c) (reports c) (sent c ++ [bytes]).
Definition connected (c : Cloud) : Cloud :=
  mkCloud CLOUD_CONN_DONE 1 (reports c) (sent c).

(** What [%s] prints of a block. *)
Fixpoint print_s (block : list Z) : option (list Z) :=
  match block with
  | [] => None
  | ch :: block => if ch =? 0 then Some [] else cons ch <$> print_s block
  end.

Lemma print_s_spec block :
  print_s block = if decide (0 ∈ block) then Some (cstr block) else None.
Proof.
  induction block as [|ch block IH]; [by rewrite decide_False by apply not_elem_of_nil|].
  cbn [print_s cstr]. destruct (Z.eqb_spec ch 0) as [->|Hn].
  - by rewrite decide_True by left.
  - rewrite IH. destruct (decide (0 ∈ block)) as [Hin|Hin].
    + by rewrite decide_True by (by right).
    + rewrite decide_False; [done|]. by rewrite not_elem_of_cons.
Qed.

Section Cloud.
Context {HP : Heap} {LM : LibM}.

(** Run [m] on the packet; [k] gets the result ([None]: an error code) and the
    packet as [m] leaves it. *)
Definition unpack {A} (m : M Buffer A) (pkg : Buffer)
  (k : option A -> Z -> Buffer -> outcome Cloud unit) : outcome Cloud unit :=
  match m pkg with
  | Done a pkg => k (Some a) 0 pkg
  | Err code pkg => k None code pkg
  | Crash => Crash
  end.

Definition Socket_TCPClientSendData (pkg : Buffer) (c : Cloud) : Cloud :=
  send (written pkg) c.

(** The part of the [SAVEDATA] case after a successful [UnpackSavedata]. *)
Definition handle_savedata (pkg : Buffer) (src_devid : option (list Z)) (jsonorbin : Z)
  (c : Cloud) : outcome Cloud unit :=
  (* a src_devid that was not set ends in the Crash of the free below *)
  let dev := default [] src_devid in
  (* free(src_devid) at the end of the case *)
  let free_devid c := match src_devid with Some _ => Done tt c | None => Crash end in
  if (jsonorbin =? type_code kTypeFullJson)
     || (jsonorbin =? type_code kTypeSimpleJsonWithoutTime)
     || (jsonorbin =? type_code kTypeSimpleJsonWithTime) then
    unpack UnpackSavedataJson pkg (fun r _ _ =>
      match r with
      | Some save_json =>
          match cJSON_Print save_json with
          | Ok save_json_str => free_devid (report (RJson dev save_json_str) c)
          | Null | Undef => Crash
          end
      | None => Crash
      end)
  else if jsonorbin =? type_code kTypeBin then
    unpack UnpackSavedataBin pkg (fun r _ _ =>
      match r with
      | Some (desc_json, save_bin, save_binlen) =>
          match cJSON_Print desc_json with
          | Ok desc_json_str =>
              match print_s save_bin with
              | Some bin => free_devid (report (RBin dev desc_json_str bin save_binlen) c)
              | None => Crash
              end
          | Null | Undef => Crash
          end
      | None => Crash
      end)
  else if jsonorbin =? type_code kTypeString then
    unpack UnpackSavedataSimpleString pkg (fun r _ _ =>
      match r with
      | Some simple_str => free_devid (report (RString simple_str) c)
      | None => Crash
      end)
  else free_devid c.

(** The [switch] on the packet type. *)
Definition handle_packet (pkg : Buffer) (c : Cloud) : outcome Cloud unit :=
  unpack EdpPacketType pkg (fun mtype _ pkg =>
    let mtype := default 0 mtype in
    if mtype =? CONNRESP then
      unpack UnpackConnectResp pkg (fun r code _ =>
        Done tt (connected (report (RConnect (default code r)) c)))
    else if mtype =? PINGRESP then
      unpack UnpackPingResp pkg (fun _ _ _ => Done tt (report RPing c))
    else if mtype =? PUSHDATA then
      unpack UnpackPushdata pkg (fun r _ _ =>
        match r with
        | Some (src_devid, push_data, push_datalen) =>
            match print_s push_data with
            | Some data => Done tt (report (RPush src_devid data push_datalen) c)
            | None => Crash
            end
        | None => Crash
        end)
    else if mtype =? SAVEDATA then
      unpack UnpackSavedata pkg (fun r _ pkg =>
        match r with
        | Some (src_devid, jsonorbin) => handle_savedata pkg src_devid jsonorbin c
        | None => Done tt (report RError c)
        end)
    else if mtype =? SAVEACK then
      unpack UnpackSavedataAck pkg (fun r _ _ =>
        match r with
        | Some json_ack =>
            match print_s json_ack with
            | Some ack => Done tt (report (RAck ack) c)
            | None => Crash
            end
        | None => Crash
        end)
    else if mtype =? CMDREQ then
      let c := report (RCmd (written pkg)) c in
      unpack UnpackCmdReq pkg (fun r _ _ =>
        match r with
        | Some (cmdid, cmdid_len, cmd_req, cmd_req_len) =>
            let cmd_resp := [111; 107] in
            match PacketCmdResp cmdid cmdid_len cmd_resp (zlen cmd_resp) with
            | Some send_pkg => Done tt (Socket_TCPClientSendData send_pkg c)
            | None => Crash
            end
        | None => Done tt c
        end)
    else Done tt (report RUnknown c)).

(** The [while (1)] loop; [None] when the fuel runs out.  The result carries
    the receive buffer as the loop leaves it. *)
Fixpoint recv_loop (fuel : nat) (recvbuf : Buffer) (c : Cloud)
  : option (outcome Cloud Buffer) :=
  match fuel with
  | O => None
  | S fuel =>
      match GetEdpPacket recvbuf with
      | Done None recvbuf => Some (Done recvbuf c)
      | Done (Some pkg) recvbuf =>
          match handle_packet pkg c with
          | Done _ c => recv_loop fuel recvbuf c
          | Err code c => Some (Err code c)
          | Crash => Some Crash
          end
      | Err _ _ | Crash => Some Crash
      end
  end.

(** [buffer] is the whole array, [len] the number of bytes received. *)
Definition recv_data_process (buffer : list Z) (len : Z) (c : Cloud)
  : option (outcome Cloud Buffer) :=
  recv_loop (S (Z.to_nat len)) (mkBuffer buffer len 0 BUFFER_SIZE) c.

(** [cloud_heartbeat_timer_handle] of sensors.c; [None] is a null dereference. *)
Definition cloud_heartbeat_timer_handle (c : Cloud) : option Cloud :=
  match conn_status c with
  | CLOUD_CONN_DONE =>
      send_pkg ← PacketPing;
      Some (Socket_TCPClientSendData send_pkg c)
  | _ => Some c
  end.

(** The connection part of [Agent_cloud_process]: [rets] are the results of
    the successive sends.  [Some true]: connected, [Some false]: the function
    returns -1 after four failures, [None]: a null dereference or no result
    of the send yet. *)
Fixpoint Agent_cloud_connect (SRC_DEVID CLOUD_API_KEY : list Z) (rets : list Z)
  (failedcnt : Z) (c : Cloud) : option (bool * Cloud) :=
  match rets with
  | [] => None
  | ret :: rets =>
      connect_pkg ← PacketConnect1 SRC_DEVID CLOUD_API_KEY;
      let c := Socket_TCPClientSendData connect_pkg c in
      if ret <? 0 then
        let c := mkCloud CLOUD_CONN_ERROR (SensorTaskFlag c) (reports c) (sent c) in
        let failedcnt := u8 (failedcnt + 1) in
        if 3 <? failedcnt then Some (false, c)
        else Agent_cloud_connect SRC_DEVID CLOUD_API_KEY rets failedcnt c
      else Some (true, c)
  end.

(** One turn of the receive loop of [Agent_cloud_process]: [ret] and [data]
    are what [Socket_TCPClientRecvData] returned and stored, [reset] whether
    [TCPClient_reset_flag] is 0xa5.  The boolean tells whether the loop goes
    on; the result carries [recv_buf] as the packets left it. *)
Definition Agent_cloud_recv (recv_buf : list Z) (ret : Z) (data : list Z) (reset : bool)
  (c : Cloud) : option (outcome Cloud (list Z * bool)) :=
  let continues := negb ((ret <? 0) || reset) in
  if 0 <? ret then
    match recv_buf ← blit recv_buf 0 data; st recv_buf ret 0 with
    | None => Some Crash
    | Some recv_buf =>
        match recv_data_process recv_buf ret c with
        | Some (Done recvbuf c) => Some (Done (_data recvbuf, continues) c)
        | Some (Err code c) => Some (Err code c)
        | Some Crash => Some Crash
        | None => None
        end
    end
  else Some (Done (recv_buf, continues) c).
End Cloud.

Definition CLOUD_RECV_BUFFER_SIZE : Z := 2500.

(** * The messages of the server, and what they do *)

Inductive Message :=
  | MConnResp (flag rtn : Z)
  | MPingResp
  | MPush (devid data : list Z)
  | MJson (devid : list Z) (type : Z) (text : list Z)
  | MBin (devid desc bin : list Z)
  | MString (devid text : list Z)
  | MAck (flag : Z) (text : list Z)
  | MCmdReq (cmdid req : list Z)
  | MOther (mtype : Z) (body : list Z).

Definition msg_type (m : Message) : Z :=
  match m with
  | MConnResp _ _ => CONNRESP
  | MPingResp => PINGRESP
  | MPush _ _ => PUSHDATA
  | MJson _ _ _ | MBin _ _ _ | MString _ _ => SAVEDATA
  | MAck _ _ => SAVEACK
  | MCmdReq _ _ => CMDREQ
  | MOther mtype _ => mtype
  end.

Definition msg_body (m : Message) : list Z :=
  match m with
  | MConnResp flag rtn => [flag; rtn]
  | MPingResp => []
  | MPush devid data => push_body devid data
  | MJson devid type text => text_body (Some devid) type text
  | MBin devid desc bin => bin_body (Some devid) desc bin
  | MString devid text => text_body (Some devid) 5 text
  | MAck flag text => [flag] ++ be16 (zlen text) ++ text
  | MCmdReq cmdid req => be16 (zlen cmdid) ++ cmdid ++ be32 (zlen req) ++ req
  | MOther _ body => body
  end.

Definition msg_frame (m : Message) : list Z := frame (msg_type m) (msg_body m).

(** The answer to a command: "ok". *)
Definition cmd_answer (cmdid : list Z) : list Z :=
  frame CMDRESP (cmd_body cmdid [111; 107]).

Section Spec.
Context {HP : Heap} {LM : LibM} (lim : Z) {HG : Grants lim}.
Hypothesis Hlim : BUFFER_SIZE <= lim < 2147483648.

Definition known_types : list Z :=
  [CONNRESP; PINGRESP; PUSHDATA; SAVEDATA; SAVEACK; CMDREQ].

(** What a conforming server sends: fields that fit their length prefixes,
    JSON that the parser accepts. *)
Definition conforming (m : Message) : Prop :=
  zlen (msg_body m) < REMLEN_MAX /\
  match m with
  | MConnResp flag rtn => is_u8 flag /\ is_u8 rtn
  | MPingResp => True
  | MPush devid data => short_str devid /\ Bytes data
  | MJson devid type text =>
      short_str devid /\ short_str text /\ (type = 1 \/ type = 3 \/ type = 4) /\
      exists j out, parse_text text = Ok j /\ cJSON_Print j = Ok out
  | MBin devid desc bin =>
      short_str devid /\ short_str desc /\ Bytes bin /\
      exists j out, parse_text desc = Ok j /\ cJSON_Print j = Ok out
  | MString devid text => short_str devid /\ short_str text
  | MAck flag text => is_u8 flag /\ Bytes text /\ zlen text < 65536
  | MCmdReq cmdid req =>
      Bytes cmdid /\ zlen cmdid < 65536 /\ Bytes req /\
      sendable lim CMDRESP (cmd_body cmdid [111; 107])
  | MOther mtype _ => ~ mtype ∈ known_types
  end.

(** The block that handling the message prints with [%s]: [ReadBytes]
    allocates it with the exact length of the field and adds no terminator. *)
Definition printed (m : Message) : option (list Z) :=
  match m with
  | MPush _ data => Some data
  | MBin _ _ bin => Some bin
  | MAck _ text => Some text
  | _ => None
  end.

(** The field brings its own terminator. *)
Definition printable (m : Message) : Prop :=
  match printed m with Some block => 0 ∈ block | None => True end.

#[export] Instance printable_dec m : Decision (printable m).
Proof. unfold printable. destruct (printed m); apply _. Defined.

(** A message that is handled without reading behind a block. *)
Definition msg_ok (m : Message) : Prop := conforming m /\ printable m.

(** The printed form of a JSON text. *)
Definition reprint (text : list Z) : list Z :=
  match j ← parse_text text; cJSON_Print j with Ok out => out | Null | Undef => [] end.

Definition effect (c : Cloud) (m : Message) : Cloud :=
  match m with
  | MConnResp _ rtn => connected (report (RConnect rtn) c)
  | MPingResp => report RPing c
  | MPush devid data => report (RPush devid (cstr data) (zlen data)) c
  | MJson devid _ text => report (RJson devid (reprint text)) c
  | MBin devid desc bin => report (RBin devid (reprint desc) (cstr bin) (zlen bin)) c
  | MString _ text => report (RString text) c
  | MAck _ text => report (RAck (cstr text)) c
  | MCmdReq cmdid _ =>
      send (cmd_answer cmdid) (report (RCmd (msg_frame m)) c)
  | MOther _ _ => report RUnknown c
  end.

Lemma unpack_parses {A} (m : M Buffer A) b bs a k :
  Parses lim m bs a -> rbuf lim b -> unread b = bs ->
  exists b', unpack m b k = k (Some a) 0 b'.
Proof.
  intros Hm Hb Hu. destruct (Hm b Hb Hu) as (b' & E & _). exists b'.
  unfold unpack. by rewrite E.
Qed.

Lemma unpack_reads {A} (m : M Buffer A) b bs rest a k :
  Reads lim m bs a -> rbuf lim b -> unread b = bs ++ rest ->
  exists b', unpack m b k = k (Some a) 0 b' /\ rbuf lim b' /\ unread b' = rest /\
    written b' = written b.
Proof.
  intros Hm Hb Hu. destruct (Hm b rest Hb Hu) as (b' & E & Hb' & U & D & W & _). exists b'.
  unfold unpack. rewrite E. split; [done|]. split; [done|]. split; [done|].
  unfold written. by rewrite D, W.
Qed.

(** [take_packet H] runs [unpack] on a parser that accepts the packet. *)
Ltac take_packet H :=
  match goal with |- unpack ?m ?b ?k = _ =>
    let b' := fresh "b" in let E := fresh "E" in
    destruct (unpack_parses m b _ _ k H) as (b' & E); [done|done|]; rewrite E; clear E
  end.

(** [eval_tests] evaluates the comparisons of closed constants. *)
Ltac eval_tests :=
  repeat match goal with
  | |- context [?a =? ?b] =>
      let v := eval vm_compute in (a =? b) in
      lazymatch v with true => idtac | false => idtac end;
      change (a =? b) with v
  end; cbv beta iota zeta; cbn [orb].

(** The start of every case: the type byte. *)
Lemma handle_packet_type pkg t body :
  wbuf lim pkg -> written pkg = frame t body ->
  exists b, rbuf lim b /\ unread b = payload body /\ written b = frame t body /\
    forall k : option Z -> Z -> Buffer -> outcome Cloud unit,
      unpack EdpPacketType pkg k = k (Some t) 0 b.
Proof.
  intros Hb W. destruct (wbuf_rbuf lim pkg Hb) as [Hr Hu]. rewrite W in Hu.
  change (frame t body) with ([t] ++ payload body) in Hu.
  destruct (Reads_EdpPacketType lim Hlim t pkg _ Hr Hu) as (b & E & Hb' & U & D & P & _).
  exists b. split; [done|]. split; [done|]. split.
  - unfold written in *. by rewrite D, P.
  - intros k. unfold unpack. by rewrite E.
Qed.

(** The header of a save-data message with an address. *)
Lemma unpack_savedata devid type tail b :
  short_str devid -> zlen (address (Some devid) ++ [type] ++ tail) < REMLEN_MAX ->
  rbuf lim b -> unread b = payload (address (Some devid) ++ [type] ++ tail) ->
  exists b', rbuf lim b' /\ unread b' = tail /\
    forall k, unpack UnpackSavedata b k = k (Some (Some devid, type)) 0 b'.
Proof.
  intros Hd Hr Hb Hu. unfold payload in Hu.
  pose proof (zlen_nonneg (address (Some devid) ++ [type] ++ tail)) as H0.
  destruct (Reads_Savedata lim Hlim (Some devid) type
    (zlen (address (Some devid) ++ [type] ++ tail)) Hd ltac:(lia) b tail Hb) as (b' & E & Hb' & U & _).
  { rewrite Hu. by rewrite <- !app_assoc. }
  exists b'. split; [done|]. split; [done|]. intros k. unfold unpack. by rewrite E.
Qed.

Lemma handle_savedata_msg m devid type tail b c :
  match m with MJson d _ _ | MBin d _ _ | MString d _ => devid = d | _ => False end ->
  conforming m -> msg_body m = address (Some devid) ++ [type] ++ tail ->
  rbuf lim b -> unread b = tail ->
  handle_savedata b (Some devid) type c
    = if decide (printable m) then Done tt (effect c m) else Crash.
Proof.
  intros Hm [Hr Hok] Hbody Hb Hu.
  destruct m as [| | |d ty text|d desc bin|d text| | |]; try done; subst d;
    cbn [msg_body] in Hbody; unfold text_body, bin_body in Hbody;
    apply app_inv_head in Hbody; injection Hbody as <- <-; unfold handle_savedata;
    unfold printable; cbn [printed].
  - destruct Hok as (Hd & Ht & Hty & j & out & Hj & Hout).
    assert (Hcond : ((ty =? type_code kTypeFullJson)
      || (ty =? type_code kTypeSimpleJsonWithoutTime)
      || (ty =? type_code kTypeSimpleJsonWithTime)) = true).
    { destruct Hty as [->|[->| ->]]; done. }
    rewrite Hcond. take_packet (Parses_Json lim Hlim text j Ht Hj).
    cbn [effect]. unfold reprint. rewrite Hj. simpl. by rewrite Hout.
  - destruct Hok as (Hd & Ht & Hbin & j & out & Hj & Hout). eval_tests.
    assert (Hl : zlen bin < 4294967296).
    { unfold REMLEN_MAX in Hr. cbn [msg_body] in Hr. unfold bin_body in Hr.
      pose proof (zlen_nonneg (address (Some devid))). pose proof (zlen_nonneg desc).
      revert Hr. autorewrite with zlen. lia. }
    take_packet (Parses_Bin lim Hlim desc bin j Ht Hl Hj).
    cbn [effect]. unfold reprint. rewrite Hj. simpl. rewrite Hout, print_s_spec.
    by destruct (decide (0 ∈ bin)).
  - destruct Hok as (Hd & Ht). eval_tests.
    by take_packet (Parses_SimpleString lim Hlim text Ht).
Qed.

(** Each packet has its message's effect, unless it is printed past its end. *)
Lemma handle_packet_conforming m pkg c :
  conforming m -> wbuf lim pkg -> written pkg = msg_frame m ->
  handle_packet pkg c = if decide (printable m) then Done tt (effect c m) else Crash.
Proof.
  intros Hok Hp Hw. pose proof Hok as [Hr Hm].
  destruct (handle_packet_type pkg _ _ Hp Hw) as (b & Hb & Hu & Wb & Ek).
  unfold handle_packet. rewrite Ek. cbn [default].
  destruct m as [flag rtn| |devid data|devid ty text|devid desc bin|devid text|flag text|cmdid req|mt body];
    cbn [msg_type msg_body] in *; eval_tests; try (unfold printable; cbn [printed]).
  - by take_packet (Parses_ConnectResp lim Hlim flag rtn).
  - by take_packet (Parses_PingResp lim Hlim).
  - destruct Hm as [Hd Hx]. take_packet (Parses_Pushdata lim Hlim devid data Hd Hx Hr).
    rewrite print_s_spec. by destruct (decide (0 ∈ data)).
  - destruct (unpack_savedata devid ty (wstr text) b) as (b' & Hb' & U & E); [apply Hm|done..|].
    rewrite E. by eapply (handle_savedata_msg (MJson devid ty text)).
  - destruct (unpack_savedata devid 2 (wstr desc ++ be32 (zlen bin) ++ bin) b)
      as (b' & Hb' & U & E); [apply Hm|done..|].
    rewrite E. by eapply (handle_savedata_msg (MBin devid desc bin)).
  - destruct (unpack_savedata devid 5 (wstr text) b) as (b' & Hb' & U & E); [apply Hm|done..|].
    rewrite E. by eapply (handle_savedata_msg (MString devid text)).
  - destruct Hm as (_ & _ & Hl). take_packet (Parses_SavedataAck lim Hlim flag text Hl Hr).
    rewrite print_s_spec. by destruct (decide (0 ∈ text)).
  - destruct Hm as (Hc & Hl & Hq & Hs).
    take_packet (Parses_CmdReq lim Hlim cmdid req Hl Hr).
    destruct (emits_cmd lim Hlim cmdid [111; 107]) as (out & Eo & Ho & Wo); try done.
    { by_decide. }
    rewrite Eo. unfold Socket_TCPClientSendData. rewrite Wo, Wb. done.
  - unfold known_types in Hm. rewrite !elem_of_cons in Hm. cbn [id].
    repeat match goal with |- context [if mt =? ?t then _ else _] =>
      destruct (Z.eqb_spec mt t); [subst; tauto|] end. done.
Qed.

Lemma handle_packet_msg m pkg c :
  msg_ok m -> wbuf lim pkg -> written pkg = msg_frame m ->
  handle_packet pkg c = Done tt (effect c m).
Proof. intros [Hm Hp] Hb Hw. by rewrite (handle_packet_conforming m), decide_True. Qed.

(** A tail that holds no whole packet: the strict prefix of some frame. *)
Definition partial (tail : list Z) : Prop :=
  exists t body rest, zlen body < REMLEN_MAX /\ tail ++ rest = frame t body /\ rest <> [].

Lemma msg_frame_pos m : 2 <= zlen (msg_frame m).
Proof.
  pose proof (zlen_frame_bounds (msg_type m) (msg_body m)). pose proof (zlen_nonneg (msg_body m)).
  unfold msg_frame. lia.
Qed.

Lemma recv_loop_stream ms : forall fuel b c tail,
  recv_ok b -> fits lim (_write_pos b) -> Forall msg_ok ms -> partial tail ->
  written b = concat (map msg_frame ms) ++ tail -> (length ms < fuel)%nat ->
  exists b', recv_loop fuel b c
      = Some (Done b' (fold_left effect ms c)) /\ written b' = tail /\
    recv_ok b' /\ zlen (_data b') = zlen (_data b).
Proof.
  induction ms as [|m ms IH]; intros fuel b c tail Hb Hfit Hms Ht Hw Hf;
    (destruct fuel as [|fuel]; [simpl in Hf; lia|]); cbn [recv_loop].
  - destruct Ht as (t & body & rest & Hl & Hfr & Hne).
    rewrite (GetEdpPacket_prefix b t body rest) by (done || by rewrite Hw). eauto.
  - inversion_clear Hms as [|? ? Hm Hms']. cbn [map concat] in Hw. rewrite <- app_assoc in Hw.
    destruct (GetEdpPacket_frame lim Hlim b (msg_type m) (msg_body m) _ Hb Hfit (proj1 (proj1 Hm)) Hw)
      as (pkg & b1 & E & Hp & Wp & Hb1 & W1 & Hd1).
    rewrite E, (handle_packet_msg m pkg c Hm Hp Wp).
    destruct (IH fuel b1 (effect c m) tail) as (b' & E' & W' & Hb' & Hd'); try done.
    + eapply fits_le; [exact Hfit|]. rewrite <- (zlen_written_recv _ Hb1), <- (zlen_written_recv _ Hb).
      rewrite Hw, W1, !zlen_app. pose proof (zlen_nonneg (frame (msg_type m) (msg_body m))).
      unfold msg_frame at 2. lia.
    + simpl in Hf. lia.
    + exists b'. rewrite E'. repeat split; try done; try apply Hb'. by rewrite Hd', Hd1.
Qed.

Lemma concat_frames_length ms : Z.of_nat (length ms) <= zlen (concat (map msg_frame ms)).
Proof.
  induction ms as [|m ms IH]; [done|]. cbn [map concat length].
  rewrite zlen_app. pose proof (msg_frame_pos m). lia.
Qed.

Lemma recv_data_process_messages buffer len c ms tail :
  0 <= len <= zlen buffer -> zlen buffer < 65536 -> Bytes buffer -> fits lim len ->
  Forall msg_ok ms -> partial tail ->
  ztake len buffer = concat (map msg_frame ms) ++ tail ->
  exists b', recv_data_process buffer len c
      = Some (Done b' (fold_left effect ms c)) /\ written b' = tail /\
    recv_ok b' /\ zlen (_data b') = zlen buffer.
Proof.
  intros Hl Hs Hb Hfit Hms Ht Hw. unfold recv_data_process.
  apply recv_loop_stream; try done.
  pose proof (concat_frames_length ms) as Hc.
  assert (zlen (ztake len buffer) = len) by zlen_lia. rewrite Hw, zlen_app in H.
  pose proof (zlen_nonneg tail). lia.
Qed.

(** The fuel of the receive loop is enough for any bytes. *)
Lemma recv_loop_terminates fuel : forall b c,
  recv_ok b -> fits lim (_write_pos b) -> _write_pos b < Z.of_nat fuel ->
  is_Some (recv_loop fuel b c).
Proof.
  induction fuel as [|fuel IH]; intros b c Hb Hfit Hf.
  { destruct Hb. lia. }
  cbn [recv_loop].
  destruct (GetEdpPacket_total lim Hlim b Hb Hfit) as [->|(pkg & b' & -> & Hp & Hl & Hb' & W & _)];
    [eauto|].
  assert (_write_pos b = zlen (written pkg) + _write_pos b').
  { rewrite <- (zlen_written_recv _ Hb), W, zlen_app. by rewrite (zlen_written_recv _ Hb'). }
  destruct (handle_packet pkg c); eauto.
  apply IH; [done|eapply fits_le; [done|lia]|lia].
Qed.
End Spec.

(** C17: however many messages one read of the socket delivers, each is
    recognised, unpacked and acted on exactly once and in order, commands are
    answered, and an incomplete message at the end has no effect.  The
    messages are those of [msg_ok]: well formed, save-data with an address
    ([savedata_without_address_crashes] otherwise), and a pushed data, binary
    value or acknowledgement that holds a zero byte, since the code prints
    these fields as strings ([unterminated_text_crashes] otherwise). *)
Theorem recv_data_process_stream {HP : Heap} lim {HG : Grants lim} {LM : LibM}
  buffer len c ms tail :
  BUFFER_SIZE <= lim < 2147483648 ->
  0 <= len <= zlen buffer -> zlen buffer < 65536 -> Bytes buffer -> fits lim len ->
  Forall (msg_ok lim) ms -> partial tail ->
  ztake len buffer = concat (map msg_frame ms) ++ tail ->
  exists recvbuf, recv_data_process buffer len c
      = Some (Done recvbuf (fold_left effect ms c)) /\
    written recvbuf = tail.
Proof.
  intros Hlim Hl Hs Hb Hf Hms Ht Hw.
  destruct (recv_data_process_messages lim Hlim buffer len c ms tail)
    as (b & ? & ? & _); eauto.
Qed.

(** A connect response, a JSON message, a command and half a heartbeat
    response. *)
Lemma recv_data_process_stream_witness :
  let H := zero_heap 20480 in
  let ms := [MConnResp 0 0; MJson [49] 3 [123; 34; 97; 34; 58; 91; 49; 93; 125]; MCmdReq [97; 98] [111; 110]] in
  let bytes := concat (map msg_frame ms) ++ [208] in
  exists recvbuf, recv_data_process bytes (zlen bytes) (mkCloud SOCK_DONE 0 [] [])
      = Some (Done recvbuf (mkCloud CLOUD_CONN_DONE 1
          [RConnect 0; RJson [49] [123; 10; 9; 34; 97; 34; 58; 9; 91; 49; 93; 10; 125];
           RCmd [160; 10; 0; 2; 97; 98; 0; 0; 0; 2; 111; 110]]
          [[176; 10; 0; 2; 97; 98; 0; 0; 0; 2; 111; 107]])) /\
    written recvbuf = [208].
Proof.
  intros H ms bytes.
  match goal with |- context [Done _ ?c] => replace c with
    (fold_left effect ms (mkCloud SOCK_DONE 0 [] [])) by (by vm_compute) end.
  apply (recv_data_process_stream (HP := H) (HG := zero_heap_grants 20480) 20480
    bytes (zlen bytes) (mkCloud SOCK_DONE 0 [] []) ms [208]).
  - by vm_compute.
  - by vm_compute.
  - by vm_compute.
  - by_decide.
  - left. by vm_compute.
  - repeat apply Forall_cons_2; [..|apply Forall_nil_2]; (split; [split; [by vm_compute|]|done]).
    + by vm_compute.
    + split; [by_decide|split; [by_decide|split; [by right; left|]]].
      exists (object [set_string (Some [97]) (array [Item cJSON_Number None 1 (of_int 1) None []])]).
      eexists. split; [by vm_compute|vm_compute; reflexivity].
    + repeat split; try (by vm_compute); try by_decide.
  - exists PINGRESP, [], [0]. by vm_compute.
  - by vm_compute.
Defined.

(** The receive loop terminates on arbitrary bytes: its fuel, one more than
    the number of bytes, is never used up. *)
Theorem recv_data_process_terminates {HP : Heap} lim {HG : Grants lim} {LM : LibM}
  buffer len c :
  BUFFER_SIZE <= lim < 2147483648 ->
  0 <= len <= zlen buffer -> zlen buffer < 65536 -> Bytes buffer -> fits lim len ->
  is_Some (recv_data_process buffer len c).
Proof.
  intros. apply (recv_loop_terminates lim); simpl; try done. lia.
Qed.

Lemma recv_data_process_terminates_witness :
  let H := zero_heap 20480 in
  is_Some (recv_data_process
    [48; 1; 7; 0] 4 (mkCloud SOCK_DONE 0 [] [])).
Proof.
  intros H. apply (recv_data_process_terminates (HP := H) (HG := zero_heap_grants 20480) 20480);
    [by vm_compute|by vm_compute|by vm_compute|by_decide|left; by vm_compute].
Defined.

(** A read that fills the receive buffer is written past its end: the
    terminator goes to [recv_buf[2500]]. *)
Theorem Agent_cloud_recv_full {HP : Heap} {LM : LibM}
  recv_buf data reset c :
  zlen recv_buf = CLOUD_RECV_BUFFER_SIZE -> zlen data = CLOUD_RECV_BUFFER_SIZE ->
  Agent_cloud_recv recv_buf CLOUD_RECV_BUFFER_SIZE data reset c
    = Some Crash.
Proof.
  intros Hl Hd. unfold Agent_cloud_recv.
  change (0 <? CLOUD_RECV_BUFFER_SIZE) with true. cbv iota.
  destruct (blit recv_buf 0 data) as [b|] eqn:E; [|done]. simpl.
  apply blit_length in E. unfold st. rewrite E, Hl. done.
Qed.

Lemma Agent_cloud_recv_full_witness :
  let H := zero_heap 20480 in
  Agent_cloud_recv
    (replicate 2500 0) 2500 (replicate 2500 208) false (mkCloud SOCK_DONE 0 [] []) = Some Crash.
Proof.
  intros H. apply (Agent_cloud_recv_full (HP := H)); by vm_compute.
Defined.





(** A message whose text lacks a terminator - pushed data, a binary value or
    a save acknowledgement, as an ordinary server sends them - is printed with
    [%s] past the end of the block it was copied to. *)
Theorem unterminated_text_crashes {HP : Heap} lim {HG : Grants lim} {LM : LibM} m block pkg c :
  BUFFER_SIZE <= lim < 2147483648 -> conforming lim m ->
  printed m = Some block -> ~ 0 ∈ block ->
  wbuf lim pkg -> written pkg = msg_frame m ->
  handle_packet pkg c = Crash.
Proof.
  intros Hlim Hm Hp Hn Hb Hw. rewrite (handle_packet_conforming lim Hlim m) by done.
  rewrite decide_False; [done|]. unfold printable. by rewrite Hp.
Qed.

(** The push of "hi". *)
Lemma unterminated_text_crashes_witness :
  let H := zero_heap 20480 in
  handle_packet
    (mkBuffer ([48; 5; 0; 1; 49; 104; 105] ++ replicate 1493 0) 7 0 1500)
    (mkCloud SOCK_DONE 0 [] []) = Crash.
Proof.
  intros H. apply (unterminated_text_crashes (HP := H) (HG := zero_heap_grants 20480)
    20480 (MPush [49] [104; 105]) [104; 105]);
    [by vm_compute|by repeat constructor; by_decide|done|by_decide| |by vm_compute].
  split; try (by vm_compute); [exists 0; by vm_compute|by_decide].
Defined.

(** A save-data message without a source address ends in [free] of a null
    pointer, which [OSMFree] does not test for. *)
Theorem savedata_without_address_crashes {HP : Heap} lim {HG : Grants lim} {LM : LibM}
  pkg c text :
  BUFFER_SIZE <= lim < 2147483648 -> short_str text ->
  zlen (text_body None 5 text) < REMLEN_MAX ->
  wbuf lim pkg -> written pkg = frame SAVEDATA (text_body None 5 text) ->
  handle_packet pkg c = Crash.
Proof.
  intros Hlim Ht Hr Hp Hw.
  destruct (handle_packet_type lim Hlim pkg _ _ Hp Hw) as (b & Hb & Hu & _ & Ek).
  unfold handle_packet. rewrite Ek. cbn [default]. unfold payload in Hu.
  set (n := zlen (text_body None 5 text)) in *.
  pose proof (zlen_nonneg (text_body None 5 text)) as Hn.
  change (text_body None 5 text) with (address None ++ [5] ++ wstr text) in Hu.
  rewrite app_assoc, (app_assoc (remlen n ++ address None)), <- (app_assoc (remlen n)) in Hu.
  destruct (Reads_Savedata lim Hlim None 5 n I ltac:(lia) b (wstr text) Hb Hu)
    as (b1 & E1 & Hb1 & U1 & _).
  destruct (Parses_SimpleString lim Hlim text Ht b1 Hb1 U1) as (b2 & E2 & _).
  cbv [id]. change (SAVEDATA =? CONNRESP) with false. change (SAVEDATA =? PINGRESP) with false.
  change (SAVEDATA =? PUSHDATA) with false. change (SAVEDATA =? SAVEDATA) with true.
  cbv iota zeta. unfold unpack at 1. rewrite E1. unfold handle_savedata.
  change (5 =? type_code kTypeFullJson) with false.
  change (5 =? type_code kTypeSimpleJsonWithoutTime) with false.
  change (5 =? type_code kTypeSimpleJsonWithTime) with false.
  change (5 =? type_code kTypeBin) with false. change (5 =? type_code kTypeString) with true.
  cbn [orb]. cbv iota zeta. unfold unpack. by rewrite E2.
Qed.

Lemma savedata_without_address_crashes_witness :
  let H := zero_heap 20480 in
  handle_packet
    (mkBuffer ([128; 5; 0; 5; 0; 1; 65] ++ replicate 1493 0) 7 0 1500)
    (mkCloud SOCK_DONE 0 [] []) = Crash.
Proof.
  intros H. apply (savedata_without_address_crashes (HP := H) (HG := zero_heap_grants 20480)
    20480 _ _ [65]); [by vm_compute|by_decide|by vm_compute| |by vm_compute].
  split; try (by vm_compute); [exists 0; by vm_compute|by_decide].
Defined.

(** ** Connecting *)

Section Connect.
Context {HP : Heap} (lim : Z) {HG : Grants lim}.
Hypothesis Hlim : BUFFER_SIZE <= lim < 2147483648.
Context (devid key : list Z).
Hypothesis Hdevid : short_str devid.
Hypothesis Hkey : short_str key.
Hypothesis Hsend : sendable lim CONNREQ (connect1_body devid key).

(** Attempts until the first send that succeeds, at most [n]. *)
Definition attempts (n : nat) (rets : list Z) : nat * bool :=
  match list_find (fun r => 0 <= r) (take n rets) with
  | Some (i, _) => (S i, true)
  | None => (n, false)
  end.

Definition connect_frame : list Z := frame CONNREQ (connect1_body devid key).

Lemma Agent_cloud_connect_spec n : forall rets failedcnt c,
  (0 < n)%nat -> failedcnt = 4 - Z.of_nat n -> 0 <= failedcnt -> (n <= length rets)%nat ->
  exists c', Agent_cloud_connect devid key rets failedcnt c
      = Some ((attempts n rets).2, c') /\
    sent c' = sent c ++ replicate (attempts n rets).1 connect_frame /\
    reports c' = reports c /\
    ((attempts n rets).2 = false -> conn_status c' = CLOUD_CONN_ERROR).
Proof.
  induction n as [|n IH]; intros rets f c Hn Hf Hf0 Hl; [lia|].
  destruct rets as [|r rets]; [simpl in Hl; lia|]. cbn [Agent_cloud_connect].
  destruct (emits_connect1 lim Hlim devid key Hdevid Hkey Hsend) as (pkg & -> & _ & W). simpl.
  unfold attempts in *. cbn [take list_find]. destruct (Z.ltb_spec r 0).
  - rewrite decide_False by lia. rewrite u8_small by word_lia.
    destruct (Z.ltb_spec 3 (f + 1)).
    + assert (n = 0%nat) as -> by lia. simpl. eexists. split; [done|]. simpl. by rewrite W.
    + edestruct (IH rets (f + 1)) as (c' & E & Hs & Hr & He); [lia|lia|lia|simpl in Hl; lia|].
      exists c'. rewrite E.
      destruct (list_find _ (take n rets)) as [[i x]|]; simpl in *; rewrite Hs, W, <- app_assoc; done.
  - rewrite decide_True by lia. simpl. eexists. split; [done|]. simpl. by rewrite W.
Qed.
End Connect.

(** Connecting sends the same connect packet until a send succeeds and
    gives up after the fourth failure, leaving the state at
    [CLOUD_CONN_ERROR]. *)
Theorem Agent_cloud_connect_attempts {HP : Heap} lim {HG : Grants lim} devid key rets c :
  BUFFER_SIZE <= lim < 2147483648 -> short_str devid -> short_str key ->
  sendable lim CONNREQ (connect1_body devid key) -> (4 <= length rets)%nat ->
  exists c', Agent_cloud_connect devid key rets 0 c = Some ((attempts 4 rets).2, c') /\
    sent c' = sent c ++ replicate (attempts 4 rets).1 (connect_frame devid key) /\
    ((attempts 4 rets).2 = false -> conn_status c' = CLOUD_CONN_ERROR).
Proof.
  intros Hlim Hd Hk Hs Hl.
  destruct (Agent_cloud_connect_spec lim Hlim devid key Hd Hk Hs 4 rets 0 c)
    as (c' & E & ? & _ & ?); try done; try lia. eauto.
Qed.

Lemma Agent_cloud_connect_attempts_witness :
  let H := zero_heap 20480 in
  exists c', Agent_cloud_connect [49] [75] [-1; -1; 23; 23] 0 (mkCloud SOCK_DONE 0 [] [])
      = Some (true, c') /\
    sent c' = replicate 3 [16; 15; 0; 3; 69; 68; 80; 1; 64; 0; 128; 0; 1; 49; 0; 1; 75] /\
    (true = false -> conn_status c' = CLOUD_CONN_ERROR).
Proof.
  intros H. apply (Agent_cloud_connect_attempts (HP := H) (HG := zero_heap_grants 20480)
    20480 [49] [75] [-1; -1; 23; 23]); [by vm_compute|by_decide|by_decide| |by vm_compute; lia].
  split; [by vm_compute|left; by vm_compute].
Defined.
