(* ===== verification/DMem.v ===== *)
(** The dynamic memory pool of [Ports/Cortex-M3/os_dmem.c], behind [malloc]
    and [free]: block headers linked in a circle, first fit from a roving
    search pointer, splitting on allocation and merging on release.

    Memory is the map from addresses to the block headers stored there;
    reading an address where no header was ever stored is a [Crash].  A
    merged block's header stays behind in memory, as in the code. *)
From stdpp Require Import gmap.
From Stdlib Require Import Sorting.Sorted.
From S2P Require Import Prelude.

Record DM_HEADER := mkHdr {
  dm_next_memory : Z;
  dm_previous_memory : Z;
  dm_memory_free : bool;
  dm_memory_pool : Z
}.

Record DM_PCB := mkPcb {
  dm_id : Z;
  dm_name : list Z;
  dm_start_address : Z;
  dm_pool_size : Z;
  dm_min_allocation : Z;
  dm_available : Z;
  dm_memory_list : Z;
  dm_search_ptr : Z
}.

Record DMem := mkDMem {
  memory : gmap Z DM_HEADER;
  pcb : DM_PCB;
  DMD_Total_Pools : Z
}.

(** [sizeof(DM_HEADER)] rounded up to words. *)
Definition DM_OVERHEAD : Z := 16.
Definition DM_DYNAMIC_ID : Z := 1146703425.
Definition OS_ERR_MEM_FULL : Z := 94.
Definition OS_DMEM_POOL_SIZE : Z := 20480.

(** ((n + sizeof(UNSIGNED) - 1)/sizeof(UNSIGNED)) * sizeof(UNSIGNED) *)
Definition round_up (n : Z) : Z := u32 (u32 (n + 3) / 4 * 4).

Definition set_next (v : Z) (h : DM_HEADER) : DM_HEADER :=
  mkHdr v (dm_previous_memory h) (dm_memory_free h) (dm_memory_pool h).
Definition set_prev (v : Z) (h : DM_HEADER) : DM_HEADER :=
  mkHdr (dm_next_memory h) v (dm_memory_free h) (dm_memory_pool h).
Definition set_free (v : bool) (h : DM_HEADER) : DM_HEADER :=
  mkHdr (dm_next_memory h) (dm_previous_memory h) v (dm_memory_pool h).

Definition set_available (v : Z) (p : DM_PCB) : DM_PCB :=
  mkPcb (dm_id p) (dm_name p) (dm_start_address p) (dm_pool_size p) (dm_min_allocation p)
    (u32 v) (dm_memory_list p) (dm_search_ptr p).
Definition set_search (v : Z) (p : DM_PCB) : DM_PCB :=
  mkPcb (dm_id p) (dm_name p) (dm_start_address p) (dm_pool_size p) (dm_min_allocation p)
    (dm_available p) (dm_memory_list p) v.
Definition set_id (v : Z) (p : DM_PCB) : DM_PCB :=
  mkPcb v (dm_name p) (dm_start_address p) (dm_pool_size p) (dm_min_allocation p)
    (dm_available p) (dm_memory_list p) (dm_search_ptr p).

(** Reading and writing header fields. *)
Definition header (a : Z) : M DMem DM_HEADER := access (fun s => memory s !! a).
Definition put (a : Z) (h : DM_HEADER) : M DMem unit :=
  modify (fun s => mkDMem (<[a := h]> (memory s)) (pcb s) (DMD_Total_Pools s)).
Definition update (a : Z) (f : DM_HEADER -> DM_HEADER) : M DMem unit :=
  h ← header a; put a (f h).
Definition pool_update (f : DM_PCB -> DM_PCB) : M DMem unit :=
  modify (fun s => mkDMem (memory s) (f (pcb s)) (DMD_Total_Pools s)).

(** The byte count of a block, from the addresses in its header. *)
Definition block_size (a : Z) (h : DM_HEADER) : Z := u32 (dm_next_memory h - a - DM_OVERHEAD).

(** The search loop.  The result is the block where it stops and the last
    value of [free_size]. *)
Fixpoint search (fuel : nat) (size search_ptr memory_ptr : Z) : M DMem (Z * Z) :=
  match fuel with
  | O => crash
  | S fuel =>
      h ← header memory_ptr;
      let free_size := if dm_memory_free h then block_size memory_ptr h else 0 in
      if free_size <? size then
        let memory_ptr := dm_next_memory h in
        if memory_ptr =? search_ptr then mret (memory_ptr, free_size)
        else search fuel size search_ptr memory_ptr
      else mret (memory_ptr, free_size)
  end.

Section Pool.
(** The address of the pool control block, stored in every header. *)
Context (pool_ptr : Z).

Definition OS_Create_Memory_Pool (name : list Z) (start_address pool_size min_allocation : Z)
  : M DMem unit :=
  let pool_size := pool_size / 4 * 4 in
  let available := u32 (pool_size - 2 * DM_OVERHEAD) in
  let trailer := u32 (start_address + available + DM_OVERHEAD) in
  modify (fun s => mkDMem (memory s)
    (mkPcb 0 (ztake 4 name) start_address pool_size (round_up min_allocation) available
       start_address start_address)
    (DMD_Total_Pools s));;
  put start_address (mkHdr trailer trailer true pool_ptr);;
  put trailer (mkHdr start_address start_address false pool_ptr);;
  pool_update (set_id DM_DYNAMIC_ID);;
  modify (fun s => mkDMem (memory s) (pcb s) (u32 (DMD_Total_Pools s + 1))).

Definition OS_DelMemPool : M DMem unit :=
  pool_update (set_id 0);;
  modify (fun s => mkDMem (memory s) (pcb s) (u32 (DMD_Total_Pools s - 1))).

(** The search passes each block once; there are no more blocks than stored
    headers. *)
Definition OS_GetMem (size : Z) : M DMem Z :=
  pool ← gets pcb;
  fuel ← gets (fun s => S (base.size (memory s)));
  let size := if size <? dm_min_allocation pool then dm_min_allocation pool
              else round_up size in
  '(memory_ptr, free_size) ← search fuel size (dm_search_ptr pool) (dm_search_ptr pool);
  if size <=? free_size then
    (if u32 (size + DM_OVERHEAD + dm_min_allocation pool) <=? free_size then
       let new_ptr := u32 (memory_ptr + size + DM_OVERHEAD) in
       h ← header memory_ptr;
       put new_ptr (mkHdr (dm_next_memory h) memory_ptr true pool_ptr);;
       update (dm_next_memory h) (set_prev new_ptr);;
       update memory_ptr (set_next new_ptr);;
       pool_update (fun p => set_available (dm_available p - size - DM_OVERHEAD) p)
     else pool_update (fun p => set_available (dm_available p - free_size) p));;
    update memory_ptr (set_free false);;
    h ← header memory_ptr;
    pool_update (fun p =>
      if dm_search_ptr p =? memory_ptr then set_search (dm_next_memory h) p else p);;
    mret (u32 (memory_ptr + DM_OVERHEAD))
  else fail OS_ERR_MEM_FULL.

(** The merge with the previous neighbour; the result is the block that
    remains. *)
Definition merge_previous (header_ptr : Z) : M DMem Z :=
  h ← header header_ptr;
  prev ← header (dm_previous_memory h);
  if dm_memory_free prev then
    pool_update (fun p => set_available (dm_available p + DM_OVERHEAD) p);;
    update (dm_previous_memory h) (set_next (dm_next_memory h));;
    update (dm_next_memory h) (set_prev (dm_previous_memory h));;
    pool_update (set_search (dm_previous_memory h));;
    mret (dm_previous_memory h)
  else mret header_ptr.

(** The merge with the next neighbour. *)
Definition merge_next (header_ptr : Z) : M DMem unit :=
  h ← header header_ptr;
  next ← header (dm_next_memory h);
  if dm_memory_free next then
    pool_update (fun p => set_available (dm_available p + DM_OVERHEAD) p);;
    update (dm_next_memory next) (set_prev header_ptr);;
    update header_ptr (set_next (dm_next_memory next));;
    pool_update (set_search header_ptr)
  else mret tt.

(** The header names the pool; there is only one. *)
Definition OS_FreeMem (mem : Z) : M DMem unit :=
  let header_ptr := u32 (mem - DM_OVERHEAD) in
  h ← header header_ptr;
  massert (fun _ => dm_memory_pool h =? pool_ptr);;
  update header_ptr (set_free true);;
  pool_update (fun p => set_available (dm_available p + block_size header_ptr h) p);;
  header_ptr ← merge_previous header_ptr;
  merge_next header_ptr.

(** [sysemPool] is the address of the array. *)
Definition OS_DMemInit (sysemPool : Z) : M DMem unit :=
  modify (fun s => mkDMem (memory s) (pcb s) 0);;
  OS_Create_Memory_Pool [83; 121; 115; 0] sysemPool OS_DMEM_POOL_SIZE 16.

(** A null result is 0. *)
Definition OSMMalloc (size : Z) : M DMem Z := fun s =>
  match OS_GetMem size s with
  | Err _ s => Done 0 s
  | o => o
  end.

Definition OSMFree (ptr : Z) : M DMem unit := OS_FreeMem ptr.

(** * Block lists

    The pool as a list of blocks, each a byte count and a free flag, lying one
    after the other from the start address; the trailer follows the last. *)

Definition blocks : Type := list (Z * bool).
Implicit Types bs c : blocks.

Fixpoint span (bs : blocks) : Z :=
  match bs with
  | [] => 0
  | (sz, _) :: bs => DM_OVERHEAD + sz + span bs
  end.

(** The address of the last block; [prev] when there is none. *)
Fixpoint last_addr (prev a : Z) (bs : blocks) : Z :=
  match bs with
  | [] => prev
  | (sz, _) :: bs => last_addr a (a + (DM_OVERHEAD + sz)) bs
  end.

Fixpoint free_bytes (bs : blocks) : Z :=
  match bs with
  | [] => 0
  | (sz, fr) :: bs => (if fr then sz else 0) + free_bytes bs
  end.

(** No two neighbours are free; [pf] tells whether the block before is. *)
Fixpoint merged (pf : bool) (bs : blocks) : Prop :=
  match bs with
  | [] => True
  | (_, fr) :: bs => pf && fr = false /\ merged fr bs
  end.

Definition last_free (pf : bool) (bs : blocks) : bool :=
  fold_left (fun _ b => b.2) bs pf.

(** The headers of [bs] stand in memory from [a] on. *)
Fixpoint seg (m : gmap Z DM_HEADER) (prev a : Z) (bs : blocks) : Prop :=
  match bs with
  | [] => True
  | (sz, fr) :: bs =>
      m !! a = Some (mkHdr (a + (DM_OVERHEAD + sz)) prev fr pool_ptr) /\
      seg m a (a + (DM_OVERHEAD + sz)) bs
  end.

(** The same, followed by the trailer, which leads back to [start]. *)
Fixpoint chain (m : gmap Z DM_HEADER) (start prev a : Z) (bs : blocks) : Prop :=
  match bs with
  | [] => m !! a = Some (mkHdr start prev false pool_ptr)
  | (sz, fr) :: bs =>
      m !! a = Some (mkHdr (a + (DM_OVERHEAD + sz)) prev fr pool_ptr) /\
      chain m start a (a + (DM_OVERHEAD + sz)) bs
  end.

Definition sized (bs : blocks) : Prop := Forall (fun b => 0 <= b.1) bs.

Lemma span_app b1 b2 : span (b1 ++ b2) = span b1 + span b2.
Proof. induction b1 as [|[sz fr] b1 IH]; simpl; lia. Qed.

Lemma span_nonneg bs : sized bs -> 0 <= span bs.
Proof.
  unfold DM_OVERHEAD. induction 1 as [|[sz fr] bs H _ IH]; simpl in *; [lia|].
  unfold DM_OVERHEAD. lia.
Qed.

Lemma span_pos bs : sized bs -> bs <> [] -> 0 < span bs.
Proof.
  intros H Hne. destruct H as [|[sz fr] bs H Hs]; [done|]. pose proof (span_nonneg bs Hs).
  simpl in *. unfold DM_OVERHEAD. lia.
Qed.

Lemma free_bytes_app b1 b2 : free_bytes (b1 ++ b2) = free_bytes b1 + free_bytes b2.
Proof. induction b1 as [|[sz fr] b1 IH]; simpl; lia. Qed.

Lemma free_bytes_bounds bs : sized bs -> 0 <= free_bytes bs <= span bs.
Proof.
  induction 1 as [|[sz fr] bs H _ IH]; simpl in *; [lia|]. unfold DM_OVERHEAD.
  destruct fr; lia.
Qed.

Lemma last_addr_app b1 b2 prev a :
  last_addr prev a (b1 ++ b2) = last_addr (last_addr prev a b1) (a + span b1) b2.
Proof.
  revert prev a. induction b1 as [|[sz fr] b1 IH]; intros prev a; simpl.
  - by rewrite Z.add_0_r.
  - rewrite IH. f_equal. lia.
Qed.

Lemma merged_app pf b1 b2 :
  merged pf (b1 ++ b2) <-> merged pf b1 /\ merged (last_free pf b1) b2.
Proof.
  revert pf. induction b1 as [|[sz fr] b1 IH]; intros pf; simpl; [tauto|].
  rewrite IH. unfold last_free. simpl. tauto.
Qed.

Lemma merged_weaken pf bs : merged pf bs -> merged false bs.
Proof. destruct bs as [|[sz fr] bs]; [done|]. by intros [_ H]. Qed.

Lemma seg_app m prev a b1 b2 :
  seg m prev a (b1 ++ b2) <-> seg m prev a b1 /\ seg m (last_addr prev a b1) (a + span b1) b2.
Proof.
  revert prev a. induction b1 as [|[sz fr] b1 IH]; intros prev a; simpl.
  - rewrite Z.add_0_r. tauto.
  - rewrite IH. replace (a + (DM_OVERHEAD + sz + span b1))
      with (a + (DM_OVERHEAD + sz) + span b1) by lia. tauto.
Qed.

Lemma chain_app m start prev a b1 b2 :
  chain m start prev a (b1 ++ b2) <->
  seg m prev a b1 /\ chain m start (last_addr prev a b1) (a + span b1) b2.
Proof.
  revert prev a. induction b1 as [|[sz fr] b1 IH]; intros prev a; simpl.
  - rewrite Z.add_0_r. tauto.
  - rewrite IH. replace (a + (DM_OVERHEAD + sz + span b1))
      with (a + (DM_OVERHEAD + sz) + span b1) by lia. tauto.
Qed.

Lemma seg_insert m prev a bs k h :
  sized bs -> k < a \/ a + span bs <= k -> seg m prev a bs -> seg (<[k := h]> m) prev a bs.
Proof.
  intros Hs. revert prev a. induction Hs as [|[sz fr] bs Hsz Hs IH]; intros prev a Hk; [done|].
  simpl in *. pose proof (span_nonneg bs Hs). unfold DM_OVERHEAD in *. intros [Ha Hc]. split.
  - rewrite lookup_insert_ne by lia. done.
  - apply IH; [lia|done].
Qed.

Lemma chain_ext bs : forall m m' start prev a,
  sized bs -> (forall k, a <= k -> m' !! k = m !! k) ->
  chain m start prev a bs -> chain m' start prev a bs.
Proof.
  induction bs as [|[sz fr] bs IH]; intros m m' start prev a Hs Hm; simpl.
  - by rewrite Hm by lia.
  - apply Forall_cons_1 in Hs as [Hsz Hs]. simpl in Hsz. unfold DM_OVERHEAD.
    intros [H Hc]. split; [by rewrite Hm by lia|].
    eapply IH; [done| |exact Hc]. unfold DM_OVERHEAD. intros. apply Hm. lia.
Qed.

Lemma chain_insert m start prev a bs k h :
  sized bs -> k < a -> chain m start prev a bs -> chain (<[k := h]> m) start prev a bs.
Proof.
  intros Hs Hk. apply chain_ext; [done|]. intros. by rewrite lookup_insert_ne by lia.
Qed.

(** The first header of a chain, and the chain after its back link is set. *)
Lemma chain_set_prev m start prev a bs p :
  sized bs -> chain m start prev a bs ->
  exists h, m !! a = Some h /\ chain (<[a := set_prev p h]> m) start p a bs.
Proof.
  intros Hs. destruct bs as [|[sz fr] bs]; simpl.
  - intros ->. eexists. split; [done|]. by rewrite lookup_insert_eq.
  - apply Forall_cons_1 in Hs as [Hsz Hs]. simpl in Hsz. unfold DM_OVERHEAD.
    intros [-> Hc]. eexists. split; [done|]. rewrite lookup_insert_eq. split; [done|].
    apply chain_insert; [done|unfold DM_OVERHEAD in *; lia|done].
Qed.

(** ** The invariant *)

(** [start]: the pool's address; the trailer stands at [start + span bs].
    [pool_core] leaves out that free neighbours are merged, which does not
    hold in the middle of [OS_FreeMem]. *)
Record pool_core (s : DMem) (start : Z) (bs : blocks) : Prop := {
  core_chain : chain (memory s) start (start + span bs) start bs;
  core_start : 0 < start /\ start + span bs + DM_OVERHEAD < 4294967296;
  core_size : span bs < 2147483648;
  core_sized : Forall (fun b => dm_min_allocation (pcb s) <= b.1 /\ (4 | b.1)) bs;
  core_min : 0 < dm_min_allocation (pcb s) /\ (4 | dm_min_allocation (pcb s));
  core_search : exists b1 b2, bs = b1 ++ b2 /\ dm_search_ptr (pcb s) = start + span b1;
  core_avail : dm_available (pcb s) = free_bytes bs
}.

Record pool_ok (s : DMem) (start : Z) (bs : blocks) : Prop := {
  pool_ok_core : pool_core s start bs;
  pool_ok_ne : bs <> [];
  pool_ok_merged : merged false bs
}.

Lemma core_pos s start bs : pool_core s start bs -> sized bs.
Proof. intros [_ _ _ H Hm _ _]. unfold sized. revert H. apply Forall_impl. simpl. lia. Qed.

Lemma header_done s a h : memory s !! a = Some h -> header a s = Done h s.
Proof. intros E. unfold header, access. by rewrite E. Qed.

Lemma put_done s a h : put a h s = Done tt (mkDMem (<[a := h]> (memory s)) (pcb s) (DMD_Total_Pools s)).
Proof. done. Qed.

Lemma update_done s a f h : memory s !! a = Some h ->
  update a f s = Done tt (mkDMem (<[a := f h]> (memory s)) (pcb s) (DMD_Total_Pools s)).
Proof. intros E. unfold update. by rewrite (bind_done _ _ _ _ _ (header_done _ _ _ E)). Qed.

Lemma pool_update_done s f :
  pool_update f s = Done tt (mkDMem (memory s) (f (pcb s)) (DMD_Total_Pools s)).
Proof. done. Qed.

(** ** The search *)

Definition fits_in (size : Z) (b : Z * bool) : Prop := b.2 = true /\ size <= b.1.

#[export] Instance fits_in_dec size b : Decision (fits_in size b).
Proof. unfold fits_in. apply _. Defined.

(** One pass over the blocks from [a]: it stops at the first free block that
    is large enough, or goes on after the last one. *)
Lemma search_seg size sp s prev bs : forall k a,
  0 < size -> sized bs -> a + span bs + DM_OVERHEAD < 4294967296 -> 0 <= a ->
  seg (memory s) prev a bs -> sp <= a \/ a + span bs <= sp -> bs <> [] ->
  (exists c1 fs c2, bs = c1 ++ (fs, true) :: c2 /\ size <= fs /\
     search (length bs + k) size sp a s = Done (a + span c1, fs) s) \/
  (Forall (fun b => ~ fits_in size b) bs /\ exists f, f < size /\
     search (length bs + k) size sp a s =
       if a + span bs =? sp then Done (sp, f) s else search k size sp (a + span bs) s).
Proof.
  intros k a Hsize Hs. revert prev a.
  induction Hs as [|[sz fr] bs Hsz Hs IH]; intros prev a Hmax Ha Hseg Hsp Hne; [done|].
  destruct Hseg as [Hh Hseg]. cbn [length Nat.add search span] in *. simpl in Hsz.
  pose proof (span_nonneg bs Hs). unfold DM_OVERHEAD in *.
  rewrite (bind_done _ _ _ _ _ (header_done _ _ _ Hh)). cbn [dm_memory_free dm_next_memory].
  unfold block_size. cbn [dm_next_memory]. unfold DM_OVERHEAD.
  rewrite u32_small by word_lia. replace (a + (16 + sz) - a - 16) with sz by lia.
  destruct (Z.ltb_spec (if fr then sz else 0) size) as [Hlt|Hge].
  2:{ left. destruct fr; [|lia]. exists [], sz, bs. simpl. rewrite Z.add_0_r. done. }
  assert (Hno : ~ fits_in size (sz, fr)) by (intros [E ?]; simpl in *; subst; lia).
  destruct bs as [|b bs].
  { right. split; [by constructor|]. eexists. split; [exact Hlt|]. simpl.
    rewrite Z.add_0_r. destruct (Z.eqb_spec (a + (16 + sz)) sp) as [->|]; done. }
  destruct (Z.eqb_spec (a + (16 + sz)) sp) as [Heq|Hneq].
  { pose proof (span_pos _ Hs ltac:(done)). lia. }
  destruct (IH a (a + (16 + sz))) as [(c1 & fs & c2 & E & Hfs & R)|(Hall & f & Hf & R)];
    try done; try lia.
  - left. exists ((sz, fr) :: c1), fs, c2. rewrite E. split; [done|]. split; [done|].
    rewrite <- E, R. do 2 f_equal. simpl. unfold DM_OVERHEAD. lia.
  - right. split; [by constructor|]. exists f. split; [done|]. rewrite R.
    by replace (a + (16 + sz) + span (b :: bs)) with (a + (16 + sz + span (b :: bs))) by lia.
Qed.

Lemma chain_size bs : forall m start prev a,
  sized bs -> chain m start prev a bs -> (length bs + 1 <= base.size m)%nat.
Proof.
  induction bs as [|[sz fr] bs IH]; intros m start prev a Hs; simpl.
  - intros H. destruct (base.size m) eqn:E; [|lia].
    apply map_size_empty_inv in E. by rewrite E, lookup_empty in H.
  - apply Forall_cons_1 in Hs as [Hsz Hs]. simpl in Hsz. intros [H Hc].
    assert (Hd : chain (delete a m) start a (a + (DM_OVERHEAD + sz)) bs).
    { eapply chain_ext; [done| |exact Hc]. unfold DM_OVERHEAD.
      intros k Hk. by rewrite lookup_delete_ne by lia. }
    specialize (IH _ _ _ _ Hs Hd). rewrite map_size_delete, H in IH.
    destruct (base.size m); simpl in *; lia.
Qed.

Lemma core_fuel s start bs : pool_core s start bs -> (length bs + 1 <= base.size (memory s))%nat.
Proof. intros H. eapply chain_size; [by eapply core_pos|apply H]. Qed.

Lemma core_trailer s start bs : pool_core s start bs ->
  memory s !! (start + span bs) =
    Some (mkHdr start (last_addr (start + span bs) start bs) false pool_ptr).
Proof.
  intros [Hc _ _ _ _ _ _]. rewrite <- (app_nil_r bs) in Hc at 2.
  apply chain_app in Hc as [_ Hc]. done.
Qed.

Lemma core_seg s start b1 b2 : pool_core s start (b1 ++ b2) ->
  seg (memory s) (start + span (b1 ++ b2)) start b1 /\
  seg (memory s) (last_addr (start + span (b1 ++ b2)) start b1) (start + span b1) b2.
Proof.
  intros [Hc _ _ _ _ _ _]. rewrite <- (app_nil_r (b1 ++ b2)) in Hc at 2.
  apply chain_app in Hc as [Hc _]. by apply seg_app in Hc.
Qed.

Lemma search_trailer k size sp s start bs :
  0 < size -> pool_core s start bs ->
  search (S k) size sp (start + span bs) s =
    if start =? sp then Done (start, 0) s else search k size sp start s.
Proof.
  intros Hs Hc. cbn [search]. rewrite (bind_done _ _ _ _ _ (header_done _ _ _ (core_trailer _ _ _ Hc))).
  cbn [dm_memory_free dm_next_memory]. destruct (Z.ltb_spec 0 size); [|lia].
  by destruct (start =? sp).
Qed.

(** The search visits every block: it finds a block that fits when there is
    one. *)
Lemma search_spec s start bs size :
  pool_core s start bs -> bs <> [] -> 0 < size ->
  let sp := dm_search_ptr (pcb s) in
  (exists c1 fs c2, bs = c1 ++ (fs, true) :: c2 /\ size <= fs /\
    search (S (base.size (memory s))) size sp sp s = Done (start + span c1, fs) s) \/
  (Forall (fun b => ~ fits_in size b) bs /\ exists f, f < size /\
    search (S (base.size (memory s))) size sp sp s = Done (sp, f) s).
Proof.
  intros Hc Hne Hsize sp. pose proof (core_fuel _ _ _ Hc) as Hfuel.
  pose proof (core_pos _ _ _ Hc) as Hpos. pose proof Hc as [_ [Hst Hmax] _ _ _ Hsp _].
  destruct Hsp as (b1 & b2 & -> & Hsp). fold sp in Hsp.
  rewrite length_app in Hfuel. rewrite span_app in *.
  apply Forall_app in Hpos as [Hp1 Hp2].
  pose proof (span_nonneg b1 Hp1). pose proof (span_nonneg b2 Hp2).
  destruct (core_seg _ _ _ _ Hc) as [S1 S2]. unfold DM_OVERHEAD in Hmax.
  (* from the trailer on *)
  assert (Htail : forall k, (length b1 < k)%nat ->
    (exists c1 fs c2, b1 ++ b2 = c1 ++ (fs, true) :: c2 /\ size <= fs /\
      search k size sp (start + span (b1 ++ b2)) s = Done (start + span c1, fs) s) \/
    (Forall (fun b => ~ fits_in size b) b1 /\ exists f, f < size /\
      search k size sp (start + span (b1 ++ b2)) s = Done (sp, f) s)).
  { intros k Hk. destruct k as [|k]; [lia|].
    rewrite (search_trailer k size sp s start (b1 ++ b2) Hsize Hc).
    destruct (decide (b1 = [])) as [->|Hb1].
    { simpl in Hsp. right. split; [done|]. exists 0. rewrite Hsp, Z.add_0_r, Z.eqb_refl. done. }
    pose proof (span_pos b1 Hp1 Hb1). destruct (Z.eqb_spec start sp); [lia|].
    replace k with (length b1 + (k - length b1))%nat by lia.
    destruct (search_seg size sp s (start + span (b1 ++ b2)) b1 (k - length b1) start)
      as [(c1 & fs & c2 & -> & Hfs & R)|(Hall & f & Hf & R)]; try done; try (unfold DM_OVERHEAD; lia).
    - left. exists c1, fs, (c2 ++ b2). rewrite R, <- app_assoc. done.
    - right. split; [done|]. exists f. rewrite R, Hsp, Z.eqb_refl. done. }
  assert (Eq : search (S (base.size (memory s))) size sp sp s
    = search (S (base.size (memory s))) size sp (start + span b1) s) by (by rewrite <- Hsp).
  rewrite Eq. clear Eq.
  destruct (decide (b2 = [])) as [->|Hb2].
  { rewrite app_nil_r in *. apply Htail. lia. }
  pose proof (span_pos b2 Hp2 Hb2).
  replace (S (base.size (memory s))) with (length b2 + (S (base.size (memory s)) - length b2))%nat by lia.
  destruct (search_seg size sp s (last_addr (start + span (b1 ++ b2)) start b1) b2
    (S (base.size (memory s)) - length b2) (start + span b1))
    as [(c1 & fs & c2 & E & Hfs & R)|(Hall & f & Hf & R)]; try done; try (unfold DM_OVERHEAD; lia).
  - left. exists (b1 ++ c1), fs, c2. rewrite R, E, app_assoc, span_app, Z.add_assoc. done.
  - rewrite R. destruct (Z.eqb_spec (start + span b1 + span b2) sp); [lia|].
    replace (start + span b1 + span b2) with (start + span (b1 ++ b2)) by (rewrite span_app; lia).
    destruct (Htail (S (base.size (memory s)) - length b2)%nat) as [?|(HA & HB)]; [lia|by left|].
    right. split; [by apply Forall_app|done].
Qed.

(** ** Allocation *)

(** A block boundary. *)
Definition boundary (start : Z) (bs : blocks) (p : Z) : Prop :=
  exists b1 b2, bs = b1 ++ b2 /\ p = start + span b1.

Lemma boundary_app start c1 c2 : boundary start (c1 ++ c2) (start + span c1).
Proof. by exists c1, c2. Qed.

Lemma boundary_replace start c1 x y c2 p :
  span y = span [x] -> boundary start (c1 ++ x :: c2) p -> boundary start (c1 ++ y ++ c2) p.
Proof.
  intros Hy (b1 & b2 & E & ->). symmetry in E. apply app_eq_inv in E as [(d & -> & E)|(d & -> & E)].
  - destruct d as [|x' d]; simplify_eq/=.
    + rewrite app_nil_r. apply boundary_app.
    + exists (c1 ++ y ++ d), b2. rewrite <- !app_assoc. split; [done|].
      rewrite !span_app, Hy. destruct x'. simpl. lia.
  - exists b1, (d ++ y ++ c2). by rewrite <- app_assoc.
Qed.

Lemma round_up_spec n : 0 <= n < 4294967293 ->
  n <= round_up n < n + 4 /\ (4 | round_up n).
Proof.
  intros Hn. unfold round_up. rewrite (u32_small (n + 3)) by word_lia.
  rewrite u32_small by word_lia. split; [word_lia|]. exists ((n + 3) / 4). lia.
Qed.

(** The block taken for a request that needs [need] bytes: split when the
    rest can hold a minimal block. *)
Definition taken (min need fs : Z) : blocks :=
  if need + DM_OVERHEAD + min <=? fs
  then [(need, false); (fs - need - DM_OVERHEAD, true)]
  else [(fs, false)].

Lemma span_taken min need fs fr : span (taken min need fs) = span [(fs, fr)].
Proof. unfold taken, DM_OVERHEAD. case_match; simpl; unfold DM_OVERHEAD; lia. Qed.

(** What the search found, in the terms the code needs. *)
Record found (s : DMem) (start : Z) (c1 : blocks) (fs : Z) (c2 : blocks) : Prop := {
  found_seg : seg (memory s) (start + span (c1 ++ (fs, true) :: c2)) start c1;
  found_hdr : memory s !! (start + span c1) =
    Some (mkHdr (start + span c1 + (DM_OVERHEAD + fs))
            (last_addr (start + span (c1 ++ (fs, true) :: c2)) start c1) true pool_ptr);
  found_next : chain (memory s) start (start + span c1) (start + span c1 + (DM_OVERHEAD + fs)) c2;
  found_sized : sized c1 /\ 0 <= fs /\ sized c2
}.

Lemma core_found s start c1 fs c2 :
  pool_core s start (c1 ++ (fs, true) :: c2) -> found s start c1 fs c2.
Proof.
  intros H. pose proof (core_pos _ _ _ H) as Hp. destruct H as [Hc _ _ _ _ _ _].
  apply Forall_app in Hp as [H1 H2]. apply Forall_cons_1 in H2 as [H2 H3].
  apply chain_app in Hc as [Hs [Hh Hc]]. by split.
Qed.

(** The memory after the block at the split point is taken. *)
Lemma split_chain s start c1 fs c2 need :
  found s start c1 fs c2 -> 0 <= need -> need + DM_OVERHEAD <= fs ->
  let a := start + span c1 in
  let new := a + (DM_OVERHEAD + need) in
  let nx := a + (DM_OVERHEAD + fs) in
  let prev := last_addr (start + span (c1 ++ (fs, true) :: c2)) start c1 in
  let m1 := <[new := mkHdr nx a true pool_ptr]> (memory s) in
  exists h, m1 !! nx = Some h /\
    let m2 := <[nx := set_prev new h]> m1 in
    m2 !! a = Some (mkHdr nx prev true pool_ptr) /\
    let m4 := <[a := mkHdr new prev false pool_ptr]>
      (<[a := mkHdr new prev true pool_ptr]> m2) in
    chain m4 start (start + span (c1 ++ (fs, true) :: c2)) start
      (c1 ++ (need, false) :: (fs - need - DM_OVERHEAD, true) :: c2).
Proof.
  intros [Hseg Hh Hn (Hs1 & Hfs & Hs2)] Hneed Hfit a new nx prev m1.
  assert (Hlt : a < new < nx) by (unfold new, nx, DM_OVERHEAD in *; lia).
  assert (Hn1 : chain m1 start a nx c2) by (apply chain_insert; [done|lia|done]).
  destruct (chain_set_prev m1 start a nx c2 new Hs2 Hn1) as (h & E & Hc2).
  exists h. split; [done|]. intros m2.
  split. { unfold m2, m1. rewrite !lookup_insert_ne by lia. done. }
  intros m4. apply chain_app. fold a.
  replace (last_addr (start + span (c1 ++ (fs, true) :: c2)) start c1) with prev by done.
  split.
  - unfold m4, m2, m1. repeat (apply seg_insert; [done|right; fold a; lia|]). done.
  - cbn [chain]. fold new. replace (new + (DM_OVERHEAD + (fs - need - DM_OVERHEAD))) with nx
      by (unfold new, nx, DM_OVERHEAD; lia).
    split; [unfold m4; by rewrite lookup_insert_eq|].
    split.
    { unfold m4, m2, m1. rewrite 3!lookup_insert_ne by lia. rewrite lookup_insert_eq.
      done. }
    unfold m4. apply chain_insert; [done|lia|]. apply chain_insert; [done|lia|]. done.
Qed.

Lemma whole_chain s start c1 fs c2 :
  found s start c1 fs c2 ->
  let a := start + span c1 in
  chain (<[a := mkHdr (a + (DM_OVERHEAD + fs))
      (last_addr (start + span (c1 ++ (fs, true) :: c2)) start c1) false pool_ptr]> (memory s))
    start (start + span (c1 ++ (fs, true) :: c2)) start (c1 ++ (fs, false) :: c2).
Proof.
  intros [Hseg Hh Hn (Hs1 & Hfs & Hs2)] a. apply chain_app. fold a. split.
  - apply seg_insert; [done|right; unfold a; lia|done].
  - split; [by rewrite lookup_insert_eq|]. apply chain_insert; [done|unfold DM_OVERHEAD; lia|done].
Qed.

(** The bytes a request for [size] takes. *)
Definition needed (s : DMem) (size : Z) : Z :=
  if size <? dm_min_allocation (pcb s) then dm_min_allocation (pcb s) else round_up size.

Lemma needed_spec s start bs size : pool_core s start bs -> 0 <= size < 4294967293 ->
  size <= needed s size /\ dm_min_allocation (pcb s) <= needed s size /\ (4 | needed s size).
Proof.
  intros [_ _ _ _ [Hm Hd] _ _] Hsize. unfold needed.
  destruct (Z.ltb_spec size (dm_min_allocation (pcb s))); [split; [lia|]; split; [lia|done]|].
  destruct (round_up_spec size Hsize) as [? ?]. split; [lia|]. split; [lia|done].
Qed.

Lemma merged_taken min need fs pf c2 :
  merged pf ((fs, true) :: c2) -> merged pf (taken min need fs ++ c2).
Proof.
  intros [Hpf H]. unfold taken. case_match; simpl; (split; [by destruct pf|]).
  - done.
  - by eapply merged_weaken.
Qed.

Lemma sized_taken min need fs : 0 < min -> min <= need -> (4 | need) -> need <= fs ->
  min <= fs /\ (4 | fs) -> Forall (fun b => min <= b.1 /\ (4 | b.1)) (taken min need fs).
Proof.
  intros Hm Hn H4 Hf [? ?]. unfold taken.
  destruct (Z.leb_spec (need + DM_OVERHEAD + min) fs); repeat constructor; simpl; try done; try lia.
  unfold DM_OVERHEAD. apply Z.divide_sub_r; [by apply Z.divide_sub_r|]. by exists 4.
Qed.

(** The control block after a block of [used] bytes at [a] is taken; [next] is
    the block behind it. *)
Definition took (p : DM_PCB) (used a next : Z) : DM_PCB :=
  let p := set_available (dm_available p - used) p in
  if dm_search_ptr p =? a then set_search next p else p.

Lemma took_fields p used a next :
  dm_min_allocation (took p used a next) = dm_min_allocation p /\
  dm_available (took p used a next) = u32 (dm_available p - used) /\
  dm_search_ptr (took p used a next) = if dm_search_ptr p =? a then next else dm_search_ptr p.
Proof. unfold took. simpl. by case_match. Qed.

(** The end of [OS_GetMem]: mark the block, move the search pointer. *)
Lemma GetMem_mark st a h :
  memory st !! a = Some h ->
  (update a (set_free false);;
   h ← header a;
   pool_update (fun p => if dm_search_ptr p =? a then set_search (dm_next_memory h) p else p);;
   mret (u32 (a + DM_OVERHEAD))) st
  = Done (u32 (a + DM_OVERHEAD)) (mkDMem (<[a := set_free false h]> (memory st))
      (if dm_search_ptr (pcb st) =? a then set_search (dm_next_memory h) (pcb st) else pcb st)
      (DMD_Total_Pools st)).
Proof.
  intros E. rewrite (bind_done _ _ _ _ _ (update_done _ _ _ _ E)).
  erewrite bind_done; [|apply header_done; simpl; apply lookup_insert_eq]. done.
Qed.

(** The invariant after a block is replaced by [taken]. *)
Lemma pool_ok_taken s start c1 fs c2 need m' a next tot :
  let min := dm_min_allocation (pcb s) in
  let bs := c1 ++ (fs, true) :: c2 in
  let used := free_bytes bs - free_bytes (c1 ++ taken min need fs ++ c2) in
  pool_ok s start bs -> min <= need -> (4 | need) -> need <= fs -> a = start + span c1 ->
  next = a + span (ztake 1 (taken min need fs)) ->
  chain m' start (start + span bs) start (c1 ++ taken min need fs ++ c2) ->
  pool_ok (mkDMem m' (took (pcb s) used a next) tot) start (c1 ++ taken min need fs ++ c2).
Proof.
  intros min bs used [Hc Hne Hm] Hmin H4 Hfit Ha Hnext Hchain.
  pose proof (core_pos _ _ _ Hc) as Hpos. destruct Hc as [_ [Hst Hmax] Hbig Hsz [Hmin0 Hmin4] Hsp Hav].
  pose proof Hsz as Hsz0. apply Forall_app in Hsz as [Hz1 Hz2].
  apply Forall_cons_1 in Hz2 as [Hz2 Hz3].
  assert (Hszt : Forall (fun b => min <= b.1 /\ (4 | b.1)) (c1 ++ taken min need fs ++ c2)).
  { apply Forall_app. split; [done|]. apply Forall_app. split; [by apply sized_taken|done]. }
  assert (Hpos' : sized (c1 ++ taken min need fs ++ c2)).
  { unfold sized. revert Hszt. apply Forall_impl. simpl. lia. }
  assert (Hspan : span (c1 ++ taken min need fs ++ c2) = span bs).
  { unfold bs. rewrite !span_app, (span_taken min need fs true). simpl. lia. }
  pose proof (free_bytes_bounds _ Hpos'). pose proof (free_bytes_bounds _ Hpos).
  destruct (took_fields (pcb s) used a next) as (E1 & E2 & E3).
  split.
  - split; cbn [memory pcb].
    + by rewrite Hspan.
    + by rewrite Hspan.
    + by rewrite Hspan.
    + by rewrite E1.
    + rewrite E1. done.
    + rewrite E3.
      change (boundary start (c1 ++ taken min need fs ++ c2)
        (if dm_search_ptr (pcb s) =? a then next else dm_search_ptr (pcb s))).
      destruct (Z.eqb_spec (dm_search_ptr (pcb s)) a).
      * rewrite Hnext, Ha, <- Z.add_assoc, <- span_app. generalize (taken min need fs). intros T.
        replace (c1 ++ T ++ c2) with ((c1 ++ ztake 1 T) ++ zdrop 1 T ++ c2); [apply boundary_app|].
        by rewrite <- app_assoc, (app_assoc (ztake 1 T)), ztake_app_zdrop.
      * apply (boundary_replace _ _ (fs, true)); [apply span_taken|exact Hsp].
    + rewrite E2, Hav. replace (free_bytes bs - used) with (free_bytes (c1 ++ taken min need fs ++ c2))
        by (unfold used; lia). apply u32_small. unfold DM_OVERHEAD in *. word_lia.
  - intros E. apply (f_equal span) in E. rewrite Hspan in E. pose proof (span_pos bs Hpos Hne).
    simpl in E. lia.
  - apply merged_app in Hm as [Hm1 Hm2]. apply merged_app. split; [done|]. by apply merged_taken.
Qed.

Lemma OS_GetMem_found s start c1 fs c2 size :
  pool_ok s start (c1 ++ (fs, true) :: c2) -> 0 <= size < 4294967293 ->
  needed s size <= fs ->
  search (S (base.size (memory s))) (needed s size) (dm_search_ptr (pcb s)) (dm_search_ptr (pcb s)) s
    = Done (start + span c1, fs) s ->
  exists s', OS_GetMem size s = Done (start + span c1 + DM_OVERHEAD) s' /\
    pool_ok s' start (c1 ++ taken (dm_min_allocation (pcb s)) (needed s size) fs ++ c2) /\
    dm_min_allocation (pcb s') = dm_min_allocation (pcb s).
Proof.
  intros Hok Hsize Hfit Hsearch. pose proof Hok as [Hc _ _].
  destruct (needed_spec s start _ size Hc Hsize) as (Hn1 & Hn2 & Hn3).
  pose proof (core_found _ _ _ _ _ Hc) as Hfound.
  pose proof Hfound as [_ Hh _ (Hs1 & Hfs & Hs2)].
  destruct Hc as [_ [Hst Hmax] Hbig _ [Hmin _] _ Hav].
  pose proof (span_nonneg _ Hs1). pose proof (span_nonneg _ Hs2).
  assert (Hmax' : start + span c1 + (DM_OVERHEAD + fs) + DM_OVERHEAD < 4294967296).
  { rewrite span_app in Hmax. simpl in Hmax. lia. }
  assert (Hfs31 : fs + DM_OVERHEAD < 2147483648).
  { rewrite span_app in Hbig. simpl in Hbig. lia. }
  unfold OS_GetMem. rewrite (bind_done _ _ _ (pcb s) s) by done.
  rewrite (bind_done _ _ _ (S (base.size (memory s))) s) by done. cbv zeta.
  fold (needed s size). rewrite (bind_done _ _ _ _ _ Hsearch).
  set (need := needed s size) in *. set (min := dm_min_allocation (pcb s)) in *.
  set (a := start + span c1) in *. unfold DM_OVERHEAD in Hmax'.
  destruct (Z.leb_spec need fs); [|lia].
  rewrite (u32_small (need + DM_OVERHEAD + min)) by (unfold DM_OVERHEAD in *; word_lia).
  assert (Ha : u32 (a + DM_OVERHEAD) = a + DM_OVERHEAD).
  { apply u32_small. unfold DM_OVERHEAD. word_lia. }
  destruct (Z.leb_spec (need + DM_OVERHEAD + min) fs) as [Hsplit|Hwhole].
  - pose proof (split_chain s start c1 fs c2 need Hfound ltac:(lia) ltac:(lia)) as Hsc.
    cbv zeta in Hsc. fold a in Hsc. destruct Hsc as (h & Eh & Ea & Hchain).
    assert (Hnew : u32 (a + need + DM_OVERHEAD) = a + (DM_OVERHEAD + need)).
    { rewrite u32_small; [lia|]. unfold DM_OVERHEAD in *. word_lia. }
    rewrite Hnew.
    erewrite bind_done.
    2:{ rewrite (bind_done _ _ _ _ _ (header_done _ _ _ Hh)). cbn [dm_next_memory].
        rewrite (bind_done _ _ _ _ _ (put_done _ _ _)).
        rewrite (bind_done _ _ _ _ _ (update_done (mkDMem _ _ _) _ _ _ Eh)).
        rewrite (bind_done _ _ _ _ _ (update_done (mkDMem _ _ _) _ _ _ Ea)). done. }
    erewrite GetMem_mark by (simpl; apply lookup_insert_eq).
    rewrite Ha. eexists. split; [reflexivity|].
    cbn [memory pcb DMD_Total_Pools set_free set_next dm_next_memory dm_previous_memory dm_memory_pool].
    pose proof (fun m' => pool_ok_taken s start c1 fs c2 need m' a (a + (DM_OVERHEAD + need))
      (DMD_Total_Pools s) Hok Hn2 Hn3 Hfit eq_refl) as Hfin.
    cbv zeta in Hfin. fold min in Hfin. rewrite !free_bytes_app in Hfin.
    unfold taken in *. destruct (Z.leb_spec (need + DM_OVERHEAD + min) fs); [|lia].
    specialize (Hfin _ ltac:(simpl; lia) Hchain). cbn [free_bytes] in Hfin.
    match type of Hfin with context [took _ ?u _ _] =>
      replace u with (need + DM_OVERHEAD) in Hfin by lia end.
    unfold took in Hfin. rewrite Z.sub_add_distr in Hfin. split; [exact Hfin|].
    by case_match.
  - rewrite (bind_done _ _ _ _ _ (pool_update_done _ _)).
    erewrite GetMem_mark by (simpl; exact Hh).
    rewrite Ha. eexists. split; [reflexivity|].
    cbn [memory pcb DMD_Total_Pools set_free dm_next_memory dm_previous_memory dm_memory_pool].
    pose proof (whole_chain s start c1 fs c2 Hfound) as Hchain. cbv zeta in Hchain. fold a in Hchain.
    pose proof (fun m' => pool_ok_taken s start c1 fs c2 need m' a (a + (DM_OVERHEAD + fs))
      (DMD_Total_Pools s) Hok Hn2 Hn3 Hfit eq_refl) as Hfin.
    cbv zeta in Hfin. fold min in Hfin. rewrite !free_bytes_app in Hfin.
    unfold taken in *. destruct (Z.leb_spec (need + DM_OVERHEAD + min) fs); [lia|].
    specialize (Hfin _ ltac:(simpl; lia) Hchain). cbn [free_bytes] in Hfin.
    match type of Hfin with context [took _ ?u _ _] => replace u with fs in Hfin by lia end.
    unfold took in Hfin. split; [exact Hfin|]. by case_match.
Qed.

Lemma OS_GetMem_full s size f :
  search (S (base.size (memory s))) (needed s size) (dm_search_ptr (pcb s)) (dm_search_ptr (pcb s)) s
    = Done (dm_search_ptr (pcb s), f) s -> f < needed s size ->
  OS_GetMem size s = Err OS_ERR_MEM_FULL s.
Proof.
  intros Hs Hf. unfold OS_GetMem. rewrite (bind_done _ _ _ (pcb s) s) by done.
  rewrite (bind_done _ _ _ (S (base.size (memory s))) s) by done. cbv zeta.
  fold (needed s size). rewrite (bind_done _ _ _ _ _ Hs).
  destruct (Z.leb_spec (needed s size) f); [lia|done].
Qed.

(** ** Release *)

(** The block list around one block, with the headers in memory. *)
Lemma core_split s start c1 sz fr c2 :
  pool_core s start (c1 ++ (sz, fr) :: c2) ->
  let tr := start + span (c1 ++ (sz, fr) :: c2) in
  let a := start + span c1 in
  seg (memory s) tr start c1 /\
  memory s !! a = Some (mkHdr (a + (DM_OVERHEAD + sz)) (last_addr tr start c1) fr pool_ptr) /\
  chain (memory s) start a (a + (DM_OVERHEAD + sz)) c2 /\
  sized c1 /\ 0 <= sz /\ sized c2.
Proof.
  intros H. pose proof (core_pos _ _ _ H) as Hp. destruct H as [Hc _ _ _ _ _ _].
  apply Forall_app in Hp as [H1 H2]. apply Forall_cons_1 in H2 as [H2 H3].
  apply chain_app in Hc as [Hs [Hh Hc]]. done.
Qed.

(** Rebuilding the core after the blocks [old] have become the block
    [(sz, true)], which takes the same space. *)
Lemma core_replace s start c1 old sz c2 m' p' tot :
  pool_core s start (c1 ++ old ++ c2) -> span old = DM_OVERHEAD + sz ->
  dm_min_allocation (pcb s) <= sz /\ (4 | sz) ->
  chain m' start (start + span (c1 ++ old ++ c2)) start (c1 ++ (sz, true) :: c2) ->
  dm_min_allocation p' = dm_min_allocation (pcb s) ->
  dm_available p' = u32 (free_bytes (c1 ++ (sz, true) :: c2)) ->
  boundary start (c1 ++ (sz, true) :: c2) (dm_search_ptr p') ->
  pool_core (mkDMem m' p' tot) start (c1 ++ (sz, true) :: c2).
Proof.
  intros Hc Hspan Hsz Hchain Hmin Hav Hb. pose proof (core_pos _ _ _ Hc) as Hpos.
  destruct Hc as [_ [Hst Hmax] Hbig Hsized [Hmin0 Hmin4] _ _].
  assert (E : span (c1 ++ (sz, true) :: c2) = span (c1 ++ old ++ c2)).
  { rewrite !span_app. simpl. lia. }
  unfold sized in Hpos. rewrite !Forall_app in Hpos, Hsized.
  destruct Hpos as (P1 & _ & P2), Hsized as (Z1 & _ & Z2).
  assert (Hp : sized (c1 ++ (sz, true) :: c2)).
  { apply Forall_app. split; [done|]. constructor; [simpl; lia|done]. }
  pose proof (free_bytes_bounds _ Hp).
  split; cbn [memory pcb]; rewrite ?E, ?Hmin; try done.
  - apply Forall_app. split; [done|]. by constructor.
  - rewrite Hav. apply u32_small. unfold DM_OVERHEAD in *. word_lia.
Qed.

Lemma core_member s start c1 sz fr c2 : pool_core s start (c1 ++ (sz, fr) :: c2) ->
  dm_min_allocation (pcb s) <= sz /\ (4 | sz).
Proof.
  intros [_ _ _ H _ _ _]. apply Forall_app in H as [_ H]. by apply Forall_cons_1 in H as [H _].
Qed.

Lemma divide_overhead x y : (4 | x) -> (4 | y) -> (4 | x + DM_OVERHEAD + y).
Proof. intros [a ->] [b ->]. exists (a + 4 + b). unfold DM_OVERHEAD. lia. Qed.

(** What [merge_previous] does to the blocks before the freed one. *)
Definition absorbed (c1 : blocks) (sz : Z) (d1 : blocks) (x : Z) : Prop :=
  (d1 = c1 /\ x = sz /\ last_free false c1 = false) \/
  (exists psz, c1 = d1 ++ [(psz, true)] /\ x = psz + DM_OVERHEAD + sz).

Lemma last_free_snoc pf c sz fr : last_free pf (c ++ [(sz, fr)]) = fr.
Proof. unfold last_free. by rewrite fold_left_app. Qed.

Lemma merge_previous_spec s start c1 sz c2 :
  pool_core s start (c1 ++ (sz, true) :: c2) ->
  exists s' d1 x, merge_previous (start + span c1) s = Done (start + span d1) s' /\
    absorbed c1 sz d1 x /\ pool_core s' start (d1 ++ (x, true) :: c2) /\
    dm_min_allocation (pcb s') = dm_min_allocation (pcb s).
Proof.
  intros Hc. destruct (core_split _ _ _ _ _ _ Hc) as (Hseg & Hh & Hn & Hs1 & Hsz & Hs2).
  set (tr := start + span (c1 ++ (sz, true) :: c2)) in *. set (a := start + span c1) in *.
  unfold merge_previous. rewrite (bind_done _ _ _ _ _ (header_done _ _ _ Hh)).
  cbn [dm_previous_memory dm_next_memory].
  destruct c1 as [|[psz pfr] d1 _] using rev_ind.
  { cbn [last_addr]. unfold tr.
    rewrite (bind_done _ _ _ _ _ (header_done _ _ _ (core_trailer _ _ _ Hc))).
    cbn [dm_memory_free]. exists s, [], sz. split; [done|]. split; [by left|done]. }
  assert (Hd : (d1 ++ [(psz, pfr)]) ++ (sz, true) :: c2 = d1 ++ (psz, pfr) :: (sz, true) :: c2)
    by (by rewrite <- app_assoc).
  pose proof Hc as Hc0. rewrite Hd in Hc0.
  destruct (core_split _ _ _ _ _ _ Hc0) as (Hseg' & Hp & _ & Hs3 & Hpsz & _).
  assert (Hpa : last_addr tr start (d1 ++ [(psz, pfr)]) = start + span d1)
    by (by rewrite last_addr_app).
  rewrite Hpa. rewrite (bind_done _ _ _ _ _ (header_done _ _ _ Hp)). cbn [dm_memory_free].
  destruct pfr.
  2:{ exists s, (d1 ++ [(psz, false)]), sz. split; [done|]. split; [|done].
      left. by rewrite last_free_snoc. }
  set (pa := start + span d1) in *.
  assert (Ha : a = pa + (DM_OVERHEAD + psz)).
  { unfold a, pa. rewrite span_app. simpl. lia. }
  set (nx := a + (DM_OVERHEAD + sz)) in *.
  assert (Hlt : pa < a < nx) by (unfold nx, DM_OVERHEAD in *; lia).
  set (hp := mkHdr nx (last_addr (start + span (d1 ++ (psz, true) :: (sz, true) :: c2)) start d1)
    true pool_ptr).
  assert (Hn1 : chain (<[pa := hp]> (memory s)) start a nx c2) by (apply chain_insert; [done|lia|done]).
  destruct (chain_set_prev _ _ _ _ _ pa Hs2 Hn1) as (h & Eh & Hc2).
  rewrite (bind_done _ _ _ _ _ (pool_update_done _ _)).
  rewrite (bind_done _ _ _ _ _ (update_done (mkDMem _ _ _) _ _ _ Hp)).
  rewrite (bind_done _ _ _ _ _ (update_done (mkDMem _ _ _) _ _ _ Eh)).
  rewrite (bind_done _ _ _ _ _ (pool_update_done _ _)).
  eexists _, d1, (psz + DM_OVERHEAD + sz). split; [reflexivity|].
  split; [right; by exists psz|]. cbn [memory pcb DMD_Total_Pools]. split; [|done].
  destruct (core_member _ _ _ _ _ _ Hc) as [Hm1 Hm2].
  destruct (core_member _ _ _ _ _ _ Hc0) as [Hm3 Hm4].
  apply (core_replace s start d1 [(psz, true); (sz, true)]); try done.
  - simpl. lia.
  - split; [unfold DM_OVERHEAD; lia|]. by apply divide_overhead.
  - apply chain_app. fold pa. cbn [app chain].
    replace (pa + (DM_OVERHEAD + (psz + DM_OVERHEAD + sz))) with nx by (unfold nx; lia).
    split; [|split].
    + apply seg_insert; [done|right; fold pa; lia|]. apply seg_insert; [done|right; fold pa; lia|].
      done.
    + rewrite lookup_insert_ne by lia. rewrite lookup_insert_eq. done.
    + done.
  - cbn [dm_available set_search set_available pcb]. f_equal.
    rewrite (core_avail _ _ _ Hc0), !free_bytes_app. simpl. lia.
  - apply boundary_app.
Qed.

Definition absorbed_next (x : Z) (c2 : blocks) (y : Z) (d2 : blocks) : Prop :=
  (d2 = c2 /\ y = x /\ merged true c2) \/
  (exists nsz, c2 = (nsz, true) :: d2 /\ y = x + DM_OVERHEAD + nsz).

Lemma merge_next_spec s start d1 x c2 :
  pool_core s start (d1 ++ (x, true) :: c2) -> merged false c2 ->
  exists s' y d2, merge_next (start + span d1) s = Done tt s' /\
    absorbed_next x c2 y d2 /\ pool_core s' start (d1 ++ (y, true) :: d2) /\
    dm_min_allocation (pcb s') = dm_min_allocation (pcb s).
Proof.
  intros Hc Hmg. destruct (core_split _ _ _ _ _ _ Hc) as (Hseg & Hh & Hn & Hs1 & Hsz & Hs2).
  set (tr := start + span (d1 ++ (x, true) :: c2)) in *. set (a := start + span d1) in *.
  unfold merge_next. rewrite (bind_done _ _ _ _ _ (header_done _ _ _ Hh)).
  cbn [dm_next_memory]. set (nx := a + (DM_OVERHEAD + x)) in *.
  destruct c2 as [|[nsz [|]] d2].
  { cbn [chain] in Hn. rewrite (bind_done _ _ _ _ _ (header_done _ _ _ Hn)).
    exists s, x, []. split; [done|]. split; [by left|done]. }
  2:{ destruct Hn as [Hn _]. rewrite (bind_done _ _ _ _ _ (header_done _ _ _ Hn)).
      exists s, x, ((nsz, false) :: d2). split; [done|]. split; [left; by destruct Hmg|done]. }
  destruct Hn as [Hnh Hnn]. rewrite (bind_done _ _ _ _ _ (header_done _ _ _ Hnh)).
  cbn [dm_memory_free dm_next_memory]. set (nn := nx + (DM_OVERHEAD + nsz)) in *.
  apply Forall_cons_1 in Hs2 as [Hnsz Hs2]. simpl in Hnsz.
  assert (Hlt : a < nx < nn) by (unfold nn, nx, DM_OVERHEAD; lia).
  destruct (chain_set_prev _ _ _ _ _ a Hs2 Hnn) as (h & Eh & Hc2).
  assert (Ea : <[nn := set_prev a h]> (memory s) !! a = Some (mkHdr nx (last_addr tr start d1) true pool_ptr)).
  { rewrite lookup_insert_ne by lia. done. }
  rewrite (bind_done _ _ _ _ _ (pool_update_done _ _)).
  rewrite (bind_done _ _ _ _ _ (update_done (mkDMem _ _ _) _ _ _ Eh)).
  rewrite (bind_done _ _ _ _ _ (update_done (mkDMem _ _ _) _ _ _ Ea)).
  rewrite pool_update_done. cbn [memory pcb DMD_Total_Pools].
  eexists _, (x + DM_OVERHEAD + nsz), d2. split; [reflexivity|].
  split; [right; by exists nsz|]. split; [|done].
  pose proof Hc as Hc0.
  replace (d1 ++ (x, true) :: (nsz, true) :: d2) with ((d1 ++ [(x, true)]) ++ (nsz, true) :: d2) in Hc0
    by (by rewrite <- app_assoc).
  destruct (core_member _ _ _ _ _ _ Hc) as [Hm1 Hm2].
  destruct (core_member _ _ _ _ _ _ Hc0) as [Hm3 Hm4].
  apply (core_replace s start d1 [(x, true); (nsz, true)]); try done.
  - simpl. lia.
  - split; [unfold DM_OVERHEAD; lia|]. by apply divide_overhead.
  - apply chain_app. fold a. cbn [app chain]. fold tr.
    replace (a + (DM_OVERHEAD + (x + DM_OVERHEAD + nsz))) with nn by (unfold nn, nx; lia).
    split; [|split].
    + apply seg_insert; [done|right; fold a; lia|]. apply seg_insert; [done|right; fold a; lia|].
      done.
    + by rewrite lookup_insert_eq.
    + apply chain_insert; [done|lia|done].
  - cbn [dm_available set_search set_available pcb]. f_equal.
    rewrite (core_avail _ _ _ Hc), !free_bytes_app. simpl. lia.
  - apply boundary_app.
Qed.

(** The list after the block at the split point is released. *)
Definition released (c1 : blocks) (sz : Z) (c2 bs' : blocks) : Prop :=
  exists d1 x y d2, absorbed c1 sz d1 x /\ absorbed_next x c2 y d2 /\ bs' = d1 ++ (y, true) :: d2.

Lemma released_merged c1 sz c2 bs' :
  merged false (c1 ++ (sz, false) :: c2) -> released c1 sz c2 bs' -> merged false bs'.
Proof.
  intros Hm (d1 & x & y & d2 & H1 & H2 & ->). apply merged_app in Hm as [Hm1 Hm2].
  destruct Hm2 as [_ Hm2]. apply merged_app. cbn [merged].
  assert (Hd2 : merged true d2).
  { destruct H2 as [(-> & _ & ?)|(nsz & -> & _)]; [done|]. by destruct Hm2. }
  destruct H1 as [(-> & _ & E)|(psz & -> & _)].
  - rewrite E. done.
  - apply merged_app in Hm1 as [Hm1 [Hl _]]. rewrite Hl. done.
Qed.

(** [OS_FreeMem] of an allocated block succeeds, marks it free and merges it
    with its free neighbours. *)
Lemma OS_FreeMem_spec s start c1 sz c2 :
  pool_ok s start (c1 ++ (sz, false) :: c2) ->
  exists s' bs', OS_FreeMem (start + span c1 + DM_OVERHEAD) s = Done tt s' /\
    released c1 sz c2 bs' /\ pool_ok s' start bs' /\
    dm_min_allocation (pcb s') = dm_min_allocation (pcb s).
Proof.
  intros [Hc Hne Hm]. destruct (core_split _ _ _ _ _ _ Hc) as (Hseg & Hh & Hn & Hs1 & Hsz & Hs2).
  pose proof (core_start _ _ _ Hc) as [Hst Hmax].
  pose proof (span_nonneg _ Hs1). pose proof (span_nonneg _ Hs2).
  rewrite span_app in Hmax. simpl in Hmax. unfold DM_OVERHEAD in Hmax.
  set (a := start + span c1) in *.
  unfold OS_FreeMem. replace (u32 (a + DM_OVERHEAD - DM_OVERHEAD)) with a
    by (rewrite u32_small; [lia|unfold DM_OVERHEAD; word_lia]).
  cbv zeta. rewrite (bind_done _ _ _ _ _ (header_done _ _ _ Hh)). cbn [dm_memory_pool].
  rewrite (bind_done _ _ _ tt s) by (unfold massert; by rewrite Z.eqb_refl).
  rewrite (bind_done _ _ _ _ _ (update_done _ _ _ _ Hh)).
  rewrite (bind_done _ _ _ _ _ (pool_update_done _ _)).
  unfold block_size. cbn [dm_next_memory dm_previous_memory dm_memory_pool set_free memory pcb DMD_Total_Pools].
  replace (u32 (a + (DM_OVERHEAD + sz) - a - DM_OVERHEAD)) with sz
    by (rewrite u32_small; [lia|unfold DM_OVERHEAD; word_lia]).
  match goal with |- context [merge_previous _ ≫= _] => idtac end.
  match goal with |- exists s' bs', (_ ≫= _) ?st = _ /\ _ => set (s1 := st) end.
  assert (Hc1 : pool_core s1 start (c1 ++ (sz, true) :: c2)).
  { apply (core_replace s start c1 [(sz, false)]); try done.
    - simpl. lia.
    - by eapply core_member.
    - apply chain_app. fold a. split; [apply seg_insert; [done|right; fold a; lia|done]|].
      split; [by rewrite lookup_insert_eq|]. apply chain_insert; [done|unfold DM_OVERHEAD; lia|done].
    - cbn [dm_available set_available pcb]. f_equal.
      rewrite (core_avail _ _ _ Hc), !free_bytes_app. simpl. lia.
    - cbn [dm_search_ptr set_available pcb]. destruct (core_search _ _ _ Hc) as (b1 & b2 & E & Hb).
      rewrite Hb. change ((sz, true) :: c2) with ([(sz, true)] ++ c2).
      apply (boundary_replace _ _ (sz, false)); [done|]. rewrite E. apply boundary_app. }
  destruct (merge_previous_spec _ _ _ _ _ Hc1) as (s2 & d1 & x & E2 & Ha & Hc2 & M2).
  rewrite (bind_done _ _ _ _ _ E2).
  assert (Hm2 : merged false c2).
  { apply merged_app in Hm as [_ [_ Hm]]. done. }
  destruct (merge_next_spec _ _ _ _ _ Hc2 Hm2) as (s3 & y & d2 & E3 & Hb & Hc3 & M3).
  exists s3, (d1 ++ (y, true) :: d2). split; [done|].
  assert (Hr : released c1 sz c2 (d1 ++ (y, true) :: d2)) by (by exists d1, x, y, d2).
  split; [done|]. split; [|by rewrite M3, M2].
  split; [done| |by eapply released_merged]. by destruct d1.
Qed.

(** ** Clients *)

(** The allocated blocks: the pointers handed out, with their capacity. *)
Fixpoint used (a : Z) (bs : blocks) : list (Z * Z) :=
  match bs with
  | [] => []
  | (sz, fr) :: bs =>
      (if fr then [] else [(a + DM_OVERHEAD, sz)]) ++ used (a + (DM_OVERHEAD + sz)) bs
  end.

Lemma used_app a b1 b2 : used a (b1 ++ b2) = used a b1 ++ used (a + span b1) b2.
Proof.
  revert a. induction b1 as [|[sz fr] b1 IH]; intros a; simpl.
  - by rewrite Z.add_0_r.
  - rewrite IH, <- app_assoc. do 3 f_equal. lia.
Qed.

(** An allocated block seen from the list of pointers. *)
Lemma used_split bs : forall a u1 p m u2, used a bs = u1 ++ (p, m) :: u2 ->
  exists c1 c2, bs = c1 ++ (m, false) :: c2 /\ p = a + span c1 + DM_OVERHEAD /\
    used a c1 = u1 /\ used (a + span c1 + (DM_OVERHEAD + m)) c2 = u2.
Proof.
  induction bs as [|[sz fr] bs IH]; intros a u1 p m u2 E; simpl in E; [by destruct u1|].
  destruct fr; simpl in E.
  - destruct (IH _ _ _ _ _ E) as (c1 & c2 & -> & -> & E1 & E2).
    exists ((sz, true) :: c1), c2. split; [done|]. split; [simpl; lia|]. split; [done|].
    rewrite <- E2. simpl. f_equal. lia.
  - destruct u1 as [|x u1]; injection E; intros E' Ex.
    + intros Ep. subst. exists [], bs. simpl. rewrite Z.add_0_r. done.
    + destruct (IH _ _ _ _ _ E') as (c1 & c2 & -> & -> & E1 & E2).
      exists ((sz, false) :: c1), c2. split; [done|]. split; [simpl; lia|]. split.
      * simpl. by rewrite E1, <- Ex.
      * rewrite <- E2. simpl. f_equal. lia.
Qed.

(** The regions lie inside the pool, one after the other. *)
Lemma used_sorted bs : forall a, sized bs ->
  Forall (fun r => a + DM_OVERHEAD <= r.1 /\ r.1 + r.2 <= a + span bs /\ 0 <= r.2) (used a bs) /\
  StronglySorted (fun r r' => r.1 + r.2 + DM_OVERHEAD <= r'.1) (used a bs).
Proof.
  induction bs as [|[sz fr] bs IH]; intros a Hs; [split; constructor|].
  apply Forall_cons_1 in Hs as [Hsz Hs]. simpl in Hsz. pose proof (span_nonneg _ Hs).
  destruct (IH (a + (DM_OVERHEAD + sz)) Hs) as [Hf Hss]. cbn [used span].
  assert (Hf' : Forall (fun r => a + DM_OVERHEAD <= r.1 /\
    r.1 + r.2 <= a + (DM_OVERHEAD + sz + span bs) /\ 0 <= r.2) (used (a + (DM_OVERHEAD + sz)) bs)).
  { revert Hf. apply Forall_impl. intros r. unfold DM_OVERHEAD. lia. }
  destruct fr; simpl; [done|]. split.
  - constructor; [simpl; unfold DM_OVERHEAD; lia|done].
  - constructor; [done|]. revert Hf. apply Forall_impl. intros r. simpl. lia.
Qed.

Lemma released_used start c1 sz c2 bs' :
  released c1 sz c2 bs' ->
  used start bs' = used start c1 ++ used (start + span c1 + (DM_OVERHEAD + sz)) c2.
Proof.
  intros (d1 & x & y & d2 & H1 & H2 & ->). rewrite used_app. cbn [used]. simpl.
  assert (E : used start d1 = used start c1 /\
    start + span d1 + (DM_OVERHEAD + x) = start + span c1 + (DM_OVERHEAD + sz)).
  { destruct H1 as [(-> & -> & _)|(psz & -> & ->)]; [done|].
    rewrite used_app, span_app. simpl. rewrite app_nil_r. split; [done|lia]. }
  destruct E as [-> E]. f_equal. rewrite <- E.
  destruct H2 as [(-> & -> & _)|(nsz & -> & ->)]; [done|]. simpl. f_equal. lia.
Qed.

Lemma released_span c1 sz c2 bs' :
  released c1 sz c2 bs' -> span bs' = span c1 + span ((sz, false) :: c2).
Proof.
  intros (d1 & x & y & d2 & H1 & H2 & ->). rewrite span_app. simpl.
  destruct H1 as [(-> & -> & _)|(psz & -> & ->)], H2 as [(-> & -> & _)|(nsz & -> & ->)];
    rewrite ?span_app; simpl; lia.
Qed.

Inductive Op := Malloc (size : Z) | Free (i : nat).

(** One call; the client keeps its live pointers with the requested sizes and
    frees the [i]-th of them.  A null result is not kept. *)
Definition client_step (st : DMem * list (Z * Z)) (op : Op) : option (DMem * list (Z * Z)) :=
  let '(s, live) := st in
  match op with
  | Malloc size =>
      match OSMMalloc size s with
      | Done p s => Some (s, if p =? 0 then live else live ++ [(p, size)])
      | _ => None
      end
  | Free i =>
      match live !! i with
      | None => Some (s, live)
      | Some (p, _) =>
          match OSMFree p s with
          | Done _ s => Some (s, delete i live)
          | _ => None
          end
      end
  end.

Fixpoint client (st : DMem * list (Z * Z)) (ops : list Op) : option (DMem * list (Z * Z)) :=
  match ops with
  | [] => Some st
  | op :: ops => st ← client_step st op; client st ops
  end.

Definition op_ok (op : Op) : Prop :=
  match op with Malloc size => 0 <= size < 4294967293 | Free _ => True end.

(** The live pointers are the allocated blocks, each of the requested size or
    larger. *)
Definition accounts (start : Z) (bs : blocks) (live : list (Z * Z)) : Prop :=
  exists l, live ≡ₚ l /\
    Forall2 (fun r u => r.1 = u.1 /\ 0 <= r.2 <= u.2) l (used start bs).

(** The outcome of a request, in terms of the block list. *)
Lemma OSMMalloc_spec s start bs size :
  pool_ok s start bs -> 0 <= size < 4294967293 ->
  (exists c1 fs c2 s', bs = c1 ++ (fs, true) :: c2 /\ needed s size <= fs /\
    OSMMalloc size s = Done (start + span c1 + DM_OVERHEAD) s' /\
    pool_ok s' start (c1 ++ taken (dm_min_allocation (pcb s)) (needed s size) fs ++ c2)) \/
  (Forall (fun b => ~ fits_in (needed s size) b) bs /\ OSMMalloc size s = Done 0 s).
Proof.
  intros Hok Hsize. pose proof Hok as [Hc Hne _].
  destruct (needed_spec _ _ _ _ Hc Hsize) as (Hn1 & Hn2 & _).
  pose proof (core_min _ _ _ Hc) as [Hmin _].
  destruct (search_spec s start bs (needed s size) Hc Hne ltac:(lia))
    as [(c1 & fs & c2 & -> & Hfs & E)|(Hall & f & Hf & E)].
  - left. destruct (OS_GetMem_found _ _ _ _ _ _ Hok Hsize Hfs E) as (s' & EG & Hok' & _).
    exists c1, fs, c2, s'. unfold OSMMalloc. rewrite EG. done.
  - right. split; [done|]. unfold OSMMalloc. by rewrite (OS_GetMem_full _ _ _ E Hf).
Qed.

Lemma client_step_ok start s bs live op :
  pool_ok s start bs -> accounts start bs live -> op_ok op ->
  exists s' live' bs', client_step (s, live) op = Some (s', live') /\
    pool_ok s' start bs' /\ accounts start bs' live' /\ span bs' = span bs.
Proof.
  intros Hok (l & Hp & Hl) Hop. destruct op as [size|i]; cbn [client_step].
  - destruct (OSMMalloc_spec s start bs size Hok Hop)
      as [(c1 & fs & c2 & s' & -> & Hfs & -> & Hok')|(_ & ->)].
    2:{ exists s, live, bs. split; [done|]. split; [done|]. split; [by exists l|done]. }
    pose proof (core_start _ _ _ (pool_ok_core _ _ _ Hok)) as [Hst _].
    pose proof (core_pos _ _ _ (pool_ok_core _ _ _ Hok)) as Hpos.
    apply Forall_app in Hpos as [Hpos _]. pose proof (span_nonneg _ Hpos).
    destruct (needed_spec _ _ _ _ (pool_ok_core _ _ _ Hok) Hop) as (Hn & _).
    cbn [op_ok] in Hop.
    destruct (Z.eqb_spec (start + span c1 + DM_OVERHEAD) 0); [unfold DM_OVERHEAD in *; lia|].
    eexists s', _, _. split; [done|]. split; [exact Hok'|].
    split; [|rewrite !span_app, (span_taken _ _ _ true); simpl; lia].
    rewrite used_app in Hl. cbn [used] in Hl. simpl in Hl.
    apply Forall2_app_inv_r in Hl as (l1 & l2 & H1 & H2 & ->).
    exists (l1 ++ (start + span c1 + DM_OVERHEAD, size) :: l2). split.
    { rewrite Hp, <- app_assoc. apply Permutation_app_head.
      apply (Permutation_app_comm l2 [_]). }
    rewrite used_app. apply Forall2_app; [done|].
    unfold taken. destruct (Z.leb_spec (needed s size + DM_OVERHEAD + dm_min_allocation (pcb s)) fs); simpl.
    + constructor; [simpl; lia|].
      by replace (start + span c1 + (DM_OVERHEAD + needed s size)
        + (DM_OVERHEAD + (fs - needed s size - DM_OVERHEAD)))
        with (start + span c1 + (DM_OVERHEAD + fs)) by lia.
    + constructor; [simpl; lia|done].
  - destruct (live !! i) as [[p n]|] eqn:Ei.
    2:{ exists s, live, bs. split; [done|]. split; [done|]. split; [by exists l|done]. }
    assert (Hin : (p, n) ∈ l) by (rewrite <- Hp; by eapply list_elem_of_lookup_2).
    apply list_elem_of_split in Hin as (l1 & l2 & ->).
    apply Forall2_app_inv_l in Hl as (u1 & u2' & H1 & H2 & Hu).
    apply Forall2_cons_inv_l in H2 as ([q m] & u2 & [Hq Hn] & H2' & ->). simpl in Hq, Hn. subst q.
    destruct (used_split _ _ _ _ _ _ Hu) as (c1 & c2 & -> & -> & <- & <-).
    destruct (OS_FreeMem_spec _ _ _ _ _ Hok) as (s' & bs' & E & Hr & Hok' & _).
    unfold OSMFree. rewrite E. exists s', (delete i live), bs'. split; [done|]. split; [done|].
    split; [|by rewrite (released_span _ _ _ _ Hr), !span_app].
    exists (l1 ++ l2). split.
    + apply (Permutation_cons_inv (a := (start + span c1 + DM_OVERHEAD, n))).
      rewrite Permutation_middle, <- Hp. symmetry. by apply delete_Permutation.
    + rewrite (released_used _ _ _ _ _ Hr). by apply Forall2_app.
Qed.

Lemma client_ok start ops : forall s bs live,
  pool_ok s start bs -> accounts start bs live -> Forall op_ok ops ->
  exists s' live' bs', client (s, live) ops = Some (s', live') /\
    pool_ok s' start bs' /\ accounts start bs' live' /\ span bs' = span bs.
Proof.
  induction ops as [|op ops IH]; intros s bs live Hok Ha Hops; [eauto 10|].
  apply Forall_cons_1 in Hops as [Hop Hops].
  destruct (client_step_ok start s bs live op Hok Ha Hop) as (s1 & l1 & bs1 & E & Hok1 & Ha1 & Hs1).
  cbn [client]. rewrite E. simpl. rewrite <- Hs1. by eapply IH.
Qed.

(** The initial pool: one free block. *)
Lemma OS_DMemInit_ok s sysemPool :
  0 < sysemPool -> sysemPool + OS_DMEM_POOL_SIZE < 4294967296 ->
  exists s', OS_DMemInit sysemPool s = Done tt s' /\
    pool_ok s' sysemPool [(OS_DMEM_POOL_SIZE - 2 * DM_OVERHEAD, true)].
Proof.
  unfold OS_DMEM_POOL_SIZE. intros H0 Hm.
  assert (Et : u32 (sysemPool + u32 (20480 / 4 * 4 - 2 * DM_OVERHEAD) + DM_OVERHEAD)
    = sysemPool + 20464).
  { change (u32 (20480 / 4 * 4 - 2 * DM_OVERHEAD)) with 20448. unfold DM_OVERHEAD.
    rewrite u32_small by word_lia. lia. }
  unfold OS_DMemInit. rewrite (bind_done _ _ _ tt (mkDMem (memory s) (pcb s) 0)) by done.
  unfold OS_Create_Memory_Pool. cbv zeta. unfold OS_DMEM_POOL_SIZE. rewrite Et.
  eexists. split; [reflexivity|]. cbn [memory pcb DMD_Total_Pools].
  change (20480 - 2 * DM_OVERHEAD) with 20448.
  split; [|done|done]. split; cbn [memory pcb dm_min_allocation dm_available dm_search_ptr set_id].
  - change (span [(20448, true)]) with 20464. cbn [chain].
    change (DM_OVERHEAD + 20448) with 20464. split.
    + rewrite lookup_insert_ne, lookup_insert_eq by lia. done.
    + by rewrite lookup_insert_eq.
  - change (span [(20448, true)]) with 20464. unfold DM_OVERHEAD. lia.
  - by vm_compute.
  - repeat constructor; [by vm_compute|by exists 5112].
  - change (round_up 16) with 16. split; [lia|by exists 4].
  - exists [], [(20448, true)]. simpl. split; [done|lia].
  - by vm_compute.
Qed.

Definition empty_bs : blocks := [(OS_DMEM_POOL_SIZE - 2 * DM_OVERHEAD, true)].

Lemma used_nil_merged bs : forall a pf, sized bs -> merged pf bs -> used a bs = [] ->
  bs = [] \/ exists sz, bs = [(sz, true)].
Proof.
  destruct bs as [|[sz [|]] [|[sz' [|]] bs]]; intros a pf Hs Hm Hu; try (by simplify_eq/=); eauto.
  destruct Hm as (_ & Hm & _). done.
Qed.

(** The regions of the live pointers. *)
Definition regions_ok (start len : Z) (live : list (Z * Z)) : Prop :=
  Forall (fun r => start + DM_OVERHEAD <= r.1 /\ r.1 + r.2 <= start + len /\ 0 <= r.2) live /\
  forall i j r r', i <> j -> live !! i = Some r -> live !! j = Some r' ->
    r.1 + r.2 + DM_OVERHEAD <= r'.1 \/ r'.1 + r'.2 + DM_OVERHEAD <= r.1.

Lemma sorted_pairwise (R : Z * Z -> Z * Z -> Prop) l i j r r' :
  StronglySorted R l -> l !! i = Some r -> l !! j = Some r' -> (i < j)%nat -> R r r'.
Proof.
  intros Hs. revert i j. induction Hs as [|x l Hs IH Hx]; intros i j Hi Hj Hlt; [done|].
  destruct j as [|j]; [lia|]. destruct i as [|i]; simpl in *.
  - simplify_eq. rewrite Forall_lookup in Hx. by eapply Hx.
  - eapply IH; [done..|lia].
Qed.

Lemma accounts_regions s start bs live :
  pool_ok s start bs -> accounts start bs live -> regions_ok start (span bs) live.
Proof.
  intros Hok (l & Hp & Hl). pose proof (core_pos _ _ _ (pool_ok_core _ _ _ Hok)) as Hpos.
  destruct (used_sorted bs start Hpos) as [Hin Hsort].
  assert (HR : forall i r, l !! i = Some r -> exists u, used start bs !! i = Some u /\
    r.1 = u.1 /\ 0 <= r.2 <= u.2).
  { intros i r Hi. destruct (Forall2_lookup_l _ _ _ _ _ Hl Hi) as (u & Hu & ?). eauto. }
  assert (Hl1 : forall i j r r', i <> j -> l !! i = Some r -> l !! j = Some r' ->
    r.1 + r.2 + DM_OVERHEAD <= r'.1 \/ r'.1 + r'.2 + DM_OVERHEAD <= r.1).
  { intros i j r r' Hne Hi Hj. destruct (HR i r Hi) as (u & Hu & E1 & B1).
    destruct (HR j r' Hj) as (u' & Hu' & E2 & B2).
    destruct (Nat.lt_total i j) as [Hlt|[?|Hlt]]; [|done|].
    - pose proof (sorted_pairwise _ _ _ _ _ _ Hsort Hu Hu' Hlt) as H. simpl in H. lia.
    - pose proof (sorted_pairwise _ _ _ _ _ _ Hsort Hu' Hu Hlt) as H. simpl in H. lia. }
  split.
  - rewrite Hp. apply Forall_lookup. intros i r Hi. destruct (HR i r Hi) as (u & Hu & E1 & B1).
    rewrite Forall_lookup in Hin. specialize (Hin _ _ Hu). simpl in Hin. lia.
  - intros i j r r' Hne Hi Hj.
    apply Permutation_inj in Hp as [_ (f & Hf & Hlk)].
    rewrite Hlk in Hi, Hj. eapply Hl1; [|exact Hi|exact Hj]. intros E. by apply Hf in E.
Qed.

Lemma accounts_init a sz : accounts a [(sz, true)] [].
Proof. exists []. simpl. split; constructor. Qed.
End Pool.

(** The pool right after boot, and what a client does with it. *)
Definition boot (pool_ptr sysemPool : Z) (s : DMem) (ops : list Op)
  : option (DMem * list (Z * Z)) :=
  match OS_DMemInit pool_ptr sysemPool s with
  | Done _ s => client pool_ptr (s, []) ops
  | _ => None
  end.

Lemma boot_ok pool_ptr sysemPool s ops :
  0 < sysemPool -> sysemPool + OS_DMEM_POOL_SIZE < 4294967296 -> Forall op_ok ops ->
  exists s' live bs, boot pool_ptr sysemPool s ops = Some (s', live) /\
    pool_ok pool_ptr s' sysemPool bs /\ accounts sysemPool bs live /\
    span bs = OS_DMEM_POOL_SIZE - DM_OVERHEAD.
Proof.
  intros H0 Hm Hops. destruct (OS_DMemInit_ok pool_ptr s sysemPool H0 Hm) as (s1 & E & Hok).
  unfold boot. rewrite E.
  destruct (client_ok pool_ptr sysemPool ops s1 _ [] Hok (accounts_init _ _) Hops)
    as (s' & live & bs & ? & ? & ? & Es). exists s', live, bs. by rewrite Es.
Qed.

(** C9: from boot, whatever a client allocates, in sizes below 2^32 - 3, and
    frees (through pointers it still holds), no call crashes or loops, and the
    live regions lie inside the pool, at least a header apart from one
    another. The sizes left out are those that wrap when they are rounded up
    to words ([OSMMalloc_wraps]). *)
Theorem dmem_safe pool_ptr sysemPool s ops :
  0 < sysemPool -> sysemPool + OS_DMEM_POOL_SIZE < 4294967296 -> Forall op_ok ops ->
  exists s' live, boot pool_ptr sysemPool s ops = Some (s', live) /\
    regions_ok sysemPool (OS_DMEM_POOL_SIZE - DM_OVERHEAD) live.
Proof.
  intros H0 Hm Hops.
  destruct (boot_ok pool_ptr sysemPool s ops H0 Hm Hops) as (s' & live & bs & E & Hok & Ha & Hs).
  exists s', live. split; [done|]. rewrite <- Hs. by eapply accounts_regions.
Qed.

(** An arbitrary memory before boot. *)
Definition before_boot : DMem := mkDMem ∅ (mkPcb 0 [] 0 0 0 0 0 0) 0.

Lemma dmem_safe_witness :
  let ops := [Malloc 100; Malloc 30; Malloc 5000; Free 1%nat; Malloc 7; Free 0%nat; Malloc 40000] in
  exists s' live, boot 536870912 536875008 before_boot ops = Some (s', live) /\
    regions_ok 536875008 20464 live.
Proof.
  intros ops. apply (dmem_safe 536870912 536875008 before_boot ops);
    [lia|by vm_compute|repeat constructor; simpl; lia].
Defined.

(** Nothing leaks and nothing stays fragmented: once a client has freed
    all it holds, in any order, the pool is a single block again and a request
    for all of it is granted. *)
Theorem dmem_no_leak pool_ptr sysemPool s ops s' n :
  0 < sysemPool -> sysemPool + OS_DMEM_POOL_SIZE < 4294967296 -> Forall op_ok ops ->
  boot pool_ptr sysemPool s ops = Some (s', []) ->
  0 <= n <= OS_DMEM_POOL_SIZE - 2 * DM_OVERHEAD ->
  dm_available (pcb s') = OS_DMEM_POOL_SIZE - 2 * DM_OVERHEAD /\
  exists s'', OSMMalloc pool_ptr n s' = Done (sysemPool + DM_OVERHEAD) s''.
Proof.
  intros H0 Hm Hops E Hn. unfold OS_DMEM_POOL_SIZE, DM_OVERHEAD in Hn.
  destruct (boot_ok pool_ptr sysemPool s ops H0 Hm Hops) as (s1 & live & bs & E1 & Hok & Ha & Hs).
  assert (s1 = s' /\ live = []) as [-> ->] by (rewrite E in E1; by simplify_eq).
  destruct Ha as (l & Hp & Hl). apply Permutation_nil_l in Hp. subst l.
  apply Forall2_nil_inv_l in Hl.
  pose proof (core_pos _ _ _ _ (pool_ok_core _ _ _ _ Hok)) as Hpos.
  destruct (used_nil_merged bs sysemPool false Hpos (pool_ok_merged _ _ _ _ Hok) Hl) as [->|(sz & ->)].
  { by destruct (pool_ok_ne _ _ _ _ Hok). }
  assert (sz = 20448) as ->.
  { simpl in Hs. unfold OS_DMEM_POOL_SIZE, DM_OVERHEAD in Hs. lia. }
  split; [apply (core_avail _ _ _ _ (pool_ok_core _ _ _ _ Hok))|].
  pose proof (core_sized _ _ _ _ (pool_ok_core _ _ _ _ Hok)) as Hmin.
  apply Forall_cons_1 in Hmin as [[Hmin _] _]. simpl in Hmin.
  destruct (OSMMalloc_spec pool_ptr s' sysemPool _ n Hok ltac:(lia))
    as [(c1 & fs & c2 & s'' & Ec & _ & E2 & _)|[Hno _]].
  - destruct c1 as [|? [|]]; simplify_eq/=. rewrite Z.add_0_r in E2. eauto.
  - apply Forall_cons_1 in Hno as [[] _]. split; [done|]. simpl. unfold needed.
    destruct (Z.ltb_spec n (dm_min_allocation (pcb s'))); [done|].
    unfold round_up. rewrite !u32_small by (word_lia). word_lia.
Qed.

Lemma dmem_no_leak_witness :
  let ops := [Malloc 100; Malloc 30; Malloc 5000; Free 1%nat; Free 0%nat; Free 0%nat] in
  exists s', boot 536870912 536875008 before_boot ops = Some (s', []) /\
    dm_available (pcb s') = 20448 /\
    exists s'', OSMMalloc 536870912 20448 s' = Done 536875024 s''.
Proof.
  intros ops. eexists. split; [vm_compute; reflexivity|].
  apply (dmem_no_leak 536870912 536875008 before_boot ops _ 20448);
    [lia|by vm_compute|repeat constructor; simpl; lia|by vm_compute|by vm_compute].
Defined.

(** A request is refused only when no free block has room for it, and a
    refusal changes nothing; otherwise the pointer is to a block that was
    free and is at least as large as the request, and the invariant holds
    after the call. *)
Theorem OSMMalloc_complete pool_ptr s start bs size :
  pool_ok pool_ptr s start bs -> 0 <= size < 4294967293 ->
  if bool_decide (Exists (fits_in (needed s size)) bs)
  then exists c1 fs c2 s' bs', bs = c1 ++ (fs, true) :: c2 /\ size <= fs /\
    OSMMalloc pool_ptr size s = Done (start + span c1 + DM_OVERHEAD) s' /\
    pool_ok pool_ptr s' start bs'
  else OSMMalloc pool_ptr size s = Done 0 s.
Proof.
  intros Hok Hsize.
  destruct (needed_spec _ _ _ _ _ (pool_ok_core _ _ _ _ Hok) Hsize) as (Hn & _).
  destruct (OSMMalloc_spec pool_ptr s start bs size Hok Hsize)
    as [(c1 & fs & c2 & s' & -> & Hfs & E & Hok')|[Hno E]].
  - rewrite bool_decide_true.
    + eexists c1, fs, c2, s', _. split; [done|]. split; [lia|]. done.
    + apply Exists_app. right. constructor. by split.
  - rewrite bool_decide_false; [done|]. by apply Forall_Exists_neg.
Qed.

Lemma OSMMalloc_complete_witness :
  exists s, OS_DMemInit 536870912 536875008 before_boot = Done tt s /\
  if bool_decide (Exists (fits_in (needed s 20448)) empty_bs)
  then exists c1 fs c2 s' bs', empty_bs = c1 ++ (fs, true) :: c2 /\ 20448 <= fs /\
    OSMMalloc 536870912 20448 s = Done (536875008 + span c1 + DM_OVERHEAD) s' /\
    pool_ok 536870912 s' 536875008 bs'
  else OSMMalloc 536870912 20448 s = Done 0 s.
Proof.
  destruct (OS_DMemInit_ok 536870912 before_boot 536875008) as (s & E & Hok); [lia|by vm_compute|].
  exists s. split; [exact E|]. apply (OSMMalloc_complete 536870912 s 536875008 empty_bs 20448);
    [exact Hok|lia].
Defined.

(** Rounding a request in the last three bytes below 2^32 wraps to zero;
    when the search pointer stands at an allocated block or at the trailer,
    such a request is "granted" with a pointer to memory that is in use or
    outside the pool. *)
Theorem OSMMalloc_wraps pool_ptr s start bs h size :
  pool_ok pool_ptr s start bs -> 4294967293 <= size < 4294967296 ->
  dm_min_allocation (pcb s) < 2147483648 ->
  memory s !! dm_search_ptr (pcb s) = Some h -> dm_memory_free h = false ->
  exists s', OSMMalloc pool_ptr size s = Done (u32 (dm_search_ptr (pcb s) + DM_OVERHEAD)) s'.
Proof.
  intros [Hc _ _] Hsize Hm31 Hh Hfree. pose proof (core_min _ _ _ _ Hc) as [Hmin _].
  assert (Hr : round_up size = 0).
  { unfold round_up. replace (u32 (size + 3)) with (size - 4294967293).
    - rewrite Z.div_small by lia. done.
    - unfold u32. apply (Z.mod_unique_pos _ _ 1); lia. }
  set (a := dm_search_ptr (pcb s)) in *.
  assert (Hsearch : search (S (base.size (memory s))) 0 a a s = Done (a, 0) s).
  { cbn [search]. rewrite (bind_done _ _ _ _ _ (header_done _ _ _ Hh)). by rewrite Hfree. }
  unfold OSMMalloc, OS_GetMem. rewrite (bind_done _ _ _ (pcb s) s) by done.
  rewrite (bind_done _ _ _ (S (base.size (memory s))) s) by done. cbv zeta. fold a.
  destruct (Z.ltb_spec size (dm_min_allocation (pcb s))); [lia|]. rewrite Hr.
  rewrite (bind_done _ _ _ _ _ Hsearch). change (0 <=? 0) with true. cbv iota.
  rewrite (u32_small (0 + DM_OVERHEAD + dm_min_allocation (pcb s))) by (unfold DM_OVERHEAD; word_lia).
  destruct (Z.leb_spec (0 + DM_OVERHEAD + dm_min_allocation (pcb s)) 0);
    [unfold DM_OVERHEAD in *; lia|].
  rewrite (bind_done _ _ _ _ _ (pool_update_done _ _)).
  erewrite GetMem_mark by (simpl; exact Hh). eauto.
Qed.

(** After the whole pool has been taken the result points behind the pool. *)
Lemma OSMMalloc_wraps_witness :
  exists s live s', boot 536870912 536875008 before_boot [Malloc 20448] = Some (s, live) /\
    OSMMalloc 536870912 4294967295 s = Done (536875008 + OS_DMEM_POOL_SIZE) s'.
Proof.
  destruct (boot_ok 536870912 536875008 before_boot [Malloc 20448])
    as (s & live & bs & E & Hok & _ & _); [lia|by vm_compute|repeat constructor; simpl; lia|].
  assert (Es : boot 536870912 536875008 before_boot [Malloc 20448]
    = Some (s, live)) by exact E.
  exists s, live. vm_compute in E. injection E as <- <-.
  edestruct (OSMMalloc_wraps 536870912 _ 536875008 bs
    (mkHdr 536875008 536875008 false 536870912) 4294967295 Hok) as (s' & R);
    [lia|by vm_compute|vm_compute; reflexivity|reflexivity|].
  exists s'. split; [exact Es|exact R].
Defined.
