(* ===== verification/Dhcp.v ===== *)
(** The DHCP server of [App/DhcpServer/dhcp_server.c]: option parsing, the
    table of eight clients, the per-client state machine, the replies, the
    tick, and starting and stopping.

    The static message buffer [DhcpMsg] is a byte array that keeps what the
    previous datagram or reply left behind the bytes that are overwritten.
    Addresses are the raw 32-bit words, in network order in memory; the CPU is
    little endian.  [pbuf_alloc] is an argument of the handlers that call it:
    whether it succeeds. *)
From stdpp Require Import relations.
From S2P Require Import Prelude.

(** * Constants *)

Definition DHCPS_ERR_SUCCESS : Z := 0.
Definition DHCPS_ERR_LINKDOWN : Z := -1.
Definition DHCPS_ERR_PARAM : Z := -2.
Definition DHCPS_ERR_MEM : Z := -3.
Definition DHCPS_ERR_NOT_BIND : Z := -4.
Definition DHCPS_ERR_NOT_FOUND : Z := -5.
Definition DHCPS_ERR_INACTIVE : Z := -6.

Definition DHCPS_HISTORY_CLIENT_NUM : nat := 8.
Definition DHCP_DEFAULT_LEASE_TIME : Z := 315360000.
Definition DHCP_DEFFAULT_TIMEOUT : Z := 10.
Definition DHCP_HWTYPE_ETHERNET : Z := 1.
Definition DHCP_MAGIC : Z := 1669485411.
Definition DHCP_OP_REQUEST : Z := 1.
Definition DHCP_OP_REPLY : Z := 2.

Definition DHCP_OPTION_ID_PAD : Z := 0.
Definition DHCP_OPTION_ID_SUBNET_MASK : Z := 1.
Definition DHCP_OPTION_ID_DEF_GW : Z := 3.
Definition DHCP_OPTION_ID_DNS_SERVER : Z := 6.
Definition DHCP_OPTION_ID_REQ_IP_ADDR : Z := 50.
Definition DHCP_OPTION_ID_LEASE_TIME : Z := 51.
Definition DHCP_OPTION_ID_MSG_TYPE : Z := 53.
Definition DHCP_OPTION_ID_SERVER_ID : Z := 54.
Definition DHCP_OPTION_ID_END : Z := 255.

Definition DHCP_MSG_DISCOVER : Z := 1.
Definition DHCP_MSG_OFFER : Z := 2.
Definition DHCP_MSG_REQUEST : Z := 3.
Definition DHCP_MSG_DECLINE : Z := 4.
Definition DHCP_MSG_ACK : Z := 5.
Definition DHCP_MSG_NAK : Z := 6.
Definition DHCP_MSG_RELEASE : Z := 7.

(** [sizeof(DHCP_MSG)] and the offsets of its members. *)
Definition sizeof_DHCP_MSG : Z := 548.
Definition off_Op : Z := 0.
Definition off_HType : Z := 1.
Definition off_HLen : Z := 2.
Definition off_Xid : Z := 4.
Definition off_Yiaddr : Z := 16.
Definition off_Siaddr : Z := 20.
Definition off_Chaddr : Z := 28.
Definition off_Magic : Z := 236.
Definition off_Options : Z := 240.

(** * State *)

Inductive DHCP_CLIENT_STATE :=
  | DHCP_CLIENT_STATE_IDLE
  | DHCP_CLIENT_STATE_SELECT
  | DHCP_CLIENT_STATE_REQUEST
  | DHCP_CLIENT_STATE_BIND.

#[export] Instance DHCP_CLIENT_STATE_eq_dec : EqDecision DHCP_CLIENT_STATE.
Proof. solve_decision. Defined.

Record DHCP_CLIENT := mkClient {
  State : DHCP_CLIENT_STATE;
  Timeout : Z;
  IpAddr : Z;
  MacAddr : list Z;
  Lease : Z
}.

Record DHCP_SERVER := mkServer {
  Enable : Z;
  Socket : bool;
  ServerIpAddr : Z;
  StartIpAddr : Z;
  SubnetMask : Z;
  GateWay : Z;
  Dns1 : Z;
  Dns2 : Z;
  LeaseTime : Z;
  Clients : list DHCP_CLIENT
}.

(** The two statics and the datagrams broadcast so far. *)
Record Dhcps := mkDhcps {
  DhcpServer : DHCP_SERVER;
  DhcpMsg : list Z;
  broadcast : list (list Z)
}.

Definition set_state (x : DHCP_CLIENT_STATE) (c : DHCP_CLIENT) : DHCP_CLIENT :=
  mkClient x (Timeout c) (IpAddr c) (MacAddr c) (Lease c).
Definition set_timeout (x : Z) (c : DHCP_CLIENT) : DHCP_CLIENT :=
  mkClient (State c) x (IpAddr c) (MacAddr c) (Lease c).
Definition set_mac (x : list Z) (c : DHCP_CLIENT) : DHCP_CLIENT :=
  mkClient (State c) (Timeout c) (IpAddr c) x (Lease c).
Definition set_lease (x : Z) (c : DHCP_CLIENT) : DHCP_CLIENT :=
  mkClient (State c) (Timeout c) (IpAddr c) (MacAddr c) x.

Definition set_clients (cs : list DHCP_CLIENT) (d : DHCP_SERVER) : DHCP_SERVER :=
  mkServer (Enable d) (Socket d) (ServerIpAddr d) (StartIpAddr d) (SubnetMask d) (GateWay d)
    (Dns1 d) (Dns2 d) (LeaseTime d) cs.

Definition set_enable (x : Z) (d : DHCP_SERVER) : DHCP_SERVER :=
  mkServer x (Socket d) (ServerIpAddr d) (StartIpAddr d) (SubnetMask d) (GateWay d)
    (Dns1 d) (Dns2 d) (LeaseTime d) (Clients d).

Definition clients (s : Dhcps) : list DHCP_CLIENT := Clients (DhcpServer s).
Definition with_clients (cs : list DHCP_CLIENT) (s : Dhcps) : Dhcps :=
  mkDhcps (set_clients cs (DhcpServer s)) (DhcpMsg s) (broadcast s).

Definition zero_mac : list Z := [0; 0; 0; 0; 0; 0].

(** [memcmp(a, b, 6) == 0] *)
Definition mac_eqb (a b : list Z) : bool := bool_decide (a = b).
Definition is_state (x : DHCP_CLIENT_STATE) (c : DHCP_CLIENT) : bool := bool_decide (State c = x).
Definition idle (c : DHCP_CLIENT) : bool := is_state DHCP_CLIENT_STATE_IDLE c.
Definition bound (c : DHCP_CLIENT) : bool := is_state DHCP_CLIENT_STATE_BIND c.

(** * The tick *)

(** [station] is [APGetStationStatus]. *)
Definition tick_client (station : list Z -> Z) (c : DHCP_CLIENT) : DHCP_CLIENT :=
  match State c with
  | DHCP_CLIENT_STATE_REQUEST =>
      if Timeout c =? 0 then c
      else
        let c := set_timeout (u32 (Timeout c - 1)) c in
        if Timeout c =? 0 then set_state DHCP_CLIENT_STATE_IDLE (set_mac zero_mac c) else c
  | DHCP_CLIENT_STATE_BIND =>
      let left c := if station (MacAddr c) =? 0 then set_state DHCP_CLIENT_STATE_IDLE c else c in
      if Lease c =? 0 then left c
      else
        let c := set_lease (u32 (Lease c - 1)) c in
        if Lease c =? 0 then set_state DHCP_CLIENT_STATE_IDLE c else left c
  | _ => c
  end.

Definition _DhcpTickHandle (station : list Z -> Z) (s : Dhcps) : Dhcps :=
  if Enable (DhcpServer s) =? 0 then s
  else with_clients (map (tick_client station) (clients s)) s.

(** * Parsing the options *)

Record Parsed := mkParsed {
  MsgType : Z;
  ReqIpAddr : Z;
  ServerId : Z;
  Ret : Z
}.

(** [p] is the offset of [pDhcpOptions] in the message; [None] is a read
    outside it. *)
Fixpoint ParseDhcpOptions_loop (fuel : nat) (msg : list Z) (p : Z) (r : Parsed)
  : option (option Parsed) :=
  match fuel with
  | O => None
  | S fuel =>
      match ld msg p with
      | None => Some None
      | Some id =>
          if negb (id =? DHCP_OPTION_ID_END) && (p <? sizeof_DHCP_MSG) then
            if id =? DHCP_OPTION_ID_PAD then ParseDhcpOptions_loop fuel msg (p + 1) r
            else
              match ld msg (p + 1) with
              | None => Some None
              | Some Len =>
                  let p := p + 2 in
                  if id =? DHCP_OPTION_ID_MSG_TYPE then
                    match ld msg p with
                    | None => Some None
                    | Some v => ParseDhcpOptions_loop fuel msg (p + Len)
                        (mkParsed v (ReqIpAddr r) (ServerId r) (Z.lor (Ret r) 1))
                    end
                  else if id =? DHCP_OPTION_ID_REQ_IP_ADDR then
                    match fetch msg p 4 with
                    | None => Some None
                    | Some v => ParseDhcpOptions_loop fuel msg (p + Len)
                        (mkParsed (MsgType r) (of_le32 v) (ServerId r) (Z.lor (Ret r) 2))
                    end
                  else if id =? DHCP_OPTION_ID_SERVER_ID then
                    match fetch msg p 4 with
                    | None => Some None
                    | Some v => ParseDhcpOptions_loop fuel msg (p + Len)
                        (mkParsed (MsgType r) (ReqIpAddr r) (of_le32 v) (Z.lor (Ret r) 4))
                    end
                  else ParseDhcpOptions_loop fuel msg (p + Len) r
              end
          else Some (Some r)
      end
  end.

(** The outer [None] is the loop running out of fuel, the inner one a read
    outside the message. *)
Definition _ParseDhcpOptions (msg : list Z) (r : Parsed) : option (option Parsed) :=
  ParseDhcpOptions_loop 310 msg off_Options r.

(** * The client table *)

Record Scan := mkScan {
  pFreeClient : option nat;
  pReqClient : option nat;
  pHistoryClient : option nat;
  pMyHistoryClient : option nat;
  pMyClient : option nat;
  IpUnavailable : bool
}.

Definition scan_init : Scan := mkScan None None None None None false.

(** [if((p == NULL) && cond) p = pClient;] *)
Definition first (p : option nat) (cond : bool) (i : nat) : option nat :=
  match p with None => if cond then Some i else None | Some _ => p end.

(** One turn of the [for] loop of [_ClientTableLookup]. *)
Definition scan_step (mac : list Z) (req : Z) (a : Scan) (i : nat) (c : DHCP_CLIENT) : Scan :=
  if idle c then
    mkScan (first (pFreeClient a) (mac_eqb (MacAddr c) zero_mac) i)
           (first (pReqClient a) (IpAddr c =? req) i)
           (first (pHistoryClient a) (negb (mac_eqb (MacAddr c) zero_mac)) i)
           (first (pMyHistoryClient a) (mac_eqb (MacAddr c) mac) i)
           (pMyClient a) (IpUnavailable a)
  else if mac_eqb (MacAddr c) mac then
    mkScan (pFreeClient a) (pReqClient a) (pHistoryClient a) (pMyHistoryClient a)
           (Some i) (IpUnavailable a)
  else
    mkScan (pFreeClient a) (pReqClient a) (pHistoryClient a) (pMyHistoryClient a)
           (pMyClient a) (if IpAddr c =? req then true else IpUnavailable a).

Definition scan (mac : list Z) (req : Z) (cs : list DHCP_CLIENT) : Scan :=
  fold_left (fun a ic => scan_step mac req a ic.1 ic.2) (imap pair cs) scan_init.

(** [if(p->State != BIND) memset(p->MacAddr, 0, 6); p->State = IDLE;] *)
Definition drop_client (c : DHCP_CLIENT) : DHCP_CLIENT :=
  set_state DHCP_CLIENT_STATE_IDLE (if bound c then c else set_mac zero_mac c).

(** The [switch] on the message type: the clients it changes and the entry it
    returns. *)
Definition choose (server_ip : Z) (a : Scan) (msg_type server_id : Z) (cs : list DHCP_CLIENT)
  : list DHCP_CLIENT * option nat :=
  let to_me := (server_id =? 0) || (server_ip =? server_id) in
  if msg_type =? DHCP_MSG_DISCOVER then
    match pMyClient a with
    | Some my =>
        let cs := alter (set_state DHCP_CLIENT_STATE_IDLE) my cs in
        match pReqClient a with
        | Some req =>
            (alter (fun c => if bound c then c else set_mac zero_mac c) my cs, Some req)
        | None => (cs, Some my)
        end
    | None =>
        (cs,
         match pReqClient a with
         | Some i => Some i
         | None =>
             match pMyHistoryClient a with
             | Some i => Some i
             | None =>
                 match pFreeClient a with
                 | Some i => Some i
                 | None => pHistoryClient a
                 end
             end
         end)
    end
  else if msg_type =? DHCP_MSG_REQUEST then
    match pMyClient a with
    | Some my =>
        if IpUnavailable a then (alter drop_client my cs, None)
        else
          match pReqClient a with
          | Some req => (alter drop_client my cs, if to_me then Some req else None)
          | None => (cs, if to_me then Some my else None)
          end
    | None =>
        (cs, if IpUnavailable a then None else if to_me then pReqClient a else None)
    end
  else if (msg_type =? DHCP_MSG_RELEASE) || (msg_type =? DHCP_MSG_DECLINE) then
    match pMyClient a with
    | Some my => (alter drop_client my cs, None)
    | None => (cs, None)
    end
  else (cs, None).

Definition _ClientTableLookup (mac : list Z) (msg_type req server_id : Z) (s : Dhcps)
  : option nat * Dhcps :=
  let a := scan mac req (clients s) in
  let '(cs, ret) := choose (ServerIpAddr (DhcpServer s)) a msg_type server_id (clients s) in
  let cs := match ret with Some i => alter (set_mac mac) i cs | None => cs end in
  (ret, with_clients cs s).

(** * Replies *)

(** The message buffer, the offset of [Body] and [Len]. *)
Definition Out : Type := list Z * Z * Z.

Definition put_option (bytes : list Z) (o : Out) : option Out :=
  let '(msg, body, len) := o in
  msg ← blit msg body bytes;
  Some (msg, body + zlen bytes, u32 (len + zlen bytes)).

Definition DHCP_SET_OPTION_SUBNET_MASK (mask : Z) : Out -> option Out :=
  put_option ([DHCP_OPTION_ID_SUBNET_MASK; 4] ++ le32 mask).
Definition DHCP_SET_OPTION_GW (gw : Z) : Out -> option Out :=
  put_option ([DHCP_OPTION_ID_DEF_GW; 4] ++ le32 gw).
Definition DHCP_SET_OPTION_DNS (dns : Z) : Out -> option Out :=
  put_option ([DHCP_OPTION_ID_DNS_SERVER; 4] ++ le32 dns).
Definition DHCP_SET_OPTION_SERVER_ID (ip : Z) : Out -> option Out :=
  put_option ([DHCP_OPTION_ID_SERVER_ID; 4] ++ le32 ip).
Definition DHCP_SET_OPTION_MSG_TYPE (type : Z) : Out -> option Out :=
  put_option [DHCP_OPTION_ID_MSG_TYPE; 1; type].
Definition DHCP_SET_OPTION_LEASE_TIME (time : Z) : Out -> option Out :=
  put_option ([DHCP_OPTION_ID_LEASE_TIME; 4] ++ le32 (htonl time)).
Definition DHCP_SET_OPTION_END : Out -> option Out :=
  put_option [DHCP_OPTION_ID_END].

(** The header common to the replies, on the zeroed buffer. *)
Definition reply_header (mac : list Z) (Xid Yiaddr Siaddr : Z) : option (list Z) :=
  msg ← blit (replicate (Z.to_nat sizeof_DHCP_MSG) 0) off_Op [DHCP_OP_REPLY];
  msg ← blit msg off_HType [DHCP_HWTYPE_ETHERNET];
  msg ← blit msg off_HLen [6];
  msg ← blit msg off_Xid (le32 (htonl Xid));
  msg ← blit msg off_Yiaddr (le32 Yiaddr);
  msg ← blit msg off_Siaddr (le32 Siaddr);
  mac ← fetch mac 0 6;
  msg ← blit msg off_Chaddr mac;
  blit msg off_Magic (le32 (htonl DHCP_MAGIC)).

(** [pbuf_take], [pbuf_realloc] and [udp_sendto]: the first [Len] bytes go out.
    Without a packet buffer nothing happens at all. *)
Definition send_reply (pbuf : bool) (build : DHCP_SERVER -> option Out) : M Dhcps unit :=
  fun s =>
    if pbuf then
      match build (DhcpServer s) with
      | None => Crash
      | Some (msg, _, len) =>
          Done tt (mkDhcps (DhcpServer s) msg (broadcast s ++ [ztake len msg]))
      end
    else Done tt s.

Definition _DHCPNakGenAndSend (pbuf : bool) (mac : list Z) (Xid : Z) : M Dhcps unit :=
  send_reply pbuf (fun d =>
    msg ← reply_header mac Xid 0 (ServerIpAddr d);
    o ← DHCP_SET_OPTION_MSG_TYPE DHCP_MSG_NAK (msg, off_Options, 240);
    DHCP_SET_OPTION_END o).

(** The options of an offer and an acknowledgement. *)
Definition lease_options (type : Z) (d : DHCP_SERVER) (o : Out) : option Out :=
  o ← DHCP_SET_OPTION_MSG_TYPE type o;
  o ← DHCP_SET_OPTION_LEASE_TIME DHCP_DEFAULT_LEASE_TIME o;
  o ← DHCP_SET_OPTION_SERVER_ID (ServerIpAddr d) o;
  o ← DHCP_SET_OPTION_SUBNET_MASK (SubnetMask d) o;
  o ← DHCP_SET_OPTION_GW (GateWay d) o;
  o ← DHCP_SET_OPTION_DNS (Dns1 d) o;
  DHCP_SET_OPTION_END o.

Definition _DHCPAckGenAndSend (pbuf : bool) (c : DHCP_CLIENT) (mac : list Z) (Xid : Z)
  : M Dhcps unit :=
  send_reply pbuf (fun d =>
    msg ← reply_header mac Xid (IpAddr c) 0;
    lease_options DHCP_MSG_ACK d (msg, off_Options, 240)).

Definition _DHCPOfferGenAndSend (pbuf : bool) (c : DHCP_CLIENT) (mac : list Z) (Xid : Z)
  : M Dhcps unit :=
  send_reply pbuf (fun d =>
    msg ← reply_header mac Xid (IpAddr c) 0;
    lease_options DHCP_MSG_OFFER d (msg, off_Options, 240)).

(** * The client state machine *)

Definition _CleanClientHistory (mac : list Z) : M Dhcps unit :=
  modify (fun s => with_clients
    (map (fun c => if idle c && mac_eqb (MacAddr c) mac then set_mac zero_mac c else c)
      (clients s)) s).

(** Access through the client pointer. *)
Definition client_at (i : nat) : M Dhcps DHCP_CLIENT := access (fun s => clients s !! i).
Definition client_update (i : nat) (f : DHCP_CLIENT -> DHCP_CLIENT) : M Dhcps unit :=
  modify (fun s => with_clients (alter f i (clients s)) s).

(** The acknowledging part of the [REQUEST], [BIND] and [IDLE] cases. *)
Definition acknowledge (pbuf : bool) (i : nat) (Xid : Z) : M Dhcps unit :=
  c ← client_at i;
  _DHCPAckGenAndSend pbuf c (MacAddr c) Xid;;
  client_update i (set_lease DHCP_DEFAULT_LEASE_TIME);;
  client_update i (set_state DHCP_CLIENT_STATE_BIND);;
  _CleanClientHistory (MacAddr c).

(** The [SELECT] case. *)
Definition offer (pbuf : bool) (i : nat) (Xid : Z) : M Dhcps unit :=
  c ← client_at i;
  _DHCPOfferGenAndSend pbuf c (MacAddr c) Xid;;
  client_update i (set_timeout DHCP_DEFFAULT_TIMEOUT);;
  client_update i (set_state DHCP_CLIENT_STATE_REQUEST).

Definition _DhcpClientSMEHandle (pbuf : bool) (i : nat) (msg_type Xid : Z) : M Dhcps unit :=
  c ← client_at i;
  match State c with
  | DHCP_CLIENT_STATE_IDLE =>
      if msg_type =? DHCP_MSG_DISCOVER then
        client_update i (set_state DHCP_CLIENT_STATE_SELECT);; offer pbuf i Xid
      else if msg_type =? DHCP_MSG_REQUEST then acknowledge pbuf i Xid
      else offer pbuf i Xid
  | DHCP_CLIENT_STATE_SELECT => offer pbuf i Xid
  | DHCP_CLIENT_STATE_REQUEST | DHCP_CLIENT_STATE_BIND => acknowledge pbuf i Xid
  end.

(** * Receiving *)

(** [pbuf_copy_partial(P, msg, sizeof(DHCP_MSG), 0)]: the bytes behind the
    datagram keep what the buffer held. *)
Definition copy_message (P : list Z) (msg : list Z) : option (list Z) :=
  blit msg 0 (ztake sizeof_DHCP_MSG P).

(** The part of [DHCPS_RecvCb] after the message has been taken apart. *)
Definition serve_client (pbuf : bool) (r : Parsed) (Xid : Z) (mac : list Z) : M Dhcps unit :=
  pClient ← (fun s => let '(p, s) := _ClientTableLookup mac (MsgType r) (ReqIpAddr r) (ServerId r) s in
             Done p s);
  match pClient with
  | None =>
      if negb (MsgType r =? DHCP_MSG_RELEASE) && negb (MsgType r =? DHCP_MSG_DECLINE)
      then _DHCPNakGenAndSend pbuf mac Xid
      else mret tt
  | Some i => _DhcpClientSMEHandle pbuf i (MsgType r) Xid
  end.

Definition serve (pbuf : bool) (r : Parsed) : M Dhcps unit :=
  Xid ← access (fun s => ntohl ∘ of_le32 <$> fetch (DhcpMsg s) off_Xid 4);
  mac ← access (fun s => fetch (DhcpMsg s) off_Chaddr 6);
  serve_client pbuf r Xid mac.

(** [P] is the datagram; a parse that leaves the message is a [Crash]. *)
Definition DHCPS_RecvCb (pbuf : bool) (P : list Z) : M Dhcps unit :=
  msg ← access (fun s => copy_message P (DhcpMsg s));
  modify (fun s => mkDhcps (DhcpServer s) msg (broadcast s));;
  op ← access (fun s => ld (DhcpMsg s) off_Op);
  magic ← access (fun s => ntohl ∘ of_le32 <$> fetch (DhcpMsg s) off_Magic 4);
  htype ← access (fun s => ld (DhcpMsg s) off_HType);
  if (zlen P =? 0) || negb (op =? DHCP_OP_REQUEST) || negb (magic =? DHCP_MAGIC)
     || negb (htype =? DHCP_HWTYPE_ETHERNET)
  then mret tt
  else
    r ← access (fun s => mjoin (_ParseDhcpOptions (DhcpMsg s) (mkParsed 255 0 0 0)));
    if Z.land (Ret r) 1 =? 0 then mret tt else serve pbuf r.

(** * Deleting, starting, stopping *)

Fixpoint ClientDelete_loop (mac : list Z) (i : nat) (cs : list DHCP_CLIENT) : Z * option nat :=
  match cs with
  | [] => (DHCPS_ERR_NOT_FOUND, None)
  | c :: cs =>
      if negb (idle c) && mac_eqb (MacAddr c) mac then
        if negb (bound c) then (DHCPS_ERR_NOT_BIND, None) else (DHCPS_ERR_SUCCESS, Some i)
      else ClientDelete_loop mac (S i) cs
  end.

(** [None] is the null pointer. *)
Definition DHCPS_ClientDelete (mac : option (list Z)) (s : Dhcps) : Z * Dhcps :=
  if Enable (DhcpServer s) =? 0 then (DHCPS_ERR_INACTIVE, s)
  else match mac with
       | None => (DHCPS_ERR_PARAM, s)
       | Some mac =>
           match ClientDelete_loop mac 0 (clients s) with
           | (code, Some i) =>
               (code, with_clients (alter (set_state DHCP_CLIENT_STATE_IDLE) i (clients s)) s)
           | (code, None) => (code, s)
           end
       end.

(** [((tmp + k) % (~Mask)) ? ((tmp + k) % (~Mask)) : 1]; there is no
    remainder by zero. *)
Definition host_after (tmp k mask : Z) : option Z :=
  let m := Z.lxor mask 4294967295 in
  if m =? 0 then None
  else let r := u32 (tmp + k) mod m in Some (if r =? 0 then 1 else r).

(** The pool address [k] hosts after [val], all in host order. *)
Definition pool_addr (val k mask : Z) : option Z :=
  host ← host_after (Z.land val (Z.lxor mask 4294967295)) k mask;
  Some (Z.lor (Z.land val mask) host).

Definition empty_client : DHCP_CLIENT :=
  mkClient DHCP_CLIENT_STATE_IDLE 0 0 zero_mac 0.
Definition empty_server : DHCP_SERVER :=
  mkServer 0 false 0 0 0 0 0 0 0 (replicate DHCPS_HISTORY_CLIENT_NUM empty_client).

Definition init_client (start mask : Z) (i : nat) : option DHCP_CLIENT :=
  addr ← pool_addr start (Z.of_nat i) mask;
  Some (mkClient DHCP_CLIENT_STATE_IDLE 0 (htonl addr) zero_mac DHCP_DEFAULT_LEASE_TIME).

Definition set_server (d : DHCP_SERVER) (s : Dhcps) : Dhcps :=
  mkDhcps d (DhcpMsg s) (broadcast s).

(** [ip] and [mask] are the interface's, in network order; [up] is
    [netif_is_up], [udp] whether [udp_new] succeeds. *)
Definition DHCPS_Start (up udp : bool) (ip mask : Z) : M Dhcps Z :=
  if negb up then mret DHCPS_ERR_LINKDOWN
  else
    start ← access (fun _ => pool_addr (ntohl ip) 1 (ntohl mask));
    cs ← access (fun _ => mapM (init_client (ntohl (htonl start)) (ntohl mask))
                            (seq 0 DHCPS_HISTORY_CLIENT_NUM));
    modify (set_server (mkServer 0 udp ip (htonl start) mask ip ip 0 DHCP_DEFAULT_LEASE_TIME cs));;
    if negb udp then mret DHCPS_ERR_MEM
    else
      modify (fun s => set_server (set_enable 1 (DhcpServer s)) s);;
      mret DHCPS_ERR_SUCCESS.

Definition DHCPS_Stop (s : Dhcps) : Dhcps :=
  mkDhcps empty_server (DhcpMsg s) (broadcast s).

(** * The scan of the table *)

Definition active (c : DHCP_CLIENT) : Prop := State c <> DHCP_CLIENT_STATE_IDLE.

Lemma idle_spec c : idle c = true <-> State c = DHCP_CLIENT_STATE_IDLE.
Proof. unfold idle, is_state. apply bool_decide_eq_true. Qed.

Lemma not_idle c : idle c = false <-> active c.
Proof. unfold idle, is_state, active. apply bool_decide_eq_false. Qed.

Lemma bound_spec c : bound c = true <-> State c = DHCP_CLIENT_STATE_BIND.
Proof. unfold bound, is_state. apply bool_decide_eq_true. Qed.

Lemma mac_eqb_spec a b : mac_eqb a b = true <-> a = b.
Proof. unfold mac_eqb. apply bool_decide_eq_true. Qed.

(** A pointer found in [cs]: the entry it names satisfies [P], or no entry
    does. *)
Definition points (P : DHCP_CLIENT -> Prop) (cs : list DHCP_CLIENT) (p : option nat) : Prop :=
  match p with
  | Some i => exists c, cs !! i = Some c /\ P c
  | None => Forall (fun c => ~ P c) cs
  end.

Record scanned (mac : list Z) (req : Z) (cs : list DHCP_CLIENT) (a : Scan) : Prop := {
  sc_free : points (fun c => idle c = true /\ MacAddr c = zero_mac) cs (pFreeClient a);
  sc_req : points (fun c => idle c = true /\ IpAddr c = req) cs (pReqClient a);
  sc_hist : points (fun c => idle c = true /\ MacAddr c <> zero_mac) cs (pHistoryClient a);
  sc_myhist : points (fun c => idle c = true /\ MacAddr c = mac) cs (pMyHistoryClient a);
  sc_my : points (fun c => idle c = false /\ MacAddr c = mac) cs (pMyClient a);
  sc_unavail : IpUnavailable a = true <->
    Exists (fun c => idle c = false /\ MacAddr c <> mac /\ IpAddr c = req) cs
}.

Lemma points_first P cs p b c :
  (b = true <-> P c) -> points P cs p -> points P (cs ++ [c]) (first p b (length cs)).
Proof.
  intros Hb. destruct p as [i|]; simpl.
  - intros (x & Hx & HP). exists x. split; [|done]. by apply lookup_app_l_Some.
  - intros Hf. destruct b; simpl.
    + exists c. split; [|by apply Hb]. by rewrite lookup_app_r, Nat.sub_diag by lia.
    + apply Forall_app. split; [done|]. constructor; [|done]. intros HP. by apply Hb in HP.
Qed.

(** The entry does not satisfy [P]: nothing changes. *)
Lemma points_skip P cs p c : ~ P c -> points P cs p -> points P (cs ++ [c]) p.
Proof.
  intros HP. destruct p as [i|]; simpl.
  - intros (x & Hx & H). exists x. split; [|done]. by apply lookup_app_l_Some.
  - intros Hf. apply Forall_app. split; [done|]. by repeat constructor.
Qed.

Lemma scan_snoc mac req cs c :
  scan mac req (cs ++ [c]) = scan_step mac req (scan mac req cs) (length cs) c.
Proof.
  unfold scan. rewrite imap_app, fold_left_app. simpl. by rewrite Nat.add_0_r.
Qed.

Lemma scan_spec mac req cs : scanned mac req cs (scan mac req cs).
Proof.
  induction cs as [|c cs IH] using rev_ind.
  { split; simpl; try constructor; try done. intros H. by inversion H. }
  rewrite scan_snoc. destruct IH as [H1 H2 H3 H4 H5 H6]. unfold scan_step.
  destruct (idle c) eqn:Ei.
  - split; simpl.
    + apply points_first; [|done]. rewrite mac_eqb_spec. split; [by intros|by intros []].
    + apply points_first; [|done]. rewrite Z.eqb_eq. split; [by intros|by intros []].
    + apply points_first; [|done]. rewrite negb_true_iff. rewrite <- not_true_iff_false, mac_eqb_spec.
      split; [by intros|by intros []].
    + apply points_first; [|done]. rewrite mac_eqb_spec. split; [by intros|by intros []].
    + apply points_skip; [|done]. intros [? _]. congruence.
    + rewrite H6, Exists_app. split; [by left|]. intros [?|H]; [done|].
      apply Exists_cons in H as [(? & _)|H]; [congruence|by inversion H].
  - destruct (mac_eqb (MacAddr c) mac) eqn:Em.
    + split; simpl; try (apply points_skip; [|done]; intros [? _]; congruence).
      * exists c. split; [by rewrite lookup_app_r, Nat.sub_diag by lia|].
        by apply mac_eqb_spec in Em.
      * rewrite H6, Exists_app. split; [by left|]. intros [?|H]; [done|].
        apply mac_eqb_spec in Em.
        apply Exists_cons in H as [(_ & ? & _)|H]; [congruence|by inversion H].
    + assert (Hne : MacAddr c <> mac) by (intros E; apply mac_eqb_spec in E; congruence).
      split; simpl; try (apply points_skip; [|done]; intros [? ?]; congruence).
      rewrite Exists_app, Exists_cons. destruct (Z.eqb_spec (IpAddr c) req).
      * split; [intros _; right; by left|done].
      * rewrite H6. split; [by left|]. intros [?|[(_ & _ & ?)|H]]; [done|done|by inversion H].
Qed.

(** * Which entries an operation may change *)

(** No hardware address is active in two entries. *)
Definition unique (cs : list DHCP_CLIENT) : Prop :=
  forall i j ci cj, cs !! i = Some ci -> cs !! j = Some cj ->
    active ci -> active cj -> MacAddr ci = MacAddr cj -> i = j.

(** Addresses stay, and an entry that is active afterwards is unchanged. *)
Definition demotes (cs cs' : list DHCP_CLIENT) : Prop :=
  map IpAddr cs' = map IpAddr cs /\
  forall k c', cs' !! k = Some c' -> active c' -> cs !! k = Some c'.

Lemma demotes_refl cs : demotes cs cs.
Proof. done. Qed.

Lemma demotes_trans c1 c2 c3 : demotes c1 c2 -> demotes c2 c3 -> demotes c1 c3.
Proof. intros [E1 H1] [E2 H2]. split; [by rewrite E2|]. intros k c Hk Ha. apply H1; [by apply H2|done]. Qed.

Lemma unique_demotes cs cs' : demotes cs cs' -> unique cs -> unique cs'.
Proof. intros [_ H] Hu i j ci cj Hi Hj Ai Aj. apply (Hu i j); auto. Qed.

Lemma map_alter_ip f i cs : (forall c, IpAddr (f c) = IpAddr c) ->
  map IpAddr (alter f i cs) = map IpAddr cs.
Proof.
  intros Hf. apply list_eq. intros k. rewrite !list_lookup_fmap.
  destruct (decide (i = k)) as [->|].
  - rewrite list_lookup_alter_eq. destruct (cs !! k); simpl; [by rewrite Hf|done].
  - by rewrite list_lookup_alter_ne.
Qed.

Lemma alter_Some (f : DHCP_CLIENT -> DHCP_CLIENT) (i : nat) (cs : list DHCP_CLIENT) k c' :
  alter f i cs !! k = Some c' ->
  (k <> i /\ cs !! k = Some c') \/ (k = i /\ exists c, cs !! i = Some c /\ c' = f c).
Proof.
  destruct (decide (i = k)) as [->|].
  - rewrite list_lookup_alter_eq, fmap_Some. right. eauto.
  - rewrite list_lookup_alter_ne by done. auto.
Qed.

Lemma demotes_alter f i cs :
  (forall c, IpAddr (f c) = IpAddr c /\ (~ active (f c) \/ f c = c)) ->
  demotes cs (alter f i cs).
Proof.
  intros Hf. split; [apply map_alter_ip; apply Hf|]. intros k c' Hk Ha.
  apply alter_Some in Hk as [[_ ?]|(-> & c & Hc & ->)]; [done|].
  destruct (Hf c) as [_ [?|E]]; [done|]. by rewrite E.
Qed.

Lemma demotes_map f cs :
  (forall c, IpAddr (f c) = IpAddr c /\ (~ active (f c) \/ f c = c)) ->
  demotes cs (map f cs).
Proof.
  intros Hf. split.
  - rewrite map_map. apply map_ext. apply Hf.
  - intros k c' Hk Ha. rewrite list_lookup_fmap, fmap_Some in Hk.
    destruct Hk as (c & Hc & ->). destruct (Hf c) as [_ [?|E]]; [done|]. by rewrite E.
Qed.

Lemma idle_not_active c : State c = DHCP_CLIENT_STATE_IDLE -> ~ active c.
Proof. intros E H. by apply H. Qed.

Lemma demotes_drop i cs : demotes cs (alter drop_client i cs).
Proof.
  apply demotes_alter. intros c. split; [unfold drop_client; by case_match|].
  left. by apply idle_not_active.
Qed.

(** [mac] is not active in any entry but [i]. *)
Definition only_at (mac : list Z) (i : nat) (cs : list DHCP_CLIENT) : Prop :=
  forall k c, cs !! k = Some c -> active c -> MacAddr c = mac -> k = i.

Lemma only_at_demotes mac i cs cs' : demotes cs cs' -> only_at mac i cs -> only_at mac i cs'.
Proof. intros [_ H] Ho k c Hk Ha E. apply (Ho k c); auto. Qed.

Lemma unique_only_at cs i c : unique cs -> cs !! i = Some c -> active c -> only_at (MacAddr c) i cs.
Proof. intros Hu Hi Ha k c' Hk Ha' E. by apply (Hu k i c' c). Qed.

(** When [mac] is active only in [my] and [my] is made idle, it is active
    nowhere. *)
Lemma only_at_any mac my f cs i :
  only_at mac my cs -> (forall c, ~ active (f c)) -> only_at mac i (alter f my cs).
Proof.
  intros Ho Hf k c Hk Ha E. apply alter_Some in Hk as [[Hne Hk]|(_ & c0 & _ & ->)].
  - by destruct Hne; eapply Ho.
  - by destruct (Hf c0).
Qed.

Lemma scanned_my_none mac req cs a i :
  scanned mac req cs a -> pMyClient a = None -> only_at mac i cs.
Proof.
  intros [_ _ _ _ Hmy _] E. rewrite E in Hmy. intros k c Hk Ha Em. exfalso.
  simpl in Hmy. rewrite Forall_lookup in Hmy. apply (Hmy k c Hk). by rewrite not_idle.
Qed.

Lemma scanned_my_some mac req cs a my :
  scanned mac req cs a -> pMyClient a = Some my -> unique cs -> only_at mac my cs.
Proof.
  intros [_ _ _ _ Hmy _] E Hu. rewrite E in Hmy. destruct Hmy as (c & Hc & Hi & <-).
  apply not_idle in Hi. by eapply unique_only_at.
Qed.

(** What every branch of the table lookup guarantees. *)
Lemma choose_spec mac req cs a server_ip msg_type server_id cs' r :
  scanned mac req cs a -> unique cs ->
  choose server_ip a msg_type server_id cs = (cs', r) ->
  demotes cs cs' /\ (forall i, r = Some i -> only_at mac i cs').
Proof.
  intros Hs Hu. unfold choose. set (to_me := (server_id =? 0) || (server_ip =? server_id)).
  assert (Hkeep : forall p, pMyClient a = None -> forall i, p = Some i -> only_at mac i cs).
  { intros p E i _. by eapply scanned_my_none. }
  pose proof (fun my => scanned_my_some mac req cs a my Hs) as Hmy.
  assert (Hdrop : forall c, ~ active (drop_client c)) by (intros c; by apply idle_not_active).
  destruct (msg_type =? DHCP_MSG_DISCOVER).
  { destruct (pMyClient a) as [my|] eqn:Em.
    - specialize (Hmy my eq_refl Hu).
      assert (D1 : demotes cs (alter (set_state DHCP_CLIENT_STATE_IDLE) my cs)).
      { apply demotes_alter. intros c. split; [done|]. left. by apply idle_not_active. }
      assert (O1 : forall i, only_at mac i (alter (set_state DHCP_CLIENT_STATE_IDLE) my cs)).
      { intros i. eapply only_at_any; [done|]. intros c. by apply idle_not_active. }
      destruct (pReqClient a) as [q|]; intros [= <- <-].
      + assert (D2 : forall cs, demotes cs (alter (set_state DHCP_CLIENT_STATE_IDLE) my cs) ->
          demotes (alter (set_state DHCP_CLIENT_STATE_IDLE) my cs)
            (alter (fun c => if bound c then c else set_mac zero_mac c) my
              (alter (set_state DHCP_CLIENT_STATE_IDLE) my cs))).
        { intros cs0 _. split.
          - apply map_alter_ip. intros c. by case_match.
          - intros k c' Hk Ha. apply alter_Some in Hk as [[_ ?]|(-> & c & Hc & ->)]; [done|].
            apply alter_Some in Hc as [[? _]|(_ & c0 & _ & ->)]; [done|].
            exfalso. revert Ha. by destruct (bound _). }
        specialize (D2 cs D1). split; [by eapply demotes_trans|].
        intros i _. by eapply only_at_demotes.
      + split; [done|]. intros i _. apply O1.
    - intros [= <- <-]. split; [done|]. by eapply Hkeep. }
  destruct (msg_type =? DHCP_MSG_REQUEST).
  { destruct (pMyClient a) as [my|] eqn:Em.
    - specialize (Hmy my eq_refl Hu).
      destruct (IpUnavailable a); [intros [= <- <-]; split; [apply demotes_drop|done]|].
      destruct (pReqClient a) as [q|]; intros [= <- <-].
      + split; [apply demotes_drop|]. intros i _. by eapply only_at_any.
      + split; [done|]. intros i Hi. destruct to_me; by simplify_eq.
    - intros [= <- <-]. split; [done|]. by eapply Hkeep. }
  destruct ((msg_type =? DHCP_MSG_RELEASE) || (msg_type =? DHCP_MSG_DECLINE)).
  - destruct (pMyClient a); intros [= <- <-]; (split; [|done]); [apply demotes_drop|done].
  - by intros [= <- <-].
Qed.

(** * The invariant *)

(** [pool]: the addresses of the entries, fixed when the server starts. *)
Definition table_ok (pool : list Z) (s : Dhcps) : Prop :=
  unique (clients s) /\ map IpAddr (clients s) = pool.

(** The same, with entry [i] ready to become active. *)
Definition table_for (pool : list Z) (i : nat) (s : Dhcps) : Prop :=
  table_ok pool s /\ forall c, clients s !! i = Some c -> only_at (MacAddr c) i (clients s).

Lemma clients_with cs s : clients (with_clients cs s) = cs.
Proof. done. Qed.

Lemma table_demotes pool s cs : demotes (clients s) cs -> table_ok pool s ->
  table_ok pool (with_clients cs s).
Proof.
  intros Hd [Hu Hp]. split; [by eapply unique_demotes|]. rewrite <- Hp. apply Hd.
Qed.

Lemma only_at_alter mac f i cs : only_at mac i cs -> only_at mac i (alter f i cs).
Proof.
  intros Ho k c Hk Ha E. apply alter_Some in Hk as [[? Hk]|[-> _]]; [|done]. by eapply Ho.
Qed.

Lemma unique_alter f i cs :
  unique cs -> (forall c, cs !! i = Some c -> only_at (MacAddr (f c)) i cs) ->
  unique (alter f i cs).
Proof.
  intros Hu Ho k j ck cj Hk Hj Ak Aj E.
  apply alter_Some in Hk as [[Nk Hk]|(-> & c & Hk & ->)];
    apply alter_Some in Hj as [[Nj Hj]|(-> & c' & Hj & ->)].
  - by eapply Hu.
  - by eapply (Ho c').
  - symmetry. by eapply (Ho c).
  - done.
Qed.

Lemma lookup_ok pool mac t req sid s p s' :
  _ClientTableLookup mac t req sid s = (p, s') -> table_ok pool s ->
  table_ok pool s' /\ match p with Some i => table_for pool i s' | None => True end.
Proof.
  unfold _ClientTableLookup. intros E [Hu Hp].
  destruct (choose _ _ _ _ _) as [cs r] eqn:Ec.
  destruct (choose_spec mac req _ _ _ _ _ _ _ (scan_spec mac req (clients s)) Hu Ec) as [Hd Ho].
  pose proof (unique_demotes _ _ Hd Hu) as Hu'.
  destruct r as [i|]; injection E as <- <-.
  2:{ split; [|done]. by eapply table_demotes. }
  specialize (Ho i eq_refl).
  assert (Ht : table_ok pool (with_clients (alter (set_mac mac) i cs) s)).
  { split; rewrite clients_with; [by apply unique_alter|].
    rewrite map_alter_ip by done. rewrite <- Hp. apply Hd. }
  split; [done|]. split; [done|]. intros c Hc. apply alter_Some in Hc as [[? _]|(_ & c0 & _ & ->)]; [done|].
  by apply only_at_alter.
Qed.

Lemma for_update pool i f : (forall c, IpAddr (f c) = IpAddr c /\ MacAddr (f c) = MacAddr c) ->
  preserves (table_for pool i) (client_update i f).
Proof.
  intros Hf. apply preserves_modify. intros s [[Hu Hp] Ho]. split; [split|].
  - rewrite clients_with. apply unique_alter; [done|]. intros c Hc. rewrite (proj2 (Hf c)).
    by apply Ho.
  - rewrite clients_with, map_alter_ip; [done|]. apply Hf.
  - rewrite clients_with. intros c Hc. apply alter_Some in Hc as [[? _]|(_ & c0 & Hc & ->)]; [done|].
    rewrite (proj2 (Hf c0)). apply only_at_alter. by apply Ho.
Qed.

Lemma for_reply pool i pbuf b : preserves (table_for pool i) (send_reply pbuf b).
Proof.
  intros s a s' HI. unfold send_reply. destruct pbuf; [|by intros [= _ <-]].
  destruct (b (DhcpServer s)) as [[[msg body] len]|]; [|done]. by intros [= _ <-].
Qed.

Lemma ok_reply pool pbuf b : preserves (table_ok pool) (send_reply pbuf b).
Proof.
  intros s a s' HI. unfold send_reply. destruct pbuf; [|by intros [= _ <-]].
  destruct (b (DhcpServer s)) as [[[msg body] len]|]; [|done]. by intros [= _ <-].
Qed.

Lemma ok_clean pool mac : preserves (table_ok pool) (_CleanClientHistory mac).
Proof.
  apply preserves_modify. intros s Ht. apply table_demotes; [|done].
  apply demotes_map. intros c. destruct (idle c) eqn:Ei; simpl; [|by auto].
  case_match; [|auto]. split; [done|]. left. apply idle_not_active. by apply idle_spec in Ei.
Qed.

Lemma acknowledge_ok pool pbuf i Xid s a s' :
  table_for pool i s -> acknowledge pbuf i Xid s = Done a s' -> table_ok pool s'.
Proof.
  intros H0 E. unfold acknowledge in E.
  apply bind_inv in E as (c & s1 & E1 & E). pose proof (preserves_access _ _ _ _ _ H0 E1) as H1.
  apply bind_inv in E as (? & s2 & E2 & E). pose proof (for_reply _ _ _ _ _ _ _ H1 E2) as H2.
  apply bind_inv in E as (? & s3 & E3 & E).
  pose proof (for_update pool i (set_lease DHCP_DEFAULT_LEASE_TIME) ltac:(done) _ _ _ H2 E3) as H3.
  apply bind_inv in E as (? & s4 & E4 & E).
  pose proof (for_update pool i (set_state DHCP_CLIENT_STATE_BIND) ltac:(done) _ _ _ H3 E4) as H4.
  eapply ok_clean; [apply H4|exact E].
Qed.

Lemma offer_ok pool pbuf i Xid : preserves (table_for pool i) (offer pbuf i Xid).
Proof.
  unfold offer. apply preserves_bind; [apply preserves_access|intros c].
  apply preserves_bind; [apply for_reply|intros _].
  apply preserves_bind; [by apply for_update|intros _]. by apply for_update.
Qed.

Lemma SME_ok pool pbuf i t Xid s a s' :
  table_for pool i s -> _DhcpClientSMEHandle pbuf i t Xid s = Done a s' -> table_ok pool s'.
Proof.
  intros H0 E. unfold _DhcpClientSMEHandle in E.
  apply bind_inv in E as (c & s1 & E1 & E). pose proof (preserves_access _ _ _ _ _ H0 E1) as H1.
  assert (Ho : forall s s' a, table_for pool i s -> offer pbuf i Xid s = Done a s' -> table_ok pool s').
  { intros s2 s3 b Hs Eo. apply (offer_ok pool pbuf i Xid _ _ _ Hs Eo). }
  destruct (State c); [|by eapply Ho|by eapply acknowledge_ok..].
  destruct (t =? DHCP_MSG_DISCOVER); [|destruct (t =? DHCP_MSG_REQUEST);
    [by eapply acknowledge_ok|by eapply Ho]].
  apply bind_inv in E as (? & s2 & E2 & E). eapply Ho; [|exact E].
  by eapply (for_update pool i (set_state DHCP_CLIENT_STATE_SELECT)).
Qed.

Lemma serve_ok pool pbuf r : preserves (table_ok pool) (serve pbuf r).
Proof.
  unfold serve. apply preserves_bind; [apply preserves_access|intros Xid].
  apply preserves_bind; [apply preserves_access|intros mac].
  intros s a s' HI E. unfold serve_client in E. apply bind_inv in E as (p & s1 & E1 & E).
  destruct (_ClientTableLookup _ _ _ _ s) as [q s2] eqn:El.
  destruct (lookup_ok _ _ _ _ _ _ _ _ El HI) as [H1 H2]. injection E1 as <- <-.
  destruct q as [i|]; [by eapply SME_ok|].
  destruct (negb _ && negb _); [by eapply ok_reply|]. by injection E as _ <-.
Qed.

Lemma RecvCb_ok pool pbuf P : preserves (table_ok pool) (DHCPS_RecvCb pbuf P).
Proof.
  unfold DHCPS_RecvCb. apply preserves_bind; [apply preserves_access|intros msg].
  apply preserves_bind; [by apply preserves_modify|intros _].
  do 3 (apply preserves_bind; [apply preserves_access|intros ?]).
  case_match; [apply preserves_ret|].
  apply preserves_bind; [apply preserves_access|intros r].
  case_match; [apply preserves_ret|apply serve_ok].
Qed.

Lemma tick_demotes station c :
  IpAddr (tick_client station c) = IpAddr c /\
  (~ active (tick_client station c) \/
   State (tick_client station c) = State c /\ MacAddr (tick_client station c) = MacAddr c).
Proof.
  unfold tick_client. split.
  - destruct (State c); repeat case_match; done.
  - destruct (State c) eqn:E; repeat case_match; simpl; rewrite ?E; auto;
      left; by apply idle_not_active.
Qed.

Lemma tick_ok pool station s : table_ok pool s -> table_ok pool (_DhcpTickHandle station s).
Proof.
  intros [Hu Hp]. unfold _DhcpTickHandle. case_match; [done|]. split; rewrite clients_with.
  - intros i j ci cj Hi Hj Ai Aj E. rewrite list_lookup_fmap, fmap_Some in Hi, Hj.
    destruct Hi as (c & Hc & ->), Hj as (c' & Hc' & ->).
    destruct (tick_demotes station c) as [_ [?|[S1 M1]]]; [done|].
    destruct (tick_demotes station c') as [_ [?|[S2 M2]]]; [done|].
    unfold active in *. rewrite S1 in Ai. rewrite S2 in Aj. rewrite M1, M2 in E.
    by eapply (Hu i j).
  - rewrite map_map, <- Hp. apply map_ext. intros c. apply tick_demotes.
Qed.

Lemma delete_ok pool mac s : table_ok pool s -> table_ok pool (DHCPS_ClientDelete mac s).2.
Proof.
  intros H. unfold DHCPS_ClientDelete. case_match; [done|]. destruct mac as [mac|]; [|done].
  destruct (ClientDelete_loop mac 0 (clients s)) as [code [i|]]; [|done].
  simpl. apply table_demotes; [|done]. apply demotes_alter. intros c. split; [done|].
  left. by apply idle_not_active.
Qed.

(** * The server as a state machine *)

Inductive dhcp_step : Dhcps -> Dhcps -> Prop :=
  | step_recv pbuf P s s' : DHCPS_RecvCb pbuf P s = Done tt s' -> dhcp_step s s'
  | step_tick station s : dhcp_step s (_DhcpTickHandle station s)
  | step_delete mac s : dhcp_step s (DHCPS_ClientDelete mac s).2.

Lemma steps_ok pool s s' : rtc dhcp_step s s' -> table_ok pool s -> table_ok pool s'.
Proof.
  induction 1 as [|s1 s2 s3 H _ IH]; [done|]. intros Hok. apply IH. destruct H.
  - by eapply RecvCb_ok.
  - by apply tick_ok.
  - by apply delete_ok.
Qed.

(** The addresses the started server hands out, in host order. *)
Definition pool_of (ip mask : Z) : option (list Z) :=
  start ← pool_addr (ntohl ip) 1 (ntohl mask);
  mapM (fun i => pool_addr (ntohl (htonl start)) (Z.of_nat i) (ntohl mask))
    (seq 0 DHCPS_HISTORY_CLIENT_NUM).

Lemma init_clients start mask ns pool :
  mapM (fun i => pool_addr start (Z.of_nat i) mask) ns = Some pool ->
  mapM (init_client start mask) ns = Some (map (fun a =>
    mkClient DHCP_CLIENT_STATE_IDLE 0 (htonl a) zero_mac DHCP_DEFAULT_LEASE_TIME) pool).
Proof.
  rewrite !mapM_Some. induction 1 as [|i a ns pool E _ IH]; simpl; constructor; [|done].
  unfold init_client. by rewrite E.
Qed.

Lemma start_ok ip mask pool s : pool_of ip mask = Some pool ->
  exists s', DHCPS_Start true true ip mask s = Done DHCPS_ERR_SUCCESS s' /\
    table_ok (map htonl pool) s'.
Proof.
  unfold pool_of. intros E. apply bind_Some in E as (start & E1 & E).
  eexists. split.
  - unfold DHCPS_Start. cbn [negb].
    erewrite bind_done by (unfold access; rewrite E1; reflexivity).
    erewrite bind_done by (unfold access; rewrite (init_clients _ _ _ _ E); reflexivity).
    reflexivity.
  - split.
    + intros i j ci cj Hi _ Ai _ _. exfalso. apply Ai.
      unfold clients in Hi. cbn in Hi.
      rewrite list_lookup_fmap, fmap_Some in Hi. by destruct Hi as (k & _ & ->).
    + unfold clients. cbn. by rewrite map_map.
Qed.

(** An interface without host bits: the remainder by zero. *)
Lemma start_without_hosts udp ip mask s :
  ntohl mask = 4294967295 -> DHCPS_Start true udp ip mask s = Crash.
Proof.
  intros E. unfold DHCPS_Start. cbn [negb].
  apply bind_crash. unfold access, pool_addr, host_after. by rewrite E.
Qed.

(** * Options on the wire *)

Inductive Opt :=
  | OPad
  | OType (t : Z)
  | OReqIp (ip : list Z)
  | OServer (ip : list Z)
  | OOther (id : Z) (data : list Z).

Definition enc_opt (o : Opt) : list Z :=
  match o with
  | OPad => [DHCP_OPTION_ID_PAD]
  | OType t => [DHCP_OPTION_ID_MSG_TYPE; 1; t]
  | OReqIp ip => [DHCP_OPTION_ID_REQ_IP_ADDR; 4] ++ ip
  | OServer ip => [DHCP_OPTION_ID_SERVER_ID; 4] ++ ip
  | OOther id data => id :: zlen data :: data
  end.

Definition opt_ok (o : Opt) : Prop :=
  match o with
  | OPad | OType _ => True
  | OReqIp ip | OServer ip => zlen ip = 4
  | OOther id data =>
      ~ id ∈ [DHCP_OPTION_ID_PAD; DHCP_OPTION_ID_REQ_IP_ADDR; DHCP_OPTION_ID_MSG_TYPE;
              DHCP_OPTION_ID_SERVER_ID; DHCP_OPTION_ID_END] /\ zlen data < 256
  end.

#[export] Instance opt_ok_dec o : Decision (opt_ok o).
Proof. destruct o; simpl; apply _. Defined.

Definition apply_opt (r : Parsed) (o : Opt) : Parsed :=
  match o with
  | OPad | OOther _ _ => r
  | OType t => mkParsed t (ReqIpAddr r) (ServerId r) (Z.lor (Ret r) 1)
  | OReqIp ip => mkParsed (MsgType r) (of_le32 ip) (ServerId r) (Z.lor (Ret r) 2)
  | OServer ip => mkParsed (MsgType r) (ReqIpAddr r) (of_le32 ip) (Z.lor (Ret r) 4)
  end.

Definition enc_opts (opts : list Opt) : list Z := concat (map enc_opt opts) ++ [DHCP_OPTION_ID_END].

Lemma ld_at {A} (pre l : list A) k : 0 <= k -> ld (pre ++ l) (zlen pre + k) = ld l k.
Proof. intros. rewrite ld_app_r by lia. f_equal. lia. Qed.

Lemma fetch_at {A} (pre l rest : list A) k n : 0 <= k -> zlen l = n ->
  forall mid : list A, zlen mid = k -> fetch (pre ++ mid ++ l ++ rest) (zlen pre + k) n = Some l.
Proof.
  intros Hk Hn mid Hm. pose proof (zlen_nonneg rest). rewrite fetch_spec.
  - rewrite app_assoc, zdrop_app_r by zlen_lia. rewrite zdrop_0 by zlen_lia.
    rewrite <- Hn. by rewrite ztake_zlen_app.
  - pose proof (zlen_nonneg pre). lia.
  - pose proof (zlen_nonneg l). lia.
  - zlen_lia.
Qed.

Lemma enc_opt_pos o : 1 <= zlen (enc_opt o).
Proof.
  destruct o; simpl; rewrite ?zlen_cons; change (zlen (@nil Z)) with 0;
    repeat match goal with |- context [zlen ?l] =>
      lazymatch goal with H : 0 <= zlen l |- _ => fail | _ => pose proof (zlen_nonneg l) end end; lia.
Qed.

Lemma parse_loop opts : forall fuel msg pre rest r,
  msg = pre ++ concat (map enc_opt opts) ++ DHCP_OPTION_ID_END :: rest ->
  zlen msg = sizeof_DHCP_MSG -> Forall opt_ok opts -> (length opts < fuel)%nat ->
  ParseDhcpOptions_loop fuel msg (zlen pre) r = Some (Some (fold_left apply_opt opts r)).
Proof.
  induction opts as [|o opts IH]; intros fuel msg pre rest r Hm Hl Hok Hf;
    (destruct fuel as [|fuel]; [simpl in Hf; lia|]); cbn [ParseDhcpOptions_loop].
  { simpl in Hm. rewrite Hm. rewrite <- (Z.add_0_r (zlen pre)), ld_at by lia. simpl. done. }
  apply Forall_cons_1 in Hok as [Ho Hok]. cbn [map concat] in Hm. rewrite <- app_assoc in Hm.
  pose proof (enc_opt_pos o) as Hpos. pose proof (zlen_nonneg pre).
  assert (Hlt : (zlen pre <? sizeof_DHCP_MSG) = true).
  { apply Z.ltb_lt. rewrite <- Hl, Hm, zlen_app, zlen_app.
    pose proof (zlen_nonneg (concat (map enc_opt opts) ++ DHCP_OPTION_ID_END :: rest)). lia. }
  assert (Hnext : forall r, ParseDhcpOptions_loop fuel msg (zlen pre + zlen (enc_opt o)) r
    = Some (Some (fold_left apply_opt opts r))).
  { intros r'. rewrite <- zlen_app. apply (IH fuel msg (pre ++ enc_opt o) rest); try done.
    - by rewrite <- app_assoc.
    - simpl in Hf. lia. }
  assert (H0 : ld msg (zlen pre) = ld (enc_opt o ++ concat (map enc_opt opts) ++ DHCP_OPTION_ID_END :: rest) 0).
  { rewrite Hm, <- (Z.add_0_r (zlen pre)). by apply ld_at. }
  assert (H1 : ld msg (zlen pre + 1) = ld (enc_opt o ++ concat (map enc_opt opts) ++ DHCP_OPTION_ID_END :: rest) 1).
  { rewrite Hm. by apply ld_at. }
  destruct o as [|t|ip|ip|id data]; cbn [enc_opt app fold_left apply_opt] in *.
  - rewrite H0. change (ld (DHCP_OPTION_ID_PAD :: _) 0) with (Some DHCP_OPTION_ID_PAD).
    cbv beta iota. rewrite Hlt. apply Hnext.
  - rewrite H0, H1. change (ld (DHCP_OPTION_ID_MSG_TYPE :: _) 0) with (Some DHCP_OPTION_ID_MSG_TYPE).
    cbv beta iota. rewrite Hlt.
    change (ld (DHCP_OPTION_ID_MSG_TYPE :: _) 1) with (Some 1). cbv beta iota zeta.
    rewrite Hm, ld_at by lia. rewrite <- Hm. replace (zlen pre + 2 + 1) with (zlen pre + 3) by lia.
    apply Hnext.
  - rewrite H0, H1. change (ld (DHCP_OPTION_ID_REQ_IP_ADDR :: _) 0) with (Some DHCP_OPTION_ID_REQ_IP_ADDR).
    cbv beta iota. rewrite Hlt.
    change (ld (DHCP_OPTION_ID_REQ_IP_ADDR :: _) 1) with (Some 4). cbv beta iota zeta.
    change (DHCP_OPTION_ID_REQ_IP_ADDR :: 4 :: ip ++ ?x) with ([DHCP_OPTION_ID_REQ_IP_ADDR; 4] ++ ip ++ x) in Hm.
    rewrite Hm, (fetch_at pre ip _ 2 4) by done. rewrite <- Hm.
    rewrite !zlen_cons, Ho in Hnext. replace (zlen pre + 2 + 4) with (zlen pre + (1 + (1 + 4))) by lia.
    apply Hnext.
  - rewrite H0, H1. change (ld (DHCP_OPTION_ID_SERVER_ID :: _) 0) with (Some DHCP_OPTION_ID_SERVER_ID).
    cbv beta iota. rewrite Hlt.
    change (ld (DHCP_OPTION_ID_SERVER_ID :: _) 1) with (Some 4). cbv beta iota zeta.
    change (DHCP_OPTION_ID_SERVER_ID :: 4 :: ip ++ ?x) with ([DHCP_OPTION_ID_SERVER_ID; 4] ++ ip ++ x) in Hm.
    rewrite Hm, (fetch_at pre ip _ 2 4) by done. rewrite <- Hm.
    rewrite !zlen_cons, Ho in Hnext. replace (zlen pre + 2 + 4) with (zlen pre + (1 + (1 + 4))) by lia.
    apply Hnext.
  - destruct Ho as [Hid Hd]. rewrite !elem_of_cons in Hid.
    rewrite H0, H1. change (ld (id :: ?l) 0) with (Some id). cbv beta iota. rewrite Hlt.
    destruct (Z.eqb_spec id DHCP_OPTION_ID_END); [tauto|]. cbn [negb andb].
    destruct (Z.eqb_spec id DHCP_OPTION_ID_PAD); [tauto|].
    change (ld (id :: zlen data :: ?l) 1) with (Some (zlen data)). cbv beta iota zeta.
    destruct (Z.eqb_spec id DHCP_OPTION_ID_MSG_TYPE); [tauto|].
    destruct (Z.eqb_spec id DHCP_OPTION_ID_REQ_IP_ADDR); [tauto|].
    destruct (Z.eqb_spec id DHCP_OPTION_ID_SERVER_ID); [tauto|].
    rewrite !zlen_cons in Hnext. replace (zlen pre + 2 + zlen data) with (zlen pre + (1 + (1 + zlen data))) by lia.
    apply Hnext.
Qed.

(** The fuel is enough for every message. *)
Lemma parse_total fuel : forall msg p r,
  zlen msg = sizeof_DHCP_MSG -> 0 <= p -> Bytes msg -> sizeof_DHCP_MSG - p < Z.of_nat fuel ->
  (0 < fuel)%nat -> is_Some (ParseDhcpOptions_loop fuel msg p r).
Proof.
  induction fuel as [|fuel IH]; intros msg p r Hl Hp Hby Hf H0; [lia|].
  cbn [ParseDhcpOptions_loop]. destruct (ld msg p) as [id|] eqn:E; [|eauto].
  apply ld_Some_range in E. rewrite Hl in E.
  assert (Hrec : forall p' r', p < p' -> is_Some (ParseDhcpOptions_loop fuel msg p' r')).
  { intros. apply IH; try done; try lia. }
  destruct (negb _ && _); [|eauto]. destruct (id =? DHCP_OPTION_ID_PAD); [apply Hrec; lia|].
  destruct (ld msg (p + 1)) as [len|] eqn:El; [|eauto].
  pose proof (ld_Forall _ _ _ _ Hby El) as [Hlen _].
  repeat case_match; eauto; apply Hrec; lia.
Qed.

Lemma ParseDhcpOptions_loop_header header opts rest r :
  zlen header = off_Options -> Forall opt_ok opts ->
  zlen (header ++ enc_opts opts ++ rest) = sizeof_DHCP_MSG ->
  _ParseDhcpOptions (header ++ enc_opts opts ++ rest) r = Some (Some (fold_left apply_opt opts r)).
Proof.
  intros Hh Hok Hl. unfold _ParseDhcpOptions. rewrite <- Hh.
  apply (parse_loop opts 310 _ header rest); try done.
  - unfold enc_opts. by rewrite <- app_assoc.
  - assert (Z.of_nat (length opts) <= zlen (concat (map enc_opt opts))).
    { clear. induction opts as [|o opts IH]; [done|]. cbn [map concat length].
      rewrite zlen_app. pose proof (enc_opt_pos o). lia. }
    unfold enc_opts in Hl. rewrite !zlen_app, Hh in Hl. unfold off_Options, sizeof_DHCP_MSG in Hl.
    pose proof (zlen_nonneg rest). change (zlen [DHCP_OPTION_ID_END]) with 1 in Hl. lia.
Qed.

(** On every well-formed option list the parser finds exactly the message
    type, the requested address and the server identifier the list carries,
    wherever they stand and whatever other options surround them. *)
Theorem ParseDhcpOptions_roundtrip header opts rest r :
  zlen header = off_Options -> Forall opt_ok opts ->
  zlen (header ++ enc_opts opts ++ rest) = sizeof_DHCP_MSG ->
  _ParseDhcpOptions (header ++ enc_opts opts ++ rest) r = Some (Some (fold_left apply_opt opts r)).
Proof. apply ParseDhcpOptions_loop_header. Qed.

Lemma ParseDhcpOptions_roundtrip_witness :
  _ParseDhcpOptions (replicate 240 0 ++
      enc_opts [OPad; OOther 12 [110; 108]; OReqIp [192; 168; 1; 9]; OType 3] ++ replicate 293 0)
    (mkParsed 255 0 0 0) = Some (Some (mkParsed 3 151103680 0 3)).
Proof.
  apply (ParseDhcpOptions_roundtrip (replicate 240 0)
    [OPad; OOther 12 [110; 108]; OReqIp [192; 168; 1; 9]; OType 3] (replicate 293 0));
    [by vm_compute|by_decide|by vm_compute].
Defined.

(** The option loop tests the end of the message only after reading the
    byte there: a message without an end option makes it read past
    [DhcpMsg]. *)
Theorem ParseDhcpOptions_no_end msg r :
  zlen msg = sizeof_DHCP_MSG -> Forall (fun b => b = DHCP_OPTION_ID_PAD) (zdrop off_Options msg) ->
  _ParseDhcpOptions msg r = Some None.
Proof.
  intros Hl Hpad. unfold _ParseDhcpOptions.
  assert (H : forall fuel p, off_Options <= p <= sizeof_DHCP_MSG ->
    sizeof_DHCP_MSG - p < Z.of_nat fuel -> ParseDhcpOptions_loop fuel msg p r = Some None).
  { induction fuel as [|fuel IH]; intros p Hp Hf; [lia|]. cbn [ParseDhcpOptions_loop].
    destruct (Z.eq_dec p sizeof_DHCP_MSG) as [->|].
    { rewrite ld_ge by lia. done. }
    destruct (ld_is_Some msg p) as [id Hid]; [unfold off_Options in *; lia|]. rewrite Hid.
    assert (id = DHCP_OPTION_ID_PAD) as ->.
    { rewrite Forall_lookup in Hpad. apply (Hpad (Z.to_nat (p - off_Options))).
      rewrite <- Hid. transitivity (ld (zdrop off_Options msg) (p - off_Options)).
      - unfold ld. destruct (Z.leb_spec 0 (p - off_Options)); [done|lia].
      - unfold off_Options in *. rewrite ld_zdrop_add by lia. f_equal. lia. }
    destruct (Z.ltb_spec p sizeof_DHCP_MSG); [|lia]. cbn. apply IH; lia. }
  apply H; [unfold off_Options, sizeof_DHCP_MSG; lia|by vm_compute].
Qed.

Lemma ParseDhcpOptions_no_end_witness :
  _ParseDhcpOptions (replicate 548 0) (mkParsed 255 0 0 0) = Some None.
Proof.
  apply (ParseDhcpOptions_no_end (replicate 548 0)); [by vm_compute|].
  by_decide.
Defined.
