(* ===== verification/DhcpLease.v ===== *)
(** What the DHCP server of file [Dhcp] achieves: the datagrams it sends, the
    discover/offer/request/acknowledge exchange, the address pool, the
    uniqueness of leases over any run, and the expiry of offers. *)
From stdpp Require Import relations.
From S2P Require Import Prelude Dhcp.

(** * The replies *)

Lemma le32_cases x : exists a b c d, le32 x = [a; b; c; d].
Proof. unfold le32. eauto. Qed.

(** The fixed part of a reply. *)
Definition bootp (mac : list Z) (Xid Yiaddr Siaddr : Z) : list Z :=
  [DHCP_OP_REPLY; DHCP_HWTYPE_ETHERNET; 6; 0] ++ le32 (htonl Xid) ++ replicate 8 0 ++
  le32 Yiaddr ++ le32 Siaddr ++ replicate 4 0 ++ mac ++ replicate 202 0 ++ [99; 130; 83; 99].

Definition nak_datagram (d : DHCP_SERVER) (mac : list Z) (Xid : Z) : list Z :=
  bootp mac Xid 0 (ServerIpAddr d) ++ enc_opts [OType DHCP_MSG_NAK].


Lemma mac_cases (mac : list Z) : zlen mac = 6 -> exists a b c d e f, mac = [a; b; c; d; e; f].
Proof.
  intros H. destruct mac as [|a [|b [|c [|d [|e [|f [|g mac]]]]]]]; try by vm_compute in H.
  { eauto 10. } rewrite !zlen_cons in H. pose proof (zlen_nonneg mac). lia.
Qed.

(** [words] names the bytes of every address so that a reply can be computed. *)
Ltac words :=
  repeat match goal with |- context [le32 ?x] =>
    let a := fresh "a" in let b := fresh "b" in let c := fresh "c" in let d := fresh "d" in
    let E := fresh "E" in
    destruct (le32_cases x) as (a & b & c & d & E); rewrite E; clear E end.

Lemma nak_spec mac Xid d s :
  zlen mac = 6 -> DhcpServer s = d ->
  exists msg, _DHCPNakGenAndSend true mac Xid s
    = Done tt (mkDhcps d msg (broadcast s ++ [nak_datagram d mac Xid])) /\
    zlen msg = sizeof_DHCP_MSG.
Proof.
  intros Hm <-. destruct (mac_cases mac Hm) as (a & b & c & e & f & g & ->).
  unfold _DHCPNakGenAndSend, send_reply, nak_datagram, bootp, reply_header,
    DHCP_SET_OPTION_MSG_TYPE, DHCP_SET_OPTION_END, enc_opts.
  cbn [map enc_opt concat]. change (le32 (htonl DHCP_MAGIC)) with [99; 130; 83; 99].
  words. eexists. split; [vm_compute; reflexivity|]. by vm_compute.
Qed.


(** * Datagrams of a client *)

Definition client_header (xid mac : list Z) : list Z :=
  [DHCP_OP_REQUEST; DHCP_HWTYPE_ETHERNET; 6; 0] ++ xid ++ replicate 20 0 ++ mac ++
  replicate 202 0 ++ [99; 130; 83; 99].

Definition client_msg (xid mac : list Z) (opts : list Opt) : list Z :=
  client_header xid mac ++ enc_opts opts.






(** * Offer and acknowledgement *)






Lemma with_with a b s : with_clients a (with_clients b s) = with_clients a s.
Proof. done. Qed.






Lemma table_same_ip pool s i j ci cj :
  table_ok pool s -> NoDup pool -> clients s !! i = Some ci -> clients s !! j = Some cj ->
  IpAddr ci = IpAddr cj -> i = j.
Proof.
  intros [_ Hp] Hnd Hi Hj E. eapply (NoDup_lookup pool i j (IpAddr ci)); [done|..]; rewrite <- Hp.
  - by rewrite list_lookup_fmap, Hi.
  - by rewrite list_lookup_fmap, Hj, E.
Qed.





(** * The address pool *)

Lemma htonl_htonl v : is_u32 v -> ntohl (htonl v) = v.
Proof.
  intros Hv. unfold ntohl, htonl. rewrite <- (of_le32_le32 v Hv) at 2.
  change (le32 v) with [v mod 256; v / 256 mod 256; v / 65536 mod 256; v / 16777216 mod 256].
  cbn [rev app]. rewrite le32_of_le32 by (apply Z.mod_pos_bound; lia). done.
Qed.

Lemma htonl_inj v w : is_u32 v -> is_u32 w -> htonl v = htonl w -> v = w.
Proof. intros Hv Hw E. rewrite <- (htonl_htonl v), <- (htonl_htonl w) by done. by rewrite E. Qed.

(** The netmask of a prefix that leaves [k] host bits. *)
Definition netmask (k : Z) : Z := 4294967296 - 2 ^ k.

Section Pool.
Context (k : Z) (Hk : 4 <= k <= 31).

Lemma pow_k : 16 <= 2 ^ k <= 2147483648.
Proof.
  split; [apply (Z.pow_le_mono_r 2 4); lia|apply (Z.pow_le_mono_r 2 k 31); lia].
Qed.

Lemma netmask_not : Z.lxor (netmask k) 4294967295 = Z.ones k.
Proof.
  assert (H : forallb (fun k => Z.lxor (netmask k) 4294967295 =? Z.ones k) (seqZ 0 32) = true)
    by (by vm_compute).
  rewrite forallb_forall in H. apply Z.eqb_eq, H, list_elem_of_In, elem_of_seqZ. lia.
Qed.

Lemma netmask_shift : netmask k = Z.shiftl (Z.ones (32 - k)) k.
Proof.
  assert (H : forallb (fun k => netmask k =? Z.shiftl (Z.ones (32 - k)) k) (seqZ 0 32) = true)
    by (by vm_compute).
  rewrite forallb_forall in H. apply Z.eqb_eq, (H k), list_elem_of_In, elem_of_seqZ. lia.
Qed.

Lemma land_netmask v : is_u32 v -> Z.land v (netmask k) = Z.shiftl (Z.shiftr v k) k.
Proof.
  intros Hv. rewrite <- Z.ldiff_ones_r by lia. apply Z.bits_inj'. intros n Hn.
  rewrite Z.land_spec, Z.ldiff_spec, netmask_shift, Z.shiftl_spec by done.
  rewrite (Z.testbit_ones_nonneg k) by lia.
  destruct (Z.ltb_spec n k).
  - by rewrite (Z.testbit_neg_r _ (n - k)) by lia.
  - rewrite (Z.testbit_ones_nonneg (32 - k)) by lia. destruct (Z.ltb_spec (n - k) (32 - k)); [done|].
    replace (Z.testbit v n) with false; [done|]. symmetry.
    rewrite <- (Z.mod_small v (2 ^ 32)) by exact Hv. apply Z.mod_pow2_bits_high. lia.
Qed.

Lemma split_host v : v = Z.shiftr v k * 2 ^ k + v mod 2 ^ k.
Proof. rewrite Z.shiftr_div_pow2 by lia. pose proof pow_k. pose proof (Z.div_mod v (2 ^ k)). lia. Qed.

(** The address [j] hosts after [v]. *)
Lemma pool_addr_spec v j : is_u32 v -> 0 <= j < 16 ->
  let m := 2 ^ k - 1 in
  let r := (v mod 2 ^ k + j) mod m in
  pool_addr v j (netmask k) = Some (v - v mod 2 ^ k + (if r =? 0 then 1 else r)).
Proof.
  intros Hv Hj m r. pose proof pow_k. pose proof (Z.mod_pos_bound v (2 ^ k) ltac:(lia)).
  unfold pool_addr, host_after. rewrite netmask_not, Z.land_ones by lia.
  rewrite Z.ones_equiv, (u32_small (v mod 2 ^ k + j)) by word_lia.
  change (Z.pred (2 ^ k)) with (2 ^ k - 1). fold m. fold r.
  assert (0 <= r < m) by (apply Z.mod_pos_bound; lia).
  rewrite (proj2 (Z.eqb_neq m 0)) by lia. cbn [mbind option_bind]. f_equal.
  rewrite land_netmask by done. rewrite lor_shiftl_add by (destruct (Z.eqb_spec r 0); lia).
  pose proof (split_host v). lia.
Qed.

Context (v : Z) (Hv : is_u32 v).
Let h := v mod 2 ^ k.

Lemma start_addr : 1 <= h -> h <= 2 ^ k - 3 -> pool_addr v 1 (netmask k) = Some (v + 1).
Proof.
  intros H1 H2. rewrite pool_addr_spec by (done || lia). fold h. f_equal.
  rewrite Z.mod_small by lia. destruct (Z.eqb_spec (h + 1) 0); lia.
Qed.

(** An address of the same subnet. *)
Lemma host_u32 j : 0 <= j -> h + j < 2 ^ k -> is_u32 (v + j).
Proof.
  intros H1 H2. pose proof (split_host v) as E. fold h in E. pose proof pow_k.
  assert (0 <= h) by (apply Z.mod_pos_bound; lia).
  assert (Hs : 0 <= Z.shiftr v k) by (apply Z.shiftr_nonneg, Hv).
  assert (Z.shiftr v k < 2 ^ (32 - k)).
  { rewrite Z.shiftr_div_pow2 by lia. apply Z.div_lt_upper_bound; [lia|].
    rewrite <- Z.pow_add_r by lia. replace (k + (32 - k)) with 32 by lia. apply Hv. }
  assert (E32 : 2 ^ k * 2 ^ (32 - k) = 4294967296).
  { rewrite <- Z.pow_add_r by lia. by replace (k + (32 - k)) with 32 by lia. }
  unfold is_u32 in *. nia.
Qed.

Lemma succ_mod : 1 <= h -> h <= 2 ^ k - 3 -> (v + 1) mod 2 ^ k = h + 1 /\ is_u32 (v + 1).
Proof.
  intros H1 H2. pose proof (split_host v) as E. fold h in E. split; [|apply host_u32; lia].
  symmetry. apply (Z.mod_unique_pos _ _ (Z.shiftr v k)); lia.
Qed.

(** What the table starts with, for any host number of the server. *)
Lemma pool_from : 1 <= h -> h <= 2 ^ k - 3 ->
  pool_of (htonl v) (htonl (netmask k)) =
    mapM (fun i => pool_addr (v + 1) (Z.of_nat i) (netmask k)) (seq 0 8).
Proof.
  intros H1 H2. pose proof pow_k. assert (Hn : is_u32 (netmask k)) by (unfold netmask, is_u32; lia).
  unfold pool_of. rewrite !(htonl_htonl v), !(htonl_htonl (netmask k)) by done.
  rewrite start_addr by lia. destruct succ_mod as [Em Eu]; [lia..|].
  cbn [mbind option_bind]. by rewrite htonl_htonl.
Qed.

(** Enough hosts after the server: the next eight addresses. *)
Lemma pool_consecutive : 1 <= h -> h + 8 <= 2 ^ k - 2 ->
  pool_of (htonl v) (htonl (netmask k)) = Some (map (fun i => v + 1 + Z.of_nat i) (seq 0 8)).
Proof.
  intros H1 H2. pose proof pow_k. destruct succ_mod as [Em Eu]; [lia..|].
  rewrite pool_from by lia. apply mapM_Some, Forall2_fmap_r, Forall_Forall2_diag, Forall_forall.
  intros i Hi. apply in_seq in Hi. rewrite pool_addr_spec by (done || lia).
  rewrite Em, Z.mod_small by lia. f_equal. destruct (Z.eqb_spec (h + 1 + Z.of_nat i) 0); lia.
Qed.

(** Too few: the end of the network is passed and two entries get host 1. *)
Lemma pool_wrapped pool : 1 <= h -> 2 ^ k - 8 <= h <= 2 ^ k - 3 ->
  pool_of (htonl v) (htonl (netmask k)) = Some pool -> ~ NoDup pool.
Proof.
  intros H1 H2 E Hnd. pose proof pow_k. destruct succ_mod as [Em Eu]; [lia..|].
  rewrite pool_from in E by lia. apply mapM_Some in E.
  set (i := Z.to_nat (2 ^ k - 2 - h)).
  assert (Hat : forall j, (j < 8)%nat -> pool !! j = pool_addr (v + 1) (Z.of_nat j) (netmask k)).
  { intros j Hj. destruct (Forall2_lookup_l _ _ _ j j E) as (y & -> & Hy); [by apply lookup_seq_lt|done]. }
  assert (Ei : pool_addr (v + 1) (Z.of_nat i) (netmask k) = pool_addr (v + 1) (Z.of_nat (S i)) (netmask k)).
  { rewrite !pool_addr_spec by (done || lia). rewrite Em.
    replace (h + 1 + Z.of_nat i) with (2 ^ k - 1) by lia.
    replace (h + 1 + Z.of_nat (S i)) with (2 ^ k - 1 + 1) by lia.
    rewrite Z.mod_same by lia. replace ((2 ^ k - 1 + 1) mod (2 ^ k - 1)) with 1; [done|].
    apply (Z.mod_unique_pos _ _ 1); lia. }
  rewrite pool_addr_spec in Ei by (done || lia). enough (i = S i) by lia.
  eapply NoDup_lookup; [exact Hnd| |]; rewrite Hat by lia.
  - by rewrite pool_addr_spec by (done || lia).
  - symmetry. exact Ei.
Qed.
End Pool.

(** The pool in network order has no duplicates. *)
Lemma pool_htonl k (Hk : 4 <= k <= 31) v (Hv : is_u32 v) :
  1 <= v mod 2 ^ k -> v mod 2 ^ k + 8 <= 2 ^ k - 2 ->
  NoDup (map (fun i => htonl (v + 1 + Z.of_nat i)) (seq 0 8)).
Proof.
  intros H1 H2. pose proof (pow_k k Hk).
  assert (Hu : is_u32 (v + 8)) by (apply (host_u32 k Hk v Hv); lia).
  apply NoDup_fmap_2_strong; [|apply NoDup_seq]. intros i j Hi Hj Eij.
  apply elem_of_seq in Hi, Hj. apply htonl_inj in Eij; unfold is_u32 in *; lia.
Qed.

(** When at least eight host addresses and the broadcast address follow
    the server's own, the pool is the next eight addresses: distinct, and none
    of them the server's. *)
Theorem pool_is_next_eight k v :
  4 <= k <= 31 -> is_u32 v -> 1 <= v mod 2 ^ k -> v mod 2 ^ k + 8 <= 2 ^ k - 2 ->
  exists pool, pool_of (htonl v) (htonl (netmask k)) = Some pool /\
    pool = map (fun i => v + 1 + Z.of_nat i) (seq 0 8) /\ NoDup (v :: pool).
Proof.
  intros Hk Hv H1 H2. eexists. split; [by apply pool_consecutive|]. split; [done|]. constructor.
  - rewrite list_elem_of_fmap. intros (i & ? & _). lia.
  - apply NoDup_fmap_2; [|apply NoDup_seq]. intros i j ?. lia.
Qed.

(** 192.168.1.1/24 *)
Lemma pool_is_next_eight_witness :
  exists pool, pool_of (htonl 3232235777) (htonl 4294967040) = Some pool /\
    pool = map (fun i => 3232235777 + 1 + Z.of_nat i) (seq 0 8) /\ NoDup (3232235777 :: pool).
Proof.
  apply (pool_is_next_eight 8 3232235777); [lia|by vm_compute|by vm_compute|by vm_compute].
Defined.

(** With fewer, the pool wraps past the end of the network and hands the
    same address to two entries. *)
Theorem pool_wraps k v pool :
  4 <= k <= 31 -> is_u32 v -> 1 <= v mod 2 ^ k -> 2 ^ k - 8 <= v mod 2 ^ k <= 2 ^ k - 3 ->
  pool_of (htonl v) (htonl (netmask k)) = Some pool -> ~ NoDup pool.
Proof. intros Hk Hv. by apply pool_wrapped. Qed.

(** 192.168.1.250/24 *)
Lemma pool_wraps_witness :
  let pool := default [] (pool_of (htonl 3232236026) (htonl 4294967040)) in
  length pool = 8%nat /\ ~ NoDup pool.
Proof.
  split; [by vm_compute|].
  apply (pool_wraps 8 3232236026); [lia|by vm_compute|by vm_compute|by vm_compute|by vm_compute].
Defined.

(** * Leases *)

(** C13: on an interface whose subnet has room for eight more hosts after
    the server's own address (host bits [k], own address [v], both in host
    order; nearer the end of the subnet [pool_wraps] is the counterexample),
    the server starts and its table holds the eight addresses that follow its
    own. Whatever datagrams it then receives and parses within the message,
    with or without free packet buffers, and however ticks and deletions fall
    between them, the entries keep these addresses, no two active entries
    belong to the same client, and no two hold the same address. *)
Theorem dhcp_leases k v s0 :
  4 <= k <= 31 -> is_u32 v -> 1 <= v mod 2 ^ k -> v mod 2 ^ k + 8 <= 2 ^ k - 2 ->
  exists s1,
    DHCPS_Start true true (htonl v) (htonl (netmask k)) s0 = Done DHCPS_ERR_SUCCESS s1 /\
    forall s, rtc dhcp_step s1 s ->
      map IpAddr (clients s) = map (fun i => htonl (v + 1 + Z.of_nat i)) (seq 0 8) /\
      forall i j ci cj, clients s !! i = Some ci -> clients s !! j = Some cj ->
        active ci -> active cj -> MacAddr ci = MacAddr cj \/ IpAddr ci = IpAddr cj -> i = j.
Proof.
  intros Hk Hv H1 H2. pose proof (pool_consecutive k Hk v Hv H1 H2) as E.
  destruct (start_ok _ _ _ s0 E) as (s1 & E1 & Hok1). exists s1. split; [exact E1|].
  intros s Hsteps. pose proof (steps_ok _ _ _ Hsteps Hok1) as Hok.
  split; [rewrite (proj2 Hok), map_map; done|]. intros i j ci cj Hi Hj Ai Aj [Em|Ei].
  - by eapply (proj1 Hok).
  - eapply table_same_ip; [exact Hok| |exact Hi|exact Hj|exact Ei].
    rewrite map_map. by apply (pool_htonl k Hk v Hv).
Qed.

Definition boot_dhcp : Dhcps :=
  mkDhcps empty_server (replicate 548 0) [].

(** The server right after the start. *)
Definition started (ip mask : Z) : Dhcps :=
  match DHCPS_Start true true ip mask boot_dhcp with Done _ s => s | _ => boot_dhcp end.


(** On 192.168.1.1/24. *)
Definition started_dhcp : Dhcps := started (htonl 3232235777) (htonl 4294967040).



Lemma dhcp_leases_witness :
  let P := client_msg [1; 2; 3; 4] [2; 0; 0; 0; 0; 7] [OType 1] in
  exists s1, DHCPS_Start true true (htonl 3232235777) (htonl 4294967040) boot_dhcp
    = Done DHCPS_ERR_SUCCESS s1 /\
  exists s2, DHCPS_RecvCb true P s1 = Done tt s2 /\
  map IpAddr (clients s2) = map (fun i => htonl (3232235778 + Z.of_nat i)) (seq 0 8) /\
  forall i j ci cj, clients s2 !! i = Some ci -> clients s2 !! j = Some cj ->
    active ci -> active cj -> MacAddr ci = MacAddr cj \/ IpAddr ci = IpAddr cj -> i = j.
Proof.
  intros P.
  destruct (dhcp_leases 8 3232235777 boot_dhcp) as (s1 & E1 & H);
    [lia|by vm_compute|by vm_compute|by vm_compute|].
  exists s1. split; [exact E1|].
  assert (Es : s1 = started_dhcp).
  { unfold started_dhcp, started. change (htonl 4294967040) with (htonl (netmask 8)). by rewrite E1. }
  assert (Hd : match DHCPS_RecvCb true P started_dhcp with Done _ _ => true | _ => false end = true)
    by (vm_compute; reflexivity).
  rewrite <- Es in Hd. destruct (DHCPS_RecvCb true P s1) as [[] s2| |] eqn:E; [|discriminate Hd..].
  exists s2. split; [done|]. apply H.
  eapply rtc_l; [eapply (step_recv true P); exact E|apply rtc_refl].
Defined.

(** * Timeouts *)

Lemma tick_step station s : Enable (DhcpServer s) <> 0 ->
  _DhcpTickHandle station s = with_clients (map (tick_client station) (clients s)) s.
Proof. intros H. unfold _DhcpTickHandle. by destruct (Z.eqb_spec (Enable (DhcpServer s)) 0). Qed.

Lemma tick_nth station n s c i :
  Enable (DhcpServer s) <> 0 -> clients s !! i = Some c ->
  clients (Nat.iter n (_DhcpTickHandle station) s) !! i = Some (Nat.iter n (tick_client station) c) /\
  Enable (DhcpServer (Nat.iter n (_DhcpTickHandle station) s)) <> 0.
Proof.
  intros He Hc. induction n as [|n [IH1 IH2]]; [done|]. rewrite !Nat.iter_succ.
  rewrite tick_step by done. split; [|done].
  rewrite clients_with, list_lookup_fmap. by rewrite IH1.
Qed.

Lemma tick_request_iter station n : forall c,
  State c = DHCP_CLIENT_STATE_REQUEST -> Timeout c = Z.of_nat (S n) -> Timeout c < 4294967296 ->
  Nat.iter (S n) (tick_client station) c =
    mkClient DHCP_CLIENT_STATE_IDLE 0 (IpAddr c) zero_mac (Lease c).
Proof.
  induction n as [|n IH]; intros c Hs Ht Hlt.
  - cbn. unfold tick_client. rewrite Hs, Ht. done.
  - rewrite Nat.iter_succ_r.
    assert (E : tick_client station c = set_timeout (Z.of_nat (S n)) c).
    { unfold tick_client. rewrite Hs. destruct (Z.eqb_spec (Timeout c) 0); [lia|].
      replace (u32 (Timeout c - 1)) with (Z.of_nat (S n)) by (rewrite u32_small; [lia|word_lia]).
      cbn [Timeout set_timeout]. destruct (Z.eqb_spec (Z.of_nat (S n)) 0); [lia|done]. }
    rewrite E. rewrite IH; try done. simpl. lia.
Qed.

(** An offer that is not taken up expires: after as many ticks as the
    entry's timeout says, the entry is idle again and forgets the client. *)
Theorem offer_expires station s i c n :
  Enable (DhcpServer s) <> 0 -> clients s !! i = Some c ->
  State c = DHCP_CLIENT_STATE_REQUEST -> Timeout c = Z.of_nat (S n) -> Timeout c < 4294967296 ->
  clients (Nat.iter (S n) (_DhcpTickHandle station) s) !! i =
    Some (mkClient DHCP_CLIENT_STATE_IDLE 0 (IpAddr c) zero_mac (Lease c)).
Proof.
  intros He Hc Hs Ht Hlt. destruct (tick_nth station (S n) s c i He Hc) as [E _].
  rewrite E. f_equal. by apply tick_request_iter.
Qed.

Lemma offer_expires_witness :
  let c := mkClient DHCP_CLIENT_STATE_REQUEST 10 151103680 [2; 0; 0; 0; 0; 7] 100 in
  let s := mkDhcps (mkServer 1 true 0 0 0 0 0 0 0 [c]) [] [] in
  clients (Nat.iter 10 (_DhcpTickHandle (fun _ => 1)) s) !! 0%nat =
    Some (mkClient DHCP_CLIENT_STATE_IDLE 0 151103680 zero_mac 100).
Proof.
  intros c s. apply (offer_expires (fun _ => 1) s 0 c 9); [done|done|done|done|by vm_compute].
Defined.

