(* ===== verification/DnsServer.v ===== *)
(** The DNS server of [App/DnsServer/dns_server.c]: the comparison of a queried
    name with the configured one, the two replies, the receive callback, and
    configuring, starting and stopping.

    A datagram is copied into a block of its length; reading past the block is
    a [Crash].  [pbuf_ok] tells whether [pbuf_alloc] succeeds and [udp] what
    [udp_new] returns. *)
From S2P Require Import Prelude.

(** * Constants *)

Definition DNSS_ERR_SUCCESS : Z := 0.
Definition DNSS_ERR_LINKDOWN : Z := -1.
Definition DNSS_ERR_PARAM : Z := -2.
Definition DNSS_ERR_MEM : Z := -3.
Definition DNS_DEFAULT_TTL : Z := 3600.
Definition DNS_RRTYPE_A : Z := 1.
Definition DNS_RRCLASS_IN : Z := 1.
Definition DNS_FLAG1_RESPONSE : Z := 128.
Definition DNS_FLAG1_OPCODE_STANDARD : Z := 0.
Definition DNS_FLAG2_ERR_NONE : Z := 0.
Definition DNS_FLAG2_ERR_NAME : Z := 3.
Definition DNS_NAME_OFFSET : Z := 49152.

(** [sizeof] of the wire structures. *)
Definition sizeof_DNS_HEADER : Z := 12.
Definition sizeof_DNS_QUERY : Z := 4.
Definition sizeof_DNS_ANSWER : Z := 8.

(** * State *)

(** [DnsName] is the array of 32 bytes; [HostIp] the raw address word. *)
Record DNS_SERVER := mkDnsServer {
  Socket : option Z;
  DnsName : list Z;
  HostIp : Z
}.

(** The static, the sockets of lwIP that are open, and the datagrams sent so
    far: address, port, bytes. *)
Record Dnss := mkDnss {
  DnsServer : DNS_SERVER;
  pcbs : list Z;
  sent : list (Z * Z * list Z)
}.

Definition udp_sendto (Addr Port : Z) (data : list Z) (s : Dnss) : Dnss :=
  mkDnss (DnsServer s) (pcbs s) (sent s ++ [(Addr, Port, data)]).

(** * Comparing names *)

Definition Nst_Islower (c : Z) : bool := (97 <=? c) && (c <=? 122).
Definition Nst_ToUpper (c : Z) : Z := if Nst_Islower c then u8 (c - 97 + 65) else c.

(** How a comparison stops: with both pointers advanced, at a difference, or
    at a read outside one of the objects. *)
Inductive cmp :=
  | Same (i q : Z)
  | Differ
  | Overread.

(** The [while (n > 0)] loop: [i] is [MyDns] as an index of [DnsName], [q] is
    [Query] as an offset of the message. *)
Fixpoint compare_label (n : nat) (my : list Z) (i : Z) (msg : list Z) (q : Z) : cmp :=
  match n with
  | O => Same i q
  | S n =>
      match ld my i, ld msg q with
      | Some a, Some b =>
          if negb (Nst_ToUpper a =? Nst_ToUpper b) then Differ
          else compare_label n my (i + 1) msg (q + 1)
      | _, _ => Overread
      end
  end.

(** The outer [do ... while] loop, until the byte at [Query] is 0; [None] is out of fuel. *)
Fixpoint compare_loop (fuel : nat) (my : list Z) (i : Z) (msg : list Z) (q : Z) : option cmp :=
  match fuel with
  | O => None
  | S fuel =>
      match ld msg q with
      | None => Some Overread
      | Some n =>
          let q := q + 1 in
          if Z.land n 192 =? 192 then Some (Same i q)
          else
            match compare_label (Z.to_nat n) my i msg q with
            | Same i q =>
                let i := i + 1 in
                match ld msg q with
                | None => Some Overread
                | Some c => if negb (c =? 0) then compare_loop fuel my i msg q else Some (Same i q)
                end
            | r => Some r
            end
      end
  end.

(** The returned value: whether the byte before [MyDns] is 0. [None] is a read outside an object. *)
Definition verdict (my : list Z) (r : cmp) : option Z :=
  match r with
  | Same i _ => c ← ld my (i - 1); Some (if c =? 0 then 0 else 1)
  | Differ => Some 1
  | Overread => None
  end.

Definition _DnsCompareName (my msg : list Z) (query : Z) : option (option Z) :=
  match strlen msg query with
  | None => Some None
  | Some n =>
      if 32 <? u32 (n - 1) then Some (Some 1)
      else verdict my <$> compare_loop (S (length msg)) my 0 msg query
  end.

(** * Replies *)

(** [NST_MOVE_MEM(dst + doff, src + soff, len)]: the macro casts the length. *)
Definition NST_MOVE_MEM (dst : list Z) (doff : Z) (src : list Z) (soff len : Z) : option (list Z) :=
  data ← fetch src soff (u16 len);
  blit dst doff data.

(** The assignments to the members of [pDnsHeader]. *)
Definition put_header (reply : list Z) (TansactionId DnsFlag2 AnswerRR : Z) : option (list Z) :=
  reply ← blit reply 0 (le16 TansactionId);
  reply ← blit reply 2 [DNS_FLAG1_RESPONSE];
  reply ← blit reply 3 [DnsFlag2];
  reply ← blit reply 4 (le16 (htons 1));
  reply ← blit reply 6 (le16 AnswerRR);
  reply ← blit reply 8 (le16 0);
  blit reply 10 (le16 0).

Definition round4 (n : Z) : Z := Z.shiftl (Z.shiftr (n + 3) 2) 2.

Section Server.
Context `{Heap}.
Variable pbuf_ok : bool.

(** From [pbuf_alloc] to the end of the two senders. *)
Definition send_datagram (Addr Port : Z) (reply : list Z) (Len : Z) : M Dnss unit :=
  if pbuf_ok then
    data ← access (fun _ => fetch reply 0 Len);
    modify (udp_sendto Addr Port data)
  else mret tt.

(** [QueryName] is an offset of the message [msg]; [pDnsQuery] the bytes of
    the [DNS_QUERY] structure. *)
Definition _DNSNameErrGenAndSend (Addr Port : Z) (pDnsQuery msg : list Z) (QueryName TansactionId : Z)
  : M Dnss unit :=
  n ← access (fun _ => strlen msg QueryName);
  match malloc (round4 (sizeof_DNS_HEADER + (n + 1) + sizeof_DNS_QUERY)) with
  | None => mret tt
  | Some reply =>
      reply ← access (fun _ => put_header reply TansactionId DNS_FLAG2_ERR_NAME 0);
      let Body := sizeof_DNS_HEADER in
      let Len := sizeof_DNS_HEADER in
      reply ← access (fun _ => NST_MOVE_MEM reply Body msg QueryName (n + 1));
      let Body := Body + (n + 1) in
      let Len := Len + (n + 1) in
      reply ← access (fun _ => NST_MOVE_MEM reply Body pDnsQuery 0 sizeof_DNS_QUERY);
      let Len := Len + sizeof_DNS_QUERY in
      send_datagram Addr Port reply Len
  end.

Definition _DNSAnswerGenAndSend (Addr Port : Z) (pDnsQuery msg : list Z) (QueryName TansactionId : Z)
  : M Dnss unit :=
  n ← access (fun _ => strlen msg QueryName);
  match malloc (round4 (sizeof_DNS_HEADER + (n + 1) + sizeof_DNS_QUERY + 2 + sizeof_DNS_ANSWER + 2 + 4)) with
  | None => mret tt
  | Some reply =>
      reply ← access (fun _ => put_header reply TansactionId DNS_FLAG2_ERR_NONE (htons 1));
      let Body := sizeof_DNS_HEADER in
      let Len := sizeof_DNS_HEADER in
      reply ← access (fun _ => NST_MOVE_MEM reply Body msg QueryName (n + 1));
      let Body := Body + (n + 1) in
      let Len := Len + (n + 1) in
      reply ← access (fun _ => NST_MOVE_MEM reply Body pDnsQuery 0 sizeof_DNS_QUERY);
      let Body := Body + sizeof_DNS_QUERY in
      let Len := Len + sizeof_DNS_QUERY in
      let Tmp := htons (Z.lor DNS_NAME_OFFSET sizeof_DNS_HEADER) in
      reply ← access (fun _ => NST_MOVE_MEM reply Body (le16 Tmp) 0 2);
      let Body := Body + 2 in
      let Len := Len + 2 in
      let DnsAnswer := le16 (htons DNS_RRTYPE_A) ++ le16 (htons DNS_RRCLASS_IN) ++ le32 (htonl DNS_DEFAULT_TTL) in
      reply ← access (fun _ => NST_MOVE_MEM reply Body DnsAnswer 0 sizeof_DNS_ANSWER);
      let Body := Body + sizeof_DNS_ANSWER in
      let Len := Len + sizeof_DNS_ANSWER in
      reply ← access (fun _ => NST_MOVE_MEM reply Body (le16 (htons 4)) 0 2);
      let Body := Body + 2 in
      let Len := Len + 2 in
      ServerIpAddr ← gets (fun s => HostIp (DnsServer s));
      reply ← access (fun _ => NST_MOVE_MEM reply Body (le32 ServerIpAddr) 0 4);
      let Len := Len + 4 in
      send_datagram Addr Port reply Len
  end.

(** * The callback *)

(** The two tests on [DnsFlag1]. *)
Definition not_a_query (DnsFlag1 : Z) : bool :=
  negb (Z.land DnsFlag1 DNS_FLAG1_RESPONSE =? 0) ||
  negb (Z.land DnsFlag1 (Z.shiftl 15 3) =? DNS_FLAG1_OPCODE_STANDARD).

Definition DNSS_RecvCb (P : list Z) (Addr Port : Z) : M Dnss unit :=
  match malloc (zlen P) with
  | None => mret tt
  | Some pDnsMsg =>
      msg ← access (fun _ => blit pDnsMsg 0 P);
      DnsFlag1 ← access (fun _ => ld msg 2);
      if not_a_query DnsFlag1 then mret tt
      else
        let pDnsName := sizeof_DNS_HEADER in
        n ← access (fun _ => strlen msg pDnsName);
        DnsQuery ← access (fun _ => fetch msg (pDnsName + n + 1) sizeof_DNS_QUERY);
        let Type_ := of_le16 (ztake 2 DnsQuery) in
        let Class_ := of_le16 (zdrop 2 DnsQuery) in
        if negb (Class_ =? htons DNS_RRCLASS_IN) && negb (Type_ =? htons DNS_RRTYPE_A) then mret tt
        else
          my ← gets (fun s => DnsName (DnsServer s));
          r ← access (fun _ => mjoin (_DnsCompareName my msg pDnsName));
          TansactionId ← access (fun _ => of_le16 <$> fetch msg 0 2);
          if negb (r =? 0)
          then _DNSNameErrGenAndSend Addr Port DnsQuery msg pDnsName TansactionId
          else _DNSAnswerGenAndSend Addr Port DnsQuery msg pDnsName TansactionId
  end.
End Server.

(** * Configuring, starting and stopping *)

(** A [DnsName] argument: [None] is a null pointer, otherwise the bytes of the
    string before its terminator. *)
Definition DNSS_Config (name : option (list Z)) (s : Dnss) : outcome Dnss Z :=
  match name with
  | None => Done DNSS_ERR_PARAM s
  | Some name =>
      if 32 <? zlen name then Done DNSS_ERR_PARAM s
      else
        match blit (replicate 32 0) 0 name with
        | None => Crash
        | Some b =>
            let d := DnsServer s in
            Done DNSS_ERR_SUCCESS (mkDnss (mkDnsServer (Socket d) b (HostIp d)) (pcbs s) (sent s))
        end
  end.

(** [netif] is the interface: whether it is up and its address. *)
Definition DNSS_Start (netif : option (bool * Z)) (name : option (list Z)) (udp : option Z) (s : Dnss)
  : outcome Dnss Z :=
  match netif with
  | None => Done DNSS_ERR_PARAM s
  | Some (up, ip) =>
      match name with
      | None => Crash
      | Some name =>
          if 32 <? zlen name then Done DNSS_ERR_PARAM s
          else if negb up then Done DNSS_ERR_LINKDOWN s
          else
            match blit (replicate 32 0) 0 name with
            | None => Crash
            | Some b =>
                match udp with
                | None => Done DNSS_ERR_MEM (mkDnss (mkDnsServer None b ip) (pcbs s) (sent s))
                | Some pcb =>
                    Done DNSS_ERR_SUCCESS (mkDnss (mkDnsServer (Some pcb) b ip) (pcb :: pcbs s) (sent s))
                end
            end
      end
  end.

(** [udp_remove] frees the socket; the pointer stays in the structure, and
    removing a socket that is not open is a [Crash]. *)
Definition DNSS_Stop (s : Dnss) : outcome Dnss unit :=
  match Socket (DnsServer s) with
  | None => Done tt s
  | Some pcb =>
      if bool_decide (pcb ∈ pcbs s)
      then Done tt (mkDnss (DnsServer s) (filter (fun x => x <> pcb) (pcbs s)) (sent s))
      else Crash
  end.

(** * Specification: names *)

(** A name is a list of labels; on the wire each label follows its length. *)
Definition label_ok (l : list Z) : Prop := 1 <= zlen l <= 63 /\ Forall (fun c => 0 < c < 256) l.

#[export] Instance label_ok_dec l : Decision (label_ok l).
Proof. unfold label_ok. apply _. Defined.

Definition encode (ls : list (list Z)) : list Z := concat (map (fun l => zlen l :: l) ls).

(** Strip the label [l] from [name], ignoring case. *)
Fixpoint eat (l name : list Z) : option (list Z) :=
  match l, name with
  | [], _ => Some name
  | a :: l, b :: name => if Nst_ToUpper b =? Nst_ToUpper a then eat l name else None
  | _ :: _, [] => None
  end.

(** The labels [ls] spell [name]; the byte of [name] between two labels is
    not looked at. *)
Fixpoint same_name (ls : list (list Z)) (name : list Z) : bool :=
  match ls with
  | [] => false
  | [l] => match eat l name with Some [] => true | _ => false end
  | l :: ls => match eat l name with Some (_ :: name) => same_name ls name | _ => false end
  end.

(** The text form of a name. *)
Fixpoint dotted (ls : list (list Z)) : list Z :=
  match ls with
  | [] => []
  | [l] => l
  | l :: ls => l ++ 46 :: dotted ls
  end.

(** The array [DnsName] that holds the string [name]. *)
Definition holds (my name : list Z) : Prop :=
  my = name ++ replicate (32 - length name) 0 /\ zlen name <= 31 /\ Forall (fun c => 0 < c < 256) name.

Lemma upper_zero c : 0 <= c < 256 -> (Nst_ToUpper 0 =? Nst_ToUpper c) = (c =? 0).
Proof.
  intros H. apply eqb_prop.
  exact (u8_forall (fun c => eqb (Nst_ToUpper 0 =? Nst_ToUpper c) (c =? 0)) ltac:(by vm_compute) c H).
Qed.

Lemma label_length_plain n : 0 <= n <= 63 -> (Z.land n 192 =? 192) = false.
Proof.
  intros H. assert (Hn : is_u8 n) by word_lia.
  pose proof (u8_forall (fun n => implb (n <=? 63) (negb (Z.land n 192 =? 192)))
    ltac:(by vm_compute) n Hn) as E. cbv beta in E.
  destruct (Z.leb_spec n 63); [|lia]. by destruct (_ =? 192).
Qed.

Lemma compare_label_nil my i msg q : compare_label 0 my i msg q = Same i q.
Proof. done. Qed.

Lemma compare_label_app lab : forall pre name k pq rest,
  Forall (fun c => 0 < c < 256) lab -> (1 <= k)%nat \/ is_Some (eat lab name) ->
  compare_label (length lab) (pre ++ name ++ replicate k 0) (zlen pre) (pq ++ lab ++ rest) (zlen pq) =
  match eat lab name with
  | Some _ => Same (zlen pre + zlen lab) (zlen pq + zlen lab)
  | None => Differ
  end.
Proof.
  induction lab as [|b lab IH]; intros pre name k pq rest Hl Hk.
  { simpl. f_equal; zlen_lia. }
  apply Forall_cons_1 in Hl as [Hb Hl]. simpl. rewrite ld_mid.
  destruct name as [|a name]; simpl.
  - destruct k as [|k]; [destruct Hk as [|[? ?]]; [lia|done]|]. simpl. rewrite ld_mid, upper_zero by lia.
    by destruct (Z.eqb_spec b 0); [lia|].
  - rewrite ld_mid. simpl in Hk. destruct (_ =? _) eqn:E; simpl; [|done].
    specialize (IH (pre ++ [a]) name k (pq ++ [b]) rest Hl Hk).
    rewrite <- !app_assoc, !zlen_app in IH. simpl in IH.
    replace (zlen [a]) with 1 in IH by done. replace (zlen [b]) with 1 in IH by done.
    rewrite IH. destruct (eat lab name); [|done]. f_equal; zlen_lia.
Qed.

(** The name is used up and a further label is compared with what follows. *)
Lemma compare_label_zeros lab pre k pq rest :
  Forall (fun c => 0 < c < 256) lab -> lab <> [] -> (1 <= k)%nat ->
  compare_label (length lab) (pre ++ replicate k 0) (zlen pre) (pq ++ lab ++ rest) (zlen pq) = Differ.
Proof.
  intros Hl Hn Hk. pose proof (compare_label_app lab pre [] k pq rest Hl (or_introl Hk)) as E.
  by destruct lab; [|simpl in *].
Qed.

Lemma eat_length l : forall name rest, eat l name = Some rest -> zlen name = zlen l + zlen rest.
Proof.
  induction l as [|a l IH]; intros name rest; simpl; [intros [= ->]; zlen_lia|].
  destruct name as [|b name]; [done|]. destruct (_ =? _); [|done]. intros E%IH. zlen_lia.
Qed.

Lemma eat_suffix l : forall name rest, eat l name = Some rest -> rest = zdrop (zlen l) name.
Proof.
  induction l as [|a l IH]; intros name rest; simpl; [by intros [= ->]|].
  destruct name as [|b name]; [done|]. destruct (_ =? _); [|done]. intros E%IH.
  change (b :: name) with ([b] ++ name). rewrite zdrop_app_r by zlen_lia. rewrite E. f_equal. zlen_lia.
Qed.

Lemma eat_split l name rest : eat l name = Some rest ->
  exists p, name = p ++ rest /\ zlen p = zlen l.
Proof.
  intros E. exists (ztake (zlen l) name). split.
  - rewrite (eat_suffix _ _ _ E). by rewrite ztake_app_zdrop.
  - apply eat_length in E. zlen_lia.
Qed.

Lemma encode_cons l ls : encode (l :: ls) = zlen l :: l ++ encode ls.
Proof. done. Qed.

Lemma encode_nonzero ls : Forall label_ok ls -> Forall (fun c => c <> 0) (encode ls).
Proof.
  induction 1 as [|l ls [Hl Hc] _ IH]; [done|]. rewrite encode_cons.
  constructor; [lia|]. apply Forall_app. split; [|done]. eapply Forall_impl; [|exact Hc]. simpl. lia.
Qed.

Lemma encode_pos l ls : label_ok l -> 2 <= zlen (encode (l :: ls)).
Proof. intros [H _]. rewrite encode_cons. zlen_lia. Qed.

(** * The comparison *)

Lemma next_label_zeros fuel l ls pre k pq rest :
  label_ok l ->
  (compare_loop (S fuel) (pre ++ replicate (S k) 0) (zlen pre) (pq ++ encode (l :: ls) ++ rest) (zlen pq)
    ≫= fun r => verdict (pre ++ replicate (S k) 0) r) = Some 1.
Proof.
  intros [Hl Hc]. rewrite encode_cons. cbn [compare_loop]. simpl app. rewrite ld_mid.
  rewrite label_length_plain by lia. replace (Z.to_nat (zlen l)) with (length l) by (unfold zlen; lia).
  replace (zlen pq + 1) with (zlen (pq ++ [zlen l])) by zlen_lia.
  replace (pq ++ zlen l :: (l ++ encode ls) ++ rest)
    with ((pq ++ [zlen l]) ++ l ++ (encode ls ++ rest)) by (rewrite <- !app_assoc; done).
  change (0 :: replicate k 0) with (replicate (S k) 0).
  rewrite compare_label_zeros; [done|done| |lia]. intros ->. zlen_lia.
Qed.

Lemma compare_loop_spec ls : forall fuel pre name k pq rest,
  ls <> [] -> Forall label_ok ls -> (length ls <= fuel)%nat -> (1 <= k)%nat ->
  zlen (encode ls) - 1 <= zlen name + Z.of_nat k ->
  Forall (fun c => 0 < c < 256) name ->
  let my := pre ++ name ++ replicate k 0 in
  (compare_loop fuel my (zlen pre) (pq ++ encode ls ++ 0 :: rest) (zlen pq) ≫= fun r => verdict my r) =
  Some (if same_name ls name then 0 else 1).
Proof.
  induction ls as [|l ls IH]; intros fuel pre name k pq rest Hne Hok Hf Hk Hlen Hname; [done|].
  apply Forall_cons_1 in Hok as [[Hl Hc] Hok]. destruct fuel as [|fuel]; [simpl in Hf; lia|].
  cbn zeta. rewrite encode_cons. simpl compare_loop. rewrite ld_mid.
  rewrite label_length_plain by lia. replace (Z.to_nat (zlen l)) with (length l) by (unfold zlen; lia).
  replace (zlen pq + 1) with (zlen (pq ++ [zlen l])) by zlen_lia.
  replace (pq ++ zlen l :: (l ++ encode ls) ++ 0 :: rest)
    with ((pq ++ [zlen l]) ++ l ++ (encode ls ++ 0 :: rest)) by (rewrite <- !app_assoc; done).
  rewrite compare_label_app by auto.
  destruct (eat l name) as [name'|] eqn:Ee; [|by destruct ls; simpl; rewrite Ee].
  pose proof (eat_length _ _ _ Ee) as Hel.
  destruct (eat_split _ _ _ Ee) as (p & -> & Hp).
  apply Forall_app in Hname as [Hp0 Hname'].
  replace ((pq ++ [zlen l]) ++ l ++ encode ls ++ 0 :: rest)
    with (((pq ++ [zlen l]) ++ l) ++ encode ls ++ 0 :: rest) by (rewrite <- !app_assoc; done).
  replace (zlen (pq ++ [zlen l]) + zlen l) with (zlen ((pq ++ [zlen l]) ++ l)) by zlen_lia.
  set (pq' := (pq ++ [zlen l]) ++ l).
  replace (pre ++ (p ++ name') ++ replicate k 0) with ((pre ++ p) ++ name' ++ replicate k 0)
    by (rewrite <- !app_assoc; done).
  replace (zlen pre + zlen l) with (zlen (pre ++ p)) by zlen_lia.
  destruct ls as [|l2 ls].
  - change (encode [] ++ 0 :: rest) with (0 :: rest). rewrite ld_mid. simpl. rewrite Ee.
    replace (zlen (pre ++ p) + 1 - 1) with (zlen (pre ++ p)) by lia.
    destruct name' as [|c name']; simpl.
    + destruct k as [|k]; [lia|]. simpl. by rewrite ld_mid.
    + rewrite ld_mid. simpl. apply Forall_cons_1 in Hname' as [Hc' _].
      by destruct (Z.eqb_spec c 0); [lia|].
  - pose proof (Forall_cons_1 _ _ _ Hok) as [[Hl2 Hc2] _].
    change (encode (l2 :: ls) ++ 0 :: rest) with (zlen l2 :: (l2 ++ encode ls) ++ 0 :: rest).
    rewrite ld_mid. destruct (Z.eqb_spec (zlen l2) 0) as [E0|_]; [lia|]. cbn [negb].
    replace (same_name (l :: l2 :: ls) (p ++ name'))
      with (match name' with _ :: n => same_name (l2 :: ls) n | [] => false end)
      by (simpl; rewrite Ee; by destruct name').
    change (zlen l2 :: (l2 ++ encode ls) ++ 0 :: rest) with (encode (l2 :: ls) ++ 0 :: rest).
    destruct name' as [|c name'].
    + rewrite encode_cons in Hlen. rewrite zlen_cons, zlen_app in Hlen.
      pose proof (encode_pos l2 ls ltac:(by split)). rewrite app_nil_r in *. simpl app.
      destruct k as [|[|k]]; [lia|zlen_lia|]. simpl length in Hf. destruct fuel as [|fuel]; [lia|].
      replace ((pre ++ p) ++ replicate (S (S k)) 0)
        with (((pre ++ p) ++ [0]) ++ replicate (S k) 0) by (by rewrite <- (app_assoc (pre ++ p))).
      replace (zlen (pre ++ p) + 1) with (zlen ((pre ++ p) ++ [0])) by zlen_lia.
      by apply next_label_zeros.
    + apply Forall_cons_1 in Hname' as [Hc' Hname'].
      specialize (IH fuel ((pre ++ p) ++ [c]) name' k pq' rest).
      cbn zeta in IH. rewrite zlen_app in IH. replace (zlen [c]) with 1 in IH by done.
      rewrite <- (app_assoc (pre ++ p) [c]) in IH. simpl in Hf. apply IH; try done; try (simpl; lia).
      rewrite (encode_cons l) in Hlen. zlen_lia.
Qed.

Lemma same_name_length ls : forall name,
  same_name ls name = true -> zlen name = zlen (encode ls) - 1.
Proof.
  induction ls as [|l ls IH]; intros name E; [done|].
  destruct ls as [|l2 ls]; simpl in E; destruct (eat l name) as [[|c rest]|] eqn:Ee; try done;
    apply eat_length in Ee.
  - unfold encode. simpl. zlen_lia.
  - rewrite encode_cons. apply IH in E. zlen_lia.
Qed.

Lemma length_encode ls : (length ls <= length (encode ls))%nat.
Proof.
  induction ls as [|l ls IH]; [done|]. rewrite encode_cons. simpl. rewrite length_app. lia.
Qed.

Lemma DnsCompareName_spec my name hdr ls rest :
  holds my name -> Forall label_ok ls -> zlen (encode ls) < 4294967296 ->
  _DnsCompareName my (hdr ++ encode ls ++ 0 :: rest) (zlen hdr) =
  Some (Some (if same_name ls name then 0 else 1)).
Proof.
  intros (-> & Hlen & Hname) Hok Hw. unfold _DnsCompareName.
  rewrite strlen_app by by apply encode_nonzero.
  destruct ls as [|l ls]; [done|].
  pose proof (encode_pos l ls (proj1 (Forall_cons_1 _ _ _ Hok))) as Hpos.
  rewrite u32_small by word_lia. destruct (Z.ltb_spec 32 (zlen (encode (l :: ls)) - 1)).
  - destruct (same_name (l :: ls) name) eqn:E; [|done]. apply same_name_length in E. lia.
  - pose proof (compare_loop_spec (l :: ls) (S (length (hdr ++ encode (l :: ls) ++ 0 :: rest))) []
      name (32 - length name) hdr rest) as E. cbn zeta in E. rewrite app_nil_l in E.
    unfold zlen in Hlen.
    assert (Hb : (length (l :: ls) <= S (length (hdr ++ encode (l :: ls) ++ 0%Z :: rest)))%nat).
    { pose proof (length_encode (l :: ls)). rewrite !length_app. lia. }
    specialize (E ltac:(done) Hok Hb ltac:(lia) ltac:(unfold zlen at 2; lia) Hname).
    change (zlen []) with 0 in E. destruct (compare_loop _ _ _ _ _) as [r|]; [|done].
    simpl in E |- *. by rewrite E.
Qed.

(** * The replies *)

Definition response_header (id : list Z) (DnsFlag2 answers : Z) : list Z :=
  id ++ [128; DnsFlag2] ++ be16 1 ++ be16 answers ++ be16 0 ++ be16 0.

(** The question is repeated, with the type and class of the query. *)
Definition question (ls : list (list Z)) (qt qc : list Z) : list Z := encode ls ++ [0] ++ qt ++ qc.

Definition answer (id : list Z) (ls : list (list Z)) (qt qc : list Z) (ip : Z) : list Z :=
  response_header id 0 1 ++ question ls qt qc ++
  be16 49164 ++ be16 1 ++ be16 1 ++ be32 3600 ++ be16 4 ++ le32 ip.

Definition name_error (id : list Z) (ls : list (list Z)) (qt qc : list Z) : list Z :=
  response_header id 3 0 ++ question ls qt qc.

Lemma put_at (d t : list Z) off src :
  off = zlen d -> zlen src <= zlen t -> blit (d ++ t) off src = Some ((d ++ src) ++ zdrop (zlen src) t).
Proof. intros ->. apply blit_next. Qed.

Lemma move_at (d t pre src post : list Z) off soff n :
  off = zlen d -> soff = zlen pre -> n = zlen src -> n < 65536 -> n <= zlen t ->
  NST_MOVE_MEM (d ++ t) off (pre ++ src ++ post) soff n = Some ((d ++ src) ++ zdrop n t).
Proof.
  intros -> -> -> Hn Ht. unfold NST_MOVE_MEM. rewrite u16_small by (pose proof (zlen_nonneg src); word_lia).
  rewrite fetch_mid by done. simpl. by apply blit_next.
Qed.

Lemma move_all (d t src : list Z) off n :
  off = zlen d -> n = zlen src -> n < 65536 -> n <= zlen t ->
  NST_MOVE_MEM (d ++ t) off src 0 n = Some ((d ++ src) ++ zdrop n t).
Proof.
  intros. rewrite <- (app_nil_r src) at 1. by apply (move_at d t [] src []).
Qed.

Lemma fetch_prefix (d t : list Z) n : n = zlen d -> fetch (d ++ t) 0 n = Some d.
Proof. intros ->. by apply (fetch_mid [] d t). Qed.

Lemma put_header_spec reply a b f an :
  is_u8 a -> is_u8 b -> 12 <= zlen reply ->
  put_header reply (of_le16 [a; b]) f an =
  Some (([a; b] ++ [128; f] ++ [0; 1] ++ le16 an ++ [0; 0; 0; 0]) ++ zdrop 12 reply).
Proof.
  intros Ha Hb Hl. unfold put_header. rewrite le16_of_le16 by done.
  rewrite <- (app_nil_l reply) at 1.
  do 7 (rewrite put_at by zlen_lia;
    cbn [mbind option_bind]).
  rewrite !zdrop_zdrop by zlen_lia. rewrite <- !app_assoc. done.
Qed.

Lemma round4_le n : n <= round4 n <= n + 3.
Proof. unfold round4. rewrite Z.shiftl_mul_pow2, Z.shiftr_div_pow2 by lia.
  change (2 ^ 2) with 4. Z.div_mod_to_equations. lia.
Qed.

Lemma zlen_zdrop_le {A} n (l : list A) : 0 <= n <= zlen l -> zlen (zdrop n l) = zlen l - n.
Proof. intros. zlen_lia. Qed.

Section Replies.
Context `{Heap}.
Variables (lim : Z) (ls : list (list Z)) (a b : Z) (qt qc hdr rest : list Z).
Hypotheses (Hg : Grants lim) (Hok : Forall label_ok ls) (Ha : is_u8 a) (Hb : is_u8 b).
Hypotheses (Ht : zlen qt = 2) (Hc : zlen qc = 2) (Hh : zlen hdr = 12).
Hypotheses (Hw : zlen (encode ls) < 65535) (Hlim : zlen (encode ls) + 36 <= lim).

Let msg : list Z := hdr ++ encode ls ++ 0 :: rest.

Lemma msg_name : msg = hdr ++ (encode ls ++ [0]) ++ rest.
Proof. unfold msg. by rewrite <- app_assoc. Qed.

Lemma NameErr_spec Addr Port s :
  _DNSNameErrGenAndSend true Addr Port (qt ++ qc) msg 12 (of_le16 [a; b]) s =
  Done tt (udp_sendto Addr Port (name_error [a; b] ls qt qc) s).
Proof.
  unfold _DNSNameErrGenAndSend, send_datagram, access, modify, mbind, M_bind, option_bind.
  unfold msg at 1. rewrite <- Hh at 1. rewrite strlen_app by by apply encode_nonzero.
  unfold sizeof_DNS_HEADER, sizeof_DNS_QUERY.
  pose proof (round4_le (12 + (zlen (encode ls) + 1) + 4)) as Hr.
  pose proof (zlen_nonneg (encode ls)) as Hn.
  destruct (Hg (round4 (12 + (zlen (encode ls) + 1) + 4)) ltac:(lia)) as [reply Er]. rewrite Er.
  apply malloc_len in Er; [|lia]. rewrite put_header_spec by (done || lia).
  rewrite msg_name.
  rewrite (move_at _ _ hdr (encode ls ++ [0]) rest);
    [|done|done|zlen_lia|lia|zlen_lia].
  rewrite move_all; [|zlen_lia|zlen_lia|lia|zlen_lia].
  rewrite fetch_prefix by zlen_lia.
  unfold name_error, question. by rewrite <- !app_assoc.
Qed.

Lemma Answer_spec Addr Port s :
  _DNSAnswerGenAndSend true Addr Port (qt ++ qc) msg 12 (of_le16 [a; b]) s =
  Done tt (udp_sendto Addr Port (answer [a; b] ls qt qc (HostIp (DnsServer s))) s).
Proof.
  unfold _DNSAnswerGenAndSend, send_datagram, access, modify, gets, mbind, M_bind, option_bind.
  unfold msg at 1. rewrite <- Hh at 1. rewrite strlen_app by by apply encode_nonzero.
  unfold sizeof_DNS_HEADER, sizeof_DNS_QUERY, sizeof_DNS_ANSWER.
  pose proof (round4_le (12 + (zlen (encode ls) + 1) + 4 + 2 + 8 + 2 + 4)) as Hr.
  pose proof (zlen_nonneg (encode ls)) as Hn.
  destruct (Hg (round4 (12 + (zlen (encode ls) + 1) + 4 + 2 + 8 + 2 + 4)) ltac:(lia)) as [reply Er].
  rewrite Er. apply malloc_len in Er; [|lia]. rewrite put_header_spec by (done || lia).
  rewrite msg_name.
  rewrite (move_at _ _ hdr (encode ls ++ [0]) rest); [|done|done|zlen_lia|lia|zlen_lia].
  do 5 (rewrite move_all; [|zlen_lia|zlen_lia|lia|zlen_lia]).
  rewrite fetch_prefix by zlen_lia.
  unfold answer, question. by rewrite <- !app_assoc.
Qed.
End Replies.

(** * The callback *)

(** A query: two bytes of transaction id, the flag bytes, the four counts,
    the name, the type, the class, and what follows. *)
Definition dns_query (id : list Z) (f1 f2 : Z) (counts : list Z) (ls : list (list Z))
  (qt qc rest : list Z) : list Z :=
  (id ++ [f1; f2] ++ counts) ++ encode ls ++ 0 :: qt ++ qc ++ rest.

Section Callback.
Context `{Heap}.
Variables (pbuf_ok : bool) (P : list Z) (Addr Port : Z).

(** The callback once the datagram is in its block. *)
Lemma RecvCb_copied s :
  is_Some (malloc (zlen P)) -> zlen P < 65536 ->
  DNSS_RecvCb pbuf_ok P Addr Port s =
  match ld P 2 with
  | None => Crash
  | Some DnsFlag1 =>
      if not_a_query DnsFlag1 then Done tt s
      else
        match strlen P 12 ≫= fun n => fetch P (12 + n + 1) 4 with
        | None => Crash
        | Some DnsQuery =>
            if negb (of_le16 (zdrop 2 DnsQuery) =? htons DNS_RRCLASS_IN) &&
               negb (of_le16 (ztake 2 DnsQuery) =? htons DNS_RRTYPE_A) then Done tt s
            else
              match mjoin (_DnsCompareName (DnsName (DnsServer s)) P 12), of_le16 <$> fetch P 0 2 with
              | Some r, Some id =>
                  if negb (r =? 0)
                  then _DNSNameErrGenAndSend pbuf_ok Addr Port DnsQuery P 12 id s
                  else _DNSAnswerGenAndSend pbuf_ok Addr Port DnsQuery P 12 id s
              | _, _ => Crash
              end
        end
  end.
Proof.
  intros [blk Eb] Hw. unfold DNSS_RecvCb. rewrite Eb.
  apply malloc_len in Eb; [|pose proof (zlen_nonneg P); lia].
  unfold access, gets, mbind, M_bind, sizeof_DNS_HEADER, sizeof_DNS_QUERY.
  rewrite <- (app_nil_l blk), put_at by (done || lia).
  rewrite zdrop_all, app_nil_r by lia. rewrite app_nil_l.
  destruct (ld P 2); [|done]. destruct (not_a_query _); [done|].
  destruct (strlen P 12); [|done]. cbn [option_bind]. destruct (fetch P _ 4); [|done].
  destruct (negb _ && negb _); [done|].
  destruct (mjoin _); [|done]. destruct (of_le16 <$> _); [|done]. by destruct (negb _).
Qed.
End Callback.

Definition is_in_or_a (qt qc : list Z) : bool :=
  bool_decide (qc = [0; 1]) || bool_decide (qt = [0; 1]).

Lemma type_class_test qt qc :
  Bytes qt -> Bytes qc -> zlen qt = 2 -> zlen qc = 2 ->
  negb (of_le16 (zdrop 2 (qt ++ qc)) =? htons DNS_RRCLASS_IN) &&
  negb (of_le16 (ztake 2 (qt ++ qc)) =? htons DNS_RRTYPE_A) = negb (is_in_or_a qt qc).
Proof.
  intros Bt Bc Ht Hc.
  destruct qt as [|t1 [|t2 [|]]]; try (unfold zlen in Ht; simpl in Ht; lia).
  destruct qc as [|c1 [|c2 [|]]]; try (unfold zlen in Hc; simpl in Hc; lia).
  change (zdrop 2 ([t1; t2] ++ [c1; c2])) with [c1; c2].
  change (ztake 2 ([t1; t2] ++ [c1; c2])) with [t1; t2].
  change (htons _) with 256. change (htons DNS_RRTYPE_A) with 256.
  unfold Bytes in *.
  repeat match goal with H : Forall is_u8 (_ :: _) |- _ => apply Forall_cons_1 in H as [? H] end.
  assert (E : forall x y, is_u8 x -> is_u8 y -> (of_le16 [x; y] =? 256) = bool_decide ([x; y] = [0; 1])).
  { intros x y Hx Hy. unfold of_le16. case_bool_decide as E.
    - by injection E as -> ->.
    - apply Z.eqb_neq. intros E1. apply E. f_equal; [|f_equal]; word_lia. }
  rewrite !E by done. unfold is_in_or_a. by rewrite negb_orb.
Qed.

(** C33: a standard query for a name is answered when its class is IN or its
    type is A: with the server's address when the labels spell the configured
    name without regard to case, and with a name error otherwise.  Exactly one
    datagram is sent, to the address and port the query came from; it carries
    the query's transaction id and repeats its question.  A query of the class
    IN is answered with an A record whatever its type. *)
Theorem DNSS_RecvCb_answers `{Heap} lim `{!Grants lim} name a b f1 f2 counts ls qt qc rest Addr Port s
    (P := dns_query [a; b] f1 f2 counts ls qt qc rest) :
  holds (DnsName (DnsServer s)) name -> Forall label_ok ls ->
  is_u8 a -> is_u8 b -> zlen counts = 8 ->
  Bytes qt -> Bytes qc -> zlen qt = 2 -> zlen qc = 2 ->
  not_a_query f1 = false -> is_in_or_a qt qc = true ->
  zlen P < 65536 -> zlen P + 19 <= lim ->
  DNSS_RecvCb true P Addr Port s =
  Done tt (udp_sendto Addr Port
    (if same_name ls name then answer [a; b] ls qt qc (HostIp (DnsServer s))
     else name_error [a; b] ls qt qc) s).
Proof.
  intros Hn Hok Ha Hb Hk Bt Bc Ht Hc Hf Hi Hw Hl.
  assert (HP : P = ([a; b] ++ [f1; f2] ++ counts) ++ encode ls ++ 0 :: (qt ++ qc ++ rest)) by done.
  set (hdr := [a; b] ++ [f1; f2] ++ counts) in HP.
  assert (Hh : zlen hdr = 12) by (unfold hdr; zlen_lia).
  assert (Hsz : zlen P = zlen (encode ls) + 17 + zlen rest) by (rewrite HP; zlen_lia).
  pose proof (zlen_nonneg rest). pose proof (zlen_nonneg (encode ls)).
  rewrite RecvCb_copied by (try apply granted; lia).
  assert (E2 : ld P 2 = Some f1) by done. rewrite E2, Hf.
  assert (Hs : strlen P 12 = Some (zlen (encode ls))).
  { rewrite <- Hh, HP. apply strlen_app. by apply encode_nonzero. }
  rewrite Hs. cbn [mbind option_bind].
  assert (Hq : fetch P (12 + zlen (encode ls) + 1) 4 = Some (qt ++ qc)).
  { replace (12 + zlen (encode ls) + 1) with (zlen (hdr ++ encode ls ++ [0])) by zlen_lia.
    rewrite HP. replace (hdr ++ encode ls ++ 0 :: qt ++ qc ++ rest)
      with ((hdr ++ encode ls ++ [0]) ++ (qt ++ qc) ++ rest) by (rewrite <- !app_assoc; done).
    apply fetch_mid. zlen_lia. }
  rewrite Hq, type_class_test, Hi by done. cbn [negb].
  assert (Hcmp := DnsCompareName_spec _ name hdr ls (qt ++ qc ++ rest) Hn Hok ltac:(lia)).
  rewrite Hh, <- HP in Hcmp. rewrite Hcmp.
  assert (Hid : fetch P 0 2 = Some [a; b]) by (by apply (fetch_prefix [a; b])).
  rewrite Hid. cbn [mjoin option_join fmap option_fmap option_map]. rewrite HP.
  destruct (same_name ls name); cbn [Z.eqb negb].
  - apply (Answer_spec lim); done || lia.
  - apply (NameErr_spec lim); done || lia.
Qed.

(** * Names without regard to case *)

Definition upper : list Z -> list Z := map Nst_ToUpper.

(** Equality of names as DNS defines it: label by label, ignoring case. *)
Definition same_labels (ls ls' : list (list Z)) : Prop := map upper ls = map upper ls'.

#[export] Instance same_labels_dec ls ls' : Decision (same_labels ls ls').
Proof. unfold same_labels. apply _. Defined.

Definition dot_free (l : list Z) : Prop := label_ok l /\ 46 ∉ l.

#[export] Instance dot_free_dec l : Decision (dot_free l).
Proof. unfold dot_free. apply _. Defined.

Fixpoint dots (l : list Z) : nat :=
  match l with
  | [] => 0
  | c :: l => if c =? 46 then S (dots l) else dots l
  end.

Lemma dots_app l k : dots (l ++ k) = (dots l + dots k)%nat.
Proof. induction l as [|c l IH]; simpl; [done|]. rewrite IH. by destruct (c =? 46). Qed.

Lemma dots_free l : 46 ∉ l -> dots l = 0%nat.
Proof.
  induction l as [|c l IH]; [done|]. intros [Hc Hl]%not_elem_of_cons. simpl.
  destruct (Z.eqb_spec c 46); [done|]. by apply IH.
Qed.

Lemma dots_dotted ls : Forall dot_free ls -> dots (dotted ls) = (length ls - 1)%nat.
Proof.
  induction 1 as [|l ls [_ Hd] Hls IH]; [done|]. destruct ls as [|l2 ls]; [by apply dots_free|].
  change (dotted (l :: l2 :: ls)) with (l ++ [46] ++ dotted (l2 :: ls)).
  rewrite !dots_app, dots_free, IH by done. simpl. lia.
Qed.

Lemma eat_upper l : forall p r, upper p = upper l -> eat l (p ++ r) = Some r.
Proof.
  induction l as [|a l IH]; intros [|b p] r; simpl; try done.
  intros [= E1 E2]. rewrite E1, Z.eqb_refl. by apply IH.
Qed.

Lemma eat_inv l : forall name r, eat l name = Some r -> exists p, name = p ++ r /\ upper p = upper l.
Proof.
  induction l as [|a l IH]; intros name r; simpl; [intros [= ->]; by exists []|].
  destruct name as [|b name]; [done|]. destruct (Z.eqb_spec (Nst_ToUpper b) (Nst_ToUpper a)) as [E|]; [|done].
  intros (p & -> & Hp)%IH. exists (b :: p). split; [done|]. simpl. by rewrite E, Hp.
Qed.

Lemma upper_dot c : Nst_ToUpper c = 46 -> c = 46.
Proof.
  unfold Nst_ToUpper, Nst_Islower.
  destruct (Z.leb_spec 97 c), (Z.leb_spec c 122); simpl; word_lia.
Qed.

Lemma upper_dot_free p l : upper p = upper l -> 46 ∉ l -> 46 ∉ p.
Proof.
  intros E Hl Hp. apply Hl. assert (Hi : 46 ∈ upper p) by (apply list_elem_of_fmap; exists 46; by split).
  rewrite E in Hi. apply list_elem_of_fmap in Hi as (c & Hc & Hin).
  by rewrite <- (upper_dot c) by done.
Qed.

Lemma same_name_dots ls : forall name,
  Forall dot_free ls -> same_name ls name = true -> (dots name <= length ls - 1)%nat.
Proof.
  induction ls as [|l ls IH]; intros name Hd E; [done|].
  apply Forall_cons_1 in Hd as [[_ Hl] Hd].
  destruct ls as [|l2 ls]; simpl in E; destruct (eat l name) as [[|c rest]|] eqn:Ee; try done;
    apply eat_inv in Ee as (p & -> & Hp); rewrite dots_app, (dots_free p) by by eapply upper_dot_free.
  - simpl. lia.
  - apply IH in E; [|done]. change (c :: rest) with ([c] ++ rest). rewrite dots_app.
    assert (dots [c] <= 1)%nat by (simpl; destruct (c =? 46); lia). simpl in *. lia.
Qed.

Lemma same_name_refl ls : forall ls', same_labels ls ls' -> ls <> [] -> same_name ls (dotted ls') = true.
Proof.
  induction ls as [|l ls IH]; intros [|l' ls']; unfold same_labels; simpl; try done.
  intros [= El Els] _. destruct ls as [|l2 ls], ls' as [|l2' ls']; try done.
  - rewrite <- (app_nil_r l'). by rewrite eat_upper.
  - rewrite eat_upper by done. by apply IH.
Qed.

Lemma dotted_cons l l2 ls : dotted (l :: l2 :: ls) = l ++ 46 :: dotted (l2 :: ls).
Proof. done. Qed.

Lemma same_name_cons l l2 ls name : same_name (l :: l2 :: ls) name =
  match eat l name with Some (_ :: name) => same_name (l2 :: ls) name | _ => false end.
Proof. done. Qed.

Lemma same_name_inv ls : forall ls', length ls = length ls' ->
  Forall dot_free ls -> Forall dot_free ls' -> same_name ls (dotted ls') = true -> same_labels ls ls'.
Proof.
  induction ls as [|l ls IH]; intros [|l' ls'] Hlen Hd Hd' E; try done.
  apply Forall_cons_1 in Hd as [[_ Hl] Hd], Hd' as [[_ Hl'] Hd'].
  destruct ls as [|l2 ls], ls' as [|l2' ls']; try done;
    [simpl in E; destruct (eat l l') as [[|c rest]|] eqn:Ee
    |rewrite dotted_cons, same_name_cons in E; destruct (eat l _) as [[|c rest]|] eqn:Ee]; try done;
    apply eat_inv in Ee as (p & Ep & Hp).
  - rewrite app_nil_r in Ep. subst. unfold same_labels. simpl. by rewrite Hp.
  - pose proof (upper_dot_free _ _ Hp Hl) as Hpd. change (Forall dot_free (l2' :: ls')) in Hd'.
    pose proof (dots_dotted _ Hd') as Hdots.
    remember (dotted (l2' :: ls')) as d eqn:Ed.
    assert (Hc : p = l' /\ rest = d).
    { symmetry in Ep. apply app_eq_inv in Ep as [(k & -> & Ek)|(k & -> & Ek)].
      - destruct k as [|c' k]; [by injection Ek as Ec ->; rewrite app_nil_r|].
        exfalso. injection Ek as Ec _. subst c'. apply Hpd, elem_of_app. right. left.
      - destruct k as [|c' k]; [by injection Ek as Ec ->; rewrite app_nil_r|].
        exfalso. injection Ek as Ec ->. apply same_name_dots in E; [|done].
        rewrite dots_app in E. simpl in E, Hdots. rewrite Hdots in E. simpl in *. lia. }
    destruct Hc as [-> ->]. subst d. unfold same_labels in *. simpl. rewrite Hp. f_equal.
    apply (IH (l2' :: ls')); [simpl in *; lia|done..].
Qed.

(** The configured name [dotted ls'] is recognised in a query with the
    same number of labels exactly when the labels are equal without regard to
    case. *)
Theorem DnsCompareName_correct my hdr ls ls' rest :
  holds my (dotted ls') -> length ls = length ls' -> ls <> [] ->
  Forall dot_free ls -> Forall dot_free ls' -> zlen (encode ls) < 4294967296 ->
  _DnsCompareName my (hdr ++ encode ls ++ 0 :: rest) (zlen hdr) =
  Some (Some (if bool_decide (same_labels ls ls') then 0 else 1)).
Proof.
  intros Hm Hlen Hne Hd Hd' Hw.
  assert (Hok : Forall label_ok ls) by (eapply Forall_impl; [|exact Hd]; by intros ? []).
  rewrite (DnsCompareName_spec _ _ _ _ _ Hm Hok Hw). do 2 f_equal.
  case_bool_decide as E; [by rewrite same_name_refl|].
  destruct (same_name _ _) eqn:E2; [|done]. exfalso. by eapply E, same_name_inv.
Qed.

(** The separator of the configured name is not looked at: the query "a.bc"
    is taken for the name "abbc". *)
Lemma separator_not_compared :
  _DnsCompareName ([97; 98; 98; 99] ++ replicate 28 0) ([1; 97; 2; 98; 99; 0] ++ [0; 1; 0; 1]) 0 = Some (Some 0).
Proof. reflexivity. Qed.

(** A datagram that is too short to hold the flags, or a standard query
    whose name is not terminated, or one that ends inside the type and class,
    makes the callback read past the block it copied the datagram to. *)
Theorem DNSS_RecvCb_overread `{Heap} lim `{!Grants lim} pbuf_ok P Addr Port s :
  zlen P < 65536 -> zlen P <= lim ->
  match ld P 2 with
  | None => True
  | Some f1 =>
      not_a_query f1 = false /\
      (Forall (fun c => c <> 0) (zdrop 12 P) \/
       exists n, strlen P 12 = Some n /\ zlen P < 12 + n + 5)
  end ->
  DNSS_RecvCb pbuf_ok P Addr Port s = Crash.
Proof.
  intros Hw Hl HP. pose proof (zlen_nonneg P).
  rewrite RecvCb_copied by (try apply granted; lia).
  destruct (ld P 2) as [f1|]; [|done]. destruct HP as [-> HP].
  replace (strlen P 12 ≫= _) with (@None (list Z)); [done|]. symmetry.
  destruct HP as [HP|(n & -> & Hn)].
  - unfold strlen. by rewrite strlen_list_None.
  - simpl. unfold fetch. destruct (Z.leb_spec (12 + n + 1 + 4) (zlen P)); [lia|]. by rewrite andb_false_r.
Qed.

(** * Configuring *)

Lemma blit_name name : zlen name <= 32 ->
  blit (replicate 32 0) 0 name = Some (name ++ replicate (32 - length name) 0).
Proof.
  intros Hn. change (replicate 32 0) with ([] ++ replicate 32 0).
  rewrite (blit_next []) by (unfold zlen in *; rewrite length_replicate; lia).
  unfold zdrop, zlen. rewrite Nat2Z.id, drop_replicate. done.
Qed.

(** Starting the server with the 32-character name that the length check
    lets through leaves [DnsName] without a terminator, and the query for that
    name makes the comparison read past the array; a name of 31 characters is
    stored with its terminator. *)
Theorem DNSS_Start_name `{Heap} lim `{!Grants lim} name ip pcb s :
  Forall (fun c => 0 < c < 256) name -> zlen name <= 32 -> 65536 <= lim ->
  exists s', DNSS_Start (Some (true, ip)) (Some name) (Some pcb) s = Done DNSS_ERR_SUCCESS s' /\
    HostIp (DnsServer s') = ip /\
    (zlen name <= 31 -> holds (DnsName (DnsServer s')) name) /\
    (zlen name = 32 -> forall a b f2 counts rest Addr Port,
       zlen counts = 8 -> not_a_query f2 = false -> zlen rest < 1000 ->
       DNSS_RecvCb true (dns_query [a; b] f2 0 counts [name] [0; 1] [0; 1] rest) Addr Port s' = Crash).
Proof.
  intros Hc Hn Hlim. unfold DNSS_Start. destruct (Z.ltb_spec 32 (zlen name)); [lia|]. cbn [negb].
  rewrite blit_name by done. eexists. split; [done|]. split; [done|]. split; [by split|].
  intros Hn' a b f2 counts rest Addr Port Hk Hf Hr.
  assert (Hnil : length name = 32%nat) by (unfold zlen in Hn'; lia).
  set (P := dns_query _ _ _ _ _ _ _ _).
  assert (HP : P = ([a; b] ++ [f2; 0] ++ counts) ++ encode [name] ++ 0 :: ([0; 1; 0; 1] ++ rest)) by done.
  set (hdr := [a; b] ++ [f2; 0] ++ counts) in HP.
  assert (Hh : zlen hdr = 12) by (unfold hdr; zlen_lia).
  assert (He : encode [name] = 32 :: name) by (unfold encode; simpl; by rewrite Hn', app_nil_r).
  assert (Hsz : zlen P = 50 + zlen rest) by (rewrite HP, He; zlen_lia).
  pose proof (zlen_nonneg rest).
  rewrite RecvCb_copied by (try apply granted; lia).
  assert (E2 : ld P 2 = Some f2) by done. rewrite E2, Hf.
  assert (Hs : strlen P 12 = Some 33).
  { rewrite <- Hh, HP, strlen_app; [f_equal; rewrite He; zlen_lia|].
    rewrite He. constructor; [done|]. eapply Forall_impl; [|exact Hc]. simpl. lia. }
  rewrite Hs. cbn [mbind option_bind].
  assert (Hq : fetch P (12 + 33 + 1) 4 = Some [0; 1; 0; 1]).
  { replace (12 + 33 + 1) with (zlen (hdr ++ encode [name] ++ [0])) by (rewrite He; zlen_lia).
    rewrite HP. replace (hdr ++ encode [name] ++ 0 :: [0; 1; 0; 1] ++ rest)
      with ((hdr ++ encode [name] ++ [0]) ++ [0; 1; 0; 1] ++ rest) by (by rewrite <- !app_assoc).
    by apply fetch_mid. }
  rewrite Hq. change (negb _ && negb _) with false. cbn [DnsName DnsServer].
  rewrite Hnil. change (replicate (32 - 32) 0) with (@nil Z). rewrite app_nil_r.
  assert (Hcmp : _DnsCompareName name P 12 = Some None).
  { unfold _DnsCompareName. rewrite Hs. change (32 <? u32 (33 - 1)) with false. cbv iota.
    rewrite <- Hh, HP, He, <- app_comm_cons. cbn [compare_loop]. rewrite ld_mid.
    change (Z.land 32 192 =? 192) with false. cbv iota.
    assert (Eat : eat name name = Some []) by (rewrite <- (app_nil_r name) at 2; by apply eat_upper).
    pose proof (compare_label_app name [] name 0 (hdr ++ [32]) (0 :: [0; 1; 0; 1] ++ rest) Hc
      ltac:(rewrite Eat; eauto)) as E.
    rewrite Eat, app_nil_l, app_nil_r, Hnil, Hn', zlen_app, zlen_nil in E.
    rewrite <- app_assoc in E. cbn [app] in E. change (zlen [32]) with 1 in E.
    cbn [app]. change (Z.to_nat 32) with 32%nat. rewrite E.
    replace (hdr ++ 32 :: name ++ 0 :: 0 :: 1 :: 0 :: 1 :: rest)
      with ((hdr ++ 32 :: name) ++ 0 :: 0 :: 1 :: 0 :: 1 :: rest) by (by rewrite <- app_assoc).
    replace (zlen hdr + 1 + 32) with (zlen (hdr ++ 32 :: name)) by zlen_lia.
    rewrite ld_mid. simpl. rewrite ld_ge by lia. done. }
  by rewrite Hcmp.
Qed.

(** * Witnesses *)

Definition local_nufront : list (list Z) := [[108; 111; 99; 97; 108]; [110; 117; 102; 114; 111; 110; 116]].
Definition asked : list (list Z) := [[76; 79; 67; 65; 76]; [110; 117; 102; 114; 111; 110; 116]].
Definition running : Dnss :=
  mkDnss (mkDnsServer (Some 1) (dotted local_nufront ++ replicate 19 0) 16885952) [1] [].

Lemma running_holds : holds (DnsName (DnsServer running)) (dotted local_nufront).
Proof. split; [done|]. split; by_decide. Qed.

Lemma DNSS_RecvCb_answers_witness :
  let q := dns_query [18; 52] 1 0 [0; 1; 0; 0; 0; 0; 0; 0] asked [0; 1] [0; 1] [] in
  @DNSS_RecvCb (zero_heap 70000) true q 7 4000 running =
  Done tt (udp_sendto 7 4000 (answer [18; 52] asked [0; 1] [0; 1] 16885952) running).
Proof.
  pose proof (zero_heap_grants 70000) as Hg.
  refine (eq_trans (@DNSS_RecvCb_answers (zero_heap 70000) 70000 Hg (dotted local_nufront) 18 52 1 0
    [0; 1; 0; 0; 0; 0; 0; 0] asked [0; 1] [0; 1] [] 7 4000 running running_holds _ _ _ _ _ _ _ _ _ _ _ _) _);
    solve [reflexivity | by_decide].
Defined.

Lemma DnsCompareName_correct_witness :
  _DnsCompareName (DnsName (DnsServer running)) (replicate 12 0 ++ encode asked ++ 0 :: [0; 1; 0; 1]) 12
  = Some (Some 0).
Proof.
  refine (eq_trans (DnsCompareName_correct (DnsName (DnsServer running)) (replicate 12 0) asked
    local_nufront [0; 1; 0; 1] running_holds _ _ _ _ _) _); solve [reflexivity | discriminate | by_decide].
Defined.

Lemma DNSS_RecvCb_overread_witness :
  @DNSS_RecvCb (zero_heap 1000) true [1; 2] 7 4000 running = Crash /\
  @DNSS_RecvCb (zero_heap 1000) true ([1; 2; 1; 0] ++ replicate 8 0 ++ [3; 97; 98; 99]) 7 4000 running = Crash.
Proof.
  pose proof (zero_heap_grants 1000) as Hg.
  split; apply (@DNSS_RecvCb_overread (zero_heap 1000) 1000 Hg); [by_decide..| |by_decide|by_decide|].
  - exact I.
  - split; [reflexivity|]. left. by_decide.
Defined.

Lemma DNSS_Start_name_witness :
  exists s', DNSS_Start (Some (true, 16885952)) (Some (replicate 32 97)) (Some 1) running =
    Done DNSS_ERR_SUCCESS s' /\ HostIp (DnsServer s') = 16885952 /\
    @DNSS_RecvCb (zero_heap 70000) true
      (dns_query [18; 52] 1 0 [0; 1; 0; 0; 0; 0; 0; 0] [replicate 32 97] [0; 1] [0; 1] []) 7 4000 s' = Crash.
Proof.
  pose proof (zero_heap_grants 70000) as Hg.
  destruct (@DNSS_Start_name (zero_heap 70000) 70000 Hg (replicate 32 97) 16885952 1 running)
    as (s' & E & Hip & _ & H32); [by_decide..|].
  exists s'. split; [exact E|]. split; [exact Hip|].
  apply H32; solve [reflexivity | by_decide].
Defined.
