(* ===== verification/Base64.v ===== *)
(** Base64 of [App/NuAgent/Lib/base64.c].

    The input of a call is the list of its [len] bytes.  The output block is
    written byte by byte through [put]; a write outside it is [None].  The
    results are [Some None] for a null pointer and [Some (Some (out, n))] for
    the block and the length stored through [out_len]. *)
From S2P Require Import Prelude.

Definition base64_table : list Z :=
  seqZ 65 26 ++ seqZ 97 26 ++ seqZ 48 10 ++ [43; 47].

(** [*pos++ = c] *)
Definition put (w : list Z * Z) (c : Z) : option (list Z * Z) :=
  out ← st w.1 w.2 c;
  Some (out, w.2 + 1).

(** [*pos++ = base64_table[i]] *)
Definition put_char (w : list Z * Z) (i : Z) : option (list Z * Z) :=
  c ← ld base64_table i;
  put w c.

(** The [while (end - in >= 3)] loop: the input left, [line_len], and the
    output. *)
Fixpoint encode_loop (i : list Z) (line_len : Z) (w : list Z * Z) : option (list Z * Z * (list Z * Z)) :=
  match i with
  | in0 :: in1 :: in2 :: rest =>
      w ← put_char w (Z.shiftr in0 2);
      w ← put_char w (Z.lor (Z.shiftl (Z.land in0 3) 4) (Z.shiftr in1 4));
      w ← put_char w (Z.lor (Z.shiftl (Z.land in1 15) 2) (Z.shiftr in2 6));
      w ← put_char w (Z.land in2 63);
      let line_len := line_len + 4 in
      if 72 <=? line_len then
        w ← put w 10;
        encode_loop rest 0 w
      else encode_loop rest line_len w
  | _ => Some (i, line_len, w)
  end.

(** [if (end - in) ...]: the one or two bytes left. *)
Definition encode_tail (i : list Z) (line_len : Z) (w : list Z * Z) : option (Z * (list Z * Z)) :=
  match i with
  | [] => Some (line_len, w)
  | in0 :: i =>
      w ← put_char w (Z.shiftr in0 2);
      w ← match i with
          | [] =>
              w ← put_char w (Z.shiftl (Z.land in0 3) 4);
              put w 61
          | in1 :: _ =>
              w ← put_char w (Z.lor (Z.shiftl (Z.land in0 3) 4) (Z.shiftr in1 4));
              put_char w (Z.shiftl (Z.land in1 15) 2)
          end;
      w ← put w 61;
      Some (line_len + 4, w)
  end.

(** [len * 4 / 3] is computed on [int], the rest on [size_t]. *)
Definition encode_size (len : Z) : Z :=
  let olen := u32 (Z.quot (s32 (len * 4)) 3 + 4) in
  let olen := u32 (olen + olen / 72) in
  u32 (olen + 1).

Section Base64.
Context `{Heap}.

Definition base64_encode (src : list Z) : option (option (list Z * Z)) :=
  match malloc (encode_size (zlen src)) with
  | None => Some None
  | Some out =>
      '(i, line_len, w) ← encode_loop src 0 (out, 0);
      '(line_len, w) ← encode_tail i line_len w;
      w ← (if negb (line_len =? 0) then put w 10 else Some w);
      out ← st w.1 w.2 0;
      Some (Some (out, w.2))
  end.

(** * Decoding *)

(** The decoding table: [0x80] for the bytes that are not of the alphabet. *)
Definition dtable : list Z :=
  <[61%nat := 0]>
    (foldl (fun d i => <[Z.to_nat (nth i base64_table 0) := Z.of_nat i]> d) (replicate 256 128) (seq 0 64)).

(** The first pass: the number of bytes of the alphabet. *)
Fixpoint count_loop (src : list Z) (count : Z) : option Z :=
  match src with
  | [] => Some count
  | c :: src =>
      t ← ld dtable c;
      count_loop src (if negb (t =? 128) then u32 (count + 1) else count)
  end.

(** The second pass; [in] and [block] are the local arrays. *)
Fixpoint decode_loop (src : list Z) (count : Z) (in_ block : list Z) (w : list Z * Z)
  : option (list Z * (list Z * Z)) :=
  match src with
  | [] => Some (in_, w)
  | c :: src =>
      tmp ← ld dtable c;
      if tmp =? 128 then decode_loop src count in_ block w
      else
        in_ ← st in_ count c;
        block ← st block count tmp;
        let count := count + 1 in
        if count =? 4 then
          b0 ← ld block 0; b1 ← ld block 1; b2 ← ld block 2; b3 ← ld block 3;
          w ← put w (u8 (Z.lor (Z.shiftl b0 2) (Z.shiftr b1 4)));
          w ← put w (u8 (Z.lor (Z.shiftl b1 4) (Z.shiftr b2 2)));
          w ← put w (u8 (Z.lor (Z.shiftl b2 6) b3));
          decode_loop src 0 in_ block w
        else decode_loop src count in_ block w
  end.

(** [in_] and [block] are the uninitialised local arrays. *)
Definition base64_decode (in_ block src : list Z) : option (option (list Z * Z)) :=
  count ← count_loop src 0;
  if negb (count mod 4 =? 0) then Some None
  else
    match malloc count with
    | None => Some None
    | Some out =>
        '(in_, w) ← decode_loop src 0 in_ block (out, 0);
        let pos := w.2 in
        if 0 <? pos then
          in2 ← ld in_ 2;
          in3 ← ld in_ 3;
          let pos := if in2 =? 61 then pos - 2 else if in3 =? 61 then pos - 1 else pos in
          Some (Some (w.1, pos))
        else Some (Some (w.1, pos))
    end.
End Base64.

(** * The output block *)

(** The first bytes of the block are [d]; [cap] is its size. *)
Definition written (w : list Z * Z) (d : list Z) (cap : Z) : Prop :=
  w.2 = zlen d /\ zlen w.1 = cap /\ exists t, w.1 = d ++ t.

Lemma written_nil out : written (out, 0) [] (zlen out).
Proof. repeat split. by exists out. Qed.

Lemma put_written w d cap c : written w d cap -> zlen d < cap ->
  exists w', put w c = Some w' /\ written w' (d ++ [c]) cap.
Proof.
  destruct w as [out pos]. intros (Hp & Hc & t & E) Hlt. simpl in *. subst.
  unfold put. simpl. rewrite st_blit by zlen_lia. rewrite blit_next by zlen_lia.
  eexists. split; [reflexivity|]. repeat split; simpl; [zlen_lia|zlen_lia|eauto].
Qed.

Lemma put_char_written w d cap i c : written w d cap -> zlen d < cap -> ld base64_table i = Some c ->
  exists w', put_char w i = Some w' /\ written w' (d ++ [c]) cap.
Proof. intros Hw Hlt E. unfold put_char. rewrite E. by apply put_written. Qed.

(** * Specification *)

(** The character of a six-bit group. *)
Definition char (i : Z) : Z := nth (Z.to_nat i) base64_table 0.

Definition g1 (x0 : Z) : Z := x0 / 4.
Definition g2 (x0 x1 : Z) : Z := x0 mod 4 * 16 + x1 / 16.
Definition g3 (x1 x2 : Z) : Z := x1 mod 16 * 4 + x2 / 64.
Definition g4 (x2 : Z) : Z := x2 mod 64.

(** The encoding as RFC 1341 defines it, without line breaks. *)
Fixpoint quads (src : list Z) : list Z :=
  match src with
  | x0 :: x1 :: x2 :: rest => [char (g1 x0); char (g2 x0 x1); char (g3 x1 x2); char (g4 x2)] ++ quads rest
  | [x0; x1] => [char (g1 x0); char (g2 x0 x1); char (g3 x1 0); 61]
  | [x0] => [char (g1 x0); char (g2 x0 0); 61; 61]
  | [] => []
  end.

(** With a line break after every 72 characters and at the end; [ll]
    characters are on the current line. *)
Fixpoint lines (src : list Z) (ll : Z) : list Z :=
  match src with
  | x0 :: x1 :: x2 :: rest =>
      quads [x0; x1; x2] ++ (if 72 <=? ll + 4 then [10] ++ lines rest 0 else lines rest (ll + 4))
  | [] => if ll =? 0 then [] else [10]
  | src => quads src ++ [10]
  end.

(** Induction in steps of three elements. *)
Lemma triple_ind (P : list Z -> Prop) :
  P [] -> (forall x, P [x]) -> (forall x y, P [x; y]) ->
  (forall x y z l, P l -> P (x :: y :: z :: l)) -> forall l, P l.
Proof.
  intros H0 H1 H2 H3. enough (forall l, P l /\ (forall x, P (x :: l)) /\ (forall x y, P (x :: y :: l))) as HP
    by (intros l; apply HP).
  induction l as [|x l (I0 & I1 & I2)]; [auto|]. repeat split; auto.
Qed.

Lemma land_3 x : Z.land x 3 = x mod 4.
Proof. apply (Z.land_ones x 2). lia. Qed.

Lemma land_15 x : Z.land x 15 = x mod 16.
Proof. apply (Z.land_ones x 4). lia. Qed.

Lemma land_63 x : Z.land x 63 = x mod 64.
Proof. apply (Z.land_ones x 6). lia. Qed.

Lemma shiftr_g1 x0 : Z.shiftr x0 2 = g1 x0.
Proof. by rewrite Z.shiftr_div_pow2. Qed.

Lemma group2 x0 x1 : is_u8 x1 ->
  Z.lor (Z.shiftl (Z.land x0 3) 4) (Z.shiftr x1 4) = g2 x0 x1.
Proof. intros. rewrite land_3, Z.shiftr_div_pow2, lor_shiftl_add by word_lia. done. Qed.

Lemma group3 x1 x2 : is_u8 x2 ->
  Z.lor (Z.shiftl (Z.land x1 15) 2) (Z.shiftr x2 6) = g3 x1 x2.
Proof. intros. rewrite land_15, Z.shiftr_div_pow2, lor_shiftl_add by word_lia. done. Qed.

Lemma group2_last x0 : Z.shiftl (Z.land x0 3) 4 = g2 x0 0.
Proof. rewrite land_3, Z.shiftl_mul_pow2 by lia. unfold g2. change (2 ^ 4) with 16. change (0 / 16) with 0. lia. Qed.

Lemma group3_last x1 : Z.shiftl (Z.land x1 15) 2 = g3 x1 0.
Proof. rewrite land_15, Z.shiftl_mul_pow2 by lia. unfold g3. change (2 ^ 2) with 4. change (0 / 64) with 0. lia. Qed.

(** The table and its inverse. *)
Lemma char_table i : 0 <= i < 64 ->
  ld base64_table i = Some (char i) /\ ld dtable (char i) = Some i /\ char i <> 61 /\ is_u8 (char i).
Proof.
  intros Hi. assert (Hx : is_u8 i) by word_lia.
  pose proof (u8_forall (fun i => implb (i <? 64) (bool_decide (ld base64_table i = Some (char i) /\
    ld dtable (char i) = Some i /\ char i <> 61 /\ is_u8 (char i)))) ltac:(by vm_compute) i Hx) as E.
  cbv beta in E. destruct (Z.ltb_spec i 64); [|lia]. by apply bool_decide_eq_true in E.
Qed.

Lemma ld_char i : 0 <= i < 64 -> ld base64_table i = Some (char i).
Proof. intros. by apply char_table. Qed.

Lemma groups_range x0 x1 x2 : is_u8 x0 -> is_u8 x1 -> is_u8 x2 ->
  0 <= g1 x0 < 64 /\ 0 <= g2 x0 x1 < 64 /\ 0 <= g3 x1 x2 < 64 /\ 0 <= g4 x2 < 64.
Proof. unfold g1, g2, g3, g4. intros. repeat split; word_lia. Qed.

(** [put_step] runs the next [put] of a goal. *)
Ltac put_step :=
  lazymatch goal with
  | Hw : written ?w ?d ?cap |- context [put_char ?w ?i] =>
      let E := fresh in
      destruct (put_char_written w d cap i (char i) Hw ltac:(zlen_lia) ltac:(apply ld_char; lia))
        as (? & E & ?); rewrite E; clear Hw; cbn [mbind option_bind]
  | Hw : written ?w ?d ?cap |- context [put ?w ?c] =>
      let E := fresh in
      destruct (put_written w d cap c Hw ltac:(zlen_lia)) as (? & E & ?);
      rewrite E; clear Hw; cbn [mbind option_bind]
  end.


(** * Encoding *)

Definition finish (r : list Z * Z * (list Z * Z)) : option (list Z * Z) :=
  '(line_len, w) ← encode_tail r.1.1 r.1.2 r.2;
  if negb (line_len =? 0) then put w 10 else Some w.

Lemma encode_written src : forall ll w d cap,
  Bytes src -> 0 <= ll -> written w d cap -> zlen d + zlen (lines src ll) < cap ->
  exists w', (encode_loop src ll w ≫= finish) = Some w' /\ written w' (d ++ lines src ll) cap.
Proof.
  induction src as [|x0|x0 x1|x0 x1 x2 src IH] using triple_ind; intros ll w d cap Hb Hll Hw Hcap;
    unfold Bytes in Hb;
    repeat match goal with H : Forall is_u8 (_ :: _) |- _ => apply Forall_cons_1 in H as [? H] end.
  - simpl. unfold finish. simpl. destruct (Z.eqb_spec ll 0).
    + simpl. rewrite app_nil_r. eauto.
    + simpl in *. destruct (Z.eqb_spec ll 0); [lia|]. put_step. eauto.
  - destruct (groups_range x0 0 0) as (? & ? & ? & ?); [assumption || by_decide..|].
    cbn [encode_loop mbind option_bind]. unfold finish. cbn [encode_tail fst snd].
    rewrite shiftr_g1, group2_last. simpl lines in *. do 4 put_step.
    destruct (Z.eqb_spec (ll + 4) 0); [lia|]. cbn [negb]. put_step.
    rewrite <- !app_assoc in *. simpl in *. eauto.
  - destruct (groups_range x0 x1 0) as (? & ? & ? & ?); [assumption || by_decide..|].
    cbn [encode_loop mbind option_bind]. unfold finish. cbn [encode_tail fst snd].
    rewrite shiftr_g1, group2, group3_last by done. simpl lines in *. do 4 put_step.
    destruct (Z.eqb_spec (ll + 4) 0); [lia|]. cbn [negb]. put_step.
    rewrite <- !app_assoc in *. simpl in *. eauto.
  - destruct (groups_range x0 x1 x2) as (? & ? & ? & ?); [assumption || by_decide..|].
    cbn [encode_loop lines quads] in *. rewrite shiftr_g1, group2, group3, land_63 by done.
    fold (g4 x2) in *. rewrite app_nil_r in *.
    destruct (Z.leb_spec 72 (ll + 4)).
    + do 5 put_step.
      edestruct IH as (w' & E & Hw'); [done|reflexivity|eassumption| |].
      2: { exists w'. split; [exact E|]. by rewrite <- !app_assoc in Hw'. }
      zlen_lia.
    + do 4 put_step.
      edestruct IH as (w' & E & Hw'); [done| |eassumption| |].
      3: { exists w'. split; [exact E|]. by rewrite <- !app_assoc in Hw'. }
      * lia.
      * zlen_lia.
Qed.

(** Four characters per three bytes begun, and a line feed per line begun. *)
Lemma lines_length src : forall ll, 0 <= ll < 72 -> ll mod 4 = 0 ->
  zlen (lines src ll) = (zlen src + 2) / 3 * 4 + (ll + (zlen src + 2) / 3 * 4 + 71) / 72.
Proof.
  induction src as [|x0|x0 x1|x0 x1 x2 src IH] using triple_ind; intros ll Hll Hm.
  - simpl lines. change ((zlen [] + 2) / 3 * 4) with 0.
    destruct (Z.eqb_spec ll 0); subst; [done|]. change (zlen [10]) with 1. Z.div_mod_to_equations. lia.
  - change (zlen (lines [x0] ll)) with 5. change ((zlen [x0] + 2) / 3 * 4) with 4.
    Z.div_mod_to_equations. lia.
  - change (zlen (lines [x0; x1] ll)) with 5. change ((zlen [x0; x1] + 2) / 3 * 4) with 4.
    Z.div_mod_to_equations. lia.
  - cbn [lines]. rewrite zlen_app. change (zlen (quads [x0; x1; x2])) with 4.
    replace ((zlen (x0 :: x1 :: x2 :: src) + 2) / 3 * 4) with ((zlen src + 2) / 3 * 4 + 4)
      by (rewrite !zlen_cons; Z.div_mod_to_equations; lia).
    destruct (Z.leb_spec 72 (ll + 4)).
    + rewrite zlen_app, IH by done. change (zlen [10]) with 1.
      generalize ((zlen src + 2) / 3 * 4). intros. Z.div_mod_to_equations. lia.
    + rewrite IH by (try lia; Z.div_mod_to_equations; lia).
      generalize ((zlen src + 2) / 3 * 4). intros. Z.div_mod_to_equations. lia.
Qed.

Lemma encode_size_eq len : 0 <= len < 536870912 ->
  encode_size len = len * 4 / 3 + 4 + (len * 4 / 3 + 4) / 72 + 1.
Proof.
  intros H. unfold encode_size. rewrite s32_small by lia.
  rewrite Z.quot_div_nonneg by lia. rewrite (u32_small (len * 4 / 3 + 4)) by word_lia.
  rewrite !u32_small by word_lia. done.
Qed.

Lemma encode_size_enough src : zlen src < 536870912 ->
  zlen (lines src 0) < encode_size (zlen src).
Proof.
  intros H. pose proof (zlen_nonneg src). rewrite encode_size_eq, lines_length by done || lia.
  generalize dependent (zlen src). intros n _ ?. Z.div_mod_to_equations. lia.
Qed.

(** * Decoding *)

(** The bytes that the decoder looks at. *)
Definition significant (c : Z) : bool := negb (bool_decide (ld dtable c = Some 128)).

Fixpoint strip (s : list Z) : list Z :=
  match s with
  | [] => []
  | c :: s => if significant c then c :: strip s else strip s
  end.

Lemma strip_app s k : strip (s ++ k) = strip s ++ strip k.
Proof. induction s as [|c s IH]; simpl; [done|]. destruct (significant c); simpl; by rewrite IH. Qed.

Lemma dtable_total c : is_u8 c -> exists t, ld dtable c = Some t /\ is_u8 t.
Proof.
  intros Hc. pose proof (u8_forall (fun c => match ld dtable c with Some t => bool_decide (is_u8 t) | None => false end)
    ltac:(by vm_compute) c Hc) as E. cbv beta in E.
  destruct (ld dtable c) as [t|]; [|done]. exists t. by apply bool_decide_eq_true in E.
Qed.

Lemma significant_char i : 0 <= i < 64 -> significant (char i) = true.
Proof.
  intros Hi. destruct (char_table i Hi) as (_ & E & _). unfold significant. rewrite E.
  case_bool_decide as E1; [|done]. injection E1 as ->. lia.
Qed.

Lemma strip_quads src : Bytes src -> strip (quads src) = quads src.
Proof.
  induction src as [|x0|x0 x1|x0 x1 x2 src IH] using triple_ind; intros Hb; unfold Bytes in *;
    repeat match goal with H : Forall is_u8 (_ :: _) |- _ => apply Forall_cons_1 in H as [? H] end.
  - done.
  - destruct (groups_range x0 0 0) as (? & ? & ? & ?); [assumption || by_decide..|].
    cbn [quads strip]. by rewrite !significant_char.
  - destruct (groups_range x0 x1 0) as (? & ? & ? & ?); [assumption || by_decide..|].
    cbn [quads strip]. by rewrite !significant_char.
  - destruct (groups_range x0 x1 x2) as (? & ? & ? & ?); [assumption || by_decide..|].
    cbn [quads]. rewrite strip_app, IH by done. cbn [strip]. by rewrite !significant_char.
Qed.

Lemma strip_lines src : forall ll, Bytes src -> strip (lines src ll) = quads src.
Proof.
  induction src as [|x0|x0 x1|x0 x1 x2 src IH] using triple_ind; intros ll Hb.
  - simpl. by destruct (ll =? 0).
  - cbn [lines]. by rewrite strip_app, strip_quads, app_nil_r.
  - cbn [lines]. by rewrite strip_app, strip_quads, app_nil_r.
  - cbn [lines]. assert (Hb3 : Bytes [x0; x1; x2] /\ Bytes src).
    { unfold Bytes in *. change (x0 :: x1 :: x2 :: src) with ([x0; x1; x2] ++ src) in Hb.
      by apply Forall_app in Hb. }
    destruct Hb3 as [Hb3 Hbs]. rewrite strip_app, strip_quads by done.
    destruct (72 <=? ll + 4); rewrite ?strip_app, IH by done; cbn [quads]; by rewrite app_nil_r.
Qed.

Lemma count_loop_strip src : forall count, Bytes src -> 0 <= count -> count + zlen src < 4294967296 ->
  count_loop src count = Some (count + zlen (strip src)).
Proof.
  induction src as [|c src IH]; intros count Hb Hc Hl; simpl.
  { f_equal. zlen_lia. }
  unfold Bytes in *. apply Forall_cons_1 in Hb as [Hc8 Hb]. pose proof (zlen_nonneg src).
  destruct (dtable_total c Hc8) as (t & E & Ht). rewrite E. unfold significant. rewrite E.
  cbn [mbind option_bind]. rewrite zlen_cons in Hl.
  case_bool_decide as Et.
  - injection Et as ->. simpl. apply IH; [done|lia..].
  - destruct (Z.eqb_spec t 128) as [->|]; [done|]. simpl.
    rewrite u32_small by word_lia. rewrite IH by (done || lia). f_equal. zlen_lia.
Qed.

Lemma decode_loop_strip src : forall count in_ block w, Bytes src ->
  decode_loop src count in_ block w = decode_loop (strip src) count in_ block w.
Proof.
  induction src as [|c src IH]; intros count in_ block w Hb; [done|].
  unfold Bytes in *. apply Forall_cons_1 in Hb as [Hc8 Hb].
  destruct (dtable_total c Hc8) as (t & E & _). simpl. unfold significant. rewrite E.
  case_bool_decide as Et.
  - injection Et as ->. simpl. by apply IH.
  - simpl. rewrite E. cbn [mbind option_bind]. destruct (Z.eqb_spec t 128) as [->|]; [done|].
    apply option_bind_ext_fun; intros i. apply option_bind_ext_fun; intros b.
    destruct (count + 1 =? 4); [|by apply IH].
    repeat (apply option_bind_ext_fun; intros ?). by apply IH.
Qed.

(** Four significant bytes. *)
Lemma decode_quad c0 c1 c2 c3 t0 t1 t2 t3 rest in_ block w :
  ld dtable c0 = Some t0 -> ld dtable c1 = Some t1 -> ld dtable c2 = Some t2 -> ld dtable c3 = Some t3 ->
  t0 <> 128 -> t1 <> 128 -> t2 <> 128 -> t3 <> 128 -> length in_ = 4%nat -> length block = 4%nat ->
  decode_loop (c0 :: c1 :: c2 :: c3 :: rest) 0 in_ block w =
  (w ← put w (u8 (Z.lor (Z.shiftl t0 2) (Z.shiftr t1 4)));
   w ← put w (u8 (Z.lor (Z.shiftl t1 4) (Z.shiftr t2 2)));
   w ← put w (u8 (Z.lor (Z.shiftl t2 6) t3));
   decode_loop rest 0 [c0; c1; c2; c3] [t0; t1; t2; t3] w).
Proof.
  intros E0 E1 E2 E3 N0 N1 N2 N3 Hi Hb.
  destruct in_ as [|i0 [|i1 [|i2 [|i3 [|]]]]]; try discriminate Hi.
  destruct block as [|b0 [|b1 [|b2 [|b3 [|]]]]]; try discriminate Hb.
  cbn [decode_loop]. rewrite E0, E1, E2, E3. cbn [mbind option_bind].
  by rewrite !(proj2 (Z.eqb_neq _ 128)).
Qed.

Lemma group_bytes x0 x1 x2 : is_u8 x0 -> is_u8 x1 -> is_u8 x2 ->
  u8 (Z.lor (Z.shiftl (g1 x0) 2) (Z.shiftr (g2 x0 x1) 4)) = x0 /\
  u8 (Z.lor (Z.shiftl (g2 x0 x1) 4) (Z.shiftr (g3 x1 x2) 2)) = x1 /\
  u8 (Z.lor (Z.shiftl (g3 x1 x2) 6) (g4 x2)) = x2.
Proof.
  intros H0 H1 H2. unfold g1, g2, g3, g4. rewrite !Z.shiftr_div_pow2 by lia.
  change (2 ^ 4) with 16. change (2 ^ 2) with 4.
  rewrite !lor_shiftl_add by word_lia. change (2 ^ 2) with 4. change (2 ^ 4) with 16. change (2 ^ 6) with 64.
  repeat split; word_lia.
Qed.

(** The padding decodes to zeros. *)
Definition padding (src : list Z) : Z := (- zlen src) mod 3.

Lemma padding_3 x y z l : padding (x :: y :: z :: l) = padding l.
Proof. unfold padding. rewrite !zlen_cons. Z.div_mod_to_equations. lia. Qed.

(** What the test on the last quad sees. *)
Definition last_quad (src in_ : list Z) : Prop :=
  exists c2 c3, ld in_ 2 = Some c2 /\ ld in_ 3 = Some c3 /\
    (c2 =? 61) = (padding src =? 2) /\ (c3 =? 61) = negb (padding src =? 0).

Lemma decode_written src : forall in_ block w d cap,
  Bytes src -> length in_ = 4%nat -> length block = 4%nat ->
  written w d cap -> zlen d + zlen src + padding src <= cap ->
  exists in' w', decode_loop (quads src) 0 in_ block w = Some (in', w') /\
    written w' (d ++ src ++ replicate (Z.to_nat (padding src)) 0) cap /\
    (src = [] /\ in' = in_ \/ last_quad src in').
Proof.
  assert (Hpad : ld dtable 61 = Some 0) by done.
  induction src as [|x0|x0 x1|x0 x1 x2 src IH] using triple_ind;
    intros in_ block w d cap Hb Hi Hk Hw Hcap; unfold Bytes in *;
    repeat match goal with H : Forall is_u8 (_ :: _) |- _ => apply Forall_cons_1 in H as [? H] end.
  - exists in_, w. simpl. rewrite app_nil_r. auto.
  - destruct (groups_range x0 0 0) as (R1 & R2 & R3 & R4); [assumption || by_decide..|].
    destruct (group_bytes x0 0 0) as (B1 & B2 & B3); [done..|].
    destruct (char_table _ R1) as (_ & D1 & ? & _), (char_table _ R2) as (_ & D2 & ? & _).
    change (padding [x0]) with 2 in *. cbn [quads]. rewrite (decode_quad _ _ _ _ _ _ _ _ _ _ _ _ D1 D2 Hpad Hpad) by lia.
    rewrite B1. change (Z.shiftr 0 2) with (Z.shiftr (g3 0 0) 2). rewrite B2.
    do 3 put_step. eexists _, _. split; [reflexivity|]. split; [by rewrite <- !app_assoc in *|].
    right. exists 61, 61. by repeat split.
  - destruct (groups_range x0 x1 0) as (R1 & R2 & R3 & R4); [assumption || by_decide..|].
    destruct (group_bytes x0 x1 0) as (B1 & B2 & B3); [done..|].
    destruct (char_table _ R1) as (_ & D1 & ? & _), (char_table _ R2) as (_ & D2 & ? & _),
      (char_table _ R3) as (_ & D3 & N3 & _).
    change (padding [x0; x1]) with 1 in *. cbn [quads].
    rewrite (decode_quad _ _ _ _ _ _ _ _ _ _ _ _ D1 D2 D3 Hpad) by lia.
    rewrite B1, B2. change (Z.lor (Z.shiftl (g3 x1 0) 6) 0) with (Z.lor (Z.shiftl (g3 x1 0) 6) (g4 0)). rewrite B3.
    do 3 put_step. eexists _, _. split; [reflexivity|]. split; [by rewrite <- !app_assoc in *|].
    right. exists (char (g3 x1 0)), 61. repeat split. by apply Z.eqb_neq.
  - destruct (groups_range x0 x1 x2) as (R1 & R2 & R3 & R4); [assumption || by_decide..|].
    destruct (group_bytes x0 x1 x2) as (B1 & B2 & B3); [done..|].
    destruct (char_table _ R1) as (_ & D1 & ? & _), (char_table _ R2) as (_ & D2 & ? & _),
      (char_table _ R3) as (_ & D3 & N3 & _), (char_table _ R4) as (_ & D4 & N4 & _).
    rewrite padding_3 in *. cbn [quads app].
    assert (0 <= padding src < 3) by (apply Z.mod_pos_bound; lia).
    rewrite (decode_quad _ _ _ _ _ _ _ _ _ _ _ _ D1 D2 D3 D4) by lia. rewrite B1, B2, B3.
    rewrite !zlen_cons in Hcap. pose proof (zlen_nonneg src). do 3 put_step.
    edestruct IH as (in' & w' & E & Hw' & Hl); [done| | |eassumption| |].
    4: { exists in', w'. split; [exact E|]. split; [by rewrite <- !app_assoc in Hw'|].
      right. destruct Hl as [[-> ->]|(c2 & c3 & ? & ? & ? & ?)].
      - exists (char (g3 x1 x2)), (char (g4 x2)). repeat split; by apply Z.eqb_neq.
      - exists c2, c3. rewrite padding_3. split_and!; assumption. }
    all: assumption || reflexivity || zlen_lia.
Qed.

(** * The properties *)

Lemma written_ztake w d cap : written w d cap -> ztake (zlen d) w.1 = d.
Proof. intros (_ & _ & t & ->). apply ztake_zlen_app. Qed.

Lemma base64_encode_eq `{Heap} src out : Bytes src -> zlen src < 536870912 ->
  malloc (encode_size (zlen src)) = Some out ->
  exists out' t, base64_encode src = Some (Some (out', zlen (lines src 0))) /\
    out' = lines src 0 ++ 0 :: t /\ zlen out' = encode_size (zlen src).
Proof.
  intros Hb Hl E. unfold base64_encode. rewrite E.
  pose proof (encode_size_enough src Hl) as Hsz. pose proof (zlen_nonneg src).
  pose proof (zlen_nonneg (lines src 0)).
  apply malloc_len in E; [|rewrite encode_size_eq by lia; Z.div_mod_to_equations; lia].
  destruct (encode_written src 0 (out, 0) [] (zlen out) Hb) as (w & Ew & Hp & Hc & t & Et);
    [done|apply written_nil|zlen_lia|].
  rewrite app_nil_l in *. unfold finish in Ew.
  destruct (encode_loop src 0 (out, 0)) as [[[i ll] w0]|]; [|done]. cbn [mbind option_bind fst snd] in *.
  destruct (encode_tail i ll w0) as [[ll' w1]|]; [|done]. cbn [mbind option_bind] in *. rewrite Ew.
  cbn [mbind option_bind]. rewrite Et, Hp. rewrite st_blit by (rewrite <- Et; lia).
  rewrite blit_next by (rewrite Et, zlen_app in Hc; change (zlen [0]) with 1; lia). cbn [option_bind].
  exists (lines src 0 ++ 0 :: zdrop 1 t), (zdrop 1 t). rewrite <- app_assoc. split; [done|]. split; [done|].
  rewrite Et, zlen_app in Hc. zlen_lia.
Qed.

(** Encoding never writes outside its block, whatever the input: the size
    computed before the allocation is enough for the characters, the line
    feeds and the terminator.  The block holds the encoding broken into lines
    of 72 characters, zero-terminated, and its length is returned. *)
Theorem base64_encode_correct `{Heap} src : Bytes src -> zlen src < 536870912 ->
  match malloc (encode_size (zlen src)) with
  | None => base64_encode src = Some None
  | Some _ =>
      exists out t, base64_encode src = Some (Some (out, zlen (lines src 0))) /\
        out = lines src 0 ++ 0 :: t /\ zlen out = encode_size (zlen src)
  end.
Proof.
  intros Hb Hl. destruct (malloc _) as [out|] eqn:E; [by eapply base64_encode_eq|].
  unfold base64_encode. by rewrite E.
Qed.

Lemma base64_decode_strip `{Heap} in_ block s : Bytes s -> zlen s < 4294967296 ->
  base64_decode in_ block s =
  if negb (zlen (strip s) mod 4 =? 0) then Some None
  else
    match malloc (zlen (strip s)) with
    | None => Some None
    | Some out =>
        '(in_, w) ← decode_loop (strip s) 0 in_ block (out, 0);
        let pos := w.2 in
        if 0 <? pos then
          in2 ← ld in_ 2;
          in3 ← ld in_ 3;
          let pos := if in2 =? 61 then pos - 2 else if in3 =? 61 then pos - 1 else pos in
          Some (Some (w.1, pos))
        else Some (Some (w.1, pos))
    end.
Proof.
  intros Hb Hl. unfold base64_decode. rewrite count_loop_strip by done || lia.
  cbn [mbind option_bind]. rewrite Z.add_0_l. destruct (negb _); [done|].
  destruct (malloc _); [|done]. by rewrite (decode_loop_strip s).
Qed.

Lemma quads_length src : zlen (quads src) = zlen src + padding src + zlen (quads src) / 4 /\
  zlen (quads src) mod 4 = 0.
Proof.
  induction src as [|x0|x0 x1|x0 x1 x2 src IH] using triple_ind; try done.
  rewrite padding_3. cbn [quads app]. rewrite !zlen_cons. Z.div_mod_to_equations. lia.
Qed.

Lemma quads_le src : zlen (quads src) <= zlen src * 2 + 4.
Proof.
  induction src as [|x0|x0 x1|x0 x1 x2 src IH] using triple_ind; try done.
  cbn [quads app]. rewrite !zlen_cons. lia.
Qed.

Lemma quads_bytes src : Bytes src -> Bytes (quads src).
Proof.
  induction src as [|x0|x0 x1|x0 x1 x2 src IH] using triple_ind; intros Hb; unfold Bytes in *;
    repeat match goal with H : Forall is_u8 (_ :: _) |- _ => apply Forall_cons_1 in H as [? H] end.
  - done.
  - destruct (groups_range x0 0 0) as (? & ? & ? & ?); [assumption || by_decide..|]. repeat constructor; try done; by apply char_table.
  - destruct (groups_range x0 x1 0) as (? & ? & ? & ?); [assumption || by_decide..|]. repeat constructor; try done; by apply char_table.
  - destruct (groups_range x0 x1 x2) as (? & ? & ? & ?); [assumption || by_decide..|]. cbn [quads].
    apply Forall_app. split; [|by apply IH]. repeat constructor; by apply char_table.
Qed.

Lemma lines_bytes src : forall ll, Bytes src -> Bytes (lines src ll).
Proof.
  induction src as [|x0|x0 x1|x0 x1 x2 src IH] using triple_ind; intros ll Hb.
  - simpl. destruct (ll =? 0); by_decide.
  - cbn [lines]. apply Forall_app. split; [by apply quads_bytes|by_decide].
  - cbn [lines]. apply Forall_app. split; [by apply quads_bytes|by_decide].
  - cbn [lines]. change (x0 :: x1 :: x2 :: src) with ([x0; x1; x2] ++ src) in Hb.
    apply Forall_app in Hb as [Hb3 Hb]. apply Forall_app. split; [by apply quads_bytes|].
    destruct (72 <=? ll + 4); [apply Forall_app; split; [by_decide|]|]; by apply IH.
Qed.

(** C34: decoding what was encoded gives the bytes back, line feeds and
    padding included, whatever the uninitialised local arrays hold. *)
Theorem base64_roundtrip `{Heap} lim `{!Grants lim} in_ block src :
  Bytes src -> encode_size (zlen src) <= lim -> zlen src < 536870912 ->
  length in_ = 4%nat -> length block = 4%nat ->
  exists enc n dec, base64_encode src = Some (Some (enc, n)) /\
    base64_decode in_ block (ztake n enc) = Some (Some (dec, zlen src)) /\
    ztake (zlen src) dec = src.
Proof.
  intros Hb Hlim Hl Hi Hk. pose proof (zlen_nonneg src).
  pose proof (encode_size_enough src Hl) as Hsz. pose proof (zlen_nonneg (lines src 0)).
  destruct (granted (lim := lim) (encode_size (zlen src)) ltac:(lia)) as [out E].
  destruct (base64_encode_eq src out Hb Hl E) as (enc & t & Ee & -> & _).
  exists (lines src 0 ++ 0 :: t), (zlen (lines src 0)).
  destruct (quads_length src) as [Hq Hm]. pose proof (zlen_nonneg (quads src)).
  assert (Hql : zlen (quads src) <= zlen (lines src 0)).
  { rewrite <- (strip_lines src 0 Hb). generalize (lines src 0). intros l.
    induction l as [|c l IH]; [done|]. simpl. destruct (significant c); rewrite ?zlen_cons; lia. }
  assert (Hbl : Bytes (lines src 0)) by by apply lines_bytes.
  assert (Hes : encode_size (zlen src) < 4294967293)
    by (rewrite encode_size_eq by lia; Z.div_mod_to_equations; lia).
  rewrite ztake_zlen_app, base64_decode_strip by done || lia. rewrite strip_lines by done.
  rewrite Hm. cbn [Z.eqb negb].
  destruct (granted (lim := lim) (zlen (quads src)) ltac:(lia)) as [buf Eb]. rewrite Eb.
  apply malloc_len in Eb; [|lia].
  assert (0 <= padding src < 3) by (apply Z.mod_pos_bound; lia).
  destruct (decode_written src in_ block (buf, 0) [] (zlen buf) Hb Hi Hk (written_nil buf))
    as (in' & w & E2 & Hw & Hlast); [Z.div_mod_to_equations; zlen_lia|].
  rewrite E2. cbn [mbind option_bind]. rewrite app_nil_l in Hw. destruct Hw as (Hp & Hc & r & Er).
  assert (Hpos : w.2 = zlen src + padding src).
  { rewrite Hp, zlen_app. unfold zlen at 2. rewrite length_replicate. lia. }
  exists w.1. split; [done|]. rewrite Hpos, Er, <- app_assoc.
  split; [|apply ztake_zlen_app].
  destruct Hlast as [[-> ->]|(c2 & c3 & E3 & E4 & T2 & T3)].
  - change (padding []) with 0. by change (0 <? zlen [] + 0) with false.
  - destruct (Z.ltb_spec 0 (zlen src + padding src)).
    + rewrite E3, E4. cbn [mbind option_bind]. rewrite T2, T3.
      destruct (Z.eqb_spec (padding src) 2), (Z.eqb_spec (padding src) 0); cbn [negb]; do 3 f_equal; lia.
    + do 3 f_equal. lia.
Qed.

(** * Decoding anything *)

(** The output grows by three bytes per four significant ones. *)
Lemma decode_loop_safe s : forall count in_ block w d cap,
  Bytes s -> 0 <= count < 4 -> zlen in_ = 4 -> zlen block = 4 -> written w d cap ->
  zlen d + (count + zlen (strip s)) / 4 * 3 <= cap ->
  exists in' w', decode_loop s count in_ block w = Some (in', w') /\ zlen in' = 4 /\
    exists d', written w' d' cap /\ zlen d' = zlen d + (count + zlen (strip s)) / 4 * 3.
Proof.
  induction s as [|c s IH]; intros count in_ block w d cap Hb Hc Hi Hk Hw Hcap.
  - exists in_, w. split; [done|]. split; [done|]. exists d. split; [done|].
    simpl. rewrite zlen_nil. rewrite Z.add_0_r, Z.div_small by lia. lia.
  - unfold Bytes in *. apply Forall_cons_1 in Hb as [Hc8 Hb].
    destruct (dtable_total c Hc8) as (t & E & Ht).
    assert (Hs : strip (c :: s) = if t =? 128 then strip s else c :: strip s).
    { simpl. unfold significant. rewrite E.
      case_bool_decide as Et; destruct (Z.eqb_spec t 128); simplify_eq; done. }
    rewrite Hs in *. cbn [decode_loop]. rewrite E. cbn [mbind option_bind].
    destruct (Z.eqb_spec t 128); [by eapply IH|].
    rewrite zlen_cons, Z.add_assoc in *. pose proof (zlen_nonneg (strip s)).
    destruct (st_Some in_ count c) as [i1 Ei]; [lia|]. rewrite Ei. cbn [mbind option_bind].
    destruct (st_Some block count t) as [k1 Ek]; [lia|]. rewrite Ek. cbn [mbind option_bind].
    apply st_length in Ei, Ek. destruct (Z.eqb_spec (count + 1) 4) as [Ec|].
    + rewrite Ec in *.
      destruct (ld_is_Some k1 0 ltac:(lia)) as [b0 ->], (ld_is_Some k1 1 ltac:(lia)) as [b1 ->],
        (ld_is_Some k1 2 ltac:(lia)) as [b2 ->], (ld_is_Some k1 3 ltac:(lia)) as [b3 ->].
      cbn [mbind option_bind].
      replace ((4 + zlen (strip s)) / 4) with (1 + (0 + zlen (strip s)) / 4) in *
        by (Z.div_mod_to_equations; lia).
      assert (0 <= (0 + zlen (strip s)) / 4) by (apply Z.div_pos; lia).
      do 3 put_step. edestruct IH as (in' & w' & E' & Hi' & d' & Hw' & Hd'); [done| | | |eassumption| |].
      5: { exists in', w'. split; [exact E'|]. split; [exact Hi'|]. exists d'. split; [done|].
        rewrite Hd'. zlen_lia. }
      all: lia || zlen_lia.
    + eapply IH; [done|lia..|done|lia].
Qed.

(** The decoder is safe on every input: it never touches memory outside
    its arrays, and it returns null only for a failed allocation or a number
    of significant bytes that is not a multiple of four; otherwise the length
    is at most three quarters of that number and within the block. *)
Theorem base64_decode_safe `{Heap} in_ block s :
  Bytes s -> zlen s < 4294967293 -> zlen in_ = 4 -> zlen block = 4 ->
  match base64_decode in_ block s with
  | None => False
  | Some None => zlen (strip s) mod 4 <> 0 \/ malloc (zlen (strip s)) = None
  | Some (Some (out, n)) =>
      zlen (strip s) mod 4 = 0 /\ zlen out = zlen (strip s) /\
      0 <= n <= zlen (strip s) / 4 * 3 /\ zlen (strip s) / 4 * 3 - n <= 2
  end.
Proof.
  intros Hb Hl Hi Hk. rewrite base64_decode_strip by done || lia.
  assert (Hs : zlen (strip s) <= zlen s).
  { clear. induction s as [|c s IH]; [done|]. simpl. destruct (significant c); rewrite ?zlen_cons; lia. }
  pose proof (zlen_nonneg (strip s)).
  destruct (Z.eqb_spec (zlen (strip s) mod 4) 0) as [Hm|]; cbn [negb]; [|by left].
  destruct (malloc _) as [out|] eqn:E; [|by right]. apply malloc_len in E; [|lia].
  rewrite <- (decode_loop_strip s) by done.
  destruct (decode_loop_safe s 0 in_ block (out, 0) [] (zlen out) Hb) as (in' & w & -> & Hi' & d & Hw & Hd);
    [lia..|apply written_nil|rewrite E, zlen_nil; Z.div_mod_to_equations; lia|].
  destruct Hw as (Hp & Hc & _). cbn [mbind option_bind]. change (zlen []) with 0 in Hd. rewrite ?Z.add_0_l in Hd.
  rewrite Hp. destruct (Z.ltb_spec 0 (zlen d)).
  - destruct (ld_is_Some in' 2 ltac:(lia)) as [c2 ->], (ld_is_Some in' 3 ltac:(lia)) as [c3 ->].
    cbn [mbind option_bind]. repeat split; try lia;
      destruct (c2 =? 61), (c3 =? 61); Z.div_mod_to_equations; lia.
  - pose proof (zlen_nonneg d). repeat split; lia.
Qed.

(** * Witnesses *)

Lemma base64_encode_correct_witness :
  exists out t, @base64_encode (zero_heap 100) [77; 97; 110; 33] = Some (Some (out, 9)) /\
    out = [84; 87; 70; 117; 73; 81; 61; 61; 10] ++ 0 :: t.
Proof.
  pose proof (@base64_encode_correct (zero_heap 100) [77; 97; 110; 33] ltac:(by_decide) ltac:(by_decide)) as H.
  destruct H as (out & t & E & -> & _). exists (lines [77; 97; 110; 33] 0 ++ 0 :: t), t. split; [exact E|reflexivity].
Defined.

Lemma base64_roundtrip_witness :
  exists enc n dec, @base64_encode (zero_heap 100) [0; 255; 16; 7] = Some (Some (enc, n)) /\
    @base64_decode (zero_heap 100) [1; 2; 3; 4] [5; 6; 7; 8] (ztake n enc) = Some (Some (dec, 4)) /\
    ztake 4 dec = [0; 255; 16; 7].
Proof.
  apply (@base64_roundtrip (zero_heap 100) 100 (zero_heap_grants 100) [1; 2; 3; 4] [5; 6; 7; 8] [0; 255; 16; 7]);
    solve [by_decide | reflexivity].
Defined.

Lemma base64_decode_safe_witness :
  match @base64_decode (zero_heap 100) [9; 9; 9; 9] [0; 0; 0; 0] [84; 61; 42; 61; 61] with
  | None => False
  | Some None => 4 mod 4 <> 0 \/ @malloc (zero_heap 100) 4 = None
  | Some (Some (out, n)) => 4 mod 4 = 0 /\ zlen out = 4 /\ 0 <= n <= 4 / 4 * 3 /\ 4 / 4 * 3 - n <= 2
  end.
Proof.
  exact (@base64_decode_safe (zero_heap 100) [9; 9; 9; 9] [0; 0; 0; 0] [84; 61; 42; 61; 61]
    ltac:(by_decide) ltac:(by_decide) ltac:(by_decide) ltac:(by_decide)).
Defined.
