(* ===== verification/Aes.v ===== *)
(** AES-128 in CBC mode of [App/NuAgent/Lib/AES.c].

    The functions work in place on blocks of 16 bytes; a block is the list of
    its bytes, column by column.  [tbl] is the static table of round keys.
    The buffers of [AES_Encrypt] and [AES_Decrypt] are byte arrays; an access
    outside one is [None]. *)
From S2P Require Import Prelude.
From Stdlib Require Import Btauto.

Definition Nk : nat := 4.
Definition Nb : nat := 4.
Definition Nr : nat := 10.
Definition BPOLY : Z := 27.

Definition SBox : list Z :=
  [99; 124; 119; 123; 242; 107; 111; 197; 48; 1; 103; 43; 254; 215; 171; 118;
   202; 130; 201; 125; 250; 89; 71; 240; 173; 212; 162; 175; 156; 164; 114; 192;
   183; 253; 147; 38; 54; 63; 247; 204; 52; 165; 229; 241; 113; 216; 49; 21;
   4; 199; 35; 195; 24; 150; 5; 154; 7; 18; 128; 226; 235; 39; 178; 117;
   9; 131; 44; 26; 27; 110; 90; 160; 82; 59; 214; 179; 41; 227; 47; 132;
   83; 209; 0; 237; 32; 252; 177; 91; 106; 203; 190; 57; 74; 76; 88; 207;
   208; 239; 170; 251; 67; 77; 51; 133; 69; 249; 2; 127; 80; 60; 159; 168;
   81; 163; 64; 143; 146; 157; 56; 245; 188; 182; 218; 33; 16; 255; 243; 210;
   205; 12; 19; 236; 95; 151; 68; 23; 196; 167; 126; 61; 100; 93; 25; 115;
   96; 129; 79; 220; 34; 42; 144; 136; 70; 238; 184; 20; 222; 94; 11; 219;
   224; 50; 58; 10; 73; 6; 36; 92; 194; 211; 172; 98; 145; 149; 228; 121;
   231; 200; 55; 109; 141; 213; 78; 169; 108; 86; 244; 234; 101; 122; 174; 8;
   186; 120; 37; 46; 28; 166; 180; 198; 232; 221; 116; 31; 75; 189; 139; 138;
   112; 62; 181; 102; 72; 3; 246; 14; 97; 53; 87; 185; 134; 193; 29; 158;
   225; 248; 152; 17; 105; 217; 142; 148; 155; 30; 135; 233; 206; 85; 40; 223;
   140; 161; 137; 13; 191; 230; 66; 104; 65; 153; 45; 15; 176; 84; 187; 22].

Definition InvSBox : list Z :=
  [82; 9; 106; 213; 48; 54; 165; 56; 191; 64; 163; 158; 129; 243; 215; 251;
   124; 227; 57; 130; 155; 47; 255; 135; 52; 142; 67; 68; 196; 222; 233; 203;
   84; 123; 148; 50; 166; 194; 35; 61; 238; 76; 149; 11; 66; 250; 195; 78;
   8; 46; 161; 102; 40; 217; 36; 178; 118; 91; 162; 73; 109; 139; 209; 37;
   114; 248; 246; 100; 134; 104; 152; 22; 212; 164; 92; 204; 93; 101; 182; 146;
   108; 112; 72; 80; 253; 237; 185; 218; 94; 21; 70; 87; 167; 141; 157; 132;
   144; 216; 171; 0; 140; 188; 211; 10; 247; 228; 88; 5; 184; 179; 69; 6;
   208; 44; 30; 143; 202; 63; 15; 2; 193; 175; 189; 3; 1; 19; 138; 107;
   58; 145; 17; 65; 79; 103; 220; 234; 151; 242; 207; 206; 240; 180; 230; 115;
   150; 172; 116; 34; 231; 173; 53; 133; 226; 249; 55; 232; 28; 117; 223; 110;
   71; 241; 26; 113; 29; 41; 197; 137; 111; 183; 98; 14; 170; 24; 190; 27;
   252; 86; 62; 75; 198; 210; 121; 32; 154; 219; 192; 254; 120; 205; 90; 244;
   31; 221; 168; 51; 136; 7; 199; 49; 177; 18; 16; 89; 39; 128; 236; 95;
   96; 81; 127; 169; 25; 181; 74; 13; 45; 229; 122; 159; 147; 201; 156; 239;
   160; 224; 59; 77; 174; 42; 245; 176; 200; 235; 187; 60; 131; 83; 153; 97;
   23; 43; 4; 126; 186; 119; 214; 38; 225; 105; 20; 99; 85; 33; 12; 125].

(** * Block operations *)

Definition RotationWord (w : list Z) : list Z :=
  match w with
  | [w0; w1; w2; w3] => [w1; w2; w3; w0]
  | _ => w
  end.

(** [pData1[i] ^= pData2[i]] for the first [nCount] bytes. *)
Fixpoint XorBytes (pData1 pData2 : list Z) (nCount : nat) : list Z :=
  match nCount, pData1, pData2 with
  | S n, a :: d, b :: s => Z.lxor a b :: XorBytes d s n
  | _, _, _ => pData1
  end.

Fixpoint SubBytes (pState : list Z) (nCount : nat) (bInvert : bool) : list Z :=
  match nCount, pState with
  | S n, a :: s => nth (Z.to_nat a) (if bInvert then InvSBox else SBox) 0 :: SubBytes s n bInvert
  | _, _ => pState
  end.

(** One row: [rowData] is its copy. *)
Definition shift_row (bInvert : bool) (pState : list Z) (r : nat) : list Z :=
  let rowData := map (fun c => nth (r + 4 * c) pState 0) (seq 0 4) in
  let temp := if bInvert then (4 - r)%nat else r in
  fold_left (fun s c => <[(r + 4 * c)%nat := nth ((c + temp) mod 4) rowData 0]> s) (seq 0 4) pState.

Definition ShiftRows (pState : list Z) (bInvert : bool) : list Z :=
  fold_left (shift_row bInvert) (seq 1 3) pState.

Definition GfMultBy02 (num : Z) : Z :=
  if Z.land num 128 =? 0 then u8 (Z.shiftl num 1) else u8 (Z.lxor (Z.shiftl num 1) BPOLY).

(** The body of the loop of [MixColumns]. *)
Definition mix_column (bInvert : bool) (p0 p1 p2 p3 : Z) : list Z :=
  let temp := Z.lxor (Z.lxor (Z.lxor p0 p1) p2) p3 in
  let r0 := Z.lxor (Z.lxor temp p0) (GfMultBy02 (Z.lxor p0 p1)) in
  let r1 := Z.lxor (Z.lxor temp p1) (GfMultBy02 (Z.lxor p1 p2)) in
  let r2 := Z.lxor (Z.lxor temp p2) (GfMultBy02 (Z.lxor p2 p3)) in
  let r3 := Z.lxor (Z.lxor temp p3) (GfMultBy02 (Z.lxor p3 p0)) in
  if bInvert then
    let a0Pa2_M4 := GfMultBy02 (GfMultBy02 (Z.lxor p0 p2)) in
    let a1Pa3_M4 := GfMultBy02 (GfMultBy02 (Z.lxor p1 p3)) in
    let temp := GfMultBy02 (Z.lxor a0Pa2_M4 a1Pa3_M4) in
    [Z.lxor r0 (Z.lxor temp a0Pa2_M4); Z.lxor r1 (Z.lxor temp a1Pa3_M4);
     Z.lxor r2 (Z.lxor temp a0Pa2_M4); Z.lxor r3 (Z.lxor temp a1Pa3_M4)]
  else [r0; r1; r2; r3].

Fixpoint mix_loop (n : nat) (pState : list Z) (bInvert : bool) : list Z :=
  match n, pState with
  | S n, p0 :: p1 :: p2 :: p3 :: s => mix_column bInvert p0 p1 p2 p3 ++ mix_loop n s bInvert
  | _, _ => pState
  end.

Definition MixColumns (pState : list Z) (bInvert : bool) : list Z := mix_loop 4 pState bInvert.

Definition AddRoundKey (pState pRoundKey : list Z) : list Z := XorBytes pState pRoundKey (4 * Nb).

(** [&g_roundKeyTable[4*Nb*i]] *)
Definition round_key (tbl : list Z) (i : nat) : list Z := drop (4 * Nb * i) tbl.

Definition encrypt_round (tbl pState : list Z) (i : nat) : list Z :=
  let s := SubBytes pState (4 * Nb) false in
  let s := ShiftRows s false in
  let s := if negb (i =? Nr)%nat then MixColumns s false else s in
  AddRoundKey s (round_key tbl i).

Definition BlockEncrypt (tbl pState : list Z) : list Z :=
  fold_left (encrypt_round tbl) (seq 1 Nr) (AddRoundKey pState (round_key tbl 0)).

Definition decrypt_round (tbl pState : list Z) (i : nat) : list Z :=
  let s := ShiftRows pState true in
  let s := SubBytes s (4 * Nb) true in
  let s := AddRoundKey s (round_key tbl (i - 1)) in
  if negb (i =? 1)%nat then MixColumns s true else s.

Definition BlockDecrypt (tbl pState : list Z) : list Z :=
  fold_left (decrypt_round tbl) (rev (seq 1 Nr)) (AddRoundKey pState (round_key tbl Nr)).

(** * The key schedule *)

(** One iteration for the word [i]: the table and [Rcon[0]]. *)
Definition expand_step (tbl : list Z) (Rcon : Z) (i : nat) : option (list Z * Z) :=
  let off := 4 * Z.of_nat i in
  w ← fetch tbl (off - 4) 4;
  let first := (i mod Nk =? 0)%nat in
  let w :=
    if first then XorBytes (SubBytes (RotationWord w) 4 false) [Rcon; 0; 0; 0] 4
    else if (6 <? Nk)%nat && (i mod Nk =? Nb)%nat then SubBytes w 4 false
    else w in
  let Rcon := if first then GfMultBy02 Rcon else Rcon in
  prev ← fetch tbl (off - 4 * Z.of_nat Nk) 4;
  tbl ← blit tbl off (XorBytes w prev 4);
  Some (tbl, Rcon).

(** The loop from the word [i], [n] iterations. *)
Fixpoint expand_loop (n : nat) (tbl : list Z) (Rcon : Z) (i : nat) : option (list Z) :=
  match n with
  | O => Some tbl
  | S n => '(tbl, Rcon) ← expand_step tbl Rcon i; expand_loop n tbl Rcon (S i)
  end.

(** [g] is the table before the call. *)
Definition AES_Init (g pKey : list Z) : option (list Z) :=
  key ← fetch pKey 0 (4 * Z.of_nat Nk);
  tbl ← blit g 0 key;
  expand_loop (Nb * (Nr + 1) - Nk) tbl 1 Nk.

(** * Buffers *)

Fixpoint encrypt_loop (i : nat) (tbl buf : list Z) (off : Z) (pIV : list Z) : option (list Z) :=
  match i with
  | O => Some buf
  | S i =>
      b ← fetch buf off 16;
      let b := BlockEncrypt tbl (XorBytes b pIV (4 * Nb)) in
      buf ← blit buf off b;
      encrypt_loop i tbl buf (off + 16) b
  end.

(** [pPlainText] is [None] when it is the same pointer as [pCipherText]. *)
Definition AES_Encrypt (tbl : list Z) (pPlainText : option (list Z)) (pCipherText : list Z)
  (nDataLen : Z) (pIV : list Z) : option (list Z) :=
  buf ← match pPlainText with
        | Some p => p ← fetch p 0 nDataLen; blit pCipherText 0 p
        | None => Some pCipherText
        end;
  encrypt_loop (Z.to_nat (nDataLen / 16)) tbl buf 0 pIV.

Fixpoint decrypt_loop (i : nat) (tbl buf : list Z) (off : Z) (pIV : list Z) : option (list Z) :=
  match i with
  | O => Some buf
  | S i' =>
      b ← fetch buf off 16;
      let b := BlockDecrypt tbl b in
      prev ← (if (i =? 1)%nat then Some pIV else fetch buf (off - 16) 16);
      buf ← blit buf off (XorBytes b prev (4 * Nb));
      decrypt_loop i' tbl buf (off - 16) pIV
  end.

Definition AES_Decrypt (tbl pPlainText : list Z) (pCipherText : option (list Z))
  (nDataLen : Z) (pIV : list Z) : option (list Z) :=
  buf ← match pCipherText with
        | Some c => c ← fetch c 0 nDataLen; blit pPlainText 0 c
        | None => Some pPlainText
        end;
  decrypt_loop (Z.to_nat (nDataLen / 16)) tbl buf (nDataLen - 16) pIV.

(** * Bytes *)

Lemma GfMultBy02_u8 a : is_u8 (GfMultBy02 a).
Proof. unfold GfMultBy02. destruct (_ =? 0); apply u8_range. Qed.

#[export] Hint Resolve GfMultBy02_u8 : nl.

(** Multiplication by [x] is additive. *)
Lemma GfMultBy02_lxor a b : is_u8 a -> is_u8 b ->
  GfMultBy02 (Z.lxor a b) = Z.lxor (GfMultBy02 a) (GfMultBy02 b).
Proof.
  intros Ha Hb.
  pose proof (u8_forall (fun a => forallb (fun b =>
    GfMultBy02 (Z.lxor a b) =? Z.lxor (GfMultBy02 a) (GfMultBy02 b)) (seqZ 0 256))
    ltac:(by vm_compute) a Ha) as E. cbv beta in E.
  by apply Z.eqb_eq, (u8_forall (fun b => GfMultBy02 (Z.lxor a b) =? Z.lxor (GfMultBy02 a) (GfMultBy02 b)) E).
Qed.

Lemma box_inverse a : is_u8 a -> nth (Z.to_nat (nth (Z.to_nat a) SBox 0)) InvSBox 0 = a.
Proof.
  intros Ha. by apply (u8_eq_forall (fun a => nth (Z.to_nat (nth (Z.to_nat a) SBox 0)) InvSBox 0) (fun a => a)
    ltac:(by vm_compute)).
Qed.

Lemma box_u8 inv i : is_u8 (nth i (if inv : bool then InvSBox else SBox) 0).
Proof.
  assert (H : Bytes (if inv then InvSBox else SBox)) by (destruct inv; by_decide).
  destruct (nth_in_or_default i (if inv then InvSBox else SBox) 0) as [Hin| ->]; [|by_decide].
  unfold Bytes in H. rewrite List.Forall_forall in H. by apply H.
Qed.

(** * The layers are inverted *)

Lemma XorBytes_length n : forall d s, length (XorBytes d s n) = length d.
Proof. induction n as [|n IH]; intros [|a d] [|b s]; simpl; auto. Qed.

Lemma XorBytes_involutive n : forall d s, XorBytes (XorBytes d s n) s n = d.
Proof.
  induction n as [|n IH]; intros [|a d] [|b s]; simpl; try done.
  rewrite IH. by rewrite Z.lxor_assoc, Z.lxor_nilpotent, Z.lxor_0_r.
Qed.

Lemma XorBytes_bytes n : forall d s, Bytes d -> Bytes s -> Bytes (XorBytes d s n).
Proof.
  unfold Bytes. induction n as [|n IH]; intros [|a d] [|b s] Hd Hs; simpl; try done.
  apply Forall_cons_1 in Hd as [Ha Hd], Hs as [Hb Hs]. constructor; [by apply lxor_u8|by apply IH].
Qed.

Lemma SubBytes_length n inv : forall s, length (SubBytes s n inv) = length s.
Proof. induction n as [|n IH]; intros [|a s]; simpl; auto. Qed.

Lemma SubBytes_bytes n inv : forall s, Bytes s -> Bytes (SubBytes s n inv).
Proof.
  unfold Bytes. induction n as [|n IH]; intros [|a s] Hs; simpl; try done.
  apply Forall_cons_1 in Hs as [Ha Hs]. constructor; [apply box_u8|by apply IH].
Qed.

Lemma SubBytes_inverse n : forall s, Bytes s -> SubBytes (SubBytes s n false) n true = s.
Proof.
  unfold Bytes. induction n as [|n IH]; intros [|a s] Hs; simpl; try done.
  apply Forall_cons_1 in Hs as [Ha Hs]. rewrite IH by done. f_equal. by apply box_inverse.
Qed.

(** A block: 16 bytes. *)
Definition block (s : list Z) : Prop := length s = 16%nat /\ Bytes s.

#[export] Instance block_dec s : Decision (block s).
Proof. unfold block. apply _. Defined.

Lemma block_length s : block s -> length s = 16%nat.
Proof. by intros []. Qed.

(** [destruct_block] names the bytes of a block. *)
Ltac destruct_block s :=
  let H := fresh in
  assert (H : length s = 16%nat) by (assumption || by apply block_length);
  do 16 (destruct s as [|? s]; [discriminate H|]);
  destruct s; [clear H|discriminate H].

Lemma ShiftRows_inverse s : length s = 16%nat -> ShiftRows (ShiftRows s false) true = s.
Proof. intros H. destruct_block s. reflexivity. Qed.

Lemma ShiftRows_block s inv : block s -> block (ShiftRows s inv).
Proof.
  intros Hs. destruct_block s. destruct Hs as [_ Hs]. unfold Bytes in Hs.
  repeat match goal with H : Forall is_u8 (_ :: _) |- _ => apply Forall_cons_1 in H as [? H] end.
  destruct inv; (split; [reflexivity|]);
    (match goal with |- Bytes ?l => let l' := eval vm_compute in l in change (Forall is_u8 l') end);
    repeat first [assumption | apply Forall_cons_2 | apply Forall_nil_2].
Qed.

(** * Columns *)

Ltac by_bits :=
  apply Z.bits_inj'; intros ? _; rewrite ?Z.lxor_spec;
  repeat match goal with |- context [Z.testbit ?a ?i] => generalize (Z.testbit a i); intros ? end;
  btauto.

(** The inverse column matrix, on bytes. *)
Lemma mix_column_inverse a0 a1 a2 a3 : is_u8 a0 -> is_u8 a1 -> is_u8 a2 -> is_u8 a3 ->
  match mix_column false a0 a1 a2 a3 with
  | [b0; b1; b2; b3] => mix_column true b0 b1 b2 b3 = [a0; a1; a2; a3]
  | _ => False
  end.
Proof.
  intros H0 H1 H2 H3. unfold mix_column. cbv zeta.
  repeat rewrite GfMultBy02_lxor by (repeat apply lxor_u8; auto using GfMultBy02_u8).
  repeat f_equal; by_bits.
Qed.

Lemma mix_column_u8 inv a0 a1 a2 a3 : is_u8 a0 -> is_u8 a1 -> is_u8 a2 -> is_u8 a3 ->
  exists b0 b1 b2 b3, mix_column inv a0 a1 a2 a3 = [b0; b1; b2; b3] /\
    is_u8 b0 /\ is_u8 b1 /\ is_u8 b2 /\ is_u8 b3.
Proof.
  intros. destruct inv; do 4 eexists; (split; [reflexivity|]);
    repeat split; repeat apply lxor_u8; auto using GfMultBy02_u8.
Qed.

Lemma mix_loop_inverse n : forall s, length s = (4 * n)%nat -> Bytes s ->
  Bytes (mix_loop n s false) /\ length (mix_loop n s false) = (4 * n)%nat /\
  mix_loop n (mix_loop n s false) true = s.
Proof.
  unfold Bytes. induction n as [|n IH]; intros s Hl Hs; [by destruct s|].
  destruct s as [|a0 [|a1 [|a2 [|a3 s]]]]; try (simpl in Hl; lia).
  repeat match goal with H : Forall is_u8 (_ :: _) |- _ => apply Forall_cons_1 in H as [? H] end.
  destruct (mix_column_u8 false a0 a1 a2 a3) as (b0 & b1 & b2 & b3 & E & ? & ? & ? & ?); [done..|].
  pose proof (mix_column_inverse a0 a1 a2 a3) as Hi. rewrite E in Hi.
  destruct (IH s) as (Hb & Hln & Hinv); [simpl in Hl; lia|done|].
  cbn [mix_loop]. rewrite E. cbn [app]. split; [by repeat apply Forall_cons_2|]. split.
  - simpl. rewrite Hln. lia.
  - rewrite Hi, Hinv by done. done.
Qed.

Lemma MixColumns_inverse s : block s -> MixColumns (MixColumns s false) true = s.
Proof. intros [Hl Hb]. by apply (mix_loop_inverse 4). Qed.

Lemma MixColumns_block s : block s -> block (MixColumns s false).
Proof. intros [Hl Hb]. unfold block, MixColumns. by destruct (mix_loop_inverse 4 s Hl Hb) as (? & ? & _). Qed.

(** * A block is deciphered *)

Lemma XorBytes_block d s n : block d -> Bytes s -> block (XorBytes d s n).
Proof. intros [Hl Hb] Hs. split; [by rewrite XorBytes_length|by apply XorBytes_bytes]. Qed.

Lemma SubBytes_block s n inv : block s -> block (SubBytes s n inv).
Proof. intros [Hl Hb]. split; [by rewrite SubBytes_length|by apply SubBytes_bytes]. Qed.

Section Table.
Variable tbl : list Z.
Hypothesis Htbl : Bytes tbl.

Lemma round_key_bytes i : Bytes (round_key tbl i).
Proof. by apply Forall_drop. Qed.

Lemma AddRoundKey_involutive s i : AddRoundKey (AddRoundKey s (round_key tbl i)) (round_key tbl i) = s.
Proof. apply XorBytes_involutive. Qed.

Lemma AddRoundKey_block s i : block s -> block (AddRoundKey s (round_key tbl i)).
Proof. intros Hs. apply XorBytes_block; [done|apply round_key_bytes]. Qed.

(** The state after [n] rounds, and the one before the column mixing. *)
Definition rounds (s : list Z) (n : nat) : list Z :=
  fold_left (encrypt_round tbl) (seq 1 n) (AddRoundKey s (round_key tbl 0)).
Definition shuffled (s : list Z) : list Z := ShiftRows (SubBytes s 16 false) false.

Lemma shuffled_block s : block s -> block (shuffled s).
Proof. intros. by apply ShiftRows_block, SubBytes_block. Qed.

Lemma unshuffle s : block s -> SubBytes (ShiftRows (shuffled s) true) 16 true = s.
Proof.
  intros Hs. unfold shuffled. rewrite ShiftRows_inverse by (by apply block_length, SubBytes_block).
  apply SubBytes_inverse, Hs.
Qed.

Lemma rounds_S s n : rounds s (S n) = encrypt_round tbl (rounds s n) (S n).
Proof. unfold rounds. by rewrite seq_S, fold_left_app. Qed.

Lemma rounds_block s n : block s -> block (rounds s n).
Proof.
  intros Hs. induction n as [|n IH]; [by apply AddRoundKey_block|].
  rewrite rounds_S. unfold encrypt_round. apply AddRoundKey_block.
  pose proof (shuffled_block _ IH). by destruct (negb _); [apply MixColumns_block|].
Qed.

Lemma decrypt_rounds n : forall s, block s -> (n < 10)%nat ->
  fold_left (decrypt_round tbl) (rev (seq 1 (S n))) (shuffled (rounds s n)) = s.
Proof.
  induction n as [|n IH]; intros s Hs Hn; pose proof (rounds_block s) as Hb.
  - simpl. unfold decrypt_round. change (4 * Nb)%nat with 16%nat. simpl negb.
    rewrite unshuffle by by apply Hb. apply AddRoundKey_involutive.
  - rewrite seq_S, rev_app_distr. cbn [rev app fold_left].
    unfold decrypt_round at 2. change (4 * Nb)%nat with 16%nat. rewrite unshuffle by by apply Hb.
    simpl negb. replace (S n - 0)%nat with (S n) by lia.
    rewrite rounds_S at 1. unfold encrypt_round. change (4 * Nb)%nat with 16%nat.
    fold (shuffled (rounds s n)).
    assert (E : (S n =? Nr)%nat = false) by (apply Nat.eqb_neq; unfold Nr; lia). rewrite E. cbn [negb].
    rewrite AddRoundKey_involutive, MixColumns_inverse by by apply shuffled_block, Hb.
    apply IH; [done|lia].
Qed.

Lemma BlockEncrypt_rounds s : BlockEncrypt tbl s = rounds s Nr.
Proof. unfold BlockEncrypt, rounds. reflexivity. Qed.

Lemma BlockEncrypt_block s : block s -> block (BlockEncrypt tbl s).
Proof. rewrite BlockEncrypt_rounds. apply rounds_block. Qed.

Lemma BlockDecrypt_BlockEncrypt s : block s -> BlockDecrypt tbl (BlockEncrypt tbl s) = s.
Proof.
  intros Hs. unfold BlockDecrypt. rewrite BlockEncrypt_rounds.
  assert (E : rounds s Nr = AddRoundKey (shuffled (rounds s 9)) (round_key tbl Nr)).
  { change (rounds s Nr) with (rounds s (S 9)). rewrite rounds_S. generalize (rounds s 9). intros u.
    unfold encrypt_round, shuffled. change (4 * Nb)%nat with 16%nat. change (S 9) with Nr.
    by rewrite Nat.eqb_refl. }
  rewrite E, AddRoundKey_involutive. apply (decrypt_rounds 9); [done|lia].
Qed.
End Table.

(** * Arrays of words and blocks *)

Section Pieces.
Variable k : nat.

Lemma concat_length (ws : list (list Z)) : Forall (fun w => length w = k) ws ->
  zlen (concat ws) = Z.of_nat k * Z.of_nat (length ws).
Proof.
  induction 1 as [|w ws Hw _ IH]; [simpl; zlen_lia|]. cbn [concat]. rewrite zlen_app, IH.
  unfold zlen. rewrite Hw. simpl length. lia.
Qed.

Lemma fetch_concat (ws1 : list (list Z)) w ws2 rest off : Forall (fun w => length w = k) ws1 -> length w = k ->
  off = Z.of_nat k * Z.of_nat (length ws1) ->
  fetch (concat (ws1 ++ w :: ws2) ++ rest) off (Z.of_nat k) = Some w.
Proof.
  intros H1 Hw ->. rewrite <- concat_length by done.
  rewrite concat_app. cbn [concat]. rewrite <- !app_assoc. apply fetch_mid. unfold zlen. by rewrite Hw.
Qed.

Lemma blit_concat (ws1 : list (list Z)) w w' ws2 rest off : Forall (fun w => length w = k) ws1 ->
  length w = k -> length w' = k -> off = Z.of_nat k * Z.of_nat (length ws1) ->
  blit (concat (ws1 ++ w :: ws2) ++ rest) off w' = Some (concat (ws1 ++ w' :: ws2) ++ rest).
Proof.
  intros H1 Hw Hw' ->. rewrite <- concat_length by done.
  rewrite !concat_app. cbn [concat]. rewrite <- !app_assoc.
  rewrite blit_next by (unfold zlen; rewrite length_app; lia).
  rewrite zdrop_app_r by (unfold zlen; lia). replace (zlen w' - zlen w) with 0 by (unfold zlen; lia).
  rewrite zdrop_0, <- app_assoc by lia. done.
Qed.

Lemma pieces n : forall l : list Z, length l = (k * n)%nat ->
  exists ws, l = concat ws /\ length ws = n /\ Forall (fun w => length w = k) ws.
Proof.
  induction n as [|n IH]; intros l Hl.
  { exists []. split; [|done]. destruct l; [done|simpl in Hl; lia]. }
  destruct (IH (drop k l)) as (ws & E & Hn & Hw); [rewrite length_drop; lia|].
  exists (take k l :: ws). cbn [concat]. rewrite <- E, take_drop. split; [done|]. split; [simpl; lia|].
  constructor; [|done]. rewrite length_take. lia.
Qed.
End Pieces.

Lemma Forall_concat_1 {A} (P : A -> Prop) ls : Forall P (concat ls) -> Forall (Forall P) ls.
Proof.
  induction ls as [|l ls IH]; intros H; [constructor|]. cbn [concat] in H.
  apply Forall_app in H as [? ?]. constructor; auto.
Qed.

Lemma data_blocks data n : Bytes data -> length data = (16 * n)%nat ->
  exists bs, data = concat bs /\ length bs = n /\ Forall block bs.
Proof.
  intros Hb Hl. destruct (pieces 16 n data Hl) as (bs & -> & Hn & Hw). exists bs. split_and!; [done..|].
  apply Forall_concat_1 in Hb. clear Hl Hn. induction Hw; [constructor|].
  apply Forall_cons_1 in Hb as [? ?]. constructor; [by split|auto].
Qed.

(** * Cipher block chaining *)

Section Mode.
Variables encipher decipher : list Z -> list Z.

(** CBC as it is defined: each block is combined with the preceding ciphertext
    block and enciphered. *)
Fixpoint cbc (iv : list Z) (bs : list (list Z)) : list (list Z) :=
  match bs with
  | [] => []
  | b :: bs => encipher (XorBytes b iv 16) :: cbc (encipher (XorBytes b iv 16)) bs
  end.

Fixpoint uncbc (iv : list Z) (cs : list (list Z)) : list (list Z) :=
  match cs with
  | [] => []
  | c :: cs => XorBytes (decipher c) iv 16 :: uncbc c cs
  end.

Lemma cbc_length bs : forall iv, length (cbc iv bs) = length bs.
Proof. induction bs as [|b bs IH]; intros iv; simpl; auto. Qed.

Lemma uncbc_app cs c : forall iv,
  uncbc iv (cs ++ [c]) = uncbc iv cs ++ [XorBytes (decipher c) (List.last cs iv) 16].
Proof.
  induction cs as [|d cs IH]; intros iv; [done|]. cbn [app uncbc]. rewrite IH. cbn [app]. do 3 f_equal.
  destruct cs as [|e cs]; [done|]. f_equal. clear. revert d e.
  induction cs as [|f cs IH]; intros d e; [done|]. change (List.last (e :: f :: cs) ?x) with (List.last (f :: cs) x) in *.
  apply IH.
Qed.
End Mode.

#[local] Opaque BlockEncrypt BlockDecrypt XorBytes.

Section Chaining.
Variable tbl : list Z.
Hypothesis Htbl : Bytes tbl.

Lemma cbc_blocks bs : forall iv, block iv -> Forall block bs -> Forall block (cbc (BlockEncrypt tbl) iv bs).
Proof.
  induction bs as [|b bs IH]; intros iv Hiv Hbs; simpl; [constructor|].
  apply Forall_cons_1 in Hbs as [Hb Hbs].
  assert (Hc : block (BlockEncrypt tbl (XorBytes b iv 16)))
    by (apply BlockEncrypt_block, XorBytes_block; [done|done|apply Hiv]).
  constructor; [exact Hc|by apply IH].
Qed.

Lemma uncbc_cbc bs : forall iv, block iv -> Forall block bs -> uncbc (BlockDecrypt tbl) iv (cbc (BlockEncrypt tbl) iv bs) = bs.
Proof.
  induction bs as [|b bs IH]; intros iv Hiv Hbs; cbn [cbc uncbc]; [done|].
  apply Forall_cons_1 in Hbs as [Hb Hbs].
  assert (Hx : block (XorBytes b iv 16)) by (apply XorBytes_block; [done|apply Hiv]).
  rewrite BlockDecrypt_BlockEncrypt, XorBytes_involutive by done. f_equal. apply IH; [|done].
  by apply BlockEncrypt_block.
Qed.

Lemma lengths_16 bs : Forall block bs -> Forall (fun w => length w = 16%nat) bs.
Proof. intros H. eapply Forall_impl; [|exact H]. by intros b []. Qed.

Lemma encrypt_loop_cbc bs : forall cs rest iv off, block iv -> Forall block bs -> Forall block cs ->
  off = 16 * Z.of_nat (length cs) ->
  encrypt_loop (length bs) tbl (concat (cs ++ bs) ++ rest) off iv =
  Some (concat (cs ++ cbc (BlockEncrypt tbl) iv bs) ++ rest).
Proof.
  induction bs as [|b bs IH]; intros cs rest iv off Hiv Hbs Hcs Hoff; [done|].
  apply Forall_cons_1 in Hbs as [Hb Hbs].
  assert (Hc : block (BlockEncrypt tbl (XorBytes b iv 16)))
    by (apply BlockEncrypt_block, XorBytes_block; [done|done|apply Hiv]).
  cbn [length encrypt_loop cbc]. pose proof (lengths_16 _ Hcs) as Hl.
  rewrite (fetch_concat 16) by (done || apply Hb). cbn [mbind option_bind].
  change (4 * Nb)%nat with 16%nat. set (c := BlockEncrypt tbl (XorBytes b iv 16)) in *.
  rewrite (blit_concat 16) by (done || apply Hb || apply Hc). cbn [mbind option_bind].
  replace (cs ++ c :: bs) with ((cs ++ [c]) ++ bs) by (by rewrite <- app_assoc).
  rewrite IH; [by rewrite <- app_assoc|done|done| |].
  - apply Forall_app. split; [done|]. by constructor.
  - rewrite length_app. simpl. lia.
Qed.

Lemma decrypt_loop_cbc cs : forall ps rest iv off, Forall (fun w => length w = 16%nat) cs ->
  (forall c, c ∈ cs -> length (BlockDecrypt tbl c) = 16%nat) ->
  off = 16 * Z.of_nat (length cs) - 16 ->
  decrypt_loop (length cs) tbl (concat cs ++ concat ps ++ rest) off iv =
  Some (concat (uncbc (BlockDecrypt tbl) iv cs) ++ concat ps ++ rest).
Proof.
  induction cs as [|c cs IH] using rev_ind; intros ps rest iv off Hcs Hdec Hoff; [done|].
  apply Forall_app in Hcs as [Hcs Hc]. apply Forall_cons_1 in Hc as [Hc _].
  rewrite length_app in *. simpl length in *. replace (length cs + 1)%nat with (S (length cs)) in * by lia.
  cbn [decrypt_loop]. rewrite (fetch_concat 16 cs c [] _ off) by (done || lia). cbn [mbind option_bind].
  assert (Hprev : (if (S (length cs) =? 1)%nat then Some iv
    else fetch (concat (cs ++ [c]) ++ concat ps ++ rest) (off - 16) 16) = Some (List.last cs iv)).
  { destruct cs as [|d cs _] using rev_ind; [done|]. rewrite length_app in *. simpl length in *.
    destruct (Nat.eqb_spec (S (length cs + 1)) 1); [lia|].
    apply Forall_app in Hcs as [Hcs Hd]. apply Forall_cons_1 in Hd as [Hd _].
    rewrite <- (app_assoc cs). change ([d] ++ [c]) with (d :: [c]).
    rewrite (fetch_concat 16 cs d [c] _ (off - 16)) by (done || lia). f_equal. by rewrite List.last_last. }
  rewrite Hprev. cbn [mbind option_bind]. change (4 * Nb)%nat with 16%nat.
  rewrite (blit_concat 16) by (done || lia || (rewrite XorBytes_length; apply Hdec, elem_of_app; right; left)).
  cbn [mbind option_bind]. set (p := XorBytes _ _ _).
  replace (concat (cs ++ [p]) ++ concat ps ++ rest) with (concat cs ++ concat (p :: ps) ++ rest)
    by (rewrite concat_app; cbn [concat]; by rewrite app_nil_r, <- !app_assoc).
  rewrite IH; [|done| |lia].
  - rewrite uncbc_app. fold p. rewrite concat_app. cbn [concat]. by rewrite app_nil_r, <- !app_assoc.
  - intros c' Hc'. apply Hdec, elem_of_app. by left.
Qed.
End Chaining.

(** * The key schedule *)

(** FIPS 197, figure 11: the word that follows the words [ws]. *)
Definition rcon (j : nat) : Z := Nat.iter j GfMultBy02 1.

Definition next_word (ws : list (list Z)) : list Z :=
  let i := length ws in
  let w := nth (i - 1) ws [] in
  XorBytes
    (if (i mod 4 =? 0)%nat
     then XorBytes (SubBytes (RotationWord w) 4 false) [rcon (i / 4 - 1); 0; 0; 0] 4
     else w)
    (nth (i - 4) ws []) 4.

Definition schedule (n : nat) (ws : list (list Z)) : list (list Z) :=
  Nat.iter n (fun ws => ws ++ [next_word ws]) ws.

Lemma schedule_S n ws : schedule (S n) ws = schedule n (ws ++ [next_word ws]).
Proof. symmetry. exact (Nat.iter_swap n _ (fun ws => ws ++ [next_word ws]) ws). Qed.

Definition word_ok (w : list Z) : Prop := length w = 4%nat /\ Bytes w.

Lemma word_length ws : Forall word_ok ws -> Forall (fun w => length w = 4%nat) ws.
Proof. intros H. eapply Forall_impl; [|exact H]. by intros w []. Qed.

Lemma nth_split_words (ws : list (list Z)) i : (i < length ws)%nat ->
  exists ws1 ws2, ws = ws1 ++ nth i ws [] :: ws2 /\ length ws1 = i.
Proof.
  intros H. destruct (nth_split ws [] H) as (ws1 & ws2 & E & Hl). by exists ws1, ws2.
Qed.

Lemma fetch_word ws rest i off : Forall word_ok ws -> (i < length ws)%nat -> off = 4 * Z.of_nat i ->
  fetch (concat ws ++ rest) off 4 = Some (nth i ws []) /\ word_ok (nth i ws []).
Proof.
  intros Hws Hi ->. destruct (nth_split_words ws i Hi) as (ws1 & ws2 & E & Hl).
  assert (Hw : Forall word_ok (ws1 ++ nth i ws [] :: ws2)) by by rewrite <- E.
  apply Forall_app in Hw as [H1 H2]. apply Forall_cons_1 in H2 as [Hw _].
  split; [|done]. rewrite E at 1. apply (fetch_concat 4); [by apply word_length|apply Hw|by rewrite Hl].
Qed.

Lemma rotated_word w : word_ok w -> word_ok (RotationWord w).
Proof.
  intros [Hl Hb]. destruct w as [|a [|b [|c [|d [|]]]]]; try discriminate Hl.
  split; [done|]. unfold Bytes in *.
  repeat match goal with H : Forall is_u8 (_ :: _) |- _ => apply Forall_cons_1 in H as [? H] end.
  repeat apply Forall_cons_2; done.
Qed.

Lemma rcon_u8 j : is_u8 (rcon j).
Proof. destruct j; [by_decide|]. apply GfMultBy02_u8. Qed.

Lemma next_word_ok ws : Forall word_ok ws -> (4 <= length ws)%nat -> word_ok (next_word ws).
Proof.
  intros Hws Hl. unfold next_word.
  destruct (fetch_word ws [] (length ws - 1) _ Hws ltac:(lia) eq_refl) as [_ H1].
  destruct (fetch_word ws [] (length ws - 4) _ Hws ltac:(lia) eq_refl) as [_ H4].
  assert (Hr : Bytes [rcon (length ws / 4 - 1); 0; 0; 0]).
  { apply Forall_cons_2; [apply rcon_u8|]. by_decide. }
  destruct (_ =? 0)%nat; split; rewrite ?XorBytes_length, ?SubBytes_length;
    try apply rotated_word, H1; try apply H1; apply XorBytes_bytes; try apply H4; try apply H1;
    apply XorBytes_bytes; [apply SubBytes_bytes, rotated_word, H1|exact Hr].
Qed.

Lemma expand_step_spec ws t rest :
  Forall word_ok ws -> (4 <= length ws)%nat -> length t = 4%nat ->
  expand_step (concat ws ++ t ++ rest) (rcon ((length ws - 1) / 4)) (length ws) =
  Some (concat (ws ++ [next_word ws]) ++ rest, rcon (length ws / 4)).
Proof.
  intros Hws Hl Ht. pose proof (next_word_ok ws Hws Hl) as [Hn _].
  unfold expand_step. set (i := length ws) in *.
  destruct (fetch_word ws (t ++ rest) (i - 1) (4 * Z.of_nat i - 4) Hws ltac:(lia) ltac:(lia)) as [-> _].
  cbn [mbind option_bind]. change (6 <? Nk)%nat with false. cbn [andb]. change Nk with 4%nat.
  destruct (fetch_word ws (t ++ rest) (i - 4) (4 * Z.of_nat i - 4 * Z.of_nat 4) Hws ltac:(lia) ltac:(lia)) as [-> _].
  cbn [mbind option_bind].
  assert (Eq : rcon ((i - 1) / 4) = rcon (i / 4 - 1) \/ (i mod 4 =? 0)%nat = false).
  { destruct (Nat.eqb_spec (i mod 4) 0); [left|by right]. f_equal.
    pose proof (Nat.div_mod i 4 ltac:(lia)). symmetry. apply (Nat.div_unique (i - 1) 4 (i / 4 - 1) 3); lia. }
  assert (Er : (if (i mod 4 =? 0)%nat then GfMultBy02 (rcon ((i - 1) / 4)) else rcon ((i - 1) / 4)) = rcon (i / 4)).
  { pose proof (Nat.div_mod i 4 ltac:(lia)). pose proof (Nat.mod_upper_bound i 4 ltac:(lia)).
    destruct (Nat.eqb_spec (i mod 4) 0).
    - destruct Eq as [->|]; [|done]. destruct (i / 4)%nat as [|j]; [lia|].
      replace (S j - 1)%nat with j by lia. done.
    - f_equal. symmetry. apply (Nat.div_unique (i - 1) 4 (i / 4) (i mod 4 - 1)); lia. }
  rewrite Er.
  assert (Ew : XorBytes (if (i mod 4 =? 0)%nat
      then XorBytes (SubBytes (RotationWord (nth (i - 1) ws [])) 4 false) [rcon ((i - 1) / 4); 0; 0; 0] 4
      else nth (i - 1) ws []) (nth (i - 4) ws []) 4 = next_word ws).
  { unfold next_word. fold i. destruct Eq as [->| ->]; done. }
  rewrite Ew. replace (concat ws ++ t ++ rest) with (concat (ws ++ [t]) ++ rest)
    by (rewrite concat_app; cbn [concat]; by rewrite app_nil_r, <- app_assoc).
  rewrite (blit_concat 4) by (done || by apply word_length). done.
Qed.

Lemma expand_loop_spec n : forall ws rest,
  Forall word_ok ws -> (4 <= length ws)%nat -> length rest = (4 * n)%nat ->
  expand_loop n (concat ws ++ rest) (rcon ((length ws - 1) / 4)) (length ws) =
    Some (concat (schedule n ws)) /\
  Forall word_ok (schedule n ws) /\ length (schedule n ws) = (n + length ws)%nat.
Proof.
  induction n as [|n IH]; intros ws rest Hws Hl Hr.
  { destruct rest; [|discriminate Hr]. simpl. by rewrite app_nil_r. }
  rewrite <- (take_drop 4 rest) at 1. cbn [expand_loop].
  rewrite expand_step_spec by (done || (rewrite length_take; lia)). cbn [mbind option_bind].
  assert (Hln : length (ws ++ [next_word ws]) = S (length ws)) by (rewrite length_app; simpl; lia).
  destruct (IH (ws ++ [next_word ws]) (drop 4 rest)) as (E & Hok & Hlen).
  - apply Forall_app. split; [done|]. constructor; [by apply next_word_ok|constructor].
  - lia.
  - rewrite length_drop. lia.
  - rewrite Hln in *. replace (S (length ws) - 1)%nat with (length ws) in E by lia. rewrite E.
    rewrite schedule_S. split; [done|]. split; [done|]. lia.
Qed.

Lemma AES_Init_spec g ws : length g = 176%nat -> length ws = 4%nat -> Forall word_ok ws ->
  AES_Init g (concat ws) = Some (concat (schedule 40 ws)) /\ Bytes (concat (schedule 40 ws)).
Proof.
  intros Hg Hw Hok.
  assert (Hk : zlen (concat ws) = 16).
  { rewrite (concat_length 4) by by apply word_length. by rewrite Hw. }
  unfold AES_Init. change (4 * Z.of_nat Nk) with 16.
  assert (Ef : fetch (concat ws) 0 16 = Some (concat ws)).
  { rewrite <- (app_nil_r (concat ws)) at 1. by rewrite (fetch_mid [] (concat ws) []). }
  rewrite Ef. cbn [mbind option_bind].
  pose proof (blit_next [] g (concat ws) ltac:(rewrite Hk; unfold zlen; lia)) as E.
  change (zlen []) with 0 in E. rewrite !app_nil_l in E. rewrite E. cbn [mbind option_bind].
  destruct (expand_loop_spec 40 ws (zdrop (zlen (concat ws)) g) Hok) as (E2 & Hok2 & _).
  - lia.
  - rewrite Hk. unfold zdrop. rewrite length_drop, Hg. done.
  - rewrite Hw in E2. change (rcon _) with 1 in E2. split; [exact E2|].
    clear - Hok2. induction Hok2 as [|w l [_ Hb] _ IH]; [constructor|]. cbn [concat]. by apply Forall_app.
Qed.

Lemma key_words key : block key -> exists ws, key = concat ws /\ length ws = 4%nat /\ Forall word_ok ws.
Proof.
  intros [Hk Hb]. destruct (pieces 4 4 key Hk) as (ws & -> & Hw & Hl). exists ws. split_and!; [done..|].
  apply Forall_concat_1 in Hb. clear - Hb Hl. induction Hl; [constructor|].
  apply Forall_cons_1 in Hb as [? ?]. constructor; [by split|auto].
Qed.

(** * The properties *)

Lemma Encrypt_in_place tbl bs r iv : Bytes tbl -> Forall block bs -> block iv ->
  AES_Encrypt tbl None (concat bs ++ r) (16 * Z.of_nat (length bs)) iv =
  Some (concat (cbc (BlockEncrypt tbl) iv bs) ++ r).
Proof.
  intros Ht Hbs Hiv. unfold AES_Encrypt. cbn [mbind option_bind].
  replace (Z.to_nat (16 * Z.of_nat (length bs) / 16)) with (length bs) by (Z.div_mod_to_equations; lia).
  by apply (encrypt_loop_cbc tbl Ht bs []).
Qed.

Lemma copy_in (src r out : list Z) n : n = zlen src -> n <= zlen out ->
  (p ← fetch (src ++ r) 0 n; blit out 0 p) = Some (src ++ zdrop n out).
Proof.
  intros -> Hl. pose proof (fetch_mid [] src r (zlen src) eq_refl) as E. change (zlen []) with 0 in E.
  rewrite app_nil_l in E. rewrite E. cbn [mbind option_bind].
  pose proof (blit_next [] out src Hl) as E2. change (zlen []) with 0 in E2. by rewrite !app_nil_l in E2.
Qed.

Lemma Decrypt_in_place tbl cs r iv : Forall block cs ->
  (forall c, c ∈ cs -> length (BlockDecrypt tbl c) = 16%nat) ->
  AES_Decrypt tbl (concat cs ++ r) None (16 * Z.of_nat (length cs)) iv =
  Some (concat (uncbc (BlockDecrypt tbl) iv cs) ++ r).
Proof.
  intros Hcs Hd. unfold AES_Decrypt. cbn [mbind option_bind].
  replace (Z.to_nat (16 * Z.of_nat (length cs) / 16)) with (length cs) by (Z.div_mod_to_equations; lia).
  by apply (decrypt_loop_cbc tbl cs [] r iv); [by apply lengths_16|..].
Qed.

Lemma AES_copy tbl bs r out iv : Forall block bs -> 16 * Z.of_nat (length bs) <= zlen out ->
  AES_Encrypt tbl (Some (concat bs ++ r)) out (16 * Z.of_nat (length bs)) iv =
    AES_Encrypt tbl None (concat bs ++ zdrop (16 * Z.of_nat (length bs)) out) (16 * Z.of_nat (length bs)) iv /\
  AES_Decrypt tbl out (Some (concat bs ++ r)) (16 * Z.of_nat (length bs)) iv =
    AES_Decrypt tbl (concat bs ++ zdrop (16 * Z.of_nat (length bs)) out) None (16 * Z.of_nat (length bs)) iv.
Proof.
  intros Hbs Hl. pose proof (concat_length 16 bs (lengths_16 _ Hbs)) as Hlen.
  change (Z.of_nat 16) with 16 in Hlen. unfold AES_Encrypt, AES_Decrypt.
  by rewrite copy_in by (done || lia).
Qed.

(** C26: data enciphered under a key and an initial vector is deciphered under
    them, for every number of blocks, in place or from one buffer to another;
    none of the calls leaves its buffers. *)
Theorem AES_roundtrip g key iv data out1 out2 n :
  length g = 176%nat -> block key -> block iv -> Bytes data ->
  zlen data = n -> n mod 16 = 0 -> n <= zlen out1 -> n <= zlen out2 ->
  exists tbl c1 c2, AES_Init g key = Some tbl /\
    AES_Encrypt tbl (Some data) out1 n iv = Some c1 /\
    AES_Decrypt tbl out2 (Some c1) n iv = Some (data ++ zdrop n out2) /\
    AES_Encrypt tbl None data n iv = Some c2 /\
    AES_Decrypt tbl c2 None n iv = Some data.
Proof.
  intros Hg Hk Hiv Hb Hn Hm H1 H2. destruct (key_words key Hk) as (ws & -> & Hw & Hok).
  destruct (AES_Init_spec g ws Hg Hw Hok) as [Ei Ht].
  set (tbl := concat (schedule 40 ws)) in *.
  destruct (data_blocks data (Z.to_nat (n / 16)) Hb) as (bs & -> & Hl & Hbs).
  { pose proof (zlen_nonneg data). unfold zlen in *. Z.div_mod_to_equations. lia. }
  assert (En : n = 16 * Z.of_nat (length bs)) by (rewrite Hl; pose proof (zlen_nonneg (concat bs)); Z.div_mod_to_equations; lia).
  clear Hn Hm Hl. subst n.
  assert (Hcs : Forall block (cbc (BlockEncrypt tbl) iv bs)) by by apply cbc_blocks.
  pose proof (cbc_length (BlockEncrypt tbl) bs iv) as Hcl.
  assert (Hd : forall c, c ∈ cbc (BlockEncrypt tbl) iv bs -> length (BlockDecrypt tbl c) = 16%nat).
  { clear - Ht Hbs Hiv. revert iv Hiv. induction Hbs as [|b bs Hb _ IH]; intros iv Hiv c Hc; [by apply not_elem_of_nil in Hc|].
    assert (Hx : block (XorBytes b iv 16)) by (apply XorBytes_block; [done|apply Hiv]).
    cbn [cbc] in Hc. apply elem_of_cons in Hc as [->|Hc].
    - rewrite BlockDecrypt_BlockEncrypt by done. by apply block_length.
    - eapply IH; [|exact Hc]. by apply BlockEncrypt_block. }
  pose proof (AES_copy tbl bs [] out1 iv Hbs H1) as [Ec1 _]. rewrite app_nil_r in Ec1.
  eexists tbl, _, _. split; [exact Ei|].
  split; [rewrite Ec1; by apply Encrypt_in_place|]. split.
  - rewrite <- Hcl in H2 |- *. destruct (AES_copy tbl _ (zdrop (16 * Z.of_nat (length (cbc (BlockEncrypt tbl) iv bs))) out1) out2 iv Hcs H2) as [_ ->].
    rewrite Decrypt_in_place by done. by rewrite uncbc_cbc.
  - split; [rewrite <- (app_nil_r (concat bs)); by apply Encrypt_in_place|].
    rewrite <- Hcl, Decrypt_in_place by done. by rewrite uncbc_cbc, app_nil_r.
Qed.

(** [AES_Encrypt] is cipher block chaining: the blocks of the buffer
    become the chain of ciphertext blocks, and the bytes behind them stay. *)
Theorem AES_Encrypt_cbc tbl bs r iv out : Bytes tbl -> Forall block bs -> block iv ->
  16 * Z.of_nat (length bs) <= zlen out ->
  AES_Encrypt tbl (Some (concat bs ++ r)) out (16 * Z.of_nat (length bs)) iv =
    Some (concat (cbc (BlockEncrypt tbl) iv bs) ++ zdrop (16 * Z.of_nat (length bs)) out) /\
  AES_Encrypt tbl None (concat bs ++ r) (16 * Z.of_nat (length bs)) iv =
    Some (concat (cbc (BlockEncrypt tbl) iv bs) ++ r).
Proof.
  intros Ht Hbs Hiv Hl. split; [|by apply Encrypt_in_place].
  destruct (AES_copy tbl bs r out iv Hbs Hl) as [-> _]. by apply Encrypt_in_place.
Qed.

(** [AES_Init] computes the key expansion of FIPS 197: the four words of
    the key followed by forty words of the recurrence, whatever the table held
    before. *)
Theorem AES_Init_schedule g k0 k1 k2 k3 :
  length g = 176%nat -> Forall word_ok [k0; k1; k2; k3] ->
  AES_Init g (concat [k0; k1; k2; k3]) = Some (concat (schedule 40 [k0; k1; k2; k3])).
Proof. intros Hg Hok. by apply AES_Init_spec. Qed.

(** * The tables *)

(** Multiplication in the field GF(2^8) of FIPS 197. *)
Definition gmul (a b : Z) : Z :=
  fold_right (fun i s => Z.lxor (if Z.testbit b (Z.of_nat i) then Nat.iter i GfMultBy02 a else 0) s) 0 (seq 0 8).

(** The affine transformation of FIPS 197, section 5.1.1. *)
Definition rotl8 (y k : Z) : Z := u8 (Z.lor (Z.shiftl y k) (Z.shiftr y (8 - k))).
Definition affine (y : Z) : Z :=
  Z.lxor (Z.lxor (Z.lxor (Z.lxor (Z.lxor y (rotl8 y 1)) (rotl8 y 2)) (rotl8 y 3)) (rotl8 y 4)) 99.

(** The table [SBox] is the one FIPS 197 defines: the affine image of the
    inverse in the field, and of 0 for 0; [InvSBox] is its inverse. *)
Theorem SBox_fips x : is_u8 x ->
  (exists y, is_u8 y /\ (x <> 0 -> gmul x y = 1) /\ (x = 0 -> y = 0) /\ nth (Z.to_nat x) SBox 0 = affine y) /\
  nth (Z.to_nat (nth (Z.to_nat x) SBox 0)) InvSBox 0 = x.
Proof.
  intros Hx. split; [|by apply box_inverse].
  pose proof (u8_forall (fun x => existsb (fun y =>
    (if x =? 0 then y =? 0 else gmul x y =? 1) && (nth (Z.to_nat x) SBox 0 =? affine y)) (seqZ 0 256))
    ltac:(by vm_compute) x Hx) as E. cbv beta in E.
  apply existsb_exists in E as (y & Hy & [E1 E2]%andb_prop). exists y.
  apply list_elem_of_In, elem_of_seqZ in Hy. apply Z.eqb_eq in E2.
  split; [word_lia|]. destruct (Z.eqb_spec x 0); apply Z.eqb_eq in E1; split_and!; intros; done.
Qed.

(** The example of FIPS 197, appendix C.1. *)
Lemma fips197_c1 :
  (tbl ← AES_Init (replicate 176 0) (seqZ 0 16); Some (BlockEncrypt tbl (map (Z.mul 17) (seqZ 0 16)))) =
  Some [105; 196; 224; 216; 106; 123; 4; 48; 216; 205; 183; 128; 112; 180; 197; 90].
Proof. by vm_compute. Qed.

(** * Witnesses *)

Lemma AES_roundtrip_witness :
  exists tbl c1 c2, AES_Init (replicate 176 0) (seqZ 0 16) = Some tbl /\
    AES_Encrypt tbl (Some (seqZ 0 32)) (replicate 40 7) 32 (seqZ 100 16) = Some c1 /\
    AES_Decrypt tbl (replicate 33 9) (Some c1) 32 (seqZ 100 16) = Some (seqZ 0 32 ++ zdrop 32 (replicate 33 9)) /\
    AES_Encrypt tbl None (seqZ 0 32) 32 (seqZ 100 16) = Some c2 /\
    AES_Decrypt tbl c2 None 32 (seqZ 100 16) = Some (seqZ 0 32).
Proof.
  apply (AES_roundtrip (replicate 176 0) (seqZ 0 16) (seqZ 100 16) (seqZ 0 32) (replicate 40 7) (replicate 33 9) 32);
    by_decide.
Defined.

Lemma AES_Encrypt_cbc_witness :
  AES_Encrypt (replicate 176 0) (Some (concat [seqZ 0 16; seqZ 50 16] ++ [])) (replicate 33 7) 32 (seqZ 100 16) =
    Some (concat (cbc (BlockEncrypt (replicate 176 0)) (seqZ 100 16) [seqZ 0 16; seqZ 50 16]) ++
      zdrop 32 (replicate 33 7)) /\
  AES_Encrypt (replicate 176 0) None (concat [seqZ 0 16; seqZ 50 16] ++ []) 32 (seqZ 100 16) =
    Some (concat (cbc (BlockEncrypt (replicate 176 0)) (seqZ 100 16) [seqZ 0 16; seqZ 50 16]) ++ []).
Proof.
  apply (AES_Encrypt_cbc (replicate 176 0) [seqZ 0 16; seqZ 50 16] [] (seqZ 100 16) (replicate 33 7)); by_decide.
Defined.

Lemma AES_Init_schedule_witness :
  AES_Init (replicate 176 5) (concat [seqZ 0 4; seqZ 4 4; seqZ 8 4; seqZ 12 4]) =
  Some (concat (schedule 40 [seqZ 0 4; seqZ 4 4; seqZ 8 4; seqZ 12 4])).
Proof.
  apply (AES_Init_schedule (replicate 176 5) (seqZ 0 4) (seqZ 4 4) (seqZ 8 4) (seqZ 12 4)); [reflexivity|].
  repeat constructor; by_decide.
Defined.

Lemma SBox_fips_witness :
  exists y, is_u8 y /\ (83 <> 0 -> gmul 83 y = 1) /\ (83 = 0 -> y = 0) /\ nth 83 SBox 0 = affine y.
Proof. exact (proj1 (SBox_fips 83 ltac:(by_decide))). Defined.
