(* ===== verification/Flash.v ===== *)
(** The serial flash driver: BSP/flash.c (the quad SPI half of it) and the flash
    part of App/NuAgent/System/nl6621_drv.c.

    The chip itself is not in the repository.  It is a parameter: a type of
    chip states with one operation, the SPI transaction ([Spi]), and the laws
    of its data sheet ([NorFlash]): the status register, write enable, read,
    page program (bits only go from 1 to 0) and sector erase.  The driver is
    written against the transaction alone; its theorems use the laws. *)
From S2P Require Import Prelude.

(** * Constants of flash.h *)

Definition MAX_FLASH_RD_SIZE : Z := 65536.
Definition FLASH_PAGE_SIZE : Z := 256.
Definition FLASH_SECTOR_SIZE : Z := 4096.
Definition FLASH_CMD_SEQ_READ : Z := 3.
Definition FLASH_CMD_WREN : Z := 6.
Definition FLASH_CMD_CHIP_ERASE : Z := 199.
Definition FLASH_CMD_SECTOR_ERASE : Z := 32.
Definition FLASH_CMD_PAGE_WRITE : Z := 2.
Definition FLASH_CMD_RD_SR : Z := 5.
Definition FLASH_SR_BUSY : Z := 1.
Definition DUMMY_BYTE : Z := 85.

(** * The chip *)

(** One transaction, from the fall of chip select to its rise: the bytes the
    controller shifts out, and the number of bytes it clocks in after them.
    The result holds the bytes received during the whole of it. *)
Class Spi (chip : Type) := spi : list Z -> Z -> chip -> list Z * chip.

(** The address bytes of a command. *)
Definition addr24 (a : Z) : list Z :=
  [Z.land (Z.shiftr a 16) 255; Z.land (Z.shiftr a 8) 255; Z.land a 255].

(** Contents as functions of the address: what programming, erasing and
    replacing leave. *)
Definition prog (f : Z -> Z) (pos : Z) (l : list Z) (a : Z) : Z :=
  match ld l (a - pos) with Some x => Z.land (f a) x | None => f a end.
Definition erased (f : Z -> Z) (pos : Z) (a : Z) : Z :=
  if (pos <=? a) && (a <? pos + FLASH_SECTOR_SIZE) then 255 else f a.
Definition put (f : Z -> Z) (pos : Z) (l : list Z) (a : Z) : Z :=
  match ld l (a - pos) with Some x => x | None => f a end.

(** What the driver relies on.  [busy] counts the status reads that will still
    answer busy; [busy_max] bounds it, as the data sheet bounds the time of a
    program or erase cycle. *)
Class NorFlash (chip : Type) `{Spi chip} := {
  size : Z;
  cells : chip -> Z -> Z;
  wel : chip -> bool;
  busy : chip -> nat;
  busy_max : nat;
  size_ok : 0 < size <= 16777216 /\ size mod FLASH_SECTOR_SIZE = 0;
  cells_u8 : forall c a, is_u8 (cells c a);
  busy_le : forall c, (busy c <= busy_max)%nat;
  status_law : forall c d, exists x sr c',
    spi [FLASH_CMD_RD_SR; d] 0 c = ([x; sr], c') /\
    Z.odd sr = negb (busy c =? 0)%nat /\ busy c' = Nat.pred (busy c) /\
    wel c' = wel c /\ forall a, cells c' a = cells c a;
  wren_law : forall c, busy c = 0%nat -> exists rx c',
    spi [FLASH_CMD_WREN] 0 c = (rx, c') /\
    busy c' = 0%nat /\ wel c' = true /\ forall a, cells c' a = cells c a;
  read_law : forall c a n, busy c = 0%nat -> 0 <= a -> 0 <= n -> a + n <= size ->
    exists rx c',
    spi (FLASH_CMD_SEQ_READ :: addr24 a) n c = (rx, c') /\ zlen rx = 4 + n /\
    zdrop 4 rx = map (cells c) (seqZ a n) /\
    busy c' = 0%nat /\ wel c' = wel c /\ forall a, cells c' a = cells c a;
  program_law : forall c a data, busy c = 0%nat -> wel c = true -> Bytes data ->
    0 <= a -> a + zlen data <= size -> a mod FLASH_PAGE_SIZE + zlen data <= FLASH_PAGE_SIZE ->
    exists rx c',
    spi (FLASH_CMD_PAGE_WRITE :: addr24 a ++ data) 0 c = (rx, c') /\
    forall x, 0 <= x < size -> cells c' x = prog (cells c) a data x;
  erase_law : forall c a, busy c = 0%nat -> wel c = true ->
    0 <= a < size -> a mod FLASH_SECTOR_SIZE = 0 ->
    exists rx c',
    spi (FLASH_CMD_SECTOR_ERASE :: addr24 a) 0 c = (rx, c') /\
    forall x, 0 <= x < size -> cells c' x = erased (cells c) a x;
  chip_erase_law : forall c, busy c = 0%nat -> wel c = true ->
    exists rx c',
    spi [FLASH_CMD_CHIP_ERASE] 0 c = (rx, c') /\ forall x, 0 <= x < size -> cells c' x = 255
}.

(** * The driver (flash.c) *)

Section Driver.
Context {chip : Type} {SPI : Spi chip}.

(** How many status reads a wait is followed for. *)
Context (polls : nat).

Definition transfer (tx : list Z) (n : Z) : M chip (list Z) :=
  fun c => let '(rx, c') := spi tx n c in Done rx c'.

(** The first byte received is thrown away, the second is the register. *)
Definition QSpiFlashReadSR : M chip Z :=
  rx ← transfer [FLASH_CMD_RD_SR; DUMMY_BYTE] 0;
  access (fun _ => ld rx 1).

Fixpoint QSpiFlashWaitBusy (fuel : nat) : M chip unit :=
  match fuel with
  | O => crash
  | S fuel =>
      SR ← QSpiFlashReadSR;
      if Z.land SR FLASH_SR_BUSY =? 0 then mret tt else QSpiFlashWaitBusy fuel
  end.

Definition QSPI_FlashWriteEnable : M chip unit :=
  _ ← transfer [FLASH_CMD_WREN] 0; mret tt.

Definition QSpiFlashEraseChip : M chip unit :=
  QSPI_FlashWriteEnable;;
  _ ← transfer [FLASH_CMD_CHIP_ERASE] 0;
  QSpiFlashWaitBusy polls.

(** [pBuf] is the object pointed into, [off] the offset of the pointer. *)
Definition QSpiFlashWriteOnePage (Adr : Z) (pBuf : list Z) (off DataLen : Z) : M chip unit :=
  QSPI_FlashWriteEnable;;
  data ← access (fun _ => fetch pBuf off DataLen);
  _ ← transfer (FLASH_CMD_PAGE_WRITE :: addr24 Adr ++ data) 0;
  QSpiFlashWaitBusy polls.

Definition QSpiFlashEraseSector (SectorAddr : Z) : M chip unit :=
  QSPI_FlashWriteEnable;;
  _ ← transfer (FLASH_CMD_SECTOR_ERASE :: addr24 SectorAddr) 0;
  QSpiFlashWaitBusy polls.

(** The loop of [QSpiFlashRead]; the four bytes received during the command
    are not kept.  The result is the object filled. *)
Fixpoint read_loop (fuel : nat) (ReadAddr DnldByteCnt Len : Z) (pBuf : list Z)
  : M chip (list Z) :=
  match fuel with
  | O => crash
  | S fuel =>
      if DnldByteCnt <? Len then
        let RdCnt :=
          if MAX_FLASH_RD_SIZE <? Len - DnldByteCnt then MAX_FLASH_RD_SIZE
          else Len - DnldByteCnt in
        rx ← transfer (FLASH_CMD_SEQ_READ :: addr24 ReadAddr) RdCnt;
        pBuf ← access (fun _ => blit pBuf DnldByteCnt (zdrop 4 rx));
        read_loop fuel (u32 (ReadAddr + RdCnt)) (u32 (DnldByteCnt + RdCnt)) Len pBuf
      else mret pBuf
  end.

Definition QSpiFlashRead (ReadStartPos : Z) (pBuf : list Z) (Len : Z) : M chip (list Z) :=
  read_loop (S (Z.to_nat Len)) ReadStartPos 0 Len pBuf.

(** One turn of the retry loop: whether the page read back is the one written,
    and the page buffer. *)
Definition attempt (WriteAddr : Z) (pBuf : list Z) (off : Z) (PageBuf : list Z)
  : M chip (bool * list Z) :=
  QSpiFlashWriteOnePage WriteAddr pBuf off FLASH_PAGE_SIZE;;
  PageBuf ← QSpiFlashRead WriteAddr PageBuf FLASH_PAGE_SIZE;
  want ← access (fun _ => fetch pBuf off FLASH_PAGE_SIZE);
  got ← access (fun _ => fetch PageBuf 0 FLASH_PAGE_SIZE);
  mret (bool_decide (got = want), PageBuf).

(** The [while (j--)] of one page: the value of [j] after the loop, and the
    page buffer. *)
Fixpoint retry (fuel : nat) (j WriteAddr : Z) (pBuf : list Z) (off : Z) (PageBuf : list Z)
  : M chip (Z * list Z) :=
  match fuel with
  | O => crash
  | S fuel =>
      if j =? 0 then mret (u32 (j - 1), PageBuf)
      else
        let j := j - 1 in
        '(same, PageBuf) ← attempt WriteAddr pBuf off PageBuf;
        if (same : bool) then mret (j, PageBuf)
        else retry fuel j WriteAddr pBuf off PageBuf
  end.

Fixpoint pages_loop (n : nat) (WriteAddr : Z) (pBuf : list Z) (off : Z) (PageBuf : list Z)
  : M chip (Z * list Z) :=
  match n with
  | O => mret (0, PageBuf)
  | S n =>
      '(j, PageBuf) ← retry 11 10 WriteAddr pBuf off PageBuf;
      if j =? 0 then mret (-1, PageBuf)
      else pages_loop n (u32 (WriteAddr + FLASH_PAGE_SIZE)) pBuf (off + FLASH_PAGE_SIZE) PageBuf
  end.

(** The status and the global page buffer. *)
Definition QSpiWriteOneSector (SectorAddr : Z) (pBuf : list Z) (PageBuf : list Z)
  : M chip (Z * list Z) :=
  QSpiFlashEraseSector SectorAddr;;
  pages_loop (Z.to_nat (FLASH_SECTOR_SIZE / FLASH_PAGE_SIZE)) SectorAddr pBuf 0 PageBuf.

Fixpoint any_loop (fuel : nat) (WriteAddr : Z) (pData : list Z) (off DataLen pageremain : Z)
  : M chip Z :=
  match fuel with
  | O => crash
  | S fuel =>
      QSpiFlashWriteOnePage WriteAddr pData off pageremain;;
      if DataLen =? pageremain then mret 0
      else
        let off := off + pageremain in
        let WriteAddr := u32 (WriteAddr + pageremain) in
        let DataLen := u16 (DataLen - pageremain) in
        let pageremain := if FLASH_PAGE_SIZE <? DataLen then FLASH_PAGE_SIZE else DataLen in
        any_loop fuel WriteAddr pData off DataLen pageremain
  end.

Definition QSpiWriteAny (WriteAddr : Z) (pData : list Z) (off DataLen : Z) : M chip Z :=
  let pageremain := u16 (FLASH_PAGE_SIZE - WriteAddr mod FLASH_PAGE_SIZE) in
  let pageremain := if DataLen <=? pageremain then DataLen else pageremain in
  any_loop (S (Z.to_nat DataLen)) WriteAddr pData off DataLen pageremain.

(** * nl6621_drv.c *)

Definition ReadFlash (pBuf : list Z) (DataLen ReadStartPos : Z) : M chip (list Z) :=
  QSpiFlashRead ReadStartPos pBuf DataLen.

(** [for(i=0; i<secre_main; i++) if(flash_buf[sector_off+i] != 0XFF) break;] *)
Fixpoint find_used (fuel : nat) (flash_buf : list Z) (sector_off secre_main i : Z) : option Z :=
  match fuel with
  | O => None
  | S fuel =>
      if i <? secre_main then
        x ← ld flash_buf (sector_off + i);
        if x =? 255 then find_used fuel flash_buf sector_off secre_main (u16 (i + 1)) else Some i
      else Some i
  end.

(** [for(i=0; i<secre_main; i++) flash_buf[sector_off+i] = pData[i];] *)
Fixpoint copy_loop (fuel : nat) (flash_buf : list Z) (sector_off secre_main : Z)
  (pData : list Z) (off i : Z) : option (list Z) :=
  match fuel with
  | O => None
  | S fuel =>
      if i <? secre_main then
        x ← ld pData (off + i);
        flash_buf ← st flash_buf (sector_off + i) x;
        copy_loop fuel flash_buf sector_off secre_main pData off (u16 (i + 1))
      else Some flash_buf
  end.

(** One sector: erased and programmed as a whole when a byte of the range is
    in use, otherwise only the range is programmed. *)
Definition store_sector (flash_buf : list Z) (sector_num sector_off secre_main WriteAddr : Z)
  (pData : list Z) (off i : Z) : M chip (Z * list Z) :=
  if i <? secre_main then
    QSpiFlashEraseSector (u32 (sector_num * FLASH_SECTOR_SIZE));;
    flash_buf ← access (fun _ =>
      copy_loop (S (Z.to_nat secre_main)) flash_buf sector_off secre_main pData off 0);
    r ← QSpiWriteAny (u32 (sector_num * FLASH_SECTOR_SIZE)) flash_buf 0 FLASH_SECTOR_SIZE;
    mret (r, flash_buf)
  else
    r ← QSpiWriteAny WriteAddr pData off secre_main;
    mret (r, flash_buf).

Fixpoint write_loop (fuel : nat) (flash_buf : list Z) (sector_num sector_off secre_main WriteAddr : Z)
  (pData : list Z) (off DataLen : Z) : M chip unit :=
  match fuel with
  | O => crash
  | S fuel =>
      flash_buf ← QSpiFlashRead (u32 (sector_num * FLASH_SECTOR_SIZE)) flash_buf FLASH_SECTOR_SIZE;
      i ← access (fun _ => find_used (S (Z.to_nat secre_main)) flash_buf sector_off secre_main 0);
      '(r, flash_buf) ← store_sector flash_buf sector_num sector_off secre_main WriteAddr pData off i;
      if negb (r =? 0) then mret tt
      else if DataLen =? secre_main then mret tt
      else
        let sector_num := u8 (sector_num + 1) in
        let off := off + secre_main in
        let WriteAddr := u32 (WriteAddr + secre_main) in
        let DataLen := u32 (DataLen - secre_main) in
        let secre_main := if FLASH_SECTOR_SIZE <? DataLen then FLASH_SECTOR_SIZE else DataLen in
        write_loop fuel flash_buf sector_num 0 secre_main WriteAddr pData off DataLen
  end.

(** A failed allocation is only reported on the console: the null pointer is
    then filled by the first read. *)
Definition WriteFlash `{Heap} (pData : list Z) (DataLen BurnStartPos : Z) : M chip unit :=
  let WriteAddr := BurnStartPos in
  let sector_num := u8 (WriteAddr / FLASH_SECTOR_SIZE) in
  let sector_off := u16 (WriteAddr mod FLASH_SECTOR_SIZE) in
  let secre_main := u16 (FLASH_SECTOR_SIZE - sector_off) in
  flash_buf ← access (fun _ => malloc FLASH_SECTOR_SIZE);
  let secre_main := if DataLen <=? secre_main then u16 DataLen else secre_main in
  write_loop (S (Z.to_nat DataLen)) flash_buf sector_num sector_off secre_main WriteAddr pData 0 DataLen.

(** ** The configuration record *)

(** nu_agent.h *)
Record Agent_config_t := mkCfg {
  magicNumber : Z;
  cfg_flag : Z;
  wifipasscode : list Z;
  wifi_ssid : list Z;
  wifi_key : list Z
}.

Definition XPG_CFG_FLAG_CONNECTED : Z := 1.
Definition AGENT_CONFIG_DATA_ADDR : Z := 409600.
Definition sizeof_Agent_config_t : Z := 88.

(** The record in memory. *)
Definition cfg_image (c : Agent_config_t) : list Z :=
  le32 (magicNumber c) ++ le32 (cfg_flag c) ++ wifipasscode c ++ wifi_ssid c ++ wifi_key c.

Definition cfg_of (img : list Z) : Agent_config_t :=
  mkCfg (of_le32 (ztake 4 img)) (of_le32 (ztake 4 (zdrop 4 img)))
    (ztake 16 (zdrop 8 img)) (ztake 32 (zdrop 24 img)) (ztake 32 (zdrop 56 img)).

(** The record pointed to is filled; the status is always 0. *)
Definition nl6621_GetConfigData (pConfig : Agent_config_t) : M chip Agent_config_t :=
  img ← ReadFlash (cfg_image pConfig) sizeof_Agent_config_t AGENT_CONFIG_DATA_ADDR;
  mret (cfg_of img).

Definition nl6621_SaveConfigData `{Heap} (pConfig : Agent_config_t) : M chip unit :=
  WriteFlash (cfg_image pConfig) sizeof_Agent_config_t AGENT_CONFIG_DATA_ADDR.

(** [pSSID] and [pKey] are the objects pointed to: 32 bytes of each are copied
    whatever the length of the strings.  The global record is returned. *)
Definition Agent_SaveSSIDAndKey `{Heap} (pSSID pKey : list Z) (Agent_config_data : Agent_config_t)
  : M chip Agent_config_t :=
  ssid ← access (fun _ => fetch pSSID 0 32);
  key ← access (fun _ => fetch pKey 0 32);
  let Agent_config_data :=
    mkCfg (magicNumber Agent_config_data)
      (Z.lor (cfg_flag Agent_config_data) XPG_CFG_FLAG_CONNECTED)
      (wifipasscode Agent_config_data) ssid key in
  nl6621_SaveConfigData Agent_config_data;;
  mret Agent_config_data.

(** What [SysResetThread] of agent_core.c stores when the button was held. *)
Definition SysReset_config `{Heap} (Agent_config_data : Agent_config_t) : M chip unit :=
  nl6621_SaveConfigData
    (mkCfg (magicNumber Agent_config_data) 0 (wifipasscode Agent_config_data)
       (replicate 32 0) (replicate 32 0)).
End Driver.

(** ** The rest of nl6621_drv.c *)

(** [ticks] is [OSTimeGet()]. *)
Definition nl6621_GetTime_MS (ticks : Z) : Z := ticks mod 100 * 10.
Definition nl6621_GetTime_S (ticks : Z) : Z := ticks / 100.

(** [r] is what the C library's [rand()] returns after seeding. *)
Definition make_rand (r : Z) (start end_ : Z) : Z :=
  if end_ <=? start then -1 else Z.rem r (end_ - start + 1) + start.

(** * Contents *)

Lemma ld_app {A} (l k : list A) i :
  ld (l ++ k) i = match ld l i with Some x => Some x | None => ld k (i - zlen l) end.
Proof.
  destruct (Z.lt_ge_cases i (zlen l)).
  - rewrite ld_app_l by done. destruct (Z.lt_ge_cases i 0).
    + rewrite !ld_neg by (zlen_lia || done). done.
    + destruct (ld_is_Some l i) as [x ->]; [lia|done].
  - rewrite ld_app_r by done. by rewrite (ld_ge l) by done.
Qed.

Lemma prog_app f pos l k a :
  prog (prog f pos l) (pos + zlen l) k a = prog f pos (l ++ k) a.
Proof.
  unfold prog. rewrite ld_app. replace (a - (pos + zlen l)) with (a - pos - zlen l) by lia.
  destruct (ld l (a - pos)) as [x|] eqn:E; [|done].
  rewrite (ld_neg k); [done|]. apply ld_Some_range in E. lia.
Qed.

Lemma put_app f pos l k a : put (put f pos l) (pos + zlen l) k a = put f pos (l ++ k) a.
Proof.
  unfold put. rewrite ld_app. replace (a - (pos + zlen l)) with (a - pos - zlen l) by lia.
  destruct (ld l (a - pos)) as [x|] eqn:E; [|done].
  rewrite (ld_neg k); [done|]. apply ld_Some_range in E. lia.
Qed.

Lemma prog_ext f g pos l a : f a = g a -> prog f pos l a = prog g pos l a.
Proof. unfold prog. intros E. case_match; congruence. Qed.

Lemma put_ext f g pos l a : f a = g a -> put f pos l a = put g pos l a.
Proof. unfold put. intros E. case_match; congruence. Qed.

Lemma land_255_l x : is_u8 x -> Z.land 255 x = x.
Proof. intros. rewrite Z.land_comm, land_255. by apply Z.mod_small. Qed.

(** Programming cells that are all erased stores the bytes. *)
Lemma prog_blank f pos l a :
  Bytes l -> (forall i, 0 <= i < zlen l -> f (pos + i) = 255) -> prog f pos l a = put f pos l a.
Proof.
  intros Hl Hf. unfold prog, put. destruct (ld l (a - pos)) as [x|] eqn:E; [|done].
  pose proof (ld_Some_range _ _ _ E). specialize (Hf (a - pos) ltac:(done)).
  replace (pos + (a - pos)) with a in Hf by lia. rewrite Hf.
  apply land_255_l. by eapply (ld_Forall is_u8).
Qed.

Lemma land_1_odd x : (Z.land x 1 =? 0) = negb (Z.odd x).
Proof.
  pose proof (Z.land_ones x 1 ltac:(lia)) as E. change (Z.ones 1) with 1 in E. rewrite E, Zmod_odd.
  by destruct (Z.odd x).
Qed.

Lemma addr24_len a : zlen (addr24 a) = 3.
Proof. reflexivity. Qed.

(** The [n] cells from address [a]. *)
Definition content (f : Z -> Z) (a n : Z) : list Z := map f (seqZ a n).

Lemma content_len f a n : zlen (content f a n) = Z.max 0 n.
Proof. unfold content, zlen. rewrite length_map, length_seqZ. lia. Qed.

Lemma content_app f a n k : 0 <= n -> 0 <= k ->
  content f a (n + k) = content f a n ++ content f (a + n) k.
Proof. intros. unfold content. by rewrite seqZ_app, map_app by done. Qed.

Lemma ld_content f a n i : 0 <= i < n -> ld (content f a n) i = Some (f (a + i)).
Proof.
  intros. unfold ld, content. destruct (Z.leb_spec 0 i); [|lia].
  rewrite list_lookup_fmap, lookup_seqZ_lt by lia. simpl. do 2 f_equal. lia.
Qed.

Lemma content_ext f g a n :
  (forall x, a <= x < a + n -> f x = g x) -> content f a n = content g a n.
Proof.
  intros E. unfold content. apply map_ext_in. intros x Hx.
  apply E. apply list_elem_of_In, elem_of_seqZ in Hx. lia.
Qed.

Lemma fetch_split (l : list Z) off n k data :
  fetch l off n = Some data -> 0 <= k <= n ->
  fetch l off k = Some (ztake k data) /\ fetch l (off + k) (n - k) = Some (zdrop k data).
Proof.
  unfold fetch at 1. intros E Hk.
  destruct (Z.leb_spec 0 off), (Z.leb_spec 0 n), (Z.leb_spec (off + n) (zlen l)); try done.
  simpl in E. injection E as <-. rewrite !fetch_spec by lia. split; f_equal.
  - rewrite ztake_ztake. f_equal. lia.
  - rewrite !ztake_zdrop, zdrop_zdrop by lia. do 2 f_equal. lia.
Qed.

Lemma fetch_len (l : list Z) off n data : fetch l off n = Some data -> zlen data = n.
Proof.
  unfold fetch. intros E.
  destruct (Z.leb_spec 0 off), (Z.leb_spec 0 n), (Z.leb_spec (off + n) (zlen l)); try done.
  simpl in E. injection E as <-. zlen_lia.
Qed.

Lemma blit_app {A} (l : list A) off s1 s2 :
  0 <= off -> off + zlen s1 + zlen s2 <= zlen l -> exists l1,
  blit l off s1 = Some l1 /\ blit l1 (off + zlen s1) s2 = blit l off (s1 ++ s2).
Proof.
  intros. pose proof (zlen_nonneg s1). pose proof (zlen_nonneg s2).
  rewrite blit_spec by lia. eexists. split; [done|].
  rewrite (blit_spec l) by zlen_lia.
  assert (E : zlen (ztake off l ++ s1) = off + zlen s1) by zlen_lia.
  rewrite app_assoc, <- E. rewrite blit_next by zlen_lia. f_equal.
  rewrite <- !app_assoc. do 3 f_equal. rewrite zdrop_zdrop by zlen_lia. f_equal. zlen_lia.
Qed.

Lemma find_used_spec buf so sm : so + sm <= zlen buf -> 0 <= so -> sm <= 4096 ->
  forall fuel i, 0 <= i <= sm -> sm - i < Z.of_nat fuel ->
  (forall k, 0 <= k < i -> ld buf (so + k) = Some 255) ->
  exists j, find_used fuel buf so sm i = Some j /\ i <= j <= sm /\
    (j = sm -> forall k, 0 <= k < sm -> ld buf (so + k) = Some 255).
Proof.
  intros Hb Hs Hm. induction fuel as [|fuel IH]; intros i Hi Hf Hk; [lia|].
  cbn [find_used]. destruct (Z.ltb_spec i sm); [|exists i; split; [done|split; [lia|]]; intros ->; done].
  destruct (ld_is_Some buf (so + i)) as [x E]; [lia|]. rewrite E. simpl.
  destruct (Z.eqb_spec x 255) as [->|]; [|exists i; split; [done|]; lia].
  rewrite u16_small by (unfold is_u16; lia).
  destruct (IH (i + 1)) as (j & Ej & Hj & Hall); [lia..| |].
  { intros k ?. destruct (Z.eq_dec k i) as [->|]; [done|apply Hk; lia]. }
  exists j. split; [done|]. split; [lia|done].
Qed.

Lemma copy_loop_spec pData off so sm : 0 <= so -> sm <= 4096 ->
  forall fuel buf i d, 0 <= i <= sm -> sm - i < Z.of_nat fuel -> so + sm <= zlen buf ->
  fetch pData (off + i) (sm - i) = Some d ->
  copy_loop fuel buf so sm pData off i = blit buf (so + i) d.
Proof.
  intros Hs Hm. induction fuel as [|fuel IH]; intros buf i d Hi Hf Hb Ef; [lia|].
  pose proof (fetch_len _ _ _ _ Ef) as Hl. cbn [copy_loop].
  destruct (Z.ltb_spec i sm) as [Hlt|Hge].
  2:{ assert (d = []) as -> by (destruct d; [done|zlen_lia]).
      rewrite blit_spec by zlen_lia. simpl. rewrite zlen_nil, Z.add_0_r. by rewrite ztake_app_zdrop. }
  destruct d as [|x d]; [rewrite zlen_nil in Hl; lia|].
  destruct (fetch_split _ _ _ 1 _ Ef) as [E1 E2]; [lia|].
  assert (Ex : ld pData (off + i) = Some x).
  { revert E1. unfold fetch. repeat case_match; intros; simplify_eq/=.
    assert (Hr : 0 <= off + i < zlen pData) by lia. destruct (ld_is_Some pData _ Hr) as [y Ey].
    rewrite (ld_zdrop _ _ _ Ey) in *. unfold ztake in *. simpl in *. congruence. }
  rewrite Ex. simpl. rewrite st_blit by lia.
  destruct (blit_app buf (so + i) [x] d) as (buf1 & E3 & E4); [lia|zlen_lia|].
  rewrite E3. simpl. rewrite u16_small by (unfold is_u16; lia).
  pose proof (blit_length _ _ _ _ E3). rewrite (IH _ _ d); [|lia|lia|lia|].
  - etransitivity; [|exact E4]. f_equal. zlen_lia.
  - rewrite <- Z.add_assoc in E2. replace (sm - (i + 1)) with (sm - i - 1) by lia. exact E2.
Qed.

(** * The driver against the laws *)

Section Laws.
Context {chip : Type} {SPI : Spi chip} {NF : NorFlash chip}.

(** The chip is idle and holds [f]. *)
Definition holds (c : chip) (f : Z -> Z) : Prop :=
  busy c = 0%nat /\ forall a, 0 <= a < size -> cells c a = f a.

Lemma QSpiFlashReadSR_spec c : exists sr c',
  QSpiFlashReadSR c = Done sr c' /\ Z.odd sr = negb (busy c =? 0)%nat /\
  busy c' = Nat.pred (busy c) /\ wel c' = wel c /\ forall a, cells c' a = cells c a.
Proof.
  destruct (status_law c DUMMY_BYTE) as (x & sr & c' & E & S).
  exists sr, c'. split; [|done]. unfold QSpiFlashReadSR, transfer, mbind, M_bind. by rewrite E.
Qed.

Lemma QSpiFlashWaitBusy_spec fuel : forall c, (busy c < fuel)%nat -> exists c',
  QSpiFlashWaitBusy fuel c = Done tt c' /\ busy c' = 0%nat /\ forall a, cells c' a = cells c a.
Proof.
  induction fuel as [|fuel IH]; intros c Hf; [lia|].
  destruct (QSpiFlashReadSR_spec c) as (sr & c' & E & O & B & _ & C).
  cbn [QSpiFlashWaitBusy]. rewrite (bind_done _ _ _ _ _ E). unfold FLASH_SR_BUSY.
  rewrite land_1_odd, O, negb_involutive.
  destruct (Nat.eqb_spec (busy c) 0) as [Hb|Hb].
  - exists c'. split; [done|]. split; [lia|done].
  - destruct (IH c') as (c2 & E2 & B2 & C2); [lia|].
    exists c2. split; [done|]. split; [done|]. intros a. by rewrite C2, C.
Qed.

(** The polls of one wait are more than the chip can answer busy. *)
Context (polls : nat) (Hpolls : (busy_max < polls)%nat).

Lemma wait_holds c f : (forall a, 0 <= a < size -> cells c a = f a) -> exists c',
  QSpiFlashWaitBusy polls c = Done tt c' /\ holds c' f.
Proof.
  intros Hf. destruct (QSpiFlashWaitBusy_spec polls c) as (c' & E & B & C).
  { pose proof (busy_le c). lia. }
  exists c'. split; [done|]. split; [done|]. intros a Ha. by rewrite C, Hf.
Qed.

Lemma write_enable_spec c : busy c = 0%nat -> exists c',
  QSPI_FlashWriteEnable c = Done tt c' /\ busy c' = 0%nat /\ wel c' = true /\
  forall a, cells c' a = cells c a.
Proof.
  intros B. destruct (wren_law c B) as (rx & c' & E & S). exists c'. split; [|done].
  unfold QSPI_FlashWriteEnable, transfer, mbind, M_bind. by rewrite E.
Qed.

Lemma QSpiFlashWriteOnePage_spec c Adr pBuf off n data :
  busy c = 0%nat -> fetch pBuf off n = Some data -> Bytes data ->
  0 <= Adr -> Adr + zlen data <= size ->
  Adr mod FLASH_PAGE_SIZE + zlen data <= FLASH_PAGE_SIZE ->
  exists c', QSpiFlashWriteOnePage polls Adr pBuf off n c = Done tt c' /\
    holds c' (prog (cells c) Adr data).
Proof.
  intros B Ef Hd H0 H1 H2. destruct (write_enable_spec c B) as (c1 & E1 & B1 & W1 & C1).
  destruct (program_law c1 Adr data B1 W1 Hd H0 H1 H2) as (rx & c2 & E2 & C2).
  destruct (wait_holds c2 (prog (cells c) Adr data)) as (c3 & E3 & S3).
  { intros a Ha. rewrite C2 by done. by apply prog_ext. }
  exists c3. split; [|done].
  unfold QSpiFlashWriteOnePage. rewrite (bind_done _ _ _ _ _ E1).
  unfold access, transfer, mbind, M_bind. by rewrite Ef, E2.
Qed.

Lemma QSpiFlashEraseSector_spec c a :
  busy c = 0%nat -> 0 <= a < size -> a mod FLASH_SECTOR_SIZE = 0 ->
  exists c', QSpiFlashEraseSector polls a c = Done tt c' /\ holds c' (erased (cells c) a).
Proof.
  intros B H0 H1. destruct (write_enable_spec c B) as (c1 & E1 & B1 & W1 & C1).
  destruct (erase_law c1 a B1 W1 H0 H1) as (rx & c2 & E2 & C2).
  destruct (wait_holds c2 (erased (cells c) a)) as (c3 & E3 & S3).
  { intros x Hx. rewrite C2 by done. unfold erased. by rewrite C1. }
  exists c3. split; [|done].
  unfold QSpiFlashEraseSector. rewrite (bind_done _ _ _ _ _ E1).
  unfold transfer, mbind, M_bind. by rewrite E2.
Qed.

Lemma QSpiFlashEraseChip_spec c :
  busy c = 0%nat -> exists c', QSpiFlashEraseChip polls c = Done tt c' /\ holds c' (fun _ => 255).
Proof.
  intros B. destruct (write_enable_spec c B) as (c1 & E1 & B1 & W1 & C1).
  destruct (chip_erase_law c1 B1 W1) as (rx & c2 & E2 & C2).
  destruct (wait_holds c2 (fun _ => 255)) as (c3 & E3 & S3); [done|].
  exists c3. split; [|done].
  unfold QSpiFlashEraseChip. rewrite (bind_done _ _ _ _ _ E1).
  unfold transfer, mbind, M_bind. by rewrite E2.
Qed.

(** ** Reading *)

Lemma content_bytes c a n : Bytes (content (cells c) a n).
Proof. unfold content, Bytes. apply Forall_fmap, Forall_true. intros x. apply cells_u8. Qed.

Lemma read_loop_spec fuel : forall c ReadAddr cnt Len pBuf got,
  busy c = 0%nat -> 0 <= ReadAddr -> 0 <= cnt <= Len -> Len - cnt < Z.of_nat fuel ->
  ReadAddr + (Len - cnt) <= size -> Len <= zlen pBuf -> is_u32 Len ->
  ztake cnt pBuf = got ->
  exists c', read_loop fuel ReadAddr cnt Len pBuf c =
    Done (got ++ content (cells c) ReadAddr (Len - cnt) ++ zdrop Len pBuf) c' /\
    holds c' (cells c).
Proof.
  induction fuel as [|fuel IH]; intros c ra cnt Len pBuf got B H0 Hc Hf Hs Hl H32 <-; [lia|].
  cbn [read_loop]. destruct (Z.ltb_spec cnt Len) as [Hlt|Hge].
  2:{ exists c. replace cnt with Len by lia. rewrite Z.sub_diag.
      simpl. split; [|done]. f_equal. symmetry. apply ztake_app_zdrop. }
  set (n := if MAX_FLASH_RD_SIZE <? Len - cnt then MAX_FLASH_RD_SIZE else Len - cnt).
  assert (0 < n <= Len - cnt) by (unfold n, MAX_FLASH_RD_SIZE; zcases).
  destruct (read_law c ra n B) as (rx & c1 & E1 & L1 & D1 & B1 & _ & C1); [lia..|].
  unfold transfer, access, mbind, M_bind. rewrite E1, D1.
  fold (content (cells c) ra n).
  rewrite blit_spec by (rewrite ?content_len; lia). rewrite content_len.
  replace (Z.max 0 n) with n by lia.
  pose proof size_ok as [Hsz _].
  rewrite !u32_small by (unfold is_u32 in *; lia).
  set (buf := ztake cnt pBuf ++ content (cells c) ra n ++ zdrop (cnt + n) pBuf).
  destruct (IH c1 (ra + n) (cnt + n) Len buf (ztake cnt pBuf ++ content (cells c) ra n))
    as (c2 & E2 & B2 & S2); try done; try lia.
  - unfold buf. rewrite !zlen_app, content_len. zlen_lia.
  - unfold buf. rewrite app_assoc. rewrite ztake_app_l by (rewrite zlen_app, content_len; zlen_lia).
    apply ztake_all. rewrite zlen_app, content_len. zlen_lia.
  - exists c2. rewrite E2. split.
    + f_equal. rewrite <- !app_assoc. f_equal.
      rewrite (content_ext (cells c1) (cells c)) by (intros; apply C1).
      rewrite app_assoc, <- content_app by lia. f_equal; [f_equal; lia|].
      unfold buf. rewrite app_assoc, zdrop_app_r by (rewrite zlen_app, content_len; zlen_lia).
      rewrite zlen_app, content_len. rewrite zdrop_zdrop by zlen_lia. f_equal. zlen_lia.
    + split; [done|]. intros a Ha. by rewrite S2, C1.
Qed.

Lemma QSpiFlashRead_spec c a pBuf n :
  busy c = 0%nat -> 0 <= a -> 0 <= n -> a + n <= size -> n <= zlen pBuf ->
  exists c', QSpiFlashRead a pBuf n c = Done (content (cells c) a n ++ zdrop n pBuf) c' /\
    holds c' (cells c).
Proof.
  intros B H0 H1 H2 H3. pose proof size_ok as [Hsz _].
  destruct (read_loop_spec (S (Z.to_nat n)) c a 0 n pBuf []) as (c' & E & S);
    try done; try lia; [by unfold is_u32; lia|].
  exists c'. rewrite Z.sub_0_r in E. split; done.
Qed.

(** ** Programming any range *)

Lemma holds_ext (c : chip) f g :
  holds c f -> (forall a, 0 <= a < size -> f a = g a) -> holds c g.
Proof. intros [B C] E. split; [done|]. intros a Ha. by rewrite C, E. Qed.

Lemma any_loop_spec fuel : forall c wa pData off len pr data,
  busy c = 0%nat -> fetch pData off len = Some data -> Bytes data ->
  0 <= wa -> wa + len <= size -> is_u16 len ->
  pr = Z.min len (FLASH_PAGE_SIZE - wa mod FLASH_PAGE_SIZE) -> (Z.to_nat len < fuel)%nat ->
  exists c', any_loop polls fuel wa pData off len pr c = Done 0 c' /\
    holds c' (prog (cells c) wa data).
Proof.
  induction fuel as [|fuel IH]; intros c wa pData off len pr data B Ef Hd H0 H1 H16 Hpr Hf; [lia|].
  pose proof (fetch_len _ _ _ _ Ef) as Hl. pose proof (zlen_nonneg data).
  pose proof (Z.mod_pos_bound wa FLASH_PAGE_SIZE ltac:(done)) as Hm.
  destruct (fetch_split _ _ _ pr _ Ef) as [Ef1 Ef2]; [lia|].
  cbn [any_loop].
  destruct (QSpiFlashWriteOnePage_spec c wa pData off pr (ztake pr data)) as (c1 & E1 & B1 & C1);
    try done; try (autorewrite with zlen; lia); [by apply Forall_ztake|].
  rewrite (bind_done _ _ _ _ _ E1). destruct (Z.eqb_spec len pr) as [Heq|Hne].
  { exists c1. split; [done|]. rewrite ztake_all in C1 by lia. done. }
  pose proof size_ok as [Hsz _]. unfold is_u16 in H16.
  rewrite u16_small, u32_small by (unfold is_u16, is_u32; lia).
  assert (Hal : (wa + pr) mod FLASH_PAGE_SIZE = 0).
  { unfold FLASH_PAGE_SIZE in *. assert (pr = 256 - wa mod 256) by lia. subst pr.
    Z.div_mod_to_equations. lia. }
  destruct (IH c1 (wa + pr) pData (off + pr) (len - pr)
    (if FLASH_PAGE_SIZE <? len - pr then FLASH_PAGE_SIZE else len - pr) (zdrop pr data))
    as (c2 & E2 & S2); try done; try lia.
  - by apply Forall_zdrop.
  - unfold is_u16. lia.
  - rewrite Hal. zcases.
  - exists c2. split; [exact E2|]. eapply holds_ext; [exact S2|]. intros a Ha. simpl.
    rewrite (prog_ext _ (prog (cells c) wa (ztake pr data))) by (by apply C1).
    replace (wa + pr) with (wa + zlen (ztake pr data)) by (autorewrite with zlen; lia).
    by rewrite prog_app, ztake_app_zdrop.
Qed.

Lemma QSpiWriteAny_spec c wa pData off len data :
  busy c = 0%nat -> fetch pData off len = Some data -> Bytes data ->
  0 <= wa -> wa + len <= size -> is_u16 len ->
  exists c', QSpiWriteAny polls wa pData off len c = Done 0 c' /\
    holds c' (prog (cells c) wa data).
Proof.
  intros. pose proof (Z.mod_pos_bound wa FLASH_PAGE_SIZE ltac:(done)) as Hm.
  apply any_loop_spec; try done; [|lia].
  rewrite u16_small by (unfold is_u16, FLASH_PAGE_SIZE in *; lia). zcases.
Qed.

(** ** Replacing any range *)

(** A sector read, overlaid, erased and programmed back. *)
Lemma rewrite_sector f g base so chunk buf a :
  (forall a, is_u8 (f a)) -> Bytes chunk -> 0 <= so -> 0 <= base ->
  so + zlen chunk <= FLASH_SECTOR_SIZE ->
  blit (content f base FLASH_SECTOR_SIZE) so chunk = Some buf ->
  g a = erased f base a ->
  prog g base buf a = put f (base + so) chunk a.
Proof.
  intros Hf Hc H0 Hbs H1 Eb Eg. unfold prog, put. rewrite (ld_blit _ _ _ _ _ Eb), Eg. unfold erased.
  replace (a - base - so) with (a - (base + so)) by lia.
  destruct (Z.leb_spec so (a - base)), (Z.ltb_spec (a - base) (so + zlen chunk)); simpl.
  - destruct (ld_is_Some chunk (a - (base + so))) as [x Ex]; [lia|]. rewrite Ex.
    destruct (Z.leb_spec base a), (Z.ltb_spec a (base + FLASH_SECTOR_SIZE)); try lia. simpl.
    apply land_255_l. by eapply (ld_Forall is_u8).
  - rewrite (ld_ge chunk) by lia. destruct (Z.ltb_spec (a - base) FLASH_SECTOR_SIZE).
    + rewrite ld_content by lia. replace (base + (a - base)) with a by lia.
      destruct (Z.leb_spec base a), (Z.ltb_spec a (base + FLASH_SECTOR_SIZE)); try lia. simpl.
      by apply land_255_l.
    + rewrite ld_ge by (rewrite content_len; unfold FLASH_SECTOR_SIZE in *; lia).
      destruct (Z.leb_spec base a), (Z.ltb_spec a (base + FLASH_SECTOR_SIZE)); try lia; done.
  - rewrite (ld_neg chunk) by lia. destruct (Z.le_gt_cases base a).
    + rewrite ld_content by (unfold FLASH_SECTOR_SIZE in *; pose proof (zlen_nonneg chunk); lia).
      replace (base + (a - base)) with a by lia.
      destruct (Z.leb_spec base a), (Z.ltb_spec a (base + FLASH_SECTOR_SIZE));
        try (pose proof (zlen_nonneg chunk); lia). simpl.
      by apply land_255_l.
    + rewrite ld_neg by lia. destruct (Z.leb_spec base a); [lia|done].
  - rewrite (ld_neg chunk) by lia. pose proof (zlen_nonneg chunk). destruct (Z.le_gt_cases base a); [lia|].
    rewrite ld_neg by lia. destruct (Z.leb_spec base a); [lia|done].
Qed.

Lemma store_sector_spec c buf sn so sm wa pData off i chunk :
  busy c = 0%nat -> fetch pData off sm = Some chunk -> Bytes chunk ->
  wa = sn * FLASH_SECTOR_SIZE + so -> 0 <= sn -> 0 <= so -> so + sm <= FLASH_SECTOR_SIZE ->
  (sn + 1) * FLASH_SECTOR_SIZE <= size ->
  buf = content (cells c) (sn * FLASH_SECTOR_SIZE) FLASH_SECTOR_SIZE ->
  (i < sm \/ forall k, 0 <= k < sm -> ld buf (so + k) = Some 255) ->
  i <= sm ->
  exists buf' c', store_sector polls buf sn so sm wa pData off i c = Done (0, buf') c' /\
    zlen buf' = FLASH_SECTOR_SIZE /\ holds c' (put (cells c) wa chunk).
Proof.
  intros B Ef Hd Hwa Hsn Hso Hsm Hsz -> Hi Hism. pose proof size_ok as [Hs _].
  pose proof (fetch_len _ _ _ _ Ef) as Hl. pose proof (zlen_nonneg chunk).
  assert (HS : FLASH_SECTOR_SIZE = 4096) by done.
  assert (Hlen : zlen (content (cells c) (sn * FLASH_SECTOR_SIZE) FLASH_SECTOR_SIZE) = FLASH_SECTOR_SIZE)
    by (rewrite content_len; lia).
  unfold store_sector. destruct (Z.ltb_spec i sm) as [Hlt|Hge].
  - rewrite u32_small by (unfold is_u32; lia).
    destruct (QSpiFlashEraseSector_spec c (sn * FLASH_SECTOR_SIZE) B) as (c1 & E1 & B1 & C1);
      [lia|apply Z_mod_mult|].
    rewrite (bind_done _ _ _ _ _ E1).
    rewrite (copy_loop_spec pData off so sm Hso ltac:(lia) _ _ 0 chunk);
      [|lia|lia|lia|by rewrite Z.add_0_r, Z.sub_0_r].
    rewrite Z.add_0_r, blit_spec by lia.
    set (buf := ztake so _ ++ chunk ++ _).
    assert (Eb : blit (content (cells c) (sn * FLASH_SECTOR_SIZE) FLASH_SECTOR_SIZE) so chunk = Some buf)
      by (unfold buf; apply blit_spec; lia).
    pose proof (blit_length _ _ _ _ Eb) as Hbl.
    destruct (QSpiWriteAny_spec c1 (sn * FLASH_SECTOR_SIZE) buf 0 FLASH_SECTOR_SIZE buf) as (c2 & E2 & S2);
      [exact B1| | |lia|lia|unfold is_u16; lia|].
    { rewrite fetch_spec by lia. f_equal. rewrite zdrop_0 by lia. apply ztake_all. lia. }
    { eapply Forall_blit; [exact Eb|apply content_bytes|done]. }
    exists buf, c2. split; [|split; [lia|]].
    + unfold access, mbind, M_bind. by rewrite E2.
    + eapply holds_ext; [exact S2|]. intros a Ha. subst wa.
      apply (rewrite_sector (cells c));
        [apply cells_u8|exact Hd|lia|lia|lia|exact Eb|apply C1; exact Ha].
  - destruct Hi as [|Hall]; [lia|].
    destruct (QSpiWriteAny_spec c wa pData off sm chunk) as (c1 & E1 & S1);
      [exact B|exact Ef|exact Hd|lia|lia|unfold is_u16; lia|].
    eexists _, c1. split; [rewrite (bind_done _ _ _ _ _ E1); reflexivity|]. split; [exact Hlen|].
    eapply holds_ext; [exact S1|]. intros a Ha. apply prog_blank; [exact Hd|].
    intros k Hk. specialize (Hall k ltac:(lia)). rewrite ld_content in Hall by lia.
    injection Hall as <-. f_equal. lia.
Qed.

Lemma write_loop_spec fuel : forall c buf sn so sm wa pData off len data,
  busy c = 0%nat -> zlen buf = FLASH_SECTOR_SIZE ->
  fetch pData off len = Some data -> Bytes data ->
  wa = sn * FLASH_SECTOR_SIZE + so -> 0 <= sn -> 0 <= so < FLASH_SECTOR_SIZE ->
  sm = Z.min len (FLASH_SECTOR_SIZE - so) -> wa + len <= size -> wa < size ->
  wa + len <= 1048576 -> (Z.to_nat len < fuel)%nat ->
  exists c', write_loop polls fuel buf sn so sm wa pData off len c = Done tt c' /\
    holds c' (put (cells c) wa data).
Proof.
  induction fuel as [|fuel IH];
    intros c buf sn so sm wa pData off len data B Hbuf Ef Hd Hwa Hsn Hso Hsm Hsz Hlt H1M Hf; [lia|].
  pose proof size_ok as [Hs Hal]. pose proof (fetch_len _ _ _ _ Ef) as Hl. pose proof (zlen_nonneg data).
  assert (HS : FLASH_SECTOR_SIZE = 4096) by done.
  assert (Hsec : (sn + 1) * FLASH_SECTOR_SIZE <= size).
  { rewrite HS in *. apply Z.mod_divide in Hal; [|done]. destruct Hal as [k Hk]. lia. }
  destruct (fetch_split _ _ _ sm _ Ef) as [Ef1 Ef2]; [lia|].
  cbn [write_loop]. rewrite !u32_small by (unfold is_u32; lia).
  destruct (QSpiFlashRead_spec c (sn * FLASH_SECTOR_SIZE) buf FLASH_SECTOR_SIZE B)
    as (c1 & E1 & B1 & C1); [lia..|].
  rewrite zdrop_all, app_nil_r in E1 by lia. rewrite (bind_done _ _ _ _ _ E1).
  assert (Ec : content (cells c) (sn * FLASH_SECTOR_SIZE) FLASH_SECTOR_SIZE =
               content (cells c1) (sn * FLASH_SECTOR_SIZE) FLASH_SECTOR_SIZE).
  { apply content_ext. intros x Hx. symmetry. apply C1. lia. }
  rewrite Ec in *. set (fb := content (cells c1) _ _) in *.
  assert (Hfb : zlen fb = FLASH_SECTOR_SIZE) by (unfold fb; rewrite content_len; lia).
  destruct (find_used_spec fb so sm ltac:(lia) ltac:(lia) ltac:(lia) (S (Z.to_nat sm)) 0)
    as (i & Ei & Hi & Hall); [lia..|].
  unfold access at 1. rewrite (bind_done _ _ c1 i c1) by (by rewrite Ei).
  destruct (store_sector_spec c1 fb sn so sm wa pData off i (ztake sm data))
    as (fb' & c2 & E2 & Hfb' & S2);
    [exact B1|exact Ef1|by apply Forall_ztake|exact Hwa|lia|lia|lia|exact Hsec|reflexivity| |lia|].
  { destruct (Z.eq_dec i sm) as [->|]; [right; apply Hall; reflexivity|left; lia]. }
  rewrite (bind_done _ _ _ _ _ E2). cbn [negb Z.eqb].
  assert (S2' : holds c2 (put (cells c) wa (ztake sm data))).
  { eapply holds_ext; [exact S2|]. intros a Ha. by apply put_ext, C1. }
  destruct (Z.eqb_spec len sm) as [Heq|Hne].
  { exists c2. split; [done|]. by rewrite ztake_all in S2' by lia. }
  rewrite u8_small by (unfold is_u8; lia). destruct S2' as [B2 C2].
  destruct (IH c2 fb' (sn + 1) 0
    (if FLASH_SECTOR_SIZE <? len - sm then FLASH_SECTOR_SIZE else len - sm) (wa + sm) pData (off + sm)
    (len - sm) (zdrop sm data)) as (c3 & E3 & S3);
    [exact B2|exact Hfb'|exact Ef2|by apply Forall_zdrop|lia|lia|lia|zcases|lia|lia|lia|lia|].
  exists c3. split; [exact E3|]. eapply holds_ext; [exact S3|]. intros a Ha. simpl.
  rewrite (put_ext _ (put (cells c) wa (ztake sm data))) by (by apply C2).
  replace (wa + sm) with (wa + zlen (ztake sm data)) by (autorewrite with zlen; lia).
  by rewrite put_app, ztake_app_zdrop.
Qed.

(** The range written, in a chip of at most 256 sectors (the sector number is
    a byte). *)
Definition in_range (pos n : Z) : Prop :=
  0 <= pos < Z.min size 1048576 /\ pos + n <= Z.min size 1048576.

Lemma WriteFlash_spec `{Heap} c data pos :
  is_Some (malloc FLASH_SECTOR_SIZE) -> busy c = 0%nat -> Bytes data ->
  in_range pos (zlen data) ->
  exists c', WriteFlash polls data (zlen data) pos c = Done tt c' /\ holds c' (put (cells c) pos data).
Proof.
  intros [b Eb] B Hd (H0 & H1). pose proof (malloc_len FLASH_SECTOR_SIZE b ltac:(unfold FLASH_SECTOR_SIZE; lia) Eb) as Hb.
  unfold WriteFlash. unfold access at 1. rewrite Eb. unfold mbind at 1, M_bind at 1.
  pose proof (Z.mod_pos_bound pos FLASH_SECTOR_SIZE ltac:(done)) as Hm.
  pose proof (zlen_nonneg data). unfold FLASH_SECTOR_SIZE in *.
  rewrite (u8_small (pos / 4096)) by (unfold is_u8; Z.div_mod_to_equations; lia).
  rewrite (u16_small (pos mod 4096)) by (unfold is_u16; lia).
  rewrite (u16_small (4096 - pos mod 4096)) by (unfold is_u16; lia).
  apply write_loop_spec; unfold FLASH_SECTOR_SIZE;
    [exact B|exact Hb| |exact Hd|Z.div_mod_to_equations; lia|Z.div_mod_to_equations; lia|lia| |lia|lia|lia|lia].
  - rewrite fetch_spec by lia. f_equal. rewrite zdrop_0 by lia. apply ztake_all. lia.
  - unfold FLASH_SECTOR_SIZE. zcases. rewrite u16_small by (unfold is_u16; lia). lia.
Qed.
End Laws.

(** * A conforming chip *)

(** The chip of the examples: 512 KB, four busy polls after a program or an
    erase at most; a busy chip ignores every command but the status read. *)
Record Sim := mkSim { sim_cells : Z -> Z; sim_wel : bool; sim_polls : nat }.

Definition sim_busy (c : Sim) : nat := Nat.min (sim_polls c) 4.
Definition of_addr24 (a2 a1 a0 : Z) : Z := a2 * 65536 + a1 * 256 + a0.

Definition sim_cmd (tx : list Z) (n : Z) (c : Sim) : list Z * Sim :=
  let idle := replicate (length tx + Z.to_nat n) 0 in
  match tx with
  | [6] => (idle, mkSim (sim_cells c) true 0)
  | [199] => (idle, if sim_wel c then mkSim (fun _ => 255) false 4 else c)
  | 3 :: a2 :: a1 :: a0 :: [] =>
      (replicate 4 0 ++ content (fun a => u8 (sim_cells c a)) (of_addr24 a2 a1 a0) n, c)
  | 2 :: a2 :: a1 :: a0 :: data =>
      (idle, if sim_wel c then mkSim (prog (sim_cells c) (of_addr24 a2 a1 a0) data) false 4 else c)
  | 32 :: a2 :: a1 :: a0 :: [] =>
      (idle, if sim_wel c then mkSim (erased (sim_cells c) (of_addr24 a2 a1 a0)) false 4 else c)
  | _ => (idle, c)
  end.

Definition sim_spi (tx : list Z) (n : Z) (c : Sim) : list Z * Sim :=
  match tx with
  | [5; _] =>
      ([0; if (sim_busy c =? 0)%nat then 0 else 1],
       mkSim (sim_cells c) (sim_wel c) (Nat.pred (sim_busy c)))
  | _ =>
      if (sim_busy c =? 0)%nat then sim_cmd tx n c
      else (replicate (length tx + Z.to_nat n) 0, c)
  end.

#[export] Instance sim_Spi : Spi Sim := sim_spi.

Lemma of_addr24_addr24 a : 0 <= a < 16777216 ->
  of_addr24 (Z.land (Z.shiftr a 16) 255) (Z.land (Z.shiftr a 8) 255) (Z.land a 255) = a.
Proof.
  intros. unfold of_addr24. rewrite !land_255, !Z.shiftr_div_pow2 by lia.
  change (2 ^ 16) with 65536. change (2 ^ 8) with 256. Z.div_mod_to_equations. lia.
Qed.

Lemma u8_land_u8 x y : is_u8 y -> u8 (Z.land x y) = Z.land (u8 x) y.
Proof.
  intros. unfold u8. rewrite <- !land_255, <- (Z.land_assoc x y), (Z.land_comm y), (Z.land_assoc).
  done.
Qed.

Lemma u8_prog f pos l a : Bytes l -> u8 (prog f pos l a) = prog (fun a => u8 (f a)) pos l a.
Proof.
  intros Hl. unfold prog. destruct (ld l (a - pos)) as [x|] eqn:E; [|done].
  apply u8_land_u8. by eapply (ld_Forall is_u8).
Qed.

#[export, refine] Instance sim_NorFlash : NorFlash Sim := {|
  size := 524288; cells := fun c a => u8 (sim_cells c a); wel := sim_wel; busy := sim_busy;
  busy_max := 4
|}.
Proof.
  - by_decide.
  - intros c a. apply u8_range.
  - intros c. unfold sim_busy. lia.
  - intros [f w b] d. exists 0. do 2 eexists. split; [reflexivity|]. simpl.
    split; [by case_match|]. unfold sim_busy. simpl. split; [|done]. lia.
  - intros [f w b] Hb. unfold spi, sim_Spi, sim_spi.
    rewrite Hb. simpl. eauto 10.
  - intros [f w b] a n Hb H0 H1 H2. unfold spi, sim_Spi, sim_spi.
    rewrite Hb. do 2 eexists.
    split; [reflexivity|]. cbn [sim_cells]. rewrite of_addr24_addr24 by lia.
    split; [rewrite zlen_app, content_len; simpl; unfold zlen; simpl; lia|].
    split; [reflexivity|]. done.
  - intros [f w b] a data Hb Hw Hd H0 H1 H2. simpl in Hw. subst w.
    unfold spi, sim_Spi, sim_spi.
    rewrite Hb. do 2 eexists.
    split; [reflexivity|]. intros x Hx. simpl.
    pose proof (zlen_nonneg data).
    destruct (Z.eq_dec a 524288) as [->|]; [|rewrite of_addr24_addr24 by lia; by apply u8_prog].
    assert (data = []) as -> by (destruct data; [done|zlen_lia]).
    unfold prog, ld. by destruct (0 <=? _).
  - intros [f w b] a Hb Hw H0 H1. simpl in Hw. subst w.
    unfold spi, sim_Spi, sim_spi.
    rewrite Hb. do 2 eexists.
    split; [reflexivity|]. intros x Hx. simpl. rewrite of_addr24_addr24 by lia.
    unfold erased. by case_match.
  - intros [f w b] Hb Hw. simpl in Hw. subst w. unfold spi, sim_Spi, sim_spi.
    rewrite Hb. simpl. eauto.
Defined.

(** * Whole sectors *)

Section Sector.
Context {chip : Type} {SPI : Spi chip} (polls : nat).

(** [fails n c B c' B']: [n] attempts in a row read back something else. *)
Inductive fails (WriteAddr : Z) (pBuf : list Z) (off : Z) :
  nat -> chip -> list Z -> chip -> list Z -> Prop :=
  | fails_none c B : fails WriteAddr pBuf off 0 c B c B
  | fails_one n c B c1 B1 c' B' :
      attempt polls WriteAddr pBuf off B c = Done (false, B1) c1 ->
      fails WriteAddr pBuf off n c1 B1 c' B' -> fails WriteAddr pBuf off (S n) c B c' B'.

Lemma retry_fails wa pBuf off n c B c' B' :
  fails wa pBuf off n c B c' B' -> forall fuel j, Z.of_nat n <= j ->
  retry polls (n + fuel) j wa pBuf off B c = retry polls fuel (j - Z.of_nat n) wa pBuf off B' c'.
Proof.
  induction 1 as [c B|n c B c1 B1 c' B' E _ IH]; intros fuel j Hj.
  { simpl. by rewrite Z.sub_0_r. }
  cbn [Nat.add retry]. destruct (Z.eqb_spec j 0); [lia|].
  rewrite (bind_done _ _ _ _ _ E), IH by lia. f_equal. lia.
Qed.
End Sector.

Section SectorLaws.
Context {chip : Type} {SPI : Spi chip} {NF : NorFlash chip} (polls : nat).
Context (Hpolls : (busy_max < polls)%nat).

(** On erased cells the first attempt succeeds. *)
Lemma attempt_good c wa pBuf off PageBuf page :
  busy c = 0%nat -> fetch pBuf off FLASH_PAGE_SIZE = Some page -> Bytes page ->
  0 <= wa -> wa + FLASH_PAGE_SIZE <= size -> wa mod FLASH_PAGE_SIZE = 0 ->
  zlen PageBuf = FLASH_PAGE_SIZE ->
  (forall i, 0 <= i < FLASH_PAGE_SIZE -> cells c (wa + i) = 255) ->
  exists c', attempt polls wa pBuf off PageBuf c = Done (true, page) c' /\
    holds c' (put (cells c) wa page).
Proof.
  intros B Ef Hd H0 H1 H2 Hpb Hbl. pose proof (fetch_len _ _ _ _ Ef) as Hl.
  destruct (QSpiFlashWriteOnePage_spec polls Hpolls c wa pBuf off FLASH_PAGE_SIZE page)
    as (c1 & E1 & B1 & C1); [exact B|exact Ef|exact Hd|exact H0|lia|lia|].
  destruct (QSpiFlashRead_spec polls Hpolls c1 wa PageBuf FLASH_PAGE_SIZE B1)
    as (c2 & E2 & B2 & C2); [lia|done|lia|lia|].
  assert (Hput : forall a, 0 <= a < size -> cells c1 a = put (cells c) wa page a).
  { intros a Ha. rewrite C1 by done. apply prog_blank; [done|]. intros i Hi. apply Hbl. lia. }
  assert (Ep : content (cells c1) wa FLASH_PAGE_SIZE = page).
  { apply ld_ext. intros i. destruct (decide (0 <= i < FLASH_PAGE_SIZE)).
    - rewrite ld_content by done. rewrite Hput by lia. unfold put.
      replace (wa + i - wa) with i by lia. by destruct (ld_is_Some page i) as [x ->]; [lia|].
    - destruct (Z.lt_ge_cases i 0); [by rewrite !ld_neg|].
      rewrite !ld_ge; [done|lia|rewrite content_len; lia]. }
  rewrite zdrop_all, app_nil_r, Ep in E2 by lia.
  exists c2. split.
  - unfold attempt. rewrite (bind_done _ _ _ _ _ E1), (bind_done _ _ _ _ _ E2).
    unfold access, mbind, M_bind. rewrite Ef.
    rewrite fetch_spec by (unfold FLASH_PAGE_SIZE in *; lia).
    rewrite zdrop_0, ztake_all by lia. by rewrite bool_decide_true.
  - split; [done|]. intros a Ha. by rewrite C2, Hput.
Qed.

Lemma pages_loop_spec n : forall c wa pBuf off PageBuf data,
  busy c = 0%nat -> fetch pBuf off (Z.of_nat n * FLASH_PAGE_SIZE) = Some data -> Bytes data ->
  0 <= wa -> wa + Z.of_nat n * FLASH_PAGE_SIZE <= size -> wa mod FLASH_PAGE_SIZE = 0 ->
  zlen PageBuf = FLASH_PAGE_SIZE ->
  (forall i, 0 <= i < Z.of_nat n * FLASH_PAGE_SIZE -> cells c (wa + i) = 255) ->
  exists pb c', pages_loop polls n wa pBuf off PageBuf c = Done (0, pb) c' /\
    holds c' (put (cells c) wa data).
Proof.
  assert (HP : FLASH_PAGE_SIZE = 256) by done.
  induction n as [|n IH]; intros c wa pBuf off PageBuf data B Ef Hd H0 H1 H2 Hpb Hbl;
    pose proof (fetch_len _ _ _ _ Ef) as Hl.
  { exists PageBuf, c. split; [done|]. split; [done|]. intros a Ha. unfold put.
    assert (data = []) as -> by (destruct data; [done|zlen_lia]).
    unfold ld. by destruct (0 <=? _). }
  pose proof size_ok as [Hs _].
  destruct (fetch_split _ _ _ FLASH_PAGE_SIZE _ Ef) as [Ef1 Ef2]; [lia|].
  destruct (attempt_good c wa pBuf off PageBuf (ztake FLASH_PAGE_SIZE data))
    as (c1 & E1 & B1 & C1); [exact B|exact Ef1|by apply Forall_ztake|lia|lia|done|done| |].
  { intros i Hi. apply Hbl. lia. }
  cbn [pages_loop]. erewrite (bind_done (retry polls 11 10 wa pBuf off PageBuf) _ _ (9, _) c1).
  2:{ cbn [retry Z.eqb]. rewrite (bind_done _ _ _ _ _ E1). reflexivity. }
  cbn [Z.eqb]. rewrite u32_small by (unfold is_u32; lia).
  destruct (IH c1 (wa + FLASH_PAGE_SIZE) pBuf (off + FLASH_PAGE_SIZE) (ztake FLASH_PAGE_SIZE data)
    (zdrop FLASH_PAGE_SIZE data)) as (pb & c2 & E2 & B2 & C2).
  - exact B1.
  - etransitivity; [|exact Ef2]. f_equal. lia.
  - by apply Forall_zdrop.
  - lia.
  - lia.
  - rewrite HP in *. Z.div_mod_to_equations. lia.
  - autorewrite with zlen. lia.
  - intros i Hi. rewrite C1 by lia. unfold put. rewrite ld_ge by (autorewrite with zlen; lia).
    replace (wa + FLASH_PAGE_SIZE + i) with (wa + (FLASH_PAGE_SIZE + i)) by lia. apply Hbl. lia.
  - exists pb, c2. split; [exact E2|]. split; [exact B2|]. intros a Ha. rewrite C2 by done.
    rewrite (put_ext _ (put (cells c) wa (ztake FLASH_PAGE_SIZE data))) by (by apply C1).
    replace (wa + FLASH_PAGE_SIZE) with (wa + zlen (ztake FLASH_PAGE_SIZE data))
      by (autorewrite with zlen; lia).
    by rewrite put_app, ztake_app_zdrop.
Qed.

Lemma QSpiWriteOneSector_spec c a data PageBuf :
  busy c = 0%nat -> Bytes data -> zlen data = FLASH_SECTOR_SIZE -> zlen PageBuf = FLASH_PAGE_SIZE ->
  0 <= a < size -> a mod FLASH_SECTOR_SIZE = 0 ->
  exists pb c', QSpiWriteOneSector polls a data PageBuf c = Done (0, pb) c' /\
    holds c' (put (cells c) a data).
Proof.
  intros B Hd Hl Hpb H0 H1. pose proof size_ok as [Hs Hal].
  assert (Hsec : a + 4096 <= size).
  { unfold FLASH_SECTOR_SIZE in *. Z.div_mod_to_equations. lia. }
  destruct (QSpiFlashEraseSector_spec polls Hpolls c a B H0 H1) as (c1 & E1 & B1 & C1).
  destruct (pages_loop_spec 16 c1 a data 0 PageBuf data) as (pb & c2 & E2 & B2 & C2).
  - exact B1.
  - change (Z.of_nat 16 * FLASH_PAGE_SIZE) with FLASH_SECTOR_SIZE. unfold FLASH_SECTOR_SIZE in *.
    rewrite fetch_spec by lia. by rewrite zdrop_0, ztake_all by lia.
  - exact Hd.
  - lia.
  - unfold FLASH_PAGE_SIZE. lia.
  - unfold FLASH_SECTOR_SIZE, FLASH_PAGE_SIZE in *. Z.div_mod_to_equations. lia.
  - exact Hpb.
  - unfold FLASH_PAGE_SIZE. intros i Hi. rewrite C1 by lia. unfold erased, FLASH_SECTOR_SIZE.
    destruct (Z.leb_spec a (a + i)), (Z.ltb_spec (a + i) (a + 4096)); try lia; done.
  - exists pb, c2. split; [unfold QSpiWriteOneSector; by rewrite (bind_done _ _ _ _ _ E1)|].
    split; [exact B2|]. intros x Hx. rewrite C2 by done. unfold put.
    destruct (ld data (x - a)) eqn:Ex; [done|]. rewrite C1 by done. unfold erased.
    destruct (Z.leb_spec a x), (Z.ltb_spec x (a + FLASH_SECTOR_SIZE)); try done.
    destruct (ld_is_Some data (x - a)) as [y Ey]; [lia|congruence].
Qed.
End SectorLaws.

(** ** The configuration record *)

(** Every field has its width. *)
Definition cfg_ok (c : Agent_config_t) : Prop :=
  is_u32 (magicNumber c) /\ is_u32 (cfg_flag c) /\
  zlen (wifipasscode c) = 16 /\ Bytes (wifipasscode c) /\
  zlen (wifi_ssid c) = 32 /\ Bytes (wifi_ssid c) /\
  zlen (wifi_key c) = 32 /\ Bytes (wifi_key c).

#[export] Instance cfg_ok_dec c : Decision (cfg_ok c).
Proof. unfold cfg_ok. apply _. Defined.

Lemma cfg_image_len c : cfg_ok c -> zlen (cfg_image c) = sizeof_Agent_config_t.
Proof.
  intros (_ & _ & H1 & _ & H2 & _ & H3 & _). unfold cfg_image. autorewrite with zlen. by rewrite H1, H2, H3.
Qed.

Lemma cfg_image_bytes c : cfg_ok c -> Bytes (cfg_image c).
Proof.
  intros (_ & _ & _ & H1 & _ & H2 & _ & H3). unfold cfg_image, Bytes.
  rewrite !Forall_app. repeat split; try done; apply le32_bytes.
Qed.

Lemma slice_mid {A} (pre l post : list A) n k :
  zlen pre = n -> zlen l = k -> ztake k (zdrop n (pre ++ l ++ post)) = l.
Proof. intros <- <-. by rewrite zdrop_zlen_app, ztake_zlen_app. Qed.

Lemma cfg_of_image c : cfg_ok c -> cfg_of (cfg_image c) = c.
Proof.
  intros (H1 & H2 & H3 & _ & H4 & _ & H5 & _). destruct c as [m f p s k]. simpl in *.
  unfold cfg_of, cfg_image. cbn [magicNumber cfg_flag wifipasscode wifi_ssid wifi_key]. f_equal.
  - rewrite ztake_zlen_app with (l := le32 m). by apply of_le32_le32.
  - rewrite (slice_mid (le32 m) (le32 f)) by done. by apply of_le32_le32.
  - rewrite (app_assoc (le32 m)). by apply slice_mid.
  - rewrite (app_assoc (le32 m)), (app_assoc _ p). apply slice_mid; [|done].
    autorewrite with zlen. lia.
  - rewrite (app_assoc (le32 m)), (app_assoc _ p), (app_assoc _ s).
    rewrite <- (app_nil_r k) at 1. apply slice_mid; [|done]. autorewrite with zlen. lia.
Qed.

Lemma lor_1_u32 x : is_u32 x -> is_u32 (Z.lor x 1).
Proof.
  unfold is_u32. intros. assert (0 <= Z.lor x 1) by (apply Z.lor_nonneg; lia). split; [done|].
  destruct (Z.eq_dec (Z.lor x 1) 0) as [->|]; [lia|].
  apply (Z.log2_lt_pow2 _ 32); [lia|]. rewrite Z.log2_lor by lia.
  apply Z.max_lub_lt; [|done]. destruct (Z.eq_dec x 0) as [->|]; [done|].
  apply Z.log2_lt_pow2; lia.
Qed.

Lemma cfg_of_ok img : zlen img = sizeof_Agent_config_t -> Bytes img -> cfg_ok (cfg_of img).
Proof.
  unfold sizeof_Agent_config_t. intros Hl Hb. unfold cfg_of, cfg_ok. simpl.
  assert (Hw : forall l, Bytes l -> is_u32 (of_le32 l)).
  { intros l H. unfold of_le32. destruct l as [|a [|b [|c [|d []]]]]; [by_decide..| |by_decide].
    repeat (apply Forall_cons_1 in H as [? H]). word_lia. }
  repeat split_and; try apply Hw; auto 6 with nl; try apply Forall_ztake; try apply Forall_zdrop;
    try done; autorewrite with zlen; lia.
Qed.

Lemma content_put f pos l : content (put f pos l) pos (zlen l) = l.
Proof.
  apply ld_ext. intros i. destruct (decide (0 <= i < zlen l)).
  - rewrite ld_content by done. unfold put. replace (pos + i - pos) with i by lia.
    by destruct (ld_is_Some l i) as [x ->].
  - pose proof (zlen_nonneg l). destruct (Z.lt_ge_cases i 0); [by rewrite !ld_neg|].
    rewrite !ld_ge; [done|lia|rewrite content_len; lia].
Qed.

(** The record [Agent_SaveSSIDAndKey] leaves. *)
Definition with_credentials (cfg : Agent_config_t) (ssid key : list Z) : Agent_config_t :=
  mkCfg (magicNumber cfg) (Z.lor (cfg_flag cfg) 1) (wifipasscode cfg) (ztake 32 ssid) (ztake 32 key).

Lemma with_credentials_ok cfg ssid key : cfg_ok cfg ->
  Bytes ssid -> 32 <= zlen ssid -> Bytes key -> 32 <= zlen key -> cfg_ok (with_credentials cfg ssid key).
Proof.
  intros (? & Hf & ? & ? & _) Hs1 Hs2 Hk1 Hk2. unfold with_credentials, cfg_ok. simpl.
  repeat split_and; try done; try (autorewrite with zlen; lia); try (by apply Forall_ztake).
  by apply lor_1_u32.
Qed.

Section Config.
Context {chip : Type} {SPI : Spi chip} {NF : NorFlash chip} {HP : Heap} (polls : nat).
Context (Hpolls : (busy_max < polls)%nat) (Hm : is_Some (malloc FLASH_SECTOR_SIZE)).
Context (Hsz : AGENT_CONFIG_DATA_ADDR + sizeof_Agent_config_t <= size).

(** The chip is idle and its configuration area holds the record. *)
Definition stored (c : chip) (cfg : Agent_config_t) : Prop :=
  busy c = 0%nat /\
  content (cells c) AGENT_CONFIG_DATA_ADDR sizeof_Agent_config_t = cfg_image cfg.

(** Nothing outside the configuration area changed. *)
Definition rest_kept (c c' : chip) : Prop :=
  forall a, 0 <= a < size ->
    ~ AGENT_CONFIG_DATA_ADDR <= a < AGENT_CONFIG_DATA_ADDR + sizeof_Agent_config_t ->
    cells c' a = cells c a.

Lemma nl6621_SaveConfigData_spec c cfg : busy c = 0%nat -> cfg_ok cfg ->
  exists c', nl6621_SaveConfigData polls cfg c = Done tt c' /\ stored c' cfg /\ rest_kept c c'.
Proof.
  intros B Hc. pose proof (cfg_image_len _ Hc) as Hl. pose proof size_ok as [Hs _].
  assert (HA : AGENT_CONFIG_DATA_ADDR = 409600) by done. assert (HZ : sizeof_Agent_config_t = 88) by done.
  destruct (WriteFlash_spec polls Hpolls c (cfg_image cfg) AGENT_CONFIG_DATA_ADDR Hm B
    (cfg_image_bytes _ Hc)) as (c1 & E1 & B1 & C1); [unfold in_range; lia|].
  rewrite Hl in E1. exists c1. split; [exact E1|]. split; [split; [exact B1|]|].
  - rewrite <- Hl. rewrite <- (content_put (cells c) AGENT_CONFIG_DATA_ADDR (cfg_image cfg)) at 2.
    apply content_ext. intros x Hx. apply C1. lia.
  - intros a Ha Hout. rewrite C1 by done. unfold put.
    destruct (ld (cfg_image cfg) _) as [x|] eqn:Ex; [|done]. apply ld_Some_range in Ex. lia.
Qed.

Lemma nl6621_GetConfigData_spec c mem : busy c = 0%nat -> cfg_ok mem -> exists cfg c',
  nl6621_GetConfigData mem c = Done cfg c' /\ cfg_ok cfg /\ busy c' = 0%nat /\
  (forall a, 0 <= a < size -> cells c' a = cells c a) /\
  (forall cfg0, cfg_ok cfg0 -> stored c cfg0 -> cfg = cfg0).
Proof.
  intros B Hmem. pose proof (cfg_image_len _ Hmem) as Hl. pose proof size_ok as [Hs _].
  assert (HA : AGENT_CONFIG_DATA_ADDR = 409600) by done. assert (HZ : sizeof_Agent_config_t = 88) by done.
  destruct (QSpiFlashRead_spec polls Hpolls c AGENT_CONFIG_DATA_ADDR (cfg_image mem)
    sizeof_Agent_config_t B) as (c1 & E1 & B1 & C1); [lia..|].
  rewrite zdrop_all, app_nil_r in E1 by lia.
  eexists _, c1. split; [unfold nl6621_GetConfigData, ReadFlash; by rewrite (bind_done _ _ _ _ _ E1)|].
  split; [apply cfg_of_ok; [rewrite content_len; lia|apply content_bytes]|].
  split; [done|]. split; [exact C1|]. intros cfg0 Hc0 [_ ->]. by apply cfg_of_image.
Qed.

Lemma Agent_SaveSSIDAndKey_spec c ssid key cfg :
  busy c = 0%nat -> Bytes ssid -> 32 <= zlen ssid -> Bytes key -> 32 <= zlen key -> cfg_ok cfg ->
  exists c', Agent_SaveSSIDAndKey polls ssid key cfg c = Done (with_credentials cfg ssid key) c' /\
    stored c' (with_credentials cfg ssid key) /\ rest_kept c c'.
Proof.
  intros B Hs1 Hs2 Hk1 Hk2 Hc.
  destruct (nl6621_SaveConfigData_spec c (with_credentials cfg ssid key) B) as (c1 & E1 & S1);
    [by apply with_credentials_ok|].
  exists c1. split; [|done].
  unfold Agent_SaveSSIDAndKey, access. rewrite !fetch_spec by lia. unfold mbind, M_bind. simpl.
  rewrite !zdrop_0 by lia. unfold XPG_CFG_FLAG_CONNECTED. fold (with_credentials cfg ssid key).
  by rewrite E1.
Qed.
End Config.

(** * Properties *)

(** C23: on a chip that keeps to its data sheet, [WriteFlash] stores exactly the
    bytes given, in any range below 1 MB and over sector boundaries, and leaves
    every other cell of the chip as it was; whatever is read back afterwards,
    inside or across the range, is the content so updated. *)
Theorem WriteFlash_refines {chip} {SPI : Spi chip} {NF : NorFlash chip} {HP : Heap} polls c data pos a n buf
  (Hpolls : (busy_max < polls)%nat) (Hm : is_Some (malloc FLASH_SECTOR_SIZE))
  (B : busy c = 0%nat) (Hd : Bytes data) (Hr : in_range pos (zlen data))
  (Ha : 0 <= a /\ 0 <= n <= zlen buf /\ a + n <= size) :
  exists c1 c2, WriteFlash polls data (zlen data) pos c = Done tt c1 /\
    holds c1 (put (cells c) pos data) /\
    ReadFlash buf n a c1 = Done (content (put (cells c) pos data) a n ++ zdrop n buf) c2.
Proof.
  destruct (WriteFlash_spec polls Hpolls c data pos Hm B Hd Hr) as (c1 & E1 & B1 & C1).
  destruct (QSpiFlashRead_spec polls Hpolls c1 a buf n B1) as (c2 & E2 & _); [lia..|].
  exists c1, c2. split; [exact E1|]. split; [done|]. unfold ReadFlash. rewrite E2.
  do 2 f_equal. apply content_ext. intros x Hx. apply C1. lia.
Qed.

(** The wait loop returns after exactly as many status reads as the chip
    answers busy, plus one, and the chip is idle then; with fewer it has not
    returned. *)
Theorem QSpiFlashWaitBusy_polls {chip} {SPI : Spi chip} {NF : NorFlash chip} fuel (c : chip) :
  ((busy c < fuel)%nat -> exists c', QSpiFlashWaitBusy fuel c = Done tt c' /\
     busy c' = 0%nat /\ forall a, cells c' a = cells c a) /\
  ((fuel <= busy c)%nat -> QSpiFlashWaitBusy fuel c = Crash).
Proof.
  split; [apply QSpiFlashWaitBusy_spec|].
  revert c. induction fuel as [|fuel IH]; intros c Hf; [done|].
  destruct (QSpiFlashReadSR_spec c) as (sr & c1 & E & O & B & _).
  cbn [QSpiFlashWaitBusy]. rewrite (bind_done _ _ _ _ _ E). unfold FLASH_SR_BUSY.
  rewrite land_1_odd, O, negb_involutive. destruct (Nat.eqb_spec (busy c) 0); [lia|].
  apply IH. lia.
Qed.

(** The credentials of an access point saved by [Agent_SaveSSIDAndKey] are
    the ones [nl6621_GetConfigData] finds after a restart, whatever is in
    memory then: the first 32 bytes of each, with the connected flag set, the
    rest of the record unchanged; every cell outside the record, the firmware
    images among them, keeps its value. *)
Theorem config_survives_restart {chip} {SPI : Spi chip} {NF : NorFlash chip} {HP : Heap}
  polls c ssid key cfg mem
  (Hpolls : (busy_max < polls)%nat) (Hm : is_Some (malloc FLASH_SECTOR_SIZE))
  (B : busy c = 0%nat) (Hs : Bytes ssid /\ 32 <= zlen ssid) (Hk : Bytes key /\ 32 <= zlen key)
  (Hc : cfg_ok cfg) (Hmem : cfg_ok mem)
  (Hsz : AGENT_CONFIG_DATA_ADDR + sizeof_Agent_config_t <= size) :
  exists cfg' c1 c2, Agent_SaveSSIDAndKey polls ssid key cfg c = Done cfg' c1 /\
    nl6621_GetConfigData mem c1 = Done cfg' c2 /\
    cfg' = mkCfg (magicNumber cfg) (Z.lor (cfg_flag cfg) 1) (wifipasscode cfg) (ztake 32 ssid) (ztake 32 key) /\
    forall a, 0 <= a < size ->
      ~ AGENT_CONFIG_DATA_ADDR <= a < AGENT_CONFIG_DATA_ADDR + sizeof_Agent_config_t ->
      cells c1 a = cells c a.
Proof.
  destruct Hs as [Hs1 Hs2], Hk as [Hk1 Hk2].
  destruct (Agent_SaveSSIDAndKey_spec polls Hpolls Hm Hsz c ssid key cfg B Hs1 Hs2 Hk1 Hk2 Hc)
    as (c1 & E1 & S1 & R1).
  destruct (nl6621_GetConfigData_spec polls Hpolls Hsz c1 mem (proj1 S1) Hmem)
    as (cfg' & c2 & E2 & _ & _ & _ & U).
  rewrite (U _ (with_credentials_ok _ _ _ Hc Hs1 Hs2 Hk1 Hk2) S1) in E2.
  by exists (with_credentials cfg ssid key), c1, c2.
Qed.

(** [QSpiWriteOneSector] reports failure exactly when a page verifies on
    its tenth attempt: ten attempts in a row that read back something else
    leave the counter at 2^32-1, not at 0, and the page counts as written. *)
Theorem retry_inverted {chip} {SPI : Spi chip} polls wa pBuf off n (c : chip) PageBuf c1 B1
  (Hf : fails polls wa pBuf off n c PageBuf c1 B1) :
  (n = 10%nat -> retry polls 11 10 wa pBuf off PageBuf c = Done (4294967295, B1) c1) /\
  (forall B2 c2, (n < 10)%nat -> attempt polls wa pBuf off B1 c1 = Done (true, B2) c2 ->
     retry polls 11 10 wa pBuf off PageBuf c = Done (9 - Z.of_nat n, B2) c2).
Proof.
  split.
  - intros ->. change 11%nat with (10 + 1)%nat at 1. by rewrite (retry_fails _ _ _ _ _ _ _ _ _ Hf).
  - intros B2 c2 Hn E. replace 11%nat with (n + S (10 - n))%nat at 1 by lia.
    rewrite (retry_fails _ _ _ _ _ _ _ _ _ Hf) by lia. cbn [retry].
    destruct (Z.eqb_spec (10 - Z.of_nat n) 0); [lia|]. rewrite (bind_done _ _ _ _ _ E).
    cbn. do 2 f_equal. lia.
Qed.

(** ** Witnesses *)

Definition sim0 : Sim := mkSim (fun a => a mod 251) false 0.
Definition ap_ssid : list Z := [110; 117; 50] ++ replicate 30 0.
Definition ap_key : list Z := replicate 20 97 ++ replicate 45 0.
Definition cfg0 : Agent_config_t := mkCfg 7 2 (replicate 16 1) (replicate 32 0) (replicate 32 0).

Lemma WriteFlash_refines_witness : exists c1 c2,
  WriteFlash (H := zero_heap 4096) 9 (replicate 4200 18) (zlen (replicate 4200 18)) 4000 sim0 = Done tt c1 /\
  holds c1 (put (cells sim0) 4000 (replicate 4200 18)) /\
  ReadFlash (replicate 4900 0) 4900 3 c1 =
    Done (content (put (cells sim0) 4000 (replicate 4200 18)) 3 4900 ++ zdrop 4900 (replicate 4900 0)) c2.
Proof.
  apply (WriteFlash_refines (HP := zero_heap 4096)).
  - by_decide.
  - by_decide.
  - reflexivity.
  - apply Forall_replicate. by_decide.
  - unfold in_range, zlen. rewrite length_replicate. by_decide.
  - unfold zlen. rewrite length_replicate. by_decide.
Defined.

Lemma QSpiFlashWaitBusy_polls_witness :
  (exists c', QSpiFlashWaitBusy 5 (mkSim (fun _ => 0) false 4) = Done tt c' /\
     busy c' = 0%nat /\ forall a, cells c' a = cells (mkSim (fun _ => 0) false 4) a) /\
  QSpiFlashWaitBusy 4 (mkSim (fun _ => 0) false 4) = Crash.
Proof.
  split.
  - apply (QSpiFlashWaitBusy_polls 5 (mkSim (fun _ => 0) false 4)). by_decide.
  - apply (QSpiFlashWaitBusy_polls 4 (mkSim (fun _ => 0) false 4)). by_decide.
Defined.

Lemma config_survives_restart_witness : exists cfg' c1 c2,
  Agent_SaveSSIDAndKey (H := zero_heap 4096) 5 ap_ssid ap_key cfg0 sim0 = Done cfg' c1 /\
  nl6621_GetConfigData cfg0 c1 = Done cfg' c2 /\
  cfg' = mkCfg 7 3 (replicate 16 1) (ztake 32 ap_ssid) (ztake 32 ap_key) /\
  forall a, 0 <= a < size ->
    ~ AGENT_CONFIG_DATA_ADDR <= a < AGENT_CONFIG_DATA_ADDR + sizeof_Agent_config_t ->
    cells c1 a = cells sim0 a.
Proof.
  apply (config_survives_restart (HP := zero_heap 4096) 5 sim0 ap_ssid ap_key cfg0 cfg0).
  - by_decide.
  - by_decide.
  - reflexivity.
  - by_decide.
  - by_decide.
  - by_decide.
  - by_decide.
  - by_decide.
Defined.

(** A chip that answers every read with zeros: the page is never the one
    written. *)
Definition dead_spi (tx : list Z) (n : Z) (c : unit) : list Z * unit :=
  (replicate (length tx + Z.to_nat n) 0, c).

Lemma retry_inverted_witness :
  retry (SPI := dead_spi) 1 11 10 0 (replicate 256 7) 0 (replicate 256 0) tt =
    Done (4294967295, replicate 256 0) tt.
Proof.
  refine (proj1 (retry_inverted (SPI := dead_spi) 1 0 (replicate 256 7) 0 10 tt (replicate 256 0) tt
    (replicate 256 0) _) eq_refl).
  do 10 (eapply fails_one; [by vm_compute|]). apply fails_none.
Defined.
