(* ===== verification/Param.v ===== *)
(** System parameters and control messages: Sys/param.c and Include/param.h.

    [SysParam] is the record of param.h; the setters return their status as an
    outcome ([Err (-1)] for -1) and keep whatever they changed before it.  The
    control functions hand a message to the MAC management task, which is a
    binary library: the state keeps the list of the calls of [PostTaskMsg],
    newest first.  A pointer argument is an option: [None] is NULL, [Some l] an
    object holding [l]. *)
From S2P Require Import Prelude.
From Stdlib Require Import String Ascii.

(** The bytes of a string literal. *)
Definition lit (s : string) : list Z :=
  map (fun c => Z.of_N (N_of_ascii c)) (list_ascii_of_string s).

(** * Data (param.h) *)

Record WIFI_CFG := mkWifi {
  Ssid : list Z;
  SSIDBrdEnable : Z;
  PhyMode : Z;
  Channel : Z;
  Encry : Z;
  AuthMode : Z;
  Protocol : Z;
  KeyLength : Z;
  KeyIndex : Z;
  PSK : list Z;
  WscEn : Z;
  ConTryTimes : Z;
  WmmEn : Z
}.

Record IP_CFG := mkIp {
  Ip : list Z;
  Netmask : list Z;
  GateWay : list Z;
  Dns : list Z;
  bDhcp : Z;
  DhcpTryTimes : Z;
  Res_2 : list Z
}.

Record CFG_PARAM := mkParam {
  WiFiCfg : WIFI_CFG;
  IPCfg : IP_CFG;
  bDhcpServer : Z;
  bDnsServer : Z;
  DnsName : list Z;
  Res_3 : list Z
}.

(** The globals of param.c: the parameters, the MAC address, the event
    callback (a code address), and the messages posted. *)
Record Sys := mkSys {
  SysParam : CFG_PARAM;
  PermanentAddress : list Z;
  SysEvtCB : option Z;
  posted : list (Z * list Z)
}.

Definition set_Ssid (v : list Z) (w : WIFI_CFG) : WIFI_CFG :=
  mkWifi v (SSIDBrdEnable w) (PhyMode w) (Channel w) (Encry w) (AuthMode w) (Protocol w)
    (KeyLength w) (KeyIndex w) (PSK w) (WscEn w) (ConTryTimes w) (WmmEn w).
Definition set_SSIDBrdEnable (v : Z) (w : WIFI_CFG) : WIFI_CFG :=
  mkWifi (Ssid w) v (PhyMode w) (Channel w) (Encry w) (AuthMode w) (Protocol w) (KeyLength
    w) (KeyIndex w) (PSK w) (WscEn w) (ConTryTimes w) (WmmEn w).
Definition set_PhyMode (v : Z) (w : WIFI_CFG) : WIFI_CFG :=
  mkWifi (Ssid w) (SSIDBrdEnable w) v (Channel w) (Encry w) (AuthMode w) (Protocol w)
    (KeyLength w) (KeyIndex w) (PSK w) (WscEn w) (ConTryTimes w) (WmmEn w).
Definition set_Channel (v : Z) (w : WIFI_CFG) : WIFI_CFG :=
  mkWifi (Ssid w) (SSIDBrdEnable w) (PhyMode w) v (Encry w) (AuthMode w) (Protocol w)
    (KeyLength w) (KeyIndex w) (PSK w) (WscEn w) (ConTryTimes w) (WmmEn w).
Definition set_Encry (v : Z) (w : WIFI_CFG) : WIFI_CFG :=
  mkWifi (Ssid w) (SSIDBrdEnable w) (PhyMode w) (Channel w) v (AuthMode w) (Protocol w)
    (KeyLength w) (KeyIndex w) (PSK w) (WscEn w) (ConTryTimes w) (WmmEn w).
Definition set_AuthMode (v : Z) (w : WIFI_CFG) : WIFI_CFG :=
  mkWifi (Ssid w) (SSIDBrdEnable w) (PhyMode w) (Channel w) (Encry w) v (Protocol w)
    (KeyLength w) (KeyIndex w) (PSK w) (WscEn w) (ConTryTimes w) (WmmEn w).
Definition set_Protocol (v : Z) (w : WIFI_CFG) : WIFI_CFG :=
  mkWifi (Ssid w) (SSIDBrdEnable w) (PhyMode w) (Channel w) (Encry w) (AuthMode w) v
    (KeyLength w) (KeyIndex w) (PSK w) (WscEn w) (ConTryTimes w) (WmmEn w).
Definition set_KeyLength (v : Z) (w : WIFI_CFG) : WIFI_CFG :=
  mkWifi (Ssid w) (SSIDBrdEnable w) (PhyMode w) (Channel w) (Encry w) (AuthMode w) (Protocol
    w) v (KeyIndex w) (PSK w) (WscEn w) (ConTryTimes w) (WmmEn w).
Definition set_KeyIndex (v : Z) (w : WIFI_CFG) : WIFI_CFG :=
  mkWifi (Ssid w) (SSIDBrdEnable w) (PhyMode w) (Channel w) (Encry w) (AuthMode w) (Protocol
    w) (KeyLength w) v (PSK w) (WscEn w) (ConTryTimes w) (WmmEn w).
Definition set_PSK (v : list Z) (w : WIFI_CFG) : WIFI_CFG :=
  mkWifi (Ssid w) (SSIDBrdEnable w) (PhyMode w) (Channel w) (Encry w) (AuthMode w) (Protocol
    w) (KeyLength w) (KeyIndex w) v (WscEn w) (ConTryTimes w) (WmmEn w).
Definition set_WscEn (v : Z) (w : WIFI_CFG) : WIFI_CFG :=
  mkWifi (Ssid w) (SSIDBrdEnable w) (PhyMode w) (Channel w) (Encry w) (AuthMode w) (Protocol
    w) (KeyLength w) (KeyIndex w) (PSK w) v (ConTryTimes w) (WmmEn w).
Definition set_ConTryTimes (v : Z) (w : WIFI_CFG) : WIFI_CFG :=
  mkWifi (Ssid w) (SSIDBrdEnable w) (PhyMode w) (Channel w) (Encry w) (AuthMode w) (Protocol
    w) (KeyLength w) (KeyIndex w) (PSK w) (WscEn w) v (WmmEn w).
Definition set_WmmEn (v : Z) (w : WIFI_CFG) : WIFI_CFG :=
  mkWifi (Ssid w) (SSIDBrdEnable w) (PhyMode w) (Channel w) (Encry w) (AuthMode w) (Protocol
    w) (KeyLength w) (KeyIndex w) (PSK w) (WscEn w) (ConTryTimes w) v.

Definition set_WiFiCfg (v : WIFI_CFG) (p : CFG_PARAM) : CFG_PARAM :=
  mkParam v (IPCfg p) (bDhcpServer p) (bDnsServer p) (DnsName p) (Res_3 p).
Definition set_IPCfg (v : IP_CFG) (p : CFG_PARAM) : CFG_PARAM :=
  mkParam (WiFiCfg p) v (bDhcpServer p) (bDnsServer p) (DnsName p) (Res_3 p).
Definition set_bDhcpServer (v : Z) (p : CFG_PARAM) : CFG_PARAM :=
  mkParam (WiFiCfg p) (IPCfg p) v (bDnsServer p) (DnsName p) (Res_3 p).
Definition set_bDnsServer (v : Z) (p : CFG_PARAM) : CFG_PARAM :=
  mkParam (WiFiCfg p) (IPCfg p) (bDhcpServer p) v (DnsName p) (Res_3 p).
Definition set_DnsName (v : list Z) (p : CFG_PARAM) : CFG_PARAM :=
  mkParam (WiFiCfg p) (IPCfg p) (bDhcpServer p) (bDnsServer p) v (Res_3 p).
Definition set_Res_3 (v : list Z) (p : CFG_PARAM) : CFG_PARAM :=
  mkParam (WiFiCfg p) (IPCfg p) (bDhcpServer p) (bDnsServer p) (DnsName p) v.

Definition set_SysParam (v : CFG_PARAM) (s : Sys) : Sys :=
  mkSys v (PermanentAddress s) (SysEvtCB s) (posted s).
Definition set_PermanentAddress (v : list Z) (s : Sys) : Sys :=
  mkSys (SysParam s) v (SysEvtCB s) (posted s).
Definition set_SysEvtCB (v : option Z) (s : Sys) : Sys :=
  mkSys (SysParam s) (PermanentAddress s) v (posted s).
Definition set_posted (v : list (Z * list Z)) (s : Sys) : Sys :=
  mkSys (SysParam s) (PermanentAddress s) (SysEvtCB s) v.

Definition PARAM_NET_MODE_STA_BSS : Z := 0.
Definition PARAM_NET_MODE_SOFTAP : Z := 2.
Definition PARAM_NET_MODE_MAX : Z := 3.
Definition PARAM_PHY_MODE_MAX : Z := 3.
Definition PARAM_ENC_MODE_AUTO : Z := 4.
Definition PARAM_ENC_MODE_MAX : Z := 5.
Definition PARAM_AUTH_MODE_MAX : Z := 4.
Definition PARAM_RATE_MODE_CCK : Z := 0.
Definition PARAM_RATE_MODE_OFDM : Z := 1.
Definition PARAM_RATE_MODE_HT : Z := 2.
Definition PARAM_RATE_IDX_3 : Z := 4.
Definition PARAM_RATE_IDX_7 : Z := 8.
Definition PARAM_TX_PWR_LEVEL_10 : Z := 9.
Definition PS_MODE_SOFT : Z := 3.
Definition PROTECT_MODE_NONE : Z := 2.
Definition WAKEUP_MODE_GPIO0 : Z := 0.
Definition WAKEUP_MODE_32K_TIMER : Z := 2147483648.

(** global.h *)
Definition MLME_SCAN_REQUEST_ID : Z := 256.
Definition MLME_DIRECT_CFG_ID : Z := 257.
Definition MLME_START_ID : Z := 258.
Definition MLME_STOP_ID : Z := 259.
Definition MLME_PS_MODE_SET_ID : Z := 260.
Definition MLME_DEEP_SLEEP_SET_ID : Z := 261.
Definition MLME_TX_RATE_SET_ID : Z := 262.
Definition MLME_TX_PWR_LEVEL_SET_ID : Z := 263.
Definition MLME_BCN_PRD_SET_ID : Z := 265.
Definition MLME_LISTEN_INTVL_SET_ID : Z := 266.
Definition MLME_PEER_AGE_OUT_SET_ID : Z := 267.
Definition MLME_PEER_KICK_OUT_ID : Z := 268.
Definition MLME_PROTECT_MODE_SET_ID : Z := 269.
Definition MLME_SNIFFER_START_ID : Z := 272.
Definition MLME_VENDOR_IE_SET_ID : Z := 273.

(** * Configuration interface *)

Definition update_param (f : CFG_PARAM -> CFG_PARAM) : M Sys unit :=
  modify (fun s => set_SysParam (f (SysParam s)) s).
Definition update_wifi (f : WIFI_CFG -> WIFI_CFG) : M Sys unit :=
  update_param (fun p => set_WiFiCfg (f (WiFiCfg p)) p).

(** [sprintf] with [%02x]. *)
Definition hex_digit (d : Z) : Z := if d <? 10 then 48 + d else 87 + d.
Definition hex02 (b : Z) : list Z := [hex_digit (b / 16); hex_digit (b mod 16)].

(** A string written at the start of a field. *)
Definition str_field (field s : list Z) : option (list Z) := blit field 0 (s ++ [0]).

Definition zero_param : CFG_PARAM :=
  mkParam (mkWifi (replicate 33 0) 0 0 0 0 0 0 0 0 (replicate 64 0) 0 0 0)
    (mkIp (replicate 4 0) (replicate 4 0) (replicate 4 0) (replicate 4 0) 0 0 (replicate 2 0))
    0 0 (replicate 33 0) (replicate 1 0).

Definition InfLoadDefaultParam : M Sys unit :=
  modify (set_SysParam zero_param);;
  ssid ← access (fun s =>
    a ← fetch (PermanentAddress s) 2 4;
    str_field (Ssid (WiFiCfg (SysParam s))) (lit "NuAgent-" ++ flat_map hex02 a));
  update_wifi (set_Ssid ssid);;
  update_wifi (set_SSIDBrdEnable 1);;
  update_wifi (set_Channel 11);;
  update_wifi (set_Encry 3);;
  update_wifi (set_AuthMode 3);;
  update_wifi (set_Protocol 2);;
  update_wifi (set_KeyIndex 0);;
  psk ← access (fun s => str_field (PSK (WiFiCfg (SysParam s))) (lit "123456789"));
  update_wifi (set_PSK psk);;
  update_wifi (set_KeyLength (zlen (lit "123456789")));;
  update_wifi (set_WmmEn 0);;
  update_param (set_IPCfg (mkIp [10; 10; 10; 1] [255; 255; 255; 0] [10; 10; 100; 254]
    [10; 10; 100; 254] 1 0 (replicate 2 0)));;
  update_param (set_bDhcpServer 1);;
  update_param (set_bDnsServer 1);;
  name ← access (fun s => str_field (DnsName (SysParam s)) (lit "local.nufront"));
  update_param (set_DnsName name).

Definition InfConfigQuery (pParam : option CFG_PARAM) : M Sys CFG_PARAM :=
  match pParam with
  | None => fail (-1)
  | Some _ => gets SysParam
  end.

Definition InfNetModeSet (Mode : Z) : M Sys unit :=
  if PARAM_NET_MODE_MAX <=? u8 Mode then fail (-1) else update_wifi (set_Protocol (u8 Mode)).

Definition InfPhyModeSet (Mode : Z) : M Sys unit :=
  if PARAM_PHY_MODE_MAX <=? u8 Mode then fail (-1) else update_wifi (set_PhyMode (u8 Mode)).

Definition InfSsidSet (pSsid : option (list Z)) (SsidLen : Z) : M Sys unit :=
  let bad :=
    ssid ← access (fun s => st (Ssid (WiFiCfg (SysParam s))) 0 0);
    update_wifi (set_Ssid ssid);;
    fail (-1) in
  match pSsid with
  | None => bad
  | Some pSsid =>
      if (32 <? SsidLen) || (SsidLen =? 0) then bad
      else
        ssid ← access (fun s =>
          src ← fetch pSsid 0 SsidLen;
          ssid ← blit (Ssid (WiFiCfg (SysParam s))) 0 src;
          st ssid SsidLen 0);
        update_wifi (set_Ssid ssid)
  end.

Definition InfSsidBrdcastSet (Enable : Z) : M Sys unit :=
  update_wifi (set_SSIDBrdEnable (if Enable =? 0 then 0 else 1)).

Definition InfChannelSet (Ch : Z) : M Sys unit :=
  if (Ch <? 1) || (13 <? Ch) then fail (-1) else update_wifi (set_Channel Ch).

Definition InfEncModeSet (EncMode : Z) : M Sys unit :=
  if PARAM_ENC_MODE_MAX <=? u8 EncMode then fail (-1) else update_wifi (set_Encry (u8 EncMode)).

Definition InfAuthModeSet (AuthMode : Z) : M Sys unit :=
  if PARAM_AUTH_MODE_MAX <=? u8 AuthMode then fail (-1)
  else update_wifi (set_AuthMode (u8 AuthMode)).

Definition InfKeySet (Index : Z) (KeyBuf : option (list Z)) (KeyLen : Z) : M Sys unit :=
  match KeyBuf with
  | None => fail (-1)
  | Some KeyBuf =>
      if (3 <? Index) || (64 <? KeyLen) then fail (-1)
      else
        update_wifi (set_KeyIndex Index);;
        update_wifi (set_KeyLength KeyLen);;
        psk ← access (fun s =>
          src ← fetch KeyBuf 0 KeyLen;
          psk ← blit (PSK (WiFiCfg (SysParam s))) 0 src;
          if KeyLen <? 64 then st psk KeyLen 0 else Some psk);
        update_wifi (set_PSK psk)
  end.

Definition InfConTryTimesSet (TryTimes : Z) : M Sys unit := update_wifi (set_ConTryTimes TryTimes).

Definition InfWmmEnableSet (Enable : Z) : M Sys unit := update_wifi (set_WmmEn (u8 Enable)).

Definition InfIpSet (IpParam : option IP_CFG) : M Sys unit :=
  match IpParam with
  | None => fail (-1)
  | Some ip => update_param (set_IPCfg ip)
  end.

Definition InfDhcpSrvSet (Enable : Z) : M Sys unit :=
  update_param (set_bDhcpServer (if Enable =? 0 then 0 else 1)).

Definition InfDnsSrvSet (Enable : Z) (Name : option (list Z)) (DnsNameLen : Z) : M Sys unit :=
  if Enable =? 0 then update_param (set_bDnsServer 0)
  else
    match Name with
    | None => fail (-1)
    | Some Name =>
        if 32 <? DnsNameLen then fail (-1)
        else
          update_param (set_bDnsServer 1);;
          name ← access (fun s =>
            src ← fetch Name 0 DnsNameLen;
            blit (DnsName (SysParam s)) 0 src);
          update_param (set_DnsName name)
    end.

Definition InfMacAddrSet (Addr : option (list Z)) : M Sys unit :=
  match Addr with
  | None => fail (-1)
  | Some Addr =>
      a ← access (fun s => src ← fetch Addr 0 6; blit (PermanentAddress s) 0 src);
      modify (set_PermanentAddress a)
  end.

Definition InfSysEvtCBSet (pFuncCb : option Z) : M Sys unit :=
  match pFuncCb with
  | None => fail (-1)
  | Some f => modify (set_SysEvtCB (Some f))
  end.

(** * Control interface *)

Definition PostTaskMsg (id : Z) (body : list Z) : M Sys unit :=
  modify (fun s => set_posted ((id, body) :: posted s) s).

Definition InfWiFiStart : M Sys unit := PostTaskMsg MLME_START_ID [].
Definition InfWiFiStop : M Sys unit := PostTaskMsg MLME_STOP_ID [].

(** The table is its address and the count it holds. *)
Definition InfScanStart (pScanTable : option (Z * Z)) (MinRssiFilter ScanType : Z) : M Sys unit :=
  match pScanTable with
  | None => fail (-1)
  | Some (addr, InfoCount) =>
      if InfoCount =? 0 then fail (-1)
      else
        let MinRssiFilter := if 0 <? MinRssiFilter then 0 else MinRssiFilter in
        PostTaskMsg MLME_SCAN_REQUEST_ID (le32 addr ++ [u8 MinRssiFilter; u8 ScanType])
  end.

Definition InfTxRateSet (RateMode RateIdx : Z) : M Sys unit :=
  if (RateMode =? PARAM_RATE_MODE_CCK) && (PARAM_RATE_IDX_3 <? RateIdx) then fail (-1)
  else if ((RateMode =? PARAM_RATE_MODE_OFDM) || (RateMode =? PARAM_RATE_MODE_HT))
       && (PARAM_RATE_IDX_7 <? RateIdx) then fail (-1)
  else if negb ((RateMode =? PARAM_RATE_MODE_CCK) || (RateMode =? PARAM_RATE_MODE_OFDM)
             || (RateMode =? PARAM_RATE_MODE_HT)) then fail (-1)
  else PostTaskMsg MLME_TX_RATE_SET_ID [u8 RateMode; u8 RateIdx].

Definition InfTxPwrLevelSet (TxPwrLevel : Z) : M Sys unit :=
  if PARAM_TX_PWR_LEVEL_10 <? TxPwrLevel then fail (-1)
  else PostTaskMsg MLME_TX_PWR_LEVEL_SET_ID [u8 TxPwrLevel].

Definition InfPowerSaveSet (PowerSaveMode : Z) : M Sys unit :=
  if PS_MODE_SOFT <? PowerSaveMode then fail (-1)
  else PostTaskMsg MLME_PS_MODE_SET_ID [PowerSaveMode].

Definition InfDeepSleepSet (WakeUpMode : Z) : M Sys unit :=
  if (WAKEUP_MODE_GPIO0 <? WakeUpMode) && (Z.land WakeUpMode WAKEUP_MODE_32K_TIMER =? 0) then fail (-1)
  else PostTaskMsg MLME_DEEP_SLEEP_SET_ID (le32 WakeUpMode).

Definition InfBeaconPeriodSet (BcnPrd NotifyPeerEn : Z) : M Sys unit :=
  PostTaskMsg MLME_BCN_PRD_SET_ID (le16 BcnPrd ++ [NotifyPeerEn]).

Definition InfListenIntervalSet (ListenIntv ListenDtim : Z) : M Sys unit :=
  if ListenIntv =? 0 then fail (-1)
  else PostTaskMsg MLME_LISTEN_INTVL_SET_ID [ListenIntv; u8 ListenDtim].

(** [pCustomStr] is an address, 0 for NULL. *)
Definition InfDirectCfgStart (MinRssiFilter TryPeerNum pCustomStr : Z) : M Sys unit :=
  PostTaskMsg MLME_DIRECT_CFG_ID
    ([u8 MinRssiFilter; TryPeerNum] ++ (if pCustomStr =? 0 then replicate 4 0 else le32 pCustomStr)).

Definition InfSnifferStart (pFuncCb : Z) (BindBssid : list Z) (Ch : Z) : M Sys unit :=
  bssid ← access (fun _ => fetch BindBssid 0 6);
  PostTaskMsg MLME_SNIFFER_START_ID (le32 pFuncCb ++ bssid ++ [Ch]).

Definition InfPeerAgeOutSet (Time : Z) : M Sys unit :=
  PostTaskMsg MLME_PEER_AGE_OUT_SET_ID (le32 Time).

Definition InfPeerKickOut (pMacAddr : option (list Z)) : M Sys unit :=
  match pMacAddr with
  | None => fail (-1)
  | Some a =>
      mac ← access (fun _ => fetch a 0 6);
      PostTaskMsg MLME_PEER_KICK_OUT_ID mac
  end.

Definition InfProtectModeSet (Mode : Z) : M Sys unit :=
  if PROTECT_MODE_NONE <? Mode then fail (-1) else PostTaskMsg MLME_PROTECT_MODE_SET_ID [u8 Mode].

Definition InfVendorIESet (pIePtr IeLen : Z) : M Sys unit :=
  PostTaskMsg MLME_VENDOR_IE_SET_ID (le32 pIePtr ++ [IeLen]).

(** 64-bit arithmetic. *)
Definition u64 (x : Z) : Z := x mod 18446744073709551616.
Definition InfSysTimeGet (Ticks : Z) : Z :=
  u64 (u64 (Ticks / 1024 * 125) + u64 (Ticks mod 1024 * 125) / 1024).

(** * Well-formed parameters *)

(** A field of [n] bytes. *)
Definition field (n : Z) (l : list Z) : Prop := zlen l = n /\ Bytes l.
Definition terminated (l : list Z) : Prop := Exists (fun c => c = 0) l.
Definition flag_ok (x : Z) : Prop := x = 0 \/ x = 1.

Record wifi_ok (w : WIFI_CFG) : Prop := {
  ok_Ssid : field 33 (Ssid w) /\ terminated (Ssid w);
  ok_brd : flag_ok (SSIDBrdEnable w);
  ok_phy : 0 <= PhyMode w < PARAM_PHY_MODE_MAX;
  ok_channel : 1 <= Channel w <= 13;
  ok_encry : 0 <= Encry w < PARAM_ENC_MODE_MAX;
  ok_auth : 0 <= AuthMode w < PARAM_AUTH_MODE_MAX;
  ok_protocol : 0 <= Protocol w < PARAM_NET_MODE_MAX;
  ok_keylen : 0 <= KeyLength w <= 64;
  ok_keyidx : 0 <= KeyIndex w <= 3;
  ok_psk : field 64 (PSK w);
  ok_wps : is_u8 (WscEn w) /\ is_u8 (ConTryTimes w) /\ is_u8 (WmmEn w)
}.

Record ip_ok (i : IP_CFG) : Prop := {
  ok_addrs : field 4 (Ip i) /\ field 4 (Netmask i) /\ field 4 (GateWay i) /\ field 4 (Dns i);
  ok_dhcp : is_u8 (bDhcp i) /\ is_u8 (DhcpTryTimes i) /\ field 2 (Res_2 i)
}.

(** A name is always terminated because no setter writes the last byte. *)
Record param_ok (p : CFG_PARAM) : Prop := {
  ok_wifi : wifi_ok (WiFiCfg p);
  ok_ip : ip_ok (IPCfg p);
  ok_servers : flag_ok (bDhcpServer p) /\ flag_ok (bDnsServer p);
  ok_name : field 33 (DnsName p) /\ ld (DnsName p) 32 = Some 0;
  ok_res : field 1 (Res_3 p)
}.

(** The body of a message fits the 32 bytes of [NST_TskMsg]. *)
Definition msg_ok (m : Z * list Z) : Prop := is_u16 (fst m) /\ zlen (snd m) <= 32 /\ Bytes (snd m).

Record sys_ok (s : Sys) : Prop := {
  ok_param : param_ok (SysParam s);
  ok_mac : field 6 (PermanentAddress s);
  ok_posted : Forall msg_ok (posted s)
}.

(** * Every call of the interface *)

Inductive call :=
  | CLoadDefault
  | CNetMode (Mode : Z) | CPhyMode (Mode : Z)
  | CSsid (s : option (list Z)) (n : Z) | CSsidBrdcast (e : Z) | CChannel (c : Z)
  | CEncMode (m : Z) | CAuthMode (m : Z) | CKey (i : Z) (k : option (list Z)) (n : Z)
  | CConTryTimes (n : Z) | CWmmEnable (e : Z) | CIp (i : option IP_CFG)
  | CDhcpSrv (e : Z) | CDnsSrv (e : Z) (nm : option (list Z)) (n : Z)
  | CMacAddr (a : option (list Z)) | CSysEvtCB (f : option Z)
  | CWiFiStart | CWiFiStop | CScan (t : option (Z * Z)) (rssi typ : Z)
  | CTxRate (m i : Z) | CTxPwrLevel (l : Z) | CPowerSave (m : Z) | CDeepSleep (m : Z)
  | CBeaconPeriod (b n : Z) | CListenInterval (i d : Z) | CDirectCfg (rssi n str : Z)
  | CSniffer (f : Z) (b : list Z) (c : Z) | CPeerAgeOut (t : Z) | CPeerKickOut (a : option (list Z))
  | CProtectMode (m : Z) | CVendorIE (p n : Z).

Definition exec (c : call) : M Sys unit :=
  match c with
  | CLoadDefault => InfLoadDefaultParam
  | CNetMode m => InfNetModeSet m
  | CPhyMode m => InfPhyModeSet m
  | CSsid s n => InfSsidSet s n
  | CSsidBrdcast e => InfSsidBrdcastSet e
  | CChannel c => InfChannelSet c
  | CEncMode m => InfEncModeSet m
  | CAuthMode m => InfAuthModeSet m
  | CKey i k n => InfKeySet i k n
  | CConTryTimes n => InfConTryTimesSet n
  | CWmmEnable e => InfWmmEnableSet e
  | CIp i => InfIpSet i
  | CDhcpSrv e => InfDhcpSrvSet e
  | CDnsSrv e nm n => InfDnsSrvSet e nm n
  | CMacAddr a => InfMacAddrSet a
  | CSysEvtCB f => InfSysEvtCBSet f
  | CWiFiStart => InfWiFiStart
  | CWiFiStop => InfWiFiStop
  | CScan t r ty => InfScanStart t r ty
  | CTxRate m i => InfTxRateSet m i
  | CTxPwrLevel l => InfTxPwrLevelSet l
  | CPowerSave m => InfPowerSaveSet m
  | CDeepSleep m => InfDeepSleepSet m
  | CBeaconPeriod b n => InfBeaconPeriodSet b n
  | CListenInterval i d => InfListenIntervalSet i d
  | CDirectCfg r n p => InfDirectCfgStart r n p
  | CSniffer f b c => InfSnifferStart f b c
  | CPeerAgeOut t => InfPeerAgeOutSet t
  | CPeerKickOut a => InfPeerKickOut a
  | CProtectMode m => InfProtectModeSet m
  | CVendorIE p n => InfVendorIESet p n
  end.

(** An object of at least [n] bytes. *)
Definition object (n : Z) (o : option (list Z)) : Prop :=
  match o with None => True | Some l => Bytes l /\ n <= zlen l end.

(** Arguments of their C types, lengths that do not exceed the objects. *)
Definition args_ok (c : call) : Prop :=
  match c with
  | CSsid s n => is_u8 n /\ object n s
  | CChannel c => is_u8 c
  | CKey i k n => is_u8 i /\ is_u8 n /\ object n k
  | CConTryTimes n => is_u8 n
  | CIp (Some i) => ip_ok i
  | CDnsSrv _ nm n => is_u8 n /\ object n nm
  | CMacAddr a | CPeerKickOut a => object 6 a
  | CPowerSave m => is_u8 m
  | CBeaconPeriod _ n => is_u8 n
  | CListenInterval i _ => is_u8 i
  | CDirectCfg _ n _ => is_u8 n
  | CSniffer _ b c => Bytes b /\ 6 <= zlen b /\ is_u8 c
  | CVendorIE _ n => is_u8 n
  | _ => True
  end.

(** * Rules for the outcome of a call

    [wp m s Q]: from [s], [m] returns normally with [Q], or fails with -1 in a
    well-formed state; it never leaves an object. *)

Definition wp {A} (m : M Sys A) (s : Sys) (Q : A -> Sys -> Prop) : Prop :=
  match m s with
  | Done a s' => Q a s'
  | Err c s' => c = -1 /\ sys_ok s'
  | Crash => False
  end.

Lemma wp_bind {A B} (m : M Sys A) (f : A -> M Sys B) s Q :
  wp m s (fun a s' => wp (f a) s' Q) -> wp (mbind f m) s Q.
Proof. unfold wp, mbind, M_bind. by destruct (m s). Qed.

Lemma wp_fail {A} s (Q : A -> Sys -> Prop) : sys_ok s -> wp (fail (-1)) s Q.
Proof. by split. Qed.

Lemma wp_access {A} (f : Sys -> option A) s a (Q : A -> Sys -> Prop) :
  f s = Some a -> Q a s -> wp (access f) s Q.
Proof. unfold wp, access. by intros ->. Qed.

Lemma wp_modify (f : Sys -> Sys) s (Q : unit -> Sys -> Prop) : Q tt (f s) -> wp (modify f) s Q.
Proof. done. Qed.

Lemma wp_mono {A} (m : M Sys A) s (P Q : A -> Sys -> Prop) :
  wp m s P -> (forall a s', P a s' -> Q a s') -> wp m s Q.
Proof. unfold wp. destruct (m s); auto. Qed.

(** The postcondition of every call. *)
Definition keeps (m : M Sys unit) (s : Sys) : Prop := wp m s (fun _ s' => sys_ok s').

Lemma update_wifi_ok f s : sys_ok s -> wifi_ok (f (WiFiCfg (SysParam s))) -> keeps (update_wifi f) s.
Proof. intros [[] ? ?] Hw. apply wp_modify. constructor; [constructor|..]; done. Qed.

Lemma update_param_ok f s : sys_ok s -> param_ok (f (SysParam s)) -> keeps (update_param f) s.
Proof. intros [] Hw. apply wp_modify. by constructor. Qed.

Lemma post_ok id body s : sys_ok s -> msg_ok (id, body) -> keeps (PostTaskMsg id body) s.
Proof. intros [] Hm. apply wp_modify. constructor; [done..|]. by constructor. Qed.

Lemma wifi_of s : sys_ok s -> wifi_ok (WiFiCfg (SysParam s)).
Proof. by intros [[]]. Qed.

#[export] Hint Resolve wifi_of : nl.

(** [record_ok] rebuilds a well-formed record from the one before. *)
Ltac record_ok :=
  match goal with
  | |- wifi_ok (_ ?w) =>
      let H := fresh in assert (H : wifi_ok w) by auto with nl; destruct H; constructor; simpl
  | |- param_ok (_ ?p) =>
      match goal with H : sys_ok ?s |- _ => destruct (ok_param s H); constructor; simpl end
  end; try assumption.

Lemma field_blit n l off src l' :
  blit l off src = Some l' -> field n l -> Bytes src -> field n l'.
Proof.
  intros E [Hl Hb] Hs. split; [by rewrite (blit_length _ _ _ _ E)|by eapply Forall_blit].
Qed.

Lemma field_st n l i x l' : st l i x = Some l' -> field n l -> is_u8 x -> field n l'.
Proof.
  intros E Hf Hx. pose proof Hf as [Hl _].
  assert (Hr : 0 <= i < zlen l).
  { unfold st in E. destruct (Z.leb_spec 0 i), (Z.ltb_spec i (zlen l)); done || lia. }
  rewrite st_blit in E by done. eapply field_blit; [exact E|exact Hf|]. by apply Forall_singleton.
Qed.

Lemma terminated_st l i l' : st l i 0 = Some l' -> terminated l'.
Proof.
  intros E. apply Exists_exists. exists 0. split; [|done].
  pose proof (ld_st _ _ _ _ i E) as Hl. rewrite Z.eqb_refl in Hl. unfold ld in Hl.
  apply list_elem_of_In. destruct (0 <=? i); [|done]. by eapply list_elem_of_lookup_2.
Qed.

(** Copying [n] bytes of an object to the start of a field. *)
Lemma field_copy_in l n fl f : Bytes l -> 0 <= n -> n <= zlen l -> field fl f -> n <= fl ->
  exists f', (src ← fetch l 0 n; blit f 0 src) = Some f' /\ field fl f' /\
    f' = ztake n l ++ zdrop n f.
Proof.
  intros Hl H0 H1 Hf Hn. pose proof Hf as [Hfl _]. rewrite fetch_spec by lia. simpl.
  rewrite zdrop_0 by lia. assert (Hz : zlen (ztake n l) = n) by (autorewrite with zlen; lia).
  destruct (blit f 0 (ztake n l)) as [f'|] eqn:E.
  - exists f'. split; [done|]. split; [eapply field_blit; [exact E|done|by apply Forall_ztake]|].
    rewrite blit_spec in E by lia. simplify_eq. rewrite (ztake_0 0) by lia. simpl. rewrite Hz. done.
  - rewrite blit_spec in E by lia. done.
Qed.

(** * The calls *)

#[export] Instance field_dec n l : Decision (field n l).
Proof. unfold field. apply _. Defined.

(** The parameters [InfLoadDefaultParam] leaves, from the last four bytes of
    the MAC address. *)
Definition default_param (mac : list Z) : CFG_PARAM :=
  mkParam
    (mkWifi (lit "NuAgent-" ++ flat_map hex02 mac ++ replicate 17 0) 1 0 11 3 3 2 9 0
       (lit "123456789" ++ replicate 55 0) 0 0 0)
    (mkIp [10; 10; 10; 1] [255; 255; 255; 0] [10; 10; 100; 254] [10; 10; 100; 254] 1 0 [0; 0])
    1 1 (lit "local.nufront" ++ replicate 20 0) [0].

Lemma hex02_bytes b : is_u8 b -> Bytes (hex02 b).
Proof.
  intros. unfold hex02, hex_digit. repeat constructor;
    repeat case_match; unfold is_u8 in *; Z.div_mod_to_equations; lia.
Qed.

Lemma flat_map_hex02 mac : Bytes mac ->
  Bytes (flat_map hex02 mac) /\ zlen (flat_map hex02 mac) = 2 * zlen mac.
Proof.
  induction 1 as [|b mac Hb _ [IH1 IH2]]; [by split; [constructor|]|]. cbn [flat_map]. split.
  - apply Forall_app. by split; [apply hex02_bytes|].
  - rewrite zlen_app, IH2, zlen_cons. change (zlen (hex02 b)) with 2. lia.
Qed.

(** A field that starts with a string and ends with zeros. *)
Lemma padded_field n s k : Bytes s -> zlen s + Z.of_nat k = n -> (0 < k)%nat ->
  field n (s ++ replicate k 0) /\ terminated (s ++ replicate k 0).
Proof.
  intros Hs Hn Hk. split; [split|].
  - rewrite zlen_app. unfold zlen at 2. rewrite length_replicate. lia.
  - apply Forall_app. split; [done|]. apply Forall_replicate. by_decide.
  - apply Exists_app. right. destruct k; [lia|]. by left.
Qed.

Lemma default_param_ok mac : zlen mac = 4 -> Bytes mac -> param_ok (default_param mac).
Proof.
  intros Hl Hb. destruct (flat_map_hex02 mac Hb) as [H1 H2].
  unfold default_param. generalize dependent (flat_map hex02 mac). intros x Hx Hxl.
  constructor; cbn [WiFiCfg IPCfg bDhcpServer bDnsServer DnsName Res_3].
  - constructor; cbn [Ssid SSIDBrdEnable PhyMode Channel Encry AuthMode Protocol KeyLength
      KeyIndex PSK WscEn ConTryTimes WmmEn]; [|by right|by_decide..].
    rewrite app_assoc. apply padded_field; [|rewrite zlen_app, Hxl, Hl; by_decide|lia].
    apply Forall_app. split; [by_decide|done].
  - constructor; by_decide.
  - split; by right.
  - split; by_decide.
  - by_decide.
Qed.

Lemma InfLoadDefaultParam_spec s : zlen (PermanentAddress s) = 6 ->
  InfLoadDefaultParam s =
    Done tt (set_SysParam (default_param (zdrop 2 (PermanentAddress s))) s).
Proof.
  destruct s as [p mac cb po]. simpl. intros Hl.
  destruct mac as [|a [|b [|c [|d [|e [|f []]]]]]]; try (exfalso; zlen_lia).
  reflexivity.
Qed.

Lemma InfLoadDefaultParam_ok s : sys_ok s -> keeps InfLoadDefaultParam s.
Proof.
  intros [Hp [Hl Hb] Hm]. unfold keeps, wp. rewrite InfLoadDefaultParam_spec by done.
  constructor; simpl; [|done|done]. apply default_param_ok; [|by apply Forall_zdrop].
  autorewrite with zlen. lia.
Qed.

Lemma InfSsidSet_ok s n o : sys_ok s -> is_u8 n -> object n o -> keeps (InfSsidSet o n) s.
Proof.
  intros Hs Hn Ho. pose proof (wifi_of s Hs) as Hw. destruct (ok_Ssid _ Hw) as [Hf Ht].
  assert (Hbad : keeps (ssid ← access (fun s => st (Ssid (WiFiCfg (SysParam s))) 0 0);
    update_wifi (set_Ssid ssid);; fail (-1)) s).
  { pose proof Hf as [Hl _].
    destruct (st_Some (Ssid (WiFiCfg (SysParam s))) 0 0) as [l' E]; [lia|].
    apply wp_bind. eapply wp_access; [exact E|]. apply wp_bind.
    eapply wp_mono; [apply update_wifi_ok; [exact Hs|]|intros [] s' Hs'; by apply wp_fail].
    record_ok. split; [eapply field_st; [exact E|done|by_decide]|by eapply terminated_st]. }
  destruct o as [l|]; [|exact Hbad]. destruct Ho as [Hb Hl]. unfold InfSsidSet.
  destruct (Z.ltb_spec 32 n), (Z.eqb_spec n 0); simpl; try exact Hbad.
  destruct (field_copy_in l n 33 (Ssid (WiFiCfg (SysParam s)))) as (f1 & E1 & Hf1 & _);
    [done|unfold is_u8 in *; lia|lia|done|lia|].
  pose proof Hf1 as [Hl1 _]. destruct (st_Some f1 n 0) as [f2 E2]; [unfold is_u8 in *; lia|].
  apply wp_bind. apply (wp_access _ _ f2).
  { unfold mbind, option_bind in *. destruct (fetch l 0 n); [|done]. rewrite E1. exact E2. }
  apply update_wifi_ok; [done|]. record_ok.
  split; [eapply field_st; [exact E2|done|by_decide]|by eapply terminated_st].
Qed.

Lemma InfKeySet_ok s i n o : sys_ok s -> is_u8 i -> is_u8 n -> object n o -> keeps (InfKeySet i o n) s.
Proof.
  intros Hs Hi Hn Ho. destruct o as [l|]; [|by apply wp_fail]. destruct Ho as [Hb Hl].
  unfold InfKeySet. destruct (Z.ltb_spec 3 i); [by apply wp_fail|].
  destruct (Z.ltb_spec 64 n); [by apply wp_fail|]. simpl. unfold is_u8 in *.
  apply wp_bind. eapply wp_mono; [apply update_wifi_ok; [exact Hs|record_ok; lia]|intros [] s1 H1].
  apply wp_bind. eapply wp_mono; [apply update_wifi_ok; [exact H1|record_ok; lia]|intros [] s2 H2].
  pose proof (ok_psk _ (wifi_of s2 H2)) as Hf.
  destruct (field_copy_in l n 64 (PSK (WiFiCfg (SysParam s2)))) as (f1 & E1 & Hf1 & _); try done; try lia.
  pose proof Hf1 as [Hl1 _].
  assert (E2 : exists f2, (if n <? 64 then st f1 n 0 else Some f1) = Some f2 /\ field 64 f2).
  { destruct (Z.ltb_spec n 64); [|eauto]. destruct (st_Some f1 n 0) as [f2 E2]; [lia|].
    exists f2. split; [done|]. eapply field_st; [exact E2|done|by_decide]. }
  destruct E2 as (f2 & E2 & Hf2). apply wp_bind. apply (wp_access _ _ f2).
  { unfold mbind, option_bind in *. destruct (fetch l 0 n); [|done]. rewrite E1. exact E2. }
  apply update_wifi_ok; [done|]. by record_ok.
Qed.

Lemma InfDnsSrvSet_ok s e n o : sys_ok s -> is_u8 n -> object n o -> keeps (InfDnsSrvSet e o n) s.
Proof.
  intros Hs Hn Ho. unfold InfDnsSrvSet. destruct (e =? 0).
  { apply update_param_ok; [done|]. record_ok. split; [apply ok_servers0|by left]. }
  destruct o as [l|]; [|by apply wp_fail]. destruct Ho as [Hb Hl]. unfold is_u8 in *.
  destruct (Z.ltb_spec 32 n); [by apply wp_fail|].
  apply wp_bind. eapply wp_mono; [apply update_param_ok; [exact Hs|]|intros [] s1 H1].
  { record_ok. split; [apply ok_servers0|by right]. }
  destruct (ok_name _ (ok_param _ H1)) as [Hf H32].
  destruct (field_copy_in l n 33 (DnsName (SysParam s1))) as (f1 & E1 & Hf1 & ->); try done; try lia.
  apply wp_bind. eapply wp_access; [exact E1|]. apply update_param_ok; [done|]. record_ok.
  split; [done|]. rewrite ld_app_r by (autorewrite with zlen; lia).
  rewrite ld_zdrop_add; [|lia|autorewrite with zlen; lia].
  etransitivity; [|exact H32]. f_equal. autorewrite with zlen. lia.
Qed.

Lemma InfMacAddrSet_ok s o : sys_ok s -> object 6 o -> keeps (InfMacAddrSet o) s.
Proof.
  intros Hs Ho. destruct o as [l|]; [|by apply wp_fail]. destruct Ho as [Hb Hl].
  pose proof (ok_mac _ Hs) as Hf.
  destruct (field_copy_in l 6 6 (PermanentAddress s)) as (f1 & E1 & Hf1 & _); try done; try lia.
  apply wp_bind. eapply wp_access; [exact E1|]. apply wp_modify. by destruct Hs.
Qed.

Lemma bytes_cons x l : is_u8 x -> Bytes l -> Bytes (x :: l).
Proof. intros. by apply Forall_cons_2. Qed.

Lemma bytes_nil : Bytes [].
Proof. apply Forall_nil_2. Qed.

Lemma bytes_app l k : Bytes l -> Bytes k -> Bytes (l ++ k).
Proof. intros. by apply Forall_app. Qed.

#[export] Hint Resolve bytes_cons bytes_nil bytes_app : nl.

(** [msg] closes the side conditions on a message. *)
Ltac msg :=
  split; [by_decide|]; split; cbn [snd fst];
  [autorewrite with zlen; lia | auto with nl].

Lemma exec_ok c s : sys_ok s -> args_ok c -> keeps (exec c) s.
Proof.
  intros Hs Ha. destruct c; cbn [exec args_ok] in *.
  - by apply InfLoadDefaultParam_ok.
  - unfold InfNetModeSet. destruct (Z.leb_spec PARAM_NET_MODE_MAX (u8 Mode)); [by apply wp_fail|].
    apply update_wifi_ok; [done|]. record_ok. pose proof (u8_range Mode). unfold is_u8 in *. lia.
  - unfold InfPhyModeSet. destruct (Z.leb_spec PARAM_PHY_MODE_MAX (u8 Mode)); [by apply wp_fail|].
    apply update_wifi_ok; [done|]. record_ok. pose proof (u8_range Mode). unfold is_u8 in *. lia.
  - destruct Ha. by apply InfSsidSet_ok.
  - apply update_wifi_ok; [done|]. record_ok. destruct (e =? 0); [by left|by right].
  - unfold InfChannelSet. destruct (Z.ltb_spec c 1), (Z.ltb_spec 13 c); try by apply wp_fail.
    apply update_wifi_ok; [done|]. record_ok. lia.
  - unfold InfEncModeSet. destruct (Z.leb_spec PARAM_ENC_MODE_MAX (u8 m)); [by apply wp_fail|].
    apply update_wifi_ok; [done|]. record_ok. pose proof (u8_range m). unfold is_u8 in *. lia.
  - unfold InfAuthModeSet. destruct (Z.leb_spec PARAM_AUTH_MODE_MAX (u8 m)); [by apply wp_fail|].
    apply update_wifi_ok; [done|]. record_ok. pose proof (u8_range m). unfold is_u8 in *. lia.
  - destruct Ha as (? & ? & ?). by apply InfKeySet_ok.
  - apply update_wifi_ok; [done|]. record_ok. by destruct ok_wps0 as (? & ? & ?).
  - apply update_wifi_ok; [done|]. record_ok. destruct ok_wps0 as (? & ? & ?). auto with nl.
  - destruct i as [i|]; [|by apply wp_fail]. apply update_param_ok; [done|]. by record_ok.
  - apply update_param_ok; [done|]. record_ok.
    split; [destruct (e =? 0); [by left|by right]|apply ok_servers0].
  - destruct Ha. by apply InfDnsSrvSet_ok.
  - by apply InfMacAddrSet_ok.
  - destruct f as [f|]; [|by apply wp_fail]. apply wp_modify. by destruct Hs.
  - apply post_ok; [done|msg].
  - apply post_ok; [done|msg].
  - destruct t as [[a n]|]; [|by apply wp_fail]. unfold InfScanStart.
    destruct (n =? 0); [by apply wp_fail|]. apply post_ok; [done|msg].
  - unfold InfTxRateSet. repeat (case_match; [by apply wp_fail|]). apply post_ok; [done|msg].
  - unfold InfTxPwrLevelSet. case_match; [by apply wp_fail|]. apply post_ok; [done|msg].
  - unfold InfPowerSaveSet. case_match; [by apply wp_fail|]. apply post_ok; [done|msg].
  - unfold InfDeepSleepSet. case_match; [by apply wp_fail|]. apply post_ok; [done|msg].
  - apply post_ok; [done|msg].
  - unfold InfListenIntervalSet. case_match; [by apply wp_fail|]. apply post_ok; [done|msg].
  - unfold InfDirectCfgStart. destruct (str =? 0); (apply post_ok; [done|]); [|msg].
    split; [by_decide|]. cbn [snd]. split; [by autorewrite with zlen|].
    apply bytes_app; [auto with nl|by_decide].
  - destruct Ha as (Hb & Hl & Hc). unfold InfSnifferStart. apply wp_bind.
    eapply wp_access; [by apply fetch_spec; lia|].
    apply post_ok; [done|]. split; [by_decide|]. cbn [snd]. split; [autorewrite with zlen; lia|].
    apply bytes_app; [auto with nl|]. apply bytes_app; [by apply Forall_ztake|auto with nl].
  - apply post_ok; [done|msg].
  - destruct a as [l|]; [|by apply wp_fail]. destruct Ha as [Hb Hl]. unfold InfPeerKickOut.
    apply wp_bind. eapply wp_access; [by apply fetch_spec; lia|].
    apply post_ok; [done|]. split; [by_decide|]. cbn [snd]. split; [autorewrite with zlen; lia|].
    by apply Forall_ztake.
  - unfold InfProtectModeSet. case_match; [by apply wp_fail|]. apply post_ok; [done|msg].
  - apply post_ok; [done|msg].
Qed.

(** A sequence of calls whose status is not looked at; [None]: some call left
    an object. *)
Fixpoint run (cs : list call) (s : Sys) : option Sys :=
  match cs with
  | [] => Some s
  | c :: cs =>
      match exec c s with
      | Done _ s' | Err _ s' => run cs s'
      | Crash => None
      end
  end.

Lemma run_ok cs : forall s, sys_ok s -> Forall args_ok cs -> exists s', run cs s = Some s' /\ sys_ok s'.
Proof.
  induction cs as [|c cs IH]; intros s Hs Ha; [by exists s|].
  apply Forall_cons_1 in Ha as [Hc Ha]. pose proof (exec_ok c s Hs Hc) as H.
  unfold keeps, wp in H. cbn [run]. destruct (exec c s); [by apply IH|by apply IH; [apply H|]|done].
Qed.

(** * Properties *)

(** C35: once the defaults are loaded, whatever sequence of calls an application
    makes (with objects as long as the lengths it passes), no call leaves an
    object, and the parameters stay well formed: every field has its width,
    the SSID and the DNS name are terminated, modes, channel, key length and
    key index stay in their ranges, and every message posted fits the body of
    a task message. *)
Theorem calls_well_formed cs s
  (Hmac : field 6 (PermanentAddress s)) (Hm : Forall msg_ok (posted s)) (Ha : Forall args_ok cs) :
  exists s', run (CLoadDefault :: cs) s = Some s' /\ sys_ok s'.
Proof.
  destruct Hmac as [Hl Hb]. cbn [run exec]. rewrite InfLoadDefaultParam_spec by done.
  apply run_ok; [|done]. constructor; cbn; [|done|done].
  apply default_param_ok; [autorewrite with zlen; lia|by apply Forall_zdrop].
Qed.

Lemma stored_string f l n : Forall (fun c => c <> 0) l -> zlen l = n -> n < zlen f ->
  exists f', (ssid ← blit f 0 l; st ssid n 0) = Some f' /\
    f' = l ++ 0 :: zdrop (n + 1) f.
Proof.
  intros Hl Hn Hf. pose proof (zlen_nonneg l). rewrite blit_spec by lia. simpl.
  rewrite Z.add_0_l, Hn. rewrite st_spec by (autorewrite with zlen; lia).
  eexists. split; [done|]. rewrite <- Hn at 1. rewrite ztake_zlen_app. do 2 f_equal.
  rewrite zdrop_app_r by lia. rewrite zdrop_zdrop by lia. f_equal. lia.
Qed.

Lemma InfSsidSet_stored s l rest :
  zlen (Ssid (WiFiCfg (SysParam s))) = 33 -> Forall (fun c => c <> 0) l -> 1 <= zlen l <= 32 ->
  InfSsidSet (Some (l ++ rest)) (zlen l) s = Done tt (set_SysParam (set_WiFiCfg
    (set_Ssid (l ++ 0 :: zdrop (zlen l + 1) (Ssid (WiFiCfg (SysParam s)))) (WiFiCfg (SysParam s)))
    (SysParam s)) s).
Proof.
  intros Hf Hl Hn.
  destruct (stored_string (Ssid (WiFiCfg (SysParam s))) l (zlen l)) as (f & E & ->); [done|done|lia|].
  unfold InfSsidSet. destruct (Z.ltb_spec 32 (zlen l)), (Z.eqb_spec (zlen l) 0); try lia. simpl.
  unfold access at 1, mbind at 1, M_bind at 1. rewrite fetch_spec by (zlen_lia || lia).
  rewrite zdrop_0, ztake_zlen_app by lia. cbn [option_bind mbind] in *. by rewrite E.
Qed.

(** What [InfKeySet] leaves in the field of the key. *)
Definition key_field (k old : list Z) : list Z :=
  if zlen k <? 64 then k ++ 0 :: zdrop (zlen k + 1) old else k ++ zdrop (zlen k) old.

Lemma key_field_prefix k old : ztake (zlen k) (key_field k old) = k.
Proof. unfold key_field. case_match; apply ztake_zlen_app. Qed.

Lemma InfKeySet_stored s idx k rest :
  zlen (PSK (WiFiCfg (SysParam s))) = 64 -> 0 <= idx <= 3 -> zlen k <= 64 ->
  InfKeySet idx (Some (k ++ rest)) (zlen k) s = Done tt (set_SysParam (set_WiFiCfg
    (set_PSK (key_field k (PSK (WiFiCfg (SysParam s))))
      (set_KeyLength (zlen k) (set_KeyIndex idx (WiFiCfg (SysParam s)))))
    (SysParam s)) s).
Proof.
  intros Hp Hi Hk. unfold InfKeySet, key_field.
  destruct (Z.ltb_spec 3 idx), (Z.ltb_spec 64 (zlen k)); try lia. simpl.
  pose proof (zlen_nonneg k).
  unfold update_wifi, update_param, access, modify, mbind, M_bind. simpl.
  rewrite fetch_spec by (zlen_lia || lia). rewrite zdrop_0, ztake_zlen_app by lia. simpl.
  rewrite blit_spec by lia. simpl.
  destruct (Z.ltb_spec (zlen k) 64) as [Hlt|Hge]; [|done].
  rewrite st_spec by (autorewrite with zlen; lia). rewrite ztake_zlen_app.
  rewrite zdrop_app_r, zdrop_zdrop by lia.
  by replace (0 + zlen k + (zlen k + 1 - zlen k)) with (zlen k + 1) by lia.
Qed.

(** A network name of 1 to 32 characters and a key of at most 64 bytes that
    are set are the ones the parameters hold: the name as a C string, the key
    as the first [KeyLength] bytes; a name of any other length is refused with
    -1 and empties the stored one. *)
Theorem credentials_stored s l k idx rest
  (Hs : sys_ok s) (Hl : Forall (fun c => c <> 0) l) (Hn : 1 <= zlen l <= 32)
  (Hk : zlen k <= 64) (Hi : 0 <= idx <= 3) :
  (exists s', (InfSsidSet (Some (l ++ rest)) (zlen l);; InfKeySet idx (Some (k ++ rest)) (zlen k)) s = Done tt s' /\
     strlen (Ssid (WiFiCfg (SysParam s'))) 0 = Some (zlen l) /\
     ztake (zlen l) (Ssid (WiFiCfg (SysParam s'))) = l /\
     KeyLength (WiFiCfg (SysParam s')) = zlen k /\ KeyIndex (WiFiCfg (SysParam s')) = idx /\
     ztake (zlen k) (PSK (WiFiCfg (SysParam s'))) = k) /\
  (forall n o, is_u8 n -> n = 0 \/ 32 < n -> exists s',
     InfSsidSet o n s = Err (-1) s' /\ strlen (Ssid (WiFiCfg (SysParam s'))) 0 = Some 0).
Proof.
  destruct (ok_Ssid _ (wifi_of s Hs)) as [[Hf _] _]. destruct (ok_psk _ (wifi_of s Hs)) as [Hp _].
  split.
  - rewrite (bind_done _ _ _ _ _ (InfSsidSet_stored s l rest Hf Hl Hn)).
    eexists. split; [by apply InfKeySet_stored|]. simpl.
    repeat split; try apply ztake_zlen_app; [by apply (strlen_app [])|apply key_field_prefix].
  - intros n o Hn8 Hbad.
    destruct (Ssid (WiFiCfg (SysParam s))) as [|x f] eqn:Ef; [by rewrite zlen_nil in Hf|].
    exists (set_SysParam (set_WiFiCfg (set_Ssid (0 :: f) (WiFiCfg (SysParam s))) (SysParam s)) s).
    split; [|done]. unfold InfSsidSet.
    assert (Hc : (32 <? n) || (n =? 0) = true) by (apply orb_true_iff; lia).
    assert (Est : st (Ssid (WiFiCfg (SysParam s))) 0 0 = Some (0 :: f)).
    { by rewrite Ef, st_spec by lia. }
    destruct o; rewrite ?Hc; unfold access, mbind, M_bind; by rewrite Est.
Qed.

(** [InfDnsSrvSet] copies the name without a terminator: after a shorter
    name is set, the responder answers for that name followed by the tail of
    the name before it. *)
Theorem InfDnsSrvSet_keeps_tail s l n old rest
  (Hs : sys_ok s) (Hn : 0 < zlen l <= zlen old) (Ho : zlen old <= 32)
  (Hl : Forall (fun c => c <> 0) l) (Hz : Forall (fun c => c <> 0) old)
  (Hname : DnsName (SysParam s) = old ++ 0 :: rest) :
  exists s', InfDnsSrvSet 1 (Some (l ++ n)) (zlen l) s = Done tt s' /\
    DnsName (SysParam s') = (l ++ zdrop (zlen l) old) ++ 0 :: rest /\
    strlen (DnsName (SysParam s')) 0 = Some (zlen old) /\ bDnsServer (SysParam s') = 1.
Proof.
  unfold InfDnsSrvSet. simpl. destruct (Z.ltb_spec 32 (zlen l)); [lia|].
  unfold update_param, access, modify, mbind, M_bind. simpl.
  rewrite fetch_spec by (zlen_lia || lia). rewrite zdrop_0, ztake_zlen_app by lia. simpl.
  rewrite Hname, blit_spec by (zlen_lia || lia). simpl.
  eexists. split; [reflexivity|]. simpl. rewrite zdrop_app_l by lia. rewrite app_assoc.
  split; [done|]. split; [|done].
  etransitivity; [apply (strlen_app [])|f_equal; autorewrite with zlen; lia].
  apply Forall_app. split; [done|]. by apply Forall_zdrop.
Qed.

(** The 64-bit sum of [InfSysTimeGet] is the tick count times 125/1024,
    rounded down once, for every count below 2^57: a tick of 1/8.192 ms, where
    bsp.h documents 1/32.768 ms (which would be 125/4096). *)
Theorem InfSysTimeGet_exact t (Ht : 0 <= t < 144115188075855872) :
  InfSysTimeGet t = t * 125 / 1024.
Proof.
  unfold InfSysTimeGet, u64.
  rewrite (Z.mod_small (t / 1024 * 125)) by (Z.div_mod_to_equations; lia).
  rewrite (Z.mod_small (t mod 1024 * 125)) by (Z.div_mod_to_equations; lia).
  rewrite Z.mod_small by (Z.div_mod_to_equations; lia). Z.div_mod_to_equations. lia.
Qed.

(** ** Witnesses *)

Definition boot : Sys := mkSys zero_param [0; 11; 22; 170; 187; 204] None [].
Definition app_calls : list call :=
  [CNetMode 0; CSsid (Some (lit "home" ++ [0])) 4; CSsid None 4; CChannel 14;
   CKey 0 (Some (lit "secret77" ++ [0])) 8; CWiFiStart; CScan (Some (536870912, 16)) (-70) 0;
   CDnsSrv 1 (Some (lit "ap" ++ [0])) 2; CSniffer 134217728 [1; 2; 3; 4; 5; 6] 11].

Lemma calls_well_formed_witness : exists s', run (CLoadDefault :: app_calls) boot = Some s' /\ sys_ok s'.
Proof.
  apply calls_well_formed.
  - by_decide.
  - apply Forall_nil_2.
  - repeat (apply Forall_cons_2; [first [exact I | by_decide |
      unfold args_ok, object; repeat (split || by_decide)]|]). apply Forall_nil_2.
Defined.

Lemma sys_boot_ok : sys_ok (set_SysParam (default_param [22; 170; 187; 204]) boot).
Proof.
  constructor; [apply default_param_ok|..]; by_decide || apply Forall_nil_2.
Qed.

Lemma credentials_stored_witness : exists s',
  (InfSsidSet (Some (lit "home" ++ [0])) 4;; InfKeySet 0 (Some (lit "secret77" ++ [0])) 8)
    (set_SysParam (default_param [22; 170; 187; 204]) boot) = Done tt s' /\
  strlen (Ssid (WiFiCfg (SysParam s'))) 0 = Some 4 /\
  ztake 4 (Ssid (WiFiCfg (SysParam s'))) = lit "home" /\
  KeyLength (WiFiCfg (SysParam s')) = 8 /\ KeyIndex (WiFiCfg (SysParam s')) = 0 /\
  ztake 8 (PSK (WiFiCfg (SysParam s'))) = lit "secret77".
Proof.
  refine (proj1 (credentials_stored _ (lit "home") (lit "secret77") 0 [0] sys_boot_ok _ _ _ _)); by_decide.
Defined.

Lemma InfDnsSrvSet_keeps_tail_witness : exists s',
  InfDnsSrvSet 1 (Some (lit "ap" ++ [0])) 2 (set_SysParam (default_param [22; 170; 187; 204]) boot) =
    Done tt s' /\
  DnsName (SysParam s') = (lit "ap" ++ zdrop 2 (lit "local.nufront")) ++ 0 :: replicate 19 0 /\
  strlen (DnsName (SysParam s')) 0 = Some 13 /\ bDnsServer (SysParam s') = 1.
Proof.
  apply (InfDnsSrvSet_keeps_tail _ (lit "ap") [0] (lit "local.nufront") (replicate 19 0) sys_boot_ok);
    by_decide.
Defined.

Lemma InfSysTimeGet_exact_witness : InfSysTimeGet 8192000 = 8192000 * 125 / 1024.
Proof. apply InfSysTimeGet_exact. by_decide. Defined.
