(* ===== verification/Agent.v ===== *)
(** Joining a network and provisioning: App/NuAgent/Wifi/wifi_conn.c,
    User/lan.c and the button handling of System/agent_core.c.

    The agent sets the parameters of file [Param], keeps its configuration in
    the flash of file [Flash], and waits for events of the WiFi library.  What
    the environment does is part of the state: [world] lists what happens
    during each delay, [gpio] the levels the button is read at, [net] the
    results of the socket calls; [sent] collects the datagrams.  A step that
    does not return to its caller ends in [Err]: [WAITING] when the world ends
    inside a wait loop, [RESET] after a chip reset. *)
From S2P Require Import Prelude Flash Param.
From Stdlib Require Import String.

(** * Data *)

(** param.h *)
Inductive SYS_EVT_ID :=
  | SYS_EVT_LINK_DOWN | SYS_EVT_LINK_UP | SYS_EVT_JOIN_FAIL
  | SYS_EVT_DHCP_FAIL | SYS_EVT_SCAN_DONE | SYS_EVT_DIRECT_CFG_DONE.

(** common.h *)
Definition SYS_STATUS_WIFI_STOP : Z := 0.
Definition SYS_STATUS_WIFI_SOFTAP : Z := 1.
Definition SYS_STATUS_WIFI_DIRECTCONFING : Z := 2.
Definition SYS_STATUS_WIFI_STA_CONNECTED : Z := 3.
Definition SYS_STATUS_ONBOARDING : Z := 1.
Definition SYS_STATUS_ONBOARDING_SUCCESS : Z := 2.
Definition SYS_STATUS_ONBOARDING_FAILED : Z := 3.

(** lan.h *)
Definition LAN_NETDATA_CMD_SOFTAP_CONFIG : Z := 17.
Definition LAN_NETDATA_CMD_DEV_DISCOVER : Z := 49.
Definition UDP_SCAN_RESPONSE_TIME : Z := 5.

(** What happens during one delay: nothing, an event, or the direct
    configuration filling in the parameters before its event. *)
Inductive happening :=
  | Quiet
  | Event (e : SYS_EVT_ID)
  | Filled (ssid psk : list Z) (keylen : Z).

Section Agent.
Context {chip : Type} {SPI : Spi chip} {HP : Heap} (polls : nat).

Record Agent := mkAgent {
  sys : Sys;
  flash : chip;
  config : Agent_config_t;
  DirectCfgFlag : Z;
  wifi_sta_connect_ap_flag : Z;
  status : Z;
  onboarding : Z;
  system_reset_flag : Z;
  world : list happening;
  gpio : list Z;
  net : list Z;
  sent : list (list Z)
}.

Definition set_sys (v : Sys) (a : Agent) : Agent :=
  mkAgent v (flash a) (config a) (DirectCfgFlag a) (wifi_sta_connect_ap_flag a) (status a)
    (onboarding a) (system_reset_flag a) (world a) (gpio a) (net a) (sent a).
Definition set_flash (v : chip) (a : Agent) : Agent :=
  mkAgent (sys a) v (config a) (DirectCfgFlag a) (wifi_sta_connect_ap_flag a) (status a)
    (onboarding a) (system_reset_flag a) (world a) (gpio a) (net a) (sent a).
Definition set_config (v : Agent_config_t) (a : Agent) : Agent :=
  mkAgent (sys a) (flash a) v (DirectCfgFlag a) (wifi_sta_connect_ap_flag a) (status a)
    (onboarding a) (system_reset_flag a) (world a) (gpio a) (net a) (sent a).
Definition set_DirectCfgFlag (v : Z) (a : Agent) : Agent :=
  mkAgent (sys a) (flash a) (config a) v (wifi_sta_connect_ap_flag a) (status a)
    (onboarding a) (system_reset_flag a) (world a) (gpio a) (net a) (sent a).
Definition set_wifi_sta_connect_ap_flag (v : Z) (a : Agent) : Agent :=
  mkAgent (sys a) (flash a) (config a) (DirectCfgFlag a) v (status a) (onboarding a)
    (system_reset_flag a) (world a) (gpio a) (net a) (sent a).
Definition set_status (v : Z) (a : Agent) : Agent :=
  mkAgent (sys a) (flash a) (config a) (DirectCfgFlag a) (wifi_sta_connect_ap_flag a) v
    (onboarding a) (system_reset_flag a) (world a) (gpio a) (net a) (sent a).
Definition set_onboarding (v : Z) (a : Agent) : Agent :=
  mkAgent (sys a) (flash a) (config a) (DirectCfgFlag a) (wifi_sta_connect_ap_flag a)
    (status a) v (system_reset_flag a) (world a) (gpio a) (net a) (sent a).
Definition set_system_reset_flag (v : Z) (a : Agent) : Agent :=
  mkAgent (sys a) (flash a) (config a) (DirectCfgFlag a) (wifi_sta_connect_ap_flag a)
    (status a) (onboarding a) v (world a) (gpio a) (net a) (sent a).
Definition set_world (v : list happening) (a : Agent) : Agent :=
  mkAgent (sys a) (flash a) (config a) (DirectCfgFlag a) (wifi_sta_connect_ap_flag a)
    (status a) (onboarding a) (system_reset_flag a) v (gpio a) (net a) (sent a).
Definition set_gpio (v : list Z) (a : Agent) : Agent :=
  mkAgent (sys a) (flash a) (config a) (DirectCfgFlag a) (wifi_sta_connect_ap_flag a)
    (status a) (onboarding a) (system_reset_flag a) (world a) v (net a) (sent a).
Definition set_net (v : list Z) (a : Agent) : Agent :=
  mkAgent (sys a) (flash a) (config a) (DirectCfgFlag a) (wifi_sta_connect_ap_flag a)
    (status a) (onboarding a) (system_reset_flag a) (world a) (gpio a) v (sent a).
Definition set_sent (v : list (list Z)) (a : Agent) : Agent :=
  mkAgent (sys a) (flash a) (config a) (DirectCfgFlag a) (wifi_sta_connect_ap_flag a)
    (status a) (onboarding a) (system_reset_flag a) (world a) (gpio a) (net a) v.

Definition WAITING : Z := 1.
Definition RESET : Z := 2.
Definition BSP_ChipReset {A} : M Agent A := fail RESET.

(** A call into [Param]; its status is not looked at. *)
Definition inf (m : M Sys unit) : M Agent unit := fun a =>
  match m (sys a) with
  | Done _ s | Err _ s => Done tt (set_sys s a)
  | Crash => Crash
  end.

(** A call into [Flash]. *)
Definition on_flash {A} (m : M chip A) : M Agent A := fun a =>
  match m (flash a) with
  | Done x c => Done x (set_flash c a)
  | Err e c => Err e (set_flash c a)
  | Crash => Crash
  end.

(** [BSP_GPIOGetValue] of the button. *)
Definition BSP_GPIOGetValue : M Agent Z := fun a =>
  match gpio a with
  | v :: g => Done v (set_gpio g a)
  | [] => Err WAITING a
  end.

(** * wifi_conn.c *)

Definition AppEvtCallBack (event : SYS_EVT_ID) : M Agent unit :=
  match event with
  | SYS_EVT_LINK_UP => modify (set_DirectCfgFlag 1);; modify (set_wifi_sta_connect_ap_flag 1)
  | SYS_EVT_JOIN_FAIL =>
      modify (set_wifi_sta_connect_ap_flag 0);;
      st ← gets status;
      if st =? SYS_STATUS_WIFI_SOFTAP then BSP_ChipReset else mret tt
  | SYS_EVT_DIRECT_CFG_DONE => modify (set_DirectCfgFlag 1)
  | SYS_EVT_LINK_DOWN | SYS_EVT_DHCP_FAIL | SYS_EVT_SCAN_DONE => mret tt
  end.

(** One delay: the callback runs in another task meanwhile. *)
Definition OSTimeDly : M Agent unit := fun a =>
  match world a with
  | [] => Err WAITING a
  | Quiet :: w => Done tt (set_world w a)
  | Event e :: w => AppEvtCallBack e (set_world w a)
  | Filled ssid psk keylen :: w =>
      (inf (update_wifi (set_Ssid ssid);; update_wifi (set_PSK psk);; update_wifi (set_KeyLength keylen));;
       AppEvtCallBack SYS_EVT_DIRECT_CFG_DONE) (set_world w a)
  end.

Definition DRV_WiFi_SoftAPModeStart : M Agent unit :=
  inf InfWiFiStop;;
  OSTimeDly;;
  inf InfLoadDefaultParam;;
  inf (InfNetModeSet PARAM_NET_MODE_SOFTAP);;
  inf InfWiFiStart.

(** [while (flag) OSTimeDly()]: every turn uses up one happening. *)
Fixpoint wait_while (fuel : nat) (cond : Agent -> bool) : M Agent unit :=
  match fuel with
  | O => fail WAITING
  | S fuel =>
      c ← gets cond;
      if (c : bool) then OSTimeDly;; wait_while fuel cond else mret tt
  end.

Definition wait_loop (cond : Agent -> bool) : M Agent unit := fun a =>
  wait_while (S (Datatypes.length (world a))) cond a.

(** [StaSsid] and [StaPass] are the objects pointed to. *)
Definition DRV_WiFi_StaModeConnStart (StaSsid StaPass : option (list Z)) (flag : Z) : M Agent Z :=
  inf InfWiFiStop;;
  OSTimeDly;;
  (if flag =? 1 then
     inf InfLoadDefaultParam;;
     let IpParam := mkIp (replicate 4 0) (replicate 4 0) (replicate 4 0) (replicate 4 0) 1 0 (replicate 2 0) in
     inf (InfIpSet (Some IpParam));;
     inf (InfConTryTimesSet 5);;
     inf (InfNetModeSet PARAM_NET_MODE_STA_BSS);;
     inf (InfEncModeSet PARAM_ENC_MODE_AUTO);;
     n ← access (fun _ => ssid ← StaSsid; strlen ssid 0);
     inf (InfSsidSet StaSsid (u8 n));;
     k ← access (fun _ => pass ← StaPass; strlen pass 0);
     inf (InfKeySet 0 StaPass (u8 k))
   else
     inf (InfNetModeSet PARAM_NET_MODE_STA_BSS);;
     inf (InfConTryTimesSet 5));;
  inf InfWiFiStart;;
  OSTimeDly;;
  modify (set_wifi_sta_connect_ap_flag 2);;
  wait_loop (fun a => wifi_sta_connect_ap_flag a =? 2);;
  f ← gets wifi_sta_connect_ap_flag;
  mret (if f =? 1 then 0 else -1).

(** The result of a socket call. *)
Definition sock_result : M Agent Z := fun a =>
  match net a with
  | v :: n => Done v (set_net n a)
  | [] => Err WAITING a
  end.

Definition bcast_buf : list Z :=
  [24; 0; 0; 0; 0; 0; 0; 0; 6; 0; 1] ++ replicate 13 0.

(** The sending loop of [RespondConnBroadcast]: [false] when it goes [AGAIN]. *)
Fixpoint bcast_loop (fuel : nat) (count trycount : Z) : M Agent bool :=
  match fuel with
  | O => crash
  | S fuel =>
      ret ← sock_result;
      if ret <? 0 then
        OSTimeDly;;
        if 5 <? trycount + 1 then mret false else bcast_loop fuel count (trycount + 1)
      else
        modify (fun a => set_sent (bcast_buf :: sent a) a);;
        if count <? 20 then OSTimeDly;; bcast_loop fuel (count + 1) trycount else mret true
  end.

Fixpoint bcast_again (fuel : nat) (conncount : Z) : M Agent unit :=
  match fuel with
  | O => crash
  | S fuel =>
      sock ← sock_result;
      if sock =? -1 then mret tt
      else
        opt ← sock_result;
        if opt =? -1 then mret tt
        else
          ok ← bcast_loop 28 0 0;
          if (ok : bool) then mret tt
          else if 3 <? conncount + 1 then mret tt else bcast_again fuel (conncount + 1)
  end.

Definition RespondConnBroadcast : M Agent unit := bcast_again 4 0.

(** [Agent_SaveSSIDAndKey] on the global record. *)
Definition save_credentials (ssid key : list Z) : M Agent unit :=
  cfg ← gets config;
  cfg ← on_flash (Agent_SaveSSIDAndKey polls ssid key cfg);
  modify (set_config cfg).

(** [memset(l, 0, strlen(l))] *)
Definition clear_str (l : list Z) : option (list Z) :=
  n ← strlen l 0;
  blit l 0 (replicate (Z.to_nat n) 0).

(** The network name, and the key if there is one, printed with [%s]. *)
Definition log_credentials : M Agent unit :=
  _ ← access (fun a => strlen (Ssid (WiFiCfg (SysParam (sys a)))) 0);
  keylen ← gets (fun a => KeyLength (WiFiCfg (SysParam (sys a))));
  if keylen =? 0 then mret tt
  else _ ← access (fun a => strlen (PSK (WiFiCfg (SysParam (sys a)))) 0); mret tt.

Definition StartDirectConfigConn : M Agent Z :=
  ssid ← access (fun a => clear_str (Ssid (WiFiCfg (SysParam (sys a)))));
  inf (update_wifi (set_Ssid ssid));;
  psk ← access (fun a => clear_str (PSK (WiFiCfg (SysParam (sys a)))));
  inf (update_wifi (set_PSK psk));;
  modify (set_DirectCfgFlag 0);;
  inf (InfDirectCfgStart 0 0 0);;
  wait_loop (fun a => negb (DirectCfgFlag a =? 1));;
  modify (set_DirectCfgFlag 0);;
  inf InfWiFiStop;;
  log_credentials;;
  ret ← DRV_WiFi_StaModeConnStart None None 0;
  if negb (ret =? 0) then mret (-1)
  else
    w ← gets (fun a => WiFiCfg (SysParam (sys a)));
    save_credentials (Ssid w) (PSK w);;
    RespondConnBroadcast;;
    mret 0.

Definition wifissid : list Z := lit "NUFRONT-test03".
Definition wifikey : list Z := lit "nufront.iopjklbnm".

(** A string literal copied to the start of a field, then its terminator. *)
Definition set_string (field s : list Z) : option (list Z) :=
  f ← blit field 0 s; st f (zlen s) 0.

(** agent_core.c *)
Definition Agent_reset_init : M Agent unit := modify (set_system_reset_flag 305419896).

(** From "If directconfig function is not triggered" on. *)
Definition connect_saved : M Agent unit :=
  Agent_reset_init;;
  cfg ← gets config;
  cfg ← on_flash (nl6621_GetConfigData cfg);
  ssid ← access (fun _ => set_string (wifi_ssid cfg) wifissid);
  key ← access (fun _ => set_string (wifi_key cfg) wifikey);
  modify (set_config (mkCfg (magicNumber cfg) (Z.lor (cfg_flag cfg) XPG_CFG_FLAG_CONNECTED)
    (wifipasscode cfg) ssid key));;
  cfg ← gets config;
  if Z.land (cfg_flag cfg) XPG_CFG_FLAG_CONNECTED =? XPG_CFG_FLAG_CONNECTED then
    modify (set_status SYS_STATUS_WIFI_DIRECTCONFING);;
    ret ← DRV_WiFi_StaModeConnStart (Some (wifi_ssid cfg)) (Some (wifi_key cfg)) 1;
    if negb (ret =? 0) then
      DRV_WiFi_SoftAPModeStart;; modify (set_status SYS_STATUS_WIFI_SOFTAP)
    else modify (set_status SYS_STATUS_WIFI_STA_CONNECTED)
  else DRV_WiFi_SoftAPModeStart;; modify (set_status SYS_STATUS_WIFI_SOFTAP).

(** The first half: the button is held at start. *)
Definition Agent_network_init : M Agent unit :=
  v ← BSP_GPIOGetValue;
  if v =? 0 then
    OSTimeDly;;
    v ← BSP_GPIOGetValue;
    if v =? 0 then
      modify (set_status SYS_STATUS_WIFI_DIRECTCONFING);;
      ret ← StartDirectConfigConn;
      if ret =? 0 then
        modify (set_status SYS_STATUS_WIFI_STA_CONNECTED);;
        Agent_reset_init
      else connect_saved
    else connect_saved
  else connect_saved.

(** * agent_core.c: the reset button *)

Definition USER_RESET_BUTTON_PRESS : Z := 0.
Definition USER_RESET_PRESS_TIMEOUT : Z := 7.

(** The number of samples read low in a row, at most [n]. *)
Fixpoint count_pressed (n : nat) (i : Z) : M Agent Z :=
  match n with
  | O => mret i
  | S n =>
      OSTimeDly;;
      v ← BSP_GPIOGetValue;
      if v =? USER_RESET_BUTTON_PRESS then count_pressed n (i + 1) else mret i
  end.

(** One turn of [SysResetThread]. *)
Definition SysReset_turn : M Agent unit :=
  f ← gets system_reset_flag;
  (if f =? 305419896 then
     v ← BSP_GPIOGetValue;
     if v =? USER_RESET_BUTTON_PRESS then
       i ← count_pressed (Z.to_nat USER_RESET_PRESS_TIMEOUT) 0;
       if i =? USER_RESET_PRESS_TIMEOUT then
         cfg ← gets config;
         on_flash (SysReset_config polls cfg);;
         OSTimeDly;;
         BSP_ChipReset
       else mret tt
     else mret tt
   else mret tt);;
  OSTimeDly.

(** * lan.c *)

(** [data] is the offset of the pointer in the receive buffer [buf]; plain
    [char] is unsigned for this compiler. *)
Definition lan_softap_config (buf : list Z) (data : Z) : M Agent unit :=
  ssid_len ← access (fun _ => ld buf data);
  if (32 <? ssid_len) || (ssid_len <=? 0) then mret tt
  else
    ssid ← access (fun _ => src ← fetch buf (data + 1) ssid_len; blit (replicate 33 0) 0 src);
    passwdlen ← access (fun _ => ld buf (data + (ssid_len + 1)));
    if 64 <? passwdlen then mret tt
    else
      passwd ← access (fun _ =>
        src ← fetch buf (data + (1 + ssid_len + 1)) passwdlen; blit (replicate 65 0) 0 src);
      modify (set_onboarding SYS_STATUS_ONBOARDING);;
      ret ← DRV_WiFi_StaModeConnStart (Some ssid) (Some passwd) 1;
      if ret =? 0 then
        modify (set_onboarding SYS_STATUS_ONBOARDING_SUCCESS);;
        save_credentials ssid passwd;;
        RespondConnBroadcast;;
        BSP_ChipReset
      else mret tt.

Fixpoint discover_loop (fuel : nat) (count : Z) : M Agent unit :=
  match fuel with
  | O => crash
  | S fuel =>
      modify (fun a => set_sent (lit "ok" :: sent a) a);;
      if count <? UDP_SCAN_RESPONSE_TIME then OSTimeDly;; discover_loop fuel (count + 1) else mret tt
  end.

Definition lan_device_discover_response : M Agent unit := discover_loop 6 0.

(** The header is four little-endian shorts; [recv_count] is not used. *)
Definition Socket_DispatchUDPData (recv_data : list Z) (recv_count : Z) : M Agent unit :=
  head ← access (fun _ => fetch recv_data 0 8);
  let cmd := of_le16 (ztake 2 (zdrop 2 head)) in
  if cmd =? LAN_NETDATA_CMD_SOFTAP_CONFIG then lan_softap_config recv_data 8
  else if cmd =? LAN_NETDATA_CMD_DEV_DISCOVER then lan_device_discover_response
  else mret tt.
End Agent.

Arguments Agent : clear implicits.

(** * Strings in arrays *)

(** A C string in an object. *)
Definition is_string (l : list Z) : Prop := Bytes l /\ terminated l.

Lemma strlen_list_terminated l : terminated l -> exists n, strlen_list l = Some n /\ 0 <= n < zlen l.
Proof.
  induction 1 as [x l ->|x l H (n & E & Hn)]; simpl; rewrite zlen_cons.
  - exists 0. split; [done|]. pose proof (zlen_nonneg l). lia.
  - rewrite E. destruct (x =? 0); [exists 0|exists (Z.succ n)]; (split; [done|lia]).
Qed.

Lemma strlen_string l : is_string l -> exists n, strlen l 0 = Some n /\ 0 <= n < zlen l.
Proof. intros [_ H]. unfold strlen. rewrite zdrop_0 by done. by apply strlen_list_terminated. Qed.

Lemma string_object l n : is_string l -> strlen l 0 = Some n -> object (u8 n) (Some l).
Proof.
  intros Hl E. destruct (strlen_string l Hl) as (m & E' & Hm'). simplify_eq.
  split; [apply Hl|]. unfold u8. Z.div_mod_to_equations. lia.
Qed.

(** An array that starts with a text and is zero after it. *)
Definition padded (src : list Z) (n : Z) : list Z := src ++ replicate (Z.to_nat (n - zlen src)) 0.

Lemma blit_zeros src n : zlen src <= n -> blit (replicate (Z.to_nat n) 0) 0 src = Some (padded src n).
Proof.
  intros H. pose proof (zlen_nonneg src).
  assert (Hl : zlen (replicate (Z.to_nat n) 0) = n) by (unfold zlen; rewrite length_replicate; lia).
  rewrite blit_spec by lia. simpl. unfold padded, zdrop. rewrite drop_replicate.
  do 3 f_equal. lia.
Qed.

Lemma padded_string src n : Bytes src -> zlen src < n -> is_string (padded src n) /\ zlen (padded src n) = n.
Proof.
  intros Hb H. pose proof (zlen_nonneg src).
  destruct (padded_field n src (Z.to_nat (n - zlen src)) Hb) as [[H1 H2] H3]; [lia|lia|].
  by split.
Qed.

Lemma set_string_ok f s : Bytes f -> Bytes s -> zlen s < zlen f ->
  exists f', set_string f s = Some f' /\ is_string f' /\ zlen f' = zlen f.
Proof.
  intros Hf Hs Hl. pose proof (zlen_nonneg s). unfold set_string.
  destruct (blit f 0 s) as [f1|] eqn:E1; [|by rewrite blit_spec in E1 by lia]. simpl.
  pose proof (blit_length _ _ _ _ E1) as Hl1.
  destruct (st_Some f1 (zlen s) 0) as [f2 E2]; [lia|]. exists f2. split; [exact E2|].
  pose proof (st_length _ _ _ _ E2). split; [split|lia]; [|by eapply terminated_st].
  destruct (field_st (zlen f1) f1 (zlen s) 0 f2 E2) as [_ ?]; [|by_decide|done].
  split; [done|]. by eapply Forall_blit.
Qed.

Lemma clear_str_ok l n : field n l -> terminated l ->
  exists l', clear_str l = Some l' /\ field n l' /\ terminated l'.
Proof.
  intros Hf Ht. pose proof Hf as [Hl Hb].
  destruct (strlen_string l (conj Hb Ht)) as (k & E & Hk). unfold clear_str. rewrite E.
  cbn [mbind option_bind].
  assert (Hz : zlen (replicate (Z.to_nat k) 0) = k) by (unfold zlen; rewrite length_replicate; lia).
  destruct (blit l 0 (replicate (Z.to_nat k) 0)) as [l'|] eqn:El; [|by rewrite blit_spec in El by lia].
  exists l'. split; [done|]. split; [eapply field_blit; [exact El|done|apply Forall_replicate; by_decide]|].
  rewrite blit_spec in El by lia. injection El as <-. apply Exists_app. right.
  rewrite Hz. clear Hz. unfold strlen in E. rewrite zdrop_0 in E by lia. rewrite Z.add_0_l.
  clear Hf Hl Hb Ht. revert k E Hk. induction l as [|x l IH]; intros k E Hk; [done|].
  simpl in E. destruct (Z.eqb_spec x 0) as [->|].
  - injection E as <-. rewrite zdrop_0 by lia. by left.
  - destruct (strlen_list l) as [m|] eqn:Em; [|done]. injection E as <-. rewrite zlen_cons in Hk.
    assert (0 <= m) by (clear -Em; revert m Em; induction l as [|y l IH]; intros m Em; [done|];
      simpl in Em; destruct (y =? 0); [by simplify_eq|]; destruct (strlen_list l) as [j|]; [|done];
      simplify_eq/=; specialize (IH j eq_refl); lia).
    replace (zdrop (Z.succ m) (x :: l)) with (zdrop m l); [by apply IH; [|lia]|].
    unfold zdrop. replace (Z.to_nat (Z.succ m)) with (S (Z.to_nat m)) by lia. done.
Qed.

(** * The invariant *)

Section Safety.
Context {chip : Type} {SPI : Spi chip} {NF : NorFlash chip} {HP : Heap} (polls : nat).
Context (Hpolls : (busy_max < polls)%nat) (Hm : is_Some (malloc FLASH_SECTOR_SIZE)).
Context (Hsz : AGENT_CONFIG_DATA_ADDR + sizeof_Agent_config_t <= size).

(** The library fills in well-formed credentials; a key leaves room for its
    terminator, so it has at most 63 characters. *)
Definition happening_ok (h : happening) : Prop :=
  match h with
  | Filled ssid psk keylen =>
      (field 33 ssid /\ terminated ssid) /\ field 64 psk /\ 0 <= keylen <= 64 /\
      (keylen <> 0 -> terminated psk)
  | _ => True
  end.

Record agent_ok (a : Agent chip) : Prop := {
  ok_sys : sys_ok (sys a);
  ok_config : cfg_ok (config a);
  ok_idle : busy (flash a) = 0%nat;
  ok_world : Forall happening_ok (world a)
}.

(** [run_ok m a Q]: from [a], [m] leaves no object; when it returns, [Q]
    holds, and when it does not return the state is well formed. *)
Definition awp {A} (m : M (Agent chip) A) (a : Agent chip) (Q : A -> Agent chip -> Prop) : Prop :=
  match m a with
  | Done x a' => Q x a'
  | Err _ a' => agent_ok a'
  | Crash => False
  end.

Definition safe {A} (m : M (Agent chip) A) : Prop :=
  forall a, agent_ok a -> awp m a (fun _ a' => agent_ok a').

Lemma awp_bind {A B} (m : M (Agent chip) A) (f : A -> M (Agent chip) B) a Q :
  awp m a (fun x a' => awp (f x) a' Q) -> awp (mbind f m) a Q.
Proof. unfold awp, mbind, M_bind. by destruct (m a). Qed.

Lemma awp_mono {A} (m : M (Agent chip) A) a (P Q : A -> Agent chip -> Prop) :
  awp m a P -> (forall x a', P x a' -> Q x a') -> awp m a Q.
Proof. unfold awp. destruct (m a); auto. Qed.

Lemma safe_bind {A B} (m : M (Agent chip) A) (f : A -> M (Agent chip) B) :
  safe m -> (forall x, safe (f x)) -> safe (mbind f m).
Proof.
  intros H1 H2 a Ha. apply awp_bind. eapply awp_mono; [by apply H1|]. intros x a' Ha'. by apply H2.
Qed.

Lemma safe_ret {A} (x : A) : safe (mret x).
Proof. intros a Ha. exact Ha. Qed.

Lemma safe_fail {A} e : safe (fail e : M (Agent chip) A).
Proof. intros a Ha. exact Ha. Qed.

Lemma safe_gets {A} (f : Agent chip -> A) : safe (gets f).
Proof. intros a Ha. exact Ha. Qed.

Lemma safe_modify (f : Agent chip -> Agent chip) :
  (forall a, agent_ok a -> agent_ok (f a)) -> safe (modify f).
Proof. intros Hf a Ha. exact (Hf a Ha). Qed.

Lemma safe_access {A} (f : Agent chip -> option A) :
  (forall a, agent_ok a -> is_Some (f a)) -> safe (access f).
Proof. intros Hf a Ha. unfold awp, access. by destruct (Hf a Ha) as [x ->]. Qed.

Lemma safe_inf m : (forall s, sys_ok s -> keeps m s) -> safe (inf m).
Proof.
  intros Hk a []. pose proof (Hk (sys a) ok_sys0) as H. unfold awp, inf, keeps, wp in *.
  destruct (m (sys a)); [|destruct H|done]; by constructor.
Qed.

Lemma safe_call c : args_ok c -> safe (inf (exec c)).
Proof. intros. apply safe_inf. intros s Hs. by apply exec_ok. Qed.

Lemma safe_if {A} (b : bool) (m1 m2 : M (Agent chip) A) : safe m1 -> safe m2 -> safe (if b then m1 else m2).
Proof. by destruct b. Qed.

Ltac field_update := let a := fresh "a" in intros a [? ? ? ?]; by constructor.

Lemma safe_gpio : safe BSP_GPIOGetValue.
Proof. intros a []. unfold awp, BSP_GPIOGetValue. destruct (gpio a); by constructor. Qed.

Lemma safe_sock : safe sock_result.
Proof. intros a []. unfold awp, sock_result. destruct (net a); by constructor. Qed.

Lemma safe_callback e : safe (AppEvtCallBack e).
Proof.
  destruct e; try apply safe_ret.
  - apply safe_bind; [apply safe_modify; field_update|intros _; apply safe_modify; field_update].
  - apply safe_bind; [apply safe_modify; field_update|intros _].
    apply safe_bind; [apply safe_gets|]. intros x. apply safe_if; [apply safe_fail|apply safe_ret].
  - apply safe_modify. field_update.
Qed.

Lemma fill_ok ssid psk keylen s : happening_ok (Filled ssid psk keylen) -> sys_ok s ->
  keeps (update_wifi (set_Ssid ssid);; update_wifi (set_PSK psk);; update_wifi (set_KeyLength keylen)) s.
Proof.
  intros (H1 & H2 & H3 & _) Hs. apply wp_bind.
  eapply wp_mono; [apply update_wifi_ok; [exact Hs|by record_ok]|intros [] s1 Hs1].
  apply wp_bind. eapply wp_mono; [apply update_wifi_ok; [exact Hs1|by record_ok]|intros [] s2 Hs2].
  apply update_wifi_ok; [done|]. by record_ok.
Qed.

Lemma safe_delay : safe OSTimeDly.
Proof.
  intros a Ha. pose proof (ok_world a Ha) as Hw. unfold awp, OSTimeDly.
  destruct (world a) as [|h w]; [done|]. apply Forall_cons_1 in Hw as [Hh Hw].
  assert (Ha' : agent_ok (set_world w a)) by (destruct Ha; by constructor).
  destruct h as [|e|ssid psk keylen]; [done|by apply safe_callback|].
  apply safe_bind; [|intros; apply safe_callback|done]. apply safe_inf. intros s. by apply fill_ok.
Qed.

Lemma safe_wait fuel cond : safe (wait_while fuel cond).
Proof.
  induction fuel as [|fuel IH]; [apply safe_fail|]. cbn [wait_while].
  apply safe_bind; [apply safe_gets|]. intros c. apply safe_if; [|apply safe_ret].
  apply safe_bind; [apply safe_delay|]. intros _. exact IH.
Qed.

Lemma safe_wait_loop cond : safe (wait_loop cond).
Proof. intros a Ha. unfold wait_loop. by apply safe_wait. Qed.

Lemma safe_save ssid key : Bytes ssid -> 32 <= zlen ssid -> Bytes key -> 32 <= zlen key ->
  safe (save_credentials polls ssid key).
Proof.
  intros H1 H2 H3 H4 a [Hs Hc Hi Hw].
  destruct (Agent_SaveSSIDAndKey_spec polls Hpolls Hm Hsz (flash a) ssid key (config a))
    as (c1 & E & [B1 _] & _); try assumption.
  unfold awp, save_credentials, gets, on_flash, modify, mbind, M_bind. rewrite E.
  constructor; simpl; try assumption. by apply with_credentials_ok.
Qed.

Lemma safe_softap : safe DRV_WiFi_SoftAPModeStart.
Proof.
  unfold DRV_WiFi_SoftAPModeStart.
  repeat (apply safe_bind; [first [apply safe_delay | apply (safe_call CWiFiStop) |
    apply (safe_call CLoadDefault) | apply (safe_call (CNetMode _))]; exact I|intros _]).
  by apply (safe_call CWiFiStart).
Qed.

Lemma safe_set_string (f : option (list Z) -> Z -> call) l :
  (forall n, object (u8 n) (Some l) -> args_ok (f (Some l) (u8 n))) -> is_string l ->
  safe (n ← access (fun _ => s ← Some l; strlen s 0); inf (exec (f (Some l) (u8 n)))).
Proof.
  intros Hf Hl a Ha. destruct (strlen_string l Hl) as (n & E & Hn). apply awp_bind.
  unfold awp at 1, access. simpl. rewrite E. apply safe_call; [|done]. apply Hf.
  by apply string_object.
Qed.

Lemma safe_connect ssid pass flag :
  (flag = 1 -> exists s p, ssid = Some s /\ pass = Some p /\ is_string s /\ is_string p) ->
  safe (DRV_WiFi_StaModeConnStart ssid pass flag).
Proof.
  intros Hstr. unfold DRV_WiFi_StaModeConnStart.
  apply safe_bind; [by apply (safe_call CWiFiStop)|intros _].
  apply safe_bind; [apply safe_delay|intros _].
  apply safe_bind.
  { destruct (Z.eqb_spec flag 1) as [->|].
    - destruct Hstr as (s & p & -> & -> & Hs & Hp); [done|].
      apply safe_bind; [by apply (safe_call CLoadDefault)|intros _].
      apply safe_bind; [apply (safe_call (CIp (Some _))); constructor; by_decide|intros _].
      apply safe_bind; [apply (safe_call (CConTryTimes 5)); by_decide|intros _].
      apply safe_bind; [by apply (safe_call (CNetMode _))|intros _].
      apply safe_bind; [by apply (safe_call (CEncMode _))|intros _].
      intros a Ha. destruct (strlen_string s Hs) as (n & E & Hn). apply awp_bind.
      unfold awp at 1, access. simpl. rewrite E.
      apply (safe_bind (inf (InfSsidSet (Some s) (u8 n)))); [|intros _|done].
      { apply (safe_call (CSsid (Some s) (u8 n))). split; [apply u8_range|by apply string_object]. }
      apply (safe_set_string (CKey 0)); [|done]. intros k Hk. split; [by_decide|]. split; [apply u8_range|done].
    - apply safe_bind; [by apply (safe_call (CNetMode _))|intros _].
      apply (safe_call (CConTryTimes 5)). by_decide. }
  intros _. apply safe_bind; [by apply (safe_call CWiFiStart)|intros _].
  apply safe_bind; [apply safe_delay|intros _].
  apply safe_bind; [apply safe_modify; field_update|intros _].
  apply safe_bind; [apply safe_wait_loop|intros _].
  apply safe_bind; [apply safe_gets|]. intros f. apply safe_ret.
Qed.

(** The broadcast loops have enough fuel: each turn is one of at most 21 sends
    or 6 failures, each attempt one of at most 4. *)
Lemma safe_bcast_loop fuel : forall count trycount,
  0 <= count <= 20 -> 0 <= trycount <= 5 -> (21 - count) + (6 - trycount) < Z.of_nat fuel + 1 ->
  safe (bcast_loop fuel count trycount).
Proof.
  induction fuel as [|fuel IH]; intros count trycount Hc Ht Hf; [lia|]. cbn [bcast_loop].
  apply safe_bind; [apply safe_sock|]. intros ret. destruct (ret <? 0).
  - apply safe_bind; [apply safe_delay|intros _].
    destruct (Z.ltb_spec 5 (trycount + 1)); [apply safe_ret|]. apply IH; lia.
  - apply safe_bind; [apply safe_modify; field_update|intros _].
    destruct (Z.ltb_spec count 20); [|apply safe_ret].
    apply safe_bind; [apply safe_delay|intros _]. apply IH; lia.
Qed.

Lemma safe_bcast_again fuel : forall conncount,
  0 <= conncount -> 4 - conncount <= Z.of_nat fuel -> conncount < 4 -> safe (bcast_again fuel conncount).
Proof.
  induction fuel as [|fuel IH]; intros conncount H0 Hf Hlt; [lia|]. cbn [bcast_again].
  apply safe_bind; [apply safe_sock|]. intros sock. apply safe_if; [apply safe_ret|].
  apply safe_bind; [apply safe_sock|]. intros opt. apply safe_if; [apply safe_ret|].
  apply safe_bind; [apply safe_bcast_loop; lia|]. intros ok. apply safe_if; [apply safe_ret|].
  destruct (Z.ltb_spec 3 (conncount + 1)); [apply safe_ret|]. apply IH; lia.
Qed.

Lemma safe_respond : safe RespondConnBroadcast.
Proof. apply safe_bcast_again; lia. Qed.

Lemma safe_discover fuel : forall count, 0 <= count <= 5 -> 6 - count <= Z.of_nat fuel ->
  safe (discover_loop fuel count).
Proof.
  induction fuel as [|fuel IH]; intros count H0 Hf; [lia|]. cbn [discover_loop].
  apply safe_bind; [apply safe_modify; field_update|intros _]. unfold UDP_SCAN_RESPONSE_TIME.
  destruct (Z.ltb_spec count 5); [|apply safe_ret].
  apply safe_bind; [apply safe_delay|intros _]. apply IH; lia.
Qed.

Lemma safe_lan_softap buf data : Bytes buf -> 0 <= data -> data + 98 <= zlen buf ->
  safe (lan_softap_config polls buf data).
Proof.
  intros Hb H0 Hl a Ha. unfold lan_softap_config. apply awp_bind.
  destruct (ld_is_Some buf data) as [n En]; [lia|]. unfold awp at 1, access at 1. rewrite En.
  destruct (Z.ltb_spec 32 n), (Z.leb_spec n 0); try exact Ha. cbn [orb]. apply awp_bind.
  unfold awp at 1, access at 1. rewrite fetch_spec by lia. cbn [mbind option_bind].
  change (replicate 33 0) with (replicate (Z.to_nat 33) 0).
  rewrite blit_zeros by (autorewrite with zlen; lia).
  set (ssid := padded _ 33).
  assert (Hs : is_string ssid /\ zlen ssid = 33).
  { apply padded_string; [by apply Forall_ztake, Forall_zdrop|autorewrite with zlen; lia]. }
  apply awp_bind. destruct (ld_is_Some buf (data + (n + 1))) as [k Ek]; [lia|].
  unfold awp at 1, access at 1. rewrite Ek. destruct (Z.ltb_spec 64 k); [exact Ha|].
  pose proof (ld_Forall is_u8 buf _ k Hb Ek) as Hk8. unfold is_u8 in Hk8.
  apply awp_bind. unfold awp at 1, access at 1. rewrite fetch_spec by lia. cbn [mbind option_bind].
  change (replicate 65 0) with (replicate (Z.to_nat 65) 0).
  rewrite blit_zeros by (autorewrite with zlen; lia).
  set (passwd := padded _ 65).
  assert (Hp : is_string passwd /\ zlen passwd = 65).
  { apply padded_string; [by apply Forall_ztake, Forall_zdrop|autorewrite with zlen; lia]. }
  apply (safe_bind (modify (set_onboarding SYS_STATUS_ONBOARDING))); [apply safe_modify; field_update| |exact Ha].
  intros _. apply safe_bind; [apply safe_connect; intros _; exists ssid, passwd; tauto|].
  intros ret. apply safe_if; [|apply safe_ret].
  apply safe_bind; [apply safe_modify; field_update|intros _].
  apply safe_bind; [apply safe_save; [apply Hs|lia|apply Hp|lia]|intros _].
  apply safe_bind; [apply safe_respond|intros _]. apply safe_fail.
Qed.

Lemma safe_dispatch buf n : Bytes buf -> 106 <= zlen buf -> safe (Socket_DispatchUDPData polls buf n).
Proof.
  intros Hb Hl a Ha. unfold Socket_DispatchUDPData. apply awp_bind.
  unfold awp at 1, access at 1. rewrite fetch_spec by lia.
  revert a Ha. apply safe_if; [apply safe_lan_softap; [done|lia|lia]|].
  apply safe_if; [apply safe_discover; lia|apply safe_ret].
Qed.

Lemma safe_connect_saved : safe connect_saved.
Proof.
  unfold connect_saved. apply safe_bind; [apply safe_modify; field_update|intros _].
  intros a [Hs Hc Hi Hw]. apply awp_bind. unfold awp at 1, gets. apply awp_bind.
  destruct (nl6621_GetConfigData_spec polls Hpolls Hsz (flash a) (config a) Hi Hc)
    as (cfg & c1 & E & Hcfg & B1 & _).
  unfold awp at 1, on_flash at 1. rewrite E. pose proof Hcfg as (H1 & H2 & H3 & H4 & H5 & H6 & H7 & H8).
  destruct (set_string_ok (wifi_ssid cfg) wifissid) as (s1 & Es & Hs1 & Hl1); [done|by_decide|by rewrite H5; by_decide|].
  destruct (set_string_ok (wifi_key cfg) wifikey) as (k1 & Ek & Hk1 & Hkl1); [done|by_decide|by rewrite H7; by_decide|].
  apply awp_bind. unfold awp at 1, access at 1. rewrite Es.
  apply awp_bind. unfold awp at 1, access at 1. rewrite Ek.
  apply awp_bind. unfold awp at 1, modify at 1.
  set (cfg1 := mkCfg _ _ _ _ _).
  assert (Ha : agent_ok (set_config cfg1 (set_flash c1 a))).
  { constructor; simpl; try assumption. unfold cfg_ok, cfg1. simpl.
    repeat split_and; try done; try apply Hs1; try apply Hk1; try lia. by apply lor_1_u32. }
  apply awp_bind. unfold awp at 1, gets.
  match goal with |- awp ?m ?a _ => enough (Hsafe : safe m) by exact (Hsafe a Ha) end.
  cbn [config set_config].
  assert (Hsoft : safe (DRV_WiFi_SoftAPModeStart;; modify (set_status SYS_STATUS_WIFI_SOFTAP)
    : M (Agent chip) unit)).
  { apply safe_bind; [apply safe_softap|intros _]. apply safe_modify. field_update. }
  apply safe_if; [|exact Hsoft].
  apply safe_bind; [apply safe_modify; field_update|intros _].
  apply safe_bind; [apply safe_connect; intros _; by exists (wifi_ssid cfg1), (wifi_key cfg1)|]. intros ret.
  apply safe_if; [exact Hsoft|]. apply safe_modify. field_update.
Qed.

Lemma safe_reset_turn : safe (SysReset_turn polls).
Proof.
  assert (Hc : forall n i, safe (count_pressed n i : M (Agent chip) Z)).
  { induction n as [|n IH]; intros i; [apply safe_ret|]. cbn [count_pressed].
    apply safe_bind; [apply safe_delay|intros _].
    apply safe_bind; [apply safe_gpio|intros v]. apply safe_if; [apply IH|apply safe_ret]. }
  unfold SysReset_turn. apply safe_bind; [apply safe_gets|]. intros f.
  apply safe_bind; [|intros _; apply safe_delay]. apply safe_if; [|apply safe_ret].
  apply safe_bind; [apply safe_gpio|intros v]. apply safe_if; [|apply safe_ret].
  apply safe_bind; [apply Hc|intros i]. apply safe_if; [|apply safe_ret].
  intros a [Hs Hcf Hi Hw]. apply awp_bind. unfold awp at 1, gets. apply awp_bind.
  destruct (nl6621_SaveConfigData_spec polls Hpolls Hm Hsz (flash a)
    (mkCfg (magicNumber (config a)) 0 (wifipasscode (config a)) (replicate 32 0) (replicate 32 0)) Hi)
    as (c1 & E & [B1 _] & _).
  { destruct Hcf as (? & _ & ? & ? & _). unfold cfg_ok. simpl. repeat split_and; try done; by_decide. }
  unfold awp at 1, on_flash, SysReset_config. rewrite E.
  apply (safe_bind OSTimeDly (fun _ => BSP_ChipReset)); [apply safe_delay|intros _; apply safe_fail|].
  by constructor.
Qed.

(** While the direct configuration waits, a key that is there is terminated. *)
Definition key_inv (a : Agent chip) : Prop :=
  (KeyLength (WiFiCfg (SysParam (sys a))) <> 0 -> terminated (PSK (WiFiCfg (SysParam (sys a))))) /\
  Forall happening_ok (world a).

Lemma key_callback e : preserves key_inv (AppEvtCallBack e).
Proof.
  intros a x a' Ha E. destruct e; try (injection E as <- <-; exact Ha).
  unfold AppEvtCallBack, gets, mbind, M_bind, modify in E.
  destruct (_ =? _); [done|]. injection E as <- <-. exact Ha.
Qed.

Lemma key_delay : preserves key_inv OSTimeDly.
Proof.
  intros a x a' [Hk Hw] E. unfold OSTimeDly in E. destruct (world a) as [|h w]; [done|].
  apply Forall_cons_1 in Hw as [Hh Hw].
  destruct h as [|e|ssid psk keylen].
  - injection E as <- <-. by split.
  - eapply key_callback; [|exact E]. by split.
  - destruct Hh as (_ & _ & _ & Hh). injection E as <- <-. by split.
Qed.

Lemma key_wait cond : preserves key_inv (wait_loop cond).
Proof.
  intros a x a' Ha E. unfold wait_loop in E. revert a x a' Ha E.
  assert (H : forall fuel, preserves key_inv (wait_while fuel cond)).
  { induction fuel as [|fuel IH]; [done|]. cbn [wait_while].
    apply preserves_bind; [intros a ? ? Ha [= <- <-]; exact Ha|intros c].
    destruct c; [|apply preserves_ret]. apply preserves_bind; [apply key_delay|intros _; exact IH]. }
  intros a x a' Ha E. by eapply H.
Qed.

(** From the start of the direct configuration to the end of its wait. *)
Definition receive_config : M (Agent chip) unit :=
  modify (set_DirectCfgFlag 0);;
  inf (InfDirectCfgStart 0 0 0);;
  wait_loop (fun a => negb (DirectCfgFlag a =? 1));;
  modify (set_DirectCfgFlag 0);;
  inf InfWiFiStop.

Lemma awp_receive {B} (k : unit -> M (Agent chip) B) a Q :
  awp (mbind k receive_config) a Q ->
  awp (modify (set_DirectCfgFlag 0);;
       inf (InfDirectCfgStart 0 0 0);;
       wait_loop (fun a => negb (DirectCfgFlag a =? 1));;
       modify (set_DirectCfgFlag 0);;
       mbind k (inf InfWiFiStop)) a Q.
Proof.
  unfold receive_config, awp, mbind, M_bind. cbn [modify].
  destruct (inf (InfDirectCfgStart 0 0 0) _) as [[] a1| |]; [|done..].
  destruct (wait_loop _ a1) as [[] a2| |]; [|done..]. cbn [modify].
  by destruct (inf InfWiFiStop _) as [[] a3| |].
Qed.

Lemma key_receive : preserves key_inv receive_config.
Proof.
  unfold receive_config.
  repeat (apply preserves_bind; [first [apply key_wait|intros a ? ? Ha [= <- <-]; exact Ha]|intros _]).
  intros a ? ? Ha [= <- <-]. exact Ha.
Qed.

Lemma safe_receive : safe receive_config.
Proof.
  unfold receive_config.
  apply safe_bind; [apply safe_modify; field_update|intros _].
  apply safe_bind; [apply (safe_call (CDirectCfg 0 0 0)); by_decide|intros _].
  apply safe_bind; [apply safe_wait_loop|intros _].
  apply safe_bind; [apply safe_modify; field_update|intros _]. by apply (safe_call CWiFiStop).
Qed.

Lemma awp_preserves {A} (I : Agent chip -> Prop) (m : M (Agent chip) A) a :
  safe m -> preserves I m -> agent_ok a -> I a -> awp m a (fun _ a' => agent_ok a' /\ I a').
Proof.
  intros Hs Hp Ha Hi. pose proof (Hs a Ha) as H. unfold awp in *.
  destruct (m a) as [x a'|e a'|] eqn:E; [|done..]. split; [done|]. by eapply Hp.
Qed.

Lemma log_credentials_ok a : agent_ok a -> key_inv a -> log_credentials a = Done tt a.
Proof.
  intros Ha [Hk _]. unfold log_credentials.
  destruct (ok_Ssid _ (wifi_of _ (ok_sys a Ha))) as [[_ H1] H2].
  destruct (strlen_string _ (conj H1 H2)) as (n & En & _).
  erewrite bind_done by (unfold access; rewrite En; reflexivity).
  erewrite (bind_done (gets _)) by reflexivity.
  destruct (Z.eqb_spec (KeyLength (WiFiCfg (SysParam (sys a)))) 0) as [|Hn]; [done|].
  destruct (ok_psk _ (wifi_of _ (ok_sys a Ha))) as [_ Hp].
  destruct (strlen_string _ (conj Hp (Hk Hn))) as (k & Ek & _).
  by erewrite bind_done by (unfold access; rewrite Ek; reflexivity).
Qed.

(** The direct configuration: the stored key must be a C string when it starts. *)
Lemma direct_config_ok a : agent_ok a -> terminated (PSK (WiFiCfg (SysParam (sys a)))) ->
  awp (StartDirectConfigConn polls) a (fun _ a' => agent_ok a').
Proof.
  intros Ha Ht. unfold StartDirectConfigConn.
  destruct (ok_Ssid _ (wifi_of _ (ok_sys a Ha))) as [Hf1 Ht1].
  destruct (clear_str_ok _ 33 Hf1 Ht1) as (s1 & E1 & Hs1 & Hts1).
  apply awp_bind. unfold awp at 1, access. rewrite E1. apply awp_bind.
  assert (Hup : forall f (b : Agent chip), agent_ok b -> wifi_ok (f (WiFiCfg (SysParam (sys b)))) ->
    agent_ok (set_sys (set_SysParam (set_WiFiCfg (f (WiFiCfg (SysParam (sys b)))) (SysParam (sys b))) (sys b)) b)).
  { intros f b [] Hw. constructor; simpl; try assumption.
    apply (update_wifi_ok f (sys b)); assumption. }
  unfold awp at 1, inf, update_wifi, update_param, modify.
  set (a1 := set_sys _ a).
  assert (Ha1 : agent_ok a1).
  { apply (Hup (set_Ssid s1)); [done|]. pose proof (ok_sys a Ha). record_ok. by split. }
  apply awp_bind. pose proof (ok_psk _ (wifi_of _ (ok_sys a1 Ha1))) as Hf2.
  destruct (clear_str_ok _ 64 Hf2 Ht) as (p1 & E2 & Hp1 & Htp1).
  unfold awp at 1, access. rewrite E2. apply awp_bind. unfold awp at 1.
  assert (Ha2 : agent_ok (set_sys (set_SysParam (set_WiFiCfg (set_PSK p1 (WiFiCfg (SysParam (sys a1))))
    (SysParam (sys a1))) (sys a1)) a1)).
  { apply (Hup (set_PSK p1)); [done|]. pose proof (ok_sys a1 Ha1). by record_ok. }
  set (a2 := set_sys _ a1) in *.
  assert (Hk2 : key_inv a2) by (split; [intros _; exact Htp1|exact (ok_world a2 Ha2)]).
  apply awp_receive, awp_bind.
  eapply awp_mono; [by apply (awp_preserves key_inv); [apply safe_receive|apply key_receive|..]|].
  intros _ a3 [Ha3 Hk3]. apply awp_bind. unfold awp at 1. rewrite log_credentials_ok by done.
  match goal with |- awp ?m _ _ => enough (Hsafe : safe m) by exact (Hsafe a3 Ha3) end.
  apply safe_bind; [by apply safe_connect|]. intros ret.
  apply safe_if; [apply safe_ret|].
  intros b Hb. apply awp_bind. unfold awp at 1, gets.
  pose proof (wifi_of _ (ok_sys b Hb)) as Hw.
  destruct (ok_Ssid _ Hw) as [[HS1 HS2] _], (ok_psk _ Hw) as [HP1 HP2].
  apply safe_bind; [apply safe_save; try done; lia| |done]. intros _.
  apply safe_bind; [apply safe_respond|intros _; apply safe_ret].
Qed.

Definition not_filled (h : option happening) : Prop :=
  match h with Some (Filled _ _ _) => False | _ => True end.

Lemma gpio_keeps a : agent_ok a ->
  awp BSP_GPIOGetValue a (fun _ a' => agent_ok a' /\ sys a' = sys a /\ world a' = world a).
Proof. intros []. unfold awp, BSP_GPIOGetValue. destruct (gpio a); [by constructor|]. split; [by constructor|done]. Qed.

Lemma delay_keeps a : agent_ok a -> not_filled (head (world a)) ->
  awp OSTimeDly a (fun _ a' => agent_ok a' /\ sys a' = sys a).
Proof.
  intros Ha Hh. pose proof (safe_delay a Ha) as Hd. revert Hd. unfold awp, OSTimeDly.
  destruct (world a) as [|[|e|? ? ?] w]; [done|done| |done]. unfold AppEvtCallBack.
  destruct e; try done. unfold gets, mbind, M_bind, modify. by destruct (_ =? _).
Qed.

Lemma network_init_ok a : agent_ok a -> terminated (PSK (WiFiCfg (SysParam (sys a)))) ->
  not_filled (head (world a)) -> awp (Agent_network_init polls) a (fun _ a' => agent_ok a').
Proof.
  intros Ha Ht Hh. unfold Agent_network_init. apply awp_bind.
  eapply awp_mono; [by apply gpio_keeps|]. intros v a1 (Ha1 & Es1 & Ew1).
  destruct (v =? 0); [|by apply safe_connect_saved].
  apply awp_bind. eapply awp_mono; [apply delay_keeps; [done|by rewrite Ew1]|].
  intros _ a2 (Ha2 & Es2). apply awp_bind.
  eapply awp_mono; [by apply gpio_keeps|]. intros v2 a3 (Ha3 & Es3 & _).
  destruct (v2 =? 0); [|by apply safe_connect_saved].
  apply awp_bind. unfold awp at 1, modify. apply awp_bind.
  eapply awp_mono; [apply direct_config_ok|].
  - destruct Ha3. by constructor.
  - cbn [sys set_status]. by rewrite Es3, Es2, Es1.
  - intros ret a4 Ha4. destruct (ret =? 0); [|by apply safe_connect_saved].
    apply (safe_bind (modify (set_status SYS_STATUS_WIFI_STA_CONNECTED)));
      [apply safe_modify; field_update|intros _; apply safe_modify; field_update|done].
Qed.

End Safety.

(** * Joining a network *)

Section Join.
Context {chip : Type} {SPI : Spi chip} {HP : Heap}.
Implicit Types a : Agent chip.

(** The parameters ask for this network, as a station. *)
Definition joins (s : Sys) (ssid pass : list Z) : Prop :=
  let w := WiFiCfg (SysParam s) in
  strlen (Ssid w) 0 = Some (zlen ssid) /\ ztake (zlen ssid) (Ssid w) = ssid /\
  KeyLength w = zlen pass /\ ztake (zlen pass) (PSK w) = pass /\
  Protocol w = PARAM_NET_MODE_STA_BSS /\ Encry w = PARAM_ENC_MODE_AUTO /\ ConTryTimes w = 5.

(** A text without NUL. *)
Definition text (l : list Z) : Prop := Bytes l /\ Forall (fun c => c <> 0) l.

Lemma inf_done m a s' : m (sys a) = Done tt s' -> inf m a = Done tt (set_sys s' a).
Proof. unfold inf. by intros ->. Qed.

Lemma strlen_text l rest : text l -> strlen (l ++ 0 :: rest) 0 = Some (zlen l).
Proof. intros [_ H]. by apply (strlen_app []). Qed.

(** What the call sets before it starts the radio. *)
Definition start_params (ssid pass : list Z) (s : Sys) : Sys :=
  let d := set_IPCfg (mkIp (replicate 4 0) (replicate 4 0) (replicate 4 0) (replicate 4 0) 1 0 (replicate 2 0))
             (default_param (zdrop 2 (PermanentAddress s))) in
  let w := set_Encry PARAM_ENC_MODE_AUTO (set_Protocol PARAM_NET_MODE_STA_BSS (set_ConTryTimes 5 (WiFiCfg d))) in
  let w := set_Ssid (ssid ++ 0 :: zdrop (zlen ssid + 1) (Ssid w)) w in
  set_SysParam (set_WiFiCfg (set_PSK (key_field pass (PSK w))
    (set_KeyLength (zlen pass) (set_KeyIndex 0 w))) d) s.

Lemma start_params_joins ssid pass s : text ssid -> joins (start_params ssid pass s) ssid pass.
Proof.
  intros Hs. unfold joins, start_params. cbn. repeat split; try done.
  - by apply strlen_text.
  - apply ztake_zlen_app.
  - apply key_field_prefix.
Qed.

Lemma connect_params ssid sr pass pr s :
  zlen (PermanentAddress s) = 6 -> Bytes (PermanentAddress s) -> text ssid -> 1 <= zlen ssid <= 32 ->
  text pass -> zlen pass <= 64 ->
  (InfLoadDefaultParam;;
   InfIpSet (Some (mkIp (replicate 4 0) (replicate 4 0) (replicate 4 0) (replicate 4 0) 1 0 (replicate 2 0)));;
   InfConTryTimesSet 5;; InfNetModeSet PARAM_NET_MODE_STA_BSS;; InfEncModeSet PARAM_ENC_MODE_AUTO;;
   InfSsidSet (Some (ssid ++ 0 :: sr)) (zlen ssid);; InfKeySet 0 (Some (pass ++ 0 :: pr)) (zlen pass)) s =
  Done tt (start_params ssid pass s).
Proof.
  intros Hm Hb Hs Hsl Hp Hpl.
  assert (Hd : param_ok (default_param (zdrop 2 (PermanentAddress s)))).
  { apply default_param_ok; [autorewrite with zlen; lia|by apply Forall_zdrop]. }
  destruct (ok_Ssid _ (ok_wifi _ Hd)) as [[Hf _] _], (ok_psk _ (ok_wifi _ Hd)) as [Hk _].
  rewrite (bind_done _ _ _ _ _ (InfLoadDefaultParam_spec s Hm)).
  unfold start_params. revert Hf Hk. generalize (default_param (zdrop 2 (PermanentAddress s))).
  intros d Hf Hk. erewrite (bind_done (InfIpSet _)) by reflexivity.
  erewrite (bind_done (InfConTryTimesSet _)) by reflexivity.
  erewrite (bind_done (InfNetModeSet _)) by reflexivity.
  erewrite (bind_done (InfEncModeSet _)) by reflexivity.
  erewrite (bind_done (InfSsidSet _ _)) by (apply InfSsidSet_stored; [exact Hf|apply Hs|exact Hsl]).
  rewrite InfKeySet_stored; [reflexivity|exact Hk|lia|exact Hpl].
Qed.

Lemma wait_quiet cond k : forall fuel a W, (forall a w, cond (set_world w a) = cond a) ->
  cond a = true -> world a = replicate k Quiet ++ W ->
  wait_while (k + fuel) cond a = wait_while fuel cond (set_world W a).
Proof.
  induction k as [|k IH]; intros fuel a W Hc Ht Hw.
  { simpl. f_equal. destruct a; simpl in *. by subst. }
  cbn [Nat.add wait_while]. unfold gets at 1, mbind at 1, M_bind at 1. rewrite Ht.
  unfold OSTimeDly at 1, mbind at 1, M_bind at 1. rewrite Hw. cbn [replicate app].
  rewrite (IH _ _ W); [|done|by rewrite Hc|done]. f_equal.
Qed.

(** A run of parameter calls that all succeed, made one by one. *)
Lemma inf_cons {A} (m1 : M Sys unit) (m2 : M Sys unit) (R : unit -> M (Agent chip) A) a s' X :
  (m1;; m2) (sys a) = Done tt s' ->
  (forall s1, m2 s1 = Done tt s' -> R tt (set_sys s1 a) = X) -> (inf m1 ≫= R) a = X.
Proof.
  intros E HR. apply bind_inv in E as ([] & s1 & E1 & E2).
  unfold mbind at 1, M_bind at 1. rewrite (inf_done _ _ _ E1). by apply HR.
Qed.

Lemma access_bind {S A B} (f : S -> option A) (g : A -> M S B) (a : S) x :
  f a = Some x -> (access f ≫= g) a = g x a.
Proof. unfold access, mbind, M_bind. by intros ->. Qed.

(** The state in which the call waits for the outcome. *)
Definition waiting (ssid pass : list Z) (W : list happening) a : Agent chip :=
  set_wifi_sta_connect_ap_flag 2 (set_world W
    (set_sys (set_posted ((MLME_START_ID, []) :: (MLME_STOP_ID, []) :: posted (sys a))
       (start_params ssid pass (sys a))) a)).

(** [ssid] and [pass] as objects. *)
Definition credentials_ok a (ssid pass : list Z) : Prop :=
  zlen (PermanentAddress (sys a)) = 6 /\ Bytes (PermanentAddress (sys a)) /\
  text ssid /\ 1 <= zlen ssid <= 32 /\ text pass /\ zlen pass <= 64.

Lemma connect_waits ssid sr pass pr W a : credentials_ok a ssid pass ->
  world a = Quiet :: Quiet :: W ->
  DRV_WiFi_StaModeConnStart (Some (ssid ++ 0 :: sr)) (Some (pass ++ 0 :: pr)) 1 a =
  (wait_loop (fun a => wifi_sta_connect_ap_flag a =? 2);;
   f ← gets wifi_sta_connect_ap_flag;
   mret (if f =? 1 then 0 else -1)) (waiting ssid pass W a).
Proof.
  intros (Hm & Hb & Hs & Hsl & Hp & Hpl) Hw. unfold DRV_WiFi_StaModeConnStart.
  erewrite (bind_done (inf InfWiFiStop)) by (by apply inf_done).
  erewrite (bind_done OSTimeDly) by (unfold OSTimeDly; cbn [world set_sys]; by rewrite Hw).
  set (a1 := set_world _ _).
  assert (E : (inf InfLoadDefaultParam;;
     inf (InfIpSet (Some (mkIp (replicate 4 0) (replicate 4 0) (replicate 4 0) (replicate 4 0) 1 0 (replicate 2 0))));;
     inf (InfConTryTimesSet 5);;
     inf (InfNetModeSet PARAM_NET_MODE_STA_BSS);;
     inf (InfEncModeSet PARAM_ENC_MODE_AUTO);;
     n ← access (fun _ => s ← Some (ssid ++ 0 :: sr); strlen s 0);
     inf (InfSsidSet (Some (ssid ++ 0 :: sr)) (u8 n));;
     k ← access (fun _ => p ← Some (pass ++ 0 :: pr); strlen p 0);
     inf (InfKeySet 0 (Some (pass ++ 0 :: pr)) (u8 k))) a1 =
     Done tt (set_sys (start_params ssid pass (sys a1)) a1)).
  { pose proof (connect_params ssid sr pass pr (sys a1) Hm Hb Hs Hsl Hp Hpl) as Ec.
    do 5 (eapply inf_cons; [exact Ec|clear Ec; intros ? Ec; cbn beta]).
    rewrite (access_bind _ _ _ (zlen ssid)) by (by apply strlen_text).
    rewrite u8_small by (unfold is_u8; lia).
    eapply inf_cons; [exact Ec|clear Ec; intros ? Ec].
    rewrite (access_bind _ _ _ (zlen pass)) by (by apply strlen_text).
    rewrite u8_small by (pose proof (zlen_nonneg pass); unfold is_u8; lia).
    etransitivity; [apply inf_done; exact Ec|reflexivity]. }
  change (1 =? 1) with true. cbv iota. rewrite (bind_done _ _ _ _ _ E).
  erewrite (bind_done (inf InfWiFiStart)) by (by apply inf_done).
  erewrite (bind_done OSTimeDly) by reflexivity.
  reflexivity.
Qed.

(** The wait, by the event that ends it. *)
Lemma connect_ends ssid pass k e w a :
  let wa := waiting ssid pass (replicate k Quiet ++ Event e :: w) a in
  (wait_loop (fun a => wifi_sta_connect_ap_flag a =? 2);;
   f ← gets wifi_sta_connect_ap_flag;
   mret (if f =? 1 then 0 else -1)) wa =
  match e with
  | SYS_EVT_LINK_UP =>
      Done 0 (set_wifi_sta_connect_ap_flag 1 (set_DirectCfgFlag 1 (set_world w wa)))
  | SYS_EVT_JOIN_FAIL =>
      let a' := set_wifi_sta_connect_ap_flag 0 (set_world w wa) in
      if status a =? SYS_STATUS_WIFI_SOFTAP then Err RESET a' else Done (-1) a'
  | _ => (wait_while (S (Datatypes.length w)) (fun a => wifi_sta_connect_ap_flag a =? 2);;
          f ← gets wifi_sta_connect_ap_flag;
          mret (if f =? 1 then 0 else -1))
           (match e with
            | SYS_EVT_DIRECT_CFG_DONE => set_DirectCfgFlag 1 (set_world w wa)
            | _ => set_world w wa
            end)
  end.
Proof.
  intros wa. unfold wait_loop.
  assert (Hlen : S (Datatypes.length (world wa)) = (k + S (S (Datatypes.length w)))%nat).
  { unfold wa. cbn [world waiting set_wifi_sta_connect_ap_flag set_world].
    rewrite length_app, length_replicate. simpl. lia. }
  pose proof (wait_quiet (fun a => wifi_sta_connect_ap_flag a =? 2) k (S (S (Datatypes.length w))) wa
    (Event e :: w)) as Eq. rewrite <- Hlen in Eq.
  specialize (Eq ltac:(done) eq_refl eq_refl). set (b := set_world w wa) in *.
  assert (Ed : OSTimeDly (set_world (Event e :: w) wa) = AppEvtCallBack e b) by done.
  unfold mbind at 1, M_bind at 1. rewrite Eq. destruct e; try reflexivity.
  assert (Ec : AppEvtCallBack SYS_EVT_JOIN_FAIL b =
    (if status a =? SYS_STATUS_WIFI_SOFTAP then BSP_ChipReset else mret tt)
      (set_wifi_sta_connect_ap_flag 0 b)) by done.
  rewrite Ec in Ed. cbn [wait_while].
  rewrite (bind_done (gets (fun a => wifi_sta_connect_ap_flag a =? 2)) _ _ true
    (set_world (Event SYS_EVT_JOIN_FAIL :: w) wa)) by done.
  destruct (status a =? SYS_STATUS_WIFI_SOFTAP).
  - by rewrite (bind_err _ _ _ _ _ Ed).
  - by rewrite (bind_done _ _ _ _ _ Ed).
Qed.
End Join.

(** * Provisioning *)

Section Provision.
Context {chip : Type} {SPI : Spi chip} {NF : NorFlash chip} {HP : Heap} (polls : nat).
Implicit Types a : Agent chip.

(** [m] leaves the flash, the saved record and the onboarding status alone. *)
Definition off_flash {A} (m : M (Agent chip) A) : Prop := forall a,
  match m a with
  | Done _ a' | Err _ a' => flash a' = flash a /\ config a' = config a /\ onboarding a' = onboarding a
  | Crash => True
  end.

Lemma off_bind {A B} (m : M (Agent chip) A) (f : A -> M (Agent chip) B) :
  off_flash m -> (forall x, off_flash (f x)) -> off_flash (mbind f m).
Proof.
  intros H1 H2 a. specialize (H1 a). unfold mbind, M_bind. destruct (m a) as [x a1|e a1|]; [|done..].
  specialize (H2 x a1). destruct (f x a1); [| |done]; intuition congruence.
Qed.

Lemma off_ret {A} (x : A) : off_flash (mret x).
Proof. by intros a. Qed.

Lemma off_inf m : off_flash (inf m).
Proof. intros a. unfold inf. by destruct (m (sys a)). Qed.

Lemma off_callback e : off_flash (AppEvtCallBack e).
Proof. intros a. destruct e; try done. unfold AppEvtCallBack, gets, modify, mbind, M_bind.
  by destruct (status _ =? SYS_STATUS_WIFI_SOFTAP). Qed.

Lemma off_delay : off_flash OSTimeDly.
Proof.
  intros a. unfold OSTimeDly. destruct (world a) as [|[|e|s p k] w]; try done.
  exact (off_callback e (set_world w a)).
Qed.

Lemma off_sock : off_flash sock_result.
Proof. intros a. unfold sock_result. by destruct (net a). Qed.

Lemma off_bcast_loop fuel : forall count trycount, off_flash (bcast_loop fuel count trycount).
Proof.
  induction fuel as [|fuel IH]; intros count trycount; [done|]. cbn [bcast_loop].
  apply off_bind; [apply off_sock|]. intros ret. destruct (ret <? 0).
  - apply off_bind; [apply off_delay|intros _]. destruct (_ <? _); [apply off_ret|apply IH].
  - apply off_bind; [done|intros _]. destruct (_ <? _); [|apply off_ret].
    apply off_bind; [apply off_delay|intros _; apply IH].
Qed.

Lemma off_respond : off_flash RespondConnBroadcast.
Proof.
  unfold RespondConnBroadcast. generalize 0. generalize 4%nat as fuel.
  induction fuel as [|fuel IH]; intros cc; [done|]. cbn [bcast_again].
  apply off_bind; [apply off_sock|]. intros sock. destruct (_ =? _); [apply off_ret|].
  apply off_bind; [apply off_sock|]. intros opt. destruct (_ =? _); [apply off_ret|].
  apply off_bind; [apply off_bcast_loop|]. intros []; [apply off_ret|].
  destruct (_ <? _); [apply off_ret|apply IH].
Qed.

(** The datagram of the phone application. *)
Definition config_datagram (hdr ssid pass rest : list Z) : list Z :=
  hdr ++ (zlen ssid :: ssid) ++ (zlen pass :: pass) ++ rest.

Definition config_header (hdr : list Z) : Prop :=
  zlen hdr = 8 /\ of_le16 (ztake 2 (zdrop 2 hdr)) = LAN_NETDATA_CMD_SOFTAP_CONFIG.

Lemma padded_text src n : zlen src < n -> padded src n = src ++ 0 :: replicate (Z.to_nat (n - zlen src) - 1) 0.
Proof.
  intros H. unfold padded. destruct (Z.to_nat (n - zlen src)) as [|k] eqn:E; [lia|]. simpl.
  by rewrite Nat.sub_0_r.
Qed.

(** What the handler does once it has parsed the datagram. *)
Definition provision (ssid pass : list Z) : M (Agent chip) unit :=
  modify (set_onboarding SYS_STATUS_ONBOARDING);;
  ret ← DRV_WiFi_StaModeConnStart (Some (padded ssid 33)) (Some (padded pass 65)) 1;
  if ret =? 0 then
    modify (set_onboarding SYS_STATUS_ONBOARDING_SUCCESS);;
    save_credentials polls (padded ssid 33) (padded pass 65);;
    RespondConnBroadcast;;
    BSP_ChipReset
  else mret tt.

Lemma dispatch_parses hdr ssid pass rest n a :
  config_header hdr -> 1 <= zlen ssid <= 32 -> zlen pass <= 64 ->
  Socket_DispatchUDPData polls (config_datagram hdr ssid pass rest) n a = provision ssid pass a.
Proof.
  intros [Hh Hc] Hs Hp. unfold Socket_DispatchUDPData. pose proof (zlen_nonneg pass).
  assert (Hd : fetch (config_datagram hdr ssid pass rest) 0 8 = Some hdr).
  { rewrite fetch_spec by (unfold config_datagram; zlen_lia). rewrite zdrop_0 by lia.
    unfold config_datagram. rewrite <- Hh. by rewrite ztake_zlen_app. }
  rewrite (access_bind _ _ _ hdr) by exact Hd. rewrite Hc. rewrite Z.eqb_refl.
  unfold lan_softap_config.
  assert (E1 : ld (config_datagram hdr ssid pass rest) 8 = Some (zlen ssid)).
  { unfold config_datagram. rewrite <- Hh. apply ld_mid. }
  rewrite (access_bind _ _ _ (zlen ssid)) by exact E1.
  destruct (Z.ltb_spec 32 (zlen ssid)), (Z.leb_spec (zlen ssid) 0); try lia. cbn [orb].
  rewrite (access_bind _ _ _ (padded ssid 33)).
  2:{ replace (8 + 1) with (zlen (hdr ++ [zlen ssid])) by zlen_lia.
      replace (config_datagram hdr ssid pass rest) with
        ((hdr ++ [zlen ssid]) ++ ssid ++ (zlen pass :: pass) ++ rest)
        by (unfold config_datagram; by rewrite <- !app_assoc).
      rewrite fetch_mid by done. apply (blit_zeros ssid 33). lia. }
  rewrite (access_bind _ _ _ (zlen pass)).
  2:{ replace (8 + (zlen ssid + 1)) with (zlen (hdr ++ zlen ssid :: ssid)) by zlen_lia.
      replace (config_datagram hdr ssid pass rest) with
        ((hdr ++ zlen ssid :: ssid) ++ zlen pass :: pass ++ rest)
        by (unfold config_datagram; by rewrite <- !app_assoc).
      apply ld_mid. }
  destruct (Z.ltb_spec 64 (zlen pass)); [lia|].
  rewrite (access_bind _ _ _ (padded pass 65)); [done|].
  replace (8 + (1 + zlen ssid + 1)) with (zlen (hdr ++ (zlen ssid :: ssid) ++ [zlen pass])) by zlen_lia.
  replace (config_datagram hdr ssid pass rest) with
    ((hdr ++ (zlen ssid :: ssid) ++ [zlen pass]) ++ pass ++ rest)
    by (unfold config_datagram; simpl; by rewrite <- !app_assoc, <- app_comm_cons, <- app_assoc).
  rewrite fetch_mid by done. apply (blit_zeros pass 65). lia.
Qed.

(** Both ends of a provisioning, from an agent that can reach it. *)
Lemma provision_runs ssid pass k e w a : credentials_ok a ssid pass ->
  world a = Quiet :: Quiet :: replicate k Quiet ++ Event e :: w ->
  let a0 := set_onboarding SYS_STATUS_ONBOARDING a in
  let wa := set_world w (waiting ssid pass (replicate k Quiet ++ Event e :: w) a0) in
  match e with
  | SYS_EVT_LINK_UP =>
      provision ssid pass a =
      (modify (set_onboarding SYS_STATUS_ONBOARDING_SUCCESS);;
       save_credentials polls (padded ssid 33) (padded pass 65);;
       RespondConnBroadcast;; BSP_ChipReset)
       (set_wifi_sta_connect_ap_flag 1 (set_DirectCfgFlag 1 wa))
  | SYS_EVT_JOIN_FAIL =>
      let a' := set_wifi_sta_connect_ap_flag 0 wa in
      provision ssid pass a =
      if status a =? SYS_STATUS_WIFI_SOFTAP then Err RESET a' else Done tt a'
  | _ => True
  end.
Proof.
  intros Hc Hw a0 wa. pose proof Hc as (_ & _ & _ & Hs & _ & Hp).
  assert (E : DRV_WiFi_StaModeConnStart (Some (padded ssid 33)) (Some (padded pass 65)) 1 a0 =
    (wait_loop (fun a => wifi_sta_connect_ap_flag a =? 2);;
     f ← gets wifi_sta_connect_ap_flag;
     mret (if f =? 1 then 0 else -1)) (waiting ssid pass (replicate k Quiet ++ Event e :: w) a0)).
  { rewrite !padded_text by lia. by apply connect_waits. }
  rewrite (connect_ends ssid pass k e w a0) in E.
  destruct e; try done; unfold provision;
    rewrite (bind_done (modify _) _ _ tt a0) by done; cbv zeta in E.
  - by rewrite (bind_done _ _ _ _ _ E).
  - change (status a0) with (status a) in E. destruct (status a =? SYS_STATUS_WIFI_SOFTAP).
    + by rewrite (bind_err _ _ _ _ _ E).
    + by rewrite (bind_done _ _ _ _ _ E).
Qed.

(** The parameters with which the call waits are well formed. *)
Lemma waiting_ok ssid pass W a : sys_ok (sys a) -> credentials_ok a ssid pass ->
  sys_ok (sys (waiting ssid pass W a)).
Proof.
  intros Hsys (Hmac & Hmb & [Hs1 Hs2] & Hs & [Hp1 Hp2] & Hp). pose proof (zlen_nonneg pass).
  pose proof (connect_params ssid [] pass [] (sys a) Hmac Hmb (conj Hs1 Hs2) Hs (conj Hp1 Hp2) Hp) as Ec.
  set (ip := mkIp (replicate 4 0) (replicate 4 0) (replicate 4 0) (replicate 4 0) 1 0 (replicate 2 0)) in *.
  destruct (run_ok [CLoadDefault; CIp (Some ip); CConTryTimes 5; CNetMode PARAM_NET_MODE_STA_BSS;
    CEncMode PARAM_ENC_MODE_AUTO; CSsid (Some (ssid ++ [0])) (zlen ssid);
    CKey 0 (Some (pass ++ [0])) (zlen pass)] (sys a)) as (s' & Er & Hs'); [done| |].
  { assert (Hob : forall l, Bytes l -> object (zlen l) (Some (l ++ [0]))).
    { intros l Hl. split; [|zlen_lia]. apply Forall_app. split; [done|]. by apply Forall_singleton. }
    repeat (apply Forall_cons_2; [|]); try apply Forall_nil_2; cbn [args_ok]; try done.
    - constructor; by_decide.
    - split; [unfold is_u8; lia|by apply Hob].
    - split; [by_decide|]. split; [unfold is_u8; lia|by apply Hob]. }
  assert (E2 : s' = start_params ssid pass (sys a)).
  { cbn [run exec] in Er. revert Er Ec. unfold mbind, M_bind.
    repeat (match goal with |- context [match ?m ?s with Done _ _ => _ | Err _ _ => _ | Crash => _ end] =>
      destruct (m s); try done end). congruence. }
  subst s'. destruct Hs', Hsys. constructor; cbn; try assumption.
  repeat (apply Forall_cons_2; [by_decide|]). done.
Qed.

Context (Hpolls : (busy_max < polls)%nat) (Hm : is_Some (malloc FLASH_SECTOR_SIZE)).
Context (Hsz : AGENT_CONFIG_DATA_ADDR + sizeof_Agent_config_t <= size).

Lemma provision_saves ssid pass k w a : agent_ok a -> credentials_ok a ssid pass ->
  Forall happening_ok w ->
  world a = Quiet :: Quiet :: replicate k Quiet ++ Event SYS_EVT_LINK_UP :: w ->
  exists e a', provision ssid pass a = Err e a' /\ rest_kept (flash a) (flash a') /\
    stored (flash a') (with_credentials (config a) (padded ssid 33) (padded pass 65)) /\
    onboarding a' = SYS_STATUS_ONBOARDING_SUCCESS.
Proof.
  intros Ha Hc Hww Hw. pose proof Hc as (Hmac & Hmb & [Hs1 Hs2] & Hs & [Hp1 Hp2] & Hp).
  rewrite (provision_runs ssid pass k SYS_EVT_LINK_UP w a Hc Hw).
  set (a1 := set_wifi_sta_connect_ap_flag 1 _).
  assert (Ha1 : agent_ok (set_onboarding SYS_STATUS_ONBOARDING_SUCCESS a1)).
  { destruct Ha as [Hsys Hcfg Hi _]. constructor; try assumption.
    apply (waiting_ok ssid pass w (set_onboarding SYS_STATUS_ONBOARDING a)); assumption. }
  assert (Hps : is_string (padded ssid 33) /\ zlen (padded ssid 33) = 33) by (apply padded_string; [done|lia]).
  assert (Hpp : is_string (padded pass 65) /\ zlen (padded pass 65) = 65) by (apply padded_string; [done|lia]).
  destruct Hps as [[Hb1 _] Hl1], Hpp as [[Hb2 _] Hl2].
  destruct (Agent_SaveSSIDAndKey_spec polls Hpolls Hm Hsz (flash a) (padded ssid 33) (padded pass 65) (config a))
    as (c1 & E1 & S1 & R1); [apply Ha|done|lia|done|lia|apply Ha|].
  set (a2 := set_config (with_credentials (config a) (padded ssid 33) (padded pass 65))
    (set_flash c1 (set_onboarding SYS_STATUS_ONBOARDING_SUCCESS a1))).
  assert (Es : save_credentials polls (padded ssid 33) (padded pass 65)
    (set_onboarding SYS_STATUS_ONBOARDING_SUCCESS a1) = Done tt a2).
  { unfold save_credentials, gets, on_flash, modify, mbind, M_bind. cbn [flash config set_onboarding a1].
    change (flash a1) with (flash a). change (config a1) with (config a). by rewrite E1. }
  rewrite (bind_done (modify _) _ _ tt (set_onboarding SYS_STATUS_ONBOARDING_SUCCESS a1)) by done.
  rewrite (bind_done _ _ _ _ _ Es).
  assert (Ha2 : agent_ok a2).
  { destruct Ha1. constructor; try assumption; [|apply S1].
    apply with_credentials_ok; try done; lia. }
  pose proof (off_respond a2) as Ho. pose proof (safe_respond polls Hpolls a2 Ha2) as Hr. unfold awp in Hr.
  unfold mbind, M_bind. destruct (RespondConnBroadcast a2) as [[] a3|e a3|]; [| |done];
    destruct Ho as (Hf & Hcf & Hob); (eexists _, a3; split; [reflexivity|]); rewrite Hf, Hob; done.
Qed.
End Provision.

(** The parameter part of starting with the fixed network. *)
Lemma connect_saved_runs {chip} {SPI : Spi chip} {NF : NorFlash chip} k w (a : Agent chip) polls
  (Hpolls : (busy_max < polls)%nat) :
  AGENT_CONFIG_DATA_ADDR + sizeof_Agent_config_t <= size -> agent_ok a ->
  world a = Quiet :: Quiet :: replicate k Quiet ++ Event SYS_EVT_LINK_UP :: w ->
  exists a', connect_saved a = Done tt a' /\ status a' = SYS_STATUS_WIFI_STA_CONNECTED /\
    joins (sys a') wifissid wifikey /\ (forall x, 0 <= x < size -> cells (flash a') x = cells (flash a) x).
Proof.
  intros Hsz [Hs Hc Hi _] Hw. unfold connect_saved.
  erewrite (bind_done Agent_reset_init) by reflexivity.
  set (a0 := set_system_reset_flag _ a).
  rewrite (bind_done (gets config) _ a0 (config a) a0) by done.
  destruct (nl6621_GetConfigData_spec polls Hpolls Hsz (flash a0) (config a) Hi Hc)
    as (cfg & c1 & E & (H1 & H2 & H3 & H4 & H5 & H6 & H7 & H8) & B1 & C1 & _).
  rewrite (bind_done (on_flash _) _ a0 cfg (set_flash c1 a0)) by (unfold on_flash; by rewrite E).
  destruct (stored_string (wifi_ssid cfg) wifissid 14) as (s1 & Es & ->); [by_decide|done|by rewrite H5|].
  rewrite (access_bind _ _ _ (wifissid ++ 0 :: zdrop 15 (wifi_ssid cfg))) by exact Es.
  destruct (stored_string (wifi_key cfg) wifikey 17) as (k1 & Ek & ->); [by_decide|done|by rewrite H7|].
  rewrite (access_bind _ _ _ (wifikey ++ 0 :: zdrop 18 (wifi_key cfg))) by exact Ek.
  erewrite (bind_done (modify _)) by reflexivity. cbn beta.
  erewrite (bind_done (gets config)) by reflexivity.
  cbn [config set_config set_flash cfg_flag wifi_ssid wifi_key].
  assert (Hflag : Z.land (Z.lor (cfg_flag cfg) XPG_CFG_FLAG_CONNECTED) XPG_CFG_FLAG_CONNECTED =
    XPG_CFG_FLAG_CONNECTED).
  { apply Z.bits_inj'. intros i Hi'. rewrite Z.land_spec, Z.lor_spec. by destruct (Z.testbit (cfg_flag cfg) i), (Z.testbit _ i). }
  rewrite Hflag, Z.eqb_refl. erewrite (bind_done (modify _)) by reflexivity.
  set (a2 := set_status _ _).
  assert (Hcr : credentials_ok a2 wifissid wifikey).
  { split; [apply (ok_mac _ Hs)|]. split; [apply (ok_mac _ Hs)|]. repeat split; by_decide. }
  pose proof (connect_waits wifissid (zdrop 15 (wifi_ssid cfg)) wifikey (zdrop 18 (wifi_key cfg))
    (replicate k Quiet ++ Event SYS_EVT_LINK_UP :: w) a2 Hcr Hw) as Ew.
  rewrite (connect_ends wifissid wifikey k SYS_EVT_LINK_UP w a2) in Ew.
  rewrite (bind_done _ _ _ _ _ Ew). cbn [negb Z.eqb].
  eexists. split; [reflexivity|]. split; [done|]. split; [|exact C1].
  apply (start_params_joins wifissid wifikey (sys a2)). split; by_decide.
Qed.

Lemma count_run {chip} {SPI : Spi chip} j : forall n i (a : Agent chip) W G,
  world a = replicate j Quiet ++ W -> gpio a = replicate j 0 ++ G ->
  count_pressed (j + n) i a = count_pressed n (i + Z.of_nat j) (set_gpio G (set_world W a)).
Proof.
  induction j as [|j IH]; intros n i a W G Hw Hg.
  { simpl in *. rewrite Z.add_0_r. f_equal. destruct a; simpl in *. by subst. }
  cbn [Nat.add count_pressed].
  rewrite (bind_done OSTimeDly _ a tt (set_world (replicate j Quiet ++ W) a))
    by (unfold OSTimeDly; by rewrite Hw).
  rewrite (bind_done BSP_GPIOGetValue _ _ 0 (set_gpio (replicate j 0 ++ G) (set_world (replicate j Quiet ++ W) a)))
    by (unfold BSP_GPIOGetValue; cbn [gpio set_world]; by rewrite Hg).
  rewrite Z.eqb_refl. rewrite (IH n _ _ W G) by done. f_equal. lia.
Qed.

(** * Properties *)

(** Datagrams served one after the other. *)
Fixpoint serve {chip} {SPI : Spi chip} {HP : Heap} polls (ds : list (list Z * Z)) : M (Agent chip) unit :=
  match ds with
  | [] => mret tt
  | (buf, n) :: ds => Socket_DispatchUDPData polls buf n;; serve polls ds
  end.

(** C27: from a well-formed agent, starting up and then serving any datagrams
    (each in the 2048-byte receive buffer, of whatever contents and length),
    with any events of the radio and any results of the sockets, never leaves
    an object: the agent waits, resets or returns with its parameters and its
    saved record well formed and the flash idle.  The sector buffer of the
    flash is granted and the chip gets idle within the polls; the stored key must
    be a terminated string when the start-up reads it, the direct configuration
    delivers nothing before it is started, and a key it delivers has at most
    63 characters, so that its array holds a terminator ([happening_ok]; with
    64, [direct_config_key_overread]). *)
Theorem agent_memory_safe {chip} {SPI : Spi chip} {NF : NorFlash chip} {HP : Heap} polls (a : Agent chip) ds
  (Hpolls : (busy_max < polls)%nat) (Hm : is_Some (malloc FLASH_SECTOR_SIZE))
  (Hsz : AGENT_CONFIG_DATA_ADDR + sizeof_Agent_config_t <= size)
  (Ha : agent_ok a) (Ht : terminated (PSK (WiFiCfg (SysParam (sys a)))))
  (Hh : not_filled (head (world a)))
  (Hds : Forall (fun d => Bytes (fst d) /\ zlen (fst d) = 2048) ds) :
  match (Agent_network_init polls;; serve polls ds) a with
  | Done _ a' | Err _ a' => agent_ok a'
  | Crash => False
  end.
Proof.
  assert (Hs : safe (serve polls ds)).
  { induction Hds as [|[buf n] ds [Hb Hl] _ IH]; [apply safe_ret|]. cbn [serve].
    apply safe_bind; [apply safe_dispatch; [done..|simpl in Hl; lia]|intros _; exact IH]. }
  pose proof (network_init_ok polls Hpolls Hm Hsz a Ha Ht Hh) as Hi.
  apply (awp_bind (Agent_network_init polls) (fun _ => serve polls ds) a (fun _ a' => agent_ok a')).
  eapply awp_mono; [exact Hi|]. intros [] a1 Ha1. by apply Hs.
Qed.

Lemma log_crashes {chip} (a : Agent chip) : let w := WiFiCfg (SysParam (sys a)) in
  terminated (Ssid w) -> Forall (fun c => c <> 0) (PSK w) -> KeyLength w <> 0 ->
  log_credentials a = Crash.
Proof.
  intros w Hs Hp Hk. unfold log_credentials.
  destruct (strlen_list_terminated _ Hs) as (n & En & _).
  rewrite (access_bind _ _ _ n) by (unfold strlen; by rewrite zdrop_0).
  erewrite (bind_done (gets _)) by reflexivity. rewrite (proj2 (Z.eqb_neq _ 0)) by done.
  apply bind_crash. unfold access, strlen. rewrite zdrop_0 by done. by rewrite strlen_list_None.
Qed.

(** A key of 64 characters, the longest the array takes, has no terminator:
    when the direct configuration delivers one, printing it reads on behind
    the array. *)
Theorem direct_config_key_overread {chip} {SPI : Spi chip} {HP : Heap}
  polls (a : Agent chip) k ssid psk keylen w :
  sys_ok (sys a) -> terminated (PSK (WiFiCfg (SysParam (sys a)))) ->
  world a = replicate k Quiet ++ Filled ssid psk keylen :: w ->
  terminated ssid -> Forall (fun c => c <> 0) psk -> keylen <> 0 ->
  StartDirectConfigConn polls a = Crash.
Proof.
  intros Ha Ht Hw Hs Hp Hk. unfold StartDirectConfigConn.
  destruct (ok_Ssid _ (wifi_of _ Ha)) as [Hf1 Ht1].
  destruct (clear_str_ok _ 33 Hf1 Ht1) as (s1 & E1 & _).
  destruct (clear_str_ok _ 64 (ok_psk _ (wifi_of _ Ha)) Ht) as (p1 & E2 & _).
  rewrite (access_bind _ _ _ s1) by exact E1.
  erewrite (bind_done (inf _)) by reflexivity.
  rewrite (access_bind _ _ _ p1) by exact E2.
  do 3 (erewrite (bind_done (S := Agent chip)) by reflexivity; cbn beta).
  set (cond := fun a0 : Agent chip => negb (DirectCfgFlag a0 =? 1)).
  set (a1 := set_sys _ (set_DirectCfgFlag 0 _)).
  assert (Ew : exists a2, wait_loop cond a1 = Done tt a2 /\
    WiFiCfg (SysParam (sys a2)) = set_KeyLength keylen (set_PSK psk (set_Ssid ssid (WiFiCfg (SysParam (sys a1)))))).
  { unfold wait_loop. replace (S (Datatypes.length (world a1))) with (k + S (S (Datatypes.length w)))%nat.
    2:{ change (world a1) with (world a). rewrite Hw, length_app, length_replicate. simpl. lia. }
    rewrite (wait_quiet cond k _ a1 (Filled ssid psk keylen :: w)) by done.
    eexists. split; reflexivity. }
  destruct Ew as (a2 & E & Ew). rewrite (bind_done _ _ _ _ _ E).
  do 2 (erewrite (bind_done (S := Agent chip)) by reflexivity; cbn beta).
  apply bind_crash, log_crashes; cbn [sys set_sys SysParam set_posted set_DirectCfgFlag WiFiCfg];
    change (WiFiCfg (SysParam _)) with (WiFiCfg (SysParam (sys a2))); rewrite Ew; done.
Qed.

(** A configuration datagram with a network name and a key makes the agent
    join that network; once the link is up, and whatever follows, the flash
    holds the record with this name and the first 32 bytes of this key, padded
    with zeros, and every cell outside the record is as before. *)
Theorem softap_provisioning {chip} {SPI : Spi chip} {NF : NorFlash chip} {HP : Heap}
  polls hdr ssid pass rest n k w (a : Agent chip)
  (Hpolls : (busy_max < polls)%nat) (Hm : is_Some (malloc FLASH_SECTOR_SIZE))
  (Hsz : AGENT_CONFIG_DATA_ADDR + sizeof_Agent_config_t <= size)
  (Ha : agent_ok a) (Hh : config_header hdr) (Hs : text ssid /\ 1 <= zlen ssid <= 32)
  (Hp : text pass /\ zlen pass <= 64) (Hw : Forall happening_ok w)
  (Hworld : world a = Quiet :: Quiet :: replicate k Quiet ++ Event SYS_EVT_LINK_UP :: w) :
  exists e a', Socket_DispatchUDPData polls (config_datagram hdr ssid pass rest) n a = Err e a' /\
    rest_kept (flash a) (flash a') /\
    stored (flash a') (mkCfg (magicNumber (config a)) (Z.lor (cfg_flag (config a)) 1)
      (wifipasscode (config a)) (ztake 32 (padded ssid 33)) (ztake 32 (padded pass 65))) /\
    onboarding a' = SYS_STATUS_ONBOARDING_SUCCESS.
Proof.
  destruct Hs as [Hs1 Hs2], Hp as [Hp1 Hp2]. rewrite dispatch_parses by done.
  destruct (ok_mac _ (ok_sys a Ha)) as [Hl Hb].
  pose proof (conj Hl (conj Hb (conj Hs1 (conj Hs2 (conj Hp1 Hp2)))) : credentials_ok a ssid pass) as Hc.
  exact (provision_saves polls Hpolls Hm Hsz ssid pass k w a Ha Hc Hw Hworld).
Qed.

(** In soft-AP mode, where provisioning happens, a network that cannot be
    joined does not make the handler return: the event callback takes the
    failure for one of the access point and resets the chip, with nothing
    saved and the onboarding status left at "onboarding". *)
Theorem softap_join_failure_resets {chip} {SPI : Spi chip} {NF : NorFlash chip} {HP : Heap}
  polls hdr ssid pass rest n k w (a : Agent chip)
  (Ha : agent_ok a) (Hh : config_header hdr) (Hs : text ssid /\ 1 <= zlen ssid <= 32)
  (Hp : text pass /\ zlen pass <= 64)
  (Hworld : world a = Quiet :: Quiet :: replicate k Quiet ++ Event SYS_EVT_JOIN_FAIL :: w) :
  exists a', flash a' = flash a /\ config a' = config a /\ onboarding a' = SYS_STATUS_ONBOARDING /\
    Socket_DispatchUDPData polls (config_datagram hdr ssid pass rest) n a =
      if status a =? SYS_STATUS_WIFI_SOFTAP then Err RESET a' else Done tt a'.
Proof.
  destruct Hs as [Hs1 Hs2], Hp as [Hp1 Hp2]. rewrite dispatch_parses by done.
  destruct (ok_mac _ (ok_sys a Ha)) as [Hl Hb].
  pose proof (conj Hl (conj Hb (conj Hs1 (conj Hs2 (conj Hp1 Hp2)))) : credentials_ok a ssid pass) as Hc.
  rewrite (provision_runs polls ssid pass k SYS_EVT_JOIN_FAIL w a Hc Hworld).
  eexists. refine (conj _ (conj _ (conj _ eq_refl))); reflexivity.
Qed.

(** At the next start the saved record is read but not used: whatever
    network it names, the agent joins the fixed test network. *)
Theorem saved_network_not_used {chip} {SPI : Spi chip} {NF : NorFlash chip} {HP : Heap}
  polls cfg v g k w (a : Agent chip)
  (Hpolls : (busy_max < polls)%nat) (Hsz : AGENT_CONFIG_DATA_ADDR + sizeof_Agent_config_t <= size)
  (Ha : agent_ok a) (Hst : cfg_ok cfg /\ stored (flash a) cfg) (Hg : gpio a = v :: g /\ v <> 0)
  (Hworld : world a = Quiet :: Quiet :: replicate k Quiet ++ Event SYS_EVT_LINK_UP :: w) :
  exists a', Agent_network_init polls a = Done tt a' /\
    status a' = SYS_STATUS_WIFI_STA_CONNECTED /\
    joins (sys a') wifissid wifikey /\ content (cells (flash a')) AGENT_CONFIG_DATA_ADDR sizeof_Agent_config_t = cfg_image cfg.
Proof.
  destruct Hg as [Hg Hv], Hst as [Hc [_ Hst]]. unfold Agent_network_init.
  rewrite (bind_done BSP_GPIOGetValue _ a v (set_gpio g a)) by (unfold BSP_GPIOGetValue; by rewrite Hg).
  destruct (Z.eqb_spec v 0); [done|].
  destruct (connect_saved_runs k w (set_gpio g a) polls Hpolls Hsz) as (a' & E & S & J & C); [|done|].
  { destruct Ha. by constructor. }
  exists a'. repeat split; try done; try apply J. rewrite <- Hst. apply content_ext. intros x Hx.
  unfold AGENT_CONFIG_DATA_ADDR, sizeof_Agent_config_t in *. apply C. lia.
Qed.

(** The reset button, held for its first sample and the seven half seconds
    after it, makes the agent store a record without credentials and reset;
    released before that, nothing is stored. *)
Theorem reset_button {chip} {SPI : Spi chip} {NF : NorFlash chip} {HP : Heap} polls (a : Agent chip) G W
  (Hpolls : (busy_max < polls)%nat) (Hm : is_Some (malloc FLASH_SECTOR_SIZE))
  (Hsz : AGENT_CONFIG_DATA_ADDR + sizeof_Agent_config_t <= size)
  (Ha : agent_ok a) (Hf : system_reset_flag a = 305419896) :
  (gpio a = replicate 8 0 ++ G -> world a = replicate 8 Quiet ++ W ->
   exists a', SysReset_turn polls a = Err RESET a' /\ rest_kept (flash a) (flash a') /\
     stored (flash a') (mkCfg (magicNumber (config a)) 0 (wifipasscode (config a))
       (replicate 32 0) (replicate 32 0))) /\
  (forall j v, (j < 7)%nat -> v <> 0 ->
   gpio a = replicate (S j) 0 ++ v :: G -> world a = replicate (S (S j)) Quiet ++ W ->
   exists a', SysReset_turn polls a = Done tt a' /\ flash a' = flash a).
Proof.
  destruct Ha as [Hs Hc Hi _]. unfold SysReset_turn. split.
  - intros Hg Hw.
    erewrite (bind_done (gets system_reset_flag)) by reflexivity. rewrite Hf, Z.eqb_refl.
    destruct (nl6621_SaveConfigData_spec polls Hpolls Hm Hsz (flash a)
      (mkCfg (magicNumber (config a)) 0 (wifipasscode (config a)) (replicate 32 0) (replicate 32 0)) Hi)
      as (c1 & E & S1 & R1).
    { destruct Hc as (? & _ & ? & ? & _). unfold cfg_ok. simpl. repeat split_and; try done; by_decide. }
    set (a1 := set_gpio (replicate 7 0 ++ G) a).
    set (a2 := set_gpio G (set_world (Quiet :: W) a1)).
    exists (set_world W (set_flash c1 a2)). split; [|by split].
    apply bind_err. cbv iota.
    rewrite (bind_done BSP_GPIOGetValue _ a 0 a1) by (unfold BSP_GPIOGetValue; by rewrite Hg).
    rewrite Z.eqb_refl. change (Z.to_nat USER_RESET_PRESS_TIMEOUT) with (7 + 0)%nat.
    rewrite (bind_done (count_pressed (7 + 0) 0) _ a1 7 a2) by (by apply (count_run 7 0 0 a1 (Quiet :: W) G)).
    rewrite Z.eqb_refl. rewrite (bind_done (gets config) _ a2 (config a) a2) by done.
    rewrite (bind_done (on_flash _) _ a2 tt (set_flash c1 a2))
      by (unfold on_flash, SysReset_config; change (flash a2) with (flash a); by rewrite E).
    reflexivity.
  - intros j v Hj Hv Hg Hw.
    erewrite (bind_done (gets system_reset_flag)) by reflexivity. rewrite Hf, Z.eqb_refl.
    set (a1 := set_gpio (replicate j 0 ++ v :: G) a).
    set (a2 := set_gpio G (set_world (Quiet :: W) a1)).
    exists (set_world W a2). split; [|done]. rewrite (bind_done _ _ a tt a2); [reflexivity|].
    rewrite (bind_done BSP_GPIOGetValue _ a 0 a1) by (unfold BSP_GPIOGetValue; by rewrite Hg).
    rewrite Z.eqb_refl. change (Z.to_nat USER_RESET_PRESS_TIMEOUT) with 7%nat.
    assert (E : count_pressed 7 0 a1 = Done (Z.of_nat j) a2).
    { replace 7%nat with (j + S (6 - j))%nat by lia.
      rewrite (count_run j _ 0 a1 (Quiet :: Quiet :: W) (v :: G)).
      - cbn [count_pressed]. rewrite (bind_done OSTimeDly _ _ tt (set_gpio (v :: G) (set_world (Quiet :: W) a1))) by done.
        rewrite (bind_done BSP_GPIOGetValue _ _ v a2) by done.
        unfold USER_RESET_BUTTON_PRESS. by destruct (Z.eqb_spec v 0).
      - change (world a1) with (world a). rewrite Hw. replace (S (S j)) with (j + 2)%nat by lia.
        by rewrite replicate_add, <- app_assoc.
      - done. }
    rewrite (bind_done (count_pressed 7 0) _ a1 (Z.of_nat j) a2) by exact E.
    unfold USER_RESET_PRESS_TIMEOUT. destruct (Z.eqb_spec (Z.of_nat j) 7); [lia|].
    reflexivity.
Qed.

(** ** Witnesses *)

Definition agent0 (st : Z) (w : list happening) (g : list Z) : Agent Sim :=
  mkAgent (set_SysParam (default_param [22; 170; 187; 204]) boot) sim0 cfg0 0 0 st 3 305419896 w g [0; 0; -1; 5] [].

Lemma agent0_ok st w g : Forall happening_ok w -> agent_ok (agent0 st w g).
Proof. intros Hw. constructor; [apply sys_boot_ok|by_decide|reflexivity|exact Hw]. Qed.

Definition home_hdr : list Z := [20; 0; 17; 0; 0; 0; 0; 0].
Definition home_datagram : list Z :=
  config_datagram home_hdr (lit "home") (lit "secret77") (replicate 2026 0).
Definition joined_world (e : SYS_EVT_ID) : list happening :=
  Quiet :: Quiet :: replicate 3 Quiet ++ Event e :: [Quiet; Event SYS_EVT_LINK_DOWN].

Lemma joined_world_ok e : Forall happening_ok (joined_world e).
Proof. repeat (apply Forall_cons_2; [exact I|]). apply Forall_nil_2. Qed.

(** The direct configuration delivers a network and a key. *)
Definition direct_world : list happening :=
  [Quiet; Quiet; Filled (padded (lit "home") 33) (padded (lit "secret77") 64) 8] ++
  joined_world SYS_EVT_LINK_UP.

Lemma direct_world_ok : Forall happening_ok direct_world.
Proof.
  repeat (apply Forall_cons_2; [exact I|]). apply Forall_cons_2; [|apply joined_world_ok].
  repeat split_and; by_decide.
Qed.

Lemma psk0_terminated st w g :
  terminated (PSK (WiFiCfg (SysParam (sys (agent0 st w g))))).
Proof. apply Exists_exists. exists 0. split; [|reflexivity]. apply list_elem_of_In. by_decide. Qed.

(** The button is held, then datagrams arrive. *)
Lemma agent_memory_safe_witness :
  match (Agent_network_init (HP := zero_heap 4096) 5;;
         serve (HP := zero_heap 4096) 5 [(home_datagram, 23); (replicate 2048 255, 1)])
    (agent0 0 direct_world [0; 0]) with
  | Done _ a' | Err _ a' => agent_ok a'
  | Crash => False
  end.
Proof.
  apply (agent_memory_safe (HP := zero_heap 4096)).
  - by_decide.
  - by_decide.
  - by_decide.
  - apply agent0_ok, direct_world_ok.
  - apply psk0_terminated.
  - exact I.
  - repeat (apply Forall_cons_2; [by_decide|]). apply Forall_nil_2.
Defined.

Lemma direct_config_key_overread_witness :
  StartDirectConfigConn (HP := zero_heap 4096) 5
    (agent0 0 [Quiet; Filled (padded (lit "home") 33) (replicate 64 65) 64] []) = Crash.
Proof.
  apply (direct_config_key_overread (HP := zero_heap 4096) 5 _ 1
    (padded (lit "home") 33) (replicate 64 65) 64 []).
  - apply sys_boot_ok.
  - apply psk0_terminated.
  - reflexivity.
  - by_decide.
  - by_decide.
  - by_decide.
Defined.

Lemma home_ok : text (lit "home") /\ 1 <= zlen (lit "home") <= 32.
Proof. split; [split; by_decide|by_decide]. Qed.

Lemma secret_ok : text (lit "secret77") /\ zlen (lit "secret77") <= 64.
Proof. split; [split; by_decide|by_decide]. Qed.

Lemma softap_provisioning_witness : exists e a',
  Socket_DispatchUDPData (HP := zero_heap 4096) 5 home_datagram 23
    (agent0 1 (joined_world SYS_EVT_LINK_UP) []) = Err e a' /\
  rest_kept sim0 (flash a') /\
  stored (flash a') (mkCfg 7 3 (replicate 16 1) (ztake 32 (padded (lit "home") 33))
    (ztake 32 (padded (lit "secret77") 65))) /\
  onboarding a' = SYS_STATUS_ONBOARDING_SUCCESS.
Proof.
  apply (softap_provisioning (HP := zero_heap 4096) 5 home_hdr (lit "home") (lit "secret77")
    (replicate 2026 0) 23 3 [Quiet; Event SYS_EVT_LINK_DOWN]
    (agent0 1 (joined_world SYS_EVT_LINK_UP) [])).
  - by_decide.
  - by_decide.
  - by_decide.
  - apply agent0_ok, joined_world_ok.
  - split; by_decide.
  - apply home_ok.
  - apply secret_ok.
  - repeat (apply Forall_cons_2; [exact I|]). apply Forall_nil_2.
  - reflexivity.
Defined.

Lemma softap_join_failure_resets_witness : exists a',
  flash a' = sim0 /\ config a' = cfg0 /\ onboarding a' = SYS_STATUS_ONBOARDING /\
  Socket_DispatchUDPData (HP := zero_heap 4096) 5 home_datagram 23
    (agent0 1 (joined_world SYS_EVT_JOIN_FAIL) []) = Err RESET a'.
Proof.
  apply (softap_join_failure_resets (HP := zero_heap 4096) 5 home_hdr (lit "home") (lit "secret77")
    (replicate 2026 0) 23 3 [Quiet; Event SYS_EVT_LINK_DOWN]
    (agent0 1 (joined_world SYS_EVT_JOIN_FAIL) [])).
  - apply agent0_ok, joined_world_ok.
  - split; by_decide.
  - apply home_ok.
  - apply secret_ok.
  - reflexivity.
Defined.

(** A chip whose configuration area holds [cfg0]. *)
Definition sim_saved : Sim := mkSim (put (fun _ => 255) AGENT_CONFIG_DATA_ADDR (cfg_image cfg0)) false 0.

Definition agent_saved : Agent Sim :=
  mkAgent (set_SysParam (default_param [22; 170; 187; 204]) boot) sim_saved cfg0 0 0 0 3 0
    (joined_world SYS_EVT_LINK_UP) [1] [] [].

Lemma saved_network_not_used_witness : exists a',
  Agent_network_init (HP := zero_heap 4096) 5 agent_saved = Done tt a' /\
  status a' = SYS_STATUS_WIFI_STA_CONNECTED /\ joins (sys a') wifissid wifikey /\
  content (cells (flash a')) AGENT_CONFIG_DATA_ADDR sizeof_Agent_config_t = cfg_image cfg0.
Proof.
  apply (saved_network_not_used (HP := zero_heap 4096) 5 cfg0 1 [] 3
    [Quiet; Event SYS_EVT_LINK_DOWN] agent_saved).
  - by_decide.
  - by_decide.
  - constructor; [apply sys_boot_ok|by_decide|reflexivity|apply joined_world_ok].
  - split; [by_decide|]. split; [reflexivity|]. by vm_compute.
  - by_decide.
  - reflexivity.
Defined.

Lemma reset_button_witness : exists a',
  SysReset_turn (HP := zero_heap 4096) 5 (agent0 3 (replicate 8 Quiet ++ [Quiet]) (replicate 8 0 ++ [])) =
    Err RESET a' /\
  rest_kept sim0 (flash a') /\
  stored (flash a') (mkCfg 7 0 (replicate 16 1) (replicate 32 0) (replicate 32 0)).
Proof.
  apply (reset_button (HP := zero_heap 4096) 5 (agent0 3 (replicate 8 Quiet ++ [Quiet]) (replicate 8 0 ++ []))
    [] [Quiet]); try by_decide; try reflexivity.
  apply agent0_ok. repeat (apply Forall_cons_2; [exact I|]). apply Forall_nil_2.
Defined.
