(* ===== verification/Crc.v ===== *)
(** The checksums of Sys/util.c: CRC-8 by table and CRC-32 by an unrolled
    circuit, against their bit-by-bit definitions. *)
From S2P Require Import Prelude.
From Stdlib Require Import Btauto.

(** * CRC-8 *)

Definition __crc8_tbl : list Z :=
  [
   0; 145; 227; 114; 7; 150; 228; 117; 14; 159; 237; 124; 9; 152; 234; 123;
   28; 141; 255; 110; 27; 138; 248; 105; 18; 131; 241; 96; 21; 132; 246; 103;
   56; 169; 219; 74; 63; 174; 220; 77; 54; 167; 213; 68; 49; 160; 210; 67;
   36; 181; 199; 86; 35; 178; 192; 81; 42; 187; 201; 88; 45; 188; 206; 95;
   112; 225; 147; 2; 119; 230; 148; 5; 126; 239; 157; 12; 121; 232; 154; 11;
   108; 253; 143; 30; 107; 250; 136; 25; 98; 243; 129; 16; 101; 244; 134; 23;
   72; 217; 171; 58; 79; 222; 172; 61; 70; 215; 165; 52; 65; 208; 162; 51;
   84; 197; 183; 38; 83; 194; 176; 33; 90; 203; 185; 40; 93; 204; 190; 47;
   224; 113; 3; 146; 231; 118; 4; 149; 238; 127; 13; 156; 233; 120; 10; 155;
   252; 109; 31; 142; 251; 106; 24; 137; 242; 99; 17; 128; 245; 100; 22; 135;
   216; 73; 59; 170; 223; 78; 60; 173; 214; 71; 53; 164; 209; 64; 50; 163;
   196; 85; 39; 182; 195; 82; 32; 177; 202; 91; 41; 184; 205; 92; 46; 191;
   144; 1; 115; 226; 151; 6; 116; 229; 158; 15; 125; 236; 153; 8; 122; 235;
   140; 29; 111; 254; 139; 26; 104; 249; 130; 19; 97; 240; 133; 20; 102; 247;
   168; 57; 75; 218; 175; 62; 76; 221; 166; 55; 69; 212; 161; 48; 66; 211;
   180; 37; 87; 198; 179; 34; 80; 193; 186; 43; 89; 200; 189; 44; 94; 207].

(** The loop counts [len] down; [len--] wraps only after the last turn. *)
Fixpoint crc8_loop (fuel : nat) (data : list Z) (i len crc8 : Z) : option Z :=
  match fuel with
  | O => None
  | S fuel =>
      if len =? 0 then Some crc8
      else
        d ← ld data i;
        t ← ld __crc8_tbl (Z.lxor crc8 d);
        crc8_loop fuel data (i + 1) (u32 (len - 1)) t
  end.

Definition NST_GetCrc8 (ptr : list Z) (len : Z) : option Z :=
  crc8_loop (S (Z.to_nat len)) ptr 0 len 0.

(** * CRC-32 *)

#[local] Infix "^^" := Z.lxor (at level 50, left associativity).

(** The array [crc_out], from the bits [d] of the data and [c] of the register. *)
Definition crc_out (d c : Z -> Z) : list Z :=
  [
   d 1 ^^ d 7 ^^ c 30 ^^ c 24;
   d 0 ^^ d 1 ^^ d 6 ^^ d 7 ^^ c 31 ^^ c 30 ^^ c 25 ^^ c 24;
   d 0 ^^ d 1 ^^ d 5 ^^ d 6 ^^ d 7 ^^ c 31 ^^ c 30 ^^ c 26 ^^ c 25 ^^ c 24;
   d 0 ^^ d 4 ^^ d 5 ^^ d 6 ^^ c 31 ^^ c 27 ^^ c 26 ^^ c 25;
   d 1 ^^ d 3 ^^ d 4 ^^ d 5 ^^ d 7 ^^ c 30 ^^ c 28 ^^ c 27 ^^ c 26 ^^ c 24;
   d 0 ^^ d 1 ^^ d 2 ^^ d 3 ^^ d 4 ^^ d 6 ^^ d 7 ^^ c 31 ^^ c 30 ^^ c 29 ^^ c 28 ^^ c 27
     ^^ c 25 ^^ c 24;
   d 0 ^^ d 1 ^^ d 2 ^^ d 3 ^^ d 5 ^^ d 6 ^^ c 31 ^^ c 30 ^^ c 29 ^^ c 28 ^^ c 26 ^^ c
     25;
   d 0 ^^ d 2 ^^ d 4 ^^ d 5 ^^ d 7 ^^ c 31 ^^ c 29 ^^ c 27 ^^ c 26 ^^ c 24;
   d 3 ^^ d 4 ^^ d 6 ^^ d 7 ^^ c 28 ^^ c 27 ^^ c 25 ^^ c 24 ^^ c 0;
   d 2 ^^ d 3 ^^ d 5 ^^ d 6 ^^ c 29 ^^ c 28 ^^ c 26 ^^ c 25 ^^ c 1;
   d 2 ^^ d 4 ^^ d 5 ^^ d 7 ^^ c 29 ^^ c 27 ^^ c 26 ^^ c 24 ^^ c 2;
   d 3 ^^ d 4 ^^ d 6 ^^ d 7 ^^ c 28 ^^ c 27 ^^ c 25 ^^ c 24 ^^ c 3;
   d 1 ^^ d 2 ^^ d 3 ^^ d 5 ^^ d 6 ^^ d 7 ^^ c 30 ^^ c 29 ^^ c 28 ^^ c 26 ^^ c 25 ^^ c
     24 ^^ c 4;
   d 0 ^^ d 1 ^^ d 2 ^^ d 4 ^^ d 5 ^^ d 6 ^^ c 31 ^^ c 30 ^^ c 29 ^^ c 27 ^^ c 26 ^^ c
     25 ^^ c 5;
   d 0 ^^ d 1 ^^ d 3 ^^ d 4 ^^ d 5 ^^ c 31 ^^ c 30 ^^ c 28 ^^ c 27 ^^ c 26 ^^ c 6;
   d 0 ^^ d 2 ^^ d 3 ^^ d 4 ^^ c 31 ^^ c 29 ^^ c 28 ^^ c 27 ^^ c 7;
   d 2 ^^ d 3 ^^ d 7 ^^ c 29 ^^ c 28 ^^ c 24 ^^ c 8;
   d 1 ^^ d 2 ^^ d 6 ^^ c 30 ^^ c 29 ^^ c 25 ^^ c 9;
   d 0 ^^ d 1 ^^ d 5 ^^ c 31 ^^ c 30 ^^ c 26 ^^ c 10;
   d 0 ^^ d 4 ^^ c 31 ^^ c 27 ^^ c 11;
   d 3 ^^ c 28 ^^ c 12;
   d 2 ^^ c 29 ^^ c 13;
   d 7 ^^ c 24 ^^ c 14;
   d 1 ^^ d 6 ^^ d 7 ^^ c 30 ^^ c 25 ^^ c 24 ^^ c 15;
   d 0 ^^ d 5 ^^ d 6 ^^ c 31 ^^ c 26 ^^ c 25 ^^ c 16;
   d 4 ^^ d 5 ^^ c 27 ^^ c 26 ^^ c 17;
   d 1 ^^ d 3 ^^ d 4 ^^ d 7 ^^ c 30 ^^ c 28 ^^ c 27 ^^ c 24 ^^ c 18;
   d 0 ^^ d 2 ^^ d 3 ^^ d 6 ^^ c 31 ^^ c 29 ^^ c 28 ^^ c 25 ^^ c 19;
   d 1 ^^ d 2 ^^ d 5 ^^ c 30 ^^ c 29 ^^ c 26 ^^ c 20;
   d 0 ^^ d 1 ^^ d 4 ^^ c 31 ^^ c 30 ^^ c 27 ^^ c 21;
   d 0 ^^ d 3 ^^ c 31 ^^ c 28 ^^ c 22;
   d 2 ^^ c 23 ^^ c 29].

(** [for (i...) if (bits[i]) r |= (1<<i);] *)
Fixpoint collect (bits : list Z) (i r : Z) : Z :=
  match bits with
  | [] => r
  | b :: bits => collect bits (i + 1) (if b =? 0 then r else s32 (Z.lor r (s32 (Z.shiftl 1 i))))
  end.

Definition _cal_crc32 (crc_result data_8 : Z) : Z :=
  let flag := 1 in
  let in_data_buf i := Z.land (Z.shiftr data_8 i) flag in
  let crc_buf i := Z.land (u8 (Z.shiftr crc_result i)) flag in
  collect (crc_out in_data_buf crc_buf) 0 0.

Fixpoint crc32_loop (fuel : nat) (pData : list Z) (i DataSize crc_result : Z) : option Z :=
  match fuel with
  | O => None
  | S fuel =>
      if i <? DataSize then
        x ← ld pData i;
        crc32_loop fuel pData (i + 1) DataSize (_cal_crc32 crc_result x)
      else Some crc_result
  end.

(** [for (i...) if ((crc_result>>i) & 0x1) val |= (1<<(31-i));] *)
Fixpoint mirror (n : nat) (i crc_result val : Z) : Z :=
  match n with
  | O => val
  | S n =>
      mirror n (i + 1) crc_result
        (if Z.land (Z.shiftr crc_result i) 1 =? 0 then val
         else s32 (Z.lor val (s32 (Z.shiftl 1 (31 - i)))))
  end.

Definition NST_GetCrc32 (pData : list Z) (DataSize : Z) : option Z :=
  crc_result ← crc32_loop (S (Z.to_nat DataSize)) pData 0 DataSize (s32 4294967295);
  Some (Z.lnot (mirror 32 0 crc_result 0)).

(** * Reference definitions

    The usual reflected registers, one bit of input at a time, least
    significant bit first. *)

Definition shift_bit (poly r : Z) (b : bool) : Z :=
  Z.lxor (Z.shiftr r 1) (if xorb (Z.odd r) b then poly else 0).

Definition shift_byte (poly r x : Z) : Z :=
  fold_left (fun r i => shift_bit poly r (Z.testbit x i)) [0; 1; 2; 3; 4; 5; 6; 7] r.

(** CRC-8 with x^8+x^2+x+1, CRC-32 with the polynomial of IEEE 802.3. *)
Definition crc8 (data : list Z) : Z := fold_left (shift_byte 224) data 0.
Definition crc32 (data : list Z) : Z :=
  Z.lxor (fold_left (shift_byte 3988292384) data 4294967295) 4294967295.

Example crc8_check : crc8 [49; 50; 51; 52; 53; 54; 55; 56; 57] = 32.
Proof. vm_compute. reflexivity. Qed.
Example crc32_check : crc32 [49; 50; 51; 52; 53; 54; 55; 56; 57] = 3421780262.
Proof. vm_compute. reflexivity. Qed.

(** * Bits *)

Lemma testbit_s32 x i : 0 <= i < 32 -> Z.testbit (s32 x) i = Z.testbit x i.
Proof.
  intros Hi. unfold s32.
  rewrite <- (Z.mod_pow2_bits_low ((x + 2147483648) mod 4294967296 - 2147483648) 32) by lia.
  rewrite <- (Z.mod_pow2_bits_low x 32) by lia. f_equal.
  change (2 ^ 32) with 4294967296.
  rewrite Zminus_mod_idemp_l. f_equal. lia.
Qed.

Lemma testbit_u32 x i : 0 <= i < 32 -> Z.testbit (u32 x) i = Z.testbit x i.
Proof. intros Hi. apply (Z.mod_pow2_bits_low x 32). lia. Qed.

Lemma land_1_b2z x i : 0 <= i -> Z.land (Z.shiftr x i) 1 = Z.b2z (Z.testbit x i).
Proof.
  intros Hi. apply Z.bits_inj'. intros n Hn.
  rewrite Z.land_spec, Z.shiftr_spec by lia.
  destruct (Z.eqb_spec n 0) as [->|]; [rewrite andb_true_r; by destruct (Z.testbit x _)|].
  rewrite (Z.bits_above_log2 1 n) by (simpl; lia). rewrite andb_false_r.
  destruct (Z.testbit x i); [simpl Z.b2z; by rewrite (Z.bits_above_log2 1 n) by (simpl; lia)|].
  by rewrite Z.testbit_0_l.
Qed.

Lemma land_1_u8_b2z x i : 0 <= i -> Z.land (u8 (Z.shiftr x i)) 1 = Z.b2z (Z.testbit x i).
Proof.
  intros Hi. rewrite <- land_1_b2z by done. apply Z.bits_inj'. intros n Hn.
  rewrite !Z.land_spec. destruct (Z.eqb_spec n 0) as [->|].
  - f_equal. apply (Z.mod_pow2_bits_low _ 8). lia.
  - rewrite (Z.bits_above_log2 1 n) by (simpl; lia). by rewrite !andb_false_r.
Qed.

Lemma lxor_b2z a b : Z.lxor (Z.b2z a) (Z.b2z b) = Z.b2z (xorb a b).
Proof. by destruct a, b. Qed.

Lemma b2z_eqb_0 b : (Z.b2z b =? 0) = negb b.
Proof. by destruct b. Qed.

Lemma set_bit_testbit r i j :
  0 <= i < 32 -> 0 <= j < 32 ->
  Z.testbit (s32 (Z.lor r (s32 (Z.shiftl 1 i)))) j = Z.testbit r j || (j =? i).
Proof.
  intros Hi Hj. rewrite testbit_s32, Z.lor_spec, testbit_s32, Z.shiftl_spec by lia.
  f_equal. destruct (Z.eqb_spec j i) as [->|]; [by rewrite Z.sub_diag|].
  destruct (decide (j < i)); [rewrite Z.testbit_neg_r by lia; done|].
  apply Z.bits_above_log2; simpl; lia.
Qed.

(** The two loops that rebuild a word from its bits. *)
Lemma collect_testbit bits i r j :
  0 <= i -> i + zlen bits <= 32 -> 0 <= j < 32 ->
  Z.testbit (collect bits i r) j =
    Z.testbit r j || ((i <=? j) && negb (nth (Z.to_nat (j - i)) bits 0 =? 0)).
Proof.
  revert i r. induction bits as [|b bits IH]; intros i r Hi Hl Hj; simpl.
  - destruct (Z.to_nat (j - i)); simpl; by rewrite andb_false_r, orb_false_r.
  - unfold zlen in *. simpl in Hl. rewrite IH by lia.
    destruct (Z.leb_spec i j), (Z.leb_spec (i + 1) j); try lia; simpl.
    + replace (Z.to_nat (j - i)) with (S (Z.to_nat (j - (i + 1)))) by lia. simpl. f_equal.
      destruct (b =? 0); [done|]. rewrite set_bit_testbit by lia.
      destruct (Z.eqb_spec j i); [lia|by rewrite orb_false_r].
    + assert (j = i) as -> by lia. rewrite Z.sub_diag, orb_false_r. simpl.
      destruct (b =? 0); simpl; [by rewrite orb_false_r|].
      by rewrite set_bit_testbit, Z.eqb_refl by lia.
    + rewrite !orb_false_r. destruct (b =? 0); [done|]. rewrite set_bit_testbit by lia.
      destruct (Z.eqb_spec j i); [lia|by rewrite orb_false_r].
Qed.

Lemma mirror_testbit n i c val j :
  0 <= i -> i + Z.of_nat n <= 32 -> 0 <= j < 32 ->
  Z.testbit (mirror n i c val) j =
    Z.testbit val j || ((i <=? 31 - j) && (31 - j <? i + Z.of_nat n) && Z.testbit c (31 - j)).
Proof.
  revert i val. induction n as [|n IH]; intros i val Hi Hl Hj; simpl.
  - destruct (Z.leb_spec i (31 - j)), (Z.ltb_spec (31 - j) (i + Z.of_nat 0)); try lia;
      simpl; by rewrite orb_false_r.
  - rewrite IH by lia. rewrite land_1_b2z, b2z_eqb_0 by lia.
    destruct (decide (31 - j = i)) as [<-|].
    + rewrite Z.leb_refl.
      destruct (Z.leb_spec (31 - j + 1) (31 - j)); [lia|].
      destruct (Z.ltb_spec (31 - j) (31 - j + Z.of_nat (S n))); [|lia].
      simpl. rewrite orb_false_r. destruct (Z.testbit c (31 - j)); simpl.
      * rewrite set_bit_testbit by lia. replace (31 - (31 - j)) with j by lia.
        by rewrite Z.eqb_refl.
      * by rewrite orb_false_r.
    + f_equal.
      * destruct (Z.testbit c i); simpl; [|done]. rewrite set_bit_testbit by lia.
        destruct (Z.eqb_spec j (31 - i)); [lia|by rewrite orb_false_r].
      * f_equal. destruct (Z.leb_spec (i + 1) (31 - j)), (Z.leb_spec i (31 - j)),
          (Z.ltb_spec (31 - j) (i + 1 + Z.of_nat n)),
          (Z.ltb_spec (31 - j) (i + Z.of_nat (S n))); simpl; lia.
Qed.

Lemma shift_bit_testbit poly r b i :
  0 <= i ->
  Z.testbit (shift_bit poly r b) i =
    xorb (Z.testbit r (i + 1)) (xorb (Z.testbit r 0) b && Z.testbit poly i).
Proof.
  intros Hi. unfold shift_bit.
  rewrite Z.lxor_spec, Z.shiftr_spec, Z.bit0_odd by lia. f_equal.
  destruct (xorb (Z.odd r) b); [done|apply Z.testbit_0_l].
Qed.
(** * The circuit *)

(** A reflected register as its list of bits, least significant first. *)
Definition bits32 (r : Z) : list bool := map (Z.testbit r) (seqZ 0 32).

Definition shift_bits (poly l : list bool) (b : bool) : list bool :=
  match l with
  | [] => []
  | b0 :: l => zip_with xorb (l ++ [false]) (map (andb (xorb b0 b)) poly)
  end.

Lemma bits32_nth r i : 0 <= i < 32 -> nth (Z.to_nat i) (bits32 r) false = Z.testbit r i.
Proof.
  intros Hi. unfold bits32.
  rewrite (nth_indep _ false (Z.testbit r 0)), map_nth by (rewrite length_map, length_seqZ; lia).
  f_equal. apply nth_lookup_Some. rewrite lookup_seqZ. lia.
Qed.

Lemma testbit_over r i : is_u32 r -> 32 <= i -> Z.testbit r i = false.
Proof.
  intros Hr Hi. replace r with (r mod 2 ^ 32) by (apply Z.mod_small, Hr).
  apply Z.mod_pow2_bits_high. lia.
Qed.

Lemma bits32_shift_bit poly r b :
  is_u32 r -> bits32 (shift_bit poly r b) = shift_bits (bits32 poly) (bits32 r) b.
Proof.
  intros Hr. unfold bits32, shift_bits.
  let l := eval vm_compute in (seqZ 0 32) in change (seqZ 0 32) with l.
  cbn [map app zip_with].
  rewrite !shift_bit_testbit by lia.
  change (31 + 1) with 32.
  by rewrite (testbit_over r 32) by (done || lia).
Qed.

Ltac circuit_bit :=
  cbn [nth Nat.sub]; rewrite ?lxor_b2z, b2z_eqb_0, negb_involutive;
  rewrite ?andb_false_r, ?andb_true_r, ?xorb_false_r; btauto.

Lemma circuit_spec (d c : Z -> bool) k :
  (k < 32)%nat ->
  negb (nth k (crc_out (fun i => Z.b2z (d i)) (fun i => Z.b2z (c i))) 0 =? 0) =
  nth (31 - k) (fold_left (shift_bits (bits32 3988292384)) (map d (seqZ 0 8))
                  (map c (reverse (seqZ 0 32)))) false.
Proof.
  intros Hk.
  let l := eval vm_compute in (seqZ 0 8) in change (seqZ 0 8) with l.
  let l := eval vm_compute in (reverse (seqZ 0 32)) in change (reverse (seqZ 0 32)) with l.
  let l := eval vm_compute in (bits32 3988292384) in change (bits32 3988292384) with l.
  unfold crc_out.
  cbn [fold_left map shift_bits app zip_with andb].
  do 32 (destruct k as [|k]; [circuit_bit|]). lia.
Qed.

Lemma shift_byte_fold poly r x :
  shift_byte poly r x =
  fold_left (fun r i => shift_bit poly r (Z.testbit x i)) (seqZ 0 8) r.
Proof. reflexivity. Qed.

(** The circuit's register is the mirror image of the reflected one. *)
Definition mirrors (c r : Z) : Prop :=
  forall i, 0 <= i < 32 -> Z.testbit c i = Z.testbit r (31 - i).

Lemma mirrors_bits32 c r :
  mirrors c r -> map (Z.testbit c) (reverse (seqZ 0 32)) = bits32 r.
Proof.
  intros H. unfold bits32.
  let l := eval vm_compute in (seqZ 0 32) in change (seqZ 0 32) with l.
  cbn [map reverse rev_append]. rewrite !H by lia. reflexivity.
Qed.

Lemma lxor_u32 a b : is_u32 a -> is_u32 b -> is_u32 (Z.lxor a b).
Proof.
  intros Ha Hb. assert (Z.lxor a b = u32 (Z.lxor a b)) as ->; [|apply u32_range].
  apply Z.bits_inj'. intros n Hn. destruct (decide (n < 32)).
  - by rewrite testbit_u32.
  - rewrite (testbit_over (u32 _)) by (apply u32_range || lia).
    by rewrite Z.lxor_spec, !testbit_over by (done || lia).
Qed.

Lemma shift_bit_u32 poly r b : is_u32 poly -> is_u32 r -> is_u32 (shift_bit poly r b).
Proof.
  intros Hp Hr. apply lxor_u32; [|by destruct (xorb _ _)].
  unfold is_u32 in *. rewrite Z.shiftr_div_pow2 by lia.
  change (2 ^ 1) with 2. split; [apply Z.div_pos|apply Z.div_lt_upper_bound]; lia.
Qed.

Lemma shift_bits_fold poly x r l :
  is_u32 poly -> is_u32 r ->
  is_u32 (fold_left (fun r i => shift_bit poly r (Z.testbit x i)) l r) /\
  fold_left (shift_bits (bits32 poly)) (map (Z.testbit x) l) (bits32 r) =
  bits32 (fold_left (fun r i => shift_bit poly r (Z.testbit x i)) l r).
Proof.
  intros Hp. revert r. induction l as [|i l IH]; intros r Hr; cbn [map fold_left]; [done|].
  rewrite <- bits32_shift_bit by done. apply IH, shift_bit_u32; done.
Qed.

Lemma crc_out_ext d d' c c' :
  (forall i, 0 <= i -> d i = d' i) -> (forall i, 0 <= i -> c i = c' i) ->
  crc_out d c = crc_out d' c'.
Proof. intros Hd Hc. unfold crc_out. rewrite !Hd, !Hc by lia. reflexivity. Qed.

Lemma zlen_crc_out d c : zlen (crc_out d c) = 32.
Proof. reflexivity. Qed.

Lemma cal_crc32_bits c x :
  _cal_crc32 c x =
  collect (crc_out (fun i => Z.b2z (Z.testbit x i)) (fun i => Z.b2z (Z.testbit c i))) 0 0.
Proof.
  unfold _cal_crc32. f_equal. apply crc_out_ext; auto using land_1_b2z, land_1_u8_b2z.
Qed.

(** One turn of the circuit is eight shifts of the reflected register. *)
Lemma cal_crc32_mirrors c r x :
  is_u32 r -> mirrors c r ->
  is_u32 (shift_byte 3988292384 r x) /\
  mirrors (_cal_crc32 c x) (shift_byte 3988292384 r x).
Proof.
  intros Hr Hc. rewrite shift_byte_fold.
  destruct (shift_bits_fold 3988292384 x r (seqZ 0 8)) as [Hu He]; [done..|].
  split; [done|]. intros i Hi. rewrite cal_crc32_bits.
  rewrite collect_testbit by (rewrite ?zlen_crc_out; lia). rewrite Z.testbit_0_l, Z.sub_0_r.
  replace (0 <=? i) with true by lia. rewrite andb_true_l, orb_false_l.
  rewrite <- bits32_nth, <- He, <- (mirrors_bits32 c r Hc) by lia.
  replace (Z.to_nat (31 - i)) with (31 - Z.to_nat i)%nat by lia.
  rewrite <- circuit_spec by lia.
  reflexivity.
Qed.

Lemma fold_left_cons {A B} (f : A -> B -> A) x l a :
  fold_left f (x :: l) a = fold_left f l (f a x).
Proof. reflexivity. Qed.

Lemma crc32_loop_done fuel pData n c : crc32_loop (S fuel) pData n n c = Some c.
Proof. cbn [crc32_loop]. by rewrite Z.ltb_irrefl. Qed.

Lemma crc32_loop_turn fuel pre x data c :
  crc32_loop (S fuel) (pre ++ x :: data) (zlen pre) (zlen (pre ++ x :: data)) c =
  crc32_loop fuel ((pre ++ [x]) ++ data) (zlen (pre ++ [x])) (zlen ((pre ++ [x]) ++ data))
    (_cal_crc32 c x).
Proof.
  rewrite <- app_assoc, (zlen_app pre [x]). simpl app. cbn [crc32_loop].
  replace (zlen pre <? _) with true by zlen_lia. by rewrite ld_mid.
Qed.

Lemma crc32_loop_spec data c r fuel pre :
  is_u32 r -> mirrors c r -> (length data < fuel)%nat ->
  exists c', crc32_loop fuel (pre ++ data) (zlen pre) (zlen (pre ++ data)) c = Some c' /\
    is_u32 (fold_left (shift_byte 3988292384) data r) /\
    mirrors c' (fold_left (shift_byte 3988292384) data r).
Proof.
  revert c r fuel pre. induction data as [|x data IH]; intros c r [|fuel] pre Hr Hc Hf;
    [apply Nat.nlt_0_r in Hf; done| |apply Nat.nlt_0_r in Hf; done|].
  - rewrite app_nil_r, crc32_loop_done. by exists c.
  - destruct (cal_crc32_mirrors c r x Hr Hc) as [Hr' Hc'].
    rewrite crc32_loop_turn, fold_left_cons.
    apply (IH _ _ _ _ Hr' Hc'). apply Nat.succ_lt_mono, Hf.
Qed.

(** * Theorems *)

(** C38: for every sequence of bytes, the 32-way circuit applied byte by byte to
    a register of ones and mirrored at the end computes, as an unsigned word,
    the CRC-32 of IEEE 802.3 defined bit by bit on the reflected register; no
    access leaves the data. *)
Theorem NST_GetCrc32_correct data :
  u32 <$> NST_GetCrc32 data (zlen data) = Some (crc32 data).
Proof.
  unfold NST_GetCrc32, crc32.
  destruct (crc32_loop_spec data (s32 4294967295) 4294967295 (S (Z.to_nat (zlen data))) [])
    as (c & E & HR & Hc); [done| |unfold zlen; lia|].
  { intros i Hi. rewrite testbit_s32 by done. change 4294967295 with (Z.ones 32).
    rewrite !Z.ones_spec_low by lia. done. }
  change (zlen []) with 0 in E. rewrite app_nil_l in E.
  rewrite E. cbn [mbind option_bind fmap option_fmap option_map]. f_equal.
  set (R := fold_left _ _ _) in *.
  apply Z.bits_inj'. intros n Hn. destruct (decide (n < 32)).
  - rewrite testbit_u32, Z.lnot_spec, mirror_testbit, Hc, Z.lxor_spec by lia.
    replace (31 - (31 - n)) with n by lia. change 4294967295 with (Z.ones 32).
    rewrite Z.ones_spec_low, Z.testbit_0_l by lia.
    replace (0 <=? 31 - n) with true by lia.
    change (0 + Z.of_nat 32) with 32. replace (31 - n <? 32) with true by lia. by destruct (Z.testbit R n).
  - pose proof (lxor_u32 R 4294967295 HR ltac:(done)).
    rewrite (testbit_over (u32 _)) by (apply u32_range || lia). symmetry.
    apply testbit_over; [done|lia].
Qed.

Lemma shift_bit_lxor poly r y b :
  shift_bit poly (Z.lxor r y) b =
  Z.lxor (shift_bit poly r (xorb (Z.testbit y 0) b)) (Z.shiftr y 1).
Proof.
  unfold shift_bit. rewrite Z.shiftr_lxor, <- !Z.bit0_odd, Z.lxor_spec, xorb_assoc.
  rewrite !Z.lxor_assoc. f_equal. apply Z.lxor_comm.
Qed.

(** The table form: the byte is mixed into the register before the shifts. *)
Lemma shift_byte_lxor poly r x :
  is_u8 x -> shift_byte poly r x = shift_byte poly (Z.lxor r x) 0.
Proof.
  intros Hx. unfold shift_byte. cbn [fold_left]. rewrite !Z.testbit_0_l.
  rewrite !shift_bit_lxor, !xorb_false_r, !Z.shiftr_shiftr by lia. cbn [Z.add Pos.add Pos.succ].
  replace (Z.shiftr x (1 + 1 + 1 + 1 + 1 + 1 + 1 + 1)) with 0.
  - by rewrite Z.lxor_0_r, !Z.shiftr_spec by lia.
  - symmetry. rewrite Z.shiftr_div_pow2 by lia. by apply Z.div_small.
Qed.

Lemma crc8_tbl_spec a : is_u8 a -> ld __crc8_tbl a = Some (shift_byte 224 a 0).
Proof.
  intros Ha. revert a Ha.
  assert (forallb (fun a => bool_decide (ld __crc8_tbl a = Some (shift_byte 224 a 0)))
            (seqZ 0 256) = true) as H by (vm_compute; reflexivity).
  rewrite forallb_forall in H. intros a Ha.
  apply (bool_decide_eq_true _), H, list_elem_of_In, elem_of_seqZ. unfold is_u8 in Ha. lia.
Qed.

Lemma shift_byte_u8 a : is_u8 a -> is_u8 (shift_byte 224 a 0).
Proof.
  intros Ha. apply crc8_tbl_spec in Ha. eapply Forall_lookup_1 with (P := is_u8).
  2: { unfold ld in Ha. destruct (0 <=? a); [exact Ha|done]. }
  apply (bool_decide_eq_true _). vm_compute. reflexivity.
Qed.

Lemma crc8_loop_spec data r fuel pre :
  Bytes data -> is_u8 r -> zlen data < 4294967296 -> (length data < fuel)%nat ->
  crc8_loop fuel (pre ++ data) (zlen pre) (zlen data) r = Some (fold_left (shift_byte 224) data r).
Proof.
  revert r fuel pre. induction data as [|x data IH]; intros r fuel pre Hb Hr Hl Hf;
    (destruct fuel as [|fuel]; [simpl in Hf; lia|]); rewrite ?fold_left_cons; cbn [crc8_loop]; [done|].
  apply Forall_cons_1 in Hb as [Hx Hb]. rewrite zlen_cons in Hl.
  pose proof (zlen_nonneg data). rewrite zlen_cons. replace (1 + zlen data =? 0) with false by lia.
  rewrite ld_mid. cbn [mbind option_bind].
  rewrite crc8_tbl_spec by (apply lxor_u8; done). cbn [mbind option_bind].
  rewrite u32_small, (shift_byte_lxor _ r x) by word_lia.
  replace (1 + zlen data - 1) with (zlen data) by lia.
  change (x :: data) with ([x] ++ data). rewrite app_assoc.
  replace (zlen pre + 1) with (zlen (pre ++ [x])) by zlen_lia.
  apply IH; [done|by apply shift_byte_u8, lxor_u8|lia|simpl in Hf; lia].
Qed.

(** Below 2^32 bytes the table-driven CRC-8 computes the bit-by-bit CRC-8 of the
    polynomial x^8+x^2+x+1 and reads neither outside the data nor outside the table. *)
Theorem NST_GetCrc8_correct ptr :
  Bytes ptr -> zlen ptr < 4294967296 -> NST_GetCrc8 ptr (zlen ptr) = Some (crc8 ptr).
Proof.
  intros Hb Hl. apply (crc8_loop_spec ptr 0 _ []); [done|done|done|unfold zlen; lia].
Qed.

Example NST_GetCrc8_correct_witness :
  NST_GetCrc8 [49; 50; 51; 52; 53; 54; 55; 56; 57] 9 =
    Some (crc8 [49; 50; 51; 52; 53; 54; 55; 56; 57]) /\ 
  crc8 [49; 50; 51; 52; 53; 54; 55; 56; 57] = 32.
Proof.
  split; [|vm_compute; reflexivity].
  apply (NST_GetCrc8_correct [49; 50; 51; 52; 53; 54; 55; 56; 57]).
  - apply (bool_decide_eq_true _). vm_compute. reflexivity.
  - vm_compute. reflexivity.
Defined.
