(* ===== verification/NetAdapter.v ===== *)
(** The network adapter: App/NuAgent/System/network_adapter.c, with the
    descriptor sets of lwip/sockets.h.

    The sockets themselves are lwIP's and stay an interface: class [Sockets]
    lists the calls the adapter makes, [SocketLaws] what they promise.  What
    [select] reads of the set it is given ([lwip_selscan] of api/sockets.c) is
    part of the model, since the adapter chooses how far it reads.  The state [Net] holds the file's static variables next to the sockets.  A call
    that does not return (a wait without end, a mutex that is never released)
    ends in [Err WAITING]. *)
From S2P Require Import Prelude.

Definition WAITING : Z := 1.

(** * Descriptor sets

    sockets.h: [FD_SETSIZE] is MEMP_NUM_NETCONN, eight, so a set is one byte.
    C's division truncates: descriptor -1 selects byte 0, bit 7. *)

Definition FD_SETSIZE : Z := 8.
Definition FD_ZERO : list Z := replicate (Z.to_nat ((FD_SETSIZE + 7) / 8)) 0.

Definition FD_SET (n : Z) (p : list Z) : option (list Z) :=
  x ← ld p (Z.quot n 8);
  st p (Z.quot n 8) (u8 (Z.lor x (Z.shiftl 1 (Z.land n 7)))).

Definition FD_CLR (n : Z) (p : list Z) : option (list Z) :=
  x ← ld p (Z.quot n 8);
  st p (Z.quot n 8) (u8 (Z.land x (Z.lnot (Z.shiftl 1 (Z.land n 7))))).

Definition FD_ISSET (n : Z) (p : list Z) : option bool :=
  x ← ld p (Z.quot n 8);
  Some (negb (Z.land x (Z.shiftl 1 (Z.land n 7)) =? 0)).

(** * The socket layer *)

Class Sockets (net : Type) := {
  sk_socket : net -> Z * net;
  sk_connect : Z -> Z -> Z -> net -> Z * net;
  sk_bind : Z -> Z -> net -> Z * net;
  sk_listen : Z -> net -> Z * net;
  sk_accept : Z -> net -> Z * net;
  (** on the write or read set, with or without a timeout; [None]: it waits for ever *)
  sk_select : bool -> Z -> list Z -> bool -> net -> option (Z * list Z * net);
  (** the count returned and the bytes stored *)
  sk_recv : Z -> Z -> net -> Z * list Z * net;
  sk_send : Z -> list Z -> net -> Z * net;
  sk_close : Z -> net -> net;
  (** [dns_gethostbyname]: the status, the address stored for the caller, and
      the address its callback is given while the caller waits, if it is called *)
  dns_gethostbyname : list Z -> net -> Z * Z * option Z * net
}.

(** [inet_ntoa] and [inet_addr] on a network-order word. *)
Class Inet := {
  inet_ntoa : Z -> list Z;
  inet_addr : list Z -> Z;
  inet_ntoa_len : forall a, is_u32 a -> zlen (inet_ntoa a) <= 15;
  inet_ntoa_text : forall a, Forall (fun c => c <> 0) (inet_ntoa a);
  inet_addr_ntoa : forall a rest, is_u32 a -> inet_addr (inet_ntoa a ++ 0 :: rest) = a
}.

Section Adapter.
Context {net : Type} {SK : Sockets net} {IN : Inet}.

Definition CLOUD_SERVER_PORT_NUM : Z := 876.
Definition TCP_SERVER_PORT : Z := 12307.
Definition TCP_SERVER_BUFFER_SIZE : Z := 2048.
Definition TCP_SERVER_CLIENT_MAX_NUM : Z := 5.
Definition UDP_SERVER_PORT : Z := 60001.
Definition UDP_SERVER_BUFFER_SIZE : Z := 2048.
Definition ERR_OK : Z := 0.
Definition ERR_INPROGRESS : Z := -5.

(** The statics of the file; [lock] is the mutex [cloud_send_mutex_lock], [to_tcp]
    and [to_udp] collect the calls of the two dispatchers, last first. *)
Record Net := mkNet {
  sockets : net;
  pdomainSem : Z;
  domain_ipaddr : Z;
  domain_flag : Z;
  TCPClientFd : Z;
  lock : bool;
  TCPClient_reset_flag : Z;
  lan_client : list Z;
  TCPServerFd : Z;
  client_connect_count : Z;
  TCPServerRecv_data : option (list Z);
  UDPServerFd : Z;
  UDPServerRecv_data : option (list Z);
  to_tcp : list (Z * list Z * Z);
  to_udp : list (list Z * Z)
}.

Definition set_sockets (v : net) (s : Net) : Net :=
  mkNet v (pdomainSem s) (domain_ipaddr s) (domain_flag s) (TCPClientFd s) (lock s) (TCPClient_reset_flag s) (lan_client s) (TCPServerFd s) (client_connect_count s) (TCPServerRecv_data s) (UDPServerFd s) (UDPServerRecv_data s) (to_tcp s) (to_udp s).
Definition set_pdomainSem (v : Z) (s : Net) : Net :=
  mkNet (sockets s) v (domain_ipaddr s) (domain_flag s) (TCPClientFd s) (lock s) (TCPClient_reset_flag s) (lan_client s) (TCPServerFd s) (client_connect_count s) (TCPServerRecv_data s) (UDPServerFd s) (UDPServerRecv_data s) (to_tcp s) (to_udp s).
Definition set_domain (ip flag : Z) (s : Net) : Net :=
  mkNet (sockets s) (pdomainSem s) ip flag (TCPClientFd s) (lock s) (TCPClient_reset_flag s) (lan_client s) (TCPServerFd s) (client_connect_count s) (TCPServerRecv_data s) (UDPServerFd s) (UDPServerRecv_data s) (to_tcp s) (to_udp s).
Definition set_TCPClientFd (v : Z) (s : Net) : Net :=
  mkNet (sockets s) (pdomainSem s) (domain_ipaddr s) (domain_flag s) v (lock s) (TCPClient_reset_flag s) (lan_client s) (TCPServerFd s) (client_connect_count s) (TCPServerRecv_data s) (UDPServerFd s) (UDPServerRecv_data s) (to_tcp s) (to_udp s).
Definition set_lock (v : bool) (s : Net) : Net :=
  mkNet (sockets s) (pdomainSem s) (domain_ipaddr s) (domain_flag s) (TCPClientFd s) v (TCPClient_reset_flag s) (lan_client s) (TCPServerFd s) (client_connect_count s) (TCPServerRecv_data s) (UDPServerFd s) (UDPServerRecv_data s) (to_tcp s) (to_udp s).
Definition set_reset_flag (v : Z) (s : Net) : Net :=
  mkNet (sockets s) (pdomainSem s) (domain_ipaddr s) (domain_flag s) (TCPClientFd s) (lock s) v (lan_client s) (TCPServerFd s) (client_connect_count s) (TCPServerRecv_data s) (UDPServerFd s) (UDPServerRecv_data s) (to_tcp s) (to_udp s).
Definition set_lan_client (v : list Z) (s : Net) : Net :=
  mkNet (sockets s) (pdomainSem s) (domain_ipaddr s) (domain_flag s) (TCPClientFd s) (lock s) (TCPClient_reset_flag s) v (TCPServerFd s) (client_connect_count s) (TCPServerRecv_data s) (UDPServerFd s) (UDPServerRecv_data s) (to_tcp s) (to_udp s).
Definition set_TCPServerFd (v : Z) (s : Net) : Net :=
  mkNet (sockets s) (pdomainSem s) (domain_ipaddr s) (domain_flag s) (TCPClientFd s) (lock s) (TCPClient_reset_flag s) (lan_client s) v (client_connect_count s) (TCPServerRecv_data s) (UDPServerFd s) (UDPServerRecv_data s) (to_tcp s) (to_udp s).
Definition set_connect_count (v : Z) (s : Net) : Net :=
  mkNet (sockets s) (pdomainSem s) (domain_ipaddr s) (domain_flag s) (TCPClientFd s) (lock s) (TCPClient_reset_flag s) (lan_client s) (TCPServerFd s) v (TCPServerRecv_data s) (UDPServerFd s) (UDPServerRecv_data s) (to_tcp s) (to_udp s).
Definition set_TCPServerRecv_data (v : option (list Z)) (s : Net) : Net :=
  mkNet (sockets s) (pdomainSem s) (domain_ipaddr s) (domain_flag s) (TCPClientFd s) (lock s) (TCPClient_reset_flag s) (lan_client s) (TCPServerFd s) (client_connect_count s) v (UDPServerFd s) (UDPServerRecv_data s) (to_tcp s) (to_udp s).
Definition set_UDPServerFd (v : Z) (s : Net) : Net :=
  mkNet (sockets s) (pdomainSem s) (domain_ipaddr s) (domain_flag s) (TCPClientFd s) (lock s) (TCPClient_reset_flag s) (lan_client s) (TCPServerFd s) (client_connect_count s) (TCPServerRecv_data s) v (UDPServerRecv_data s) (to_tcp s) (to_udp s).
Definition set_UDPServerRecv_data (v : option (list Z)) (s : Net) : Net :=
  mkNet (sockets s) (pdomainSem s) (domain_ipaddr s) (domain_flag s) (TCPClientFd s) (lock s) (TCPClient_reset_flag s) (lan_client s) (TCPServerFd s) (client_connect_count s) (TCPServerRecv_data s) (UDPServerFd s) v (to_tcp s) (to_udp s).
Definition add_to_tcp (v : Z * list Z * Z) (s : Net) : Net :=
  mkNet (sockets s) (pdomainSem s) (domain_ipaddr s) (domain_flag s) (TCPClientFd s) (lock s) (TCPClient_reset_flag s) (lan_client s) (TCPServerFd s) (client_connect_count s) (TCPServerRecv_data s) (UDPServerFd s) (UDPServerRecv_data s) (v :: to_tcp s) (to_udp s).
Definition add_to_udp (v : list Z * Z) (s : Net) : Net :=
  mkNet (sockets s) (pdomainSem s) (domain_ipaddr s) (domain_flag s) (TCPClientFd s) (lock s) (TCPClient_reset_flag s) (lan_client s) (TCPServerFd s) (client_connect_count s) (TCPServerRecv_data s) (UDPServerFd s) (UDPServerRecv_data s) (to_tcp s) (v :: to_udp s).

(** A call of the socket layer. *)
Definition call {A} (f : net -> A * net) : M Net A := fun s =>
  let (a, n) := f (sockets s) in Done a (set_sockets n s).

(** The scan of [lwip_select]: it tests every descriptor below [maxfdp1] in the
    set it is given, whatever the size of the set. *)
Fixpoint lwip_selscan (n : nat) (set : list Z) : option unit :=
  match n with
  | O => Some tt
  | S n => _ ← lwip_selscan n set; _ ← FD_ISSET (Z.of_nat n) set; Some tt
  end.

(** What the sockets answer to it. *)
Definition select_answer (wr : bool) (maxfdp1 : Z) (set : list Z) (forever : bool)
  : M Net (Z * list Z) := fun s =>
  match sk_select wr maxfdp1 set forever (sockets s) with
  | None => Err WAITING s
  | Some (r, set', n) => Done (r, set') (set_sockets n s)
  end.

Definition select (wr : bool) (maxfdp1 : Z) (set : list Z) (forever : bool) : M Net (Z * list Z) :=
  _ ← access (fun _ => lwip_selscan (Z.to_nat maxfdp1) set);
  select_answer wr maxfdp1 set forever.

Definition recv (fd len : Z) : M Net (Z * list Z) := call (sk_recv fd len).
Definition send (fd : Z) (data : list Z) : M Net Z := call (sk_send fd data).

(** The mutex is not recursive: pending on it while it is held never returns. *)
Definition OSMutexPend : M Net unit := fun s => if lock s then Err WAITING s else Done tt (set_lock true s).
Definition OSMutexPost : M Net unit := modify (set_lock false).

(** * The cloud's name *)

Definition InitDomainSem : M Net unit := modify (set_pdomainSem 0).

Definition NuAgent_ServerFound (ipaddr : Z) : M Net unit :=
  (if negb (ipaddr =? 0) then modify (set_domain ipaddr 1)
   else modify (fun s => set_domain (domain_ipaddr s) 0 s));;
  modify (fun s => set_pdomainSem (pdomainSem s + 1) s).

(** [memcpy(IPAddress, inet_ntoa(domain_ipaddr), strlen + 1)] *)
Definition store_address (IPAddress : list Z) : M Net (list Z) :=
  access (fun s => blit IPAddress 0 (inet_ntoa (domain_ipaddr s) ++ [0])).

(** Yields the status and the buffer [IPAddress]. *)
Definition NuAgent_GetHostByName (domain IPAddress : list Z) : M Net (Z * list Z) :=
  '(err, ip_addr, callback) ← call (dns_gethostbyname domain);
  if err =? ERR_OK then buf ← store_address IPAddress; mret (0, buf)
  else if err =? ERR_INPROGRESS then
    match callback with Some ipaddr => NuAgent_ServerFound ipaddr | None => mret tt end;;
    modify (fun s => if 0 <? pdomainSem s then set_pdomainSem (pdomainSem s - 1) s else s);;
    f ← gets domain_flag;
    if f =? 1 then buf ← store_address IPAddress; mret (0, buf) else mret (-1, IPAddress)
  else mret (-1, IPAddress).

(** * The cloud's connection *)

Definition Socket_TCPClientClose : M Net Z :=
  fd ← gets TCPClientFd;
  call (fun n => (tt, sk_close fd n));;
  modify (set_TCPClientFd (-1));;
  mret 0.

(** [AGAIN]: a lookup every 200 ticks until one succeeds. *)
Fixpoint resolve (fuel : nat) (domain ipaddr : list Z) : M Net (list Z) :=
  match fuel with
  | O => fail WAITING
  | S fuel =>
      '(ret, ipaddr) ← NuAgent_GetHostByName domain ipaddr;
      if negb (ret =? 0) then resolve fuel domain ipaddr else mret ipaddr
  end.

Definition Socket_CreateTCPClient (fuel : nat) (domain : list Z) : M Net Z :=
  ipaddr ← resolve fuel domain (replicate 20 0);
  fd ← call sk_socket;
  modify (set_TCPClientFd fd);;
  if fd <? 0 then mret (-1)
  else
    ret ← call (sk_connect fd (inet_addr ipaddr) CLOUD_SERVER_PORT_NUM);
    if ret <? 0 then Socket_TCPClientClose;; mret (-1)
    else modify (set_reset_flag 1);; mret 0.

(** [while (len != total)] *)
Fixpoint send_loop (fuel : nat) (sendbuf : list Z) (len total : Z) : M Net Z :=
  match fuel with
  | O => fail WAITING
  | S fuel =>
      if len =? total then OSMutexPost;; mret total
      else
        fd ← gets TCPClientFd;
        writeset ← access (fun _ => FD_SET fd FD_ZERO);
        '(r, writeset) ← select true (fd + 1) writeset true;
        if r =? -1 then mret (-1)
        else
          ready ← access (fun _ => FD_ISSET fd writeset);
          if (ready : bool) then
            data ← access (fun _ => fetch sendbuf total (len - total));
            n ← send fd data;
            if n <? 0 then OSMutexPost;; modify (set_reset_flag 165);; mret n
            else send_loop fuel sendbuf len (total + n)
          else send_loop fuel sendbuf len total
  end.

Definition Socket_TCPClientSendData (fuel : nat) (sendbuf : list Z) (len : Z) : M Net Z :=
  OSMutexPend;;
  send_loop fuel sendbuf len 0.

(** Yields the count and the buffer [recvbuf]. *)
Definition Socket_TCPClientRecvData (recvbuf : list Z) (len : Z) : M Net (Z * list Z) :=
  recvbuf ← access (fun _ => blit recvbuf 0 (replicate (Z.to_nat len) 0));
  fd ← gets TCPClientFd;
  readfds ← access (fun _ => FD_SET fd FD_ZERO);
  '(r, readfds) ← select false (fd + 1) readfds false;
  flag ← gets TCPClient_reset_flag;
  if (r =? -1) || (flag =? 165) then mret (-1, recvbuf)
  else
    ready ← access (fun _ => FD_ISSET fd readfds);
    if (ready : bool) then
      '(recv_count, data) ← recv fd len;
      recvbuf ← access (fun _ => blit recvbuf 0 data);
      if recv_count <? 0 then Socket_TCPClientClose;; mret (-2, recvbuf)
      else mret (recv_count, recvbuf)
    else mret (0, recvbuf).

(** * The servers *)

Definition Socket_CreateTCPServer : M Net Z :=
  fd0 ← gets TCPServerFd;
  if fd0 =? -1 then
    fd ← call sk_socket;
    if fd <? 0 then modify (set_TCPServerFd (-1));; mret (-1)
    else
      modify (set_TCPServerFd fd);;
      b ← call (sk_bind fd TCP_SERVER_PORT);
      if negb (b =? 0) then
        call (fun n => (tt, sk_close fd n));; modify (set_TCPServerFd (-1));; mret (-1)
      else
        l ← call (sk_listen fd);
        if negb (l =? 0) then
          call (fun n => (tt, sk_close fd n));; modify (set_TCPServerFd (-1));; mret (-1)
        else mret fd
  else mret (-1).

(** Receiving into the server's buffer. *)
Definition recv_tcp (fd : Z) : M Net Z :=
  '(n, data) ← recv fd TCP_SERVER_BUFFER_SIZE;
  buf ← access (fun s => buf ← TCPServerRecv_data s; blit buf 0 data);
  modify (set_TCPServerRecv_data (Some buf));;
  mret n.

(** [Socket_DispatchTCPData] is the user's: its calls are recorded. *)
Definition Socket_DispatchTCPData (fd n : Z) : M Net unit :=
  buf ← access TCPServerRecv_data;
  modify (add_to_tcp (fd, buf, n)).

(** [for (...) if (client_fd >= 0) FD_SET(client_fd, &fdset);] *)
Fixpoint watch_loop (clients : list Z) (fdset : list Z) : option (list Z) :=
  match clients with
  | [] => Some fdset
  | fd :: clients =>
      fdset ← (if 0 <=? fd then FD_SET fd fdset else Some fdset);
      watch_loop clients fdset
  end.

(** One entry of the table. *)
Definition serve_entry (i : Z) (fdset : list Z) : M Net (list Z) :=
  fd ← access (fun s => ld (lan_client s) i);
  ready ← access (fun _ => FD_ISSET fd fdset);
  if (ready : bool) then
    recv_count ← recv_tcp fd;
    if recv_count <=? 0 then
      modify (fun s => set_connect_count (s32 (client_connect_count s - 1)) s);;
      fdset ← access (fun _ => FD_CLR fd fdset);
      clients ← access (fun s => st (lan_client s) i (-1));
      modify (set_lan_client clients);;
      mret fdset
    else Socket_DispatchTCPData fd recv_count;; mret fdset
  else mret fdset.

Fixpoint serve_loop (n : nat) (i : Z) (fdset : list Z) : M Net (list Z) :=
  match n with
  | O => mret fdset
  | S n => fdset ← serve_entry i fdset; serve_loop n (i + 1) fdset
  end.

(** The first empty entry, or the size of the table. *)
Fixpoint find_empty (clients : list Z) : Z :=
  match clients with
  | [] => 0
  | fd :: clients => if fd =? -1 then 0 else 1 + find_empty clients
  end.

Definition accept_client (max_sock : Z) : M Net Z :=
  server ← gets TCPServerFd;
  new_fd ← call (sk_accept server);
  if new_fd <? 0 then mret max_sock
  else
    count ← gets client_connect_count;
    if count <? TCP_SERVER_CLIENT_MAX_NUM then
      i ← gets (fun s => find_empty (lan_client s));
      let max_sock := if max_sock <? new_fd + 1 then new_fd + 1 else max_sock in
      clients ← access (fun s => st (lan_client s) i new_fd);
      modify (set_lan_client clients);;
      ret ← recv_tcp new_fd;
      Socket_DispatchTCPData new_fd ret;;
      mret max_sock
    else mret max_sock.

(** One turn of [while (1)]; yields [max_sock]. *)
Definition server_turn (max_sock : Z) : M Net Z :=
  fdset ← access (fun s => fdset ← FD_SET (TCPServerFd s) FD_ZERO; watch_loop (lan_client s) fdset);
  '(ret, fdset) ← select false (max_sock + 1) fdset true;
  if ret <=? 0 then mret max_sock
  else
    fdset ← serve_loop (Z.to_nat TCP_SERVER_CLIENT_MAX_NUM) 0 fdset;
    ready ← access (fun s => FD_ISSET (TCPServerFd s) fdset);
    if (ready : bool) then accept_client max_sock else mret max_sock.

Fixpoint server_turns (n : nat) (max_sock : Z) : M Net Z :=
  match n with
  | O => mret max_sock
  | S n => max_sock ← server_turn max_sock; server_turns n max_sock
  end.

(** The first [n] turns; the function itself never returns. *)
Definition Socket_TCPServerRecvData (n : nat) : M Net Z :=
  modify (set_lan_client (replicate (Z.to_nat TCP_SERVER_CLIENT_MAX_NUM) (-1)));;
  max_sock ← gets TCPServerFd;
  server_turns n max_sock.

Definition Socket_TCPServerSendData (socketfd : Z) (sendbuf : list Z) (len : Z) : M Net Z :=
  data ← access (fun _ => fetch sendbuf 0 len);
  send socketfd data.

Definition Socket_CreateUDPServer : M Net Z :=
  fd0 ← gets UDPServerFd;
  if fd0 =? -1 then
    fd ← call sk_socket;
    if fd <? 1 then modify (set_UDPServerFd (-1));; mret (-1)
    else
      modify (set_UDPServerFd fd);;
      b ← call (sk_bind fd UDP_SERVER_PORT);
      if negb (b =? 0) then
        call (fun n => (tt, sk_close fd n));; modify (set_UDPServerFd (-1));; mret (-1)
      else mret fd
  else mret (-1).

(** [n] turns of the receive loop; the dispatcher is that of file [Agent]. *)
Fixpoint udp_turns (n : nat) : M Net Z :=
  match n with
  | O => mret 0
  | S n =>
      fd ← gets UDPServerFd;
      '(recv_count, data) ← recv fd UDP_SERVER_BUFFER_SIZE;
      buf ← access (fun s => buf ← UDPServerRecv_data s; blit buf 0 data);
      modify (set_UDPServerRecv_data (Some buf));;
      (if recv_count <=? 0 then mret tt else modify (add_to_udp (buf, recv_count)));;
      udp_turns n
  end.

Definition Socket_UDPServerRecvData (n : nat) : M Net Z :=
  fd ← gets UDPServerFd;
  if fd <=? 0 then mret (-1) else udp_turns n.

Definition network_adapter_init `{Heap} : M Net unit :=
  modify (set_TCPServerFd (-1));;
  modify (set_UDPServerFd (-1));;
  modify (set_TCPServerRecv_data (malloc TCP_SERVER_BUFFER_SIZE));;
  modify (set_UDPServerRecv_data (malloc UDP_SERVER_BUFFER_SIZE));;
  modify (set_lock false).
End Adapter.
Arguments Net : clear implicits.

(** * What the socket layer promises

    [accepted] are the descriptors [accept] has handed out: nobody closes
    them.  At most [room] of lwIP's eight sockets are left for them.  [wire]
    is what has been sent on a descriptor.  A wait on no socket at all ends
    only in an error. *)
Class SocketLaws (net : Type) `{SK : Sockets net} (room : nat) := {
  accepted : net -> list Z;
  wire : net -> Z -> list Z;
  accept_law : forall fd s r s', sk_accept fd s = (r, s') ->
    (r < 0 /\ accepted s' = accepted s) \/
    (0 <= r < FD_SETSIZE /\ (r ∉ accepted s) /\ accepted s' = r :: accepted s /\
      (length (accepted s') <= room)%nat);
  select_law : forall wr m set w s r set' s', sk_select wr m set w s = Some (r, set', s') ->
    length set' = length set /\ accepted s' = accepted s /\ wire s' = wire s;
  select_nothing : forall wr set s,
    sk_select wr 0 set true s = None \/ exists set' s', sk_select wr 0 set true s = Some (-1, set', s');
  recv_law : forall fd len s n data s', 0 <= len -> sk_recv fd len s = (n, data, s') ->
    zlen data = Z.max 0 n /\ n <= len /\ accepted s' = accepted s /\ wire s' = wire s;
  recv_closed : forall fd len s, fd < 0 -> (sk_recv fd len s).1.1 = -1;
  send_law : forall fd data s n s', sk_send fd data s = (n, s') ->
    n <= zlen data /\ accepted s' = accepted s /\ wire s' fd = wire s fd ++ ztake n data
}.

(** * Descriptor sets *)

Section FdSets.
Implicit Types (p : list Z) (n : Z).

Lemma quot_fd n : -8 < n < FD_SETSIZE -> Z.quot n 8 = 0.
Proof.
  unfold FD_SETSIZE. intros H. destruct (Z.leb_spec 0 n); [apply Z.quot_small; lia|].
  rewrite <- (Z.opp_involutive n), Z.quot_opp_l, Z.quot_small; lia.
Qed.

Lemma set_one p : length p = 1%nat -> exists x, p = [x].
Proof. destruct p as [|x [|]]; try done. by exists x. Qed.

Lemma FD_SET_some n p : -8 < n < FD_SETSIZE -> length p = 1%nat ->
  exists p', FD_SET n p = Some p' /\ length p' = 1%nat.
Proof. intros Hn [x ->]%set_one. unfold FD_SET. rewrite quot_fd by done. by eexists. Qed.

Lemma FD_CLR_some n p : -8 < n < FD_SETSIZE -> length p = 1%nat ->
  exists p', FD_CLR n p = Some p' /\ length p' = 1%nat.
Proof. intros Hn [x ->]%set_one. unfold FD_CLR. rewrite quot_fd by done. by eexists. Qed.

Lemma FD_ISSET_some n p : -8 < n < FD_SETSIZE -> length p = 1%nat -> is_Some (FD_ISSET n p).
Proof. intros Hn [x ->]%set_one. unfold FD_ISSET. rewrite quot_fd by done. by eexists. Qed.

(** An empty entry, -1, and descriptor 7 share a bit of the set. *)
Lemma FD_ISSET_empty p : FD_ISSET (-1) p = FD_ISSET 7 p.
Proof. reflexivity. Qed.

(** The scan stays inside a set of one byte up to descriptor 7, not further. *)
Lemma lwip_selscan_spec (n : nat) p : length p = 1%nat ->
  lwip_selscan n p = if decide (n <= 8)%nat then Some tt else None.
Proof.
  intros Hp. induction n as [|n IH]; [by rewrite decide_True by lia|]. cbn [lwip_selscan]. rewrite IH.
  destruct (decide (n <= 8)%nat); [|by rewrite decide_False by lia]. cbn [mbind option_bind].
  destruct (decide (S n <= 8)%nat).
  - by destruct (FD_ISSET_some (Z.of_nat n) p) as [b ->]; [unfold FD_SETSIZE; lia|done|].
  - apply set_one in Hp as [x ->]. assert (n = 8)%nat as -> by lia. done.
Qed.

Lemma watch_loop_length clients p p' : watch_loop clients p = Some p' -> length p' = length p.
Proof.
  revert p. induction clients as [|fd clients IH]; intros p; cbn [watch_loop]; [by intros [= ->]|].
  destruct (0 <=? fd); [|apply IH]. intros (q & E & Hq)%bind_Some. rewrite (IH _ Hq).
  unfold FD_SET in E. apply bind_Some in E as (x & _ & E). apply st_length in E. unfold zlen in E. lia.
Qed.

Lemma watch_loop_some clients p :
  Forall (fun fd => -1 <= fd < FD_SETSIZE) clients -> length p = 1%nat ->
  exists p', watch_loop clients p = Some p' /\ length p' = 1%nat.
Proof.
  intros H. revert p. induction H as [|fd clients Hfd _ IH]; intros p Hp; cbn [watch_loop]; [eauto|].
  destruct (0 <=? fd).
  - destruct (FD_SET_some fd p) as (p' & -> & Hp'); [lia|done|]. cbn [mbind option_bind]. by apply IH.
  - cbn [mbind option_bind]. by apply IH.
Qed.
End FdSets.

(** * The client table *)

Section Server.
Context {net : Type} {SK : Sockets net} {room : nat} {SL : SocketLaws net room}.
Implicit Types (s : Net net).

(** The entries are empty or distinct accepted sockets. *)
Record table_ok (clients acc : list Z) : Prop := {
  ok_len : length clients = 5%nat;
  ok_fds : Forall (fun fd => -1 <= fd < FD_SETSIZE) clients;
  ok_distinct : forall i j fd, clients !! i = Some fd -> clients !! j = Some fd -> 0 <= fd -> i = j;
  ok_accepted : forall i fd, clients !! i = Some fd -> 0 <= fd -> fd ∈ acc
}.

Record net_ok (s : Net net) : Prop := {
  ok_table : table_ok (lan_client s) (accepted (sockets s));
  ok_buf : exists b, TCPServerRecv_data s = Some b /\ zlen b = TCP_SERVER_BUFFER_SIZE;
  ok_server : 0 <= TCPServerFd s < FD_SETSIZE
}.

Lemma table_clear clients acc i :
  table_ok clients acc -> table_ok (<[i := -1]> clients) acc.
Proof.
  intros []. split.
  - by rewrite length_insert.
  - apply Forall_insert; [done|]. unfold FD_SETSIZE. lia.
  - intros j k fd Hj Hk Hfd. apply list_lookup_insert_Some in Hj, Hk.
    destruct Hj as [(_ & ? & _)|[_ Hj]]; [lia|]. destruct Hk as [(_ & ? & _)|[_ Hk]]; [lia|]. eauto.
  - intros j fd Hj Hfd. apply list_lookup_insert_Some in Hj as [(_ & ? & _)|[_ Hj]]; [lia|]. eauto.
Qed.

Lemma table_add clients acc i fd :
  table_ok clients acc -> 0 <= fd < FD_SETSIZE -> fd ∉ acc ->
  table_ok (<[i := fd]> clients) (fd :: acc).
Proof.
  intros [] Hfd Hn.
  assert (forall j x, <[i := fd]> clients !! j = Some x -> 0 <= x -> j = i /\ x = fd \/ x ∈ acc /\ clients !! j = Some x)
    as Hc.
  { intros j x Hj Hx. apply list_lookup_insert_Some in Hj as [(-> & -> & _)|[_ Hj]]; eauto. }
  split.
  - by rewrite length_insert.
  - apply Forall_insert; [done|]. unfold FD_SETSIZE in *. lia.
  - intros j k x Hj Hk Hx. 
    destruct (Hc j x Hj Hx) as [[-> E1]|[A1 B1]]; destruct (Hc k x Hk Hx) as [[-> E2]|[A2 B2]];
      [done|by subst x|by subst x|by eauto].
  - intros j x Hj Hx. destruct (Hc j x Hj Hx) as [[_ ->]|[? _]]; [left|by right].
Qed.

Lemma find_empty_range clients : 0 <= find_empty clients <= zlen clients.
Proof.
  induction clients as [|fd clients IH]; [done|]. cbn [find_empty]. rewrite zlen_cons.
  destruct (fd =? -1); pose proof (zlen_nonneg clients); lia.
Qed.

Lemma find_empty_full clients : find_empty clients = zlen clients -> Forall (fun fd => fd <> -1) clients.
Proof.
  induction clients as [|fd clients IH]; [constructor|]. cbn [find_empty]. rewrite zlen_cons.
  pose proof (find_empty_range clients). destruct (Z.eqb_spec fd (-1)); [lia|].
  intros. constructor; [done|]. apply IH. lia.
Qed.

(** A full table has five accepted sockets. *)
Lemma table_full clients acc :
  table_ok clients acc -> find_empty clients = zlen clients -> (5 <= length acc)%nat.
Proof.
  intros [] H%find_empty_full. rewrite <- ok_len0. rewrite Forall_lookup in ok_fds0, H.
  apply submseteq_length, NoDup_submseteq.
  - apply NoDup_alt. intros i j fd Hi Hj. apply (ok_distinct0 i j fd); [done|done|].
    specialize (ok_fds0 i fd Hi). specialize (H i fd Hi). lia.
  - intros fd [i Hi]%list_elem_of_lookup. apply (ok_accepted0 i fd); [done|].
    specialize (ok_fds0 i fd Hi). specialize (H i fd Hi). lia.
Qed.
(** * The server keeps its table *)

Lemma select_runs wr m set w s : length set = 1%nat -> m <= 8 ->
  select wr m set w s =
    match sk_select wr m set w (sockets s) with
    | None => Err WAITING s
    | Some (r, set', n) => Done (r, set') (set_sockets n s)
    end.
Proof.
  intros Hl Hm. unfold select. rewrite (bind_done (access _) _ s tt s); [done|].
  unfold access. rewrite lwip_selscan_spec by done. by rewrite decide_True by lia.
Qed.

Lemma wpe_select E wr m set w s Q :
  E s -> length set = 1%nat -> m <= 8 ->
  (forall r set' n, length set' = length set -> accepted n = accepted (sockets s) ->
     wire n = wire (sockets s) -> Q (r, set') (set_sockets n s)) ->
  wpe E (select wr m set w) s Q.
Proof.
  intros HE Hl Hm HQ. unfold wpe. rewrite select_runs by done.
  destruct (sk_select wr m set w (sockets s)) as [[[r set'] n]|] eqn:H; [|done].
  apply select_law in H as (? & ? & ?). by apply HQ.
Qed.

Lemma wpe_recv E fd len s Q :
  0 <= len ->
  (forall k data n, zlen data = Z.max 0 k -> k <= len -> accepted n = accepted (sockets s) ->
     wire n = wire (sockets s) -> (fd < 0 -> k = -1) -> Q (k, data) (set_sockets n s)) ->
  wpe E (recv fd len) s Q.
Proof.
  intros Hl HQ. unfold wpe, recv, call.
  destruct (sk_recv fd len (sockets s)) as [[k data] n] eqn:H.
  pose proof (recv_closed fd len (sockets s)) as Hc. rewrite H in Hc.
  apply recv_law in H as (? & ? & ? & ?); [|done]. by apply HQ.
Qed.

Lemma blit_recv {A} (l src : list A) :
  zlen src <= zlen l -> exists l', blit l 0 src = Some l' /\ zlen l' = zlen l.
Proof.
  intros H. rewrite blit_spec by zlen_lia. eexists. split; [done|]. zlen_lia.
Qed.

Lemma wpe_recv_tcp E fd s Q :
  net_ok s ->
  (forall k s', net_ok s' -> k <= TCP_SERVER_BUFFER_SIZE ->
     accepted (sockets s') = accepted (sockets s) -> lan_client s' = lan_client s ->
     to_tcp s' = to_tcp s -> (fd < 0 -> k = -1) -> Q k s') ->
  wpe E (recv_tcp fd) s Q.
Proof.
  intros [Ht (b & Hb & Hlen) Hs] HQ. apply wpe_bind, wpe_recv; [done|].
  intros k data n Hd Hk Ha _ Hc. cbn beta iota. apply wpe_bind, wpe_access.
  cbn [TCPServerRecv_data set_sockets]. rewrite Hb. cbn [mbind option_bind].
  destruct (blit_recv b data) as (b' & -> & Hb'); [unfold TCP_SERVER_BUFFER_SIZE in *; lia|].
  exists b'. split; [done|]. apply HQ; try done.
  split; [simpl; by rewrite Ha|exists b'; by rewrite Hb'|done].
Qed.

Lemma wpe_dispatch E fd k s Q :
  net_ok s ->
  (forall s' b, net_ok s' -> lan_client s' = lan_client s -> accepted (sockets s') = accepted (sockets s) ->
     to_tcp s' = (fd, b, k) :: to_tcp s -> Q tt s') -> wpe E (Socket_DispatchTCPData fd k) s Q.
Proof.
  intros Hok HQ. pose proof Hok as [Ht (b & Hb & Hl) Hs]. apply wpe_bind, wpe_access.
  exists b. split; [done|]. apply (HQ _ b); [|done..]. split; [done|by exists b|done].
Qed.

Lemma serve_entry_ok i fdset s :
  net_ok s -> 0 <= i < 5 -> length fdset = 1%nat ->
  wpe net_ok (serve_entry i fdset) s (fun fdset s' => net_ok s' /\ length fdset = 1%nat).
Proof.
  intros Hok Hi Hf. destruct (ld_is_Some (lan_client s) i) as [fd Hfd].
  { unfold zlen. rewrite (ok_len _ _ (ok_table s Hok)). lia. }
  assert (-8 < fd < FD_SETSIZE) as Hr.
  { pose proof (ok_fds _ _ (ok_table s Hok)) as H. unfold ld in Hfd.
    destruct (0 <=? i); [|done]. pose proof (Forall_lookup_1 _ _ _ _ H Hfd). simpl in *. lia. }
  apply wpe_bind, wpe_access. exists fd. split; [done|].
  apply wpe_bind, wpe_access. destruct (FD_ISSET_some fd fdset Hr Hf) as [ready ->].
  exists ready. split; [done|]. destruct ready; [|done].
  apply wpe_bind, wpe_recv_tcp; [done|]. intros k s1 Hok1 _ Ha Hl _ _.
  destruct (k <=? 0).
  - apply wpe_bind. cbv [wpe modify]. apply wpe_bind, wpe_access.
    destruct (FD_CLR_some fd fdset Hr Hf) as (fdset' & -> & Hf'). exists fdset'. split; [done|].
    apply wpe_bind, wpe_access. cbn [lan_client set_connect_count].
    rewrite st_insert by (unfold zlen; rewrite (ok_len _ _ (ok_table s1 Hok1)); exact Hi). eexists. split; [done|]. split; [|done].
    destruct Hok1 as [Ht Hb Hs]. split; [by apply table_clear|done|done].
  - apply wpe_bind, wpe_dispatch; [done|]. intros s2 b Hok2 _ _ _. by split.
Qed.

Lemma serve_loop_ok n i fdset s :
  net_ok s -> 0 <= i -> i + Z.of_nat n <= 5 -> length fdset = 1%nat ->
  wpe net_ok (serve_loop n i fdset) s (fun fdset s' => net_ok s' /\ length fdset = 1%nat).
Proof.
  revert i fdset s. induction n as [|n IH]; intros i fdset s Hok Hi Hn Hf; cbn [serve_loop]; [done|].
  apply wpe_bind. eapply wpe_mono; [apply serve_entry_ok; [done|lia|done]|].
  intros fdset' s' [Hok' Hf']. apply IH; [done|lia|lia|done].
Qed.

(** The socket layer keeps its last descriptor for itself. *)
Definition spares_7 : Prop := forall fd k r k', sk_accept fd k = (r, k') -> r < 7.

Lemma accept_client_ok m s :
  (room <= 5)%nat -> spares_7 -> net_ok s -> 0 <= m <= 7 ->
  wpe net_ok (accept_client m) s (fun m' s' => net_ok s' /\ 0 <= m' <= 7).
Proof.
  intros Hroom H7 Hok Hm. pose proof Hok as [Ht (b & Hb & Hl) Hs].
  apply wpe_bind. cbv [wpe gets]. apply wpe_bind. unfold wpe at 1, call.
  destruct (sk_accept (TCPServerFd s) (sockets s)) as [r n] eqn:E. pose proof (H7 _ _ _ _ E) as Hr7.
  apply accept_law in E as [[Hr Ha]|(Hr & Hn & Ha & Hlen)].
  { rewrite (proj2 (Z.ltb_lt r 0)) by done. split; [|done].
    split; [simpl; by rewrite Ha|by exists b|done]. }
  replace (r <? 0) with false by lia.
  apply wpe_bind. cbv [wpe gets]. cbn [client_connect_count set_sockets].
  assert (table_ok (lan_client s) (accepted n)) as Htn.
  { destruct Ht. split; [done..|]. intros i fd Hi Hfd. rewrite Ha. right. eauto. }
  destruct (client_connect_count s <? TCP_SERVER_CLIENT_MAX_NUM).
  2: { split; [|done]. split; [done|by exists b|done]. }
  apply wpe_bind. cbv [gets]. unfold wpe at 1. apply wpe_bind, wpe_access. cbn [lan_client set_sockets].
  pose proof (find_empty_range (lan_client s)) as Hf.
  assert (find_empty (lan_client s) <> zlen (lan_client s)) as Hfull.
  { intros H. apply (table_full _ (accepted (sockets s))) in H; [|done]. rewrite Ha in Hlen. simpl in Hlen. lia. }
  rewrite st_insert by lia. eexists. split; [done|].
  apply wpe_bind. cbv [modify]. unfold wpe at 1. apply wpe_bind, wpe_recv_tcp.
  { split; [cbn; rewrite Ha; by apply table_add|by exists b|done]. }
  intros k s1 Hok1 _ _ _ _ _. apply wpe_bind, wpe_dispatch; [done|]. intros s2 b' Hok2 _ _ _.
  split; [done|]. destruct (m <? r + 1); lia.
Qed.

Lemma server_turn_ok m s :
  (room <= 5)%nat -> spares_7 -> net_ok s -> 0 <= m <= 7 ->
  wpe net_ok (server_turn m) s (fun m' s' => net_ok s' /\ 0 <= m' <= 7).
Proof.
  intros Hroom H7 Hok Hm. pose proof Hok as [Ht Hb Hs].
  apply wpe_bind, wpe_access. destruct (FD_SET_some (TCPServerFd s) FD_ZERO) as (p & -> & Hp); [lia|done|].
  cbn [mbind option_bind]. destruct (watch_loop_some (lan_client s) p) as (p' & -> & Hp'); [apply Ht|done|].
  exists p'. split; [done|]. apply wpe_bind, wpe_select; [done|done|lia|].
  intros r set' n Hset Ha _. cbn beta iota.
  assert (net_ok (set_sockets n s)) as Hok1 by (split; [simpl; by rewrite Ha|done|done]).
  destruct (r <=? 0); [done|]. apply wpe_bind. eapply wpe_mono.
  { apply serve_loop_ok; [done|done|done|by rewrite Hset]. }
  intros set1 s1 [Hok2 Hset1]. apply wpe_bind, wpe_access.
  destruct (FD_ISSET_some (TCPServerFd s1) set1) as [ready ->]; [pose proof (ok_server s1 Hok2); lia|done|].
  exists ready. split; [done|]. destruct ready; [by apply accept_client_ok|done].
Qed.

Lemma server_turns_ok n m s :
  (room <= 5)%nat -> spares_7 -> net_ok s -> 0 <= m <= 7 ->
  wpe net_ok (server_turns n m) s (fun _ s' => net_ok s').
Proof.
  intros Hroom H7. revert m s. induction n as [|n IH]; intros m s Hok Hm; cbn [server_turns]; [done|].
  apply wpe_bind. eapply wpe_mono; [by apply server_turn_ok|]. intros m' s' [Hok' Hm']. by apply IH.
Qed.

(** C37: as long as the socket layer leaves at most five of its eight sockets for
    clients of the TCP server and does not give one of them its last
    descriptor, 7, any number of turns of the server loop stays inside the
    client table, the descriptor set (the scan of [select] included) and the
    receive buffer, whatever the sockets answer, and the table holds distinct
    descriptors that [accept] has returned.  Without the two conditions it
    does not: [tcp_sixth_client], [client7_overread]. *)
Theorem tcp_server_safe n s :
  (room <= 5)%nat -> spares_7 -> 0 <= TCPServerFd s < FD_SETSIZE ->
  (exists b, TCPServerRecv_data s = Some b /\ zlen b = TCP_SERVER_BUFFER_SIZE) ->
  wpe net_ok (Socket_TCPServerRecvData n) s (fun _ s' => net_ok s').
Proof.
  intros Hroom H7 Hs Hb. apply wpe_bind. cbv [modify]. unfold wpe at 1.
  apply wpe_bind. cbv [gets]. unfold wpe at 1.
  apply server_turns_ok; [done|done| |cbn; unfold FD_SETSIZE in *; lia].
  split; [|done|done]. cbn [lan_client set_lan_client]. split.
  - done.
  - apply Forall_replicate. unfold FD_SETSIZE. lia.
  - intros i j fd Hi _ Hfd. apply lookup_replicate in Hi as [-> _]. lia.
  - intros i fd Hi Hfd. apply lookup_replicate in Hi as [-> _]. lia.
Qed.


(** ** The connection count *)

(** A normal return lowers the count by at most [k] and never raises it. *)
Definition drops {A} (k : Z) (m : M (Net net) A) : Prop := forall s a s',
  m s = Done a s' -> -2147483648 <= client_connect_count s - k -> client_connect_count s <= 0 ->
  client_connect_count s - k <= client_connect_count s' <= client_connect_count s.

Lemma drops_bind {A B} j k (m : M (Net net) A) (f : A -> M (Net net) B) :
  0 <= j -> 0 <= k -> drops j m -> (forall a, drops k (f a)) -> drops (j + k) (mbind f m).
Proof.
  intros Hj Hk Hm Hf s b s' E Hs H0. apply bind_inv in E as (a & s1 & E1 & E2).
  pose proof (Hm s a s1 E1 ltac:(lia) H0). pose proof (Hf a s1 b s' E2 ltac:(lia) ltac:(lia)). lia.
Qed.

Lemma drops_bind0 {A B} k (m : M (Net net) A) (f : A -> M (Net net) B) :
  0 <= k -> drops 0 m -> (forall a, drops k (f a)) -> drops k (mbind f m).
Proof. intros. change k with (0 + k). by apply drops_bind. Qed.

Lemma drops_0 {A} k (m : M (Net net) A) :
  0 <= k -> (forall s a s', m s = Done a s' -> client_connect_count s' = client_connect_count s) -> drops k m.
Proof. intros Hk H s a s' E Hs _. rewrite (H s a s' E). lia. Qed.

Lemma drops_ret {A} k (a : A) : 0 <= k -> drops k (mret a).
Proof. intros. apply drops_0; [done|]. by intros ??? [= _ <-]. Qed.

Lemma drops_access {A} (f : Net net -> option A) : drops 0 (access f).
Proof. apply drops_0; [done|]. unfold access. intros s a s'. case_match; [|done]. by intros [= _ <-]. Qed.

Lemma drops_gets {A} (f : Net net -> A) : drops 0 (gets f).
Proof. apply drops_0; [done|]. by intros ??? [= _ <-]. Qed.

Lemma drops_modify f :
  (forall s, client_connect_count (f s) = client_connect_count s) -> drops 0 (modify f).
Proof. intros H. apply drops_0; [done|]. by intros s ?? [= _ <-]. Qed.

Lemma drops_call {A} (f : net -> A * net) : drops 0 (call f).
Proof. apply drops_0; [done|]. intros s a s'. unfold call. case_match. by intros [= _ <-]. Qed.

Lemma drops_if {A} k (b : bool) (m1 m2 : M (Net net) A) : drops k m1 -> drops k m2 -> drops k (if b then m1 else m2).
Proof. by destruct b. Qed.

Ltac drops_step :=
  first [ apply drops_bind0; [lia| |intros ?] | apply drops_ret; lia | apply drops_access
        | apply drops_gets | apply drops_modify; done | apply drops_call | apply drops_if ].

Lemma drops_recv_tcp fd : drops 0 (recv_tcp fd).
Proof. unfold recv_tcp, recv. drops_step; [drops_step|]. case_match. repeat drops_step. Qed.

Lemma drops_dispatch fd k : drops 0 (Socket_DispatchTCPData fd k).
Proof. unfold Socket_DispatchTCPData. repeat drops_step. Qed.

Lemma drops_decrement : drops 1 (modify (fun s => set_connect_count (s32 (client_connect_count s - 1)) s)).
Proof. intros s a s' [= _ <-] Hs H0. cbn. rewrite s32_small by lia. lia. Qed.

Lemma drops_serve_entry i fdset : drops 1 (serve_entry i fdset).
Proof.
  unfold serve_entry. do 2 (drops_step; [drops_step|]). drops_step; [|drops_step].
  drops_step; [apply drops_recv_tcp|]. apply drops_if.
  - change 1 with (1 + 0). apply drops_bind; [lia|lia|apply drops_decrement|]. intros _. repeat drops_step.
  - drops_step; [apply drops_dispatch|drops_step].
Qed.

Lemma drops_serve_loop n i fdset : drops (Z.of_nat n) (serve_loop n i fdset).
Proof.
  revert i fdset. induction n as [|n IH]; intros i fdset; cbn [serve_loop]; [by apply drops_ret|].
  replace (Z.of_nat (S n)) with (1 + Z.of_nat n) by lia.
  apply drops_bind; [lia|lia|apply drops_serve_entry|auto].
Qed.

Lemma drops_accept m : drops 0 (accept_client m).
Proof.
  unfold accept_client. do 2 (drops_step; [drops_step|]). drops_step; [drops_step|].
  drops_step; [drops_step|]. drops_step; [|drops_step].
  do 3 (drops_step; [drops_step|]). drops_step; [apply drops_recv_tcp|].
  drops_step; [apply drops_dispatch|drops_step].
Qed.

Lemma drops_turn m : drops 5 (server_turn m).
Proof.
  unfold server_turn. drops_step; [drops_step|]. drops_step.
  { unfold select. drops_step; [drops_step|].
    apply drops_0; [done|]. unfold select_answer. intros s x s'. repeat case_match; by intros [= _ <-]. }
  case_match. drops_step; [drops_step; lia|]. change 5 with (5 + 0).
  apply drops_bind; [lia|lia|apply (drops_serve_loop 5)|]. intros ?. drops_step; [drops_step|].
  drops_step; [apply drops_accept|drops_step].
Qed.

Lemma drops_turns n m : drops (5 * Z.of_nat n) (server_turns n m).
Proof.
  revert m. induction n as [|n IH]; intros m; cbn [server_turns]; [by apply drops_ret|].
  replace (5 * Z.of_nat (S n)) with (5 + 5 * Z.of_nat n) by lia.
  apply drops_bind; [lia|lia|apply drops_turn|auto].
Qed.

Lemma find_empty_none clients : Forall (fun fd => 0 <= fd) clients -> find_empty clients = zlen clients.
Proof.
  induction 1 as [|fd clients Hfd _ IH]; [done|]. cbn [find_empty]. rewrite zlen_cons, IH.
  by destruct (Z.eqb_spec fd (-1)); [lia|].
Qed.

(** The count that should limit the TCP server to five clients starts at zero
    and is only ever lowered, so the limit never applies: whenever the table
    is full and a further connection is accepted, the entry written is the
    one after the end of the table. *)
Theorem tcp_sixth_client n s m s' r k :
  client_connect_count s = 0 -> 5 * Z.of_nat n <= 2147483648 ->
  Socket_TCPServerRecvData n s = Done m s' ->
  Forall (fun fd => 0 <= fd) (lan_client s') ->
  sk_accept (TCPServerFd s') (sockets s') = (r, k) -> 0 <= r ->
  accept_client m s' = Crash.
Proof.
  intros H0 Hn E Hfull Ha Hr.
  assert (client_connect_count s' <= 0) as Hc.
  { unfold Socket_TCPServerRecvData in E.
    rewrite (bind_done (modify _) _ s tt _ eq_refl), (bind_done (gets _) _ _ _ _ eq_refl) in E.
    apply (drops_turns n) in E; cbn in *; lia. }
  unfold accept_client. rewrite (bind_done (gets TCPServerFd) _ s' (TCPServerFd s') s' eq_refl).
  rewrite (bind_done (call _) _ s' r (set_sockets k s')) by (unfold call; by rewrite Ha).
  replace (r <? 0) with false by lia.
  rewrite (bind_done (gets client_connect_count) _ (set_sockets k s') _ _ eq_refl).
  change (client_connect_count (set_sockets k s')) with (client_connect_count s').
  replace (client_connect_count s' <? TCP_SERVER_CLIENT_MAX_NUM) with true by (unfold TCP_SERVER_CLIENT_MAX_NUM; lia).
  rewrite (bind_done (gets _) _ (set_sockets k s') _ _ eq_refl).
  rewrite bind_crash; [done|]. unfold access. cbn [lan_client set_sockets].
  rewrite find_empty_none by done. unfold st. by rewrite Z.ltb_irrefl, andb_false_r.
Qed.


(** * Sending to the cloud *)

Lemma ztake_grow {A} (l : list A) n k :
  0 <= n -> n <= zlen l -> ztake n l ++ ztake k (zdrop n l) = ztake (n + Z.max 0 k) l.
Proof.
  intros Hn Hl. rewrite <- (take_drop (Z.to_nat n) l) at 3. change (take (Z.to_nat n) l) with (ztake n l).
  rewrite ztake_app_r by (rewrite zlen_ztake; lia). f_equal. unfold ztake, zdrop. f_equal.
  unfold zlen in *. rewrite length_take. lia.
Qed.

(** What a send that works on [buf] leaves on the descriptor [fd] that had
    carried [w]. *)
Definition sent_part (fd : Z) (w buf : list Z) (k : Z) (s : Net net) : Prop :=
  0 <= k <= zlen buf /\ wire (sockets s) fd = w ++ ztake k buf /\ TCPClientFd s = fd.

(** The three ways a send returns: everything is out; [send] failed; [select] failed. *)
Definition send_done (fd : Z) (w buf : list Z) (r : Z) (s : Net net) : Prop :=
  (r = zlen buf /\ sent_part fd w buf r s /\ lock s = false) \/
  (r < 0 /\ (exists k, sent_part fd w buf k s) /\ lock s = false /\ TCPClient_reset_flag s = 165) \/
  (r = -1 /\ (exists k, sent_part fd w buf k s) /\ lock s = true).

Definition send_stuck (fd : Z) (w buf : list Z) (s : Net net) : Prop :=
  (exists k, sent_part fd w buf k s) /\ lock s = true.

Lemma send_loop_ok fuel fd w buf total s :
  -8 < fd < FD_SETSIZE -> sent_part fd w buf total s -> lock s = true ->
  wpe (send_stuck fd w buf) (send_loop fuel buf (zlen buf) total) s (send_done fd w buf).
Proof.
  intros Hfd. revert total s. induction fuel as [|fuel IH]; intros total s Hp Hl; cbn [send_loop].
  { split; [by exists total|done]. }
  pose proof Hp as (Ht & Hw & Hs). destruct (Z.eqb_spec (zlen buf) total) as [E|E].
  { left. split; [done|]. split; [by subst total|done]. }
  apply wpe_bind. cbv [gets]. unfold wpe at 1. rewrite Hs. apply wpe_bind, wpe_access.
  destruct (FD_SET_some fd FD_ZERO) as (p & -> & Hlp); [done|done|]. exists p. split; [done|].
  apply wpe_bind, wpe_select; [by split; [exists total|]|done|unfold FD_SETSIZE in *; lia|]. intros r set' n Hset _ Hwire. cbn beta iota.
  assert (sent_part fd w buf total (set_sockets n s)) as Hp1 by (split; [done|split; [simpl; by rewrite Hwire|done]]).
  destruct (Z.eqb_spec r (-1)). { right. right. split; [done|]. split; [by exists total|done]. }
  apply wpe_bind, wpe_access. destruct (FD_ISSET_some fd set') as [ready ->]; [done|by rewrite Hset|].
  exists ready. split; [done|]. destruct ready; [|by apply IH].
  apply wpe_bind, wpe_access. rewrite fetch_spec by lia. eexists. split; [done|].
  apply wpe_bind. unfold wpe at 1, send, call. cbn [sockets set_sockets].
  rewrite (ztake_all (zlen buf - total)) by (rewrite zlen_zdrop; lia).
  destruct (sk_send fd (zdrop total buf) n) as [k n1] eqn:Ek. apply send_law in Ek as (Hk & _ & Hw1).
  rewrite zlen_zdrop in Hk. destruct (Z.ltb_spec k 0).
  - right. left. split; [done|]. split; [|done]. exists total. split; [done|]. split; [|done].
    simpl. by rewrite Hw1, Hwire, ztake_neg, app_nil_r by lia.
  - apply IH; [|done]. split; [lia|]. split; [|done]. simpl.
    rewrite Hw1, Hwire, Hw, <- app_assoc, ztake_grow by lia. do 2 f_equal. lia.
Qed.

(** However the socket layer answers, what a send of the agent puts on its
    connection is a prefix of the data, in order and once; it is the whole data
    when the length is returned; after every return the mutex is free except
    when [select] failed, and a send that does not return holds it. *)
Theorem send_data_ok fuel sendbuf s :
  -8 < TCPClientFd s < FD_SETSIZE -> lock s = false ->
  wpe (send_stuck (TCPClientFd s) (wire (sockets s) (TCPClientFd s)) sendbuf)
    (Socket_TCPClientSendData fuel sendbuf (zlen sendbuf)) s
    (send_done (TCPClientFd s) (wire (sockets s) (TCPClientFd s)) sendbuf).
Proof.
  intros Hfd Hl. apply wpe_bind. unfold wpe at 1, OSMutexPend. rewrite Hl.
  apply send_loop_ok; [done| |done]. pose proof (zlen_nonneg sendbuf).
  split; [lia|]. split; [|done]. change (ztake 0 sendbuf) with (@nil Z). by rewrite app_nil_r.
Qed.

(** A connection that takes data: [select] reports it and [send] accepts at least a byte. *)
Definition writable (fd : Z) : Prop :=
  (forall set n, FD_SET fd FD_ZERO = Some set -> exists r set' n', sk_select true (fd + 1) set true n = Some (r, set', n') /\
     r <> -1 /\ FD_ISSET fd set' = Some true) /\
  (forall data n, 0 < zlen data -> 0 < (sk_send fd data n).1).

Lemma send_loop_returns fuel fd buf total s :
  writable fd -> -8 < fd < FD_SETSIZE -> TCPClientFd s = fd ->
  0 <= total <= zlen buf -> zlen buf - total < Z.of_nat fuel ->
  exists s', send_loop fuel buf (zlen buf) total s = Done (zlen buf) s'.
Proof.
  intros [Hsel Hsend] Hfd. revert total s. induction fuel as [|fuel IH]; intros total s Hs Ht Hf; [lia|].
  cbn [send_loop]. destruct (Z.eqb_spec (zlen buf) total) as [<-|E]; [by eexists|].
  rewrite (bind_done (gets TCPClientFd) _ s fd s) by (unfold gets; by rewrite Hs).
  destruct (FD_SET_some fd FD_ZERO) as (p & Hp & Hlp); [done|done|].
  rewrite (bind_done (access _) _ s p s) by (unfold access; by rewrite Hp).
  destruct (Hsel p (sockets s) Hp) as (r & set' & n & Hr & Hne & Hset).
  rewrite (bind_done (select _ _ _ _) _ s (r, set') (set_sockets n s))
    by (rewrite select_runs by (done || unfold FD_SETSIZE in *; lia); by rewrite Hr).
  destruct (Z.eqb_spec r (-1)); [done|].
  rewrite (bind_done (access _) _ (set_sockets n s) true (set_sockets n s)) by (unfold access; by rewrite Hset).
  set (data := ztake (zlen buf - total) (zdrop total buf)).
  assert (zlen data = zlen buf - total) as Hd by (unfold data; rewrite zlen_ztake, zlen_zdrop; lia).
  rewrite (bind_done (access _) _ (set_sockets n s) data (set_sockets n s))
    by (unfold access; by rewrite fetch_spec by lia).
  destruct (sk_send fd data n) as [k n'] eqn:Ek.
  pose proof (Hsend data n ltac:(lia)) as Hk. rewrite Ek in Hk. simpl in Hk.
  pose proof (send_law fd data n k n' Ek) as (Hk' & _).
  rewrite (bind_done (send fd data) _ (set_sockets n s) k (set_sockets n' (set_sockets n s)))
    by (unfold send, call; simpl; by rewrite Ek).
  destruct (Z.ltb_spec k 0); [lia|]. apply IH; [done|lia|lia].
Qed.

(** Over a connection that takes data every send terminates: within one turn
    of its loop per byte it has put the whole data on the wire, returns the
    length and has released the mutex. *)
Theorem send_data_complete fuel sendbuf s :
  -8 < TCPClientFd s < FD_SETSIZE -> lock s = false -> writable (TCPClientFd s) ->
  zlen sendbuf < Z.of_nat fuel ->
  exists s', Socket_TCPClientSendData fuel sendbuf (zlen sendbuf) s = Done (zlen sendbuf) s' /\
    wire (sockets s') (TCPClientFd s) = wire (sockets s) (TCPClientFd s) ++ sendbuf /\ lock s' = false.
Proof.
  intros Hfd Hl Hw Hf. pose proof (zlen_nonneg sendbuf).
  set (s1 := set_lock true s).
  assert (sent_part (TCPClientFd s) (wire (sockets s) (TCPClientFd s)) sendbuf 0 s1) as Hp.
  { split; [lia|]. split; [|done]. change (ztake 0 sendbuf) with (@nil Z). by rewrite app_nil_r. }
  destruct (send_loop_returns fuel (TCPClientFd s) sendbuf 0 s1) as [s' E]; [done|done|done|lia|lia|].
  exists s'. unfold Socket_TCPClientSendData.
  rewrite (bind_done OSMutexPend _ s tt s1) by (unfold OSMutexPend; by rewrite Hl).
  split; [exact E|].
  pose proof (send_loop_ok fuel _ _ sendbuf 0 s1 Hfd Hp eq_refl) as Hok.
  unfold wpe in Hok. rewrite E in Hok. destruct Hok as [(_ & (_ & Hw' & _) & Hl')|[[? _]|[? _]]]; [|lia..].
  by rewrite Hw', ztake_all by lia.
Qed.

Lemma send_locked fuel buf len s : lock s = true -> Socket_TCPClientSendData fuel buf len s = Err WAITING s.
Proof. intros H. unfold Socket_TCPClientSendData. rewrite (bind_err OSMutexPend _ s WAITING s); [done|]. unfold OSMutexPend. by rewrite H. Qed.

(** A send on a closed connection (descriptor -1) with anything to send takes
    the mutex and never gives it back: either it does not return, or it
    returns -1 because [select] failed.  In both cases every later send, the
    next connection attempt of the cloud task included, waits for ever. *)
Theorem send_deadlock fuel sendbuf len s :
  TCPClientFd s = -1 -> lock s = false -> 0 < len -> (0 < fuel)%nat ->
  exists s', lock s' = true /\
    (Socket_TCPClientSendData fuel sendbuf len s = Err WAITING s' \/
     Socket_TCPClientSendData fuel sendbuf len s = Done (-1) s') /\
    forall fuel' buf' len', Socket_TCPClientSendData fuel' buf' len' s' = Err WAITING s'.
Proof.
  intros Hfd Hl Hlen Hf. destruct fuel as [|fuel]; [lia|].
  assert (exists s', lock s' = true /\
    (Socket_TCPClientSendData (S fuel) sendbuf len s = Err WAITING s' \/
     Socket_TCPClientSendData (S fuel) sendbuf len s = Done (-1) s')) as (s' & Hl' & E).
  2: { exists s'. split; [done|]. split; [done|]. intros. by apply send_locked. }
  unfold Socket_TCPClientSendData.
  rewrite (bind_done OSMutexPend _ s tt (set_lock true s)) by (unfold OSMutexPend; by rewrite Hl).
  cbn [send_loop]. destruct (Z.eqb_spec len 0); [lia|].
  rewrite (bind_done (gets TCPClientFd) _ (set_lock true s) (-1) (set_lock true s)) by (unfold gets; simpl; by rewrite Hfd).
  destruct (FD_SET_some (-1) FD_ZERO) as (p & Hp & Hlp); [done|done|].
  rewrite (bind_done (access _) _ (set_lock true s) p (set_lock true s)) by (unfold access; by rewrite Hp).
  destruct (select_nothing true p (sockets s)) as [Hn|(set' & k & Hn)].
  - exists (set_lock true s). split; [done|]. left. apply bind_err. rewrite select_runs by done.
    change (-1 + 1) with 0. change (sockets (set_lock true s)) with (sockets s). by rewrite Hn.
  - exists (set_sockets k (set_lock true s)). split; [done|]. right.
    rewrite (bind_done (select _ _ _ _) _ _ (-1, set') (set_sockets k (set_lock true s))); [done|].
    rewrite select_runs by done. change (-1 + 1) with 0. change (sockets (set_lock true s)) with (sockets s). by rewrite Hn.
Qed.


(** * Descriptor 7 *)

(** A client that is accepted on descriptor 7 raises [max_sock] to 8, and the
    next turn calls [select] with 9: the scan tests descriptor 8 in a set of
    one byte and reads behind it. *)
Theorem client7_overread m s m' s' k :
  sk_accept (TCPServerFd s) (sockets s) = (7, k) ->
  client_connect_count s < TCP_SERVER_CLIENT_MAX_NUM ->
  accept_client m s = Done m' s' -> 8 <= m' /\ server_turn m' s' = Crash.
Proof.
  intros Ha Hc E. unfold accept_client in E.
  rewrite (bind_done (gets TCPServerFd) _ s (TCPServerFd s) s) in E by done.
  rewrite (bind_done (call _) _ s 7 (set_sockets k s)) in E by (unfold call; by rewrite Ha).
  change (7 <? 0) with false in E. cbv iota in E.
  rewrite (bind_done (gets _) _ (set_sockets k s) (client_connect_count s) (set_sockets k s)) in E by done.
  rewrite (proj2 (Z.ltb_lt _ _) Hc) in E.
  assert (Hm : m' = if m <? 7 + 1 then 7 + 1 else m).
  { repeat match type of E with mbind _ _ _ = Done _ _ => apply bind_inv in E as (? & ? & _ & E) end.
    by injection E as <- _. }
  split; [destruct (Z.ltb_spec m (7 + 1)); lia|]. unfold server_turn.
  destruct (fdset ← FD_SET (TCPServerFd s') FD_ZERO; watch_loop (lan_client s') fdset) as [p|] eqn:Ep.
  2: { apply bind_crash. unfold access. by rewrite Ep. }
  rewrite (bind_done (access _) _ s' p s') by (unfold access; by rewrite Ep).
  apply bind_crash. unfold select. apply bind_crash. unfold access.
  apply bind_Some in Ep as (q & Eq & Ep). apply watch_loop_length in Ep.
  unfold FD_SET in Eq. apply bind_Some in Eq as (x & _ & Eq). apply st_length in Eq.
  rewrite lwip_selscan_spec by (unfold zlen in Eq; simpl in Eq; lia).
  rewrite decide_False; [done|]. subst m'. destruct (Z.ltb_spec m (7 + 1)); lia.
Qed.

End Server.

(** * A simulated socket layer

    Everything is always ready, every client always has one byte, a send takes
    at most four bytes; [lim] sockets are left for accepted connections, the
    descriptors from 1 on. *)

Record SimNet := mkSimNet { sim_accepted : list Z; sim_wire : Z -> list Z }.

Definition sim_accept (lim : nat) (fd : Z) (s : SimNet) : Z * SimNet :=
  let r := 1 + zlen (sim_accepted s) in
  if decide ((length (sim_accepted s) < lim)%nat /\ r < FD_SETSIZE /\ r ∉ sim_accepted s)
  then (r, mkSimNet (r :: sim_accepted s) (sim_wire s)) else (-1, s).

Definition sim_send (fd : Z) (data : list Z) (s : SimNet) : Z * SimNet :=
  let n := Z.min 4 (zlen data) in
  (n, mkSimNet (sim_accepted s) (fun d => if d =? fd then sim_wire s d ++ ztake n data else sim_wire s d)).

#[export] Instance sim_sockets (lim : nat) : Sockets SimNet := {
  sk_socket s := (3, s);
  sk_connect _ _ _ s := (0, s);
  sk_bind _ _ s := (0, s);
  sk_listen _ s := (0, s);
  sk_accept := sim_accept lim;
  sk_select _ m set w s := if (m =? 0) && (w : bool) then None else Some (1, set, s);
  sk_recv fd len s := if fd <? 0 then (-1, [], s) else if len <? 1 then (0, [], s) else (1, [65], s);
  sk_send := sim_send;
  sk_close _ s := s;
  dns_gethostbyname _ s := (0, 0, None, s)
}.

#[export] Instance sim_laws lim : SocketLaws SimNet (SK := sim_sockets lim) lim.
Proof.
  refine {| accepted := sim_accepted : SimNet -> _; wire := sim_wire |}; cbn [sk_accept sk_select sk_recv sk_send sim_sockets].
  - intros fd s r s'. unfold sim_accept. destruct (decide _) as [(H1 & H2 & H3)|]; intros [= <- <-].
    + right. split; [unfold FD_SETSIZE in *; pose proof (zlen_nonneg (sim_accepted s)); lia|]. by repeat split.
    + by left.
  - intros _ m set w s r set' s'. destruct (_ && _); [done|]. by intros [= <- <- <-].
  - intros wr set s. by left.
  - intros fd len s n data s' Hl.
    destruct (fd <? 0); [|destruct (Z.ltb_spec len 1)]; intros [= <- <- <-]; repeat split; lia.
  - intros fd len s Hfd. by rewrite (proj2 (Z.ltb_lt fd 0)).
  - intros fd data s n s' [= <- <-]. split; [lia|]. split; [done|]. cbn. by rewrite Z.eqb_refl.
Defined.

Definition net0 (acc : list Z) (clients : list Z) : Net SimNet :=
  mkNet (mkSimNet acc (fun _ => [])) 0 0 0 7 false 1 clients 0 0
    (Some (replicate 2048 0)) (-1) (Some (replicate 2048 0)) [] [].

Lemma sim_spares_7 lim : (lim <= 6)%nat -> spares_7 (SK := sim_sockets lim).
Proof.
  intros Hl fd k r k'. simpl. unfold sim_accept, zlen.
  destruct (decide _) as [(H & _)|]; intros [= <- _]; lia.
Qed.

Lemma tcp_server_safe_witness :
  wpe (net_ok (SL := sim_laws 5)) (Socket_TCPServerRecvData (SK := sim_sockets 5) 9) (net0 [] [])
    (fun _ s' => net_ok (SL := sim_laws 5) s').
Proof.
  apply (tcp_server_safe (SL := sim_laws 5)); [lia| |done|].
  - apply sim_spares_7. lia.
  - eexists. split; [reflexivity|done].
Defined.

(** Five clients are served, the sixth is written behind the table. *)
Lemma tcp_sixth_client_witness :
  match Socket_TCPServerRecvData (SK := sim_sockets 6) 5 (net0 [] []) with
  | Done m s' => lan_client s' = [1; 2; 3; 4; 5] /\ accept_client (SK := sim_sockets 6) m s' = Crash
  | _ => False
  end.
Proof.
  destruct (Socket_TCPServerRecvData (SK := sim_sockets 6) 5 (net0 [] [])) as [m s'|c s'|] eqn:E;
    [|vm_compute in E; discriminate E..].
  assert (lan_client s' = [1; 2; 3; 4; 5] /\ (sim_accept 6 (TCPServerFd s') (sockets s')).1 = 6) as [Hl Ha].
  { vm_compute in E. injection E as _ <-. by vm_compute. }
  split; [exact Hl|]. destruct (sim_accept 6 (TCPServerFd s') (sockets s')) as [r k] eqn:Ea. simpl in Ha. subst r.
  apply (tcp_sixth_client (SK := sim_sockets 6) 5 (net0 [] []) m s' 6 k);
    [done|lia|exact E| |exact Ea|lia].
  rewrite Hl. repeat constructor; lia.
Defined.

(** Clients that leave are not closed: the seventh gets descriptor 7 though the
    table has room. *)
Lemma client7_overread_witness :
  match accept_client (SK := sim_sockets 7) 7 (net0 [6; 5; 4; 3; 2; 1] [6; -1; -1; -1; -1]) with
  | Done m' s' => 8 <= m' /\ server_turn (SK := sim_sockets 7) m' s' = Crash
  | _ => False
  end.
Proof.
  set (s := net0 [6; 5; 4; 3; 2; 1] [6; -1; -1; -1; -1]).
  destruct (accept_client (SK := sim_sockets 7) 7 s) as [m' s'|c s'|] eqn:E; [|vm_compute in E; discriminate E..].
  apply (client7_overread (SK := sim_sockets 7) 7 s m' s' (mkSimNet [7; 6; 5; 4; 3; 2; 1] (fun _ => [])));
    [by vm_compute|by vm_compute|exact E].
Defined.

Definition msg10 : list Z := [1; 2; 3; 4; 5; 6; 7; 8; 9; 10].

Lemma sim_writable lim : writable (SK := sim_sockets lim) 7.
Proof.
  split.
  - intros set n H. exists 1, set, n. split; [done|]. split; [done|]. by injection H as <-.
  - intros data n H. simpl. lia.
Qed.

Lemma send_data_ok_witness :
  wpe (send_stuck (SL := sim_laws 5) 7 [] msg10)
    (Socket_TCPClientSendData (SK := sim_sockets 5) 2 msg10 10) (net0 [] [])
    (send_done (SL := sim_laws 5) 7 [] msg10).
Proof. apply (send_data_ok (SL := sim_laws 5) 2 msg10 (net0 [] [])); done. Defined.

Lemma send_data_complete_witness :
  exists s', Socket_TCPClientSendData (SK := sim_sockets 5) 11 msg10 10 (net0 [] []) = Done 10 s' /\
    sim_wire (sockets s') 7 = msg10 /\ lock s' = false.
Proof.
  apply (send_data_complete (SL := sim_laws 5) 11 msg10 (net0 [] [])); [done|done|apply sim_writable|done].
Defined.

Lemma send_deadlock_witness :
  exists s', lock s' = true /\
    (Socket_TCPClientSendData (SK := sim_sockets 5) 11 msg10 10 (set_TCPClientFd (-1) (net0 [] [])) = Err WAITING s' \/
     Socket_TCPClientSendData (SK := sim_sockets 5) 11 msg10 10 (set_TCPClientFd (-1) (net0 [] [])) = Done (-1) s') /\
    forall fuel' buf' len', Socket_TCPClientSendData (SK := sim_sockets 5) fuel' buf' len' s' = Err WAITING s'.
Proof. apply (send_deadlock (SL := sim_laws 5)); [done|done|lia|lia]. Defined.

(** * Looking up the cloud *)

Section Lookup.
Context {net : Type} {SK : Sockets net} {IN : Inet}.
Implicit Types (s : Net net).

Lemma store_address_ok buf s :
  zlen buf = 20 -> is_u32 (domain_ipaddr s) ->
  exists rest, store_address buf s = Done (inet_ntoa (domain_ipaddr s) ++ 0 :: rest) s.
Proof.
  intros Hb Ha. pose proof (inet_ntoa_len _ Ha) as Hl. unfold store_address, access.
  rewrite blit_spec by zlen_lia. eexists. rewrite ztake_neg by done. simpl. by rewrite <- app_assoc.
Qed.

(** An address that arrives through the callback is the one connected to; one
    that the resolver has at once ([ERR_OK]) is not looked at: the address of
    the last callback is used in its place. *)
Lemma NuAgent_GetHostByName_address domain buf s err ip cb n :
  zlen buf = 20 -> is_u32 (domain_ipaddr s) -> dns_gethostbyname domain (sockets s) = (err, ip, cb, n) ->
  (forall a, err = ERR_INPROGRESS -> cb = Some a -> a <> 0 -> is_u32 a ->
     exists buf' s', NuAgent_GetHostByName domain buf s = Done (0, buf') s' /\ inet_addr buf' = a) /\
  (err = ERR_OK ->
     exists buf', NuAgent_GetHostByName domain buf s = Done (0, buf') (set_sockets n s) /\
       inet_addr buf' = domain_ipaddr s).
Proof.
  intros Hb Ha E. unfold NuAgent_GetHostByName.
  rewrite (bind_done (call _) _ s (err, ip, cb) (set_sockets n s)) by (unfold call; by rewrite E).
  split.
  - intros a -> -> Hne Hu. change (ERR_INPROGRESS =? ERR_OK) with false. rewrite Z.eqb_refl.
    set (s1 := set_pdomainSem (pdomainSem s + 1) (set_domain a 1 (set_sockets n s))).
    rewrite (bind_done (NuAgent_ServerFound a) _ _ tt s1).
    2: { unfold NuAgent_ServerFound. by destruct (Z.eqb_spec a 0). }
    set (s2 := if 0 <? pdomainSem s1 then set_pdomainSem (pdomainSem s1 - 1) s1 else s1).
    rewrite (bind_done (modify _) _ s1 tt s2 eq_refl).
    assert (domain_flag s2 = 1 /\ domain_ipaddr s2 = a) as [Hf Hi] by (unfold s2; by destruct (0 <? _)).
    rewrite (bind_done (gets _) _ s2 1 s2) by (unfold gets; by rewrite Hf). rewrite Z.eqb_refl.
    destruct (store_address_ok buf s2 Hb) as [rest Hst]; [by rewrite Hi|].
    rewrite (bind_done _ _ _ _ _ Hst). do 2 eexists. split; [reflexivity|]. rewrite Hi. by apply inet_addr_ntoa.
  - intros ->. rewrite Z.eqb_refl. destruct (store_address_ok buf (set_sockets n s) Hb Ha) as [rest Hst].
    rewrite (bind_done _ _ _ _ _ Hst). eexists. split; [reflexivity|]. by apply inet_addr_ntoa.
Qed.
End Lookup.
