(* ===== verification/Ntp.v ===== *)
(** The NTP client: App/NuAgent/Lib/ntp_client.c and the task of
    System/agent_core.c that runs it.

    The clock is the 32-bit tick counter of the kernel, a hundred ticks a
    second, read as seconds since [EPOCH].  The sockets are those of file
    [NetAdapter]. *)
From S2P Require Import Prelude NetAdapter.

Definition JAN_1970 : Z := 2208988800.
Definition OS_TICKS_PER_SEC : Z := 100.

(** The start of the local clock, 30 November 2014, and the offset of its zone. *)
Definition EPOCH : Z := 1417305600.
Definition ZONE : Z := 28800.

(** [NTPFRAC] on an int, [USEC] on an unsigned int. *)
Definition NTPFRAC (x : Z) : Z := s32 (s32 (4294 * x) + Z.shiftr (s32 (1981 * x)) 11).
Definition USEC (x : Z) : Z :=
  u32 (Z.shiftr x 12 - u32 (759 * Z.shiftr (u32 (Z.shiftr x 10 + 32768)) 16)).

(** [struct timeval] *)
Record timeval := mkTimeval { tv_sec : Z; tv_usec : Z }.

(** [sizeof(NTPPACKED)] and the offset of its [trantime]. *)
Definition sizeof_NTPPACKED : Z := 48.
Definition trantime : Z := 40.

(** The query: the header word is stored little-endian and turned by [htonl]. *)
Definition query (ticks : Z) : list Z :=
  let local_precision := 250 in
  let Poll := 4 in
  let stratum := 0 in
  let flags := Z.lor 3 (Z.lor (Z.shiftl 3 3) (Z.shiftl 0 6)) in
  let headData := of_le32 [local_precision; Poll; stratum; flags] in
  let root_dispersion := 65536 in
  let timer := s32 (ticks / OS_TICKS_PER_SEC) in
  le32 (htonl headData) ++ le32 (htonl root_dispersion) ++ le32 (htonl root_dispersion) ++
  replicate 28 0 ++ le32 (htonl (u32 (timer + JAN_1970))) ++ le32 (htonl (u32 (NTPFRAC timer))).

Definition GetSynTimeFromNtpPacked (pSynNtpPacked : list Z) : option timeval :=
  coarse ← fetch pSynNtpPacked trantime 4;
  fine ← fetch pSynNtpPacked (trantime + 4) 4;
  Some (mkTimeval (s32 (u32 (ntohl (of_le32 coarse) - JAN_1970))) (s32 (USEC (ntohl (of_le32 fine))))).

Definition GetLocalTime (ticks : Z) : timeval :=
  mkTimeval (s32 (s32 (ticks / OS_TICKS_PER_SEC) + EPOCH + ZONE))
    (s32 (u32 (ticks mod OS_TICKS_PER_SEC / OS_TICKS_PER_SEC * 1000))).

(** The ticks [OSTimeSet] is called with. *)
Definition ModifyLocalTime (tv : timeval) : Z :=
  let time := u32 (tv_sec tv - EPOCH) in
  u32 (time * OS_TICKS_PER_SEC).

Section Ntp.
Context {net : Type} {SK : Sockets net}.

Record Ntp := mkNtp { nsock : net; OSTime : Z }.

Definition set_nsock (v : net) (s : Ntp) : Ntp := mkNtp v (OSTime s).
Definition set_OSTime (v : Z) (s : Ntp) : Ntp := mkNtp (nsock s) v.

Definition ncall {A} (f : net -> A * net) : M Ntp A := fun s =>
  let (a, n) := f (nsock s) in Done a (set_nsock n s).

(** The address is that of the variable [addr_src], not of the server. *)
Definition CreateNtpClientSockfd (stack_addr : Z) : M Ntp Z :=
  sockfd ← ncall sk_socket;
  if sockfd =? -1 then mret (-1)
  else ncall (sk_connect sockfd stack_addr 0);; mret sockfd.

Definition SendQueryTimePacked (sockfd : Z) : M Ntp unit :=
  ticks ← gets OSTime;
  ncall (sk_send sockfd (query ticks));;
  mret tt.

Definition CloseSockfd (sockfd : Z) : M Ntp unit := ncall (fun n => (tt, sk_close sockfd n)).

(** Yields the count and the packet. *)
Definition RecvNtpPacked (sockfd : Z) (pSynNtpPacked : list Z) : M Ntp (Z * list Z) :=
  '(receivebytes, data) ← ncall (sk_recv sockfd sizeof_NTPPACKED);
  pSynNtpPacked ← access (fun _ => blit pSynNtpPacked 0 data);
  if receivebytes =? -1 then CloseSockfd sockfd;; mret (-1, pSynNtpPacked)
  else mret (receivebytes, pSynNtpPacked).

(** [SynNtpPacked] is the variable as the stack leaves it. *)
Definition start_ntp (stack_addr : Z) (SynNtpPacked : list Z) : M Ntp Z :=
  sockfd ← CreateNtpClientSockfd stack_addr;
  if sockfd =? -1 then mret 1
  else
    SendQueryTimePacked sockfd;;
    fds_read ← access (fun _ => FD_SET sockfd FD_ZERO);
    '(ret, fds_read) ← (fun s =>
      match sk_select false (sockfd + 1) fds_read false (nsock s) with
      | None => Err WAITING s
      | Some (r, set', n) => Done (r, set') (set_nsock n s)
      end);
    ready ← access (fun _ => FD_ISSET sockfd fds_read);
    if (ret =? 0) || negb ready then SendQueryTimePacked sockfd;; CloseSockfd sockfd;; mret 1
    else
      '(n, SynNtpPacked) ← RecvNtpPacked sockfd SynNtpPacked;
      if negb (n =? -1) then
        new_time ← access (fun _ => GetSynTimeFromNtpPacked SynNtpPacked);
        modify (set_OSTime (ModifyLocalTime new_time));;
        CloseSockfd sockfd;;
        mret 0
      else CloseSockfd sockfd;; mret 1.

(** The attempts of [OtherTaskThread]: [count <= 50 && ntp_ret != 0]; yields their number. *)
Fixpoint ntp_attempts (fuel : nat) (stack_addr : Z) (SynNtpPacked : list Z) (count ntp_ret : Z) : M Ntp (Z * Z) :=
  match fuel with
  | O => fail WAITING
  | S fuel =>
      if (count <=? 50) && negb (ntp_ret =? 0) then
        ntp_ret ← start_ntp stack_addr SynNtpPacked;
        ntp_attempts fuel stack_addr SynNtpPacked (count + 1) ntp_ret
      else mret (count, ntp_ret)
  end.

Definition OtherTaskThread (stack_addr : Z) (SynNtpPacked : list Z) : M Ntp (Z * Z) :=
  ntp_attempts 52 stack_addr SynNtpPacked 0 1.
End Ntp.

(** * Properties *)

Lemma USEC_bounds x :
  is_u32 x ->
  0 <= USEC x < 1000000 /\ Z.abs (USEC x * 4294967296 - x * 1000000) <= 381 * 4294967296.
Proof.
  intros Hx. unfold USEC. rewrite !Z.shiftr_div_pow2 by lia.
  change (2 ^ 12) with 4096. change (2 ^ 10) with 1024. change (2 ^ 16) with 65536.
  unfold is_u32 in Hx.
  pose proof (Z.div_mod x 4096 ltac:(lia)). pose proof (Z.mod_pos_bound x 4096 ltac:(lia)).
  pose proof (Z.div_mod x 1024 ltac:(lia)). pose proof (Z.mod_pos_bound x 1024 ltac:(lia)).
  generalize dependent (x mod 4096). generalize dependent (x mod 1024).
  generalize dependent (x / 4096). generalize dependent (x / 1024). intros a m c Ea Hc d Em Hd.
  rewrite (u32_small (a + 32768)) by (unfold is_u32; lia).
  pose proof (Z.div_mod (a + 32768) 65536 ltac:(lia)) as Ek.
  pose proof (Z.mod_pos_bound (a + 32768) 65536 ltac:(lia)) as Hr.
  generalize dependent ((a + 32768) mod 65536). generalize dependent ((a + 32768) / 65536). intros k r Ek Hr.
  rewrite (u32_small (759 * k)), u32_small by (unfold is_u32; lia). lia.
Qed.

Lemma USEC_range x : is_u32 x -> 0 <= USEC x < 1000000.
Proof. intros Hx. apply USEC_bounds, Hx. Qed.

(** The integer formula for the fraction of a second is within 381
    microseconds of the exact value and never reaches a full second. *)
Theorem USEC_accurate x :
  is_u32 x ->
  0 <= USEC x < 1000000 /\ Z.abs (USEC x * 4294967296 - x * 1000000) <= 381 * 4294967296.
Proof. apply USEC_bounds. Qed.

Lemma USEC_accurate_witness : 0 <= USEC 2147483648 < 1000000 /\
  Z.abs (USEC 2147483648 * 4294967296 - 2147483648 * 1000000) <= 381 * 4294967296.
Proof. apply (USEC_accurate 2147483648). unfold is_u32. lia. Defined.

(** ** The clock *)

(** The packet of a server whose clock shows [t] seconds after 1970. *)
Definition reply (hdr : list Z) (t fine : Z) : list Z := hdr ++ be32 (t + JAN_1970) ++ be32 fine.

Lemma reply_time hdr t fine :
  zlen hdr = trantime -> is_u32 (t + JAN_1970) -> is_u32 fine -> 0 <= t < 2147483648 ->
  GetSynTimeFromNtpPacked (reply hdr t fine) = Some (mkTimeval t (USEC fine)).
Proof.
  intros Hh Ht Hf Hs. unfold GetSynTimeFromNtpPacked, reply. rewrite <- Hh.
  rewrite (fetch_mid hdr) by done. cbn [mbind option_bind].
  rewrite app_assoc, <- (app_nil_r (be32 fine)).
  replace (zlen hdr + 4) with (zlen (hdr ++ be32 (t + JAN_1970))) by (rewrite zlen_app; done).
  rewrite fetch_mid by done. cbn [mbind option_bind].
  rewrite !ntohl_be32 by done. pose proof (USEC_range fine Hf).
  replace (t + JAN_1970 - JAN_1970) with t by lia.
  rewrite (u32_small t), !s32_small by (unfold is_u32; lia). done.
Qed.

(** The seconds the local clock shows after it has been set to [t]. *)
Definition clock_after (t : Z) : Z := tv_sec (GetLocalTime (ModifyLocalTime (mkTimeval t 0))).

Lemma clock_after_exact t : EPOCH <= t < EPOCH + 42949672 -> clock_after t = t + ZONE.
Proof.
  unfold clock_after, ModifyLocalTime, GetLocalTime, OS_TICKS_PER_SEC, EPOCH, ZONE. cbn [tv_sec]. intros H.
  rewrite (u32_small (t - _)), u32_small by (unfold is_u32; lia). rewrite Z.div_mul by lia.
  rewrite (s32_small (t - _)) by lia. rewrite s32_small by lia. lia.
Qed.

Lemma clock_after_late t : clock_after t <= EPOCH + ZONE + 42949672.
Proof.
  unfold clock_after, ModifyLocalTime, GetLocalTime, OS_TICKS_PER_SEC. cbn [tv_sec].
  pose proof (u32_range (u32 (t - EPOCH) * 100)) as Hr. unfold is_u32 in Hr.
  assert (0 <= u32 (u32 (t - EPOCH) * 100) / 100 <= 42949672) as Hd.
  { split; [apply Z.div_pos; lia|]. apply Z.lt_succ_r, Z.div_lt_upper_bound; lia. }
  unfold EPOCH, ZONE in *. rewrite (s32_small (_ / 100)) by lia. rewrite s32_small by lia. lia.
Qed.

Section Run.
Context {net : Type} {SK : Sockets net}.
Implicit Types s : Ntp (net := net).

(** A server answers the query: what the socket calls of one attempt yield. *)
Record answered (fd stack_addr : Z) (pkt : list Z) (s : Ntp (net := net)) (n4 : net) : Prop := {
  an_fd : 0 <= fd < FD_SETSIZE;
  an_calls : exists n1 r2 n2 r3 n3 r set' n3',
    sk_socket (nsock s) = (fd, n1) /\ sk_connect fd stack_addr 0 n1 = (r2, n2) /\
    sk_send fd (query (OSTime s)) n2 = (r3, n3) /\
    (forall p, FD_SET fd FD_ZERO = Some p -> sk_select false (fd + 1) p false n3 = Some (r, set', n3')) /\
    0 < r /\ FD_ISSET fd set' = Some true /\ sk_recv fd sizeof_NTPPACKED n3' = (sizeof_NTPPACKED, pkt, n4)
}.

Lemma start_ntp_answered fd stack_addr junk pkt tv s n :
  answered fd stack_addr pkt s n -> zlen junk = sizeof_NTPPACKED -> zlen pkt = sizeof_NTPPACKED ->
  GetSynTimeFromNtpPacked pkt = Some tv ->
  start_ntp stack_addr junk s = Done 0 (mkNtp (sk_close fd n) (ModifyLocalTime tv)).
Proof.
  intros [Hfd (n1 & r2 & n2 & r3 & n3 & r & set' & n3' & E1 & E2 & E3 & E4 & Hr & Hset & E5)] Hj Hp Htv.
  unfold start_ntp, CreateNtpClientSockfd. rewrite bind_assoc.
  rewrite (bind_done (ncall _) _ s fd (set_nsock n1 s)) by (unfold ncall; by rewrite E1).
  destruct (Z.eqb_spec fd (-1)); [lia|]. rewrite bind_assoc.
  rewrite (bind_done (ncall _) _ _ r2 (set_nsock n2 s)) by (unfold ncall; simpl; by rewrite E2).
  rewrite (bind_done (mret fd) _ _ fd (set_nsock n2 s) eq_refl).
  destruct (Z.eqb_spec fd (-1)); [lia|]. 
  rewrite (bind_done (SendQueryTimePacked fd) _ _ tt (set_nsock n3 s)).
  2: { unfold SendQueryTimePacked. rewrite (bind_done (gets OSTime) _ (set_nsock n2 s) (OSTime s) (set_nsock n2 s) eq_refl).
       by rewrite (bind_done (ncall _) _ _ r3 (set_nsock n3 s)) by (unfold ncall; simpl; by rewrite E3). }
  destruct (FD_SET_some fd FD_ZERO) as (p & Hset0 & _); [lia|done|].
  rewrite (bind_done (access _) _ _ p (set_nsock n3 s)) by (unfold access; by rewrite Hset0).
  rewrite (bind_done _ _ _ (r, set') (set_nsock n3' s)) by (simpl; by rewrite (E4 p Hset0)).
  rewrite (bind_done (access _) _ _ true (set_nsock n3' s)) by (unfold access; by rewrite Hset).
  destruct (Z.eqb_spec r 0); [lia|]. cbn [orb negb].
  rewrite (bind_done (RecvNtpPacked fd junk) _ _ (sizeof_NTPPACKED, pkt) (set_nsock n s)).
  2: { unfold RecvNtpPacked.
       rewrite (bind_done (ncall _) _ _ (sizeof_NTPPACKED, pkt) (set_nsock n s)) by (unfold ncall; simpl; by rewrite E5).
       rewrite (bind_done (access _) _ _ pkt (set_nsock n s)); [done|].
       unfold access. rewrite blit_spec by lia. rewrite ztake_neg, zdrop_all by lia. by rewrite app_nil_r. }
  change (sizeof_NTPPACKED =? -1) with false. cbn [negb].
  rewrite (bind_done (access _) _ _ tv (set_nsock n s)) by (unfold access; by rewrite Htv).
  done.
Qed.

(** An answered query sets the clock: until 10 April 2016 (42949672 seconds
    after the epoch) the local time is then the server's plus the zone; from
    there on the tick counter has wrapped, and the clock shows a time before
    that day. *)
Theorem ntp_sets_clock fd stack_addr junk hdr t fine s n :
  answered fd stack_addr (reply hdr t fine) s n -> zlen junk = sizeof_NTPPACKED ->
  zlen hdr = trantime -> is_u32 (t + JAN_1970) -> is_u32 fine -> EPOCH <= t ->
  exists s', start_ntp stack_addr junk s = Done 0 s' /\ nsock s' = sk_close fd n /\
    (t < EPOCH + 42949672 -> tv_sec (GetLocalTime (OSTime s')) = t + ZONE) /\
    (EPOCH + 42949673 <= t -> tv_sec (GetLocalTime (OSTime s')) < t + ZONE).
Proof.
  intros Ha Hj Hh Ht Hf He. pose proof Ht as Ht'. unfold is_u32, JAN_1970 in Ht'. unfold EPOCH in *.
  rewrite (start_ntp_answered fd stack_addr junk _ (mkTimeval t (USEC fine)) s n Ha Hj).
  2: { unfold reply. rewrite !zlen_app, Hh. done. }
  2: { apply reply_time; [done|done|done|lia]. }
  eexists. split; [reflexivity|]. split; [done|]. cbn [OSTime].
  change (ModifyLocalTime (mkTimeval t (USEC fine))) with (ModifyLocalTime (mkTimeval t 0)).
  fold (clock_after t). split; intros; [by apply clock_after_exact|].
  pose proof (clock_after_late t). unfold EPOCH, ZONE in *. lia.
Qed.

(** ** The task *)

Lemma ntp_attempts_spec fuel stack_addr junk count r s c r' s' :
  0 <= count <= 51 ->
  ntp_attempts fuel stack_addr junk count r s = Done (c, r') s' ->
  count <= c <= 51 /\ (r' = 0 \/ c = 51).
Proof.
  revert count r s. induction fuel as [|fuel IH]; intros count r s Hc E; [done|]. cbn [ntp_attempts] in E.
  destruct (Z.leb_spec count 50), (Z.eqb_spec r 0); cbn [andb negb] in E.
  1, 3, 4: injection E as -> -> _; split; [lia|auto; lia].
  apply bind_inv in E as (r1 & s1 & _ & E). apply IH in E; lia.
Qed.

Lemma ntp_attempts_fuel fuel stack_addr junk count r s x s' :
  0 <= count -> (Z.to_nat (51 - count) < fuel)%nat ->
  ntp_attempts fuel stack_addr junk count r s = Err x s' ->
  exists s0, start_ntp stack_addr junk s0 = Err x s'.
Proof.
  revert count r s. induction fuel as [|fuel IH]; intros count r s Hc Hf E; [lia|]. cbn [ntp_attempts] in E.
  destruct (Z.leb_spec count 50), (Z.eqb_spec r 0); cbn [andb negb] in E; try done.
  unfold mbind, M_bind in E. destruct (start_ntp stack_addr junk s) as [r1 s1|c1 s1|] eqn:Es; [|injection E as -> ->; by exists s|done].
  apply (IH (count + 1)) in E; [done|lia|lia].
Qed.

(** The task asks at most 51 times and stops at the first success; it fails
    to return only when an attempt itself does. *)
Theorem ntp_task_attempts stack_addr junk s :
  match OtherTaskThread stack_addr junk s with
  | Done (c, r) _ => 0 <= c <= 51 /\ (r = 0 \/ c = 51)
  | Err x s' => exists s0, start_ntp stack_addr junk s0 = Err x s'
  | Crash => True
  end.
Proof.
  unfold OtherTaskThread. destruct (ntp_attempts _ _ _ _ _ s) as [[c r] s'|x s'|] eqn:E; [| |done].
  - by apply ntp_attempts_spec in E.
  - apply ntp_attempts_fuel in E; [done|done|lia].
Qed.
End Run.

(** ** A simulated server *)

Definition sim_reply : list Z := reply (replicate 40 0) 1450000000 2147483648.

#[local] Instance sim_ntp_sockets : Sockets Z := {
  sk_socket s := (3, s);
  sk_connect _ _ _ s := (-1, s);
  sk_bind _ _ s := (0, s);
  sk_listen _ s := (0, s);
  sk_accept _ s := (-1, s);
  sk_select _ _ set _ s := Some (1, set, s);
  sk_recv _ _ s := (48, sim_reply, s);
  sk_send _ data s := (zlen data, s);
  sk_close _ s := s - 1;
  dns_gethostbyname _ s := (0, 0, None, s)
}.

Lemma ntp_sets_clock_witness : exists s',
  start_ntp 0 (replicate 48 0) (mkNtp 5 0) = Done 0 s' /\ nsock s' = sk_close 3 5 /\
  (1450000000 < EPOCH + 42949672 -> tv_sec (GetLocalTime (OSTime s')) = 1450000000 + ZONE) /\
  (EPOCH + 42949673 <= 1450000000 -> tv_sec (GetLocalTime (OSTime s')) < 1450000000 + ZONE).
Proof.
  apply (ntp_sets_clock 3 0 (replicate 48 0) (replicate 40 0) 1450000000 2147483648 (mkNtp 5 0) 5);
    [|done|done|unfold is_u32, JAN_1970; lia|unfold is_u32; lia|unfold EPOCH; lia].
  split; [done|]. do 8 eexists. repeat (split; [reflexivity|]). split.
  - intros p Hp. injection Hp as <-. reflexivity.
  - by repeat split.
Defined.
