(* ===== verification/CStr.v ===== *)
(** The string functions of Sys/util.c: hexadecimal input and the C string
    functions the firmware brings along, [strncpy] with its unrolled loop.
    A string argument is the object it points into, from its first byte;
    source and destination are different objects, as the C standard demands. *)
From S2P Require Import Prelude.

(** * Hexadecimal input *)

Definition BtoH (ch : Z) : Z :=
  if (48 <=? ch) && (ch <=? 57) then u8 (ch - 48)
  else if (65 <=? ch) && (ch <=? 70) then u8 (ch - 65 + 10)
  else if (97 <=? ch) && (ch <=? 102) then u8 (ch - 97 + 10)
  else 255.

(** [while (destlen--)] *)
Fixpoint AtoH_loop (fuel : nat) (src dest : list Z) (i j destlen : Z) : option (list Z) :=
  match fuel with
  | O => None
  | S fuel =>
      if destlen =? 0 then Some dest
      else
        c ← ld src i;
        dest ← st dest j (u8 (Z.shiftl (BtoH c) 4));
        c ← ld src (i + 1);
        x ← ld dest j;
        dest ← st dest j (u8 (x + BtoH c));
        AtoH_loop fuel src dest (i + 2) (j + 1) (destlen - 1)
  end.

Definition AtoH (src dest : list Z) (destlen : Z) : option (list Z) :=
  AtoH_loop (S (Z.to_nat destlen)) src dest 0 0 destlen.

(** * Strings *)

(** Each turn copies a character; the terminator is the last. *)
Fixpoint strcpy_loop (fuel : nat) (dest src : list Z) (d s : Z) : option (list Z) :=
  match fuel with
  | O => None
  | S fuel =>
      c ← ld src s;
      dest ← st dest d c;
      if c =? 0 then Some dest else strcpy_loop fuel dest src (d + 1) (s + 1)
  end.

Definition strcpy (dest src : list Z) : option (list Z) :=
  strcpy_loop (S (length src)) dest src 0 0.

(** The offset behind the terminator. *)
Fixpoint end_loop (fuel : nat) (dest : list Z) (s1 : Z) : option Z :=
  match fuel with
  | O => None
  | S fuel => c ← ld dest s1; if c =? 0 then Some (s1 + 1) else end_loop fuel dest (s1 + 1)
  end.

(** [s1 -= 2; do *++s1 = *s2++ ...] *)
Fixpoint append_loop (fuel : nat) (dest src : list Z) (s1 s2 : Z) : option (list Z) :=
  match fuel with
  | O => None
  | S fuel =>
      c ← ld src s2;
      dest ← st dest (s1 + 1) c;
      if c =? 0 then Some dest else append_loop fuel dest src (s1 + 1) (s2 + 1)
  end.

Definition strcat (dest src : list Z) : option (list Z) :=
  s1 ← end_loop (S (length dest)) dest 0;
  append_loop (S (length src)) dest src (s1 - 2) 0.

(** The inner loop of [strspn] and [strpbrk]: is the character among those of [accept]? *)
Fixpoint in_loop (fuel : nat) (accept : list Z) (a p : Z) : option bool :=
  match fuel with
  | O => None
  | S fuel =>
      c ← ld accept a;
      if c =? 0 then Some false else if p =? c then Some true else in_loop fuel accept (a + 1) p
  end.

Fixpoint strspn_loop (fuel : nat) (s accept : list Z) (p count : Z) : option Z :=
  match fuel with
  | O => None
  | S fuel =>
      c ← ld s p;
      if c =? 0 then Some count
      else
        found ← in_loop (S (length accept)) accept 0 c;
        if (found : bool) then strspn_loop fuel s accept (p + 1) (u32 (count + 1)) else Some count
  end.

Definition strspn (s accept : list Z) : option Z := strspn_loop (S (length s)) s accept 0 0.

(** The offset found, or [None] for the null pointer. *)
Fixpoint strpbrk_loop (fuel : nat) (s1 s2 : list Z) (s : Z) : option (option Z) :=
  match fuel with
  | O => None
  | S fuel =>
      c ← ld s1 s;
      if c =? 0 then Some None
      else
        found ← in_loop (S (length s2)) s2 0 c;
        if (found : bool) then Some (Some s) else strpbrk_loop fuel s1 s2 (s + 1)
  end.

Definition strpbrk (s1 s2 : list Z) : option (option Z) := strpbrk_loop (S (length s1)) s1 s2 0.

(** ** strncpy

    [pos] counts the characters copied: [s1] is at [pos - 1], [s2] at [pos]. *)

(** [c = *s2++; *++s1 = c;] *)
Definition copy1 (s1 s2 : list Z) (pos : Z) : option (Z * list Z) :=
  c ← ld s2 pos; s1 ← st s1 pos c; Some (c, s1).

(** [n] such copies in a row, left by [break] at a terminator ([true]). *)
Fixpoint copies (n : nat) (s1 s2 : list Z) (pos : Z) : option (list Z * Z * bool) :=
  match n with
  | O => Some (s1, pos, false)
  | S n =>
      '(c, s1) ← copy1 s1 s2 pos;
      if c =? 0 then Some (s1, pos + 1, true) else copies n s1 s2 (pos + 1)
  end.

(** The unrolled [for (;;)]. *)
Fixpoint quads_loop (fuel : nat) (s1 s2 : list Z) (pos n4 : Z) : option (list Z * Z * bool) :=
  match fuel with
  | O => None
  | S fuel =>
      '(s1, pos, stop) ← copies 4 s1 s2 pos;
      if (stop : bool) then Some (s1, pos, true)
      else if u32 (n4 - 1) =? 0 then Some (s1, pos, false)
      else quads_loop fuel s1 s2 pos (u32 (n4 - 1))
  end.

(** [do *++s1 = '\0'; while (--n > 0);] *)
Fixpoint zero_fill (fuel : nat) (s1 : list Z) (pos n : Z) : option (list Z) :=
  match fuel with
  | O => None
  | S fuel =>
      s1 ← st s1 pos 0;
      if 0 <? u32 (n - 1) then zero_fill fuel s1 (pos + 1) (u32 (n - 1)) else Some s1
  end.

(** [do { ...; if (--n == 0) return s; } while (c != '\0');], then the filling. *)
Fixpoint chars_loop (fuel : nat) (s1 s2 : list Z) (pos n : Z) : option (list Z) :=
  match fuel with
  | O => None
  | S fuel =>
      '(c, s1) ← copy1 s1 s2 pos;
      if u32 (n - 1) =? 0 then Some s1
      else if c =? 0 then zero_fill (Z.to_nat (u32 (n - 1))) s1 (pos + 1) (u32 (n - 1))
      else chars_loop fuel s1 s2 (pos + 1) (u32 (n - 1))
  end.

Definition last_chars (s1 s2 : list Z) (pos n : Z) : option (list Z) :=
  let n := Z.land n 3 in
  if n =? 0 then Some s1 else chars_loop 3 s1 s2 pos n.

Definition strncpy (s1 s2 : list Z) (n : Z) : option (list Z) :=
  if 4 <=? n then
    '(s1, pos, stop) ← quads_loop (Z.to_nat n) s1 s2 0 (Z.shiftr n 2);
    if (stop : bool) then
      let n := u32 (u32 (n - (pos - 1)) - 1) in
      if n =? 0 then Some s1 else zero_fill (Z.to_nat n) s1 pos n
    else last_chars s1 s2 pos n
  else last_chars s1 s2 0 n.

(** * Lemmas

    Everywhere [pre] is what has been copied or passed, [dest] what is left of
    the destination. *)

Definition nonzero (l : list Z) : Prop := Forall (fun c => c <> 0) l.

Lemma st_mid {A} (pre : list A) y rest x : st (pre ++ y :: rest) (zlen pre) x = Some (pre ++ x :: rest).
Proof.
  rewrite st_insert by zlen_lia. unfold zlen. rewrite Nat2Z.id, <- (Nat.add_0_r (length pre)), insert_app_r. done.
Qed.

Lemma copy1_mid pre x s2 y rest :
  copy1 (pre ++ y :: rest) (pre ++ x :: s2) (zlen pre) = Some (x, (pre ++ [x]) ++ rest).
Proof. unfold copy1. rewrite ld_mid. cbn [mbind option_bind]. rewrite st_mid. by rewrite <- app_assoc. Qed.

Lemma zlen_snoc {A} (pre : list A) x : zlen (pre ++ [x]) = zlen pre + 1.
Proof. zlen_lia. Qed.

(** The reference: the string, cut or followed by zeros, in exactly [n] places. *)
Definition strncpy_image (str : list Z) (n : Z) : list Z :=
  ztake n str ++ replicate (Z.to_nat (n - zlen str)) 0.

Lemma zero_fill_spec fuel pre dest n :
  0 < n <= zlen dest -> n < 4294967296 -> (Z.to_nat n <= fuel)%nat ->
  zero_fill fuel (pre ++ dest) (zlen pre) n = Some (pre ++ replicate (Z.to_nat n) 0 ++ zdrop n dest).
Proof.
  revert pre dest n. induction fuel as [|fuel IH]; intros pre dest n Hn Hl Hf; [lia|].
  destruct dest as [|y dest]; [unfold zlen in Hn; simpl in Hn; lia|]. rewrite zlen_cons in Hn.
  cbn [zero_fill]. rewrite st_mid. cbn [mbind option_bind]. rewrite u32_small by word_lia.
  replace (Z.to_nat n) with (S (Z.to_nat (n - 1))) by lia. cbn [replicate app].
  replace (zdrop n (y :: dest)) with (zdrop (n - 1) dest).
  2: { unfold zdrop. by replace (Z.to_nat n) with (S (Z.to_nat (n - 1))) by lia. }
  change (pre ++ 0 :: dest) with (pre ++ [0] ++ dest). rewrite app_assoc.
  destruct (Z.ltb_spec 0 (n - 1)).
  - rewrite <- (zlen_snoc pre 0), IH by lia. by rewrite <- app_assoc.
  - by replace n with 1 by lia; rewrite <- app_assoc.
Qed.

Lemma copies_stop k pre str dest tl :
  nonzero str -> zlen str < zlen dest -> zlen str < Z.of_nat k ->
  copies k (pre ++ dest) (pre ++ str ++ 0 :: tl) (zlen pre) =
    Some ((pre ++ str ++ [0]) ++ zdrop (zlen str + 1) dest, zlen pre + zlen str + 1, true).
Proof.
  revert pre str dest. induction k as [|k IH]; intros pre str dest Hs Hd Hk; [pose proof (zlen_nonneg str); lia|].
  destruct dest as [|y dest]; [unfold zlen in Hd; simpl in Hd; lia|].
  cbn [copies]. destruct str as [|c str].
  - simpl app. rewrite copy1_mid. cbn [mbind option_bind]. rewrite Z.eqb_refl.
    change (zlen (@nil Z)) with 0. rewrite Z.add_0_r. reflexivity.
  - apply Forall_cons_1 in Hs as [Hc Hs]. rewrite !zlen_cons in *. simpl app. rewrite copy1_mid.
    cbn [mbind option_bind]. destruct (Z.eqb_spec c 0); [done|].
    change (pre ++ c :: str ++ 0 :: tl) with (pre ++ [c] ++ str ++ 0 :: tl). rewrite app_assoc.
    rewrite <- (zlen_snoc pre c), IH by (done || lia). rewrite zlen_snoc, <- !app_assoc.
    replace (zdrop (1 + zlen str + 1) (y :: dest)) with (zdrop (zlen str + 1) dest).
    2: { unfold zdrop. pose proof (zlen_nonneg str).
         by replace (Z.to_nat (1 + zlen str + 1)) with (S (Z.to_nat (zlen str + 1))) by lia. }
    replace (zlen pre + 1 + zlen str + 1) with (zlen pre + (1 + zlen str) + 1) by lia.
    cbn [app]. by rewrite <- app_assoc.
Qed.

Lemma copies_all pre blk dest tl :
  nonzero blk -> zlen blk <= zlen dest ->
  copies (length blk) (pre ++ dest) (pre ++ blk ++ tl) (zlen pre) =
    Some ((pre ++ blk) ++ zdrop (zlen blk) dest, zlen pre + zlen blk, false).
Proof.
  revert pre dest. induction blk as [|c blk IH]; intros pre dest Hs Hd; cbn [copies length].
  - change (zlen (@nil Z)) with 0. by rewrite app_nil_r, Z.add_0_r.
  - destruct dest as [|y dest]; [unfold zlen in Hd; simpl in Hd; lia|].
    apply Forall_cons_1 in Hs as [Hc Hs]. rewrite !zlen_cons in *. simpl app. rewrite copy1_mid.
    cbn [mbind option_bind]. destruct (Z.eqb_spec c 0); [done|].
    change (pre ++ c :: blk ++ tl) with (pre ++ [c] ++ blk ++ tl). rewrite app_assoc.
    rewrite <- (zlen_snoc pre c), IH by (done || lia). rewrite zlen_snoc, <- !app_assoc.
    replace (zdrop (1 + zlen blk) (y :: dest)) with (zdrop (zlen blk) dest).
    2: { unfold zdrop. pose proof (zlen_nonneg blk).
         by replace (Z.to_nat (1 + zlen blk)) with (S (Z.to_nat (zlen blk))) by lia. }
    replace (zlen pre + 1 + zlen blk) with (zlen pre + (1 + zlen blk)) by lia. done.
Qed.

Lemma image_app a b n : zlen a <= n -> strncpy_image (a ++ b) n = a ++ strncpy_image b (n - zlen a).
Proof.
  intros H. unfold strncpy_image. rewrite ztake_app_r, zlen_app, <- app_assoc by done.
  do 3 f_equal. lia.
Qed.

Lemma image_take str n : n <= zlen str -> strncpy_image str n = ztake n str.
Proof. intros H. unfold strncpy_image. replace (Z.to_nat (n - zlen str)) with O by lia. apply app_nil_r. Qed.

Lemma split_at {A} (l : list A) n : 0 <= n <= zlen l -> exists a b, l = a ++ b /\ zlen a = n.
Proof.
  intros H. exists (ztake n l), (zdrop n l). split; [symmetry; apply take_drop|]. rewrite zlen_ztake. lia.
Qed.

(** The source from its start: a string that ends in [tl], or is long enough. *)
Definition source (str tl : list Z) (n : Z) : Prop :=
  nonzero str /\ (n <= zlen str \/ exists tl', tl = 0 :: tl').

Lemma source_app a b tl n : source (a ++ b) tl n -> source b tl (n - zlen a).
Proof.
  intros [Hs Ht]. apply Forall_app in Hs as [_ Hs]. split; [done|].
  destruct Ht as [Ht|]; [left; zlen_lia|by right].
Qed.

Lemma quads_loop_spec fuel pre str dest tl n4 :
  source str tl (4 * n4) -> 1 <= n4 < 1073741824 -> 4 * n4 <= zlen dest -> (Z.to_nat n4 <= fuel)%nat ->
  quads_loop fuel (pre ++ dest) (pre ++ str ++ tl) (zlen pre) n4 =
    if 4 * n4 <=? zlen str
    then Some ((pre ++ ztake (4 * n4) str) ++ zdrop (4 * n4) dest, zlen pre + 4 * n4, false)
    else Some ((pre ++ str ++ [0]) ++ zdrop (zlen str + 1) dest, zlen pre + zlen str + 1, true).
Proof.
  revert pre str dest n4. induction fuel as [|fuel IH]; intros pre str dest n4 Hsrc Hn Hd Hf; [lia|].
  pose proof Hsrc as [Hs Ht]. cbn [quads_loop]. destruct (Z.ltb_spec (zlen str) 4) as [Hl|Hl].
  - destruct Ht as [Ht|[tl' ->]]; [lia|]. rewrite copies_stop by (done || lia). cbn [mbind option_bind].
    by destruct (Z.leb_spec (4 * n4) (zlen str)); [lia|].
  - destruct (split_at str 4) as (blk & str' & -> & Hb); [pose proof (zlen_nonneg str); lia|].
    pose proof (proj1 (Forall_app _ _ _) Hs) as [Hblk Hs'].
    replace 4%nat with (length blk) by (unfold zlen in Hb; lia).
    rewrite <- (app_assoc blk), copies_all by (done || lia). cbn [mbind option_bind].
    rewrite zlen_app, Hb in *. pose proof (zlen_nonneg str').
    rewrite u32_small by word_lia. destruct (Z.eqb_spec (n4 - 1) 0).
    + replace n4 with 1 by lia. destruct (Z.leb_spec (4 * 1) (4 + zlen str')); [|lia].
      by rewrite ztake_app_l, ztake_all by lia.
    + rewrite app_assoc. replace (zlen pre + 4) with (zlen (pre ++ blk)) by (rewrite zlen_app; lia).
      rewrite IH; [| |lia|rewrite zlen_zdrop; lia|lia].
      2: { replace (4 * (n4 - 1)) with (4 * n4 - zlen blk) by lia. by apply source_app. }
      rewrite zlen_app, Hb. destruct (Z.leb_spec (4 * (n4 - 1)) (zlen str')), (Z.leb_spec (4 * n4) (4 + zlen str')); try lia.
      * rewrite (ztake_app_r (4 * n4)), Hb, zdrop_zdrop by lia.
        replace (4 * n4 - 4) with (4 * (n4 - 1)) by lia. replace (4 + 4 * (n4 - 1)) with (4 * n4) by lia.
        replace (zlen pre + 4 + 4 * (n4 - 1)) with (zlen pre + 4 * n4) by lia. by rewrite <- !app_assoc.
      * rewrite zdrop_zdrop by lia. replace (4 + (zlen str' + 1)) with (4 + zlen str' + 1) by lia.
        replace (zlen pre + 4 + zlen str' + 1) with (zlen pre + (4 + zlen str') + 1) by lia.
        by rewrite <- !app_assoc.
Qed.

Lemma chars_loop_spec fuel pre str dest tl n :
  source str tl n -> 1 <= n <= zlen dest -> n < 4294967296 -> (Z.to_nat n <= fuel)%nat ->
  chars_loop fuel (pre ++ dest) (pre ++ str ++ tl) (zlen pre) n =
    Some (pre ++ strncpy_image str n ++ zdrop n dest).
Proof.
  revert pre str dest n. induction fuel as [|fuel IH]; intros pre str dest n Hsrc Hn Hd Hf; [lia|].
  pose proof Hsrc as [Hs Ht]. destruct dest as [|y dest]; [unfold zlen in Hn; simpl in Hn; lia|].
  rewrite zlen_cons in Hn. cbn [chars_loop].
  assert (forall l : list Z, zdrop n (y :: l) = zdrop (n - 1) l) as Hdrop.
  { intros l. unfold zdrop. by replace (Z.to_nat n) with (S (Z.to_nat (n - 1))) by lia. }
  rewrite Hdrop. destruct str as [|c str].
  - destruct Ht as [Ht|[tl' ->]]; [rewrite zlen_nil in Ht; lia|].
    rewrite app_nil_l, copy1_mid. cbn [mbind option_bind]. rewrite u32_small by word_lia. rewrite Z.eqb_refl.
    unfold strncpy_image. change (zlen (@nil Z)) with 0. rewrite Z.sub_0_r. unfold ztake. rewrite take_nil, app_nil_l.
    replace (Z.to_nat n) with (S (Z.to_nat (n - 1))) by lia. cbn [replicate app].
    destruct (Z.eqb_spec (n - 1) 0) as [->|]; [by rewrite <- app_assoc|].
    rewrite <- (zlen_snoc pre 0), zero_fill_spec by lia. by rewrite <- app_assoc.
  - apply Forall_cons_1 in Hs as [Hc Hs]. rewrite <- app_comm_cons, copy1_mid. cbn [mbind option_bind].
    rewrite u32_small by word_lia.
    change (c :: str) with ([c] ++ str). rewrite (image_app [c] str n) by (change (zlen [c]) with 1; lia). change (zlen [c]) with 1.
    destruct (Z.eqb_spec (n - 1) 0) as [->|].
    { rewrite image_take by zlen_lia. rewrite ztake_neg by done. by rewrite app_nil_r, <- app_assoc. }
    destruct (Z.eqb_spec c 0); [done|].
    change (pre ++ c :: str ++ tl) with (pre ++ [c] ++ str ++ tl). rewrite (app_assoc pre [c]).
    rewrite <- (zlen_snoc pre c), IH; [by rewrite <- !app_assoc| |lia|lia|lia].
    replace (n - 1) with (n - zlen [c]) by done. by apply (source_app [c]).
Qed.

Lemma last_chars_spec pre str dest tl n k :
  n = k + zlen pre -> k = Z.land n 3 -> source str tl k -> k <= zlen dest ->
  last_chars (pre ++ dest) (pre ++ str ++ tl) (zlen pre) n =
    Some (pre ++ strncpy_image str k ++ zdrop k dest).
Proof.
  intros Hn Hk Hsrc Hd. unfold last_chars. rewrite <- Hk.
  assert (0 <= k < 4) as Hr by (rewrite Hk; change 3 with (Z.ones 2); rewrite Z.land_ones by lia; apply Z.mod_pos_bound; lia).
  destruct (Z.eqb_spec k 0) as [->|].
  { rewrite image_take by apply zlen_nonneg. by rewrite ztake_neg by done. }
  apply chars_loop_spec; [done|lia|lia|lia].
Qed.

(** [strncpy] with its four-fold unrolled loop does what the C standard says: of
    a source that is terminated within its object, or not terminated within
    the first [n] characters, exactly [n] characters are written, the string
    cut to [n] and then zeros, nothing is read behind the terminator or the
    [n]-th character, and the rest of the destination is kept. *)
Theorem strncpy_correct str tl dest n :
  source str tl n -> 0 <= n <= zlen dest -> n < 4294967296 ->
  strncpy dest (str ++ tl) n = Some (strncpy_image str n ++ zdrop n dest).
Proof.
  intros Hsrc Hn Hlt. unfold strncpy.
  pose proof (Z.div_mod n 4 ltac:(lia)). pose proof (Z.mod_pos_bound n 4 ltac:(lia)).
  assert (Z.land n 3 = n mod 4) as Hland by (change 3 with (Z.ones 2); by rewrite Z.land_ones by lia).
  assert (Z.shiftr n 2 = n / 4) as Hshift by (by rewrite Z.shiftr_div_pow2 by lia).
  destruct (Z.leb_spec 4 n) as [H4|H4].
  2: { apply (last_chars_spec [] str dest tl n n); [by rewrite Z.add_0_r|rewrite Hland, Z.mod_small; lia|done|lia]. }
  rewrite Hshift. pose proof (quads_loop_spec (Z.to_nat n) [] str dest tl (n / 4)) as Hq.
  rewrite !app_nil_l in Hq. change (zlen (@nil Z)) with 0 in Hq. rewrite Hq; [| |lia|lia|lia].
  2: { destruct Hsrc as [Hs Ht]. split; [done|]. destruct Ht as [Ht|]; [left; lia|by right]. }
  destruct (Z.leb_spec (4 * (n / 4)) (zlen str)) as [Hl|Hl]; cbn [mbind option_bind].
  - destruct (split_at str (4 * (n / 4))) as (a & b & -> & Ha); [lia|].
    rewrite <- Ha, ztake_zlen_app, Z.add_0_l, <- app_assoc.
    rewrite (last_chars_spec a b (zdrop (zlen a) dest) tl n (n - zlen a)); [|lia|lia|by apply source_app|].
    2: { rewrite zlen_zdrop. lia. }
    rewrite image_app, zdrop_zdrop, <- app_assoc by lia. by replace (zlen a + (n - zlen a)) with n by lia.
  - destruct Hsrc as [Hs [Ht|[tl' ->]]]; [lia|]. pose proof (zlen_nonneg str).
    rewrite !Z.add_0_l. replace (n - (zlen str + 1 - 1)) with (n - zlen str) by lia.
    rewrite (u32_small (n - zlen str)), u32_small by word_lia.
    unfold strncpy_image. rewrite ztake_all by lia.
    destruct (Z.eqb_spec (n - zlen str - 1) 0) as [E|E].
    + replace n with (zlen str + 1) by lia. replace (zlen str + 1 - zlen str) with 1 by lia. done.
    + replace (zlen str + 1) with (zlen (str ++ [0])) by zlen_lia.
      rewrite zero_fill_spec; [|rewrite zlen_zdrop; zlen_lia|lia|lia].
      replace (Z.to_nat (n - zlen str)) with (S (Z.to_nat (n - zlen str - 1))) by lia. cbn [replicate].
      rewrite zdrop_zdrop by zlen_lia. replace (zlen (str ++ [0]) + (n - zlen str - 1)) with n by zlen_lia.
      by rewrite <- !app_assoc.
Qed.

Lemma strncpy_correct_witness :
  strncpy (replicate 12 7) [110; 117; 102; 114; 111; 110; 116; 0; 9; 9] 10 =
    Some ([110; 117; 102; 114; 111; 110; 116; 0; 0; 0] ++ [7; 7]).
Proof.
  apply (strncpy_correct [110; 117; 102; 114; 111; 110; 116] [0; 9; 9] (replicate 12 7) 10); [|done|done].
  split; [repeat constructor; lia|]. right. by eexists.
Defined.

(** ** strcpy and strcat *)

Lemma zdrop_succ {A} (y : A) l n : 0 <= n -> zdrop (n + 1) (y :: l) = zdrop n l.
Proof. intros H. unfold zdrop. by replace (Z.to_nat (n + 1)) with (S (Z.to_nat n)) by lia. Qed.

Lemma strcpy_loop_spec fuel p q str tl dest :
  nonzero str -> zlen str < zlen dest -> (length str < fuel)%nat ->
  strcpy_loop fuel (p ++ dest) (q ++ str ++ 0 :: tl) (zlen p) (zlen q) =
    Some (p ++ str ++ 0 :: zdrop (zlen str + 1) dest).
Proof.
  revert p q str dest. induction fuel as [|fuel IH]; intros p q str dest Hs Hd Hf; [lia|].
  destruct dest as [|y dest]; [unfold zlen in Hd; simpl in Hd; lia|].
  cbn [strcpy_loop]. destruct str as [|c str].
  - rewrite app_nil_l, ld_mid. cbn [mbind option_bind]. rewrite st_mid. cbn [mbind option_bind]. by rewrite Z.eqb_refl.
  - apply Forall_cons_1 in Hs as [Hc Hs]. rewrite !zlen_cons in *. rewrite <- app_comm_cons, ld_mid.
    cbn [mbind option_bind]. rewrite st_mid. cbn [mbind option_bind]. destruct (Z.eqb_spec c 0); [done|].
    change (p ++ c :: dest) with (p ++ [c] ++ dest).
    change (q ++ c :: str ++ 0 :: tl) with (q ++ [c] ++ str ++ 0 :: tl). rewrite (app_assoc p [c]), (app_assoc q [c]).
    rewrite <- (zlen_snoc p c), <- (zlen_snoc q c), IH by (done || lia || (simpl in Hf; lia)).
    rewrite <- app_assoc. pose proof (zlen_nonneg str). rewrite (Z.add_comm 1), zdrop_succ by lia. done.
Qed.

(** [strcpy] copies the string and its terminator and keeps the rest of the destination. *)
Theorem strcpy_correct str tl dest :
  nonzero str -> zlen str < zlen dest ->
  strcpy dest (str ++ 0 :: tl) = Some (str ++ 0 :: zdrop (zlen str + 1) dest).
Proof.
  intros Hs Hd. apply (strcpy_loop_spec _ [] []); [done|done|]. rewrite length_app. simpl. lia.
Qed.

Lemma end_loop_spec fuel p a rest :
  nonzero a -> (length a < fuel)%nat ->
  end_loop fuel (p ++ a ++ 0 :: rest) (zlen p) = Some (zlen p + zlen a + 1).
Proof.
  revert p a. induction fuel as [|fuel IH]; intros p a Ha Hf; [lia|]. cbn [end_loop]. destruct a as [|c a].
  - rewrite app_nil_l, ld_mid. cbn [mbind option_bind]. rewrite Z.eqb_refl. change (zlen (@nil Z)) with 0. by rewrite Z.add_0_r.
  - apply Forall_cons_1 in Ha as [Hc Ha]. rewrite <- app_comm_cons, ld_mid. cbn [mbind option_bind].
    destruct (Z.eqb_spec c 0); [done|]. change (p ++ c :: a ++ 0 :: rest) with (p ++ [c] ++ a ++ 0 :: rest).
    rewrite app_assoc, <- (zlen_snoc p c), IH by (done || (simpl in Hf; lia)).
    rewrite zlen_snoc, zlen_cons. f_equal. lia.
Qed.

(** The appending loop is a copying loop from the terminator on. *)
Lemma append_loop_strcpy fuel dest src s1 s2 :
  append_loop fuel dest src s1 s2 = strcpy_loop fuel dest src (s1 + 1) s2.
Proof.
  revert dest s1 s2. induction fuel as [|fuel IH]; intros dest s1 s2; [done|]. cbn [append_loop strcpy_loop].
  destruct (ld src s2) as [c|]; [|done]. cbn [mbind option_bind].
  destruct (st dest (s1 + 1) c) as [dest'|]; [|done]. cbn [mbind option_bind]. by rewrite IH.
Qed.

(** [strcat] appends the string and its terminator to the string in the
    destination, where there is room for it. *)
Theorem strcat_correct a da b tl :
  nonzero a -> nonzero b -> zlen b <= zlen da ->
  strcat (a ++ 0 :: da) (b ++ 0 :: tl) = Some (a ++ b ++ 0 :: zdrop (zlen b) da).
Proof.
  intros Ha Hb Hl. unfold strcat. rewrite (end_loop_spec _ [] a da) by (done || (rewrite length_app; simpl; lia)).
  cbn [mbind option_bind]. change (zlen (@nil Z)) with 0. rewrite append_loop_strcpy.
  replace (0 + zlen a + 1 - 2 + 1) with (zlen a) by lia.
  rewrite (strcpy_loop_spec _ a [] b tl (0 :: da)); [|done|rewrite zlen_cons; lia|].
  - by rewrite zdrop_succ by apply zlen_nonneg.
  - rewrite length_app. simpl. lia.
Qed.

(** ** strspn and strpbrk *)

Lemma in_loop_spec fuel q acc tl c :
  nonzero acc -> c <> 0 -> (length acc < fuel)%nat ->
  in_loop fuel (q ++ acc ++ 0 :: tl) (zlen q) c = Some (bool_decide (c ∈ acc)).
Proof.
  revert q acc. induction fuel as [|fuel IH]; intros q acc Ha Hc Hf; [lia|]. cbn [in_loop].
  destruct acc as [|x acc].
  - rewrite app_nil_l, ld_mid. cbn [mbind option_bind]. rewrite Z.eqb_refl.
    by rewrite bool_decide_eq_false_2 by apply not_elem_of_nil.
  - apply Forall_cons_1 in Ha as [Hx Ha]. rewrite <- app_comm_cons, ld_mid. cbn [mbind option_bind].
    destruct (Z.eqb_spec x 0); [done|]. destruct (Z.eqb_spec c x) as [->|Hne].
    { by rewrite bool_decide_eq_true_2 by left. }
    change (q ++ x :: acc ++ 0 :: tl) with (q ++ [x] ++ acc ++ 0 :: tl).
    rewrite app_assoc, <- (zlen_snoc q x), IH by (done || (simpl in Hf; lia)). f_equal.
    apply bool_decide_ext. rewrite elem_of_cons. tauto.
Qed.

(** The number of leading characters of a string that lie in a set. *)
Fixpoint span (acc str : list Z) : Z :=
  match str with
  | [] => 0
  | c :: str => if bool_decide (c ∈ acc) then 1 + span acc str else 0
  end.

Lemma span_range acc str : 0 <= span acc str <= zlen str.
Proof.
  induction str as [|c str IH]; cbn [span]; [done|]. rewrite zlen_cons.
  case_bool_decide; [lia|]. pose proof (zlen_nonneg str). lia.
Qed.

Lemma strspn_loop_spec fuel q str tl acc ta count :
  nonzero str -> nonzero acc -> 0 <= count -> count + zlen str < 4294967296 -> (length str < fuel)%nat ->
  strspn_loop fuel (q ++ str ++ 0 :: tl) (acc ++ 0 :: ta) (zlen q) count = Some (count + span acc str).
Proof.
  revert q str count. induction fuel as [|fuel IH]; intros q str count Hs Ha Hc Hl Hf; [lia|]. cbn [strspn_loop].
  destruct str as [|c str].
  - rewrite app_nil_l, ld_mid. cbn [mbind option_bind]. rewrite Z.eqb_refl. cbn [span]. by rewrite Z.add_0_r.
  - apply Forall_cons_1 in Hs as [Hx Hs]. rewrite zlen_cons in Hl. rewrite <- app_comm_cons, ld_mid.
    cbn [mbind option_bind]. destruct (Z.eqb_spec c 0); [done|].
    rewrite (in_loop_spec _ [] acc ta c) by (done || (rewrite length_app; simpl; lia)).
    cbn [mbind option_bind span]. pose proof (zlen_nonneg str). case_bool_decide; [|by rewrite Z.add_0_r].
    rewrite u32_small by word_lia.
    change (q ++ c :: str ++ 0 :: tl) with (q ++ [c] ++ str ++ 0 :: tl).
    rewrite app_assoc, <- (zlen_snoc q c), IH by (done || lia || (simpl in Hf; lia)). f_equal. lia.
Qed.

(** [strspn] counts the leading characters of the string that lie in the set. *)
Theorem strspn_correct str tl acc ta :
  nonzero str -> nonzero acc -> zlen str < 4294967296 ->
  strspn (str ++ 0 :: tl) (acc ++ 0 :: ta) = Some (span acc str).
Proof.
  intros Hs Ha Hl. apply (strspn_loop_spec _ [] str tl acc ta 0); [done|done|done|done|].
  rewrite length_app. simpl. lia.
Qed.

Lemma strpbrk_loop_spec fuel q str tl set ts :
  nonzero str -> nonzero set -> (length str < fuel)%nat ->
  strpbrk_loop fuel (q ++ str ++ 0 :: tl) (set ++ 0 :: ts) (zlen q) =
    Some ((fun p : nat * Z => zlen q + Z.of_nat p.1) <$> list_find (fun c => c ∈ set) str).
Proof.
  revert q str. induction fuel as [|fuel IH]; intros q str Hs Ha Hf; [lia|]. cbn [strpbrk_loop].
  destruct str as [|c str].
  - rewrite app_nil_l, ld_mid. cbn [mbind option_bind]. by rewrite Z.eqb_refl.
  - apply Forall_cons_1 in Hs as [Hx Hs]. rewrite <- app_comm_cons, ld_mid.
    cbn [mbind option_bind]. destruct (Z.eqb_spec c 0); [done|].
    rewrite (in_loop_spec _ [] set ts c) by (done || (rewrite length_app; simpl; lia)).
    cbn [mbind option_bind list_find]. case_bool_decide as Hin.
    { rewrite decide_True by done. simpl. by rewrite Z.add_0_r. }
    rewrite decide_False by done.
    change (q ++ c :: str ++ 0 :: tl) with (q ++ [c] ++ str ++ 0 :: tl).
    rewrite app_assoc, <- (zlen_snoc q c), IH by (done || (simpl in Hf; lia)).
    rewrite zlen_snoc. destruct (list_find _ str) as [[i x]|]; simpl; [|done]. do 2 f_equal. lia.
Qed.

(** [strpbrk] finds the first character of the string that lies in the set,
    and yields the null pointer when there is none. *)
Theorem strpbrk_correct str tl set ts :
  nonzero str -> nonzero set ->
  strpbrk (str ++ 0 :: tl) (set ++ 0 :: ts) =
    Some ((fun p : nat * Z => Z.of_nat p.1) <$> list_find (fun c => c ∈ set) str).
Proof.
  intros Hs Ha. pose proof (strpbrk_loop_spec (S (length (str ++ 0 :: tl))) [] str tl set ts) as H.
  rewrite app_nil_l in H. apply H; [done|done|]. rewrite length_app. simpl. lia.
Qed.

(** ** AtoH *)

(** A byte in hexadecimal, with capital or small letters. *)
Definition hex_digit (small : bool) (v : Z) : Z :=
  if v <? 10 then 48 + v else if small then 87 + v else 55 + v.
Definition hex_text (small : bool) (bytes : list Z) : list Z :=
  flat_map (fun b => [hex_digit small (b / 16); hex_digit small (b mod 16)]) bytes.

Lemma BtoH_digit small v : 0 <= v < 16 -> BtoH (hex_digit small v) = v.
Proof.
  intros H. assert (v ∈ seqZ 0 16) as Hv by (apply elem_of_seqZ; lia). apply list_elem_of_In in Hv. clear H. revert v Hv.
  refine (proj1 (Forall_forall (fun v => BtoH (hex_digit small v) = v) (seqZ 0 16)) _).
  destruct small; apply (bool_decide_unpack _); vm_compute; exact I.
Qed.

Lemma AtoH_loop_spec fuel small p q bytes tl dest :
  Bytes bytes -> zlen bytes <= zlen dest -> (length bytes < fuel)%nat ->
  AtoH_loop fuel (q ++ hex_text small bytes ++ tl) (p ++ dest) (zlen q) (zlen p) (zlen bytes) =
    Some (p ++ bytes ++ zdrop (zlen bytes) dest).
Proof.
  revert p q bytes dest. induction fuel as [|fuel IH]; intros p q bytes dest Hb Hd Hf; [lia|].
  cbn [AtoH_loop]. destruct bytes as [|b bytes]; [done|].
  destruct dest as [|y dest]; [unfold zlen in Hd; simpl in Hd; lia|].
  apply Forall_cons_1 in Hb as [Hx Hb]. rewrite !zlen_cons in *. pose proof (zlen_nonneg bytes).
  destruct (Z.eqb_spec (1 + zlen bytes) 0); [lia|]. cbn [hex_text flat_map app]. fold (hex_text small bytes).
  set (h := hex_digit small (b / 16)). set (l := hex_digit small (b mod 16)).
  assert (0 <= b / 16 < 16) as Hh by (unfold is_u8 in Hx; split; [apply Z.div_pos|apply Z.div_lt_upper_bound]; lia).
  pose proof (Z.mod_pos_bound b 16 ltac:(lia)) as Hm.
  rewrite ld_mid. cbn [mbind option_bind]. rewrite st_mid. cbn [mbind option_bind].
  change (q ++ h :: l :: hex_text small bytes ++ tl) with (q ++ [h] ++ l :: hex_text small bytes ++ tl).
  rewrite (app_assoc q [h]), <- (zlen_snoc q h), ld_mid. cbn [mbind option_bind]. rewrite ld_mid.
  cbn [mbind option_bind]. rewrite st_mid. cbn [mbind option_bind].
  replace (u8 (u8 (Z.shiftl (BtoH h) 4) + BtoH l)) with b.
  2: { unfold h, l. rewrite !BtoH_digit, Z.shiftl_mul_pow2 by lia. change (2 ^ 4) with 16.
       pose proof (Z.div_mod b 16 ltac:(lia)). word_lia. }
  change (p ++ b :: dest) with (p ++ [b] ++ dest). rewrite (app_assoc p [b]).
  replace ((q ++ [h]) ++ l :: hex_text small bytes ++ tl) with ((q ++ [h; l]) ++ hex_text small bytes ++ tl)
    by (by rewrite <- !app_assoc).
  replace (zlen q + 2) with (zlen (q ++ [h; l])) by zlen_lia.
  rewrite <- (zlen_snoc p b). replace (1 + zlen bytes - 1) with (zlen bytes) by lia.
  rewrite IH by (done || lia || (simpl in Hf; lia)). rewrite <- app_assoc, (Z.add_comm 1), zdrop_succ by lia. done.
Qed.

(** [AtoH] reads back the hexadecimal text of any bytes, in capital or small
    letters, and writes exactly that many bytes. *)
Theorem AtoH_roundtrip small bytes tl dest :
  Bytes bytes -> zlen bytes <= zlen dest ->
  AtoH (hex_text small bytes ++ tl) dest (zlen bytes) = Some (bytes ++ zdrop (zlen bytes) dest).
Proof. intros Hb Hd. apply (AtoH_loop_spec _ small [] []); [done|done|unfold zlen; lia]. Qed.

Lemma AtoH_roundtrip_witness :
  AtoH (hex_text true [0; 27; 255] ++ [33]) [9; 9; 9; 9] 3 = Some [0; 27; 255; 9] /\
  hex_text true [0; 27; 255] = [48; 48; 49; 98; 102; 102].
Proof.
  split; [|reflexivity]. apply (AtoH_roundtrip true [0; 27; 255] [33] [9; 9; 9; 9]); [|done].
  repeat constructor; lia.
Defined.
