(* ===== verification/SaveData.v ===== *)
(** Save-data packets with JSON values: the functions that the macros of
    OneNet/EdpKit.c (lines 10 to 264) define for [int], [double] and strings.

    One definition stands for the three instances of a macro: [SaveValue] is
    the argument, [ValueKind] the instance of an unpacking function.  Objects
    under construction are linked only after they are filled, so that the
    trees of file [Json] can stand for them. *)
From S2P Require Import Prelude EdpBuffer Double Json JsonPrint JsonParse JsonRound EdpPacket EdpUnpack NetAdapter Ntp.

(** [ctime] of the C library: 25 characters, the last a line feed. *)
Class Calendar := {
  ctime : Z -> list Z;
  ctime_cstr : forall t, is_cstr (ctime t);
  ctime_length : forall t, zlen (ctime t) = 25
}.

Inductive SaveValue :=
  | VInt (n : Z)
  | VDouble (d : double)
  | VString (s : list Z).

Inductive ValueKind := KInt | KDouble | KString.

(** The names of the full format: id, token, at, value, datapoints,
    datastreams. *)
Definition t_id : list Z := [105; 100].
Definition t_token : list Z := [116; 111; 107; 101; 110].
Definition t_at : list Z := [97; 116].
Definition t_value : list Z := [118; 97; 108; 117; 101].
Definition t_datapoints : list Z := [100; 97; 116; 97; 112; 111; 105; 110; 116; 115].
Definition t_datastreams : list Z := [100; 97; 116; 97; 115; 116; 114; 101; 97; 109; 115].

Section SaveData.
Context {HP : Heap} {LM : LibM} {CA : Calendar}.

(** The time is that of the local clock; [at] is not used.  [None]: the text
    does not fit into [buffer[len]]. *)
Definition FormatAt (len ticks : Z) : option (list Z) :=
  let text := ctime (tv_sec (GetLocalTime ticks)) in
  if zlen text + 1 <=? len then Some text else None.

(** [cJSON_Add##MED##ToObject] *)
Definition cJSON_AddMedToObject (object : res cJSON) (name : list Z) (value : SaveValue) : res cJSON :=
  match value with
  | VInt n => cJSON_AddNumberToObject object name (of_int n)
  | VDouble d => cJSON_AddNumberToObject object name d
  | VString s => cJSON_AddStringToObject object name s
  end.

(** [PacketSavedataJson] on an object that may be null: the printer returns
    null for it, and [strlen] is applied to that. *)
Definition send_json (dst_devid : option (list Z)) (json_obj : res cJSON) (type : SaveDataType) : option Buffer :=
  match json_obj with
  | Ok json_obj => PacketSavedataJson dst_devid json_obj (type_code type)
  | Null | Undef => None
  end.

Definition PacketSavedataType1 (dst_devid : option (list Z)) (ds_id : list Z) (value : SaveValue)
  (ticks : Z) (token : option (list Z)) : option Buffer :=
  let json_obj := cJSON_CreateObject in
  let ds_array := cJSON_CreateArray in
  let json_obj_ds := cJSON_CreateObject in
  let dp_array := cJSON_CreateArray in
  let dp_item := cJSON_CreateObject in
  let json_obj_ds := cJSON_AddStringToObject json_obj_ds t_id ds_id in
  let json_obj :=
    match token with Some token => cJSON_AddStringToObject json_obj t_token token | None => json_obj end in
  ss ← FormatAt 100 ticks;
  let dp_item := cJSON_AddStringToObject dp_item t_at ss in
  let dp_item := cJSON_AddMedToObject dp_item t_value value in
  let dp_array := cJSON_AddItemToArray dp_array dp_item in
  let json_obj_ds := cJSON_AddItemToObject json_obj_ds t_datapoints dp_array in
  let ds_array := cJSON_AddItemToArray ds_array json_obj_ds in
  let json_obj := cJSON_AddItemToObject json_obj t_datastreams ds_array in
  send_json dst_devid json_obj kTypeFullJson.

Definition PacketSavedataType2 (dst_devid : option (list Z)) (ds_id : list Z) (value : SaveValue) : option Buffer :=
  let json_obj := cJSON_CreateObject in
  let json_obj := cJSON_AddMedToObject json_obj ds_id value in
  send_json dst_devid json_obj kTypeSimpleJsonWithoutTime.

Definition PacketSavedataType3 (dst_devid : option (list Z)) (ds_id : list Z) (value : SaveValue) (ticks : Z)
  : option Buffer :=
  let json_obj := cJSON_CreateObject in
  let json_obj_ds := cJSON_CreateObject in
  ss ← FormatAt 100 ticks;
  let json_obj_ds := cJSON_AddMedToObject json_obj_ds ss value in
  let json_obj := cJSON_AddItemToObject json_obj ds_id json_obj_ds in
  send_json dst_devid json_obj kTypeSimpleJsonWithTime.

(** [PacketSavedataInt], [PacketSavedataDouble], [PacketSavedataString]; the
    inner [None] is the null result for the other types. *)
Definition PacketSavedata (type : SaveDataType) (dst_devid : option (list Z)) (ds_id : list Z) (value : SaveValue)
  (ticks : Z) (token : option (list Z)) : option (option Buffer) :=
  match type with
  | kTypeFullJson => Some <$> PacketSavedataType1 dst_devid ds_id value ticks token
  | kTypeSimpleJsonWithoutTime => Some <$> PacketSavedataType2 dst_devid ds_id value
  | kTypeSimpleJsonWithTime => Some <$> PacketSavedataType3 dst_devid ds_id value ticks
  | _ => Some None
  end.

(** A string copied to the caller; the allocation is not tested. *)
Definition copy_string (s : option (list Z)) : M Buffer (list Z) :=
  match s with
  | Some s => match malloc (zlen s + 1) with Some _ => mret s | None => crash end
  | None => crash
  end.

(** The end of the unpacking functions: the value of an item. *)
Definition get_value (kind : ValueKind) (item : cJSON) : M Buffer SaveValue :=
  match kind with
  | KInt => mret (VInt (valueint item))
  | KDouble => mret (VDouble (valuedouble item))
  | KString => s ← copy_string (valuestring item); mret (VString s)
  end.

(** The function reads [json_obj] before it is set. *)
Definition UnpackSavedataType1 (kind : ValueKind) : M Buffer (list Z * SaveValue) := crash.

Definition UnpackSavedataType2 (kind : ValueKind) : M Buffer (list Z * SaveValue) :=
  json_obj ← onerr ERR_UNPACK_SAVED_JSON UnpackSavedataJson;
  match child json_obj with
  | [] => fail ERR_UNPACK_SAVED_JSON
  | json_child :: _ =>
      ds_id ← copy_string (string json_child);
      value ← get_value kind json_child;
      mret (ds_id, value)
  end.

Definition UnpackSavedataType3 (kind : ValueKind) : M Buffer (list Z * SaveValue) :=
  json_obj ← onerr ERR_UNPACK_SAVED_JSON UnpackSavedataJson;
  match child json_obj with
  | [] => fail ERR_UNPACK_SAVED_JSON
  | json_child :: _ =>
      match string json_child with
      | None => fail ERR_UNPACK_SAVED_JSON
      | Some _ =>
          ds_id ← copy_string (string json_child);
          match child json_child with
          | [] => fail ERR_UNPACK_SAVED_JSON
          | json_child :: _ => value ← get_value kind json_child; mret (ds_id, value)
          end
      end
  end.

(** [UnpackSavedataInt], [UnpackSavedataDouble], [UnpackSavedataString] *)
Definition UnpackSavedataValue (type : SaveDataType) (kind : ValueKind) : M Buffer (list Z * SaveValue) :=
  match type with
  | kTypeFullJson => UnpackSavedataType1 kind
  | kTypeSimpleJsonWithoutTime => UnpackSavedataType2 kind
  | kTypeSimpleJsonWithTime => UnpackSavedataType3 kind
  | _ => fail (-1)
  end.
End SaveData.

(** * Specification *)

(** The JSON value of an argument. *)
Definition value_json `{LibM} (v : SaveValue) : json :=
  match v with
  | VInt n => JInt n
  | VDouble d => JInt (to_int d)
  | VString s => JStr s
  end.

(** Arguments whose text determines them: doubles only when they are the value
    of an [int]. *)
Definition value_ok (v : SaveValue) : Prop :=
  match v with
  | VInt n => is_int n
  | VDouble d => exists n, is_int n /\ d = of_int n
  | VString s => is_cstr s
  end.

Definition kind_of (v : SaveValue) : ValueKind :=
  match v with VInt _ => KInt | VDouble _ => KDouble | VString _ => KString end.

Definition is_json_type (t : SaveDataType) : Prop :=
  match t with
  | kTypeFullJson | kTypeSimpleJsonWithoutTime | kTypeSimpleJsonWithTime => True
  | kTypeBin | kTypeString => False
  end.

Section Objects.
Context {LM : LibM} {CA : Calendar}.

Definition now (ticks : Z) : list Z := ctime (tv_sec (GetLocalTime ticks)).

(** The object a packet carries. *)
Definition savedata_json (type : SaveDataType) (ds_id : list Z) (v : SaveValue) (ticks : Z)
  (token : option (list Z)) : json :=
  match type with
  | kTypeFullJson =>
      JObj (match token with Some token => [(t_token, JStr token)] | None => [] end ++
        [(t_datastreams, JArr [JObj [(t_id, JStr ds_id);
           (t_datapoints, JArr [JObj [(t_at, JStr (now ticks)); (t_value, value_json v)]])]])])
  | kTypeSimpleJsonWithTime => JObj [(ds_id, JObj [(now ticks, value_json v)])]
  | _ => JObj [(ds_id, value_json v)]
  end.

Definition savedata_text type ds_id v ticks token : list Z :=
  render 0 true (savedata_json type ds_id v ticks token).

Lemma value_json_wf v : value_ok v -> wf (value_json v).
Proof. destruct v as [n|d|s]; [done| |done]. intros _. apply to_int_int. Qed.

Lemma now_cstr ticks : is_cstr (now ticks).
Proof. apply ctime_cstr. Qed.

Lemma savedata_json_wf type ds_id v ticks token :
  is_cstr ds_id -> value_ok v -> (forall t, token = Some t -> is_cstr t) ->
  wf (savedata_json type ds_id v ticks token).
Proof.
  intros Hd Hv%value_json_wf Ht. pose proof (now_cstr ticks).
  destruct type; cbn [savedata_json]; try by repeat split.
  destruct token as [t|]; repeat split; try done; try (by apply Ht);
    apply (bool_decide_eq_true_1 (is_cstr _)); by vm_compute.
Qed.
End Objects.

Section Built.
Context {HP : Heap} {LM : LibM} {CA : Calendar} (lim : Z) {HG : Grants lim}.
Hypothesis Hlim : 101 <= lim < 2147483648.

Lemma add_member l name j : zlen name < lim ->
  cJSON_AddItemToObject (Ok (repr (JObj l))) name (Ok (repr j)) = Ok (repr (JObj (l ++ [(name, j)]))).
Proof.
  intros Hn. unfold cJSON_AddItemToObject. rewrite (strdup_ok lim) by lia.
  cbn. unfold set_child, object. cbn. by rewrite map_app.
Qed.

Lemma add_element l j :
  cJSON_AddItemToArray (Ok (repr (JArr l))) (Ok (repr j)) = Ok (repr (JArr (l ++ [j]))).
Proof. cbn. unfold set_child, array. cbn. by rewrite map_app. Qed.

Lemma add_string l name s : zlen name < lim -> zlen s < lim ->
  cJSON_AddStringToObject (Ok (repr (JObj l))) name s = Ok (repr (JObj (l ++ [(name, JStr s)]))).
Proof.
  intros Hn Hs. unfold cJSON_AddStringToObject, cJSON_CreateString.
  rewrite (new_item_ok lim), (strdup_ok lim s) by lia. by apply (add_member l name (JStr s)).
Qed.

Lemma add_number l name n : zlen name < lim -> is_int n ->
  cJSON_AddNumberToObject (Ok (repr (JObj l))) name (of_int n) = Ok (repr (JObj (l ++ [(name, JInt n)]))).
Proof.
  intros Hn Hi. unfold cJSON_AddNumberToObject, cJSON_CreateNumber.
  rewrite (new_item_ok lim), to_int_of_int by (done || lia). by apply (add_member l name (JInt n)).
Qed.

Definition value_fits (v : SaveValue) : Prop :=
  match v with VString s => zlen s < lim | _ => True end.

Lemma add_value l name v : zlen name < lim -> value_ok v -> value_fits v ->
  cJSON_AddMedToObject (Ok (repr (JObj l))) name v = Ok (repr (JObj (l ++ [(name, value_json v)]))).
Proof.
  intros Hn Hv Hf. destruct v as [n|d|s]; cbn [cJSON_AddMedToObject value_json].
  - by apply add_number.
  - destruct Hv as (n & Hi & ->). rewrite to_int_of_int by done. by apply add_number.
  - by apply add_string.
Qed.

Lemma new_object : cJSON_CreateObject = Ok (repr (JObj [])).
Proof. unfold cJSON_CreateObject. by rewrite (new_item_ok lim) by lia. Qed.

Lemma new_array : cJSON_CreateArray = Ok (repr (JArr [])).
Proof. unfold cJSON_CreateArray. by rewrite (new_item_ok lim) by lia. Qed.

Lemma FormatAt_ok ticks : FormatAt 100 ticks = Some (now ticks).
Proof. unfold FormatAt. by rewrite ctime_length. Qed.

Lemma now_length ticks : zlen (now ticks) = 25.
Proof. apply ctime_length. Qed.

(** The strings of the object are shorter than its text. *)
Lemma string_shorter s : is_cstr s -> zlen s <= zlen (render_string s).
Proof.
  intros Hs. unfold render_string. rewrite !zlen_app.
  induction Hs as [|c s Hc Hs IH]; [by vm_compute|]. cbn [map concat].
  rewrite zlen_app, zlen_cons. pose proof (esc_has_form c Hc) as [| |]; zlen_lia.
Qed.

(** What is below a bound stays below it on the way into a value. *)
Lemma member_below k j depth l : (k, j) ∈ l -> is_cstr k -> zlen (render depth true (JObj l)) < lim ->
  zlen k < lim /\ zlen (render (depth + 1) true j) < lim.
Proof.
  intros Hin Hk Hl. destruct (render_member true depth l (k, j) Hin). pose proof (string_shorter k Hk).
  cbn [fst snd] in *. lia.
Qed.

Lemma element_below j depth l : j ∈ l -> zlen (render depth true (JArr l)) < lim ->
  zlen (render (depth + 1) true j) < lim.
Proof. intros Hin Hl. pose proof (render_elem true depth l j Hin). lia. Qed.

Lemma string_below s depth : is_cstr s -> zlen (render depth true (JStr s)) < lim -> zlen s < lim.
Proof. intros Hs Hl. pose proof (string_shorter s Hs). cbn [render] in Hl. lia. Qed.

Lemma value_below v depth : value_ok v -> zlen (render depth true (value_json v)) < lim -> value_fits v.
Proof. intros Hv Hl. destruct v as [| |s]; try done. by apply string_below in Hl. Qed.

Ltac in_list := repeat first [apply list_elem_of_here | apply list_elem_of_further].

Ltac enter k j H :=
  let Hk := fresh in
  apply (member_below k j) in H as [Hk H]; [|in_list|first [done|apply now_cstr|by_decide]].

Lemma full_below ds_id v ticks token :
  is_cstr ds_id -> value_ok v -> (forall t, token = Some t -> is_cstr t) ->
  zlen (savedata_text kTypeFullJson ds_id v ticks token) < lim ->
  zlen ds_id < lim /\ value_fits v /\ forall t, token = Some t -> zlen t < lim.
Proof.
  unfold savedata_text. cbn [savedata_json]. intros Hd Hv Ht Hl.
  set (dp := JObj [(t_at, JStr (now ticks)); (t_value, value_json v)]) in *.
  set (ds := JObj [(t_id, JStr ds_id); (t_datapoints, JArr [dp])]) in *.
  split; [|split].
  - apply (member_below t_datastreams (JArr [ds])) in Hl as [_ Hl]; [|apply elem_of_app; right; in_list|by_decide].
    apply (element_below ds) in Hl; [|in_list]. subst ds. enter t_id (JStr ds_id) Hl.
    by apply string_below in Hl.
  - apply (member_below t_datastreams (JArr [ds])) in Hl as [_ Hl]; [|apply elem_of_app; right; in_list|by_decide].
    apply (element_below ds) in Hl; [|in_list]. subst ds. enter t_datapoints (JArr [dp]) Hl.
    apply (element_below dp) in Hl; [|in_list]. subst dp. enter t_value (value_json v) Hl.
    by apply value_below in Hl.
  - intros t ->. specialize (Ht t eq_refl). cbn [app] in Hl. enter t_token (JStr t) Hl.
    by apply string_below in Hl.
Qed.

Lemma savedata_below type ds_id v ticks token :
  is_json_type type -> is_cstr ds_id -> value_ok v -> (forall t, token = Some t -> is_cstr t) ->
  zlen (savedata_text type ds_id v ticks token) < lim ->
  zlen ds_id < lim /\ value_fits v /\ (type = kTypeFullJson -> forall t, token = Some t -> zlen t < lim).
Proof.
  intros Hj Hd Hv Ht Hl. destruct type; try done.
  - destruct (full_below ds_id v ticks token Hd Hv Ht Hl) as (? & ? & ?). auto.
  - unfold savedata_text in Hl. cbn [savedata_json] in Hl. enter ds_id (value_json v) Hl.
    apply value_below in Hl; [|done]. by split_and!.
  - unfold savedata_text in Hl. cbn [savedata_json] in Hl. enter ds_id (JObj [(now ticks, value_json v)]) Hl.
    enter (now ticks) (value_json v) Hl. apply value_below in Hl; [|done]. by split_and!.
Qed.

(** The packet of each JSON type is that of the text of its object. *)
Lemma PacketSavedata_text dst type ds_id v ticks token :
  is_json_type type -> is_cstr ds_id -> value_ok v -> (forall t, token = Some t -> is_cstr t) ->
  4 * zlen (savedata_text type ds_id v ticks token) + 64 <= lim ->
  PacketSavedata type dst ds_id v ticks token
  = Some <$> PacketSavedataText dst (savedata_text type ds_id v ticks token) (type_code type).
Proof.
  intros Hj Hd Hv Ht Hl. pose proof (zlen_nonneg (savedata_text type ds_id v ticks token)).
  destruct (savedata_below type ds_id v ticks token) as (Hi & Hf & Hk); try done; [lia|].
  pose proof (savedata_json_wf type ds_id v ticks token Hd Hv Ht) as Hw.
  assert (send_json dst (Ok (repr (savedata_json type ds_id v ticks token))) type
    = PacketSavedataText dst (savedata_text type ds_id v ticks token) (type_code type)) as <-.
  { cbn [send_json]. unfold PacketSavedataJson, cJSON_Print.
    by rewrite (print_value_repr lim ltac:(lia) true _ 0 ltac:(lia) Hw Hl). }
  pose proof (now_length ticks).
  assert (zlen t_id = 2 /\ zlen t_token = 5 /\ zlen t_at = 2 /\ zlen t_value = 5 /\ zlen t_datapoints = 10
    /\ zlen t_datastreams = 11) as (? & ? & ? & ? & ? & ?) by done.
  destruct type; try done; cbn [PacketSavedata]; f_equal.
  - unfold PacketSavedataType1. rewrite !new_object, !new_array, FormatAt_ok. cbn [mbind option_bind].
    rewrite !add_string, add_value by (done || lia). cbn [app]. rewrite add_element, add_member by lia. cbn [app].
    rewrite add_element. cbn [app]. destruct token as [t|]; cbn [savedata_json app].
    + rewrite add_string, add_member by (lia || by apply Hk). done.
    + rewrite add_member by lia. done.
  - unfold PacketSavedataType2. rewrite new_object, add_value by done. done.
  - unfold PacketSavedataType3. rewrite !new_object, FormatAt_ok. cbn [mbind option_bind].
    rewrite add_value, add_member by (done || lia). done.
Qed.
End Built.

Section RoundTrip.
Context {HP : Heap} {LM : LibM} {CA : Calendar} (lim : Z) {HG : Grants lim}.
Hypothesis Hlim : BUFFER_SIZE <= lim < 2147483648.

(** A packet that fits: its text, its frame and the blocks it takes. *)
Definition savedata_fit dst type ds_id v ticks token : Prop :=
  let text := savedata_text type ds_id v ticks token in
  short_dst dst /\ is_cstr ds_id /\ value_ok v /\ (forall t, token = Some t -> is_cstr t) /\
  4 * zlen text + 64 <= lim /\ zlen text < 65536 /\ sendable lim SAVEDATA (text_body dst (type_code type) text).

Lemma emits_savedata dst type ds_id v ticks token :
  is_json_type type -> savedata_fit dst type ds_id v ticks token ->
  exists pkg, PacketSavedata type dst ds_id v ticks token = Some (Some pkg) /\
    emits lim (Some pkg) SAVEDATA (text_body dst (type_code type) (savedata_text type ds_id v ticks token)).
Proof.
  intros Hj (Hdst & Hd & Hv & Ht & Hl & Hs & Hf). pose proof Hlim as Hlim'. unfold BUFFER_SIZE in Hlim'.
  rewrite (PacketSavedata_text lim) by (done || lia).
  assert (short_str (savedata_text type ds_id v ticks token)) as Hst
    by (split; [by apply render_cstr, savedata_json_wf|done]).
  destruct (emits_json lim Hlim dst (type_code type) _ Hdst Hst ltac:(by destruct type) Hf) as (pkg & E & He).
  rewrite E. by exists pkg; split; [|exists pkg].
Qed.

Lemma Parses_savedata_json type ds_id v ticks token dst :
  savedata_fit dst type ds_id v ticks token ->
  Parses lim UnpackSavedataJson (wstr (savedata_text type ds_id v ticks token))
    (repr (savedata_json type ds_id v ticks token)).
Proof.
  intros (Hdst & Hd & Hv & Ht & Hl & Hs & Hf).
  pose proof (savedata_json_wf type ds_id v ticks token Hd Hv Ht) as Hw.
  apply (Parses_Json lim Hlim); [by split; [apply render_cstr|]|].
  unfold parse_text, savedata_text. by rewrite (cJSON_Parse_repr lim) by (done || lia).
Qed.

(** [m] followed by a pure continuation. *)
Lemma Parses_then {A B} (m : M Buffer A) (f : A -> M Buffer B) bs a c :
  Parses lim m bs a -> (forall b, f a b = Done c b) -> Parses lim (m ≫= f) bs c.
Proof.
  intros Hm Hf b Hb Hu. destruct (Hm b Hb Hu) as (b' & E & Hb'). exists b'.
  by rewrite (bind_done _ _ _ _ _ E).
Qed.

Lemma Parses_onerr {A} code (m : M Buffer A) bs a : Parses lim m bs a -> Parses lim (onerr code m) bs a.
Proof. intros Hm b Hb Hu. destruct (Hm b Hb Hu) as (b' & E & Hb'). exists b'. by rewrite (onerr_done _ _ _ _ _ E). Qed.

Lemma copy_string_ok s b : zlen s < lim -> copy_string (Some s) b = Done s b.
Proof.
  intros Hs. pose proof (zlen_nonneg s). unfold copy_string.
  by destruct (alloc_ok lim (zlen s + 1) ltac:(lia)) as [x ->].
Qed.

Lemma get_value_ok v (k : option (list Z)) b : value_ok v -> value_fits lim v ->
  get_value (kind_of v) (set_string k (repr (value_json v))) b = Done v b.
Proof.
  intros Hv Hf. destruct v as [n|d|s]; cbn [kind_of get_value value_json].
  - done.
  - destruct Hv as (n & Hi & ->). cbn. by rewrite to_int_of_int.
  - cbn [repr set_string valuestring]. by rewrite (bind_done _ _ _ _ _ (copy_string_ok s b Hf)).
Qed.

(** The types whose unpacking function returns a value. *)
Definition is_simple_type (t : SaveDataType) : Prop :=
  t = kTypeSimpleJsonWithoutTime \/ t = kTypeSimpleJsonWithTime.

Lemma Parses_savedata_value type ds_id v ticks token dst :
  is_simple_type type -> savedata_fit dst type ds_id v ticks token ->
  Parses lim (UnpackSavedataValue type (kind_of v)) (wstr (savedata_text type ds_id v ticks token)) (ds_id, v).
Proof.
  intros Ht Hf. pose proof (Parses_savedata_json _ _ _ _ _ _ Hf) as Hp. pose proof Hlim as Hlim'. unfold BUFFER_SIZE in Hlim'.
  destruct Hf as (_ & Hd & Hv & Htk & Hl & _).
  pose proof (zlen_nonneg (savedata_text type ds_id v ticks token)).
  destruct (savedata_below lim type ds_id v ticks token) as (Hi & Hfv & _); try done; [by destruct Ht as [-> | ->]|lia|].
  apply (Parses_onerr ERR_UNPACK_SAVED_JSON) in Hp. pose proof (fun b => copy_string_ok ds_id b Hi) as Hc.
  destruct Ht as [-> | ->]; (eapply Parses_then; [exact Hp|]); intros b.
  - cbn [savedata_json repr child map object string set_string fst snd]. rewrite (bind_done _ _ _ _ _ (Hc b)).
    by rewrite (bind_done _ _ _ _ _ (get_value_ok v (Some ds_id) b Hv Hfv)).
  - cbn [savedata_json repr child map object string set_string fst snd]. rewrite (bind_done _ _ _ _ _ (Hc b)).
    by rewrite (bind_done _ _ _ _ _ (get_value_ok v (Some (now ticks)) b Hv Hfv)).
Qed.
End RoundTrip.

(** C8: a value saved in one of the simple JSON formats arrives: for every
    name, [int], string (of arbitrary non-zero bytes) or double with an
    integral value of that range, the packet that [PacketSavedataInt],
    [PacketSavedataString] or [PacketSavedataDouble] builds is taken apart by
    [EdpPacketType], [UnpackSavedata] and the unpacking function of the same
    type into the address, the format, the name and the value, through the
    printer and the parser of the JSON library. *)
Theorem savedata_value_roundtrip {HP : Heap} {LM : LibM} {CA : Calendar} lim {HG : Grants lim}
  dst type ds_id v ticks token :
  BUFFER_SIZE <= lim < 2147483648 -> is_simple_type type -> savedata_fit lim dst type ds_id v ticks token ->
  exists pkg, PacketSavedata type dst ds_id v ticks token = Some (Some pkg) /\
    receive (h ← UnpackSavedata; r ← UnpackSavedataValue type (kind_of v); mret (h, r)) (Some pkg)
    = Some (SAVEDATA, (dst, type_code type, (ds_id, v))).
Proof.
  intros Hl Ht Hf. assert (is_json_type type) as Hj by by destruct Ht as [-> | ->].
  destruct (emits_savedata lim Hl dst type ds_id v ticks token Hj Hf) as (pkg & E & He).
  exists pkg. split; [done|]. eapply receive_frame; [exact Hl|exact He|].
  apply (Parses_Savedata lim Hl); [by apply Hf| |by eapply Parses_savedata_value].
  apply Hf.
Qed.

(** A value in the full format reaches the cloud as one object: the tree
    that [UnpackSavedataJson] returns for the packet of any JSON type is the
    object of that type, for the full format the optional token and a list of
    one data stream with the name and one data point with time and value. *)
Theorem savedata_json_roundtrip {HP : Heap} {LM : LibM} {CA : Calendar} lim {HG : Grants lim}
  dst type ds_id v ticks token :
  BUFFER_SIZE <= lim < 2147483648 -> is_json_type type -> savedata_fit lim dst type ds_id v ticks token ->
  exists pkg, PacketSavedata type dst ds_id v ticks token = Some (Some pkg) /\
    receive (h ← UnpackSavedata; r ← UnpackSavedataJson; mret (h, r)) (Some pkg)
    = Some (SAVEDATA, (dst, type_code type, repr (savedata_json type ds_id v ticks token))).
Proof.
  intros Hl Hj Hf. destruct (emits_savedata lim Hl dst type ds_id v ticks token Hj Hf) as (pkg & E & He).
  exists pkg. split; [done|]. eapply receive_frame; [exact Hl|exact He|].
  apply (Parses_Savedata lim Hl); [by apply Hf| |by eapply Parses_savedata_json].
  apply Hf.
Qed.

(** A calendar with a single date. *)
Definition monday : list Z :=
  [77; 111; 110; 32; 65; 117; 103; 32; 49; 48; 32; 49; 52; 58; 49; 50; 58; 53; 53; 32; 50; 48; 49; 53; 10].

#[export] Program Instance sim_calendar : Calendar := {| ctime _ := monday |}.
Next Obligation. intros t. by_decide. Qed.
Next Obligation. done. Qed.

Lemma savedata_value_roundtrip_witness :
  let H := zero_heap 20480 in
  exists pkg, PacketSavedata kTypeSimpleJsonWithTime (Some [49; 53; 49]) [34; 10] (VDouble (of_int (-40))) 0 None
    = Some (Some pkg) /\
    receive (h ← UnpackSavedata; r ← UnpackSavedataValue kTypeSimpleJsonWithTime KDouble; mret (h, r)) (Some pkg)
    = Some (SAVEDATA, (Some [49; 53; 49], 4, ([34; 10], VDouble (of_int (-40))))).
Proof.
  intros H. apply (@savedata_value_roundtrip H _ _ 20480 (zero_heap_grants 20480) (Some [49; 53; 49])
    kTypeSimpleJsonWithTime [34; 10] (VDouble (of_int (-40))) 0 None); [by vm_compute|by right|].
  split_and!; first [by_decide|by exists (-40)|left; by_decide|by intros ?].
Defined.

Lemma savedata_json_roundtrip_witness :
  let H := zero_heap 20480 in
  exists pkg, PacketSavedata kTypeFullJson None [116; 101; 109; 112] (VString [111; 107]) 0 (Some [97])
    = Some (Some pkg) /\
    receive (h ← UnpackSavedata; r ← UnpackSavedataJson; mret (h, r)) (Some pkg)
    = Some (SAVEDATA, (None, 1, repr (savedata_json kTypeFullJson [116; 101; 109; 112] (VString [111; 107]) 0 (Some [97])))).
Proof.
  intros H. apply (@savedata_json_roundtrip H _ _ 20480 (zero_heap_grants 20480) None
    kTypeFullJson [116; 101; 109; 112] (VString [111; 107]) 0 (Some [97])); [by vm_compute|done|].
  split_and!; first [by_decide|left; by_decide|by intros ? [= <-]; by_decide].
Defined.
