(* ===== verification/Sensors.v ===== *)
(** The sensor task of App/NuAgent/User/sensors.c in the upload configuration
    ([Devid_Mode] 2 of onenet_comm.h): the simulated readings, their upload
    as full-format packets and one turn of the loop of [SenserTaskThread].

    [rand] gives the results of the calls of the C library's [rand] in a turn,
    [clock] the tick counter at each upload.  The state is that of file
    [Cloud]. *)
From S2P Require Import Prelude EdpBuffer Double Json JsonPrint JsonRound EdpPacket EdpUnpack NetAdapter Cloud Flash Ntp SaveData.

(** [SRC_DEVID], [EDP_TOKEN] *)
Definition SRC_DEVID : list Z := [49; 53; 49; 55; 49; 51].
Definition EDP_TOKEN : option (list Z) := None.

Definition GetTHData (r1 r2 : Z) : double * double :=
  (of_int (make_rand r1 22 30), of_int (make_rand r2 60 70)).

Definition GetVCData (r1 r2 : Z) : double * double * double :=
  let voltage := of_int (make_rand r1 190 230) in
  let current := of_int (make_rand r2 3 6) in
  (voltage, current, dmul voltage current).

Definition GetUPSData (r1 r2 r3 : Z) : Z * Z * Z :=
  (make_rand r1 68 75, make_rand r2 0 2, make_rand r3 0 2).

(** The data points of a turn, in ASCII: temperature, humidity, voltage,
    current, power, ups-energy, ups-status, ups-fault, intrusion-detect,
    smoke-detect. *)
Definition t_temperature : list Z := [116; 101; 109; 112; 101; 114; 97; 116; 117; 114; 101].
Definition t_humidity : list Z := [104; 117; 109; 105; 100; 105; 116; 121].
Definition t_voltage : list Z := [118; 111; 108; 116; 97; 103; 101].
Definition t_current : list Z := [99; 117; 114; 114; 101; 110; 116].
Definition t_power : list Z := [112; 111; 119; 101; 114].
Definition t_ups_energy : list Z := [117; 112; 115; 45; 101; 110; 101; 114; 103; 121].
Definition t_ups_status : list Z := [117; 112; 115; 45; 115; 116; 97; 116; 117; 115].
Definition t_ups_fault : list Z := [117; 112; 115; 45; 102; 97; 117; 108; 116].
Definition t_intrusion : list Z := [105; 110; 116; 114; 117; 115; 105; 111; 110; 45; 100; 101; 116; 101; 99; 116].
Definition t_smoke : list Z := [115; 109; 111; 107; 101; 45; 100; 101; 116; 101; 99; 116].

(** Work on normal, Work on charging, Work on discharging. *)
Definition ups_status : list (list Z) :=
  [[87; 111; 114; 107; 32; 111; 110; 32; 110; 111; 114; 109; 97; 108];
   [87; 111; 114; 107; 32; 111; 110; 32; 99; 104; 97; 114; 103; 105; 110; 103];
   [87; 111; 114; 107; 32; 111; 110; 32; 100; 105; 115; 99; 104; 97; 114; 103; 105; 110; 103]].

(** Normal, Outage, RunOut. *)
Definition ups_fault : list (list Z) :=
  [[78; 111; 114; 109; 97; 108]; [79; 117; 116; 97; 103; 101]; [82; 117; 110; 79; 117; 116]].

(** Unmanned, Smokeless. *)
Definition intrusion_detect : list Z := [85; 110; 109; 97; 110; 110; 101; 100].
Definition smoke_detect : list Z := [83; 109; 111; 107; 101; 108; 101; 115; 115].

Section Sensors.
Context {HP : Heap} {LM : LibM} {CA : Calendar}.

(** [None]: the packet is a null pointer, which the function dereferences. *)
Definition SensorData_Upload (dataPoint : list Z) (value : SaveValue) (ticks : Z) (c : Cloud) : option Cloud :=
  update_pkg ← PacketSavedata kTypeFullJson (Some SRC_DEVID) dataPoint value ticks EDP_TOKEN;
  update_pkg ← update_pkg;
  Some (Socket_TCPClientSendData update_pkg c).

(** Configuration [Devid_PassThrough]; [datalen] is an unsigned char. *)
Definition SensorData_PassThrough (dest data : list Z) (datalen : Z) (c : Cloud) : option Cloud :=
  update_pkg ← PacketPushdata dest data (u8 datalen);
  Some (Socket_TCPClientSendData update_pkg c).

(** One turn of the loop. *)
Definition SenserTask_turn (rand clock : nat -> Z) (c : Cloud) : option Cloud :=
  let '(temp, humi) := GetTHData (rand 0%nat) (rand 1%nat) in
  c ← SensorData_Upload t_temperature (VDouble temp) (clock 0%nat) c;
  c ← SensorData_Upload t_humidity (VDouble humi) (clock 1%nat) c;
  let '(voltage, current, power) := GetVCData (rand 2%nat) (rand 3%nat) in
  c ← SensorData_Upload t_voltage (VDouble voltage) (clock 2%nat) c;
  c ← SensorData_Upload t_current (VDouble current) (clock 3%nat) c;
  c ← SensorData_Upload t_power (VDouble power) (clock 4%nat) c;
  let '(ups_energy, status_cnt, fault_cnt) := GetUPSData (rand 4%nat) (rand 5%nat) (rand 6%nat) in
  c ← SensorData_Upload t_ups_energy (VInt ups_energy) (clock 5%nat) c;
  status ← ld ups_status status_cnt;
  c ← SensorData_Upload t_ups_status (VString status) (clock 6%nat) c;
  fault ← ld ups_fault fault_cnt;
  c ← SensorData_Upload t_ups_fault (VString fault) (clock 7%nat) c;
  c ← SensorData_Upload t_intrusion (VString intrusion_detect) (clock 8%nat) c;
  SensorData_Upload t_smoke (VString smoke_detect) (clock 9%nat) c.

Fixpoint SenserTask_turns (turns : list ((nat -> Z) * (nat -> Z))) (c : Cloud) : option Cloud :=
  match turns with
  | [] => Some c
  | (rand, clock) :: turns => c ← SenserTask_turn rand clock c; SenserTask_turns turns c
  end.

(** The thread waits for the flag, then takes turns; [turns] are those it takes
    until it is looked at. *)
Definition SenserTaskThread (turns : list ((nat -> Z) * (nat -> Z))) (c : Cloud) : option Cloud :=
  if SensorTaskFlag c =? 0 then Some c else SenserTask_turns turns c.
End Sensors.

(** * Length of an upload *)

Lemma zlen_esc c : 0 < c < 256 -> zlen (esc c) <= 6.
Proof. intros Hc. pose proof (esc_has_form c Hc) as [| |]; zlen_lia. Qed.

Lemma zlen_render_string s : is_cstr s -> zlen (render_string s) <= 6 * zlen s + 2.
Proof.
  intros Hs. unfold render_string. rewrite !zlen_app.
  induction Hs as [|c s Hc Hs IH]; [by vm_compute|]. cbn [map concat].
  rewrite zlen_app, (zlen_cons c). pose proof (zlen_esc c Hc). change (zlen [t_quote]) with 1 in *. lia.
Qed.

(** A data point of a turn. *)
Definition small_value (v : SaveValue) : Prop :=
  match v with
  | VInt n => is_int n
  | VDouble d => exists n, is_int n /\ d = of_int n
  | VString s => is_cstr s /\ zlen s <= 20
  end.

Lemma small_value_ok v : small_value v -> value_ok v.
Proof. by destruct v as [| |s]; [| |intros []]. Qed.

Lemma zlen_small_value `{LibM} depth v : small_value v -> zlen (render depth true (value_json v)) <= 122.
Proof.
  destruct v as [n|d|s]; cbn [small_value value_json render].
  - intros Hn. pose proof (fmt_d_length n Hn). lia.
  - intros _. pose proof (fmt_d_length (to_int d) (to_int_int d)). lia.
  - intros [Hs Hl]. pose proof (zlen_render_string s Hs). lia.
Qed.

Lemma zlen_full_text `{LibM} `{Calendar} name v ticks : is_cstr name -> zlen name <= 16 -> small_value v ->
  zlen (savedata_text kTypeFullJson name v ticks None) <= 600.
Proof.
  intros Hn Hl Hv. pose proof (zlen_render_string name Hn). pose proof (zlen_render_string (now ticks) (now_cstr ticks)) as Hw.
  rewrite now_length in Hw. pose proof (zlen_small_value (0 + 1 + 1 + 1 + 1 + 1) v Hv).
  unfold savedata_text. cbn [savedata_json render map join app fst snd]. unfold member. cbn [fst snd if_fmt].
  assert (zlen (render_string t_id) = 4 /\ zlen (render_string t_at) = 4 /\ zlen (render_string t_value) = 7
    /\ zlen (render_string t_datapoints) = 12 /\ zlen (render_string t_datastreams) = 13) as (? & ? & ? & ? & ?) by done.
  rewrite ?zlen_app, ?zlen_tabs by lia. autorewrite with zlen. rewrite !zlen_tabs by lia. lia.
Qed.

(** * A turn *)

Lemma make_rand_range r start end_ : 0 <= r -> start < end_ -> start <= make_rand r start end_ <= end_.
Proof.
  intros Hr Hs. unfold make_rand. destruct (Z.leb_spec end_ start); [lia|].
  pose proof (Z.rem_bound_pos r (end_ - start + 1)). lia.
Qed.

Section Turn.
Context {HP : Heap} {LM : LibM} {CA : Calendar} (lim : Z) {HG : Grants lim}.
Hypothesis Hlim : 4096 <= lim < 2147483648.

(** The frame of a data point. *)
Definition upload_frame (dataPoint : list Z) (value : SaveValue) (ticks : Z) : list Z :=
  frame SAVEDATA (text_body (Some SRC_DEVID) 1 (savedata_text kTypeFullJson dataPoint value ticks EDP_TOKEN)).

Lemma upload_fit name v ticks : is_cstr name -> zlen name <= 16 -> small_value v ->
  savedata_fit lim (Some SRC_DEVID) kTypeFullJson name v ticks EDP_TOKEN.
Proof.
  intros Hn Hl Hv. pose proof (zlen_full_text name v ticks Hn Hl Hv) as Ht.
  unfold savedata_fit, EDP_TOKEN. set (text := savedata_text _ _ _ _ _) in *.
  pose proof (zlen_nonneg text).
  assert (zlen (text_body (Some SRC_DEVID) 1 text) = 12 + zlen text) as E
    by (unfold text_body, address; autorewrite with zlen; change (zlen SRC_DEVID) with 6; lia).
  refine (conj _ (conj Hn (conj (small_value_ok v Hv) (conj _ (conj _ (conj _ (conj _ _))))))).
  - by_decide.
  - done.
  - lia.
  - lia.
  - cbn [type_code]. rewrite E. unfold REMLEN_MAX. lia.
  - left. cbn [type_code]. unfold frame. pose proof (zlen_remlen (zlen (text_body (Some SRC_DEVID) 1 text))).
    rewrite zlen_cons, zlen_app, E in *. unfold BUFFER_SIZE. lia.
Qed.

Lemma SensorData_Upload_sends name v ticks c : is_cstr name -> zlen name <= 16 -> small_value v ->
  SensorData_Upload name v ticks c = Some (send (upload_frame name v ticks) c).
Proof.
  intros Hn Hl Hv. pose proof (upload_fit name v ticks Hn Hl Hv) as Hf.
  destruct (emits_savedata lim ltac:(unfold BUFFER_SIZE; lia) (Some SRC_DEVID) kTypeFullJson name v ticks EDP_TOKEN I Hf)
    as (pkg & E & (b & [= <-] & _ & W)).
  unfold SensorData_Upload. rewrite E. cbn [mbind option_bind]. unfold Socket_TCPClientSendData. by rewrite W.
Qed.
End Turn.

(** The readings of a turn, as the data points that carry them. *)
Definition readings (temp humi voltage current ups_energy : Z) (status fault : list Z) : list (list Z * SaveValue) :=
  [(t_temperature, VDouble (of_int temp)); (t_humidity, VDouble (of_int humi));
   (t_voltage, VDouble (of_int voltage)); (t_current, VDouble (of_int current));
   (t_power, VDouble (of_int (voltage * current))); (t_ups_energy, VInt ups_energy);
   (t_ups_status, VString status); (t_ups_fault, VString fault);
   (t_intrusion, VString intrusion_detect); (t_smoke, VString smoke_detect)].

Lemma ld_member (l : list (list Z)) i : 0 <= i < zlen l -> exists s, ld l i = Some s /\ s ∈ l.
Proof.
  intros Hi. destruct (ld_is_Some l i Hi) as [s Hs]. exists s. split; [done|].
  pose proof (ld_Forall (fun x => x ∈ l) l i s) as H. apply H; [|done]. by apply List.Forall_forall; intros x ?%list_elem_of_In.
Qed.

Lemma int_reading n : is_int n -> small_value (VDouble (of_int n)).
Proof. intros. by exists n. Qed.

(** One turn of the sensor task uploads the ten data points in order, one
    packet each, with readings in their ranges, the power equal to voltage
    times current (computed in doubles, exactly), and a status and a fault
    from the tables - whatever [rand] returns, with at least 4 KiB for a
    block; nothing else of the connection changes. *)
Theorem SenserTask_turn_sends {HP : Heap} {LM : LibM} {CA : Calendar} lim {HG : Grants lim} rand clock c :
  4096 <= lim < 2147483648 -> (forall i, 0 <= rand i) ->
  exists temp humi voltage current ups_energy status fault,
    22 <= temp <= 30 /\ 60 <= humi <= 70 /\ 190 <= voltage <= 230 /\ 3 <= current <= 6 /\
    68 <= ups_energy <= 75 /\ status ∈ ups_status /\ fault ∈ ups_fault /\
    SenserTask_turn rand clock c =
      Some (mkCloud (conn_status c) (SensorTaskFlag c) (reports c)
        (sent c ++ imap (fun i r => upload_frame r.1 r.2 (clock i))
           (readings temp humi voltage current ups_energy status fault))).
Proof.
  intros Hlim Hr. unfold SenserTask_turn, GetTHData, GetVCData, GetUPSData. cbv beta iota zeta.
  pose proof (make_rand_range (rand 0%nat) 22 30 (Hr _) ltac:(lia)) as H0.
  pose proof (make_rand_range (rand 1%nat) 60 70 (Hr _) ltac:(lia)) as H1.
  pose proof (make_rand_range (rand 2%nat) 190 230 (Hr _) ltac:(lia)) as H2.
  pose proof (make_rand_range (rand 3%nat) 3 6 (Hr _) ltac:(lia)) as H3.
  pose proof (make_rand_range (rand 4%nat) 68 75 (Hr _) ltac:(lia)) as H4.
  pose proof (make_rand_range (rand 5%nat) 0 2 (Hr _) ltac:(lia)) as H5.
  pose proof (make_rand_range (rand 6%nat) 0 2 (Hr _) ltac:(lia)) as H6.
  set (temp := make_rand _ 22 30) in *. set (humi := make_rand _ 60 70) in *.
  set (voltage := make_rand _ 190 230) in *. set (current := make_rand _ 3 6) in *.
  set (energy := make_rand _ 68 75) in *.
  set (st := make_rand (rand 5%nat) 0 2) in *. set (fa := make_rand (rand 6%nat) 0 2) in *.
  destruct (ld_member ups_status st ltac:(change (zlen ups_status) with 3; lia)) as (status & Es & Hs).
  destruct (ld_member ups_fault fa ltac:(change (zlen ups_fault) with 3; lia)) as (fault & Ef & Hf).
  exists temp, humi, voltage, current, energy, status, fault. do 7 (split; [done|]).
  clearbody temp humi voltage current energy st fa.
  assert (Forall (fun s => is_cstr s /\ zlen s <= 20) (ups_status ++ ups_fault)) as Htab by by_decide.
  rewrite List.Forall_forall in Htab.
  assert (small_value (VString status)) as Hvs by (apply Htab, list_elem_of_In, elem_of_app; by left).
  assert (small_value (VString fault)) as Hvf by (apply Htab, list_elem_of_In, elem_of_app; by right).
  assert (dmul (of_int voltage) (of_int current) = of_int (voltage * current)) as ->.
  { apply of_int_mul; [apply is_int_exact; unfold is_int; lia..| |lia]. apply is_int_exact. unfold is_int. nia. }
  assert (small_value (VDouble (of_int (voltage * current)))) as Hvp by (apply int_reading; unfold is_int; nia).
  rewrite Es, Ef.
  repeat (rewrite (SensorData_Upload_sends lim Hlim); cbn [mbind option_bind];
    [|by_decide|by_decide|first [done|apply int_reading; unfold is_int; lia|cbn [small_value]; unfold is_int; lia|split; by_decide]]).
  unfold send. cbn [conn_status SensorTaskFlag reports sent readings imap]. by rewrite <- !app_assoc.
Qed.

Lemma SenserTask_turn_sends_witness :
  let H := zero_heap 20480 in
  let clock (i : nat) := 100 * Z.of_nat i in
  let c := mkCloud CLOUD_CONN_DONE 1 [] [] in
  exists temp humi voltage current ups_energy status fault,
    22 <= temp <= 30 /\ 60 <= humi <= 70 /\ 190 <= voltage <= 230 /\ 3 <= current <= 6 /\
    68 <= ups_energy <= 75 /\ status ∈ ups_status /\ fault ∈ ups_fault /\
    SenserTask_turn (fun i => 12345 + Z.of_nat i) clock c =
      Some (mkCloud CLOUD_CONN_DONE 1 [] ([] ++ imap (fun i r => upload_frame r.1 r.2 (clock i))
           (readings temp humi voltage current ups_energy status fault))).
Proof.
  intros H clock c. apply (@SenserTask_turn_sends H _ _ 20480 (zero_heap_grants 20480) _ clock c); [lia|].
  intros i. lia.
Defined.
