(* ===== verification/ReadyList.v ===== *)
(** Sets of priorities as bit maps: the ready list and the wait lists of the
    kernel (uCOS-II/os_core.c).

    A set is a group byte and a table of eight bytes: bit [x] of entry [y]
    stands for priority [8 y + x], bit [y] of the group for a non-empty entry.
    [in_list] is the meaning of a map; the lemmas state what setting, clearing
    and looking up the highest priority (the smallest number) do to it. *)
From S2P Require Import Prelude.

(** The position of the lowest bit of a byte. *)
Definition OSUnMapTbl : list Z :=
  [0; 0; 1; 0; 2; 0; 1; 0; 3; 0; 1; 0; 2; 0; 1; 0;
   4; 0; 1; 0; 2; 0; 1; 0; 3; 0; 1; 0; 2; 0; 1; 0;
   5; 0; 1; 0; 2; 0; 1; 0; 3; 0; 1; 0; 2; 0; 1; 0;
   4; 0; 1; 0; 2; 0; 1; 0; 3; 0; 1; 0; 2; 0; 1; 0;
   6; 0; 1; 0; 2; 0; 1; 0; 3; 0; 1; 0; 2; 0; 1; 0;
   4; 0; 1; 0; 2; 0; 1; 0; 3; 0; 1; 0; 2; 0; 1; 0;
   5; 0; 1; 0; 2; 0; 1; 0; 3; 0; 1; 0; 2; 0; 1; 0;
   4; 0; 1; 0; 2; 0; 1; 0; 3; 0; 1; 0; 2; 0; 1; 0;
   7; 0; 1; 0; 2; 0; 1; 0; 3; 0; 1; 0; 2; 0; 1; 0;
   4; 0; 1; 0; 2; 0; 1; 0; 3; 0; 1; 0; 2; 0; 1; 0;
   5; 0; 1; 0; 2; 0; 1; 0; 3; 0; 1; 0; 2; 0; 1; 0;
   4; 0; 1; 0; 2; 0; 1; 0; 3; 0; 1; 0; 2; 0; 1; 0;
   6; 0; 1; 0; 2; 0; 1; 0; 3; 0; 1; 0; 2; 0; 1; 0;
   4; 0; 1; 0; 2; 0; 1; 0; 3; 0; 1; 0; 2; 0; 1; 0;
   5; 0; 1; 0; 2; 0; 1; 0; 3; 0; 1; 0; 2; 0; 1; 0;
   4; 0; 1; 0; 2; 0; 1; 0; 3; 0; 1; 0; 2; 0; 1; 0].

Definition unmap (x : Z) : Z := nth (Z.to_nat x) OSUnMapTbl 0.

(** [OSRdyGrp] and [OSRdyTbl], [OSEventGrp] and [OSEventTbl]. *)
Record Bits := mkBits { Grp : Z; Tbl : list Z }.

Definition entry (b : Bits) (y : Z) : Z := nth (Z.to_nat y) (Tbl b) 0.

(** [OSTCBY], [OSTCBX], [OSTCBBitY], [OSTCBBitX] of a priority. *)
Definition OSTCBY (prio : Z) : Z := Z.shiftr prio 3.
Definition OSTCBX (prio : Z) : Z := Z.land prio 7.
Definition OSTCBBitY (prio : Z) : Z := u8 (Z.shiftl 1 (OSTCBY prio)).
Definition OSTCBBitX (prio : Z) : Z := u8 (Z.shiftl 1 (OSTCBX prio)).

Definition set_prio (prio : Z) (b : Bits) : Bits :=
  let y := OSTCBY prio in
  mkBits (Z.lor (Grp b) (OSTCBBitY prio))
    (<[Z.to_nat y := Z.lor (entry b y) (OSTCBBitX prio)]> (Tbl b)).

Definition clear_prio (prio : Z) (b : Bits) : Bits :=
  let y := OSTCBY prio in
  let e := Z.land (entry b y) (u8 (Z.lnot (OSTCBBitX prio))) in
  mkBits (if e =? 0 then Z.land (Grp b) (u8 (Z.lnot (OSTCBBitY prio))) else Grp b)
    (<[Z.to_nat y := e]> (Tbl b)).

Definition highest (b : Bits) : Z :=
  let y := unmap (Grp b) in
  u8 (Z.shiftl y 3 + unmap (entry b y)).

(** [OS_EventWaitListInit], [OS_InitRdyList] *)
Definition no_bits : Bits := mkBits 0 (replicate 8 0).

(** * Meaning *)

Definition is_prio (p : Z) : Prop := 0 <= p < 64.

#[export] Instance is_prio_dec p : Decision (is_prio p).
Proof. unfold is_prio. apply _. Defined.

Definition in_list (b : Bits) (p : Z) : Prop := Z.testbit (entry b (OSTCBY p)) (OSTCBX p) = true.

#[export] Instance in_list_dec b p : Decision (in_list b p).
Proof. unfold in_list. apply _. Defined.

Record bits_ok (b : Bits) : Prop := {
  tbl_length : length (Tbl b) = 8%nat;
  grp_byte : is_u8 (Grp b);
  entry_byte : forall y, is_u8 (entry b y);
  grp_bit : forall y, 0 <= y < 8 -> Z.testbit (Grp b) y = negb (entry b y =? 0)
}.

Lemma prio_split p : is_prio p -> 0 <= OSTCBY p < 8 /\ 0 <= OSTCBX p < 8 /\ p = 8 * OSTCBY p + OSTCBX p.
Proof.
  unfold is_prio, OSTCBY, OSTCBX. intros Hp. rewrite Z.shiftr_div_pow2 by lia.
  change 7 with (Z.ones 3). rewrite Z.land_ones by lia. change (2 ^ 3) with 8. Z.to_euclidean_division_equations. lia.
Qed.

Lemma prio_join y x : 0 <= y < 8 -> 0 <= x < 8 ->
  is_prio (8 * y + x) /\ OSTCBY (8 * y + x) = y /\ OSTCBX (8 * y + x) = x.
Proof.
  intros Hy Hx. assert (is_prio (8 * y + x)) as Hp by (unfold is_prio; lia).
  destruct (prio_split _ Hp) as (? & ? & ?). split; [done|lia].
Qed.

Lemma prio_bit x : 0 <= x < 8 -> u8 (Z.shiftl 1 x) = 2 ^ x.
Proof.
  intros Hx. rewrite Z.shiftl_1_l. apply Z.mod_small. split; [apply Z.pow_nonneg; lia|].
  change 256 with (2 ^ 8). apply Z.pow_lt_mono_r; lia.
Qed.

Lemma testbit_pow x i : 0 <= x -> 0 <= i -> Z.testbit (2 ^ x) i = (x =? i).
Proof.
  intros Hx Hi. destruct (Z.eqb_spec x i) as [-> |Hn]; [by apply Z.pow2_bits_true|].
  by apply Z.pow2_bits_false.
Qed.

Lemma testbit_u8 x i : 0 <= i < 8 -> Z.testbit (u8 x) i = Z.testbit x i.
Proof. intros Hi. unfold u8. change 256 with (2 ^ 8). apply Z.mod_pow2_bits_low. lia. Qed.

Lemma testbit_byte_high x i : is_u8 x -> 8 <= i -> Z.testbit x i = false.
Proof.
  intros Hx Hi. rewrite <- (u8_small x Hx). unfold u8. change 256 with (2 ^ 8). by apply Z.mod_pow2_bits_high.
Qed.

Lemma byte_of_bits x : 0 <= x -> (forall i, 8 <= i -> Z.testbit x i = false) -> is_u8 x.
Proof.
  intros H0 H. destruct (Z.eq_dec x 0) as [-> |Hn]; [unfold is_u8; lia|].
  split; [done|]. change 256 with (2 ^ 8). apply Z.log2_lt_pow2; [lia|].
  destruct (Z.lt_ge_cases (Z.log2 x) 8) as [|Hl]; [done|].
  specialize (H _ Hl). rewrite Z.bit_log2 in H by lia. done.
Qed.

Lemma lor_bytes x y : is_u8 x -> is_u8 y -> is_u8 (Z.lor x y).
Proof.
  intros Hx Hy. apply byte_of_bits; [apply Z.lor_nonneg; word_lia|].
  intros i Hi. by rewrite Z.lor_spec, !testbit_byte_high.
Qed.

Lemma land_byte x y : is_u8 x -> 0 <= y -> is_u8 (Z.land x y).
Proof.
  intros Hx Hy. apply byte_of_bits; [apply Z.land_nonneg; by right|].
  intros i Hi. by rewrite Z.land_spec, testbit_byte_high.
Qed.

Lemma byte_zero x : is_u8 x -> (forall i, 0 <= i < 8 -> Z.testbit x i = false) -> x = 0.
Proof.
  intros Hx H. apply Z.bits_inj'. intros i Hi. rewrite Z.bits_0.
  destruct (Z.lt_ge_cases i 8); [by apply H|by apply testbit_byte_high].
Qed.

Lemma unmap_lowest x : is_u8 x -> x <> 0 ->
  0 <= unmap x < 8 /\ Z.testbit x (unmap x) = true /\ forall i, 0 <= i < unmap x -> Z.testbit x i = false.
Proof.
  intros Hx Hn.
  pose proof (u8_forall (fun x => (x =? 0) || ((0 <=? unmap x) && (unmap x <? 8) && Z.testbit x (unmap x)
    && forallb (fun i => negb (Z.testbit x i)) (seqZ 0 (unmap x)))) ltac:(by vm_compute) x Hx) as E.
  cbv beta in E. rewrite (proj2 (Z.eqb_neq x 0) Hn) in E. cbn [orb] in E.
  apply andb_true_iff in E as [E H4]. apply andb_true_iff in E as [E H3]. apply andb_true_iff in E as [H1 H2].
  split; [lia|]. split; [done|]. intros i Hi. rewrite forallb_forall in H4.
  apply negb_true_iff, H4, list_elem_of_In, elem_of_seqZ. lia.
Qed.

(** Entries of an updated table. *)
Lemma entry_insert (g : Z) (l : list Z) y e y' : length l = 8%nat -> 0 <= y < 8 -> 0 <= y' ->
  entry (mkBits g (<[Z.to_nat y := e]> l)) y' = if y' =? y then e else nth (Z.to_nat y') l 0.
Proof.
  intros Hl Hy Hy'. unfold entry. cbn [Tbl]. rewrite !nth_lookup.
  destruct (Z.eqb_spec y' y) as [-> |Hn].
  - rewrite list_lookup_insert_eq by lia. done.
  - rewrite list_lookup_insert_ne by lia. done.
Qed.

Lemma entry_neg b y : y < 0 -> entry b y = entry b 0.
Proof. intros Hy. unfold entry. by replace (Z.to_nat y) with (Z.to_nat 0) by lia. Qed.

(** A table with one entry changed, with a group byte that agrees. *)
Lemma bits_ok_insert b y e g : bits_ok b -> 0 <= y < 8 -> is_u8 e -> is_u8 g ->
  (forall i, 0 <= i < 8 -> Z.testbit g i = if i =? y then negb (e =? 0) else Z.testbit (Grp b) i) ->
  bits_ok (mkBits g (<[Z.to_nat y := e]> (Tbl b))).
Proof.
  intros Hb Hy He Hg Hbits. destruct Hb as [Hl Hgb Heb Hgr].
  assert (Hen : forall y', 0 <= y' -> is_u8 (entry (mkBits g (<[Z.to_nat y := e]> (Tbl b))) y')).
  { intros y' Hy'. rewrite entry_insert by done. destruct (y' =? y); [done|apply (Heb y')]. }
  split; [cbn [Tbl]; by rewrite length_insert|done| |].
  - intros y'. destruct (Z.lt_ge_cases y' 0); [rewrite entry_neg by done|]; apply Hen; lia.
  - intros y' Hy'. cbn [Grp]. rewrite Hbits, entry_insert by lia. destruct (Z.eqb_spec y' y); [done|]. by apply Hgr.
Qed.

Lemma bitX_value p : is_prio p -> OSTCBBitX p = 2 ^ OSTCBX p.
Proof. intros Hp. apply prio_bit. by apply prio_split. Qed.

Lemma bitY_value p : is_prio p -> OSTCBBitY p = 2 ^ OSTCBY p.
Proof. intros Hp. apply prio_bit. by apply prio_split. Qed.

Lemma set_entry_nonzero e x : 0 <= e -> 0 <= x -> Z.lor e (2 ^ x) <> 0.
Proof.
  intros He Hx E. assert (Z.testbit (Z.lor e (2 ^ x)) x = true) as H.
  { rewrite Z.lor_spec, testbit_pow, Z.eqb_refl by lia. apply orb_true_r. }
  rewrite E, Z.bits_0 in H. done.
Qed.

Lemma set_prio_ok p b : is_prio p -> bits_ok b -> bits_ok (set_prio p b).
Proof.
  intros Hp Hb. destruct (prio_split p Hp) as (Hy & Hx & _). unfold set_prio.
  pose proof (entry_byte b Hb (OSTCBY p)) as He. pose proof (grp_byte b Hb) as Hg.
  apply bits_ok_insert; [done|done|apply lor_bytes; [done|apply u8_range]|apply lor_bytes; [done|apply u8_range]|].
  intros i Hi. rewrite bitX_value, bitY_value, Z.lor_spec, testbit_pow, (Z.eqb_sym _ i) by (done || lia).
  destruct (i =? OSTCBY p); [|apply orb_false_r]. rewrite orb_true_r. symmetry. apply negb_true_iff, Z.eqb_neq.
  apply set_entry_nonzero; word_lia.
Qed.

Lemma prio_eq p q : is_prio p -> is_prio q -> OSTCBY p = OSTCBY q -> OSTCBX p = OSTCBX q -> p = q.
Proof.
  intros Hp Hq Ey Ex. destruct (prio_split p Hp) as (_ & _ & ->), (prio_split q Hq) as (_ & _ & ->). lia.
Qed.

Lemma in_set_prio p q b : is_prio p -> is_prio q -> bits_ok b ->
  in_list (set_prio p b) q <-> q = p \/ in_list b q.
Proof.
  intros Hp Hq Hb. destruct (prio_split p Hp) as (Hy & Hx & _), (prio_split q Hq) as (Hy' & Hx' & _).
  unfold in_list, set_prio. rewrite entry_insert by (lia || apply Hb).
  destruct (Z.eqb_spec (OSTCBY q) (OSTCBY p)) as [E|Hn].
  - rewrite bitX_value, Z.lor_spec, testbit_pow, orb_true_iff, Z.eqb_eq by (done || lia). rewrite E. split.
    + intros [H|H]; [by right|left; by apply prio_eq].
    + intros [-> |H]; [by right|by left].
  - split; [by right|]. intros [-> |H]; done.
Qed.

Lemma clear_entry e x i : is_u8 e -> 0 <= x < 8 -> 0 <= i < 8 ->
  Z.testbit (Z.land e (u8 (Z.lnot (2 ^ x)))) i = Z.testbit e i && negb (x =? i).
Proof.
  intros He Hx Hi. rewrite Z.land_spec, testbit_u8, Z.lnot_spec, testbit_pow by lia. done.
Qed.

Lemma clear_prio_ok p b : is_prio p -> bits_ok b -> bits_ok (clear_prio p b).
Proof.
  intros Hp Hb. destruct (prio_split p Hp) as (Hy & Hx & _). unfold clear_prio.
  pose proof (entry_byte b Hb (OSTCBY p)) as He. pose proof (grp_byte b Hb) as Hg.
  set (e := Z.land (entry b (OSTCBY p)) _).
  assert (is_u8 e) by (apply land_byte; [done|apply u8_range]).
  apply bits_ok_insert; [done|done|done| |].
  - destruct (e =? 0); [|done]. apply land_byte; [done|apply u8_range].
  - intros i Hi. destruct (Z.eqb_spec e 0) as [E|Hn].
    + rewrite bitY_value, clear_entry by done. rewrite (Z.eqb_sym (OSTCBY p) i). destruct (i =? OSTCBY p); [apply andb_false_r|apply andb_true_r].
    + destruct (Z.eqb_spec i (OSTCBY p)) as [-> |]; [|done]. rewrite (grp_bit b Hb) by done.
      apply negb_true_iff, Z.eqb_neq. intros E. destruct Hn. unfold e. by rewrite E, Z.land_0_l.
Qed.

Lemma in_clear_prio p q b : is_prio p -> is_prio q -> bits_ok b ->
  in_list (clear_prio p b) q <-> q <> p /\ in_list b q.
Proof.
  intros Hp Hq Hb. destruct (prio_split p Hp) as (Hy & Hx & _), (prio_split q Hq) as (Hy' & Hx' & _).
  unfold in_list, clear_prio. rewrite entry_insert by (lia || apply Hb).
  destruct (Z.eqb_spec (OSTCBY q) (OSTCBY p)) as [E|Hn].
  - rewrite bitX_value, clear_entry, andb_true_iff, negb_true_iff, Z.eqb_neq by (done || apply (entry_byte b Hb) || lia). rewrite E. split.
    + intros [H Hx2]. split; [congruence|done].
    + intros [Hn H]. split; [done|]. intros Ex. destruct Hn. by apply prio_eq.
  - split; [|by intros [_ H]]. intros H. split; [congruence|done].
Qed.

(** The highest priority of a list that is not empty. *)
Lemma highest_spec b : bits_ok b -> Grp b <> 0 ->
  is_prio (highest b) /\ in_list b (highest b) /\ forall q, is_prio q -> in_list b q -> highest b <= q.
Proof.
  intros Hb Hg. destruct (unmap_lowest (Grp b) (grp_byte b Hb) Hg) as (Hy & Hyt & Hyl).
  set (y := unmap (Grp b)) in *. rewrite (grp_bit b Hb) in Hyt by done. apply negb_true_iff, Z.eqb_neq in Hyt.
  destruct (unmap_lowest (entry b y) (entry_byte b Hb y) Hyt) as (Hx & Hxt & Hxl). set (x := unmap (entry b y)) in *.
  assert (highest b = 8 * y + x) as E.
  { unfold highest. fold y x. rewrite Z.shiftl_mul_pow2 by lia. change (2 ^ 3) with 8. rewrite u8_small by word_lia. lia. }
  destruct (prio_join y x Hy Hx) as (Hp & Ey & Ex). rewrite E.
  split; [done|]. split; [unfold in_list; by rewrite Ey, Ex|].
  intros q Hq Hin. destruct (prio_split q Hq) as (Hy' & Hx' & Eq). unfold in_list in Hin.
  assert (y <= OSTCBY q) as Hle.
  { destruct (Z.lt_ge_cases (OSTCBY q) y) as [Hlt|]; [|done]. specialize (Hyl (OSTCBY q) ltac:(lia)).
    rewrite (grp_bit b Hb) in Hyl by done. apply negb_false_iff, Z.eqb_eq in Hyl. by rewrite Hyl, Z.bits_0 in Hin. }
  destruct (Z.eq_dec (OSTCBY q) y) as [Ey'|]; [|lia].
  destruct (Z.lt_ge_cases (OSTCBX q) x) as [Hlt|]; [|lia].
  specialize (Hxl (OSTCBX q) ltac:(lia)). rewrite Ey' in Hin. congruence.
Qed.

Lemma grp_zero b : bits_ok b -> Grp b = 0 <-> forall q, is_prio q -> ~ in_list b q.
Proof.
  intros Hb. split.
  - intros Hg q Hq Hin. destruct (prio_split q Hq) as (Hy & Hx & _).
    pose proof (grp_bit b Hb (OSTCBY q) Hy) as E. rewrite Hg, Z.bits_0 in E.
    symmetry in E. apply negb_false_iff, Z.eqb_eq in E. unfold in_list in Hin. by rewrite E, Z.bits_0 in Hin.
  - intros H. destruct (Z.eq_dec (Grp b) 0) as [|Hn]; [done|].
    destruct (highest_spec b Hb Hn) as (Hp & Hin & _). by destruct (H _ Hp).
Qed.

Lemma no_bits_ok : bits_ok no_bits.
Proof.
  assert (forall y, entry no_bits y = 0) as E.
  { intros y. unfold entry. cbn [Tbl no_bits]. rewrite nth_lookup. destruct (replicate 8 0 !! Z.to_nat y) eqn:H; [|done].
    by apply lookup_replicate_1 in H as [-> _]. }
  split; [done|done|intros y; rewrite E; done|]. intros y _. by rewrite E, Z.bits_0.
Qed.

Lemma in_no_bits p : ~ in_list no_bits p.
Proof.
  unfold in_list, entry. cbn [Tbl no_bits]. rewrite nth_lookup.
  destruct (replicate 8 0 !! Z.to_nat (OSTCBY p)) eqn:H; simpl; [|by rewrite Z.bits_0].
  apply lookup_replicate_1 in H as [-> _]. by rewrite Z.bits_0.
Qed.
