(* ===== verification/Kernel.v ===== *)
(** The kernel uC/OS-II as configured (uCOS-II/os_cfg.h): tasks, the scheduler,
    the tick, delays, semaphores and message queues (os_core.c, os_task.c,
    os_time.c, os_sem.c, os_q.c).

    A task is known by its priority.  A call that blocks is cut in two at its
    [OS_Sched]: the first part leaves in [OSTCBStk], the saved stack, what is
    left to do, and the part after it is a function of its own
    ([OSSemPend_return], [OSQPend_return]) for the time when the task runs
    again.  The critical section of a call is a definition of its own
    ([OSQPend_section] of [OSQPend]), one step with the [OS_Sched] after it (an
    interrupt between the two makes the same switch in its [OSIntExit]); the
    call is its tests and then the section.  The steps of this file are whole
    calls; [KernelSplit] takes them apart and lets other tasks and interrupts
    run between the tests and the section.  The creation of a task, a semaphore
    or a queue is one step (the blocks it has taken are its own until it
    returns), and so is an interrupt.  The lists of free control blocks are the
    lists of their indices.  Names, task statistics, the argument
    checks (OS_ARG_CHK_EN is 0), the stepping of ticks, pending on several
    events ([OSTCBEventMultiPtr] is always null) and the hooks are left out. *)
From stdpp Require Export gmap.
From S2P Require Import Prelude ReadyList.
#[local] Open Scope Z_scope.

Definition OS_TASK_IDLE_PRIO : Z := 63.
Definition OS_TASK_STAT_PRIO : Z := 62.
Definition OS_MAX_EVENTS : nat := 20.
Definition OS_MAX_QS : nat := 20.
Definition OS_MAX_TASKS : Z := 20.
(** The idle and the statistics task. *)
Definition OS_N_SYS_TASKS : Z := 2.

Definition OS_STAT_RDY : Z := 0.
Definition OS_STAT_SEM : Z := 1.
Definition OS_STAT_MBOX : Z := 2.
Definition OS_STAT_Q : Z := 4.
Definition OS_STAT_SUSPEND : Z := 8.
Definition OS_STAT_MUTEX : Z := 16.
Definition OS_STAT_FLAG : Z := 32.
Definition OS_STAT_PEND_ANY : Z :=
  Z.lor OS_STAT_SEM (Z.lor OS_STAT_MBOX (Z.lor OS_STAT_Q (Z.lor OS_STAT_MUTEX OS_STAT_FLAG))).

Definition OS_STAT_PEND_OK : Z := 0.
Definition OS_STAT_PEND_TO : Z := 1.
Definition OS_STAT_PEND_ABORT : Z := 2.

Definition OS_EVENT_TYPE_UNUSED : Z := 0.
Definition OS_EVENT_TYPE_Q : Z := 2.
Definition OS_EVENT_TYPE_SEM : Z := 3.

Definition OS_DEL_NO_PEND : Z := 0.
Definition OS_DEL_ALWAYS : Z := 1.

Definition OS_ERR_NONE : Z := 0.
Definition OS_ERR_EVENT_TYPE : Z := 1.
Definition OS_ERR_PEND_ISR : Z := 2.
Definition OS_ERR_INVALID_OPT : Z := 7.
Definition OS_ERR_TIMEOUT : Z := 10.
Definition OS_ERR_PEND_LOCKED : Z := 13.
Definition OS_ERR_PEND_ABORT : Z := 14.
Definition OS_ERR_DEL_ISR : Z := 15.
Definition OS_ERR_Q_FULL : Z := 30.
Definition OS_ERR_Q_EMPTY : Z := 31.
Definition OS_ERR_PRIO_EXIST : Z := 40.
Definition OS_ERR_SEM_OVF : Z := 51.
Definition OS_ERR_TASK_CREATE_ISR : Z := 60.
Definition OS_ERR_TASK_NO_MORE_TCB : Z := 66.
Definition OS_ERR_TASK_WAITING : Z := 73.

(** What a task does when it runs (again): go on with its own code, or with
    the rest of a call that blocked. *)
Inductive Context :=
  | CRun
  | CSemPend (e : nat)
  | CQPend (e : nat).

Record OS_TCB := mkTCB {
  OSTCBStat : Z;
  OSTCBStatPend : Z;
  OSTCBDly : Z;
  OSTCBEventPtr : option nat;
  OSTCBMsg : Z;
  OSTCBStk : Context
}.

(** [OSEventPtr] of a queue is the index of its control block. *)
Record OS_EVENT := mkEvent {
  OSEventType : Z;
  OSEventCnt : Z;
  OSEventPtr : option nat;
  OSEventWait : Bits
}.

(** The storage that [OSQStart] points to, and offsets into it. *)
Record OS_Q := mkQ {
  OSQStart : list Z;
  OSQIn : Z;
  OSQOut : Z;
  OSQSize : Z;
  OSQEntries : Z
}.

Record Kernel := mkKernel {
  OSRdy : Bits;
  OSTCBPrioTbl : gmap Z OS_TCB;
  OSTCBList : list Z;
  OSTCBFree : Z;
  OSEventTbl : list OS_EVENT;
  OSEventFreeList : list nat;
  OSQTbl : list OS_Q;
  OSQFreeList : list nat;
  OSTime : Z;
  OSPrioCur : Z;
  OSIntNesting : Z;
  OSLockNesting : Z;
  OSRunning : bool
}.

Definition set_rdy (v : Bits) (k : Kernel) : Kernel :=
  mkKernel v (OSTCBPrioTbl k) (OSTCBList k) (OSTCBFree k) (OSEventTbl k) (OSEventFreeList k) (OSQTbl k) (OSQFreeList k)
    (OSTime k) (OSPrioCur k) (OSIntNesting k) (OSLockNesting k) (OSRunning k).
Definition set_tcbs (v : gmap Z OS_TCB) (k : Kernel) : Kernel :=
  mkKernel (OSRdy k) v (OSTCBList k) (OSTCBFree k) (OSEventTbl k) (OSEventFreeList k) (OSQTbl k) (OSQFreeList k)
    (OSTime k) (OSPrioCur k) (OSIntNesting k) (OSLockNesting k) (OSRunning k).
Definition set_tcb_list (v : list Z) (free : Z) (k : Kernel) : Kernel :=
  mkKernel (OSRdy k) (OSTCBPrioTbl k) v free (OSEventTbl k) (OSEventFreeList k) (OSQTbl k) (OSQFreeList k)
    (OSTime k) (OSPrioCur k) (OSIntNesting k) (OSLockNesting k) (OSRunning k).
Definition set_events (v : list OS_EVENT) (k : Kernel) : Kernel :=
  mkKernel (OSRdy k) (OSTCBPrioTbl k) (OSTCBList k) (OSTCBFree k) v (OSEventFreeList k) (OSQTbl k) (OSQFreeList k)
    (OSTime k) (OSPrioCur k) (OSIntNesting k) (OSLockNesting k) (OSRunning k).
Definition set_event_free (v : list nat) (k : Kernel) : Kernel :=
  mkKernel (OSRdy k) (OSTCBPrioTbl k) (OSTCBList k) (OSTCBFree k) (OSEventTbl k) v (OSQTbl k) (OSQFreeList k)
    (OSTime k) (OSPrioCur k) (OSIntNesting k) (OSLockNesting k) (OSRunning k).
Definition set_qs (v : list OS_Q) (k : Kernel) : Kernel :=
  mkKernel (OSRdy k) (OSTCBPrioTbl k) (OSTCBList k) (OSTCBFree k) (OSEventTbl k) (OSEventFreeList k) v (OSQFreeList k)
    (OSTime k) (OSPrioCur k) (OSIntNesting k) (OSLockNesting k) (OSRunning k).
Definition set_q_free (v : list nat) (k : Kernel) : Kernel :=
  mkKernel (OSRdy k) (OSTCBPrioTbl k) (OSTCBList k) (OSTCBFree k) (OSEventTbl k) (OSEventFreeList k) (OSQTbl k) v
    (OSTime k) (OSPrioCur k) (OSIntNesting k) (OSLockNesting k) (OSRunning k).
Definition set_time (v : Z) (k : Kernel) : Kernel :=
  mkKernel (OSRdy k) (OSTCBPrioTbl k) (OSTCBList k) (OSTCBFree k) (OSEventTbl k) (OSEventFreeList k) (OSQTbl k) (OSQFreeList k)
    v (OSPrioCur k) (OSIntNesting k) (OSLockNesting k) (OSRunning k).
Definition set_cur (v : Z) (k : Kernel) : Kernel :=
  mkKernel (OSRdy k) (OSTCBPrioTbl k) (OSTCBList k) (OSTCBFree k) (OSEventTbl k) (OSEventFreeList k) (OSQTbl k) (OSQFreeList k)
    (OSTime k) v (OSIntNesting k) (OSLockNesting k) (OSRunning k).
Definition set_nesting (int lock : Z) (k : Kernel) : Kernel :=
  mkKernel (OSRdy k) (OSTCBPrioTbl k) (OSTCBList k) (OSTCBFree k) (OSEventTbl k) (OSEventFreeList k) (OSQTbl k) (OSQFreeList k)
    (OSTime k) (OSPrioCur k) int lock (OSRunning k).
Definition set_running (v : bool) (k : Kernel) : Kernel :=
  mkKernel (OSRdy k) (OSTCBPrioTbl k) (OSTCBList k) (OSTCBFree k) (OSEventTbl k) (OSEventFreeList k) (OSQTbl k) (OSQFreeList k)
    (OSTime k) (OSPrioCur k) (OSIntNesting k) (OSLockNesting k) v.

(** * Access *)

Definition get_tcb (p : Z) : M Kernel OS_TCB := access (fun k => OSTCBPrioTbl k !! p).
Definition put_tcb (p : Z) (t : OS_TCB) : M Kernel unit := modify (fun k => set_tcbs (<[p := t]> (OSTCBPrioTbl k)) k).
Definition get_event (e : nat) : M Kernel OS_EVENT := access (fun k => OSEventTbl k !! e).
Definition put_event (e : nat) (v : OS_EVENT) : M Kernel unit := modify (fun k => set_events (<[e := v]> (OSEventTbl k)) k).
Definition get_q (q : option nat) : M Kernel OS_Q := access (fun k => q ← q; OSQTbl k !! q).
Definition put_q (q : nat) (v : OS_Q) : M Kernel unit := modify (fun k => set_qs (<[q := v]> (OSQTbl k)) k).
Definition change_rdy (f : Bits -> Bits) : M Kernel unit := modify (fun k => set_rdy (f (OSRdy k)) k).

Definition set_wait (w : Bits) (ev : OS_EVENT) : OS_EVENT :=
  mkEvent (OSEventType ev) (OSEventCnt ev) (OSEventPtr ev) w.
Definition set_cnt (n : Z) (ev : OS_EVENT) : OS_EVENT :=
  mkEvent (OSEventType ev) n (OSEventPtr ev) (OSEventWait ev).
Definition set_stk (c : Context) (t : OS_TCB) : OS_TCB :=
  mkTCB (OSTCBStat t) (OSTCBStatPend t) (OSTCBDly t) (OSTCBEventPtr t) (OSTCBMsg t) c.

(** * Scheduling *)

(** [OS_SchedNew] and the switch: the current task is the highest ready one. *)
Definition switch : M Kernel unit :=
  OSPrioHighRdy ← gets (fun k => highest (OSRdy k));
  _ ← get_tcb OSPrioHighRdy;
  modify (set_cur OSPrioHighRdy).

Definition OS_Sched : M Kernel unit := fun k =>
  if (OSIntNesting k =? 0) && (OSLockNesting k =? 0) then switch k else Done tt k.

Definition OSIntEnter : M Kernel unit := fun k =>
  if OSRunning k && (OSIntNesting k <? 255) then Done tt (set_nesting (OSIntNesting k + 1) (OSLockNesting k) k)
  else Done tt k.

Definition OSIntExit : M Kernel unit := fun k =>
  if OSRunning k then
    let n := if 0 <? OSIntNesting k then OSIntNesting k - 1 else OSIntNesting k in
    let k := set_nesting n (OSLockNesting k) k in
    if (n =? 0) && (OSLockNesting k =? 0) then switch k else Done tt k
  else Done tt k.

Definition OSSchedLock : M Kernel unit := fun k =>
  if OSRunning k && (OSIntNesting k =? 0) && (OSLockNesting k <? 255)
  then Done tt (set_nesting (OSIntNesting k) (OSLockNesting k + 1) k)
  else Done tt k.

Definition OSSchedUnlock : M Kernel unit := fun k =>
  if OSRunning k && (0 <? OSLockNesting k) then
    let n := OSLockNesting k - 1 in
    let k := set_nesting (OSIntNesting k) n k in
    if (n =? 0) && (OSIntNesting k =? 0) then OS_Sched k else Done tt k
  else Done tt k.

(** * Wait lists *)

Definition OS_EventTaskRemove (prio : Z) (e : nat) : M Kernel unit :=
  ev ← get_event e;
  put_event e (set_wait (clear_prio prio (OSEventWait ev)) ev).

(** Ready the highest task that waits for [e]. *)
Definition OS_EventTaskRdy (e : nat) (pmsg msk pend_stat : Z) : M Kernel Z :=
  ev ← get_event e;
  let prio := highest (OSEventWait ev) in
  ptcb ← get_tcb prio;
  let stat := Z.land (OSTCBStat ptcb) (u8 (Z.lnot msk)) in
  put_tcb prio (mkTCB stat pend_stat 0 (OSTCBEventPtr ptcb) pmsg (OSTCBStk ptcb));;
  (if Z.land stat OS_STAT_SUSPEND =? OS_STAT_RDY then change_rdy (set_prio prio) else mret tt);;
  OS_EventTaskRemove prio e;;
  mret prio.

(** The current task waits for [e]. *)
Definition OS_EventTaskWait (e : nat) : M Kernel unit :=
  cur ← gets OSPrioCur;
  t ← get_tcb cur;
  put_tcb cur (mkTCB (OSTCBStat t) (OSTCBStatPend t) (OSTCBDly t) (Some e) (OSTCBMsg t) (OSTCBStk t));;
  ev ← get_event e;
  put_event e (set_wait (set_prio cur (OSEventWait ev)) ev);;
  change_rdy (clear_prio cur).

(** The loop that readies all of them; one turn for each of 64 priorities and
    one to see the end. *)
Fixpoint ready_all (fuel : nat) (e : nat) (msk : Z) : M Kernel unit :=
  match fuel with
  | O => crash
  | S fuel =>
      ev ← get_event e;
      if Grp (OSEventWait ev) =? 0 then mret tt
      else _ ← OS_EventTaskRdy e 0 msk OS_STAT_PEND_OK; ready_all fuel e msk
  end.

(** * Time *)

Definition tick_tcb (p : Z) : M Kernel unit :=
  t ← get_tcb p;
  if OSTCBDly t =? 0 then mret tt else
  let dly := OSTCBDly t - 1 in
  if negb (dly =? 0) then
    put_tcb p (mkTCB (OSTCBStat t) (OSTCBStatPend t) dly (OSTCBEventPtr t) (OSTCBMsg t) (OSTCBStk t))
  else
    let pending := negb (Z.land (OSTCBStat t) OS_STAT_PEND_ANY =? OS_STAT_RDY) in
    let stat := if pending then Z.land (OSTCBStat t) (u8 (Z.lnot OS_STAT_PEND_ANY)) else OSTCBStat t in
    let pend := if pending then OS_STAT_PEND_TO else OS_STAT_PEND_OK in
    put_tcb p (mkTCB stat pend dly (OSTCBEventPtr t) (OSTCBMsg t) (OSTCBStk t));;
    if Z.land stat OS_STAT_SUSPEND =? OS_STAT_RDY then change_rdy (set_prio p) else mret tt.

(** The walk through the tasks up to the idle task. *)
Fixpoint tick_loop (list : list Z) : M Kernel unit :=
  match list with
  | [] => crash
  | p :: list => if p =? OS_TASK_IDLE_PRIO then mret tt else tick_tcb p;; tick_loop list
  end.

Definition OSTimeTick : M Kernel unit :=
  modify (fun k => set_time (u32 (OSTime k + 1)) k);;
  running ← gets OSRunning;
  if (running : bool) then list ← gets OSTCBList; tick_loop list else mret tt.

Definition OSTimeDly_section (ticks : Z) : M Kernel unit :=
  cur ← gets OSPrioCur;
  t ← get_tcb cur;
  change_rdy (clear_prio cur);;
  put_tcb cur (mkTCB (OSTCBStat t) (OSTCBStatPend t) ticks (OSTCBEventPtr t) (OSTCBMsg t) (OSTCBStk t));;
  OS_Sched.

Definition OSTimeDly (ticks : Z) : M Kernel unit := fun k =>
  if (0 <? OSIntNesting k) || (0 <? OSLockNesting k) || (ticks =? 0) then Done tt k
  else OSTimeDly_section ticks k.

Definition OSTimeGet : M Kernel Z := gets OSTime.
Definition OSTimeSet (ticks : Z) : M Kernel unit := modify (set_time ticks).

(** * Tasks *)

(** A TCB for a new task, linked in front of the others and made ready. *)
Definition OS_TCBInit (prio : Z) : M Kernel Z := fun k =>
  if 0 <? OSTCBFree k then
    (modify (set_tcb_list (OSTCBList k) (OSTCBFree k - 1));;
     put_tcb prio (mkTCB OS_STAT_RDY OS_STAT_PEND_OK 0 None 0 CRun);;
     modify (fun k => set_tcb_list (prio :: OSTCBList k) (OSTCBFree k) k);;
     change_rdy (set_prio prio);;
     mret OS_ERR_NONE) k
  else Done OS_ERR_TASK_NO_MORE_TCB k.

(** The priority indexes a table of 64 entries.  [OSTaskCreateExt] differs in
    the stack only. *)
Definition OSTaskCreate (prio : Z) : M Kernel Z := fun k =>
  if 0 <? OSIntNesting k then Done OS_ERR_TASK_CREATE_ISR k
  else if negb (prio <? 64) then Crash
  else match OSTCBPrioTbl k !! prio with
  | None =>
      (err ← OS_TCBInit prio;
       running ← gets OSRunning;
       (if (err =? OS_ERR_NONE) && running then OS_Sched else mret tt);;
       mret err) k
  | Some _ => Done OS_ERR_PRIO_EXIST k
  end.

(** * Semaphores *)

(** A control block from the free list. *)
Definition new_event : M Kernel (option nat) := fun k =>
  match OSEventFreeList k with
  | [] => Done None k
  | e :: free => Done (Some e) (set_event_free free k)
  end.

Definition free_event (e : nat) : M Kernel unit :=
  ev ← get_event e;
  put_event e (mkEvent OS_EVENT_TYPE_UNUSED 0 None (OSEventWait ev));;
  modify (fun k => set_event_free (e :: OSEventFreeList k) k).

Definition OSSemCreate (cnt : Z) : M Kernel (option nat) := fun k =>
  if 0 <? OSIntNesting k then Done None k else
  (pevent ← new_event;
   match pevent with
   | None => mret None
   | Some e => _ ← get_event e; put_event e (mkEvent OS_EVENT_TYPE_SEM cnt None no_bits);; mret (Some e)
   end) k.

(** A call with a handle has its tests in front of its critical section, where
    it can be preempted between the two ([KernelSplit]). *)
Definition OSSemAccept_section (e : nat) : M Kernel Z :=
  ev ← get_event e;
  let cnt := OSEventCnt ev in
  (if 0 <? cnt then put_event e (set_cnt (cnt - 1) ev) else mret tt);;
  mret cnt.

Definition OSSemAccept (e : nat) : M Kernel Z :=
  ev ← get_event e;
  if negb (OSEventType ev =? OS_EVENT_TYPE_SEM) then mret 0 else OSSemAccept_section e.

(** The current task begins to wait: its status, its timeout, the rest of the
    call, its place in the wait list. *)
Definition pend (e : nat) (stat timeout : Z) (rest : Context) : M Kernel unit :=
  cur ← gets OSPrioCur;
  t ← get_tcb cur;
  put_tcb cur (mkTCB (Z.lor (OSTCBStat t) stat) OS_STAT_PEND_OK timeout (OSTCBEventPtr t) (OSTCBMsg t) rest);;
  OS_EventTaskWait e;;
  OS_Sched.

(** [Some err]: the call returns at once; [None]: it blocks. *)
Definition OSSemPend_section (e : nat) (timeout : Z) : M Kernel (option Z) :=
  ev ← get_event e;
  if 0 <? OSEventCnt ev then put_event e (set_cnt (OSEventCnt ev - 1) ev);; mret (Some OS_ERR_NONE)
  else pend e OS_STAT_SEM timeout (CSemPend e);; mret None.

Definition OSSemPend (e : nat) (timeout : Z) : M Kernel (option Z) :=
  ev ← get_event e;
  int ← gets OSIntNesting;
  lock ← gets OSLockNesting;
  if negb (OSEventType ev =? OS_EVENT_TYPE_SEM) then mret (Some OS_ERR_EVENT_TYPE)
  else if 0 <? int then mret (Some OS_ERR_PEND_ISR)
  else if 0 <? lock then mret (Some OS_ERR_PEND_LOCKED)
  else OSSemPend_section e timeout.

(** The rest of a pend call: the error code and the message left in the TCB. *)
Definition pend_return (e : nat) (clear_msg : bool) : M Kernel (Z * Z) :=
  cur ← gets OSPrioCur;
  t ← get_tcb cur;
  '(msg, err) ←
    (if OSTCBStatPend t =? OS_STAT_PEND_OK then mret (OSTCBMsg t, OS_ERR_NONE)
     else if OSTCBStatPend t =? OS_STAT_PEND_ABORT then mret (0, OS_ERR_PEND_ABORT)
     else OS_EventTaskRemove cur e;; mret (0, OS_ERR_TIMEOUT));
  put_tcb cur (mkTCB OS_STAT_RDY OS_STAT_PEND_OK (OSTCBDly t) None (if (clear_msg : bool) then 0 else OSTCBMsg t) CRun);;
  mret (msg, err).

Definition OSSemPend_return (e : nat) : M Kernel Z := r ← pend_return e false; mret r.2.

Definition OSSemPost_section (e : nat) : M Kernel Z :=
  ev ← get_event e;
  if negb (Grp (OSEventWait ev) =? 0) then
    _ ← OS_EventTaskRdy e 0 OS_STAT_SEM OS_STAT_PEND_OK; OS_Sched;; mret OS_ERR_NONE
  else if OSEventCnt ev <? 65535 then put_event e (set_cnt (OSEventCnt ev + 1) ev);; mret OS_ERR_NONE
  else mret OS_ERR_SEM_OVF.

Definition OSSemPost (e : nat) : M Kernel Z :=
  ev ← get_event e;
  if negb (OSEventType ev =? OS_EVENT_TYPE_SEM) then mret OS_ERR_EVENT_TYPE else OSSemPost_section e.

Definition OSSemSet_section (e : nat) (cnt : Z) : M Kernel Z :=
  ev ← get_event e;
  if (0 <? OSEventCnt ev) || (Grp (OSEventWait ev) =? 0) then put_event e (set_cnt cnt ev);; mret OS_ERR_NONE
  else mret OS_ERR_TASK_WAITING.

Definition OSSemSet (e : nat) (cnt : Z) : M Kernel Z :=
  ev ← get_event e;
  if negb (OSEventType ev =? OS_EVENT_TYPE_SEM) then mret OS_ERR_EVENT_TYPE else OSSemSet_section e cnt.

(** The handle returned is null when the block is free again. *)
Definition OSSemDel_section (e : nat) (opt : Z) : M Kernel (bool * Z) :=
  ev ← get_event e;
  let tasks_waiting := negb (Grp (OSEventWait ev) =? 0) in
  if opt =? OS_DEL_NO_PEND then
    if tasks_waiting then mret (false, OS_ERR_TASK_WAITING)
    else free_event e;; mret (true, OS_ERR_NONE)
  else if opt =? OS_DEL_ALWAYS then
    ready_all 65 e OS_STAT_SEM;;
    free_event e;;
    (if tasks_waiting then OS_Sched else mret tt);;
    mret (true, OS_ERR_NONE)
  else mret (false, OS_ERR_INVALID_OPT).

Definition OSSemDel (e : nat) (opt : Z) : M Kernel (bool * Z) :=
  ev ← get_event e;
  int ← gets OSIntNesting;
  if negb (OSEventType ev =? OS_EVENT_TYPE_SEM) then mret (false, OS_ERR_EVENT_TYPE)
  else if 0 <? int then mret (false, OS_ERR_DEL_ISR)
  else OSSemDel_section e opt.

(** * Message queues *)

(** [start] is the storage, of which the queue uses the first [size] cells. *)
Definition OSQCreate (start : list Z) (size : Z) : M Kernel (option nat) := fun k =>
  if 0 <? OSIntNesting k then Done None k else
  (pevent ← new_event;
   match pevent with
   | None => mret None
   | Some e =>
       ev ← get_event e;
       qs ← gets OSQFreeList;
       match qs with
       | q :: free =>
           modify (set_q_free free);;
           _ ← get_q (Some q);
           put_q q (mkQ start 0 0 size 0);;
           put_event e (mkEvent OS_EVENT_TYPE_Q 0 (Some q) no_bits);;
           mret (Some e)
       | [] => modify (fun k => set_event_free (e :: OSEventFreeList k) k);; mret None
       end
   end) k.

(** The oldest message of a queue that is not empty. *)
Definition take_msg (q : OS_Q) : option (Z * OS_Q) :=
  pmsg ← ld (OSQStart q) (OSQOut q);
  let out := OSQOut q + 1 in
  Some (pmsg, mkQ (OSQStart q) (OSQIn q) (if out =? OSQSize q then 0 else out) (OSQSize q) (OSQEntries q - 1)).

Definition put_msg (m : Z) (q : OS_Q) : option OS_Q :=
  start ← st (OSQStart q) (OSQIn q) m;
  let in_ := OSQIn q + 1 in
  Some (mkQ start (if in_ =? OSQSize q then 0 else in_) (OSQOut q) (OSQSize q) (OSQEntries q + 1)).

Definition put_front (m : Z) (q : OS_Q) : option OS_Q :=
  let out := (if OSQOut q =? 0 then OSQSize q else OSQOut q) - 1 in
  start ← st (OSQStart q) out m;
  Some (mkQ start (OSQIn q) out (OSQSize q) (OSQEntries q + 1)).

(** The queue of an event is replaced by the result of [f]. *)
Definition use_q {A} (ev : OS_EVENT) (f : OS_Q -> option (A * OS_Q)) : M Kernel A :=
  pq ← get_q (OSEventPtr ev);
  '(a, pq) ← access (fun _ => f pq);
  i ← access (fun _ => OSEventPtr ev);
  put_q i pq;;
  mret a.

Definition OSQAccept_section (e : nat) : M Kernel (Z * Z) :=
  ev ← get_event e;
  pq ← get_q (OSEventPtr ev);
  if 0 <? OSQEntries pq then m ← use_q ev take_msg; mret (m, OS_ERR_NONE)
  else mret (0, OS_ERR_Q_EMPTY).

Definition OSQAccept (e : nat) : M Kernel (Z * Z) :=
  ev ← get_event e;
  if negb (OSEventType ev =? OS_EVENT_TYPE_Q) then mret (0, OS_ERR_EVENT_TYPE) else OSQAccept_section e.

(** [Some (msg, err)]: the call returns at once; [None]: it blocks. *)
Definition OSQPend_section (e : nat) (timeout : Z) : M Kernel (option (Z * Z)) :=
  ev ← get_event e;
  pq ← get_q (OSEventPtr ev);
  if 0 <? OSQEntries pq then m ← use_q ev take_msg; mret (Some (m, OS_ERR_NONE))
  else pend e OS_STAT_Q timeout (CQPend e);; mret None.

Definition OSQPend (e : nat) (timeout : Z) : M Kernel (option (Z * Z)) :=
  ev ← get_event e;
  int ← gets OSIntNesting;
  lock ← gets OSLockNesting;
  if negb (OSEventType ev =? OS_EVENT_TYPE_Q) then mret (Some (0, OS_ERR_EVENT_TYPE))
  else if 0 <? int then mret (Some (0, OS_ERR_PEND_ISR))
  else if 0 <? lock then mret (Some (0, OS_ERR_PEND_LOCKED))
  else OSQPend_section e timeout.

Definition OSQPend_return (e : nat) : M Kernel (Z * Z) := pend_return e true.

(** [OSQPost] and [OSQPostFront], which differ in the end they fill. *)
Definition post_section (e : nat) (pmsg : Z) (fill : Z -> OS_Q -> option OS_Q) : M Kernel Z :=
  ev ← get_event e;
  if negb (Grp (OSEventWait ev) =? 0) then
    _ ← OS_EventTaskRdy e pmsg OS_STAT_Q OS_STAT_PEND_OK; OS_Sched;; mret OS_ERR_NONE
  else
    pq ← get_q (OSEventPtr ev);
    if OSQSize pq <=? OSQEntries pq then mret OS_ERR_Q_FULL
    else use_q ev (fun q => q ← fill pmsg q; Some (OS_ERR_NONE, q)).

Definition post_msg (e : nat) (pmsg : Z) (fill : Z -> OS_Q -> option OS_Q) : M Kernel Z :=
  ev ← get_event e;
  if negb (OSEventType ev =? OS_EVENT_TYPE_Q) then mret OS_ERR_EVENT_TYPE else post_section e pmsg fill.

Definition OSQPost (e : nat) (pmsg : Z) : M Kernel Z := post_msg e pmsg put_msg.
Definition OSQPostFront (e : nat) (pmsg : Z) : M Kernel Z := post_msg e pmsg put_front.

(** The type of the event is not tested. *)
Definition OSQFlush (e : nat) : M Kernel Z :=
  ev ← get_event e;
  use_q ev (fun q => Some (OS_ERR_NONE, mkQ (OSQStart q) 0 0 (OSQSize q) 0)).

(** Both control blocks of a queue go back to their lists. *)
Definition free_q (ev : OS_EVENT) (e : nat) : M Kernel unit :=
  q ← access (fun _ => OSEventPtr ev);
  modify (fun k => set_q_free (q :: OSQFreeList k) k);;
  free_event e.

Definition OSQDel_section (e : nat) (opt : Z) : M Kernel (bool * Z) :=
  ev ← get_event e;
  let tasks_waiting := negb (Grp (OSEventWait ev) =? 0) in
  if opt =? OS_DEL_NO_PEND then
    if tasks_waiting then mret (false, OS_ERR_TASK_WAITING)
    else free_q ev e;; mret (true, OS_ERR_NONE)
  else if opt =? OS_DEL_ALWAYS then
    ready_all 65 e OS_STAT_Q;;
    free_q ev e;;
    (if tasks_waiting then OS_Sched else mret tt);;
    mret (true, OS_ERR_NONE)
  else mret (false, OS_ERR_INVALID_OPT).

Definition OSQDel (e : nat) (opt : Z) : M Kernel (bool * Z) :=
  ev ← get_event e;
  int ← gets OSIntNesting;
  if negb (OSEventType ev =? OS_EVENT_TYPE_Q) then mret (false, OS_ERR_EVENT_TYPE)
  else if 0 <? int then mret (false, OS_ERR_DEL_ISR)
  else OSQDel_section e opt.

(** * Start *)

(** After [OS_InitMisc], [OS_InitRdyList], [OS_InitTCBList],
    [OS_InitEventList] and [OS_QInit]. *)
Definition cleared : Kernel :=
  mkKernel no_bits ∅ [] (OS_MAX_TASKS + OS_N_SYS_TASKS)
    (replicate OS_MAX_EVENTS (mkEvent OS_EVENT_TYPE_UNUSED 0 None no_bits)) (seq 0 OS_MAX_EVENTS)
    (replicate OS_MAX_QS (mkQ [] 0 0 0 0)) (seq 0 OS_MAX_QS)
    0 0 0 0 false.

(** The idle and the statistics task.  The timer manager, which [OSInit] starts
    last, is part of the set-up below: two semaphores and a task. *)
Definition OSInit : M Kernel unit := fun _ =>
  (_ ← OSTaskCreate OS_TASK_IDLE_PRIO;
   _ ← OSTaskCreate OS_TASK_STAT_PRIO;
   mret tt) cleared.

Definition OSStart : M Kernel unit := fun k =>
  if OSRunning k then Done tt k else (switch;; modify (set_running true)) k.

(** What is made before the start, by the timer manager and by [main]. *)
Inductive Setup :=
  | SuTask (prio : Z)
  | SuSem (cnt : Z)
  | SuQueue (start : list Z) (size : Z).

Definition setup (x : Setup) : M Kernel unit :=
  match x with
  | SuTask prio => _ ← OSTaskCreate prio; mret tt
  | SuSem cnt => _ ← OSSemCreate cnt; mret tt
  | SuQueue start size => _ ← OSQCreate start size; mret tt
  end.

Definition setup_ok (x : Setup) : Prop :=
  match x with
  | SuTask prio => 0 <= prio < 64
  | SuSem cnt => 0 <= cnt < 65536
  | SuQueue start size => 0 <= size <= zlen start /\ size < 65536
  end.

#[export] Instance setup_ok_dec x : Decision (setup_ok x).
Proof. destruct x; simpl; apply _. Defined.

Fixpoint setups (l : list Setup) : M Kernel unit :=
  match l with
  | [] => mret tt
  | x :: l => setup x;; setups l
  end.

Definition boot (l : list Setup) : M Kernel unit := OSInit;; setups l;; OSStart.

(** * Runs

    What the tasks and the interrupts do: a call of the current task, the rest
    of a call when its task runs again, a tick, a post by an interrupt. *)
Inductive Call :=
  | CSemCreate (cnt : Z)
  | CSemPendCall (e : nat) (timeout : Z)
  | CSemPost (e : nat)
  | CSemAccept (e : nat)
  | CSemSet (e : nat) (cnt : Z)
  | CSemDel (e : nat) (opt : Z)
  | CQCreate (start : list Z) (size : Z)
  | CQPendCall (e : nat) (timeout : Z)
  | CQPost (e : nat) (msg : Z)
  | CQPostFront (e : nat) (msg : Z)
  | CQAccept (e : nat)
  | CQFlush (e : nat)
  | CQDel (e : nat) (opt : Z)
  | CTimeDly (ticks : Z)
  | CTimeGet
  | CTimeSet (ticks : Z)
  | CSchedLock
  | CSchedUnlock
  | CTaskCreate (prio : Z).

Inductive Input :=
  | ICall (c : Call)
  | IResume
  | ITick
  | IIsrSemPost (e : nat)
  | IIsrQPost (e : nat) (msg : Z).

#[export] Instance Call_eq_dec : EqDecision Call.
Proof. solve_decision. Defined.
#[export] Instance Input_eq_dec : EqDecision Input.
Proof. solve_decision. Defined.

Inductive Ret :=
  | RUnit
  | RErr (err : Z)
  | RVal (v : Z)
  | RMsg (msg err : Z)
  | RHandle (h : option nat)
  | RBlocked.

Definition call (c : Call) : M Kernel Ret :=
  match c with
  | CSemCreate cnt => h ← OSSemCreate cnt; mret (RHandle h)
  | CSemPendCall e t => r ← OSSemPend e t; mret (match r with Some err => RErr err | None => RBlocked end)
  | CSemPost e => err ← OSSemPost e; mret (RErr err)
  | CSemAccept e => v ← OSSemAccept e; mret (RVal v)
  | CSemSet e cnt => err ← OSSemSet e cnt; mret (RErr err)
  | CSemDel e opt => r ← OSSemDel e opt; mret (RErr r.2)
  | CQCreate start size => h ← OSQCreate start size; mret (RHandle h)
  | CQPendCall e t => r ← OSQPend e t; mret (match r with Some r => RMsg r.1 r.2 | None => RBlocked end)
  | CQPost e m => err ← OSQPost e m; mret (RErr err)
  | CQPostFront e m => err ← OSQPostFront e m; mret (RErr err)
  | CQAccept e => r ← OSQAccept e; mret (RMsg r.1 r.2)
  | CQFlush e => err ← OSQFlush e; mret (RErr err)
  | CQDel e opt => r ← OSQDel e opt; mret (RErr r.2)
  | CTimeDly t => OSTimeDly t;; mret RUnit
  | CTimeGet => v ← OSTimeGet; mret (RVal v)
  | CTimeSet t => OSTimeSet t;; mret RUnit
  | CSchedLock => OSSchedLock;; mret RUnit
  | CSchedUnlock => OSSchedUnlock;; mret RUnit
  | CTaskCreate p => err ← OSTaskCreate p; mret (RErr err)
  end.

Definition isr {A} (m : M Kernel A) : M Kernel A :=
  OSIntEnter;; a ← m; OSIntExit;; mret a.

Definition current : M Kernel OS_TCB := cur ← gets OSPrioCur; get_tcb cur.

Definition kstep (i : Input) : M Kernel Ret :=
  match i with
  | ICall c => call c
  | IResume =>
      t ← current;
      match OSTCBStk t with
      | CRun => mret RUnit
      | CSemPend e => err ← OSSemPend_return e; mret (RErr err)
      | CQPend e => r ← OSQPend_return e; mret (RMsg r.1 r.2)
      end
  | ITick => isr OSTimeTick;; mret RUnit
  | IIsrSemPost e => err ← isr (OSSemPost e); mret (RErr err)
  | IIsrQPost e m => err ← isr (OSQPost e m); mret (RErr err)
  end.

Definition events : nat -> Prop := fun e => (e < OS_MAX_EVENTS)%nat.

(** What a program must see to: handles are those of control blocks, only a
    queue is flushed, storage has the size given, the idle task does not
    block; and a task goes on where it was. *)
Definition call_ok (k : Kernel) (c : Call) : Prop :=
  match c with
  | CSemCreate n => 0 <= n < 65536
  | CSemSet e n => events e /\ 0 <= n < 65536
  | CSemPendCall e t | CQPendCall e t => events e /\ 0 <= t < 4294967296 /\ OSPrioCur k <> OS_TASK_IDLE_PRIO
  | CSemPost e | CSemAccept e | CQPost e _ | CQPostFront e _ | CQAccept e | CSemDel e _ | CQDel e _ => events e
  | CQFlush e => exists ev, OSEventTbl k !! e = Some ev /\ OSEventType ev = OS_EVENT_TYPE_Q
  | CQCreate start size => 0 <= size <= zlen start /\ size < 65536
  | CTimeDly t => 0 <= t < 4294967296 /\ OSPrioCur k <> OS_TASK_IDLE_PRIO
  | CTimeSet t => 0 <= t < 4294967296
  | CTaskCreate p => 0 <= p < 64
  | CTimeGet | CSchedLock | CSchedUnlock => True
  end.

Definition stk_of (k : Kernel) : option Context := OSTCBStk <$> OSTCBPrioTbl k !! OSPrioCur k.

Definition allowed (k : Kernel) (i : Input) : Prop :=
  match i with
  | ICall c => stk_of k = Some CRun /\ call_ok k c
  | IResume => stk_of k <> Some CRun
  | ITick => True
  | IIsrSemPost e | IIsrQPost e _ => events e
  end.

#[export] Instance Context_eq_dec : EqDecision Context.
Proof. solve_decision. Defined.

#[export] Instance call_ok_dec k c : Decision (call_ok k c).
Proof.
  unfold call_ok, events. destruct c as [| | | | | | | | | | |e| | | | | | |]; try apply _.
  destruct (OSEventTbl k !! e) as [ev|]; [|right; by intros (? & ? & _)].
  destruct (decide (OSEventType ev = OS_EVENT_TYPE_Q)); [left; by exists ev|right; intros (? & [= <-] & ?); done].
Defined.

#[export] Instance allowed_dec k i : Decision (allowed k i).
Proof. unfold allowed, events. destruct i; apply _. Defined.

(** A run: what each step returned, with the state it started from. *)
Inductive kruns : Kernel -> list (Kernel * Input * Ret) -> Kernel -> Prop :=
  | Kruns_nil k : kruns k [] k
  | Kruns_cons k i r k1 tr k2 : allowed k i -> kstep i k = Done r k1 -> kruns k1 tr k2 ->
      kruns k ((k, i, r) :: tr) k2.
