(* ===== verification/MsgQueue.v ===== *)
(** The storage of a message queue (uCOS-II/os_q.c) as a list of messages.

    [contents] reads the entries in the order they will be taken; [take_msg],
    [put_msg] and [put_front] act on it as on a list, and never leave the
    storage. *)
From S2P Require Import Prelude Kernel.
#[local] Open Scope Z_scope.

Definition q_ok (q : OS_Q) : Prop :=
  0 <= OSQEntries q <= OSQSize q /\ OSQSize q <= zlen (OSQStart q) /\
  (OSQSize q = 0 \/ 0 <= OSQOut q < OSQSize q /\ OSQIn q = (OSQOut q + OSQEntries q) mod OSQSize q).

(** The [i]-th message from the oldest. *)
Definition cell (q : OS_Q) (i : Z) : Z := nth (Z.to_nat ((OSQOut q + i) mod OSQSize q)) (OSQStart q) 0.

Definition contents (q : OS_Q) : list Z := cell q <$> seqZ 0 (OSQEntries q).

Lemma mod_wrap n x : 0 <= x < 2 * n -> x mod n = if x <? n then x else x - n.
Proof.
  intros Hx. destruct (Z.ltb_spec x n); [apply Z.mod_small; lia|].
  symmetry. apply (Z.mod_unique_pos _ _ 1); lia.
Qed.

(** The offset after one step forward. *)
Lemma wrap_next n i : 0 <= i < n -> (if i + 1 =? n then 0 else i + 1) = (i + 1) mod n.
Proof. intros Hi. rewrite mod_wrap by lia. zcases. Qed.

Lemma zlen_messages q : 0 <= OSQEntries q -> zlen (contents q) = OSQEntries q.
Proof. intros H. unfold zlen, contents. rewrite length_fmap, length_seqZ. lia. Qed.

Lemma seqZ_shift n : 0 <= n -> seqZ 0 (n + 1) = 0 :: (Z.add 1 <$> seqZ 0 n).
Proof. intros Hn. rewrite seqZ_cons by lia. rewrite Z.add_1_r, Z.pred_succ. by rewrite (fmap_add_seqZ 1 0). Qed.

Lemma contents_ext q1 q2 : OSQEntries q1 = OSQEntries q2 ->
  (forall i, 0 <= i < OSQEntries q2 -> cell q1 i = cell q2 i) -> contents q1 = contents q2.
Proof.
  intros E H. unfold contents. rewrite E. apply list_fmap_ext. intros j i Hi.
  apply H. apply lookup_seqZ in Hi. lia.
Qed.

(** A queue that starts one cell later, and the same queue. *)
Lemma contents_cons q q' m : 0 < OSQEntries q -> OSQEntries q' = OSQEntries q - 1 -> cell q 0 = m ->
  (forall i, 0 <= i < OSQEntries q' -> cell q (i + 1) = cell q' i) -> contents q = m :: contents q'.
Proof.
  intros Hn E <- H. unfold contents. rewrite E in *. replace (OSQEntries q) with (OSQEntries q - 1 + 1) at 1 by lia.
  rewrite seqZ_shift by lia. rewrite fmap_cons, <- list_fmap_compose. f_equal.
  apply list_fmap_ext. intros j i Hi. apply lookup_seqZ in Hi. unfold compose. rewrite Z.add_comm. apply H. lia.
Qed.

Lemma take_msg_ok q : q_ok q -> 0 < OSQEntries q ->
  exists m q', take_msg q = Some (m, q') /\ q_ok q' /\ contents q = m :: contents q' /\ OSQSize q' = OSQSize q.
Proof.
  intros (Hn & Hs & [?|(Ho & Hi)]) Hp; [lia|]. unfold take_msg.
  destruct (ld_is_Some (OSQStart q) (OSQOut q)) as [m Hm]; [lia|]. rewrite Hm. simpl. rewrite wrap_next by lia.
  do 2 eexists. split; [done|]. split; [|split; [|done]].
  - unfold q_ok. cbn. split; [lia|]. split; [done|]. right. split; [apply Z.mod_pos_bound; lia|].
    rewrite Hi, Zplus_mod_idemp_l. f_equal. lia.
  - apply contents_cons; cbn; [done|done| |].
    + unfold cell. rewrite Z.add_0_r, Z.mod_small by lia. unfold ld in Hm. rewrite (proj2 (Z.leb_le _ _)) in Hm by lia.
      by apply nth_lookup_Some.
    + intros i Hi'. unfold cell. cbn. rewrite Zplus_mod_idemp_l. do 2 f_equal. f_equal. lia.
Qed.

Lemma nth_insert (l : list Z) i j x : 0 <= i < zlen l -> 0 <= j ->
  nth (Z.to_nat j) (<[Z.to_nat i := x]> l) 0 = if j =? i then x else nth (Z.to_nat j) l 0.
Proof.
  intros Hi Hj. rewrite !nth_lookup. unfold zlen in Hi. destruct (Z.eqb_spec j i) as [-> |Hn].
  - by rewrite list_lookup_insert_eq by lia.
  - by rewrite list_lookup_insert_ne by lia.
Qed.

Lemma put_msg_ok q m : q_ok q -> OSQEntries q < OSQSize q ->
  exists q', put_msg m q = Some q' /\ q_ok q' /\ contents q' = contents q ++ [m] /\ OSQSize q' = OSQSize q.
Proof.
  intros (Hn & Hs & [?|(Ho & Hi)]) Hp; [lia|].
  assert (0 <= OSQIn q < OSQSize q) as Hin by (rewrite Hi; apply Z.mod_pos_bound; lia).
  unfold put_msg. rewrite st_insert by lia. simpl. rewrite wrap_next by lia.
  eexists. split; [done|]. split; [|split; [|done]].
  - unfold q_ok, zlen in *. cbn. rewrite length_insert. split; [lia|]. split; [lia|]. right. split; [done|].
    rewrite Hi, Zplus_mod_idemp_l. f_equal. lia.
  - unfold contents. cbn [OSQEntries]. rewrite seqZ_app by lia. rewrite fmap_app. f_equal.
    + apply list_fmap_ext. intros j i Hj. apply lookup_seqZ in Hj. unfold cell. cbn.
      rewrite nth_insert by (try apply Z.mod_pos_bound; lia). rewrite Hi.
      rewrite (proj2 (Z.eqb_neq _ _)); [done|]. rewrite !mod_wrap by lia. zcases.
    + rewrite seqZ_cons, seqZ_nil by lia. unfold cell. cbn. rewrite nth_insert by (try apply Z.mod_pos_bound; lia).
      by rewrite Hi, Z.eqb_refl.
Qed.

Lemma put_front_ok q m : q_ok q -> OSQEntries q < OSQSize q ->
  exists q', put_front m q = Some q' /\ q_ok q' /\ contents q' = m :: contents q /\ OSQSize q' = OSQSize q.
Proof.
  intros (Hn & Hs & [?|(Ho & Hi)]) Hp; [lia|].
  set (out := (if OSQOut q =? 0 then OSQSize q else OSQOut q) - 1).
  assert (0 <= out < OSQSize q) as Hout by (unfold out; zcases).
  assert ((out + 1) mod OSQSize q = OSQOut q) as Hnext by (rewrite mod_wrap by lia; unfold out; zcases).
  unfold put_front. fold out. rewrite st_insert by lia. simpl.
  eexists. split; [done|]. split; [|split; [|done]].
  - unfold q_ok, zlen in *. cbn. rewrite length_insert. split; [lia|]. split; [lia|]. right. split; [done|].
    rewrite Hi, <- Hnext, Zplus_mod_idemp_l. f_equal. lia.
  - apply contents_cons; cbn; [lia|lia| |].
    + unfold cell. cbn. rewrite nth_insert by (try apply Z.mod_pos_bound; lia). rewrite Z.add_0_r, Z.mod_small by lia.
      by rewrite Z.eqb_refl.
    + intros i Hi'. unfold cell. cbn. rewrite nth_insert by (try apply Z.mod_pos_bound; lia).
      rewrite <- Hnext, Zplus_mod_idemp_l. replace (out + (i + 1)) with (out + 1 + i) by lia.
      rewrite (proj2 (Z.eqb_neq _ _)); [done|]. rewrite mod_wrap by lia. zcases.
Qed.

Lemma flushed_ok q : q_ok q -> q_ok (mkQ (OSQStart q) 0 0 (OSQSize q) 0).
Proof. intros (Hn & Hs & _). unfold q_ok. cbn. rewrite Zmod_0_l. lia. Qed.

Lemma new_q_ok start size : 0 <= size <= zlen start -> q_ok (mkQ start 0 0 size 0).
Proof.
  intros H. unfold q_ok. cbn. destruct (Z.eq_dec size 0); [lia|]. rewrite Z.mod_0_l by lia. lia.
Qed.
