(* ===== verification/KernelInv.v ===== *)
(** The invariant of the kernel and that every step of tasks and interrupts
    keeps it.

    [core]: the ready list holds exactly the tasks that neither wait nor are
    delayed, every wait list exactly the tasks whose pend call is open on it,
    a semaphore with tokens or a queue with messages has nobody waiting, and
    the control blocks in use and free are disjoint.  [sched_ok]: the current
    task is ready, and the highest ready one unless the scheduler is locked. *)
From stdpp Require Import gmap.
From S2P Require Import Prelude ReadyList Kernel MsgQueue.
#[local] Open Scope Z_scope.

(** * Tasks *)

(** The pend call of a task is over: a post or a deletion has readied it. *)
Definition granted (t : OS_TCB) : bool := (OSTCBStat t =? 0) && (OSTCBStatPend t =? OS_STAT_PEND_OK).

(** The event whose wait list a task is in, with its type. *)
Definition waiting (t : OS_TCB) : option (nat * Z) :=
  match OSTCBStk t with
  | CRun => None
  | CSemPend e => if granted t then None else Some (e, OS_EVENT_TYPE_SEM)
  | CQPend e => if granted t then None else Some (e, OS_EVENT_TYPE_Q)
  end.

(** The status bit of a pend call. *)
Definition stat_of (c : Context) : Z :=
  match c with CRun => OS_STAT_RDY | CSemPend _ => OS_STAT_SEM | CQPend _ => OS_STAT_Q end.

Definition task_wf (t : OS_TCB) : Prop :=
  0 <= OSTCBDly t < 4294967296 /\
  match OSTCBStk t with
  | CRun => OSTCBStat t = OS_STAT_RDY
  | c => OSTCBStat t = stat_of c /\ OSTCBStatPend t = OS_STAT_PEND_OK \/
         OSTCBStat t = OS_STAT_RDY /\ OSTCBDly t = 0 /\
         (OSTCBStatPend t = OS_STAT_PEND_OK \/ OSTCBStatPend t = OS_STAT_PEND_TO)
  end.

Definition ready (t : OS_TCB) : Prop := OSTCBStat t = OS_STAT_RDY /\ OSTCBDly t = 0.

#[export] Instance ready_dec t : Decision (ready t).
Proof. unfold ready. apply _. Defined.

(** * Events *)

Definition ev_data (qs : list OS_Q) (ev : OS_EVENT) : Prop :=
  OSEventType ev = OS_EVENT_TYPE_UNUSED \/
  OSEventType ev = OS_EVENT_TYPE_SEM /\ 0 <= OSEventCnt ev < 65536 /\
    (0 < OSEventCnt ev -> Grp (OSEventWait ev) = 0) \/
  OSEventType ev = OS_EVENT_TYPE_Q /\ exists q qc, OSEventPtr ev = Some q /\ qs !! q = Some qc /\ q_ok qc /\
    (0 < OSQEntries qc -> Grp (OSEventWait ev) = 0).

(** The queue control block of an event. *)
Definition owns (ev : OS_EVENT) (q : nat) : Prop := OSEventType ev = OS_EVENT_TYPE_Q /\ OSEventPtr ev = Some q.

Definition listed (l : list Z) (tcbs : gmap Z OS_TCB) : Prop :=
  NoDup l /\ (forall p, p ∈ l <-> is_Some (tcbs !! p)) /\ exists l', l = l' ++ [OS_TASK_IDLE_PRIO].

Record core (k : Kernel) : Prop := {
  rdy_bits : bits_ok (OSRdy k);
  rdy_tasks : forall p, is_prio p -> in_list (OSRdy k) p <-> exists t, OSTCBPrioTbl k !! p = Some t /\ ready t;
  task_prio : forall p t, OSTCBPrioTbl k !! p = Some t -> is_prio p;
  task_ok : forall p t, OSTCBPrioTbl k !! p = Some t -> task_wf t;
  task_waits : forall p t e typ, OSTCBPrioTbl k !! p = Some t -> waiting t = Some (e, typ) ->
    exists ev, OSEventTbl k !! e = Some ev /\ OSEventType ev = typ;
  wait_bits : forall e ev, OSEventTbl k !! e = Some ev -> bits_ok (OSEventWait ev);
  wait_tasks : forall e ev p, OSEventTbl k !! e = Some ev -> is_prio p ->
    in_list (OSEventWait ev) p <-> exists t, OSTCBPrioTbl k !! p = Some t /\ waiting t = Some (e, OSEventType ev);
  event_data : forall e ev, OSEventTbl k !! e = Some ev -> ev_data (OSQTbl k) ev;
  q_owner : forall e1 e2 ev1 ev2 q, OSEventTbl k !! e1 = Some ev1 -> OSEventTbl k !! e2 = Some ev2 ->
    owns ev1 q -> owns ev2 q -> e1 = e2;
  q_free : forall e ev q, OSEventTbl k !! e = Some ev -> owns ev q -> q ∉ OSQFreeList k;
  event_count : length (OSEventTbl k) = OS_MAX_EVENTS;
  event_free : NoDup (OSEventFreeList k) /\ forall e, e ∈ OSEventFreeList k ->
    exists ev, OSEventTbl k !! e = Some ev /\ OSEventType ev = OS_EVENT_TYPE_UNUSED;
  q_count : length (OSQTbl k) = OS_MAX_QS;
  q_free_ok : NoDup (OSQFreeList k) /\ forall q, q ∈ OSQFreeList k -> (q < OS_MAX_QS)%nat;
  tcb_list : listed (OSTCBList k) (OSTCBPrioTbl k);
  idle_task : exists t, OSTCBPrioTbl k !! OS_TASK_IDLE_PRIO = Some t /\ ready t /\ OSTCBStk t = CRun
}.

Record sched_ok (k : Kernel) : Prop := {
  time_range : 0 <= OSTime k < 4294967296;
  not_nested : OSIntNesting k = 0;
  lock_range : 0 <= OSLockNesting k <= 255;
  running : OSRunning k = true;
  cur_prio : is_prio (OSPrioCur k);
  cur_ready : in_list (OSRdy k) (OSPrioCur k);
  cur_highest : OSLockNesting k = 0 -> OSPrioCur k = highest (OSRdy k);
  cur_locked : 0 < OSLockNesting k -> stk_of k = Some CRun
}.

Definition kinv (k : Kernel) : Prop := core k /\ sched_ok k.

(** * Updates of one task *)

(** The wait lists after the task [p] has become [t]. *)
Definition wait_update (p : Z) (t : OS_TCB) (qs : list OS_Q) (evs evs' : list OS_EVENT) : Prop :=
  length evs' = length evs /\
  forall e ev', evs' !! e = Some ev' -> exists ev, evs !! e = Some ev /\
    OSEventType ev' = OSEventType ev /\ OSEventPtr ev' = OSEventPtr ev /\ bits_ok (OSEventWait ev') /\
    (forall q, is_prio q -> q <> p -> in_list (OSEventWait ev') q <-> in_list (OSEventWait ev) q) /\
    (in_list (OSEventWait ev') p <-> waiting t = Some (e, OSEventType ev)) /\
    ev_data qs ev'.

Definition rdy_update (p : Z) (t : OS_TCB) (r r' : Bits) : Prop :=
  bits_ok r' /\ (forall q, is_prio q -> q <> p -> in_list r' q <-> in_list r q) /\ (in_list r' p <-> ready t).

Lemma lookup_same_length {A B} (l : list A) (l' : list B) i x : length l' = length l -> l !! i = Some x -> is_Some (l' !! i).
Proof. intros E H. apply lookup_lt_is_Some. rewrite E. by apply lookup_lt_Some in H. Qed.

Lemma core_update k p t r evs l free : core k -> is_prio p -> task_wf t ->
  rdy_update p t (OSRdy k) r -> wait_update p t (OSQTbl k) (OSEventTbl k) evs ->
  (forall e typ, waiting t = Some (e, typ) -> exists ev, OSEventTbl k !! e = Some ev /\ OSEventType ev = typ) ->
  listed l (<[p := t]> (OSTCBPrioTbl k)) ->
  (p = OS_TASK_IDLE_PRIO -> ready t /\ OSTCBStk t = CRun) ->
  core (set_rdy r (set_events evs (set_tcb_list l free (set_tcbs (<[p := t]> (OSTCBPrioTbl k)) k)))).
Proof.
  intros Hk Hp Ht (Hrb & Hrq & Hrp) (Hel & Hev) Hw Hl Hi.
  assert (Hold : forall e ev, OSEventTbl k !! e = Some ev -> exists ev', evs !! e = Some ev' /\ OSEventType ev' = OSEventType ev).
  { intros e ev He. destruct (lookup_same_length _ evs e ev Hel He) as [ev' He'].
    exists ev'. split; [done|]. destruct (Hev e ev' He') as (ev0 & E0 & -> & _). congruence. }
  assert (Hown : forall e ev' q, evs !! e = Some ev' -> owns ev' q -> exists ev, OSEventTbl k !! e = Some ev /\ owns ev q).
  { intros e ev' q He [Ht' Hq]. destruct (Hev e ev' He) as (ev & E & Et & Ep & _).
    exists ev. split; [done|]. split; congruence. }
  split; cbn.
  - done.
  - intros q Hq. destruct (decide (q = p)) as [-> |Hn].
    + rewrite Hrp, lookup_insert_eq. split; [by exists t|]. intros (? & [= <-] & ?). done.
    + rewrite Hrq, lookup_insert_ne by done. by apply rdy_tasks.
  - intros q t' Hq. destruct (decide (q = p)) as [-> |Hn]; [done|].
    rewrite lookup_insert_ne in Hq by done. by eapply task_prio.
  - intros q t' Hq. destruct (decide (q = p)) as [-> |Hn].
    + rewrite lookup_insert_eq in Hq. by injection Hq as <-.
    + rewrite lookup_insert_ne in Hq by done. by eapply task_ok.
  - intros q t' e typ Hq Hwt.
    assert (exists ev, OSEventTbl k !! e = Some ev /\ OSEventType ev = typ) as (ev & He & <-).
    { destruct (decide (q = p)) as [-> |Hn].
      - rewrite lookup_insert_eq in Hq. injection Hq as <-. by apply Hw.
      - rewrite lookup_insert_ne in Hq by done. by eapply task_waits. }
    by apply Hold.
  - intros e ev' He. by destruct (Hev e ev' He) as (? & _ & _ & _ & ? & _).
  - intros e ev' q He Hq. destruct (Hev e ev' He) as (ev & E & -> & _ & _ & Hoth & Hself & _).
    destruct (decide (q = p)) as [-> |Hn].
    + rewrite Hself, lookup_insert_eq. split; [by exists t|]. intros (? & [= <-] & ?). done.
    + rewrite Hoth, lookup_insert_ne by done. by apply wait_tasks.
  - intros e ev' He. by destruct (Hev e ev' He) as (? & _ & _ & _ & _ & _ & _ & ?).
  - intros e1 e2 ev1 ev2 q H1 H2 O1 O2.
    destruct (Hown e1 ev1 q H1 O1) as (? & ? & ?), (Hown e2 ev2 q H2 O2) as (? & ? & ?). by eapply q_owner.
  - intros e ev q He O. destruct (Hown e ev q He O) as (? & ? & ?). by eapply q_free.
  - rewrite Hel. by apply event_count.
  - destruct (event_free k Hk) as [Hnd Hfree]. split; [done|]. intros e He.
    destruct (Hfree e He) as (ev & Eev & <-). by apply Hold.
  - by apply q_count.
  - by apply q_free_ok.
  - done.
  - destruct (idle_task k Hk) as (t0 & E0 & H0). destruct (decide (p = OS_TASK_IDLE_PRIO)) as [Ep|Hn].
    + exists t. rewrite Ep, lookup_insert_eq. split; [done|]. by apply Hi.
    + exists t0. by rewrite lookup_insert_ne.
Qed.

Lemma wait_update_one k p t e ev ev' : core k -> OSEventTbl k !! e = Some ev ->
  OSEventType ev' = OSEventType ev -> OSEventPtr ev' = OSEventPtr ev -> bits_ok (OSEventWait ev') ->
  (forall q, is_prio q -> q <> p -> in_list (OSEventWait ev') q <-> in_list (OSEventWait ev) q) ->
  (in_list (OSEventWait ev') p <-> waiting t = Some (e, OSEventType ev)) ->
  ev_data (OSQTbl k) ev' ->
  (forall e2 ev2, e2 <> e -> OSEventTbl k !! e2 = Some ev2 ->
     in_list (OSEventWait ev2) p <-> waiting t = Some (e2, OSEventType ev2)) ->
  wait_update p t (OSQTbl k) (OSEventTbl k) (<[e := ev']> (OSEventTbl k)).
Proof.
  intros Hk He Ht Hp Hb Hoth Hself Hd Hne. split; [by rewrite length_insert|].
  intros e2 ev2 H2. destruct (decide (e2 = e)) as [-> |Hn].
  - rewrite list_lookup_insert_eq in H2 by by apply lookup_lt_Some in He. injection H2 as <-. by exists ev.
  - rewrite list_lookup_insert_ne in H2 by done. exists ev2.
    split_and!; try done; [by eapply wait_bits|by apply Hne|by eapply event_data].
Qed.

Lemma wait_update_none k p t : core k ->
  (forall e2 ev2, OSEventTbl k !! e2 = Some ev2 ->
     in_list (OSEventWait ev2) p <-> waiting t = Some (e2, OSEventType ev2)) ->
  wait_update p t (OSQTbl k) (OSEventTbl k) (OSEventTbl k).
Proof.
  intros Hk Hne. split; [done|]. intros e2 ev2 H2. exists ev2.
  split_and!; try done; [by eapply wait_bits|by apply Hne|by eapply event_data].
Qed.

Lemma listed_existing k p t t' : core k -> OSTCBPrioTbl k !! p = Some t ->
  listed (OSTCBList k) (<[p := t']> (OSTCBPrioTbl k)).
Proof.
  intros Hk Hp. destruct (tcb_list k Hk) as (Hnd & Hin & Hlast). split; [done|]. split; [|done].
  intros q. rewrite Hin. destruct (decide (q = p)) as [-> |Hn].
  - rewrite lookup_insert_eq, Hp. split; eauto.
  - by rewrite lookup_insert_ne.
Qed.

Lemma rdy_set k p t : core k -> is_prio p -> ready t -> rdy_update p t (OSRdy k) (set_prio p (OSRdy k)).
Proof.
  intros Hk Hp Ht. pose proof (rdy_bits k Hk). split; [by apply set_prio_ok|]. split.
  - intros q Hq Hn. rewrite in_set_prio by done. tauto.
  - rewrite in_set_prio by done. tauto.
Qed.

Lemma rdy_clear k p t : core k -> is_prio p -> ~ ready t -> rdy_update p t (OSRdy k) (clear_prio p (OSRdy k)).
Proof.
  intros Hk Hp Ht. pose proof (rdy_bits k Hk). split; [by apply clear_prio_ok|]. split.
  - intros q Hq Hn. rewrite in_clear_prio by done. tauto.
  - rewrite in_clear_prio by done. tauto.
Qed.

Lemma rdy_keep k p t t' : core k -> is_prio p -> OSTCBPrioTbl k !! p = Some t -> (ready t' <-> ready t) ->
  rdy_update p t' (OSRdy k) (OSRdy k).
Proof.
  intros Hk Hp Ht Hr. split; [by apply rdy_bits|]. split; [done|].
  rewrite (rdy_tasks k Hk) by done. rewrite Hr, Ht. split; [intros (? & [= <-] & ?)|]; eauto.
Qed.

(** The place of a task in the wait lists follows from its open call. *)
Lemma in_wait k p t e ev : core k -> OSTCBPrioTbl k !! p = Some t -> OSEventTbl k !! e = Some ev ->
  in_list (OSEventWait ev) p <-> waiting t = Some (e, OSEventType ev).
Proof.
  intros Hk Ht He. rewrite (wait_tasks k Hk e ev p He) by (by eapply task_prio).
  rewrite Ht. split; [by intros (? & [= <-] & ?)|eauto].
Qed.

(** The status bit that goes with a type. *)
Inductive typ_stat : Z -> Z -> Prop :=
  | Typ_sem : typ_stat OS_EVENT_TYPE_SEM OS_STAT_SEM
  | Typ_q : typ_stat OS_EVENT_TYPE_Q OS_STAT_Q.

Lemma waiting_stat t e typ : waiting t = Some (e, typ) -> typ_stat typ (stat_of (OSTCBStk t)).
Proof. unfold waiting. destruct (OSTCBStk t); [done|..]; case_match; intros [= <- <-]; constructor. Qed.

(** The state after the highest waiting task of [e] is readied with a message. *)
Definition grant (p : Z) (t : OS_TCB) (e : nat) (ev : OS_EVENT) (msg : Z) (k : Kernel) : Kernel :=
  set_rdy (set_prio p (OSRdy k))
    (set_events (<[e := set_wait (clear_prio p (OSEventWait ev)) ev]> (OSEventTbl k))
      (set_tcbs (<[p := mkTCB OS_STAT_RDY OS_STAT_PEND_OK 0 (OSTCBEventPtr t) msg (OSTCBStk t)]> (OSTCBPrioTbl k)) k)).

Lemma waiting_status t e typ : task_wf t -> waiting t = Some (e, typ) ->
  OSTCBStat t = stat_of (OSTCBStk t) /\ OSTCBStatPend t = OS_STAT_PEND_OK \/
  OSTCBStat t = OS_STAT_RDY /\ OSTCBDly t = 0 /\ OSTCBStatPend t = OS_STAT_PEND_TO.
Proof.
  intros [_ Hw] Ht. unfold waiting, granted in Ht. destruct (OSTCBStk t); [done|..];
    (destruct Hw as [Hw|(Es & Hd & [E|Hp])]; [by left|by rewrite Es, E in Ht|by right]).
Qed.

Lemma OS_EventTaskRdy_grants k e ev stat msg : core k -> OSEventTbl k !! e = Some ev -> Grp (OSEventWait ev) <> 0 ->
  typ_stat (OSEventType ev) stat ->
  exists p t, OSTCBPrioTbl k !! p = Some t /\ p = highest (OSEventWait ev) /\ waiting t = Some (e, OSEventType ev) /\
    OS_EventTaskRdy e msg stat OS_STAT_PEND_OK k = Done p (grant p t e ev msg k).
Proof.
  intros Hk He Hg Hts. destruct (highest_spec _ (wait_bits k Hk e ev He) Hg) as (Hp & Hin & _).
  set (p := highest (OSEventWait ev)) in *.
  destruct (proj1 (wait_tasks k Hk e ev p He Hp) Hin) as (t & Ht & Hw). exists p, t. split_and!; [done..|].
  assert (Z.land (OSTCBStat t) (u8 (Z.lnot stat)) = 0) as Hs.
  { destruct (waiting_status t e _ (task_ok k Hk p t Ht) Hw) as [[-> _]|(-> & _)]; [|done].
    pose proof (waiting_stat t e _ Hw) as H1. inversion Hts as [E|E]; rewrite <- E in H1; inversion H1; done. }
  unfold OS_EventTaskRdy. rewrite (bind_done _ _ k ev k) by (unfold get_event, access; by rewrite He). fold p.
  rewrite (bind_done _ _ k t k) by (unfold get_tcb, access; by rewrite Ht).
  cbv zeta. rewrite Hs. change (Z.land 0 OS_STAT_SUSPEND =? OS_STAT_RDY) with true. cbv iota.
  unfold grant, OS_EventTaskRemove, get_event, put_event, put_tcb, change_rdy, modify, access. unfold mbind, M_bind, mret, M_ret.
  cbn [OSEventTbl set_rdy set_tcbs]. by rewrite He.
Qed.

Lemma core_grant k p t e ev msg : core k -> OSEventTbl k !! e = Some ev -> Grp (OSEventWait ev) <> 0 ->
  OSTCBPrioTbl k !! p = Some t -> waiting t = Some (e, OSEventType ev) -> core (grant p t e ev msg k).
Proof.
  intros Hk He Hg Ht Hw. pose proof (task_prio k Hk p t Ht) as Hp.
  set (t' := mkTCB OS_STAT_RDY OS_STAT_PEND_OK 0 (OSTCBEventPtr t) msg (OSTCBStk t)).
  assert (waiting t' = None) as Hn by (unfold waiting, t'; by destruct (OSTCBStk t)).
  assert (ready t') as Hr by done. pose proof (wait_bits k Hk e ev He) as Hb.
  replace (grant p t e ev msg k) with (set_rdy (set_prio p (OSRdy k))
    (set_events (<[e := set_wait (clear_prio p (OSEventWait ev)) ev]> (OSEventTbl k))
      (set_tcb_list (OSTCBList k) (OSTCBFree k) (set_tcbs (<[p := t']> (OSTCBPrioTbl k)) k)))) by done.
  apply core_update; try done.
  - split; [cbn; lia|]. cbn. unfold waiting in Hw. destruct (OSTCBStk t); [done|by right; auto..].
  - by apply rdy_set.
  - apply (wait_update_one k p t' e ev); try done.
    + by apply clear_prio_ok.
    + intros q Hq Hne. cbn. rewrite in_clear_prio by done. tauto.
    + cbn. rewrite in_clear_prio, Hn by done. split; [by intros []|done].
    + destruct (event_data k Hk e ev He) as [Hu|[(H1 & H2 & H3)|(H1 & q & qc & H2 & H3 & H4 & H5)]].
      * by left.
      * right. left. split; [done|]. split; [done|]. intros Hc. by destruct Hg, (H3 Hc).
      * right. right. split; [done|]. exists q, qc. split; [done|]. split; [done|]. split; [done|]. intros Hc. by destruct Hg, (H5 Hc).
    + intros e2 ev2 Hne He2. rewrite (in_wait k p t e2 ev2), Hw, Hn by done. split; [|done]. congruence.
  - intros e2 typ. by rewrite Hn.
  - by eapply listed_existing.
  - intros ->. destruct (idle_task k Hk) as (t0 & E0 & _ & E1). rewrite E0 in Ht. injection Ht as <-.
    unfold waiting in Hw. by rewrite E1 in Hw.
Qed.

(** * Steps up to the scheduler *)

Definition same_sched (k k1 : Kernel) : Prop :=
  OSTime k1 = OSTime k /\ OSPrioCur k1 = OSPrioCur k /\ OSIntNesting k1 = OSIntNesting k /\
  OSLockNesting k1 = OSLockNesting k /\ OSRunning k1 = OSRunning k.

(** Tasks are readied, none is stopped, and each goes on where it was. *)
Record adv (k k1 : Kernel) : Prop := {
  adv_core : core k1;
  adv_sched : same_sched k k1;
  adv_ready : forall p, is_prio p -> in_list (OSRdy k) p -> in_list (OSRdy k1) p;
  adv_stk : forall p t, OSTCBPrioTbl k !! p = Some t -> exists t1, OSTCBPrioTbl k1 !! p = Some t1 /\ OSTCBStk t1 = OSTCBStk t
}.

Lemma adv_refl k : core k -> adv k k.
Proof. intros Hk. split; [done|done|done|eauto]. Qed.

Lemma adv_trans k k1 k2 : adv k k1 -> adv k1 k2 -> adv k k2.
Proof.
  intros [C1 (T1 & P1 & I1 & L1 & R1) D1 S1] [C2 (T2 & P2 & I2 & L2 & R2) D2 S2].
  split; [done| |by auto|].
  - split_and!; congruence.
  - intros p t Ht. destruct (S1 p t Ht) as (t1 & H1 & E1). destruct (S2 p t1 H1) as (t2 & H2 & E2).
    exists t2. split; [done|congruence].
Qed.

Lemma rdy_nonempty k : core k -> Grp (OSRdy k) <> 0.
Proof.
  intros Hk E. destruct (idle_task k Hk) as (t & Ht & Hr & _).
  pose proof (task_prio k Hk _ t Ht) as Hp.
  apply (proj1 (grp_zero _ (rdy_bits k Hk)) E OS_TASK_IDLE_PRIO Hp). apply rdy_tasks; eauto.
Qed.

Lemma core_cur k p : core k -> core (set_cur p k).
Proof. by intros []; split. Qed.

Lemma core_nesting k i l : core k -> core (set_nesting i l k).
Proof. by intros []; split. Qed.

Lemma core_time k t : core k -> core (set_time t k).
Proof. by intros []; split. Qed.

(** The switch makes the highest ready task current. *)
Lemma switch_ok k : core k -> switch k = Done tt (set_cur (highest (OSRdy k)) k).
Proof.
  intros Hk. destruct (highest_spec _ (rdy_bits k Hk) (rdy_nonempty k Hk)) as (Hp & Hin & _).
  apply (rdy_tasks k Hk _ Hp) in Hin as (t & Ht & _).
  unfold switch, gets, get_tcb, access, modify, mbind, M_bind. by rewrite Ht.
Qed.

Lemma switched_kinv k : core k -> 0 <= OSTime k < 4294967296 -> OSIntNesting k = 0 -> OSLockNesting k = 0 ->
  OSRunning k = true -> kinv (set_cur (highest (OSRdy k)) k).
Proof.
  intros Hk Ht Hi Hl Hr. destruct (highest_spec _ (rdy_bits k Hk) (rdy_nonempty k Hk)) as (Hp & Hin & _).
  split; [by apply core_cur|]. split; cbn; try done; [by rewrite Hl|rewrite Hl; lia].
Qed.

Lemma OS_Sched_switches k k1 : kinv k -> core k1 -> same_sched k k1 -> OSLockNesting k = 0 ->
  exists k2, OS_Sched k1 = Done tt k2 /\ kinv k2.
Proof.
  intros [_ Hs] H1 (T & P & I & L & R) Hl. destruct Hs. unfold OS_Sched.
  rewrite I, L, not_nested0, Hl. change ((0 =? 0) && (0 =? 0)) with true. cbv iota.
  rewrite switch_ok by done. eexists. split; [done|]. apply switched_kinv; [done|lia|lia|lia|congruence].
Qed.

Lemma OS_Sched_ok k k1 : kinv k -> adv k k1 -> exists k2, OS_Sched k1 = Done tt k2 /\ kinv k2.
Proof.
  intros Hk [H1 Hsame Hrdy Hstk]. destruct (Z.eq_dec (OSLockNesting k) 0) as [Hl|Hl];
    [by eapply OS_Sched_switches|].
  destruct Hk as [Hc Hs]. destruct Hsame as (T & P & I & L & R). destruct Hs. exists k1.
  split; [unfold OS_Sched; rewrite I, L, not_nested0; by rewrite (proj2 (Z.eqb_neq _ _) Hl)|].
  split; [done|]. split; rewrite ?T, ?P, ?I, ?L, ?R; auto; [lia|].
  intros Hlock. specialize (cur_locked0 Hlock). unfold stk_of in *. rewrite P.
  destruct (OSTCBPrioTbl k !! OSPrioCur k) as [t|] eqn:E; [|done].
  destruct (Hstk _ t E) as (t1 & -> & E1). simpl in *. by rewrite E1.
Qed.

(** Nothing was readied: the current task stays current. *)
Lemma kinv_adv k k1 : kinv k -> adv k k1 -> OSRdy k1 = OSRdy k -> kinv k1.
Proof.
  intros Hk Ha Hr. destruct (OS_Sched_ok k k1 Hk Ha) as (k2 & E & H2). destruct Hk as [Hc Hs], Ha as [H1 (T & P & I & L & R) _ _].
  destruct Hs. unfold OS_Sched in E. rewrite I, L, not_nested0 in E.
  destruct (Z.eqb_spec (OSLockNesting k) 0) as [Hl|Hl].
  - change ((0 =? 0) && true) with true in E. cbv iota in E. rewrite switch_ok in E by done. injection E as <-.
    rewrite Hr, <- cur_highest0, <- P in H2 by done. destruct k1; exact H2.
  - change ((0 =? 0) && false) with false in E. cbv iota in E. by injection E as <-.
Qed.

(** * Updates of the control blocks *)

(** What [core] says of events and queues without looking at tasks. *)
Record tables_ok (evs : list OS_EVENT) (efree : list nat) (qs : list OS_Q) (qfree : list nat) : Prop := {
  t_data : forall e ev, evs !! e = Some ev -> ev_data qs ev;
  t_owner : forall e1 e2 ev1 ev2 q, evs !! e1 = Some ev1 -> evs !! e2 = Some ev2 -> owns ev1 q -> owns ev2 q -> e1 = e2;
  t_free : forall e ev q, evs !! e = Some ev -> owns ev q -> q ∉ qfree;
  t_events : length evs = OS_MAX_EVENTS;
  t_efree : NoDup efree /\ forall e, e ∈ efree -> exists ev, evs !! e = Some ev /\ OSEventType ev = OS_EVENT_TYPE_UNUSED;
  t_qs : length qs = OS_MAX_QS;
  t_qfree : NoDup qfree /\ forall q, q ∈ qfree -> (q < OS_MAX_QS)%nat
}.

Lemma core_tables k : core k -> tables_ok (OSEventTbl k) (OSEventFreeList k) (OSQTbl k) (OSQFreeList k).
Proof. by intros []. Qed.

(** The same tasks wait, and the type of an event with waiting tasks stays. *)
Definition waits_kept (evs evs' : list OS_EVENT) : Prop :=
  length evs' = length evs /\
  forall e ev', evs' !! e = Some ev' -> exists ev, evs !! e = Some ev /\ bits_ok (OSEventWait ev') /\
    (forall p, is_prio p -> in_list (OSEventWait ev') p <-> in_list (OSEventWait ev) p) /\
    (OSEventType ev' = OSEventType ev \/ Grp (OSEventWait ev) = 0).

Definition with_tables (evs : list OS_EVENT) (efree : list nat) (qs : list OS_Q) (qfree : list nat) (k : Kernel) : Kernel :=
  set_q_free qfree (set_qs qs (set_event_free efree (set_events evs k))).

Lemma core_with_tables k evs efree qs qfree : core k -> waits_kept (OSEventTbl k) evs -> tables_ok evs efree qs qfree ->
  core (with_tables evs efree qs qfree k).
Proof.
  intros Hk (Hl & Hw) [].
  assert (Htyp : forall e ev ev' p t, OSEventTbl k !! e = Some ev -> evs !! e = Some ev' -> is_prio p ->
    OSTCBPrioTbl k !! p = Some t -> waiting t = Some (e, OSEventType ev) -> OSEventType ev' = OSEventType ev).
  { intros e ev ev' p t He He' Hp Ht Hwt. destruct (Hw e ev' He') as (ev0 & E0 & _ & _ & [?|Hg]); [congruence|].
    rewrite He in E0. injection E0 as <-. apply (in_wait k p t e ev Hk Ht He) in Hwt.
    by apply (proj1 (grp_zero _ (wait_bits k Hk e ev He)) Hg) in Hwt. }
  split; cbn; try done; try by apply Hk.
  - intros p t e typ Ht Hwt. destruct (task_waits k Hk p t e typ Ht Hwt) as (ev & He & <-).
    destruct (lookup_same_length (OSEventTbl k) evs e ev Hl He) as [ev' He']. exists ev'. split; [done|].
    eapply Htyp; [done|done|by eapply task_prio|done|done].
  - intros e ev' He'. by destruct (Hw e ev' He') as (? & _ & ? & _).
  - intros e ev' p He' Hp. destruct (Hw e ev' He') as (ev & He & _ & Hin & Htypes).
    rewrite Hin, (wait_tasks k Hk e ev p He Hp) by done. split; intros (t & Ht & Hwt); exists t; (split; [done|]).
    + by rewrite (Htyp e ev ev' p t).
    + destruct Htypes as [<-|Hg]; [done|].
      destruct (task_waits k Hk p t e _ Ht Hwt) as (ev0 & E0 & E1). rewrite He in E0. injection E0 as <-.
      rewrite <- E1 in Hwt. done.
Qed.

Lemma adv_tables k evs efree qs qfree : core k -> waits_kept (OSEventTbl k) evs -> tables_ok evs efree qs qfree ->
  adv k (with_tables evs efree qs qfree k).
Proof. intros. split; [by apply core_with_tables|done|done|eauto]. Qed.

(** One event replaced by one with the same wait list. *)
Lemma waits_kept_one k e ev ev' : core k -> OSEventTbl k !! e = Some ev ->
  bits_ok (OSEventWait ev') -> (forall p, is_prio p -> in_list (OSEventWait ev') p <-> in_list (OSEventWait ev) p) ->
  (OSEventType ev' = OSEventType ev \/ Grp (OSEventWait ev) = 0) ->
  waits_kept (OSEventTbl k) (<[e := ev']> (OSEventTbl k)).
Proof.
  intros Hk He Hb Hin Ht. split; [by rewrite length_insert|]. intros e2 ev2 H2.
  destruct (decide (e2 = e)) as [-> |Hn].
  - rewrite list_lookup_insert_eq in H2 by by apply lookup_lt_Some in He. injection H2 as <-. by exists ev.
  - rewrite list_lookup_insert_ne in H2 by done. exists ev2. split_and!; try done; [by eapply wait_bits|by left].
Qed.

Lemma lookup_insert_cases {A} (l : list A) i x j y : <[i := x]> l !! j = Some y -> j = i /\ y = x \/ j <> i /\ l !! j = Some y.
Proof. intros H. apply list_lookup_insert_Some in H as [(-> & -> & _)|(Hn & H)]; [by left|right]. split; congruence. Qed.

(** ... of the same type, with the same queue control block. *)
Lemma tables_same_owner k e ev ev' : core k -> OSEventTbl k !! e = Some ev ->
  OSEventType ev' = OSEventType ev -> OSEventPtr ev' = OSEventPtr ev -> ev_data (OSQTbl k) ev' ->
  tables_ok (<[e := ev']> (OSEventTbl k)) (OSEventFreeList k) (OSQTbl k) (OSQFreeList k).
Proof.
  intros Hk He Ht Hp Hd. destruct (core_tables k Hk) as [D O F L E Q R].
  assert (Hown : forall q, owns ev' q -> owns ev q) by (intros q []; split; congruence).
  assert (Hown2 : forall e2 ev2 q, <[e := ev']> (OSEventTbl k) !! e2 = Some ev2 -> owns ev2 q ->
    exists ev0, OSEventTbl k !! e2 = Some ev0 /\ owns ev0 q).
  { intros e2 ev2 q H2 Ho. destruct (lookup_insert_cases _ _ _ _ _ H2) as [[-> ->]|[_ H]]; eauto. }
  split; try done.
  - intros e2 ev2 H2. destruct (lookup_insert_cases _ _ _ _ _ H2) as [[-> ->]|[_ H]]; [done|by eapply D].
  - intros e1 e2 ev1 ev2 q H1 H2 O1 O2. destruct (Hown2 _ _ _ H1 O1) as (? & ? & ?), (Hown2 _ _ _ H2 O2) as (? & ? & ?). by eapply O.
  - intros e2 ev2 q H2 Ho. destruct (Hown2 _ _ _ H2 Ho) as (? & ? & ?). by eapply F.
  - by rewrite length_insert.
  - destruct E as [E1 E2]. split; [done|]. intros e2 H2. destruct (E2 e2 H2) as (ev2 & H3 & H4).
    destruct (decide (e2 = e)) as [-> |Hn].
    + exists ev'. rewrite list_lookup_insert_eq by by apply lookup_lt_Some in He. split; [done|]. congruence.
    + exists ev2. by rewrite list_lookup_insert_ne.
Qed.

Lemma with_events k evs : with_tables evs (OSEventFreeList k) (OSQTbl k) (OSQFreeList k) k = set_events evs k.
Proof. by destruct k. Qed.

(** The count of a semaphore changes. *)
Lemma adv_set_cnt k e ev n : core k -> OSEventTbl k !! e = Some ev -> OSEventType ev = OS_EVENT_TYPE_SEM ->
  0 <= n < 65536 -> (0 < n -> Grp (OSEventWait ev) = 0) ->
  adv k (set_events (<[e := set_cnt n ev]> (OSEventTbl k)) k).
Proof.
  intros Hk He Ht Hn Hg. rewrite <- with_events. pose proof (wait_bits k Hk e ev He). apply adv_tables; [done| |].
  - apply (waits_kept_one k e ev); [done|done|done|done|by left].
  - apply (tables_same_owner k e ev); [done..|]. right. left. done.
Qed.

(** * What a step leaves alone *)

(** A task is as before, or its pend call on an event of [T] has been granted. *)
Definition task_adv (T : nat -> Prop) (t t1 : OS_TCB) : Prop :=
  t1 = t \/ exists e typ msg, T e /\ waiting t = Some (e, typ) /\
    t1 = mkTCB OS_STAT_RDY OS_STAT_PEND_OK 0 (OSTCBEventPtr t) msg (OSTCBStk t).

(** Only the events of [T] and unused ones have changed, and their queues;
    only tasks that waited for an event of [T] have been readied. *)
Record frame (T : nat -> Prop) (k k1 : Kernel) : Prop := {
  frame_task : forall p t, OSTCBPrioTbl k !! p = Some t ->
    exists t1, OSTCBPrioTbl k1 !! p = Some t1 /\ task_adv T t t1;
  frame_new : forall p t1, OSTCBPrioTbl k !! p = None -> OSTCBPrioTbl k1 !! p = Some t1 -> OSTCBStk t1 = CRun;
  frame_event : forall e ev, ~ T e -> OSEventTbl k !! e = Some ev -> OSEventType ev <> OS_EVENT_TYPE_UNUSED ->
    OSEventTbl k1 !! e = Some ev /\ forall q, owns ev q -> OSQTbl k1 !! q = OSQTbl k !! q
}.

Lemma task_adv_stk T t t1 : task_adv T t t1 -> OSTCBStk t1 = OSTCBStk t.
Proof. by intros [-> |(e & typ & msg & _ & _ & ->)]. Qed.

Lemma frame_refl T k : frame T k k.
Proof. split; [intros p t Ht; exists t; split; [done|by left]|congruence|done]. Qed.

Lemma frame_trans T k k1 k2 : frame T k k1 -> frame T k1 k2 -> frame T k k2.
Proof.
  intros [A1 B1 C1] [A2 B2 C2]. split.
  - intros p t Ht. destruct (A1 p t Ht) as (t1 & H1 & E1), (A2 p t1 H1) as (t2 & H2 & E2). exists t2. split; [done|].
    destruct E2 as [-> |(e & typ & msg & HT & Hw & E2)]; [done|]. destruct E1 as [-> |(e1 & typ1 & msg1 & HT1 & Hw1 & ->)].
    + right. by exists e, typ, msg.
    + by destruct (OSTCBStk t) eqn:Es in Hw; unfold waiting, granted in Hw; cbn in Hw.
  - intros p t2 Hn H2. destruct (OSTCBPrioTbl k1 !! p) as [t1|] eqn:H1; [|by eapply B2].
    destruct (A2 p t1 H1) as (t2' & H2' & E). rewrite H2' in H2. injection H2 as ->.
    rewrite (task_adv_stk T t1 t2 E). by eapply B1.
  - intros e ev HT He Hu. destruct (C1 e ev HT He Hu) as [H1 Q1], (C2 e ev HT H1 Hu) as [H2 Q2].
    split; [done|]. intros q Ho. by rewrite Q2, Q1.
Qed.

Lemma frame_tables (T : nat -> Prop) k evs efree qs qfree :
  (forall e ev, ~ T e -> OSEventTbl k !! e = Some ev -> OSEventType ev <> OS_EVENT_TYPE_UNUSED ->
    evs !! e = Some ev /\ forall q, owns ev q -> qs !! q = OSQTbl k !! q) ->
  frame T k (with_tables evs efree qs qfree k).
Proof. intros H. split; [intros p t Ht; exists t; split; [done|by left]|cbn; congruence|done]. Qed.

Lemma frame_grant (T : nat -> Prop) k p t e ev msg : T e -> OSTCBPrioTbl k !! p = Some t ->
  waiting t = Some (e, OSEventType ev) -> OSEventTbl k !! e = Some ev -> frame T k (grant p t e ev msg k).
Proof.
  intros HT Ht Hw He. split; cbn.
  - intros q t0 Hq. destruct (decide (q = p)) as [-> |Hn].
    + rewrite lookup_insert_eq. eexists. split; [done|]. right. rewrite Ht in Hq. injection Hq as ->. by exists e, (OSEventType ev), msg.
    + rewrite lookup_insert_ne by done. exists t0. split; [done|by left].
  - intros q t1 Hq. rewrite lookup_insert_ne by (intros ->; congruence). congruence.
  - intros e2 ev2 HT2 H2 _. split; [|done]. rewrite list_lookup_insert_ne; [done|]. by intros ->.
Qed.

(** Both together. *)
Definition advT (T : nat -> Prop) (k k1 : Kernel) : Prop := adv k k1 /\ frame T k k1.

Lemma advT_refl T k : core k -> advT T k k.
Proof. intros Hk. split; [by apply adv_refl|apply frame_refl]. Qed.

Lemma advT_trans T k k1 k2 : advT T k k1 -> advT T k1 k2 -> advT T k k2.
Proof. intros [] []. split; [by eapply adv_trans|by eapply frame_trans]. Qed.

(** The pend call that a task is in, if any. *)
Definition pends_on (t : OS_TCB) (e : nat) : Prop := OSTCBStk t = CSemPend e \/ OSTCBStk t = CQPend e.

Definition in_calls (T : nat -> Prop) (t : OS_TCB) : Prop := OSTCBStk t = CRun \/ exists e, T e /\ pends_on t e.

(** The current task has stopped itself or gone on from where it stopped; the
    other tasks are as they were, and so are the events but for their wait lists. *)
Record self_frame (T : nat -> Prop) (k k1 : Kernel) : Prop := {
  self_before : exists t, OSTCBPrioTbl k !! OSPrioCur k = Some t /\ in_calls T t;
  self_after : exists t1, OSTCBPrioTbl k1 !! OSPrioCur k = Some t1 /\ in_calls T t1;
  self_others : forall p, p <> OSPrioCur k -> OSTCBPrioTbl k1 !! p = OSTCBPrioTbl k !! p;
  self_event : forall e ev, OSEventTbl k !! e = Some ev -> exists w, OSEventTbl k1 !! e = Some (set_wait w ev);
  self_queues : OSQTbl k1 = OSQTbl k
}.

(** What a step other than the tick leaves behind when it touches the events of [T]. *)
Definition stepped (T : nat -> Prop) (k k1 : Kernel) : Prop := kinv k1 /\ (frame T k k1 \/ self_frame T k k1).

Definition same_tables (k k1 : Kernel) : Prop :=
  OSTCBPrioTbl k1 = OSTCBPrioTbl k /\ OSEventTbl k1 = OSEventTbl k /\ OSQTbl k1 = OSQTbl k.

Lemma frame_same T k k1 k2 : same_tables k1 k2 -> frame T k k1 -> frame T k k2.
Proof. intros (E1 & E2 & E3) []. split; rewrite ?E1, ?E2, ?E3; done. Qed.

Lemma self_frame_same T k k1 k2 : same_tables k1 k2 -> self_frame T k k1 -> self_frame T k k2.
Proof. intros (E1 & E2 & E3) []. split; rewrite ?E1, ?E2, ?E3; done. Qed.

(** The scheduler changes no table. *)
Lemma OS_Sched_same k k1 : OS_Sched k = Done tt k1 -> same_tables k k1.
Proof.
  unfold OS_Sched. case_match; [|by intros [= <-]].
  unfold switch, gets, get_tcb, access, modify, mbind, M_bind. case_match; [|done..].
  case_match; [|done]. simplify_eq. by intros [= <-].
Qed.
