(* ===== verification/KernelStep.v ===== *)
(** No step of a task or an interrupt crashes the kernel, and each keeps its
    invariant: one lemma per service, then the step and the start. *)
From stdpp Require Import gmap.
From S2P Require Import Prelude ReadyList Kernel MsgQueue KernelInv.
#[local] Open Scope Z_scope.

(** [kreadq] reads the queue of an event. *)
Ltac kreadq Hp Hq :=
  apply wpe_bind; apply wpe_access; rewrite Hp; eexists; split; [exact Hq|]; cbv beta.

(** * Grants *)

Lemma adv_grant k p t e ev msg : core k -> OSEventTbl k !! e = Some ev -> Grp (OSEventWait ev) <> 0 ->
  OSTCBPrioTbl k !! p = Some t -> waiting t = Some (e, OSEventType ev) -> adv k (grant p t e ev msg k).
Proof.
  intros Hk He Hg Ht Hw. pose proof (task_prio k Hk p t Ht) as Hp. split; [by apply core_grant|done| |].
  - intros q Hq Hin. cbn. rewrite in_set_prio by (done || apply rdy_bits, Hk). by right.
  - intros q t0 Hq. cbn. destruct (decide (q = p)) as [-> |Hn].
    + rewrite lookup_insert_eq. rewrite Hq in Ht. injection Ht as ->. by eexists.
    + rewrite lookup_insert_ne by done. eauto.
Qed.

Lemma Rdy_runs (T : nat -> Prop) k e ev stat msg : T e -> core k -> OSEventTbl k !! e = Some ev -> Grp (OSEventWait ev) <> 0 ->
  typ_stat (OSEventType ev) stat -> runs (OS_EventTaskRdy e msg stat OS_STAT_PEND_OK) k (fun _ k1 => advT T k k1 /\
    OSEventTbl k1 !! e = Some (set_wait (clear_prio (highest (OSEventWait ev)) (OSEventWait ev)) ev) /\
    OSEventFreeList k1 = OSEventFreeList k /\ OSQTbl k1 = OSQTbl k /\ OSQFreeList k1 = OSQFreeList k).
Proof.
  intros HT Hk He Hg Hts. destruct (OS_EventTaskRdy_grants k e ev stat msg Hk He Hg Hts) as (p & t & Ht & -> & Hw & E).
  eapply wpe_done; [exact E|]. split; [split; [by apply adv_grant|by apply frame_grant]|]. split; [|done].
  apply list_lookup_insert_eq. by apply lookup_lt_Some in He.
Qed.

(** ** The loop of a deletion *)

(** How many tasks wait. *)
Definition waiters (b : Bits) : nat := length (filter (fun p => is_prio p /\ in_list b p) (seqZ 0 64)).

Lemma filter_shorter {A} (P Q : A -> Prop) `{!forall x, Decision (P x), !forall x, Decision (Q x)} l a :
  (forall x, Q x -> P x) -> a ∈ l -> P a -> ~ Q a -> (length (filter Q l) < length (filter P l))%nat.
Proof.
  intros Himp Hin Ha Hn. rewrite <- (list_filter_filter_l Q P) by done.
  apply (length_filter_lt _ _ a); [|done]. by apply list_elem_of_filter.
Qed.

Lemma clear_highest_shorter b : bits_ok b -> Grp b <> 0 -> (waiters (clear_prio (highest b) b) < waiters b)%nat.
Proof.
  intros Hb Hg. destruct (highest_spec b Hb Hg) as (Hp & Hin & _). apply (filter_shorter _ _ _ (highest b)).
  - intros p [Hp' H]. by apply in_clear_prio in H as [_ H].
  - apply elem_of_seqZ. unfold is_prio in Hp. lia.
  - done.
  - rewrite in_clear_prio by done. by intros (_ & [] & _).
Qed.

Lemma waiters_bound b : (waiters b <= 64)%nat.
Proof.
  unfold waiters. etransitivity; [apply length_filter|]. by rewrite length_seqZ.
Qed.

Lemma ready_all_runs (T : nat -> Prop) e (HT : T e) fuel : forall k ev stat, core k -> OSEventTbl k !! e = Some ev -> typ_stat (OSEventType ev) stat ->
  (waiters (OSEventWait ev) < fuel)%nat -> runs (ready_all fuel e stat) k (fun _ k1 => advT T k k1 /\
    (exists w, OSEventTbl k1 !! e = Some (set_wait w ev) /\ Grp w = 0) /\
    OSEventFreeList k1 = OSEventFreeList k /\ OSQTbl k1 = OSQTbl k /\ OSQFreeList k1 = OSQFreeList k).
Proof.
  induction fuel as [|fuel IH]; intros k ev stat Hk He Hts Hf; [lia|]. simpl. kread He.
  destruct (Z.eqb_spec (Grp (OSEventWait ev)) 0) as [Hg|Hg].
  - kret. split; [by apply advT_refl|]. split; [|done]. exists (OSEventWait ev). by destruct ev.
  - apply wpe_bind. eapply wpe_mono; [by apply (Rdy_runs T k e ev stat 0)|].
    intros _ k1 (Ha & He1 & E1 & E2 & E3). pose proof (clear_highest_shorter _ (wait_bits k Hk e ev He) Hg).
    eapply wpe_mono; [apply (IH k1 _ stat (adv_core _ _ (proj1 Ha)) He1 Hts); simpl; lia|].
    intros _ k2 (Ha2 & (w & Hw & Hw0) & F1 & F2 & F3). split; [by eapply advT_trans|].
    split; [by exists w|]. split_and!; congruence.
Qed.

(** * Services that post or change a control block

    The end of a service: [P] holds after the scheduler has run, and when
    nothing was readied. *)
Record finish (T : nat -> Prop) (k : Kernel) (P : Kernel -> Prop) : Prop := {
  fin_sched : forall k1, advT T k k1 -> runs OS_Sched k1 (fun _ => P);
  fin_same : forall k1, advT T k k1 -> OSRdy k1 = OSRdy k -> P k1
}.

Lemma finish_task T k : kinv k -> finish T k (stepped T k).
Proof.
  intros Hk. split; intros k1 [Ha Hf]; [|intros Hr; split; [by apply (kinv_adv k k1)|by left]].
  destruct (OS_Sched_ok k k1 Hk Ha) as (k2 & E & H). eapply wpe_done; [exact E|]. split; [done|].
  left. by eapply frame_same; [apply OS_Sched_same|].
Qed.

(** In an interrupt [OS_Sched] does nothing. *)
Lemma finish_isr T k : 0 < OSIntNesting k -> finish T k (advT T k).
Proof.
  intros Hi. split; [|done]. intros k1 Ha. eapply wpe_done; [|exact Ha].
  destruct (adv_sched _ _ (proj1 Ha)) as (_ & _ & E & _). unfold OS_Sched. rewrite E.
  by rewrite (proj2 (Z.eqb_neq _ _)) by lia.
Qed.

Lemma event_exists k e : core k -> events e -> exists ev, OSEventTbl k !! e = Some ev.
Proof. intros Hk He. apply lookup_lt_is_Some. by rewrite (event_count k Hk). Qed.

Lemma q_data k e ev : core k -> OSEventTbl k !! e = Some ev -> OSEventType ev = OS_EVENT_TYPE_Q ->
  exists q qc, OSEventPtr ev = Some q /\ OSQTbl k !! q = Some qc /\ q_ok qc /\ (0 < OSQEntries qc -> Grp (OSEventWait ev) = 0).
Proof.
  intros Hk He Ht. destruct (event_data k Hk e ev He) as [E|[(E & _)|(_ & H)]]; [by rewrite Ht in E..|done].
Qed.

Lemma sem_data k e ev : core k -> OSEventTbl k !! e = Some ev -> OSEventType ev = OS_EVENT_TYPE_SEM ->
  0 <= OSEventCnt ev < 65536 /\ (0 < OSEventCnt ev -> Grp (OSEventWait ev) = 0).
Proof.
  intros Hk He Ht. destruct (event_data k Hk e ev He) as [E|[(_ & H)|(E & _)]]; [by rewrite Ht in E|done|by rewrite Ht in E].
Qed.

Section Services.
Context (T : nat -> Prop) (k : Kernel) (P : Kernel -> Prop) (Hk : core k) (HP : finish T k P).

Lemma finish_refl : P k.
Proof. apply (fin_same T k P HP); [by apply advT_refl|done]. Qed.

Lemma put_cnt_runs (e : nat) ev n : T e -> OSEventTbl k !! e = Some ev -> OSEventType ev = OS_EVENT_TYPE_SEM ->
  0 <= n < 65536 -> (0 < n -> Grp (OSEventWait ev) = 0) -> runs (put_event e (set_cnt n ev)) k (fun _ => P).
Proof.
  intros HT He Ht Hn Hg. kret. apply (fin_same T k P HP); [|done]. split; [by apply adv_set_cnt|].
  rewrite <- with_events. apply frame_tables. intros e2 ev2 H2 E2 _. split; [|done].
  rewrite list_lookup_insert_ne; [done|]. by intros ->.
Qed.

Lemma grant_runs (e : nat) ev stat msg : T e -> OSEventTbl k !! e = Some ev -> Grp (OSEventWait ev) <> 0 ->
  typ_stat (OSEventType ev) stat ->
  runs (_ ← OS_EventTaskRdy e msg stat OS_STAT_PEND_OK; OS_Sched;; mret OS_ERR_NONE) k (fun _ => P).
Proof.
  intros HT He Hg Hts. apply wpe_bind. eapply wpe_mono; [by eapply (Rdy_runs T)|]. intros p k1 (Ha & _).
  apply wpe_bind. eapply wpe_mono; [by apply (fin_sched T k P HP)|]. intros ? k2 H. by kret.
Qed.

Lemma OSSemPost_runs (e : nat) : T e -> events e -> runs (OSSemPost e) k (fun _ => P).
Proof.
  intros HT He. destruct (event_exists k e Hk He) as [ev Hev]. unfold OSSemPost. kread Hev.
  destruct (Z.eqb_spec (OSEventType ev) OS_EVENT_TYPE_SEM) as [Ht|_]; cbn [negb]; [|kret; apply finish_refl].
  destruct (sem_data k e ev Hk Hev Ht) as (Hc & Hg).
  unfold OSSemPost_section; kread Hev.
  destruct (Z.eqb_spec (Grp (OSEventWait ev)) 0); cbn [negb].
  - destruct (Z.ltb_spec (OSEventCnt ev) 65535); [|kret; apply finish_refl].
    apply wpe_bind. eapply wpe_mono; [apply put_cnt_runs; (done || lia)|]. intros ? k1 H1. by kret.
  - apply (grant_runs e ev); [done..|]. rewrite Ht. constructor.
Qed.

Lemma OSSemAccept_runs (e : nat) : T e -> events e -> runs (OSSemAccept e) k (fun _ => P).
Proof.
  intros HT He. destruct (event_exists k e Hk He) as [ev Hev]. unfold OSSemAccept. kread Hev.
  destruct (Z.eqb_spec (OSEventType ev) OS_EVENT_TYPE_SEM) as [Ht|_]; cbn [negb]; [|kret; apply finish_refl].
  destruct (sem_data k e ev Hk Hev Ht) as (Hc & Hg).
  unfold OSSemAccept_section; kread Hev. apply wpe_bind.
  destruct (Z.ltb_spec 0 (OSEventCnt ev)); [|kret; kret; apply finish_refl].
  eapply wpe_mono; [apply put_cnt_runs; (done || lia || auto)|]. intros ? k1 H1. by kret.
Qed.

Lemma OSSemSet_runs (e : nat) n : T e -> events e -> 0 <= n < 65536 -> runs (OSSemSet e n) k (fun _ => P).
Proof.
  intros HT He Hn. destruct (event_exists k e Hk He) as [ev Hev]. unfold OSSemSet. kread Hev.
  destruct (Z.eqb_spec (OSEventType ev) OS_EVENT_TYPE_SEM) as [Ht|_]; cbn [negb]; [|kret; apply finish_refl].
  destruct (sem_data k e ev Hk Hev Ht) as (Hc & Hg).
  unfold OSSemSet_section; kread Hev.
  destruct ((0 <? OSEventCnt ev) || (Grp (OSEventWait ev) =? 0)) eqn:E; [|kret; apply finish_refl].
  apply wpe_bind. eapply wpe_mono; [apply (put_cnt_runs e ev n); [done..|]|intros ? k1 H1; by kret].
  intros _. apply orb_true_iff in E as [E|E]; [apply Hg|]; lia.
Qed.

(** ** Queues *)

Lemma adv_put_q e ev q qc qc' : OSEventTbl k !! e = Some ev -> OSEventType ev = OS_EVENT_TYPE_Q ->
  OSEventPtr ev = Some q -> OSQTbl k !! q = Some qc -> q_ok qc' ->
  (0 < OSQEntries qc' -> Grp (OSEventWait ev) = 0) -> adv k (set_qs (<[q := qc']> (OSQTbl k)) k).
Proof.
  intros He Ht Hp Hq Hok Hg.
  replace (set_qs _ k) with (with_tables (OSEventTbl k) (OSEventFreeList k) (<[q := qc']> (OSQTbl k)) (OSQFreeList k) k)
    by by destruct k.
  apply adv_tables; [done| |].
  - split; [done|]. intros e2 ev2 H2. exists ev2. split_and!; try done; [by eapply wait_bits|by left].
  - destruct (core_tables k Hk) as [D O F L E Q R]. split; try done; [|by rewrite length_insert].
    intros e2 ev2 H2. destruct (D e2 ev2 H2) as [Hu|[Hs|(T2 & q2 & qc2 & P2 & Q2 & K2 & G2)]]; [by left|by right; left|].
    right. right. split; [done|]. destruct (decide (q2 = q)) as [-> |Hn].
    + assert (e2 = e) as -> by (by eapply (O e2 e ev2 ev q)). rewrite He in H2. injection H2 as <-.
      exists q, qc'. rewrite list_lookup_insert_eq by by apply lookup_lt_Some in Hq. done.
    + exists q2, qc2. by rewrite list_lookup_insert_ne.
Qed.

Lemma frame_put_q (e : nat) ev q qc' : T e -> OSEventTbl k !! e = Some ev -> OSEventType ev = OS_EVENT_TYPE_Q ->
  OSEventPtr ev = Some q -> frame T k (set_qs (<[q := qc']> (OSQTbl k)) k).
Proof.
  intros HT He Ht Hp.
  replace (set_qs _ k) with (with_tables (OSEventTbl k) (OSEventFreeList k) (<[q := qc']> (OSQTbl k)) (OSQFreeList k) k)
    by by destruct k.
  apply frame_tables. intros e2 ev2 H2 E2 _. split; [done|]. intros q2 Ho. rewrite list_lookup_insert_ne; [done|].
  intros <-. assert (e2 = e) as -> by (by eapply (q_owner k Hk e2 e ev2 ev q)). done.
Qed.

(** A service that changes the queue of [e] by [f]. *)
Lemma use_q_runs {A} (e : nat) ev q qc (f : OS_Q -> option (A * OS_Q)) a qc' : T e -> OSEventTbl k !! e = Some ev ->
  OSEventType ev = OS_EVENT_TYPE_Q -> OSEventPtr ev = Some q -> OSQTbl k !! q = Some qc -> f qc = Some (a, qc') ->
  q_ok qc' -> (0 < OSQEntries qc' -> Grp (OSEventWait ev) = 0) ->
  runs (use_q ev f) k (fun _ => P).
Proof.
  intros HT He Ht Hp Hq Hf Hok Hg. unfold use_q. kreadq Hp Hq.
  kread Hf. kread Hp. kdo. kret. apply (fin_same T k P HP); [|done]. split; [by apply (adv_put_q e ev q qc)|].
  by apply (frame_put_q e ev).
Qed.

Lemma OSQAccept_runs (e : nat) : T e -> events e -> runs (OSQAccept e) k (fun _ => P).
Proof.
  intros HT He. destruct (event_exists k e Hk He) as [ev Hev]. unfold OSQAccept. kread Hev.
  destruct (Z.eqb_spec (OSEventType ev) OS_EVENT_TYPE_Q) as [Ht|_]; cbn [negb]; [|kret; apply finish_refl].
  unfold OSQAccept_section; kread Hev.
  destruct (q_data k e ev Hk Hev Ht) as (q & qc & Hp & Hq & Hok & Hg). kreadq Hp Hq.
  destruct (Z.ltb_spec 0 (OSQEntries qc)) as [Hn|]; [|kret; apply finish_refl].
  destruct (take_msg_ok qc Hok Hn) as (m & qc' & E & Hok' & _). apply wpe_bind.
  eapply wpe_mono; [by apply (use_q_runs e ev q qc take_msg m qc'); auto|]. intros ? k1 H1. by kret.
Qed.

Lemma post_msg_runs (e : nat) m fill : T e -> events e ->
  (forall q, q_ok q -> OSQEntries q < OSQSize q -> exists q', fill m q = Some q' /\ q_ok q') ->
  runs (post_msg e m fill) k (fun _ => P).
Proof.
  intros HT He Hfill. destruct (event_exists k e Hk He) as [ev Hev]. unfold post_msg. kread Hev.
  destruct (Z.eqb_spec (OSEventType ev) OS_EVENT_TYPE_Q) as [Ht|_]; cbn [negb]; [|kret; apply finish_refl].
  unfold post_section; kread Hev.
  destruct (q_data k e ev Hk Hev Ht) as (q & qc & Hp & Hq & Hok & Hg).
  destruct (Z.eqb_spec (Grp (OSEventWait ev)) 0) as [Hw|Hw]; cbn [negb].
  - kreadq Hp Hq. destruct (Z.leb_spec (OSQSize qc) (OSQEntries qc)); [kret; apply finish_refl|].
    destruct (Hfill qc Hok ltac:(lia)) as (qc' & E & Hok'). eapply (use_q_runs e ev q qc); [done..| | |]; [|done..].
    by rewrite E.
  - apply (grant_runs e ev); [done..|]. rewrite Ht. constructor.
Qed.

Lemma OSQPost_runs (e : nat) m : T e -> events e -> runs (OSQPost e m) k (fun _ => P).
Proof.
  intros HT He. apply post_msg_runs; [done..|]. intros q Hq Hn. destruct (put_msg_ok q m Hq Hn) as (q' & ? & ? & _). eauto.
Qed.

Lemma OSQPostFront_runs (e : nat) m : T e -> events e -> runs (OSQPostFront e m) k (fun _ => P).
Proof.
  intros HT He. apply post_msg_runs; [done..|]. intros q Hq Hn. destruct (put_front_ok q m Hq Hn) as (q' & ? & ? & _). eauto.
Qed.

Lemma OSQFlush_runs (e : nat) ev : T e -> OSEventTbl k !! e = Some ev -> OSEventType ev = OS_EVENT_TYPE_Q ->
  runs (OSQFlush e) k (fun _ => P).
Proof.
  intros HT Hev Ht. unfold OSQFlush. kread Hev. destruct (q_data k e ev Hk Hev Ht) as (q & qc & Hp & Hq & Hok & Hg).
  eapply (use_q_runs e ev q qc); [done..|by apply flushed_ok|]. cbn. lia.
Qed.
End Services.

(** * Creation and deletion *)

Lemma unused_no_wait k e ev : core k -> OSEventTbl k !! e = Some ev -> OSEventType ev = OS_EVENT_TYPE_UNUSED ->
  Grp (OSEventWait ev) = 0.
Proof.
  intros Hk He Ht. apply (grp_zero _ (wait_bits k Hk e ev He)). intros p Hp Hin.
  apply (wait_tasks k Hk e ev p He Hp) in Hin as (t & _ & Hw). rewrite Ht in Hw.
  unfold waiting in Hw. destruct (OSTCBStk t); [done|..]; by case_match.
Qed.

(** One event replaced, with all else that goes with it. *)
Lemma adv_replace k e ev ev' efree qs qfree : core k -> OSEventTbl k !! e = Some ev -> Grp (OSEventWait ev) = 0 ->
  bits_ok (OSEventWait ev') -> Grp (OSEventWait ev') = 0 ->
  tables_ok (<[e := ev']> (OSEventTbl k)) efree qs qfree ->
  adv k (with_tables (<[e := ev']> (OSEventTbl k)) efree qs qfree k).
Proof.
  intros Hk He Hg Hb Hg' Ht. apply adv_tables; [done| |done]. apply (waits_kept_one k e ev); try done; [|by right].
  intros p Hp. pose proof (proj1 (grp_zero _ Hb) Hg' p Hp).
  pose proof (proj1 (grp_zero _ (wait_bits k Hk e ev He)) Hg p Hp). tauto.
Qed.

Lemma free_head k e free : core k -> OSEventFreeList k = e :: free ->
  exists ev, OSEventTbl k !! e = Some ev /\ OSEventType ev = OS_EVENT_TYPE_UNUSED /\ (e ∉ free) /\ NoDup free /\
    (forall e2, e2 ∈ free -> e2 <> e /\ exists ev2, OSEventTbl k !! e2 = Some ev2 /\ OSEventType ev2 = OS_EVENT_TYPE_UNUSED).
Proof.
  intros Hk E. destruct (event_free k Hk) as [Hnd Hin]. rewrite E in Hnd, Hin. apply NoDup_cons in Hnd as [Hn Hnd].
  destruct (Hin e ltac:(by left)) as (ev & He & Ht). exists ev. split_and!; [done..|].
  intros e2 H2. split; [by intros ->|]. apply Hin. by right.
Qed.

Lemma tables_claim_sem k e free cnt : core k -> OSEventFreeList k = e :: free -> 0 <= cnt < 65536 ->
  tables_ok (<[e := mkEvent OS_EVENT_TYPE_SEM cnt None no_bits]> (OSEventTbl k)) free (OSQTbl k) (OSQFreeList k).
Proof.
  intros Hk E Hc. destruct (free_head k e free Hk E) as (ev & He & Ht & Hn & Hnd & Hin).
  destruct (core_tables k Hk) as [D O F L _ Q R]. split; try done.
  - intros e2 ev2 H2. destruct (lookup_insert_cases _ _ _ _ _ H2) as [[-> ->]|[_ H]]; [by right; left|by eapply D].
  - intros e1 e2 ev1 ev2 q H1 H2 O1 O2.
    destruct (lookup_insert_cases _ _ _ _ _ H1) as [[-> ->]|[_ H1']]; [by destruct O1|].
    destruct (lookup_insert_cases _ _ _ _ _ H2) as [[-> ->]|[_ H2']]; [by destruct O2|]. by eapply O.
  - intros e2 ev2 q H2 O2. destruct (lookup_insert_cases _ _ _ _ _ H2) as [[-> ->]|[_ H2']]; [by destruct O2|]. by eapply F.
  - by rewrite length_insert.
  - split; [done|]. intros e2 H2. destruct (Hin e2 H2) as (Hne & ev2 & H & Hu). exists ev2. by rewrite list_lookup_insert_ne.
Qed.

Lemma tables_claim_q k e free q qfree start size : core k -> OSEventFreeList k = e :: free -> OSQFreeList k = q :: qfree ->
  0 <= size <= zlen start ->
  tables_ok (<[e := mkEvent OS_EVENT_TYPE_Q 0 (Some q) no_bits]> (OSEventTbl k)) free
    (<[q := mkQ start 0 0 size 0]> (OSQTbl k)) qfree.
Proof.
  intros Hk E Eq Hs. destruct (free_head k e free Hk E) as (ev & He & Ht & Hn & Hnd & Hin).
  destruct (core_tables k Hk) as [D O F L _ Q [R1 R2]]. rewrite Eq in R1, R2, F. apply NoDup_cons in R1 as [Rn R1].
  assert (forall e2 ev2, OSEventTbl k !! e2 = Some ev2 -> ~ owns ev2 q) as Hno.
  { intros e2 ev2 H2 Ho. apply (F e2 ev2 q H2 Ho). by left. }
  assert (forall q2, owns (mkEvent OS_EVENT_TYPE_Q 0 (Some q) no_bits) q2 -> q2 = q) as Hown by by intros q2 [_ [= ->]].
  split; try done.
  - intros e2 ev2 H2. destruct (lookup_insert_cases _ _ _ _ _ H2) as [[-> ->]|[_ H]].
    + right. right. split; [done|]. exists q, (mkQ start 0 0 size 0). rewrite list_lookup_insert_eq by (rewrite Q; apply R2; by left).
      split_and!; [done..|by apply new_q_ok|done].
    + destruct (D e2 ev2 H) as [Hu|[Hsem|(T2 & q2 & qc2 & P2 & Q2 & K2)]]; [by left|by right; left|].
      right. right. split; [done|]. exists q2, qc2. rewrite list_lookup_insert_ne; [done|].
      intros <-. by apply (Hno e2 ev2 H).
  - intros e1 e2 ev1 ev2 q2 H1 H2 O1 O2.
    destruct (lookup_insert_cases _ _ _ _ _ H1) as [[-> ->]|[_ H1']], (lookup_insert_cases _ _ _ _ _ H2) as [[-> ->]|[_ H2']].
    + done.
    + apply Hown in O1 as ->. by destruct (Hno e2 ev2 H2').
    + apply Hown in O2 as ->. by destruct (Hno e1 ev1 H1').
    + by eapply O.
  - intros e2 ev2 q2 H2 O2. destruct (lookup_insert_cases _ _ _ _ _ H2) as [[-> ->]|[_ H2']]; [by apply Hown in O2 as ->|].
    intros H. apply (F e2 ev2 q2 H2' O2). by right.
  - by rewrite length_insert.
  - split; [done|]. intros e2 H2. destruct (Hin e2 H2) as (Hne & ev2 & H & Hu). exists ev2. by rewrite list_lookup_insert_ne.
  - by rewrite length_insert.
  - split; [done|]. intros q2 H2. apply R2. by right.
Qed.

(** [qs] are the control blocks that the deleted event gives back. *)
Lemma tables_freed k e ev w qs : core k -> OSEventTbl k !! e = Some ev -> OSEventType ev <> OS_EVENT_TYPE_UNUSED ->
  (qs = [] /\ OSEventType ev = OS_EVENT_TYPE_SEM \/ exists q, qs = [q] /\ owns ev q) ->
  tables_ok (<[e := mkEvent OS_EVENT_TYPE_UNUSED 0 None w]> (OSEventTbl k)) (e :: OSEventFreeList k) (OSQTbl k)
    (qs ++ OSQFreeList k).
Proof.
  intros Hk He Hu Hqs. destruct (core_tables k Hk) as [D O F L [E1 E2] Q [R1 R2]].
  pose proof (lookup_lt_Some _ _ _ He) as Hlt.
  assert (forall e2 ev2 q, e2 <> e -> OSEventTbl k !! e2 = Some ev2 -> owns ev2 q -> q ∉ qs ++ OSQFreeList k) as Hno.
  { intros e2 ev2 q Hne H2 O2. destruct Hqs as [[-> _]|(q0 & -> & O0)]; [by eapply F|]. rewrite not_elem_of_app.
    split; [|by eapply F]. intros ->%list_elem_of_singleton. destruct Hne. by eapply O. }
  split; try done.
  - intros e2 ev2 H2. destruct (lookup_insert_cases _ _ _ _ _ H2) as [[-> ->]|[_ H]]; [by left|by eapply D].
  - intros e1 e2 ev1 ev2 q H1 H2 O1 O2.
    destruct (lookup_insert_cases _ _ _ _ _ H1) as [[-> ->]|[_ H1']]; [by destruct O1|].
    destruct (lookup_insert_cases _ _ _ _ _ H2) as [[-> ->]|[_ H2']]; [by destruct O2|]. by eapply O.
  - intros e2 ev2 q H2 O2. destruct (lookup_insert_cases _ _ _ _ _ H2) as [[-> ->]|[Hne H2']]; [by destruct O2|]. by eapply Hno.
  - by rewrite length_insert.
  - split.
    + apply NoDup_cons. split; [|done]. intros Hin. destruct (E2 e Hin) as (? & ? & ?). congruence.
    + intros e2 H2. destruct (decide (e2 = e)) as [-> |Hne]; [rewrite list_lookup_insert_eq by done; by eexists|].
      rewrite list_lookup_insert_ne by done. apply E2. by apply elem_of_cons in H2 as [?|?].
  - destruct Hqs as [[-> _]|(q & -> & O0)]; [done|]. split.
    + apply NoDup_cons. split; [by eapply F|done].
    + intros q2 [->|H2]%elem_of_cons; [|by apply R2]. rewrite <- Q.
      destruct (q_data k e ev Hk He (proj1 O0)) as (q3 & qc & Hp & H3 & _). destruct O0 as [_ E]. rewrite E in Hp.
      injection Hp as ->. by apply lookup_lt_Some in H3.
Qed.

(** Unused blocks are claimed ... *)
Lemma frame_replace (T : nat -> Prop) k e ev ev' efree qs qfree : OSEventTbl k !! e = Some ev ->
  T e \/ OSEventType ev = OS_EVENT_TYPE_UNUSED ->
  (forall e2 ev2 q, OSEventTbl k !! e2 = Some ev2 -> owns ev2 q -> qs !! q = OSQTbl k !! q) ->
  frame T k (with_tables (<[e := ev']> (OSEventTbl k)) efree qs qfree k).
Proof.
  intros He HT Hq. apply frame_tables. intros e2 ev2 H2 E2 Hu. split; [|intros q; by apply Hq with e2].
  rewrite list_lookup_insert_ne; [done|]. intros ->. destruct HT as [?|?]; [done|]. congruence.
Qed.

Section Lifetime.
Context (T : nat -> Prop) (k : Kernel) (P : Kernel -> Prop) (Hk : core k) (Hi : OSIntNesting k = 0).
Context (HP : forall k1, advT T k k1 -> OSRdy k1 = OSRdy k -> P k1).

Lemma OSSemCreate_runs cnt : 0 <= cnt < 65536 -> runs (OSSemCreate cnt) k (fun _ => P).
Proof.
  intros Hc. pose proof (HP k (advT_refl T k Hk) eq_refl) as H0.
  unfold runs, wpe, OSSemCreate. rewrite Hi.
  unfold new_event, mbind, M_bind. destruct (OSEventFreeList k) as [|e free] eqn:E; [done|].
  destruct (free_head k e free Hk E) as (ev & He & Ht & _). unfold get_event, access. cbn. rewrite He.
  apply HP; [|done].
  replace (set_events _ _) with (with_tables (<[e := mkEvent OS_EVENT_TYPE_SEM cnt None no_bits]> (OSEventTbl k)) free
    (OSQTbl k) (OSQFreeList k) k) by by destruct k.
  split; [|by apply (frame_replace T k e ev); [|right|]].
  apply (adv_replace k e ev); try done; [by eapply unused_no_wait|by apply no_bits_ok|by apply tables_claim_sem].
Qed.

Lemma OSQCreate_runs start size : 0 <= size <= zlen start -> runs (OSQCreate start size) k (fun _ => P).
Proof.
  intros Hsz. pose proof (HP k (advT_refl T k Hk) eq_refl) as H0.
  unfold runs, wpe, OSQCreate. rewrite Hi.
  unfold new_event, mbind, M_bind. destruct (OSEventFreeList k) as [|e free] eqn:E; [done|].
  destruct (free_head k e free Hk E) as (ev & He & Ht & _). unfold get_event, gets, access. cbn. rewrite He.
  change (OSQFreeList (set_event_free free k)) with (OSQFreeList k). destruct (OSQFreeList k) as [|q qfree] eqn:Eq.
  - cbn. replace (set_event_free (e :: free) (set_event_free free k)) with k; [done|]. rewrite <- E. by destruct k.
  - unfold modify, get_q, access. cbn. destruct (q_free_ok k Hk) as [_ Hq]. rewrite Eq in Hq.
    destruct (lookup_lt_is_Some_2 (OSQTbl k) q) as [qc Hqc]; [rewrite (q_count k Hk); apply Hq; by left|]. rewrite Hqc.
    apply HP; [|done].
    replace (set_events _ _) with (with_tables (<[e := mkEvent OS_EVENT_TYPE_Q 0 (Some q) no_bits]> (OSEventTbl k)) free
      (<[q := mkQ start 0 0 size 0]> (OSQTbl k)) qfree k) by by destruct k.
    split.
    + apply (adv_replace k e ev); try done; [by eapply unused_no_wait|by apply no_bits_ok|by apply tables_claim_q].
    + apply (frame_replace T k e ev); [done|by right|]. intros e2 ev2 q2 H2 Ho. rewrite list_lookup_insert_ne; [done|].
      intros <-. apply (q_free k Hk e2 ev2 q H2 Ho). rewrite Eq. by left.
Qed.
End Lifetime.

(** ... and the control blocks of a deleted event go back, when nobody waits. *)
Lemma advT_freed (T : nat -> Prop) k e ev qs : T e -> core k -> OSEventTbl k !! e = Some ev -> Grp (OSEventWait ev) = 0 ->
  (qs = [] /\ OSEventType ev = OS_EVENT_TYPE_SEM \/ exists q, qs = [q] /\ owns ev q) ->
  advT T k (with_tables (<[e := mkEvent OS_EVENT_TYPE_UNUSED 0 None (OSEventWait ev)]> (OSEventTbl k)) (e :: OSEventFreeList k)
    (OSQTbl k) (qs ++ OSQFreeList k) k).
Proof.
  intros HT Hk He Hg Hqs. split; [|by apply (frame_replace T k e ev); [|left|]].
  apply (adv_replace k e ev); try done; [by apply (wait_bits k Hk e ev)|].
  apply (tables_freed k e ev); [done..| |done]. destruct Hqs as [[_ ->]|(q & _ & -> & _)]; done.
Qed.

Lemma free_event_runs (T : nat -> Prop) k e ev : T e -> core k -> OSEventTbl k !! e = Some ev -> Grp (OSEventWait ev) = 0 ->
  OSEventType ev = OS_EVENT_TYPE_SEM -> runs (free_event e) k (fun _ k1 => advT T k k1 /\ OSRdy k1 = OSRdy k).
Proof.
  intros HT Hk He Hg Ht. unfold free_event. kread He. kdo. kret. split; [|done].
  pose proof (advT_freed T k e ev [] HT Hk He Hg (or_introl (conj eq_refl Ht))) as H. by destruct k.
Qed.

Lemma free_q_runs (T : nat -> Prop) k e ev ev0 : T e -> core k -> OSEventTbl k !! e = Some ev -> Grp (OSEventWait ev) = 0 ->
  OSEventType ev = OS_EVENT_TYPE_Q -> OSEventPtr ev0 = OSEventPtr ev ->
  runs (free_q ev0 e) k (fun _ k1 => advT T k k1 /\ OSRdy k1 = OSRdy k).
Proof.
  intros HT Hk He Hg Ht Ep. destruct (q_data k e ev Hk He Ht) as (q & qc & Hp & Hq & _). rewrite Hp in Ep.
  unfold free_q. kread Ep. kdo. unfold free_event. kread He. kdo. kret. split; [|done].
  assert (exists q0, [q] = [q0] /\ owns ev q0) as Ho by by exists q.
  pose proof (advT_freed T k e ev [q] HT Hk He Hg (or_intror Ho)) as H. by destruct k.
Qed.

(** What both deletions do: [free] gives the control blocks back. *)
Section Deletion.
Context (T : nat -> Prop) (k : Kernel) (P : Kernel -> Prop) (Hk : core k) (HP : finish T k P).
Context (e : nat) (ev : OS_EVENT) (stat : Z) (free : M Kernel unit).
Context (HT : T e) (He : OSEventTbl k !! e = Some ev) (Hts : typ_stat (OSEventType ev) stat).
Context (Hfree : forall k1 ev1, core k1 -> OSEventTbl k1 !! e = Some ev1 -> Grp (OSEventWait ev1) = 0 ->
  OSEventType ev1 = OSEventType ev -> OSEventPtr ev1 = OSEventPtr ev ->
  runs free k1 (fun _ k2 => advT T k1 k2 /\ OSRdy k2 = OSRdy k1)).

Lemma free_runs : Grp (OSEventWait ev) = 0 -> runs free k (fun _ => P).
Proof.
  intros Hg. eapply wpe_mono; [by apply (Hfree k ev)|]. intros ? k1 [H1 H2]. by apply (fin_same T k P HP).
Qed.

Lemma ready_all_none f : Grp (OSEventWait ev) = 0 -> runs (ready_all (S f) e stat) k (fun _ k1 => k1 = k).
Proof. intros Hg. simpl. kread He. rewrite Hg. by kret. Qed.

Lemma delete_runs {A} (a : A) :
  runs (ready_all 65 e stat;; free;; (if negb (Grp (OSEventWait ev) =? 0) then OS_Sched else mret tt);; mret a) k (fun _ => P).
Proof.
  apply wpe_bind. destruct (Z.eqb_spec (Grp (OSEventWait ev)) 0) as [Hg|Hg]; cbn [negb].
  - eapply wpe_mono; [by apply ready_all_none|]. intros ? k1 ->. apply wpe_bind.
    eapply wpe_mono; [by apply free_runs|]. intros ? k2 H2. kdo. by kret.
  - pose proof (waiters_bound (OSEventWait ev)).
    eapply wpe_mono; [apply (ready_all_runs T e HT 65 k ev stat); [done..|lia]|].
    intros ? k1 (Ha & (w & Hw & Hw0) & _). apply wpe_bind.
    eapply wpe_mono; [by apply (Hfree k1 (set_wait w ev)); [apply Ha|..]|]. intros ? k2 [H2 _]. apply wpe_bind.
    eapply wpe_mono; [apply (fin_sched T k _ HP); by eapply advT_trans|]. intros ? k3 H3. by kret.
Qed.
End Deletion.

Section Deletions.
Context (T : nat -> Prop) (k : Kernel) (P : Kernel -> Prop) (Hinv : kinv k) (HP : finish T k P).

Lemma OSSemDel_runs (e : nat) opt : T e -> events e -> runs (OSSemDel e opt) k (fun _ => P).
Proof.
  intros HT He. pose proof Hinv as [Hk Hs]. pose proof (finish_refl T k P Hk HP) as H0.
  destruct (event_exists k e Hk He) as [ev Hev]. unfold OSSemDel. kread Hev. kdo.
  destruct (Z.eqb_spec (OSEventType ev) OS_EVENT_TYPE_SEM) as [Ht|_]; cbn [negb]; [|by kret].
  rewrite (not_nested k Hs). cbn [Z.ltb Z.compare].
  unfold OSSemDel_section; kread Hev.
  assert (typ_stat (OSEventType ev) OS_STAT_SEM) as Hts by (rewrite Ht; constructor).
  assert (forall k1 ev1, core k1 -> OSEventTbl k1 !! e = Some ev1 -> Grp (OSEventWait ev1) = 0 ->
    OSEventType ev1 = OSEventType ev -> OSEventPtr ev1 = OSEventPtr ev ->
    runs (free_event e) k1 (fun _ k2 => advT T k1 k2 /\ OSRdy k2 = OSRdy k1)) as Hf.
  { intros k1 ev1 H1 H2 H3 H4 _. apply (free_event_runs T k1 e ev1); [done..|congruence]. }
  destruct (opt =? OS_DEL_NO_PEND).
  - destruct (Z.eqb_spec (Grp (OSEventWait ev)) 0); cbn [negb]; [|by kret]. apply wpe_bind.
    eapply wpe_mono; [by apply (free_runs T k P Hk HP e ev)|]. intros ? k1 H1. by kret.
  - destruct (opt =? OS_DEL_ALWAYS); [|by kret]. by apply (delete_runs T k P Hk HP e ev).
Qed.

Lemma OSQDel_runs (e : nat) opt : T e -> events e -> runs (OSQDel e opt) k (fun _ => P).
Proof.
  intros HT He. pose proof Hinv as [Hk Hs]. pose proof (finish_refl T k P Hk HP) as H0.
  destruct (event_exists k e Hk He) as [ev Hev]. unfold OSQDel. kread Hev. kdo.
  destruct (Z.eqb_spec (OSEventType ev) OS_EVENT_TYPE_Q) as [Ht|_]; cbn [negb]; [|by kret].
  rewrite (not_nested k Hs). cbn [Z.ltb Z.compare].
  unfold OSQDel_section; kread Hev.
  assert (typ_stat (OSEventType ev) OS_STAT_Q) as Hts by (rewrite Ht; constructor).
  assert (forall k1 ev1, core k1 -> OSEventTbl k1 !! e = Some ev1 -> Grp (OSEventWait ev1) = 0 ->
    OSEventType ev1 = OSEventType ev -> OSEventPtr ev1 = OSEventPtr ev ->
    runs (free_q ev e) k1 (fun _ k2 => advT T k1 k2 /\ OSRdy k2 = OSRdy k1)) as Hf.
  { intros k1 ev1 H1 H2 H3 H4 H5. apply (free_q_runs T k1 e ev1); [done..|congruence|done]. }
  destruct (opt =? OS_DEL_NO_PEND).
  - destruct (Z.eqb_spec (Grp (OSEventWait ev)) 0); cbn [negb]; [|by kret].
    apply wpe_bind. eapply wpe_mono; [by apply (free_runs T k P Hk HP e ev)|]. intros ? k1 H1. by kret.
  - destruct (opt =? OS_DEL_ALWAYS); [|by kret]. by apply (delete_runs T k P Hk HP e ev).
Qed.
End Deletions.
