(* ===== verification/KernelSafe.v ===== *)
(** The services that stop or start a task, the tick, and the step: from the
    start of the kernel no allowed step of tasks and interrupts crashes it, each
    keeps its invariant, and the ready task of the highest priority runs. *)
From stdpp Require Import gmap.
From S2P Require Import Prelude ReadyList Kernel MsgQueue KernelInv KernelStep.
#[local] Open Scope Z_scope.

(** * The current task *)

Lemma current_task k : kinv k -> exists t, OSTCBPrioTbl k !! OSPrioCur k = Some t /\ ready t.
Proof. intros [Hk Hs]. by apply (rdy_tasks k Hk _ (cur_prio k Hs)), cur_ready. Qed.

Lemma current_runs k : kinv k -> stk_of k = Some CRun ->
  exists t, OSTCBPrioTbl k !! OSPrioCur k = Some t /\ OSTCBStat t = OS_STAT_RDY /\ OSTCBDly t = 0 /\
    OSTCBStk t = CRun /\ waiting t = None.
Proof.
  intros Hk Hst. destruct (current_task k Hk) as (t & Ht & Hr & Hd). exists t. unfold stk_of in Hst. rewrite Ht in Hst.
  injection Hst as Hst. split_and!; try done. unfold waiting. by rewrite Hst.
Qed.

(** The state in which the current task waits for [e]. *)
Definition blocked (cur : Z) (t : OS_TCB) (e : nat) (ev : OS_EVENT) (k : Kernel) : Kernel :=
  set_rdy (clear_prio cur (OSRdy k))
    (set_events (<[e := set_wait (set_prio cur (OSEventWait ev)) ev]> (OSEventTbl k))
      (set_tcbs (<[cur := t]> (OSTCBPrioTbl k)) k)).

Lemma core_blocked k t t0 e ev : core k -> OSTCBPrioTbl k !! OSPrioCur k = Some t0 -> waiting t0 = None ->
  OSPrioCur k <> OS_TASK_IDLE_PRIO -> task_wf t -> ~ ready t ->
  OSEventTbl k !! e = Some ev -> waiting t = Some (e, OSEventType ev) ->
  ev_data (OSQTbl k) (set_wait (set_prio (OSPrioCur k) (OSEventWait ev)) ev) ->
  core (blocked (OSPrioCur k) t e ev k).
Proof.
  intros Hk Ht0 Hw0 Hidle Hwf Hr He Hw Hd. pose proof (task_prio k Hk _ _ Ht0) as Hp. set (p := OSPrioCur k) in *.
  pose proof (wait_bits k Hk e ev He) as Hb.
  change (core (set_rdy (clear_prio p (OSRdy k))
    (set_events (<[e := set_wait (set_prio p (OSEventWait ev)) ev]> (OSEventTbl k))
      (set_tcb_list (OSTCBList k) (OSTCBFree k) (set_tcbs (<[p := t]> (OSTCBPrioTbl k)) k))))).
  apply core_update; try done.
  - by apply rdy_clear.
  - apply (wait_update_one k p t e ev); try done.
    + by apply set_prio_ok.
    + intros q Hq Hne. cbn. rewrite in_set_prio by done. tauto.
    + cbn. rewrite in_set_prio by done. split; [done|by left].
    + intros e2 ev2 Hne He2. rewrite (in_wait k p t0 e2 ev2), Hw0, Hw by done. split; [done|congruence].
  - intros e2 typ. rewrite Hw. intros [= <- <-]. by exists ev.
  - by eapply listed_existing.
Qed.

Lemma wait_changed (evs : list OS_EVENT) e e2 ev ev2 w : evs !! e = Some ev -> evs !! e2 = Some ev2 ->
  exists w', <[e := set_wait w ev]> evs !! e2 = Some (set_wait w' ev2).
Proof.
  intros He H2. destruct (decide (e2 = e)) as [-> |Hn].
  - rewrite He in H2. injection H2 as ->. exists w. apply list_lookup_insert_eq. by apply lookup_lt_Some in He.
  - exists (OSEventWait ev2). rewrite list_lookup_insert_ne by done. by destruct ev2.
Qed.

Lemma pend_runs k e ev stat timeout rest : kinv k -> stk_of k = Some CRun -> OSPrioCur k <> OS_TASK_IDLE_PRIO ->
  0 <= timeout < 4294967296 -> OSLockNesting k = 0 -> OSEventTbl k !! e = Some ev ->
  rest = CSemPend e /\ stat = OS_STAT_SEM /\ OSEventType ev = OS_EVENT_TYPE_SEM \/
  rest = CQPend e /\ stat = OS_STAT_Q /\ OSEventType ev = OS_EVENT_TYPE_Q ->
  ev_data (OSQTbl k) (set_wait (set_prio (OSPrioCur k) (OSEventWait ev)) ev) ->
  runs (pend e stat timeout rest) k (fun _ k1 => kinv k1 /\ self_frame (eq e) k k1 /\
    exists t1, OSTCBPrioTbl k1 !! OSPrioCur k = Some t1 /\ OSTCBStk t1 = rest /\ granted t1 = false).
Proof.
  intros Hinv Hst Hidle Hto Hl He Hrest Hd. destruct (current_runs k Hinv Hst) as (t & Ht & Hs & Hdly & Hrun & Hw).
  unfold pend. kdo. kread Ht. kdo. apply wpe_bind. unfold OS_EventTaskWait. kdo.
  apply wpe_bind, wpe_access. eexists. split; [apply lookup_insert_eq|]. cbv beta. kdo. kread He. kdo. kret.
  set (t1 := mkTCB (Z.lor (OSTCBStat t) stat) OS_STAT_PEND_OK timeout (Some e) (OSTCBMsg t) rest).
  match goal with |- wpe _ _ ?s _ => replace s with (blocked (OSPrioCur k) t1 e ev k)
    by (unfold blocked; destruct k; cbn; by rewrite insert_insert_eq) end.
  assert (core (blocked (OSPrioCur k) t1 e ev k)) as H1.
  { apply (core_blocked k t1 t e ev); try done; [apply Hinv|..];
      destruct Hrest as [(-> & -> & E)|(-> & -> & E)]; unfold t1, task_wf, ready, waiting, granted; cbn; rewrite ?Hs, ?E;
      cbn; try done; try (by intros []); by split; [|left]. }
  destruct (OS_Sched_switches k _ Hinv H1) as (k2 & E & H2); [done..|]. eapply wpe_done; [exact E|]. split; [done|].
  apply OS_Sched_same in E. split.
  - eapply self_frame_same; [exact E|]. split; cbn.
    + exists t. split; [done|left]. done.
    + exists t1. split; [apply lookup_insert_eq|right]. exists e. split; [done|].
      unfold pends_on, t1. cbn. destruct Hrest as [(-> & _)|(-> & _)]; auto.
    + intros p Hp. by rewrite lookup_insert_ne.
    + intros e2 ev2 H2'. by apply (wait_changed _ _ _ ev).
    + done.
  - exists t1. destruct E as (-> & _). split; [apply lookup_insert_eq|]. split; [done|].
    unfold granted, t1. cbn. rewrite Hs. by destruct Hrest as [(_ & -> & _)|(_ & -> & _)].
Qed.

Lemma lock_zero k : kinv k -> ~ 0 < OSLockNesting k -> OSLockNesting k = 0.
Proof. intros [_ Hs]. pose proof (lock_range k Hs). lia. Qed.

Lemma OSSemPend_runs k e timeout : kinv k -> stk_of k = Some CRun -> events e -> OSPrioCur k <> OS_TASK_IDLE_PRIO ->
  0 <= timeout < 4294967296 -> runs (OSSemPend e timeout) k (fun _ => stepped (eq e) k).
Proof.
  intros Hinv Hst He Hidle Hto. pose proof (proj1 Hinv) as Hk. pose proof (finish_task (eq e) k Hinv) as HP.
  pose proof (finish_refl _ k _ Hk HP) as H0. destruct (event_exists k e Hk He) as [ev Hev].
  unfold OSSemPend. kread Hev. kdo. kdo.
  destruct (Z.eqb_spec (OSEventType ev) OS_EVENT_TYPE_SEM) as [Ht|_]; cbn [negb]; [|by kret].
  rewrite (not_nested k (proj2 Hinv)). cbn [Z.ltb Z.compare].
  destruct (Z.ltb_spec 0 (OSLockNesting k)); [by kret|].
  unfold OSSemPend_section; kread Hev.
  destruct (sem_data k e ev Hk Hev Ht) as (Hc & Hg). destruct (Z.ltb_spec 0 (OSEventCnt ev)); apply wpe_bind.
  - eapply wpe_mono; [apply (put_cnt_runs (eq e) k _ Hk HP e ev); (done || lia || auto)|].
    intros ? k1 ?. by kret.
  - eapply wpe_mono; [apply (pend_runs k e ev); try done; [by apply lock_zero; [|lia]|by left|]|intros ? k1 (? & ? & _); by kret; split; [|right]].
    right. left. split; [done|]. split; [done|]. cbn. lia.
Qed.

Lemma OSQPend_runs k e timeout : kinv k -> stk_of k = Some CRun -> events e -> OSPrioCur k <> OS_TASK_IDLE_PRIO ->
  0 <= timeout < 4294967296 -> runs (OSQPend e timeout) k (fun _ => stepped (eq e) k).
Proof.
  intros Hinv Hst He Hidle Hto. pose proof (proj1 Hinv) as Hk. pose proof (finish_task (eq e) k Hinv) as HP.
  pose proof (finish_refl _ k _ Hk HP) as H0. destruct (event_exists k e Hk He) as [ev Hev].
  unfold OSQPend. kread Hev. kdo. kdo.
  destruct (Z.eqb_spec (OSEventType ev) OS_EVENT_TYPE_Q) as [Ht|_]; cbn [negb]; [|by kret].
  rewrite (not_nested k (proj2 Hinv)). cbn [Z.ltb Z.compare].
  destruct (Z.ltb_spec 0 (OSLockNesting k)); [by kret|].
  unfold OSQPend_section; kread Hev.
  destruct (q_data k e ev Hk Hev Ht) as (q & qc & Hp & Hq & Hok & Hg). kreadq Hp Hq.
  destruct (Z.ltb_spec 0 (OSQEntries qc)) as [Hn|]; apply wpe_bind.
  - destruct (take_msg_ok qc Hok Hn) as (m & qc' & E & Hok' & _).
    eapply wpe_mono; [by apply (use_q_runs (eq e) k _ Hk HP e ev q qc take_msg m qc'); auto|].
    intros ? k1 ?. by kret.
  - eapply wpe_mono; [apply (pend_runs k e ev); try done; [by apply lock_zero; [|lia]|by right|]|intros ? k1 (? & ? & _); by kret; split; [|right]].
    right. right. split; [done|]. exists q, qc. split_and!; [done..|]. lia.
Qed.

(** The ready list is as before and the current task goes on in its own code. *)
Lemma kinv_same k k1 : kinv k -> core k1 -> same_sched k k1 -> OSRdy k1 = OSRdy k ->
  (0 < OSLockNesting k -> stk_of k1 = Some CRun) -> kinv k1.
Proof.
  intros [_ []] H1 (T & P & I & L & R) Hr Hst. split; [done|]. by split; rewrite ?T, ?P, ?I, ?L, ?R, ?Hr.
Qed.

Lemma task_granted t : task_wf t -> ready t -> OSTCBStatPend t = OS_STAT_PEND_OK -> waiting t = None.
Proof. intros _ [Hs _] Hp. unfold waiting, granted. rewrite Hs, Hp. by destruct (OSTCBStk t). Qed.

(** The state after the rest of a pend call. *)
Definition resumed (cur : Z) (msg dly : Z) (k : Kernel) : Kernel :=
  set_tcbs (<[cur := mkTCB OS_STAT_RDY OS_STAT_PEND_OK dly None msg CRun]> (OSTCBPrioTbl k)) k.

Lemma core_resumed k t msg evs : core k -> OSTCBPrioTbl k !! OSPrioCur k = Some t -> ready t ->
  wait_update (OSPrioCur k) (mkTCB OS_STAT_RDY OS_STAT_PEND_OK (OSTCBDly t) None msg CRun) (OSQTbl k) (OSEventTbl k) evs ->
  core (resumed (OSPrioCur k) msg (OSTCBDly t) (set_events evs k)).
Proof.
  intros Hk Ht [Hs Hd] Hev. set (t' := mkTCB _ _ _ _ _ _) in *. pose proof (task_prio k Hk _ _ Ht) as Hp.
  change (core (set_rdy (OSRdy k) (set_events evs
    (set_tcb_list (OSTCBList k) (OSTCBFree k) (set_tcbs (<[OSPrioCur k := t']> (OSTCBPrioTbl k)) k))))).
  assert (ready t') as Hr' by (split; [done|exact Hd]).
  apply core_update; try done.
  - split; [|done]. unfold t'. cbn. rewrite Hd. lia.
  - apply (rdy_keep k _ t); done.
  - by eapply listed_existing.
Qed.

Lemma set_events_id k : set_events (OSEventTbl k) k = k.
Proof. by destruct k. Qed.

(** A task that has timed out leaves the wait list. *)
Lemma wait_update_timed_out k p t t' e ev : core k -> OSTCBPrioTbl k !! p = Some t -> OSEventTbl k !! e = Some ev ->
  waiting t = Some (e, OSEventType ev) -> waiting t' = None ->
  wait_update p t' (OSQTbl k) (OSEventTbl k) (<[e := set_wait (clear_prio p (OSEventWait ev)) ev]> (OSEventTbl k)).
Proof.
  intros Hk Ht Hev Hw Hw'. pose proof (wait_bits k Hk e ev Hev) as Hb. pose proof (task_prio k Hk _ _ Ht) as Hp.
  assert (Grp (OSEventWait ev) <> 0) as Hg.
  { intros Hg. destruct (proj1 (grp_zero _ Hb) Hg p Hp). by apply (in_wait k p t e ev). }
  apply (wait_update_one k _ _ e ev); try done.
  - by apply clear_prio_ok.
  - intros q Hq Hn. cbn. rewrite in_clear_prio by done. tauto.
  - cbn. rewrite in_clear_prio, Hw' by done. split; [by intros []|done].
  - destruct (event_data k Hk e ev Hev) as [Hu|[(H1 & H2 & H3)|(H1 & q & qc & H2 & H3 & H4 & H5)]]; [by left|right; left|right; right].
    + split; [done|]. split; [done|]. intros Hc. by destruct Hg, (H3 Hc).
    + split; [done|]. exists q, qc. split_and!; [done..|]. intros Hc. by destruct Hg, (H5 Hc).
  - intros e2 ev2 Hn H2. rewrite (in_wait k _ t e2 ev2), Hw, Hw' by done. split; [congruence|done].
Qed.

(** The state of an open pend call whose task is ready again. *)
Lemma pend_outcome k p t e : core k -> OSTCBPrioTbl k !! p = Some t -> ready t ->
  OSTCBStk t = CSemPend e \/ OSTCBStk t = CQPend e ->
  OSTCBStatPend t = OS_STAT_PEND_OK /\ waiting t = None \/
  OSTCBStatPend t = OS_STAT_PEND_TO /\ exists ev, OSEventTbl k !! e = Some ev /\ waiting t = Some (e, OSEventType ev).
Proof.
  intros Hk Ht Hr Hst. pose proof (task_ok k Hk p t Ht) as Hwf.
  destruct (Z.eq_dec (OSTCBStatPend t) OS_STAT_PEND_OK) as [E|Hne]; [left; split; [done|by apply task_granted]|right].
  assert (OSTCBStatPend t = OS_STAT_PEND_TO) as E.
  { destruct Hwf as [_ Hwf], Hr as [Hr _]. destruct Hst as [E|E]; rewrite E in Hwf;
      (destruct Hwf as [[_ ?]|(_ & _ & [?|?])]; congruence). }
  split; [done|]. assert (exists typ, waiting t = Some (e, typ)) as [typ Hw].
  { unfold waiting, granted. rewrite E. rewrite andb_false_r. destruct Hst as [-> | ->]; eauto. }
  destruct (task_waits k Hk _ t e typ Ht Hw) as (ev & Hev & <-). by exists ev.
Qed.

(** What a resumed call returns. *)
Definition outcome_of (t : OS_TCB) : Z * Z :=
  if granted t then (OSTCBMsg t, OS_ERR_NONE) else (0, OS_ERR_TIMEOUT).

Lemma granted_outcome t : ready t -> OSTCBStatPend t = OS_STAT_PEND_OK -> outcome_of t = (OSTCBMsg t, OS_ERR_NONE).
Proof. intros [Hs _] Hp. unfold outcome_of, granted. by rewrite Hs, Hp. Qed.

Lemma timed_out_outcome t : OSTCBStatPend t = OS_STAT_PEND_TO -> outcome_of t = (0, OS_ERR_TIMEOUT).
Proof. intros Hp. unfold outcome_of, granted. by rewrite Hp, andb_false_r. Qed.

Lemma pend_return_runs k e clear t : kinv k -> OSTCBPrioTbl k !! OSPrioCur k = Some t -> pends_on t e ->
  runs (pend_return e clear) k (fun r k1 => kinv k1 /\ self_frame (eq e) k k1 /\
    (exists t1, OSTCBPrioTbl k1 !! OSPrioCur k = Some t1 /\ OSTCBStk t1 = CRun) /\ r = outcome_of t).
Proof.
  intros Hinv Ht Hst. pose proof Hinv as [Hk Hs].
  assert (ready t) as Hr by (destruct (current_task k Hinv) as (t' & E & ?); congruence).
  assert (forall evs msg r, wait_update (OSPrioCur k) (mkTCB OS_STAT_RDY OS_STAT_PEND_OK (OSTCBDly t) None msg CRun)
    (OSQTbl k) (OSEventTbl k) evs -> (forall e2 ev2, OSEventTbl k !! e2 = Some ev2 -> exists w, evs !! e2 = Some (set_wait w ev2)) ->
    r = outcome_of t -> let k1 := resumed (OSPrioCur k) msg (OSTCBDly t) (set_events evs k) in kinv k1 /\ self_frame (eq e) k k1 /\
    (exists t1, OSTCBPrioTbl k1 !! OSPrioCur k = Some t1 /\ OSTCBStk t1 = CRun) /\ r = outcome_of t) as Hfin.
  { intros evs msg r H Hsame -> k1. split; [|split; [|split; [|done]]].
    - apply (kinv_same k); [done|by apply core_resumed|done..|]. intros _.
      unfold stk_of, k1, resumed. cbn. by rewrite lookup_insert_eq.
    - split; cbn; [exists t; split; [done|right; by exists e]|eexists; split; [apply lookup_insert_eq|by left]| |done..].
      intros p Hp. by rewrite lookup_insert_ne.
    - eexists. split; [apply lookup_insert_eq|done]. }
  unfold pend_return. kdo. kread Ht. apply wpe_bind.
  destruct (pend_outcome k _ t e Hk Ht Hr Hst) as [[E Hw]|(E & ev & Hev & Hw)]; rewrite E;
    cbn [Z.eqb Pos.eqb OS_STAT_PEND_OK OS_STAT_PEND_TO OS_STAT_PEND_ABORT].
  - kret. kdo. kret. match goal with |- kinv (set_tcbs ?m k) /\ _ => replace (set_tcbs m k) with (set_tcbs m (set_events (OSEventTbl k) k)) by by rewrite set_events_id end.
    apply Hfin; [..|by rewrite (granted_outcome t)].
    + apply wait_update_none; [done|]. intros e2 ev2 H2. by rewrite (in_wait k _ t e2 ev2), Hw.
    + intros e2 ev2 H2. exists (OSEventWait ev2). by destruct ev2.
  - apply wpe_bind. unfold OS_EventTaskRemove. kread Hev. kret. apply Hfin; [..|by rewrite (timed_out_outcome t)].
    + by apply (wait_update_timed_out k _ t).
    + intros e2 ev2 H2. by apply (wait_changed _ _ _ ev).
Qed.

(** * Time *)

(** The TCB after a tick. *)
Definition ticked (t : OS_TCB) : OS_TCB :=
  if OSTCBDly t =? 0 then t else
  let dly := OSTCBDly t - 1 in
  if negb (dly =? 0) then mkTCB (OSTCBStat t) (OSTCBStatPend t) dly (OSTCBEventPtr t) (OSTCBMsg t) (OSTCBStk t)
  else mkTCB OS_STAT_RDY (if OSTCBStat t =? OS_STAT_RDY then OS_STAT_PEND_OK else OS_STAT_PEND_TO) 0
    (OSTCBEventPtr t) (OSTCBMsg t) (OSTCBStk t).

Lemma stat_cases t : task_wf t -> OSTCBStat t = OS_STAT_RDY \/ OSTCBStat t = OS_STAT_SEM \/ OSTCBStat t = OS_STAT_Q.
Proof.
  intros [_ H]. destruct (OSTCBStk t); [by left|..]; (destruct H as [[-> _]|(-> & _)]; [right; cbn; auto|by left]).
Qed.

(** A tick changes nobody's place in the wait lists. *)
Lemma ticked_waiting t : task_wf t -> waiting (ticked t) = waiting t.
Proof.
  intros [Hd H]. unfold ticked. destruct (Z.eqb_spec (OSTCBDly t) 0) as [|Hn]; [done|]. destruct (negb (OSTCBDly t - 1 =? 0)); [by destruct t|].
  unfold waiting, granted. cbn. destruct (OSTCBStk t); [done|..];
    (destruct H as [[-> _]|(_ & ? & _)]; [done|done]).
Qed.

Lemma ticked_wf t : task_wf t -> task_wf (ticked t).
Proof.
  intros [Hd H]. unfold ticked. destruct (Z.eqb_spec (OSTCBDly t) 0) as [|Hn]; [done|].
  destruct (Z.eqb_spec (OSTCBDly t - 1) 0); cbn [negb]; split; cbn; try lia.
  - destruct (OSTCBStk t); [done|..]; (destruct H as [[-> _]|(_ & ? & _)]; [right|lia]; auto).
  - destruct (OSTCBStk t); [done|..]; (destruct H as [?|(_ & ? & _)]; [by left|lia]).
Qed.

Lemma ticked_stk t : OSTCBStk (ticked t) = OSTCBStk t.
Proof. unfold ticked. by repeat case_match. Qed.

(** The ready list after the tick of a task. *)
Definition ticked_rdy (p : Z) (t : OS_TCB) (r : Bits) : Bits := if OSTCBDly t =? 1 then set_prio p r else r.

Lemma ticked_rdy_ok k p t : core k -> OSTCBPrioTbl k !! p = Some t ->
  rdy_update p (ticked t) (OSRdy k) (ticked_rdy p t (OSRdy k)).
Proof.
  intros Hk Ht. pose proof (task_prio k Hk p t Ht) as Hp. unfold ticked_rdy, ticked.
  destruct (Z.eqb_spec (OSTCBDly t) 0) as [E0|H0], (Z.eqb_spec (OSTCBDly t) 1) as [E1|H1]; try lia.
  - by apply (rdy_keep k p t).
  - rewrite E1. by apply rdy_set.
  - rewrite (proj2 (Z.eqb_neq (OSTCBDly t - 1) 0)) by lia. apply (rdy_keep k p t); [done..|].
    unfold ready. cbn. lia.
Qed.

Lemma tick_tcb_ok k p t : core k -> OSTCBPrioTbl k !! p = Some t -> p <> OS_TASK_IDLE_PRIO ->
  tick_tcb p k = Done tt (set_rdy (ticked_rdy p t (OSRdy k)) (set_tcbs (<[p := ticked t]> (OSTCBPrioTbl k)) k)).
Proof.
  intros Hk Ht Hn. pose proof (task_ok k Hk p t Ht) as Hwf. unfold tick_tcb, ticked, ticked_rdy.
  rewrite (bind_done _ _ k t k) by (unfold get_tcb, access; by rewrite Ht).
  destruct (Z.eqb_spec (OSTCBDly t) 0) as [E0|H0]; [|destruct (Z.eqb_spec (OSTCBDly t - 1) 0) as [E1|H1]]; cbn [negb].
  - rewrite E0, insert_id by done. by destruct k.
  - replace (OSTCBDly t) with 1 in * by lia. 
    by destruct (stat_cases t Hwf) as [-> |[-> | ->]]; destruct k.
  - rewrite (proj2 (Z.eqb_neq (OSTCBDly t) 1)) by lia. by destruct k.
Qed.

Lemma adv_ticked k p t : core k -> OSTCBPrioTbl k !! p = Some t -> p <> OS_TASK_IDLE_PRIO ->
  adv k (set_rdy (ticked_rdy p t (OSRdy k)) (set_tcbs (<[p := ticked t]> (OSTCBPrioTbl k)) k)).
Proof.
  intros Hk Ht Hn. pose proof (task_prio k Hk p t Ht) as Hp. pose proof (task_ok k Hk p t Ht) as Hwf.
  pose proof (ticked_rdy_ok k p t Hk Ht) as Hr. split; [|done|..].
  - change (core (set_rdy (ticked_rdy p t (OSRdy k)) (set_events (OSEventTbl k)
      (set_tcb_list (OSTCBList k) (OSTCBFree k) (set_tcbs (<[p := ticked t]> (OSTCBPrioTbl k)) k))))).
    apply core_update; try done.
    + by apply ticked_wf.
    + apply wait_update_none; [done|]. intros e2 ev2 H2. rewrite ticked_waiting by done. by apply (in_wait k p t).
    + intros e typ. rewrite ticked_waiting by done. by apply (task_waits k Hk p t).
    + by eapply listed_existing.
  - intros q Hq Hin. cbn. unfold ticked_rdy. case_match; [|done]. rewrite in_set_prio by (done || apply rdy_bits, Hk). by right.
  - intros q t0 Hq. cbn. destruct (decide (q = p)) as [-> |Hne].
    + rewrite lookup_insert_eq. rewrite Hq in Ht. injection Ht as ->. eexists. split; [done|apply ticked_stk].
    + rewrite lookup_insert_ne by done. eauto.
Qed.

(** Every task but the idle one has been ticked. *)
Definition ticks (l : list Z) (k k1 : Kernel) : Prop :=
  forall p, OSTCBPrioTbl k1 !! p = (if decide (p ∈ l) then ticked else fun t => t) <$> OSTCBPrioTbl k !! p.

Lemma tick_loop_runs l : forall k, core k -> NoDup (l ++ [OS_TASK_IDLE_PRIO]) ->
  (forall p, p ∈ l -> is_Some (OSTCBPrioTbl k !! p)) ->
  runs (tick_loop (l ++ [OS_TASK_IDLE_PRIO])) k (fun _ k1 => adv k k1 /\ ticks l k k1 /\
    OSEventTbl k1 = OSEventTbl k /\ OSQTbl k1 = OSQTbl k).
Proof.
  induction l as [|p l IH]; intros k Hk Hnd Hin; cbn [app tick_loop].
  - kret. split; [by apply adv_refl|]. split; [|done]. intros p. by rewrite option_fmap_id.
  - apply NoDup_cons in Hnd as [Hp Hnd]. rewrite elem_of_app, list_elem_of_singleton in Hp.
    assert (p <> OS_TASK_IDLE_PRIO) as Hn by tauto. destruct (Hin p ltac:(by left)) as [t Ht].
    rewrite (proj2 (Z.eqb_neq _ _) Hn). apply wpe_bind. eapply wpe_done; [by apply tick_tcb_ok|].
    pose proof (adv_ticked k p t Hk Ht Hn) as Ha. eapply wpe_mono; [apply IH|]; [apply Ha|done|..].
    + intros q Hq. cbn. rewrite lookup_insert_ne by (intros ->; tauto). apply Hin. by right.
    + intros ? k1 (H1 & H2 & H3). split; [by eapply adv_trans|]. split; [|done]. intros q. rewrite H2. cbn.
      destruct (decide (q = p)) as [-> |Hne].
      * rewrite lookup_insert_eq, Ht, decide_False, decide_True by (tauto || by left). done.
      * rewrite lookup_insert_ne by done. destruct (decide (q ∈ l)).
        -- by rewrite decide_True by by right.
        -- rewrite decide_False; [done|]. rewrite elem_of_cons. tauto.
Qed.

(** * Interrupts *)

Lemma OSIntExit_sched k : OSRunning k = true -> OSIntNesting k = 1 ->
  OSIntExit k = OS_Sched (set_nesting 0 (OSLockNesting k) k).
Proof. intros Hr Hi. unfold OSIntExit, OS_Sched. by rewrite Hr, Hi. Qed.

Lemma kinv_time k t : kinv k -> 0 <= t < 4294967296 -> kinv (set_time t k).
Proof. intros [Hk []] Ht. split; [by apply core_time|]. by split. Qed.

(** The interrupt of [k], which has set the time to [t]. *)
Definition in_isr (t : Z) (k : Kernel) : Kernel := set_time t (set_nesting 1 (OSLockNesting k) k).

Lemma isr_exit_runs k t k1 : kinv k -> 0 <= t < 4294967296 -> adv (in_isr t k) k1 ->
  runs OSIntExit k1 (fun _ k2 => kinv k2 /\ same_tables k1 k2).
Proof.
  intros Hinv Ht [H1 (T & P & I & L & R) Hrdy Hstk]. pose proof (kinv_time k t Hinv Ht) as H0.
  pose proof (running k (proj2 Hinv)) as Hrun. pose proof (not_nested k (proj2 Hinv)) as Hnest.
  unfold runs, wpe. rewrite OSIntExit_sched; [|by rewrite R|by rewrite I].
  destruct (OS_Sched_ok (set_time t k) (set_nesting 0 (OSLockNesting k1) k1) H0) as (k2 & E & H2).
  { split; [by apply core_nesting|split_and!|done|done]; cbn in *; congruence. }
  rewrite E. split; [done|]. by apply OS_Sched_same in E.
Qed.

Lemma isr_runs {A} (m : M Kernel A) k t (R : Kernel -> Prop) : kinv k -> 0 <= t < 4294967296 ->
  runs m (set_nesting 1 (OSLockNesting k) k) (fun _ k1 => adv (in_isr t k) k1 /\ R k1) ->
  runs (isr m) k (fun _ k2 => kinv k2 /\ exists k1, R k1 /\ same_tables k1 k2).
Proof.
  intros Hinv Ht Hm. unfold isr. apply wpe_bind. eapply wpe_done.
  { unfold OSIntEnter. by rewrite (running k (proj2 Hinv)), (not_nested k (proj2 Hinv)). }
  apply wpe_bind. eapply wpe_mono; [exact Hm|]. intros a k1 [Ha HR]. apply wpe_bind.
  eapply wpe_mono; [by apply (isr_exit_runs k t)|]. intros ? k2 [H2 Hs]. kret. eauto.
Qed.

(** A post from an interrupt. *)
Lemma isr_post_frame {A} (m : M Kernel A) k T : kinv k ->
  (forall k1, core k1 -> finish T k1 (advT T k1) -> runs m k1 (fun _ => advT T k1)) ->
  runs (isr m) k (fun _ k1 => kinv k1 /\ frame T k k1).
Proof.
  intros Hinv Hm. set (k0 := set_nesting 1 (OSLockNesting k) k).
  eapply wpe_mono; [apply (isr_runs m k (OSTime k) (frame T k0)); [done|apply Hinv|]|].
  - replace (in_isr (OSTime k) k) with k0 by by destruct k.
    apply Hm; [by apply core_nesting, Hinv|by apply finish_isr].
  - intros ? k2 (H2 & k1 & Hf & Hs). split; [done|]. eapply frame_same; [done|]. by destruct Hf.
Qed.

Lemma isr_post_runs {A} (m : M Kernel A) k T : kinv k ->
  (forall k1, core k1 -> finish T k1 (advT T k1) -> runs m k1 (fun _ => advT T k1)) ->
  runs (isr m) k (fun _ => stepped T k).
Proof.
  intros Hinv Hm. eapply wpe_mono; [by apply (isr_post_frame m k T)|]. intros ? k1 [H1 H2]. by split; [|left].
Qed.

(** After a tick. *)
Definition after_tick (k k1 : Kernel) : Prop :=
  (forall p, OSTCBPrioTbl k1 !! p = (if decide (p = OS_TASK_IDLE_PRIO) then fun t => t else ticked) <$> OSTCBPrioTbl k !! p) /\
  OSEventTbl k1 = OSEventTbl k /\ OSQTbl k1 = OSQTbl k.

Lemma tick_runs k : core k -> OSRunning k = true -> runs OSTimeTick k (fun _ k1 =>
  adv (set_time (u32 (OSTime k + 1)) k) k1 /\ after_tick k k1).
Proof.
  intros Hk Hr. unfold OSTimeTick. kdo. kdo. cbn [OSRunning set_time]. rewrite Hr. kdo.
  destruct (tcb_list k Hk) as (Hnd & Hin & l & El). cbn [OSTCBList set_time]. rewrite El in *.
  eapply wpe_mono; [apply (tick_loop_runs l); [by apply core_time|done|]|].
  - intros p Hp. apply Hin, elem_of_app. by left.
  - intros ? k1 (H1 & H2 & H3). split; [done|]. split; [|done]. intros p. rewrite H2.
    change (OSTCBPrioTbl (set_time _ k)) with (OSTCBPrioTbl k).
    apply NoDup_app in Hnd as (_ & Hdis & _). destruct (decide (p = OS_TASK_IDLE_PRIO)) as [-> |Hn].
    + rewrite decide_False; [done|]. intros H. apply (Hdis _ H). by left.
    + destruct (OSTCBPrioTbl k !! p) as [t|] eqn:E; [|done]. rewrite decide_True; [done|].
      assert (p ∈ l ++ [OS_TASK_IDLE_PRIO]) as H by (apply Hin; eauto).
      apply elem_of_app in H as [?|?%list_elem_of_singleton]; done.
Qed.

Lemma isr_tick_runs k : kinv k -> runs (isr OSTimeTick) k (fun _ k1 => kinv k1 /\ after_tick k k1).
Proof.
  intros Hinv. eapply wpe_mono; [apply (isr_runs _ k (u32 (OSTime k + 1)) (after_tick (set_nesting 1 (OSLockNesting k) k)))|].
  - done.
  - apply u32_range.
  - apply tick_runs; [by apply core_nesting, Hinv|apply Hinv].
  - intros ? k2 (H2 & k1 & (A & B & C) & E1 & E2 & E3). split; [done|]. split; [intros p; rewrite E1; apply A|].
    by rewrite E2, E3.
Qed.

(** * Delays and new tasks *)

Lemma OSTimeDly_runs k ticks : kinv k -> stk_of k = Some CRun -> OSPrioCur k <> OS_TASK_IDLE_PRIO ->
  0 <= ticks < 4294967296 -> runs (OSTimeDly ticks) k (fun _ => stepped (fun _ => False) k).
Proof.
  intros Hinv Hst Hidle Ht. pose proof Hinv as [Hk Hs].
  pose proof (finish_refl _ k _ Hk (finish_task (fun _ => False) k Hinv)) as Hsame.
  destruct (current_runs k Hinv Hst) as (t & Hct & Hstat & Hdly & Hstk & Hw). pose proof (task_prio k Hk _ _ Hct) as Hp.
  unfold runs, wpe, OSTimeDly. rewrite (not_nested k Hs). cbn [Z.ltb Z.compare orb].
  destruct (Z.ltb_spec 0 (OSLockNesting k)); [done|]. destruct (Z.eqb_spec ticks 0) as [|Hn]; [done|]. cbn [orb].
  match goal with |- match ?m k with _ => _ end => change (runs m k (fun _ => stepped (fun _ => False) k)) end.
  unfold OSTimeDly_section. kdo. kread Hct. kdo. kdo. set (t' := mkTCB _ _ _ _ _ _). cbn [OSTCBPrioTbl set_rdy].
  assert (core (set_rdy (clear_prio (OSPrioCur k) (OSRdy k)) (set_events (OSEventTbl k) (set_tcb_list (OSTCBList k) (OSTCBFree k)
    (set_tcbs (<[OSPrioCur k := t']> (OSTCBPrioTbl k)) k))))) as H1.
  { apply core_update; try done.
    - split; [done|]. unfold t'. cbn. by rewrite Hstk.
    - apply rdy_clear; [done..|]. by intros [_ ?].
    - apply wait_update_none; [done|]. intros e ev He. rewrite (in_wait k _ t e ev), Hw by done.
      unfold waiting, t'. cbn. by rewrite Hstk.
    - unfold waiting, t'. cbn. by rewrite Hstk.
    - by eapply listed_existing. }
  destruct (OS_Sched_switches k _ Hinv H1) as (k2 & E & H2); [done|apply lock_zero; [done|lia]|].
  eapply wpe_done; [exact E|]. split; [done|]. right. eapply self_frame_same; [by apply OS_Sched_same|]. split; cbn; [..|done].
  - exists t. split; [done|by left].
  - exists t'. split; [apply lookup_insert_eq|by left].
  - intros p Hne. by rewrite lookup_insert_ne.
  - intros e ev He. exists (OSEventWait ev). by destruct ev.
Qed.

(** The state with a new task. *)
Definition added (p : Z) (k : Kernel) : Kernel :=
  set_rdy (set_prio p (OSRdy k)) (set_tcb_list (p :: OSTCBList k) (OSTCBFree k - 1)
    (set_tcbs (<[p := mkTCB OS_STAT_RDY OS_STAT_PEND_OK 0 None 0 CRun]> (OSTCBPrioTbl k)) k)).

Lemma adv_added k p : core k -> is_prio p -> OSTCBPrioTbl k !! p = None -> adv k (added p k).
Proof.
  intros Hk Hp Hnew. set (t := mkTCB OS_STAT_RDY OS_STAT_PEND_OK 0 None 0 CRun). split; [|done|..].
  - change (core (set_rdy (set_prio p (OSRdy k)) (set_events (OSEventTbl k) (set_tcb_list (p :: OSTCBList k) (OSTCBFree k - 1)
      (set_tcbs (<[p := t]> (OSTCBPrioTbl k)) k))))).
    apply core_update; try done; [by apply rdy_set|..].
    + apply wait_update_none; [done|]. intros e ev He. rewrite (wait_tasks k Hk e ev p He Hp), Hnew. by split; [intros (? & ? & _)|].
    + destruct (tcb_list k Hk) as (Hnd & Hin & l & El). split; [|split].
      * apply NoDup_cons. split; [|done]. rewrite Hin, Hnew. by intros [].
      * intros q. rewrite elem_of_cons, Hin. destruct (decide (q = p)) as [-> |Hn].
        -- rewrite lookup_insert_eq. split; [eauto|by left].
        -- rewrite lookup_insert_ne by done. tauto.
      * exists (p :: l). by rewrite El.
  - intros q Hq Hin. cbn. rewrite in_set_prio by (done || apply rdy_bits, Hk). by right.
  - intros q t0 Hq. cbn. rewrite lookup_insert_ne by (intros ->; congruence). eauto.
Qed.

Lemma OS_TCBInit_adds p k :
  OS_TCBInit p k = if 0 <? OSTCBFree k then Done OS_ERR_NONE (added p k) else Done OS_ERR_TASK_NO_MORE_TCB k.
Proof. unfold OS_TCBInit. case_match; [|done]. by destruct k. Qed.

Lemma frame_added T k p : OSTCBPrioTbl k !! p = None -> frame T k (added p k).
Proof.
  intros Hnew. split; cbn; [|intros q t1 Hq|done].
  - intros q t Hq. rewrite lookup_insert_ne by (intros ->; congruence). exists t. split; [done|by left].
  - destruct (decide (q = p)) as [-> |Hn]; [rewrite lookup_insert_eq; by intros [= <-]|]. rewrite lookup_insert_ne by done. congruence.
Qed.

Lemma OSTaskCreate_runs k p : kinv k -> 0 <= p < 64 -> runs (OSTaskCreate p) k (fun _ => stepped (fun _ => False) k).
Proof.
  intros Hinv Hp. pose proof Hinv as [Hk Hs]. pose proof (finish_task (fun _ => False) k Hinv) as HP.
  pose proof (finish_refl _ k _ Hk HP) as Hsame. unfold runs, wpe, OSTaskCreate. rewrite (not_nested k Hs).
  rewrite (proj2 (Z.ltb_lt p 64)) by lia. cbn [Z.ltb Z.compare negb].
  destruct (OSTCBPrioTbl k !! p) eqn:Hnew; [done|].
  match goal with |- match ?m k with _ => _ end => change (runs m k (fun _ => stepped (fun _ => False) k)) end.
  apply wpe_bind. pose proof (OS_TCBInit_adds p k) as E. destruct (0 <? OSTCBFree k).
  - eapply wpe_done; [exact E|]. kdo. cbn [OSRunning added set_rdy set_tcb_list set_tcbs]. rewrite (running k Hs).
    apply wpe_bind. eapply wpe_mono; [apply (fin_sched _ k _ HP); split; [by apply adv_added|by apply frame_added]|].
    intros ? k2 H2. by kret.
  - eapply wpe_done; [exact E|]. kdo. kdo. by kret.
Qed.

(** * The scheduler lock *)

Lemma stepped_same T k k1 : same_tables k k1 -> kinv k1 -> stepped T k k1.
Proof. intros Hs H1. split; [done|]. left. eapply frame_same; [done|apply frame_refl]. Qed.

Lemma OSSchedLock_runs k : kinv k -> stk_of k = Some CRun -> runs OSSchedLock k (fun _ => stepped (fun _ => False) k).
Proof.
  intros Hinv Hst. pose proof Hinv as [Hk Hs]. unfold runs, wpe, OSSchedLock.
  destruct (OSRunning k && (OSIntNesting k =? 0) && (OSLockNesting k <? 255)) eqn:E; [|by apply stepped_same].
  apply andb_true_iff in E as [_ E]. apply stepped_same; [done|]. split; [by apply core_nesting|]. destruct Hs. split; cbn; try done; lia.
Qed.

Lemma OSSchedUnlock_runs k : kinv k -> runs OSSchedUnlock k (fun _ => stepped (fun _ => False) k).
Proof.
  intros Hinv. pose proof Hinv as [Hk Hs]. pose proof (lock_range k Hs). unfold runs, wpe, OSSchedUnlock.
  rewrite (running k Hs), (not_nested k Hs). cbn [andb]. destruct (Z.ltb_spec 0 (OSLockNesting k)) as [Hl|]; [|by apply stepped_same].
  pose proof (cur_locked k Hs Hl) as Hst.
  destruct (Z.eqb_spec (OSLockNesting k - 1) 0) as [E|E]; cbn [andb Z.eqb].
  - rewrite E. unfold OS_Sched. cbn [OSIntNesting OSLockNesting set_nesting Z.eqb andb]. rewrite switch_ok by by apply core_nesting.
    apply stepped_same; [done|].
    apply switched_kinv; [by apply core_nesting|by apply (time_range k Hs)|done|done|apply (running k Hs)].
  - apply stepped_same; [done|]. split; [by apply core_nesting|]. destruct Hs. split; cbn; try done; lia.
Qed.

(** * The step *)

(** The event that a step works on. *)
Definition touched (k : Kernel) (i : Input) : option nat :=
  match i with
  | ICall (CSemPendCall e _ | CSemPost e | CSemAccept e | CSemSet e _ | CSemDel e _ | CQPendCall e _ | CQPost e _ |
           CQPostFront e _ | CQAccept e | CQFlush e | CQDel e _) => Some e
  | ICall _ | ITick => None
  | IResume => match stk_of k with Some (CSemPend e | CQPend e) => Some e | _ => None end
  | IIsrSemPost e | IIsrQPost e _ => Some e
  end.

Definition touches (k : Kernel) (i : Input) (e : nat) : Prop := touched k i = Some e.

Lemma stepped_mono (T T' : nat -> Prop) k k1 : (forall e, T e -> T' e) -> stepped T k k1 -> stepped T' k k1.
Proof.
  intros HT [H1 [[A B C]|[A B C D E]]]; (split; [done|]); [left|right].
  - split; [|done|intros e ev Hn; apply C; auto].
    intros p t Ht. destruct (A p t Ht) as (t1 & E1 & [-> |(e & typ & msg & He & Hr)]); eexists; (split; [done|]); [by left|right].
    exists e, typ, msg. split; [by apply HT|done].
  - assert (forall t, in_calls T t -> in_calls T' t) as Hc.
    { intros t [?|(e & He & ?)]; [by left|right]. exists e. split; [by apply HT|done]. }
    split; [..|done|done|done].
    + destruct A as (t & ? & ?). eauto.
    + destruct B as (t & ? & ?). eauto.
Qed.

Lemma runs_ret {A B} (m : M Kernel A) (f : A -> B) k (P Q : Kernel -> Prop) : runs m k (fun _ => P) -> (forall k1, P k1 -> Q k1) ->
  runs (a ← m; mret (f a)) k (fun _ => Q).
Proof. intros H HPQ. apply wpe_bind. eapply wpe_mono; [exact H|]. intros ? k1 ?. kret. auto. Qed.

(** Every call of a task ... *)
Lemma call_runs k c : kinv k -> stk_of k = Some CRun -> call_ok k c ->
  runs (call c) k (fun _ => stepped (touches k (ICall c)) k).
Proof.
  intros Hinv Hst Hok. pose proof (proj1 Hinv) as Hk. set (T := touches k (ICall c)). pose proof (finish_task T k Hinv) as Hf.
  pose proof (not_nested k (proj2 Hinv)) as Hi.
  destruct c; cbn [call call_ok] in *; unfold touches in T; cbn in T.
  - by eapply runs_ret; [apply (OSSemCreate_runs T k _ Hk Hi (fin_same T k _ Hf))|].
  - eapply (runs_ret _ (fun r => match r with Some err => RErr err | None => RBlocked end)); [by apply OSSemPend_runs; tauto|].
    intros k1. apply stepped_mono. by intros ? <-.
  - by eapply runs_ret; [apply (OSSemPost_runs T)|].
  - by eapply runs_ret; [apply (OSSemAccept_runs T)|].
  - by eapply runs_ret; [apply (OSSemSet_runs T); (done || tauto)|].
  - by eapply (runs_ret _ (fun r => RErr r.2)); [apply (OSSemDel_runs T)|].
  - by eapply runs_ret; [apply (OSQCreate_runs T k _ Hk Hi (fin_same T k _ Hf)); (done || tauto)|].
  - eapply (runs_ret _ (fun r => match r with Some r => RMsg r.1 r.2 | None => RBlocked end)); [by apply OSQPend_runs; tauto|].
    intros k1. apply stepped_mono. by intros ? <-.
  - by eapply runs_ret; [apply (OSQPost_runs T)|].
  - by eapply runs_ret; [apply (OSQPostFront_runs T)|].
  - by eapply (runs_ret _ (fun r => RMsg r.1 r.2)); [apply (OSQAccept_runs T)|].
  - destruct Hok as (ev & He & Ht). by eapply runs_ret; [by eapply (OSQFlush_runs T)|].
  - by eapply (runs_ret _ (fun r => RErr r.2)); [apply (OSQDel_runs T)|].
  - eapply (runs_ret _ (fun _ => RUnit)); [by apply OSTimeDly_runs; tauto|]. intros k1. by apply stepped_mono.
  - kdo. kret. by apply stepped_same.
  - kdo. kret. apply stepped_same; [done|]. by apply kinv_time.
  - eapply (runs_ret _ (fun _ => RUnit)); [by apply OSSchedLock_runs|]. intros k1. by apply stepped_mono.
  - eapply (runs_ret _ (fun _ => RUnit)); [by apply OSSchedUnlock_runs|]. intros k1. by apply stepped_mono.
  - eapply runs_ret; [by apply OSTaskCreate_runs|]. intros k1. by apply stepped_mono.
Qed.

(** The task that runs again after its pend call. *)
Lemma resume_runs k : kinv k -> runs (kstep IResume) k (fun _ => stepped (touches k IResume) k).
Proof.
  intros Hinv. destruct (current_task k Hinv) as (t & Ht & _). cbn [kstep].
  apply wpe_bind. eapply wpe_done; [unfold current, gets, get_tcb, access, mbind, M_bind; by rewrite Ht|].
  assert (stk_of k = Some (OSTCBStk t)) as Hst by (unfold stk_of; by rewrite Ht).
  destruct (OSTCBStk t) as [|e|e] eqn:E; [by kret; apply stepped_same|..]; apply wpe_bind.
  - unfold OSSemPend_return. apply wpe_bind. eapply wpe_mono; [by apply (pend_return_runs k e _ t); [..|left]|].
    intros ? k1 (H1 & H2 & _). kret. kret. apply (stepped_mono (eq e)); [|by split; [|right]].
    intros ? <-. unfold touches. cbn. by rewrite Hst.
  - eapply wpe_mono; [by apply (pend_return_runs k e _ t); [..|right]|].
    intros ? k1 (H1 & H2 & _). kret. apply (stepped_mono (eq e)); [|by split; [|right]].
    intros ? <-. unfold touches. cbn. by rewrite Hst.
Qed.

(** ... and every other step. *)
Lemma kstep_runs k i : kinv k -> allowed k i ->
  runs (kstep i) k (fun _ k1 => kinv k1 /\ if decide (i = ITick) then after_tick k k1 else stepped (touches k i) k k1).
Proof.
  intros Hinv Hok.
  assert (i <> ITick -> runs (kstep i) k (fun _ k1 => stepped (touches k i) k k1) ->
    runs (kstep i) k (fun _ k1 => kinv k1 /\ if decide (i = ITick) then after_tick k k1 else stepped (touches k i) k k1)) as Hmono.
  { intros Hn H. eapply wpe_mono; [exact H|]. intros ? k1 H1. rewrite decide_False by done. split; [apply H1|done]. }
  destruct i as [c| | |e|e m].
  - destruct Hok. by apply Hmono, call_runs.
  - by apply Hmono, resume_runs.
  - cbn [kstep]. apply wpe_bind. eapply wpe_mono; [by apply isr_tick_runs|]. intros ? k1 H1. kret. by rewrite decide_True.
  - apply Hmono; [done|]. cbn [kstep]. eapply runs_ret; [|by intros ? H; exact H].
    apply isr_post_runs; [done|]. intros k1 H1 H2. by apply (OSSemPost_runs _ k1 _ H1 H2).
  - apply Hmono; [done|]. cbn [kstep]. eapply runs_ret; [|by intros ? H; exact H].
    apply isr_post_runs; [done|]. intros k1 H1 H2. by apply (OSQPost_runs _ k1 _ H1 H2).
Qed.

(** * The start *)

Definition initialised : Kernel := match OSInit cleared with Done _ k => k | _ => cleared end.

Lemma initialised_core : core initialised.
Proof.
  set (T := mkTCB OS_STAT_RDY OS_STAT_PEND_OK 0 None 0 CRun).
  assert (OSTCBPrioTbl initialised = <[62 := T]> (<[63 := T]> ∅)) as Etcb by by vm_compute.
  assert (OSRdy initialised = set_prio 62 (set_prio 63 no_bits)) as Erdy by by vm_compute.
  assert (OSEventTbl initialised = replicate OS_MAX_EVENTS (mkEvent OS_EVENT_TYPE_UNUSED 0 None no_bits)) as Eev by by vm_compute.
  assert (forall p t, OSTCBPrioTbl initialised !! p = Some t <-> (p = 62 \/ p = 63) /\ t = T) as Htcb.
  { intros p t. rewrite Etcb, !lookup_insert_Some, lookup_empty. split.
    - intros [[<- <-]|[_ [[<- <-]|[_ ?]]]]; [auto..|done].
    - intros [[-> | ->] ->]; [by left|by right; split; [|left]]. }
  assert (forall e ev, OSEventTbl initialised !! e = Some ev -> ev = mkEvent OS_EVENT_TYPE_UNUSED 0 None no_bits) as Hev.
  { intros e ev. rewrite Eev. by intros [-> _]%lookup_replicate_1. }
  pose proof no_bits_ok as Hb. assert (is_prio 62 /\ is_prio 63) as [H62 H63] by done.
  split.
  - rewrite Erdy. by repeat apply set_prio_ok.
  - intros p Hp. rewrite Erdy, !in_set_prio by (try apply set_prio_ok; done). setoid_rewrite Htcb.
    pose proof (in_no_bits p). split.
    + intros [-> |[-> |]]; [..|done]; exists T; (split; [auto|done]).
    + intros (t & [[-> | ->] _] & _); auto.
  - intros p t [[-> | ->] _]%Htcb; done.
  - intros p t [_ ->]%Htcb. done.
  - intros p t e typ [_ ->]%Htcb. done.
  - by intros e ev ->%Hev.
  - intros e ev p ->%Hev Hp. split; [by intros H%in_no_bits|]. intros (t & [_ ->]%Htcb & ?). done.
  - intros e ev ->%Hev. by left.
  - by intros e1 e2 ev1 ev2 q ->%Hev _ [].
  - by intros e ev q ->%Hev [].
  - by vm_compute.
  - split; [apply NoDup_seq|]. intros e He%elem_of_seq. rewrite Eev. eexists. split; [apply lookup_replicate_2; lia|done].
  - by vm_compute.
  - split; [apply NoDup_seq|]. intros q Hq%elem_of_seq. lia.
  - split; [|split]; [by_decide| |by exists [62]].
    intros p. change (OSTCBList initialised) with [62; 63]. rewrite !elem_of_cons, elem_of_nil. split.
    + intros [-> |[-> |[]]]; eexists; apply Htcb; auto.
    + intros [t [? _]%Htcb]. tauto.
  - exists T. split; [apply Htcb; auto|done].
Qed.

(** Before the start nothing is switched. *)
Lemma OSTaskCreate_before p k : core k -> OSIntNesting k = 0 -> OSRunning k = false -> 0 <= p < 64 ->
  runs (OSTaskCreate p) k (fun _ k1 => core k1 /\ same_sched k k1).
Proof.
  intros Hk Hi Hr Hp. unfold runs, wpe, OSTaskCreate. rewrite Hi, (proj2 (Z.ltb_lt p 64)) by apply Hp. cbn [Z.ltb Z.compare negb].
  destruct (OSTCBPrioTbl k !! p) eqn:Hnew; [done|].
  match goal with |- match ?m k with _ => _ end => change (runs m k (fun _ k1 => core k1 /\ same_sched k k1)) end.
  apply wpe_bind. pose proof (OS_TCBInit_adds p k) as E. destruct (0 <? OSTCBFree k); (eapply wpe_done; [exact E|]).
  - kdo. cbn [OSRunning added set_rdy set_tcb_list set_tcbs]. rewrite Hr. kdo. kret.
    by destruct (adv_added k p Hk Hp Hnew).
  - kdo. kdo. by kret.
Qed.

Lemma setup_runs x k : core k -> OSIntNesting k = 0 -> OSRunning k = false -> setup_ok x ->
  runs (setup x) k (fun _ k1 => core k1 /\ same_sched k k1).
Proof.
  intros Hk Hi Hr Hx. set (T := fun _ : nat => False).
  assert (forall k1, advT T k k1 -> OSRdy k1 = OSRdy k -> core k1 /\ same_sched k k1) as HP by (intros k1 [[] _] _; done).
  destruct x as [p|cnt|start size]; cbn [setup setup_ok] in *; apply wpe_bind.
  - eapply wpe_mono; [by apply OSTaskCreate_before|]. intros ? k1 ?. by kret.
  - eapply wpe_mono; [by apply (OSSemCreate_runs T k _ Hk Hi HP)|]. intros ? k1 ?. by kret.
  - eapply wpe_mono; [apply (OSQCreate_runs T k _ Hk Hi HP); tauto|]. intros ? k1 ?. by kret.
Qed.

Lemma setups_runs l : forall k, core k -> OSIntNesting k = 0 -> OSRunning k = false -> Forall setup_ok l ->
  runs (setups l) k (fun _ k1 => core k1 /\ same_sched k k1).
Proof.
  induction l as [|x l IH]; intros k Hk Hi Hr Hl; cbn [setups]; [by kret|].
  apply Forall_cons in Hl as [Hx Hl]. apply wpe_bind.
  eapply wpe_mono; [by apply setup_runs|]. intros ? k1 (H1 & T & P & I & L & R).
  eapply wpe_mono; [apply IH; [done|congruence..|done]|]. intros ? k2 (H2 & T2 & P2 & I2 & L2 & R2).
  split; [done|]. split_and!; congruence.
Qed.

Lemma boot_runs l k : Forall setup_ok l -> runs (boot l) k (fun _ => kinv).
Proof.
  intros Hl. unfold boot. apply wpe_bind. eapply (wpe_done _ _ _ tt initialised); [by vm_compute|].
  apply wpe_bind. eapply wpe_mono; [by apply setups_runs; [apply initialised_core|..]|].
  intros ? k1 (H1 & T & P & I & L & R). unfold wpe, OSStart. rewrite R. change (OSRunning initialised) with false.
  unfold mbind, M_bind. rewrite switch_ok by done. cbn -[kinv].
  apply (switched_kinv (set_running true k1)); try done; [by destruct H1|cbn; by rewrite T].
Qed.

Lemma kruns_inv k tr k1 : kruns k tr k1 -> kinv k -> kinv k1.
Proof.
  induction 1 as [|k i r k1 tr k2 Hok E _ IH]; [done|]. intros Hk. apply IH.
  destruct (proj1 (runs_done _ _ _) (kstep_runs k i Hk Hok)) as (r' & k' & E' & H' & _). congruence.
Qed.

Lemma kinv_step k i r k1 : kinv k -> allowed k i -> kstep i k = Done r k1 -> kinv k1.
Proof. intros Hk Hok E. apply (kruns_inv k [(k, i, r)] k1); [|done]. by apply (Kruns_cons _ _ _ k1); [..|constructor]. Qed.

Lemma booted_kinv l k k0 tr k1 : Forall setup_ok l -> boot l k = Done tt k0 -> kruns k0 tr k1 -> kinv k1.
Proof.
  intros Hp Hb Hr. destruct (proj1 (runs_done _ _ _) (boot_runs l k Hp)) as (u & k0' & E & H0).
  rewrite Hb in E. injection E as _ <-. by eapply kruns_inv.
Qed.

(** * Theorems *)

(** C18: At every moment of a run, unless a task has locked the scheduler,
    the current task is the ready task of the highest priority; and a task is
    ready exactly when its pend call is over and its delay has run out. *)
Theorem highest_ready_runs l k k0 tr k1 : Forall setup_ok l -> boot l k = Done tt k0 -> kruns k0 tr k1 ->
  OSLockNesting k1 = 0 ->
  (exists t, OSTCBPrioTbl k1 !! OSPrioCur k1 = Some t /\ ready t) /\
  forall p t, OSTCBPrioTbl k1 !! p = Some t -> ready t -> OSPrioCur k1 <= p.
Proof.
  intros Hp Hb Hr Hl. pose proof (booted_kinv l k k0 tr k1 Hp Hb Hr) as H1. split; [by apply current_task|].
  intros p t Ht Hready. destruct H1 as [Hk Hs]. rewrite (cur_highest k1 Hs Hl).
  pose proof (task_prio k1 Hk p t Ht) as Hpp. apply (highest_spec _ (rdy_bits k1 Hk) (rdy_nonempty k1 Hk)); [done|].
  apply (rdy_tasks k1 Hk); eauto.
Qed.

(** ** Concrete runs *)

(** The run of a list of inputs. *)
Fixpoint trace (l : list Input) (k : Kernel) : option (list (Kernel * Input * Ret) * Kernel) :=
  match l with
  | [] => Some ([], k)
  | i :: l => match kstep i k with
              | Done r k1 => '(tr, k2) ← trace l k1; Some ((k, i, r) :: tr, k2)
              | _ => None
              end
  end.

Lemma trace_runs l : forall k tr k1, trace l k = Some (tr, k1) ->
  Forall (fun x => allowed x.1.1 x.1.2) tr -> kruns k tr k1.
Proof.
  induction l as [|i l IH]; intros k tr k1 E Hok; simpl in E; [injection E as <- <-; constructor|].
  destruct (kstep i k) as [r k2| |] eqn:Es; [|done..]. destruct (trace l k2) as [[tr2 k3]|] eqn:Et; [|done].
  injection E as <- <-. apply Forall_cons in Hok as [? ?]. by apply (Kruns_cons _ _ _ k2); [..|apply IH].
Qed.

Definition booted (l : list Setup) : Kernel := match boot l cleared with Done _ k => k | _ => cleared end.
Definition steps_of (l : list Input) (k : Kernel) : list (Kernel * Input * Ret) :=
  match trace l k with Some (tr, _) => tr | None => [] end.
Definition state_after (l : list Input) (k : Kernel) : Kernel :=
  match trace l k with Some (_, k1) => k1 | None => k end.

(** Evaluates a run. *)
Ltac run_witness l := apply (trace_runs l); [vm_compute; reflexivity|by_decide].

(** Two tasks. *)
Definition two : list Setup := [SuTask 5; SuTask 9].

(** Task 5 makes a queue and waits for a message, task 9 posts one, an
    interrupt another, and the tick comes. *)
Definition handover : list Input :=
  [ICall (CQCreate [0; 0] 2); ICall (CQPendCall 0 0); ICall (CQPost 0 77); IResume; IIsrQPost 0 78; ITick].

Lemma highest_ready_runs_witness :
  (exists t, OSTCBPrioTbl (state_after handover (booted two)) !! 5 = Some t /\ ready t) /\
  forall p t, OSTCBPrioTbl (state_after handover (booted two)) !! p = Some t -> ready t -> 5 <= p.
Proof.
  assert (OSPrioCur (state_after handover (booted two)) = 5) as E by by vm_compute.
  rewrite <- E. apply (highest_ready_runs two cleared (booted two) (steps_of handover (booted two)));
    [by_decide|vm_compute; reflexivity|run_witness handover|vm_compute; reflexivity].
Defined.
