(* ===== verification/KernelView.v ===== *)
(** The tasks in a pend call on an event, each with the message it has been
    handed, if any: what the steps of the kernel do to this view.  The files
    [KernelQueue] and [KernelSem] build on it. *)
From stdpp Require Import gmap.
From S2P Require Import Prelude ReadyList Kernel MsgQueue KernelInv KernelStep KernelSafe.
#[local] Open Scope Z_scope.

(** The calls [c] of one kind on the event [e]. *)
Definition call_on (c : Context) (e : nat) : Prop := c = CSemPend e \/ c = CQPend e.

Definition party (c : Context) (t : OS_TCB) : option (option Z) :=
  if decide (OSTCBStk t = c) then Some (if granted t then Some (OSTCBMsg t) else None) else None.

Definition parties (c : Context) (k : Kernel) : gmap Z (option Z) := omap (party c) (OSTCBPrioTbl k).

Lemma parties_lookup c k p : parties c k !! p = OSTCBPrioTbl k !! p ≫= party c.
Proof. apply lookup_omap. Qed.

Lemma parties_same c k k1 : (forall p, OSTCBPrioTbl k1 !! p ≫= party c = OSTCBPrioTbl k !! p ≫= party c) -> parties c k1 = parties c k.
Proof. intros H. apply map_eq. intros p. by rewrite !parties_lookup. Qed.

Section View.
Context (c : Context) (e : nat) (Hc : call_on c e).

Lemma party_stk t : OSTCBStk t <> c -> party c t = None.
Proof. intros Hn. unfold party. by rewrite decide_False. Qed.

Lemma party_run t : OSTCBStk t = CRun -> party c t = None.
Proof. intros Hs. apply party_stk. rewrite Hs. by destruct Hc as [-> | ->]. Qed.

Lemma party_other e2 t : pends_on t e2 -> e2 <> e -> party c t = None.
Proof. intros Hp Hn. apply party_stk. by destruct Hp as [-> | ->], Hc as [-> | ->]; intros [=]. Qed.

Lemma in_calls_party (T : nat -> Prop) t : ~ T e -> in_calls T t -> party c t = None.
Proof.
  intros HT [H|(e2 & H2 & H)]; [by apply party_run|]. apply (party_other e2); [done|]. by intros ->.
Qed.

Lemma waiting_pends t e2 typ : waiting t = Some (e2, typ) -> pends_on t e2.
Proof. unfold waiting, pends_on. destruct (OSTCBStk t); [done|..]; case_match; intros [= -> _]; auto. Qed.

Lemma task_adv_party (T : nat -> Prop) t t1 : ~ T e -> task_adv T t t1 -> party c t1 = party c t.
Proof.
  intros HT [-> |(e2 & typ & msg & H2 & Hw & ->)]; [done|]. apply waiting_pends in Hw.
  assert (e2 <> e) as Hn by by intros ->. rewrite (party_other e2 t Hw Hn). by apply (party_other e2).
Qed.

Lemma frame_parties (T : nat -> Prop) k k1 : ~ T e -> frame T k k1 -> parties c k1 = parties c k.
Proof.
  intros HT [A B _]. apply parties_same. intros p. destruct (OSTCBPrioTbl k !! p) as [t|] eqn:E; simpl.
  - destruct (A p t E) as (t1 & -> & Ha). simpl. by eapply task_adv_party.
  - destruct (OSTCBPrioTbl k1 !! p) as [t1|] eqn:E1; [|done]. simpl. by apply party_run, (B p t1 E E1).
Qed.

Lemma self_parties_other (T : nat -> Prop) k k1 : ~ T e -> self_frame T k k1 -> parties c k1 = parties c k.
Proof.
  intros HT [(t & Ht & Ht') (t1 & H1 & H1') C _ _]. apply parties_same. intros p.
  destruct (decide (p = OSPrioCur k)) as [-> |Hn]; [|by rewrite C].
  rewrite Ht, H1. simpl. by rewrite (in_calls_party T t), (in_calls_party T t1).
Qed.

Lemma stepped_parties (T : nat -> Prop) k k1 : ~ T e -> stepped T k k1 -> parties c k1 = parties c k.
Proof. intros HT [_ [H|H]]; [by eapply frame_parties|by eapply self_parties_other]. Qed.

(** The current task goes through a step that leaves the others alone. *)
Lemma self_parties (T : nat -> Prop) k k1 t1 : self_frame T k k1 -> OSTCBPrioTbl k1 !! OSPrioCur k = Some t1 ->
  parties c k1 = partial_alter (fun _ => party c t1) (OSPrioCur k) (parties c k).
Proof.
  intros [_ _ C _ _] H1. apply map_eq. intros p. destruct (decide (p = OSPrioCur k)) as [-> |Hn].
  - by rewrite lookup_partial_alter_eq, parties_lookup, H1.
  - by rewrite lookup_partial_alter_ne, !parties_lookup, C.
Qed.

(** It leaves the call. *)
Lemma self_parties_run (T : nat -> Prop) k k1 t1 : self_frame T k k1 -> OSTCBPrioTbl k1 !! OSPrioCur k = Some t1 ->
  OSTCBStk t1 = CRun -> parties c k1 = delete (OSPrioCur k) (parties c k).
Proof. intros Hf H1 Hs. rewrite (self_parties T k k1 t1 Hf H1). by rewrite (party_run t1 Hs). Qed.

(** It enters it. *)
Lemma self_parties_wait (T : nat -> Prop) k k1 t1 : self_frame T k k1 -> OSTCBPrioTbl k1 !! OSPrioCur k = Some t1 ->
  OSTCBStk t1 = c -> granted t1 = false -> parties c k1 = <[OSPrioCur k := None]> (parties c k).
Proof.
  intros Hf H1 Hs Hg. rewrite (self_parties T k k1 t1 Hf H1). unfold party. by rewrite decide_True, Hg by done.
Qed.

Lemma ticked_granted t : task_wf t -> OSTCBStk t <> CRun -> granted (ticked t) = granted t /\ OSTCBMsg (ticked t) = OSTCBMsg t.
Proof.
  intros Hwf Hn. pose proof (ticked_waiting t Hwf) as H. unfold waiting in H. rewrite ticked_stk in H.
  split; [destruct (OSTCBStk t); [done|..]; by destruct (granted (ticked t)), (granted t)|].
  unfold ticked. by repeat case_match.
Qed.

Lemma tick_parties k k1 : core k -> after_tick k k1 -> parties c k1 = parties c k.
Proof.
  intros Hk (A & _). apply parties_same. intros p. rewrite A. destruct (OSTCBPrioTbl k !! p) as [t|] eqn:E; [simpl|done]. case_decide; [done|].
  unfold party. rewrite ticked_stk. case_decide as Hs; [|done].
  destruct (ticked_granted t) as [-> ->]; [by eapply task_ok|by destruct Hc; congruence|done].
Qed.

Lemma same_tables_parties k k1 : same_tables k k1 -> parties c k1 = parties c k.
Proof. intros (E1 & _). unfold parties. by rewrite E1. Qed.

(** The type of the event that the call is made on. *)
Definition call_type : Z := match c with CQPend _ => OS_EVENT_TYPE_Q | _ => OS_EVENT_TYPE_SEM end.

Lemma party_waiting t : party c t = Some None <-> waiting t = Some (e, call_type).
Proof.
  unfold party, waiting, call_type. destruct Hc as [-> | ->], (OSTCBStk t) as [|e'|e']; case_decide; simplify_eq; try done;
    destruct (granted t); split; try congruence; done.
Qed.

Lemma waits_in_list k ev p : core k -> OSEventTbl k !! e = Some ev -> OSEventType ev = call_type ->
  parties c k !! p = Some None -> is_prio p /\ in_list (OSEventWait ev) p.
Proof.
  intros Hk He Ht H. rewrite parties_lookup in H. destruct (OSTCBPrioTbl k !! p) as [t|] eqn:E; [simpl in H|done].
  apply party_waiting in H. split; [by eapply task_prio|]. apply (in_wait k p t e ev Hk E He). by rewrite Ht.
Qed.

Lemma no_waiters k ev : core k -> OSEventTbl k !! e = Some ev -> OSEventType ev = call_type ->
  Grp (OSEventWait ev) = 0 -> forall p, parties c k !! p <> Some None.
Proof.
  intros Hk He Ht Hg p Hp. destruct (waits_in_list k ev p Hk He Ht Hp) as [Hpp Hin].
  by apply (proj1 (grp_zero _ (wait_bits k Hk e ev He)) Hg p Hpp).
Qed.

Lemma grant_parties k p t ev msg : OSTCBPrioTbl k !! p = Some t -> waiting t = Some (e, call_type) ->
  parties c (grant p t e ev msg k) = <[p := Some msg]> (parties c k).
Proof.
  intros Ht Hw. unfold parties, grant. cbn. rewrite (omap_insert_Some _ _ _ _ (Some msg)); [done|].
  apply party_waiting in Hw. unfold party in *. cbn. by case_decide.
Qed.

(** A post with waiting tasks: the one of the highest priority is handed the message. *)
Lemma handed_to_highest k ev stat msg pr k1 : core k -> OSEventTbl k !! e = Some ev -> OSEventType ev = call_type ->
  Grp (OSEventWait ev) <> 0 -> typ_stat (OSEventType ev) stat ->
  (_ ← OS_EventTaskRdy e msg stat OS_STAT_PEND_OK; OS_Sched;; mret OS_ERR_NONE) k = Done pr k1 ->
  pr = OS_ERR_NONE /\ exists p, parties c k !! p = Some None /\ (forall p2, parties c k !! p2 = Some None -> p <= p2) /\
    parties c k1 = <[p := Some msg]> (parties c k) /\ OSQTbl k1 = OSQTbl k /\
    exists w, OSEventTbl k1 !! e = Some (set_wait w ev).
Proof.
  intros Hk He Ht Hw Hts. destruct (OS_EventTaskRdy_grants k e ev stat msg Hk He Hw Hts) as (p & t & Htp & Ep & Hwt & E).
  rewrite (bind_done _ _ _ _ _ E). intros (u & k2 & E2 & E3)%bind_inv. injection E3 as <- <-. destruct u.
  apply OS_Sched_same in E2. rewrite Ht in Hwt. split; [done|]. exists p. split_and!.
  - rewrite parties_lookup, Htp. by apply party_waiting.
  - intros p2 H2. destruct (waits_in_list k ev p2 Hk He Ht H2). rewrite Ep. by apply (highest_spec _ (wait_bits k Hk e ev He) Hw).
  - rewrite (same_tables_parties _ _ E2). by apply grant_parties.
  - by destruct E2 as (_ & _ & ->).
  - destruct E2 as (_ & -> & _). exists (clear_prio p (OSEventWait ev)). cbn. apply list_lookup_insert_eq.
    by apply lookup_lt_Some in He.
Qed.
End View.

(** * In an interrupt *)

Lemma OSIntExit_same k k1 : OSIntExit k = Done tt k1 -> same_tables k k1.
Proof.
  unfold OSIntExit. case_match; [|by intros [= <-]]. set (k' := set_nesting _ _ k).
  destruct (_ && _); [|by intros [= <-]].
  unfold switch, gets, get_tcb, access, modify, mbind, M_bind. case_match; [|done..].
  case_match; [|done]. simplify_eq. by intros [= <-].
Qed.

Lemma isr_inv {A} (m : M Kernel A) k a k1 : isr m k = Done a k1 ->
  exists k2 k3, same_tables k k2 /\ (core k -> core k2) /\ m k2 = Done a k3 /\ same_tables k3 k1.
Proof.
  unfold isr. intros ([] & k2 & E2 & E)%bind_inv. apply bind_inv in E as (a' & k3 & E3 & E).
  apply bind_inv in E as ([] & k4 & E4 & E). injection E as <- <-. exists k2, k3.
  unfold OSIntEnter in E2. apply OSIntExit_same in E4.
  destruct (OSRunning k && (OSIntNesting k <? 255)); injection E2 as <-; split_and!; (done || by apply core_nesting).
Qed.

(** * The tasks handed to *)

Definition handed (ps : gmap Z (option Z)) : list Z := omap snd (map_to_list ps).

Lemma handed_insert ps p o : ps !! p = None -> handed (<[p := o]> ps) ≡ₚ (match o with Some m => [m] | None => [] end) ++ handed ps.
Proof. intros Hp. unfold handed. rewrite (map_to_list_insert _ _ _ Hp). simpl. by destruct o. Qed.

Lemma handed_delete ps p o : ps !! p = Some o -> handed ps ≡ₚ (match o with Some m => [m] | None => [] end) ++ handed (delete p ps).
Proof.
  intros Hp. rewrite <- (insert_delete_id ps p o Hp) at 1. apply handed_insert. apply lookup_delete_eq.
Qed.

Lemma handed_hand ps p m : ps !! p = Some None -> handed (<[p := Some m]> ps) ≡ₚ m :: handed ps.
Proof.
  intros Hp. rewrite (handed_delete ps p None Hp), <- insert_delete_eq, (handed_insert _ _ (Some m)) by apply lookup_delete_eq. done.
Qed.
