(* ===== verification/KernelQueue.v ===== *)
(** What a message queue promises, as an abstract machine, and that the kernel
    implements it: every message is received exactly once, and by a single
    reader in the order of the posts. *)
From stdpp Require Import gmap.
From S2P Require Import Prelude ReadyList Kernel MsgQueue KernelInv KernelStep KernelSafe KernelView.
#[local] Open Scope Z_scope.

(** * The abstract queue

    The tasks in a pend call, each with the message it has been handed, if
    any, and the messages stored. *)
Definition Queue : Type := gmap Z (option Z) * list Z.

(** What a step asks of the queue, and of which task. *)
Inductive QOp :=
  | OpPost (m : Z)
  | OpFront (m : Z)
  | OpRead (p : Z)
  | OpNone.

(** A step with the messages it puts in and those it gives to a task. *)
Inductive qstep : QOp -> Queue -> list Z -> list Z -> Queue -> Prop :=
  | Q_idle op q : qstep op q [] [] q
  | Q_append ps s m : (forall p, ps !! p <> Some None) -> qstep (OpPost m) (ps, s) [m] [] (ps, s ++ [m])
  | Q_front ps s m : (forall p, ps !! p <> Some None) -> qstep (OpFront m) (ps, s) [m] [] (ps, m :: s)
  | Q_hand op ps p m : op = OpPost m \/ op = OpFront m -> ps !! p = Some None ->
      (forall p2, ps !! p2 = Some None -> p <= p2) -> qstep op (ps, []) [m] [] (<[p := Some m]> ps, [])
  | Q_take ps s p m : ps !! p = None -> qstep (OpRead p) (ps, m :: s) [] [m] (ps, s)
  | Q_wait ps p : ps !! p = None -> qstep (OpRead p) (ps, []) [] [] (<[p := None]> ps, [])
  | Q_deliver ps s p m : ps !! p = Some (Some m) -> qstep (OpRead p) (ps, s) [] [m] (delete p ps, s)
  | Q_timeout ps s p : ps !! p = Some None -> qstep (OpRead p) (ps, s) [] [] (delete p ps, s).

(** ** The view of a kernel *)

(** The tasks in a pend call on the queue. *)
Definition callers (e : nat) (k : Kernel) : gmap Z (option Z) := parties (CQPend e) k.

Definition stored (e : nat) (k : Kernel) : list Z :=
  match ev ← OSEventTbl k !! e; q ← OSEventPtr ev; OSQTbl k !! q with
  | Some q => contents q
  | None => []
  end.

Definition view (e : nat) (k : Kernel) : Queue := (callers e k, stored e k).

Definition is_queue (e : nat) (k : Kernel) : Prop :=
  exists ev, OSEventTbl k !! e = Some ev /\ OSEventType ev = OS_EVENT_TYPE_Q.

(** The messages a step has put in, and has given to a task. *)
Definition sent (e : nat) (x : Kernel * Input * Ret) : list Z :=
  match x with
  | (_, (ICall (CQPost e' m | CQPostFront e' m) | IIsrQPost e' m), RErr err) =>
      if decide (e' = e) then if err =? OS_ERR_NONE then [m] else [] else []
  | _ => []
  end.

Definition received (e : nat) (x : Kernel * Input * Ret) : list Z :=
  match x with
  | (k, i, RMsg m err) => if decide (touched k i = Some e) then if err =? OS_ERR_NONE then [m] else [] else []
  | _ => []
  end.

Definition qop (e : nat) (k : Kernel) (i : Input) : QOp :=
  match i with
  | ICall (CQPost e' m) | IIsrQPost e' m => if decide (e' = e) then OpPost m else OpNone
  | ICall (CQPostFront e' m) => if decide (e' = e) then OpFront m else OpNone
  | ICall (CQPendCall _ _ | CQAccept _) | IResume => if decide (touched k i = Some e) then OpRead (OSPrioCur k) else OpNone
  | _ => OpNone
  end.

(** A deletion and a flush throw messages away. *)
Definition discards (e : nat) (i : Input) : Prop :=
  match i with ICall (CQDel e' _ | CQFlush e') => e' = e | _ => False end.

#[export] Instance discards_dec e i : Decision (discards e i).
Proof. destruct i as [[]| | | |]; simpl; apply _. Defined.

(** * Steps that do not touch the queue *)

Lemma stored_same e k k1 ev w : OSEventTbl k !! e = Some ev -> OSEventTbl k1 !! e = Some (set_wait w ev) ->
  (forall q, OSEventPtr ev = Some q -> OSQTbl k1 !! q = OSQTbl k !! q) -> stored e k1 = stored e k.
Proof. intros H H1 Hq. unfold stored. rewrite H, H1. cbn. destruct (OSEventPtr ev) as [q|]; [cbn; by rewrite Hq|done]. Qed.

Lemma is_queue_set_wait e k k1 ev w : OSEventTbl k !! e = Some ev -> OSEventTbl k1 !! e = Some (set_wait w ev) ->
  is_queue e k -> is_queue e k1.
Proof. intros H H1 (ev' & E & Ht). rewrite H in E. injection E as ->. by exists (set_wait w ev'). Qed.

Lemma call_on_q e : call_on (CQPend e) e.
Proof. by right. Qed.
#[local] Hint Resolve call_on_q : core.

Lemma stepped_view (T : nat -> Prop) e k k1 : ~ T e -> is_queue e k -> stepped T k k1 -> view e k1 = view e k /\ is_queue e k1.
Proof.
  intros HT Hq H. unfold view, callers. rewrite (stepped_parties (CQPend e) e (call_on_q e) T k k1) by done.
  destruct H as [_ [[_ _ C]|[_ _ _ D E]]]; pose proof Hq as (ev & He & Ht).
  - destruct (C e ev HT He) as [H1 Hqs]; [by rewrite Ht|]. split; [|by exists ev]. f_equal.
    apply (stored_same e k k1 ev (OSEventWait ev)); [done|by destruct ev|]. intros q Hp. by apply Hqs.
  - destruct (D e ev He) as [w H1]. split; [|by apply (is_queue_set_wait e k k1 ev w)]. f_equal.
    apply (stored_same e k k1 ev w); [done..|]. by rewrite E.
Qed.

Lemma tick_view e k k1 : core k -> is_queue e k -> after_tick k k1 -> view e k1 = view e k /\ is_queue e k1.
Proof.
  intros Hk Hq Ha. unfold view, callers. rewrite (tick_parties (CQPend e) e (call_on_q e) k k1) by done.
  destruct Ha as (_ & B & C). unfold stored, is_queue. by rewrite B, C.
Qed.

Lemma same_tables_view e k k1 : same_tables k k1 -> view e k1 = view e k.
Proof. intros (E1 & E2 & E3). unfold view, callers, parties, stored. by rewrite E1, E2, E3. Qed.

Lemma same_tables_queue e k k1 : same_tables k k1 -> is_queue e k -> is_queue e k1.
Proof. intros (E1 & E2 & E3). unfold is_queue. by rewrite E2. Qed.

(** * Steps on the queue *)

Lemma queue_data e k : core k -> is_queue e k -> exists ev q qc, OSEventTbl k !! e = Some ev /\ OSEventType ev = OS_EVENT_TYPE_Q /\
  OSEventPtr ev = Some q /\ OSQTbl k !! q = Some qc /\ q_ok qc /\ (0 < OSQEntries qc -> Grp (OSEventWait ev) = 0) /\
  stored e k = contents qc.
Proof.
  intros Hk (ev & He & Ht). destruct (q_data k e ev Hk He Ht) as (q & qc & Hp & Hq & Hok & Hg). exists ev, q, qc.
  split_and!; try done. unfold stored. rewrite He. cbn. rewrite Hp. cbn. by rewrite Hq.
Qed.

(** A changed queue control block. *)
Lemma view_put_q e k ev q qc' : OSEventTbl k !! e = Some ev -> OSEventPtr ev = Some q -> is_Some (OSQTbl k !! q) ->
  view e (set_qs (<[q := qc']> (OSQTbl k)) k) = (callers e k, contents qc').
Proof.
  intros He Hp [qc Hq]. unfold view, stored, callers, parties. cbn [OSEventTbl OSQTbl OSTCBPrioTbl set_qs]. rewrite He. cbn. rewrite Hp. cbn.
  by rewrite list_lookup_insert_eq by by apply lookup_lt_Some in Hq.
Qed.

Lemma use_q_done {A} e k ev q qc (f : OS_Q -> option (A * OS_Q)) a qc' : OSEventTbl k !! e = Some ev -> OSEventPtr ev = Some q ->
  OSQTbl k !! q = Some qc -> f qc = Some (a, qc') -> use_q ev f k = Done a (set_qs (<[q := qc']> (OSQTbl k)) k).
Proof.
  intros He Hp Hq Hf. unfold use_q, get_q, access, put_q, modify, mbind, M_bind. rewrite Hp. cbn. rewrite Hq, Hf. done.
Qed.

Definition fills (op : QOp) (m : Z) (fill : Z -> OS_Q -> option OS_Q) : Prop := forall q, q_ok q -> OSQEntries q < OSQSize q ->
  exists q', fill m q = Some q' /\ q_ok q' /\
    (op = OpPost m /\ contents q' = contents q ++ [m] \/ op = OpFront m /\ contents q' = m :: contents q).

Lemma post_view op e m fill k err k1 : core k -> is_queue e k -> op = OpPost m \/ op = OpFront m -> fills op m fill ->
  post_msg e m fill k = Done err k1 ->
  qstep op (view e k) (if err =? OS_ERR_NONE then [m] else []) [] (view e k1) /\ is_queue e k1.
Proof.
  intros Hk Hq Hop Hfill. destruct (queue_data e k Hk Hq) as (ev & q & qc & He & Ht & Hp & Hqc & Hok & Hg & Hst).
  unfold post_msg. rewrite (bind_done _ _ k ev k) by (unfold get_event, access; by rewrite He). rewrite Ht. cbn [negb Z.eqb Pos.eqb OS_EVENT_TYPE_Q].
  unfold post_section; rewrite (bind_done _ _ k ev k) by (unfold get_event, access; by rewrite He). destruct (Z.eqb_spec (Grp (OSEventWait ev)) 0) as [Hw|Hw]; cbn [negb].
  - rewrite (bind_done _ _ k qc k) by (unfold get_q, access; rewrite Hp; cbn; by rewrite Hqc).
    destruct (Z.leb_spec (OSQSize qc) (OSQEntries qc)).
    + intros [= <- <-]. split; [constructor|done].
    + destruct (Hfill qc Hok ltac:(lia)) as (qc' & E & _ & Hc).
      rewrite (use_q_done e k ev q qc _ OS_ERR_NONE qc') by (done || by rewrite E). intros [= <- <-].
      split; [|by exists ev]. rewrite (view_put_q e k ev q qc') by eauto. unfold view. rewrite Hst.
      pose proof (no_waiters (CQPend e) e (call_on_q e) k ev Hk He Ht Hw). destruct Hc as [[-> ->]|[-> ->]]; by constructor.
  - intros E. destruct (handed_to_highest (CQPend e) e (call_on_q e) k ev OS_STAT_Q m err k1 Hk He Ht Hw) as
      (-> & p & Hpp & Hmin & Eps & Eqs & w & Hev1); [rewrite Ht; constructor|done|]. split.
    + unfold view, callers. rewrite Eps, (stored_same e k k1 ev w He Hev1), Hst by (intros; by rewrite Eqs).
      assert (contents qc = []) as ->; [|by apply Q_hand].
      unfold contents. rewrite seqZ_nil; [done|]. destruct (Z.lt_ge_cases 0 (OSQEntries qc)); [|done]. by destruct Hw, Hg.
    + by exists (set_wait w ev).
Qed.

Lemma put_msg_fills m : fills (OpPost m) m put_msg.
Proof. intros q Hq Hn. destruct (put_msg_ok q m Hq Hn) as (q' & ? & ? & ? & _). eauto 6. Qed.

Lemma put_front_fills m : fills (OpFront m) m put_front.
Proof. intros q Hq Hn. destruct (put_front_ok q m Hq Hn) as (q' & ? & ? & ? & _). eauto 6. Qed.

(** The oldest message is taken. *)
Lemma take_view e k p ev q qc : is_queue e k -> callers e k !! p = None -> OSEventTbl k !! e = Some ev ->
  OSEventPtr ev = Some q -> OSQTbl k !! q = Some qc -> q_ok qc -> stored e k = contents qc -> 0 < OSQEntries qc ->
  exists m k1, use_q ev take_msg k = Done m k1 /\ qstep (OpRead p) (view e k) [] [m] (view e k1) /\ is_queue e k1.
Proof.
  intros Hqu Hps He Hp Hqc Hok Hst Hn. destruct (take_msg_ok _ Hok Hn) as (m & q2 & E & _ & Hc & _).
  exists m, (set_qs (<[q := q2]> (OSQTbl k)) k). split; [by apply (use_q_done e k ev q qc)|]. split; [|done].
  rewrite (view_put_q e k ev q q2) by eauto. unfold view. rewrite Hst, Hc. by apply Q_take.
Qed.

Lemma OSQAccept_view e k p r k1 : core k -> is_queue e k -> callers e k !! p = None -> OSQAccept e k = Done r k1 ->
  qstep (OpRead p) (view e k) [] (if r.2 =? OS_ERR_NONE then [r.1] else []) (view e k1) /\ is_queue e k1.
Proof.
  intros Hk Hqu Hps. destruct (queue_data e k Hk Hqu) as (ev & q & qc & He & Ht & Hp & Hqc & Hok & Hg & Hst).
  unfold OSQAccept. rewrite (bind_done _ _ k ev k) by (unfold get_event, access; by rewrite He). rewrite Ht. cbn [negb Z.eqb Pos.eqb OS_EVENT_TYPE_Q].
  unfold OSQAccept_section; rewrite (bind_done _ _ k ev k) by (unfold get_event, access; by rewrite He). rewrite (bind_done _ _ k qc k) by (unfold get_q, access; rewrite Hp; cbn; by rewrite Hqc).
  destruct (Z.ltb_spec 0 (OSQEntries qc)) as [Hn|].
  - destruct (take_view e k p ev q qc) as (m & k2 & E & H1 & H2); [done..|].
    rewrite (bind_done _ _ _ _ _ E). by intros [= <- <-].
  - intros [= <- <-]. split; [constructor|done].
Qed.

Lemma self_stored (T : nat -> Prop) e k k1 : is_queue e k -> self_frame T k k1 -> stored e k1 = stored e k /\ is_queue e k1.
Proof.
  intros Hq [_ _ _ D E]. pose proof Hq as (ev & He & _). destruct (D e ev He) as [w Hw]. split.
  - apply (stored_same e k k1 ev w); [done..|]. by rewrite E.
  - by apply (is_queue_set_wait e k k1 ev w).
Qed.

Lemma OSQPend_view e k timeout r k1 : kinv k -> is_queue e k -> stk_of k = Some CRun -> OSPrioCur k <> OS_TASK_IDLE_PRIO ->
  0 <= timeout < 4294967296 -> OSQPend e timeout k = Done r k1 ->
  qstep (OpRead (OSPrioCur k)) (view e k) [] (match r with Some (m, err) => if err =? OS_ERR_NONE then [m] else [] | None => [] end) (view e k1) /\
  is_queue e k1.
Proof.
  intros Hinv Hqu Hstk Hidle Hto. pose proof (proj1 Hinv) as Hk.
  destruct (queue_data e k Hk Hqu) as (ev & q & qc & He & Ht & Hp & Hqc & Hok & Hg & Hst).
  destruct (current_runs k Hinv Hstk) as (t & Htc & _ & _ & Hrun & _).
  assert (callers e k !! OSPrioCur k = None) as Hps by (unfold callers; rewrite parties_lookup, Htc; by apply (party_run _ e (call_on_q e))).
  unfold OSQPend. rewrite (bind_done _ _ k ev k) by (unfold get_event, access; by rewrite He).
  rewrite (bind_done _ _ k (OSIntNesting k) k), (bind_done _ _ k (OSLockNesting k) k) by done. rewrite Ht.
  cbn [negb Z.eqb Pos.eqb OS_EVENT_TYPE_Q]. rewrite (not_nested k (proj2 Hinv)). cbn [Z.ltb Z.compare].
  destruct (Z.ltb_spec 0 (OSLockNesting k)) as [|Hl]; [intros [= <- <-]; split; [constructor|done]|].
  unfold OSQPend_section; rewrite (bind_done _ _ k ev k) by (unfold get_event, access; by rewrite He). rewrite (bind_done _ _ k qc k) by (unfold get_q, access; rewrite Hp; cbn; by rewrite Hqc).
  destruct (Z.ltb_spec 0 (OSQEntries qc)) as [Hn|Hn].
  - destruct (take_view e k _ ev q qc Hqu Hps) as (m & k2 & E & H1 & H2); [done..|].
    rewrite (bind_done _ _ _ _ _ E). by intros [= <- <-].
  - intros (u & k2 & E & E2)%bind_inv. injection E2 as <- <-.
    assert (runs (pend e OS_STAT_Q timeout (CQPend e)) k (fun _ k1 => kinv k1 /\ self_frame (eq e) k k1 /\
      exists t1, OSTCBPrioTbl k1 !! OSPrioCur k = Some t1 /\ OSTCBStk t1 = CQPend e /\ granted t1 = false)) as H.
    { apply (pend_runs k e ev); try done; [by apply lock_zero; [|lia]|by right|]. right. right. split; [done|].
      exists q, qc. split_and!; [done..|]. lia. }
    unfold runs, wpe in H. rewrite E in H. destruct H as (_ & Hf & t1 & Ht1 & Hs1 & Hg1).
    destruct (self_stored _ e k k2 Hqu Hf) as (E2 & H2). split; [|done]. unfold view, callers.
    rewrite (self_parties_wait (CQPend e) _ k k2 t1 Hf Ht1 Hs1 Hg1), E2, Hst.
    assert (contents qc = []) as -> by (unfold contents; by rewrite seqZ_nil by lia). by apply Q_wait.
Qed.

Lemma resume_view e k r k1 : kinv k -> is_queue e k -> touches k IResume e -> kstep IResume k = Done r k1 ->
  qstep (OpRead (OSPrioCur k)) (view e k) [] (received e (k, IResume, r)) (view e k1) /\ is_queue e k1.
Proof.
  intros Hinv Hqu Htou. pose proof (proj1 Hinv) as Hk. destruct (current_task k Hinv) as (t & Ht & Hr). unfold touches in Htou. cbn in Htou.
  assert (stk_of k = Some (OSTCBStk t)) as Hst by (unfold stk_of; by rewrite Ht). rewrite Hst in Htou. cbn [kstep].
  rewrite (bind_done _ _ k t k) by (unfold current, gets, get_tcb, access, mbind, M_bind; by rewrite Ht).
  assert (forall clear x k2, pends_on t e -> pend_return e clear k = Done x k2 -> exists t1, self_frame (eq e) k k2 /\
    OSTCBPrioTbl k2 !! OSPrioCur k = Some t1 /\ OSTCBStk t1 = CRun /\ x = outcome_of t) as Hret.
  { intros clear x k2 Hp E. pose proof (pend_return_runs k e clear t Hinv Ht Hp) as H. unfold runs, wpe in H. rewrite E in H.
    destruct H as (_ & Hf & (t1 & H1 & H2) & ->). by exists t1. }
  destruct (OSTCBStk t) as [|e'|e'] eqn:Es; [done|injection Htou as ->..].
  - intros (x & k2 & E & E2)%bind_inv. injection E2 as <- <-. apply bind_inv in E as (y & k3 & E & E3). injection E3 as <- <-.
    destruct (Hret false y k3) as (t1 & Hf & Ht1 & Hs1 & ->); [by left|done|].
    destruct (self_stored _ e k k3 Hqu Hf) as (E2 & H2). split; [|done]. unfold view, callers.
    rewrite (self_parties_run (CQPend e) e (call_on_q e) _ k k3 t1 Hf Ht1 Hs1), E2.
    rewrite delete_id by (rewrite parties_lookup, Ht; simpl; apply party_stk; by rewrite Es). constructor.
  - intros (x & k2 & E & E2)%bind_inv. injection E2 as <- <-.
    destruct (Hret true x k2) as (t1 & Hf & Ht1 & Hs1 & ->); [by right|done|].
    destruct (self_stored _ e k k2 Hqu Hf) as (E2 & H2). split; [|done]. unfold view, callers.
    rewrite (self_parties_run (CQPend e) e (call_on_q e) _ k k2 t1 Hf Ht1 Hs1), E2.
    unfold received, touched. rewrite Hst, decide_True by done.
    assert (callers e k !! OSPrioCur k = Some (if granted t then Some (OSTCBMsg t) else None)) as Hps.
    { unfold callers. rewrite parties_lookup, Ht. simpl. unfold party. by rewrite decide_True. }
    unfold outcome_of. destruct (granted t); cbn; [by apply Q_deliver|by apply Q_timeout].
Qed.

(** A semaphore call on a queue is refused. *)
Lemma sem_call_refused e k c r k1 : is_queue e k ->
  (match c with CSemPendCall e' _ | CSemPost e' | CSemAccept e' | CSemSet e' _ | CSemDel e' _ => e' = e | _ => False end) ->
  call c k = Done r k1 -> k1 = k.
Proof.
  intros (ev & He & Ht) Hc. assert (get_event e k = Done ev k) as E by (unfold get_event, access; by rewrite He).
  destruct c; try done; subst; cbn [call]; intros (a & k2 & E1 & E2)%bind_inv; injection E2 as _ <-; revert E1.
  - unfold OSSemPend. rewrite (bind_done _ _ _ _ _ E), Ht. by intros [= _ <-].
  - unfold OSSemPost. rewrite (bind_done _ _ _ _ _ E), Ht. by intros [= _ <-].
  - unfold OSSemAccept. rewrite (bind_done _ _ _ _ _ E), Ht. by intros [= _ <-].
  - unfold OSSemSet. rewrite (bind_done _ _ _ _ _ E), Ht. by intros [= _ <-].
  - unfold OSSemDel. rewrite (bind_done _ _ _ _ _ E), Ht. by intros [= _ <-].
Qed.

(** * The refinement *)

Lemma call_view e k c r k1 : kinv k -> allowed k (ICall c) -> is_queue e k -> touches k (ICall c) e -> ~ discards e (ICall c) ->
  call c k = Done r k1 -> qstep (qop e k (ICall c)) (view e k) (sent e (k, ICall c, r)) (received e (k, ICall c, r)) (view e k1) /\ is_queue e k1.
Proof.
  intros Hinv [Hst Hok] Hq Htou Hd E. pose proof (proj1 Hinv) as Hk. destruct (current_runs k Hinv Hst) as (t & Htc & _ & _ & Hrun & _).
  assert (callers e k !! OSPrioCur k = None) as Hps by (unfold callers; rewrite parties_lookup, Htc; by apply (party_run _ e (call_on_q e))).
  assert (forall c', call c' k = Done r k1 -> 
    (match c' with CSemPendCall e' _ | CSemPost e' | CSemAccept e' | CSemSet e' _ | CSemDel e' _ => e' = e | _ => False end) ->
    qstep (qop e k (ICall c')) (view e k) (sent e (k, ICall c', r)) (received e (k, ICall c', r)) (view e k1) /\ is_queue e k1) as Hsem.
  { intros c' E' Hc. rewrite (sem_call_refused e k c' r k1 Hq Hc E'). split; [|done].
    destruct c'; try done; cbn [call] in E'; apply bind_inv in E' as (? & ? & _ & E'); injection E' as <- _; try constructor.
    case_match; constructor. }
  unfold touches in Htou. destruct c; try done; cbn in Htou; injection Htou as ->; try (by apply Hsem); try (by destruct Hd);
    cbn [call] in E; apply bind_inv in E as (a & k2 & E & E2); injection E2 as <- <-.
  - destruct Hok as (_ & Hto & Hidle). pose proof (OSQPend_view e k timeout a k2 Hinv Hq Hst Hidle Hto E) as H. unfold qop. cbn [touched]. rewrite decide_True by done.
    destruct a as [[m err]|]; cbn in *; [|done]. by rewrite decide_True.
  - unfold sent, received, qop. cbn [touched]. rewrite !decide_True by done.
    apply (post_view _ e msg put_msg); [done..|by left|apply put_msg_fills|done].
  - unfold sent, received, qop. cbn [touched]. rewrite !decide_True by done.
    apply (post_view _ e msg put_front); [done..|by right|apply put_front_fills|done].
  - unfold sent, received, qop. cbn [touched]. rewrite !decide_True by done. by apply OSQAccept_view.
Qed.

Lemma untouched_quiet e k i r : touched k i <> Some e -> sent e (k, i, r) = [] /\ received e (k, i, r) = [].
Proof.
  intros Hn. split.
  - unfold sent. destruct i as [[]| | | |], r; try done; (rewrite decide_False; [done|]; intros ->; by destruct Hn).
  - unfold received. destruct r; try done. by rewrite decide_False.
Qed.

Lemma isr_view e k i r k1 : core k -> is_queue e k -> touched k i = Some e ->
  (match i with IIsrSemPost _ | IIsrQPost _ _ => True | _ => False end) -> kstep i k = Done r k1 ->
  qstep (qop e k i) (view e k) (sent e (k, i, r)) (received e (k, i, r)) (view e k1) /\ is_queue e k1.
Proof.
  intros Hk Hq Htou Hi. destruct i as [| | |e'|e' m]; try done; cbn in Htou; injection Htou as ->; cbn [kstep];
    intros (a & k4 & E & E2)%bind_inv; injection E2 as <- <-; apply isr_inv in E as (k2 & k3 & S1 & C2 & E & S2);
    pose proof (same_tables_queue e k k2 S1 Hq) as Hq2; rewrite <- (same_tables_view e k k2 S1), (same_tables_view e k3 k4 S2).
  - assert (k3 = k2) as -> by (apply (sem_call_refused e k2 (CSemPost e) (RErr a) k3 Hq2); [done|]; cbn [call]; by rewrite (bind_done _ _ _ _ _ E)).
    split; [constructor|by eapply same_tables_queue; [exact S2|]].
  - destruct (post_view (OpPost m) e m put_msg k2 a k3 (C2 Hk) Hq2 (or_introl eq_refl) (put_msg_fills m) E) as [H1 H2].
    unfold sent, received, qop. rewrite !decide_True by done. split; [done|by eapply same_tables_queue; [exact S2|]].
Qed.

Lemma kstep_view e k i r k1 : kinv k -> allowed k i -> is_queue e k -> ~ discards e i -> kstep i k = Done r k1 ->
  qstep (qop e k i) (view e k) (sent e (k, i, r)) (received e (k, i, r)) (view e k1) /\ is_queue e k1.
Proof.
  intros Hinv Hok Hq Hd E. pose proof (kstep_runs k i Hinv Hok) as H. unfold runs, wpe in H. rewrite E in H. destruct H as [_ H].
  destruct (decide (touched k i = Some e)) as [Htou|Hn].
  - destruct i as [c| | |e'|e' m]; [by apply call_view|unfold qop; rewrite decide_True by done; by apply resume_view|done|by apply isr_view; [apply Hinv|..]..].
  - destruct (untouched_quiet e k i r Hn) as [-> ->]. assert (view e k1 = view e k /\ is_queue e k1) as [-> Hq1]; [|by split; [constructor|]].
    destruct (decide (i = ITick)); [by apply tick_view; [apply Hinv|..]|by apply (stepped_view (touches k i))].
Qed.

(** ** Runs *)

Definition sents (e : nat) (tr : list (Kernel * Input * Ret)) : list Z := tr ≫= sent e.
Definition receiveds (e : nat) (tr : list (Kernel * Input * Ret)) : list Z := tr ≫= received e.

(** The messages between a post and a return: handed over, or stored. *)
Definition in_flight (q : Queue) : list Z := handed q.1 ++ q.2.

Lemma qstep_conserves op q s r q1 : qstep op q s r q1 -> r ++ in_flight q1 ≡ₚ in_flight q ++ s.
Proof.
  unfold in_flight. destruct 1 as [op q|ps s m _|ps s m _|op ps p m _ Hp _|ps s p m _|ps p Hp|ps s p m Hp|ps s p Hp]; simpl.
  - by rewrite app_nil_r.
  - by rewrite app_assoc.
  - by rewrite <- Permutation_middle, <- Permutation_cons_append.
  - rewrite (handed_hand ps p m Hp), !app_nil_r. by rewrite <- Permutation_cons_append.
  - by rewrite app_nil_r, <- Permutation_middle.
  - rewrite (handed_insert ps p None Hp). by rewrite !app_nil_r.
  - rewrite (handed_delete ps p _ Hp). by rewrite app_nil_r.
  - rewrite (handed_delete ps p _ Hp). simpl. by rewrite app_nil_r.
Qed.

Lemma kruns_queue e k tr k1 : kruns k tr k1 -> kinv k -> is_queue e k -> Forall (fun x => ~ discards e x.1.2) tr ->
  receiveds e tr ++ in_flight (view e k1) ≡ₚ in_flight (view e k) ++ sents e tr /\ is_queue e k1.
Proof.
  induction 1 as [k|k i r k1 tr k2 Hok E Hr IH]; intros Hk Hq Hd; [by rewrite app_nil_r|].
  apply Forall_cons in Hd as [Hd Hds]. destruct (kstep_view e k i r k1 Hk Hok Hq Hd E) as [Hs Hq1].
  pose proof (kinv_step k i r k1 Hk Hok E) as Hk1.
  destruct (IH Hk1 Hq1 Hds) as [IH1 Hq2]. split; [|done].
  apply qstep_conserves in Hs. unfold receiveds, sents in *. cbn [mbind list_bind]. 
  rewrite <- app_assoc, IH1, !app_assoc, Hs. done.
Qed.

(** Messages through a queue are received exactly once: whatever tasks and
    interrupts do, in any order, the messages of the successful posts of a run
    are, up to their order, the messages received by successful pend and
    accept calls and those still in flight, that is handed to a task that has
    not run again or stored in the queue.  None is lost or given twice,
    unless the program flushes or deletes the queue. *)
Theorem queue_exactly_once l k k0 tr1 k1 tr2 k2 e : Forall setup_ok l -> boot l k = Done tt k0 ->
  kruns k0 tr1 k1 -> is_queue e k1 -> kruns k1 tr2 k2 -> Forall (fun x => ~ discards e x.1.2) tr2 ->
  receiveds e tr2 ++ in_flight (view e k2) ≡ₚ in_flight (view e k1) ++ sents e tr2.
Proof.
  intros Hp Hb H1 Hq H2 Hd. pose proof (booted_kinv l k k0 tr1 k1 Hp Hb H1) as Hk1. by apply (kruns_queue e k1).
Qed.

(** C4: Each step of the kernel is a step of the abstract queue: a post goes to
    the waiting task of the highest priority or to the end of the store (the
    front with [OSQPostFront]), a pend call takes the oldest message or waits,
    a task that runs again returns its message or a timeout, and nothing else
    changes the queue. *)
Theorem queue_refines l k k0 tr k1 i r k2 e : Forall setup_ok l -> boot l k = Done tt k0 ->
  kruns k0 tr k1 -> is_queue e k1 -> allowed k1 i -> ~ discards e i -> kstep i k1 = Done r k2 ->
  qstep (qop e k1 i) (view e k1) (sent e (k1, i, r)) (received e (k1, i, r)) (view e k2).
Proof.
  intros Hp Hb H1 Hq Hok Hd E2. pose proof (booted_kinv l k k0 tr k1 Hp Hb H1) as Hk1. by apply kstep_view.
Qed.

(** ** A single reader *)

(** Only [p] is in a pend call, and holds at most one message. *)
Definition only (p : Z) (q : Queue) : Prop := forall p2, is_Some (q.1 !! p2) -> p2 = p.

(** In the order in which they will be received. *)
Definition pipeline (p : Z) (q : Queue) : list Z :=
  match q.1 !! p with Some (Some m) => m :: q.2 | _ => q.2 end.

Lemma qstep_fifo p op q s r q1 : qstep op q s r q1 -> (forall c, op = OpRead c -> c = p) -> (forall m, op <> OpFront m) ->
  only p q -> only p q1 /\ r ++ pipeline p q1 = pipeline p q ++ s.
Proof.
  unfold only, pipeline.
  destruct 1 as [op q|ps s m Hn|ps s m Hn|op ps c m Hop Hc Hmin|ps s c m Hc|ps c Hc|ps s c m Hc|ps s c Hc]; intros Hr Hf Ho; cbn [fst snd] in *.
  - by rewrite app_nil_r.
  - split; [done|]. by destruct (ps !! p) as [[m0|]|].
  - by destruct (Hf m).
  - assert (c = p) as -> by (apply Ho; eauto). rewrite lookup_insert_eq, Hc. split; [|done].
    intros p2. destruct (decide (p2 = p)) as [-> |Hne]; [done|]. rewrite lookup_insert_ne by done. apply Ho.
  - rewrite (Hr c eq_refl) in *. rewrite Hc. split; [done|]. by rewrite app_nil_r.
  - rewrite (Hr c eq_refl) in *. rewrite Hc, lookup_insert_eq. split; [|done].
    intros p2. destruct (decide (p2 = p)) as [-> |Hne]; [done|]. rewrite lookup_insert_ne by done. apply Ho.
  - rewrite (Hr c eq_refl) in *. rewrite Hc, lookup_delete_eq, app_nil_r. split; [|done].
    intros p2. rewrite lookup_delete_is_Some. intros [_ ?]. by apply Ho.
  - rewrite (Hr c eq_refl) in *. rewrite Hc, lookup_delete_eq, app_nil_r. split; [|done].
    intros p2. rewrite lookup_delete_is_Some. intros [_ ?]. by apply Ho.
Qed.

(** Nothing is thrown away or put in front, and only [p] reads. *)
Definition orderly (e : nat) (p : Z) (x : Kernel * Input * Ret) : Prop :=
  ~ discards e x.1.2 /\ (forall c, qop e x.1.1 x.1.2 = OpRead c -> c = p) /\ forall m, qop e x.1.1 x.1.2 <> OpFront m.

Lemma kruns_fifo e p k tr k1 : kruns k tr k1 -> kinv k -> is_queue e k -> only p (view e k) -> Forall (orderly e p) tr ->
  receiveds e tr ++ pipeline p (view e k1) = pipeline p (view e k) ++ sents e tr.
Proof.
  induction 1 as [k|k i r k1 tr k2 Hok E Hr IH]; intros Hk Hq Ho Hd; [by rewrite app_nil_r|].
  apply Forall_cons in Hd as [(Hd & Hrd & Hf) Hds]. destruct (kstep_view e k i r k1 Hk Hok Hq Hd E) as [Hs Hq1].
  pose proof (kinv_step k i r k1 Hk Hok E) as Hk1.
  destruct (qstep_fifo p _ _ _ _ _ Hs Hrd Hf Ho) as [Ho1 E1]. specialize (IH Hk1 Hq1 Ho1 Hds).
  unfold receiveds, sents in *. cbn [mbind list_bind]. by rewrite <- app_assoc, IH, !app_assoc, E1.
Qed.

(** C20: A queue with a single reader is a first-in first-out channel: in every
    run in which only task [p] pends on or accepts from the queue, and nobody
    posts to its front, flushes or deletes it, the sequence of the messages
    received, followed by those still in flight, is the sequence of the
    messages in flight at the begin followed by the messages posted, whoever
    posts them, tasks or interrupts, and whether the reader waits or not. *)
Theorem queue_fifo l k k0 tr1 k1 tr2 k2 e p : Forall setup_ok l -> boot l k = Done tt k0 ->
  kruns k0 tr1 k1 -> is_queue e k1 -> only p (view e k1) -> kruns k1 tr2 k2 -> Forall (orderly e p) tr2 ->
  receiveds e tr2 ++ pipeline p (view e k2) = pipeline p (view e k1) ++ sents e tr2.
Proof.
  intros Hp Hb H1 Hq Ho H2 Hd. pose proof (booted_kinv l k k0 tr1 k1 Hp Hb H1) as Hk1. by apply kruns_fifo.
Qed.

(** ** A concrete run *)

Definition q_made : Kernel := state_after [ICall (CQCreate [0; 0] 2)] (booted two).

(** Two messages wait in the queue, the second pend call blocks on the third. *)
Definition traffic : list Input :=
  [ICall (CTimeDly 2); ICall (CQPost 0 71); IIsrQPost 0 72; ICall (CQPost 0 79); ITick; ITick; ICall (CQPendCall 0 0);
   ICall (CQPendCall 0 0); ICall (CQPendCall 0 5); IIsrQPost 0 73].

Lemma queue_fifo_witness : receiveds 0 (steps_of traffic q_made) ++ pipeline 5 (view 0 (state_after traffic q_made)) = [71; 72; 73].
Proof.
  etransitivity.
  - apply (queue_fifo two cleared (booted two) (steps_of [ICall (CQCreate [0; 0] 2)] (booted two)) q_made
      (steps_of traffic q_made) (state_after traffic q_made) 0 5).
    + by_decide.
    + vm_compute. reflexivity.
    + run_witness [ICall (CQCreate [0; 0] 2)].
    + exists (mkEvent OS_EVENT_TYPE_Q 0 (Some 0%nat) no_bits). split; vm_compute; reflexivity.
    + assert (callers 0 q_made = ∅) as E by (vm_compute; reflexivity).
      intros p [o Ho]. cbn [fst view] in Ho. rewrite E, lookup_empty in Ho. discriminate.
    + run_witness traffic.
    + unfold steps_of. vm_compute trace. repeat (constructor; [split; [by intros []|split; [by intros ? [=]|by intros ? [=]]]|]). constructor.
  - vm_compute. reflexivity.
Defined.

Lemma queue_exactly_once_witness :
  receiveds 0 (steps_of traffic q_made) ++ in_flight (view 0 (state_after traffic q_made)) ≡ₚ [71; 72; 73].
Proof.
  etransitivity.
  - apply (queue_exactly_once two cleared (booted two) (steps_of [ICall (CQCreate [0; 0] 2)] (booted two)) q_made
      (steps_of traffic q_made) (state_after traffic q_made) 0).
    + by_decide.
    + vm_compute. reflexivity.
    + run_witness [ICall (CQCreate [0; 0] 2)].
    + exists (mkEvent OS_EVENT_TYPE_Q 0 (Some 0%nat) no_bits). split; vm_compute; reflexivity.
    + run_witness traffic.
    + by_decide.
  - vm_compute. reflexivity.
Defined.

(** The interrupt that posts 73 hands it to the waiting task 5. *)
Lemma queue_refines_witness :
  let k := state_after (take 9 traffic) q_made in
  qstep (qop 0 k (IIsrQPost 0 73)) (view 0 k) [73] [] (view 0 (state_after [IIsrQPost 0 73] k)).
Proof.
  intros k. change (qstep (qop 0 k (IIsrQPost 0 73)) (view 0 k) (sent 0 (k, IIsrQPost 0 73, RErr 0)) (received 0 (k, IIsrQPost 0 73, RErr 0))
    (view 0 (state_after [IIsrQPost 0 73] k))).
  apply (queue_refines two cleared (booted two) (steps_of (ICall (CQCreate [0; 0] 2) :: take 9 traffic) (booted two))).
  - by_decide.
  - vm_compute. reflexivity.
  - run_witness (ICall (CQCreate [0; 0] 2) :: take 9 traffic).
  - eexists (mkEvent OS_EVENT_TYPE_Q 0 (Some 0%nat) _). split; vm_compute; reflexivity.
  - by_decide.
  - intros H. exact H.
  - vm_compute. reflexivity.
Defined.
