(* ===== verification/KernelSem.v ===== *)
(** What a semaphore promises, as an abstract machine, and that the kernel
    implements it: no token is lost or made up, and a semaphore of one token
    excludes. *)
From stdpp Require Import gmap.
From S2P Require Import Prelude ReadyList Kernel MsgQueue KernelInv KernelStep KernelSafe KernelView.
#[local] Open Scope Z_scope.

(** * The abstract semaphore

    The tasks in a pend call, with a value if they have been handed a token,
    and the tokens left. *)
Definition Sem : Type := gmap Z (option Z) * Z.

Inductive SOp :=
  | SopSignal
  | SopWait (p : Z)
  | SopNone.

(** A step with the tokens it puts in and those it gives to a task. *)
Inductive sstep : SOp -> Sem -> Z -> Z -> Sem -> Prop :=
  | S_idle op s : sstep op s 0 0 s
  | S_signal ps n : (forall p, ps !! p <> Some None) -> n < 65535 -> sstep SopSignal (ps, n) 1 0 (ps, n + 1)
  | S_hand ps p m : ps !! p = Some None -> (forall p2, ps !! p2 = Some None -> p <= p2) ->
      sstep SopSignal (ps, 0) 1 0 (<[p := Some m]> ps, 0)
  | S_take ps n p : ps !! p = None -> 0 < n -> sstep (SopWait p) (ps, n) 0 1 (ps, n - 1)
  | S_wait ps p : ps !! p = None -> sstep (SopWait p) (ps, 0) 0 0 (<[p := None]> ps, 0)
  | S_deliver ps n p m : ps !! p = Some (Some m) -> sstep (SopWait p) (ps, n) 0 1 (delete p ps, n)
  | S_timeout ps n p : ps !! p = Some None -> sstep (SopWait p) (ps, n) 0 0 (delete p ps, n).

(** ** The view of a kernel *)

Definition tokens (e : nat) (k : Kernel) : Z := match OSEventTbl k !! e with Some ev => OSEventCnt ev | None => 0 end.
Definition sem_callers (e : nat) (k : Kernel) : gmap Z (option Z) := parties (CSemPend e) k.
Definition sem_view (e : nat) (k : Kernel) : Sem := (sem_callers e k, tokens e k).

Definition is_sem (e : nat) (k : Kernel) : Prop := exists ev, OSEventTbl k !! e = Some ev /\ OSEventType ev = OS_EVENT_TYPE_SEM.

(** The tokens a step has put in, and has given to the current task. *)
Definition signalled (e : nat) (x : Kernel * Input * Ret) : Z :=
  match x with
  | (_, (ICall (CSemPost e') | IIsrSemPost e'), RErr err) => if decide (e' = e) then if err =? OS_ERR_NONE then 1 else 0 else 0
  | _ => 0
  end.

Definition acquired (e : nat) (x : Kernel * Input * Ret) : Z :=
  match x with
  | (k, (ICall (CSemPendCall _ _) | IResume) as i, RErr err) => if decide (touched k i = Some e) then if err =? OS_ERR_NONE then 1 else 0 else 0
  | (_, ICall (CSemAccept e'), RVal v) => if decide (e' = e) then if 0 <? v then 1 else 0 else 0
  | _ => 0
  end.

Definition sop (e : nat) (k : Kernel) (i : Input) : SOp :=
  match i with
  | ICall (CSemPost e') | IIsrSemPost e' => if decide (e' = e) then SopSignal else SopNone
  | ICall (CSemPendCall _ _ | CSemAccept _) | IResume => if decide (touched k i = Some e) then SopWait (OSPrioCur k) else SopNone
  | _ => SopNone
  end.

(** A deletion and [OSSemSet] change the number of tokens at will. *)
Definition resets (e : nat) (i : Input) : Prop :=
  match i with ICall (CSemDel e' _ | CSemSet e' _) => e' = e | _ => False end.

#[export] Instance resets_dec e i : Decision (resets e i).
Proof. destruct i as [[]| | | |]; simpl; apply _. Defined.

Lemma call_on_sem e : call_on (CSemPend e) e.
Proof. by left. Qed.
#[local] Hint Resolve call_on_sem : core.

(** * Steps that do not touch the semaphore *)

Lemma tokens_set_wait e k k1 ev w : OSEventTbl k !! e = Some ev -> OSEventTbl k1 !! e = Some (set_wait w ev) ->
  is_sem e k -> tokens e k1 = tokens e k /\ is_sem e k1.
Proof.
  intros He H1 (ev' & E & Ht). rewrite He in E. injection E as ->. unfold tokens. rewrite He, H1.
  split; [done|]. by exists (set_wait w ev').
Qed.

Lemma stepped_sem (T : nat -> Prop) e k k1 : ~ T e -> is_sem e k -> stepped T k k1 -> sem_view e k1 = sem_view e k /\ is_sem e k1.
Proof.
  intros HT Hq H. unfold sem_view, sem_callers. rewrite (stepped_parties (CSemPend e) e (call_on_sem e) T k k1) by done.
  pose proof Hq as (ev & He & Ht). destruct H as [_ [[_ _ C]|[_ _ _ D _]]].
  - destruct (C e ev HT He) as [H1 _]; [by rewrite Ht|].
    by destruct (tokens_set_wait e k k1 ev (OSEventWait ev)) as [-> ?]; [|destruct ev|..].
  - destruct (D e ev He) as [w H1]. by destruct (tokens_set_wait e k k1 ev w) as [-> ?].
Qed.

Lemma tick_sem e k k1 : core k -> is_sem e k -> after_tick k k1 -> sem_view e k1 = sem_view e k /\ is_sem e k1.
Proof.
  intros Hk Hq Ha. unfold sem_view, sem_callers. rewrite (tick_parties (CSemPend e) e (call_on_sem e) k k1) by done.
  destruct Ha as (_ & B & C). unfold tokens, is_sem. by rewrite B.
Qed.

Lemma same_tables_sem e k k1 : same_tables k k1 -> is_sem e k -> sem_view e k1 = sem_view e k /\ is_sem e k1.
Proof. intros (E1 & E2 & _). unfold sem_view, sem_callers, parties, tokens, is_sem. by rewrite E1, E2. Qed.

(** * Steps on the semaphore *)

Lemma sem_read e k : core k -> is_sem e k -> exists ev, OSEventTbl k !! e = Some ev /\ OSEventType ev = OS_EVENT_TYPE_SEM /\
  get_event e k = Done ev k /\ 0 <= OSEventCnt ev < 65536 /\ (0 < OSEventCnt ev -> Grp (OSEventWait ev) = 0) /\ tokens e k = OSEventCnt ev.
Proof.
  intros Hk (ev & He & Ht). exists ev. destruct (sem_data k e ev Hk He Ht) as [? ?]. unfold get_event, access, tokens. by rewrite He.
Qed.

(** A changed count. *)
Lemma view_put_cnt e k ev n : OSEventTbl k !! e = Some ev -> is_sem e k ->
  sem_view e (set_events (<[e := set_cnt n ev]> (OSEventTbl k)) k) = (sem_callers e k, n) /\
  is_sem e (set_events (<[e := set_cnt n ev]> (OSEventTbl k)) k).
Proof.
  intros He (ev' & E & Ht). rewrite He in E. injection E as ->. unfold sem_view, tokens, is_sem. cbn [OSEventTbl set_events].
  rewrite list_lookup_insert_eq by by apply lookup_lt_Some in He. split; [done|]. by exists (set_cnt n ev').
Qed.

Lemma OSSemPost_sem e k err k1 : core k -> is_sem e k -> OSSemPost e k = Done err k1 ->
  sstep SopSignal (sem_view e k) (if err =? OS_ERR_NONE then 1 else 0) 0 (sem_view e k1) /\ is_sem e k1.
Proof.
  intros Hk Hq. destruct (sem_read e k Hk Hq) as (ev & He & Ht & Eg & Hc & Hg & Etok).
  unfold OSSemPost. rewrite (bind_done _ _ _ _ _ Eg), Ht. cbn [negb Z.eqb Pos.eqb OS_EVENT_TYPE_SEM].
  unfold OSSemPost_section; rewrite (bind_done _ _ _ _ _ Eg). destruct (Z.eqb_spec (Grp (OSEventWait ev)) 0) as [Hw|Hw]; cbn [negb].
  - destruct (Z.ltb_spec (OSEventCnt ev) 65535).
    + intros [= <- <-]. destruct (view_put_cnt e k ev (OSEventCnt ev + 1) He Hq) as [-> Hq1]. split; [|done].
      unfold sem_view. rewrite Etok. constructor; [|done]. by apply (no_waiters (CSemPend e) e (call_on_sem e) k ev).
    + intros [= <- <-]. split; [constructor|done].
  - intros E. destruct (handed_to_highest (CSemPend e) e (call_on_sem e) k ev OS_STAT_SEM 0 err k1 Hk He Ht Hw) as
      (-> & p & Hpp & Hmin & Eps & Eqs & w & Hev1); [rewrite Ht; constructor|done|].
    destruct (tokens_set_wait e k k1 ev w He Hev1 Hq) as [Et1 Hq1]. split; [|done].
    unfold sem_view, sem_callers. rewrite Eps, Et1, Etok.
    assert (OSEventCnt ev = 0) as -> by (destruct (Z.lt_ge_cases 0 (OSEventCnt ev)); [by destruct Hw, Hg|lia]). by apply S_hand.
Qed.

Lemma OSSemAccept_sem e k p v k1 : core k -> is_sem e k -> sem_callers e k !! p = None -> OSSemAccept e k = Done v k1 ->
  sstep (SopWait p) (sem_view e k) 0 (if 0 <? v then 1 else 0) (sem_view e k1) /\ is_sem e k1.
Proof.
  intros Hk Hq Hps. destruct (sem_read e k Hk Hq) as (ev & He & Ht & Eg & Hc & Hg & Etok).
  unfold OSSemAccept. rewrite (bind_done _ _ _ _ _ Eg), Ht. cbn [negb Z.eqb Pos.eqb OS_EVENT_TYPE_SEM].
  unfold OSSemAccept_section; rewrite (bind_done _ _ _ _ _ Eg). intros ([] & k2 & E & E2)%bind_inv. injection E2 as <- <-. destruct (Z.ltb_spec 0 (OSEventCnt ev)) as [Hn|Hn].
  - injection E as <-. destruct (view_put_cnt e k ev (OSEventCnt ev - 1) He Hq) as [-> Hq1]. split; [|done].
    unfold sem_view. rewrite Etok. by apply S_take.
  - injection E as <-. split; [constructor|done].
Qed.

Lemma OSSemPend_sem e k timeout r k1 : kinv k -> is_sem e k -> stk_of k = Some CRun -> OSPrioCur k <> OS_TASK_IDLE_PRIO ->
  sem_callers e k !! OSPrioCur k = None -> 0 <= timeout < 4294967296 -> OSSemPend e timeout k = Done r k1 ->
  sstep (SopWait (OSPrioCur k)) (sem_view e k) 0 (match r with Some err => if err =? OS_ERR_NONE then 1 else 0 | None => 0 end) (sem_view e k1) /\
  is_sem e k1.
Proof.
  intros Hinv Hq Hstk Hidle Hps Hto. pose proof (proj1 Hinv) as Hk.
  destruct (sem_read e k Hk Hq) as (ev & He & Ht & Eg & Hc & Hg & Etok).
  unfold OSSemPend. rewrite (bind_done _ _ _ _ _ Eg), (bind_done _ _ k (OSIntNesting k) k), (bind_done _ _ k (OSLockNesting k) k) by done.
  rewrite Ht. cbn [negb Z.eqb Pos.eqb OS_EVENT_TYPE_SEM]. rewrite (not_nested k (proj2 Hinv)). cbn [Z.ltb Z.compare].
  destruct (Z.ltb_spec 0 (OSLockNesting k)) as [|Hl]; [intros [= <- <-]; split; [constructor|done]|].
  unfold OSSemPend_section; rewrite (bind_done _ _ _ _ _ Eg). destruct (Z.ltb_spec 0 (OSEventCnt ev)) as [Hn|Hn].
  - intros [= <- <-]. destruct (view_put_cnt e k ev (OSEventCnt ev - 1) He Hq) as [-> Hq1]. split; [|done].
    unfold sem_view. rewrite Etok. by apply S_take.
  - intros (u & k2 & E & E2)%bind_inv. injection E2 as <- <-.
    assert (runs (pend e OS_STAT_SEM timeout (CSemPend e)) k (fun _ k1 => kinv k1 /\ self_frame (eq e) k k1 /\
      exists t1, OSTCBPrioTbl k1 !! OSPrioCur k = Some t1 /\ OSTCBStk t1 = CSemPend e /\ granted t1 = false)) as H.
    { apply (pend_runs k e ev); try done; [by apply lock_zero; [|lia]|by left|]. right. left. split; [done|]. split; [done|]. cbn. lia. }
    unfold runs, wpe in H. rewrite E in H. destruct H as (_ & Hf & t1 & Ht1 & Hs1 & Hg1).
    destruct (self_event _ _ _ Hf e ev He) as [w Hw]. destruct (tokens_set_wait e k k2 ev w He Hw Hq) as [Et2 Hq2].
    split; [|done]. unfold sem_view, sem_callers. rewrite (self_parties_wait (CSemPend e) _ k k2 t1 Hf Ht1 Hs1 Hg1), Et2, Etok.
    replace (OSEventCnt ev) with 0 by lia. by apply S_wait.
Qed.

Lemma resume_sem e k r k1 : kinv k -> is_sem e k -> touches k IResume e -> kstep IResume k = Done r k1 ->
  sstep (SopWait (OSPrioCur k)) (sem_view e k) 0 (acquired e (k, IResume, r)) (sem_view e k1) /\ is_sem e k1.
Proof.
  intros Hinv Hqu Htou. pose proof (proj1 Hinv) as Hk. destruct (current_task k Hinv) as (t & Ht & Hr). unfold touches in Htou. cbn in Htou.
  assert (stk_of k = Some (OSTCBStk t)) as Hst by (unfold stk_of; by rewrite Ht). rewrite Hst in Htou. cbn [kstep].
  rewrite (bind_done _ _ k t k) by (unfold current, gets, get_tcb, access, mbind, M_bind; by rewrite Ht).
  assert (forall clear x k2, pends_on t e -> pend_return e clear k = Done x k2 -> x = outcome_of t /\ is_sem e k2 /\
    sem_view e k2 = (delete (OSPrioCur k) (sem_callers e k), tokens e k)) as Hret.
  { intros clear x k2 Hp E. pose proof (pend_return_runs k e clear t Hinv Ht Hp) as H. unfold runs, wpe in H. rewrite E in H.
    destruct H as (_ & Hf & (t1 & H1 & H2) & ->). pose proof Hqu as (ev & He & _). destruct (self_event _ _ _ Hf e ev He) as [w Hw].
    destruct (tokens_set_wait e k k2 ev w He Hw Hqu) as [Et2 Hq2]. split_and!; [done..|]. unfold sem_view, sem_callers.
    by rewrite (self_parties_run (CSemPend e) e (call_on_sem e) _ k k2 t1 Hf H1 H2), Et2. }
  destruct (OSTCBStk t) as [|e'|e'] eqn:Es; [done|injection Htou as ->..].
  - intros (x & k2 & E & E2)%bind_inv. injection E2 as <- <-. apply bind_inv in E as (y & k3 & E & E3). injection E3 as <- <-.
    destruct (Hret false y k3) as (-> & Hq1 & ->); [by left|done|]. split; [|done].
    unfold acquired, touched. rewrite Hst, decide_True by done.
    assert (sem_callers e k !! OSPrioCur k = Some (if granted t then Some (OSTCBMsg t) else None)) as Hps.
    { unfold sem_callers. rewrite parties_lookup, Ht. simpl. unfold party. by rewrite decide_True. }
    unfold outcome_of, sem_view. destruct (granted t); cbn; [by eapply S_deliver|by apply S_timeout].
  - intros (x & k2 & E & E2)%bind_inv. injection E2 as <- <-.
    destruct (Hret true x k2) as (-> & Hq1 & ->); [by right|done|]. split; [|done].
    rewrite delete_id; [constructor|]. unfold sem_callers. rewrite parties_lookup, Ht. simpl. apply party_stk. by rewrite Es.
Qed.

(** A queue call on a semaphore is refused; a flush is not among the allowed calls. *)
Lemma q_call_refused e k c r k1 : is_sem e k ->
  (match c with CQPendCall e' _ | CQPost e' _ | CQPostFront e' _ | CQAccept e' | CQDel e' _ => e' = e | _ => False end) ->
  call c k = Done r k1 -> k1 = k.
Proof.
  intros (ev & He & Ht) Hc. assert (get_event e k = Done ev k) as E by (unfold get_event, access; by rewrite He).
  destruct c; try done; subst; cbn [call]; intros (a & k2 & E1 & E2)%bind_inv; injection E2 as _ <-; revert E1.
  - unfold OSQPend. rewrite (bind_done _ _ _ _ _ E), Ht. by intros [= _ <-].
  - unfold OSQPost, post_msg. rewrite (bind_done _ _ _ _ _ E), Ht. by intros [= _ <-].
  - unfold OSQPostFront, post_msg. rewrite (bind_done _ _ _ _ _ E), Ht. by intros [= _ <-].
  - unfold OSQAccept. rewrite (bind_done _ _ _ _ _ E), Ht. by intros [= _ <-].
  - unfold OSQDel. rewrite (bind_done _ _ _ _ _ E), Ht. by intros [= _ <-].
Qed.

(** * The refinement *)

Lemma sem_untouched e k i r : touched k i <> Some e -> signalled e (k, i, r) = 0 /\ acquired e (k, i, r) = 0.
Proof.
  intros Hn. split.
  - unfold signalled. destruct i as [[]| | | |], r; try done; (rewrite decide_False; [done|]; intros ->; by destruct Hn).
  - unfold acquired. destruct i as [[]| | | |], r; try done; (rewrite decide_False; [done|]; try done; intros ->; by destruct Hn).
Qed.

Lemma call_sem e k c r k1 : kinv k -> allowed k (ICall c) -> is_sem e k -> touches k (ICall c) e -> ~ resets e (ICall c) ->
  call c k = Done r k1 ->
  sstep (sop e k (ICall c)) (sem_view e k) (signalled e (k, ICall c, r)) (acquired e (k, ICall c, r)) (sem_view e k1) /\ is_sem e k1.
Proof.
  intros Hinv [Hst Hok] Hq Htou Hd E. pose proof (proj1 Hinv) as Hk. destruct (current_runs k Hinv Hst) as (t & Htc & _ & _ & Hrun & _).
  assert (sem_callers e k !! OSPrioCur k = None) as Hps.
  { unfold sem_callers. rewrite parties_lookup, Htc. by apply (party_run _ e (call_on_sem e)). }
  assert (forall c', call c' k = Done r k1 ->
    (match c' with CQPendCall e' _ | CQPost e' _ | CQPostFront e' _ | CQAccept e' | CQDel e' _ => e' = e | _ => False end) ->
    sstep (sop e k (ICall c')) (sem_view e k) (signalled e (k, ICall c', r)) (acquired e (k, ICall c', r)) (sem_view e k1) /\ is_sem e k1) as Hqc.
  { intros c' E' Hc. rewrite (q_call_refused e k c' r k1 Hq Hc E'). split; [|done]. destruct c'; try done; destruct r; constructor. }
  unfold touches in Htou. destruct c; try done; cbn in Htou; injection Htou as ->; try (by apply Hqc); try (by destruct Hd);
    [..|destruct Hok as (ev & He & Ht), Hq as (ev' & He' & Ht'); rewrite He in He'; injection He' as ->; by rewrite Ht in Ht'];
    cbn [call] in E; apply bind_inv in E as (a & k2 & E & E2); injection E2 as <- <-; unfold sop, signalled, acquired; cbn [touched];
    rewrite ?decide_True by done.
  - destruct Hok as (_ & Hto & Hidle). pose proof (OSSemPend_sem e k timeout a k2 Hinv Hq Hst Hidle Hps Hto E) as H.
    destruct a as [err|]; [by rewrite ?decide_True by done|done].
  - by apply OSSemPost_sem.
  - by apply OSSemAccept_sem.
Qed.

Lemma isr_sem e k i r k1 : core k -> is_sem e k -> touched k i = Some e ->
  (match i with IIsrSemPost _ | IIsrQPost _ _ => True | _ => False end) -> kstep i k = Done r k1 ->
  sstep (sop e k i) (sem_view e k) (signalled e (k, i, r)) (acquired e (k, i, r)) (sem_view e k1) /\ is_sem e k1.
Proof.
  intros Hk Hq Htou Hi. destruct i as [| | |e'|e' m]; try done; cbn in Htou; injection Htou as ->; cbn [kstep];
    intros (a & k4 & E & E2)%bind_inv; injection E2 as <- <-; apply isr_inv in E as (k2 & k3 & S1 & C2 & E & S2);
    destruct (same_tables_sem e k k2 S1 Hq) as [<- Hq2].
  - destruct (OSSemPost_sem e k2 a k3 (C2 Hk) Hq2 E) as [H1 H2]. destruct (same_tables_sem e k3 k4 S2 H2) as [-> Hq4].
    unfold sop, signalled, acquired. by rewrite !decide_True by done.
  - assert (k3 = k2) as -> by (apply (q_call_refused e k2 (CQPost e m) (RErr a) k3 Hq2); [done|]; cbn [call]; by rewrite (bind_done _ _ _ _ _ E)).
    destruct (same_tables_sem e k2 k4 S2 Hq2) as [-> Hq4]. split; [constructor|done].
Qed.

Lemma kstep_sem e k i r k1 : kinv k -> allowed k i -> is_sem e k -> ~ resets e i -> kstep i k = Done r k1 ->
  sstep (sop e k i) (sem_view e k) (signalled e (k, i, r)) (acquired e (k, i, r)) (sem_view e k1) /\ is_sem e k1.
Proof.
  intros Hinv Hok Hq Hd E. pose proof (kstep_runs k i Hinv Hok) as H. unfold runs, wpe in H. rewrite E in H. destruct H as [_ H].
  destruct (decide (touched k i = Some e)) as [Htou|Hn].
  - destruct i as [c| | |e'|e' m]; [by apply call_sem|unfold sop; rewrite decide_True by done; by apply resume_sem|done|by apply isr_sem; [apply Hinv|..]..].
  - destruct (sem_untouched e k i r Hn) as [-> ->]. assert (sem_view e k1 = sem_view e k /\ is_sem e k1) as [-> Hq1]; [|by split; [constructor|]].
    destruct (decide (i = ITick)); [by apply tick_sem; [apply Hinv|..]|by apply (stepped_sem (touches k i))].
Qed.

(** Each step of the kernel is a step of the abstract semaphore: a post
    gives its token to the waiting task of the highest priority or adds it to
    the count, a pend call takes a token or waits, a task that runs again has
    its token or a timeout, and nothing else changes the semaphore. *)
Theorem semaphore_refines l k k0 tr k1 i r k2 e : Forall setup_ok l -> boot l k = Done tt k0 ->
  kruns k0 tr k1 -> is_sem e k1 -> allowed k1 i -> ~ resets e i -> kstep i k1 = Done r k2 ->
  sstep (sop e k1 i) (sem_view e k1) (signalled e (k1, i, r)) (acquired e (k1, i, r)) (sem_view e k2).
Proof.
  intros Hp Hb H1 Hq Hok Hd E. pose proof (booted_kinv l k k0 tr k1 Hp Hb H1) as Hk1. by apply kstep_sem.
Qed.

(** * Tokens *)

(** The tokens left and those handed to a task that has not run again. *)
Definition supply (s : Sem) : Z := s.2 + zlen (handed s.1).

Lemma sstep_conserves op s p a s1 : sstep op s p a s1 -> a + supply s1 = supply s + p.
Proof.
  unfold supply, zlen. destruct 1 as [op s|ps n _ _|ps c m Hc _|ps n c Hc Hn|ps c Hc|ps n c m Hc|ps n c Hc]; cbn [fst snd]; try lia.
  - rewrite (handed_hand ps c m Hc). simpl. lia.
  - rewrite (handed_insert ps c None Hc). simpl. lia.
  - rewrite (handed_delete ps c _ Hc). simpl. lia.
  - rewrite (handed_delete ps c _ Hc). simpl. lia.
Qed.

(** The balance of a task: tokens received less tokens posted. *)
Definition delta (e : nat) (x : Kernel * Input * Ret) : Z := acquired e x - signalled e x.

Fixpoint total (f : Kernel * Input * Ret -> Z) (tr : list (Kernel * Input * Ret)) : Z :=
  match tr with
  | [] => 0
  | x :: tr => f x + total f tr
  end.

Definition balance (e : nat) (p : Z) : list (Kernel * Input * Ret) -> Z :=
  total (fun x => if decide (OSPrioCur x.1.1 = p) then delta e x else 0).

Lemma kruns_conserve e k tr k1 : kruns k tr k1 -> kinv k -> is_sem e k -> Forall (fun x => ~ resets e x.1.2) tr ->
  total (delta e) tr + supply (sem_view e k1) = supply (sem_view e k) /\ is_sem e k1.
Proof.
  induction 1 as [k|k i r k1 tr k2 Hok E Hr IH]; intros Hk Hq Hd; [done|].
  apply Forall_cons in Hd as [Hd Hds]. destruct (kstep_sem e k i r k1 Hk Hok Hq Hd E) as [Hs Hq1].
  destruct (IH (kinv_step k i r k1 Hk Hok E) Hq1 Hds) as [IH1 Hq2]. split; [|done]. apply sstep_conserves in Hs. cbn [total]. unfold delta at 1. lia.
Qed.

Lemma total_add f g tr : total (fun x => f x + g x) tr = total f tr + total g tr.
Proof. induction tr as [|x tr IH]; simpl; lia. Qed.

Lemma total_ext f g tr : Forall (fun x => f x = g x) tr -> total f tr = total g tr.
Proof. induction 1 as [|x tr Hx _ IH]; simpl; lia. Qed.

(** The balances of all tasks. *)
Fixpoint balances (e : nat) (ps : list Z) (tr : list (Kernel * Input * Ret)) : Z :=
  match ps with
  | [] => 0
  | p :: ps => balance e p tr + balances e ps tr
  end.

Lemma balances_total e ps tr : NoDup ps ->
  balances e ps tr = total (fun x => if decide (OSPrioCur x.1.1 ∈ ps) then delta e x else 0) tr.
Proof.
  induction 1 as [|p ps Hp _ IH]; cbn [balances].
  - induction tr as [|x tr IH]; [done|]. cbn [total]. rewrite <- IH, decide_False; [done|]. apply not_elem_of_nil.
  - rewrite IH. unfold balance. rewrite <- total_add. apply total_ext, Forall_forall. intros x _.
    destruct (decide (OSPrioCur x.1.1 = p)) as [-> |Hn].
    + rewrite decide_False, decide_True by (done || by left). lia.
    + destruct (decide (OSPrioCur x.1.1 ∈ ps)); [rewrite decide_True by (by right)|rewrite decide_False; [|rewrite elem_of_cons; tauto]]; lia.
Qed.

Lemma balances_two e ps tr p q : NoDup ps -> p ∈ ps -> q ∈ ps -> p <> q -> (forall c, 0 <= balance e c tr) ->
  balance e p tr + balance e q tr <= balances e ps tr.
Proof.
  intros Hnd Hp Hq Hne Hpos.
  assert (forall ps, 0 <= balances e ps tr) as H0 by (induction ps0 as [|c ps0 IH]; simpl; [lia|specialize (Hpos c); lia]).
  assert (forall ps c, c ∈ ps -> balance e c tr <= balances e ps tr) as H1.
  { induction ps0 as [|d ps0 IH]; intros c Hc; [by apply elem_of_nil in Hc|]. simpl. specialize (H0 ps0). specialize (Hpos d).
    apply elem_of_cons in Hc as [-> |Hc]; [lia|]. specialize (IH c Hc). lia. }
  induction ps as [|d ps IH]; [by apply elem_of_nil in Hp|]. apply NoDup_cons in Hnd as [Hd Hnd]. simpl. specialize (Hpos d).
  apply elem_of_cons in Hp as [-> |Hp], Hq as [-> |Hq]; [done|..].
  - specialize (H1 ps q Hq). lia.
  - specialize (H1 ps p Hp). lia.
  - specialize (IH Hnd Hp Hq). lia.
Qed.

Lemma kruns_prios k tr k1 : kruns k tr k1 -> kinv k -> Forall (fun x => is_prio (OSPrioCur x.1.1)) tr.
Proof.
  induction 1 as [|k i r k1 tr k2 Hok E Hr IH]; intros Hk; constructor; [by apply cur_prio, Hk|].
  apply IH. by eapply kinv_step.
Qed.

Lemma supply_nonneg e k : core k -> is_sem e k -> 0 <= supply (sem_view e k).
Proof.
  intros Hk Hq. destruct (sem_read e k Hk Hq) as (ev & _ & _ & _ & Hc & _ & Et). unfold supply, sem_view. cbn [fst snd].
  pose proof (zlen_nonneg (handed (sem_callers e k))). lia.
Qed.

(** C10: A semaphore of one token excludes.  A task holds it between a successful
    pend (or accept) and its post.  At a moment of a run when no task has
    posted more often than it has received, no two tasks hold it, whatever
    the order in which tasks and interrupts came (a post by an interrupt counts
    for the task it interrupts); and no token is made up or lost: those held
    and those supplied add up to one. *)
Theorem semaphore_excludes l k k0 tr1 k1 tr2 k2 e p q : Forall setup_ok l -> boot l k = Done tt k0 ->
  kruns k0 tr1 k1 -> is_sem e k1 -> supply (sem_view e k1) = 1 -> kruns k1 tr2 k2 ->
  Forall (fun x => ~ resets e x.1.2) tr2 -> (forall c, 0 <= balance e c tr2) -> p <> q -> is_prio p -> is_prio q ->
  ~ (0 < balance e p tr2 /\ 0 < balance e q tr2) /\ balances e (seqZ 0 64) tr2 + supply (sem_view e k2) = 1.
Proof.
  intros Hp Hb H1 Hq Hone H2 Hd Hpos Hne Hpp Hqq. pose proof (booted_kinv l k k0 tr1 k1 Hp Hb H1) as Hk1.
  destruct (kruns_conserve e k1 tr2 k2 H2 Hk1 Hq Hd) as [Hc Hq2].
  assert (balances e (seqZ 0 64) tr2 = total (delta e) tr2) as Hsum.
  { rewrite balances_total by apply NoDup_seqZ. apply total_ext. eapply Forall_impl; [by apply (kruns_prios k1 tr2 k2)|].
    intros x Hx. cbv beta. rewrite decide_True; [done|]. apply elem_of_seqZ. unfold is_prio in Hx. lia. }
  split; [|lia]. intros [Hp1 Hq1]. pose proof (supply_nonneg e k2 (proj1 (kruns_inv k1 tr2 k2 H2 Hk1)) Hq2) as Hs.
  pose proof (balances_two e (seqZ 0 64) tr2 p q) as H. unfold is_prio in *. rewrite !elem_of_seqZ in H.
  specialize (H (NoDup_seqZ _ _) ltac:(lia) ltac:(lia) Hne Hpos). lia.
Qed.

(** ** A concrete run *)

Definition mutex_made : Kernel := state_after [ICall (CSemCreate 1)] (booted two).

(** Task 5 takes the semaphore and sleeps with it; task 9 has to wait. *)
Definition contention : list Input := [ICall (CSemPendCall 0 0); ICall (CTimeDly 2); ICall (CSemPendCall 0 0); ITick].

Lemma semaphore_excludes_witness :
  ~ (0 < balance 0 5 (steps_of contention mutex_made) /\ 0 < balance 0 9 (steps_of contention mutex_made)) /\
  balances 0 (seqZ 0 64) (steps_of contention mutex_made) + supply (sem_view 0 (state_after contention mutex_made)) = 1.
Proof.
  apply (semaphore_excludes two cleared (booted two) (steps_of [ICall (CSemCreate 1)] (booted two)) mutex_made
    (steps_of contention mutex_made) (state_after contention mutex_made) 0 5 9).
  - by_decide.
  - vm_compute. reflexivity.
  - run_witness [ICall (CSemCreate 1)].
  - exists (mkEvent OS_EVENT_TYPE_SEM 1 None no_bits). split; vm_compute; reflexivity.
  - vm_compute. reflexivity.
  - run_witness contention.
  - by_decide.
  - intros c. destruct (decide (c = 5)) as [-> |H5]; [vm_compute; discriminate|].
    destruct (decide (c = 9)) as [-> |H9]; [vm_compute; discriminate|].
    destruct (decide (c = 62)) as [-> |H62]; [vm_compute; discriminate|]. unfold balance, steps_of. vm_compute trace. cbn [total].
    rewrite !decide_False by (cbn; congruence). lia.
  - discriminate.
  - by_decide.
  - by_decide.
Defined.

Lemma semaphore_refines_witness :
  sstep (sop 0 mutex_made (ICall (CSemPendCall 0 0))) (sem_view 0 mutex_made) 0 1
    (sem_view 0 (state_after [ICall (CSemPendCall 0 0)] mutex_made)).
Proof.
  change (sstep (sop 0 mutex_made (ICall (CSemPendCall 0 0))) (sem_view 0 mutex_made)
    (signalled 0 (mutex_made, ICall (CSemPendCall 0 0), RErr 0)) (acquired 0 (mutex_made, ICall (CSemPendCall 0 0), RErr 0))
    (sem_view 0 (state_after [ICall (CSemPendCall 0 0)] mutex_made))).
  apply (semaphore_refines two cleared (booted two) (steps_of [ICall (CSemCreate 1)] (booted two))).
  - by_decide.
  - vm_compute. reflexivity.
  - run_witness [ICall (CSemCreate 1)].
  - exists (mkEvent OS_EVENT_TYPE_SEM 1 None no_bits). split; vm_compute; reflexivity.
  - by_decide.
  - intros H. exact H.
  - vm_compute. reflexivity.
Defined.
