(* ===== verification/KernelSplit.v ===== *)
(** The kernel with the preemption between the tests of a call and its
    critical section: the calls as they are interleaved, that a run of them is
    a run of whole calls, and that no such run makes a wild access. *)
From stdpp Require Import gmap.
From S2P Require Import Prelude ReadyList Kernel MsgQueue KernelInv KernelStep KernelSafe KernelView KernelQueue KernelSem.
#[local] Open Scope Z_scope.

(** * The two parts of a call

    What a call looks at before [OS_ENTER_CRITICAL].  [Some r]: it returns
    [r]; [None]: it goes on to its critical section. *)
Definition type_test (e : nat) (typ : Z) (refused : Ret) : M Kernel (option Ret) :=
  ev ← get_event e;
  mret (if negb (OSEventType ev =? typ) then Some refused else None).

Definition pend_tests (e : nat) (typ : Z) (refused : Z -> Ret) : M Kernel (option Ret) :=
  ev ← get_event e;
  int ← gets OSIntNesting;
  lock ← gets OSLockNesting;
  mret (if negb (OSEventType ev =? typ) then Some (refused OS_ERR_EVENT_TYPE)
        else if 0 <? int then Some (refused OS_ERR_PEND_ISR)
        else if 0 <? lock then Some (refused OS_ERR_PEND_LOCKED)
        else None).

Definition del_tests (e : nat) (typ : Z) : M Kernel (option Ret) :=
  ev ← get_event e;
  int ← gets OSIntNesting;
  mret (if negb (OSEventType ev =? typ) then Some (RErr OS_ERR_EVENT_TYPE)
        else if 0 <? int then Some (RErr OS_ERR_DEL_ISR)
        else None).

Definition dly_tests (ticks : Z) : M Kernel (option Ret) :=
  int ← gets OSIntNesting;
  lock ← gets OSLockNesting;
  mret (if (0 <? int) || (0 <? lock) || (ticks =? 0) then Some RUnit else None).

Definition tests (c : Call) : M Kernel (option Ret) :=
  match c with
  | CSemPendCall e _ => pend_tests e OS_EVENT_TYPE_SEM RErr
  | CSemPost e | CSemSet e _ => type_test e OS_EVENT_TYPE_SEM (RErr OS_ERR_EVENT_TYPE)
  | CSemAccept e => type_test e OS_EVENT_TYPE_SEM (RVal 0)
  | CSemDel e _ => del_tests e OS_EVENT_TYPE_SEM
  | CQPendCall e _ => pend_tests e OS_EVENT_TYPE_Q (RMsg 0)
  | CQPost e _ | CQPostFront e _ => type_test e OS_EVENT_TYPE_Q (RErr OS_ERR_EVENT_TYPE)
  | CQAccept e => type_test e OS_EVENT_TYPE_Q (RMsg 0 OS_ERR_EVENT_TYPE)
  | CQDel e _ => del_tests e OS_EVENT_TYPE_Q
  | CTimeDly ticks => dly_tests ticks
  | _ => mret None
  end.

(** The critical section, with the [OS_Sched] after it. *)
Definition section (c : Call) : M Kernel Ret :=
  match c with
  | CSemPendCall e t => r ← OSSemPend_section e t; mret (match r with Some err => RErr err | None => RBlocked end)
  | CSemPost e => err ← OSSemPost_section e; mret (RErr err)
  | CSemAccept e => v ← OSSemAccept_section e; mret (RVal v)
  | CSemSet e cnt => err ← OSSemSet_section e cnt; mret (RErr err)
  | CSemDel e opt => r ← OSSemDel_section e opt; mret (RErr r.2)
  | CQPendCall e t => r ← OSQPend_section e t; mret (match r with Some r => RMsg r.1 r.2 | None => RBlocked end)
  | CQPost e m => err ← post_section e m put_msg; mret (RErr err)
  | CQPostFront e m => err ← post_section e m put_front; mret (RErr err)
  | CQAccept e => r ← OSQAccept_section e; mret (RMsg r.1 r.2)
  | CQDel e opt => r ← OSQDel_section e opt; mret (RErr r.2)
  | CTimeDly t => OSTimeDly_section t;; mret RUnit
  | c => call c
  end.

Lemma call_split c k : call c k = (r ← tests c; match r with Some r => mret r | None => section c end) k.
Proof.
  destruct c; try done; cbn [call tests section];
    unfold type_test, pend_tests, del_tests, dly_tests, OSSemPend, OSSemPost, OSSemAccept, OSSemSet, OSSemDel, OSQPend, OSQPost,
      OSQPostFront, post_msg, OSQAccept, OSQDel, OSTimeDly, get_event, gets, access, mbind, M_bind;
    try (destruct (OSEventTbl k !! e) as [ev|]; [|done]);
    repeat (match goal with |- context [if ?b then mret _ else _] => destruct b end; [done|]); try done.
  by destruct (_ || _).
Qed.

(** * The interleaving

    The kernel, and for each task that is between the tests and the critical
    section of a call the call it is in. *)
Record IState := mkI { kern : Kernel; inside : gmap Z Call }.

Definition on_kernel {A} (m : M Kernel A) : M IState A := fun s =>
  match m (kern s) with
  | Done a k => Done a (mkI k (inside s))
  | Err c k => Err c (mkI k (inside s))
  | Crash => Crash
  end.

(** The current task makes the tests of a call, or goes on to its critical
    section; or any other step of the kernel: a task goes on with the rest of
    a pend call, the tick, a post by an interrupt. *)
Inductive Move :=
  | MTests (c : Call)
  | MSection
  | MKernel (i : Input).

Definition imove (m : Move) : M IState (option Ret) :=
  match m with
  | MTests c =>
      r ← on_kernel (tests c);
      match r with
      | Some r => mret (Some r)
      | None => modify (fun s => mkI (kern s) (<[OSPrioCur (kern s) := c]> (inside s)));; mret None
      end
  | MSection =>
      cur ← gets (fun s => OSPrioCur (kern s));
      c ← access (fun s => inside s !! cur);
      modify (fun s => mkI (kern s) (delete cur (inside s)));;
      r ← on_kernel (section c);
      mret (Some r)
  | MKernel i => r ← on_kernel (kstep i); mret (Some r)
  end.

(** The event that a call gives back. *)
Definition deleted (c : Call) : option nat :=
  match c with CSemDel e _ | CQDel e _ => Some e | _ => None end.

(** No other task is inside a call on what [c] deletes. *)
Definition alone (cur : Z) (c : Call) (m : gmap Z Call) : Prop :=
  match deleted c with
  | Some e => map_Forall (fun p c' => p = cur \/ touched cleared (ICall c') <> Some e) m
  | None => True
  end.

(** What a program must see to, besides [call_ok]: an event is deleted only
    when no other task is inside a call on it. *)
Definition iallowed (s : IState) (m : Move) : Prop :=
  let k := kern s in
  let here := inside s !! OSPrioCur k in
  match m with
  | MTests c => here = None /\ stk_of k = Some CRun /\ call_ok k c
  | MSection => match here with Some c => alone (OSPrioCur k) c (inside s) | None => False end
  | MKernel (ICall _) => False
  | MKernel i => allowed k i
  end.

#[export] Instance alone_dec cur c m : Decision (alone cur c m).
Proof. unfold alone. case_match; apply _. Defined.

#[export] Instance iallowed_dec s m : Decision (iallowed s m).
Proof. unfold iallowed. destruct m as [c| |[]]; cbn zeta; try case_match; apply _. Defined.

Inductive iruns : IState -> list (IState * Move * option Ret) -> IState -> Prop :=
  | Iruns_nil s : iruns s [] s
  | Iruns_cons s m r s1 tr s2 : iallowed s m -> imove m s = Done r s1 -> iruns s1 tr s2 -> iruns s ((s, m, r) :: tr) s2.

(** * What stays true of a task inside a call *)

Definition is_type (e : nat) (typ : Z) (k : Kernel) : Prop :=
  exists ev, OSEventTbl k !! e = Some ev /\ OSEventType ev = typ.

(** The event and the type that the tests of a call have seen, and what else
    they leave. *)
Definition tested (c : Call) : option (nat * Z) :=
  match c with
  | CSemPendCall e _ | CSemPost e | CSemSet e _ | CSemAccept e | CSemDel e _ => Some (e, OS_EVENT_TYPE_SEM)
  | CQPendCall e _ | CQPost e _ | CQPostFront e _ | CQAccept e | CQDel e _ => Some (e, OS_EVENT_TYPE_Q)
  | _ => None
  end.

Definition type_holds (c : Call) (k : Kernel) : Prop :=
  match tested c with Some (e, typ) => is_type e typ k | None => True end.

Definition waits (c : Call) : Prop :=
  match c with CSemPendCall _ _ | CQPendCall _ _ | CTimeDly _ => True | _ => False end.

Definition delays (c : Call) : Prop := match c with CTimeDly ticks => ticks <> 0 | _ => True end.

Lemma tests_none c k k1 : tests c k = Done None k1 ->
  k1 = k /\ type_holds c k /\ delays c /\ (waits c -> OSLockNesting k <= 0).
Proof.
  unfold type_holds, is_type.
  destruct c; cbn [tests tested waits delays]; try (by intros [= <-]);
    unfold type_test, pend_tests, del_tests, dly_tests, get_event, gets, access, mbind, M_bind;
    try (destruct (OSEventTbl k !! e) as [ev|]; [|done]); intros [= E <-];
    repeat (match type of E with (if ?b then _ else _) = _ => destruct b eqn:?; [discriminate E|] end);
    rewrite ?negb_false_iff, ?orb_false_iff in *; (split; [done|]).
  all: (split; [first [done|eexists; split; [reflexivity|lia]]|split; [first [done|lia]|intros; first [done|lia]]]).
Qed.

Lemma tests_pass c k : OSIntNesting k = 0 -> type_holds c k -> delays c -> (waits c -> OSLockNesting k <= 0) ->
  tests c k = Done None k.
Proof.
  unfold type_holds, is_type. intros Hi Ht Hd Hw.
  destruct c; cbn [tests tested waits delays] in *; try done;
    unfold type_test, pend_tests, del_tests, dly_tests, get_event, gets, access, mbind, M_bind;
    try (destruct Ht as (ev & -> & ->)); rewrite ?Hi; cbn [negb Z.eqb Pos.eqb OS_EVENT_TYPE_Q OS_EVENT_TYPE_SEM Z.ltb Z.compare orb]; try done;
    rewrite (proj2 (Z.ltb_ge 0 (OSLockNesting k))) by auto; try done.
  by rewrite (proj2 (Z.eqb_neq _ _) Hd).
Qed.

Lemma tests_some c k r k1 : tests c k = Done (Some r) k1 -> k1 = k /\ call c k = Done r k.
Proof.
  intros E. assert (k1 = k) as ->; [|split; [done|by rewrite call_split, (bind_done _ _ _ _ _ E)]].
  revert E. destruct c; cbn [tests]; try (by intros [=]);
    unfold type_test, pend_tests, del_tests, dly_tests, get_event, gets, access, mbind, M_bind;
    try (destruct (OSEventTbl k !! e) as [ev|]; [|done]); by intros [= _ <-].
Qed.

(** The tests return. *)
Lemma tests_run c k : core k -> call_ok k c -> exists r, tests c k = Done r k.
Proof.
  intros Hk Hok. destruct c; cbn [tests call_ok] in *; try (by eexists);
    unfold type_test, pend_tests, del_tests, dly_tests, get_event, gets, access, mbind, M_bind; try (by eexists);
    (assert (events e) as He by tauto); destruct (event_exists k e Hk He) as [ev ->]; by eexists.
Qed.

(** ** What a step does to the tasks that are not running *)

(** The type of an event changes only when it is deleted. *)
Lemma type_kept k i r k1 e typ : kinv k -> allowed k i -> kstep i k = Done r k1 -> (forall c, i = ICall c -> deleted c <> Some e) ->
  typ = OS_EVENT_TYPE_SEM \/ typ = OS_EVENT_TYPE_Q -> is_type e typ k -> is_type e typ k1.
Proof.
  intros Hinv Hok E Hd [-> | ->] Ht.
  - destruct (decide (resets e i)) as [Hr|Hr]; [|by apply (kstep_sem e k i r k1)].
    destruct i as [[]| | | |]; try done; cbn in Hr; subst; [|by destruct (Hd _ eq_refl)]. cbn [kstep call] in E.
    apply bind_inv in E as (a & k2 & E & E2). injection E2 as _ <-. destruct Ht as (ev & He & Ht).
    assert (get_event e k = Done ev k) as Eg by (unfold get_event, access; by rewrite He).
    unfold OSSemSet, OSSemSet_section in E. rewrite (bind_done _ _ _ _ _ Eg), Ht in E. cbn [negb Z.eqb Pos.eqb OS_EVENT_TYPE_SEM] in E.
    rewrite (bind_done _ _ _ _ _ Eg) in E. case_match; injection E as _ <-; [|by exists ev].
    exists (set_cnt cnt ev). cbn. by rewrite list_lookup_insert_eq by by apply lookup_lt_Some in He.
  - destruct (decide (discards e i)) as [Hr|Hr]; [|by apply (kstep_view e k i r k1)].
    destruct i as [[]| | | |]; try done; cbn in Hr; subst; [|by destruct (Hd _ eq_refl)]. cbn [kstep call] in E.
    apply bind_inv in E as (a & k2 & E & E2). injection E2 as _ <-. destruct Ht as (ev & He & Ht). exists ev. split; [|done].
    unfold OSQFlush in E. apply bind_inv in E as (ev' & k3 & E1 & E). unfold get_event, access in E1. rewrite He in E1. injection E1 as <- <-.
    unfold use_q in E. apply bind_inv in E as (q & k3 & E1 & E). unfold get_q, access in E1. case_match; [|done]. injection E1 as <- <-.
    by destruct (OSEventPtr ev); [injection E as _ <-|].
Qed.

(** A task that is in its own code stays there. *)
Lemma stk_kept k i r k1 p : kinv k -> allowed k i -> kstep i k = Done r k1 -> (forall c, i = ICall c -> p <> OSPrioCur k) ->
  OSTCBStk <$> OSTCBPrioTbl k !! p = Some CRun -> OSTCBStk <$> OSTCBPrioTbl k1 !! p = Some CRun.
Proof.
  intros Hinv Hok E Hp Hs. destruct (OSTCBPrioTbl k !! p) as [t|] eqn:Ht; [|done]. injection Hs as Hs.
  assert (forall T, frame T k k1 -> OSTCBStk <$> OSTCBPrioTbl k1 !! p = Some CRun) as Hframe.
  { intros T Hf. destruct (frame_task _ _ _ Hf p t Ht) as (t1 & -> & Ha). simpl. by rewrite (task_adv_stk _ _ _ Ha), Hs. }
  assert (p <> OSPrioCur k -> i <> ITick -> OSTCBStk <$> OSTCBPrioTbl k1 !! p = Some CRun) as Hother.
  { intros Hne Hi. pose proof (kstep_runs k i Hinv Hok) as H. unfold runs, wpe in H. rewrite E, decide_False in H by done.
    destruct H as (_ & _ & [Hf|Hf]); [by eapply Hframe|]. rewrite (self_others _ _ _ Hf p Hne), Ht. simpl. by rewrite Hs. }
  destruct i as [c| | |e|e m].
  - by apply Hother; [apply (Hp c)|].
  - apply Hother; [|done]. intros ->. apply Hok. unfold stk_of. rewrite Ht. simpl. by rewrite Hs.
  - pose proof (kstep_runs k ITick Hinv Hok) as H. unfold runs, wpe in H. rewrite E, decide_True in H by done.
    destruct H as (_ & H & _). rewrite H, Ht. case_match; simpl; by rewrite ?ticked_stk, Hs.
  - apply (Hframe (eq e)). cbn [kstep] in E. apply bind_inv in E as (a & k2 & E & E2). injection E2 as _ <-.
    pose proof (isr_post_frame (OSSemPost e) k (eq e) Hinv) as H. unfold runs at 2, wpe in H. rewrite E in H. apply H.
    intros k3 H3 H4. by apply (OSSemPost_runs _ k3 _ H3 H4).
  - apply (Hframe (eq e)). cbn [kstep] in E. apply bind_inv in E as (a & k2 & E & E2). injection E2 as _ <-.
    pose proof (isr_post_frame (OSQPost e m) k (eq e) Hinv) as H. unfold runs at 2, wpe in H. rewrite E in H. apply H.
    intros k3 H3 H4. by apply (OSQPost_runs _ k3 _ H3 H4).
Qed.

(** ** The scheduler lock

    Only [OSSchedLock] and [OSSchedUnlock] change the lock, and there is no
    switch while it is held. *)
Section Lock.
Context (L p0 : Z).

Definition lock_kept (k : Kernel) : Prop := OSLockNesting k = L /\ (OSPrioCur k = p0 \/ L = 0).

Lemma preserves_gets {A} I (f : Kernel -> A) : preserves I (gets f).
Proof. by intros k a k1 HI [= _ <-]. Qed.

Lemma switch_kept : L = 0 -> preserves lock_kept switch.
Proof.
  intros HL. unfold switch. apply preserves_bind; [apply preserves_gets|intros p].
  apply preserves_bind; [apply preserves_access|intros t]. apply preserves_modify. intros k [H _]. split; [done|by right].
Qed.

Lemma OS_Sched_kept : preserves lock_kept OS_Sched.
Proof.
  intros k a k1 Hk. unfold OS_Sched. case_match eqn:E; [|by intros [= _ <-]].
  apply andb_true_iff in E as [_ E]. apply switch_kept; [|done]. destruct Hk. lia.
Qed.

(** [walk lem] walks through a service, with [lem] for its loop. *)
Ltac walk lem :=
  repeat (cbv beta zeta; first
    [ assumption
    | lem
    | apply preserves_ret | apply preserves_access | apply preserves_gets
    | apply preserves_modify; by intros
    | apply OS_Sched_kept
    | apply preserves_bind; [|intros]
    | match goal with |- preserves _ (match ?x with _ => _ end) => destruct x end
    | match goal with |- preserves _ ?m => progress unfold m end
    | match goal with |- preserves _ (?f _) => progress unfold f end
    | match goal with |- preserves _ (?f _ _) => progress unfold f end
    | match goal with |- preserves _ (?f _ _ _) => progress unfold f end
    | match goal with |- preserves _ (?f _ _ _ _) => progress unfold f end ]).
Ltac keeps := walk ltac:(fail).

Lemma Rdy_kept e pmsg msk stat : preserves lock_kept (OS_EventTaskRdy e pmsg msk stat).
Proof. keeps. Qed.

Lemma ready_all_kept fuel e msk : preserves lock_kept (ready_all fuel e msk).
Proof. induction fuel as [|fuel IH]; [done|]. cbn [ready_all]. keeps. Qed.

Lemma tick_loop_kept l : preserves lock_kept (tick_loop l).
Proof. induction l as [|p l IH]; [done|]. cbn [tick_loop]. destruct (p =? OS_TASK_IDLE_PRIO); [apply preserves_ret|]. apply preserves_bind; [keeps|done]. Qed.

(** The services that choose by the state what to do. *)
Ltac chosen HI := repeat (case_match; try (by intros [= _ <-]); try done);
  match goal with |- ?m ?k = Done _ _ -> _ => let H := fresh in assert (preserves lock_kept m) as H; [|intros ?; by eapply H] end.

Lemma OSTimeDly_kept ticks : preserves lock_kept (OSTimeDly ticks).
Proof. intros k a k1 HI. unfold OSTimeDly. chosen HI. keeps. Qed.

Lemma new_event_kept : preserves lock_kept new_event.
Proof. intros k a k1 HI. unfold new_event. case_match; by intros [= _ <-]. Qed.

Lemma OSSemCreate_kept cnt : preserves lock_kept (OSSemCreate cnt).
Proof.
  intros k a k1 HI. unfold OSSemCreate. chosen HI. apply preserves_bind; [apply new_event_kept|intros e]. keeps.
Qed.

Lemma OSQCreate_kept start size : preserves lock_kept (OSQCreate start size).
Proof.
  intros k a k1 HI. unfold OSQCreate. chosen HI. apply preserves_bind; [apply new_event_kept|intros e]. keeps.
Qed.

Lemma OSTaskCreate_kept p : preserves lock_kept (OSTaskCreate p).
Proof.
  intros k a k1 HI. unfold OSTaskCreate. chosen HI. apply preserves_bind; [|intros err; keeps].
  intros k2 a2 k3 HI2. rewrite OS_TCBInit_adds. case_match; by intros [= _ <-].
Qed.

(** Every call but the two that change the lock, and every interrupt. *)
Definition locks (c : Call) : Prop := c = CSchedLock \/ c = CSchedUnlock.

Lemma call_kept c : ~ locks c -> preserves lock_kept (call c).
Proof.
  intros Hc. destruct c; cbn [call]; try (by destruct Hc; unfold locks; auto);
    (apply preserves_bind; [|intros; apply preserves_ret]);
    first [apply OSSemCreate_kept|apply OSQCreate_kept|apply OSTaskCreate_kept|apply OSTimeDly_kept|idtac].
  all: walk ltac:(apply ready_all_kept).
Qed.

Lemma isr_post_kept {A} (m : M Kernel A) : preserves lock_kept m -> preserves lock_kept (isr m).
Proof.
  intros Hm. unfold isr. apply preserves_bind.
  { intros k a k1 HI. unfold OSIntEnter. case_match; by intros [= _ <-]. }
  intros _. apply preserves_bind; [done|intros a]. apply preserves_bind; [|intros; apply preserves_ret].
  intros k u k1 HI. unfold OSIntExit. case_match; [|by intros [= _ <-]]. cbn zeta.
  match goal with |- context [if ?b then switch ?k2 else _] => destruct b eqn:E; [|by intros [= _ <-]] end.
  apply andb_true_iff in E as [_ E]. cbn in E. apply switch_kept; [|done]. destruct HI. lia.
Qed.

Lemma kstep_kept i : (forall c, i = ICall c -> ~ locks c) -> preserves lock_kept (kstep i).
Proof.
  intros Hi. destruct i as [c| | |e|e m]; cbn [kstep]; [by apply call_kept, Hi| | | |].
  - unfold OSSemPend_return, OSQPend_return, current. keeps.
  - apply preserves_bind; [|intros; apply preserves_ret]. apply isr_post_kept. unfold OSTimeTick. walk ltac:(apply tick_loop_kept).
  - apply preserves_bind; [|intros; apply preserves_ret]. apply isr_post_kept. keeps.
  - apply preserves_bind; [|intros; apply preserves_ret]. apply isr_post_kept. keeps.
Qed.
End Lock.

(** A task that comes to run finds the scheduler unlocked. *)
Lemma switched_unlocked k i r k1 : kinv k -> kstep i k = Done r k1 -> OSPrioCur k1 <> OSPrioCur k -> OSLockNesting k1 = 0.
Proof.
  intros Hinv E Hn. destruct (decide (i = ICall CSchedLock)) as [-> |H1]; [|destruct (decide (i = ICall CSchedUnlock)) as [-> |H2]].
  - cbn [kstep call] in E. apply bind_inv in E as (u & k2 & E & E2). injection E2 as _ <-. unfold OSSchedLock in E.
    by case_match; injection E as _ <-.
  - cbn [kstep call] in E. apply bind_inv in E as (u & k2 & E & E2). injection E2 as _ <-. unfold OSSchedUnlock in E.
    case_match; [|by injection E as _ <-]. case_match eqn:El; [|by injection E as _ <-]. apply andb_true_iff in El as [El _].
    apply Z.eqb_eq in El. rewrite El in E. unfold OS_Sched in E. case_match; [|by injection E as _ <-].
    eapply (switch_kept 0 0) in E; [|done|by split; [|right]]. by destruct E.
  - destruct (kstep_kept (OSLockNesting k) (OSPrioCur k) i) with k r k1 as [? [?|?]]; [|by split; [|left]|done|done|congruence].
    intros c -> [-> | ->]; done.
Qed.

(** An interrupt and the rest of a pend call do not change the lock. *)
Lemma lock_same k i r k1 : kstep i k = Done r k1 -> (forall c, i <> ICall c) -> OSLockNesting k1 = OSLockNesting k.
Proof.
  intros E Hi. destruct (kstep_kept (OSLockNesting k) (OSPrioCur k) i) with k r k1 as [? _]; [|by split; [|left]|done|done].
  intros c ->. by destruct (Hi c).
Qed.

(** * The invariant *)

(** What the tests of [c] have found still holds, for the time when [p] runs. *)
Record standing (k : Kernel) (p : Z) (c : Call) : Prop := {
  own_code : OSTCBStk <$> OSTCBPrioTbl k !! p = Some CRun;
  still_ok : call_ok (set_cur p k) c;
  still_type : type_holds c k;
  still_delays : delays c;
  still_unlocked : OSPrioCur k = p -> waits c -> OSLockNesting k <= 0
}.

Definition iinv (s : IState) : Prop := kinv (kern s) /\ map_Forall (standing (kern s)) (inside s).

(** The event of [c] is not given back by [i]. *)
Definition spares (c : Call) (i : Input) : Prop :=
  forall c' e, i = ICall c' -> deleted c' = Some e -> touched cleared (ICall c) <> Some e.

Lemma set_cur_id k : set_cur (OSPrioCur k) k = k.
Proof. by destruct k. Qed.

Lemma call_ok_kept k i r k1 p c : kinv k -> allowed k i -> kstep i k = Done r k1 -> spares c i ->
  call_ok (set_cur p k) c -> call_ok (set_cur p k1) c.
Proof.
  intros Hinv Hok E Hs. destruct c; try done. intros Ht. apply (type_kept k i r k1); try done; [|by right].
  intros c' Hc Hd. by apply (Hs c' e Hc Hd).
Qed.

Lemma type_holds_kept k i r k1 c : kinv k -> allowed k i -> kstep i k = Done r k1 -> spares c i ->
  type_holds c k -> type_holds c k1.
Proof.
  intros Hinv Hok E Hs. unfold type_holds. destruct (tested c) as [[e typ]|] eqn:Et; [|done]. apply (type_kept k i r k1); try done.
  - intros c' Hc Hd. apply (Hs c' e Hc Hd). by destruct c; simplify_eq/=.
  - destruct c; simplify_eq/=; auto.
Qed.

(** A step of another task or of an interrupt. *)
Lemma standing_kept k i r k1 p c : kinv k -> allowed k i -> kstep i k = Done r k1 -> spares c i ->
  (forall c', i = ICall c' -> p <> OSPrioCur k) -> standing k p c -> standing k1 p c.
Proof.
  intros Hinv Hok E Hs Hp [H1 H2 H3 H4 H5]. split.
  - by apply (stk_kept k i r k1).
  - by apply (call_ok_kept k i r k1).
  - by apply (type_holds_kept k i r k1).
  - done.
  - intros Hc Hw. destruct (decide (OSPrioCur k1 = OSPrioCur k)) as [Hsame|Hn].
    + rewrite (lock_same k i r k1 E); [apply H5; congruence|]. intros c' ->. apply (Hp c' eq_refl). congruence.
    + by rewrite (switched_unlocked k i r k1 Hinv E Hn).
Qed.

Lemma all_standing_kept k i r k1 (m : gmap Z Call) : kinv k -> allowed k i -> kstep i k = Done r k1 ->
  (forall p c, m !! p = Some c -> spares c i /\ forall c', i = ICall c' -> p <> OSPrioCur k) ->
  map_Forall (standing k) m -> map_Forall (standing k1) m.
Proof. intros Hinv Hok E Hm Hs p c Hc. destruct (Hm p c Hc). apply (standing_kept k i r); auto. Qed.

(** The call that the current task is inside of is a whole call now. *)
Lemma section_whole k c : kinv k -> standing k (OSPrioCur k) c -> section c k = call c k /\ allowed k (ICall c).
Proof.
  intros Hinv [H1 H2 H3 H4 H5]. split.
  - rewrite call_split. by rewrite (bind_done _ _ k None k) by (apply tests_pass; [apply Hinv|done|done|by auto]).
  - rewrite set_cur_id in H2. by split.
Qed.

(** The tests of a call of the current task. *)
Lemma tested_standing k c : stk_of k = Some CRun -> call_ok k c -> tests c k = Done None k -> standing k (OSPrioCur k) c.
Proof. intros Hst Hok E. apply tests_none in E as (_ & Ht & Hd & Hw). split; [done|by rewrite set_cur_id|done|done|by intros _]. Qed.

(** What a move is for the kernel of whole calls: a refused call, the call
    that is carried out, or nothing. *)
Definition merged (x : IState * Move * option Ret) : option (Kernel * Input * Ret) :=
  match x with
  | (s, MTests c, Some r) => Some (kern s, ICall c, r)
  | (s, MSection, Some r) => c ← inside s !! OSPrioCur (kern s); Some (kern s, ICall c, r)
  | (s, MKernel i, Some r) => Some (kern s, i, r)
  | _ => None
  end.

Lemma on_kernel_done {A} (m : M Kernel A) s a k : m (kern s) = Done a k -> on_kernel m s = Done a (mkI k (inside s)).
Proof. unfold on_kernel. by intros ->. Qed.

(** Every allowed move is made, keeps the invariant, and is a step of whole
    calls or none at all. *)
Lemma imove_runs s m : iinv s -> iallowed s m -> exists r s1, imove m s = Done r s1 /\ iinv s1 /\
  match merged (s, m, r) with
  | Some (k, i, r) => k = kern s /\ allowed k i /\ kstep i k = Done r (kern s1)
  | None => kern s1 = kern s
  end.
Proof.
  intros [Hk Hs] Hok. destruct m as [c| |i]; cbn [imove iallowed] in *.
  - destruct Hok as (Hnone & Hst & Hok). destruct (tests_run c (kern s) (proj1 Hk) Hok) as [[r|] E];
      rewrite (bind_done _ _ _ _ _ (on_kernel_done _ _ _ _ E)); eexists _, _; (split; [reflexivity|]); (split; [|]).
    + by split.
    + destruct (tests_some _ _ _ _ E) as [_ Ec]. done.
    + split; [done|]. cbn. apply map_Forall_insert_2; [by apply tested_standing|done].
    + done.
  - destruct (inside s !! OSPrioCur (kern s)) as [c|] eqn:Hc; [|done].
    destruct (section_whole _ _ Hk (Hs _ _ Hc)) as [Ew Hal].
    destruct (proj1 (runs_done _ _ _) (kstep_runs _ _ Hk Hal)) as (r & k1 & E & Hk1 & _).
    exists (Some r), (mkI k1 (delete (OSPrioCur (kern s)) (inside s))). split; [|split].
    + rewrite (bind_done _ _ s (OSPrioCur (kern s)) s), (bind_done _ _ s c s) by (done || by (unfold access; rewrite Hc)).
      rewrite (bind_done _ _ s tt (mkI (kern s) (delete (OSPrioCur (kern s)) (inside s)))) by done.
      rewrite (bind_done _ _ _ r (mkI k1 (delete (OSPrioCur (kern s)) (inside s)))); [done|].
      apply (on_kernel_done _ (mkI _ _)). cbn [kern]. by rewrite Ew.
    + split; [done|]. apply (all_standing_kept (kern s) (ICall c) r); try done; [|by apply map_Forall_delete].
      cbn [inside]. intros p c' [Hp Hc']%lookup_delete_Some. split; [|by intros]. intros c0 e [= <-] Hd. unfold alone in Hok. rewrite Hd in Hok.
      destruct (Hok p c' Hc'); [congruence|done].
    + cbn [merged kern]. by rewrite Hc.
  - assert (allowed (kern s) i /\ forall c, i <> ICall c) as [Hal Hi] by by destruct i.
    destruct (proj1 (runs_done _ _ _) (kstep_runs _ _ Hk Hal)) as (r & k1 & E & Hk1 & _).
    exists (Some r), (mkI k1 (inside s)). split; [by rewrite (bind_done _ _ _ _ _ (on_kernel_done _ _ _ _ E))|]. split; [|done].
    split; [done|]. apply (all_standing_kept (kern s) i r); try done.
    intros p c _. split; [intros c' e Hc|intros c' Hc]; by destruct (Hi c').
Qed.

Lemma iruns_merge s tr s1 : iruns s tr s1 -> iinv s -> iinv s1 /\ kruns (kern s) (omap merged tr) (kern s1).
Proof.
  induction 1 as [s|s m r s1 tr s2 Hok E _ IH]; intros Hs; [by split; [|constructor]|].
  destruct (imove_runs s m Hs Hok) as (r' & s1' & E' & H1 & Hm). rewrite E in E'. injection E' as <- <-.
  destruct (IH H1) as [H2 Hr]. split; [done|]. cbn [omap list_omap]. destruct (merged (s, m, r)) as [[[k i] r0]|].
  - destruct Hm as (-> & Hal & Ek). by apply (Kruns_cons _ _ _ (kern s1)).
  - by rewrite <- Hm.
Qed.

Definition start (k : Kernel) : IState := mkI k ∅.

Lemma start_iinv l k k0 : Forall setup_ok l -> boot l k = Done tt k0 -> iinv (start k0).
Proof.
  intros Hl Hb. split; [|by intros p c H]. by apply (booted_kinv l k k0 [] k0 Hl Hb), Kruns_nil.
Qed.

(** * Theorems *)

(** Calls that are preempted between their tests and their critical section
    do what whole calls do: for every run of interleaved calls in which an
    event is deleted only when no other task is inside a call on it, the run
    of whole calls in the order of their critical sections, with the same
    results, leads to the same state of the kernel.  So what is proved of the
    runs of whole calls holds of the interleaved ones. *)
Theorem interleaved_calls_merge l k k0 tr s : Forall setup_ok l -> boot l k = Done tt k0 -> iruns (start k0) tr s ->
  kruns k0 (omap merged tr) (kern s).
Proof. intros Hl Hb Hr. by apply (iruns_merge _ _ _ Hr), (start_iinv l k). Qed.

(** C3: After [OSInit], any set-up (tasks, semaphores, queues) and [OSStart], the kernel
    never makes an access outside its tables or through a null pointer,
    whatever the tasks call (semaphores, queues, delays, creation, deletion,
    the scheduler lock), in whatever order, also when a task is preempted
    between the tests of a call and its critical section, and whenever the
    tick and the posts of interrupts come: every allowed move returns.  An
    event may be deleted only when no other task is inside a call on it
    ([alone]); [deletion_inside_a_call_crashes] shows what happens otherwise.
    The theorem includes the end of the loop that readies the tasks of a
    deleted event and of the walk through the tasks at a tick. *)
Theorem kernel_safe l k : Forall setup_ok l ->
  exists k0, boot l k = Done tt k0 /\
    forall tr s m, iruns (start k0) tr s -> iallowed s m -> exists r s1, imove m s = Done r s1.
Proof.
  intros Hl. destruct (proj1 (runs_done _ _ _) (boot_runs l k Hl)) as ([] & k0 & E & _). exists k0. split; [done|].
  intros tr s m Hr Hok. destruct (iruns_merge _ _ _ Hr (start_iinv l k k0 Hl E)) as [Hs _].
  destruct (imove_runs s m Hs Hok) as (r & s1 & E1 & _). eauto.
Qed.

(** ** Concrete runs *)

(** The run of a list of moves, with the states it goes through. *)
Fixpoint moves (l : list Move) (s : IState) : option (list (IState * Move * option Ret) * IState) :=
  match l with
  | [] => Some ([], s)
  | m :: l => match imove m s with
              | Done r s1 => '(tr, s2) ← moves l s1; Some ((s, m, r) :: tr, s2)
              | _ => None
              end
  end.

Lemma moves_runs l : forall s tr s1, moves l s = Some (tr, s1) -> Forall (fun x => iallowed x.1.1 x.1.2) tr -> iruns s tr s1.
Proof.
  induction l as [|m l IH]; intros s tr s1 E Hok; simpl in E; [injection E as <- <-; constructor|].
  destruct (imove m s) as [r s2| |] eqn:Em; [|done..]. destruct (moves l s2) as [[tr2 s3]|] eqn:Et; [|done].
  injection E as <- <-. apply Forall_cons in Hok as [? ?]. by apply (Iruns_cons _ _ _ s2); [..|apply IH].
Qed.

Definition moves_of (l : list Move) (s : IState) : list (IState * Move * option Ret) :=
  match moves l s with Some (tr, _) => tr | None => [] end.
Definition after_moves (l : list Move) (s : IState) : IState := match moves l s with Some (_, s1) => s1 | None => s end.

(** Task 5 makes a queue and sleeps; task 9 has made the tests of a post to
    it when the tick wakes task 5. *)
Definition preempted_post : list Move :=
  [MTests (CQCreate [0; 0] 2); MSection; MTests (CTimeDly 1); MSection; MTests (CQPost 0 77); MKernel ITick].

(** Task 5 posts, too, and sleeps again; then task 9 goes on. *)
Definition overtaken_post : list Move :=
  preempted_post ++ [MTests (CQPost 0 78); MSection; MTests (CTimeDly 1); MSection].

Lemma kernel_safe_witness : exists k0, boot two cleared = Done tt k0 /\
  exists r s1, imove MSection (after_moves overtaken_post (start k0)) = Done r s1.
Proof.
  destruct (kernel_safe two cleared) as (k0 & E & H); [by_decide|]. exists k0. split; [exact E|].
  assert (k0 = booted two) as -> by (unfold booted; rewrite E; reflexivity).
  apply (H (moves_of overtaken_post (start (booted two))) (after_moves overtaken_post (start (booted two))) MSection); [|by_decide].
  apply (moves_runs overtaken_post); [vm_compute; reflexivity|by_decide].
Defined.

(** The two messages are in the order of the critical sections. *)
Example overtaken_order : stored 0 (kern (after_moves (overtaken_post ++ [MSection]) (start (booted two)))) = [78; 77].
Proof. by vm_compute. Qed.

(** The test of the event's type is made before the critical section: if the
    task that preempts the post deletes the queue, the post goes on with the
    block of a deleted event, whose pointer leads to no queue. *)
Theorem deletion_inside_a_call_crashes :
  let s := after_moves (preempted_post ++ [MTests (CQDel 0 0); MSection; MTests (CTimeDly 1); MSection]) (start (booted two)) in
  inside s !! OSPrioCur (kern s) = Some (CQPost 0 77) /\ imove MSection s = Crash.
Proof. by vm_compute. Qed.
