(* ===== verification/KernelTime.v ===== *)
(** Delays and timeouts: a task that delays itself by [n] ticks does not run
    before the [n]-th tick and is ready after it, and a pend call with a
    timeout ends by then. *)
From stdpp Require Import gmap.
From S2P Require Import Prelude ReadyList Kernel MsgQueue KernelInv KernelStep KernelSafe.
#[local] Open Scope Z_scope.

(** The ticks of a run. *)
Fixpoint tick_count (tr : list (Kernel * Input * Ret)) : Z :=
  match tr with
  | [] => 0
  | (_, ITick, _) :: tr => tick_count tr + 1
  | _ :: tr => tick_count tr
  end.

Lemma tick_count_nonneg tr : 0 <= tick_count tr.
Proof. induction tr as [|[[k []] r] tr IH]; simpl; lia. Qed.

Lemma tick_count_cons k i r tr : tick_count ((k, i, r) :: tr) = tick_count tr + (if decide (i = ITick) then 1 else 0).
Proof. destruct (decide (i = ITick)) as [-> |H]; [done|]. destruct i; simpl; (done || lia). Qed.

Lemma tick_count_app tr1 tr2 : tick_count (tr1 ++ tr2) = tick_count tr1 + tick_count tr2.
Proof. induction tr1 as [|[[k i] r] tr1 IH]; [done|]. rewrite <- app_comm_cons, !tick_count_cons, IH. lia. Qed.

(** A task other than the current one takes a step. *)
Lemma other_step k i r k1 p t : kinv k -> allowed k i -> kstep i k = Done r k1 -> p <> OSPrioCur k -> p <> OS_TASK_IDLE_PRIO ->
  OSTCBPrioTbl k !! p = Some t -> exists t1, OSTCBPrioTbl k1 !! p = Some t1 /\
    if decide (i = ITick) then t1 = ticked t else task_adv (touches k i) t t1.
Proof.
  intros Hinv Hok E Hp Hidle Ht. pose proof (kstep_runs k i Hinv Hok) as H. unfold runs, wpe in H. rewrite E in H.
  destruct H as [_ H]. destruct (decide (i = ITick)).
  - destruct H as (A & _). specialize (A p). rewrite decide_False, Ht in A by done. by eexists.
  - destruct H as [_ [[A _ _]|[_ _ C _ _]]]; [by apply A|]. exists t. rewrite C by done. split; [done|by left].
Qed.

Lemma not_ready_not_cur k p t : kinv k -> OSTCBPrioTbl k !! p = Some t -> ~ ready t -> p <> OSPrioCur k.
Proof. intros Hk Ht Hr ->. destruct (current_task k Hk) as (t' & E & ?). congruence. Qed.

Lemma not_ready_not_idle k p t : core k -> OSTCBPrioTbl k !! p = Some t -> ~ ready t -> p <> OS_TASK_IDLE_PRIO.
Proof. intros Hk Ht Hr ->. destruct (idle_task k Hk) as (t' & E & ? & _). congruence. Qed.

Lemma kruns_last k tr k1 i r k2 : kruns k (tr ++ [(k1, i, r)]) k2 -> kruns k tr k1 /\ allowed k1 i /\ kstep i k1 = Done r k2.
Proof.
  revert k. induction tr as [|x tr IH]; intros k H; simpl in H.
  - inversion H as [|? ? ? k3 ? ? Hok E Hr]; subst. inversion Hr; subst. split; [constructor|done].
  - inversion H as [|? ? ? k3 ? ? Hok E Hr]; subst. destruct (IH k3 Hr) as (? & ? & ?). split; [by econstructor|done].
Qed.

(** * Delays *)

Definition delayed (n : Z) (t : OS_TCB) : Prop := OSTCBStk t = CRun /\ OSTCBDly t = n.

Lemma delayed_not_ready n t : delayed n t -> 0 < n -> ~ ready t.
Proof. intros [_ Hd] Hn [_ H]. lia. Qed.

Lemma delay_step k i r k1 p t n : kinv k -> allowed k i -> kstep i k = Done r k1 -> OSTCBPrioTbl k !! p = Some t ->
  delayed n t -> 0 < n -> exists t1, OSTCBPrioTbl k1 !! p = Some t1 /\
    delayed (n - (if decide (i = ITick) then 1 else 0)) t1 /\ (i = ITick -> n = 1 -> ready t1).
Proof.
  intros Hk Hok E Ht Hd Hn. pose proof (delayed_not_ready n t Hd Hn) as Hr. destruct Hd as [Hs Hd].
  destruct (other_step k i r k1 p t Hk Hok E) as (t1 & H1 & Ha); [by eapply not_ready_not_cur|by eapply not_ready_not_idle; [apply Hk|..]|done|].
  exists t1. split; [done|]. destruct (decide (i = ITick)) as [Hi|Hi].
  - subst t1. unfold delayed. rewrite ticked_stk. unfold ticked. rewrite (proj2 (Z.eqb_neq _ _)) by lia.
    destruct (Z.eqb_spec (OSTCBDly t - 1) 0); cbn; (split; [split; [done|lia]|]); [done|lia].
  - destruct Ha as [-> |(e & typ & msg & _ & Hw & _)]; [|unfold waiting in Hw; by rewrite Hs in Hw].
    split; [split; [done|lia]|done].
Qed.

Lemma delay_runs n p k tr k1 : kruns k tr k1 -> kinv k -> forall t, OSTCBPrioTbl k !! p = Some t -> delayed n t ->
  tick_count tr < n -> exists t1, OSTCBPrioTbl k1 !! p = Some t1 /\ delayed (n - tick_count tr) t1.
Proof.
  intros Hr. revert n. induction Hr as [k|k i r k1 tr k2 Hok E Hr IH]; intros n Hk t Ht Hd Hn.
  - exists t. simpl. by rewrite Z.sub_0_r.
  - rewrite tick_count_cons in *. pose proof (tick_count_nonneg tr).
    destruct (delay_step k i r k1 p t n Hk Hok E Ht Hd) as (t1 & H1 & Hd1 & _); [case_decide; lia|].
    pose proof (kinv_step k i r k1 Hk Hok E) as Hk1.
    destruct (IH _ Hk1 t1 H1 Hd1) as (t2 & H2 & Hd2); [lia|]. exists t2. split; [done|].
    by replace (n - (tick_count tr + _)) with (n - (if decide (i = ITick) then 1 else 0) - tick_count tr) by lia.
Qed.

(** The caller of [OSTimeDly]. *)
Lemma dly_delays k n r k1 : kinv k -> stk_of k = Some CRun -> OSLockNesting k = 0 -> 0 < n ->
  kstep (ICall (CTimeDly n)) k = Done r k1 -> exists t, OSTCBPrioTbl k1 !! OSPrioCur k = Some t /\ delayed n t.
Proof.
  intros Hinv Hst Hl Hn E. destruct (current_runs k Hinv Hst) as (t & Ht & _ & _ & Hs & _). cbn [kstep call] in E.
  apply bind_inv in E as ([] & k2 & E & E2). injection E2 as _ <-. unfold OSTimeDly in E.
  rewrite (not_nested k (proj2 Hinv)), Hl, (proj2 (Z.eqb_neq n 0)) in E by lia. cbn [Z.ltb Z.compare orb] in E.
  unfold OSTimeDly_section, gets, get_tcb, put_tcb, change_rdy, modify, access in E. unfold mbind, M_bind in E. rewrite Ht in E.
  apply OS_Sched_same in E as (-> & _). cbn. eexists. split; [apply lookup_insert_eq|done].
Qed.

(** C19: [OSTimeDly n] waits for [n] ticks, no fewer and no more: whatever the
    other tasks and the interrupts do, the caller does not run before the
    [n]-th tick after the call, and with that tick it is ready.  (The first of
    the [n] ticks may follow the call at once.) *)
Theorem delay_exact l k k0 tr0 k1 n r k2 tr k3 : Forall setup_ok l -> boot l k = Done tt k0 ->
  kruns k0 tr0 k1 -> allowed k1 (ICall (CTimeDly n)) -> OSLockNesting k1 = 0 -> 0 < n ->
  kstep (ICall (CTimeDly n)) k1 = Done r k2 -> kruns k2 tr k3 ->
  (tick_count tr < n -> OSPrioCur k3 <> OSPrioCur k1) /\
  (forall tr' k' r', tr = tr' ++ [(k', ITick, r')] -> tick_count tr = n ->
     exists t, OSTCBPrioTbl k3 !! OSPrioCur k1 = Some t /\ ready t).
Proof.
  intros Hp Hb H1 Hok Hl Hn E H2. pose proof (booted_kinv l k k0 tr0 k1 Hp Hb H1) as Hk1.
  pose proof (kinv_step _ _ _ _ Hk1 Hok E) as Hk2.
  destruct (dly_delays k1 n r k2 Hk1 (proj1 Hok) Hl Hn E) as (t & Ht & Hd). split.
  - intros Hlt. destruct (delay_runs n _ k2 tr k3 H2 Hk2 t Ht Hd Hlt) as (t3 & Ht3 & Hd3). apply not_eq_sym.
    apply (not_ready_not_cur k3 _ t3); [by apply (kruns_inv k2 tr)|done|]. eapply delayed_not_ready; [exact Hd3|lia].
  - intros tr' k' r' -> Hc. apply kruns_last in H2 as (H2 & Hok' & E').
    rewrite tick_count_app, tick_count_cons, decide_True in Hc by done. simpl in Hc.
    destruct (delay_runs n _ k2 tr' k' H2 Hk2 t Ht Hd) as (t' & Ht' & Hd'); [lia|].
    assert (kinv k') as Hk' by by apply (kruns_inv k2 tr').
    destruct (delay_step k' ITick r' k3 _ t' _ Hk' Hok' E' Ht' Hd') as (t3 & H3 & _ & Hr3); [lia|].
    exists t3. split; [done|]. apply Hr3; [done|lia].
Qed.

(** * Timeouts *)

(** Ready, or so many ticks away from it. *)
Definition due (m : Z) (t : OS_TCB) : Prop := ready t \/ 0 < m /\ OSTCBDly t = m.

Lemma due_step k i r k1 p t m : kinv k -> allowed k i -> kstep i k = Done r k1 -> p <> OSPrioCur k -> OSTCBPrioTbl k !! p = Some t ->
  due m t -> p <> OS_TASK_IDLE_PRIO -> exists t1, OSTCBPrioTbl k1 !! p = Some t1 /\ due (m - (if decide (i = ITick) then 1 else 0)) t1.
Proof.
  intros Hk Hok E Hp Ht Hd Hidle. destruct (other_step k i r k1 p t Hk Hok E Hp Hidle Ht) as (t1 & H1 & Ha). exists t1. split; [done|].
  destruct (decide (i = ITick)).
  - subst t1. destruct Hd as [[Hs Hd]|[Hm Hd]]; [left; unfold ticked; by rewrite Hd|]. unfold ticked.
    rewrite (proj2 (Z.eqb_neq _ _)) by lia. destruct (Z.eqb_spec (OSTCBDly t - 1) 0); cbn; [by left|right]. cbn. lia.
  - rewrite Z.sub_0_r. destruct Ha as [-> |(e & typ & msg & _ & _ & ->)]; [done|]. by left.
Qed.

Lemma due_runs m p k tr k1 : kruns k tr k1 -> kinv k -> p <> OS_TASK_IDLE_PRIO -> Forall (fun x => OSPrioCur x.1.1 <> p) tr ->
  forall t, OSTCBPrioTbl k !! p = Some t -> due m t -> exists t1, OSTCBPrioTbl k1 !! p = Some t1 /\ due (m - tick_count tr) t1.
Proof.
  intros Hr. revert m. induction Hr as [k|k i r k1 tr k2 Hok E Hr IH]; intros m Hk Hidle Hne t Ht Hd.
  - exists t. simpl. by rewrite Z.sub_0_r.
  - apply Forall_cons in Hne as [Hn Hne]. destruct (due_step k i r k1 p t m Hk Hok E) as (t1 & H1 & Hd1); [by apply not_eq_sym|done..|].
    pose proof (kinv_step k i r k1 Hk Hok E) as Hk1.
    destruct (IH _ Hk1 Hidle Hne t1 H1 Hd1) as (t2 & H2 & Hd2). exists t2. split; [done|]. rewrite tick_count_cons.
    by replace (m - (tick_count tr + _)) with (m - (if decide (i = ITick) then 1 else 0) - tick_count tr) by lia.
Qed.

(** A call that blocks with a timeout. *)
Definition blocking (c : Call) (n : Z) : Prop :=
  match c with CSemPendCall _ n' | CQPendCall _ n' => n' = n | _ => False end.

Lemma pend_done k e stat n rest k1 : pend e stat n rest k = Done tt k1 ->
  exists t, OSTCBPrioTbl k1 !! OSPrioCur k = Some t /\ OSTCBDly t = n.
Proof.
  unfold pend. intros (p & k2 & E & H)%bind_inv. injection E as <- <-.
  apply bind_inv in H as (t & k2 & E & H). unfold get_tcb, access in E. destruct (OSTCBPrioTbl k !! OSPrioCur k); [|done]. injection E as <- <-.
  apply bind_inv in H as ([] & k2 & E & H). injection E as <-.
  apply bind_inv in H as ([] & k3 & E & H). apply OS_Sched_same in H as (-> & _).
  unfold OS_EventTaskWait in E. apply bind_inv in E as (p & k2 & E1 & E). injection E1 as <- <-.
  apply bind_inv in E as (t & k2 & E1 & E). unfold get_tcb, access in E1. cbn in E1. rewrite lookup_insert_eq in E1. injection E1 as <- <-.
  apply bind_inv in E as ([] & k2 & E1 & E). injection E1 as <-.
  apply bind_inv in E as (ev & k2 & E1 & E). unfold get_event, access in E1. case_match; [|done]. injection E1 as <- <-.
  apply bind_inv in E as ([] & k2 & E1 & E). injection E1 as <-. injection E as <-.
  cbn. eexists. split; [apply lookup_insert_eq|done].
Qed.

(** The branches that return at once. *)
Ltac refuse E := first [discriminate E | apply bind_inv in E as (? & ? & _ & E); discriminate E].

Lemma blocked_due k c n k1 : blocking c n -> kstep (ICall c) k = Done RBlocked k1 ->
  exists t, OSTCBPrioTbl k1 !! OSPrioCur k = Some t /\ OSTCBDly t = n.
Proof.
  intros Hc E. destruct c; try done; cbn in Hc; subst n; cbn [kstep call] in E; apply bind_inv in E as (o & k2 & E & E2);
    (destruct o; [discriminate E2|injection E2 as <-]).
  - unfold OSSemPend in E. apply bind_inv in E as (ev & k3 & E1 & E). unfold get_event, access in E1. destruct (OSEventTbl k !! e) as [ev0|]; [|discriminate E1]. injection E1 as <- <-.
    apply bind_inv in E as (? & ? & E1 & E). injection E1 as <- <-. apply bind_inv in E as (? & ? & E1 & E). injection E1 as <- <-.
    repeat (case_match; [by refuse E|]). unfold OSSemPend_section in E. apply bind_inv in E as (ev1 & k3 & E1 & E).
    unfold get_event, access in E1. destruct (OSEventTbl k !! e) as [ev2|]; [|discriminate E1]. injection E1 as <- <-. case_match; [by refuse E|].
    apply bind_inv in E as ([] & k3 & E & E2). injection E2 as <-. by eapply pend_done.
  - unfold OSQPend in E. apply bind_inv in E as (ev & k3 & E1 & E). unfold get_event, access in E1. destruct (OSEventTbl k !! e) as [ev0|]; [|discriminate E1]. injection E1 as <- <-.
    apply bind_inv in E as (? & ? & E1 & E). injection E1 as <- <-. apply bind_inv in E as (? & ? & E1 & E). injection E1 as <- <-.
    repeat (case_match; [by refuse E|]). unfold OSQPend_section in E. apply bind_inv in E as (ev1 & k3 & E1 & E).
    unfold get_event, access in E1. destruct (OSEventTbl k !! e) as [ev2|]; [|discriminate E1]. injection E1 as <- <-.
    apply bind_inv in E as (qc & k3 & E1 & E). unfold get_q, access in E1. destruct (_ ≫= _); [|discriminate E1]. injection E1 as <- <-.
    case_match; [by refuse E|].
    apply bind_inv in E as ([] & k3 & E & E2). injection E2 as <-. by eapply pend_done.
Qed.

(** A pend call with a timeout of [n] ticks ends by the [n]-th tick: as long
    as the task that has blocked has not run again, it is ready once [n] ticks
    have come (posted to or timed out), whatever the other tasks and
    interrupts do. *)
Theorem timeout_bounds l k k0 tr0 k1 c n k2 tr k3 : Forall setup_ok l -> boot l k = Done tt k0 ->
  kruns k0 tr0 k1 -> allowed k1 (ICall c) -> blocking c n -> 0 < n -> kstep (ICall c) k1 = Done RBlocked k2 ->
  kruns k2 tr k3 -> Forall (fun x => OSPrioCur x.1.1 <> OSPrioCur k1) tr -> n <= tick_count tr ->
  exists t, OSTCBPrioTbl k3 !! OSPrioCur k1 = Some t /\ ready t.
Proof.
  intros Hp Hb H1 Hok Hc Hn E H2 Hne Hcount. pose proof (booted_kinv l k k0 tr0 k1 Hp Hb H1) as Hk1.
  pose proof (kinv_step _ _ _ _ Hk1 Hok E) as Hk2.
  destruct (blocked_due k1 c n k2 Hc E) as (t & Ht & Hd).
  assert (OSPrioCur k1 <> OS_TASK_IDLE_PRIO) as Hidle by (destruct Hok as [_ Hok]; destruct c; try done; cbn in Hok; tauto).
  destruct (due_runs n _ k2 tr k3 H2 Hk2 Hidle Hne t Ht) as (t3 & Ht3 & [Hr|[Hm _]]); [by right|by exists t3|lia].
Qed.

(** ** Concrete runs *)

(** Task 5 delays itself by three ticks; task 9 works meanwhile. *)
Definition nap : list Input := [ITick; ICall (CSemCreate 0); ITick; ICall CTimeGet; ITick].

Lemma delay_exact_witness :
  OSPrioCur (state_after (take 4 nap) (state_after [ICall (CTimeDly 3)] (booted two))) <> 5 /\
  exists t, OSTCBPrioTbl (state_after nap (state_after [ICall (CTimeDly 3)] (booted two))) !! 5 = Some t /\ ready t.
Proof.
  set (k1 := booted two). set (k2 := state_after [ICall (CTimeDly 3)] k1).
  assert (OSPrioCur k1 = 5) as E by (vm_compute; reflexivity). rewrite <- E.
  assert (kruns k1 [] k1) as H0 by constructor. assert (boot two cleared = Done tt k1) as Hb by (vm_compute; reflexivity).
  assert (Forall setup_ok two) as Hp by by_decide. assert (allowed k1 (ICall (CTimeDly 3))) as Hok by by_decide.
  assert (kstep (ICall (CTimeDly 3)) k1 = Done RUnit k2) as Hs by (vm_compute; reflexivity). split.
  - apply (delay_exact two cleared k1 [] k1 3 RUnit k2 (steps_of (take 4 nap) k2)); try done; [run_witness (take 4 nap)].
  - destruct (delay_exact two cleared k1 [] k1 3 RUnit k2 (steps_of nap k2) (state_after nap k2)) as [_ H]; try done; [run_witness nap|].
    apply (H (steps_of (take 4 nap) k2) (state_after (take 4 nap) k2) RUnit); vm_compute; reflexivity.
Defined.

(** Nobody signals the semaphore. *)
Definition vain : list Input := [ICall (CSemCreate 0)].

Lemma timeout_bounds_witness :
  exists t, OSTCBPrioTbl (state_after [ITick; ITick] (state_after [ICall (CSemPendCall 0 2)] (state_after vain (booted two)))) !! 5 = Some t /\ ready t.
Proof.
  set (k0 := booted two). set (k1 := state_after vain k0). set (k2 := state_after [ICall (CSemPendCall 0 2)] k1).
  assert (OSPrioCur k1 = 5) as E by (vm_compute; reflexivity). rewrite <- E.
  apply (timeout_bounds two cleared k0 (steps_of vain k0) k1 (CSemPendCall 0 2) 2 k2 (steps_of [ITick; ITick] k2)).
  - by_decide.
  - vm_compute. reflexivity.
  - run_witness vain.
  - by_decide.
  - reflexivity.
  - lia.
  - vm_compute. reflexivity.
  - run_witness [ITick; ITick].
  - by_decide.
  - vm_compute. discriminate.
Defined.
