(* ===== verification/Timers.v ===== *)
(** The timers of the kernel (uCOS-II/os_tmr.c) and their wrappers (Sys/util.c).

    A timer is known by its index in [OSTmrTbl]; [OSTmrNext] and [OSTmrPrev]
    link the running timers of a spoke of the wheel in both directions and the
    unused ones in one.  Every service runs under [OSSchedLock] and is refused
    in an interrupt, so it is one step.  The code behind a callback pointer is
    the parameter [callback]; [OSTmrCalls] notes its calls in their order.
    Names are left out, as are the argument checks (OS_ARG_CHK_EN is 0). *)
From S2P Require Import Prelude.
#[local] Open Scope Z_scope.

Definition OS_TMR_CFG_MAX : nat := 16.
Definition OS_TMR_CFG_WHEEL_SIZE : Z := 8.
Definition OS_TMR_CFG_TICKS_PER_SEC : Z := 100.
Definition OS_TMR_TYPE : Z := 100.

Definition OS_TMR_OPT_NONE : Z := 0.
Definition OS_TMR_OPT_ONE_SHOT : Z := 1.
Definition OS_TMR_OPT_PERIODIC : Z := 2.
Definition OS_TMR_OPT_CALLBACK : Z := 3.
Definition OS_TMR_OPT_CALLBACK_ARG : Z := 4.

Definition OS_TMR_STATE_UNUSED : Z := 0.
Definition OS_TMR_STATE_STOPPED : Z := 1.
Definition OS_TMR_STATE_COMPLETED : Z := 2.
Definition OS_TMR_STATE_RUNNING : Z := 3.

Definition OS_ERR_NONE : Z := 0.
Definition OS_ERR_TMR_INVALID_OPT : Z := 132.
Definition OS_ERR_TMR_NON_AVAIL : Z := 134.
Definition OS_ERR_TMR_INACTIVE : Z := 135.
Definition OS_ERR_TMR_INVALID_TYPE : Z := 137.
Definition OS_ERR_TMR_ISR : Z := 139.
Definition OS_ERR_TMR_INVALID_STATE : Z := 141.
Definition OS_ERR_TMR_STOPPED : Z := 142.
Definition OS_ERR_TMR_NO_CALLBACK : Z := 143.

(** [OS_TMR_LINK_DLY] and [OS_TMR_LINK_PERIODIC] *)
Inductive LinkType := OS_TMR_LINK_DLY | OS_TMR_LINK_PERIODIC.

(** [OSTmrCallback] is a code address, 0 the null pointer. *)
Record OS_TMR := mkTmr {
  OSTmrType : Z;
  OSTmrCallback : Z;
  OSTmrCallbackArg : Z;
  OSTmrNext : option nat;
  OSTmrPrev : option nat;
  OSTmrMatch : Z;
  OSTmrDly : Z;
  OSTmrPeriod : Z;
  OSTmrOpt : Z;
  OSTmrState : Z
}.

Record OS_TMR_WHEEL := mkWheel { OSTmrFirst : option nat; OSTmrEntries : Z }.

Record Timers := mkTimers {
  OSTmrTbl : list OS_TMR;
  OSTmrFreeList : option nat;
  OSTmrWheelTbl : list OS_TMR_WHEEL;
  OSTmrTime : Z;
  OSTmrUsed : Z;
  OSTmrFree : Z;
  OSIntNesting : Z;
  OSTmrCalls : list (Z * nat * Z)
}.

Definition set_tbl (v : list OS_TMR) (k : Timers) : Timers :=
  mkTimers v (OSTmrFreeList k) (OSTmrWheelTbl k) (OSTmrTime k) (OSTmrUsed k) (OSTmrFree k) (OSIntNesting k) (OSTmrCalls k).
Definition set_free_list (v : option nat) (used free : Z) (k : Timers) : Timers :=
  mkTimers (OSTmrTbl k) v (OSTmrWheelTbl k) (OSTmrTime k) used free (OSIntNesting k) (OSTmrCalls k).
Definition set_wheel (v : list OS_TMR_WHEEL) (k : Timers) : Timers :=
  mkTimers (OSTmrTbl k) (OSTmrFreeList k) v (OSTmrTime k) (OSTmrUsed k) (OSTmrFree k) (OSIntNesting k) (OSTmrCalls k).
Definition set_tmr_time (v : Z) (k : Timers) : Timers :=
  mkTimers (OSTmrTbl k) (OSTmrFreeList k) (OSTmrWheelTbl k) v (OSTmrUsed k) (OSTmrFree k) (OSIntNesting k) (OSTmrCalls k).
Definition add_call (c : Z * nat * Z) (k : Timers) : Timers :=
  mkTimers (OSTmrTbl k) (OSTmrFreeList k) (OSTmrWheelTbl k) (OSTmrTime k) (OSTmrUsed k) (OSTmrFree k) (OSIntNesting k) (OSTmrCalls k ++ [c]).

Definition set_next (v : option nat) (t : OS_TMR) : OS_TMR :=
  mkTmr (OSTmrType t) (OSTmrCallback t) (OSTmrCallbackArg t) v (OSTmrPrev t) (OSTmrMatch t) (OSTmrDly t) (OSTmrPeriod t) (OSTmrOpt t) (OSTmrState t).
Definition set_prev (v : option nat) (t : OS_TMR) : OS_TMR :=
  mkTmr (OSTmrType t) (OSTmrCallback t) (OSTmrCallbackArg t) (OSTmrNext t) v (OSTmrMatch t) (OSTmrDly t) (OSTmrPeriod t) (OSTmrOpt t) (OSTmrState t).
Definition set_state (v : Z) (t : OS_TMR) : OS_TMR :=
  mkTmr (OSTmrType t) (OSTmrCallback t) (OSTmrCallbackArg t) (OSTmrNext t) (OSTmrPrev t) (OSTmrMatch t) (OSTmrDly t) (OSTmrPeriod t) (OSTmrOpt t) v.
Definition set_match (v : Z) (t : OS_TMR) : OS_TMR :=
  mkTmr (OSTmrType t) (OSTmrCallback t) (OSTmrCallbackArg t) (OSTmrNext t) (OSTmrPrev t) v (OSTmrDly t) (OSTmrPeriod t) (OSTmrOpt t) (OSTmrState t).
Definition set_times (dly period : Z) (t : OS_TMR) : OS_TMR :=
  mkTmr (OSTmrType t) (OSTmrCallback t) (OSTmrCallbackArg t) (OSTmrNext t) (OSTmrPrev t) (OSTmrMatch t) dly period (OSTmrOpt t) (OSTmrState t).

Definition get_tmr (p : nat) : M Timers OS_TMR := access (fun k => OSTmrTbl k !! p).
Definition upd (p : nat) (f : OS_TMR -> OS_TMR) : M Timers unit :=
  _ ← get_tmr p; modify (fun k => set_tbl (alter f p (OSTmrTbl k)) k).
Definition get_wheel (s : nat) : M Timers OS_TMR_WHEEL := access (fun k => OSTmrWheelTbl k !! s).
Definition put_wheel (s : nat) (v : OS_TMR_WHEEL) : M Timers unit :=
  _ ← get_wheel s; modify (fun k => set_wheel (<[s := v]> (OSTmrWheelTbl k)) k).

(** Through a pointer that may be null. *)
Definition upd_ptr (p : option nat) (f : OS_TMR -> OS_TMR) : M Timers unit :=
  p ← access (fun _ => p); upd p f.

(** What the code behind a callback pointer does with the timer and the
    argument it is given. *)
Class Callbacks := callback : Z -> nat -> Z -> M Timers unit.

(** * The wheel *)

Definition spoke_of (x : Z) : nat := Z.to_nat (x mod OS_TMR_CFG_WHEEL_SIZE).

Definition OSTmr_Alloc : M Timers (option nat) :=
  free ← gets OSTmrFreeList;
  match free with
  | None => mret None
  | Some p =>
      t ← get_tmr p;
      upd p (set_prev None ∘ set_next None);;
      modify (fun k => set_free_list (OSTmrNext t) (u16 (OSTmrUsed k + 1)) (u16 (OSTmrFree k - 1)) k);;
      mret (Some p)
  end.

Definition OSTmr_Free (p : nat) : M Timers unit :=
  upd p (fun t => mkTmr (OSTmrType t) 0 0 (OSTmrNext t) (OSTmrPrev t) 0 (OSTmrDly t) 0 OS_TMR_OPT_NONE OS_TMR_STATE_UNUSED);;
  free ← gets OSTmrFreeList;
  upd p (set_next free ∘ set_prev None);;
  modify (fun k => set_free_list (Some p) (u16 (OSTmrUsed k - 1)) (u16 (OSTmrFree k + 1)) k).

Definition OSTmr_Link (p : nat) (type : LinkType) : M Timers unit :=
  upd p (set_state OS_TMR_STATE_RUNNING);;
  t ← get_tmr p;
  time ← gets OSTmrTime;
  let m :=
    match type with
    | OS_TMR_LINK_PERIODIC => u32 (OSTmrPeriod t + time)
    | OS_TMR_LINK_DLY => if OSTmrDly t =? 0 then u32 (OSTmrPeriod t + time) else u32 (OSTmrDly t + time)
    end in
  upd p (set_match m);;
  let spoke := spoke_of m in
  pspoke ← get_wheel spoke;
  (match OSTmrFirst pspoke with
   | None => upd p (set_next None);; put_wheel spoke (mkWheel (Some p) 1)
   | Some ptmr1 =>
       upd p (set_next (Some ptmr1));;
       upd ptmr1 (set_prev (Some p));;
       put_wheel spoke (mkWheel (Some p) (u16 (OSTmrEntries pspoke + 1)))
   end);;
  upd p (set_prev None).

Definition OSTmr_Unlink (p : nat) : M Timers unit :=
  t ← get_tmr p;
  let spoke := spoke_of (OSTmrMatch t) in
  pspoke ← get_wheel spoke;
  first ←
    (if decide (OSTmrFirst pspoke = Some p) then
       (match OSTmrNext t with
        | Some ptmr1 => upd ptmr1 (set_prev None)
        | None => mret tt
        end);;
       mret (OSTmrNext t)
     else
       upd_ptr (OSTmrPrev t) (set_next (OSTmrNext t));;
       (match OSTmrNext t with
        | Some ptmr2 => upd ptmr2 (set_prev (OSTmrPrev t))
        | None => mret tt
        end);;
       mret (OSTmrFirst pspoke));
  upd p (set_prev None ∘ set_next None ∘ set_state OS_TMR_STATE_STOPPED);;
  put_wheel spoke (mkWheel first (u16 (OSTmrEntries pspoke - 1))).

(** * Services *)

Definition OSTmrCreate (dly period opt callback arg : Z) : M Timers (option nat * Z) :=
  int ← gets OSIntNesting;
  if 0 <? int then mret (None, OS_ERR_TMR_ISR) else
  ptmr ← OSTmr_Alloc;
  match ptmr with
  | None => mret (None, OS_ERR_TMR_NON_AVAIL)
  | Some p =>
      upd p (fun t => mkTmr (OSTmrType t) callback arg (OSTmrNext t) (OSTmrPrev t) (OSTmrMatch t) dly period opt OS_TMR_STATE_STOPPED);;
      mret (Some p, OS_ERR_NONE)
  end.

(** What the services on a timer have in common: the checks and the look at
    its state. *)
Definition on_timer {A} (p : nat) (refused : A) (f : OS_TMR -> M Timers (A * Z)) : M Timers (A * Z) :=
  t ← get_tmr p;
  int ← gets OSIntNesting;
  if negb (OSTmrType t =? OS_TMR_TYPE) then mret (refused, OS_ERR_TMR_INVALID_TYPE)
  else if 0 <? int then mret (refused, OS_ERR_TMR_ISR)
  else f t.

Definition OSTmrDel (p : nat) : M Timers (bool * Z) :=
  on_timer p false (fun t =>
    let s := OSTmrState t in
    if s =? OS_TMR_STATE_RUNNING then OSTmr_Unlink p;; OSTmr_Free p;; mret (true, OS_ERR_NONE)
    else if (s =? OS_TMR_STATE_STOPPED) || (s =? OS_TMR_STATE_COMPLETED) then OSTmr_Free p;; mret (true, OS_ERR_NONE)
    else if s =? OS_TMR_STATE_UNUSED then mret (false, OS_ERR_TMR_INACTIVE)
    else mret (false, OS_ERR_TMR_INVALID_STATE)).

Definition OSTmrStart (p : nat) : M Timers (bool * Z) :=
  on_timer p false (fun t =>
    let s := OSTmrState t in
    if s =? OS_TMR_STATE_RUNNING then OSTmr_Unlink p;; OSTmr_Link p OS_TMR_LINK_DLY;; mret (true, OS_ERR_NONE)
    else if (s =? OS_TMR_STATE_STOPPED) || (s =? OS_TMR_STATE_COMPLETED) then OSTmr_Link p OS_TMR_LINK_DLY;; mret (true, OS_ERR_NONE)
    else if s =? OS_TMR_STATE_UNUSED then mret (false, OS_ERR_TMR_INACTIVE)
    else mret (false, OS_ERR_TMR_INVALID_STATE)).

Definition OSTmrRemainGet (p : nat) : M Timers (Z * Z) :=
  on_timer p 0 (fun t =>
    let s := OSTmrState t in
    if s =? OS_TMR_STATE_RUNNING then time ← gets OSTmrTime; mret (u32 (OSTmrMatch t - time), OS_ERR_NONE)
    else if s =? OS_TMR_STATE_STOPPED then
      mret (if (OSTmrOpt t =? OS_TMR_OPT_PERIODIC) && (OSTmrDly t =? 0) then OSTmrPeriod t else OSTmrDly t, OS_ERR_NONE)
    else if s =? OS_TMR_STATE_COMPLETED then mret (0, OS_ERR_NONE)
    else if s =? OS_TMR_STATE_UNUSED then mret (0, OS_ERR_TMR_INACTIVE)
    else mret (0, OS_ERR_TMR_INVALID_STATE)).

Definition OSTmrStateGet (p : nat) : M Timers (Z * Z) :=
  on_timer p 0 (fun t =>
    let s := OSTmrState t in
    mret (s, if (s =? OS_TMR_STATE_UNUSED) || (s =? OS_TMR_STATE_STOPPED) || (s =? OS_TMR_STATE_COMPLETED)
                || (s =? OS_TMR_STATE_RUNNING) then OS_ERR_NONE else OS_ERR_TMR_INVALID_STATE)).

Section Calls.
Context `{CB : Callbacks}.

Definition call (fn : Z) (p : nat) (arg : Z) : M Timers unit :=
  modify (add_call (fn, p, arg));; callback fn p arg.

Definition OSTmrStop (p : nat) (opt callback_arg : Z) : M Timers (bool * Z) :=
  on_timer p false (fun t =>
    let s := OSTmrState t in
    if s =? OS_TMR_STATE_RUNNING then
      OSTmr_Unlink p;;
      err ←
        (if opt =? OS_TMR_OPT_CALLBACK then
           if OSTmrCallback t =? 0 then mret OS_ERR_TMR_NO_CALLBACK
           else call (OSTmrCallback t) p (OSTmrCallbackArg t);; mret OS_ERR_NONE
         else if opt =? OS_TMR_OPT_CALLBACK_ARG then
           if OSTmrCallback t =? 0 then mret OS_ERR_TMR_NO_CALLBACK
           else call (OSTmrCallback t) p callback_arg;; mret OS_ERR_NONE
         else if opt =? OS_TMR_OPT_NONE then mret OS_ERR_NONE
         else mret OS_ERR_TMR_INVALID_OPT);
      mret (true, err)
    else if (s =? OS_TMR_STATE_COMPLETED) || (s =? OS_TMR_STATE_STOPPED) then mret (true, OS_ERR_TMR_STOPPED)
    else if s =? OS_TMR_STATE_UNUSED then mret (false, OS_ERR_TMR_INACTIVE)
    else mret (false, OS_ERR_TMR_INVALID_STATE)).

(** The timer task looks at one timer of the current spoke. *)
Definition expire (p : nat) (t : OS_TMR) : M Timers unit :=
  OSTmr_Unlink p;;
  (if OSTmrOpt t =? OS_TMR_OPT_PERIODIC then OSTmr_Link p OS_TMR_LINK_PERIODIC
   else upd p (set_state OS_TMR_STATE_COMPLETED));;
  t ← get_tmr p;
  if OSTmrCallback t =? 0 then mret tt else call (OSTmrCallback t) p (OSTmrCallbackArg t).

(** The walk along the spoke; one turn for each timer and one to see the end. *)
Fixpoint spoke_loop (fuel : nat) (ptmr : option nat) : M Timers unit :=
  match fuel with
  | O => crash
  | S fuel =>
      match ptmr with
      | None => mret tt
      | Some p =>
          t ← get_tmr p;
          time ← gets OSTmrTime;
          (if time =? OSTmrMatch t then expire p t else mret tt);;
          spoke_loop fuel (OSTmrNext t)
      end
  end.

(** What the task does at each signal of the tick. *)
Definition OSTmr_Task : M Timers unit :=
  modify (fun k => set_tmr_time (u32 (OSTmrTime k + 1)) k);;
  time ← gets OSTmrTime;
  pspoke ← get_wheel (spoke_of time);
  spoke_loop (S OS_TMR_CFG_MAX) (OSTmrFirst pspoke).

(** * The wrappers

    [pTimer] is the timer behind the pointer variable, or null. *)
Definition NST_InitTimer (pTimer : option nat) (TimerFunc pData : Z) (Repeat : bool) : M Timers (option nat) :=
  match pTimer with
  | Some p => mret (Some p)
  | None =>
      let dly := 0 in
      let opt := if Repeat then OS_TMR_OPT_PERIODIC else OS_TMR_OPT_ONE_SHOT in
      r ← OSTmrCreate dly dly opt TimerFunc pData; mret r.1
  end.

(** The result is that left in [pCancelled], if it is written. *)
Definition NST_DelTimer (pTimer : option nat) : M Timers (option nat * option bool) :=
  match pTimer with
  | None => mret (None, None)
  | Some p => r ← OSTmrDel p; mret (None, Some r.1)
  end.

(** Milliseconds to ticks. *)
Definition timer_ticks (Value : Z) : Z :=
  let TimeValue := u32 (Value * OS_TMR_CFG_TICKS_PER_SEC) / 1000 in
  if TimeValue =? 0 then 1 else TimeValue.

Definition NST_SetTimer (pTimer : option nat) (Value : Z) : M Timers unit :=
  match pTimer with
  | None => mret tt
  | Some p =>
      let TimeValue := timer_ticks Value in
      t ← get_tmr p;
      upd p (if OS_TMR_OPT_PERIODIC =? OSTmrOpt t then set_times 0 TimeValue else set_times TimeValue 0);;
      _ ← OSTmrStart p; mret tt
  end.

Definition NST_CancelTimer (pTimer : option nat) : M Timers (option bool) :=
  match pTimer with
  | None => mret None
  | Some p => r ← OSTmrStop p OS_TMR_OPT_NONE 0; mret (Some r.1)
  end.

Definition NST_ModTimer (pTimer : option nat) (Value : Z) : M Timers unit :=
  match pTimer with
  | None => mret tt
  | Some p => _ ← NST_CancelTimer (Some p); NST_SetTimer (Some p) Value
  end.
End Calls.

(** [OSTmr_Init] *)
Definition new_tmr (next : option nat) : OS_TMR := mkTmr OS_TMR_TYPE 0 0 next None 0 0 0 0 OS_TMR_STATE_UNUSED.

Definition OSTmr_Init : Timers :=
  mkTimers ((fun ix => new_tmr (if (ix + 1 <? OS_TMR_CFG_MAX)%nat then Some (ix + 1)%nat else None)) <$> seq 0 OS_TMR_CFG_MAX) (Some 0%nat)
    (replicate (Z.to_nat OS_TMR_CFG_WHEEL_SIZE) (mkWheel None 0)) 0 0 (Z.of_nat OS_TMR_CFG_MAX) 0 [].
