(* ===== verification/TimerWheel.v ===== *)
(** The wheel of the timers: doubly linked lists as lists, and what linking,
    unlinking, allocating and freeing a timer do to them. *)
From S2P Require Import Prelude Timers.
From stdpp Require Import list.
#[local] Open Scope Z_scope.

(** * Linked lists *)

Definition links (t : OS_TMR) : option nat * option nat := (OSTmrNext t, OSTmrPrev t).
Definition lk (tbl : list OS_TMR) (p : nat) : option (option nat * option nat) := links <$> tbl !! p.

(** [l] is linked in both directions, from [prev] on. *)
Fixpoint linked (f : nat -> option (option nat * option nat)) (prev : option nat) (l : list nat) : Prop :=
  match l with
  | [] => True
  | p :: l => f p = Some (head l, prev) /\ linked f (Some p) l
  end.

(** The free list is linked forward only. *)
Fixpoint chained (f : nat -> option (option nat * option nat)) (l : list nat) : Prop :=
  match l with
  | [] => True
  | p :: l => f p = Some (head l, None) /\ chained f l
  end.

Lemma linked_ext f g l : forall prev, (forall q, q ∈ l -> g q = f q) -> linked f prev l -> linked g prev l.
Proof.
  induction l as [|p l IH]; intros prev H; [done|]. intros [H1 H2]. split; [by rewrite H by left|].
  apply IH; [|done]. intros q Hq. apply H. by right.
Qed.

Lemma chained_ext f g l : (forall q, q ∈ l -> g q = f q) -> chained f l -> chained g l.
Proof.
  induction l as [|p l IH]; intros H; [done|]. intros [H1 H2]. split; [by rewrite H by left|].
  apply IH; [|done]. intros q Hq. apply H. by right.
Qed.

Lemma linked_push f g p l : p ∉ l -> NoDup l -> linked f None l -> g p = Some (head l, None) ->
  (forall q, head l = Some q -> exists x, f q = Some x /\ g q = Some (x.1, Some p)) ->
  (forall q, q ∈ l -> head l <> Some q -> g q = f q) -> linked g None (p :: l).
Proof.
  intros Hp Hnd Hl Hgp Hh He. split; [done|]. destruct l as [|q l]; [done|]. destruct Hl as [Hq Hl].
  destruct (Hh q eq_refl) as (x & Hx & Hgq). rewrite Hx in Hq. injection Hq as ->. split; [done|].
  apply NoDup_cons in Hnd as [Hnq _]. apply (linked_ext f); [|done]. intros r Hr. apply He; [by right|]. by intros [= ->].
Qed.

Lemma linked_at f l1 : forall prev p l2, linked f prev (l1 ++ p :: l2) ->
  f p = Some (head l2, match last l1 with Some a => Some a | None => prev end).
Proof.
  induction l1 as [|a l1 IH]; intros prev p l2; [by intros [H _]|]. intros [_ H]. rewrite (IH _ _ _ H).
  rewrite last_cons. by destruct (last l1).
Qed.

Lemma linked_remove f g l1 : forall prev p l2, linked f prev (l1 ++ p :: l2) -> NoDup (l1 ++ p :: l2) ->
  (forall a, last l1 = Some a -> exists x, f a = Some x /\ g a = Some (head l2, x.2)) ->
  (forall b, head l2 = Some b -> exists x, f b = Some x /\ g b = Some (x.1, match last l1 with Some a => Some a | None => prev end)) ->
  (forall q, q ∈ l1 ++ l2 -> last l1 <> Some q -> head l2 <> Some q -> g q = f q) -> linked g prev (l1 ++ l2).
Proof.
  induction l1 as [|a l1 IH]; intros prev p l2 Hl Hnd H1 H2 H3.
  - destruct Hl as [Hp Hl]. destruct l2 as [|b l2]; [done|]. destruct Hl as [Hb Hl].
    destruct (H2 b eq_refl) as (x & Hx & Hg). rewrite Hb in Hx. injection Hx as <-. split; [done|].
    apply NoDup_cons in Hnd as [_ Hnd]. apply NoDup_cons in Hnd as [Hnb _].
    apply (linked_ext f); [|done]. intros q Hq. apply H3; [by right|done|]. by intros [= ->].
  - destruct Hl as [Ha Hl]. rewrite <- app_comm_cons in Hnd. apply NoDup_cons in Hnd as [Hna Hnd]. rewrite last_cons in H1, H2, H3.
    split.
    + fold (app (A:=nat)). destruct l1 as [|a2 l1].
      * destruct (H1 a eq_refl) as (x & Hx & Hg). rewrite Ha in Hx. injection Hx as <-. done.
      * rewrite H3; [by rewrite Ha|by left| |].
        -- intros E. apply Hna. apply elem_of_app. left. destruct (last (a2 :: l1)) eqn:El; [|by apply last_None in El].
           injection E as ->. by apply last_Some_elem_of.
        -- intros E. apply Hna. apply elem_of_app. right. right. by apply head_Some_elem_of.
    + apply (IH (Some a) p l2 Hl Hnd).
      * intros c Hc. rewrite Hc in H1. by apply H1.
      * intros b Hb. destruct (H2 b Hb) as (x & Hx & Hg). exists x. split; [done|]. rewrite Hg. by destruct (last l1).
      * intros q Hq Hlast Hhead. apply H3; [by right| |done]. intros E. destruct (last l1) eqn:El; [by apply Hlast|].
        injection E as ->. apply last_None in El as ->. apply Hna. apply elem_of_app. right. by right.
Qed.

(** * The state as lists

    [sp] are the timers of each spoke, [fr] the unused ones. *)

(** A timer without its links. *)
Definition erase (t : OS_TMR) : OS_TMR := set_prev None (set_next None t).
Definition bodies (k : Timers) : list OS_TMR := erase <$> OSTmrTbl k.

Definition running (t : OS_TMR) : Prop := OSTmrState t = OS_TMR_STATE_RUNNING.
Definition unused (t : OS_TMR) : Prop := OSTmrState t = OS_TMR_STATE_UNUSED.
Definition on_spoke (s : nat) (t : OS_TMR) : Prop := running t /\ spoke_of (OSTmrMatch t) = s.

Record tmr_ok (t : OS_TMR) : Prop := {
  tmr_type : OSTmrType t = OS_TMR_TYPE;
  tmr_match : is_u32 (OSTmrMatch t);
  tmr_dly : is_u32 (OSTmrDly t);
  tmr_period : is_u32 (OSTmrPeriod t);
  tmr_state : 0 <= OSTmrState t <= 3
}.

(** The links, spokes and counters. *)
Record shape (k : Timers) (sp : list (list nat)) (fr : list nat) : Prop := {
  sh_tbl : length (OSTmrTbl k) = OS_TMR_CFG_MAX;
  sh_spokes : length sp = Z.to_nat OS_TMR_CFG_WHEEL_SIZE;
  sh_wheel : OSTmrWheelTbl k = (fun l => mkWheel (head l) (Z.of_nat (length l))) <$> sp;
  sh_linked : forall s l, sp !! s = Some l -> NoDup l /\ linked (lk (OSTmrTbl k)) None l;
  sh_free : NoDup fr /\ chained (lk (OSTmrTbl k)) fr /\ OSTmrFreeList k = head fr;
  sh_count : OSTmrFree k = Z.of_nat (length fr) /\ OSTmrUsed k = Z.of_nat OS_TMR_CFG_MAX - Z.of_nat (length fr);
  sh_time : is_u32 (OSTmrTime k)
}.

(** Who is where, as the timers themselves say. *)
Record placed (b : list OS_TMR) (sp : list (list nat)) (fr : list nat) : Prop := {
  pl_ok : forall p t, b !! p = Some t -> tmr_ok t;
  pl_spoke : forall s l p, sp !! s = Some l -> (p ∈ l <-> exists t, b !! p = Some t /\ on_spoke s t);
  pl_free : forall p, p ∈ fr <-> exists t, b !! p = Some t /\ unused t
}.

Definition rep (k : Timers) (sp : list (list nat)) (fr : list nat) : Prop := shape k sp fr /\ placed (bodies k) sp fr.

Lemma bodies_lookup k p : bodies k !! p = erase <$> OSTmrTbl k !! p.
Proof. apply list_lookup_fmap. Qed.

Lemma lookup_body k p t : OSTmrTbl k !! p = Some t -> bodies k !! p = Some (erase t).
Proof. intros H. by rewrite bodies_lookup, H. Qed.

Lemma body_lookup k p b : bodies k !! p = Some b -> exists t, OSTmrTbl k !! p = Some t /\ b = erase t.
Proof. rewrite bodies_lookup. destruct (OSTmrTbl k !! p) as [t|]; [|done]. intros [= <-]. by exists t. Qed.

Lemma lk_alter f p tbl q : lk (alter f p tbl) q = if decide (p = q) then links ∘ f <$> tbl !! p else lk tbl q.
Proof. unfold lk. rewrite list_lookup_alter. destruct (decide (p = q)); [by rewrite <- option_fmap_compose|done]. Qed.

Lemma erase_alter f g (p : nat) (tbl : list OS_TMR) : (forall t, erase (f t) = g (erase t)) -> erase <$> alter f p tbl = alter g p (erase <$> tbl).
Proof. intros H. apply list_fmap_alter, Forall_forall. auto. Qed.

Lemma alter_same {A} (f : A -> A) (p : nat) (l : list A) : (forall x, f x = x) -> alter f p l = l.
Proof.
  intros H. apply list_eq. intros i. rewrite list_lookup_alter. destruct (decide (p = i)) as [-> |]; [|done].
  destruct (l !! i); [|done]. simpl. by rewrite H.
Qed.

(** Changes of links only. *)
Lemma erase_links f (p : nat) (tbl : list OS_TMR) : (forall t, erase (f t) = erase t) -> erase <$> alter f p tbl = erase <$> tbl.
Proof. intros H. rewrite (erase_alter f id) by done. by apply alter_same. Qed.

Lemma spoke_lt x : (spoke_of x < Z.to_nat OS_TMR_CFG_WHEEL_SIZE)%nat.
Proof. unfold spoke_of, OS_TMR_CFG_WHEEL_SIZE. pose proof (Z.mod_pos_bound x 8). lia. Qed.

Lemma spoke_exists k sp fr x : shape k sp fr -> exists l, sp !! spoke_of x = Some l.
Proof. intros H. apply lookup_lt_is_Some. rewrite (sh_spokes _ _ _ H). apply spoke_lt. Qed.

Lemma wheel_read k sp fr s l : shape k sp fr -> sp !! s = Some l -> OSTmrWheelTbl k !! s = Some (mkWheel (head l) (Z.of_nat (length l))).
Proof. intros H Hl. by rewrite (sh_wheel _ _ _ H), list_lookup_fmap, Hl. Qed.

Lemma spoke_member k sp fr s l p : rep k sp fr -> sp !! s = Some l -> p ∈ l -> exists t, OSTmrTbl k !! p = Some t /\ on_spoke s t.
Proof.
  intros [_ H] Hs Hp. apply (pl_spoke _ _ _ H s l p Hs) in Hp as (b & Hb & Ho). apply body_lookup in Hb as (t & Ht & ->). by exists t.
Qed.

Lemma free_member k sp fr p : rep k sp fr -> p ∈ fr -> exists t, OSTmrTbl k !! p = Some t /\ unused t.
Proof.
  intros [_ H] Hp. apply (pl_free _ _ _ H p) in Hp as (b & Hb & Ho). apply body_lookup in Hb as (t & Ht & ->). by exists t.
Qed.

Lemma length_le_max k sp fr (l : list nat) : shape k sp fr -> NoDup l -> (forall p, p ∈ l -> is_Some (OSTmrTbl k !! p)) -> (length l <= OS_TMR_CFG_MAX)%nat.
Proof.
  intros H Hnd Hl. change OS_TMR_CFG_MAX with (length (seq 0 OS_TMR_CFG_MAX)). apply submseteq_length, NoDup_submseteq; [done|].
  intros p Hp. apply elem_of_seq. apply Hl, lookup_lt_is_Some in Hp. rewrite (sh_tbl _ _ _ H) in Hp. lia.
Qed.

Lemma spoke_length k sp fr s l : rep k sp fr -> sp !! s = Some l -> (length l <= OS_TMR_CFG_MAX)%nat.
Proof.
  intros H Hs. eapply length_le_max; [apply H|by apply (sh_linked _ _ _ (proj1 H) s)|].
  intros p Hp. destruct (spoke_member _ _ _ _ _ _ H Hs Hp) as (t & -> & _). eauto.
Qed.

Lemma free_length k sp fr : rep k sp fr -> (length fr <= OS_TMR_CFG_MAX)%nat.
Proof.
  intros H. eapply length_le_max; [apply H|by apply (sh_free _ _ _ (proj1 H))|].
  intros p Hp. destruct (free_member _ _ _ _ H Hp) as (t & -> & _). eauto.
Qed.

Lemma spokes_disjoint k sp fr s1 s2 l1 l2 p : rep k sp fr -> sp !! s1 = Some l1 -> sp !! s2 = Some l2 -> p ∈ l1 -> p ∈ l2 -> s1 = s2.
Proof.
  intros H H1 H2 P1 P2. destruct (spoke_member _ _ _ _ _ _ H H1 P1) as (t & Ht & _ & <-).
  destruct (spoke_member _ _ _ _ _ _ H H2 P2) as (t2 & Ht2 & _ & <-). congruence.
Qed.

Lemma free_disjoint k sp fr s l p : rep k sp fr -> sp !! s = Some l -> p ∈ l -> p ∉ fr.
Proof.
  intros H H1 P1 P2. destruct (spoke_member _ _ _ _ _ _ H H1 P1) as (t & Ht & Hr & _).
  destruct (free_member _ _ _ _ H P2) as (t2 & Ht2 & Hu). rewrite Ht in Ht2. injection Ht2 as ->.
  unfold running, unused in *. rewrite Hu in Hr. discriminate Hr.
Qed.

(** What every change of the wheel leaves alone. *)
Definition quiet (k k' : Timers) : Prop :=
  OSTmrTime k' = OSTmrTime k /\ OSIntNesting k' = OSIntNesting k /\ OSTmrCalls k' = OSTmrCalls k.

Lemma quiet_trans k1 k2 k3 : quiet k1 k2 -> quiet k2 k3 -> quiet k1 k3.
Proof. unfold quiet. intros (? & ? & ?) (? & ? & ?). split_and!; congruence. Qed.

(** Spoke [s] has become [l2], by changes of the timers of its list and of [p]. *)
Lemma shape_spoke k sp fr s l p T l2 : rep k sp fr -> sp !! s = Some l ->
  (p ∈ l \/ forall s1 l1, sp !! s1 = Some l1 -> p ∉ l1) -> p ∉ fr ->
  length T = length (OSTmrTbl k) -> (forall q, q ∉ l -> q <> p -> lk T q = lk (OSTmrTbl k) q) ->
  NoDup l2 -> linked (lk T) None l2 ->
  shape (set_wheel (<[s := mkWheel (head l2) (Z.of_nat (length l2))]> (OSTmrWheelTbl k)) (set_tbl T k)) (<[s := l2]> sp) fr.
Proof.
  intros Hr Hs Hp Hpf HT Ho Hnd Hl. destruct Hr as [[A B C D E F G] Pl] eqn:Er. clear Er. split; cbn; try done.
  - by rewrite HT.
  - by rewrite length_insert.
  - by rewrite C, list_fmap_insert.
  - intros s1 l1 H1. destruct (decide (s1 = s)) as [-> |Hn].
    + rewrite list_lookup_insert_eq in H1 by (by apply lookup_lt_Some in Hs). by injection H1 as <-.
    + rewrite list_lookup_insert_ne in H1 by done. destruct (D s1 l1 H1) as [D1 D2]. split; [done|].
      apply (linked_ext (lk (OSTmrTbl k))); [|done]. intros q Hq. apply Ho.
      * intros Hq2. apply Hn. by eapply (spokes_disjoint k sp fr s1 s l1 l q).
      * intros ->. destruct Hp as [Hp|Hp]; [|by eapply Hp]. apply Hn. by eapply (spokes_disjoint k sp fr s1 s l1 l p).
  - destruct E as (E1 & E2 & E3). split_and!; [done| |done]. apply (chained_ext (lk (OSTmrTbl k))); [|done].
    intros q Hq. apply Ho; [|by intros ->]. intros Hq2. by eapply (free_disjoint k sp fr s l q).
Qed.

(** Timer [p] has become [t2] and has moved. *)
Lemma placed_update b sp fr p t2 sp2 fr2 : placed b sp fr -> (p < length b)%nat -> tmr_ok t2 ->
  (forall s l2, sp2 !! s = Some l2 -> exists l, sp !! s = Some l /\ (forall q, q <> p -> q ∈ l2 <-> q ∈ l) /\ (p ∈ l2 <-> on_spoke s t2)) ->
  (forall q, q <> p -> q ∈ fr2 <-> q ∈ fr) -> (p ∈ fr2 <-> unused t2) -> placed (<[p := t2]> b) sp2 fr2.
Proof.
  intros [A B C] Hp Hok H1 H2 H3.
  assert (forall P : OS_TMR -> Prop, (exists t, <[p := t2]> b !! p = Some t /\ P t) <-> P t2) as Hself.
  { intros P. rewrite list_lookup_insert_eq by done. split; [by intros (t & [= <-] & Ht)|by exists t2]. }
  split.
  - intros q t. destruct (decide (q = p)) as [-> |Hn]; [rewrite list_lookup_insert_eq by done; by intros [= <-]|].
    rewrite list_lookup_insert_ne by done. apply A.
  - intros s l2 q Hl. destruct (H1 s l2 Hl) as (l & Hl0 & Hq & Hpp). destruct (decide (q = p)) as [-> |Hn].
    + by rewrite Hself.
    + rewrite list_lookup_insert_ne by done. rewrite Hq by done. by apply B.
  - intros q. destruct (decide (q = p)) as [-> |Hn].
    + by rewrite Hself.
    + rewrite list_lookup_insert_ne by done. rewrite H2 by done. apply C.
Qed.

(** * Operations *)

Lemma upd_runs p f k t Q : OSTmrTbl k !! p = Some t -> Q tt (set_tbl (alter f p (OSTmrTbl k)) k) -> runs (upd p f) k Q.
Proof. intros H HQ. apply wpe_bind, wpe_access. exists t. split; [done|]. by eapply wpe_done. Qed.

Lemma upd_bind_runs {A} p f k t (m : unit -> M Timers A) Q : OSTmrTbl k !! p = Some t ->
  runs (m tt) (set_tbl (alter f p (OSTmrTbl k)) k) Q -> runs (upd p f ≫= m) k Q.
Proof. intros H HQ. apply wpe_bind. by eapply upd_runs. Qed.

Lemma put_wheel_runs s w w0 k Q : OSTmrWheelTbl k !! s = Some w0 -> Q tt (set_wheel (<[s := w]> (OSTmrWheelTbl k)) k) -> runs (put_wheel s w) k Q.
Proof. intros H HQ. apply wpe_bind, wpe_access. exists w0. split; [done|]. by eapply wpe_done. Qed.

(** When a timer that is linked now expires. *)
Definition match_of (type : LinkType) (t : OS_TMR) (time : Z) : Z :=
  match type with
  | OS_TMR_LINK_PERIODIC => u32 (OSTmrPeriod t + time)
  | OS_TMR_LINK_DLY => if OSTmrDly t =? 0 then u32 (OSTmrPeriod t + time) else u32 (OSTmrDly t + time)
  end.

Definition started (m : Z) (t : OS_TMR) : OS_TMR := set_match m (set_state OS_TMR_STATE_RUNNING t).

(** The table after [p] has been put before [head]. *)
Definition pushed (p : nat) (m : Z) (head : option nat) (tbl : list OS_TMR) : list OS_TMR :=
  let tbl := alter (set_match m) p (alter (set_state OS_TMR_STATE_RUNNING) p tbl) in
  alter (set_prev None) p
    match head with
    | None => alter (set_next None) p tbl
    | Some q => alter (set_prev (Some p)) q (alter (set_next (Some q)) p tbl)
    end.

Lemma pushed_body p m h tbl t : tbl !! p = Some t -> erase <$> pushed p m h tbl = <[p := erase (started m t)]> (erase <$> tbl).
Proof.
  intros Ht. unfold pushed. rewrite erase_links by done.
  assert (erase <$> alter (set_match m) p (alter (set_state OS_TMR_STATE_RUNNING) p tbl) = <[p := erase (started m t)]> (erase <$> tbl)) as <-.
  { rewrite (erase_alter _ (set_match m)), (erase_alter _ (set_state OS_TMR_STATE_RUNNING)) by done. apply list_eq. intros q.
    rewrite !list_lookup_alter. destruct (decide (p = q)) as [-> |Hn].
    - rewrite decide_True, list_lookup_insert_eq by (done || (rewrite length_fmap; by apply lookup_lt_Some in Ht)). by rewrite list_lookup_fmap, Ht.
    - by rewrite list_lookup_insert_ne by done. }
  destruct h; [by rewrite 2!erase_links by done|by rewrite erase_links by done].
Qed.

Lemma pushed_links p m h tbl t : tbl !! p = Some t -> h <> Some p ->
  lk (pushed p m h tbl) p = Some (h, None) /\
  (forall q x, h = Some q -> lk tbl q = Some x -> lk (pushed p m h tbl) q = Some (x.1, Some p)) /\
  (forall q, q <> p -> h <> Some q -> lk (pushed p m h tbl) q = lk tbl q).
Proof.
  intros Ht Hh. unfold pushed. assert (forall q, h = Some q -> q <> p) as Hne by (intros q -> ->; done). split_and!.
  - unfold lk. rewrite list_lookup_alter_eq. destruct h as [q|].
    + rewrite list_lookup_alter_ne by auto. by rewrite !list_lookup_alter_eq, Ht.
    + by rewrite !list_lookup_alter_eq, Ht.
  - intros q [n pr] -> Hq. specialize (Hne q eq_refl). rewrite lk_alter, decide_False by auto. unfold lk in *.
    rewrite list_lookup_alter_eq, !list_lookup_alter_ne by auto. destruct (tbl !! q) as [tq|]; [|done]. injection Hq as <- <-. done.
  - intros q Hq1 Hq2. unfold lk. rewrite list_lookup_alter_ne by auto. destruct h as [r|].
    + rewrite !list_lookup_alter_ne by congruence. done.
    + rewrite !list_lookup_alter_ne by auto. done.
Qed.

Lemma pushed_length p m h tbl : length (pushed p m h tbl) = length tbl.
Proof. unfold pushed. destruct h; by rewrite !length_alter. Qed.

Lemma Link_table p type k t l : OSTmrTbl k !! p = Some t -> head l <> Some p ->
  (forall q, head l = Some q -> is_Some (OSTmrTbl k !! q)) ->
  let m := match_of type t (OSTmrTime k) in
  OSTmrWheelTbl k !! spoke_of m = Some (mkWheel (head l) (Z.of_nat (length l))) -> (length l <= OS_TMR_CFG_MAX)%nat ->
  OSTmr_Link p type k = Done tt (set_wheel (<[spoke_of m := mkWheel (Some p) (Z.of_nat (length (p :: l)))]> (OSTmrWheelTbl k))
    (set_tbl (pushed p m (head l) (OSTmrTbl k)) k)).
Proof.
  intros Ht Hh Hq m Hw Hlen. enough (runs (OSTmr_Link p type) k (fun _ k' => k' = set_wheel (<[spoke_of m := mkWheel (Some p) (Z.of_nat (length (p :: l)))]> (OSTmrWheelTbl k))
    (set_tbl (pushed p m (head l) (OSTmrTbl k)) k))) as H.
  { apply runs_done in H as ([] & k' & E & ->). done. }
  unfold OSTmr_Link. eapply upd_bind_runs; [done|]. apply wpe_bind, wpe_access. cbn. rewrite list_lookup_alter_eq, Ht. eexists. split; [done|].
  kdo. cbn. fold (match_of type t (OSTmrTime k)). fold m.
  eapply upd_bind_runs; [cbn; by rewrite list_lookup_alter_eq, Ht|]. apply wpe_bind, wpe_access. cbn. rewrite Hw. eexists. split; [done|]. cbn.
  unfold pushed. destruct l as [|q l]; cbn [head].
  - apply wpe_bind. eapply upd_bind_runs; [cbn; by rewrite !list_lookup_alter_eq, Ht|]. eapply put_wheel_runs; [cbn; exact Hw|].
    eapply upd_runs; [cbn; by rewrite !list_lookup_alter_eq, Ht|]. done.
  - assert (q <> p) as Hn by (by intros ->). destruct (Hq q eq_refl) as [tq Htq].
    apply wpe_bind. eapply upd_bind_runs; [cbn; by rewrite !list_lookup_alter_eq, Ht|].
    eapply upd_bind_runs; [cbn; by rewrite !list_lookup_alter_ne by auto|]. eapply put_wheel_runs; [cbn; exact Hw|].
    eapply upd_runs; [cbn; rewrite list_lookup_alter_ne by auto; by rewrite !list_lookup_alter_eq, Ht|]. cbn.
    replace (u16 (Z.of_nat (S (length l)) + 1)) with (Z.of_nat (S (S (length l)))); [done|].
    cbn in Hlen. unfold OS_TMR_CFG_MAX in Hlen. rewrite u16_small; unfold is_u16; lia.
Qed.

Lemma tmr_ok_erase t : tmr_ok (erase t) <-> tmr_ok t.
Proof. split; intros []; by split. Qed.

Lemma rep_tmr k sp fr p t : rep k sp fr -> OSTmrTbl k !! p = Some t -> tmr_ok t.
Proof. intros [_ H] Ht. apply tmr_ok_erase, (pl_ok _ _ _ H p), lookup_body, Ht. Qed.

Lemma bodies_length k : length (bodies k) = length (OSTmrTbl k).
Proof. apply length_fmap. Qed.

Lemma match_u32 type t time : is_u32 (match_of type t time).
Proof. unfold match_of. destruct type; [destruct (_ =? _)|]; apply u32_range. Qed.

(** A timer that is neither linked nor free is on no list. *)
Lemma idle_nowhere k sp fr p t : rep k sp fr -> OSTmrTbl k !! p = Some t -> ~ running t -> ~ unused t ->
  (forall s l, sp !! s = Some l -> p ∉ l) /\ p ∉ fr.
Proof.
  intros H Ht Hr Hu. split.
  - intros s l Hs Hp. destruct (spoke_member _ _ _ _ _ _ H Hs Hp) as (t2 & Ht2 & Hr2 & _). congruence.
  - intros Hp. destruct (free_member _ _ _ _ H Hp) as (t2 & Ht2 & Hu2). congruence.
Qed.

Lemma Link_runs p type k sp fr t : rep k sp fr -> OSTmrTbl k !! p = Some t -> ~ running t -> ~ unused t ->
  let m := match_of type t (OSTmrTime k) in
  exists l, sp !! spoke_of m = Some l /\ runs (OSTmr_Link p type) k (fun _ k' =>
    rep k' (<[spoke_of m := p :: l]> sp) fr /\ bodies k' = <[p := erase (started m t)]> (bodies k) /\ quiet k k').
Proof.
  intros H Ht Hr Hu m. destruct (spoke_exists k sp fr m (proj1 H)) as [l Hl]. exists l. split; [done|].
  destruct (idle_nowhere _ _ _ _ _ H Ht Hr Hu) as [Hno Hnf]. pose proof (Hno _ _ Hl) as Hpl.
  destruct (sh_linked _ _ _ (proj1 H) _ _ Hl) as [Hnd Hlk].
  assert (head l <> Some p) as Hh by (intros E; by apply Hpl, head_Some_elem_of).
  eapply wpe_done.
  { apply (Link_table p type k t l Ht Hh); [|by apply (wheel_read k sp fr _ _ (proj1 H))|by eapply spoke_length].
    intros q Hq. destruct (spoke_member _ _ _ _ _ q H Hl) as (tq & Htq & _); [by apply head_Some_elem_of|eauto]. }
  fold m. destruct (pushed_links p m (head l) (OSTmrTbl k) t Ht Hh) as (P1 & P2 & P3).
  assert (bodies (set_wheel (<[spoke_of m := mkWheel (Some p) (Z.of_nat (length (p :: l)))]> (OSTmrWheelTbl k))
    (set_tbl (pushed p m (head l) (OSTmrTbl k)) k)) = <[p := erase (started m t)]> (bodies k)) as Hb by (by apply pushed_body).
  split; [|done]. split; [|rewrite Hb].
  - apply (shape_spoke k sp fr (spoke_of m) l p _ (p :: l)); [done|done|by right|done|by rewrite pushed_length| |by apply NoDup_cons|].
    + intros q Hq1 Hq2. apply P3; [done|]. intros E. by apply Hq1, head_Some_elem_of.
    + apply (linked_push (lk (OSTmrTbl k))); try done.
      * intros q Hq. destruct (spoke_member _ _ _ _ _ q H Hl) as (tq & Htq & _); [by apply head_Some_elem_of|].
        exists (links tq). unfold lk at 1. rewrite Htq. split; [done|]. apply P2; [done|]. unfold lk. by rewrite Htq.
      * intros q Hq1 Hq2. apply P3; [by intros ->|done].
  - apply (placed_update (bodies k) sp fr); [apply H| | | |done|].
    + rewrite bodies_length. by apply lookup_lt_Some in Ht.
    + destruct (rep_tmr _ _ _ _ _ H Ht). by split; try done; apply match_u32.
    + intros s l2 Hs. destruct (decide (s = spoke_of m)) as [-> |Hn].
      * rewrite list_lookup_insert_eq in Hs by (by apply lookup_lt_Some in Hl). injection Hs as <-. exists l.
        split; [done|]. split; [intros q Hq; split; [by intros [->|?]%elem_of_cons|by right]|]. split; [done|by left].
      * rewrite list_lookup_insert_ne in Hs by done. exists l2. split; [done|]. split; [done|].
        split; [intros Hp; by destruct (Hno _ _ Hs)|]. intros [_ E]. by symmetry in E.
    + split; [done|]. intros E. discriminate E.
Qed.

(** The table after [p] has been taken out from between [prev] and [next]. *)
Definition detached (prev next : option nat) (tbl : list OS_TMR) : list OS_TMR :=
  let tbl := match prev with Some a => alter (set_next next) a tbl | None => tbl end in
  match next with Some b => alter (set_prev prev) b tbl | None => tbl end.

Definition unlinked (p : nat) (prev next : option nat) (tbl : list OS_TMR) : list OS_TMR :=
  alter (set_prev None ∘ set_next None ∘ set_state OS_TMR_STATE_STOPPED) p (detached prev next tbl).

Lemma detached_body a b tbl : erase <$> detached a b tbl = erase <$> tbl.
Proof. unfold detached. destruct a, b; by rewrite ?erase_links. Qed.

Lemma unlinked_body p a b tbl t : tbl !! p = Some t ->
  erase <$> unlinked p a b tbl = <[p := erase (set_state OS_TMR_STATE_STOPPED t)]> (erase <$> tbl).
Proof.
  intros Ht. unfold unlinked. rewrite (erase_alter _ (set_state OS_TMR_STATE_STOPPED)), detached_body by done.
  apply list_eq. intros q. rewrite list_lookup_alter. destruct (decide (p = q)) as [-> |Hn].
  - rewrite list_lookup_insert_eq by (rewrite length_fmap; by apply lookup_lt_Some in Ht). by rewrite list_lookup_fmap, Ht.
  - by rewrite list_lookup_insert_ne.
Qed.

Lemma unlinked_length p a b tbl : length (unlinked p a b tbl) = length tbl.
Proof. unfold unlinked, detached. destruct a, b; by rewrite !length_alter. Qed.

Lemma unlinked_links p a b tbl : a <> Some p -> b <> Some p -> (forall x, a = Some x -> b <> Some x) ->
  (forall q x, a = Some q -> lk tbl q = Some x -> lk (unlinked p a b tbl) q = Some (b, x.2)) /\
  (forall q x, b = Some q -> lk tbl q = Some x -> lk (unlinked p a b tbl) q = Some (x.1, a)) /\
  (forall q, q <> p -> a <> Some q -> b <> Some q -> lk (unlinked p a b tbl) q = lk tbl q).
Proof.
  intros Ha Hb Hab. unfold unlinked, detached. split_and!.
  - intros q [n pr] -> Hq. specialize (Hab q eq_refl). rewrite lk_alter, decide_False by congruence. unfold lk in *.
    destruct b as [b|]; [rewrite list_lookup_alter_ne by congruence|]; rewrite list_lookup_alter_eq;
      (destruct (tbl !! q) as [tq|]; [by injection Hq as <- <-|discriminate Hq]).
  - intros q [n pr] -> Hq. rewrite lk_alter, decide_False by congruence. unfold lk in *. rewrite list_lookup_alter_eq.
    destruct a as [a|]; [rewrite list_lookup_alter_ne by (intros ->; by apply (Hab q))|];
      (destruct (tbl !! q) as [tq|]; [by injection Hq as <- <-|discriminate Hq]).
  - intros q Hq1 Hq2 Hq3. unfold lk. rewrite list_lookup_alter_ne by auto. destruct a, b; rewrite ?list_lookup_alter_ne by congruence; done.
Qed.

Lemma NoDup_mid {A} (l1 l2 : list A) x : NoDup (l1 ++ x :: l2) -> NoDup (l1 ++ l2) /\ (x ∉ l1) /\ (x ∉ l2).
Proof.
  rewrite <- Permutation_middle. intros [H1 H2]%NoDup_cons. split; [done|]. rewrite elem_of_app in H1. tauto.
Qed.

(** The first half of [OSTmr_Unlink]: the neighbours; the result is the new
    head of the spoke. *)
Lemma detach_runs p k t l1 l2 entries : OSTmrNext t = head l2 -> OSTmrPrev t = last l1 -> NoDup (l1 ++ l2) -> p ∉ l1 ->
  (forall q, q ∈ l1 ++ l2 -> is_Some (OSTmrTbl k !! q)) ->
  runs (if decide (OSTmrFirst (mkWheel (head (l1 ++ p :: l2)) entries) = Some p) then
       (match OSTmrNext t with
        | Some ptmr1 => upd ptmr1 (set_prev None)
        | None => mret tt
        end);;
       mret (OSTmrNext t)
     else
       upd_ptr (OSTmrPrev t) (set_next (OSTmrNext t));;
       (match OSTmrNext t with
        | Some ptmr2 => upd ptmr2 (set_prev (OSTmrPrev t))
        | None => mret tt
        end);;
       mret (OSTmrFirst (mkWheel (head (l1 ++ p :: l2)) entries))) k
    (fun first k' => first = head (l1 ++ l2) /\ k' = set_tbl (detached (last l1) (head l2) (OSTmrTbl k)) k).
Proof.
  intros -> -> Hnd Hp Hin. cbn [OSTmrFirst]. unfold detached.
  assert (forall b, head l2 = Some b -> b ∈ l1 ++ l2 /\ b ∉ l1) as Hb.
  { intros b E. apply head_Some_elem_of in E. split; [by apply elem_of_app; right|]. intros Hb.
    apply NoDup_app in Hnd as (_ & Hnd & _). by apply (Hnd b). }
  destruct (last l1) as [a|] eqn:El.
  - assert (a ∈ l1) as Ha by (by apply last_Some_elem_of). destruct l1 as [|c l1]; [done|].
    rewrite decide_False by (intros [= ->]; apply Hp; by left). destruct (Hin a) as [ta Hta]; [by apply elem_of_app; left|].
    apply wpe_bind. unfold upd_ptr. kdo. eapply upd_runs; [exact Hta|]. cbn beta.
    apply wpe_bind. destruct (head l2) as [b|] eqn:Eh; [|kret; by kret].
    destruct (Hb b eq_refl) as [Hb1 Hb2]. destruct (Hin b Hb1) as [tb Htb]. eapply upd_runs; [|by kret].
    cbn. rewrite list_lookup_alter_ne; [exact Htb|]. by intros ->.
  - apply last_None in El as ->. cbn [app head]. rewrite decide_True by done. apply wpe_bind.
    destruct (head l2) as [b|] eqn:Eh; [|kret; kret; split; [done|by destruct k]].
    destruct (Hb b eq_refl) as [Hb1 _]. destruct (Hin b Hb1) as [tb Htb]. eapply upd_runs; [exact Htb|]. by kret.
Qed.

Lemma detached_lookup p l1 l2 tbl : p ∉ l1 -> p ∉ l2 -> detached (last l1) (head l2) tbl !! p = tbl !! p.
Proof.
  intros H1 H2. assert (last l1 <> Some p) as E1 by (intros E; by apply H1, last_Some_elem_of).
  assert (head l2 <> Some p) as E2 by (intros E; by apply H2, head_Some_elem_of).
  unfold detached. destruct (last l1), (head l2); rewrite ?list_lookup_alter_ne by congruence; done.
Qed.

Lemma Unlink_table p k t l1 l2 : OSTmrTbl k !! p = Some t -> NoDup (l1 ++ p :: l2) ->
  linked (lk (OSTmrTbl k)) None (l1 ++ p :: l2) -> (forall q, q ∈ l1 ++ l2 -> is_Some (OSTmrTbl k !! q)) ->
  let s := spoke_of (OSTmrMatch t) in
  OSTmrWheelTbl k !! s = Some (mkWheel (head (l1 ++ p :: l2)) (Z.of_nat (length (l1 ++ p :: l2)))) ->
  (length (l1 ++ p :: l2) <= OS_TMR_CFG_MAX)%nat ->
  OSTmr_Unlink p k = Done tt (set_wheel (<[s := mkWheel (head (l1 ++ l2)) (Z.of_nat (length (l1 ++ l2)))]> (OSTmrWheelTbl k))
    (set_tbl (unlinked p (last l1) (head l2) (OSTmrTbl k)) k)).
Proof.
  intros Ht Hnd Hl Hin s Hw Hlen. enough (runs (OSTmr_Unlink p) k (fun _ k' => k' =
    set_wheel (<[s := mkWheel (head (l1 ++ l2)) (Z.of_nat (length (l1 ++ l2)))]> (OSTmrWheelTbl k))
    (set_tbl (unlinked p (last l1) (head l2) (OSTmrTbl k)) k))) as H.
  { apply runs_done in H as ([] & k' & E & ->). done. }
  apply linked_at in Hl. unfold lk in Hl. rewrite Ht in Hl. injection Hl as Hn Hp. apply NoDup_mid in Hnd as (Hnd & Hp1 & Hp2).
  replace (match last l1 with Some a => Some a | None => None end) with (last l1) in Hp by (by destruct (last l1)).
  assert (Z.of_nat (length (l1 ++ l2)) = u16 (Z.of_nat (length (l1 ++ p :: l2)) - 1)) as ->.
  { rewrite !length_app in *. cbn [length] in *. unfold OS_TMR_CFG_MAX in Hlen. rewrite u16_small; unfold is_u16; lia. }
  unfold OSTmr_Unlink. apply wpe_bind, wpe_access. exists t. split; [done|]. fold s.
  apply wpe_bind, wpe_access. rewrite Hw. eexists. split; [done|]. cbv beta.
  apply wpe_bind. eapply wpe_mono; [by apply detach_runs|]. intros first k' [-> ->].
  eapply upd_bind_runs; [cbn; by rewrite detached_lookup|]. by eapply put_wheel_runs.
Qed.

Lemma Unlink_runs p k sp fr t : rep k sp fr -> OSTmrTbl k !! p = Some t -> running t ->
  exists l1 l2, sp !! spoke_of (OSTmrMatch t) = Some (l1 ++ p :: l2) /\ runs (OSTmr_Unlink p) k (fun _ k' =>
    rep k' (<[spoke_of (OSTmrMatch t) := l1 ++ l2]> sp) fr /\ bodies k' = <[p := erase (set_state OS_TMR_STATE_STOPPED t)]> (bodies k) /\ quiet k k').
Proof.
  intros H Ht Hr. set (s := spoke_of (OSTmrMatch t)). destruct (spoke_exists k sp fr (OSTmrMatch t) (proj1 H)) as [l Hl].
  fold s in Hl. assert (p ∈ l) as Hp.
  { apply (pl_spoke _ _ _ (proj2 H) s l p Hl). exists (erase t). split; [by apply lookup_body|done]. }
  apply list_elem_of_split in Hp as (l1 & l2 & ->). exists l1, l2. split; [done|].
  destruct (sh_linked _ _ _ (proj1 H) _ _ Hl) as [Hnd Hlk]. destruct (NoDup_mid _ _ _ Hnd) as (Hnd2 & Hp1 & Hp2).
  assert (forall q, q ∈ l1 ++ l2 -> q ∈ l1 ++ p :: l2) as Hsub by (intros q; rewrite !elem_of_app, elem_of_cons; tauto).
  assert (forall q, q ∈ l1 ++ l2 -> exists x, lk (OSTmrTbl k) q = Some x) as Hlkq.
  { intros q Hq. destruct (spoke_member _ _ _ _ _ q H Hl (Hsub q Hq)) as (tq & Htq & _). unfold lk. rewrite Htq. eauto. }
  eapply wpe_done.
  { apply (Unlink_table p k t l1 l2 Ht Hnd Hlk); [|by apply (wheel_read k sp fr _ _ (proj1 H))|by eapply spoke_length].
    intros q Hq. destruct (spoke_member _ _ _ _ _ q H Hl (Hsub q Hq)) as (tq & -> & _). eauto. }
  fold s. assert (last l1 <> Some p) as E1 by (intros E; by apply Hp1, last_Some_elem_of).
  assert (head l2 <> Some p) as E2 by (intros E; by apply Hp2, head_Some_elem_of).
  assert (forall a, last l1 = Some a -> a ∈ l1) as L1 by (intros a; apply last_Some_elem_of).
  assert (forall b, head l2 = Some b -> b ∈ l2) as L2 by (intros b; apply head_Some_elem_of).
  destruct (unlinked_links p (last l1) (head l2) (OSTmrTbl k) E1 E2) as (P1 & P2 & P3).
  { intros x Ha Hb. apply NoDup_app in Hnd2 as (_ & Hd & _). by apply (Hd x); [apply L1|apply L2]. }
  set (k' := set_wheel _ _). assert (bodies k' = <[p := erase (set_state OS_TMR_STATE_STOPPED t)]> (bodies k)) as Hb by (by apply unlinked_body).
  split; [|done]. split; [|rewrite Hb].
  - apply (shape_spoke k sp fr s (l1 ++ p :: l2) p); [done|done|left; apply elem_of_app; right; by left| |by rewrite unlinked_length| |done|].
    + intros Hf. apply (free_disjoint k sp fr s (l1 ++ p :: l2) p); [done|done|apply elem_of_app; right; by left|done].
    + intros q Hq1 Hq2. apply P3; [done| |]; intros E; apply Hq1, Hsub, elem_of_app; [left; by apply L1|right; by apply L2].
    + apply (linked_remove (lk (OSTmrTbl k)) _ l1 None p l2 Hlk Hnd).
      * intros a Ha. destruct (Hlkq a) as [x Hx]; [by apply elem_of_app; left; apply L1|]. exists x. split; [done|by apply P1].
      * intros b Hbb. destruct (Hlkq b) as [x Hx]; [by apply elem_of_app; right; apply L2|]. exists x. split; [done|].
        rewrite (P2 b x Hbb Hx). by destruct (last l1).
      * intros q Hq Ha Hbb. apply P3; [|done|done]. intros ->. by apply elem_of_app in Hq as [?|?].
  - apply (placed_update (bodies k) sp fr); [apply H| | | |done|].
    + rewrite bodies_length. by apply lookup_lt_Some in Ht.
    + destruct (rep_tmr _ _ _ _ _ H Ht). by split.
    + intros s1 l0 Hs. destruct (decide (s1 = s)) as [-> |Hn].
      * rewrite list_lookup_insert_eq in Hs by (by apply lookup_lt_Some in Hl). injection Hs as <-. exists (l1 ++ p :: l2).
        split; [done|]. split; [intros q Hq; rewrite !elem_of_app, elem_of_cons; tauto|].
        split; [rewrite elem_of_app; tauto|]. intros [E _]. discriminate E.
      * rewrite list_lookup_insert_ne in Hs by done. exists l0. split; [done|]. split; [done|].
        split; [|intros [E _]; discriminate E]. intros Hq. destruct Hn. apply (spokes_disjoint k sp fr s1 s l0 (l1 ++ p :: l2) p); [done..|].
        apply elem_of_app. right. by left.
    + split; [|intros E; discriminate E]. intros Hf. exfalso. apply (free_disjoint k sp fr s (l1 ++ p :: l2) p); [done|done| |done].
      apply elem_of_app. right. by left.
Qed.

Definition freed (t : OS_TMR) : OS_TMR :=
  mkTmr (OSTmrType t) 0 0 (OSTmrNext t) (OSTmrPrev t) 0 (OSTmrDly t) 0 OS_TMR_OPT_NONE OS_TMR_STATE_UNUSED.

(** A timer changes and its links too, on no spoke before or after. *)
Lemma shape_free k sp fr p T fr2 used free : rep k sp fr -> (forall s l, sp !! s = Some l -> p ∉ l) ->
  length T = length (OSTmrTbl k) -> (forall q, q <> p -> lk T q = lk (OSTmrTbl k) q) ->
  NoDup fr2 -> chained (lk T) fr2 -> free = Z.of_nat (length fr2) -> used = Z.of_nat OS_TMR_CFG_MAX - Z.of_nat (length fr2) ->
  shape (set_free_list (head fr2) used free (set_tbl T k)) sp fr2.
Proof.
  intros H Hp HT Ho Hnd Hc -> ->. destruct H as [[A B C D E F G] _]. split; cbn; try done.
  - by rewrite HT.
  - intros s l Hs. destruct (D s l Hs) as [D1 D2]. split; [done|]. apply (linked_ext (lk (OSTmrTbl k))); [|done].
    intros q Hq. apply Ho. intros ->. by apply (Hp s l).
Qed.

Lemma alter_alter {A} f g (p : nat) (l : list A) : alter f p (alter g p l) = alter (f ∘ g) p l.
Proof.
  apply list_eq. intros q. rewrite !list_lookup_alter. destruct (decide (p = q)) as [-> |]; [|done].
  by rewrite decide_True, <- option_fmap_compose.
Qed.

Lemma body_alter f g p k t : (forall t, erase (f t) = g (erase t)) -> OSTmrTbl k !! p = Some t ->
  erase <$> alter f p (OSTmrTbl k) = <[p := erase (f t)]> (bodies k).
Proof.
  intros H Ht. rewrite (erase_alter f g) by done. apply list_eq. intros q. rewrite list_lookup_alter. destruct (decide (p = q)) as [<- |Hn].
  - rewrite list_lookup_insert_eq by (rewrite bodies_length; by apply lookup_lt_Some in Ht). by rewrite list_lookup_fmap, Ht, H.
  - by rewrite list_lookup_insert_ne.
Qed.

Lemma Free_runs p k sp fr t : rep k sp fr -> OSTmrTbl k !! p = Some t -> ~ running t -> ~ unused t ->
  runs (OSTmr_Free p) k (fun _ k' => rep k' sp (p :: fr) /\ bodies k' = <[p := erase (freed t)]> (bodies k) /\ quiet k k').
Proof.
  intros H Ht Hr Hu. destruct (idle_nowhere _ _ _ _ _ H Ht Hr Hu) as [Hno Hnf].
  destruct (sh_free _ _ _ (proj1 H)) as (F1 & F2 & F3). destruct (sh_count _ _ _ (proj1 H)) as [C1 C2].
  pose proof (free_length k sp fr H) as Hlen. unfold OSTmr_Free. fold (freed t).
  eapply upd_bind_runs; [done|]. kdo. cbn [OSTmrFreeList set_tbl]. eapply upd_bind_runs; [cbn; by rewrite list_lookup_alter_eq, Ht|]. kret.
  cbn [set_tbl OSTmrTbl OSTmrUsed OSTmrFree OSTmrFreeList]. rewrite alter_alter. set (f := _ ∘ _ : OS_TMR -> OS_TMR).
  set (T := alter f p (OSTmrTbl k)).
  assert (erase <$> T = <[p := erase (freed t)]> (bodies k)) as Hb by (by apply (body_alter f freed)).
  assert (forall q, q <> p -> lk T q = lk (OSTmrTbl k) q) as Ho by (intros q Hq; unfold T; rewrite lk_alter; by rewrite decide_False by auto).
  assert (Z.of_nat (length fr) < Z.of_nat OS_TMR_CFG_MAX) as Hlt.
  { apply Nat2Z.inj_lt. destruct (decide (length fr = OS_TMR_CFG_MAX)) as [E|]; [|lia]. exfalso.
    enough (length (p :: fr) <= OS_TMR_CFG_MAX)%nat by (cbn in *; lia). apply (length_le_max k sp fr); [apply H|by apply NoDup_cons|].
    intros q [->|Hq]%elem_of_cons; [eauto|]. destruct (free_member _ _ _ _ H Hq) as (tq & -> & _). eauto. }
  unfold OS_TMR_CFG_MAX in *. split; [|done]. split.
  - apply (shape_free k sp fr p T (p :: fr)); [done|done|unfold T; by rewrite length_alter|done|by apply NoDup_cons| | |].
    + split; [unfold T; rewrite lk_alter, decide_True, Ht by done; unfold f, links; cbn; by rewrite F3|]. apply (chained_ext (lk (OSTmrTbl k))); [|done].
      intros q Hq. apply Ho. by intros ->.
    + rewrite C1, u16_small by (unfold is_u16; lia). cbn. lia.
    + rewrite C2, u16_small by (unfold is_u16; lia). cbn [length]. unfold OS_TMR_CFG_MAX. lia.
  - change (placed (erase <$> T) sp (p :: fr)). rewrite Hb. apply (placed_update (bodies k) sp fr); [apply H| | | | |].
    + rewrite bodies_length. by apply lookup_lt_Some in Ht.
    + destruct (rep_tmr _ _ _ _ _ H Ht). by split.
    + intros s l Hs. exists l. split; [done|]. split; [done|]. split; [intros Hp; by destruct (Hno _ _ Hs)|intros [E _]; discriminate E].
    + intros q Hq. split; [by intros [->|?]%elem_of_cons|by right].
    + split; [done|by left].
Qed.

Definition created (dly period opt cb arg : Z) (t : OS_TMR) : OS_TMR :=
  mkTmr (OSTmrType t) cb arg (OSTmrNext t) (OSTmrPrev t) (OSTmrMatch t) dly period opt OS_TMR_STATE_STOPPED.

Lemma Create_runs dly period opt cb arg k sp p fr : rep k sp (p :: fr) -> OSIntNesting k <= 0 -> is_u32 dly -> is_u32 period ->
  exists t, bodies k !! p = Some t /\ runs (OSTmrCreate dly period opt cb arg) k (fun r k' =>
    r = (Some p, OS_ERR_NONE) /\ rep k' sp fr /\ bodies k' = <[p := created dly period opt cb arg t]> (bodies k) /\ quiet k k').
Proof.
  intros H Hi Hd Hper. destruct (free_member _ _ _ p H) as (t & Ht & Hu); [by left|]. exists (erase t). split; [by apply lookup_body|].
  destruct (sh_free _ _ _ (proj1 H)) as (F1 & [F2 F4] & F3). destruct (sh_count _ _ _ (proj1 H)) as [C1 C2].
  pose proof (free_length k sp _ H) as Hlen. cbn [length head] in *. unfold OS_TMR_CFG_MAX in *.
  apply NoDup_cons in F1 as [Fp F1].
  set (T := alter (created dly period opt cb arg) p (alter (set_prev None ∘ set_next None) p (OSTmrTbl k))).
  assert (OSTmrCreate dly period opt cb arg k =
    Done (Some p, OS_ERR_NONE) (set_free_list (head fr) (u16 (OSTmrUsed k + 1)) (u16 (OSTmrFree k - 1)) (set_tbl T k))) as E.
  { enough (runs (OSTmrCreate dly period opt cb arg) k (fun r k' => r = (Some p, OS_ERR_NONE) /\
      k' = set_free_list (head fr) (u16 (OSTmrUsed k + 1)) (u16 (OSTmrFree k - 1)) (set_tbl T k))) as Hc.
    { by apply runs_done in Hc as (? & ? & Hc & -> & ->). }
    unfold OSTmrCreate. kdo. rewrite (proj2 (Z.ltb_ge 0 _)) by lia. apply wpe_bind. unfold OSTmr_Alloc. kdo. rewrite F3.
    kread Ht. eapply upd_bind_runs; [done|]. kdo. kret. eapply upd_bind_runs; [cbn; by rewrite list_lookup_alter_eq, Ht|]. kret.
    split; [done|]. cbn. unfold lk in F2. rewrite Ht in F2. injection F2 as -> _. done. }
  eapply wpe_done; [exact E|]. split; [done|].
  assert (erase <$> T = <[p := created dly period opt cb arg (erase t)]> (bodies k)) as Hb.
  { unfold T. rewrite alter_alter. by rewrite (body_alter _ (created dly period opt cb arg) p k t). }
  assert (forall q, q <> p -> lk T q = lk (OSTmrTbl k) q) as Ho.
  { intros q Hq. unfold T. by rewrite !lk_alter, !decide_False by auto. }
  assert (forall s l, sp !! s = Some l -> p ∉ l) as Hno.
  { intros s l Hs Hp. apply (free_disjoint k sp _ s l p H Hs Hp). by left. }
  split; [|done]. split.
  - apply (shape_free k sp (p :: fr) p T fr); [done|done|unfold T; by rewrite !length_alter|done|done| | |].
    + apply (chained_ext (lk (OSTmrTbl k))); [|done]. intros q Hq. apply Ho. by intros ->.
    + rewrite C1, u16_small by (unfold is_u16; lia). lia.
    + rewrite C2, u16_small by (unfold is_u16; lia). unfold OS_TMR_CFG_MAX. lia.
  - change (placed (erase <$> T) sp fr). rewrite Hb. apply (placed_update (bodies k) sp (p :: fr)); [apply H| | | | |].
    + rewrite bodies_length. by apply lookup_lt_Some in Ht.
    + destruct (rep_tmr _ _ _ _ _ H Ht). by split.
    + intros s l Hs. exists l. split; [done|]. split; [done|]. split; [intros Hp; by destruct (Hno _ _ Hs)|intros [Er _]; discriminate Er].
    + intros q Hq. rewrite elem_of_cons. tauto.
    + split; [done|]. intros Er. discriminate Er.
Qed.

(** A change of a timer that moves it nowhere. *)
Lemma upd_rep f p k sp fr t : rep k sp fr -> OSTmrTbl k !! p = Some t -> (forall t, links (f t) = links t) ->
  (forall t, erase (f t) = f (erase t)) -> tmr_ok (f t) -> (forall s, on_spoke s (f t) <-> on_spoke s t) -> (unused (f t) <-> unused t) ->
  rep (set_tbl (alter f p (OSTmrTbl k)) k) sp fr /\ bodies (set_tbl (alter f p (OSTmrTbl k)) k) = <[p := erase (f t)]> (bodies k).
Proof.
  intros H Ht Hl He Hok Hs Hu. assert (erase <$> alter f p (OSTmrTbl k) = <[p := erase (f t)]> (bodies k)) as Hb by (by apply (body_alter f f)).
  assert (forall q, lk (alter f p (OSTmrTbl k)) q = lk (OSTmrTbl k) q) as Ho.
  { intros q. rewrite lk_alter. destruct (decide (p = q)) as [<- |]; [|done]. unfold lk. rewrite Ht. cbn. by rewrite Hl. }
  split; [|done]. destruct H as [[A B C D E F G] Pl]. split.
  - split; cbn; try done; [by rewrite length_alter| |].
    + intros s l Hs1. destruct (D s l Hs1) as [D1 D2]. split; [done|]. by apply (linked_ext (lk (OSTmrTbl k))).
    + destruct E as (E1 & E2 & E3). split_and!; [done| |done]. by apply (chained_ext (lk (OSTmrTbl k))).
  - unfold bodies at 1. cbn. rewrite Hb. pose proof (lookup_body k p t Ht) as Hbt.
    apply (placed_update (bodies k) sp fr); [done|by apply lookup_lt_Some in Hbt|by apply tmr_ok_erase| |done|].
    + intros s l Hs1. exists l. split; [done|]. split; [done|]. rewrite (pl_spoke _ _ _ Pl s l p Hs1). rewrite Hbt.
      split; [intros (t1 & [= <-] & Ho1); by apply Hs|intros Ho1; exists (erase t); split; [done|by apply Hs]].
    + rewrite (pl_free _ _ _ Pl p), Hbt. split; [intros (t1 & [= <-] & Ho1); by apply Hu|intros Ho1; exists (erase t); split; [done|by apply Hu]].
Qed.
