(* ===== verification/TimerTask.v ===== *)
(** What the timers promise: the timer task calls back exactly the timers that
    are due, no sequence of services leaves the tables, and a timer expires
    with the tick it was set to. *)
From S2P Require Import Prelude Timers TimerWheel.
From stdpp Require Import list.
#[local] Open Scope Z_scope.

(** A callback code that owns its timer ([own]) may stop, restart or delete
    it; it may start timers that do not run and create others.  It leaves the
    other running timers where they are, and does not wait. *)
Definition spared (own : bool) (p q : nat) : Prop := own = false \/ q <> p.

#[export] Instance spared_dec own p q : Decision (spared own p q).
Proof. unfold spared. apply _. Defined.

Definition gentle_to (own : bool) (p : nat) (k : Timers) (sp : list (list nat)) (k' : Timers) : Prop :=
  exists sp' fr', rep k' sp' fr' /\ quiet k k' /\
    (forall s l, sp !! s = Some l -> exists new, sp' !! s = Some (new ++ filter (spared own p) l)) /\
    (forall q t, spared own p q -> bodies k !! q = Some t -> running t \/ q = p -> bodies k' !! q = Some t).

Class Gentle {CB : Callbacks} := {
  owns : Z -> bool;
  gentle : forall fn p arg k sp fr t, rep k sp fr -> OSIntNesting k = 0 -> OSTmrTbl k !! p = Some t -> ~ unused t ->
    runs (callback fn p arg) k (fun _ k' => gentle_to (owns fn) p k sp k')
}.

(** A timer after it has expired. *)
Definition fired (time : Z) (t : OS_TMR) : OS_TMR :=
  if OSTmrOpt t =? OS_TMR_OPT_PERIODIC then started (u32 (OSTmrPeriod t + time)) t else set_state OS_TMR_STATE_COMPLETED t.

(** The call it makes when it expires. *)
Definition calls_of (time : Z) (p : nat) (t : OS_TMR) : list (Z * nat * Z) :=
  if (time =? OSTmrMatch t) && negb (OSTmrCallback t =? 0) then [(OSTmrCallback t, p, OSTmrCallbackArg t)] else [].

Definition due_calls (time : Z) (b : list OS_TMR) (l : list nat) : list (Z * nat * Z) :=
  l ≫= fun p => match b !! p with Some t => calls_of time p t | None => [] end.

(** What tasks do with timers, and the signal of the tick. *)
Inductive TmrOp :=
  | TCreate (dly period opt cb arg : Z)
  | TDel (p : nat)
  | TStart (p : nat)
  | TStop (p : nat) (opt arg : Z)
  | TRemainGet (p : nat)
  | TStateGet (p : nat)
  | TInitTimer (cb arg : Z) (repeat : bool)
  | TDelTimer (p : nat)
  | TSetTimer (p : nat) (ms : Z)
  | TCancelTimer (p : nat)
  | TModTimer (p : nat) (ms : Z)
  | TTick.

#[export] Instance TmrOp_eq_dec : EqDecision TmrOp.
Proof. solve_decision. Defined.

Definition target (o : TmrOp) : option nat :=
  match o with
  | TDel p | TStart p | TStop p _ _ | TRemainGet p | TStateGet p | TDelTimer p | TSetTimer p _ | TCancelTimer p | TModTimer p _ => Some p
  | TCreate _ _ _ _ _ | TInitTimer _ _ _ | TTick => None
  end.

(** Handles are those of the table, times are words. *)
Definition op_ok (o : TmrOp) : Prop :=
  match o with
  | TCreate dly period _ _ _ => is_u32 dly /\ is_u32 period
  | TSetTimer p ms | TModTimer p ms => (p < OS_TMR_CFG_MAX)%nat /\ is_u32 ms
  | TDel p | TStart p | TStop p _ _ | TRemainGet p | TStateGet p | TDelTimer p | TCancelTimer p => (p < OS_TMR_CFG_MAX)%nat
  | TInitTimer _ _ _ | TTick => True
  end.

#[export] Instance tmr_op_ok_dec o : Decision (op_ok o).
Proof. unfold op_ok, is_u32. destruct o; apply _. Defined.

Section Task.
Context `{GC : Gentle}.

(** Whether the callback of [t] leaves it alone. *)
Definition loyal (t : OS_TMR) : Prop := OSTmrCallback t = 0 \/ owns (OSTmrCallback t) = false.

(** What one expiry does, with [rest] still to be looked at. *)
Definition expired (p : nat) (t : OS_TMR) (k : Timers) (s : nat) (rest : list nat) (k' : Timers) : Prop :=
  exists sp' fr' pre', rep k' sp' fr' /\ OSTmrTime k' = OSTmrTime k /\ OSIntNesting k' = OSIntNesting k /\
    OSTmrCalls k' = OSTmrCalls k ++ calls_of (OSTmrTime k) p t /\ sp' !! s = Some (pre' ++ rest) /\
    (forall q u, q <> p -> bodies k !! q = Some u -> running u -> bodies k' !! q = Some u) /\
    (loyal t -> bodies k' !! p = Some (erase (fired (OSTmrTime k) t))).

Lemma add_call_rep c k sp fr : rep k sp fr -> rep (add_call c k) sp fr.
Proof. intros [[A B C D E F G] P]. done. Qed.

Lemma split_unique {A} (x : A) l1 : forall l2 l3 l4, l1 ++ x :: l2 = l3 ++ x :: l4 -> NoDup (l1 ++ x :: l2) -> l1 = l3 /\ l2 = l4.
Proof.
  induction l1 as [|a l1 IH]; intros l2 [|b l3] l4 E Hnd; simplify_eq/=; [done| | |].
  - apply NoDup_cons in Hnd as [Hn _]. destruct Hn. apply elem_of_app. right. by left.
  - apply NoDup_cons in Hnd as [Hn _]. destruct Hn. apply elem_of_app. right. by left.
  - apply NoDup_cons in Hnd as [_ Hnd]. by destruct (IH l2 l3 l4) as [-> ->].
Qed.

(** Up to the callback. *)
Lemma expire_table k sp fr p t s pre rest : rep k sp fr -> OSTmrTbl k !! p = Some t -> sp !! s = Some (pre ++ p :: rest) ->
  runs (OSTmr_Unlink p;; if OSTmrOpt t =? OS_TMR_OPT_PERIODIC then OSTmr_Link p OS_TMR_LINK_PERIODIC
        else upd p (set_state OS_TMR_STATE_COMPLETED)) k
    (fun _ k1 => exists sp1 pre1, rep k1 sp1 fr /\ quiet k k1 /\ sp1 !! s = Some (pre1 ++ rest) /\
      bodies k1 = <[p := erase (fired (OSTmrTime k) t)]> (bodies k)).
Proof.
  intros H Ht Hs. destruct (spoke_member k sp fr s _ p H Hs) as (t0 & Ht0 & Hr & Hsp); [apply elem_of_app; right; by left|].
  rewrite Ht in Ht0. injection Ht0 as <-. destruct (Unlink_runs p k sp fr t H Ht Hr) as (l1 & l2 & Hl & HU). rewrite Hsp in Hl, HU.
  rewrite Hs in Hl. injection Hl as Hl. pose proof (sh_linked _ _ _ (proj1 H) _ _ Hs) as [Hnd _].
  destruct (split_unique _ _ _ _ _ Hl Hnd) as [<- <-].
  apply wpe_bind. eapply wpe_mono; [exact HU|]. intros _ k1 (H1 & B1 & Q1). cbn beta.
  assert (bodies k1 !! p = Some (erase (set_state OS_TMR_STATE_STOPPED t))) as Hb1.
  { rewrite B1. apply list_lookup_insert_eq. rewrite bodies_length. by apply lookup_lt_Some in Ht. }
  apply body_lookup in Hb1 as (t1 & Ht1 & E1). assert (OSTmrState t1 = OS_TMR_STATE_STOPPED) as Hst by (by apply (f_equal OSTmrState) in E1).
  assert (~ running t1) as Hnr by (unfold running; rewrite Hst; discriminate).
  assert (~ unused t1) as Hnu by (unfold unused; rewrite Hst; discriminate).
  assert (sp !! s = Some (pre ++ p :: rest)) as Hlt by done. apply lookup_lt_Some in Hlt. unfold fired.
  destruct (Z.eqb_spec (OSTmrOpt t) OS_TMR_OPT_PERIODIC) as [Ho|Ho].
  - destruct (Link_runs p OS_TMR_LINK_PERIODIC k1 _ fr t1 H1 Ht1 Hnr Hnu) as (l & Hl2 & HL). eapply wpe_mono; [exact HL|].
    intros _ k2 (H2 & B2 & Q2). cbn [match_of] in *. set (m := u32 (OSTmrPeriod t1 + OSTmrTime k1)) in *.
    eexists _, (if decide (spoke_of m = s) then p :: pre else pre). split; [exact H2|]. split; [by eapply quiet_trans|]. split.
    + destruct (decide (spoke_of m = s)) as [E|E].
      * rewrite E in *. rewrite list_lookup_insert_eq in Hl2 by done. injection Hl2 as <-.
        rewrite list_lookup_insert_eq by (by rewrite length_insert). done.
      * rewrite list_lookup_insert_ne by done. by rewrite list_lookup_insert_eq.
    + rewrite B2, B1, list_insert_insert_eq. f_equal. pose proof (f_equal OSTmrPeriod E1) as Ep. cbn in Ep.
      destruct Q1 as (Q1 & _). unfold m. rewrite Q1, <- Ep.
      transitivity (started (u32 (OSTmrPeriod t + OSTmrTime k)) (erase t1)); [done|]. by rewrite <- E1.
  - assert (tmr_ok t1) as Hok by (by eapply rep_tmr).
    destruct (upd_rep (set_state OS_TMR_STATE_COMPLETED) p k1 _ fr t1 H1 Ht1) as [H2 B2]; [done|done|destruct Hok; by split| |by split; intros E; [discriminate E|destruct (Hnu E)]|].
    { intros s0. split; intros [E _]; [discriminate E|by destruct (Hnr E)]. }
    eapply upd_runs; [done|]. eexists _, pre. split; [exact H2|]. split; [done|]. split; [by rewrite list_lookup_insert_eq|].
    rewrite B2, B1, list_insert_insert_eq. f_equal.
    transitivity (set_state OS_TMR_STATE_COMPLETED (erase t1)); [done|]. by rewrite <- E1.
Qed.

Lemma runs_bind_assoc {A B C} (m : M Timers A) (f : A -> M Timers B) (g : B -> M Timers C) k Q :
  runs ((m ≫= f) ≫= g) k Q -> runs (m ≫= fun a => f a ≫= g) k Q.
Proof. unfold runs, wpe. by rewrite bind_assoc. Qed.

Lemma filter_spared_id own p (l : list nat) : p ∉ l -> filter (spared own p) l = l.
Proof. intros H. induction l as [|q l IH]; [done|]. apply not_elem_of_cons in H as [Hq Hl].
  rewrite filter_cons_True by (right; congruence). by rewrite IH. Qed.

Lemma expire_runs k sp fr p t s pre rest : rep k sp fr -> OSIntNesting k = 0 -> OSTmrTbl k !! p = Some t ->
  sp !! s = Some (pre ++ p :: rest) -> OSTmrTime k = OSTmrMatch t -> runs (expire p t) k (fun _ => expired p t k s rest).
Proof.
  intros H Hi Ht Hs Hm. unfold expire. apply runs_bind_assoc. apply wpe_bind.
  eapply wpe_mono; [by eapply expire_table|]. intros _ k1 (sp1 & pre1 & H1 & (Qt & Qi & Qc) & Hs1 & B1). cbn beta.
  pose proof (sh_linked _ _ _ (proj1 H) _ _ Hs) as [Hnd _].
  assert (p ∉ rest) as Hpr by (by apply NoDup_mid in Hnd as (_ & _ & Hp)).
  assert (bodies k1 !! p = Some (erase (fired (OSTmrTime k) t))) as Hb1.
  { rewrite B1. apply list_lookup_insert_eq. rewrite bodies_length. by apply lookup_lt_Some in Ht. }
  apply body_lookup in Hb1 as (t1 & Ht1 & E1).
  assert (OSTmrCallback t1 = OSTmrCallback t /\ OSTmrCallbackArg t1 = OSTmrCallbackArg t) as [Ec Ea].
  { pose proof (f_equal OSTmrCallback E1) as Ec. pose proof (f_equal OSTmrCallbackArg E1) as Ea. unfold fired in Ec, Ea.
    cbn in Ec, Ea. rewrite <- Ec, <- Ea. by destruct (_ =? _). }
  apply wpe_bind, wpe_access. exists t1. split; [done|]. rewrite Ec, Ea. unfold expired, calls_of.
  rewrite Hm, Z.eqb_refl. cbn [andb]. destruct (Z.eqb_spec (OSTmrCallback t) 0) as [E0|E0]; cbn [negb].
  - kret. exists sp1, fr, pre1. rewrite Qc, app_nil_r. rewrite <- Hm. split_and!; [done..| |].
    + intros q u Hq Hu _. rewrite B1. by rewrite list_lookup_insert_ne.
    + intros _. rewrite B1. apply list_lookup_insert_eq. rewrite bodies_length. by apply lookup_lt_Some in Ht.
  - unfold call. kdo. eapply wpe_mono; [apply (gentle (OSTmrCallback t) p (OSTmrCallbackArg t) (add_call _ k1) sp1 fr t1)|].
    + by apply add_call_rep.
    + cbn. congruence.
    + done.
    + intros Hu. pose proof (f_equal OSTmrState E1) as Es. unfold unused, fired in *. cbn in Es. rewrite Hu in Es.
      by destruct (_ =? _).
    + intros _ k2 (sp2 & fr2 & H2 & (Rt & Ri & Rc) & Hsp & Hb). cbn in Rt, Ri, Rc. destruct (Hsp s _ Hs1) as [new Hnew].
      rewrite filter_app, (filter_spared_id _ _ rest Hpr), app_assoc in Hnew. exists sp2, fr2, (new ++ filter (spared (owns (OSTmrCallback t)) p) pre1).
      rewrite <- Hm. split_and!; [done|congruence|congruence|by rewrite Rc, Qc|done| |].
      * intros q u Hq Hu Hru. apply Hb; [by right| |by left]. change (bodies k1 !! q = Some u). rewrite B1. by rewrite list_lookup_insert_ne.
      * intros [?|Hl]; [done|]. apply Hb; [by left| |by right]. change (bodies k1 !! p = Some (erase (fired (OSTmrTime k) t))). rewrite B1.
        apply list_lookup_insert_eq. rewrite bodies_length. by apply lookup_lt_Some in Ht.
Qed.

(** What the walk along [rest] does to a timer that runs. *)
Definition walked (time : Z) (rest : list nat) (k k' : Timers) : Prop :=
  forall q u, bodies k !! q = Some u -> running u ->
    if decide (q ∈ rest /\ time = OSTmrMatch u)
    then loyal u -> OSTmrOpt u = OS_TMR_OPT_PERIODIC -> bodies k' !! q = Some (started (u32 (OSTmrPeriod u + time)) u)
    else bodies k' !! q = Some u.

Lemma due_calls_ext time b b' l : (forall q, q ∈ l -> b' !! q = b !! q) -> due_calls time b' l = due_calls time b l.
Proof.
  unfold due_calls. induction l as [|q l IH]; intros H; [done|]. cbn. rewrite H by left. rewrite IH; [done|]. intros r Hr. apply H. by right.
Qed.

Lemma spoke_loop_runs fuel : forall rest pre k sp fr s, rep k sp fr -> OSIntNesting k = 0 -> sp !! s = Some (pre ++ rest) ->
  (length rest < fuel)%nat -> runs (spoke_loop fuel (head rest)) k (fun _ k' => exists sp' fr', rep k' sp' fr' /\
    OSTmrTime k' = OSTmrTime k /\ OSIntNesting k' = 0 /\
    OSTmrCalls k' = OSTmrCalls k ++ due_calls (OSTmrTime k) (bodies k) rest /\ walked (OSTmrTime k) rest k k').
Proof.
  induction fuel as [|fuel IH]; intros rest pre k sp fr s H Hi Hs Hf; [lia|]. destruct rest as [|p rest]; cbn [head spoke_loop].
  { kret. exists sp, fr. rewrite app_nil_r. split_and!; try done. intros q u Hu _. rewrite decide_False; [done|]. by intros [?%elem_of_nil _]. }
  destruct (spoke_member k sp fr s _ p H Hs) as (t & Ht & Hr & Hsp); [apply elem_of_app; right; by left|].
  apply wpe_bind, wpe_access. exists t. split; [done|]. kdo.
  pose proof (sh_linked _ _ _ (proj1 H) _ _ Hs) as [Hnd Hlk]. apply linked_at in Hlk. unfold lk in Hlk. rewrite Ht in Hlk. injection Hlk as -> _.
  apply NoDup_mid in Hnd as (Hnd & _ & Hpr). cbn [length] in Hf. pose proof (lookup_body k p t Ht) as Hb.
  assert (due_calls (OSTmrTime k) (bodies k) (p :: rest) = calls_of (OSTmrTime k) p t ++ due_calls (OSTmrTime k) (bodies k) rest) as Hd.
  { unfold due_calls. cbn. by rewrite Hb. }
  assert (forall q, q ∈ rest -> exists u, bodies k !! q = Some u /\ running u) as Hrest.
  { intros q Hq. destruct (spoke_member k sp fr s _ q H Hs) as (u & Hu & Hru & _); [apply elem_of_app; right; by right|].
    exists (erase u). split; [by apply lookup_body|done]. }
  destruct (Z.eqb_spec (OSTmrTime k) (OSTmrMatch t)) as [Hm|Hm].
  - apply wpe_bind. eapply wpe_mono; [by eapply expire_runs|]. intros _ k1 (sp1 & fr1 & pre1 & H1 & T1 & I1 & C1 & S1 & O1 & P1). cbn beta.
    eapply wpe_mono; [apply (IH rest pre1 k1 sp1 fr1 s H1); [congruence|done|lia]|].
    intros _ k2 (sp2 & fr2 & H2 & T2 & I2 & C2 & W2). exists sp2, fr2. rewrite T1 in *. split_and!; [done|done|done| |].
    + rewrite C2, C1, Hd, <- app_assoc. do 2 f_equal. apply due_calls_ext. intros q Hq. destruct (Hrest q Hq) as (u & Hu & Hru).
      rewrite Hu. apply O1; [by intros ->|done|done].
    + intros q u Hu Hru. destruct (decide (q = p)) as [-> |Hn].
      * rewrite Hb in Hu. injection Hu as <-. rewrite decide_True by (split; [by left|done]). intros Hl Ho. specialize (P1 Hl).
        unfold fired in P1. cbn in Ho. rewrite Ho in P1. specialize (W2 p _ P1 eq_refl). rewrite decide_False in W2; [done|]. by intros [? _].
      * specialize (W2 q u (O1 q u Hn Hu Hru) Hru). rewrite (decide_ext _ (q ∈ rest /\ OSTmrTime k = OSTmrMatch u)); [done|].
        rewrite elem_of_cons. tauto.
  - kdo. eapply wpe_mono; [apply (IH rest (pre ++ [p]) k sp fr s H); [done|by rewrite <- app_assoc|lia]|].
    intros _ k2 (sp2 & fr2 & H2 & T2 & I2 & C2 & W2). exists sp2, fr2. split_and!; [done|done|done| |].
    + rewrite C2, Hd. unfold calls_of. by rewrite (proj2 (Z.eqb_neq _ _) Hm).
    + intros q u Hu Hru. specialize (W2 q u Hu Hru). rewrite (decide_ext _ (q ∈ rest /\ OSTmrTime k = OSTmrMatch u)); [done|].
      rewrite elem_of_cons. split; [|tauto]. intros [[->|?] E]; [|done]. rewrite Hb in Hu. by injection Hu as <-.
Qed.

(** * The timer task *)

Definition due_now (time : Z) (b : list OS_TMR) (p : nat) : bool :=
  match b !! p with Some t => (OSTmrState t =? OS_TMR_STATE_RUNNING) && (time =? OSTmrMatch t) | None => false end.

(** The timers that run and expire at [time]. *)
Definition expiring (time : Z) (b : list OS_TMR) : list nat := filter (fun p => due_now time b p = true) (seq 0 OS_TMR_CFG_MAX).

Lemma due_calls_filter time b l : (forall p t, p ∈ l -> b !! p = Some t -> running t) ->
  due_calls time b l = due_calls time b (filter (fun p => due_now time b p = true) l).
Proof.
  induction l as [|p l IH]; intros H; [done|]. assert (forall q t, q ∈ l -> b !! q = Some t -> running t) as Hl by (intros q t Hq; apply H; by right).
  specialize (IH Hl). rewrite filter_cons. unfold due_calls in *. destruct (b !! p) as [t|] eqn:Hb.
  - assert (running t) as Hr by (apply (H p); [by left|done]). destruct (decide (due_now time b p = true)) as [Hd|Hd].
    + cbn. by rewrite Hb, IH.
    + cbn. rewrite Hb, <- IH. unfold calls_of, due_now in *. rewrite Hb, Hr, Z.eqb_refl in Hd. by destruct (time =? OSTmrMatch t).
  - rewrite decide_False by (unfold due_now; by rewrite Hb). cbn. by rewrite Hb.
Qed.

Lemma expiring_spoke k sp fr time l : rep k sp fr -> sp !! spoke_of time = Some l ->
  filter (fun p => due_now time (bodies k) p = true) l ≡ₚ expiring time (bodies k).
Proof.
  intros H Hl. apply NoDup_Permutation.
  - apply NoDup_filter. by apply (sh_linked _ _ _ (proj1 H) _ _ Hl).
  - apply NoDup_filter, NoDup_seq.
  - intros p. unfold expiring. rewrite !list_elem_of_filter. split; intros [Hd Hp]; (split; [done|]); unfold due_now in Hd.
    + destruct (bodies k !! p) eqn:E; [|done]. apply lookup_lt_Some in E. rewrite bodies_length, (sh_tbl _ _ _ (proj1 H)) in E. apply elem_of_seq. lia.
    + destruct (bodies k !! p) as [t|] eqn:E; [|done]. apply andb_true_iff in Hd as [H1 H2]. apply Z.eqb_eq in H1, H2.
      apply (pl_spoke _ _ _ (proj2 H) _ l p Hl). exists t. split; [done|]. split; [done|by rewrite <- H2].
Qed.

(** What a tick does to a timer that runs. *)
Definition ticked_tmr (time : Z) (k k' : Timers) : Prop :=
  forall q u, bodies k !! q = Some u -> running u ->
    if decide (time = OSTmrMatch u)
    then loyal u -> OSTmrOpt u = OS_TMR_OPT_PERIODIC -> bodies k' !! q = Some (started (u32 (OSTmrPeriod u + time)) u)
    else bodies k' !! q = Some u.

Lemma Task_runs k sp fr : rep k sp fr -> OSIntNesting k = 0 -> runs OSTmr_Task k (fun _ k' => exists sp' fr' cs,
  rep k' sp' fr' /\ OSTmrTime k' = u32 (OSTmrTime k + 1) /\ OSIntNesting k' = 0 /\ OSTmrCalls k' = OSTmrCalls k ++ cs /\
  cs ≡ₚ due_calls (u32 (OSTmrTime k + 1)) (bodies k) (expiring (u32 (OSTmrTime k + 1)) (bodies k)) /\
  ticked_tmr (u32 (OSTmrTime k + 1)) k k').
Proof.
  intros H Hi. unfold OSTmr_Task. kdo. kdo. set (time := u32 (OSTmrTime k + 1)). cbn [OSTmrTime set_tmr_time]. fold time.
  set (k0 := set_tmr_time time k). assert (rep k0 sp fr) as H0 by (destruct H as [[A B C D E F G] P]; split; [split; try done; apply u32_range|done]).
  destruct (spoke_exists k0 sp fr time (proj1 H0)) as [l Hl].
  apply wpe_bind, wpe_access. eexists. split; [by apply (wheel_read k0 sp fr _ _ (proj1 H0) Hl)|]. cbn [OSTmrFirst].
  eapply wpe_mono; [apply (spoke_loop_runs _ l [] k0 sp fr _ H0 Hi Hl)|].
  { pose proof (spoke_length k0 sp fr _ l H0 Hl). lia. }
  intros _ k' (sp' & fr' & H' & T' & I' & C' & W'). exists sp', fr', (due_calls time (bodies k) l). split_and!; [done..| |].
  - rewrite due_calls_filter.
    + unfold due_calls. by rewrite (expiring_spoke k sp fr time l H Hl).
    + intros p t Hp Ht. destruct (spoke_member k sp fr _ l p H Hl Hp) as (t0 & Ht0 & Hr & _). apply body_lookup in Ht as (t1 & Ht1 & ->).
      rewrite Ht0 in Ht1. by injection Ht1 as <-.
  - intros q u Hu Hr. specialize (W' q u Hu Hr). rewrite (decide_ext _ (q ∈ l /\ OSTmrTime k0 = OSTmrMatch u)); [done|].
    split; [|by intros [_ ?]]. intros E. split; [|done]. apply (pl_spoke _ _ _ (proj2 H) _ l q Hl). exists u. split; [done|]. by split; [|rewrite E].
Qed.

(** * Services *)

Lemma on_timer_runs {A} p (refused : A) f k sp fr t Q : rep k sp fr -> OSIntNesting k = 0 -> OSTmrTbl k !! p = Some t ->
  runs (f t) k Q -> runs (on_timer p refused f) k Q.
Proof.
  intros H Hi Ht HQ. apply wpe_bind, wpe_access. exists t. split; [done|]. kdo. rewrite Hi.
  by rewrite (proj2 (Z.eqb_eq _ _) (tmr_type _ (rep_tmr _ _ _ _ _ H Ht))).
Qed.

Lemma state_cases k sp fr p t : rep k sp fr -> OSTmrTbl k !! p = Some t ->
  OSTmrState t = OS_TMR_STATE_UNUSED \/ OSTmrState t = OS_TMR_STATE_STOPPED \/ OSTmrState t = OS_TMR_STATE_COMPLETED \/ OSTmrState t = OS_TMR_STATE_RUNNING.
Proof.
  intros H Ht. pose proof (tmr_state _ (rep_tmr _ _ _ _ _ H Ht)).
  unfold OS_TMR_STATE_UNUSED, OS_TMR_STATE_STOPPED, OS_TMR_STATE_COMPLETED, OS_TMR_STATE_RUNNING. lia.
Qed.

(** All timers but [p] keep their places behind those put in front. *)
Definition places (p : nat) (sp sp' : list (list nat)) : Prop :=
  forall s l, sp !! s = Some l -> exists new, sp' !! s = Some (new ++ filter (spared true p) l).

Lemma places_trans p sp1 sp2 sp3 : places p sp1 sp2 -> places p sp2 sp3 -> places p sp1 sp3.
Proof.
  intros H1 H2 s l Hl. destruct (H1 s l Hl) as [n1 E1]. destruct (H2 s _ E1) as [n2 E2]. exists (n2 ++ filter (spared true p) n1).
  rewrite E2, filter_app, <- app_assoc. do 3 f_equal. apply list_filter_filter_l. done.
Qed.

Lemma places_refl p sp : (forall s l, sp !! s = Some l -> p ∉ l) -> places p sp sp.
Proof. intros H s l Hl. exists []. rewrite filter_spared_id; [done|by eapply H]. Qed.

Lemma places_push p sp s0 l0 : (forall s l, sp !! s = Some l -> p ∉ l) -> sp !! s0 = Some l0 -> places p sp (<[s0 := p :: l0]> sp).
Proof.
  intros H H0 s l Hl. rewrite filter_spared_id by (by eapply H). destruct (decide (s = s0)) as [-> |Hn].
  - exists [p]. rewrite list_lookup_insert_eq by (by apply lookup_lt_Some in H0). rewrite H0 in Hl. by injection Hl as <-.
  - exists []. by rewrite list_lookup_insert_ne.
Qed.

Lemma places_remove k sp fr p s0 l1 l2 : rep k sp fr -> sp !! s0 = Some (l1 ++ p :: l2) -> places p sp (<[s0 := l1 ++ l2]> sp).
Proof.
  intros H H0 s l Hl. pose proof (sh_linked _ _ _ (proj1 H) _ _ H0) as [Hnd _]. apply NoDup_mid in Hnd as (_ & Hp1 & Hp2).
  exists []. cbn [app]. destruct (decide (s = s0)) as [-> |Hn].
  - rewrite list_lookup_insert_eq by (by apply lookup_lt_Some in H0). rewrite H0 in Hl. injection Hl as <-.
    rewrite filter_app, filter_cons_False by (by intros [?|?]). by rewrite !filter_spared_id.
  - rewrite list_lookup_insert_ne by done. rewrite filter_spared_id; [done|]. intros Hp. apply Hn.
    apply (spokes_disjoint k sp fr s s0 l (l1 ++ p :: l2) p); [done..|]. apply elem_of_app. right. by left.
Qed.

(** [OSTmr_Unlink] and the wheel afterwards. *)
Lemma stop_runs p k sp fr t : rep k sp fr -> OSTmrTbl k !! p = Some t -> running t ->
  runs (OSTmr_Unlink p) k (fun _ k' => exists sp' t', rep k' sp' fr /\ quiet k k' /\ places p sp sp' /\
    bodies k' = <[p := erase (set_state OS_TMR_STATE_STOPPED t)]> (bodies k) /\
    OSTmrTbl k' !! p = Some t' /\ erase t' = erase (set_state OS_TMR_STATE_STOPPED t) /\ ~ running t' /\ ~ unused t').
Proof.
  intros H Ht Hr. destruct (Unlink_runs p k sp fr t H Ht Hr) as (l1 & l2 & Hl & HU). eapply wpe_mono; [exact HU|].
  intros _ k' (H' & B' & Q').
  assert (bodies k' !! p = Some (erase (set_state OS_TMR_STATE_STOPPED t))) as Hb.
  { rewrite B'. apply list_lookup_insert_eq. rewrite bodies_length. by apply lookup_lt_Some in Ht. }
  apply body_lookup in Hb as (t' & Ht' & E). pose proof (f_equal OSTmrState E) as Es. cbn in Es.
  eexists _, t'. split_and!; [exact H'|done|by eapply places_remove|done|done|done| |]; unfold running, unused; rewrite <- Es; discriminate.
Qed.

Lemma Link_places p type k sp fr t : rep k sp fr -> OSTmrTbl k !! p = Some t -> ~ running t -> ~ unused t ->
  runs (OSTmr_Link p type) k (fun _ k' => exists sp', rep k' sp' fr /\ quiet k k' /\ places p sp sp' /\
    bodies k' = <[p := erase (started (match_of type t (OSTmrTime k)) t)]> (bodies k)).
Proof.
  intros H Ht Hr Hu. destruct (Link_runs p type k sp fr t H Ht Hr Hu) as (l & Hl & HL). eapply wpe_mono; [exact HL|].
  intros _ k' (H' & B' & Q'). eexists. split_and!; [exact H'|done| |done]. apply places_push; [|done]. by apply (idle_nowhere k sp fr p t).
Qed.

(** [OSTmrStart] on a timer in use: it runs and expires after its delay (its
    period, when it has no delay). *)
Lemma Start_runs p k sp fr t : rep k sp fr -> OSIntNesting k = 0 -> OSTmrTbl k !! p = Some t -> ~ unused t ->
  runs (OSTmrStart p) k (fun r k' => r = (true, OS_ERR_NONE) /\ exists sp', rep k' sp' fr /\ quiet k k' /\ places p sp sp' /\
    bodies k' = <[p := erase (started (match_of OS_TMR_LINK_DLY t (OSTmrTime k)) t)]> (bodies k)).
Proof.
  intros H Hi Ht Hu. unfold OSTmrStart. eapply on_timer_runs; [done..|].
  destruct (state_cases _ _ _ _ _ H Ht) as [E|[E|[E|E]]]; rewrite E; [by destruct Hu| | |]; cbn.
  1,2: apply wpe_bind; eapply wpe_mono; [apply (Link_places p OS_TMR_LINK_DLY k sp fr t H Ht); [unfold running; rewrite E; discriminate|done]|];
    intros _ k' (sp' & H' & Q' & P' & B'); kret; split; [done|]; by exists sp'.
  apply wpe_bind. eapply wpe_mono; [by apply (stop_runs p k sp fr t)|].
  intros _ k1 (sp1 & t1 & H1 & Q1 & P1 & B1 & Ht1 & E1 & Hr1 & Hu1). cbn beta.
  apply wpe_bind. eapply wpe_mono; [by apply (Link_places p OS_TMR_LINK_DLY k1 sp1 fr t1)|].
  intros _ k' (sp' & H' & Q' & P' & B'). kret. split; [done|]. exists sp'. split_and!; [done|by eapply quiet_trans|by eapply places_trans|].
  rewrite B', B1, list_insert_insert_eq. f_equal. destruct Q1 as (-> & _).
  transitivity (started (match_of OS_TMR_LINK_DLY (erase t1) (OSTmrTime k)) (erase t1)); [done|]. by rewrite E1.
Qed.

Lemma Start_unused p k sp fr t : rep k sp fr -> OSIntNesting k = 0 -> OSTmrTbl k !! p = Some t -> unused t ->
  OSTmrStart p k = Done (false, OS_ERR_TMR_INACTIVE) k.
Proof.
  intros H Hi Ht Hu. enough (runs (OSTmrStart p) k (fun r k' => r = (false, OS_ERR_TMR_INACTIVE) /\ k' = k)) as Hs.
  { by apply runs_done in Hs as (? & ? & E & -> & ->). }
  eapply on_timer_runs; [done..|]. rewrite Hu. cbn. done.
Qed.

(** * Runs *)

(** A service has returned: it called back timers of [P] only, and the others
    that run are as before. *)
Definition served (P : nat -> Prop) (k k' : Timers) : Prop :=
  (exists sp' fr', rep k' sp' fr') /\ OSTmrTime k' = OSTmrTime k /\ OSIntNesting k' = OSIntNesting k /\
  (exists cs, OSTmrCalls k' = OSTmrCalls k ++ cs /\ Forall (fun c => P c.1.2) cs) /\
  forall q u, ~ P q -> bodies k !! q = Some u -> running u -> bodies k' !! q = Some u.

Lemma served_trans P k1 k2 k3 : served P k1 k2 -> served P k2 k3 -> served P k1 k3.
Proof.
  intros (A1 & B1 & C1 & (cs1 & D1 & E1) & F1) (A2 & B2 & C2 & (cs2 & D2 & E2) & F2). split_and!; [done|congruence|congruence| |].
  - exists (cs1 ++ cs2). rewrite D2, D1, app_assoc. split; [done|by apply Forall_app].
  - intros q u Hq Hu Hr. apply F2; [done| |done]. by apply F1.
Qed.

Lemma served_quiet P k sp fr k' sp' fr' p t : rep k sp fr -> rep k' sp' fr' -> quiet k k' -> bodies k' = <[p := t]> (bodies k) ->
  (P p \/ forall u, bodies k !! p = Some u -> ~ running u) -> served P k k'.
Proof.
  intros H H' (Qt & Qi & Qc) B Hp. split_and!; [by eexists _, _|done|done|exists []; by rewrite app_nil_r|].
  intros q u Hq Hu Hr. rewrite B. destruct (decide (q = p)) as [-> |Hn]; [|by rewrite list_lookup_insert_ne].
  destruct Hp as [Hp|Hp]; [done|]. by destruct (Hp u Hu).
Qed.

Lemma served_refl P k sp fr : rep k sp fr -> served P k k.
Proof. intros H. split_and!; [by eexists _, _|done|done|exists []; by rewrite app_nil_r|done]. Qed.

Definition do_op (o : TmrOp) : M Timers unit :=
  match o with
  | TCreate dly period opt cb arg => _ ← OSTmrCreate dly period opt cb arg; mret tt
  | TDel p => _ ← OSTmrDel p; mret tt
  | TStart p => _ ← OSTmrStart p; mret tt
  | TStop p opt arg => _ ← OSTmrStop p opt arg; mret tt
  | TRemainGet p => _ ← OSTmrRemainGet p; mret tt
  | TStateGet p => _ ← OSTmrStateGet p; mret tt
  | TInitTimer cb arg repeat => _ ← NST_InitTimer None cb arg repeat; mret tt
  | TDelTimer p => _ ← NST_DelTimer (Some p); mret tt
  | TSetTimer p ms => NST_SetTimer (Some p) ms
  | TCancelTimer p => _ ← NST_CancelTimer (Some p); mret tt
  | TModTimer p ms => NST_ModTimer (Some p) ms
  | TTick => OSTmr_Task
  end.

Lemma tmr_exists k sp fr p : rep k sp fr -> (p < OS_TMR_CFG_MAX)%nat -> exists t, OSTmrTbl k !! p = Some t.
Proof. intros H Hp. apply lookup_lt_is_Some. by rewrite (sh_tbl _ _ _ (proj1 H)). Qed.

Section Served.
Context (P : nat -> Prop) (k : Timers) (sp : list (list nat)) (fr : list nat) (H : rep k sp fr) (Hi : OSIntNesting k = 0).

Lemma create_served dly period opt cb arg : is_u32 dly -> is_u32 period -> runs (OSTmrCreate dly period opt cb arg) k (fun _ => served P k).
Proof.
  intros Hd Hp. destruct fr as [|p fr'] eqn:Ef.
  - unfold OSTmrCreate. kdo. rewrite Hi. cbn [Z.ltb Z.compare]. apply wpe_bind. unfold OSTmr_Alloc. kdo.
    destruct (sh_free _ _ _ (proj1 H)) as (_ & _ & ->). kret. kret. by eapply served_refl.
  - destruct (Create_runs dly period opt cb arg k sp p fr' H) as (t & Ht & HC); [lia|done|done|].
    eapply wpe_mono; [exact HC|]. intros r k' (_ & H' & B' & Q'). eapply served_quiet; [exact H|exact H'|done|exact B'|].
    right. intros u Hu. destruct (free_member _ _ _ p H) as (t0 & Ht0 & Hun); [by left|]. rewrite (lookup_body _ _ _ Ht0) in Hu. injection Hu as <-.
    unfold running, unused in *. cbn. rewrite Hun. discriminate.
Qed.

Context (p : nat) (HP : P p) (Hp : (p < OS_TMR_CFG_MAX)%nat).

Lemma start_served : runs (OSTmrStart p) k (fun _ => served P k).
Proof.
  destruct (tmr_exists k sp fr p H Hp) as [t Ht]. destruct (decide (OSTmrState t = OS_TMR_STATE_UNUSED)) as [Hu|Hu].
  - eapply wpe_done; [by apply (Start_unused p k sp fr t)|]. by eapply served_refl.
  - eapply wpe_mono; [by apply (Start_runs p k sp fr t)|]. intros r k' (_ & sp' & H' & Q' & _ & B').
    eapply served_quiet; [exact H|exact H'|done|exact B'|by left].
Qed.

Lemma free_served t : OSTmrTbl k !! p = Some t -> ~ running t -> ~ unused t -> runs (OSTmr_Free p) k (fun _ => served P k).
Proof.
  intros Ht Hr Hu. eapply wpe_mono; [by apply (Free_runs p k sp fr t)|]. intros _ k' (H' & B' & Q').
  eapply served_quiet; [exact H|exact H'|done|exact B'|by left].
Qed.

Lemma call_served fn arg t : OSTmrTbl k !! p = Some t -> ~ unused t -> runs (call fn p arg) k (fun _ => served P k).
Proof.
  intros Ht Hut. unfold call. kdo. eapply wpe_mono; [apply (gentle fn p arg (add_call _ k) sp fr t); [by apply add_call_rep|done..]|].
  intros _ k' (sp' & fr' & H' & (Rt & Ri & Rc) & _ & Hb). split_and!; [by eexists _, _|done|done| |].
  - eexists [_]. split; [exact Rc|]. by apply Forall_singleton.
  - intros q u Hq Hu Hr. apply Hb; [|done|by left]. right. by intros ->.
Qed.
End Served.

(** One service after another. *)
Lemma then_served {A B} P (m : M Timers A) (f : A -> M Timers B) k : runs m k (fun _ => served P k) ->
  (forall a k1, served P k k1 -> runs (f a) k1 (fun _ => served P k1)) -> runs (m ≫= f) k (fun _ => served P k).
Proof.
  intros Hm Hf. apply wpe_bind. eapply wpe_mono; [exact Hm|]. intros a k1 H1. eapply wpe_mono; [by apply Hf|].
  intros b k2 H2. exact (served_trans P k k1 k2 H1 H2).
Qed.

Lemma ret_served {A} P (a : A) k k0 : served P k0 k -> runs (mret a) k (fun _ => served P k).
Proof. intros ((sp & fr & H) & _). kret. by eapply served_refl. Qed.

Lemma drop_served {A B} P (m : M Timers A) (f : A -> B) k : runs m k (fun _ => served P k) -> runs (a ← m; mret (f a)) k (fun _ => served P k).
Proof. intros H. apply then_served; [done|]. intros a k1 H1. by eapply ret_served. Qed.

Lemma ticks_u32 ms : is_u32 (timer_ticks ms).
Proof. unfold timer_ticks. pose proof (u32_range (ms * OS_TMR_CFG_TICKS_PER_SEC)). case_match; word_lia. Qed.

Lemma ticks_pos ms : 1 <= timer_ticks ms.
Proof.
  unfold timer_ticks. pose proof (u32_range (ms * OS_TMR_CFG_TICKS_PER_SEC)).
  set (q := _ / 1000). assert (0 <= q) by (apply Z.div_pos; word_lia). destruct (Z.eqb_spec q 0); lia.
Qed.

(** [NST_SetTimer] writes its time into the timer. *)
Definition with_time (ms : Z) (t : OS_TMR) : OS_TMR :=
  if OS_TMR_OPT_PERIODIC =? OSTmrOpt t then set_times 0 (timer_ticks ms) t else set_times (timer_ticks ms) 0 t.

Section Served.
Context (P : nat -> Prop) (k : Timers) (sp : list (list nat)) (fr : list nat) (H : rep k sp fr) (Hi : OSIntNesting k = 0).
Context (p : nat) (HP : P p) (Hp : (p < OS_TMR_CFG_MAX)%nat).

Lemma unlink_served t : OSTmrTbl k !! p = Some t -> running t -> runs (OSTmr_Unlink p) k (fun _ k1 => served P k k1 /\
  exists sp1 fr1 t1, rep k1 sp1 fr1 /\ OSTmrTbl k1 !! p = Some t1 /\ ~ running t1 /\ ~ unused t1).
Proof.
  intros Ht Hr. eapply wpe_mono; [by apply (stop_runs p k sp fr t)|].
  intros _ k1 (sp1 & t1 & H1 & Q1 & _ & B1 & Ht1 & _ & Hr1 & Hu1). split; [|by exists sp1, fr, t1].
  eapply served_quiet; [exact H|exact H1|done|exact B1|by left].
Qed.

Lemma del_served : runs (OSTmrDel p) k (fun _ => served P k).
Proof.
  destruct (tmr_exists k sp fr p H Hp) as [t Ht]. unfold OSTmrDel. eapply on_timer_runs; [done..|].
  destruct (state_cases _ _ _ _ _ H Ht) as [E|[E|[E|E]]]; rewrite E; cbn.
  - by eapply served_refl.
  - apply drop_served. apply (free_served P k sp fr H p HP t Ht); [unfold running|unfold unused]; rewrite E; discriminate.
  - apply drop_served. apply (free_served P k sp fr H p HP t Ht); [unfold running|unfold unused]; rewrite E; discriminate.
  - apply wpe_bind. eapply wpe_mono; [by apply (unlink_served t)|]. intros _ k1 (S1 & sp1 & fr1 & t1 & H1 & Ht1 & Hr1 & Hu1). cbn beta.
    apply wpe_bind. eapply wpe_mono; [by apply (free_served P k1 sp1 fr1 H1 p HP t1)|]. intros ? k2 S2. kret. by apply (served_trans P k k1 k2).
Qed.

Lemma stop_served opt arg : runs (OSTmrStop p opt arg) k (fun _ => served P k).
Proof.
  destruct (tmr_exists k sp fr p H Hp) as [t Ht]. unfold OSTmrStop. eapply on_timer_runs; [done..|].
  destruct (state_cases _ _ _ _ _ H Ht) as [E|[E|[E|E]]]; rewrite E; cbn; [by eapply served_refl..|].
  apply wpe_bind. eapply wpe_mono; [by apply (unlink_served t)|]. intros _ k1 (S1 & sp1 & fr1 & t1 & H1 & Ht1 & _ & Hu1). cbn beta.
  assert (OSIntNesting k1 = 0) as Hi1 by (destruct S1 as (_ & _ & -> & _); done).
  assert (forall err : Z, runs (err ← mret err; mret (true, err)) k1 (fun _ => served P k)) as Hret by (intros err; kdo; by kret).
  assert (forall fn a, runs (err ← (call fn p a;; mret OS_ERR_NONE); mret (true, err)) k1 (fun _ => served P k)) as Hcall.
  { intros fn a. apply wpe_bind, wpe_bind. eapply wpe_mono; [by apply (call_served P k1 sp1 fr1 H1 Hi1 p HP fn a t1)|].
    intros ? k2 S2. kret. kret. by apply (served_trans P k k1 k2). }
  repeat match goal with |- context [if ?c then _ else _] => destruct c end; first [apply Hret|apply Hcall].
Qed.

Lemma times_rep t ms : OSTmrTbl k !! p = Some t -> exists k1, rep k1 sp fr /\ quiet k k1 /\ bodies k1 = <[p := erase (with_time ms t)]> (bodies k) /\
  OSTmrTbl k1 !! p = Some (with_time ms t) /\ forall A (m : unit -> M Timers A) Q, runs (m tt) k1 Q ->
  runs (upd p (if OS_TMR_OPT_PERIODIC =? OSTmrOpt t then set_times 0 (timer_ticks ms) else set_times (timer_ticks ms) 0) ≫= m) k Q.
Proof.
  intros Ht. set (f := if _ =? _ then set_times 0 (timer_ticks ms) else set_times (timer_ticks ms) 0).
  assert (f t = with_time ms t) as Ef by (unfold f, with_time; by destruct (_ =? _)).
  destruct (upd_rep f p k sp fr t H Ht) as [H1 B1].
  - intros u. unfold f. by destruct (_ =? _).
  - intros u. unfold f. by destruct (_ =? _).
  - rewrite Ef. unfold with_time. destruct (rep_tmr _ _ _ _ _ H Ht). pose proof (ticks_u32 ms). destruct (_ =? _); split; try done; word_lia.
  - intros s. unfold f. by destruct (_ =? _).
  - unfold f. by destruct (_ =? _).
  - eexists. split; [exact H1|]. split; [done|]. split; [by rewrite B1, Ef|]. split; [cbn; by rewrite list_lookup_alter_eq, Ht, <- Ef|].
    intros A m Q. by apply upd_bind_runs with (t := t).
Qed.

Lemma set_served ms : runs (NST_SetTimer (Some p) ms) k (fun _ => served P k).
Proof.
  destruct (tmr_exists k sp fr p H Hp) as [t Ht]. unfold NST_SetTimer. apply wpe_bind, wpe_access. exists t. split; [done|].
  destruct (times_rep t ms Ht) as (k1 & H1 & Q1 & B1 & _ & HK). apply HK.
  assert (served P k k1) as S1 by (eapply served_quiet; [exact H|exact H1|done|exact B1|by left]).
  eapply wpe_mono; [apply drop_served, (start_served P k1 sp fr H1)|].
  - destruct Q1 as (_ & -> & _). done.
  - done.
  - done.
  - intros ? k2 S2. by apply (served_trans P k k1 k2).
Qed.
End Served.

Lemma op_served o k sp fr : rep k sp fr -> OSIntNesting k = 0 -> op_ok o -> o <> TTick ->
  runs (do_op o) k (fun _ => served (fun q => target o = Some q) k).
Proof.
  intros H Hi Hok Ho. destruct o as [d per opt cb arg|p|p|p opt arg|p|p|cb arg rpt|p|p ms|p|p ms|]; cbn [do_op target op_ok] in *; try done.
  - apply drop_served. destruct Hok. by apply (create_served _ k sp fr).
  - apply drop_served. by apply (del_served _ k sp fr).
  - apply drop_served. by apply (start_served _ k sp fr).
  - apply drop_served. by apply (stop_served _ k sp fr).
  - apply drop_served. destruct (tmr_exists k sp fr p H Hok) as [t Ht]. unfold OSTmrRemainGet. eapply on_timer_runs; [done..|].
    destruct (state_cases _ _ _ _ _ H Ht) as [E|[E|[E|E]]]; rewrite E; by eapply served_refl.
  - apply drop_served. destruct (tmr_exists k sp fr p H Hok) as [t Ht]. unfold OSTmrStateGet. eapply on_timer_runs; [done..|].
    kret. by eapply served_refl.
  - apply drop_served. unfold NST_InitTimer. apply drop_served. by apply (create_served _ k sp fr).
  - apply drop_served. unfold NST_DelTimer. apply drop_served. by apply (del_served _ k sp fr).
  - apply (set_served _ k sp fr); tauto.
  - apply drop_served. unfold NST_CancelTimer. apply drop_served. by apply (stop_served _ k sp fr).
  - destruct Hok as [Hp Hms]. unfold NST_ModTimer, NST_CancelTimer. apply then_served; [apply drop_served; by apply (stop_served _ k sp fr)|].
    intros _ k1 S1. pose proof S1 as ((sp1 & fr1 & H1) & _ & Hi1 & _). apply (set_served _ k1 sp1 fr1); [done|congruence|done|tauto].
Qed.

Fixpoint tmr_run (ops : list TmrOp) : M Timers unit :=
  match ops with
  | [] => mret tt
  | o :: ops => do_op o;; tmr_run ops
  end.

(** The tables are in order, no interrupt is served. *)
Definition sound (k : Timers) : Prop := OSIntNesting k = 0 /\ exists sp fr, rep k sp fr.

Lemma do_op_sound o k : sound k -> op_ok o -> runs (do_op o) k (fun _ => sound).
Proof.
  intros (Hi & sp & fr & H) Hok. destruct (decide (o = TTick)) as [-> |Ho].
  - eapply wpe_mono; [by apply (Task_runs k sp fr)|]. intros _ k' (sp' & fr' & cs & H' & _ & Hi' & _). split; [done|by exists sp', fr'].
  - eapply wpe_mono; [by apply (op_served o k sp fr)|]. intros _ k' (H' & _ & Hi' & _). split; [congruence|done].
Qed.

Lemma tmr_run_sound ops : forall k, sound k -> Forall op_ok ops -> runs (tmr_run ops) k (fun _ => sound).
Proof.
  induction ops as [|o ops IH]; intros k Hk Hok; [by kret|]. apply Forall_cons in Hok as [Ho Hok]. cbn [tmr_run].
  apply wpe_bind. eapply wpe_mono; [by apply do_op_sound|]. intros ? k1 H1. by apply IH.
Qed.

Lemma init_sound : sound OSTmr_Init.
Proof.
  split; [done|]. exists (replicate (Z.to_nat OS_TMR_CFG_WHEEL_SIZE) []), (seq 0 OS_TMR_CFG_MAX). split.
  - split; try done.
    + intros s l Hl. apply lookup_replicate in Hl as [-> _]. split; [apply NoDup_nil_2|done].
    + split; [apply NoDup_seq|]. split; [|done]. vm_compute. tauto.
  - assert (bodies OSTmr_Init = replicate OS_TMR_CFG_MAX (new_tmr None)) as -> by done. split.
    + intros p t Ht. apply lookup_replicate in Ht as [-> _]. by split.
    + intros s l p Hl. apply lookup_replicate in Hl as [-> _]. split; [by intros ?%elem_of_nil|].
      intros (t & Ht & Hr & _). apply lookup_replicate in Ht as [-> _]. discriminate Hr.
    + intros p. rewrite elem_of_seq. split.
      * intros Hp. exists (new_tmr None). split; [apply lookup_replicate; split; [done|lia]|done].
      * intros (t & Ht & _). apply lookup_replicate in Ht as [_ Ht]. lia.
Qed.

(** * When a timer calls back *)

Definition calls_to (p : nat) (k : Timers) : Z := zlen (filter (fun c => c.1.2 = p) (OSTmrCalls k)).

Definition tick_ops (ops : list TmrOp) : Z := zlen (filter (fun o => o = TTick) ops).

(** Timer [p] runs and expires with the [r]-th tick from now. *)
Definition armed (p : nat) (t : OS_TMR) (r : Z) (k : Timers) : Prop :=
  bodies k !! p = Some t /\ running t /\ u32 (OSTmrMatch t - OSTmrTime k) = r.

Lemma calls_to_app p k k' cs : OSTmrCalls k' = OSTmrCalls k ++ cs -> calls_to p k' = calls_to p k + zlen (filter (fun c => c.1.2 = p) cs).
Proof. intros E. unfold calls_to. by rewrite E, filter_app, zlen_app. Qed.

Lemma served_others (P : nat -> Prop) p cs : ~ P p -> Forall (fun c : Z * nat * Z => P c.1.2) cs -> filter (fun c => c.1.2 = p) cs = [].
Proof. intros Hp H. induction H as [|c cs Hc H IH]; [done|]. rewrite filter_cons_False; [done|]. by intros <-. Qed.

(** The calls for [p] among those that are due. *)
Lemma due_calls_one time b l p : NoDup l ->
  filter (fun c : Z * nat * Z => c.1.2 = p) (due_calls time b l) =
  if decide (p ∈ l) then match b !! p with Some t => calls_of time p t | None => [] end else [].
Proof.
  assert (forall q, (q = p -> filter (fun c : Z * nat * Z => c.1.2 = p) match b !! q with Some t => calls_of time q t | None => [] end =
      match b !! p with Some t => calls_of time p t | None => [] end) /\
    (q <> p -> filter (fun c : Z * nat * Z => c.1.2 = p) match b !! q with Some t => calls_of time q t | None => [] end = [])) as Hq.
  { intros q. split; [intros ->|intros Hq]; destruct (b !! _) as [t|]; try done; unfold calls_of; case_match; try done.
    - by rewrite filter_cons_True.
    - by rewrite filter_cons_False. }
  induction l as [|q l IH]; intros Hnd; [done|]. apply NoDup_cons in Hnd as [Hnq Hnd]. unfold due_calls in *. cbn.
  rewrite filter_app, (IH Hnd). destruct (Hq q) as [H1 H2]. destruct (decide (q = p)) as [-> |Hn].
  - rewrite H1, !decide_False, app_nil_r by done. by rewrite decide_True by (by left).
  - rewrite H2 by done. cbn [app]. rewrite (decide_ext (p ∈ q :: l) (p ∈ l)); [done|]. rewrite elem_of_cons. split; [by intros [->|?]|tauto].
Qed.

(** One step of a run that does not touch [p]. *)
Lemma step_armed o k p t r : sound k -> op_ok o -> target o <> Some p -> armed p t r k -> 1 <= r ->
  runs (do_op o) k (fun _ k' => sound k' /\
    if decide (o = TTick /\ r = 1)
    then calls_to p k' = calls_to p k + (if OSTmrCallback t =? 0 then 0 else 1) /\
      (loyal t -> OSTmrOpt t = OS_TMR_OPT_PERIODIC -> exists t', armed p t' (OSTmrPeriod t) k' /\
         OSTmrCallback t' = OSTmrCallback t /\ OSTmrOpt t' = OSTmrOpt t /\ OSTmrPeriod t' = OSTmrPeriod t)
    else calls_to p k' = calls_to p k /\ armed p t (if decide (o = TTick) then r - 1 else r) k').
Proof.
  intros (Hi & sp & fr & H) Hok Hp (Hb & Hr & Hm) H1. destruct (decide (o = TTick)) as [-> |Ho].
  - eapply wpe_mono; [by apply (Task_runs k sp fr)|]. intros _ k' (sp' & fr' & cs & H' & T' & Hi' & C' & Hcs & W').
    split; [split; [done|by exists sp', fr']|]. specialize (W' p t Hb Hr). set (time := u32 (OSTmrTime k + 1)) in *.
    pose proof (sh_time _ _ _ (proj1 H)) as Htime. pose proof (pl_ok _ _ _ (proj2 H) p t Hb) as Hok'. pose proof (tmr_match _ Hok') as Hmt.
    assert (time = OSTmrMatch t <-> r = 1) as Hdue by (unfold time; word_lia).
    assert (zlen (filter (fun c => c.1.2 = p) cs) = zlen (filter (fun c : Z * nat * Z => c.1.2 = p) (due_calls time (bodies k) (expiring time (bodies k))))) as Hz
      by (unfold zlen; by rewrite Hcs).
    rewrite (calls_to_app p k k' cs C'), Hz, due_calls_one by (apply NoDup_filter, NoDup_seq).
    assert (p ∈ seq 0 OS_TMR_CFG_MAX) as Hin.
    { apply lookup_lt_Some in Hb. rewrite bodies_length, (sh_tbl _ _ _ (proj1 H)) in Hb. apply elem_of_seq. lia. }
    rewrite (decide_ext (p ∈ expiring time (bodies k)) (time = OSTmrMatch t)).
    2:{ unfold expiring. rewrite list_elem_of_filter. unfold due_now. rewrite Hb, Hr, Z.eqb_refl. cbn [andb]. rewrite Z.eqb_eq. tauto. }
    destruct (decide (time = OSTmrMatch t)) as [E|E].
    + rewrite decide_True by (split; [done|by apply Hdue]). split.
      * rewrite Hb. unfold calls_of. rewrite (proj2 (Z.eqb_eq _ _) E). by destruct (OSTmrCallback t =? 0).
      * intros Hl Ho. eexists. split; [split; [exact (W' Hl Ho)|]|done]. split; [done|]. cbn. rewrite T'.
        pose proof (tmr_period _ Hok'). pose proof (u32_range (OSTmrTime k + 1)). fold time in H0 |- *. word_lia.
    + rewrite decide_False by (intros [_ ?]; by apply E, Hdue). rewrite zlen_nil. split; [lia|]. split; [done|]. split; [done|].
      rewrite T'. fold time. unfold time in *. word_lia.
  - eapply wpe_mono; [by apply (op_served o k sp fr)|]. intros _ k' (H' & T' & Hi' & (cs & C' & Hcs) & W').
    split; [split; [congruence|done]|]. rewrite decide_False by tauto. split.
    + rewrite (calls_to_app p k k' cs C'), (served_others (fun q => target o = Some q) p cs Hp Hcs), zlen_nil. lia.
    + split; [by apply W'|]. split; [done|]. by rewrite T'.
Qed.

(** How often a periodic timer calls back in [m] ticks, the first time with the
    [r]-th. *)
Definition fires (r period m : Z) : Z := if m <? r then 0 else 1 + (m - r) / period.

Lemma tick_ops_nonneg ops : 0 <= tick_ops ops.
Proof. apply zlen_nonneg. Qed.

Lemma tick_ops_cons o ops : tick_ops (o :: ops) = (if decide (o = TTick) then 1 else 0) + tick_ops ops.
Proof. unfold tick_ops. rewrite filter_cons. destruct (decide (o = TTick)); [by rewrite zlen_cons|done]. Qed.

Lemma fires_first r period m : 1 <= period -> 1 <= m -> fires r period m = (if decide (r = 1) then 1 + fires period period (m - 1) else fires (r - 1) period (m - 1)).
Proof.
  intros Hp Hm. unfold fires. destruct (decide (r = 1)) as [-> |Hr].
  - rewrite (proj2 (Z.ltb_ge m 1)) by lia. destruct (Z.ltb_spec (m - 1) period) as [Hl|Hl].
    + rewrite (Z.div_small (m - 1)) by lia. lia.
    + replace (m - 1) with (m - 1 - period + 1 * period) at 1 by lia. rewrite Z.div_add by lia. lia.
  - destruct (Z.ltb_spec m r), (Z.ltb_spec (m - 1) (r - 1)); try lia. f_equal. f_equal. lia.
Qed.

(** Up to the first call. *)
Lemma run_armed ops : forall k p t r, sound k -> Forall op_ok ops -> Forall (fun o => target o <> Some p) ops -> armed p t r k ->
  tick_ops ops < r -> runs (tmr_run ops) k (fun _ k' => sound k' /\ calls_to p k' = calls_to p k /\ armed p t (r - tick_ops ops) k').
Proof.
  induction ops as [|o ops IH]; intros k p t r Hk Hok Hp Ha Hr.
  { kret. rewrite Z.sub_0_r. done. }
  apply Forall_cons in Hok as [Ho Hok]. apply Forall_cons in Hp as [Hpo Hp]. rewrite tick_ops_cons in *. pose proof (tick_ops_nonneg ops).
  cbn [tmr_run]. apply wpe_bind. eapply wpe_mono; [apply (step_armed o k p t r); try done; destruct (decide _); lia|].
  intros _ k1 [H1 Hs]. cbn beta. destruct (decide (o = TTick /\ r = 1)) as [[-> ->]|Hn].
  - rewrite decide_True in Hr by done. lia.
  - destruct Hs as [C1 A1]. eapply wpe_mono; [apply (IH k1 p t _ H1 Hok Hp A1); destruct (decide (o = TTick)); lia|].
    intros _ k2 (H2 & C2 & A2). split; [done|]. split; [congruence|]. destruct (decide (o = TTick)).
    + by replace (r - (1 + tick_ops ops)) with (r - 1 - tick_ops ops) by lia.
    + done.
Qed.

(** A periodic timer. *)
Lemma run_periodic ops : forall k p t r, sound k -> Forall op_ok ops -> Forall (fun o => target o <> Some p) ops -> armed p t r k -> 1 <= r ->
  OSTmrCallback t <> 0 -> loyal t -> OSTmrOpt t = OS_TMR_OPT_PERIODIC -> 1 <= OSTmrPeriod t ->
  runs (tmr_run ops) k (fun _ k' => sound k' /\ calls_to p k' = calls_to p k + fires r (OSTmrPeriod t) (tick_ops ops)).
Proof.
  induction ops as [|o ops IH]; intros k p t r Hk Hok Hp Ha Hr Hc Hl Hopt Hper.
  { kret. split; [done|]. unfold fires. rewrite (proj2 (Z.ltb_lt _ _)) by (change (tick_ops []) with 0; lia). lia. }
  apply Forall_cons in Hok as [Ho Hok]. apply Forall_cons in Hp as [Hpo Hp]. rewrite tick_ops_cons. pose proof (tick_ops_nonneg ops).
  cbn [tmr_run]. apply wpe_bind. eapply wpe_mono; [by apply (step_armed o k p t r)|].
  intros _ k1 [H1 Hs]. cbn beta. destruct (decide (o = TTick /\ r = 1)) as [[-> ->]|Hn].
  - destruct Hs as [C1 (t' & A1 & Ec & Eo & Ep)]; [done|done|]. rewrite decide_True by done.
    eapply wpe_mono; [apply (IH k1 p t' (OSTmrPeriod t) H1 Hok Hp A1); unfold loyal in *; rewrite ?Ec, ?Eo, ?Ep; done|].
    intros _ k2 (H2 & C2). split; [done|]. rewrite C2, C1, Ep, (fires_first 1 _ (1 + _)) by lia. rewrite decide_True by done.
    rewrite (proj2 (Z.eqb_neq _ _) Hc). replace (1 + tick_ops ops - 1) with (tick_ops ops) by lia. lia.
  - destruct Hs as [C1 A1]. destruct (decide (o = TTick)) as [-> |Hno].
    + assert (r <> 1) by (by intros ->; apply Hn). eapply wpe_mono; [apply (IH k1 p t _ H1 Hok Hp A1); try done; lia|].
      intros _ k2 (H2 & C2). split; [done|]. rewrite C2, C1, (fires_first r _ (1 + _)) by lia. rewrite decide_False by done.
      by replace (1 + tick_ops ops - 1) with (tick_ops ops) by lia.
    + eapply wpe_mono; [by apply (IH k1 p t _ H1 Hok Hp A1)|]. intros _ k2 (H2 & C2). split; [done|]. by rewrite C2, C1.
Qed.
End Task.
