(* ===== verification/TimerActs.v ===== *)
(** What a callback may do with timers: programs of services on its own timer,
    of creations and of queries.  Every such program leaves the other running
    timers alone ([Gentle]). *)
From S2P Require Import Prelude Timers TimerWheel TimerTask.
From stdpp Require Import list.
#[local] Open Scope Z_scope.

(** Start, stop, delete or set the timer that has called back, create another
    one, ask for the time that remains and for the state. *)
Inductive Act :=
  | AStart
  | AStop
  | ADel
  | ASetTimer (ms : Z)
  | AModTimer (ms : Z)
  | ACreate (dly period opt cb arg : Z)
  | AInitTimer (cb arg : Z) (repeat : bool)
  | ARemainGet (q : nat)
  | AStateGet (q : nat).

Definition act_ok (a : Act) : Prop :=
  match a with
  | ACreate dly period _ _ _ => is_u32 dly /\ is_u32 period
  | ARemainGet q | AStateGet q => (q < OS_TMR_CFG_MAX)%nat
  | _ => True
  end.

#[export] Instance act_ok_dec a : Decision (act_ok a).
Proof. unfold act_ok, is_u32. destruct a; apply _. Defined.

(** It changes its own timer. *)
Definition own_act (a : Act) : bool :=
  match a with AStart | AStop | ADel | ASetTimer _ | AModTimer _ => true | _ => false end.

(** A stop without a callback calls none. *)
Definition no_callbacks : Callbacks := fun _ _ _ => mret tt.

Definition act (p : nat) (a : Act) : M Timers unit :=
  match a with
  | AStart => _ ← OSTmrStart p; mret tt
  | AStop => _ ← NST_CancelTimer (CB := no_callbacks) (Some p); mret tt
  | ADel => _ ← OSTmrDel p; mret tt
  | ASetTimer ms => NST_SetTimer (Some p) ms
  | AModTimer ms => NST_ModTimer (CB := no_callbacks) (Some p) ms
  | ACreate dly period opt cb arg => _ ← OSTmrCreate dly period opt cb arg; mret tt
  | AInitTimer cb arg repeat => _ ← NST_InitTimer None cb arg repeat; mret tt
  | ARemainGet q => _ ← OSTmrRemainGet q; mret tt
  | AStateGet q => _ ← OSTmrStateGet q; mret tt
  end.

Fixpoint acts (p : nat) (l : list Act) : M Timers unit :=
  match l with
  | [] => mret tt
  | a :: l => act p a;; acts p l
  end.

(** Callbacks by the numbers of their functions. *)
Record Script := mkScript {
  program : Z -> list Act;
  program_ok : forall fn, Forall act_ok (program fn)
}.

Definition scripted (S : Script) : Callbacks := fun fn p _ => acts p (program S fn).

(** The callback changes its own timer. *)
Definition changes_own (S : Script) (fn : Z) : bool := existsb own_act (program S fn).

(** * They are gentle *)

(** A program that leaves its own timer alone: the wheel and every timer in use
    stay as they are. *)
Definition stays (k : Timers) (sp : list (list nat)) (k' : Timers) : Prop :=
  exists fr', rep k' sp fr' /\ quiet k k' /\ forall q t, bodies k !! q = Some t -> ~ unused t -> bodies k' !! q = Some t.

Lemma running_used t : running t -> ~ unused t.
Proof. unfold running, unused. by intros ->. Qed.

Lemma stays_refl k sp fr : rep k sp fr -> stays k sp k.
Proof. intros H. by exists fr. Qed.

Lemma stays_trans k k1 k2 sp : stays k sp k1 -> stays k1 sp k2 -> stays k sp k2.
Proof.
  intros (fr1 & _ & Q1 & B1) (fr2 & H2 & Q2 & B2). exists fr2. split; [done|]. split; [by eapply quiet_trans|]. auto.
Qed.

Lemma stays_gentle p k sp k' t : stays k sp k' -> bodies k !! p = Some t -> ~ unused t -> gentle_to false p k sp k'.
Proof.
  intros (fr' & H & Q & B) Hp Hu. exists sp, fr'. split; [done|]. split; [done|]. split.
  - intros s l Hl. exists []. rewrite Hl. cbn [app]. f_equal. clear Hl. induction l as [|q l IH]; [done|].
    rewrite filter_cons_True by by left. by rewrite <- IH.
  - intros q u _ Hq Hr. apply B; [done|]. destruct Hr as [Hr| ->]; [by apply running_used|]. rewrite Hp in Hq. by injection Hq as <-.
Qed.

Section Acts.
Context (p : nat).

Lemma stays_own k k1 k2 sp : stays k sp k1 -> gentle_to true p k1 sp k2 -> gentle_to true p k sp k2.
Proof.
  intros (fr1 & _ & Q1 & B1) (sp2 & fr2 & H2 & Q2 & P2 & B2). exists sp2, fr2. split; [done|]. split; [by eapply quiet_trans|].
  split; [done|]. intros q t Hq Ht Hr. apply B2; [done| |done]. apply B1; [done|].
  destruct Hq as [?|Hq], Hr as [Hr|?]; try done. by apply running_used.
Qed.

Lemma own_stays k k1 k2 sp sp1 fr1 : rep k1 sp1 fr1 -> quiet k k1 -> places p sp sp1 ->
  (forall q t, q <> p -> bodies k !! q = Some t -> running t -> bodies k1 !! q = Some t) -> stays k1 sp1 k2 -> gentle_to true p k sp k2.
Proof.
  intros H1 Q1 P1 B1 (fr2 & H2 & Q2 & B2). exists sp1, fr2. split; [done|]. split; [by eapply quiet_trans|]. split; [done|].
  intros q t [?|Hq] Ht [Hr|?]; try done. apply B2; [by apply B1|]. by apply running_used.
Qed.

Lemma own_intro k k' sp sp' fr fr' b : rep k sp fr -> rep k' sp' fr' -> quiet k k' -> places p sp sp' ->
  bodies k' = <[p := b]> (bodies k) -> gentle_to true p k sp k'.
Proof.
  intros _ H' Q' P' B'. exists sp', fr'. split; [done|]. split; [done|]. split; [done|].
  intros q t [?|Hq] Ht _; [done|]. rewrite B'. by rewrite list_lookup_insert_ne.
Qed.

Lemma own_trans k k1 k2 sp sp1 fr1 : rep k1 sp1 fr1 -> quiet k k1 -> places p sp sp1 ->
  (forall q t, q <> p -> bodies k !! q = Some t -> running t -> bodies k1 !! q = Some t) -> gentle_to true p k1 sp1 k2 -> gentle_to true p k sp k2.
Proof.
  intros H1 Q1 P1 B1 (sp2 & fr2 & H2 & Q2 & P2 & B2). exists sp2, fr2. split; [done|]. split; [by eapply quiet_trans|].
  split; [by eapply places_trans|]. intros q t [?|Hq] Ht [Hr|?]; try done. apply B2; [by right|by apply B1|by left].
Qed.

Lemma own_inv k sp k1 : gentle_to true p k sp k1 -> exists sp1 fr1, rep k1 sp1 fr1 /\ quiet k k1 /\ places p sp sp1 /\
  forall q t, q <> p -> bodies k !! q = Some t -> running t -> bodies k1 !! q = Some t.
Proof.
  intros (sp1 & fr1 & H1 & Q1 & P1 & B1). exists sp1, fr1. split_and!; [done..|]. intros q t Hq Ht Hr. apply B1; [by right|done|by left].
Qed.

Lemma insert_others (b : list OS_TMR) u q t : q <> p -> b !! q = Some t -> <[p := u]> b !! q = Some t.
Proof. intros Hq Ht. by rewrite list_lookup_insert_ne. Qed.

Context (k : Timers) (sp : list (list nat)) (fr : list nat) (t : OS_TMR).
Context (H : rep k sp fr) (Hi : OSIntNesting k = 0) (Ht : OSTmrTbl k !! p = Some t).

(** A timer that does not run is on no spoke. *)
Lemma idle_places : ~ running t -> places p sp sp.
Proof.
  intros Hr. apply places_refl. intros s l Hl Hp. destruct (spoke_member _ _ _ _ _ _ H Hl Hp) as (t2 & Ht2 & Hr2 & _). congruence.
Qed.

Lemma idle_own : ~ running t -> gentle_to true p k sp k.
Proof. intros Hr. exists sp, fr. split; [done|]. split; [done|]. split; [by apply idle_places|done]. Qed.

Lemma start_own : runs (OSTmrStart p) k (fun _ => gentle_to true p k sp).
Proof.
  destruct (decide (OSTmrState t = OS_TMR_STATE_UNUSED)) as [Hu|Hu].
  - eapply wpe_done; [by apply (Start_unused p k sp fr t)|]. apply idle_own. unfold running. by rewrite Hu.
  - eapply wpe_mono; [by apply (Start_runs p k sp fr t)|]. intros r k' (_ & sp' & H' & Q' & P' & B').
    by eapply own_intro.
Qed.

Lemma stop_own : runs (OSTmrStop (CB := no_callbacks) p OS_TMR_OPT_NONE 0) k (fun _ => gentle_to true p k sp).
Proof.
  unfold OSTmrStop. eapply on_timer_runs; [done..|].
  destruct (state_cases _ _ _ _ _ H Ht) as [E|[E|[E|E]]]; rewrite E; cbn; try (apply idle_own; unfold running; by rewrite E).
  apply wpe_bind. eapply wpe_mono; [by apply (stop_runs p k sp fr t)|]. intros _ k1 (sp1 & t1 & H1 & Q1 & P1 & B1 & _).
  kdo. kret. by eapply own_intro.
Qed.

Lemma free_own k0 sp0 fr0 t0 : rep k0 sp0 fr0 -> OSTmrTbl k0 !! p = Some t0 -> ~ running t0 -> ~ unused t0 ->
  runs (OSTmr_Free p) k0 (fun _ => gentle_to true p k0 sp0).
Proof.
  intros H0 Ht0 Hr Hu. eapply wpe_mono; [by apply (Free_runs p k0 sp0 fr0 t0)|]. intros _ k' (H' & B' & Q').
  eapply own_intro; [exact H0|exact H'|done| |exact B']. apply places_refl. by apply (idle_nowhere k0 sp0 fr0 p t0).
Qed.

Lemma del_own : runs (OSTmrDel p) k (fun _ => gentle_to true p k sp).
Proof.
  unfold OSTmrDel. eapply on_timer_runs; [done..|].
  destruct (state_cases _ _ _ _ _ H Ht) as [E|[E|[E|E]]]; rewrite E; cbn.
  - apply idle_own. unfold running. by rewrite E.
  - apply wpe_bind. eapply wpe_mono; [apply (free_own k sp fr t); [done..|unfold running|unfold unused]; by rewrite E|]. intros ? k1 ?. by kret.
  - apply wpe_bind. eapply wpe_mono; [apply (free_own k sp fr t); [done..|unfold running|unfold unused]; by rewrite E|]. intros ? k1 ?. by kret.
  - apply wpe_bind. eapply wpe_mono; [by apply (stop_runs p k sp fr t)|].
    intros _ k1 (sp1 & t1 & H1 & Q1 & P1 & B1 & Ht1 & _ & Hr1 & Hu1). cbn beta.
    apply wpe_bind. eapply wpe_mono; [by apply (free_own k1 sp1 fr t1)|]. intros ? k2 Hg. kret.
    apply (own_trans k k1 k2 sp sp1 fr); try done. intros q u Hq Hb _. rewrite B1. by apply insert_others.
Qed.

Lemma set_own ms : runs (NST_SetTimer (Some p) ms) k (fun _ => gentle_to true p k sp).
Proof.
  unfold NST_SetTimer. apply wpe_bind, wpe_access. exists t. split; [done|].
  assert (p < OS_TMR_CFG_MAX)%nat as Hp by (rewrite <- (sh_tbl _ _ _ (proj1 H)); by apply lookup_lt_Some in Ht).
  destruct (times_rep k sp fr H p t ms Ht) as (k1 & H1 & Q1 & B1 & Ht1 & HK). apply HK.
  set (t1 := with_time ms t) in *. pose proof Q1 as (_ & Qi & _).
  destruct (decide (OSTmrState t1 = OS_TMR_STATE_UNUSED)) as [Hu|Hu].
  - apply wpe_bind. eapply wpe_done; [by apply (Start_unused p k1 sp fr t1); [|congruence|..]|]. kret. eapply own_intro; [exact H|exact H1|done| |exact B1].
    apply idle_places. unfold running, t1, with_time in *. destruct (_ =? _); cbn in Hu; by rewrite Hu.
  - apply wpe_bind. eapply wpe_mono; [by apply (Start_runs p k1 sp fr t1); [|congruence|..]|]. intros r k' (_ & sp' & H' & Q' & P' & B'). kret.
    eapply own_intro; [exact H|exact H'|by eapply quiet_trans|done|]. by rewrite B', B1, list_insert_insert_eq.
Qed.
End Acts.

(** Creations and queries. *)
Section Stay.
Context (k : Timers) (sp : list (list nat)) (fr : list nat) (H : rep k sp fr) (Hi : OSIntNesting k = 0).

Lemma create_stays dly period opt cb arg : is_u32 dly -> is_u32 period -> runs (OSTmrCreate dly period opt cb arg) k (fun _ => stays k sp).
Proof.
  intros Hd Hp. destruct fr as [|p fr'] eqn:Ef.
  - unfold OSTmrCreate. kdo. rewrite Hi. cbn [Z.ltb Z.compare]. apply wpe_bind. unfold OSTmr_Alloc. kdo.
    destruct (sh_free _ _ _ (proj1 H)) as (_ & _ & ->). kret. kret. by eapply stays_refl.
  - destruct (Create_runs dly period opt cb arg k sp p fr' H) as (t & Ht & HC); [lia|done|done|].
    eapply wpe_mono; [exact HC|]. intros r k' (_ & H' & B' & Q'). exists fr'. split; [done|]. split; [done|].
    intros q u Hq Hu. rewrite B'. apply insert_others; [|done]. intros ->.
    destruct (free_member _ _ _ p H) as (t0 & Ht0 & Hun); [by left|]. rewrite (lookup_body _ _ _ Ht0) in Hq. by injection Hq as <-.
Qed.

Lemma ask_stays {A} q (refused : A) f : (q < OS_TMR_CFG_MAX)%nat ->
  (forall t, OSTmrTbl k !! q = Some t -> runs (f t) k (fun _ k' => k' = k)) -> runs (_ ← on_timer q refused f; mret tt) k (fun _ => stays k sp).
Proof.
  intros Hq Hf. destruct (tmr_exists k sp fr q H Hq) as [t Ht]. apply wpe_bind. eapply on_timer_runs; [done..|].
  eapply wpe_mono; [by apply Hf|]. intros ? ? ->. kret. by eapply stays_refl.
Qed.
End Stay.

(** What a program does. *)
Definition mild (p : nat) (own : bool) (k : Timers) (sp : list (list nat)) (k' : Timers) : Prop :=
  if own then gentle_to true p k sp k' else stays k sp k'.

Lemma act_mild p a k sp fr t : rep k sp fr -> OSIntNesting k = 0 -> OSTmrTbl k !! p = Some t -> act_ok a ->
  runs (act p a) k (fun _ => mild p (own_act a) k sp).
Proof.
  intros H Hi Ht Hok.
  assert (forall (B : Type) (m : M Timers B) Q, runs m k (fun _ => Q) -> runs (_ ← m; mret tt) k (fun _ => Q)) as Hdrop.
  { intros B m Q Hm. apply wpe_bind. eapply wpe_mono; [exact Hm|]. intros ? k1 ?. by kret. }
  destruct a as [| | |ms|ms|d per opt cb arg|cb arg rpt|q|q]; unfold mild; cbn [act own_act act_ok] in *.
  - apply Hdrop. by apply (start_own p k sp fr t).
  - apply Hdrop. unfold NST_CancelTimer. apply wpe_bind. eapply wpe_mono; [by apply (stop_own p k sp fr t)|]. intros ? k1 ?. by kret.
  - apply Hdrop. by apply (del_own p k sp fr t).
  - by apply (set_own p k sp fr t).
  - unfold NST_ModTimer, NST_CancelTimer. apply wpe_bind, wpe_bind. eapply wpe_mono; [by apply (stop_own p k sp fr t)|].
    intros ? k1 (sp1 & fr1 & H1 & Q1 & P1 & B1)%own_inv. kret.
    destruct (tmr_exists k1 sp1 fr1 p H1) as [t1 Ht1]; [rewrite <- (sh_tbl _ _ _ (proj1 H)); by apply lookup_lt_Some in Ht|].
    eapply wpe_mono; [apply (set_own p k1 sp1 fr1 t1 H1); [destruct Q1 as (_ & -> & _)|]; done|]. intros ? k2 H2. by apply (own_trans p k k1 k2 sp sp1 fr1).
  - apply Hdrop. destruct Hok. by apply (create_stays k sp fr).
  - apply Hdrop. unfold NST_InitTimer. apply wpe_bind. eapply wpe_mono; [by apply (create_stays k sp fr)|]. intros ? k1 ?. by kret.
  - apply (ask_stays k sp fr); [done..|]. intros u Hu.
    destruct (state_cases _ _ _ _ _ H Hu) as [E|[E|[E|E]]]; rewrite E; done.
  - apply (ask_stays k sp fr); [done..|]. intros u Hu. done.
Qed.

Lemma mild_trans p (o1 o2 : bool) k sp k1 sp1 fr1 k2 : rep k1 sp1 fr1 -> quiet k k1 ->
  (if o1 then places p sp sp1 /\ forall q t, q <> p -> bodies k !! q = Some t -> running t -> bodies k1 !! q = Some t
   else sp1 = sp /\ forall q t, bodies k !! q = Some t -> ~ unused t -> bodies k1 !! q = Some t) ->
  mild p o2 k1 sp1 k2 -> mild p (o1 || o2) k sp k2.
Proof.
  intros H1 Q1 Hm H2. destruct o1, o2; cbn [mild orb] in *.
  - destruct Hm. by apply (own_trans p k k1 k2 sp sp1 fr1).
  - destruct Hm. by apply (own_stays p k k1 k2 sp sp1 fr1).
  - destruct Hm as [-> Hb]. apply (stays_own p k k1 k2 sp); [by exists fr1|done].
  - destruct Hm as [-> Hb]. apply (stays_trans k k1 k2 sp); [by exists fr1|done].
Qed.

Lemma acts_mild p l : Forall act_ok l -> forall k sp fr, rep k sp fr -> OSIntNesting k = 0 -> (p < OS_TMR_CFG_MAX)%nat ->
  runs (acts p l) k (fun _ => mild p (existsb own_act l) k sp).
Proof.
  induction 1 as [|a l Ha _ IH]; intros k sp fr H Hi Hp; cbn [acts existsb]; [kret; by eapply stays_refl|].
  destruct (tmr_exists k sp fr p H Hp) as [t Ht]. apply wpe_bind. eapply wpe_mono; [by apply (act_mild p a k sp fr t)|].
  intros ? k1 H1.
  assert (exists sp1 fr1, rep k1 sp1 fr1 /\ quiet k k1 /\
    if own_act a then places p sp sp1 /\ forall q t, q <> p -> bodies k !! q = Some t -> running t -> bodies k1 !! q = Some t
    else sp1 = sp /\ forall q t, bodies k !! q = Some t -> ~ unused t -> bodies k1 !! q = Some t) as (sp1 & fr1 & R1 & Q1 & Hm).
  { unfold mild in H1. destruct (own_act a).
    - apply own_inv in H1 as (sp1 & fr1 & ? & ? & ? & ?). exists sp1, fr1. auto.
    - destruct H1 as (fr1 & ? & ? & ?). exists sp, fr1. auto. }
  eapply wpe_mono; [apply (IH k1 sp1 fr1 R1); [destruct Q1 as (_ & -> & _)|]; done|]. intros ? k2 H2. by eapply mild_trans.
Qed.

#[export] Instance scripted_gentle (S : Script) : Gentle (CB := scripted S).
Proof.
  refine (Build_Gentle _ (changes_own S) _). intros fn p arg k sp fr t H Hi Ht Hu. unfold callback, scripted.
  assert (p < OS_TMR_CFG_MAX)%nat as Hp by (rewrite <- (sh_tbl _ _ _ (proj1 H)); by apply lookup_lt_Some in Ht).
  eapply wpe_mono; [by apply (acts_mild p (program S fn) (program_ok S fn) k sp fr)|]. intros ? k' Hm. unfold mild in Hm.
  fold (changes_own S fn) in Hm. destruct (changes_own S fn); [done|].
  apply (stays_gentle p k sp k' (erase t)); [done|by apply lookup_body|done].
Defined.
