(* ===== verification/TimerSpec.v ===== *)
(** The theorems on timers: every sequence of services and ticks is safe, the
    timer task calls back exactly the timers that are due, and a timer set to
    a time calls back with the tick of that time. *)
From S2P Require Import Prelude Timers TimerWheel TimerTask TimerActs.
From stdpp Require Import list.
#[local] Open Scope Z_scope.

Section Spec.
Context `{GC : Gentle}.

Lemma reached ops k : Forall op_ok ops -> tmr_run ops OSTmr_Init = Done tt k -> sound k.
Proof.
  intros Hok E. pose proof (tmr_run_sound ops OSTmr_Init init_sound Hok) as H. unfold runs, wpe in H. by rewrite E in H.
Qed.

(** Every sequence of services and ticks returns, when the callbacks leave the
    other running timers alone. *)
Lemma gentle_safe ops : Forall op_ok ops -> exists k, tmr_run ops OSTmr_Init = Done tt k /\
  OSTmrUsed k + OSTmrFree k = Z.of_nat OS_TMR_CFG_MAX /\ forall o, op_ok o -> exists k', do_op o k = Done tt k'.
Proof.
  intros Hok. destruct (proj1 (runs_done _ _ _) (tmr_run_sound ops _ init_sound Hok)) as ([] & k & E & Hk). exists k.
  split; [done|]. split.
  - destruct Hk as (_ & sp & fr & [H _]). destruct (sh_count _ _ _ H). lia.
  - intros o Ho. destruct (proj1 (runs_done _ _ _) (do_op_sound o k Hk Ho)) as ([] & k' & E' & _). by exists k'.
Qed.

(** At a tick the timer task calls back exactly the running timers whose
    time has come, each once, with its own argument, and no other: those the
    spoke of the wheel holds for a later turn stay. *)
Theorem task_calls_due ops k : Forall op_ok ops -> tmr_run ops OSTmr_Init = Done tt k ->
  exists k' cs, OSTmr_Task k = Done tt k' /\ OSTmrTime k' = u32 (OSTmrTime k + 1) /\ OSTmrCalls k' = OSTmrCalls k ++ cs /\
    cs ≡ₚ due_calls (OSTmrTime k') (OSTmrTbl k) (expiring (OSTmrTime k') (OSTmrTbl k)).
Proof.
  intros Hok E. destruct (reached ops k Hok E) as (Hi & sp & fr & H).
  destruct (proj1 (runs_done _ _ _) (Task_runs k sp fr H Hi)) as ([] & k' & E' & _ & _ & cs & _ & T' & _ & C' & Hcs & _).
  exists k', cs. rewrite T'. split_and!; [done..|]. rewrite Hcs. set (time := u32 _).
  assert (forall p, bodies k !! p = erase <$> OSTmrTbl k !! p) as Hb by (intros p; apply bodies_lookup).
  assert (expiring time (bodies k) = expiring time (OSTmrTbl k)) as ->.
  { unfold expiring. apply list_filter_iff. intros p. unfold due_now. rewrite Hb. by destruct (OSTmrTbl k !! p). }
  unfold due_calls. erewrite list_bind_ext; [done| |done]. intros p. cbn. rewrite Hb. by destruct (OSTmrTbl k !! p).
Qed.

Lemma set_timer_arms k p t ms : sound k -> OSTmrTbl k !! p = Some t -> ~ unused t ->
  runs (NST_SetTimer (Some p) ms) k (fun _ k1 => sound k1 /\ OSTmrCalls k1 = OSTmrCalls k /\ exists t1, armed p t1 (timer_ticks ms) k1 /\
    OSTmrCallback t1 = OSTmrCallback t /\ OSTmrOpt t1 = OSTmrOpt t /\ (OSTmrOpt t = OS_TMR_OPT_PERIODIC -> OSTmrPeriod t1 = timer_ticks ms)).
Proof.
  intros (Hi & sp & fr & H) Ht Hu. unfold NST_SetTimer. apply wpe_bind, wpe_access. exists t. split; [done|].
  destruct (times_rep k sp fr H p t ms Ht) as (k1 & H1 & (Qt & Qi & Qc) & B1 & Ht1 & HK). apply HK.
  assert (~ unused (with_time ms t)) as Hu1 by (unfold unused, with_time in *; by destruct (_ =? _)).
  apply wpe_bind. eapply wpe_mono; [apply (Start_runs p k1 sp fr (with_time ms t) H1); [by rewrite Qi|exact Ht1|done]|].
  intros r k2 (_ & sp2 & H2 & (Rt & Ri & Rc) & _ & B2). kret. split; [split; [congruence|by exists sp2, fr]|]. split; [congruence|].
  eexists. split; [split|].
  - rewrite B2. apply list_lookup_insert_eq. rewrite bodies_length. by apply lookup_lt_Some in Ht1.
  - split; [done|]. rewrite Rt. cbn. unfold with_time, match_of. pose proof (ticks_u32 ms) as Hw. pose proof (sh_time _ _ _ (proj1 H1)) as Ht0.
    assert (timer_ticks ms <> 0) as H0 by (pose proof (ticks_pos ms); lia).
    destruct (_ =? _); cbn; [|rewrite (proj2 (Z.eqb_neq _ _) H0)]; word_lia.
  - unfold with_time. destruct (Z.eqb_spec OS_TMR_OPT_PERIODIC (OSTmrOpt t)) as [E|E]; split_and!; try done; intros E2; by destruct E.
Qed.

Lemma fires_div d m : 1 <= d -> 0 <= m -> fires d d m = m / d.
Proof.
  intros Hd Hm. unfold fires. destruct (Z.ltb_spec m d); [by rewrite Z.div_small|].
  replace m with (m - d + 1 * d) at 2 by lia. rewrite Z.div_add by lia. lia.
Qed.

Lemma tick_ops_last ops : tick_ops (ops ++ [TTick]) = tick_ops ops + 1.
Proof. unfold tick_ops. by rewrite filter_app, zlen_app. Qed.

Lemma tmr_run_app ops1 : forall ops2 k, tmr_run (ops1 ++ ops2) k = (tmr_run ops1;; tmr_run ops2) k.
Proof.
  induction ops1 as [|o ops1 IH]; intros ops2 k; [done|]. cbn [app tmr_run]. rewrite bind_assoc. apply bind_ext. intros _ k1. apply IH.
Qed.

(** A timer that has been set calls back in time, when the callbacks leave the
    other running timers alone. *)
Lemma gentle_exact ops0 k p t ms ops : Forall op_ok ops0 -> tmr_run ops0 OSTmr_Init = Done tt k ->
  OSTmrTbl k !! p = Some t -> ~ unused t -> OSTmrCallback t <> 0 ->
  Forall op_ok ops -> Forall (fun o => target o <> Some p) ops ->
  exists k1 k2, NST_SetTimer (Some p) ms k = Done tt k1 /\ tmr_run ops k1 = Done tt k2 /\
    (tick_ops ops < timer_ticks ms -> calls_to p k2 = calls_to p k) /\
    (forall ops', ops = ops' ++ [TTick] -> tick_ops ops = timer_ticks ms -> calls_to p k2 = calls_to p k + 1) /\
    (OSTmrOpt t = OS_TMR_OPT_PERIODIC -> owns (OSTmrCallback t) = false -> calls_to p k2 = calls_to p k + tick_ops ops / timer_ticks ms).
Proof.
  intros Hok0 E0 Ht Hu Hc Hok Hp. pose proof (reached ops0 k Hok0 E0) as Hk.
  destruct (proj1 (runs_done _ _ _) (set_timer_arms k p t ms Hk Ht Hu)) as ([] & k1 & E1 & Hk1 & C1 & t1 & A1 & Ec & Eo & Ep).
  destruct (proj1 (runs_done _ _ _) (tmr_run_sound ops k1 Hk1 Hok)) as ([] & k2 & E2 & Hk2). exists k1, k2.
  assert (calls_to p k1 = calls_to p k) as <- by (unfold calls_to; by rewrite C1).
  pose proof (ticks_pos ms) as Hd.
  split_and!; [done|done| | |].
  - intros Hlt. pose proof (run_armed ops k1 p t1 _ Hk1 Hok Hp A1 Hlt) as Hr. unfold runs, wpe in Hr. rewrite E2 in Hr. tauto.
  - intros ops' -> Hm. apply Forall_app in Hok as [Hok _]. apply Forall_app in Hp as [Hp _]. rewrite tick_ops_last in Hm.
    rewrite tmr_run_app in E2. apply bind_inv in E2 as ([] & k3 & E3 & E2). apply bind_inv in E2 as ([] & k4 & E4 & E2). injection E2 as <-.
    pose proof (run_armed ops' k1 p t1 _ Hk1 Hok Hp A1) as Hr. unfold runs, wpe in Hr. rewrite E3 in Hr. destruct Hr as (Hk3 & C3 & A3); [lia|].
    replace (timer_ticks ms - tick_ops ops') with 1 in A3 by lia.
    pose proof (step_armed TTick k3 p t1 1 Hk3 I ltac:(done) A3 ltac:(lia)) as Hr. unfold runs, wpe in Hr. cbn [do_op] in E4, Hr. rewrite E4 in Hr.
    destruct Hr as [_ Hr]. rewrite decide_True in Hr by done. destruct Hr as [Hr _]. rewrite Hr, C3, Ec. by rewrite (proj2 (Z.eqb_neq _ _) Hc).
  - intros Ho Hl. pose proof (run_periodic ops k1 p t1 _ Hk1 Hok Hp A1 Hd) as Hr. unfold runs, wpe, loyal in Hr. rewrite E2, Ec, Eo, Ep in Hr by done.
    destruct Hr as [_ Hr]; [done|by right|done|lia|]. rewrite Hr, fires_div by (lia || apply tick_ops_nonneg). done.
Qed.
End Spec.

(** ** Milliseconds *)

(** A tick is ten milliseconds; less than one tick counts as one. *)
Theorem timer_ticks_exact ms : 0 <= ms -> ms * OS_TMR_CFG_TICKS_PER_SEC < 4294967296 -> timer_ticks ms = Z.max 1 (ms / 10).
Proof.
  intros H0 H. unfold timer_ticks. unfold OS_TMR_CFG_TICKS_PER_SEC in *. rewrite u32_small by word_lia.
  replace 1000 with (10 * 100) by lia. rewrite Z.div_mul_cancel_r by lia.
  assert (0 <= ms / 10) by (apply Z.div_pos; lia). destruct (Z.eqb_spec (ms / 10) 0); lia.
Qed.

Lemma timer_ticks_exact_witness : timer_ticks 60000 = 6000.
Proof. rewrite (timer_ticks_exact 60000); [vm_compute; reflexivity|vm_compute; discriminate|vm_compute; reflexivity]. Defined.

(** The product wraps: a timer of twelve hours, less four minutes, fires after
    ten milliseconds. *)
Theorem timer_ticks_wraps : timer_ticks 42949673 = 1.
Proof. vm_compute. reflexivity. Qed.

(** ** Callbacks that use timers as they may *)

Section Scripted.
Context (S : Script).
#[local] Instance script_callbacks : Callbacks := scripted S.

(** C14: Whatever timers the tasks create, set, start, stop and delete, in
    whatever order and with whatever ticks between, no service and no tick
    goes through a null pointer or outside the tables: every sequence returns
    and so does the next operation.  The callbacks are any programs ([Script])
    that start, stop, set and delete the timer that called back, create others
    and ask for states and times; one that stops another timer can crash the
    task ([stop_next_crashes]).  The free and the used timers always add up to
    the size of the table. *)
Theorem timers_safe ops : Forall op_ok ops -> exists k, tmr_run ops OSTmr_Init = Done tt k /\
  OSTmrUsed k + OSTmrFree k = Z.of_nat OS_TMR_CFG_MAX /\ forall o, op_ok o -> exists k', do_op o k = Done tt k'.
Proof. apply gentle_safe. Qed.

(** C11: A timer set to [ms] milliseconds ([NST_SetTimer]), less than twelve
    hours, calls back with the tick of that time, the [ms / 10]-th (the first,
    for less than ten), and not before, whatever the tasks do to other timers
    meanwhile; a repeating one whose callback does not change it has called
    back once for each such time that has passed.  The callbacks, its own and
    those of the others, are programs ([Script]) that start, stop, set and
    delete the timer that called back, create others and ask for states and
    times ([stop_next_crashes] is one that stops another timer); a longer time
    wraps ([timer_ticks_wraps]). *)
Theorem set_timer_exact ops0 k p t ms ops : Forall op_ok ops0 -> tmr_run ops0 OSTmr_Init = Done tt k ->
  OSTmrTbl k !! p = Some t -> ~ unused t -> OSTmrCallback t <> 0 -> 0 <= ms <= 42949672 ->
  Forall op_ok ops -> Forall (fun o => target o <> Some p) ops ->
  let n := Z.max 1 (ms / 10) in
  exists k1 k2, NST_SetTimer (Some p) ms k = Done tt k1 /\ tmr_run ops k1 = Done tt k2 /\
    (tick_ops ops < n -> calls_to p k2 = calls_to p k) /\
    (forall ops', ops = ops' ++ [TTick] -> tick_ops ops = n -> calls_to p k2 = calls_to p k + 1) /\
    (OSTmrOpt t = OS_TMR_OPT_PERIODIC -> changes_own S (OSTmrCallback t) = false -> calls_to p k2 = calls_to p k + tick_ops ops / n).
Proof.
  intros Hok0 E0 Ht Hu Hc Hms Hok Hp n. assert (timer_ticks ms = n) as <- by (apply timer_ticks_exact; unfold OS_TMR_CFG_TICKS_PER_SEC; lia).
  by apply (gentle_exact (GC := scripted_gentle S) ops0 k p t ms ops).
Qed.
End Scripted.

(** ** Concrete callbacks *)

(** Code 2 starts its own timer again, code 4 makes another timer and looks at
    it, any other code does not use timers. *)
Definition demo_program (fn : Z) : list Act :=
  if fn =? 2 then [AStart] else if fn =? 4 then [ACreate 5 0 1 1 9; AStateGet 0] else [].

Lemma demo_ok fn : Forall act_ok (demo_program fn).
Proof. unfold demo_program. repeat case_match; by_decide. Qed.

Definition demo : Script := mkScript demo_program demo_ok.
#[local] Instance demo_callbacks : Callbacks := scripted demo.

(** The state after a list of operations. *)
Definition tmr_after (ops : list TmrOp) : Timers := match tmr_run ops OSTmr_Init with Done _ k => k | _ => OSTmr_Init end.

(** A repeating timer, a single one and one that starts itself again. *)
Definition three : list TmrOp := [TInitTimer 1 11 true; TInitTimer 4 13 false; TInitTimer 2 12 false; TSetTimer 1 40; TSetTimer 2 20].

Definition others : list TmrOp := [TTick; TTick; TSetTimer 1 10; TTick; TDel 2; TTick; TCreate 5 0 1 4 14; TTick; TTick; TTick].

Lemma timers_safe_witness : exists k, tmr_run (three ++ others) OSTmr_Init = Done tt k /\
  OSTmrUsed k + OSTmrFree k = Z.of_nat OS_TMR_CFG_MAX /\ forall o, op_ok o -> exists k', do_op o k = Done tt k'.
Proof. apply (timers_safe demo (three ++ others)). by_decide. Defined.

Lemma task_calls_due_witness : exists k' cs, OSTmr_Task (tmr_after (three ++ [TTick])) = Done tt k' /\ OSTmrTime k' = 2 /\
  OSTmrCalls k' = cs /\ cs ≡ₚ [(2, 2%nat, 12)].
Proof.
  destruct (task_calls_due (three ++ [TTick]) (tmr_after (three ++ [TTick]))) as (k' & cs & E & T & C & P);
    [by_decide|vm_compute; reflexivity|]. exists k', cs. split; [done|]. split; [rewrite T; vm_compute; reflexivity|].
  split; [rewrite C; vm_compute; reflexivity|]. rewrite T in P. etransitivity; [exact P|]. vm_compute. reflexivity.
Defined.

(** In seven ticks a timer of 20 milliseconds calls back three times. *)
Lemma set_timer_exact_witness : exists k1 k2, NST_SetTimer (Some 0%nat) 20 (tmr_after three) = Done tt k1 /\ tmr_run others k1 = Done tt k2 /\
  calls_to 0 k2 = 3.
Proof.
  destruct (set_timer_exact demo three (tmr_after three) 0%nat (mkTmr 100 1 11 None None 0 0 0 2 1) 20 others) as (k1 & k2 & E1 & E2 & _ & _ & H);
    [by_decide|vm_compute; reflexivity|vm_compute; reflexivity|vm_compute; discriminate|discriminate|lia|by_decide|by_decide|].
  exists k1, k2. split; [exact E1|]. split; [exact E2|]. rewrite H by reflexivity. vm_compute. reflexivity.
Defined.

(** ** A callback that stops another timer *)

(** Code 7 stops the timer given as its argument. *)
Definition stopper : Callbacks := fun fn _ arg => if fn =? 7 then _ ← @OSTmrStop no_callbacks (Z.to_nat arg) OS_TMR_OPT_NONE 0; mret tt else mret tt.

(** Two timers due at the same tick, of which the first to be looked at stops
    the second: the task has noted the second already, unlinks it again, and
    writes through its null back pointer. *)
Theorem stop_next_crashes : @tmr_run stopper [TInitTimer 7 1 false; TInitTimer 7 0 false; TSetTimer 0 10; TSetTimer 1 10; TTick] OSTmr_Init = Crash.
Proof. vm_compute. reflexivity. Qed.
