(* ===== verification/Timeouts.v ===== *)
(** The timeouts of lwIP (LwIP/src/core/timers.c), which the TCP/IP thread
    serves while it waits for messages, and the wait of its port
    (LwIP/port/sys_arch.c).

    The list is kept as the list of its entries, each with its time relative
    to the one before.  The pool of entries is their number.  The handlers are
    the parameter [Handlers]: what a handler does to the list (lwIP's own
    restart themselves, [lwip_handlers]).  The mailbox is an environment:
    [arrivals] are the ticks from one message to the next.  A wait
    ([sys_arch_mbox_fetch]) ends with the next message, if it comes within the
    ticks it may take (0 is without end), or without one.  How milliseconds
    become ticks and back is that of the port ([ms_to_ticks], [elapsed_ms]).
    [now] is the number of ticks that have really passed, [ran] notes the
    handlers called, with the tick, and [waits] the ticks in which each wait
    began and ended. *)
From S2P Require Import Prelude.
From stdpp Require Import list.
#[local] Open Scope Z_scope.

Definition SYS_ARCH_TIMEOUT : Z := 4294967295.
Definition MEMP_NUM_SYS_TIMEOUT : Z := 8.
Definition ARP_TMR_INTERVAL : Z := 5000.
Definition IP_TMR_INTERVAL : Z := 1000.
Definition DHCP_COARSE_TIMER_MSECS : Z := 60000.
Definition DHCP_FINE_TIMER_MSECS : Z := 500.
Definition DNS_TMR_INTERVAL : Z := 1000.

Record sys_timeo := mkTimeo { time : Z; h : Z; arg : Z }.

Record Timeouts := mkTimeouts {
  next_timeout : list sys_timeo;
  pool : Z;
  arrivals : list Z;
  now : Z;
  ran : list (Z * Z * Z);
  waits : list (Z * Z)
}.

Definition set_list (l : list sys_timeo) (s : Timeouts) : Timeouts :=
  mkTimeouts l (pool s) (arrivals s) (now s) (ran s) (waits s).
Definition set_pool (l : list sys_timeo) (n : Z) (s : Timeouts) : Timeouts :=
  mkTimeouts l n (arrivals s) (now s) (ran s) (waits s).
Definition set_clock (a : list Z) (n : Z) (s : Timeouts) : Timeouts :=
  mkTimeouts (next_timeout s) (pool s) a n (ran s) (waits s ++ [(now s, n)]).
Definition add_ran (x : Z * Z * Z) (s : Timeouts) : Timeouts :=
  mkTimeouts (next_timeout s) (pool s) (arrivals s) (now s) (ran s ++ [x]) (waits s).

Definition set_t (v : Z) (t : sys_timeo) : sys_timeo := mkTimeo v (h t) (arg t).

(** The entry behind gets what is left of its time. *)
Definition less_time (v : Z) (l : list sys_timeo) : list sys_timeo :=
  match l with [] => [] | t :: l => set_t (u32 (time t - v)) t :: l end.

(** The loop of [sys_timeout], at entry [t] and those behind. *)
Fixpoint insert_loop (timeout t : sys_timeo) (l : list sys_timeo) : list sys_timeo :=
  let timeout := set_t (u32 (time timeout - time t)) timeout in
  match l with
  | [] => [t; timeout]
  | n :: l' => if time timeout <? time n then t :: timeout :: less_time (time timeout) l else t :: insert_loop timeout n l'
  end.

Definition sys_timeout (msecs handler arg : Z) : M Timeouts unit := fun s =>
  if pool s =? 0 then Done tt s else
  let timeout := mkTimeo msecs handler arg in
  let l :=
    match next_timeout s with
    | [] => [timeout]
    | t :: l => if msecs <? time t then timeout :: less_time msecs (t :: l) else insert_loop timeout t l
    end in
  Done tt (set_pool l (pool s - 1) s).

(** The loop of [sys_untimeout]: the list without the first match. *)
Fixpoint untimeout_loop (handler arg_ : Z) (l : list sys_timeo) : option (list sys_timeo) :=
  match l with
  | [] => None
  | t :: l =>
      if (h t =? handler) && (arg t =? arg_) then
        Some (match l with [] => [] | n :: l => set_t (u32 (time n + time t)) n :: l end)
      else l ← untimeout_loop handler arg_ l; Some (t :: l)
  end.

Definition sys_untimeout (handler arg_ : Z) : M Timeouts unit := fun s =>
  match untimeout_loop handler arg_ (next_timeout s) with
  | Some l => Done tt (set_pool l (pool s + 1) s)
  | None => Done tt s
  end.

(** What a handler does to the list. *)
Inductive TOp :=
  | TSet (msecs handler arg : Z)
  | TUnset (handler arg : Z).

Definition top (o : TOp) : M Timeouts unit :=
  match o with
  | TSet ms f a => sys_timeout ms f a
  | TUnset f a => sys_untimeout f a
  end.

Fixpoint tops (l : list TOp) : M Timeouts unit :=
  match l with
  | [] => mret tt
  | o :: l => top o;; tops l
  end.

(** It may depend on all calls so far, the last of which is its own. *)
Class Handlers := handler : list (Z * Z * Z) -> Z -> Z -> list TOp.

Definition OS_TICKS_PER_SEC : Z := 100.

(** The first half of [_sys_arch_mbox_fetch]. *)
Definition ms_to_ticks (timeout : Z) : Z :=
  if timeout =? 0 then 0 else
  let ucos_timeout := u32 (timeout * OS_TICKS_PER_SEC) / 1000 in
  if ucos_timeout <? 1 then 1 else if 65535 <? ucos_timeout then 65535 else ucos_timeout.

(** The second half; the arguments are what [OSTimeGet] returned. *)
Definition elapsed_ms (timeout timeout_new : Z) : Z :=
  let n := if timeout <? timeout_new then timeout_new - timeout else u32 (4294967295 - timeout + timeout_new) in
  u32 (u32 (n * 1000) / OS_TICKS_PER_SEC + 1).

(** The halves of [_sys_arch_sem_wait], which are written a little differently. *)
Definition sem_ticks (timeout : Z) : Z :=
  if timeout =? 0 then 0 else
  let ucos_timeout := u32 (timeout * OS_TICKS_PER_SEC) / 1000 in
  u16 (if ucos_timeout <? 1 then 1 else if 65536 <? ucos_timeout then 65535 else ucos_timeout).

Definition sem_elapsed_ms (timeout timeout_new : Z) : Z :=
  let n := if timeout <=? timeout_new then timeout_new - timeout else u32 (4294967295 - timeout + timeout_new) in
  u32 (u32 (n * 1000) / OS_TICKS_PER_SEC + 1).

Section Fetch.
Context `{HA : Handlers}.

(** [Err] stands for a wait that never ends. *)
Definition sys_arch_mbox_fetch (timeout : Z) : M Timeouts Z := fun s =>
  let n := ms_to_ticks timeout in
  match arrivals s with
  | [] => if n =? 0 then Err 0 s else Done SYS_ARCH_TIMEOUT (set_clock [] (now s + n) s)
  | a :: l =>
      if (n =? 0) || (a <? n) then Done (elapsed_ms (u32 (now s)) (u32 (now s + a))) (set_clock l (now s + a) s)
      else Done SYS_ARCH_TIMEOUT (set_clock (a - n :: l) (now s + n) s)
  end.

(** The first timeout is due: it is taken from the list and run. *)
Definition run_timeout : M Timeouts unit := fun s =>
  match next_timeout s with
  | [] => Crash
  | t :: l =>
      (modify (set_pool l (pool s + 1));;
       if h t =? 0 then mret tt
       else modify (fun s => add_ran (h t, arg t, now s) s);; past ← gets ran; tops (handler past (h t) (arg t))) s
  end.

(** One turn per timeout that runs and one for the message. *)
Fixpoint sys_timeouts_mbox_fetch (fuel : nat) : M Timeouts unit :=
  match fuel with
  | O => fail 1
  | S fuel => fun s =>
      match next_timeout s with
      | [] => (_ ← sys_arch_mbox_fetch 0; mret tt) s
      | t :: _ =>
          (time_needed ← (if 0 <? time t then sys_arch_mbox_fetch (time t) else mret SYS_ARCH_TIMEOUT);
           if time_needed =? SYS_ARCH_TIMEOUT then run_timeout;; sys_timeouts_mbox_fetch fuel
           else modify (fun s => match next_timeout s with
                                 | t :: l => set_list (set_t (if time_needed <? time t then u32 (time t - time_needed) else 0) t :: l) s
                                 | [] => s
                                 end)) s
      end
  end.
End Fetch.

(** The timers of lwIP by the numbers of their functions. *)
Definition arp_timer : Z := 1.
Definition ip_reass_timer : Z := 2.
Definition dhcp_timer_coarse : Z := 3.
Definition dhcp_timer_fine : Z := 4.
Definition dns_timer : Z := 5.

Definition lwip_handlers : Handlers := fun _ f _ =>
  if f =? arp_timer then [TSet ARP_TMR_INTERVAL arp_timer 0]
  else if f =? ip_reass_timer then [TSet IP_TMR_INTERVAL ip_reass_timer 0]
  else if f =? dhcp_timer_coarse then [TSet DHCP_COARSE_TIMER_MSECS dhcp_timer_coarse 0]
  else if f =? dhcp_timer_fine then [TSet DHCP_FINE_TIMER_MSECS dhcp_timer_fine 0]
  else if f =? dns_timer then [TSet DNS_TMR_INTERVAL dns_timer 0]
  else [].

Definition sys_timeouts_init : M Timeouts unit :=
  tops [TSet IP_TMR_INTERVAL ip_reass_timer 0; TSet ARP_TMR_INTERVAL arp_timer 0; TSet DHCP_COARSE_TIMER_MSECS dhcp_timer_coarse 0;
        TSet DHCP_FINE_TIMER_MSECS dhcp_timer_fine 0; TSet DNS_TMR_INTERVAL dns_timer 0].
