(* ===== verification/TimeoutSpec.v ===== *)
(** What the timeouts of lwIP promise: the list of relative times (file
    [Timeouts]) refines an agenda of absolute deadlines. *)
From S2P Require Import Prelude Timeouts.
From stdpp Require Import list.
From Stdlib Require Import Sorting.Sorted.
#[local] Open Scope Z_scope.

(** The entries with their deadlines, in order.  Deadlines are in lwIP's time
    [clock], in milliseconds, which goes on by what the port reports of each
    wait; [ticks] are those that have really passed. *)
Record Agenda := mkAgenda {
  due : list (Z * Z * Z);
  free : Z;
  coming : list Z;
  clock : Z;
  ticks : Z;
  called : list (Z * Z * Z);
  waited : list (Z * Z)
}.

Fixpoint absolute (t0 : Z) (l : list sys_timeo) : list (Z * Z * Z) :=
  match l with
  | [] => []
  | t :: l => (t0 + time t, h t, arg t) :: absolute (t0 + time t) l
  end.

Definition agenda (c : Z) (s : Timeouts) : Agenda :=
  mkAgenda (absolute c (next_timeout s)) (pool s) (arrivals s) c (now s) (ran s) (waits s).

(** A new entry comes behind those of the same deadline. *)
Fixpoint enter (x : Z * Z * Z) (l : list (Z * Z * Z)) : list (Z * Z * Z) :=
  match l with
  | [] => [x]
  | y :: l' => if x.1.1 <? y.1.1 then x :: l else y :: enter x l'
  end.

Fixpoint cancel (f a : Z) (l : list (Z * Z * Z)) : option (list (Z * Z * Z)) :=
  match l with
  | [] => None
  | y :: l => if (y.1.2 =? f) && (y.2 =? a) then Some l else l ← cancel f a l; Some (y :: l)
  end.

Definition set_due (l : list (Z * Z * Z)) (n : Z) (s : Agenda) : Agenda :=
  mkAgenda l n (coming s) (clock s) (ticks s) (called s) (waited s).

(** A wait that ends at [n] ticks and leaves lwIP's time at [c]. *)
Definition pass (k : list Z) (c n : Z) (s : Agenda) : Agenda :=
  mkAgenda (due s) (free s) k c n (called s) (waited s ++ [(ticks s, n)]).

Definition note (x : Z * Z * Z) (s : Agenda) : Agenda :=
  mkAgenda (due s) (free s) (coming s) (clock s) (ticks s) (called s ++ [x]) (waited s).

Definition plan_op (o : TOp) : M Agenda unit := fun s =>
  match o with
  | TSet ms f a =>
      if free s =? 0 then Done tt s else Done tt (set_due (enter (clock s + ms, f, a) (due s)) (free s - 1) s)
  | TUnset f a =>
      match cancel f a (due s) with
      | Some l => Done tt (set_due l (free s + 1) s)
      | None => Done tt s
      end
  end.

Fixpoint plan_ops (l : list TOp) : M Agenda unit :=
  match l with
  | [] => mret tt
  | o :: l => plan_op o;; plan_ops l
  end.

Section Plan.
Context `{HA : Handlers}.

(** The first entry is taken from the agenda and called. *)
Definition plan_call (x : Z * Z * Z) (l : list (Z * Z * Z)) : M Agenda unit :=
  let '(d, f, a) := x in
  modify (fun s => set_due l (free s + 1) s);;
  if f =? 0 then mret tt
  else modify (fun s => note (f, a, ticks s) s);; past ← gets called; plan_ops (handler past f a).

(** The wait for the next message, at most for [left] milliseconds (0 is
    without end): lwIP's time goes on by what the port reports, but not past
    the first deadline. *)
Definition plan_wait (left : Z) : M Agenda bool := fun s =>
  let n := ms_to_ticks left in
  let message a k :=
    let v := elapsed_ms (u32 (ticks s)) (u32 (ticks s + a)) in
    Done true (pass k (clock s + (if left =? 0 then 0 else if v <? left then v else left)) (ticks s + a) s) in
  let timeout k := Done false (pass k (clock s + left) (ticks s + n) s) in
  match coming s with
  | [] => if n =? 0 then Err 0 s else timeout []
  | a :: k => if (n =? 0) || (a <? n) then message a k else timeout (a - n :: k)
  end.

(** What comes first, the next deadline or the next message. *)
Fixpoint plan_fetch (fuel : nat) : M Agenda unit :=
  match fuel with
  | O => fail 1
  | S fuel => fun s =>
      match due s with
      | [] => (_ ← plan_wait 0; mret tt) s
      | x :: l =>
          (message ← (if clock s <? x.1.1 then plan_wait (x.1.1 - clock s) else mret false);
           if (message : bool) then mret tt else plan_call x l;; plan_fetch fuel) s
      end
  end.
End Plan.

(** * Well-formed lists *)

Fixpoint total (l : list sys_timeo) : Z :=
  match l with [] => 0 | t :: l => time t + total l end.

Definition good_times (l : list sys_timeo) : Prop := Forall (fun t => 0 <= time t) l /\ total l < 4294967296.

Definition good_op (o : TOp) : Prop :=
  match o with TSet ms _ _ => is_u32 ms | TUnset _ _ => True end.

(** The handlers pass times of 32 bits. *)
Class GoodHandlers (HA : Handlers) : Prop := good_handlers past f a : Forall good_op (handler past f a).

Lemma total_nonneg l : Forall (fun t => 0 <= time t) l -> 0 <= total l.
Proof. induction 1; simpl; lia. Qed.

Lemma good_cons t l : good_times (t :: l) -> 0 <= time t < 4294967296 /\ good_times l.
Proof. intros [[Ht Hl]%Forall_cons_1 Hs]. pose proof (total_nonneg l Hl). simpl in *. repeat split; (done || lia). Qed.

Lemma less_time_spec t0 v l :
  good_times l -> 0 <= v -> match l with [] => True | t :: _ => v <= time t end ->
  absolute (t0 + v) (less_time v l) = absolute t0 l /\ Forall (fun t => 0 <= time t) (less_time v l) /\
  total (less_time v l) = match l with [] => 0 | _ => total l - v end.
Proof.
  destruct l as [|[n f a] l]; [done|]. intros [Hn Hl]%good_cons Hv Hle. cbn in *. rewrite u32_small by word_lia.
  repeat split; [do 2 f_equal; [f_equal|]; lia| |lia]. constructor; [cbn; lia|apply Hl].
Qed.

Lemma good_intro t l : 0 <= time t -> Forall (fun t => 0 <= time t) l -> time t + total l < 4294967296 -> good_times (t :: l).
Proof. intros. split; [by constructor|done]. Qed.

Lemma insert_loop_spec l t0 x t :
  good_times (t :: l) -> time t <= time x < 4294967296 ->
  absolute t0 (insert_loop x t l) = enter (t0 + time x, h x, arg x) (absolute t0 (t :: l)) /\
  Forall (fun t => 0 <= time t) (insert_loop x t l) /\ total (insert_loop x t l) = Z.max (time x) (total (t :: l)).
Proof.
  revert t0 x t. induction l as [|n l IH]; intros t0 x t Hg Hx; apply good_cons in Hg as [Ht Hg]; cbn [insert_loop];
    rewrite u32_small by word_lia; cbn [set_t time h arg absolute enter fst total];
    destruct (Z.ltb_spec (t0 + time x) (t0 + time t)); try lia.
  - repeat split; [by replace (t0 + time t + (time x - time t)) with (t0 + time x) by lia| |lia]. do 2 (constructor; [cbn; lia|]). constructor.
  - pose proof (good_cons _ _ Hg) as [Hn Hl]. pose proof (total_nonneg l (proj1 Hl)).
    destruct (Z.ltb_spec (time x - time t) (time n)).
    + destruct (less_time_spec (t0 + time t) (time x - time t) (n :: l) Hg) as (E & Hf & Hs); [lia..|].
      destruct (Z.ltb_spec (t0 + time x) (t0 + time t + time n)); [|lia].
      repeat split.
      * cbn [absolute set_t time h arg].
        replace (t0 + time t + (time x - time t)) with (t0 + time x) in * by lia. by rewrite E.
      * do 2 (constructor; [cbn; lia|]). done.
      * cbn [total set_t time] in *. rewrite Hs. lia.
    + destruct (IH (t0 + time t) (set_t (time x - time t) x) n Hg) as (E & Hf & Hs); [cbn; lia|].
      repeat split.
      * cbn [absolute]. rewrite E. cbn [set_t time h arg].
        by replace (t0 + time t + (time x - time t)) with (t0 + time x) by lia.
      * by constructor; [lia|].
      * cbn [total set_t time] in *. rewrite Hs. lia.
Qed.

Lemma untimeout_loop_spec f a l t0 :
  good_times l ->
  match untimeout_loop f a l with
  | Some l' => cancel f a (absolute t0 l) = Some (absolute t0 l') /\ Forall (fun t => 0 <= time t) l' /\ total l' <= total l
  | None => cancel f a (absolute t0 l) = None
  end.
Proof.
  revert t0. induction l as [|t l IH]; intros t0 Hg; [done|]. pose proof (good_cons _ _ Hg) as [Ht Hl]. cbn.
  destruct ((h t =? f) && (arg t =? a)).
  - destruct l as [|n l]; [cbn; repeat split; (done || lia)|]. pose proof (good_cons _ _ Hl) as [Hn Hl'].
    pose proof (total_nonneg l (proj1 Hl')). destruct Hg as [_ Hs]. cbn in *. rewrite u32_small by word_lia.
    replace (t0 + (time n + time t)) with (t0 + time t + time n) by lia.
    repeat split; [|lia]. constructor; [cbn; lia|apply Hl'].
  - specialize (IH (t0 + time t) Hl). destruct (untimeout_loop f a l) as [l'|]; cbn.
    + destruct IH as (-> & Hf & Hs). cbn. repeat split; [by constructor; [lia|]|lia].
    + by rewrite IH.
Qed.

(** * The refinement *)

(** The outcome of [m] is that of [m'] when its state is seen as an agenda. *)
Definition tells {A} (o : outcome Timeouts A) (o' : outcome Agenda A) : Prop :=
  match o, o' with
  | Done a s, Done a' s' => a = a' /\ s' = agenda (clock s') s
  | Err c s, Err c' s' => c = c' /\ s' = agenda (clock s') s
  | Crash, Crash => True
  | _, _ => False
  end.

Definition good (s : Timeouts) : Prop := good_times (next_timeout s) /\ Forall (Z.le 0) (arrivals s).

Definition good_after {A} (o : outcome Timeouts A) : Prop := forall a s', o = Done a s' -> good s'.

(** [m] does to a good state what [m'] does to its agenda, and keeps it good. *)
Definition refines {A} (m : M Timeouts A) (m' : M Agenda A) : Prop :=
  forall s c, good s -> tells (m s) (m' (agenda c s)) /\ good_after (m s).

Lemma refines_bind {A B} (m : M Timeouts A) m' (f : A -> M Timeouts B) f' :
  refines m m' -> (forall a, refines (f a) (f' a)) -> refines (mbind f m) (mbind f' m').
Proof.
  intros Hm Hf s c Hs. destruct (Hm s c Hs) as [E Hg]. unfold mbind, M_bind.
  destruct (m s) as [a s1|e s1|], (m' (agenda c s)) as [a' s1'|e' s1'|]; cbn in E; try done; destruct E as [-> ->].
  apply Hf. by eapply Hg.
Qed.

Lemma refines_ret {A} (a : A) : refines (mret a) (mret a).
Proof. intros s c Hs. split; [done|]. by intros ? ? [= _ <-]. Qed.

Lemma sys_timeout_refines ms f a : is_u32 ms -> refines (sys_timeout ms f a) (plan_op (TSet ms f a)).
Proof.
  intros Hms s c Hgood. unfold sys_timeout, plan_op. cbn [free agenda due]. destruct (pool s =? 0).
  { split; [done|]. by intros ? ? [= _ <-]. }
  destruct Hgood as [Hs Harr]. destruct (next_timeout s) as [|t l] eqn:El.
  { split; [done|]. intros ? ? [= _ <-]. split; [|done]. apply good_intro; cbn; [word_lia|constructor|word_lia]. }
  pose proof (good_cons _ _ Hs) as [Ht Hl]. destruct (Z.ltb_spec ms (time t)).
  - destruct (less_time_spec c ms (t :: l) Hs) as (E & Hf & Htot); [word_lia..|]. split.
    + split; [done|]. unfold agenda, set_pool, set_due. cbn [next_timeout pool arrivals now ran waits absolute time h arg clock coming called ticks waited free].
      rewrite E. cbn [absolute enter fst]. destruct (Z.ltb_spec (c + ms) (c + time t)); [done|lia].
    + intros ? ? [= _ <-]. split; [|done]. apply good_intro; [cbn; word_lia|done|]. destruct Hs as [_ Hs]. cbn [less_time total time] in *. lia.
  - destruct (insert_loop_spec l c (mkTimeo ms f a) t Hs) as (E & Hf & Htot); [cbn; word_lia|]. split.
    + split; [done|]. unfold agenda, set_pool, set_due. cbn [next_timeout pool arrivals now ran waits clock coming called ticks waited free]. by rewrite E.
    + intros ? ? [= _ <-]. split; [|done]. split; [done|]. cbn [next_timeout set_pool]. rewrite Htot. destruct Hs as [_ Hs]. cbn [time]. word_lia.
Qed.

Lemma sys_untimeout_refines f a : refines (sys_untimeout f a) (plan_op (TUnset f a)).
Proof.
  intros s c [Hs Harr]. unfold sys_untimeout, plan_op. cbn [agenda due].
  pose proof (untimeout_loop_spec f a (next_timeout s) c Hs) as Hu.
  destruct (untimeout_loop f a (next_timeout s)) as [l|].
  - destruct Hu as (-> & Hf & Ht). split; [done|]. intros ? ? [= _ <-]. split; [|done]. split; [done|]. cbn. destruct Hs. lia.
  - rewrite Hu. split; [done|]. by intros ? ? [= _ <-].
Qed.

Lemma tops_refines l : Forall good_op l -> refines (tops l) (plan_ops l).
Proof.
  induction 1 as [|o l Ho _ IH]; [apply refines_ret|]. apply refines_bind; [|done].
  destruct o; [by apply sys_timeout_refines|apply sys_untimeout_refines].
Qed.

Lemma elapsed_ms_range from till : 1 <= elapsed_ms from till < SYS_ARCH_TIMEOUT.
Proof.
  unfold elapsed_ms. set (n := u32 (_ * 1000)). assert (is_u32 n) as Hn by apply u32_range. unfold OS_TICKS_PER_SEC, SYS_ARCH_TIMEOUT.
  assert (0 <= n / 100 <= 42949672) by (split; [apply Z.div_pos|apply Z.lt_succ_r, Z.div_lt_upper_bound]; word_lia).
  rewrite u32_small; word_lia.
Qed.

Lemma ms_to_ticks_pos ms : 0 < ms -> 1 <= ms_to_ticks ms <= 65535.
Proof. intros H. unfold ms_to_ticks. zcases. Qed.

Section Refines.
Context `{HA : Handlers} {HG : GoodHandlers HA}.

(** The first entry is called. *)
Lemma call_refines t l s s' d :
  next_timeout s = t :: l -> good_times l -> Forall (Z.le 0) (arrivals s) ->
  set_due (absolute d l) (free s' + 1) s' = agenda d (set_pool l (pool s + 1) s) ->
  tells (run_timeout s) (plan_call (d, h t, arg t) (absolute d l) s') /\ good_after (run_timeout s).
Proof.
  intros El Hl Ha Es. unfold run_timeout. rewrite El. unfold plan_call.
  unfold mbind, M_bind, modify, gets. rewrite Es. destruct (h t =? 0).
  - split; [done|]. by intros ? ? [= _ <-].
  - apply (tops_refines (handler (ran s ++ [(h t, arg t, now s)]) (h t) (arg t)) (good_handlers _ _ _)
             (add_ran (h t, arg t, now s) (set_pool l (pool s + 1) s))). done.
Qed.

(** A wait that ends without a message. *)
Definition timed_out (t : sys_timeo) (s s1 : Timeouts) : Prop :=
  exists k, s1 = set_clock k (now s + ms_to_ticks (time t)) s /\ Forall (Z.le 0) k.

(** The code's wait for the first entry. *)
Lemma wait_refines t l s c :
  next_timeout s = t :: l -> good s -> 0 < time t ->
  (exists k, Forall (Z.le 0) k /\ let s1 := set_clock k (now s + ms_to_ticks (time t)) s in
    sys_arch_mbox_fetch (time t) s = Done SYS_ARCH_TIMEOUT s1 /\
    plan_wait (time t) (agenda c s) = Done false (pass k (c + time t) (now s + ms_to_ticks (time t)) (agenda c s))) \/
  exists a k v, Forall (Z.le 0) k /\ 1 <= v < SYS_ARCH_TIMEOUT /\
    sys_arch_mbox_fetch (time t) s = Done v (set_clock k (now s + a) s) /\
    plan_wait (time t) (agenda c s) = Done true (pass k (c + (if v <? time t then v else time t)) (now s + a) (agenda c s)).
Proof.
  intros El [_ Ha] Ht. pose proof (ms_to_ticks_pos (time t) Ht) as Hn. unfold sys_arch_mbox_fetch, plan_wait. cbn [coming agenda clock ticks].
  replace (ms_to_ticks (time t) =? 0) with false by lia. replace (time t =? 0) with false by lia. cbn [orb].
  destruct (arrivals s) as [|a k] eqn:Ea; [left; by exists []|]. apply Forall_cons_1 in Ha as [Ha Hk].
  destruct (Z.ltb_spec a (ms_to_ticks (time t))).
  - right. exists a, k, (elapsed_ms (u32 (now s)) (u32 (now s + a))). split; [done|]. split; [apply elapsed_ms_range|]. done.
  - left. exists (a - ms_to_ticks (time t) :: k). split; [constructor; [lia|done]|done].
Qed.

(** Without entries only a message can come. *)
Lemma endless_refines s c :
  next_timeout s = [] -> good s ->
  tells ((_ ← sys_arch_mbox_fetch 0; mret tt) s) ((_ ← plan_wait 0; mret tt) (agenda c s)) /\
  good_after ((_ ← sys_arch_mbox_fetch 0; mret tt) s).
Proof.
  destruct s as [l p [|m k] n r w]; intros El Hg; cbn in El; subst l; [done|]. split; [done|].
  intros ? ? [= _ <-]. split; [apply Hg|]. eapply (Forall_cons_1 (Z.le 0)), (proj2 Hg).
Qed.

Lemma fetch_refines fuel : refines (sys_timeouts_mbox_fetch fuel) (plan_fetch fuel).
Proof.
  induction fuel as [|fuel IH]; intros s c Hg; [done|]. cbn [sys_timeouts_mbox_fetch plan_fetch]. cbn [due agenda].
  destruct (next_timeout s) as [|t l] eqn:El; [by apply endless_refines|].
  pose proof Hg as [Hl Ha]. rewrite El in Hl. pose proof (good_cons _ _ Hl) as [Ht Hl']. cbn [absolute fst].
  change (clock (agenda c s)) with c. replace (c <? c + time t) with (0 <? time t) by (zcases; done). replace (c + time t - c) with (time t) by lia.
  (* the call and the turns after it *)
  assert (forall s1 s1', next_timeout s1 = t :: l -> Forall (Z.le 0) (arrivals s1) ->
    set_due (absolute (c + time t) l) (free s1' + 1) s1' = agenda (c + time t) (set_pool l (pool s1 + 1) s1) ->
    tells ((run_timeout;; sys_timeouts_mbox_fetch fuel) s1)
      ((plan_call (c + time t, h t, arg t) (absolute (c + time t) l);; plan_fetch fuel) s1') /\
    good_after ((run_timeout;; sys_timeouts_mbox_fetch fuel) s1)) as Hcall.
  { intros s1 s1' E1 E2 E3. destruct (call_refines t l s1 s1' _ E1 Hl' E2 E3) as [E Hgood]. unfold mbind, M_bind.
    destruct (run_timeout s1) as [[] s2|e s2|], (plan_call _ _ s1') as [[] s2'|e' s2'|]; cbn in E; try done; destruct E as [E ->].
    apply IH. by apply (Hgood tt). }
  destruct (Z.ltb_spec 0 (time t)).
  2: { rewrite (bind_done (mret SYS_ARCH_TIMEOUT) _ s _ s), (bind_done (mret false) _ _ _ (agenda c s)) by done.
       apply Hcall; [done..|]. unfold agenda, set_due, set_pool. cbn. do 2 f_equal; lia. }
  destruct (wait_refines t l s c El Hg ltac:(lia)) as [(k & Hk & Ew & Ew')|(a & k & v & Hk & Hv & Ew & Ew')];
    rewrite (bind_done _ _ _ _ _ Ew), (bind_done _ _ _ _ _ Ew').
  - by apply Hcall.
  - rewrite (proj2 (Z.eqb_neq _ _)) by lia. unfold modify, set_list, set_clock, agenda, pass. cbn. rewrite El. split.
    + split; [done|]. unfold agenda. cbn. destruct (Z.ltb_spec v (time t)); [rewrite u32_small by word_lia|by rewrite Z.add_0_r].
      by replace (c + v + (time t - v)) with (c + time t) by lia.
    + intros ? ? [= _ <-]. split; [|done]. destruct Hl as [_ Hsum]. cbn in *.
      apply good_intro; [cbn; destruct (Z.ltb_spec v (time t)); [rewrite u32_small by word_lia|]; lia|apply Hl'|].
      cbn. destruct (Z.ltb_spec v (time t)); [rewrite u32_small by word_lia|]; lia.
Qed.
End Refines.

(** What the TCP/IP thread does: it waits for a message, or handles one and sets and cancels timeouts. *)
Inductive TStep :=
  | TFetch (fuel : nat)
  | TOps (l : list TOp).

Fixpoint thread `{HA : Handlers} (l : list TStep) : M Timeouts unit :=
  match l with
  | [] => mret tt
  | TFetch fuel :: l => sys_timeouts_mbox_fetch fuel;; thread l
  | TOps ops :: l => tops ops;; thread l
  end.

Fixpoint plan_thread `{HA : Handlers} (l : list TStep) : M Agenda unit :=
  match l with
  | [] => mret tt
  | TFetch fuel :: l => plan_fetch fuel;; plan_thread l
  | TOps ops :: l => plan_ops ops;; plan_thread l
  end.

Definition good_step (x : TStep) : Prop := match x with TFetch _ => True | TOps l => Forall good_op l end.

Lemma thread_refines `{HA : Handlers} {HG : GoodHandlers HA} l : Forall good_step l -> refines (thread l) (plan_thread l).
Proof.
  induction 1 as [|x l Hx _ IH]; [apply refines_ret|].
  destruct x; (apply refines_bind; [|done]); [apply fetch_refines|by apply tops_refines].
Qed.

(** C12: lwIP's list of relative times does what an agenda of absolute
    deadlines does: for any sequence of waits, [sys_timeout]s and
    [sys_untimeout]s, with any handlers, the same handlers are called in the
    same ticks, at their deadlines in lwIP's time, in the order of the
    deadlines and, for equal ones, of setting; cancelling takes the first
    match and moves no other deadline; no time wraps.  lwIP's time goes on by
    what the port reports of each wait: by the whole time when the wait ends
    without a message, and else by the milliseconds that
    [_sys_arch_mbox_fetch] makes of the ticks, but not past the first deadline. *)
Theorem timeouts_refine `{HA : Handlers} {HG : GoodHandlers HA} l s c :
  good s -> Forall good_step l -> tells (thread l s) (plan_thread l (agenda c s)).
Proof. intros Hs Hl. by apply thread_refines. Qed.

#[export] Instance lwip_good : GoodHandlers lwip_handlers.
Proof. intros past f a. unfold handler, lwip_handlers. repeat case_match; repeat constructor; by vm_compute. Qed.

(** The five timers, ten seconds, and a timeout that is cancelled. *)
Example timeouts_refine_witness :
  let s := mkTimeouts [] MEMP_NUM_SYS_TIMEOUT [70; 80; 1000] 7 [] [] in
  let l := [TOps [TSet 1000 ip_reass_timer 0; TSet 5000 arp_timer 0; TSet 500 dhcp_timer_fine 0]; TFetch 9;
            TOps [TSet 100 9 1; TUnset arp_timer 0]; TFetch 9; TFetch 99] in
  tells (thread (HA := lwip_handlers) l s) (plan_thread (HA := lwip_handlers) l (agenda 0 s)).
Proof. cbv zeta. apply (@timeouts_refine lwip_handlers lwip_good); [by_decide|]. repeat constructor; by vm_compute. Defined.

(** * The periodic timers *)

Definition timers : list Z := [arp_timer; ip_reass_timer; dhcp_timer_coarse; dhcp_timer_fine; dns_timer].

Definition period (f : Z) : Z :=
  if f =? arp_timer then ARP_TMR_INTERVAL else if f =? ip_reass_timer then IP_TMR_INTERVAL
  else if f =? dhcp_timer_coarse then DHCP_COARSE_TIMER_MSECS else if f =? dhcp_timer_fine then DHCP_FINE_TIMER_MSECS
  else DNS_TMR_INTERVAL.

(** The calls of a timer. *)
Definition calls_of (f : Z) (l : list (Z * Z * Z)) : list (Z * Z * Z) := filter (fun x => x.1.1 = f) l.



















Section Periodic.
#[local] Existing Instance lwip_handlers.



(** The calls that are left to do up to time [T]. *)
Definition left (c : Z -> Z) (T : Z) : Z := foldr Z.add 0 ((fun f => T / period f - c f) <$> timers).






(** Enough turns for a message that comes after [m] ticks. *)
Definition fetch_fuel (m : Z) : nat := Z.to_nat m + 11.


(** The state before [sys_timeouts_init] and after it. *)
Definition boot (ms : list Z) : Timeouts := mkTimeouts [] MEMP_NUM_SYS_TIMEOUT ms 0 [] [].

Definition started (ms : list Z) : Timeouts :=
  mkTimeouts [mkTimeo 500 dhcp_timer_fine 0; mkTimeo 500 ip_reass_timer 0; mkTimeo 0 dns_timer 0; mkTimeo 4000 arp_timer 0;
              mkTimeo 55000 dhcp_timer_coarse 0] 3 ms 0 [] [].




End Periodic.


(** In that run no wait ends in the tick in which it began, and the timer of
    500 milliseconds is called 43 times, as it should. *)
Example lwip_timers_punctual :
  match (sys_timeouts_init;; thread (HA := lwip_handlers) ((fun m => TFetch (fetch_fuel m)) <$> [70; 80; 2000])) (boot [70; 80; 2000]) with
  | Done _ s => forallb (fun w => w.1 <? w.2) (waits s) = true /\ zlen (calls_of dhcp_timer_fine (ran s)) = 43 /\
      head (calls_of dhcp_timer_fine (ran s)) = Some (dhcp_timer_fine, 0, 50)
  | _ => False
  end.
Proof. by vm_compute. Qed.

(** * The port of the code *)

(** The product wraps: a wait of twelve hours takes one tick. *)
Lemma ms_to_ticks_wraps : ms_to_ticks 42949680 = 1.
Proof. reflexivity. Qed.

(** A semaphore's wait of 65536 ticks, eleven minutes, is one without end. *)
Lemma sem_ticks_forever ms : 655360 <= ms <= 655369 -> sem_ticks ms = 0.
Proof.
  intros H. unfold sem_ticks, OS_TICKS_PER_SEC. rewrite u32_small by word_lia. replace (ms =? 0) with false by lia.
  replace (ms * 100 / 1000) with 65536; [done|]. apply (Z.div_unique _ _ _ (ms * 100 - 65536000)); lia.
Qed.

(** When the clock wraps, one tick is lost. *)
Lemma sem_elapsed_wraps : sem_elapsed_ms 4294967295 0 = 1.
Proof. reflexivity. Qed.

Lemma elapsed_ms_later from till : 0 <= from < till -> till < 4294967296 -> till - from < 4294967 -> elapsed_ms from till = 10 * (till - from) + 1.
Proof.
  intros. unfold elapsed_ms, OS_TICKS_PER_SEC. replace (from <? till) with true by lia. rewrite (u32_small (_ * _)) by word_lia.
  assert ((till - from) * 1000 / 100 = 10 * (till - from)) as -> by (symmetry; apply (Z.div_unique _ _ _ 0); lia). apply u32_small. word_lia.
Qed.

(** The same tick is taken for a wrap of the clock. *)
Lemma elapsed_ms_same n : is_u32 n -> elapsed_ms n n = 42949663.
Proof.
  intros H. unfold elapsed_ms. rewrite Z.ltb_irrefl. by replace (4294967295 - n + n) with 4294967295 by lia.
Qed.

(** A timeout whose time is 0 is run without a look at the mailbox. *)
Lemma fetch_due `{HA : Handlers} fuel s t l :
  next_timeout s = t :: l -> time t = 0 ->
  sys_timeouts_mbox_fetch (S fuel) s = (run_timeout;; sys_timeouts_mbox_fetch fuel) s.
Proof. intros El Ht. cbn. rewrite El, Ht. reflexivity. Qed.

Lemma fetch_same_tick `{HA : Handlers} s t l k fuel :
  next_timeout s = t :: l -> arrivals s = 0 :: k -> 0 < time t < 42949663 ->
  sys_timeouts_mbox_fetch (S fuel) s = Done tt (mkTimeouts (set_t 0 t :: l) (pool s) k (now s) (ran s) (waits s ++ [(now s, now s)])).
Proof.
  intros El Ek Ht. assert (0 < ms_to_ticks (time t)) as Hw by (unfold ms_to_ticks; zcases).
  assert (sys_arch_mbox_fetch (time t) s = Done 42949663 (set_clock k (now s) s)) as Ew.
  { unfold sys_arch_mbox_fetch. rewrite Ek, Z.add_0_r, elapsed_ms_same by apply u32_range.
    replace (0 <? ms_to_ticks (time t)) with true by lia. by rewrite orb_true_r. }
  cbn [sys_timeouts_mbox_fetch]. rewrite El. replace (0 <? time t) with true by lia. rewrite (bind_done _ _ _ _ _ Ew).
  cbn [Z.eqb SYS_ARCH_TIMEOUT Pos.eqb]. unfold modify. cbn [set_clock next_timeout]. rewrite El.
  by replace (42949663 <? time t) with false by lia.
Qed.

(** C40: A message that arrives in the tick in which
    the wait for it began makes the next timeout due: [_sys_arch_mbox_fetch]
    takes two equal tick counts for a clock that has wrapped, and returns 42949663
    milliseconds, so that the time of the first entry, whatever is left of
    it below twelve hours, becomes 0; the next wait calls its handler at
    once, before it looks at the mailbox. *)
Theorem same_tick_message_expires `{HA : Handlers} s t l k fuel fuel' :
  next_timeout s = t :: l -> arrivals s = 0 :: k -> 0 < time t < 42949663 ->
  (sys_timeouts_mbox_fetch (S fuel);; sys_timeouts_mbox_fetch (S fuel')) s =
  (run_timeout;; sys_timeouts_mbox_fetch fuel') (mkTimeouts (set_t 0 t :: l) (pool s) k (now s) (ran s) (waits s ++ [(now s, now s)])).
Proof.
  intros El Ek Ht. rewrite (bind_done _ _ _ _ _ (fetch_same_tick s t l k fuel El Ek Ht)). by eapply fetch_due.
Qed.

(** Two messages at once, and the timer of 500 milliseconds runs at time 0. *)
Example same_tick_message_expires_witness :
  exists s, (sys_timeouts_mbox_fetch (HA := lwip_handlers) 1;; sys_timeouts_mbox_fetch (HA := lwip_handlers) 9) (started [0; 0]) = Done tt s /\
    ran s = [(dhcp_timer_fine, 0, 0)].
Proof.
  eexists. split; [rewrite (same_tick_message_expires (HA := lwip_handlers) (started [0; 0]) (mkTimeo 500 dhcp_timer_fine 0) (tail (next_timeout (started []))) [0]);
    [reflexivity|reflexivity|reflexivity|cbn; lia]|reflexivity].
Defined.

