(* ===== verification/InetChksum.v ===== *)
(** The Internet checksum of lwIP (LwIP/src/core/ipv4/inet_chksum.c): the
    optimised sum over one buffer at any alignment, the sums over chains of
    buffers with and without a pseudo header, and RFC 1071's sum, which they
    all compute. *)
From S2P Require Import Prelude.
From stdpp Require Import list.
#[local] Open Scope Z_scope.

Definition FOLD_U32T (u : Z) : Z := u32 (Z.shiftr u 16 + Z.land u 65535).

Definition SWAP_BYTES_IN_WORD (w : Z) : Z := Z.lor (Z.shiftl (Z.land w 255) 8) (Z.shiftr (Z.land w 65280) 8).

Definition lwip_htons (n : Z) : Z := Z.lor (Z.shiftl (Z.land n 255) 8) (Z.shiftr (Z.land n 65280) 8).

(** A buffer: whether its address is odd, and its bytes. *)
Record seg := mkSeg { odd : bool; bytes : list Z }.

(** The bulk of the data, and what is left of it. *)
Fixpoint sum_words (sum : Z) (ps : list Z) : Z * list Z :=
  match ps with
  | a :: b :: ps => sum_words (u32 (sum + of_le16 [a; b])) ps
  | _ => (sum, ps)
  end.

Definition lwip_standard_chksum (q : seg) : Z :=
  let '(t, pb) := match bytes q with
                  | b :: pb => if odd q then (256 * b, pb) else (0, bytes q)
                  | [] => (0, [])
                  end in
  let '(sum, ps) := sum_words 0 pb in
  let t := match ps with b :: _ => Z.land t 65280 + b | [] => t end in
  let sum := u32 (sum + t) in
  let sum := FOLD_U32T sum in
  let sum := FOLD_U32T sum in
  let sum := if odd q then SWAP_BYTES_IN_WORD sum else sum in
  u16 sum.

(** [(u16_t)~x] *)
Definition not16 (x : Z) : Z := u16 (Z.lnot x).

Definition inet_chksum (q : seg) : Z := not16 (lwip_standard_chksum q).

(** One buffer of a chain. *)
Definition chain_step (q : seg) (st : Z * bool) : Z * bool :=
  let '(acc, swapped) := st in
  let acc := u32 (acc + lwip_standard_chksum q) in
  let acc := FOLD_U32T acc in
  if zlen (bytes q) mod 2 =? 0 then (acc, swapped) else (SWAP_BYTES_IN_WORD acc, negb swapped).

Fixpoint chain_loop (p : list seg) (st : Z * bool) : Z * bool :=
  match p with
  | [] => st
  | q :: p => chain_loop p (chain_step q st)
  end.

Definition unswap (st : Z * bool) : Z := if st.2 then SWAP_BYTES_IN_WORD st.1 else st.1.

Definition inet_chksum_pbuf (p : list seg) : Z := not16 (Z.land (unswap (chain_loop p (0, false))) 65535).

(** The pseudo header is added. *)
Definition add_pseudo (acc src dest proto proto_len : Z) : Z :=
  let acc := u32 (acc + Z.land src 65535) in
  let acc := u32 (acc + Z.land (Z.shiftr src 16) 65535) in
  let acc := u32 (acc + Z.land dest 65535) in
  let acc := u32 (acc + Z.land (Z.shiftr dest 16) 65535) in
  let acc := u32 (acc + lwip_htons proto) in
  let acc := u32 (acc + lwip_htons proto_len) in
  let acc := FOLD_U32T acc in
  let acc := FOLD_U32T acc in
  not16 (Z.land acc 65535).

Definition inet_chksum_pseudo (p : list seg) (src dest proto proto_len : Z) : Z :=
  add_pseudo (unswap (chain_loop p (0, false))) src dest proto proto_len.

(** The loop of [inet_chksum_pseudo_partial]: the last buffer may be summed in part. *)
Fixpoint partial_loop (p : list seg) (chksum_len : Z) (st : Z * bool) : Z * bool :=
  match p with
  | [] => st
  | q :: p =>
      if 0 <? chksum_len then
        let chklen := zlen (bytes q) in
        let chklen := if chksum_len <? chklen then chksum_len else chklen in
        let '(acc, swapped) := st in
        let acc := u32 (acc + lwip_standard_chksum (mkSeg (odd q) (ztake chklen (bytes q)))) in
        let chksum_len := u16 (chksum_len - chklen) in
        let acc := FOLD_U32T acc in
        partial_loop p chksum_len
          (if zlen (bytes q) mod 2 =? 0 then (acc, swapped) else (SWAP_BYTES_IN_WORD acc, negb swapped))
      else st
  end.

Definition inet_chksum_pseudo_partial (p : list seg) (src dest proto proto_len chksum_len : Z) : Z :=
  add_pseudo (unswap (partial_loop p chksum_len (0, false))) src dest proto proto_len.

(** * The reference

    RFC 1071: the one's complement sum of the 16-bit words of the data, an
    odd byte at the end padded with zero.  The words are those of a
    little-endian machine. *)

Definition ones_add (x y : Z) : Z := if 65535 <? x + y then x + y - 65535 else x + y.

Fixpoint rfc1071 (l : list Z) : Z :=
  match l with
  | [] => 0
  | [a] => a
  | a :: b :: l => ones_add (of_le16 [a; b]) (rfc1071 l)
  end.

(** * One's complement arithmetic

    Two numbers have the same one's complement sum when they are equal modulo
    65535 and both or none is 0. *)

Definition oc (x y : Z) : Prop := 0 <= x /\ 0 <= y /\ (x = 0 <-> y = 0) /\ exists k, x = y + 65535 * k.

Lemma oc_refl x : 0 <= x -> oc x x.
Proof. intros. repeat split; try done. exists 0. lia. Qed.

#[export] Instance oc_sym : Symmetric oc.
Proof. intros x y (? & ? & ? & k & ?). repeat split; try tauto. exists (- k). lia. Qed.

#[export] Instance oc_trans : Transitive oc.
Proof. intros x y z (? & ? & ? & k & ?) (? & ? & ? & k' & ?). repeat split; try tauto. exists (k + k'). lia. Qed.

#[export] Instance oc_add : Proper (oc ==> oc ==> oc) Z.add.
Proof. intros x y (? & ? & ? & k & ?) x' y' (? & ? & ? & k' & ?). repeat split; try lia. exists (k + k'). lia. Qed.

#[export] Instance oc_mul n : Proper (oc ==> oc) (Z.mul (Zpos n)).
Proof. intros x y (? & ? & ? & k & ?). repeat split; try lia. exists (Zpos n * k). lia. Qed.

(** 256 squared is 1. *)
Lemma oc_65536 x : 0 <= x -> oc (65536 * x) x.
Proof. intros. repeat split; try lia. exists x. lia. Qed.

(** A word is determined by its class. *)
Lemma oc_word x y : oc x y -> x <= 65535 -> y <= 65535 -> x = y.
Proof. intros (? & ? & ? & k & ?) ? ?. assert (k = 0 \/ k <= -1 \/ 1 <= k) as [|[|]] by lia; lia. Qed.

Lemma fold_value u : is_u32 u -> FOLD_U32T u = u / 65536 + u mod 65536.
Proof.
  intros Hu. unfold FOLD_U32T. rewrite Z.shiftr_div_pow2 by lia. change 65535 with (Z.ones 16). rewrite Z.land_ones by lia.
  change (2 ^ 16) with 65536. apply u32_small. word_lia.
Qed.

Lemma fold_oc u : is_u32 u -> oc (FOLD_U32T u) u.
Proof.
  intros Hu. rewrite fold_value by done. repeat split; try word_lia. exists (- (u / 65536)). word_lia.
Qed.

Lemma swap_value w : is_u16 w -> SWAP_BYTES_IN_WORD w = 256 * (w mod 256) + w / 256.
Proof.
  intros Hw. unfold SWAP_BYTES_IN_WORD. rewrite land_255.
  assert (Z.shiftr (Z.land w 65280) 8 = w / 256) as ->.
  { rewrite Z.shiftr_land. change (Z.shiftr 65280 8) with (Z.ones 8). rewrite Z.land_ones, Z.shiftr_div_pow2 by lia. apply Z.mod_small. word_lia. }
  rewrite lor_shiftl_add by word_lia. lia.
Qed.

Lemma swap_range w : is_u16 w -> is_u16 (SWAP_BYTES_IN_WORD w).
Proof. intros. rewrite swap_value by done. word_lia. Qed.

Lemma swap_oc w : is_u16 w -> oc (SWAP_BYTES_IN_WORD w) (256 * w).
Proof. intros. rewrite swap_value by done. repeat split; try word_lia. exists (- (w / 256)). word_lia. Qed.

Lemma not16_value x : is_u16 x -> not16 x = 65535 - x.
Proof. intros. unfold not16, Z.lnot. word_lia. Qed.

(** * The number of a string of bytes *)

Fixpoint number (l : list Z) : Z := match l with [] => 0 | b :: l => b + 256 * number l end.

(** Modulo 65535 its place only matters by its parity. *)
Definition weight {A} (l : list A) : Z := if zlen l mod 2 =? 0 then 1 else 256.

Lemma number_nonneg l : Bytes l -> 0 <= number l.
Proof. induction 1; cbn; word_lia. Qed.

Lemma rfc1071_range l : Bytes l -> 0 <= rfc1071 l <= 65535.
Proof.
  induction l as [l IH] using (induction_ltof1 _ (@length Z)). intros Hl. destruct Hl as [|a l Ha Hl]; [cbn; lia|].
  destruct Hl as [|b l Hb Hl]; [cbn; word_lia|]. specialize (IH l ltac:(unfold ltof; cbn; lia) Hl). cbn [rfc1071 of_le16]. unfold ones_add.
  zcases; word_lia.
Qed.

Lemma rfc1071_number l : Bytes l -> oc (rfc1071 l) (number l).
Proof.
  induction l as [l IH] using (induction_ltof1 _ (@length Z)). intros Hl. destruct Hl as [|a l Ha Hl]; [by apply oc_refl|].
  destruct Hl as [|b l Hb Hl]; [cbn; rewrite Z.add_0_r; apply oc_refl; word_lia|]. specialize (IH l ltac:(unfold ltof; cbn; lia) Hl).
  pose proof (rfc1071_range l Hl). pose proof (number_nonneg l Hl). cbn [rfc1071 number of_le16].
  transitivity (a + 256 * b + rfc1071 l).
  { unfold ones_add. zcases; [|apply oc_refl; word_lia]. repeat split; try word_lia. exists (-1). lia. }
  transitivity (a + 256 * b + number l); [apply oc_add; [apply oc_refl; word_lia|done]|].
  replace (a + 256 * (b + 256 * number l)) with (a + 256 * b + 65536 * number l) by lia.
  apply oc_add; [apply oc_refl; word_lia|]. symmetry. by apply oc_65536.
Qed.

Lemma number_app l k : number (l ++ k) = number l + 256 ^ zlen l * number k.
Proof.
  induction l as [|b l IH]; [rewrite (@zlen_nil Z), Z.pow_0_r; cbn [app number]; lia|]. cbn [app number]. rewrite IH, zlen_cons, Z.pow_add_r by zlen_lia. change (256 ^ 1) with 256. lia.
Qed.

Lemma weight_cons {A} (x : A) l : weight (x :: l) = if zlen l mod 2 =? 0 then 256 else 1.
Proof. unfold weight. rewrite zlen_cons. pose proof (zlen_nonneg l). zcases; word_lia. Qed.

Lemma oc_weight {A} (l : list A) x : 0 <= x -> oc (256 ^ zlen l * x) (weight l * x).
Proof.
  intros Hx. induction l as [|y l IH]; [change (oc (1 * x) (1 * x)); apply oc_refl; lia|]. rewrite weight_cons, zlen_cons, Z.pow_add_r by zlen_lia.
  change (256 ^ 1) with 256. rewrite <- Z.mul_assoc. transitivity (256 * (weight l * x)); [by apply oc_mul|].
  unfold weight. destruct (zlen l mod 2 =? 0); [rewrite Z.mul_1_l; apply oc_refl; lia|].
  replace (256 * (256 * x)) with (65536 * x) by lia. rewrite Z.mul_1_l. by apply oc_65536.
Qed.

Lemma oc_number_app l k : Bytes l -> Bytes k -> oc (number (l ++ k)) (number l + weight l * number k).
Proof.
  intros Hl Hk. rewrite number_app. apply oc_add; [apply oc_refl|apply oc_weight]; by apply number_nonneg.
Qed.

(** * One buffer *)

Lemma sum_words_spec sum l :
  Bytes l -> 0 <= sum -> sum + 65535 * (zlen l / 2) < 4294967296 ->
  exists sum' r, sum_words sum l = (sum', r) /\ Bytes r /\ zlen r = zlen l mod 2 /\
    oc (sum' + number r) (sum + number l) /\ 0 <= sum' <= sum + 65535 * (zlen l / 2).
Proof.
  revert sum. induction l as [l IH] using (induction_ltof1 _ (@length Z)). intros sum Hl Hs Hb.
  destruct Hl as [|a l Ha Hl].
  { exists sum, []. split; [done|]. split; [constructor|]. split; [done|]. split; [apply oc_refl; cbn; lia|]. change (zlen _ / 2) with 0. lia. }
  destruct Hl as [|b l Hb' Hl].
  { exists sum, [a]. split; [done|]. split; [constructor; [done|constructor]|]. split; [done|]. split; [apply oc_refl; cbn; word_lia|]. change (zlen _ / 2) with 0. lia. }
  assert (zlen (a :: b :: l) / 2 = 1 + zlen l / 2 /\ zlen (a :: b :: l) mod 2 = zlen l mod 2) as [E1 E2] by (rewrite !zlen_cons; word_lia).
  pose proof (zlen_nonneg l). pose proof (Z.div_pos (zlen l) 2). pose proof (number_nonneg l Hl).
  rewrite E1 in Hb |- *. rewrite E2. cbn [sum_words of_le16]. rewrite u32_small by word_lia.
  destruct (IH l ltac:(unfold ltof; cbn; lia) (sum + (a + 256 * b)) Hl) as (sum' & r & E & Hr & Hz & Hoc & Hle); [word_lia..|].
  exists sum', r. rewrite E. do 3 (split; [done|]). split; [|word_lia]. rewrite Hoc. cbn [number].
  replace (sum + (a + 256 * (b + 256 * number l))) with (sum + (a + 256 * b) + 65536 * number l) by lia.
  apply oc_add; [apply oc_refl; word_lia|]. symmetry. by apply oc_65536.
Qed.

Lemma fold_twice u : 0 <= u < 4294967296 -> oc (FOLD_U32T (FOLD_U32T u)) u /\ is_u16 (FOLD_U32T (FOLD_U32T u)).
Proof.
  intros Hu. assert (is_u32 (FOLD_U32T u)) as Hf by (rewrite fold_value by done; word_lia). split.
  - transitivity (FOLD_U32T u); by apply fold_oc.
  - rewrite fold_value by done. rewrite fold_value by done. word_lia.
Qed.


Lemma land_65280 x : is_u8 x -> Z.land (256 * x) 65280 = 256 * x.
Proof. intros H. apply Z.eqb_eq, (u8_forall (fun x => Z.land (256 * x) 65280 =? 256 * x)); [by vm_compute|done]. Qed.

(** [pb] after the odd byte, if any, which is in [t]. *)
Lemma chksum_body t pb b0 :
  Bytes pb -> zlen pb <= 131072 -> is_u8 b0 -> t = 256 * b0 ->
  exists sum ps, sum_words 0 pb = (sum, ps) /\
    let t := match ps with b :: _ => Z.land t 65280 + b | [] => t end in
    let f := FOLD_U32T (FOLD_U32T (u32 (sum + t))) in
    oc f (256 * b0 + number pb) /\ is_u16 f.
Proof.
  intros Hb Hlen Hb0 ->. assert (zlen pb / 2 <= 65536) as Hd by (apply Z.div_le_upper_bound; lia).
  pose proof (zlen_nonneg pb). pose proof (Z.div_pos (zlen pb) 2).
  destruct (sum_words_spec 0 pb Hb) as (sum & ps & E & Hps & Hz & Hoc & Hle); [lia..|]. exists sum, ps. split; [done|].
  assert (exists v, match ps with b :: _ => Z.land (256 * b0) 65280 + b | [] => 256 * b0 end = 256 * b0 + v /\ v = number ps /\ is_u8 v)
    as (v & -> & Hv & Hu).
  { destruct Hps as [|b ps Hbb Hps]; [exists 0; cbn; split; [lia|split; [done|word_lia]]|]. exists b. rewrite land_65280 by done. split; [done|].
    destruct ps; [|exfalso; rewrite !zlen_cons in Hz; pose proof (zlen_nonneg ps); word_lia]. split; [cbn; lia|done]. }
  cbv zeta. rewrite (u32_small (sum + _)) by word_lia.
  destruct (fold_twice (sum + (256 * b0 + v))) as [Hf Hr]; [word_lia|]. split; [|done]. rewrite Hf.
  replace (sum + (256 * b0 + v)) with (256 * b0 + (sum + number ps)) by lia. apply oc_add; [apply oc_refl; word_lia|done].
Qed.

Lemma lwip_standard_chksum_spec q :
  Bytes (bytes q) -> zlen (bytes q) <= 131072 ->
  oc (lwip_standard_chksum q) (number (bytes q)) /\ is_u16 (lwip_standard_chksum q).
Proof.
  destruct q as [o l]. cbn [bytes]. intros Hl Hlen. unfold lwip_standard_chksum. cbn [bytes odd].
  destruct Hl as [|b l Hb Hl].
  { destruct o; cbn; (split; [apply oc_refl; lia|word_lia]). }
  destruct o.
  - rewrite zlen_cons in Hlen. destruct (chksum_body (256 * b) l b Hl) as (sum & ps & E & Hoc & Hr); [lia|done|done|].
    rewrite E. set (f := FOLD_U32T _) in *. pose proof (swap_range f Hr). rewrite u16_small by done. split; [|done].
    rewrite (swap_oc f Hr), Hoc. cbn [number]. pose proof (number_nonneg l Hl).
    replace (256 * (256 * b + number l)) with (65536 * b + 256 * number l) by lia.
    apply oc_add; [apply oc_65536; word_lia|apply oc_refl; lia].
  - destruct (chksum_body 0 (b :: l) 0) as (sum & ps & E & Hoc & Hr); [by constructor|done|word_lia|done|].
    rewrite E. set (f := FOLD_U32T _) in *. rewrite u16_small by done. by split.
Qed.

(** * Chains *)

Definition good_seg (q : seg) : Prop := Bytes (bytes q) /\ zlen (bytes q) <= 131072.

#[export] Instance good_seg_dec q : Decision (good_seg q).
Proof. unfold good_seg. apply _. Defined.

Definition data (p : list seg) : list Z := concat (bytes <$> p).

(** After the bytes [l] the sum is that of [l], swapped when their number is odd. *)
Definition summed (l : list Z) (st : Z * bool) : Prop :=
  is_u16 st.1 /\ st.2 = negb (zlen l mod 2 =? 0) /\ oc st.1 (weight l * number l).

Lemma weight_pos {A} (l : list A) : weight l = 1 \/ weight l = 256.
Proof. unfold weight. case_match; auto. Qed.

Lemma oc_weight_weight {A} (l : list A) x : 0 <= x -> oc (weight l * (weight l * x)) x.
Proof.
  intros. destruct (weight_pos l) as [-> | ->]; [rewrite !Z.mul_1_l; by apply oc_refl|].
  replace (256 * (256 * x)) with (65536 * x) by lia. by apply oc_65536.
Qed.

Lemma oc_weight_mul {A} (l : list A) x y : oc x y -> oc (weight l * x) (weight l * y).
Proof. intros. destruct (weight_pos l) as [-> | ->]; by apply oc_mul. Qed.

(** The sum of the buffer [k], added behind the bytes [l]. *)
Lemma summed_add l k acc c :
  Bytes l -> Bytes k -> is_u16 acc -> oc acc (weight l * number l) -> is_u16 c -> oc c (number k) ->
  let f := FOLD_U32T (u32 (acc + c)) in is_u16 f /\ oc f (weight l * number (l ++ k)).
Proof.
  intros Hl Hk Ha Hacc Hc Hoc f. subst f. rewrite (u32_small (acc + c)) by word_lia. split; [rewrite fold_value by word_lia; word_lia|].
  rewrite fold_oc by word_lia. transitivity (weight l * number l + number k); [by apply oc_add|].
  transitivity (weight l * (number l + weight l * number k)); [|apply oc_weight_mul; symmetry; by apply oc_number_app].
  rewrite Z.mul_add_distr_l. pose proof (number_nonneg l Hl). pose proof (number_nonneg k Hk).
  apply oc_add; [apply oc_refl; destruct (weight_pos l); nia|]. symmetry. by apply oc_weight_weight.
Qed.

(** Swapping after an odd number of bytes. *)
Lemma summed_swap l k f :
  Bytes (l ++ k) -> is_u16 f -> oc f (weight l * number (l ++ k)) ->
  summed (l ++ k) (if zlen k mod 2 =? 0 then (f, negb (zlen l mod 2 =? 0)) else (SWAP_BYTES_IN_WORD f, negb (negb (zlen l mod 2 =? 0)))).
Proof.
  intros Hb Hf Hoc. pose proof (number_nonneg _ Hb). unfold summed, weight in *. rewrite zlen_app.
  pose proof (Z.mod_pos_bound (zlen l) 2). pose proof (Z.mod_pos_bound (zlen k) 2).
  rewrite Z.add_mod by lia. pose proof (swap_range f Hf).
  destruct (Z.eqb_spec (zlen k mod 2) 0) as [->|]; cbn [fst snd].
  - rewrite Z.add_0_r, Z.mod_mod by lia. done.
  - replace (zlen k mod 2) with 1 by lia. destruct (Z.eqb_spec (zlen l mod 2) 0) as [->|].
    + split; [done|]. split; [done|]. cbn. rewrite swap_oc by done. apply oc_mul. by rewrite Z.mul_1_l in Hoc.
    + replace (zlen l mod 2) with 1 by lia. split; [done|]. split; [done|]. cbn. rewrite swap_oc by done. rewrite Hoc.
      replace (256 * (256 * number (l ++ k))) with (65536 * number (l ++ k)) by lia. rewrite Z.mul_1_l. by apply oc_65536.
Qed.

Lemma chain_step_spec l q st : Bytes l -> good_seg q -> summed l st -> summed (l ++ bytes q) (chain_step q st).
Proof.
  intros Hl [Hb Hlen] (Ha & Hsw & Hoc). destruct st as [acc swapped]. cbn in *. subst swapped.
  destruct (lwip_standard_chksum_spec q Hb Hlen) as [Hc Hr].
  destruct (summed_add l (bytes q) acc _ Hl Hb Ha Hoc Hr Hc) as [Hf Hoc']. apply summed_swap; [by apply Forall_app|done|done].
Qed.

Lemma chain_loop_spec p l st : Bytes l -> Forall good_seg p -> summed l st -> summed (l ++ data p) (chain_loop p st).
Proof.
  intros Hl Hp. revert l st Hl. induction Hp as [|q p Hq _ IH]; intros l st Hl Hst.
  - unfold data. cbn. by rewrite app_nil_r.
  - unfold data in *. cbn. rewrite app_assoc. apply IH; [by apply Forall_app; split; [|apply Hq]|]. by apply chain_step_spec.
Qed.

Lemma unswap_spec l st : Bytes l -> summed l st -> is_u16 (unswap st) /\ oc (unswap st) (number l).
Proof.
  intros Hl (Hr & Hsw & Hoc). pose proof (number_nonneg l Hl). unfold unswap. rewrite Hsw. unfold weight in Hoc.
  destruct (zlen l mod 2 =? 0); cbn [negb].
  - split; [done|]. by rewrite Z.mul_1_l in Hoc.
  - split; [by apply swap_range|]. rewrite swap_oc by done. rewrite Hoc.
    replace (256 * (256 * number l)) with (65536 * number l) by lia. by apply oc_65536.
Qed.

Lemma summed_nil : summed [] (0, false).
Proof. split; [by cbn; word_lia|]. split; [done|]. by apply oc_refl. Qed.

Lemma chain_sum p : Forall good_seg p ->
  is_u16 (unswap (chain_loop p (0, false))) /\ oc (unswap (chain_loop p (0, false))) (number (data p)).
Proof.
  intros Hp. apply unswap_spec; [|apply (chain_loop_spec p [] (0, false)); [constructor|done|apply summed_nil]].
  unfold data. induction Hp as [|q p Hq _ IH]; [constructor|]. cbn. apply Forall_app. split; [apply Hq|done].
Qed.

Lemma data_bytes p : Forall good_seg p -> Bytes (data p).
Proof. unfold data. induction 1 as [|q p Hq _ IH]; [constructor|]. cbn. apply Forall_app. split; [apply Hq|done]. Qed.

Lemma land_65535 x : is_u16 x -> Z.land x 65535 = x.
Proof. intros. change 65535 with (Z.ones 16). rewrite Z.land_ones by lia. apply Z.mod_small. word_lia. Qed.

(** A word with the class of the number of some bytes is their sum. *)
Lemma oc_rfc1071 x l : Bytes l -> is_u16 x -> oc x (number l) -> x = rfc1071 l.
Proof.
  intros Hl Hx Hoc. pose proof (rfc1071_range l Hl). apply oc_word; [|word_lia|lia]. rewrite Hoc. symmetry. by apply rfc1071_number.
Qed.

(** The checksum over a chain of buffers is the complement of RFC 1071's
    sum over their bytes, however they are cut into buffers and whether the
    buffers begin at odd or even addresses. *)
Theorem inet_chksum_pbuf_correct p : Forall good_seg p -> inet_chksum_pbuf p = 65535 - rfc1071 (data p).
Proof.
  intros Hp. destruct (chain_sum p Hp) as [Hr Hoc]. unfold inet_chksum_pbuf. rewrite land_65535, not16_value by done.
  f_equal. apply oc_rfc1071; [by apply data_bytes|done|done].
Qed.

Theorem inet_chksum_correct q : good_seg q -> inet_chksum q = 65535 - rfc1071 (bytes q).
Proof.
  intros [Hb Hlen]. destruct (lwip_standard_chksum_spec q Hb Hlen) as [Hoc Hr]. unfold inet_chksum. rewrite not16_value by done.
  f_equal. by apply oc_rfc1071.
Qed.

(** The pseudo header of TCP and UDP; addresses are in network order in memory. *)
Definition pseudo (src dest proto proto_len : Z) : list Z := le32 src ++ le32 dest ++ [0; proto] ++ be16 proto_len.

Lemma lwip_htons_value n : is_u16 n -> lwip_htons n = of_le16 (be16 n).
Proof. intros. change (lwip_htons n) with (SWAP_BYTES_IN_WORD n). rewrite swap_value by done. cbn. lia. Qed.

Lemma land_shift x : is_u32 x -> Z.land x 65535 = x mod 65536 /\ Z.land (Z.shiftr x 16) 65535 = x / 65536.
Proof.
  intros Hx. change 65535 with (Z.ones 16). rewrite !Z.land_ones, Z.shiftr_div_pow2 by lia. change (2 ^ 16) with 65536.
  split; [done|]. apply Z.mod_small. word_lia.
Qed.

Lemma number_le32 x : is_u32 x -> number (le32 x) = x.
Proof. intros Hx. rewrite <- (of_le32_le32 x Hx) at 2. unfold le32, of_le32, number. lia. Qed.

Lemma number_be16 n : is_u16 n -> number (be16 n) = lwip_htons n.
Proof. intros Hn. rewrite lwip_htons_value by done. unfold be16, of_le16, number. lia. Qed.

Lemma two_bytes a b : is_u8 a -> is_u8 b -> Bytes [a; b].
Proof. intros. constructor; [done|]. constructor; [done|constructor]. Qed.

Lemma two_bytes_app l k : Bytes l -> Bytes k -> Bytes (l ++ k).
Proof. intros. by apply Forall_app. Qed.

Lemma pseudo_bytes src dest proto proto_len : is_u8 proto -> is_u16 proto_len -> Bytes (pseudo src dest proto proto_len).
Proof.
  intros. repeat apply two_bytes_app; auto with nl. by apply two_bytes.
Qed.

Lemma pseudo_number src dest proto proto_len l :
  is_u32 src -> is_u32 dest -> is_u8 proto -> is_u16 proto_len -> Bytes l ->
  oc (number (pseudo src dest proto proto_len ++ l)) (src + (dest + (lwip_htons proto + (lwip_htons proto_len + number l)))).
Proof.
  intros Hs Hd Hp Hn Hl. unfold pseudo. rewrite <- !app_assoc. pose proof (number_nonneg l Hl).
  assert (forall k x m, Bytes k -> Bytes m -> weight k = 1 -> oc (number m) x -> oc (number (k ++ m)) (number k + x)) as Happ.
  { intros k x m Hk Hm Hw Hx. rewrite oc_number_app by done. rewrite Hw, Z.mul_1_l. apply oc_add; [by apply oc_refl, number_nonneg|done]. }
  assert (is_u16 proto) by word_lia.
  assert (number [0; proto] = lwip_htons proto) as E by (rewrite lwip_htons_value by done; cbn; word_lia).
  assert (Bytes [0; proto]) by (by apply two_bytes).
  rewrite <- (number_be16 proto_len), <- E by done.
  transitivity (number (le32 src) + (number (le32 dest) + (number [0; proto] + (number (be16 proto_len) + number l)))).
  - repeat (apply Happ; [by auto with nl|repeat apply two_bytes_app; by auto with nl|done|]). by apply oc_refl.
  - rewrite !number_le32 by done. apply oc_refl. pose proof (number_nonneg (be16 proto_len) (be16_bytes _ Hn)).
    pose proof (number_nonneg [0; proto] ltac:(done)). unfold is_u32 in *. lia.
Qed.

(** The pseudo header and the sum of the data. *)
Lemma add_pseudo_correct acc l src dest proto proto_len :
  is_u16 acc -> oc acc (number l) -> Bytes l -> is_u32 src -> is_u32 dest -> is_u8 proto -> is_u16 proto_len ->
  add_pseudo acc src dest proto proto_len = 65535 - rfc1071 (pseudo src dest proto proto_len ++ l).
Proof.
  intros Ha Hoc Hl Hs Hd Hp Hn. unfold add_pseudo.
  destruct (land_shift src Hs) as [-> ->]. destruct (land_shift dest Hd) as [-> ->].
  assert (is_u16 proto) as Hp' by word_lia.
  pose proof (swap_range proto Hp') as Hpr. pose proof (swap_range proto_len Hn) as Hnr.
  change (SWAP_BYTES_IN_WORD proto) with (lwip_htons proto) in Hpr. change (SWAP_BYTES_IN_WORD proto_len) with (lwip_htons proto_len) in Hnr.
  assert (is_u16 (src / 65536) /\ is_u16 (src mod 65536) /\ is_u16 (dest / 65536) /\ is_u16 (dest mod 65536)) as (? & ? & ? & ?) by word_lia.
  repeat match goal with
  | |- context [u32 ?x] => lazymatch x with context [u32 _] => fail | _ => rewrite (u32_small x) by (unfold is_u16, is_u32 in *; lia) end
  end.
  destruct (fold_twice (acc + src mod 65536 + src / 65536 + dest mod 65536 + dest / 65536 + lwip_htons proto + lwip_htons proto_len)) as [Hf Hr];
    [unfold is_u16 in *; lia|].
  rewrite land_65535, not16_value by done. f_equal.
  apply oc_rfc1071; [apply Forall_app; split; [by apply pseudo_bytes|done]|done|].
  rewrite Hf, pseudo_number by done.
  replace (acc + src mod 65536 + src / 65536 + dest mod 65536 + dest / 65536 + lwip_htons proto + lwip_htons proto_len)
    with (src / 65536 + src mod 65536 + (dest / 65536 + dest mod 65536 + (lwip_htons proto + (lwip_htons proto_len + acc)))) by lia.
  rewrite <- !fold_value by done.
  apply oc_add; [by apply fold_oc|]. apply oc_add; [by apply fold_oc|]. unfold is_u16 in *.
  apply oc_add; [apply oc_refl; lia|]. apply oc_add; [apply oc_refl; lia|done].
Qed.

(** C16: The checksum of TCP and UDP is the complement of RFC 1071's sum over
    the pseudo header and the data, however the data is cut into buffers and
    aligned. *)
Theorem inet_chksum_pseudo_correct p src dest proto proto_len :
  Forall good_seg p -> is_u32 src -> is_u32 dest -> is_u8 proto -> is_u16 proto_len ->
  inet_chksum_pseudo p src dest proto proto_len = 65535 - rfc1071 (pseudo src dest proto proto_len ++ data p).
Proof.
  intros Hp ????. destruct (chain_sum p Hp) as [Hr Hoc]. apply add_pseudo_correct; try done. by apply data_bytes.
Qed.

Example inet_chksum_pseudo_correct_witness :
  inet_chksum_pseudo [mkSeg true [1; 2; 3]; mkSeg false []; mkSeg false [255; 254]] 16885952 33663168 17 5
  = 65535 - rfc1071 (pseudo 16885952 33663168 17 5 ++ [1; 2; 3; 255; 254]).
Proof.
  apply (inet_chksum_pseudo_correct [mkSeg true [1; 2; 3]; mkSeg false []; mkSeg false [255; 254]]); by_decide || word_lia.
Defined.

(** * Sender and receiver *)

(** Filling a field of two zero bytes at an even place. *)
Lemma number_fill a c b :
  Bytes a -> Bytes b -> is_u16 c -> weight a = 1 -> oc (number (a ++ le16 c ++ b)) (number (a ++ [0; 0] ++ b) + c).
Proof.
  intros Ha Hb Hc Hw. rewrite !(number_app a). cbn [number app le16]. pose proof (number_nonneg a Ha). pose proof (number_nonneg b Hb).
  assert (c mod 256 + 256 * (c / 256 mod 256 + 256 * number b) = c + 65536 * number b) as -> by word_lia.
  assert (0 < 256 ^ zlen a) by (apply Z.pow_pos_nonneg; [lia|apply zlen_nonneg]).
  replace (number a + 256 ^ zlen a * (c + 65536 * number b)) with (number a + 256 ^ zlen a * (0 + 256 * (0 + 256 * number b)) + 256 ^ zlen a * c) by lia.
  apply oc_add; [apply oc_refl; nia|]. pose proof (oc_weight a c) as H'. rewrite Hw, Z.mul_1_l in H'. apply H'. word_lia.
Qed.

Lemma rfc1071_fill a b :
  Bytes a -> Bytes b -> weight a = 1 -> rfc1071 (a ++ le16 (65535 - rfc1071 (a ++ [0; 0] ++ b)) ++ b) = 65535.
Proof.
  intros Ha Hb Hw. set (l := a ++ [0; 0] ++ b).
  assert (Bytes l) as Hl by (repeat apply two_bytes_app; [done|by apply two_bytes|done]).
  pose proof (rfc1071_range l Hl) as Hr. set (c := 65535 - rfc1071 l).
  assert (Bytes (a ++ le16 c ++ b)) as Hb' by (repeat apply two_bytes_app; auto with nl).
  pose proof (rfc1071_range _ Hb'). apply oc_word; [|lia|lia]. rewrite rfc1071_number by done.
  rewrite number_fill by (done || word_lia). fold l. assert (rfc1071 l + c = 65535) as <- by lia.
  apply oc_add; [symmetry; by apply rfc1071_number|apply oc_refl; lia].
Qed.

(** What the sender puts in, the receiver accepts: when the checksum field,
    at an even place of the data, holds the checksum that
    [inet_chksum_pseudo] returned for the data with the field zero, then
    [inet_chksum_pseudo] returns 0, however each side cuts the data into
    buffers and aligns them. *)
Theorem chksum_accepted p p' src dest proto proto_len a b :
  Forall good_seg p -> Forall good_seg p' -> is_u32 src -> is_u32 dest -> is_u8 proto -> is_u16 proto_len ->
  zlen a mod 2 = 0 -> data p = a ++ [0; 0] ++ b ->
  data p' = a ++ le16 (inet_chksum_pseudo p src dest proto proto_len) ++ b ->
  inet_chksum_pseudo p' src dest proto proto_len = 0.
Proof.
  intros Hp Hp' ? ? ? ? Hz E E'. pose proof (data_bytes p Hp) as Hd. rewrite E in Hd.
  apply Forall_app in Hd as [Ha [_ Hb]%Forall_app].
  rewrite inet_chksum_pseudo_correct in * by done. rewrite E', E. rewrite !app_assoc. rewrite <- (app_assoc _ [0; 0]), <- (app_assoc _ (le16 _)).
  rewrite rfc1071_fill; [done| |done|].
  - apply Forall_app. split; [by apply pseudo_bytes|done].
  - unfold weight. rewrite zlen_app, Z.add_mod, Hz by lia. done.
Qed.

(** A segment of eleven bytes whose field is at offset 6, cut differently. *)
Example chksum_accepted_witness :
  let a := [1; 2; 3; 4; 5; 6] in let b := [7; 8; 9] in
  let p := [mkSeg false a; mkSeg true [0]; mkSeg false (0 :: b)] in
  let c := inet_chksum_pseudo p 16885952 33663168 6 11 in
  inet_chksum_pseudo [mkSeg true (a ++ le16 c ++ b)] 16885952 33663168 6 11 = 0.
Proof.
  cbv zeta. apply (chksum_accepted [mkSeg false [1; 2; 3; 4; 5; 6]; mkSeg true [0]; mkSeg false [0; 7; 8; 9]] _ 16885952 33663168 6 11
    [1; 2; 3; 4; 5; 6] [7; 8; 9]); reflexivity || word_lia || (vm_compute; reflexivity) || by_decide.
Defined.

(** * A part of a chain *)

Lemma unswap_swap f sw : is_u16 f -> unswap (SWAP_BYTES_IN_WORD f, negb sw) = unswap (f, sw).
Proof.
  intros Hf. destruct sw; [done|]. unfold unswap. cbn. pose proof (swap_range f Hf). rewrite !swap_value by (done || rewrite swap_value in *; done).
  word_lia.
Qed.

Lemma partial_loop_stop p n st : n <= 0 -> partial_loop p n st = st.
Proof. intros. destruct p; [done|]. cbn. by destruct (Z.ltb_spec 0 n); [lia|]. Qed.

Lemma partial_loop_spec p l n st :
  Bytes l -> Forall good_seg p -> summed l st -> 0 <= n <= 65535 ->
  is_u16 (unswap (partial_loop p n st)) /\ oc (unswap (partial_loop p n st)) (number (l ++ ztake n (data p))).
Proof.
  intros Hl Hp. revert l n st Hl. induction Hp as [|q p [Hb Hlen] _ IH]; intros l n st Hl Hst Hn.
  { unfold data. cbn. unfold ztake. rewrite take_nil, app_nil_r. by apply unswap_spec. }
  destruct (Z.ltb_spec 0 n) as [Hpos|].
  2: { rewrite partial_loop_stop, ztake_neg, app_nil_r by lia. by apply unswap_spec. }
  destruct st as [acc sw], Hst as (Ha & Hsw & Hoc). cbn in Ha, Hsw, Hoc. subst sw. cbn [partial_loop]. rewrite (proj2 (Z.ltb_lt 0 n)) by done.
  unfold data in *. cbn [fmap list_fmap concat].
  set (k := ztake (if n <? zlen (bytes q) then n else zlen (bytes q)) (bytes q)).
  assert (Bytes k) as Hk by (by apply Forall_ztake). assert (zlen k <= 131072) as Hkl by (unfold k; zlen_lia).
  destruct (lwip_standard_chksum_spec (mkSeg (odd q) k) Hk Hkl) as [Hc Hr]. cbn [bytes] in Hc.
  destruct (summed_add l k acc _ Hl Hk Ha Hoc Hr Hc) as [Hf Hoc'].
  pose proof (summed_swap l k _ (two_bytes_app _ _ Hl Hk) Hf Hoc') as Hst'. pose proof (zlen_nonneg (bytes q)).
  destruct (Z.ltb_spec n (zlen (bytes q))).
  - rewrite Z.sub_diag, ztake_app_l by lia. change (u16 0) with 0. rewrite partial_loop_stop by lia.
    apply unswap_spec in Hst'; [|by apply two_bytes_app]. clear - Hst' Hf. revert Hst'. set (f := FOLD_U32T _) in *. set (s := negb _).
    assert (forall b : bool, unswap (if b then (f, s) else (SWAP_BYTES_IN_WORD f, negb s)) = unswap (f, s)) as E by (intros []; [done|by apply unswap_swap]).
    rewrite !E. done.
  - assert (k = bytes q) as Ek by (apply ztake_all; lia). rewrite Ek in *. rewrite ztake_app_r, app_assoc by lia.
    rewrite u16_small by word_lia. apply IH; [by apply two_bytes_app|done|lia].
Qed.

Theorem inet_chksum_pseudo_partial_correct p src dest proto proto_len chksum_len :
  Forall good_seg p -> is_u32 src -> is_u32 dest -> is_u8 proto -> is_u16 proto_len -> is_u16 chksum_len ->
  inet_chksum_pseudo_partial p src dest proto proto_len chksum_len
  = 65535 - rfc1071 (pseudo src dest proto proto_len ++ ztake chksum_len (data p)).
Proof.
  intros Hp ? ? ? ? Hn. destruct (partial_loop_spec p [] chksum_len (0, false)) as [Hr Hoc]; [constructor|done|apply summed_nil|word_lia|].
  apply add_pseudo_correct; try done. by apply Forall_ztake, data_bytes.
Qed.
