(* ===== verification/Pbuf.v ===== *)
(** The packet buffers of lwIP (LwIP/src/core/pbuf.c).

    The buffers in use are a map from their addresses ([Pbufs]); 0 is the null
    pointer.  What lies behind a buffer's structure, or where [payload]
    points for the types without memory of their own, is [room]; the
    payload pointer is an offset into it.  The pools and lwIP's heap are the
    interface [PbufMemory]: [grant] is the next block of a pool or of the heap for
    a state, or none; freeing a buffer takes it from the map, so any use of it
    afterwards is a crash.  Custom buffers ([pbuf_alloced_custom]) are left out.
    Assertions are compiled out ([LWIP_NOASSERT]). *)
From S2P Require Import Prelude.
From stdpp Require Import list gmap.
#[local] Open Scope Z_scope.

Record pbuf := mkPbuf {
  next : Z;
  payload : Z;
  tot_len : Z;
  len : Z;
  type : Z;
  flags : Z;
  ref : Z;
  room : list Z
}.

#[export] Instance pbuf_eq_dec : EqDecision pbuf.
Proof. solve_decision. Defined.

Notation "'Pbufs'" := (gmap Z pbuf).

Definition set_next (v : Z) (b : pbuf) : pbuf := mkPbuf v (payload b) (tot_len b) (len b) (type b) (flags b) (ref b) (room b).
Definition set_payload (v : Z) (b : pbuf) : pbuf := mkPbuf (next b) v (tot_len b) (len b) (type b) (flags b) (ref b) (room b).
Definition set_tot_len (v : Z) (b : pbuf) : pbuf := mkPbuf (next b) (payload b) v (len b) (type b) (flags b) (ref b) (room b).
Definition set_len (v : Z) (b : pbuf) : pbuf := mkPbuf (next b) (payload b) (tot_len b) v (type b) (flags b) (ref b) (room b).
Definition set_ref (v : Z) (b : pbuf) : pbuf := mkPbuf (next b) (payload b) (tot_len b) (len b) (type b) (flags b) v (room b).
Definition set_room (v : list Z) (b : pbuf) : pbuf := mkPbuf (next b) (payload b) (tot_len b) (len b) (type b) (flags b) (ref b) v.

Definition PBUF_TRANSPORT : Z := 0.
Definition PBUF_IP : Z := 1.
Definition PBUF_LINK : Z := 2.
Definition PBUF_RAW : Z := 3.

Definition PBUF_RAM : Z := 0.
Definition PBUF_ROM : Z := 1.
Definition PBUF_REF : Z := 2.
Definition PBUF_POOL : Z := 3.

Definition PBUF_TRANSPORT_HLEN : Z := 20.
Definition PBUF_IP_HLEN : Z := 20.
Definition PBUF_LINK_HLEN : Z := 14.

Definition ERR_OK : Z := 0.
Definition ERR_VAL : Z := -6.
Definition ERR_ARG : Z := -14.

Definition LWIP_MEM_ALIGN_SIZE (size : Z) : Z := Z.land (size + 3) (Z.lnot 3).

Definition SIZEOF_STRUCT_PBUF : Z := LWIP_MEM_ALIGN_SIZE 16.
Definition PBUF_POOL_BUFSIZE_ALIGNED : Z := LWIP_MEM_ALIGN_SIZE 1536.

(** Where a block comes from. *)
Inductive source := MEMP_PBUF_POOL | MEMP_PBUF | MEM_HEAP.

Class PbufMemory := grant : Pbufs -> source -> Z -> option (Z * list Z).

Class PbufMemoryLaws {PM : PbufMemory} : Prop :=
  grant_fresh : forall m k n p b, grant m k n = Some (p, b) -> 0 < p /\ m !! p = None /\ zlen b = n /\ Bytes b.

Definition deref (p : Z) : M Pbufs pbuf := access (fun m => m !! p).

Definition update (p : Z) (f : pbuf -> pbuf) : M Pbufs unit := b ← deref p; modify <[p := f b]>.

(** A block from a pool, [None] when it is empty; the bytes are those behind
    the structure.  A block that is too small for the structure is overrun. *)
Definition get_block `{PM : PbufMemory} (k : source) (size : Z) : M Pbufs (option (Z * list Z)) := fun m =>
  match grant m k size with
  | None => Done None m
  | Some (p, b) => if size <? SIZEOF_STRUCT_PBUF then Crash else Done (Some (p, zdrop SIZEOF_STRUCT_PBUF b)) m
  end.

(** A walk along a chain: one turn for each buffer in use, and one to see the end. *)
Definition walk {A} (f : nat -> M Pbufs A) : M Pbufs A := fun m => f (S (size m)) m.

(** * Reference counts *)

(** The loop of [pbuf_free]; the count is that of the buffers freed. *)
Fixpoint free_loop (fuel : nat) (p count : Z) : M Pbufs Z :=
  if p =? 0 then mret count else
  match fuel with
  | O => fail 99
  | S fuel =>
      b ← deref p;
      let r := u16 (ref b - 1) in
      update p (set_ref r);;
      if r =? 0 then modify (delete p);; free_loop fuel (next b) (u8 (count + 1))
      else mret count
  end.

Definition pbuf_free (p : Z) : M Pbufs Z := walk (fun fuel => free_loop fuel p 0).

Definition pbuf_ref (p : Z) : M Pbufs unit :=
  if p =? 0 then mret tt else update p (fun b => set_ref (u16 (ref b + 1)) b).

Fixpoint clen_loop (fuel : nat) (p l : Z) : M Pbufs Z :=
  if p =? 0 then mret l else
  match fuel with
  | O => fail 99
  | S fuel => b ← deref p; clen_loop fuel (next b) (u8 (l + 1))
  end.

Definition pbuf_clen (p : Z) : M Pbufs Z := walk (fun fuel => clen_loop fuel p 0).

(** * Allocation *)

Section Alloc.
Context `{PM : PbufMemory}.

(** The tail of a chain from the pool; [r] is the last buffer so far. *)
Fixpoint alloc_loop (fuel : nat) (p r rem_len : Z) : M Pbufs Z :=
  if 0 <? rem_len then
    match fuel with
    | O => fail 99
    | S fuel =>
        o ← get_block MEMP_PBUF_POOL (SIZEOF_STRUCT_PBUF + PBUF_POOL_BUFSIZE_ALIGNED);
        match o with
        | None => _ ← pbuf_free p; mret 0
        | Some (q, rm) =>
            let l := Z.min (u16 rem_len) PBUF_POOL_BUFSIZE_ALIGNED in
            modify <[q := mkPbuf 0 0 (u16 rem_len) l PBUF_POOL 0 1 rm]>;;
            update r (set_next q);;
            alloc_loop fuel p q (rem_len - l)
        end
    end
  else mret p.

(** The header room of a layer; [None] for a bad one. *)
Definition layer_offset (layer : Z) : option Z :=
  if layer =? PBUF_TRANSPORT then Some (PBUF_LINK_HLEN + PBUF_IP_HLEN + PBUF_TRANSPORT_HLEN)
  else if layer =? PBUF_IP then Some (PBUF_LINK_HLEN + PBUF_IP_HLEN)
  else if layer =? PBUF_LINK then Some PBUF_LINK_HLEN
  else if layer =? PBUF_RAW then Some 0
  else None.

(** Blocks are aligned, so aligning the payload pointer aligns the offset.
    The size of a block of the heap is a [mem_size_t], which has 16 bits. *)
Definition pbuf_alloc (layer length ty : Z) : M Pbufs Z :=
  match layer_offset layer with
  | None => mret 0
  | Some offset =>
      let start := LWIP_MEM_ALIGN_SIZE (SIZEOF_STRUCT_PBUF + offset) - SIZEOF_STRUCT_PBUF in
      if ty =? PBUF_POOL then
        o ← get_block MEMP_PBUF_POOL (SIZEOF_STRUCT_PBUF + PBUF_POOL_BUFSIZE_ALIGNED);
        match o with
        | None => mret 0
        | Some (p, rm) =>
            let l := Z.min length (PBUF_POOL_BUFSIZE_ALIGNED - LWIP_MEM_ALIGN_SIZE offset) in
            modify <[p := mkPbuf 0 start length l PBUF_POOL 0 1 rm]>;;
            alloc_loop (S (Z.to_nat length)) p p (length - l)
        end
      else if ty =? PBUF_RAM then
        o ← get_block MEM_HEAP (u16 (LWIP_MEM_ALIGN_SIZE (SIZEOF_STRUCT_PBUF + offset) + LWIP_MEM_ALIGN_SIZE length));
        match o with
        | None => mret 0
        | Some (p, rm) => modify <[p := mkPbuf 0 start length length PBUF_RAM 0 1 rm]>;; mret p
        end
      else if (ty =? PBUF_ROM) || (ty =? PBUF_REF) then
        o ← get_block MEMP_PBUF SIZEOF_STRUCT_PBUF;
        match o with
        | None => mret 0
        | Some (p, _) => modify <[p := mkPbuf 0 0 length length ty 0 1 []]>;; mret p
        end
      else mret 0
  end.
End Alloc.

(** * Chains *)

(** The walk of [pbuf_cat] to the last buffer. *)
Fixpoint cat_loop (fuel : nat) (p t : Z) : M Pbufs unit :=
  match fuel with
  | O => fail 99
  | S fuel =>
      b ← deref p;
      bt ← deref t;
      update p (fun b => set_tot_len (u16 (tot_len b + tot_len bt)) b);;
      if next b =? 0 then update p (set_next t) else cat_loop fuel (next b) t
  end.

Definition pbuf_cat (h t : Z) : M Pbufs unit :=
  if (h =? 0) || (t =? 0) then mret tt else walk (fun fuel => cat_loop fuel h t).

Definition pbuf_chain (h t : Z) : M Pbufs unit := pbuf_cat h t;; pbuf_ref t.

(** Returns the rest of the chain, or null when it was freed. *)
Definition pbuf_dechain (p : Z) : M Pbufs Z :=
  b ← deref p;
  let q := next b in
  if q =? 0 then mret 0 else
  update q (set_tot_len (u16 (tot_len b - len b)));;
  update p (fun b => set_tot_len (len b) (set_next 0 b));;
  tail_gone ← pbuf_free q;
  mret (if 0 <? tail_gone then 0 else q).

(** Stepping over the buffers that stay; [grow] is negative. *)
Fixpoint realloc_loop (fuel : nat) (q rem_len grow : Z) : M Pbufs (Z * Z) :=
  match fuel with
  | O => fail 99
  | S fuel =>
      b ← deref q;
      if len b <? rem_len then
        update q (fun b => set_tot_len (u16 (tot_len b + u16 grow)) b);;
        realloc_loop fuel (next b) (u16 (rem_len - len b)) grow
      else mret (q, rem_len)
  end.

Definition pbuf_realloc (p new_len : Z) : M Pbufs unit :=
  b ← deref p;
  if tot_len b <=? new_len then mret tt else
  '(q, rem_len) ← walk (fun fuel => realloc_loop fuel p new_len (new_len - tot_len b));
  bq ← deref q;
  (if (type bq =? PBUF_RAM) && negb (rem_len =? len bq)
   then update q (fun b => set_room (ztake (payload b + rem_len) (room b)) b) else mret tt);;
  update q (set_len rem_len);;
  update q (set_tot_len rem_len);;
  (if next bq =? 0 then mret tt else _ ← pbuf_free (next bq); mret tt);;
  update q (set_next 0).

(** [true] is failure. *)
Definition pbuf_header (p header_size_increment : Z) : M Pbufs bool :=
  if (header_size_increment =? 0) || (p =? 0) then mret false else
  b ← deref p;
  if (header_size_increment <? 0) && (len b <? u16 (- header_size_increment)) then mret true else
  let moved := update p (fun b => set_payload (payload b - header_size_increment) b) in
  let lengths :=
    update p (fun b => set_len (u16 (len b + header_size_increment)) b);;
    update p (fun b => set_tot_len (u16 (tot_len b + header_size_increment)) b);;
    mret false in
  if (type b =? PBUF_RAM) || (type b =? PBUF_POOL) then
    moved;;
    if payload b - header_size_increment <? 0 then update p (set_payload (payload b));; mret true else lengths
  else if (type b =? PBUF_REF) || (type b =? PBUF_ROM) then
    if header_size_increment <? 0 then moved;; lengths else mret true
  else mret true.

(** * The data *)

(** [n] bytes of the payload from [off]. *)
Definition read (b : pbuf) (off n : Z) : M Pbufs (list Z) := access (fun _ => fetch (room b) (payload b + off) n).

Definition write (p off : Z) (l : list Z) : M Pbufs unit :=
  b ← deref p;
  rm ← access (fun _ => blit (room b) (payload b + off) l);
  modify <[p := set_room rm b]>.

(** [pbuf_copy]: the places in both chains. *)
Fixpoint copy_loop (fuel : nat) (p_to p_from offset_to offset_from : Z) : M Pbufs Z :=
  match fuel with
  | O => fail 99
  | S fuel =>
      bt ← deref p_to;
      bf ← deref p_from;
      let n := if len bf - offset_from <=? len bt - offset_to then u16 (len bf - offset_from) else u16 (len bt - offset_to) in
      d ← read bf offset_from n;
      write p_to offset_to d;;
      let offset_to := u16 (offset_to + n) in
      let offset_from := u16 (offset_from + n) in
      let '(p_from, offset_from) := if len bf <=? offset_from then (next bf, 0) else (p_from, offset_from) in
      let last := offset_to =? len bt in
      let '(p_to, offset_to) := if last then (next bt, 0) else (p_to, offset_to) in
      if last && (p_to =? 0) && negb (p_from =? 0) then mret ERR_ARG else
      queue_from ← (if p_from =? 0 then mret false else b ← deref p_from; mret ((len b =? tot_len b) && negb (next b =? 0)));
      if (queue_from : bool) then mret ERR_VAL else
      queue_to ← (if p_to =? 0 then mret false else b ← deref p_to; mret ((len b =? tot_len b) && negb (next b =? 0)));
      if (queue_to : bool) then mret ERR_VAL else
      if p_from =? 0 then mret ERR_OK else copy_loop fuel p_to p_from offset_to offset_from
  end.

Definition pbuf_copy (p_to p_from : Z) : M Pbufs Z :=
  if (p_to =? 0) || (p_from =? 0) then mret ERR_ARG else
  bt ← deref p_to;
  bf ← deref p_from;
  if tot_len bt <? tot_len bf then mret ERR_ARG else
  walk (fun fuel => copy_loop (2 * fuel) p_to p_from 0 0).

(** [pbuf_copy_partial] into the caller's buffer [dataptr]. *)
Fixpoint copy_partial_loop (fuel : nat) (p : Z) (dataptr : list Z) (left n offset copied_total : Z) : M Pbufs (Z * list Z) :=
  if (n =? 0) || (p =? 0) then mret (copied_total, dataptr) else
  match fuel with
  | O => fail 99
  | S fuel =>
      b ← deref p;
      if negb (offset =? 0) && (len b <=? offset) then
        copy_partial_loop fuel (next b) dataptr left n (u16 (offset - len b)) copied_total
      else
        let buf_copy_len := u16 (len b - offset) in
        let buf_copy_len := if n <? buf_copy_len then n else buf_copy_len in
        d ← read b offset buf_copy_len;
        dataptr ← access (fun _ => blit dataptr left d);
        copy_partial_loop fuel (next b) dataptr (u16 (left + buf_copy_len)) (u16 (n - buf_copy_len)) 0 (u16 (copied_total + buf_copy_len))
  end.

Definition pbuf_copy_partial (buf : Z) (dataptr : list Z) (n offset : Z) : M Pbufs (Z * list Z) :=
  if buf =? 0 then mret (0, dataptr) else walk (fun fuel => copy_partial_loop fuel buf dataptr 0 n offset 0).

Fixpoint take_loop (fuel : nat) (p : Z) (dataptr : list Z) (total_copy_len copied_total : Z) : M Pbufs unit :=
  if total_copy_len =? 0 then mret tt else
  match fuel with
  | O => fail 99
  | S fuel =>
      b ← deref p;
      let buf_copy_len := if len b <? total_copy_len then len b else total_copy_len in
      d ← access (fun _ => fetch dataptr copied_total buf_copy_len);
      write p 0 d;;
      take_loop fuel (next b) dataptr (u16 (total_copy_len - buf_copy_len)) (u16 (copied_total + buf_copy_len))
  end.

Definition pbuf_take (buf : Z) (dataptr : list Z) (n : Z) : M Pbufs Z :=
  if buf =? 0 then mret 0 else
  b ← deref buf;
  if tot_len b <? n then mret ERR_ARG else
  walk (fun fuel => take_loop fuel buf dataptr n 0);;
  mret ERR_OK.

Definition pbuf_coalesce `{PM : PbufMemory} (p layer : Z) : M Pbufs Z :=
  b ← deref p;
  if next b =? 0 then mret p else
  q ← pbuf_alloc layer (tot_len b) PBUF_RAM;
  if q =? 0 then mret p else
  _ ← pbuf_copy q p;
  _ ← pbuf_free p;
  mret q.

(** The search for the buffer with a byte; 0 when the chain is too short. *)
Fixpoint seek (fuel : nat) (q copy_from : Z) : M Pbufs (Z * Z) :=
  if q =? 0 then mret (0, copy_from) else
  match fuel with
  | O => fail 99
  | S fuel =>
      b ← deref q;
      if len b <=? copy_from then seek fuel (next b) (u16 (copy_from - len b)) else mret (q, copy_from)
  end.

Definition pbuf_get_at (p offset : Z) : M Pbufs Z :=
  '(q, i) ← walk (fun fuel => seek fuel p offset);
  if q =? 0 then mret 0 else
  b ← deref q;
  access (fun _ => ld (room b) (payload b + i)).

Fixpoint memcmp_loop (fuel : nat) (q start : Z) (s2 : list Z) (n i : Z) : M Pbufs Z :=
  if i <? n then
    match fuel with
    | O => fail 99
    | S fuel =>
        a ← pbuf_get_at q (u16 (start + i));
        b ← access (fun _ => ld s2 i);
        if a =? b then memcmp_loop fuel q start s2 n (u16 (i + 1)) else mret (u16 (i + 1))
    end
  else mret 0.

Definition pbuf_memcmp (p offset : Z) (s2 : list Z) (n : Z) : M Pbufs Z :=
  '(q, start) ← walk (fun fuel => seek fuel p offset);
  if q =? 0 then mret 65535 else memcmp_loop (S (Z.to_nat n)) q start s2 n 0.

Fixpoint memfind_loop (fuel : nat) (p : Z) (mem : list Z) (mem_len max i : Z) : M Pbufs Z :=
  if i <=? max then
    match fuel with
    | O => fail 99
    | S fuel =>
        plus ← pbuf_memcmp p i mem mem_len;
        if plus =? 0 then mret i else memfind_loop fuel p mem mem_len max (u16 (i + plus))
    end
  else mret 65535.

Definition pbuf_memfind (p : Z) (mem : list Z) (mem_len start_offset : Z) : M Pbufs Z :=
  b ← deref p;
  let max := u16 (tot_len b - mem_len) in
  if mem_len + start_offset <=? tot_len b then memfind_loop (Z.to_nat (max + 2)) p mem mem_len max start_offset
  else mret 65535.

(** [substr] is the memory from the string on. *)
Definition pbuf_strstr (p : Z) (substr : list Z) : M Pbufs Z :=
  c ← access (fun _ => ld substr 0);
  if c =? 0 then mret 65535 else
  b ← deref p;
  if tot_len b =? 65535 then mret 65535 else
  substr_len ← access (fun _ => strlen substr 0);
  if 65535 <=? substr_len then mret 65535 else pbuf_memfind p substr substr_len 0.
