(* ===== verification/PbufRef.v ===== *)
(** The reference counts and lengths of packet buffers (file [Pbuf]): the
    count of a buffer is the number of pointers to it, and its total length
    that of the chain from it; every operation keeps both, under the rules that
    pbuf.c states for its callers. *)
From S2P Require Import Prelude Pbuf.
From stdpp Require Import list gmap.
#[local] Open Scope Z_scope.

(** * Pointers and chains *)

(** The [next] pointers of a state. *)
Notation "'Links'" := (gmap Z Z).

Definition links (m : Pbufs) : Links := next <$> m.

Definition pointers (N : Links) : list Z := (map_to_list N).*2.

(** How often [p] is in [l]. *)
Definition occ (p : Z) (l : list Z) : Z := zlen (filter (fun x => x = p) l).

(** [l] is the chain from [p]. *)
Fixpoint seg (N : Links) (p : Z) (l : list Z) : Prop :=
  match l with
  | [] => p = 0
  | x :: l => x = p /\ p <> 0 /\ exists n, N !! p = Some n /\ seg N n l
  end.

(** Every chain ends, and no two buffers have the same next. *)
Record shape (N : Links) : Prop := {
  shape_null : N !! 0 = None;
  shape_ends p : is_Some (N !! p) -> exists l, seg N p l;
  shape_one p : p <> 0 -> occ p (pointers N) <= 1
}.

Section Occ.
Implicit Types l k : list Z.

Lemma occ_nonneg p l : 0 <= occ p l.
Proof. apply zlen_nonneg. Qed.

Lemma occ_cons p x l : occ p (x :: l) = (if decide (x = p) then 1 else 0) + occ p l.
Proof. unfold occ. rewrite filter_cons. destruct (decide (x = p)); [by rewrite zlen_cons|done]. Qed.

Lemma occ_app p l k : occ p (l ++ k) = occ p l + occ p k.
Proof. unfold occ. by rewrite filter_app, zlen_app. Qed.

#[export] Instance occ_perm p : Proper (Permutation ==> eq) (occ p).
Proof. intros l k H. unfold occ, zlen. by rewrite H. Qed.

Lemma occ_pos p l : p ∈ l <-> 1 <= occ p l.
Proof.
  induction l as [|x l IH]; [split; [by intros ?%not_elem_of_nil|by intros]|].
  rewrite occ_cons, elem_of_cons, IH. pose proof (occ_nonneg p l). destruct (decide (x = p)); [split; [lia|auto]|].
  split; [intros [?|?]; [congruence|lia]|intros; right; lia].
Qed.

Lemma occ_zero p l : p ∉ l <-> occ p l = 0.
Proof. rewrite occ_pos. pose proof (occ_nonneg p l). lia. Qed.
End Occ.

Section Links.
Implicit Types N : Links.

Lemma pointers_delete N p n : N !! p = Some n -> pointers N ≡ₚ n :: pointers (delete p N).
Proof. intros H. unfold pointers. by rewrite <- (map_to_list_delete N p n H). Qed.

Lemma pointers_new N p n : N !! p = None -> pointers (<[p := n]> N) ≡ₚ n :: pointers N.
Proof. intros H. unfold pointers. by rewrite (map_to_list_insert N p n H). Qed.

Lemma pointers_insert N p n v : N !! p = Some v -> v :: pointers (<[p := n]> N) ≡ₚ n :: pointers N.
Proof.
  intros H. rewrite (pointers_delete N p v H), (pointers_delete (<[p := n]> N) p n) by apply lookup_insert_eq.
  rewrite delete_insert_eq. apply Permutation_swap.
Qed.

Lemma pointers_elem N p : p ∈ pointers N <-> exists q, N !! q = Some p.
Proof.
  unfold pointers. rewrite list_elem_of_fmap. split.
  - intros ([q x] & -> & H%elem_of_map_to_list). eauto.
  - intros [q H]. exists (q, p). split; [done|]. by apply elem_of_map_to_list.
Qed.

Lemma seg_unique N p l l' : seg N p l -> seg N p l' -> l = l'.
Proof.
  revert p l'. induction l as [|x l IH]; intros p [|y l'] H H'; cbn in *; [done|by destruct H' as (_ & ? & _)|by destruct H as (_ & ? & _)|].
  destruct H as (-> & ? & n & E & H), H' as (-> & ? & n' & E' & H'). f_equal. apply (IH n); [done|]. congruence.
Qed.

Lemma seg_elem N p l x : seg N p l -> x ∈ l -> x <> 0 /\ exists k l', l = l' ++ k /\ seg N x k.
Proof.
  revert p. induction l as [|y l IH]; intros p H Hx; [by apply not_elem_of_nil in Hx|].
  destruct H as (-> & Hp & n & E & H). apply elem_of_cons in Hx as [->|Hx].
  - split; [done|]. exists (p :: l), []. cbn. eauto 10.
  - destruct (IH n H Hx) as (Hx0 & k & l' & -> & Hk). split; [done|]. exists k, (p :: l'). done.
Qed.

Lemma seg_dom N p l x : seg N p l -> x ∈ l -> is_Some (N !! x).
Proof.
  intros H Hx. destruct (seg_elem N p l x H Hx) as (? & k & l' & -> & Hk). destruct k as [|y k]; [done|].
  destruct Hk as (? & ? & n & -> & _). eauto.
Qed.

Lemma seg_nodup N p l : seg N p l -> NoDup l.
Proof.
  revert p. induction l as [|y l IH]; intros p H; [constructor|]. pose proof H as H0. destruct H as (-> & Hp & n & E & H).
  constructor; [|by eapply IH]. intros Hx. destruct (seg_elem N n l p H Hx) as (_ & k & l' & -> & Hk).
  pose proof (seg_unique _ _ _ _ H0 Hk) as E'. apply (f_equal length) in E'. cbn in E'. rewrite length_app in E'. lia.
Qed.

Lemma seg_length N p l : seg N p l -> (length l <= size N)%nat.
Proof.
  intros H. rewrite <- (size_list_to_set (C := gset Z) l) by (by eapply seg_nodup). rewrite <- size_dom. apply subseteq_size.
  intros x Hx%elem_of_list_to_set. apply elem_of_dom. by eapply seg_dom.
Qed.

(** A buffer of a chain, other than the first, is the next of one before. *)
Lemma seg_pred N p l x : seg N p l -> x ∈ l -> x <> p -> exists y, y ∈ l /\ N !! y = Some x.
Proof.
  revert p. induction l as [|y l IH]; intros p H Hx Hne; [by apply not_elem_of_nil in Hx|].
  destruct H as (-> & Hp & n & E & H). apply elem_of_cons in Hx as [->|Hx]; [done|].
  destruct (decide (x = n)) as [->|Hn]; [exists p; split; [by left|done]|].
  destruct (IH n H Hx Hn) as (y & Hy & Ey). exists y. split; [by right|done].
Qed.

Lemma seg_insert_notin N p l e t : seg N p l -> e ∉ l -> seg (<[e := t]> N) p l.
Proof.
  revert p. induction l as [|x l IH]; intros p H He; [done|]. apply not_elem_of_cons in He as [Hne He].
  destruct H as (-> & Hp & n & E & H). cbn. split; [done|]. split; [done|]. exists n. rewrite lookup_insert_ne by congruence. auto.
Qed.

Lemma seg_delete_notin N p l e : seg N p l -> e ∉ l -> seg (delete e N) p l.
Proof.
  revert p. induction l as [|x l IH]; intros p H He; [done|]. apply not_elem_of_cons in He as [Hne He].
  destruct H as (-> & Hp & n & E & H). cbn. split; [done|]. split; [done|]. exists n. rewrite lookup_delete_ne by congruence. auto.
Qed.

Lemma shape_next N p n : shape N -> N !! p = Some n -> n = 0 \/ is_Some (N !! n).
Proof.
  intros HN E. destruct (shape_ends _ HN p) as [[|x l] H]; [eauto|cbn in H; subst p; by rewrite (shape_null _ HN) in E|].
  destruct H as (_ & _ & n' & E' & H). assert (n' = n) as -> by congruence. destruct l as [|y l]; [by left|right].
  destruct H as (_ & _ & ? & -> & _). eauto.
Qed.

(** Two buffers with the same next are one. *)
Lemma shape_inj N x y n : shape N -> n <> 0 -> N !! x = Some n -> N !! y = Some n -> x = y.
Proof.
  intros HN Hn Ex Ey. destruct (decide (x = y)) as [|Hne]; [done|]. pose proof (shape_one _ HN n Hn) as H.
  rewrite (pointers_delete N x n Ex), (pointers_delete (delete x N) y n) in H by (by rewrite lookup_delete_ne).
  rewrite !occ_cons in H. destruct (decide (n = n)); [|done]. pose proof (occ_nonneg n (pointers (delete y (delete x N)))). lia.
Qed.
End Links.

Section Shapes.
Implicit Types N : Links.

(** A buffer that nothing points to is on no other chain. *)
Lemma seg_root N x p l : seg N x l -> x <> p -> occ p (pointers N) = 0 -> p ∉ l.
Proof.
  intros H Hne Hp Hin. destruct (seg_pred N x l p H Hin) as (y & _ & Ey); [done|].
  by eapply occ_zero, pointers_elem; [exact Hp|exists y].
Qed.

Lemma shape_occ_mono N N' : shape N -> (forall p, p <> 0 -> occ p (pointers N') <= occ p (pointers N)) ->
  N' !! 0 = None -> (forall p, is_Some (N' !! p) -> exists l, seg N' p l) -> shape N'.
Proof. intros HN Hocc H0 Hs. split; [done|done|]. intros p Hp. specialize (Hocc p Hp). pose proof (shape_one _ HN p Hp). lia. Qed.

(** A new buffer at the end of no chain. *)
Lemma shape_new N p : shape N -> p <> 0 -> N !! p = None -> shape (<[p := 0]> N).
Proof.
  intros HN Hp Ep. apply (shape_occ_mono N); [done| | |].
  - intros x Hx. rewrite pointers_new, occ_cons by done. destruct (decide (0 = x)); [done|lia].
  - rewrite lookup_insert_ne by congruence. apply HN.
  - intros x Hx. destruct (decide (x = p)) as [->|Hne].
    + exists [p]. cbn. split; [done|]. split; [done|]. exists 0. by rewrite lookup_insert_eq.
    + rewrite lookup_insert_ne in Hx by congruence. destruct (shape_ends _ HN x Hx) as [l Hl]. exists l.
      apply seg_insert_notin; [done|]. intros Hin. destruct (seg_dom _ _ _ _ Hl Hin) as [? E]. congruence.
Qed.

(** Without a buffer that nothing points to. *)
Lemma shape_delete N p n : shape N -> N !! p = Some n -> occ p (pointers N) = 0 -> shape (delete p N).
Proof.
  intros HN Ep Hp. apply (shape_occ_mono N); [done| | |].
  - intros x Hx. rewrite (pointers_delete N p n Ep), occ_cons. destruct (decide (n = x)); lia.
  - rewrite lookup_delete_None. right. apply HN.
  - intros x [v Hx]. apply lookup_delete_Some in Hx as [Hne Hx]. destruct (shape_ends _ HN x) as [l Hl]; [eauto|].
    exists l. apply seg_delete_notin; [done|]. by eapply seg_root.
Qed.

(** Cutting the chain behind a buffer. *)
Lemma shape_cut N p n : shape N -> N !! p = Some n -> shape (<[p := 0]> N).
Proof.
  intros HN Ep. apply (shape_occ_mono N); [done| | |].
  - intros x Hx. pose proof (pointers_insert N p 0 n Ep) as HP. apply (occ_perm x) in HP. rewrite !occ_cons in HP.
    destruct (decide (0 = x)); [done|]. destruct (decide (n = x)); lia.
  - rewrite lookup_insert_ne; [apply HN|]. intros ->. by rewrite (shape_null _ HN) in Ep.
  - intros x Hx. apply lookup_insert_is_Some' in Hx. assert (is_Some (N !! x)) as Hx' by (destruct Hx as [->|]; eauto).
    destruct (shape_ends _ HN x Hx') as [l Hl]. clear Hx Hx'. revert x Hl. induction l as [|y l IH]; intros x Hl; [by exists []|].
    destruct Hl as (-> & Hx0 & v & Ev & Hl). destruct (decide (x = p)) as [->|Hne].
    + exists [p]. cbn. split; [done|]. split; [done|]. exists 0. by rewrite lookup_insert_eq.
    + destruct (IH v Hl) as [l' Hl']. exists (x :: l'). cbn. split; [done|]. split; [done|]. exists v. by rewrite lookup_insert_ne by congruence.
Qed.

(** Linking the end of a chain to the first buffer of another. *)
Lemma shape_link N e t lt :
  shape N -> N !! e = Some 0 -> t <> 0 -> occ t (pointers N) = 0 -> seg N t lt -> e ∉ lt -> shape (<[e := t]> N).
Proof.
  intros HN Ee Ht Hocc Hlt He. split.
  - rewrite lookup_insert_ne; [apply HN|]. intros ->. by rewrite (shape_null _ HN) in Ee.
  - intros x Hx. apply lookup_insert_is_Some' in Hx. assert (is_Some (N !! x)) as Hx' by (destruct Hx as [->|]; eauto).
    destruct (shape_ends _ HN x Hx') as [l Hl]. clear Hx Hx'. revert x Hl. induction l as [|y l IH]; intros x Hl; [by exists []|].
    destruct Hl as (-> & Hx0 & v & Ev & Hl). destruct (decide (x = e)) as [->|Hne].
    + exists (e :: lt). cbn. split; [done|]. split; [done|]. exists t. rewrite lookup_insert_eq. split; [done|]. by apply seg_insert_notin.
    + destruct (IH v Hl) as [l' Hl']. exists (x :: l'). cbn. split; [done|]. split; [done|]. exists v. by rewrite lookup_insert_ne by congruence.
  - intros x Hx. pose proof (pointers_insert N e t 0 Ee) as HP. apply (occ_perm x) in HP. rewrite !occ_cons in HP.
    pose proof (shape_one _ HN x Hx). destruct (decide (0 = x)); [done|]. destruct (decide (t = x)) as [->|]; lia.
Qed.

(** A chain to which nothing outside points is left alone by another one. *)
Lemma seg_apart N h lh p l :
  shape N -> seg N h lh -> occ h (pointers N) = 0 -> seg N p l -> p ∉ lh -> forall x, x ∈ l -> x ∉ lh.
Proof.
  intros HN Hh Oh. revert p. induction l as [|y l IH]; intros p Hl Hp x Hx; [by apply not_elem_of_nil in Hx|].
  destruct Hl as (-> & Hp0 & n & En & Hl). apply elem_of_cons in Hx as [->|Hx]; [done|]. apply (IH n Hl); [|done].
  intros Hn. destruct l as [|z l]; [by apply not_elem_of_nil in Hx|]. destruct Hl as (_ & Hn0 & _).
  destruct (decide (n = h)) as [->|Hne].
  - assert (h ∈ pointers N) as Hin by (apply pointers_elem; eauto). by apply occ_zero in Oh.
  - destruct (seg_pred N h lh n Hh Hn Hne) as (q & Hq & Eq). by rewrite (shape_inj N p q n HN Hn0 En Eq) in Hp.
Qed.
End Shapes.

(** * The invariant *)

(** The total length behind [p]. *)
Definition rest (m : Pbufs) (p : Z) : Z := match m !! p with Some b => tot_len b | None => 0 end.

(** [own] are the pointers that are held outside, one entry for each. *)
Record Inv (m : Pbufs) (own : list Z) : Prop := {
  inv_shape : shape (links m);
  inv_own : Forall (fun p => is_Some (m !! p)) own;
  inv_ref p b : m !! p = Some b -> ref b = occ p (own ++ pointers (links m)) /\ 1 <= ref b <= 65535;
  inv_len p b : m !! p = Some b -> 0 <= len b /\ tot_len b = len b + rest m (next b) /\ tot_len b <= 65535
}.

Lemma links_lookup m p b : m !! p = Some b -> links m !! p = Some (next b).
Proof. intros H. unfold links. by rewrite lookup_fmap, H. Qed.

Lemma links_lookup_inv m p n : links m !! p = Some n -> exists b, m !! p = Some b /\ next b = n.
Proof. unfold links. rewrite lookup_fmap. intros (b & Hb & ->)%fmap_Some_1. eauto. Qed.

Lemma links_insert m p b : links (<[p := b]> m) = <[p := next b]> (links m).
Proof. apply fmap_insert. Qed.

Lemma links_delete m p : links (delete p m) = delete p (links m).
Proof. apply fmap_delete. Qed.

Lemma links_insert_same m p b b' : m !! p = Some b -> next b' = next b -> links (<[p := b']> m) = links m.
Proof. intros H E. rewrite links_insert, E. by apply insert_id, links_lookup. Qed.

Lemma inv_null m own : Inv m own -> m !! 0 = None.
Proof.
  intros H. destruct (m !! 0) as [b|] eqn:E; [|done]. apply links_lookup in E. by rewrite (shape_null _ (inv_shape _ _ H)) in E.
Qed.

Lemma inv_nonzero m own p b : Inv m own -> m !! p = Some b -> p <> 0.
Proof. intros H E ->. by rewrite (inv_null m own H) in E. Qed.

#[export] Instance Inv_perm m : Proper (Permutation ==> iff) (Inv m).
Proof.
  assert (forall k l, k ≡ₚ l -> Inv m k -> Inv m l) as H; [|intros k l E; split; by apply H].
  intros k l E [Hs Ho Hr Hl]. split; [done|by rewrite <- E| |done]. intros p b Hb. rewrite <- E. by apply Hr.
Qed.

Lemma rest_insert_ne m p q b : q <> p -> rest (<[p := b]> m) q = rest m q.
Proof. intros. unfold rest. by rewrite lookup_insert_ne. Qed.

(** The count of one buffer changes with the pointers that are held outside. *)
Lemma inv_set_ref m own own' p b v :
  Inv m own -> m !! p = Some b -> 1 <= v <= 65535 -> v = occ p (own' ++ pointers (links m)) ->
  (forall x, x <> p -> occ x own' = occ x own) -> Forall (fun p => is_Some (m !! p)) own' -> Inv (<[p := set_ref v b]> m) own'.
Proof.
  intros HI Eb Hv Ev Ho Hin. assert (links (<[p := set_ref v b]> m) = links m) as El by (by eapply links_insert_same).
  assert (forall q, rest (<[p := set_ref v b]> m) q = rest m q) as Er.
  { intros q. unfold rest. destruct (decide (q = p)) as [->|]; [by rewrite lookup_insert_eq, Eb|by rewrite lookup_insert_ne]. }
  split.
  - rewrite El. apply HI.
  - eapply Forall_impl; [exact Hin|]. cbn. intros x Hx. apply lookup_insert_is_Some'. auto.
  - intros x c. rewrite El. destruct (decide (x = p)) as [->|Hne].
    + rewrite lookup_insert_eq. intros [= <-]. done.
    + rewrite lookup_insert_ne by congruence. intros E. destruct (inv_ref _ _ HI x c E) as [-> ?]. rewrite !occ_app in *. by rewrite Ho.
  - intros x c. rewrite Er. destruct (decide (x = p)) as [->|Hne].
    + rewrite lookup_insert_eq. intros [= <-]. apply (inv_len _ _ HI p b Eb).
    + rewrite lookup_insert_ne by congruence. apply HI.
Qed.

(** * Counting references *)

Lemma upd_done (m : Pbufs) p b f : m !! p = Some b -> update p f m = Done tt (<[p := f b]> m).
Proof. intros H. unfold update, deref, mbind, M_bind, access. by rewrite H. Qed.

Lemma deref_done (m : Pbufs) p b : m !! p = Some b -> deref p m = Done b m.
Proof. intros H. unfold deref, access. by rewrite H. Qed.

Lemma runs_mono {S A} (m : M S A) s (P Q : A -> S -> Prop) : runs m s P -> (forall a s', P a s' -> Q a s') -> runs m s Q.
Proof. apply wpe_mono. Qed.

Lemma runs_bind_done {S A B} (m : M S A) (f : A -> M S B) s a s' Q : m s = Done a s' -> runs (f a) s' Q -> runs (mbind f m) s Q.
Proof. intros E H. unfold runs, wpe. rewrite (bind_done _ _ _ _ _ E). exact H. Qed.

(** [xderef H] reads the buffer that [H] gives, [xupdate H] changes it. *)
Ltac xderef H := eapply runs_bind_done; [by apply deref_done, H|]; cbv beta zeta.
Ltac xupdate H := eapply runs_bind_done; [by apply upd_done, H|]; cbv beta zeta.

Lemma pbuf_ref_inv m own p b :
  Inv m own -> m !! p = Some b -> ref b < 65535 -> runs (pbuf_ref p) m (fun _ m' => Inv m' (p :: own)).
Proof.
  intros HI Eb Hr. pose proof (inv_nonzero _ _ _ _ HI Eb). unfold pbuf_ref. replace (p =? 0) with false by lia.
  unfold runs, wpe. rewrite (upd_done m p b) by done. destruct (inv_ref _ _ HI p b Eb) as [Er ?]. rewrite u16_small by word_lia.
  apply (inv_set_ref m own); try done; [lia| | |].
  - cbn [app]. rewrite occ_cons. destruct (decide (p = p)); [lia|done].
  - intros x Hx. rewrite occ_cons. destruct (decide (p = x)); [congruence|done].
  - constructor; [eauto|apply HI].
Qed.

(** The pointers that are held outside when the next of [p] is taken over. *)
Definition hold (p : Z) (own : list Z) : list Z := if p =? 0 then own else p :: own.

Lemma inv_delete m own p b :
  Inv m (p :: own) -> m !! p = Some b -> ref b = 1 -> Inv (delete p m) (hold (next b) own).
Proof.
  intros HI Eb Hr. destruct HI as [Hs Ho Hc Hl]. apply Forall_cons_1 in Ho as [_ Ho].
  pose proof (links_lookup m p b Eb) as En. destruct (Hc p b Eb) as [Ec _]. rewrite Hr in Ec. cbn [app] in Ec.
  rewrite occ_cons, occ_app in Ec. destruct (decide (p = p)); [|done].
  pose proof (occ_nonneg p own). pose proof (occ_nonneg p (pointers (links m))).
  assert (occ p (pointers (links m)) = 0) as Hp by lia. assert (occ p own = 0) as Hpo by lia.
  assert (forall q c, m !! q = Some c -> next c <> p) as Hnp.
  { intros q c Eq E. apply occ_zero in Hp. apply Hp, pointers_elem. exists q. rewrite (links_lookup m q c Eq). by f_equal. }
  split.
  - rewrite links_delete. by eapply shape_delete.
  - assert (Forall (fun x => is_Some (delete p m !! x)) own) as Ho'.
    { rewrite Forall_forall in *. intros x Hx. destruct (decide (x = p)) as [->|]; [by apply occ_zero in Hpo|]. rewrite lookup_delete_ne by congruence. auto. }
    unfold hold. destruct (Z.eqb_spec (next b) 0); [done|]. constructor; [|done].
    rewrite lookup_delete_ne by (intros E; by apply (Hnp p b Eb)).
    destruct (shape_next _ _ _ Hs En) as [|[v Ev]]; [done|]. apply links_lookup_inv in Ev as (c & Ec' & _). eauto.
  - intros x c E. apply lookup_delete_Some in E as [Hne E]. destruct (Hc x c E) as [-> ?]. split; [|done].
    rewrite links_delete. cbn [app]. rewrite !occ_cons, !occ_app. destruct (decide (p = x)); [congruence|].
    rewrite (pointers_delete _ _ _ En), occ_cons. unfold hold. destruct (Z.eqb_spec (next b) 0) as [->|]; [|rewrite occ_cons; lia].
    destruct (decide (0 = x)) as [<-|]; [|lia]. apply links_lookup in E. by rewrite (shape_null _ Hs) in E.
  - intros x c E. apply lookup_delete_Some in E as [Hne E]. destruct (Hl x c E) as (? & ? & ?). split; [done|]. split; [|done].
    unfold rest in *. rewrite lookup_delete_ne by (intros E'; by apply (Hnp x c E)). done.
Qed.

Lemma free_loop_inv fuel m own p count :
  Inv m (hold p own) -> (size m < fuel)%nat -> runs (free_loop fuel p count) m (fun _ m' => Inv m' own /\ links m' ⊆ links m).
Proof.
  revert m p count. induction fuel as [|fuel IH]; intros m p count HI Hf; [lia|]. cbn [free_loop]. unfold hold in HI.
  destruct (Z.eqb_spec p 0); [kret; split; done|].
  pose proof (inv_own _ _ HI) as Ho. apply Forall_cons_1 in Ho as [[b Eb] Ho]. xderef Eb. xupdate Eb.
  destruct (inv_ref _ _ HI p b Eb) as [Er Hr]. rewrite u16_small by word_lia. destruct (Z.eqb_spec (ref b - 1) 0).
  - eapply runs_bind_done; [reflexivity|]. rewrite delete_insert_eq.
    pose proof (map_size_insert_None p b (delete p m) (lookup_delete_eq _ _)) as Hsz. rewrite insert_delete_id in Hsz by done.
    eapply runs_mono; [apply IH; [apply inv_delete; [done|done|lia]|lia]|]. cbn. intros _ m' [? ?]. split; [done|].
    rewrite links_delete in *. etransitivity; [done|apply delete_subseteq].
  - kret. split; [|by erewrite links_insert_same].
    apply (inv_set_ref m (p :: own)); try done; [lia| |].
    + cbn [app] in Er. rewrite occ_cons in Er. destruct (decide (p = p)); [lia|done].
    + intros x Hx. rewrite occ_cons. destruct (decide (p = x)); [congruence|done].
Qed.

(** What is held once is given back: [pbuf_free] returns, and takes away exactly
    one reference. *)
Lemma pbuf_free_inv m own p : Inv m (hold p own) -> runs (pbuf_free p) m (fun _ m' => Inv m' own).
Proof. intros HI. eapply runs_mono; [apply free_loop_inv; [exact HI|lia]|]. by intros _ m' [? _]. Qed.

(** A buffer that is not on the chain plays no part. *)
Lemma free_loop_frame fuel m p l count q b r m' :
  seg (links m) p l -> q ∉ l -> is_Some (m !! q) ->
  free_loop fuel p count m = Done r m' -> free_loop fuel p count (<[q := b]> m) = Done r (<[q := b]> m').
Proof.
  revert m p l count. induction fuel as [|fuel IH]; intros m p l count Hl Hq Hs; cbn [free_loop].
  { destruct (Z.eqb_spec p 0); [by intros [= <- <-]|done]. }
  destruct (Z.eqb_spec p 0) as [|Hp]; [by intros [= <- <-]|]. destruct l as [|x l]; [done|].
  destruct Hl as (-> & _ & n & En & Hl). apply not_elem_of_cons in Hq as [Hqp Hq].
  apply links_lookup_inv in En as (c & Ec & <-).
  assert (<[q := b]> m !! p = Some c) as Ec' by (by rewrite lookup_insert_ne).
  rewrite (bind_done _ _ _ _ _ (deref_done m p c Ec)), (bind_done _ _ _ _ _ (deref_done _ p c Ec')).
  rewrite (bind_done _ _ _ _ _ (upd_done m p c _ Ec)), (bind_done _ _ _ _ _ (upd_done _ p c _ Ec')).
  destruct (u16 (ref c - 1) =? 0).
  - unfold modify. erewrite !bind_done by reflexivity. rewrite !delete_insert_eq, delete_insert_ne by done.
    apply (IH _ _ l); [|done|by rewrite lookup_delete_ne].
    rewrite links_delete. apply seg_delete_notin; [done|].
    pose proof (seg_nodup (links m) p (p :: l)) as Hnd. intros Hin. apply NoDup_cons in Hnd as [? _]; [done|].
    cbn. split; [done|]. split; [done|]. exists (next c). split; [by apply links_lookup|done].
  - intros [= <- <-]. by rewrite insert_insert_ne by done.
Qed.

(** * Linking and cutting chains *)

(** The walk of [pbuf_cat]: the total lengths of the chain grow, its end is
    linked to [t]; nothing else changes. *)
Definition catted (l : list Z) (t d : Z) (m m' : Pbufs) : Prop :=
  (forall x, x ∉ l -> m' !! x = m !! x) /\
  (forall x b, x ∈ l -> m !! x = Some b ->
     m' !! x = Some (set_next (if next b =? 0 then t else next b) (set_tot_len (u16 (tot_len b + d)) b))).

Lemma cat_loop_done l fuel m p t d :
  seg (links m) p l -> l <> [] -> t ∉ l -> rest m t = d -> is_Some (m !! t) -> (length l <= fuel)%nat ->
  exists m', cat_loop fuel p t m = Done tt m' /\ catted l t d m m'.
Proof.
  revert m p fuel. induction l as [|x l IH]; intros m p fuel Hl Hne Ht Hd Hs Hf; [done|]. clear Hne.
  pose proof (seg_nodup _ _ _ Hl) as [Hp Hnd]%NoDup_cons. destruct Hl as (-> & Hp0 & n & En & Hl). destruct fuel as [|fuel]; [cbn in Hf; lia|].
  apply links_lookup_inv in En as (b & Eb & <-). apply not_elem_of_cons in Ht as [Htp Ht]. destruct Hs as [bt Et].
  cbn [cat_loop]. rewrite (bind_done _ _ _ _ _ (deref_done m p b Eb)), (bind_done _ _ _ _ _ (deref_done m t bt Et)).
  rewrite (bind_done _ _ _ _ _ (upd_done m p b _ Eb)). unfold rest in Hd. rewrite Et in Hd. subst d.
  set (b1 := set_tot_len (u16 (tot_len b + tot_len bt)) b). destruct (Z.eqb_spec (next b) 0) as [E0|E0].
  - rewrite (upd_done _ p b1) by apply lookup_insert_eq. rewrite insert_insert_eq. eexists. split; [reflexivity|].
    rewrite E0 in Hl. destruct l as [|y l]; [|by destruct Hl as (_ & ? & _)]. split.
    + intros x Hx. apply not_elem_of_cons in Hx as [Hx _]. by rewrite lookup_insert_ne.
    + intros x c Hx Ec. apply list_elem_of_singleton in Hx as ->. rewrite lookup_insert_eq. assert (c = b) as -> by congruence. by rewrite E0.
  - assert (links (<[p := b1]> m) = links m) as El by (by eapply links_insert_same).
    destruct (IH (<[p := b1]> m) (next b) fuel) as (m' & E & Hout & Hin).
    + by rewrite El.
    + by intros ->.
    + done.
    + rewrite rest_insert_ne by done. unfold rest. by rewrite Et.
    + rewrite lookup_insert_ne by congruence. eauto.
    + cbn in Hf. lia.
    + exists m'. split; [done|]. split.
      * intros x Hx. apply not_elem_of_cons in Hx as [Hx Hx']. rewrite Hout by done. by rewrite lookup_insert_ne.
      * intros x c Hx Ec. apply elem_of_cons in Hx as [->|Hx].
        -- rewrite Hout by done. rewrite lookup_insert_eq. assert (c = b) as -> by congruence. subst b1. destruct (Z.eqb_spec (next b) 0); [done|].
           by destruct b.
        -- apply Hin; [done|]. rewrite lookup_insert_ne; [done|]. by intros ->.
Qed.

Lemma seg_end N p l : seg N p l -> l <> [] -> exists e, e ∈ l /\ N !! e = Some 0 /\ forall x, x ∈ l -> N !! x = Some 0 -> x = e.
Proof.
  revert p. induction l as [|y l IH]; intros p H Hne; [done|]. destruct H as (-> & Hp & n & En & H). destruct (decide (l = [])) as [->|Hl].
  - cbn in H. subst n. exists p. split; [by left|]. split; [done|]. by intros x ->%list_elem_of_singleton _.
  - destruct (IH n H Hl) as (e & He & Ee & Hu). exists e. split; [by right|]. split; [done|].
    intros x [->|Hx]%elem_of_cons Ex; [|by apply Hu]. assert (n = 0) as -> by congruence. destruct l; [done|]. by destruct H as (_ & ? & _).
Qed.

Lemma seg_next_in N p l x n : seg N p l -> x ∈ l -> N !! x = Some n -> n <> 0 -> n ∈ l.
Proof.
  revert p. induction l as [|y l IH]; intros p Hl Hx En Hn; [by apply not_elem_of_nil in Hx|].
  destruct Hl as (-> & _ & v & Ev & Hl). right. apply elem_of_cons in Hx as [->|Hx]; [|by apply (IH v)].
  assert (v = n) as -> by congruence. destruct l as [|z l]; [done|]. destruct Hl as (-> & _). by left.
Qed.

(** Total lengths fall along a chain. *)
Lemma chain_tot m own p l b x c :
  Inv m own -> seg (links m) p l -> m !! p = Some b -> x ∈ l -> m !! x = Some c -> tot_len c <= tot_len b.
Proof.
  intros HI. revert p b. induction l as [|y l IH]; intros p b Hl Eb Hx Ec; [by apply not_elem_of_nil in Hx|].
  destruct Hl as (-> & Hp & n & En & Hl). apply elem_of_cons in Hx as [->|Hx]; [assert (c = b) as -> by congruence; lia|].
  apply links_lookup_inv in En as (b' & Eb' & <-). assert (b' = b) as -> by congruence.
  destruct (inv_len _ _ HI p b Eb) as (? & Et & _). destruct l as [|z l]; [by apply not_elem_of_nil in Hx|]. pose proof Hl as Hl'.
  destruct Hl as (-> & _ & v & Ev & _). apply links_lookup_inv in Ev as (bn & Ebn & _). unfold rest in Et. rewrite Ebn in Et.
  specialize (IH (next b) bn Hl' Ebn Hx Ec). lia.
Qed.

Lemma inv_tot_nonneg m own p b : Inv m own -> m !! p = Some b -> 0 <= tot_len b.
Proof.
  intros HI Eb. destruct (shape_ends _ (inv_shape _ _ HI) p) as [l Hl]; [rewrite (links_lookup _ _ _ Eb); eauto|].
  revert p b Eb Hl. induction l as [|y l IH]; intros p b Eb Hl; [cbn in Hl; subst p; by rewrite (inv_null m own HI) in Eb|].
  destruct Hl as (-> & _ & n & En & Hl). destruct (inv_len _ _ HI p b Eb) as (? & -> & _). unfold rest.
  rewrite (links_lookup _ _ _ Eb) in En. injection En as <-. destruct (m !! next b) as [c|] eqn:Ec; [|lia]. specialize (IH _ c Ec Hl). lia.
Qed.

Lemma rest_nonneg m own p : Inv m own -> 0 <= rest m p.
Proof. intros HI. unfold rest. destruct (m !! p) eqn:E; [by eapply inv_tot_nonneg|lia]. Qed.

Lemma catted_links m m' l h t d :
  m !! 0 = None -> seg (links m) h l -> l <> [] -> catted l t d m m' -> exists e, e ∈ l /\ links m !! e = Some 0 /\ links m' = <[e := t]> (links m).
Proof.
  intros H0 Hl Hne [Hout Hin]. destruct (seg_end _ _ _ Hl Hne) as (e & He & Ee & Hu). exists e. split; [done|]. split; [done|].
  apply map_eq. intros x. destruct (decide (x ∈ l)) as [Hx|Hx].
  - destruct (seg_dom _ _ _ _ Hl Hx) as [n En]. pose proof En as En'. apply links_lookup_inv in En' as (b & Eb & <-).
    unfold links at 1. rewrite lookup_fmap, (Hin x b Hx Eb). cbn. destruct (decide (x = e)) as [->|Hxe].
    + rewrite lookup_insert_eq. assert (next b = 0) as -> by congruence. done.
    + rewrite lookup_insert_ne, En by congruence. destruct (Z.eqb_spec (next b) 0) as [E|]; [|done]. rewrite E in En. by apply Hu in En.
  - rewrite lookup_insert_ne by (by intros ->). unfold links. by rewrite !lookup_fmap, Hout.
Qed.

Lemma catted_inv m m' own l h t bh bt :
  Inv m (t :: own) -> m !! h = Some bh -> m !! t = Some bt -> h <> t ->
  occ h (pointers (links m)) = 0 -> occ t (pointers (links m)) = 0 -> tot_len bh + tot_len bt <= 65535 ->
  seg (links m) h l -> catted l t (tot_len bt) m m' -> Inv m' own.
Proof.
  intros HI Eh Et Hne Oh Ot Hsum Hl HC. pose proof (inv_null _ _ HI) as H0. pose proof (inv_nonzero _ _ _ _ HI Eh) as Hh.
  assert (l <> []) as Hl0 by (by intros ->). destruct (catted_links m m' l h t _ H0 Hl Hl0 HC) as (e & He & Ee & EN).
  pose proof (inv_nonzero _ _ _ _ HI Et) as Ht0. assert (t ∉ l) as Htl by (by eapply seg_root).
  destruct HC as [Hout Hin]. pose proof (inv_shape _ _ HI) as HS.
  assert (forall x, is_Some (m' !! x) <-> is_Some (m !! x)) as Hdom.
  { intros x. destruct (decide (x ∈ l)) as [Hx|Hx]; [|by rewrite Hout]. destruct (seg_dom _ _ _ _ Hl Hx) as [n En].
    apply links_lookup_inv in En as (b & Eb & _). rewrite (Hin x b Hx Eb), Eb. split; eauto. }
  assert (rest m' t = tot_len bt) as Ert by (unfold rest; by rewrite Hout, Et).
  pose proof (inv_own _ _ HI) as Ho. apply Forall_cons_1 in Ho as [_ Ho].
  destruct (shape_ends _ HS t) as [lt Hlt]; [rewrite (links_lookup _ _ _ Et); eauto|].
  split.
  - rewrite EN. apply (shape_link _ e t lt); try done. intros Hin'. by apply (seg_apart (links m) h l t lt HS Hl Oh Hlt Htl e).
  - eapply Forall_impl; [exact Ho|]. cbn. intros x Hx. by apply Hdom.
  - intros x c Ec. assert (exists b, m !! x = Some b /\ ref c = ref b) as (b & Eb & ->).
    { destruct (proj1 (Hdom x)) as [b Eb]; [eauto|]. exists b. split; [done|]. destruct (decide (x ∈ l)) as [Hx|Hx].
      - rewrite (Hin x b Hx Eb) in Ec. by injection Ec as <-.
      - rewrite Hout in Ec by done. congruence. }
    destruct (inv_ref _ _ HI x b Eb) as [-> ?]. split; [|done]. pose proof (pointers_insert (links m) e t 0 Ee) as HP.
    apply (occ_perm x) in HP. rewrite <- EN, !occ_cons in HP. rewrite !occ_app, !occ_cons. pose proof (inv_nonzero _ _ _ _ HI Eb).
    destruct (decide (0 = x)); [congruence|]. lia.
  - intros x c Ec. destruct (proj1 (Hdom x)) as [b Eb]; [eauto|]. destruct (inv_len _ _ HI x b Eb) as (Hb & Etot & Hle).
    destruct (decide (x ∈ l)) as [Hx|Hx].
    + pose proof (chain_tot m _ h l bh x b HI Hl Eh Hx Eb) as Hle'. pose proof (inv_tot_nonneg _ _ _ _ HI Eb).
      pose proof (inv_tot_nonneg _ _ _ _ HI Et). rewrite (Hin x b Hx Eb) in Ec. injection Ec as <-. cbn. rewrite u16_small by word_lia.
      split; [done|]. split; [|lia]. destruct (Z.eqb_spec (next b) 0) as [E|E].
      * rewrite E in Etot. unfold rest in Etot at 1. rewrite H0 in Etot. lia.
      * pose proof (seg_next_in _ _ _ _ _ Hl Hx (links_lookup _ _ _ Eb) E) as Hn.
        destruct (seg_dom _ _ _ _ Hl Hn) as [n En]. apply links_lookup_inv in En as (bn & Ebn & _).
        pose proof (chain_tot m _ h l bh _ bn HI Hl Eh Hn Ebn). pose proof (inv_tot_nonneg _ _ _ _ HI Ebn).
        unfold rest in *. rewrite (Hin _ bn Hn Ebn). rewrite Ebn in Etot. cbn. rewrite u16_small by word_lia. lia.
    + rewrite Hout in Ec by done. assert (c = b) as -> by congruence. split; [done|]. split; [|done]. rewrite Etot. f_equal. unfold rest.
      rewrite Hout; [done|]. intros Hn. apply Hx.
      assert (next b <> h) as Hnh by (intros E; apply occ_zero in Oh; apply Oh, pointers_elem; exists x; rewrite (links_lookup _ _ _ Eb); by f_equal).
      destruct (seg_pred _ _ _ _ Hl Hn Hnh) as (y & Hy & Ey). pose proof (seg_elem _ _ _ _ Hl Hn) as [Hn0 _].
      by rewrite <- (shape_inj _ y x _ HS Hn0 Ey (links_lookup _ _ _ Eb)).
Qed.

Lemma seg_links_length m p l : seg (links m) p l -> (length l <= size m)%nat.
Proof. intros H. apply seg_length in H. unfold links in H. by rewrite map_size_fmap in H. Qed.

(** [pbuf_cat] joins two packets; the caller's reference to the second is used up. *)
Lemma pbuf_cat_inv m own h t bh bt :
  Inv m (t :: own) -> m !! h = Some bh -> m !! t = Some bt -> h <> t ->
  occ h (pointers (links m)) = 0 -> occ t (pointers (links m)) = 0 -> tot_len bh + tot_len bt <= 65535 ->
  runs (pbuf_cat h t) m (fun _ m' => Inv m' own /\ exists l, seg (links m) h l /\ catted l t (tot_len bt) m m').
Proof.
  intros HI Eh Et Hne Oh Ot Hsum. pose proof (inv_nonzero _ _ _ _ HI Eh). pose proof (inv_nonzero _ _ _ _ HI Et).
  unfold pbuf_cat. replace (h =? 0) with false by lia. replace (t =? 0) with false by lia. cbn [orb]. unfold walk.
  destruct (shape_ends _ (inv_shape _ _ HI) h) as [l Hl]; [rewrite (links_lookup _ _ _ Eh); eauto|].
  destruct (cat_loop_done l (S (size m)) m h t (tot_len bt) Hl) as (m' & E & HC).
  - by intros ->.
  - by eapply seg_root.
  - unfold rest. by rewrite Et.
  - eauto.
  - pose proof (seg_links_length m h l Hl). lia.
  - apply runs_done. exists tt, m'. split; [done|]. split; [by apply (catted_inv m m' own l h t bh bt)|eauto].
Qed.

Lemma pbuf_chain_inv m own h t bh bt :
  Inv m (t :: own) -> m !! h = Some bh -> m !! t = Some bt -> h <> t ->
  occ h (pointers (links m)) = 0 -> occ t (pointers (links m)) = 0 -> tot_len bh + tot_len bt <= 65535 -> ref bt < 65535 ->
  runs (pbuf_chain h t) m (fun _ m' => Inv m' (t :: own)).
Proof.
  intros HI Eh Et Hne Oh Ot Hsum Hr. unfold pbuf_chain. apply wpe_bind.
  eapply runs_mono; [by eapply pbuf_cat_inv|]. cbv beta. intros _ m' (HI' & l & Hl & HC & _).
  apply (pbuf_ref_inv m' own t bt); try done. rewrite HC; [done|]. by eapply seg_root.
Qed.

(** The invariant without the lengths, and the lengths when the total length
    of [q] is to be [v]. *)
Record Refs (m : Pbufs) (own : list Z) : Prop := {
  refs_shape : shape (links m);
  refs_own : Forall (fun p => is_Some (m !! p)) own;
  refs_ref p b : m !! p = Some b -> ref b = occ p (own ++ pointers (links m)) /\ 1 <= ref b <= 65535
}.

Definition Lens (m : Pbufs) (q v : Z) : Prop :=
  forall p b, m !! p = Some b ->
    0 <= len b /\ tot_len b = len b + (if next b =? q then v else rest m (next b)) /\ tot_len b <= 65535.

Lemma inv_refs m own : Inv m own -> Refs m own.
Proof. intros HI. split; apply HI. Qed.

(** Nothing that is in the state depends on the total length of a first buffer. *)
Lemma lens_root m own p v : Inv m own -> occ p (pointers (links m)) = 0 -> Lens m p v.
Proof.
  intros HI Hp x b Eb. destruct (inv_len _ _ HI x b Eb) as (? & ? & ?). split; [done|]. split; [|done].
  destruct (Z.eqb_spec (next b) p) as [E|]; [|done]. apply occ_zero in Hp. exfalso. apply Hp, pointers_elem. exists x.
  rewrite (links_lookup _ _ _ Eb). by f_equal.
Qed.

Lemma refs_null m own : Refs m own -> m !! 0 = None.
Proof.
  intros HR. destruct (m !! 0) as [c|] eqn:E; [|done]. apply links_lookup in E. by rewrite (shape_null _ (refs_shape _ _ HR)) in E.
Qed.

Lemma refs_update m own p b b' :
  Refs m own -> m !! p = Some b -> next b' = next b -> ref b' = ref b -> Refs (<[p := b']> m) own.
Proof.
  intros [HS Ho Hc] Eb En Er. assert (links (<[p := b']> m) = links m) as EN by (by eapply links_insert_same). split.
  - by rewrite EN.
  - eapply Forall_impl; [exact Ho|]. cbn. intros x Hx. apply lookup_insert_is_Some'. auto.
  - intros x c Ec. rewrite EN. destruct (decide (x = p)) as [->|].
    + rewrite lookup_insert_eq in Ec. injection Ec as <-. rewrite Er. by apply Hc.
    + rewrite lookup_insert_ne in Ec by congruence. by apply Hc.
Qed.

(** The chain is cut behind [p]; the pointer to the rest is held outside. *)
Lemma inv_cut m own p b b' :
  Refs m own -> Lens m p (tot_len b') -> m !! p = Some b ->
  next b' = 0 -> ref b' = ref b -> 0 <= len b' <= 65535 -> tot_len b' = len b' ->
  Inv (<[p := b']> m) (hold (next b) own).
Proof.
  intros HR HL Eb Hn Hr Hl Ht. pose proof (refs_null _ _ HR) as H0. destruct HR as [HS Ho Hc]. pose proof (links_lookup m p b Eb) as En.
  assert (links (<[p := b']> m) = <[p := 0]> (links m)) as EN by (by rewrite links_insert, Hn). split.
  - rewrite EN. by eapply shape_cut.
  - assert (Forall (fun x => is_Some (<[p := b']> m !! x)) own) as Ho'.
    { eapply Forall_impl; [exact Ho|]. cbn. intros x Hx. apply lookup_insert_is_Some'. auto. }
    unfold hold. destruct (Z.eqb_spec (next b) 0); [done|]. constructor; [|done]. apply lookup_insert_is_Some'. right.
    destruct (shape_next _ _ _ HS En) as [|[v Ev]]; [done|]. apply links_lookup_inv in Ev as (c & Ec & _). eauto.
  - intros x c Ec. assert (exists d, m !! x = Some d /\ ref c = ref d) as (d & Ed & ->).
    { destruct (decide (x = p)) as [->|]; [rewrite lookup_insert_eq in Ec; injection Ec as <-; eauto|]. rewrite lookup_insert_ne in Ec by congruence. eauto. }
    destruct (Hc x d Ed) as [-> ?]. split; [|done]. rewrite EN. pose proof (pointers_insert (links m) p 0 (next b) En) as HP.
    apply (occ_perm x) in HP. rewrite !occ_cons in HP. rewrite !occ_app. destruct (decide (0 = x)) as [<-|]; [congruence|].
    unfold hold. destruct (Z.eqb_spec (next b) 0) as [E|E]; [|rewrite occ_cons; lia]. rewrite E in HP. destruct (decide (0 = x)); [congruence|lia].
  - intros x c Ec. destruct (decide (x = p)) as [->|Hxp].
    + rewrite lookup_insert_eq in Ec. injection Ec as <-. rewrite Hn, rest_insert_ne by (intros <-; congruence). unfold rest. rewrite H0. lia.
    + rewrite lookup_insert_ne in Ec by congruence. destruct (HL x c Ec) as (? & Et & ?). split; [done|]. split; [|done].
      destruct (Z.eqb_spec (next c) p) as [E|E]; [|by rewrite rest_insert_ne]. rewrite Et, E. unfold rest. by rewrite lookup_insert_eq.
Qed.

(** The first buffer of a packet is separated; its reference to the rest is given back. *)
Lemma pbuf_dechain_inv m own p b :
  Inv m own -> m !! p = Some b -> occ p (pointers (links m)) = 0 -> runs (pbuf_dechain p) m (fun _ m' => Inv m' own).
Proof.
  intros HI Eb Hp. unfold pbuf_dechain. xderef Eb. destruct (Z.eqb_spec (next b) 0) as [E|E].
  { kret. done. }
  destruct (shape_next _ _ _ (inv_shape _ _ HI) (links_lookup _ _ _ Eb)) as [|[v Ev]]; [done|].
  apply links_lookup_inv in Ev as (c & Ec & _). destruct (inv_len _ _ HI p b Eb) as (Hl & Et & Hle). unfold rest in Et. rewrite Ec in Et.
  assert (next b <> p) as Hnp by (intros E'; apply occ_zero in Hp; apply Hp, pointers_elem; exists p; rewrite (links_lookup _ _ _ Eb); by f_equal).
  pose proof (inv_tot_nonneg _ _ _ _ HI Ec).
  xupdate Ec. replace (set_tot_len (u16 (tot_len b - len b)) c) with c by (replace (tot_len b - len b) with (tot_len c) by lia; rewrite u16_small by word_lia; by destruct c).
  rewrite insert_id by done. xupdate Eb.
  apply wpe_bind. eapply runs_mono; [apply (pbuf_free_inv _ own)|cbv beta; intros; kret; done].
  apply (inv_cut m own p b); [by apply inv_refs|by eapply lens_root|done|done|done|cbn; lia|done].
Qed.

(** Stepping over the buffers that stay: their total lengths become what is left of the new length. *)
Lemma realloc_loop_done l fuel m own q rem grow b :
  Refs m own -> Lens m q rem -> seg (links m) q l -> m !! q = Some b -> (length l <= fuel)%nat ->
  0 <= rem < tot_len b -> grow = rem - tot_len b ->
  exists m' q' rem' b', realloc_loop fuel q rem grow m = Done (q', rem') m' /\
    Refs m' own /\ Lens m' q' rem' /\ m' !! q' = Some b' /\ 0 <= rem' <= Z.min rem (len b') /\ links m' = links m.
Proof.
  revert fuel m q rem grow b. induction l as [|y l IH]; intros fuel m q rem grow b HR HL Hl Eb Hf Hrem Hg.
  { cbn in Hl. subst q. by rewrite (refs_null _ _ HR) in Eb. }
  destruct fuel as [|fuel]; [cbn in Hf; lia|]. pose proof (seg_nodup _ _ _ Hl) as [Hq _]%NoDup_cons. destruct Hl as (-> & Hq0 & n & En & Hl).
  rewrite (links_lookup _ _ _ Eb) in En. injection En as <-. cbn [realloc_loop]. rewrite (bind_done _ _ _ _ _ (deref_done m q b Eb)).
  destruct (HL q b Eb) as (Hlen & Htot & Hle). destruct (Z.ltb_spec (len b) rem) as [Hlt|Hge].
  2: { exists m, q, rem, b. split; [done|]. do 3 (split; [done|]). split; [lia|done]. }
  destruct l as [|y l].
  { cbn in Hl. rewrite Hl in Htot. destruct (Z.eqb_spec 0 q); [congruence|]. unfold rest in Htot. rewrite (refs_null _ _ HR) in Htot. lia. }
  pose proof Hl as (-> & Hn0 & v & Ev & _). apply links_lookup_inv in Ev as (bn & Ebn & _).
  assert (next b <> q) as Hnq by (intros E; apply Hq; rewrite E; by left).
  replace (next b =? q) with false in Htot by lia. unfold rest in Htot. rewrite Ebn in Htot.
  rewrite (bind_done _ _ _ _ _ (upd_done m q b _ Eb)). subst grow.
  replace (u16 (tot_len b + u16 (rem - tot_len b))) with rem by word_lia. rewrite (u16_small (rem - len b)) by word_lia.
  set (b1 := set_tot_len rem b). assert (links (<[q := b1]> m) = links m) as EN by (by eapply links_insert_same).
  destruct (IH fuel (<[q := b1]> m) (next b) (rem - len b) (rem - tot_len b) bn) as (m' & q' & rem' & b' & E & HR' & HL' & Eb' & Hr' & EN').
  - by eapply refs_update.
  - intros x c Ec. destruct (decide (x = q)) as [->|Hxq].
    + rewrite lookup_insert_eq in Ec. injection Ec as <-. cbn. rewrite Z.eqb_refl. lia.
    + rewrite lookup_insert_ne in Ec by congruence. destruct (HL x c Ec) as (? & Et & ?). split; [done|]. split; [|done].
      destruct (Z.eqb_spec (next c) (next b)) as [E|E].
      { exfalso. apply Hxq. by apply (shape_inj (links m) x q (next b) (refs_shape _ _ HR) Hn0);
          [rewrite (links_lookup _ _ _ Ec), E|apply links_lookup]. }
      destruct (Z.eqb_spec (next c) q) as [E'|E']; [rewrite E'; unfold rest; by rewrite lookup_insert_eq|by rewrite rest_insert_ne].
  - by rewrite EN.
  - by rewrite lookup_insert_ne by congruence.
  - cbn in Hf |- *. lia.
  - lia.
  - lia.
  - exists m', q', rem', b'. rewrite EN'. do 4 (split; [done|]). split; [lia|done].
Qed.

Lemma size_insert_some (m : Pbufs) p b b' : m !! p = Some b -> size (<[p := b']> m) = size m.
Proof. intros E. by rewrite map_size_insert, E. Qed.

(** The rest of a chain is freed before the pointer to it is cleared. *)
Lemma free_then_cut m own q b3 b' :
  m !! q = Some b' -> next b3 = next b' -> next b' <> 0 ->
  Inv (<[q := set_next 0 b3]> m) (next b' :: own) -> (exists l, seg (links m) q l) ->
  runs (_ ← pbuf_free (next b'); update q (set_next 0)) (<[q := b3]> m) (fun _ m' => Inv m' own).
Proof.
  intros Eb En Hn HI [l Hl]. destruct l as [|y l].
  { cbn in Hl. subst q. pose proof (inv_null _ _ HI) as H0. by rewrite lookup_insert_eq in H0. }
  pose proof (seg_nodup _ _ _ Hl) as [Hq _]%NoDup_cons. destruct Hl as (-> & Hq0 & n & E & Hl).
  rewrite (links_lookup _ _ _ Eb) in E. injection E as <-.
  assert (seg (links (<[q := set_next 0 b3]> m)) (next b') l) as Hl' by (rewrite links_insert; by apply seg_insert_notin).
  pose proof (pbuf_free_inv (<[q := set_next 0 b3]> m) own (next b')) as Hfree. unfold hold in Hfree.
  destruct (Z.eqb_spec (next b') 0); [done|]. apply runs_done in Hfree as (r & m' & E & HI'); [|done].
  unfold pbuf_free, walk in E. erewrite size_insert_some in E by done.
  assert (is_Some (<[q := set_next 0 b3]> m !! q)) as Hs by (rewrite lookup_insert_eq; eauto).
  pose proof (free_loop_frame _ _ _ _ _ q b3 r m' Hl' Hq Hs E) as E3. pose proof (free_loop_frame _ _ _ _ _ q (set_next 0 b3) r m' Hl' Hq Hs E) as E4.
  rewrite insert_insert_eq in E3, E4. rewrite E in E4. injection E4 as E4.
  eapply runs_bind_done; [unfold pbuf_free, walk; erewrite size_insert_some by done; exact E3|]. cbv beta.
  unfold runs, wpe. rewrite (upd_done _ q b3) by apply lookup_insert_eq. by rewrite insert_insert_eq, <- E4.
Qed.

(** A packet is cut to a smaller length; the buffers that are not needed are freed. *)
Lemma pbuf_realloc_inv m own p b n :
  Inv m own -> m !! p = Some b -> occ p (pointers (links m)) = 0 -> 0 <= n -> runs (pbuf_realloc p n) m (fun _ m' => Inv m' own).
Proof.
  intros HI Eb Hp Hn. unfold pbuf_realloc. xderef Eb. destruct (Z.leb_spec (tot_len b) n) as [|Hlt]; [by kret|].
  destruct (shape_ends _ (inv_shape _ _ HI) p) as [l Hl]; [rewrite (links_lookup _ _ _ Eb); eauto|].
  pose proof (seg_links_length _ _ _ Hl).
  destruct (realloc_loop_done l (S (size m)) m own p n (n - tot_len b) b (inv_refs _ _ HI)) as (m1 & q & rem & bq & E & HR & HL & Eq & Hrem & EN);
    [by eapply lens_root|done|done|lia|lia|done|].
  eapply runs_bind_done; [exact E|]. cbv beta iota. xderef Eq.
  set (b2 := if (type bq =? PBUF_RAM) && negb (rem =? len bq) then set_room (ztake (payload bq + rem) (room bq)) bq else bq).
  eapply (runs_bind_done _ _ m1 tt (<[q := b2]> m1)).
  { unfold b2. destruct (_ && _); [by rewrite (upd_done m1 q bq)|by rewrite insert_id]. }
  set (b3 := set_tot_len rem (set_len rem b2)). cbv beta.
  eapply runs_bind_done; [apply upd_done, lookup_insert_eq|]. cbv beta. rewrite insert_insert_eq.
  eapply runs_bind_done; [apply upd_done, lookup_insert_eq|]. cbv beta. rewrite insert_insert_eq. fold b3.
  assert (next b3 = next bq) as En3 by (subst b3 b2; by destruct (_ && _)).
  assert (ref b3 = ref bq) as Er3 by (subst b3 b2; by destruct (_ && _)).
  assert (Inv (<[q := set_next 0 b3]> m1) (hold (next bq) own)) as HI'.
  { destruct (inv_len _ _ HI p b Eb) as (_ & _ & Hb65). apply (inv_cut m1 own q bq); try done; [cbn; lia]. }
  destruct (Z.eqb_spec (next bq) 0) as [E0|E0].
  - unfold hold in HI'. rewrite E0 in HI'. cbn in HI'. eapply runs_bind_done; [reflexivity|]. cbv beta.
    unfold runs, wpe. rewrite (upd_done _ q b3) by apply lookup_insert_eq. by rewrite insert_insert_eq.
  - unfold hold in HI'. replace (next bq =? 0) with false in HI' by lia.
    assert (exists l, seg (links m1) q l) as Hseg by (apply (shape_ends _ (refs_shape _ _ HR)); rewrite (links_lookup _ _ _ Eq); eauto).
    pose proof (free_then_cut m1 own q b3 bq Eq En3 E0 HI' Hseg) as Hf. clear - Hf. unfold runs, wpe, mbind, M_bind, mret, M_ret in *.
    by destruct (pbuf_free (next bq) _).
Qed.

(** * Headers and allocation *)

Lemma refs_lens_inv m own : Refs m own -> Lens m 0 0 -> Inv m own.
Proof.
  intros HR HL. pose proof (refs_null _ _ HR) as H0. destruct HR. split; try done. intros p b Eb. destruct (HL p b Eb) as (? & Et & ?).
  split; [done|]. split; [|done]. destruct (Z.eqb_spec (next b) 0) as [E|]; [|done]. unfold rest. by rewrite E, H0.
Qed.

Lemma inv_root_lens m own p b b' :
  Inv m own -> m !! p = Some b -> occ p (pointers (links m)) = 0 -> next b' = next b -> ref b' = ref b ->
  0 <= len b' -> tot_len b' - len b' = tot_len b - len b -> tot_len b' <= 65535 -> Inv (<[p := b']> m) own.
Proof.
  intros HI Eb Hp En Er Hl Ht Hle. apply refs_lens_inv; [eapply refs_update; [by apply inv_refs|done..]|].
  pose proof (lens_root m own p 0 HI Hp) as HL. pose proof (inv_null _ _ HI) as H0. intros x c Ec.
  assert (forall y d, m !! y = Some d -> next d <> p) as Hnp.
  { intros y d Ed E. apply occ_zero in Hp. apply Hp, pointers_elem. exists y. rewrite (links_lookup _ _ _ Ed). by f_equal. }
  destruct (decide (x = p)) as [->|Hxp].
  - rewrite lookup_insert_eq in Ec. injection Ec as <-. destruct (inv_len _ _ HI p b Eb) as (? & Et & ?). rewrite En, rest_insert_ne by (by eapply Hnp).
    split; [done|]. split; [|done]. destruct (Z.eqb_spec (next b) 0) as [E|]; [|lia]. rewrite E in Et. unfold rest in Et. rewrite H0 in Et. lia.
  - rewrite lookup_insert_ne in Ec by congruence. destruct (inv_len _ _ HI x c Ec) as (? & Et & ?). split; [done|]. split; [|done].
    rewrite rest_insert_ne by (by eapply Hnp). destruct (Z.eqb_spec (next c) 0) as [E|]; [|lia]. rewrite E in Et. unfold rest in Et. rewrite H0 in Et. lia.
Qed.

Lemma pbuf_header_inv m own p b inc :
  Inv m own -> m !! p = Some b -> occ p (pointers (links m)) = 0 -> -32768 <= inc < 32768 -> tot_len b + inc <= 65535 ->
  runs (pbuf_header p inc) m (fun _ m' => Inv m' own).
Proof.
  intros HI Eb Hp Hinc Htot. unfold pbuf_header. destruct ((inc =? 0) || (p =? 0)); [by kret|]. xderef Eb.
  destruct ((inc <? 0) && (len b <? u16 (- inc))) eqn:Eneg; [by kret|].
  destruct (inv_len _ _ HI p b Eb) as (Hl & Et & Hle). pose proof (rest_nonneg m own (next b) HI).
  assert (0 <= len b + inc) as Hpos.
  { apply andb_false_iff in Eneg as [?%Z.ltb_ge|?%Z.ltb_ge]; [lia|]. destruct (Z.le_ge_cases 0 inc); [lia|]. rewrite u16_small in * by word_lia. lia. }
  assert (forall v, Inv (<[p := set_tot_len (u16 (tot_len b + inc)) (set_len (u16 (len b + inc)) (set_payload v b))]> m) own) as Hdone.
  { intros v. rewrite !u16_small by word_lia. apply (inv_root_lens m own p b); try done; cbn; lia. }
  destruct ((type b =? PBUF_RAM) || (type b =? PBUF_POOL)).
  - xupdate Eb. destruct (payload b - inc <? 0).
    + eapply runs_bind_done; [apply upd_done, lookup_insert_eq|]. cbv beta. rewrite insert_insert_eq. kret.
      rewrite insert_id; [done|]. by destruct b.
    + eapply runs_bind_done; [apply upd_done, lookup_insert_eq|]. cbv beta. rewrite insert_insert_eq.
      eapply runs_bind_done; [apply upd_done, lookup_insert_eq|]. cbv beta. rewrite insert_insert_eq. kret. apply Hdone.
  - destruct ((type b =? PBUF_REF) || (type b =? PBUF_ROM)); [|by kret]. destruct (inc <? 0); [|by kret]. xupdate Eb.
    eapply runs_bind_done; [apply upd_done, lookup_insert_eq|]. cbv beta. rewrite insert_insert_eq.
    eapply runs_bind_done; [apply upd_done, lookup_insert_eq|]. cbv beta. rewrite insert_insert_eq. kret. apply Hdone.
Qed.

Lemma refs_unheld m own p : Refs m own -> p <> 0 -> m !! p = None -> occ p (own ++ pointers (links m)) = 0.
Proof.
  intros HR Hp E. apply occ_zero. intros [Hin|Hin]%elem_of_app.
  - pose proof (refs_own _ _ HR) as Ho. rewrite Forall_forall in Ho. destruct (Ho p Hin). congruence.
  - apply pointers_elem in Hin as [q Eq]. destruct (shape_next _ _ _ (refs_shape _ _ HR) Eq) as [|[v Ev]]; [done|].
    apply links_lookup_inv in Ev as (? & ? & _). congruence.
Qed.

Lemma refs_new m own p b :
  Refs m own -> p <> 0 -> m !! p = None -> next b = 0 -> ref b = 1 -> Refs (<[p := b]> m) (p :: own).
Proof.
  intros HR Hp E Hn Hr. pose proof (refs_unheld m own p HR Hp E) as Hocc.
  assert (links m !! p = None) as EN by (unfold links; by rewrite lookup_fmap, E). destruct HR as [HS Ho Hc]. split.
  - rewrite links_insert, Hn. by apply shape_new.
  - constructor; [rewrite lookup_insert_eq; eauto|]. eapply Forall_impl; [exact Ho|]. cbn. intros x Hx. apply lookup_insert_is_Some'. auto.
  - intros x c Ec. rewrite links_insert, Hn. cbn [app]. rewrite occ_cons, occ_app, (pointers_new _ _ _ EN), occ_cons. rewrite occ_app in Hocc.
    destruct (decide (x = p)) as [->|Hxp].
    + rewrite lookup_insert_eq in Ec. injection Ec as <-. destruct (decide (p = p)), (decide (0 = p)); try done. lia.
    + rewrite lookup_insert_ne in Ec by congruence. destruct (Hc x c Ec) as [-> ?]. split; [|done]. rewrite occ_app. destruct (decide (p = x)); [congruence|].
      destruct (decide (0 = x)) as [<-|]; [|lia]. apply links_lookup in Ec. by rewrite (shape_null _ HS) in Ec.
Qed.

(** A new buffer is linked behind the last one of a chain. *)
Lemma refs_append m own r b q bq :
  Refs m own -> m !! r = Some b -> next b = 0 -> q <> 0 -> m !! q = None -> next bq = 0 -> ref bq = 1 ->
  Refs (<[r := set_next q b]> (<[q := bq]> m)) own.
Proof.
  intros HR Eb Hn Hq Eq Hnq Hrq. pose proof (refs_unheld m own q HR Hq Eq) as Hocc. pose proof (refs_new m own q bq HR Hq Eq Hnq Hrq) as [HS Ho Hc].
  assert (r <> q) as Hrq' by congruence. pose proof (refs_null _ _ HR) as H0. assert (r <> 0) as Hr0 by congruence.
  assert (<[q := bq]> m !! r = Some b) as Eb' by (by rewrite lookup_insert_ne by congruence).
  pose proof (links_lookup _ _ _ Eb') as Er. rewrite Hn in Er. rewrite occ_app in Hocc. pose proof (occ_nonneg q own). pose proof (occ_nonneg q (pointers (links m))).
  assert (links m !! q = None) as EN by (unfold links; by rewrite lookup_fmap, Eq).
  assert (seg (links (<[q := bq]> m)) q [q]) as Hseg.
  { cbn. split; [done|]. split; [done|]. exists 0. rewrite links_insert, lookup_insert_eq, Hnq. done. }
  assert (occ q (pointers (links (<[q := bq]> m))) = 0) as Hoq.
  { rewrite links_insert, (pointers_new _ _ _ EN), occ_cons, Hnq. destruct (decide (0 = q)); [congruence|lia]. }
  split.
  - rewrite links_insert. cbn [next set_next]. apply (shape_link _ r q [q]); try done. by intros ->%list_elem_of_singleton.
  - apply Forall_cons_1 in Ho as [_ Ho]. eapply Forall_impl; [exact Ho|]. cbn. intros x Hx. apply lookup_insert_is_Some'. auto.
  - intros x c Ec. assert (exists d, <[q := bq]> m !! x = Some d /\ ref c = ref d) as (d & Ed & ->).
    { destruct (decide (x = r)) as [->|]; [rewrite lookup_insert_eq in Ec; injection Ec as <-; eauto|]. rewrite lookup_insert_ne in Ec by congruence. eauto. }
    destruct (Hc x d Ed) as [-> ?]. split; [|done]. rewrite (links_insert (<[q := bq]> m)). cbn [next set_next app].
    pose proof (pointers_insert _ r q 0 Er) as HP. apply (occ_perm x) in HP. rewrite !occ_cons in HP. rewrite occ_cons, !occ_app.
    destruct (decide (0 = x)) as [<-|]; [|destruct (decide (q = x)); lia]. rewrite lookup_insert_ne, H0 in Ed by congruence. done.
Qed.

(** A chain that only one pointer refers to is freed as a whole. *)
Lemma free_fresh l fuel m p count :
  seg (links m) p l -> (forall x, x ∈ l -> exists b, m !! x = Some b /\ ref b = 1) -> (length l <= fuel)%nat ->
  exists c m', free_loop fuel p count m = Done c m' /\ forall x, m' !! x = if decide (x ∈ l) then None else m !! x.
Proof.
  revert fuel m p count. induction l as [|y l IH]; intros fuel m p count Hl Hr Hf.
  { cbn in Hl. subst p. exists count, m. destruct fuel; cbn; (split; [done|]); intros x; by destruct (decide (x ∈ [])) as [?%not_elem_of_nil|]. }
  destruct fuel as [|fuel]; [cbn in Hf; lia|]. pose proof (seg_nodup _ _ _ Hl) as [Hp _]%NoDup_cons. destruct Hl as (-> & Hp0 & n & En & Hl).
  destruct (Hr p) as (b & Eb & Er); [by left|]. rewrite (links_lookup _ _ _ Eb) in En. injection En as <-.
  cbn [free_loop]. replace (p =? 0) with false by lia.
  rewrite (bind_done _ _ _ _ _ (deref_done m p b Eb)), (bind_done _ _ _ _ _ (upd_done m p b _ Eb)), Er.
  change (u16 (1 - 1) =? 0) with true. cbv iota. unfold modify. erewrite bind_done by reflexivity. rewrite delete_insert_eq.
  destruct (IH fuel (delete p m) (next b) (u8 (count + 1))) as (c & m' & E & Hm').
  - rewrite links_delete. by apply seg_delete_notin.
  - intros x Hx. rewrite lookup_delete_ne by (by intros ->). apply Hr. by right.
  - cbn in Hf. lia.
  - exists c, m'. split; [done|]. intros x. rewrite Hm'. destruct (decide (x = p)) as [->|Hxp].
    + rewrite lookup_delete_eq. rewrite (decide_True (P := p ∈ p :: l)) by (by left). by case_decide.
    + rewrite lookup_delete_ne by congruence. destruct (decide (x ∈ l)) as [Hx|Hx].
      * rewrite (decide_True (P := x ∈ p :: l)); [done|by right].
      * rewrite (decide_False (P := x ∈ p :: l)); [done|]. by intros [?|?]%elem_of_cons.
Qed.

Lemma seg_snoc N p l r q :
  seg N p l -> r ∈ l -> N !! r = Some 0 -> q ∉ l -> q <> 0 -> seg (<[r := q]> (<[q := 0]> N)) p (l ++ [q]).
Proof.
  revert p. induction l as [|y l IH]; intros p Hl Hr Er Hq Hq0; [by apply not_elem_of_nil in Hr|].
  apply not_elem_of_cons in Hq as [Hqp Hq]. destruct Hl as (-> & Hp0 & n & En & Hl). cbn. split; [done|]. split; [done|].
  destruct (decide (r = p)) as [->|Hrp].
  - rewrite lookup_insert_eq. exists q. split; [done|]. assert (n = 0) as -> by congruence. destruct l as [|z l]; [|by destruct Hl as (_ & ? & _)].
    cbn. split; [done|]. split; [done|]. exists 0. rewrite lookup_insert_ne, lookup_insert_eq by congruence. done.
  - exists n. rewrite !lookup_insert_ne by congruence. split; [done|]. apply IH; try done. by apply elem_of_cons in Hr as [?|?].
Qed.

(** The lengths while a chain is allocated: behind its last buffer [r] [rem] bytes are to come. *)
Definition Tail (m : Pbufs) (r rem : Z) : Prop :=
  forall x b, m !! x = Some b ->
    0 <= len b /\ tot_len b = len b + (if x =? r then rem else rest m (next b)) /\ tot_len b <= 65535.

(** The chain [l] from [p] to [r] has been allocated in [m0]. *)
Record Growing (m0 m : Pbufs) (own : list Z) (p : Z) (l : list Z) (r rem : Z) : Prop := {
  gr_seg : seg (links m) p l;
  gr_last : r ∈ l /\ links m !! r = Some 0;
  gr_old x : x ∉ l -> m !! x = m0 !! x;
  gr_new x : x ∈ l -> m0 !! x = None /\ exists b, m !! x = Some b /\ ref b = 1;
  gr_refs : Refs m (p :: own);
  gr_tail : Tail m r rem
}.

Lemma growing_step m0 m own p l r rem q k rm :
  Growing m0 m own p l r rem -> m !! q = None -> 0 < q -> 0 <= k <= rem -> rem <= 65535 ->
  exists br, m !! r = Some br /\
    let bq := mkPbuf 0 0 rem k PBUF_POOL 0 1 rm in
    Growing m0 (<[r := set_next q br]> (<[q := bq]> m)) own p (l ++ [q]) q (rem - k).
Proof.
  intros [Hseg [Hr Er] Hold Hnew HR HT] Eq Hq Hk Hrem. pose proof Er as Er'. apply links_lookup_inv in Er' as (br & Ebr & Hbn).
  exists br. split; [done|]. set (bq := mkPbuf _ _ _ _ _ _ _ _). cbv zeta.
  assert (q ∉ l) as Hql by (intros Hin; destruct (Hnew q Hin) as (_ & ? & ? & _); congruence). assert (r <> q) as Hrq by congruence.
  pose proof (refs_append m (p :: own) r br q bq HR Ebr Hbn ltac:(lia) Eq eq_refl eq_refl) as HR'.
  assert (links (<[r := set_next q br]> (<[q := bq]> m)) = <[r := q]> (<[q := 0]> (links m))) as EN by (by rewrite !links_insert).
  split.
  - rewrite EN. apply seg_snoc; (done || lia).
  - split; [apply elem_of_app; right; by left|]. rewrite EN, lookup_insert_ne, lookup_insert_eq by congruence. done.
  - intros x [Hx Hxq]%not_elem_of_app. assert (x <> q) by (intros ->; apply Hxq; by left). rewrite !lookup_insert_ne by (congruence || by intros ->).
    by apply Hold.
  - intros x Hx. destruct (decide (x = q)) as [->|Hxq].
    + split; [by rewrite <- Hold|]. exists bq. rewrite lookup_insert_ne, lookup_insert_eq by congruence. done.
    + apply elem_of_app in Hx as [Hx|[->|?%not_elem_of_nil]%elem_of_cons]; [|done..]. destruct (Hnew x Hx) as (? & b & Eb & Hb). split; [done|].
      destruct (decide (x = r)) as [->|].
      * rewrite lookup_insert_eq. exists (set_next q br). assert (b = br) as -> by congruence. done.
      * rewrite !lookup_insert_ne by congruence. eauto.
  - done.
  - intros x b Eb. destruct (decide (x = r)) as [->|Hxr].
    + rewrite lookup_insert_eq in Eb. injection Eb as <-. destruct (HT r br Ebr) as (? & Et & ?). rewrite Z.eqb_refl in Et. cbn.
      replace (r =? q) with false by lia. unfold rest. rewrite lookup_insert_ne, lookup_insert_eq by congruence. done.
    + rewrite lookup_insert_ne in Eb by congruence. destruct (decide (x = q)) as [->|Hxq].
      * rewrite lookup_insert_eq in Eb. injection Eb as <-. cbn. rewrite Z.eqb_refl. lia.
      * rewrite lookup_insert_ne in Eb by congruence. destruct (HT x b Eb) as (? & Et & ?). split; [done|]. split; [|done].
        replace (x =? q) with false by lia. replace (x =? r) with false in Et by lia. rewrite Et. f_equal. unfold rest.
        assert (next b <> q) as Hnq.
        { intros E. pose proof (refs_unheld m _ q HR ltac:(lia) Eq) as Ho. apply occ_zero in Ho. apply Ho, elem_of_app. right.
          apply pointers_elem. exists x. rewrite (links_lookup _ _ _ Eb). by f_equal. }
        destruct (decide (next b = r)) as [->|]; [by rewrite lookup_insert_eq, Ebr|by rewrite !lookup_insert_ne by congruence].
Qed.

Lemma align_value x : LWIP_MEM_ALIGN_SIZE x = 4 * ((x + 3) / 4).
Proof.
  unfold LWIP_MEM_ALIGN_SIZE. rewrite <- Z.ldiff_land. change 3 with (Z.ones 2) at 2. rewrite Z.ldiff_ones_r by lia.
  rewrite Z.shiftl_mul_pow2, Z.shiftr_div_pow2 by lia. change (2 ^ 2) with 4. lia.
Qed.

Section Alloc.
Context `{PM : PbufMemory} {PML : PbufMemoryLaws}.

Lemma get_block_cases (m : Pbufs) k size :
  SIZEOF_STRUCT_PBUF <= size ->
  get_block k size m = Done None m \/
  exists p rm, get_block k size m = Done (Some (p, rm)) m /\ 0 < p /\ m !! p = None /\ zlen rm = size - SIZEOF_STRUCT_PBUF /\ Bytes rm.
Proof.
  intros Hs. unfold get_block. destruct (grant m k size) as [[p b]|] eqn:E; [|by left]. right. destruct (grant_fresh _ _ _ _ _ E) as (Hp & Hf & Hz & Hb).
  replace (size <? SIZEOF_STRUCT_PBUF) with false by lia. exists p, (zdrop SIZEOF_STRUCT_PBUF b). split; [done|]. do 2 (split; [done|]).
  assert (0 <= SIZEOF_STRUCT_PBUF) by by_decide. split; [zlen_lia|by apply Forall_zdrop].
Qed.

Lemma alloc_loop_inv fuel m0 m own p l r rem :
  Inv m0 own -> Growing m0 m own p l r rem -> 0 <= rem < Z.of_nat fuel -> rem <= 65535 ->
  runs (alloc_loop fuel p r rem) m (fun x m' => Inv m' (hold x own)).
Proof.
  intros HI. revert m l r rem. induction fuel as [|fuel IH]; intros m l r rem HG Hrem Hle; [lia|]. cbn [alloc_loop].
  destruct (Z.ltb_spec 0 rem) as [Hpos|].
  2: { kret. destruct HG as [Hseg [Hr Er] _ _ HR HT]. assert (rem = 0) as -> by lia. unfold hold.
       assert (p <> 0) by (destruct l; [by apply not_elem_of_nil in Hr|by destruct Hseg as (_ & ? & _)]). replace (p =? 0) with false by lia.
       apply refs_lens_inv; [done|]. intros x b Eb. destruct (HT x b Eb) as (? & Et & ?). split; [done|]. split; [|done].
       apply links_lookup_inv in Er as (br & Ebr & Hbn). rewrite Et. f_equal. destruct (Z.eqb_spec x r) as [->|].
       - assert (b = br) as -> by congruence. by rewrite Hbn.
       - destruct (Z.eqb_spec (next b) 0) as [E|]; [|done]. rewrite E. unfold rest. by rewrite (refs_null _ _ HR). }
  destruct (get_block_cases m MEMP_PBUF_POOL (SIZEOF_STRUCT_PBUF + PBUF_POOL_BUFSIZE_ALIGNED) ltac:(by_decide)) as [E|(q & rm & E & Hq & Eq & _)].
  - eapply runs_bind_done; [exact E|]. cbv beta iota.
    destruct HG as [Hseg _ Hold Hnew _ _]. destruct (free_fresh l (S (size m)) m p 0 Hseg) as (c & m' & Ef & Hm').
    + intros x Hx. apply (Hnew x Hx).
    + pose proof (seg_links_length _ _ _ Hseg). lia.
    + eapply runs_bind_done; [exact Ef|]. kret. replace m' with m0; [done|]. apply map_eq. intros x. rewrite Hm'. destruct (decide (x ∈ l)) as [Hx|Hx].
      * by apply Hnew.
      * by rewrite Hold.
  - eapply runs_bind_done; [exact E|]. cbv beta iota. rewrite (u16_small rem) by word_lia.
    set (k := Z.min rem PBUF_POOL_BUFSIZE_ALIGNED). assert (0 < k <= rem) as Hk by (unfold k; change PBUF_POOL_BUFSIZE_ALIGNED with 1536; lia).
    destruct (growing_step m0 m own p l r rem q k rm HG Eq Hq ltac:(lia) Hle) as (br & Ebr & HG').
    eapply runs_bind_done; [reflexivity|]. cbv beta. eapply runs_bind_done; [apply (upd_done _ r br); rewrite lookup_insert_ne by congruence; done|].
    cbv beta. apply (IH _ (l ++ [q])); [done|lia|lia].
Qed.

Lemma growing_new m own p b rem :
  Inv m own -> 0 < p -> m !! p = None -> next b = 0 -> ref b = 1 -> 0 <= len b -> tot_len b = len b + rem -> tot_len b <= 65535 ->
  Growing m (<[p := b]> m) own p [p] p rem.
Proof.
  intros HI Hp Ep Hn Hr Hl Ht Hle. split.
  - cbn. split; [done|]. split; [lia|]. exists 0. by rewrite links_insert, lookup_insert_eq, Hn.
  - split; [by left|]. by rewrite links_insert, lookup_insert_eq, Hn.
  - intros x Hx. rewrite lookup_insert_ne; [done|]. intros ->. apply Hx. by left.
  - intros x ->%list_elem_of_singleton. split; [done|]. exists b. by rewrite lookup_insert_eq.
  - apply refs_new; try done; [by apply inv_refs|lia].
  - intros x c Ec. destruct (decide (x = p)) as [->|Hxp].
    + rewrite lookup_insert_eq in Ec. injection Ec as <-. by rewrite Z.eqb_refl.
    + rewrite lookup_insert_ne in Ec by congruence. replace (x =? p) with false by lia. destruct (inv_len _ _ HI x c Ec) as (? & -> & ?).
      split; [done|]. split; [|done]. f_equal. rewrite rest_insert_ne; [done|]. intros E.
      pose proof (refs_unheld m own p (inv_refs _ _ HI) ltac:(lia) Ep) as Ho. apply occ_zero in Ho. apply Ho, elem_of_app. right.
      apply pointers_elem. exists x. rewrite (links_lookup _ _ _ Ec). by f_equal.
Qed.

(** A buffer of its own: all its bytes are in it. *)
Lemma inv_new m own p b :
  Inv m own -> 0 < p -> m !! p = None -> next b = 0 -> ref b = 1 -> 0 <= len b <= 65535 -> tot_len b = len b -> Inv (<[p := b]> m) (hold p own).
Proof.
  intros HI Hp Ep Hn Hr Hl Ht. unfold hold. replace (p =? 0) with false by lia.
  destruct (growing_new m own p b 0 HI Hp Ep Hn Hr) as [_ _ _ _ HR HT]; [lia..|]. apply refs_lens_inv; [done|].
  intros x c Ec. destruct (HT x c Ec) as (? & Et & ?). split; [done|]. split; [|done]. rewrite Et. f_equal.
  pose proof (refs_null _ _ HR) as Hnull. destruct (Z.eqb_spec x p) as [->|].
  - rewrite lookup_insert_eq in Ec. injection Ec as <-. by rewrite Hn.
  - destruct (Z.eqb_spec (next c) 0) as [E|]; [|done]. unfold rest. by rewrite E, Hnull.
Qed.

(** The result is a new reference, or null; for memory of the heap the length
    must be so small that its size does not wrap. *)
Lemma pbuf_alloc_inv m own layer length ty :
  Inv m own -> is_u16 length -> (ty = PBUF_RAM -> length <= 65460) ->
  runs (pbuf_alloc layer length ty) m (fun p m' => Inv m' (hold p own)).
Proof.
  intros HI Hlen Hram. unfold pbuf_alloc. destruct (layer_offset layer) as [offset|] eqn:Eo; [|by kret].
  assert (offset = 54 \/ offset = 34 \/ offset = 14 \/ offset = 0) as Hoff.
  { unfold layer_offset in Eo. repeat (case_match; [injection Eo as <-; vm_compute; tauto|]). done. }
  destruct (Z.eqb_spec ty PBUF_POOL) as [->|Hpool].
  - destruct (get_block_cases m MEMP_PBUF_POOL (SIZEOF_STRUCT_PBUF + PBUF_POOL_BUFSIZE_ALIGNED) ltac:(by_decide)) as [E|(p & rm & E & Hp & Ep & _)];
      (eapply runs_bind_done; [exact E|]; cbv beta iota); [by kret|].
    eapply runs_bind_done; [reflexivity|]. cbv beta.
    assert (0 < PBUF_POOL_BUFSIZE_ALIGNED - LWIP_MEM_ALIGN_SIZE offset) by (destruct Hoff as [->|[->|[->| ->]]]; by_decide).
    set (k := Z.min length _). assert (0 <= k <= length) by (unfold k; word_lia). eapply (alloc_loop_inv _ m _ own p [p]); [done| |word_lia|word_lia].
    apply growing_new; try done; cbn; word_lia.
  - destruct (Z.eqb_spec ty PBUF_RAM) as [->|Hrm].
    + specialize (Hram eq_refl).
      assert (u16 (LWIP_MEM_ALIGN_SIZE (SIZEOF_STRUCT_PBUF + offset) + LWIP_MEM_ALIGN_SIZE length) >= SIZEOF_STRUCT_PBUF) as Hsz.
      { rewrite !align_value. change SIZEOF_STRUCT_PBUF with 16. clear - Hoff Hlen Hram. word_lia. }
      destruct (get_block_cases m MEM_HEAP _ ltac:(apply Z.ge_le, Hsz)) as [E|(p & rm & E & Hp & Ep & _)];
        (eapply runs_bind_done; [exact E|]; cbv beta iota); [by kret|].
      eapply runs_bind_done; [reflexivity|]. kret. apply inv_new; try done. cbn. word_lia.
    + destruct ((ty =? PBUF_ROM) || (ty =? PBUF_REF)); [|by kret].
      destruct (get_block_cases m MEMP_PBUF SIZEOF_STRUCT_PBUF ltac:(lia)) as [E|(p & rm & E & Hp & Ep & _)];
        (eapply runs_bind_done; [exact E|]; cbv beta iota); [by kret|].
      eapply runs_bind_done; [reflexivity|]. kret. apply inv_new; try done. cbn. word_lia.
Qed.
End Alloc.

(** * Programs of calls *)

Inductive POp :=
  | PAlloc (layer length ty : Z)
  | PFree (p : Z)
  | PRef (p : Z)
  | PCat (h t : Z)
  | PChain (h t : Z)
  | PDechain (p : Z)
  | PRealloc (p new_len : Z)
  | PHeader (p increment : Z).

(** One of the pointers to [p] is given up. *)
Fixpoint let_go (p : Z) (own : list Z) : list Z :=
  match own with
  | [] => []
  | x :: own => if x =? p then own else x :: let_go p own
  end.

(** The call, and the pointers that the caller holds after it. *)
Definition pdo `{PM : PbufMemory} (o : POp) (own : list Z) : M Pbufs (list Z) :=
  match o with
  | PAlloc layer length ty => p ← pbuf_alloc layer length ty; mret (hold p own)
  | PFree p => _ ← pbuf_free p; mret (let_go p own)
  | PRef p => pbuf_ref p;; mret (p :: own)
  | PCat h t => pbuf_cat h t;; mret (let_go t own)
  | PChain h t => pbuf_chain h t;; mret own
  | PDechain p => _ ← pbuf_dechain p; mret own
  | PRealloc p n => pbuf_realloc p n;; mret own
  | PHeader p inc => _ ← pbuf_header p inc; mret own
  end.

(** [p] is the first buffer of a packet. *)
Definition first (m : Pbufs) (p : Z) : Prop := is_Some (m !! p) /\ occ p (pointers (links m)) = 0.

Definition countable (m : Pbufs) (p : Z) : Prop := match m !! p with Some b => ref b < 65535 | None => False end.

(** What pbuf.c asks of its callers: to free and to hand over only what they
    hold, to work on the first buffers of packets, to join different packets
    whose lengths fit in 16 bits. *)
Definition allowed (m : Pbufs) (own : list Z) (o : POp) : Prop :=
  match o with
  | PAlloc _ length ty => is_u16 length /\ (ty = PBUF_RAM -> length <= 65460)
  | PFree p => p ∈ own
  | PRef p => countable m p
  | PCat h t => t ∈ own /\ h <> t /\ first m h /\ first m t /\ rest m h + rest m t <= 65535
  | PChain h t => t ∈ own /\ h <> t /\ first m h /\ first m t /\ rest m h + rest m t <= 65535 /\ countable m t
  | PDechain p => first m p
  | PRealloc p n => first m p /\ 0 <= n
  | PHeader p inc => first m p /\ -32768 <= inc < 32768 /\ rest m p + inc <= 65535
  end.

#[export] Instance first_dec m p : Decision (first m p).
Proof. unfold first. apply _. Defined.

#[export] Instance countable_dec m p : Decision (countable m p).
Proof. unfold countable. destruct (m !! p); apply _. Defined.

#[export] Instance allowed_dec m own o : Decision (allowed m own o).
Proof. destruct o; unfold allowed, is_u16; apply _. Defined.

Lemma let_go_perm p own : p ∈ own -> own ≡ₚ p :: let_go p own.
Proof.
  induction own as [|x own IH]; intros H; [by apply not_elem_of_nil in H|]. cbn. destruct (Z.eqb_spec x p) as [->|]; [done|].
  apply elem_of_cons in H as [?|H]; [congruence|]. rewrite (IH H) at 1. apply Permutation_swap.
Qed.

Lemma first_cases m p : first m p -> exists b, m !! p = Some b /\ rest m p = tot_len b /\ occ p (pointers (links m)) = 0.
Proof. intros [[b Eb] Ho]. exists b. unfold rest. by rewrite Eb. Qed.

Section Runs.
Context `{PM : PbufMemory} {PML : PbufMemoryLaws}.

Lemma runs_then {A B} (m : M Pbufs A) (v : A -> B) s (I : B -> Pbufs -> Prop) :
  runs m s (fun a s' => I (v a) s') -> runs (a ← m; mret (v a)) s I.
Proof. intros H. apply wpe_bind. eapply runs_mono; [exact H|]. cbv beta. intros a s' Ha. by kret. Qed.

(** Every allowed call returns and keeps the invariant. *)
Lemma pdo_inv o m own : Inv m own -> allowed m own o -> runs (pdo o own) m (fun own' m' => Inv m' own').
Proof.
  intros HI HA. destruct o as [layer length ty|p|p|h t|h t|p|p n|p inc]; cbn [pdo allowed] in *.
  - apply (runs_then _ (fun p => hold p own)). destruct HA. by apply pbuf_alloc_inv.
  - apply (runs_then _ (fun _ => let_go p own)). apply pbuf_free_inv. unfold hold. destruct (Z.eqb_spec p 0) as [->|].
    { pose proof (inv_own _ _ HI) as Ho. rewrite Forall_forall in Ho. destruct (Ho 0 HA) as [b Eb]. by rewrite (inv_null m own HI) in Eb. }
    by rewrite <- let_go_perm.
  - unfold countable in HA. destruct (m !! p) as [b|] eqn:Eb; [|done]. apply (runs_then _ (fun _ => p :: own)). by eapply pbuf_ref_inv.
  - destruct HA as (Ht & Hne & (bh & Eh & Rh & Oh)%first_cases & (bt & Et & Rt & Ot)%first_cases & Hsum). rewrite Rh, Rt in Hsum.
    apply (runs_then _ (fun _ => let_go t own)). eapply runs_mono; [apply (pbuf_cat_inv m (let_go t own) h t bh bt); try done|by intros _ m' [? _]].
    by rewrite <- let_go_perm.
  - destruct HA as (Ht & Hne & (bh & Eh & Rh & Oh)%first_cases & (bt & Et & Rt & Ot)%first_cases & Hsum & Hc). rewrite Rh, Rt in Hsum.
    unfold countable in Hc. rewrite Et in Hc. apply (runs_then _ (fun _ => own)).
    eapply runs_mono; [apply (pbuf_chain_inv m (let_go t own) h t bh bt); try done; by rewrite <- let_go_perm|].
    intros ? m' HI'. by rewrite (let_go_perm t own Ht).
  - apply first_cases in HA as (b & Eb & _ & Ho). apply (runs_then _ (fun _ => own)). by eapply pbuf_dechain_inv.
  - destruct HA as [(b & Eb & _ & Ho)%first_cases Hn]. apply (runs_then _ (fun _ => own)). by eapply pbuf_realloc_inv.
  - destruct HA as ((b & Eb & Er & Ho)%first_cases & Hinc & Htot). rewrite Er in Htot. apply (runs_then _ (fun _ => own)). by eapply pbuf_header_inv.
Qed.

(** The states and held pointers that programs of allowed calls reach. *)
Inductive preach : Pbufs -> list Z -> Prop :=
  | preach_start : preach ∅ []
  | preach_step m own o own' m' : preach m own -> allowed m own o -> pdo o own m = Done own' m' -> preach m' own'.

Lemma inv_start : Inv ∅ [].
Proof.
  split; [|constructor|intros p b; by rewrite lookup_empty..]. unfold links. rewrite fmap_empty. split; [done| |].
  - intros p [n E]. by rewrite lookup_empty in E.
  - intros p Hp. unfold pointers. rewrite map_to_list_empty. change (0 <= 1). lia.
Qed.

Lemma preach_inv m own : preach m own -> Inv m own.
Proof.
  induction 1 as [|m own o own' m' _ IH HA E]; [apply inv_start|]. pose proof (pdo_inv o m own IH HA) as H.
  unfold runs, wpe in H. by rewrite E in H.
Qed.

(** C5: In every state that allowed calls reach, the reference count of each
    buffer is the number of pointers to it, held outside or in other buffers,
    and is not 0, and its total length is its length and the total length
    behind it; and every allowed call returns from there: none uses a buffer
    that was freed or a null pointer, and every walk along a chain ends. *)
Theorem pbufs_safe m own :
  preach m own ->
  (forall p b, m !! p = Some b ->
     ref b = occ p (own ++ pointers (links m)) /\ 1 <= ref b /\ tot_len b = len b + rest m (next b)) /\
  forall o, allowed m own o -> exists own' m', pdo o own m = Done own' m'.
Proof.
  intros HR%preach_inv. split.
  - intros p b Eb. destruct (inv_ref _ _ HR p b Eb), (inv_len _ _ HR p b Eb) as (_ & ? & _). split; [done|]. split; [lia|done].
  - intros o HA. pose proof (pdo_inv o m own HR HA) as H. apply runs_done in H as (own' & m' & E & _). eauto.
Qed.

(** Without pointers from outside every buffer lies on ever longer chains. *)
Lemma chains_grow m n : Inv m [] -> m <> ∅ -> exists p l, seg (links m) p l /\ (n <= length l)%nat /\ is_Some (m !! p).
Proof.
  intros HI Hne. induction n as [|n (p & l & Hl & Hlen & [b Eb])].
  - apply map_choose in Hne as (p & b & Eb). destruct (shape_ends _ (inv_shape _ _ HI) p) as [l Hl]; [rewrite (links_lookup _ _ _ Eb); eauto|].
    exists p, l. split; [done|]. split; [lia|eauto].
  - destruct (inv_ref _ _ HI p b Eb) as [Er Hr]. rewrite Er in Hr. cbn [app] in Hr.
    assert (p ∈ pointers (links m)) as (q & Eq)%pointers_elem by (apply occ_pos; lia).
    exists q, (q :: l). split; [|split; [cbn; lia|apply links_lookup_inv in Eq as (c & -> & _); eauto]].
    cbn. split; [done|]. split; [|eauto]. intros ->. by rewrite (shape_null _ (inv_shape _ _ HI)) in Eq.
Qed.

(** C36: No buffer is lost: when the callers hold no pointer any more, every
    buffer has been freed. *)
Theorem pbufs_no_leak m : preach m [] -> m = ∅.
Proof.
  intros HI%preach_inv. destruct (decide (m = ∅)) as [|Hne]; [done|].
  destruct (chains_grow m (S (size m)) HI Hne) as (p & l & Hl & Hlen & _). apply seg_links_length in Hl. lia.
Qed.
End Runs.

(** * A concrete memory

    Ten buffers of the pool and of the heap, from the lowest address that is free. *)

Definition small_memory : PbufMemory := fun m _ size =>
  if size <? 0 then None else
  p ← list_find (fun p => m !! p = None) (seqZ 1 10); Some (p.2, replicate (Z.to_nat size) 0).

Lemma small_memory_laws : @PbufMemoryLaws small_memory.
Proof.
  intros m k n p b. unfold grant, small_memory. destruct (Z.ltb_spec n 0); [done|].
  destruct (list_find _ _) as [[i q]|] eqn:E; [|done]. cbn. intros [= <- <-].
  apply list_find_Some in E as (Eq & Hf & _). apply list_elem_of_lookup_2, elem_of_seqZ in Eq.
  split; [lia|]. split; [done|]. split; [unfold zlen; rewrite length_replicate; lia|apply Forall_replicate; word_lia].
Qed.

(** Runs a program as long as its calls are allowed. *)
Fixpoint pexec `{PM : PbufMemory} (l : list POp) (m : Pbufs) (own : list Z) : option (Pbufs * list Z) :=
  match l with
  | [] => Some (m, own)
  | o :: l => if decide (allowed m own o) then match pdo o own m with Done own' m' => pexec l m' own' | _ => None end else None
  end.

Lemma pexec_preach `{PM : PbufMemory} l m own m' own' : preach m own -> pexec l m own = Some (m', own') -> preach m' own'.
Proof.
  revert m own. induction l as [|o l IH]; intros m own HR; cbn; [by intros [= <- <-]|]. case_decide as HA; [|done].
  destruct (pdo o own m) as [own1 m1| |] eqn:E; [|done..]. apply IH. by eapply preach_step.
Qed.

(** Two packets of 3000 and 20 bytes, joined; the first two buffers are kept
    after the packet was given up, the rest is shortened. *)
Definition demo : list POp :=
  [PAlloc PBUF_RAW 3000 PBUF_POOL; PAlloc PBUF_TRANSPORT 20 PBUF_RAM; PChain 3 1; PRef 2; PHeader 3 20; PRealloc 3 1600].

Example pbufs_safe_witness :
  match @pexec small_memory demo ∅ [] with
  | Some (m, own) => (forall p b, m !! p = Some b -> ref b = occ p (own ++ pointers (links m)) /\ 1 <= ref b /\ tot_len b = len b + rest m (next b)) /\
                     exists own' m', @pdo small_memory (PDechain 3) own m = Done own' m'
  | None => False
  end.
Proof.
  destruct (@pexec small_memory demo ∅ []) as [[m own]|] eqn:E; [|by vm_compute in E].
  destruct (@pbufs_safe small_memory small_memory_laws m own (pexec_preach demo ∅ [] m own preach_start E)) as [H1 H2].
  split; [exact H1|]. apply H2. revert E. intros [= <- <-]. by_decide.
Defined.

Example pbufs_no_leak_witness :
  exists m, @pexec small_memory (demo ++ [PFree 3; PFree 1; PFree 2]) ∅ [] = Some (m, []) /\ m = ∅.
Proof.
  eexists. assert (@pexec small_memory (demo ++ [PFree 3; PFree 1; PFree 2]) ∅ [] = Some (_, [])) as E by (vm_compute; reflexivity).
  split; [exact E|]. apply (@pbufs_no_leak small_memory small_memory_laws). by apply (pexec_preach _ ∅ [] _ _ preach_start E).
Defined.
