(* ===== verification/PbufData.v ===== *)
(** The data of packet buffers (file [Pbuf]): what reading, copying and
    searching a chain do, in terms of the bytes it holds; and where they fail. *)
From S2P Require Import Prelude Pbuf PbufRef.
From stdpp Require Import list gmap.
#[local] Open Scope Z_scope.

(** A buffer whose payload lies in its memory. *)
Definition fits (b : pbuf) : Prop := 0 <= payload b /\ 0 <= len b <= 65535 /\ payload b + len b <= zlen (room b).

#[export] Instance fits_dec b : Decision (fits b).
Proof. unfold fits. apply _. Defined.

Definition bytes (b : pbuf) : list Z := ztake (len b) (zdrop (payload b) (room b)).

(** [bs] are the buffers of the chain from [p]. *)
Fixpoint chain (m : Pbufs) (p : Z) (bs : list pbuf) : Prop :=
  match bs with
  | [] => p = 0
  | b :: bs => p <> 0 /\ m !! p = Some b /\ fits b /\ chain m (next b) bs
  end.

Definition data (bs : list pbuf) : list Z := concat (bytes <$> bs).

#[export] Instance chain_dec m p bs : Decision (chain m p bs).
Proof. revert p. induction bs as [|b bs IH]; intros p; cbn; apply _. Defined.

Lemma bytes_len b : fits b -> zlen (bytes b) = len b.
Proof. intros (? & ? & ?). unfold bytes. zlen_lia. Qed.

Lemma data_cons b bs : data (b :: bs) = bytes b ++ data bs.
Proof. done. Qed.

Lemma chain_seg m p bs : chain m p bs -> exists l, seg (links m) p l /\ length l = length bs.
Proof.
  revert p. induction bs as [|b bs IH]; intros p H; [by exists []|]. destruct H as (Hp & Eb & _ & H). destruct (IH _ H) as (l & Hl & E).
  exists (p :: l). split; [|cbn; lia]. cbn. split; [done|]. split; [done|]. exists (next b). split; [by apply links_lookup|done].
Qed.

Lemma packet_size m p bs : chain m p bs -> (length bs <= size m)%nat.
Proof. intros (l & Hl & <-)%chain_seg. by apply (seg_links_length m p). Qed.

Lemma read_done b off n m : fits b -> 0 <= off -> 0 <= n -> off + n <= len b -> read b off n m = Done (ztake n (zdrop off (bytes b))) m.
Proof.
  intros (? & ? & ?) ? ? ?. unfold read, access, bytes. rewrite fetch_spec by lia. cbn. f_equal.
  rewrite (ztake_zdrop n off (ztake _ _)), ztake_ztake, Z.min_l, <- ztake_zdrop, zdrop_zdrop by lia. done.
Qed.

(** * Copying out *)

Lemma copy_partial_loop_done bs fuel m p dst left n offset copied :
  chain m p bs -> (length bs <= fuel)%nat -> 0 <= offset <= 65535 -> 0 <= left -> 0 <= n -> left + n <= zlen dst -> left + n <= 65535 ->
  0 <= copied -> copied + n <= 65535 ->
  let d := ztake n (zdrop offset (data bs)) in
  copy_partial_loop fuel p dst left n offset copied m = Done (copied + zlen d, ztake left dst ++ d ++ zdrop (left + zlen d) dst) m.
Proof.
  revert fuel p dst left n offset copied. induction bs as [|b bs IH]; intros fuel p dst left n offset copied Hc Hf Ho Hl Hn Hd Hl2 Hcp Hcp2 d.
  { cbn in Hc. subst p. assert (d = []) as -> by (unfold d, ztake, zdrop; cbn; by rewrite drop_nil, take_nil).
    rewrite (@zlen_nil Z), Z.add_0_r, (Z.add_0_r left). cbn [app]. rewrite ztake_app_zdrop. destruct fuel; cbn; by rewrite orb_true_r. }
  destruct Hc as (Hp & Eb & Hfit & Hc). destruct fuel as [|fuel]; [cbn in Hf; lia|].
  destruct (Z.eqb_spec n 0) as [->|Hn0].
  { assert (d = []) as -> by (by apply ztake_neg). rewrite (@zlen_nil Z), Z.add_0_r, (Z.add_0_r left). cbn [app]. by rewrite ztake_app_zdrop. }
  cbn [copy_partial_loop]. replace (n =? 0) with false by lia. replace (p =? 0) with false by lia. cbn [orb].
  rewrite (bind_done _ _ _ _ _ (deref_done m p b Eb)). pose proof (bytes_len b Hfit) as Hb. pose proof Hfit as (Hpay & Hlen & Hroom).
  subst d. rewrite data_cons. destruct (negb (offset =? 0) && (len b <=? offset)) eqn:Eskip.
  - assert (len b <= offset) by (apply andb_true_iff in Eskip as [_ ?%Z.leb_le]; done). rewrite u16_small by word_lia.
    rewrite IH by (done || lia || (cbn in Hf; lia)). rewrite zdrop_app_r, Hb by lia. done.
  - assert (offset <= len b) as Hle.
    { apply andb_false_iff in Eskip as [?%negb_false_iff%Z.eqb_eq|?%Z.leb_gt]; lia. }
    rewrite (u16_small (len b - offset)) by word_lia. set (k := if n <? len b - offset then n else len b - offset).
    assert (k = Z.min n (len b - offset)) as Ek by (unfold k; destruct (Z.ltb_spec n (len b - offset)); lia).
    rewrite (bind_done _ _ _ _ _ (read_done b offset k m Hfit ltac:(lia) ltac:(lia) ltac:(lia))).
    set (e := ztake k (zdrop offset (bytes b))). assert (zlen e = k) as Hek by (unfold e; zlen_lia).
    rewrite (bind_done (access _) _ m (ztake left dst ++ e ++ zdrop (left + k) dst) m) by (unfold access; by rewrite blit_spec, Hek by lia).
    assert (zlen (ztake left dst ++ e ++ zdrop (left + k) dst) = zlen dst) as Hz by zlen_lia.
    rewrite !u16_small by word_lia. rewrite IH by (done || lia || (cbn in Hf; lia)). rewrite (zdrop_0 0) by lia.
    assert (ztake n (zdrop offset (bytes b ++ data bs)) = e ++ ztake (n - k) (data bs)) as ->.
    { rewrite zdrop_app_l by lia. unfold e. destruct (Z.le_gt_cases n (len b - offset)).
      - rewrite ztake_app_l by zlen_lia. rewrite Ek, Z.min_l by lia. rewrite Z.sub_diag, (ztake_neg 0) by lia. by rewrite app_nil_r.
      - rewrite ztake_app_r by zlen_lia. rewrite (ztake_all k) by zlen_lia. do 2 f_equal. zlen_lia. }
    set (r := ztake (n - k) (data bs)). rewrite zlen_app, Hek. do 2 f_equal; [lia|].
    pose proof (zlen_nonneg r).
    assert (ztake (left + k) (ztake left dst ++ e ++ zdrop (left + k) dst) = ztake left dst ++ e) as ->
      by (rewrite app_assoc, ztake_app_l, ztake_all by zlen_lia; done).
    assert (zdrop (left + k + zlen r) (ztake left dst ++ e ++ zdrop (left + k) dst) = zdrop (left + (k + zlen r)) dst) as ->
      by (rewrite app_assoc, zdrop_app_r, zdrop_zdrop by zlen_lia; f_equal; zlen_lia).
    by rewrite <- !app_assoc.
Qed.

(** C24: [pbuf_copy_partial] copies the bytes of the packet from an offset, as
    many as are asked for and there are, to the front of the caller's buffer,
    leaves the rest of it alone, and returns their number, however the packet
    is cut into buffers. *)
Theorem pbuf_copy_partial_correct m p bs dst n offset :
  chain m p bs -> p <> 0 -> is_u16 n -> is_u16 offset -> n <= zlen dst ->
  let d := ztake n (zdrop offset (data bs)) in
  pbuf_copy_partial p dst n offset m = Done (zlen d, d ++ zdrop (zlen d) dst) m.
Proof.
  intros Hc Hp Hn Ho Hd d. unfold pbuf_copy_partial. replace (p =? 0) with false by lia. unfold walk.
  pose proof (packet_size m p bs Hc). rewrite (copy_partial_loop_done bs) by (done || word_lia || lia). done.
Qed.

(** * Looking into a packet *)

Lemma data_zdrop b bs i : fits b -> len b <= i -> zdrop i (data (b :: bs)) = zdrop (i - len b) (data bs).
Proof. intros Hb Hi. rewrite data_cons, zdrop_app_r by (by rewrite bytes_len). by rewrite bytes_len. Qed.

(** [seek] finds the buffer with the byte at [i], and where the byte is in it. *)
Lemma seek_done bs fuel m p i :
  chain m p bs -> (length bs <= fuel)%nat -> 0 <= i <= 65535 ->
  (zlen (data bs) <= i /\ exists j, seek fuel p i m = Done (0, j) m) \/
  (exists q j bs', seek fuel p i m = Done (q, j) m /\ q <> 0 /\ chain m q bs' /\ 0 <= j <= i /\
     match bs' with b :: _ => j < len b | [] => False end /\ zdrop i (data bs) = zdrop j (data bs')).
Proof.
  revert fuel p i. induction bs as [|b bs IH]; intros fuel p i Hc Hf Hi.
  { cbn in Hc. subst p. left. split; [change (0 <= i); lia|]. exists i. by destruct fuel. }
  pose proof Hc as Hc0. destruct Hc as (Hp & Eb & Hfit & Hc). destruct fuel as [|fuel]; [cbn in Hf; lia|]. cbn [seek]. replace (p =? 0) with false by lia.
  rewrite (bind_done _ _ _ _ _ (deref_done m p b Eb)). pose proof (bytes_len b Hfit) as Hb. pose proof Hfit as (_ & Hlen & _).
  destruct (Z.leb_spec (len b) i) as [Hle|Hgt].
  - rewrite u16_small by word_lia. destruct (IH fuel (next b) (i - len b) Hc ltac:(cbn in Hf; lia) ltac:(lia)) as [[Hz Hs]|(q & j & bs' & Hs & Hq & Hc' & Hj & Hm & Hd)].
    + left. split; [rewrite data_cons, zlen_app; lia|done].
    + right. exists q, j, bs'. do 3 (split; [done|]). split; [lia|]. split; [done|]. by rewrite data_zdrop.
  - right. exists p, i, (b :: bs). split; [done|]. split; [done|]. split; [done|]. split; [lia|]. done.
Qed.

Lemma ld_of_zdrop {A} (l : list A) i : 0 <= i -> ld l i = ld (zdrop i l) 0.
Proof. intros. rewrite ld_zdrop_add by lia. f_equal. lia. Qed.

(** [pbuf_get_at] returns the byte of the packet at an offset, and 0 behind its end. *)
Theorem pbuf_get_at_correct m p bs i :
  chain m p bs -> is_u16 i -> pbuf_get_at p i m = Done (default 0 (ld (data bs) i)) m.
Proof.
  intros Hc Hi. unfold pbuf_get_at. pose proof (packet_size m p bs Hc).
  destruct (seek_done bs (S (size m)) m p i Hc ltac:(lia) ltac:(word_lia)) as [[Hz [j Hs]]|(q & j & bs' & Hs & Hq & Hc' & Hj & Hm & Hd)].
  - rewrite (bind_done (walk _) _ m (0, j) m Hs). cbn. by rewrite ld_ge.
  - rewrite (bind_done (walk _) _ m (q, j) m Hs). cbv beta iota. replace (q =? 0) with false by lia. destruct bs' as [|b bs']; [done|].
    destruct Hc' as (_ & Eb & Hfit & _). rewrite (bind_done _ _ _ _ _ (deref_done m q b Eb)). pose proof (bytes_len b Hfit). pose proof Hfit as (? & ? & ?).
    rewrite (ld_of_zdrop (data bs) i), Hd, <- ld_of_zdrop by word_lia. rewrite data_cons, ld_app_l by lia. unfold access, bytes.
    rewrite ld_ztake. replace (j <? len b) with true by lia. rewrite ld_zdrop_add by lia.
    destruct (ld_is_Some (room b) (payload b + j)) as [v Ev]; [lia|]. by rewrite Ev.
Qed.

(** The first place where two strings differ, plus one; 0 when they are equal. *)
Fixpoint differ (i : Z) (l k : list Z) : Z :=
  match l, k with
  | a :: l, b :: k => if a =? b then differ (i + 1) l k else i + 1
  | _, _ => 0
  end.

Lemma memcmp_loop_done fuel m q bs start s2 n i :
  chain m q bs -> 0 <= start -> 0 <= i <= n -> start + n <= zlen (data bs) -> start + n <= 65535 -> n <= zlen s2 -> n - i < Z.of_nat fuel ->
  memcmp_loop fuel q start s2 n i m = Done (differ i (ztake (n - i) (zdrop (start + i) (data bs))) (zdrop i s2)) m.
Proof.
  intros Hc Hs. revert i. induction fuel as [|fuel IH]; intros i Hi Hd Hw Hn Hf; [lia|]. cbn [memcmp_loop]. destruct (Z.ltb_spec i n).
  2: { by rewrite ztake_neg by lia. }
  rewrite (u16_small (start + i)) by word_lia. rewrite (bind_done _ _ _ _ _ (pbuf_get_at_correct m q bs (start + i) Hc ltac:(word_lia))).
  destruct (ld_is_Some (data bs) (start + i)) as [a Ea]; [lia|]. destruct (ld_is_Some s2 i) as [b Eb]; [lia|]. rewrite Ea. change (default 0 (Some a)) with a.
  rewrite (bind_done (access _) _ m b m) by (unfold access; by rewrite Eb).
  rewrite (ld_zdrop _ _ _ Ea), (ld_zdrop _ _ _ Eb). rewrite (u16_small (i + 1)) by word_lia.
  assert (forall l : list Z, ztake (n - i) (a :: l) = a :: ztake (n - (i + 1)) l) as ->.
  { intros l. unfold ztake. by replace (Z.to_nat (n - i)) with (S (Z.to_nat (n - (i + 1)))) by lia. }
  cbn [differ]. destruct (a =? b); [|done]. rewrite IH by lia. by rewrite Z.add_assoc.
Qed.

Lemma pbuf_memcmp_done m p bs off s2 n :
  chain m p bs -> 0 <= off -> 1 <= n -> off + n <= zlen (data bs) -> off + n <= 65535 -> n <= zlen s2 ->
  pbuf_memcmp p off s2 n m = Done (differ 0 (ztake n (zdrop off (data bs))) s2) m.
Proof.
  intros Hc Ho Hn Hd Hw Hs. unfold pbuf_memcmp. pose proof (packet_size m p bs Hc).
  destruct (seek_done bs (S (size m)) m p off Hc ltac:(lia) ltac:(lia)) as [[Hz _]|(q & j & bs' & E & Hq & Hc' & Hj & Hm & Hz)]; [lia|].
  rewrite (bind_done (walk _) _ m (q, j) m E). cbv beta iota. replace (q =? 0) with false by lia.
  assert (zlen (zdrop off (data bs)) = zlen (zdrop j (data bs'))) as Hl by (by rewrite Hz). 
  rewrite (memcmp_loop_done _ m q bs' j s2 n 0) by (done || zlen_lia). by rewrite Z.sub_0_r, Z.add_0_r, Hz, (zdrop_0 0 s2).
Qed.

Lemma differ_zero i l k : 0 <= i -> zlen l <= zlen k -> differ i l k = 0 -> l = ztake (zlen l) k.
Proof.
  revert i k. induction l as [|a l IH]; intros i k Hi Hl; [by rewrite ztake_neg|]. destruct k as [|b k]; [rewrite zlen_cons in Hl; zlen_lia|].
  cbn [differ]. destruct (Z.eqb_spec a b) as [->|]; [|lia]. intros H. rewrite !zlen_cons in *. rewrite (IH (i + 1) k) at 1 by (lia || done).
  unfold ztake. pose proof (zlen_nonneg l). by replace (Z.to_nat (1 + zlen l)) with (S (Z.to_nat (zlen l))) by lia.
Qed.

Lemma differ_range i l k : 0 <= i -> differ i l k = 0 \/ i + 1 <= differ i l k <= i + zlen l.
Proof.
  revert i k. induction l as [|a l IH]; intros i [|b k] Hi; try (by left). cbn [differ]. rewrite zlen_cons. pose proof (zlen_nonneg l).
  destruct (a =? b); [|right; lia]. destruct (IH (i + 1) k); [lia|by left|right; lia].
Qed.

(** Where [mem] occurs in the packet. *)
Definition occurs (bs : list pbuf) (mem : list Z) (n i : Z) : Prop := ztake n (zdrop i (data bs)) = ztake n mem.

Lemma memfind_loop_done fuel m p bs mem n i :
  chain m p bs -> zlen (data bs) <= 65535 -> 1 <= n <= zlen mem -> n <= zlen (data bs) -> 0 <= i ->
  zlen (data bs) - n - i < Z.of_nat fuel -> i <= zlen (data bs) ->
  exists r, memfind_loop fuel p mem n (zlen (data bs) - n) i m = Done r m /\
    (r = 65535 \/ i <= r /\ r + n <= zlen (data bs) /\ occurs bs mem n r).
Proof.
  intros Hc Hw Hn Hd. revert i. induction fuel as [|fuel IH]; intros i Hi Hf Hil; cbn [memfind_loop].
  { destruct (Z.leb_spec i (zlen (data bs) - n)); [lia|]. eauto. }
  destruct (Z.leb_spec i (zlen (data bs) - n)); [|eauto].
  rewrite (bind_done _ _ _ _ _ (pbuf_memcmp_done m p bs i mem n Hc ltac:(lia) ltac:(lia) ltac:(lia) ltac:(lia) ltac:(lia))).
  set (l := ztake n (zdrop i (data bs))). assert (zlen l = n) as Hl by (unfold l; zlen_lia).
  destruct (differ_range 0 l mem ltac:(lia)) as [E|Hr].
  - rewrite E. cbn. exists i. split; [done|]. right. split; [lia|]. split; [lia|]. unfold occurs. fold l. rewrite <- Hl. by apply (differ_zero 0); [lia|lia|].
  - destruct (Z.eqb_spec (differ 0 l mem) 0); [lia|]. rewrite u16_small by word_lia.
    destruct (IH (i + differ 0 l mem)) as (r & E & [->|(? & ? & ?)]); [lia..| |]; exists r || exists 65535; (split; [done|]); [by left|right; split; [lia|done]].
Qed.

(** A place that [pbuf_memfind] returns is one where the bytes that were
    looked for occur in the packet, at or behind the start; and the search ends. *)
Theorem pbuf_memfind_sound m p bs b mem n start :
  chain m p bs -> m !! p = Some b -> tot_len b = zlen (data bs) -> zlen (data bs) <= 65535 -> 1 <= n <= zlen mem -> is_u16 start ->
  exists r, pbuf_memfind p mem n start m = Done r m /\
    (r = 65535 \/ start <= r /\ r + n <= zlen (data bs) /\ occurs bs mem n r).
Proof.
  intros Hc Eb Et Hw Hn Hs. unfold pbuf_memfind. rewrite (bind_done _ _ _ _ _ (deref_done m p b Eb)), Et. cbv zeta.
  destruct (Z.leb_spec (n + start) (zlen (data bs))); [|by eauto]. rewrite u16_small by word_lia.
  apply memfind_loop_done; try done; word_lia.
Qed.

(** But it does not find every occurrence: after a difference it goes on
    behind it, and skips the places in between.  In a buffer that holds the
    bytes 1 1 2 it does not find 1 2. *)
Theorem pbuf_memfind_misses :
  let b := mkPbuf 0 0 3 3 PBUF_RAM 0 1 [1; 1; 2] in let m := {[ 1 := b ]} : Pbufs in
  chain m 1 [b] /\ occurs [b] [1; 2] 2 1 /\ pbuf_memfind 1 [1; 2] 2 0 m = Done 65535 m.
Proof. cbv zeta. split; [by_decide|]. split; [reflexivity|]. vm_compute. reflexivity. Qed.

(** A packet of five bytes in two buffers. *)
Definition two_buffers : list pbuf :=
  [mkPbuf 2 2 5 3 PBUF_POOL 0 1 [9; 9; 1; 2; 3]; mkPbuf 0 0 2 2 PBUF_POOL 0 1 [4; 5; 6]].

Definition two_packet : Pbufs := list_to_map (zip [1; 2] two_buffers).

Example pbuf_copy_partial_correct_witness :
  pbuf_copy_partial 1 [0; 0; 0; 0; 0; 0] 6 2 two_packet = Done (3, [3; 4; 5; 0; 0; 0]) two_packet.
Proof. exact (pbuf_copy_partial_correct two_packet 1 two_buffers [0; 0; 0; 0; 0; 0] 6 2 ltac:(by_decide) ltac:(done) ltac:(word_lia) ltac:(word_lia) ltac:(done)). Defined.

Example pbuf_get_at_correct_witness : pbuf_get_at 1 4 two_packet = Done 5 two_packet.
Proof. exact (pbuf_get_at_correct two_packet 1 two_buffers 4 ltac:(by_decide) ltac:(word_lia)). Defined.

Example pbuf_memfind_sound_witness :
  exists r, pbuf_memfind 1 [3; 4] 2 0 two_packet = Done r two_packet /\ (r = 65535 \/ 0 <= r /\ r + 2 <= 5 /\ occurs two_buffers [3; 4] 2 r).
Proof.
  exact (pbuf_memfind_sound two_packet 1 two_buffers (mkPbuf 2 2 5 3 PBUF_POOL 0 1 [9; 9; 1; 2; 3]) [3; 4] 2 0
    ltac:(by_decide) ltac:(done) ltac:(done) ltac:(done) ltac:(by_decide) ltac:(word_lia)).
Defined.

(** * Filling a packet *)

Lemma packet_insert m p b q bs l : chain m q bs -> seg (links m) q l -> p ∉ l -> chain (<[p := b]> m) q bs.
Proof.
  revert q l. induction bs as [|c bs IH]; intros q l Hc Hl Hp; [done|]. destruct Hc as (Hq & Ec & Hfit & Hc). destruct l as [|x l]; [done|].
  destruct Hl as (-> & _ & n & En & Hl). rewrite (links_lookup _ _ _ Ec) in En. injection En as <-. apply not_elem_of_cons in Hp as [Hpq Hp].
  cbn. split; [done|]. split; [by rewrite lookup_insert_ne by congruence|]. split; [done|]. by eapply IH.
Qed.

Lemma write_front m p b d :
  m !! p = Some b -> fits b -> zlen d <= len b ->
  exists b', write p 0 d m = Done tt (<[p := b']> m) /\ fits b' /\ next b' = next b /\ len b' = len b /\ tot_len b' = tot_len b /\
    bytes b' = d ++ zdrop (zlen d) (bytes b).
Proof.
  intros Eb (Hp & Hl & Hr) Hd. pose proof (zlen_nonneg d). unfold write. rewrite (bind_done _ _ _ _ _ (deref_done m p b Eb)), Z.add_0_r.
  set (rm := ztake (payload b) (room b) ++ d ++ zdrop (payload b + zlen d) (room b)).
  rewrite (bind_done (access _) _ m rm m) by (unfold access; by rewrite blit_spec by lia).
  exists (set_room rm b). split; [done|]. assert (zlen rm = zlen (room b)) as Hz by (unfold rm; zlen_lia).
  split; [unfold fits; cbn; rewrite Hz; lia|]. do 3 (split; [done|]). unfold bytes. cbn.
  assert (zdrop (payload b) rm = d ++ zdrop (payload b + zlen d) (room b)) as ->.
  { unfold rm. rewrite zdrop_app_r by zlen_lia. apply zdrop_0. zlen_lia. }
  rewrite ztake_app_r by lia. f_equal. rewrite <- zdrop_zdrop by lia. rewrite ztake_zdrop by lia. do 2 f_equal. lia.
Qed.

Lemma take_loop_done bs fuel m p l d n copied :
  chain m p bs -> seg (links m) p l -> (length bs <= fuel)%nat -> 0 <= n <= zlen (data bs) -> 0 <= copied -> copied + n <= zlen d -> copied + n <= 65535 ->
  exists m' bs', take_loop fuel p d n copied m = Done tt m' /\ chain m' p bs' /\
    data bs' = ztake n (zdrop copied d) ++ zdrop n (data bs) /\ (forall x, x ∉ l -> m' !! x = m !! x) /\ links m' = links m.
Proof.
  revert fuel m p l n copied. induction bs as [|b bs IH]; intros fuel m p l n copied Hc Hl Hf Hn Hcp Hd Hw.
  { change (zlen (data [])) with 0 in Hn. assert (n = 0) as -> by lia. exists m, []. split; [by destruct fuel|]. split; [done|]. by rewrite ztake_neg by lia. }
  pose proof Hc as Hc0. destruct Hc as (Hp & Eb & Hfit & Hc). destruct (Z.eqb_spec n 0) as [->|Hn0].
  { exists m, (b :: bs). split; [by destruct fuel|]. split; [done|]. by rewrite ztake_neg, zdrop_0 by lia. }
  destruct fuel as [|fuel]; [cbn in Hf; lia|]. cbn [take_loop]. replace (n =? 0) with false by lia.
  rewrite (bind_done _ _ _ _ _ (deref_done m p b Eb)). pose proof (bytes_len b Hfit) as Hb. pose proof Hfit as (_ & Hlen & _).
  pose proof (seg_nodup _ _ _ Hl) as Hnd. destruct l as [|y l]; [done|]. apply NoDup_cons in Hnd as [Hpl _].
  destruct Hl as (-> & _ & v & Ev & Hl). rewrite (links_lookup _ _ _ Eb) in Ev. injection Ev as <-.
  set (k := if len b <? n then len b else n). assert (k = Z.min n (len b)) as Ek by (unfold k; destruct (Z.ltb_spec (len b) n); lia).
  rewrite (bind_done (access _) _ m (ztake k (zdrop copied d)) m) by (unfold access; by rewrite fetch_spec by lia).
  set (e := ztake k (zdrop copied d)). assert (zlen e = k) as Hek by (unfold e; zlen_lia).
  destruct (write_front m p b e Eb Hfit ltac:(lia)) as (b' & E & Hfit' & En & El & _ & Ed). rewrite (bind_done _ _ _ _ _ E).
  rewrite (u16_small (n - k)), (u16_small (copied + k)) by word_lia. rewrite data_cons, zlen_app in Hn.
  assert (links (<[p := b']> m) = links m) as EN by (by eapply links_insert_same).
  destruct (IH fuel (<[p := b']> m) (next b) l (n - k) (copied + k)) as (m' & bs' & E' & Hc' & Hd' & Ho & EN').
  - by eapply packet_insert.
  - by rewrite EN.
  - cbn in Hf. lia.
  - pose proof (zlen_nonneg (data bs)). lia.
  - lia.
  - lia.
  - lia.
  - exists m', (b' :: bs'). split; [done|]. split.
    + cbn. split; [done|]. split; [by rewrite Ho, lookup_insert_eq|]. split; [done|]. by rewrite En.
    + split; [|split; [|congruence]].
      * rewrite !data_cons, Ed, Hd', Hek. rewrite (ztake_split k n) by lia. rewrite zdrop_zdrop by lia. fold e. rewrite <- !app_assoc. f_equal.
        destruct (Z.le_gt_cases n (len b)).
        -- rewrite (ztake_neg (n - k)), (zdrop_0 (n - k)) by lia. rewrite zdrop_app_l by lia. by replace k with n by lia.
        -- rewrite zdrop_all by lia. cbn [app]. rewrite zdrop_app_r by lia. do 2 f_equal. lia.
      * intros x [Hxp Hx]%not_elem_of_cons. by rewrite Ho, lookup_insert_ne by (done || congruence).
Qed.

(** [pbuf_take] puts the caller's bytes at the front of the packet, leaves the bytes
    behind them, and never writes outside a buffer. *)
Theorem pbuf_take_correct m p bs b d n :
  chain m p bs -> p <> 0 -> m !! p = Some b -> tot_len b = zlen (data bs) -> is_u16 n -> n <= zlen (data bs) -> n <= zlen d ->
  exists m' bs', pbuf_take p d n m = Done ERR_OK m' /\ chain m' p bs' /\ data bs' = ztake n d ++ zdrop n (data bs).
Proof.
  intros Hc Hp Eb Et Hn Hle Hd. unfold pbuf_take. replace (p =? 0) with false by lia.
  rewrite (bind_done _ _ _ _ _ (deref_done m p b Eb)), Et. replace (zlen (data bs) <? n) with false by lia.
  destruct (chain_seg m p bs Hc) as (l & Hl & _). pose proof (packet_size m p bs Hc).
  destruct (take_loop_done bs (S (size m)) m p l d n 0 Hc Hl) as (m' & bs' & E & Hc' & Hd' & _); [lia|word_lia|lia|lia|word_lia|].
  rewrite (bind_done (walk _) _ m tt m' E). exists m', bs'. split; [done|]. split; [done|]. by rewrite Hd', zdrop_0 by lia.
Qed.

Example pbuf_take_correct_witness :
  exists m' bs', pbuf_take 1 [11; 12; 13; 14] 4 two_packet = Done ERR_OK m' /\ chain m' 1 bs' /\ data bs' = [11; 12; 13; 14; 5].
Proof.
  exact (pbuf_take_correct two_packet 1 two_buffers (mkPbuf 2 2 5 3 PBUF_POOL 0 1 [9; 9; 1; 2; 3]) [11; 12; 13; 14] 4
    ltac:(by_decide) ltac:(done) ltac:(done) ltac:(done) ltac:(word_lia) ltac:(by_decide) ltac:(by_decide)).
Defined.

(** * Memory of the heap *)

(** The room of a buffer from the heap holds its bytes, behind the header
    room of the layer, when the length is at most 65460. *)
Theorem alloc_ram_fits `{PM : PbufMemory} {PML : PbufMemoryLaws} m layer length p m' :
  0 <= length <= 65460 -> pbuf_alloc layer length PBUF_RAM m = Done p m' -> p <> 0 ->
  exists b offset, m' !! p = Some b /\ fits b /\ len b = length /\ tot_len b = length /\ layer_offset layer = Some offset /\ offset <= payload b.
Proof.
  intros Hlen. unfold pbuf_alloc. destruct (layer_offset layer) as [offset|] eqn:Eo; [|by intros [= <- _]].
  assert (offset = 54 \/ offset = 34 \/ offset = 14 \/ offset = 0) as Hoff.
  { unfold layer_offset in Eo. repeat (case_match; [injection Eo as <-; vm_compute; tauto|]). done. }
  change (PBUF_RAM =? PBUF_POOL) with false. change (PBUF_RAM =? PBUF_RAM) with true. cbv iota zeta.
  set (size := LWIP_MEM_ALIGN_SIZE (SIZEOF_STRUCT_PBUF + offset) + LWIP_MEM_ALIGN_SIZE length).
  assert (SIZEOF_STRUCT_PBUF <= size < 65536) as Hsz.
  { unfold size. rewrite !align_value. change SIZEOF_STRUCT_PBUF with 16. clear - Hoff Hlen. word_lia. }
  rewrite u16_small by (change SIZEOF_STRUCT_PBUF with 16 in Hsz; word_lia).
  destruct (get_block_cases m MEM_HEAP size ltac:(lia)) as [E|(q & rm & E & Hq & Eq & Hz & _)]; rewrite (bind_done _ _ _ _ _ E); [by intros [= <- _]|].
  unfold modify. erewrite bind_done by reflexivity. intros [= <- <-] _. exists (mkPbuf 0 (LWIP_MEM_ALIGN_SIZE (SIZEOF_STRUCT_PBUF + offset) - SIZEOF_STRUCT_PBUF) length length PBUF_RAM 0 1 rm), offset.
  rewrite lookup_insert_eq. split; [done|]. unfold fits. cbn. rewrite Hz. unfold size. rewrite !align_value. change SIZEOF_STRUCT_PBUF with 16.
  clear - Hoff Hlen. repeat split; try word_lia.
Qed.

Example alloc_ram_fits_witness :
  exists b offset, (match @pbuf_alloc small_memory PBUF_TRANSPORT 100 PBUF_RAM ∅ with Done _ m => m | _ => ∅ end) !! 1 = Some b /\
    fits b /\ len b = 100 /\ tot_len b = 100 /\ layer_offset PBUF_TRANSPORT = Some offset /\ offset <= payload b.
Proof. apply (@alloc_ram_fits small_memory small_memory_laws ∅ PBUF_TRANSPORT 100 1); [lia|by vm_compute|done]. Defined.

(** The size of a larger one wraps: [pbuf_alloc] asks the heap for 16
    bytes, the structure alone, and returns a buffer of 65535 bytes without
    memory behind it. *)
Theorem alloc_ram_wraps `{PM : PbufMemory} {PML : PbufMemoryLaws} m length p b :
  65533 <= length <= 65535 -> grant m MEM_HEAP 16 = Some (p, b) ->
  exists b', pbuf_alloc PBUF_RAW length PBUF_RAM m = Done p (<[p := b']> m) /\ len b' = length /\ zlen (room b') = 0.
Proof.
  intros Hlen Eg. destruct (grant_fresh _ _ _ _ _ Eg) as (_ & _ & Hz & _). unfold pbuf_alloc. cbn -[LWIP_MEM_ALIGN_SIZE SIZEOF_STRUCT_PBUF u16].
  assert (u16 (LWIP_MEM_ALIGN_SIZE (SIZEOF_STRUCT_PBUF + 0) + LWIP_MEM_ALIGN_SIZE length) = 16) as ->.
  { rewrite !align_value. change SIZEOF_STRUCT_PBUF with 16. word_lia. }
  unfold get_block. unfold mbind at 1, M_bind at 1. rewrite Eg. change SIZEOF_STRUCT_PBUF with 16. cbn. eexists. split; [reflexivity|]. split; [done|].
  cbn. zlen_lia.
Qed.

Example alloc_ram_wraps_witness :
  exists b', @pbuf_alloc small_memory PBUF_RAW 65535 PBUF_RAM ∅ = Done 1 (<[1 := b']> ∅) /\ len b' = 65535 /\ zlen (room b') = 0.
Proof. apply (@alloc_ram_wraps small_memory small_memory_laws ∅ 65535 1 (replicate 16 0)); [lia|reflexivity]. Defined.
