(* ===== verification/IpAddr.v ===== *)
(** IPv4 addresses as words and as text (LwIP/src/core/ipv4/ip_addr.c, lwip_htonl
    of LwIP/src/core/def.c): reading, writing, checking a netmask and a broadcast
    address.  The last section gives the network adapter its address functions.

    An address is a word in network order, as it is stored; its bytes in
    memory are [le32] of it.  A pointer into a string is the list from there
    on; a read behind the end fails. *)
From S2P Require Import Prelude NetAdapter.

Definition IPADDR_ANY : Z := 0.
Definition IPADDR_NONE : Z := 4294967295.
Definition IPADDR_BROADCAST : Z := 4294967295.
Definition NETIF_FLAG_BROADCAST : Z := 2.

Definition lwip_htonl (n : Z) : Z :=
  Z.lor (Z.lor (Z.lor (Z.shiftl (Z.land n 255) 24) (Z.shiftl (Z.land n 65280) 8)) (Z.shiftr (Z.land n 16711680) 8))
    (Z.shiftr (Z.land n 4278190080) 24).

(** [~x] *)
Definition not32 (x : Z) : Z := u32 (Z.lnot x).

(** A network interface; [self] is its address in memory. *)
Record netif := mkNetif { self : Z; ip_addr : Z; netmask : Z; gw : Z; hwaddr : list Z; netif_flags : Z }.

Definition ip4_addr_isbroadcast (addr : Z) (n : netif) : bool :=
  if (not32 addr =? IPADDR_ANY) || (addr =? IPADDR_ANY) then true
  else if Z.land (netif_flags n) NETIF_FLAG_BROADCAST =? 0 then false
  else if addr =? ip_addr n then false
  else (Z.land addr (netmask n) =? Z.land (ip_addr n) (netmask n)) &&
       (Z.land addr (not32 (netmask n)) =? Z.land IPADDR_BROADCAST (not32 (netmask n))).

(** The two loops over the bits of a netmask; 32 turns end both. *)
Fixpoint first_zero (fuel : nat) (nm mask : Z) : Z :=
  match fuel with
  | O => mask
  | S fuel => if mask =? 0 then mask else if Z.land nm mask =? 0 then mask else first_zero fuel nm (Z.shiftr mask 1)
  end.

Fixpoint no_one (fuel : nat) (nm mask : Z) : bool :=
  match fuel with
  | O => true
  | S fuel => if mask =? 0 then true else if negb (Z.land nm mask =? 0) then false else no_one fuel nm (Z.shiftr mask 1)
  end.

Definition ip4_addr_netmask_valid (netmask : Z) : bool :=
  let nm_hostorder := lwip_htonl netmask in
  no_one 32 nm_hostorder (first_zero 32 nm_hostorder 2147483648).

Definition in_range (c lo up : Z) : bool := (lo <=? c) && (c <=? up).
Definition isdigit (c : Z) : bool := in_range c 48 57.
Definition isxdigit (c : Z) : bool := isdigit c || in_range c 97 102 || in_range c 65 70.
Definition islower (c : Z) : bool := in_range c 97 122.
Definition isspace (c : Z) : bool := (c =? 32) || (c =? 12) || (c =? 10) || (c =? 13) || (c =? 9) || (c =? 11).

(** * Reading *)

(** The digits of a part. *)
Fixpoint digits_loop (base val : Z) (cp : list Z) : option (Z * list Z) :=
  match cp with
  | [] => None
  | c :: cp' =>
      if isdigit c then digits_loop base (u32 (val * base + (c - 48))) cp'
      else if (base =? 16) && isxdigit c then
        digits_loop base (Z.lor (u32 (Z.shiftl val 4)) (c + 10 - (if islower c then 97 else 65))) cp'
      else Some (val, cp)
  end.

(** A part, with its prefix that gives the base. *)
Definition part (cp : list Z) : option (Z * list Z) :=
  c ← head cp;
  if c =? 48 then
    c ← head (tail cp);
    if (c =? 120) || (c =? 88) then digits_loop 16 0 (tail (tail cp)) else digits_loop 8 0 (tail cp)
  else digits_loop 10 0 cp.

(** The parts: those before a dot and the last with what follows.  [Some None] is
    [return (0)].  There are at most four turns. *)
Fixpoint parts_loop (fuel : nat) (parts : list Z) (cp : list Z) : option (option (list Z * Z * list Z)) :=
  match fuel with
  | O => None
  | S fuel =>
      c ← head cp;
      if negb (isdigit c) then Some None else
      '(val, cp) ← part cp;
      c ← head cp;
      if c =? 46 then if 3 <=? zlen parts then Some None else parts_loop fuel (parts ++ [val]) (tail cp)
      else Some (Some (parts, val, cp))
  end.

(** The word of the parts. *)
Definition concoct (parts : list Z) (val : Z) : option Z :=
  match parts with
  | [] => Some val
  | [a] => if 16777215 <? val then None else Some (Z.lor val (u32 (Z.shiftl a 24)))
  | [a; b] => if 65535 <? val then None else Some (Z.lor val (Z.lor (u32 (Z.shiftl a 24)) (u32 (Z.shiftl b 16))))
  | [a; b; c] =>
      if 255 <? val then None
      else Some (Z.lor val (Z.lor (Z.lor (u32 (Z.shiftl a 24)) (u32 (Z.shiftl b 16))) (u32 (Z.shiftl c 8))))
  | _ => Some val
  end.

(** [Some None] is the result 0, [Some (Some a)] the result 1 with [a] stored. *)
Definition ipaddr_aton (cp : list Z) : option (option Z) :=
  r ← parts_loop 4 [] cp;
  match r with
  | None => Some None
  | Some (parts, val, cp) =>
      c ← head cp;
      if negb (c =? 0) && negb (isspace c) then Some None else Some (lwip_htonl <$> concoct parts val)
  end.

Definition ipaddr_addr (cp : list Z) : option Z :=
  r ← ipaddr_aton cp;
  Some (match r with Some val => val | None => IPADDR_NONE end).

(** * Writing *)

(** The digits of a byte, last first, into [inv]. *)
Fixpoint inv_loop (fuel : nat) (ap i : Z) (inv : list Z) : option (Z * list Z) :=
  match fuel with
  | O => None
  | S fuel =>
      let rem := ap mod 10 in
      let ap := ap / 10 in
      inv ← st inv i (48 + rem);
      if ap =? 0 then Some (i + 1, inv) else inv_loop fuel ap (i + 1) inv
  end.

(** [*rp++ = c], refused when the buffer is full: [None] in [Some (None, _)] is
    [return NULL].  [rp] is [len] bytes behind [buf]. *)
Definition put_char (buflen c len : Z) (buf : list Z) : option (option Z * list Z) :=
  if buflen <=? len then Some (None, buf) else buf ← st buf len c; Some (Some (len + 1), buf).

Fixpoint emit_loop (i : nat) (buflen : Z) (inv : list Z) (len : Z) (buf : list Z) : option (option Z * list Z) :=
  match i with
  | O => Some (Some len, buf)
  | S i =>
      c ← ld inv (Z.of_nat i);
      '(r, buf) ← put_char buflen c len buf;
      match r with
      | Some len => emit_loop i buflen inv len buf
      | None => Some (None, buf)
      end
  end.

Fixpoint bytes_loop (aps : list Z) (buflen : Z) (inv : list Z) (len : Z) (buf : list Z) : option (option Z * list Z) :=
  match aps with
  | [] => Some (Some len, buf)
  | ap :: aps =>
      '(i, inv) ← inv_loop 3 ap 0 inv;
      '(r, buf) ← emit_loop (Z.to_nat i) buflen inv len buf;
      match r with
      | None => Some (None, buf)
      | Some len =>
          '(r, buf) ← put_char buflen 46 len buf;
          match r with
          | None => Some (None, buf)
          | Some len => bytes_loop aps buflen inv len buf
          end
      end
  end.

(** The buffer afterwards, and if the result is not null. *)
Definition ipaddr_ntoa_r (addr : Z) (buf : list Z) (buflen : Z) : option (bool * list Z) :=
  '(r, buf) ← bytes_loop (le32 addr) buflen [0; 0; 0] 0 buf;
  match r with
  | None => Some (false, buf)
  | Some len => buf ← st buf (len - 1) 0; Some (true, buf)
  end.

(** [str] is the static buffer. *)
Definition ipaddr_ntoa (addr : Z) (str : list Z) : option (bool * list Z) := ipaddr_ntoa_r addr str 16.

Example ntoa_demo : ipaddr_ntoa 16777343 (replicate 16 7) = Some (true, [49; 50; 55; 46; 48; 46; 48; 46; 49; 0; 7; 7; 7; 7; 7; 7]).
Proof. vm_compute. reflexivity. Qed.
Example aton_demo : ipaddr_aton [49; 50; 55; 46; 48; 46; 48; 46; 49; 0; 7] = Some (Some 16777343).
Proof. vm_compute. reflexivity. Qed.

(** * Bit fields *)

Lemma land_field n k : 0 <= k -> Z.land n (Z.shiftl 255 k) = Z.shiftl (Z.shiftr n k mod 256) k.
Proof.
  intros Hk. change 256 with (2 ^ 8). rewrite <- Z.land_ones by lia. change (Z.ones 8) with 255.
  apply Z.bits_inj'. intros i Hi. rewrite Z.land_spec, !Z.shiftl_spec by lia.
  destruct (Z.ltb_spec (i - k) 0); [by rewrite !(Z.testbit_neg_r _ (i - k)), andb_false_r by lia|].
  rewrite Z.land_spec, Z.shiftr_spec by lia. by replace (i - k + k) with i by lia.
Qed.

Lemma land_byte_at n k : 0 <= k -> Z.land n (Z.shiftl 255 k) = n / 2 ^ k mod 256 * 2 ^ k.
Proof. intros. rewrite land_field, Z.shiftl_mul_pow2, Z.shiftr_div_pow2 by done. done. Qed.

(** Four bytes put together. *)
Lemma lor_word a b c d : is_u8 a -> is_u8 b -> is_u8 c -> is_u8 d ->
  Z.lor (Z.lor (Z.lor (Z.shiftl a 24) (Z.shiftl b 16)) (Z.shiftl c 8)) d = of_le32 [d; c; b; a].
Proof.
  unfold is_u8. intros. rewrite <- !Z.lor_assoc. rewrite (lor_shiftl_add c d) by lia.
  rewrite (lor_shiftl_add b) by lia. rewrite (lor_shiftl_add a) by lia. unfold of_le32. lia.
Qed.

Lemma lwip_htonl_swaps n : is_u32 n -> lwip_htonl n = htonl n.
Proof.
  intros Hn. unfold lwip_htonl, htonl. change 65280 with (Z.shiftl 255 8). change 16711680 with (Z.shiftl 255 16).
  change 4278190080 with (Z.shiftl 255 24). change (Z.land n 255) with (Z.land n (Z.shiftl 255 0)).
  rewrite !land_byte_at by lia. unfold le32. cbn [rev app].
  rewrite Z.mul_1_r, Z.div_1_r. change (2 ^ 8) with 256. change (2 ^ 16) with 65536. change (2 ^ 24) with 16777216.
  rewrite <- (lor_word (n mod 256) (n / 256 mod 256) (n / 65536 mod 256) (n / 16777216 mod 256)) by word_lia.
  rewrite !Z.shiftr_div_pow2, !Z.shiftl_mul_pow2 by lia. f_equal; [f_equal; [f_equal|]|].
  - change (2 ^ 16) with (256 * 2 ^ 8). lia.
  - change (2 ^ 16) with (2 ^ 8 * 2 ^ 8). change 65536 with (2 ^ 8 * 2 ^ 8). rewrite Z.mul_assoc. rewrite Z.div_mul by lia. done.
  - change 16777216 with (2 ^ 24). by rewrite Z.div_mul.
Qed.

(** * The text *)

(** The digits of a byte. *)
Definition dec (b : Z) : list Z :=
  if b <? 10 then [48 + b] else if b <? 100 then [48 + b / 10; 48 + b mod 10] else [48 + b / 100; 48 + b / 10 mod 10; 48 + b mod 10].

(** The text of an address. *)
Definition dotted (addr : Z) : list Z :=
  match le32 addr with
  | [a; b; c; d] => dec a ++ 46 :: dec b ++ 46 :: dec c ++ 46 :: dec d
  | _ => []
  end.

(** The characters written one by one. *)
Fixpoint puts (buflen : Z) (l : list Z) (len : Z) (buf : list Z) : option (option Z * list Z) :=
  match l with
  | [] => Some (Some len, buf)
  | c :: l =>
      '(r, buf) ← put_char buflen c len buf;
      match r with
      | Some len => puts buflen l len buf
      | None => Some (None, buf)
      end
  end.

Lemma puts_app buflen l k len buf :
  puts buflen (l ++ k) len buf =
  ('(r, buf) ← puts buflen l len buf; match r with Some len => puts buflen k len buf | None => Some (None, buf) end).
Proof.
  revert len buf. induction l as [|c l IH]; intros len buf; cbn; [done|].
  destruct (put_char _ _ _ _) as [[[len'|] buf']|]; cbn; [apply IH|done..].
Qed.

(** What fits is written; the result tells if that is all. *)
Lemma puts_spec buflen l len buf :
  0 <= len <= buflen -> buflen <= zlen buf ->
  puts buflen l len buf =
  Some (if len + zlen l <=? buflen then Some (len + zlen l) else None,
        ztake len buf ++ ztake (buflen - len) l ++ zdrop (Z.min buflen (len + zlen l)) buf).
Proof.
  revert len buf. induction l as [|c l IH]; intros len buf Hlen Hbuf; cbn [puts].
  - rewrite zlen_nil, Z.add_0_r, Z.min_r by lia. replace (len <=? buflen) with true by lia.
    unfold ztake at 2. by rewrite take_nil, app_nil_l, ztake_app_zdrop.
  - unfold put_char. rewrite zlen_cons. pose proof (zlen_nonneg l). destruct (Z.leb_spec buflen len) as [Hf|Hf].
    + cbn. replace (len + (1 + zlen l) <=? buflen) with false by lia. replace len with buflen by lia.
      rewrite (ztake_0 (buflen - buflen)) by lia. rewrite Z.min_l by lia. by rewrite app_nil_l, ztake_app_zdrop.
    + rewrite st_spec by lia. cbn [mbind option_bind]. rewrite IH by zlen_lia.
      replace (len + 1 + zlen l) with (len + (1 + zlen l)) by lia. do 2 f_equal.
      assert (zlen (ztake len buf) = len) as El by zlen_lia.
      rewrite ztake_app_r by lia. rewrite El. rewrite <- app_assoc. f_equal. replace (len + 1 - len) with 1 by lia.
      replace (ztake 1 (c :: zdrop (len + 1) buf)) with [c] by reflexivity.
      rewrite zdrop_app_r by lia. rewrite El. unfold ztake at 2. replace (Z.to_nat (buflen - len)) with (S (Z.to_nat (buflen - (len + 1)))) by lia.
      cbn [take app]. f_equal. unfold ztake. f_equal.
      change (c :: zdrop (len + 1) buf) with ([c] ++ zdrop (len + 1) buf). rewrite zdrop_app_r by (change (zlen [c]) with 1; lia).
      change (zlen [c]) with 1. rewrite zdrop_zdrop by lia. f_equal. lia.
Qed.

Lemma emit_loop_puts buflen d inv len buf :
  ztake (zlen d) inv = rev d -> emit_loop (length d) buflen inv len buf = puts buflen d len buf.
Proof.
  revert len buf. induction d as [|c d IH]; intros len buf Hd; [done|]. cbn [emit_loop puts length].
  assert (ld inv (Z.of_nat (length d)) = Some c) as ->.
  { change (Z.of_nat (length d)) with (zlen d). rewrite <- (ztake_app_zdrop (zlen (c :: d)) inv), Hd. cbn [rev].
    rewrite <- app_assoc, ld_app_r by (unfold zlen; rewrite length_rev; lia).
    replace (zlen d - zlen (rev d)) with 0 by (unfold zlen; rewrite length_rev; lia). done. }
  cbn [mbind option_bind]. destruct (put_char _ _ _ _) as [[[len'|] buf']|]; cbn; [|done..].
  apply IH. rewrite zlen_cons in Hd. rewrite <- (Z.min_l (zlen d) (1 + zlen d)), <- ztake_ztake, Hd by lia. cbn [rev].
  rewrite ztake_app_l by (unfold zlen; rewrite length_rev; lia). apply ztake_all. unfold zlen. rewrite length_rev. lia.
Qed.

Lemma inv_loop_dec b inv : is_u8 b -> zlen inv = 3 ->
  exists inv', inv_loop 3 b 0 inv = Some (zlen (dec b), inv') /\ ztake (zlen (dec b)) inv' = rev (dec b) /\ zlen inv' = 3.
Proof.
  intros Hb Hi. destruct inv as [|x [|y [|z [|]]]]; try (unfold zlen in Hi; cbn in Hi; lia). unfold dec.
  cbn [inv_loop]. replace (st [x; y; z] 0 (48 + b mod 10)) with (Some [48 + b mod 10; y; z]) by reflexivity. cbn [mbind option_bind].
  destruct (Z.ltb_spec b 10).
  { replace (b / 10) with 0 by (symmetry; apply Z.div_small; word_lia). rewrite Z.mod_small by word_lia. eexists. by repeat split. }
  replace (b / 10 =? 0) with false by word_lia. cbn [Z.add].
  replace (st [48 + b mod 10; y; z] 1 (48 + (b / 10) mod 10)) with (Some [48 + b mod 10; 48 + (b / 10) mod 10; z]) by reflexivity.
  cbn [mbind option_bind]. destruct (Z.ltb_spec b 100).
  { replace (b / 10 / 10) with 0 by word_lia. rewrite (Z.mod_small (b / 10)) by word_lia. eexists. by repeat split. }
  replace (b / 10 / 10 =? 0) with false by word_lia. cbn [Z.add Pos.add Pos.succ].
  replace (st [48 + b mod 10; 48 + (b / 10) mod 10; z] 2 (48 + (b / 10 / 10) mod 10)) with
    (Some [48 + b mod 10; 48 + (b / 10) mod 10; 48 + (b / 10 / 10) mod 10]) by reflexivity.
  cbn [mbind option_bind]. replace (b / 10 / 10 / 10) with 0 by word_lia. rewrite (Z.mod_small (b / 10 / 10)) by word_lia.
  rewrite Z.div_div by lia. eexists. by repeat split.
Qed.

Lemma bytes_loop_puts aps buflen inv len buf : Bytes aps -> zlen inv = 3 ->
  bytes_loop aps buflen inv len buf = puts buflen (concat ((fun b => dec b ++ [46]) <$> aps)) len buf.
Proof.
  intros Ha. revert inv len buf. induction Ha as [|b aps Hb _ IH]; intros inv len buf Hi; [done|]. cbn [bytes_loop fmap list_fmap concat].
  destruct (inv_loop_dec b inv Hb Hi) as (inv' & -> & Hd & Hi'). cbn [mbind option_bind].
  unfold zlen at 1. rewrite Nat2Z.id, emit_loop_puts by done. rewrite <- app_assoc, puts_app.
  destruct (puts _ (dec b) _ _) as [[[len1|] buf1]|]; cbn [mbind option_bind]; [|done..]. cbn [puts app].
  destruct (put_char _ 46 _ _) as [[[len2|] buf2]|]; cbn; [by apply IH|done..].
Qed.

Lemma dotted_pieces addr : concat ((fun b => dec b ++ [46]) <$> le32 addr) = dotted addr ++ [46].
Proof. unfold dotted, le32. cbn [fmap list_fmap concat]. by rewrite app_nil_r, !app_comm_cons, <- !app_assoc, <- !app_comm_cons, <- ?app_assoc. Qed.

Lemma dec_text_length b : is_u8 b -> 1 <= zlen (dec b) <= 3.
Proof. intros. unfold dec. zcases; unfold zlen; cbn; lia. Qed.

Lemma dotted_length addr : is_u32 addr -> 7 <= zlen (dotted addr) <= 15.
Proof.
  intros Ha. unfold dotted, le32. rewrite !zlen_app, !zlen_cons, !zlen_app, !zlen_cons, !zlen_app, !zlen_cons.
  pose proof (dec_text_length (addr mod 256)). pose proof (dec_text_length (addr / 256 mod 256)).
  pose proof (dec_text_length (addr / 65536 mod 256)). pose proof (dec_text_length (addr / 16777216 mod 256)). word_lia.
Qed.

(** [ipaddr_ntoa_r] writes the dotted decimal text and its terminator when
    they fit into [buflen] bytes, and returns NULL when they do not; it
    changes no byte behind [buflen] in either case, and none behind the
    terminator. *)
Theorem ipaddr_ntoa_r_correct addr buf buflen :
  is_u32 addr -> 0 <= buflen <= zlen buf ->
  ipaddr_ntoa_r addr buf buflen =
  Some (if zlen (dotted addr) <? buflen then (true, dotted addr ++ 0 :: zdrop (zlen (dotted addr) + 1) buf)
        else (false, ztake buflen (dotted addr ++ [46]) ++ zdrop buflen buf)).
Proof.
  intros Ha Hbuf. unfold ipaddr_ntoa_r. rewrite bytes_loop_puts by (done || (unfold le32; repeat constructor; word_lia)).
  rewrite dotted_pieces, puts_spec by lia. rewrite zlen_app. change (zlen [46]) with 1.
  rewrite ztake_0, app_nil_l, Z.sub_0_r by lia. pose proof (zlen_nonneg (dotted addr)). cbn [mbind option_bind].
  destruct (Z.ltb_spec (zlen (dotted addr)) buflen).
  - replace (0 + (zlen (dotted addr) + 1) <=? buflen) with true by lia. rewrite Z.min_r, ztake_all by zlen_lia.
    replace (0 + (zlen (dotted addr) + 1)) with (zlen (dotted addr) + 1) by lia. rewrite <- app_assoc, st_spec by zlen_lia.
    replace (zlen (dotted addr) + 1 - 1) with (zlen (dotted addr)) by lia. rewrite ztake_zlen_app, zdrop_app_r by lia.
    cbn [mbind option_bind]. do 4 f_equal. by replace (zlen (dotted addr) + 1 - zlen (dotted addr)) with 1 by lia.
  - replace (0 + (zlen (dotted addr) + 1) <=? buflen) with false by lia. by rewrite Z.min_l by lia.
Qed.

(** A buffer of eight bytes for a text of nine characters. *)
Example ipaddr_ntoa_r_correct_witness :
  ipaddr_ntoa_r 16777343 (replicate 10 7) 8 =
  Some (if zlen (dotted 16777343) <? 8 then (true, dotted 16777343 ++ 0 :: zdrop (zlen (dotted 16777343) + 1) (replicate 10 7))
        else (false, ztake 8 (dotted 16777343 ++ [46]) ++ zdrop 8 (replicate 10 7))).
Proof. apply ipaddr_ntoa_r_correct; [word_lia|unfold zlen; cbn; lia]. Defined.

(** * Reading back *)

Lemma digits_loop_end base val c cp : isdigit c = false -> base <> 16 -> digits_loop base val (c :: cp) = Some (val, c :: cp).
Proof. intros Hc Hb. cbn. rewrite Hc. by replace (base =? 16) with false by lia. Qed.

Lemma digits_loop_digit base val x cp : 0 <= x <= 9 -> digits_loop base val (48 + x :: cp) = digits_loop base (u32 (val * base + x)) cp.
Proof.
  intros Hx. cbn. replace (isdigit (48 + x)) with true by (unfold isdigit, in_range; lia). by replace (48 + x - 48) with x by lia.
Qed.

(** A dot and the terminator end a part. *)
Lemma part_dec b c cp : is_u8 b -> c = 46 \/ c = 0 -> part (dec b ++ c :: cp) = Some (b, c :: cp).
Proof.
  intros Hb Hc. assert (isdigit c = false) as Hd by (by destruct Hc as [->| ->]).
  unfold part, dec. destruct (Z.eqb_spec b 0) as [->|Hne].
  - cbn -[digits_loop]. replace ((c =? 120) || (c =? 88)) with false by lia. by rewrite digits_loop_end.
  - destruct (Z.ltb_spec b 10); [|destruct (Z.ltb_spec b 100)]; cbn [app head mbind option_bind].
    + replace (48 + b =? 48) with false by lia. rewrite digits_loop_digit, digits_loop_end by (done || word_lia).
      by rewrite u32_small by word_lia.
    + replace (48 + b / 10 =? 48) with false by word_lia. rewrite !digits_loop_digit, digits_loop_end by (done || word_lia).
      do 2 f_equal. rewrite !u32_small by word_lia. word_lia.
    + replace (48 + b / 100 =? 48) with false by word_lia. rewrite !digits_loop_digit, digits_loop_end by (done || word_lia).
      do 2 f_equal. rewrite !u32_small by word_lia. word_lia.
Qed.

Lemma dec_head b cp : is_u8 b -> exists c l, dec b ++ cp = c :: l /\ isdigit c = true.
Proof.
  intros Hb. unfold dec, isdigit, in_range. destruct (b <? 10) eqn:?; [|destruct (b <? 100) eqn:?]; do 2 eexists; (split; [reflexivity|]); word_lia.
Qed.

(** A turn over a byte of the text. *)
Lemma parts_loop_dec fuel parts b c cp : is_u8 b -> c = 46 \/ c = 0 ->
  parts_loop (S fuel) parts (dec b ++ c :: cp) =
  if c =? 46 then if 3 <=? zlen parts then Some None else parts_loop fuel (parts ++ [b]) cp else Some (Some (parts, b, c :: cp)).
Proof.
  intros Hb Hc. cbn [parts_loop]. destruct (dec_head b (c :: cp) Hb) as (x & l & E & Hx). rewrite E at 1. cbn [head mbind option_bind].
  rewrite Hx. cbn [negb]. rewrite part_dec by done. done.
Qed.

Lemma shift_u32 x k : is_u8 x -> 0 <= k <= 24 -> u32 (Z.shiftl x k) = Z.shiftl x k.
Proof.
  intros Hx Hk. apply u32_small. rewrite Z.shiftl_mul_pow2 by lia. assert (2 ^ k <= 2 ^ 24) by (apply Z.pow_le_mono_r; lia).
  assert (0 < 2 ^ k) by (apply Z.pow_pos_nonneg; lia). change (2 ^ 24) with 16777216 in *. unfold is_u8, is_u32 in *. nia.
Qed.

Lemma concoct_bytes a b c d : is_u8 a -> is_u8 b -> is_u8 c -> is_u8 d ->
  lwip_htonl <$> concoct [a; b; c] d = Some (of_le32 [a; b; c; d]).
Proof.
  intros Ha Hb Hc Hd. unfold concoct. replace (255 <? d) with false by word_lia. rewrite !shift_u32 by (done || lia).
  rewrite Z.lor_comm, lor_word by done. cbn [fmap option_fmap option_map]. f_equal. rewrite lwip_htonl_swaps by (unfold of_le32; word_lia).
  unfold htonl. by rewrite le32_of_le32.
Qed.

(** The text is read as the address, whatever lies behind its terminator. *)
Lemma aton_dotted addr rest : is_u32 addr -> ipaddr_aton (dotted addr ++ 0 :: rest) = Some (Some addr).
Proof.
  intros Ha. unfold ipaddr_aton, dotted, le32. repeat (rewrite <- app_assoc || rewrite <- app_comm_cons).
  assert (is_u8 (addr mod 256) /\ is_u8 (addr / 256 mod 256) /\ is_u8 (addr / 65536 mod 256) /\ is_u8 (addr / 16777216 mod 256))
    as (? & ? & ? & ?) by word_lia.
  do 4 (rewrite parts_loop_dec by auto; cbn [Z.eqb Pos.eqb app]).   repeat match goal with |- context [3 <=? zlen ?l] => change (3 <=? zlen l) with false end.
  cbn [mbind option_bind head Z.eqb negb andb]. rewrite concoct_bytes by done. do 2 f_equal. by apply of_le32_le32.
Qed.

(** C39: Every address that is written is read back. *)
Theorem ipaddr_roundtrip addr str :
  is_u32 addr -> zlen str = 16 ->
  exists str', ipaddr_ntoa addr str = Some (true, str') /\ zlen str' = 16 /\ ipaddr_aton str' = Some (Some addr).
Proof.
  intros Ha Hs. unfold ipaddr_ntoa. rewrite ipaddr_ntoa_r_correct by (done || lia). pose proof (dotted_length addr Ha).
  replace (zlen (dotted addr) <? 16) with true by lia. eexists. split; [reflexivity|]. split; [zlen_lia|by apply aton_dotted].
Qed.

Example ipaddr_roundtrip_witness :
  exists str', ipaddr_ntoa 3232235777 (replicate 16 9) = Some (true, str') /\ zlen str' = 16 /\ ipaddr_aton str' = Some (Some 3232235777).
Proof. apply ipaddr_roundtrip; [word_lia|reflexivity]. Defined.

(** ** Any text *)

Lemma digits_loop_stops base val s :
  is_u32 val -> exists v s', is_u32 v /\ forall rest, digits_loop base val (s ++ 0 :: rest) = Some (v, s' ++ 0 :: rest).
Proof.
  revert val. induction s as [|c s IH]; intros val Hv.
  - exists val, []. split; [done|]. intros rest. cbn. by rewrite andb_false_r.
  - cbn [app digits_loop]. destruct (isdigit c) eqn:Ed; [apply IH, u32_range|].
    destruct ((base =? 16) && isxdigit c) eqn:E; [|by exists val, (c :: s)].
    apply IH. apply andb_true_iff in E as [_ E]. unfold isxdigit, islower, isdigit, in_range in *.
    assert (0 <= c + 10 - (if (97 <=? c) && (c <=? 122) then 97 else 65) < 16) as Hc by (destruct ((97 <=? c) && (c <=? 122)) eqn:?; lia).
    pose proof (u32_range (Z.shiftl val 4)) as Hr. revert Hc. generalize (c + 10 - (if (97 <=? c) && (c <=? 122) then 97 else 65)). intros d Hd.
    assert (Z.lor (u32 (Z.shiftl val 4)) d = u32 (Z.shiftl val 4) + d) as ->; [|unfold is_u32, u32 in *; rewrite Z.shiftl_mul_pow2 by lia; change (2 ^ 4) with 16; word_lia].
    assert (u32 (Z.shiftl val 4) = Z.shiftl (val mod 268435456) 4) as -> by (rewrite !Z.shiftl_mul_pow2 by lia; change (2 ^ 4) with 16; word_lia).
    rewrite lor_shiftl_add by lia. by rewrite Z.shiftl_mul_pow2 by lia.
Qed.

Lemma part_stops c s : isdigit c = true ->
  exists v s', is_u32 v /\ forall rest, part (c :: s ++ 0 :: rest) = Some (v, s' ++ 0 :: rest).
Proof.
  intros Hc. unfold part. cbn [head tail mbind option_bind]. destruct (c =? 48).
  - destruct s as [|c1 s]; [exists 0, []; by split|]. cbn [app head tail mbind option_bind].
    destruct ((c1 =? 120) || (c1 =? 88)); [by apply digits_loop_stops|]. by apply (digits_loop_stops 8 0 (c1 :: s)).
  - by apply (digits_loop_stops 10 0 (c :: s)).
Qed.

Definition good_parts (r : option (list Z * Z * list Z)) : Prop :=
  match r with Some (parts, val, _) => Forall is_u32 parts /\ is_u32 val | None => True end.

(** What is left before the terminator. *)
Definition behind (rest : list Z) (r : option (list Z * Z * list Z)) : option (list Z * Z * list Z) :=
  match r with Some (parts, val, s) => Some (parts, val, s ++ 0 :: rest) | None => None end.

Lemma parts_loop_stops fuel parts s :
  Z.of_nat fuel + zlen parts = 4 -> (0 < fuel)%nat -> Forall is_u32 parts ->
  exists r, good_parts r /\ forall rest, parts_loop fuel parts (s ++ 0 :: rest) = Some (behind rest r).
Proof.
  revert parts s. induction fuel as [|fuel IH]; intros parts s Hf Hp Hparts; [lia|]. cbn [parts_loop].
  destruct s as [|c s]; [by exists None|]. cbn [app head mbind option_bind]. destruct (isdigit c) eqn:Hc; cbn [negb]; [|by exists None].
  destruct (part_stops c s Hc) as (v & s' & Hv & Hr). destruct s' as [|c' s'].
  - exists (Some (parts, v, [])). split; [done|]. intros rest. by rewrite Hr.
  - destruct (Z.eqb_spec c' 46) as [->|Hne].
    + destruct (3 <=? zlen parts) eqn:E.
      { exists None. split; [done|]. intros rest. rewrite Hr. done. }
      destruct (IH (parts ++ [v]) s') as (r & Hg & H); [zlen_lia|lia|by apply Forall_app_2; [|constructor]|].
      exists r. split; [done|]. intros rest. rewrite Hr. apply H.
    + exists (Some (parts, v, c' :: s')). split; [done|]. intros rest. rewrite Hr. cbn.
      by replace (c' =? 46) with false by lia.
Qed.

Lemma is_u32_lor x y : is_u32 x -> is_u32 y -> is_u32 (Z.lor x y).
Proof.
  intros Hx Hy. unfold is_u32 in *. change 4294967296 with (2 ^ 32) in *.
  rewrite <- (Z.mod_small x (2 ^ 32)), <- (Z.mod_small y (2 ^ 32)), <- !Z.land_ones, <- Z.land_lor_distr_l, Z.land_ones by lia.
  apply Z.mod_pos_bound. lia.
Qed.

Lemma concoct_range parts val a : Forall is_u32 parts -> is_u32 val -> concoct parts val = Some a -> is_u32 a.
Proof.
  intros Hp Hv. unfold concoct. destruct parts as [|p1 [|p2 [|p3 [|]]]]; intros E;
    repeat (case_match; [done|]); simplify_eq; auto using is_u32_lor, u32_range.
Qed.

Lemma lwip_htonl_range n : is_u32 n -> is_u32 (lwip_htonl n).
Proof. intros. rewrite lwip_htonl_swaps by done. unfold htonl, of_le32, le32. cbn [rev app]. word_lia. Qed.

(** On any string [ipaddr_aton] returns: it reads no byte behind the
    terminator, so what it returns does not depend on them, and an address it
    stores is a word. *)
Theorem ipaddr_aton_safe s :
  exists r, (forall rest, ipaddr_aton (s ++ 0 :: rest) = Some r) /\ match r with Some a => is_u32 a | None => True end.
Proof.
  destruct (parts_loop_stops 4 [] s) as (r & Hg & Hr); [done|lia|done|]. destruct r as [[[parts val] s']|].
  - cbn in Hg. destruct Hg as [Hp Hv].
    assert (exists b : bool, forall rest, ipaddr_aton (s ++ 0 :: rest) = Some (if b then None else lwip_htonl <$> concoct parts val)) as [b Hb].
    { destruct s' as [|c s'].
      - exists false. intros rest. unfold ipaddr_aton. by rewrite Hr.
      - exists (negb (c =? 0) && negb (isspace c)). intros rest. unfold ipaddr_aton. rewrite Hr. cbn. by destruct (_ && _). }
    eexists. split; [exact Hb|]. destruct b; [done|]. destruct (concoct parts val) as [a|] eqn:E; [|done].
    cbn. eapply lwip_htonl_range, concoct_range; [exact Hp|exact Hv|done].
  - exists None. split; [|done]. intros rest. unfold ipaddr_aton. by rewrite Hr.
Qed.

(** Only the last part is checked: 256.0.0.1 is read as 0.0.0.1, and 0.256.0.1 as
    1.0.0.1. *)
Lemma aton_large_parts rest :
  ipaddr_aton ([50; 53; 54; 46; 48; 46; 48; 46; 49] ++ 0 :: rest) = ipaddr_aton ([48; 46; 48; 46; 48; 46; 49] ++ 0 :: rest) /\
  ipaddr_aton ([48; 46; 50; 53; 54; 46; 48; 46; 49] ++ 0 :: rest) = ipaddr_aton ([49; 46; 48; 46; 48; 46; 49] ++ 0 :: rest).
Proof. split; reflexivity. Qed.

(** The digits 8 and 9 count in an octal part, and a prefix 0x needs no digit:
    09.0x.0.1 is read as 9.0.0.1. *)
Lemma aton_odd_digits rest :
  ipaddr_aton ([48; 57; 46; 48; 120; 46; 48; 46; 49] ++ 0 :: rest) = ipaddr_aton ([57; 46; 48; 46; 48; 46; 49] ++ 0 :: rest).
Proof. reflexivity. Qed.

(** * Netmasks *)

(** The bit looked at when [n] bits are left. *)
Definition bit_of (n : nat) : Z := match n with O => 0 | S m => 2 ^ Z.of_nat m end.

Lemma bit_of_next m : Z.shiftr (bit_of (S m)) 1 = bit_of m.
Proof.
  cbn [bit_of]. rewrite Z.shiftr_div_pow2 by lia. destruct m as [|m]; [done|]. cbn [bit_of].
  rewrite Nat2Z.inj_succ, Z.pow_succ_r, Z.mul_comm by lia. by apply Z.div_mul.
Qed.

Lemma bit_of_land h m : (Z.land h (bit_of (S m)) =? 0) = negb (Z.testbit h (Z.of_nat m)).
Proof.
  cbn [bit_of]. destruct (Z.testbit h (Z.of_nat m)) eqn:E; cbn.
  - apply Z.eqb_neq. intros H. apply (f_equal (fun x => Z.testbit x (Z.of_nat m))) in H.
    by rewrite Z.land_spec, E, Z.pow2_bits_true, Z.bits_0 in H by lia.
  - apply Z.eqb_eq, Z.bits_inj'. intros i _. rewrite Z.land_spec, Z.bits_0.
    destruct (Z.eq_dec i (Z.of_nat m)) as [->|]; [by rewrite E|]. by rewrite Z.pow2_bits_false, andb_false_r by lia.
Qed.

Lemma bit_of_pos m : (bit_of (S m) =? 0) = false.
Proof. apply Z.eqb_neq. cbn. pose proof (Z.pow_pos_nonneg 2 (Z.of_nat m)). lia. Qed.

(** The ones of [h] below bit [n] end at bit [k]. *)
Lemma first_zero_spec h n fuel : (n <= fuel)%nat ->
  exists k, (k <= n)%nat /\ first_zero fuel h (bit_of n) = bit_of k /\
    (forall i, Z.of_nat k <= i < Z.of_nat n -> Z.testbit h i = true) /\
    (k = 0%nat \/ Z.testbit h (Z.of_nat k - 1) = false).
Proof.
  revert n. induction fuel as [|fuel IH]; intros n Hf.
  - assert (n = 0%nat) as -> by lia. exists 0%nat. split; [done|]. split; [done|]. split; [intros; lia|by left].
  - destruct n as [|n]; [exists 0%nat; split; [done|]; split; [done|]; split; [intros; lia|by left]|].
    cbn [first_zero]. rewrite bit_of_pos, bit_of_land. destruct (Z.testbit h (Z.of_nat n)) eqn:E; cbn [negb].
    + rewrite bit_of_next. destruct (IH n) as (k & Hk & Ek & Hones & Hz); [lia|]. exists k. split; [lia|]. split; [done|]. split; [|done].
      intros i Hi. destruct (Z.eq_dec i (Z.of_nat n)) as [->|]; [done|apply Hones; lia].
    + exists (S n). split; [lia|]. split; [done|]. split; [intros; lia|]. right. by replace (Z.of_nat (S n) - 1) with (Z.of_nat n) by lia.
Qed.

Lemma no_one_spec h n fuel : (n <= fuel)%nat ->
  no_one fuel h (bit_of n) = true <-> forall i, 0 <= i < Z.of_nat n -> Z.testbit h i = false.
Proof.
  revert n. induction fuel as [|fuel IH]; intros n Hf; [split; [intros; lia|done]|].
  destruct n as [|n]; [split; [intros; lia|done]|]. cbn [no_one]. rewrite bit_of_pos, bit_of_land, negb_involutive.
  destruct (Z.testbit h (Z.of_nat n)) eqn:E.
  - split; [done|]. intros H. rewrite H in E by lia. done.
  - rewrite bit_of_next, IH by lia. split; intros H i Hi; [|apply H; lia].
    destruct (Z.eq_dec i (Z.of_nat n)) as [->|]; [done|apply H; lia].
Qed.

(** A netmask is taken for valid exactly when in host order it is ones down
    to some bit [k] and zeros below. *)
Theorem ip4_addr_netmask_valid_correct nm :
  ip4_addr_netmask_valid nm = true <->
  exists k, 0 <= k <= 32 /\ forall i, 0 <= i < 32 -> Z.testbit (lwip_htonl nm) i = (k <=? i).
Proof.
  unfold ip4_addr_netmask_valid. generalize (lwip_htonl nm). intros h. change 2147483648 with (bit_of 32).
  destruct (first_zero_spec h 32 32) as (k & Hk & -> & Hones & Hz); [lia|]. rewrite no_one_spec by lia. split.
  - intros Hno. exists (Z.of_nat k). split; [lia|]. intros i Hi. destruct (Z.leb_spec (Z.of_nat k) i); [apply Hones; lia|apply Hno; lia].
  - intros (j & Hj & Hbits) i Hi. rewrite Hbits by lia. apply Z.leb_gt. destruct Hz as [->|Hz]; [lia|].
    rewrite Hbits in Hz by lia. apply Z.leb_gt in Hz. lia.
Qed.

(** * The functions of the network adapter

    [inet_ntoa] is [ipaddr_ntoa], of which the text is used, and [inet_addr] is
    [ipaddr_addr]; they keep the laws of the interface. *)

Fixpoint text (s : list Z) : list Z :=
  match s with [] => [] | c :: s => if c =? 0 then [] else c :: text s end.

Lemma text_nonzero s : Forall (fun c => c <> 0) (text s).
Proof. induction s as [|c s IH]; cbn; [done|]. destruct (Z.eqb_spec c 0); auto. Qed.

Lemma text_app l s : Forall (fun c => c <> 0) l -> text (l ++ 0 :: s) = l.
Proof. induction 1 as [|c l Hc _ IH]; [done|]. cbn. rewrite IH. by replace (c =? 0) with false by lia. Qed.

Lemma dec_nonzero b : is_u8 b -> Forall (fun c => c <> 0) (dec b).
Proof. intros. unfold dec. zcases; repeat constructor; word_lia. Qed.

Lemma dotted_nonzero addr : Forall (fun c => c <> 0) (dotted addr).
Proof. unfold dotted, le32. repeat (apply Forall_app_2 || apply Forall_cons_2 || (apply dec_nonzero; word_lia)); lia. Qed.

Definition ntoa_text (addr : Z) : list Z :=
  match ipaddr_ntoa addr (replicate 16 0) with Some (true, str) => text str | _ => [] end.

Lemma ntoa_text_dotted addr : is_u32 addr -> ntoa_text addr = dotted addr.
Proof.
  intros Ha. unfold ntoa_text, ipaddr_ntoa. rewrite ipaddr_ntoa_r_correct by (done || (unfold zlen; cbn; lia)).
  pose proof (dotted_length addr Ha). replace (zlen (dotted addr) <? 16) with true by lia. apply text_app, dotted_nonzero.
Qed.

#[export] Program Instance lwip_inet : Inet := {
  inet_ntoa := ntoa_text;
  inet_addr := fun cp => default IPADDR_NONE (ipaddr_addr cp)
}.
Next Obligation. intros a Ha. rewrite ntoa_text_dotted by done. pose proof (dotted_length a Ha). lia. Qed.
Next Obligation. intros a. unfold ntoa_text. destruct (ipaddr_ntoa _ _) as [[[|] s]|]; [apply text_nonzero|done..]. Qed.
Next Obligation. intros a rest Ha. rewrite ntoa_text_dotted by done. unfold ipaddr_addr. by rewrite aton_dotted. Qed.
