(* ===== verification/Etharp.v ===== *)
(** The address resolution of lwIP (LwIP/src/netif/etharp.c) on the packet
    buffers: the table of addresses, the packets that wait for one, sending,
    and the frames that come in.

    As it is compiled: one packet waits for each entry (no ARP_QUEUEING), no static
    entries, no automatic addresses, no VLANs.  A MAC address is its six bytes.
    The driver behind [linkoutput] reads the buffers of a frame and leaves
    them as they are; what it returns is a parameter.  Frames that go to the IP
    layer and calls of the DHCP client are recorded. *)
From stdpp Require Import gmap.
From S2P Require Import Prelude Pbuf IpAddr.

Definition ARP_TABLE_SIZE : Z := 10.
Definition ARP_MAXAGE : Z := 240.
Definition ARP_AGE_REREQUEST_USED : Z := ARP_MAXAGE - 12.
Definition ARP_MAXPENDING : Z := 2.
Definition HWTYPE_ETHERNET : Z := 1.

Definition ETHARP_STATE_EMPTY : Z := 0.
Definition ETHARP_STATE_PENDING : Z := 1.
Definition ETHARP_STATE_STABLE : Z := 2.
Definition ETHARP_STATE_STABLE_REREQUESTING : Z := 3.

Definition ETHARP_FLAG_TRY_HARD : Z := 1.
Definition ETHARP_FLAG_FIND_ONLY : Z := 2.

Definition ETHARP_HWADDR_LEN : Z := 6.
Definition SIZEOF_ETH_HDR : Z := 14.
Definition SIZEOF_ETHARP_HDR : Z := 28.
Definition SIZEOF_ETHARP_PACKET : Z := SIZEOF_ETH_HDR + SIZEOF_ETHARP_HDR.
Definition ETHTYPE_ARP : Z := 2054.
Definition ETHTYPE_IP : Z := 2048.
Definition ARP_REQUEST : Z := 1.
Definition ARP_REPLY : Z := 2.
Definition NETIF_FLAG_ETHARP : Z := 32.
Definition PBUF_FLAG_LLBCAST : Z := 8.
Definition PBUF_FLAG_LLMCAST : Z := 16.

Definition ethbroadcast : list Z := [255; 255; 255; 255; 255; 255].
Definition ethzero : list Z := [0; 0; 0; 0; 0; 0].

Definition ERR_MEM : Z := -1.
Definition ERR_BUF : Z := -2.
Definition ERR_RTE : Z := -4.

Record etharp_entry := mkEntry { q : Z; ipaddr : Z; nif : Z; ethaddr : list Z; state : Z; ctime : Z }.

(** The table, the buffers, and what was done: frames handed to the driver, buffers
    handed to the IP layer, calls of [dhcp_arp_reply], last first. *)
Record Arp := mkArp {
  arp_table : list etharp_entry;
  etharp_cached_entry : Z;
  bufs : Pbufs;
  sent : list (list Z);
  ip_inputs : list Z;
  dhcp_replies : list Z
}.

Definition set_q (v : Z) (e : etharp_entry) : etharp_entry := mkEntry v (ipaddr e) (nif e) (ethaddr e) (state e) (ctime e).
Definition set_state (v : Z) (e : etharp_entry) : etharp_entry := mkEntry (q e) (ipaddr e) (nif e) (ethaddr e) v (ctime e).
Definition set_ctime (v : Z) (e : etharp_entry) : etharp_entry := mkEntry (q e) (ipaddr e) (nif e) (ethaddr e) (state e) v.
Definition set_ipaddr (v : Z) (e : etharp_entry) : etharp_entry := mkEntry (q e) v (nif e) (ethaddr e) (state e) (ctime e).
Definition set_mac (n : Z) (v : list Z) (e : etharp_entry) : etharp_entry := mkEntry (q e) (ipaddr e) n v (state e) (ctime e).

Definition set_table (v : list etharp_entry) (s : Arp) : Arp := mkArp v (etharp_cached_entry s) (bufs s) (sent s) (ip_inputs s) (dhcp_replies s).
Definition set_cached (v : Z) (s : Arp) : Arp := mkArp (arp_table s) v (bufs s) (sent s) (ip_inputs s) (dhcp_replies s).
Definition set_bufs (v : Pbufs) (s : Arp) : Arp := mkArp (arp_table s) (etharp_cached_entry s) v (sent s) (ip_inputs s) (dhcp_replies s).
Definition add_sent (f : list Z) (s : Arp) : Arp := mkArp (arp_table s) (etharp_cached_entry s) (bufs s) (f :: sent s) (ip_inputs s) (dhcp_replies s).
Definition add_ip_input (p : Z) (s : Arp) : Arp := mkArp (arp_table s) (etharp_cached_entry s) (bufs s) (sent s) (p :: ip_inputs s) (dhcp_replies s).
Definition add_dhcp_reply (a : Z) (s : Arp) : Arp := mkArp (arp_table s) (etharp_cached_entry s) (bufs s) (sent s) (ip_inputs s) (a :: dhcp_replies s).

(** An operation on the packet buffers. *)
Definition onbufs {A} (m : M Pbufs A) : M Arp A := fun s =>
  match m (bufs s) with
  | Done a b => Done a (set_bufs b s)
  | Err e b => Err e (set_bufs b s)
  | Crash => Crash
  end.

(** [arp_table[i]] *)
Definition entry (i : Z) : M Arp etharp_entry := access (fun s => ld (arp_table s) i).

Definition put_entry (i : Z) (e : etharp_entry) : M Arp unit :=
  t ← access (fun s => st (arp_table s) i e); modify (set_table t).

Definition alter_entry (i : Z) (f : etharp_entry -> etharp_entry) : M Arp unit := e ← entry i; put_entry i (f e).

(** Frees a buffer whose count of freed buffers is not used. *)
Definition release (p : Z) : M Arp unit := _ ← onbufs (pbuf_free p); mret tt.

(** * The table *)

Definition etharp_free_entry (i : Z) : M Arp unit :=
  e ← entry i;
  (if q e =? 0 then mret tt else release (q e);; alter_entry i (set_q 0));;
  alter_entry i (set_state ETHARP_STATE_EMPTY).

(** The body of the loop of [etharp_tmr]. *)
Definition age_entry (i : Z) : M Arp unit :=
  e ← entry i;
  if state e =? ETHARP_STATE_EMPTY then mret tt else
  let c := u8 (ctime e + 1) in
  alter_entry i (set_ctime c);;
  if (ARP_MAXAGE <=? c) || ((state e =? ETHARP_STATE_PENDING) && (ARP_MAXPENDING <=? c)) then etharp_free_entry i
  else if state e =? ETHARP_STATE_STABLE_REREQUESTING then alter_entry i (set_state ETHARP_STATE_STABLE)
  else mret tt.

Fixpoint each (l : list Z) (f : Z -> M Arp unit) : M Arp unit :=
  match l with
  | [] => mret tt
  | i :: l => f i;; each l f
  end.

Definition etharp_tmr : M Arp unit := each (seqZ 0 ARP_TABLE_SIZE) age_entry.

(** The candidates that [etharp_find_entry] remembers, [ARP_TABLE_SIZE] for none. *)
Record Candidates := mkCandidates {
  first_empty : Z; old_pending : Z; age_pending : Z; old_stable : Z; age_stable : Z; old_queue : Z; age_queue : Z
}.

Definition no_candidates : Candidates := mkCandidates ARP_TABLE_SIZE ARP_TABLE_SIZE 0 ARP_TABLE_SIZE 0 ARP_TABLE_SIZE 0.

(** What entry [i], which does not match, adds to them. *)
Definition remember (i : Z) (e : etharp_entry) (c : Candidates) : Candidates :=
  if state e =? ETHARP_STATE_PENDING then
    if negb (q e =? 0) then
      if age_queue c <=? ctime e
      then mkCandidates (first_empty c) (old_pending c) (age_pending c) (old_stable c) (age_stable c) i (ctime e) else c
    else
      if age_pending c <=? ctime e
      then mkCandidates (first_empty c) i (ctime e) (old_stable c) (age_stable c) (old_queue c) (age_queue c) else c
  else if ETHARP_STATE_STABLE <=? state e then
    if age_stable c <=? ctime e
    then mkCandidates (first_empty c) (old_pending c) (age_pending c) i (ctime e) (old_queue c) (age_queue c) else c
  else c.

(** The sweep over the table: the entry that matches, or the candidates.  All
    callers give an address. *)
Fixpoint sweep (addr i : Z) (t : list etharp_entry) (c : Candidates) : Z + Candidates :=
  match t with
  | [] => inr c
  | e :: t =>
      if (first_empty c =? ARP_TABLE_SIZE) && (state e =? ETHARP_STATE_EMPTY) then
        sweep addr (i + 1) t
          (mkCandidates i (old_pending c) (age_pending c) (old_stable c) (age_stable c) (old_queue c) (age_queue c))
      else if negb (state e =? ETHARP_STATE_EMPTY) then
        if addr =? ipaddr e then inl i else sweep addr (i + 1) t (remember i e c)
      else sweep addr (i + 1) t c
  end.

(** The entry for a new address: an empty one, or the least important. *)
Definition recycle (c : Candidates) : option Z :=
  if first_empty c <? ARP_TABLE_SIZE then Some (first_empty c)
  else if old_stable c <? ARP_TABLE_SIZE then Some (old_stable c)
  else if old_pending c <? ARP_TABLE_SIZE then Some (old_pending c)
  else if old_queue c <? ARP_TABLE_SIZE then Some (old_queue c)
  else None.

Definition etharp_find_entry (addr flags : Z) : M Arp Z :=
  t ← gets arp_table;
  match sweep addr 0 t no_candidates with
  | inl i => mret i
  | inr c =>
      if negb (Z.land flags ETHARP_FLAG_FIND_ONLY =? 0) ||
         ((first_empty c =? ARP_TABLE_SIZE) && (Z.land flags ETHARP_FLAG_TRY_HARD =? 0)) then mret ERR_MEM
      else
        match recycle c with
        | None => mret ERR_MEM
        | Some i =>
            (if first_empty c <? ARP_TABLE_SIZE then mret tt else etharp_free_entry i);;
            alter_entry i (set_ipaddr addr);;
            alter_entry i (set_ctime 0);;
            mret i
        end
  end.

Definition cleanup_entry (n : netif) (i : Z) : M Arp unit :=
  e ← entry i;
  if negb (state e =? ETHARP_STATE_EMPTY) && (nif e =? self n) then etharp_free_entry i else mret tt.

Definition etharp_cleanup_netif (n : netif) : M Arp unit := each (seqZ 0 ARP_TABLE_SIZE) (cleanup_entry n).

(** The index and the two addresses stored for the caller. *)
Definition etharp_find_addr (addr : Z) : M Arp (option (Z * list Z * Z)) :=
  i ← etharp_find_entry addr ETHARP_FLAG_FIND_ONLY;
  if 0 <=? i then
    e ← entry i;
    if ETHARP_STATE_STABLE <=? state e then mret (Some (i, ethaddr e, ipaddr e)) else mret None
  else mret None.

(** * Sending *)

(** The driver's result for a frame, after the frames sent before. *)
Class Driver := link_result : list (list Z) -> list Z -> Z.

(** The bytes of a chain, as the driver reads them. *)
Fixpoint frame_loop (fuel : nat) (p : Z) : M Pbufs (list Z) :=
  if p =? 0 then mret [] else
  match fuel with
  | O => fail 99
  | S fuel =>
      b ← deref p;
      d ← read b 0 (len b);
      l ← frame_loop fuel (next b);
      mret (d ++ l)
  end.

Definition frame (p : Z) : M Pbufs (list Z) := walk (fun fuel => frame_loop fuel p).

Section Link.
Context `{PM : PbufMemory} `{DR : Driver}.

Definition linkoutput (p : Z) : M Arp Z :=
  f ← onbufs (frame p);
  past ← gets sent;
  modify (add_sent f);;
  mret (link_result past f).

Definition etharp_send_ip (p : Z) (src dst : list Z) : M Arp Z :=
  onbufs (write p 0 dst);;
  onbufs (write p 6 src);;
  onbufs (write p 12 (le16 (htons ETHTYPE_IP)));;
  linkoutput p.

Definition ip_addr_ismulticast (addr : Z) : bool := Z.land addr (htonl 4026531840) =? htonl 3758096384.

Definition ip_addr_islinklocal (addr : Z) : bool := Z.land addr (htonl 4294901760) =? htonl 2851995648.

Definition etharp_update_arp_entry (n : netif) (addr : Z) (mac : list Z) (flags : Z) : M Arp Z :=
  if (addr =? IPADDR_ANY) || ip4_addr_isbroadcast addr n || ip_addr_ismulticast addr then mret ERR_ARG else
  i ← etharp_find_entry addr flags;
  if i <? 0 then mret i else
  alter_entry i (set_state ETHARP_STATE_STABLE);;
  alter_entry i (set_mac (self n) mac);;
  alter_entry i (set_ctime 0);;
  e ← entry i;
  (if q e =? 0 then mret tt
   else alter_entry i (set_q 0);; _ ← etharp_send_ip (q e) (hwaddr n) mac; release (q e));;
  mret ERR_OK.

(** An ARP message in a frame of its own: the fields in the order they are written. *)
Definition etharp_raw (ethsrc_addr ethdst_addr hwsrc_addr : list Z) (ipsrc_addr : Z) (hwdst_addr : list Z) (ipdst_addr opcode : Z) : M Arp Z :=
  p ← onbufs (pbuf_alloc PBUF_RAW SIZEOF_ETHARP_PACKET PBUF_RAM);
  if p =? 0 then mret ERR_MEM else
  onbufs (write p 20 (le16 (htons opcode)));;
  onbufs (write p 22 hwsrc_addr);;
  onbufs (write p 32 hwdst_addr);;
  onbufs (write p 0 ethdst_addr);;
  onbufs (write p 6 ethsrc_addr);;
  onbufs (write p 28 (le32 ipsrc_addr));;
  onbufs (write p 38 (le32 ipdst_addr));;
  onbufs (write p 14 (le16 (htons HWTYPE_ETHERNET)));;
  onbufs (write p 16 (le16 (htons ETHTYPE_IP)));;
  onbufs (write p 18 [ETHARP_HWADDR_LEN]);;
  onbufs (write p 19 [4]);;
  onbufs (write p 12 (le16 (htons ETHTYPE_ARP)));;
  result ← linkoutput p;
  release p;;
  mret result.

Definition etharp_request (n : netif) (addr : Z) : M Arp Z :=
  etharp_raw (hwaddr n) ethbroadcast (hwaddr n) (ip_addr n) ethzero addr ARP_REQUEST.

(** The first buffer of a chain that is not of type [PBUF_ROM], or null. *)
Fixpoint not_rom (fuel : nat) (p : Z) : M Pbufs Z :=
  if p =? 0 then mret 0 else
  match fuel with
  | O => fail 99
  | S fuel => b ← deref p; if negb (type b =? PBUF_ROM) then mret p else not_rom fuel (next b)
  end.

(** The packet that waits: a copy, or the packet itself when it is all in ROM. *)
Definition take_over (pk : Z) : M Pbufs Z :=
  p ← walk (fun fuel => not_rom fuel pk);
  if negb (p =? 0) then
    b ← deref p;
    p ← pbuf_alloc PBUF_RAW (tot_len b) PBUF_RAM;
    if p =? 0 then mret 0 else
    r ← pbuf_copy p pk;
    if r =? ERR_OK then mret p else _ ← pbuf_free p; mret 0
  else pbuf_ref pk;; mret pk.

(** [pk] is null for a query alone. *)
Definition etharp_query (n : netif) (addr pk : Z) : M Arp Z :=
  if ip4_addr_isbroadcast addr n || ip_addr_ismulticast addr || (addr =? IPADDR_ANY) then mret ERR_ARG else
  i ← etharp_find_entry addr ETHARP_FLAG_TRY_HARD;
  if i <? 0 then mret i else
  e ← entry i;
  (if state e =? ETHARP_STATE_EMPTY then alter_entry i (set_state ETHARP_STATE_PENDING) else mret tt);;
  e ← entry i;
  result ← (if (state e =? ETHARP_STATE_PENDING) || (pk =? 0) then etharp_request n addr else mret ERR_MEM);
  if pk =? 0 then mret result else
  e ← entry i;
  if ETHARP_STATE_STABLE <=? state e then
    modify (set_cached i);;
    etharp_send_ip pk (hwaddr n) (ethaddr e)
  else if state e =? ETHARP_STATE_PENDING then
    p ← onbufs (take_over pk);
    if negb (p =? 0) then
      (if negb (q e =? 0) then release (q e) else mret tt);;
      alter_entry i (set_q p);;
      mret ERR_OK
    else mret ERR_MEM
  else mret result.

Definition etharp_output_to_arp_index (n : netif) (pk arp_idx : Z) : M Arp Z :=
  e ← entry arp_idx;
  (if (state e =? ETHARP_STATE_STABLE) && (ARP_AGE_REREQUEST_USED <=? ctime e) then
     r ← etharp_request n (ipaddr e);
     if r =? ERR_OK then alter_entry arp_idx (set_state ETHARP_STATE_STABLE_REREQUESTING) else mret tt
   else mret tt);;
  e ← entry arp_idx;
  etharp_send_ip pk (hwaddr n) (ethaddr e).

(** The first stable entry of an address. *)
Fixpoint stable_entry (addr i : Z) (t : list etharp_entry) : option Z :=
  match t with
  | [] => None
  | e :: t => if (ETHARP_STATE_STABLE <=? state e) && (addr =? ipaddr e) then Some i else stable_entry addr (i + 1) t
  end.

(** Where a unicast packet goes: to its destination on the local network or to
    the gateway, if there is one. *)
Definition next_hop (n : netif) (addr : Z) : option Z :=
  if negb (Z.land addr (netmask n) =? Z.land (ip_addr n) (netmask n)) && negb (ip_addr_islinklocal addr) then
    if negb (gw n =? IPADDR_ANY) then Some (gw n) else None
  else Some addr.

Definition etharp_output (n : netif) (pk addr : Z) : M Arp Z :=
  bad ← onbufs (pbuf_header pk SIZEOF_ETH_HDR);
  if (bad : bool) then mret ERR_BUF else
  if ip4_addr_isbroadcast addr n then etharp_send_ip pk (hwaddr n) ethbroadcast
  else if ip_addr_ismulticast addr then
    let b := le32 addr in
    etharp_send_ip pk (hwaddr n) [1; 0; 94; Z.land (nth 1 b 0) 127; nth 2 b 0; nth 3 b 0]
  else
    match next_hop n addr with
    | None => mret ERR_RTE
    | Some dst_addr =>
        c ← gets etharp_cached_entry;
        e ← entry c;
        if (ETHARP_STATE_STABLE <=? state e) && (dst_addr =? ipaddr e) then etharp_output_to_arp_index n pk c
        else
          t ← gets arp_table;
          match stable_entry dst_addr 0 t with
          | Some i => modify (set_cached i);; etharp_output_to_arp_index n pk i
          | None => etharp_query n dst_addr pk
          end
    end.

(** * Receiving *)

(** [n] bytes of a frame at [off], as a number of 8, 16 or 32 bits. *)
Definition bytes_at (d : list Z) (off n : nat) : list Z := take n (drop off d).
Definition at8 (d : list Z) (off : nat) : Z := nth off d 0.
Definition at16 (d : list Z) (off : nat) : Z := of_le16 (bytes_at d off 2).
Definition at32 (d : list Z) (off : nat) : Z := of_le32 (bytes_at d off 4).

(** The first [n] bytes of a buffer. *)
Definition look (p n : Z) : M Pbufs (list Z) := b ← deref p; read b 0 n.

(** A request for our address is answered in its own buffer. *)
Definition answer (n : netif) (p : Z) (d : list Z) : M Arp unit :=
  onbufs (write p 20 (le16 (htons ARP_REPLY)));;
  onbufs (write p 38 (bytes_at d 28 4));;
  onbufs (write p 28 (le32 (ip_addr n)));;
  onbufs (write p 32 (bytes_at d 22 6));;
  onbufs (write p 0 (bytes_at d 22 6));;
  onbufs (write p 22 (hwaddr n));;
  onbufs (write p 6 (hwaddr n));;
  _ ← linkoutput p; mret tt.

Definition etharp_arp_input (n : netif) (p : Z) : M Arp unit :=
  b ← onbufs (deref p);
  if len b <? SIZEOF_ETHARP_PACKET then release p else
  d ← onbufs (look p SIZEOF_ETHARP_PACKET);
  if negb (at16 d 14 =? htons HWTYPE_ETHERNET) || negb (at8 d 18 =? ETHARP_HWADDR_LEN) ||
     negb (at8 d 19 =? 4) || negb (at16 d 16 =? htons ETHTYPE_IP) then release p
  else
    let sipaddr := at32 d 28 in
    let dipaddr := at32 d 38 in
    let for_us := if ip_addr n =? IPADDR_ANY then false else dipaddr =? ip_addr n in
    _ ← etharp_update_arp_entry n sipaddr (bytes_at d 22 6) (if for_us then ETHARP_FLAG_TRY_HARD else ETHARP_FLAG_FIND_ONLY);
    d ← onbufs (look p SIZEOF_ETHARP_PACKET);
    (if at16 d 20 =? htons ARP_REQUEST then if for_us then answer n p d else mret tt
     else if at16 d 20 =? htons ARP_REPLY then modify (add_dhcp_reply sipaddr)
     else mret tt);;
    release p.

Definition mark (p flag : Z) : M Pbufs unit :=
  update p (fun b => mkPbuf (next b) (payload b) (tot_len b) (len b) (type b) (Z.lor (flags b) flag) (ref b) (room b)).

Definition ethernet_input (p : Z) (n : netif) : M Arp Z :=
  b ← onbufs (deref p);
  if len b <=? SIZEOF_ETH_HDR then release p;; mret ERR_OK else
  d ← onbufs (look p SIZEOF_ETH_HDR);
  let type := at16 d 12 in
  (if negb (Z.land (at8 d 0) 1 =? 0) then
     if at8 d 0 =? 1 then
       if (at8 d 1 =? 0) && (at8 d 2 =? 94) then onbufs (mark p PBUF_FLAG_LLMCAST) else mret tt
     else if bool_decide (bytes_at d 0 6 = ethbroadcast) then onbufs (mark p PBUF_FLAG_LLBCAST) else mret tt
   else mret tt);;
  (if type =? htons ETHTYPE_IP then
     if Z.land (netif_flags n) NETIF_FLAG_ETHARP =? 0 then release p
     else
       bad ← onbufs (pbuf_header p (- SIZEOF_ETH_HDR));
       if (bad : bool) then release p else modify (add_ip_input p)
   else if type =? htons ETHTYPE_ARP then
     if Z.land (netif_flags n) NETIF_FLAG_ETHARP =? 0 then release p else etharp_arp_input n p
   else release p);;
  mret ERR_OK.
End Link.
