(* ===== verification/EtharpBufs.v ===== *)
(** What address resolution does with packet buffers: every buffer lies in its
    memory ([Good]), and freeing, allocating, writing, copying and sending keep
    that, return, and have the effect on the bytes that is stated here. *)
From S2P Require Import Prelude Pbuf PbufRef PbufData IpAddr Etharp.
From stdpp Require Import list gmap.
#[local] Open Scope Z_scope.

(** The invariant of the packet buffers, with the pointers held outside. *)
Record Good (m : Pbufs) (own : list Z) : Prop := {
  good_inv : Inv m own;
  good_fits p b : m !! p = Some b -> fits b
}.

#[export] Instance Good_perm m : Proper (Permutation ==> iff) (Good m).
Proof.
  assert (forall k l, k ≡ₚ l -> Good m k -> Good m l) as H; [|intros k l E; split; by apply H].
  intros k l E [HI Hf]. split; [by rewrite <- E|done].
Qed.

(** What is left is as it was, but for the counts, which do not grow. *)
Definition fewer (m' m : Pbufs) : Prop :=
  forall p b', m' !! p = Some b' -> exists b, m !! p = Some b /\ b' = set_ref (ref b') b /\ ref b' <= ref b.

Lemma fewer_refl m : fewer m m.
Proof. intros p b E. exists b. split; [done|]. split; [by destruct b|done]. Qed.

Lemma fewer_trans m1 m2 m3 : fewer m1 m2 -> fewer m2 m3 -> fewer m1 m3.
Proof.
  intros H1 H2 p b1 E1. destruct (H1 p b1 E1) as (b2 & E2 & -> & Hr). destruct (H2 p b2 E2) as (b3 & E3 & -> & Hr'). exists b3.
  split; [done|]. split; [done|]. cbn in *. lia.
Qed.

Lemma free_loop_fewer fuel m p count : (forall x b, m !! x = Some b -> 1 <= ref b <= 65535) ->
  runs (free_loop fuel p count) m (fun _ _ => True) -> runs (free_loop fuel p count) m (fun _ m' => fewer m' m).
Proof.
  revert m p count. induction fuel as [|fuel IH]; intros m p count Hrf; cbn [free_loop].
  { destruct (p =? 0); intros H; [kret; apply fewer_refl|done]. }
  destruct (p =? 0); intros H; [kret; apply fewer_refl|].
  destruct (m !! p) as [b|] eqn:Eb.
  2:{ unfold runs, wpe, mbind, M_bind, deref, access in H. by rewrite Eb in H. }
  unfold runs, wpe in H. rewrite (bind_done _ _ _ _ _ (deref_done m p b Eb)), (bind_done _ _ _ _ _ (upd_done m p b _ Eb)) in H.
  xderef Eb. xupdate Eb. pose proof (Hrf p b Eb) as Hb.
  assert (fewer (<[p := set_ref (u16 (ref b - 1)) b]> m) m) as Hf.
  { intros x c. destruct (decide (x = p)) as [->|].
    - rewrite lookup_insert_eq. intros [= <-]. exists b. split; [done|]. split; [done|]. cbn. word_lia.
    - rewrite lookup_insert_ne by done. intros E. by apply fewer_refl. }
  destruct (u16 (ref b - 1) =? 0); [|by kret].
  eapply runs_bind_done; [reflexivity|]. cbv beta. eapply runs_mono; [apply IH; [|done]|].
  - intros x c [Hne E]%lookup_delete_Some. rewrite lookup_insert_ne in E by done. by eapply Hrf.
  - cbv beta. intros _ m' Hm'. eapply fewer_trans; [exact Hm'|]. intros x c [_ E]%lookup_delete_Some. by apply Hf.
Qed.

Lemma runs_both {S A} (m : M S A) s P Q : runs m s P -> runs m s Q -> runs m s (fun a s' => P a s' /\ Q a s').
Proof. unfold runs, wpe. by destruct (m s). Qed.

Lemma runs_then_do {S A B} (m : M S A) (f : A -> M S B) s P Q :
  runs m s P -> (forall a s', P a s' -> runs (f a) s' Q) -> runs (mbind f m) s Q.
Proof. intros H Hf. apply wpe_bind. eapply runs_mono; [exact H|exact Hf]. Qed.

Lemma free_good m own p : Good m (hold p own) -> runs (pbuf_free p) m (fun _ m' => Good m' own /\ fewer m' m).
Proof.
  intros [HI Hf]. pose proof (pbuf_free_inv _ _ _ HI) as H.
  assert (runs (pbuf_free p) m (fun _ m' => fewer m' m)) as H'.
  { apply free_loop_fewer; [intros x b E; apply (inv_ref _ _ HI x b E)|]. eapply runs_mono; [exact H|done]. }
  eapply runs_mono; [apply (runs_both _ _ _ _ H H')|]. cbv beta. intros _ m' [HI' Hm']. split; [|done]. split; [done|].
  intros x c E. destruct (Hm' x c E) as (b & Eb & -> & _). by apply (Hf x b).
Qed.

(** ** Writing *)

Lemma inv_same m own p b b' : Inv m own -> m !! p = Some b ->
  next b' = next b -> ref b' = ref b -> len b' = len b -> tot_len b' = tot_len b -> Inv (<[p := b']> m) own.
Proof.
  intros HI Eb En Erf Eln Etl. assert (links (<[p := b']> m) = links m) as El by (by eapply links_insert_same).
  assert (forall x, rest (<[p := b']> m) x = rest m x) as Er.
  { intros x. unfold rest. destruct (decide (x = p)) as [->|]; [by rewrite lookup_insert_eq, Eb|by rewrite lookup_insert_ne]. }
  split.
  - rewrite El. apply HI.
  - eapply Forall_impl; [exact (inv_own _ _ HI)|]. cbn. intros x Hx. apply lookup_insert_is_Some'. auto.
  - intros x c. rewrite El. destruct (decide (x = p)) as [->|]; [rewrite lookup_insert_eq; intros [= <-]; rewrite Erf; exact (inv_ref _ _ HI p b Eb)|].
    rewrite lookup_insert_ne by done. apply (inv_ref _ _ HI).
  - intros x c. rewrite Er. destruct (decide (x = p)) as [->|]; [rewrite lookup_insert_eq; intros [= <-]; rewrite En, Eln, Etl; exact (inv_len _ _ HI p b Eb)|].
    rewrite lookup_insert_ne by done. apply (inv_len _ _ HI).
Qed.

Lemma good_insert m own p b' : Inv (<[p := b']> m) own -> Good m own -> fits b' -> Good (<[p := b']> m) own.
Proof.
  intros HI [_ Hf] Hb. split; [done|]. intros x c. destruct (decide (x = p)) as [->|]; [rewrite lookup_insert_eq; by intros [= <-]|].
  rewrite lookup_insert_ne by done. apply Hf.
Qed.

(** The bytes [l] at [off] of [d]. *)
Definition patch (d : list Z) (off : Z) (l : list Z) : list Z := ztake off d ++ l ++ zdrop (off + zlen l) d.

Lemma patch_length d off l : 0 <= off -> off + zlen l <= zlen d -> zlen (patch d off l) = zlen d.
Proof. intros. unfold patch. zlen_lia. Qed.

Lemma patch_patch d off l k : 0 <= off -> off + zlen l + zlen k <= zlen d ->
  patch (patch d off l) (off + zlen l) k = patch d off (l ++ k).
Proof.
  intros Ho Hl. unfold patch. pose proof (zlen_nonneg l). pose proof (zlen_nonneg k).
  rewrite (app_assoc (ztake off d) l). rewrite ztake_app_l by zlen_lia. rewrite ztake_all by zlen_lia.
  rewrite zdrop_app_r by zlen_lia. rewrite zdrop_zdrop by zlen_lia. rewrite <- !app_assoc, zlen_app. do 4 f_equal. zlen_lia.
Qed.

(** A buffer with other bytes. *)
Definition rewritten (b b' : pbuf) (d : list Z) : Prop := exists rm, b' = set_room rm b /\ zlen rm = zlen (room b) /\ bytes b' = d.

Lemma write_fits m p b off l :
  fits b -> m !! p = Some b -> 0 <= off -> off + zlen l <= len b ->
  exists b', write p off l m = Done tt (<[p := b']> m) /\ rewritten b b' (patch (bytes b) off l).
Proof.
  intros (Hpay & Hlen & Hroom) Eb Ho Hl. pose proof (zlen_nonneg l).
  set (rm := ztake (payload b + off) (room b) ++ l ++ zdrop (payload b + off + zlen l) (room b)).
  assert (zlen rm = zlen (room b)) as Hz by (unfold rm; zlen_lia).
  exists (set_room rm b). split.
  - unfold write. rewrite (bind_done _ _ _ _ _ (deref_done m p b Eb)). unfold access, mbind, M_bind. by rewrite blit_spec by lia.
  - exists rm. split; [done|]. split; [done|]. unfold bytes, patch. cbn [len payload room set_room]. unfold rm.
    rewrite zdrop_app_l by zlen_lia. rewrite ztake_app_r by zlen_lia.
    assert (zdrop (payload b) (ztake (payload b + off) (room b)) = ztake off (ztake (len b) (zdrop (payload b) (room b)))) as E1.
    { rewrite ztake_ztake, Z.min_l, (ztake_zdrop off (payload b)) by lia. done. }
    rewrite E1. f_equal. rewrite ztake_app_r by zlen_lia. f_equal.
    rewrite (ztake_zdrop (len b) (payload b)) by lia. rewrite zdrop_zdrop by lia.
    rewrite (ztake_zdrop _ (payload b + off + zlen l)) by lia. f_equal; [lia|]. f_equal. zlen_lia.
Qed.

Lemma rewritten_fits b b' d : rewritten b b' d -> fits b -> fits b'.
Proof. intros (rm & -> & E & _) (? & ? & ?). split; [done|]. split; [done|]. cbn. lia. Qed.

Lemma good_rewritten m own p b b' d : Good m own -> m !! p = Some b -> rewritten b b' d -> Good (<[p := b']> m) own.
Proof.
  intros HG Eb Hw. apply good_insert; [|done|eapply rewritten_fits; [done|by apply (good_fits _ _ HG p)]].
  apply (inv_same _ _ _ b); [apply HG|done|by destruct Hw as (rm & -> & _)..].
Qed.

Lemma rewritten_trans b b1 b2 d1 d2 : rewritten b b1 d1 -> rewritten b1 b2 d2 -> rewritten b b2 d2.
Proof. intros (r1 & -> & E1 & _) (r2 & -> & E2 & E). exists r2. split; [done|]. split; [cbn in E2; congruence|done]. Qed.

Lemma write_good m own p b off l :
  Good m own -> m !! p = Some b -> 0 <= off -> off + zlen l <= len b ->
  exists b', write p off l m = Done tt (<[p := b']> m) /\ rewritten b b' (patch (bytes b) off l) /\ Good (<[p := b']> m) own.
Proof.
  intros HG Eb Ho Hl. destruct (write_fits m p b off l) as (b' & E & Hw); [by apply (good_fits _ _ HG p)|done..|].
  exists b'. split; [done|]. split; [done|]. by eapply good_rewritten.
Qed.

(** ** Reading *)

Lemma chain_of m own p : Good m own -> p = 0 \/ is_Some (m !! p) -> exists bs, chain m p bs.
Proof.
  intros [HI Hf] Hp. assert (exists l, seg (links m) p l) as [l Hl].
  { destruct Hp as [->|[b Eb]]; [by exists []|]. apply (shape_ends _ (inv_shape _ _ HI)). rewrite (links_lookup m p b Eb). eauto. }
  clear Hp. revert p Hl. induction l as [|x l IH]; intros p Hl; [by exists []|]. destruct Hl as (-> & Hp & n & En & Hl).
  apply links_lookup_inv in En as (b & Eb & <-). destruct (IH _ Hl) as [bs Hc]. exists (b :: bs).
  split; [done|]. split; [done|]. split; [by apply (Hf p)|done].
Qed.

Lemma chain_first m p b : chain m p b -> forall c, m !! p = Some c -> p <> 0 -> exists bs, b = c :: bs.
Proof. destruct b as [|c b]; [done|]. intros (_ & E & _) c' E' _. exists b. congruence. Qed.

Lemma chain_inj m p bs bs' : chain m p bs -> chain m p bs' -> bs = bs'.
Proof.
  revert p bs'. induction bs as [|b bs IH]; intros p [|b' bs']; cbn; [done|by intros -> (? & _)|by intros (? & _) ->|].
  intros (_ & Eb & _ & H) (_ & Eb' & _ & H'). rewrite Eb in Eb'. injection Eb' as <-. f_equal. eauto.
Qed.

Lemma chain_tot_len m own p bs : Good m own -> chain m p bs -> rest m p = zlen (data bs).
Proof.
  intros [HI Hf]. revert p. induction bs as [|b bs IH]; intros p; cbn [chain].
  - intros ->. unfold rest. by rewrite (inv_null _ _ HI).
  - intros (_ & Eb & Hb & Hc). rewrite data_cons, zlen_app, bytes_len, <- (IH _ Hc) by done. unfold rest at 1. rewrite Eb. by apply (inv_len _ _ HI p).
Qed.

Lemma frame_loop_done fuel m p bs : chain m p bs -> (length bs <= fuel)%nat -> frame_loop fuel p m = Done (data bs) m.
Proof.
  revert fuel p. induction bs as [|b bs IH]; intros fuel p Hc Hf; cbn [chain] in Hc; [subst p; by destruct fuel|].
  destruct Hc as (Hp & Eb & Hb & Hc). destruct fuel as [|fuel]; [cbn in Hf; lia|]. cbn [frame_loop]. replace (p =? 0) with false by lia.
  rewrite (bind_done _ _ _ _ _ (deref_done m p b Eb)). destruct Hb as (? & ? & ?).
  rewrite (bind_done _ _ _ _ _ (read_done b 0 (len b) m ltac:(done) ltac:(lia) ltac:(lia) ltac:(lia))).
  rewrite (bind_done _ _ _ _ _ (IH fuel _ Hc ltac:(cbn in Hf; lia))). rewrite data_cons, zdrop_0, ztake_all by (rewrite ?bytes_len; done || lia). done.
Qed.

Lemma frame_done m p bs : chain m p bs -> frame p m = Done (data bs) m.
Proof. intros H. apply frame_loop_done; [done|]. pose proof (packet_size m p bs H). lia. Qed.

Lemma look_done m own p b n : Good m own -> m !! p = Some b -> 0 <= n <= len b -> look p n m = Done (ztake n (bytes b)) m.
Proof.
  intros HG Eb Hn. unfold look. rewrite (bind_done _ _ _ _ _ (deref_done m p b Eb)).
  rewrite read_done by (done || lia || by apply (good_fits _ _ HG p)). by rewrite zdrop_0 by lia.
Qed.

(** ** Allocating and copying *)

Section Alloc.
Context `{PM : PbufMemory} {PML : PbufMemoryLaws}.

Lemma alloc_good m own layer n : Good m own -> 0 <= n <= 65460 ->
  pbuf_alloc layer n PBUF_RAM m = Done 0 m \/
  exists p b, pbuf_alloc layer n PBUF_RAM m = Done p (<[p := b]> m) /\ 0 < p /\ m !! p = None /\
    next b = 0 /\ len b = n /\ tot_len b = n /\ ref b = 1 /\ fits b /\ Good (<[p := b]> m) (p :: own).
Proof.
  intros [HI Hf] Hn. unfold pbuf_alloc. destruct (layer_offset layer) as [off|] eqn:Eo; [|by left].
  assert (0 <= off <= 54) as Ho.
  { unfold layer_offset in Eo. repeat (case_match; [injection Eo as <-; vm_compute; split; discriminate|]). done. }
  change (PBUF_RAM =? PBUF_POOL) with false. change (PBUF_RAM =? PBUF_RAM) with true. cbv iota zeta.
  set (start := LWIP_MEM_ALIGN_SIZE (SIZEOF_STRUCT_PBUF + off) - SIZEOF_STRUCT_PBUF).
  set (size := LWIP_MEM_ALIGN_SIZE (SIZEOF_STRUCT_PBUF + off) + LWIP_MEM_ALIGN_SIZE n).
  assert (0 <= start /\ SIZEOF_STRUCT_PBUF + start + n <= size < 65536) as [Hst Hsz].
  { unfold start, size. rewrite !align_value. change SIZEOF_STRUCT_PBUF with 16. clear - Ho Hn. word_lia. }
  assert (0 <= SIZEOF_STRUCT_PBUF) as Hs0 by by_decide. rewrite u16_small by (clear - Hst Hsz Hs0 Hn; word_lia).
  destruct (get_block_cases m MEM_HEAP size ltac:(lia)) as [E|(p & rm & E & Hp & Ep & Hz & _)]; [left; by rewrite (bind_done _ _ _ _ _ E)|right].
  set (b := mkPbuf 0 start n n PBUF_RAM 0 1 rm). assert (fits b) as Hb by (split; [done|]; split; [cbn; lia|]; cbn; rewrite Hz; lia).
  exists p, b. split; [rewrite (bind_done _ _ _ _ _ E); reflexivity|]. do 7 (split; [done|]). split.
  2: { intros x c. destruct (decide (x = p)) as [->|]; [rewrite lookup_insert_eq; by intros [= <-]|]. rewrite lookup_insert_ne by done. apply Hf. }
  pose proof (inv_new m own p b HI Hp Ep eq_refl eq_refl) as H. unfold hold in H. replace (p =? 0) with false in H by lia. apply H; [cbn; lia|done].
Qed.
End Alloc.

Lemma chain_subseteq m m' p bs : chain m p bs -> m ⊆ m' -> chain m' p bs.
Proof.
  intros H Hs. revert p H. induction bs as [|b bs IH]; intros p; cbn; [done|]. intros (Hp & Eb & Hb & Hc).
  split; [done|]. split; [by eapply lookup_weaken|]. split; [done|by apply IH].
Qed.

(** The check for a queue of packets at [x]. *)
Lemma check_done (m : Pbufs) x c : m !! x = Some c ->
  (b ← deref x; mret ((len b =? tot_len b) && negb (next b =? 0))) m = Done ((len c =? tot_len c) && negb (next c =? 0)) m.
Proof. intros E. by rewrite (bind_done _ _ _ _ _ (deref_done m x c E)). Qed.

(** The loop of [pbuf_copy] into one buffer [p] that has room for the rest: it
    copies the chain, or refuses it; it does not refuse one without empty buffers. *)
Lemma copy_loop_one bs fuel m own p pf bt off :
  Good m own -> m !! p = None -> p <> 0 -> chain m pf bs -> bs <> [] -> (length bs <= fuel)%nat -> fits bt -> next bt = 0 ->
  0 <= off -> off + zlen (data bs) <= len bt ->
  exists r bt', copy_loop fuel p pf off 0 (<[p := bt]> m) = Done r (<[p := bt']> m) /\ rewritten bt bt' (bytes bt') /\
    (r = ERR_OK -> bytes bt' = patch (bytes bt) off (data bs)) /\ (Forall (fun b => 0 < len b) bs -> r = ERR_OK).
Proof.
  intros HG Hp Hp0. revert fuel pf bt off. induction bs as [|b bs IH]; intros fuel pf bt off Hc Hne Hfu Hbt Hn Ho Hd; [done|].
  destruct Hc as (Hpf & Eb & Hb & Hc). destruct fuel as [|fuel]; [cbn in Hfu; lia|]. cbn [copy_loop].
  assert (pf <> p) as Hpp by congruence.
  rewrite (bind_done _ _ _ _ _ (deref_done (<[p := bt]> m) p bt (lookup_insert_eq _ _ _))).
  rewrite (bind_done _ _ _ _ _ (deref_done (<[p := bt]> m) pf b ltac:(by rewrite lookup_insert_ne))).
  rewrite data_cons, zlen_app, bytes_len in Hd by done. destruct Hb as (Hb1 & Hb2 & Hb3). destruct Hbt as (Ht1 & Ht2 & Ht3).
  pose proof (zlen_nonneg (data bs)). rewrite !Z.sub_0_r. replace (len b <=? len bt - off) with true by lia. rewrite (u16_small (len b)) by word_lia.
  rewrite (bind_done _ _ _ _ _ (read_done b 0 (len b) _ ltac:(done) ltac:(lia) ltac:(lia) ltac:(lia))).
  rewrite zdrop_0, ztake_all by (rewrite ?bytes_len; done || lia).
  destruct (write_fits (<[p := bt]> m) p bt off (bytes b)) as (b1 & E1 & Hw); [done|apply lookup_insert_eq|done|rewrite bytes_len by done; lia|].
  rewrite insert_insert_eq in E1. rewrite (bind_done _ _ _ _ _ E1). clear E1. rewrite !u16_small by word_lia. rewrite Z.add_0_l, Z.leb_refl.
  assert (len b1 = len bt /\ next b1 = 0) as [Hl1 Hn1] by (by destruct Hw as (? & -> & _)).
  assert (bytes b1 = patch (bytes bt) off (bytes b)) as Eb1 by (by destruct Hw as (? & _ & _ & ?)).
  assert (rewritten bt b1 (bytes b1)) as Hw1 by (by rewrite Eb1).
  rewrite ?Hn. set (last := off + len b =? len bt).
  destruct (Z.eqb_spec (next b) 0) as [En|En].
  { assert (bs = []) as -> by (destruct bs as [|c bs]; [done|]; by destruct Hc as (? & _)). exists ERR_OK, b1.
    assert (data [b] = bytes b) as Edata by (unfold data; cbn; by rewrite app_nil_r).
    split; [|split; [done|split; [by rewrite Edata|done]]].
    destruct last; cbn [andb negb Z.eqb]; [done|].
    unfold mbind at 1, M_bind at 1. cbn [mret M_ret]. replace (p =? 0) with false by lia.
    rewrite (bind_done _ _ _ _ _ (check_done _ p b1 (lookup_insert_eq _ _ _))).
      by rewrite Hn1, andb_false_r. }
  destruct bs as [|c bs]; [done|]. pose proof Hc as (_ & Ec & Hcf & Hc').
  destruct last eqn:Elast; cbn [andb negb Z.eqb].
  { exists ERR_ARG, b1. split; [done|]. split; [done|]. split; [done|]. intros Hpos. exfalso. apply Z.eqb_eq in Elast.
    apply Forall_cons_1 in Hpos as [_ Hpos]. apply Forall_cons_1 in Hpos as [Hpos _]. rewrite data_cons, zlen_app, bytes_len in Hd by done. pose proof (zlen_nonneg (data bs)). lia. }
  rewrite (bind_done _ _ _ _ _ (check_done (<[p := b1]> m) (next b) c ltac:(rewrite lookup_insert_ne; congruence))).
  destruct ((len c =? tot_len c) && negb (next c =? 0)) eqn:Eq.
  { exists ERR_VAL, b1. split; [done|]. split; [done|]. split; [done|]. intros Hpos. exfalso. apply andb_true_iff in Eq as [E1%Z.eqb_eq E2%negb_true_iff%Z.eqb_neq].
    destruct (inv_len _ _ (good_inv _ _ HG) (next b) c Ec) as (_ & Et & _). rewrite (chain_tot_len m own (next c) bs HG Hc') in Et.
    destruct bs as [|d bs]; [done|]. do 3 (apply Forall_cons_1 in Hpos as [? Hpos]).
    destruct Hc' as (_ & _ & Hdf & _). rewrite data_cons, zlen_app, bytes_len in Et by done. pose proof (zlen_nonneg (data bs)). lia. }
  replace (p =? 0) with false by lia. rewrite (bind_done _ _ _ _ _ (check_done _ p b1 (lookup_insert_eq _ _ _))). rewrite Hn1, andb_false_r.
  destruct (IH fuel (next b) b1 (off + len b)) as (r & bt' & E & Hw' & Hok & Hpos); [done..|cbn in Hfu |- *; lia| | |lia|lia|].
  { eapply rewritten_fits; [exact Hw|done]. } { done. }
  exists r, bt'. split; [done|]. split; [by eapply rewritten_trans|]. split.
  - intros Hr. rewrite (Hok Hr), Eb1, (data_cons b). pose proof (bytes_len bt ltac:(done)) as Hlb. pose proof (bytes_len b ltac:(done)) as Hlb2.
    rewrite <- Hlb2. apply patch_patch; [done|rewrite Hlb, Hlb2; lia].
  - intros HF. apply Hpos. by apply Forall_cons_1 in HF as [_ ?].
Qed.

(** ** Headers *)

Definition moved (inc : Z) (b : pbuf) : pbuf := set_tot_len (tot_len b + inc) (set_len (len b + inc) (set_payload (payload b - inc) b)).

Lemma header_good m own p b inc :
  Good m own -> m !! p = Some b -> occ p (pointers (links m)) = 0 -> -32768 <= inc < 32768 -> inc <> 0 -> tot_len b + inc <= 65535 ->
  exists bad m', pbuf_header p inc m = Done bad m' /\ Good m' own /\ (if bad : bool then m' = m /\ (type b = PBUF_RAM -> payload b < inc \/ len b + inc < 0) else m' = <[p := moved inc b]> m).
Proof.
  intros HG Eb Hp Hinc Hinc0 Htot. pose proof HG as [HI Hf]. pose proof (inv_nonzero _ _ _ _ HI Eb) as Hp0.
  destruct (inv_len _ _ HI p b Eb) as (Hl & Et & Hle). pose proof (rest_nonneg m own (next b) HI). destruct (Hf p b Eb) as (H1 & H2 & H3).
  pose proof (pbuf_header_inv m own p b inc HI Eb Hp Hinc Htot) as Hinv. apply runs_done in Hinv as (bad & m' & E & HI').
  exists bad, m'. split; [done|]. revert E. unfold pbuf_header. replace (inc =? 0) with false by lia. replace (p =? 0) with false by lia. cbn [orb].
  rewrite (bind_done _ _ _ _ _ (deref_done m p b Eb)).
  destruct ((inc <? 0) && (len b <? u16 (- inc))) eqn:Eneg.
  { apply andb_true_iff in Eneg as [?%Z.ltb_lt Hs%Z.ltb_lt]. rewrite u16_small in Hs by word_lia. intros [= <- <-]. split; [done|]. split; [done|lia]. }
  assert (0 <= len b + inc) as Hpos.
  { apply andb_false_iff in Eneg as [?%Z.ltb_ge|?%Z.ltb_ge]; [lia|]. destruct (Z.le_ge_cases 0 inc); [lia|]. rewrite u16_small in * by word_lia. lia. }
  assert (forall m1, m1 = <[p := set_payload (payload b - inc) b]> m ->
    (update p (fun b => set_len (u16 (len b + inc)) b);; update p (fun b => set_tot_len (u16 (tot_len b + inc)) b);; mret false) m1 =
    Done false (<[p := moved inc b]> m)) as Hlens.
  { intros m1 ->. rewrite (bind_done _ _ _ _ _ (upd_done _ p _ _ (lookup_insert_eq _ _ _))), insert_insert_eq.
    rewrite (bind_done _ _ _ _ _ (upd_done _ p _ _ (lookup_insert_eq _ _ _))), insert_insert_eq. cbn [len tot_len set_payload set_len].
    by rewrite !u16_small by word_lia. }
  assert (forall b', b' = moved inc b -> 0 <= payload b - inc -> m' = <[p := b']> m -> Good m' own) as HG'.
  { intros b' -> Hpay ->. split; [done|]. intros x c. destruct (decide (x = p)) as [->|]; [|rewrite lookup_insert_ne by done; apply Hf].
    rewrite lookup_insert_eq. intros [= <-]. split; [done|]. cbn. lia. }
  destruct ((type b =? PBUF_RAM) || (type b =? PBUF_POOL)) eqn:Ety.
  - rewrite (bind_done _ _ _ _ _ (upd_done m p b _ Eb)). destruct (Z.ltb_spec (payload b - inc) 0) as [Hlow|Hlow].
    + rewrite (bind_done _ _ _ _ _ (upd_done _ p _ _ (lookup_insert_eq _ _ _))), insert_insert_eq. intros [= <- <-].
      rewrite insert_id by (by destruct b). split; [done|]. split; [done|lia].
    + rewrite Hlens by done. intros [= <- <-]. by eauto.
  - assert (type b <> PBUF_RAM) as Hram by (by intros E; rewrite E in Ety).
    destruct ((type b =? PBUF_REF) || (type b =? PBUF_ROM)); [|by intros [= <- <-]]. destruct (Z.ltb_spec inc 0) as [Hlt|]; [|by intros [= <- <-]].
    rewrite (bind_done _ _ _ _ _ (upd_done m p b _ Eb)). rewrite Hlens by done. intros [= <- <-]. split; [|done]. apply (HG' _ eq_refl); [lia|done].
Qed.

Lemma moved_bytes inc b : 0 <= inc -> 0 <= payload b - inc -> zdrop inc (bytes (moved inc b)) = bytes b.
Proof.
  intros. unfold bytes. cbn [moved len payload room set_tot_len set_len set_payload].
  destruct (Z.le_gt_cases 0 (len b)).
  - replace (len b + inc) with (inc + len b) by lia. rewrite <- ztake_zdrop by lia. rewrite zdrop_zdrop by lia. do 2 f_equal. lia.
  - rewrite (ztake_neg (len b)) by lia. apply zdrop_all. pose proof (zlen_nonneg (zdrop (payload b - inc) (room b))). zlen_lia.
Qed.

(** The same links and bytes, after a change of counts or flags. *)
Definition alike (b b' : pbuf) : Prop := next b' = next b /\ bytes b' = bytes b /\ (fits b -> fits b').

Lemma chain_alike m m' p bs :
  chain m p bs -> (forall x b, m !! x = Some b -> exists b', m' !! x = Some b' /\ alike b b') -> exists bs', chain m' p bs' /\ data bs' = data bs.
Proof.
  intros Hc Hm. revert p Hc. induction bs as [|b bs IH]; intros p; cbn [chain]; [intros ->; by exists []|]. intros (Hp & Eb & Hb & Hc).
  destruct (IH _ Hc) as (bs' & Hc' & E). destruct (Hm p b Eb) as (b' & Eb' & En & Ed & Hf). exists (b' :: bs').
  split; [rewrite <- En in Hc'; split; [done|]; split; [done|]; split; [by apply Hf|done]|]. by rewrite !data_cons, E, Ed.
Qed.

Lemma insert_alike (m : Pbufs) p b b' : m !! p = Some b -> alike b b' -> forall x c, m !! x = Some c -> exists c', <[p := b']> m !! x = Some c' /\ alike c c'.
Proof.
  intros Eb Hb x c Ec. destruct (decide (x = p)) as [->|].
  - rewrite Eb in Ec. injection Ec as <-. exists b'. by rewrite lookup_insert_eq.
  - exists c. by rewrite lookup_insert_ne.
Qed.

(** ** Taking a packet over *)

(** The lengths of the buffers that are still there. *)
Definition kept (m m' : Pbufs) : Prop := forall x c c', m !! x = Some c -> m' !! x = Some c' -> len c' = len c.

Lemma fewer_kept m m' : fewer m' m -> kept m m'.
Proof. intros H x c c' E E'. destruct (H x c' E') as (c1 & E1 & -> & _). rewrite E in E1. by injection E1 as ->. Qed.

(** The buffers outside [L] have their bytes still. *)
Definition undisturbed (L : list Z) (m m' : Pbufs) : Prop :=
  forall x c', m' !! x = Some c' -> exists c, m !! x = Some c /\ len c' = len c /\ next c' = next c /\ (x ∉ L -> bytes c' = bytes c).

Lemma undisturbed_trans L m1 m2 m3 : undisturbed L m1 m2 -> undisturbed L m2 m3 -> undisturbed L m1 m3.
Proof.
  intros H1 H2 x c3 E3. destruct (H2 x c3 E3) as (c2 & E2 & L2 & N2 & B2). destruct (H1 x c2 E2) as (c1 & E1 & L1 & N1 & B1).
  exists c1. split; [done|]. split; [congruence|]. split; [congruence|]. intros Hx. rewrite B2, B1; done.
Qed.

Lemma fewer_undisturbed L m m' : fewer m' m -> undisturbed L m m'.
Proof. intros H x c' E'. destruct (H x c' E') as (c & Ec & -> & _). by exists c. Qed.

Lemma undisturbed_refl L m : undisturbed L m m.
Proof. apply fewer_undisturbed, fewer_refl. Qed.

Lemma insert_undisturbed (m : Pbufs) L p b b' d : m !! p = Some b -> rewritten b b' d -> p ∈ L -> undisturbed L m (<[p := b']> m).
Proof.
  intros Eb (rm & -> & _) Hp x c'. destruct (decide (x = p)) as [->|].
  - rewrite lookup_insert_eq. intros [= <-]. by exists b.
  - rewrite lookup_insert_ne by done. intros E. by exists c'.
Qed.

Lemma undisturbed_kept L m m' : undisturbed L m m' -> kept m m'.
Proof. intros H x c c' E E'. destruct (H x c' E') as (c1 & E1 & ? & _). congruence. Qed.

Lemma insert_kept m p b b' d : m !! p = Some b -> rewritten b b' d -> kept m (<[p := b']> m).
Proof.
  intros Eb (rm & -> & _) x c c' E. destruct (decide (x = p)) as [->|].
  - rewrite lookup_insert_eq. intros [= <-]. rewrite Eb in E. by injection E as ->.
  - rewrite lookup_insert_ne by done. rewrite E. by intros [= <-].
Qed.

Lemma not_rom_done bs fuel m p : chain m p bs -> (length bs <= fuel)%nat ->
  exists x, not_rom fuel p m = Done x m /\ (x = 0 \/ exists b bs', m !! x = Some b /\ chain m x bs' /\ zlen (data bs') <= zlen (data bs)).
Proof.
  revert fuel p. induction bs as [|b bs IH]; intros fuel p Hc Hf; cbn [chain] in Hc; [subst p; exists 0; split; [by destruct fuel|by left]|].
  pose proof Hc as (Hp & Eb & Hb & Hc'). destruct fuel as [|fuel]; [cbn in Hf; lia|]. cbn [not_rom]. replace (p =? 0) with false by lia.
  rewrite (bind_done _ _ _ _ _ (deref_done m p b Eb)). destruct (negb (type b =? PBUF_ROM)).
  - exists p. split; [done|]. right. exists b, (b :: bs). done.
  - destruct (IH fuel _ Hc' ltac:(cbn in Hf; lia)) as (x & E & Hx). exists x. split; [done|]. destruct Hx as [->|(c & bs' & Ec & Hc1 & Hz)]; [by left|right].
    exists c, bs'. split; [done|]. split; [done|]. rewrite data_cons, zlen_app. pose proof (zlen_nonneg (bytes b)). lia.
Qed.

(** A chain that is held is still there. *)
Lemma chain_fewer m m' own p bs : chain m p bs -> Good m' own -> p = 0 \/ is_Some (m' !! p) -> fewer m' m ->
  exists bs', chain m' p bs' /\ data bs' = data bs.
Proof.
  intros Hc HG Hp Hf. revert p Hc Hp. induction bs as [|b bs IH]; intros p; cbn [chain]; [intros -> _; by exists []|].
  intros (Hp0 & Eb & Hb & Hc) [?|[b' Eb']]; [done|]. destruct (Hf p b' Eb') as (b1 & E1 & E2 & _). rewrite Eb in E1. injection E1 as <-.
  assert (next b' = next b) as Enx by (rewrite E2; done).
  destruct (shape_next _ _ _ (inv_shape _ _ (good_inv _ _ HG)) (links_lookup m' p _ Eb')) as [En|[v Ev]]; rewrite Enx in *.
  - destruct (IH (next b) Hc (or_introl En)) as (bs' & Hc' & E). exists (b' :: bs'). rewrite E2 in *. split; [by split|]. by rewrite !data_cons, E.
  - apply links_lookup_inv in Ev as (c & Ec & _). destruct (IH (next b) Hc ltac:(right; eauto)) as (bs' & Hc' & E).
    exists (b' :: bs'). rewrite E2 in *. split; [by split|]. by rewrite !data_cons, E.
Qed.

Section TakeOver.
Context `{PM : PbufMemory} {PML : PbufMemoryLaws}.

(** [pbuf_copy] into a new buffer [p]. *)
Lemma copy_good m own p bt pk b bs :
  Good m own -> Good (<[p := bt]> m) (p :: own) -> m !! p = None -> p <> 0 -> next bt = 0 -> tot_len bt = len bt -> fits bt ->
  m !! pk = Some b -> chain m pk bs ->
  exists r bt', pbuf_copy p pk (<[p := bt]> m) = Done r (<[p := bt']> m) /\ rewritten bt bt' (bytes bt') /\
    (r = ERR_OK -> len bt = zlen (data bs) -> bytes bt' = data bs) /\ (r = ERR_OK -> tot_len b <= len bt) /\
    (Forall (fun b => 0 < len b) bs -> tot_len b <= len bt -> r = ERR_OK).
Proof.
  intros HG HG1 Hp Hp0 Hn Ht Hfit Eb Hc. pose proof (inv_nonzero _ _ _ _ (good_inv _ _ HG) Eb) as Hpk. unfold pbuf_copy.
  replace (p =? 0) with false by lia. replace (pk =? 0) with false by lia. cbn [orb].
  rewrite (bind_done _ _ _ _ _ (deref_done (<[p := bt]> m) p bt (lookup_insert_eq _ _ _))).
  rewrite (bind_done _ _ _ _ _ (deref_done (<[p := bt]> m) pk b ltac:(rewrite lookup_insert_ne; congruence))).
  pose proof (chain_tot_len m own pk bs HG Hc) as Hz. unfold rest in Hz. rewrite Eb in Hz. rewrite Ht.
  destruct (Z.ltb_spec (len bt) (tot_len b)) as [Hlt|Hge].
  { exists ERR_ARG, bt. split; [done|]. split; [exists (room bt); by destruct bt|]. split; [done|]. split; [done|lia]. }
  destruct bs as [|c bs]; [by destruct (Hpk Hc)|]. unfold walk.
  destruct (copy_loop_one (c :: bs) (2 * S (size (<[p := bt]> m))) m own p pk bt 0) as (r & bt' & E & Hw & Hok & Hpos); try done; [| lia |].
  { pose proof (packet_size m pk (c :: bs) Hc). rewrite map_size_insert_None by done. lia. }
  exists r, bt'. split; [done|]. split; [done|]. split; [|split; [lia|by intros; apply Hpos]].
  intros Hr Hl. rewrite (Hok Hr). unfold patch. rewrite ztake_0, app_nil_l, zdrop_all by (rewrite ?bytes_len by done; lia). by rewrite app_nil_r.
Qed.

Lemma take_over_good m own pk b bs :
  Good m own -> m !! pk = Some b -> chain m pk bs -> pk ∈ own -> ref b < 65535 -> tot_len b <= 65460 ->
  runs (take_over pk) m (fun x m' => kept m m' /\ Good m' (hold x own) /\
    (x <> 0 -> exists bx bsx, m' !! x = Some bx /\ len b <= len bx /\ chain m' x bsx /\ data bsx = data bs)).
Proof.
  intros HG Eb Hc Hin Hr Ht. unfold take_over.
  destruct (not_rom_done bs (S (size m)) m pk Hc) as (x & Ex & Hx); [pose proof (packet_size m pk bs Hc); lia|].
  eapply runs_bind_done; [exact Ex|]. cbv beta. pose proof (chain_tot_len m own pk bs HG Hc) as Hz. unfold rest in Hz. rewrite Eb in Hz.
  pose proof (inv_nonzero _ _ _ _ (good_inv _ _ HG) Eb) as Hpk.
  destruct (inv_len _ _ (good_inv _ _ HG) pk b Eb) as (Hl & Etl & _). pose proof (rest_nonneg m own (next b) (good_inv _ _ HG)).
  destruct Hx as [->|(c & bs' & Ec & Hc' & Hle)].
  - cbn [Z.eqb negb]. pose proof (pbuf_ref_inv m own pk b (good_inv _ _ HG) Eb Hr) as HI. apply runs_done in HI as ([] & m' & E & HI).
    eapply runs_bind_done; [exact E|]. kret.
    unfold pbuf_ref in E. replace (pk =? 0) with false in E by lia. rewrite (upd_done m pk b _ Eb) in E. injection E as <-.
    set (v := u16 (ref b + 1)) in *.
    split; [|split].
    + intros y c c' E. destruct (decide (y = pk)) as [->|]; [rewrite lookup_insert_eq; intros [= <-]; rewrite Eb in E; by injection E as <-|].
      rewrite lookup_insert_ne by done. rewrite E. by intros [= <-].
    + unfold hold. replace (pk =? 0) with false by lia. split; [done|]. intros y c.
      destruct (decide (y = pk)) as [->|]; [rewrite lookup_insert_eq; intros [= <-]; exact (good_fits _ _ HG pk b Eb)|].
      rewrite lookup_insert_ne by done. apply (good_fits _ _ HG).
    + intros _. exists (set_ref v b). destruct (chain_alike m (<[pk := set_ref v b]> m) pk bs) as (bs' & Hc1 & Ed); [done|by eapply insert_alike|].
      exists bs'. rewrite lookup_insert_eq. split; [done|]. split; [done|by split].
  - replace (x =? 0) with false by (pose proof (inv_nonzero _ _ _ _ (good_inv _ _ HG) Ec); lia). cbn [negb]. xderef Ec.
    pose proof (chain_tot_len m own x bs' HG Hc') as Hzc. unfold rest in Hzc. rewrite Ec in Hzc. pose proof (zlen_nonneg (data bs')).
    destruct (alloc_good m own PBUF_RAW (tot_len c) HG ltac:(lia)) as [E|(p & bt & E & Hp & Hfr & Hnx & Hlb & Htb & _ & Hfb & HGp)].
    { eapply runs_bind_done; [exact E|]. cbv beta. kret. split; [by intros y d d' -> [= <-]|]. by split. }
    eapply runs_bind_done; [exact E|]. cbv beta. replace (p =? 0) with false by lia.
    destruct (copy_good m own p bt pk b bs HG HGp Hfr ltac:(lia) Hnx ltac:(lia) Hfb Eb Hc) as (r & bt' & Er & Hw & Hbytes & Hlen & _).
    eapply runs_bind_done; [exact Er|]. cbv beta.
    assert (Good (<[p := bt']> m) (p :: own)) as HGp'.
    { pose proof (good_rewritten _ _ p bt bt' _ HGp (lookup_insert_eq _ _ _) Hw) as H1. by rewrite insert_insert_eq in H1. }
    assert (kept m (<[p := bt']> m)) as Hk by (intros y d d' Ed; rewrite lookup_insert_ne, Ed by congruence; by intros [= <-]).
    destruct (Z.eqb_spec r ERR_OK) as [->|].
    + kret. split; [done|]. split; [unfold hold; by replace (p =? 0) with false by lia|]. intros _. exists bt', [bt'].
      assert (len bt' = len bt /\ next bt' = 0) as [El En] by (destruct Hw as (? & -> & _); by split).
      specialize (Hlen eq_refl). rewrite lookup_insert_eq. split; [done|]. split; [lia|].
      split; [split; [lia|]; split; [apply lookup_insert_eq|]; split; [by eapply rewritten_fits|done]|].
      unfold data at 1. cbn. rewrite app_nil_r. apply Hbytes; [done|lia].
    + assert (Good (<[p := bt']> m) (hold p own)) as Hh by (unfold hold; by replace (p =? 0) with false by lia).
      eapply runs_then_do; [apply (free_good _ own p Hh)|]. cbv beta. intros _ m' [HG' Hm']. kret. split; [|by split].
      intros y d d' Ed Ed'. destruct (Hm' y d' Ed') as (d1 & E1 & -> & _). rewrite lookup_insert_ne in E1 by congruence. rewrite Ed in E1. by injection E1 as ->.
Qed.
End TakeOver.
