(* ===== verification/EtharpTable.v ===== *)
(** Address resolution keeps its table and the packet buffers in order: the
    invariant [AInv] - no two entries for one address, a waiting packet only
    where a reply is pending, and a reference for each of them - and what every
    operation of [Etharp] does to it. *)
From S2P Require Import Prelude Pbuf PbufRef PbufData IpAddr Etharp EtharpBufs.
From stdpp Require Import list gmap.
#[local] Open Scope Z_scope.

(** * The invariant *)

Definition entry_ok (e : etharp_entry) : Prop :=
  0 <= state e <= 3 /\ (q e <> 0 -> state e = ETHARP_STATE_PENDING) /\
  (state e <> ETHARP_STATE_EMPTY -> 0 <= ctime e < ARP_MAXAGE) /\ (state e = ETHARP_STATE_PENDING -> ctime e < ARP_MAXPENDING) /\
  (ETHARP_STATE_STABLE <= state e -> zlen (ethaddr e) = 6).

(** [arp_lia] is [lia] with the numbers of the states and of the ages. *)
Ltac arp_lia :=
  unfold entry_ok, ETHARP_STATE_EMPTY, ETHARP_STATE_PENDING, ETHARP_STATE_STABLE, ETHARP_STATE_STABLE_REREQUESTING,
    ARP_MAXAGE, ARP_MAXPENDING, ARP_TABLE_SIZE, SIZEOF_ETH_HDR in *;
  cbn [state q ctime ethaddr ipaddr nif set_state set_q set_ctime set_ipaddr set_mac] in *; lia.

#[export] Instance entry_ok_dec e : Decision (entry_ok e).
Proof. unfold entry_ok. apply _. Defined.

(** Entries in use have different addresses. *)
Definition apart (e e' : etharp_entry) : Prop := state e <> ETHARP_STATE_EMPTY -> state e' <> ETHARP_STATE_EMPTY -> ipaddr e <> ipaddr e'.

Record TableOk (t : list etharp_entry) : Prop := {
  table_size : zlen t = ARP_TABLE_SIZE;
  table_entries i e : t !! i = Some e -> entry_ok e;
  table_apart i j e e' : t !! i = Some e -> t !! j = Some e' -> i <> j -> apart e e'
}.

Lemma table_insert t i e e' :
  TableOk t -> t !! i = Some e -> entry_ok e' -> (forall j d, t !! j = Some d -> j <> i -> apart d e') -> TableOk (<[i := e']> t).
Proof.
  intros [Hs He Ha] Ei Hok Hap. pose proof (lookup_lt_Some _ _ _ Ei) as Hlt. split.
  - unfold zlen in *. by rewrite length_insert.
  - intros j d. destruct (decide (j = i)) as [->|]; [rewrite list_lookup_insert_eq by done; by intros [= <-]|].
    rewrite list_lookup_insert_ne by done. apply He.
  - intros j k d d'. destruct (decide (j = i)) as [->|], (decide (k = i)) as [->|]; [done|..];
      rewrite ?list_lookup_insert_eq, ?list_lookup_insert_ne by done.
    + intros [= <-] E _ H1 H2 H3. by apply (Hap k d' E).
    + intros E [= <-] _. by apply (Hap j d E).
    + apply Ha.
Qed.

(** The same address, or an entry that is given up. *)
Lemma table_change t i e e' :
  TableOk t -> t !! i = Some e -> entry_ok e' -> (state e' = ETHARP_STATE_EMPTY \/ state e <> ETHARP_STATE_EMPTY /\ ipaddr e' = ipaddr e) ->
  TableOk (<[i := e']> t).
Proof.
  intros Ht Ei Hok Hc. apply (table_insert t i e); try done. intros j d Ej Hne H1 H2. destruct Hc as [|[Hs ->]]; [done|].
  by apply (table_apart t Ht j i d e).
Qed.

(** The packets that wait. *)
Definition waiting (t : list etharp_entry) : list Z := filter (fun p => p <> 0) (q <$> t).

#[global] Arguments waiting : simpl never.

Lemma waiting_split t i e : t !! i = Some e ->
  exists R, waiting t ≡ₚ hold (q e) R /\ forall e', waiting (<[i := e']> t) ≡ₚ hold (q e') R.
Proof.
  intros E. pose proof (lookup_lt_Some _ _ _ E) as Hlt. exists (waiting (take i t) ++ waiting (drop (S i) t)).
  assert (forall x, waiting (take i t ++ x :: drop (S i) t) ≡ₚ hold (q x) (waiting (take i t) ++ waiting (drop (S i) t))) as H.
  { intros x. unfold waiting. rewrite fmap_app, filter_app. cbn [fmap list_fmap]. rewrite filter_cons. unfold hold.
    destruct (decide (q x <> 0)), (Z.eqb_spec (q x) 0); try lia; [by rewrite Permutation_middle|done]. }
  split.
  - rewrite <- (H e). by rewrite take_drop_middle.
  - intros e'. rewrite <- (H e'). by rewrite insert_take_drop.
Qed.

Lemma waiting_insert_same t i e e' : t !! i = Some e -> q e' = q e -> waiting (<[i := e']> t) ≡ₚ waiting t.
Proof. intros E Eq. destruct (waiting_split t i e E) as (R & -> & H). by rewrite H, Eq. Qed.

Lemma waiting_fmap t f : (forall e, q (f e) = q e) -> waiting (f <$> t) = waiting t.
Proof. intros H. unfold waiting. rewrite <- list_fmap_compose. f_equal. apply list_fmap_ext. intros. apply H. Qed.

(** The buffer has room for an Ethernet header. *)
Definition long (m : Pbufs) (p : Z) : Prop := exists b, m !! p = Some b /\ SIZEOF_ETH_HDR <= len b.

Record Held (s : Arp) (own : list Z) : Prop := {
  a_cached : 0 <= etharp_cached_entry s < ARP_TABLE_SIZE;
  a_good : Good (bufs s) (own ++ waiting (arp_table s));
  a_long : Forall (long (bufs s)) (waiting (arp_table s))
}.

Record AInv (s : Arp) (own : list Z) : Prop := {
  a_table : TableOk (arp_table s);
  a_held : Held s own
}.

#[export] Instance AInv_perm s : Proper (Permutation ==> iff) (AInv s).
Proof.
  assert (forall k l, k ≡ₚ l -> AInv s k -> AInv s l) as H; [|intros k l E; split; by apply H].
  intros k l E [Ht [Hc Hg Hl]]. split; [done|]. split; [done| |done]. by rewrite <- E.
Qed.

Lemma good_live m own p : Good m own -> p ∈ own -> is_Some (m !! p).
Proof. intros [[_ Ho _ _] _] Hp. by apply (Forall_forall (fun p => is_Some (m !! p)) own). Qed.

(** Packets stay long when the buffers keep their lengths. *)
Lemma long_kept m m' l own : Forall (long m) l -> kept m m' -> Good m' (own ++ l) -> Forall (long m') l.
Proof.
  rewrite !Forall_forall. intros H Hk HG p Hp. destruct (H p Hp) as (b & Eb & Hb).
  destruct (good_live m' (own ++ l) p HG) as [b' Eb']; [apply elem_of_app; by right|]. exists b'. split; [done|]. by rewrite (Hk p b b').
Qed.

(** ** Steps *)

Lemma entry_done s i e : ld (arp_table s) i = Some e -> entry i s = Done e s.
Proof. intros E. unfold entry, access. by rewrite E. Qed.

Lemma alter_done s i e f : ld (arp_table s) i = Some e ->
  alter_entry i f s = Done tt (set_table (<[Z.to_nat i := f e]> (arp_table s)) s).
Proof.
  intros E. unfold alter_entry. rewrite (bind_done _ _ _ _ _ (entry_done s i e E)). unfold put_entry, access, mbind, M_bind.
  rewrite st_insert by (by eapply ld_Some_range). done.
Qed.

Lemma ld_nat {A} (l : list A) i e : ld l i = Some e -> l !! Z.to_nat i = Some e.
Proof. unfold ld. by destruct (0 <=? i). Qed.

Lemma ld_insert {A} (l : list A) i e e' : ld l i = Some e -> ld (<[Z.to_nat i := e']> l) i = Some e'.
Proof.
  intros E. pose proof (ld_Some_range _ _ _ E) as Hr. unfold ld, zlen in *. replace (0 <=? i) with true by lia. apply list_lookup_insert_eq. lia.
Qed.

Lemma onbufs_then {A B} (m : M Pbufs A) (f : A -> M Arp B) s P Q :
  runs m (bufs s) P -> (forall a b, P a b -> runs (f a) (set_bufs b s) Q) -> runs (onbufs m ≫= f) s Q.
Proof.
  intros (a & b & E & H)%runs_done Hf. eapply runs_bind_done; [unfold onbufs; by rewrite E|]. by apply Hf.
Qed.

Lemma onbufs_done {A} (m : M Pbufs A) s a b : m (bufs s) = Done a b -> onbufs m s = Done a (set_bufs b s).
Proof. intros E. unfold onbufs. by rewrite E. Qed.

Ltac xentry H := eapply runs_bind_done; [by apply entry_done, H|]; cbv beta zeta.
Ltac xalter H := eapply runs_bind_done; [by eapply alter_done, H|]; cbv beta zeta.

(** [s'] is [s] with another table and other buffers. *)
Lemma release_runs s own p : Good (bufs s) (hold p own) ->
  runs (release p) s (fun _ s' => exists m', s' = set_bufs m' s /\ Good m' own /\ fewer m' (bufs s)).
Proof. intros HG. unfold release. eapply onbufs_then; [apply (free_good _ own p HG)|]. cbv beta. intros _ m' H. kret. eauto. Qed.

(** * The table *)

Definition freed (e : etharp_entry) : etharp_entry := set_state ETHARP_STATE_EMPTY (set_q 0 e).

(** An operation on entry [i] that has the effect [g] on it, and may free buffers. *)
Definition on_entry (op : M Arp unit) (i : Z) (g : etharp_entry -> etharp_entry) : Prop :=
  forall s own e, AInv s own -> ld (arp_table s) i = Some e ->
  runs op s (fun _ s' => exists m', s' = set_bufs m' (set_table (<[Z.to_nat i := g e]> (arp_table s)) s) /\ AInv s' own /\ fewer m' (bufs s)).

(** A change of entry [i] that keeps the invariant when the packet it gave up is freed. *)
Lemma ainv_change s own i e e' m' :
  Held s own -> ld (arp_table s) i = Some e -> TableOk (<[Z.to_nat i := e']> (arp_table s)) ->
  Good m' (own ++ waiting (<[Z.to_nat i := e']> (arp_table s))) -> q e' = 0 \/ q e' = q e -> kept (bufs s) m' ->
  AInv (set_bufs m' (set_table (<[Z.to_nat i := e']> (arp_table s)) s)) own.
Proof.
  intros [Hc Hg Hl] E Ht' Hg' Hq Hk. split; [done|]. split; cbn; [done|done|]. apply (long_kept (bufs s) m' _ own); [|done|done].
  destruct (waiting_split _ _ _ (ld_nat _ _ _ E)) as (R & H1 & H2). rewrite H2. rewrite H1 in Hl.
  destruct Hq as [->| ->]; [|done]. unfold hold in *. cbn [Z.eqb]. destruct (q e =? 0); [done|]. by apply Forall_cons_1 in Hl as [_ ?].
Qed.

Lemma ainv_put s own i e e' :
  Held s own -> ld (arp_table s) i = Some e -> TableOk (<[Z.to_nat i := e']> (arp_table s)) -> q e' = q e ->
  AInv (set_table (<[Z.to_nat i := e']> (arp_table s)) s) own.
Proof.
  intros HA E Ht Hq. replace (set_table _ s) with (set_bufs (bufs s) (set_table (<[Z.to_nat i := e']> (arp_table s)) s)) by (by destruct s).
  apply (ainv_change s own i e e'); try done.
  - rewrite (waiting_insert_same _ _ e) by (done || by apply ld_nat). apply HA.
  - by right.
  - by intros x c c' -> [= <-].
Qed.

Lemma insert_twice s i e e' : ld (arp_table s) i = Some e ->
  <[Z.to_nat i := e']> (<[Z.to_nat i := e]> (arp_table s)) = <[Z.to_nat i := e']> (arp_table s).
Proof. intros _. apply list_insert_insert_eq. Qed.

(** Entry [i] itself need not be in order. *)
Lemma free_entry_held i s own e :
  Held s own -> ld (arp_table s) i = Some e -> TableOk (<[Z.to_nat i := freed e]> (arp_table s)) ->
  runs (etharp_free_entry i) s
    (fun _ s' => exists m', s' = set_bufs m' (set_table (<[Z.to_nat i := freed e]> (arp_table s)) s) /\ AInv s' own /\ fewer m' (bufs s)).
Proof.
  intros HA E Ht'. unfold etharp_free_entry. xentry E. pose proof (ld_nat _ _ _ E) as En. pose proof HA as [Hc Hg Hl].
  destruct (waiting_split _ _ _ En) as (R & Hw & Hw').
  assert (Good (bufs s) (hold (q e) (own ++ R))) as Hgq.
  { rewrite Hw in Hg. unfold hold in *. destruct (q e =? 0); [done|]. by rewrite Permutation_middle. }
  assert (exists m', (if q e =? 0 then mret tt else release (q e);; alter_entry i (set_q 0)) s =
            Done tt (set_bufs m' (set_table (<[Z.to_nat i := set_q 0 e]> (arp_table s)) s)) /\ Good m' (own ++ R) /\ fewer m' (bufs s)) as (m' & Em & Hg' & Hf).
  { destruct (Z.eqb_spec (q e) 0) as [Eq|Eq].
    - exists (bufs s). split; [|split; [by rewrite Eq in Hgq|apply fewer_refl]].
      assert (set_q 0 e = e) as -> by (rewrite <- Eq; by destruct e). rewrite list_insert_id by done. by destruct s.
    - destruct (proj1 (runs_done _ _ _) (release_runs s (own ++ R) (q e) Hgq)) as ([] & s1 & E1 & m' & -> & Hg' & Hf).
      exists m'. rewrite (bind_done _ _ _ _ _ E1). rewrite (alter_done (set_bufs m' s) i e _ E). split; [done|by split]. }
  eapply runs_bind_done; [exact Em|]. unfold runs, wpe.
  rewrite (alter_done (set_bufs m' (set_table (<[Z.to_nat i := set_q 0 e]> (arp_table s)) s)) i (set_q 0 e)) by (cbn; by eapply ld_insert).
  cbn [set_bufs set_table arp_table]. rewrite list_insert_insert_eq. exists m'. split; [done|]. split; [|done].
  apply (ainv_change s own i e (freed e) m'); try done; [by rewrite Hw'|by left|by apply fewer_kept].
Qed.

Lemma freed_ok t i e : TableOk t -> t !! i = Some e -> TableOk (<[i := freed e]> t).
Proof.
  intros Ht E. pose proof (table_entries _ Ht _ _ E). apply (table_change _ _ e); [done|done|unfold freed; arp_lia|by left].
Qed.

Lemma free_entry_runs i : on_entry (etharp_free_entry i) i freed.
Proof. intros s own e [Ht HA] E. apply free_entry_held; [done|done|]. apply freed_ok; [done|by apply ld_nat]. Qed.

(** Nothing is done to the entry. *)
Lemma on_entry_none s own i e (g : etharp_entry -> etharp_entry) : AInv s own -> ld (arp_table s) i = Some e -> g e = e ->
  exists m', s = set_bufs m' (set_table (<[Z.to_nat i := g e]> (arp_table s)) s) /\ AInv s own /\ fewer m' (bufs s).
Proof.
  intros HA E Eg. exists (bufs s). rewrite Eg, list_insert_id by (by apply ld_nat). split; [by destruct s|]. split; [done|apply fewer_refl].
Qed.

(** An entry one tick older. *)
Definition expired (e : etharp_entry) : bool :=
  (ARP_MAXAGE <=? ctime e + 1) || ((state e =? ETHARP_STATE_PENDING) && (ARP_MAXPENDING <=? ctime e + 1)).

Definition aged (e : etharp_entry) : etharp_entry :=
  if state e =? ETHARP_STATE_EMPTY then e
  else let e' := set_ctime (ctime e + 1) e in
    if expired e then freed e' else if state e =? ETHARP_STATE_STABLE_REREQUESTING then set_state ETHARP_STATE_STABLE e' else e'.

Lemma aged_ok t i e : TableOk t -> t !! i = Some e -> TableOk (<[i := aged e]> t).
Proof.
  intros Ht E. pose proof (table_entries _ Ht _ _ E). apply (table_change _ _ e); [done|done| |].
  - unfold aged, expired, freed. repeat case_match; arp_lia.
  - unfold aged, freed. destruct (Z.eqb_spec (state e) ETHARP_STATE_EMPTY); [by left|]. repeat case_match; cbn; auto.
Qed.

Lemma age_entry_runs i : on_entry (age_entry i) i aged.
Proof.
  intros s own e HA E. unfold age_entry. xentry E. pose proof (ld_nat _ _ _ E) as En. pose proof HA as [Ht HH].
  pose proof (table_entries _ Ht _ _ En) as Hok. pose proof (aged_ok _ _ _ Ht En) as Ht'.
  destruct (Z.eqb_spec (state e) ETHARP_STATE_EMPTY) as [Es|Es].
  { kret. apply on_entry_none; [done|done|]. unfold aged. by replace (state e =? ETHARP_STATE_EMPTY) with true by lia. }
  assert (u8 (ctime e + 1) = ctime e + 1) as Eu by (apply u8_small; unfold is_u8; arp_lia). rewrite Eu. xalter E.
  set (e1 := set_ctime (ctime e + 1) e). set (s1 := set_table (<[Z.to_nat i := e1]> (arp_table s)) s).
  assert (ld (arp_table s1) i = Some e1) as E1 by (by eapply ld_insert).
  assert (forall e', <[Z.to_nat i := e']> (arp_table s1) = <[Z.to_nat i := e']> (arp_table s)) as Ei by (intros; apply list_insert_insert_eq).
  assert (forall e', set_table (<[Z.to_nat i := e']> (arp_table s1)) s1 = set_table (<[Z.to_nat i := e']> (arp_table s)) s) as Eii by (intros e'; by rewrite Ei).
  unfold aged, expired in *. replace (state e =? ETHARP_STATE_EMPTY) with false in * by lia. fold e1 in Ht' |- *.
  destruct ((ARP_MAXAGE <=? ctime e + 1) || ((state e =? ETHARP_STATE_PENDING) && (ARP_MAXPENDING <=? ctime e + 1))).
  - assert (Held s1 own) as HH1.
    { destruct HH as [Hc Hg Hl]. split; [done| |]; unfold s1; cbn [set_table arp_table bufs]; by rewrite (waiting_insert_same _ _ e). }
    eapply runs_mono; [apply (free_entry_held i s1 own e1 HH1 E1); by rewrite Ei|]. cbv beta. by rewrite Ei.
  - assert (forall e', e' = (if state e =? ETHARP_STATE_STABLE_REREQUESTING then set_state ETHARP_STATE_STABLE e1 else e1) ->
      exists m', set_table (<[Z.to_nat i := e']> (arp_table s)) s = set_bufs m' (set_table (<[Z.to_nat i := e']> (arp_table s)) s) /\
        AInv (set_table (<[Z.to_nat i := e']> (arp_table s)) s) own /\ fewer m' (bufs s)) as Hend.
    { intros e' ->. exists (bufs s). split; [by destruct s|]. split; [|apply fewer_refl]. apply (ainv_put s own i e); try done. by case_match. }
    destruct (state e =? ETHARP_STATE_STABLE_REREQUESTING).
    + unfold runs, wpe. rewrite (alter_done s1 i e1 _ E1), Eii. by apply Hend.
    + kret. by apply Hend.
Qed.

Definition cleaned (n : netif) (e : etharp_entry) : etharp_entry :=
  if negb (state e =? ETHARP_STATE_EMPTY) && (nif e =? self n) then freed e else e.

Lemma cleanup_entry_runs n i : on_entry (cleanup_entry n i) i (cleaned n).
Proof.
  intros s own e HA E. unfold cleanup_entry. xentry E.
  destruct (negb (state e =? ETHARP_STATE_EMPTY) && (nif e =? self n)) eqn:Ec.
  - eapply runs_mono; [by apply (free_entry_runs i s own e)|]. cbv beta. unfold cleaned. by rewrite Ec.
  - kret. apply on_entry_none; [done|done|]. unfold cleaned. by rewrite Ec.
Qed.

(** All entries in turn. *)
Lemma each_runs (op : Z -> M Arp unit) g : (forall i, on_entry (op i) i g) ->
  forall s own, AInv s own -> runs (each (seqZ 0 ARP_TABLE_SIZE) op) s
    (fun _ s' => exists m', s' = set_bufs m' (set_table (g <$> arp_table s) s) /\ AInv s' own /\ fewer m' (bufs s)).
Proof.
  intros Hop s own HA. pose proof (table_size _ (a_table _ _ HA)) as Hsz. unfold zlen in Hsz.
  assert (length (arp_table s) = 10%nat) as Hl by (unfold ARP_TABLE_SIZE in *; lia). clear Hsz.
  assert (forall k n s, (n + k)%nat = 10%nat -> AInv s own -> forall t, t = arp_table s -> length t = 10%nat ->
    runs (each (seqZ (Z.of_nat n) (Z.of_nat k)) op) s
      (fun _ s' => exists m', s' = set_bufs m' (set_table (take n t ++ (g <$> drop n t)) s) /\ AInv s' own /\ fewer m' (bufs s))) as H.
  { clear s HA Hl. induction k as [|k IH]; intros n s Hn HA t Et Hl.
    - kret. exists (bufs s). rewrite take_ge, drop_ge by lia. cbn [fmap list_fmap]. rewrite app_nil_r, Et.
      split; [by destruct s|]. split; [done|apply fewer_refl].
    - rewrite seqZ_cons by lia. cbn [each]. destruct (lookup_lt_is_Some_2 t n) as [e Ee]; [lia|].
      assert (ld (arp_table s) (Z.of_nat n) = Some e) as E.
      { unfold ld. replace (0 <=? Z.of_nat n) with true by lia. by rewrite <- Et, Nat2Z.id. }
      eapply runs_then_do; [by apply (Hop _ s own e)|]. cbv beta. intros _ s2 (m2 & -> & HA2 & Hf2). rewrite Nat2Z.id in *.
      set (t2 := <[n := g e]> (arp_table s)) in *. assert (length t2 = 10%nat) as Hl2 by (unfold t2; by rewrite length_insert, <- Et).
      replace (Z.succ (Z.of_nat n)) with (Z.of_nat (S n)) by lia. replace (Z.pred (Z.of_nat (S k))) with (Z.of_nat k) by lia.
      eapply runs_mono; [apply (IH (S n) _ ltac:(lia) HA2 t2); done|]. cbv beta. intros _ s' (m' & -> & HA' & Hf). exists m'. split; [|split; [done|by eapply fewer_trans]].
      assert (take (S n) t2 ++ (g <$> drop (S n) t2) = take n t ++ (g <$> drop n t)) as ->; [|done]. unfold t2. rewrite <- Et.
      rewrite (take_S_r _ _ (g e)) by (apply list_lookup_insert_eq; lia). rewrite take_insert_ge by lia. rewrite drop_insert_lt by lia.
      rewrite (drop_S t e n) by done. cbn [fmap list_fmap]. by rewrite <- app_assoc. }
  exact (H 10%nat 0%nat s eq_refl HA _ eq_refl Hl).
Qed.

Lemma etharp_tmr_runs s own : AInv s own -> runs etharp_tmr s
  (fun _ s' => exists m', s' = set_bufs m' (set_table (aged <$> arp_table s) s) /\ AInv s' own /\ fewer m' (bufs s)).
Proof. apply each_runs, age_entry_runs. Qed.

Lemma etharp_cleanup_netif_runs n s own : AInv s own -> runs (etharp_cleanup_netif n) s
  (fun _ s' => exists m', s' = set_bufs m' (set_table (cleaned n <$> arp_table s) s) /\ AInv s' own /\ fewer m' (bufs s)).
Proof. apply each_runs, cleanup_entry_runs. Qed.

(** * Finding an entry *)

(** [j] is the oldest entry of kind [P] in [t] and [a] its age, if there is one. *)
Definition Oldest (P : etharp_entry -> Prop) (t : list etharp_entry) (j a : Z) : Prop :=
  (j = ARP_TABLE_SIZE /\ a = 0 /\ Forall (fun e => ~ P e) t) \/
  (exists e, ld t j = Some e /\ P e /\ ctime e = a /\ Forall (fun d => P d -> ctime d <= a) t).

Lemma ld_snoc_old {A} (t : list A) x j e : ld t j = Some e -> ld (t ++ [x]) j = Some e.
Proof. intros E. rewrite ld_app_l; [done|]. by eapply ld_Some_range. Qed.

Lemma ld_snoc_new {A} (t : list A) x : ld (t ++ [x]) (zlen t) = Some x.
Proof. rewrite ld_app_r, Z.sub_diag by lia. done. Qed.

Lemma oldest_other P t j a e : ~ P e -> Oldest P t j a -> Oldest P (t ++ [e]) j a.
Proof.
  intros He [(-> & -> & HF)|(d & Ed & Hd & Ha & HF)]; [left|right].
  - split; [done|]. split; [done|]. apply Forall_app_2; [done|by constructor].
  - exists d. split; [by apply ld_snoc_old|]. split; [done|]. split; [done|]. apply Forall_app_2; [done|by constructor].
Qed.

Lemma oldest_next (P : etharp_entry -> Prop) t j a e : P e -> 0 <= ctime e -> Oldest P t j a ->
  if a <=? ctime e then Oldest P (t ++ [e]) (zlen t) (ctime e) else Oldest P (t ++ [e]) j a.
Proof.
  intros He Hc HO. destruct (Z.leb_spec a (ctime e)) as [Hle|Hlt].
  - right. exists e. split; [apply ld_snoc_new|]. split; [done|]. split; [done|]. apply Forall_app_2; [|by constructor].
    destruct HO as [(_ & _ & HF)|(d & _ & _ & _ & HF)]; (eapply Forall_impl; [exact HF|]); cbn; [done|]. intros x H Hx. specialize (H Hx). lia.
  - destruct HO as [(_ & -> & _)|(d & Ed & Hd & Ha & HF)]; [lia|]. right. exists d. split; [by apply ld_snoc_old|]. split; [done|]. split; [done|].
    apply Forall_app_2; [done|]. constructor; [lia|done].
Qed.

Definition stable (e : etharp_entry) : Prop := ETHARP_STATE_STABLE <= state e.
Definition pending (e : etharp_entry) : Prop := state e = ETHARP_STATE_PENDING /\ q e = 0.
Definition queueing (e : etharp_entry) : Prop := state e = ETHARP_STATE_PENDING /\ q e <> 0.

Record CandOk (t : list etharp_entry) (c : Candidates) : Prop := {
  c_empty : (first_empty c = ARP_TABLE_SIZE /\ Forall (fun e => state e <> ETHARP_STATE_EMPTY) t) \/
            (exists e, ld t (first_empty c) = Some e /\ state e = ETHARP_STATE_EMPTY);
  c_stable : Oldest stable t (old_stable c) (age_stable c);
  c_pending : Oldest pending t (old_pending c) (age_pending c);
  c_queue : Oldest queueing t (old_queue c) (age_queue c)
}.

Lemma remember_ok t c e : CandOk t c -> entry_ok e -> state e <> ETHARP_STATE_EMPTY -> CandOk (t ++ [e]) (remember (zlen t) e c).
Proof.
  intros [He Hs Hp Hq] Hok Hne.
  assert ((first_empty c = ARP_TABLE_SIZE /\ Forall (fun e => state e <> ETHARP_STATE_EMPTY) (t ++ [e])) \/
          (exists d, ld (t ++ [e]) (first_empty c) = Some d /\ state d = ETHARP_STATE_EMPTY)) as He'.
  { destruct He as [[? HF]|(d & Ed & Hd)]; [left|right; exists d; split; [by apply ld_snoc_old|done]]. split; [done|]. apply Forall_app_2; [done|by constructor]. }
  unfold remember. destruct (Z.eqb_spec (state e) ETHARP_STATE_PENDING) as [Es|Es].
  - assert (~ stable e) as Hns by (unfold stable; arp_lia). destruct (Z.eqb_spec (q e) 0) as [Eq|Eq]; cbn [negb].
    + assert (~ queueing e) as Hnq by (intros [_ ?]; done).
      pose proof (oldest_next pending t _ _ e (conj Es Eq) ltac:(arp_lia) Hp) as H. destruct (age_pending c <=? ctime e); (split; cbn; [done|by apply oldest_other|done|by apply oldest_other]).
    + assert (~ pending e) as Hnp by (intros [_ ?]; done).
      pose proof (oldest_next queueing t _ _ e (conj Es Eq) ltac:(arp_lia) Hq) as H. destruct (age_queue c <=? ctime e); (split; cbn; [done|by apply oldest_other|by apply oldest_other|done]).
  - assert (~ queueing e) as Hnq by (intros [? _]; done). assert (~ pending e) as Hnp by (intros [? _]; done).
    assert (stable e) as Hst by (unfold stable; arp_lia). replace (ETHARP_STATE_STABLE <=? state e) with true by (unfold stable in Hst; lia).
    pose proof (oldest_next stable t _ _ e Hst ltac:(arp_lia) Hs) as H. destruct (age_stable c <=? ctime e); (split; cbn; [done|done|by apply oldest_other|by apply oldest_other]).
Qed.

(** No entry in use has the address. *)
Definition absent (addr : Z) (t : list etharp_entry) : Prop := Forall (fun e => state e <> ETHARP_STATE_EMPTY -> ipaddr e <> addr) t.

Lemma sweep_spec addr suf : forall pre c,
  CandOk pre c -> Forall entry_ok suf -> zlen pre + zlen suf = ARP_TABLE_SIZE ->
  match sweep addr (zlen pre) suf c with
  | inl i => exists e, ld (pre ++ suf) i = Some e /\ state e <> ETHARP_STATE_EMPTY /\ ipaddr e = addr
  | inr c' => CandOk (pre ++ suf) c' /\ absent addr suf
  end.
Proof.
  induction suf as [|e suf IH]; intros pre c HC Hok Hz; cbn [sweep].
  { rewrite app_nil_r. split; [done|constructor]. }
  apply Forall_cons_1 in Hok as [Hoke Hok]. rewrite zlen_cons in Hz. pose proof (zlen_nonneg suf). pose proof (zlen_nonneg pre).
  assert (forall c', CandOk (pre ++ [e]) c' -> (state e <> ETHARP_STATE_EMPTY -> ipaddr e <> addr) ->
    match sweep addr (zlen pre + 1) suf c' with
    | inl i => exists d, ld (pre ++ e :: suf) i = Some d /\ state d <> ETHARP_STATE_EMPTY /\ ipaddr d = addr
    | inr c'' => CandOk (pre ++ e :: suf) c'' /\ absent addr (e :: suf)
    end) as Hnext.
  { intros c' HC' He. specialize (IH (pre ++ [e]) c' HC' Hok). rewrite zlen_app in IH. change (zlen [e]) with 1 in IH. rewrite <- app_assoc in IH.
    specialize (IH ltac:(lia)). destruct (sweep _ _ _ _); [done|]. destruct IH as [? ?]. split; [done|by constructor]. }
  destruct (Z.eqb_spec (state e) ETHARP_STATE_EMPTY) as [Es|Es].
  - assert (forall j, ld (pre ++ [e]) j = Some e -> CandOk (pre ++ [e]) (mkCandidates j (old_pending c) (age_pending c) (old_stable c) (age_stable c) (old_queue c) (age_queue c))) as Hnew.
    { intros j Ej. destruct HC as [_ Hs Hp Hq]. split; cbn; [right; eauto|..]; apply oldest_other; try done.
      - unfold stable. rewrite Es. arp_lia.
      - unfold pending. rewrite Es. by intros [? _].
      - unfold queueing. rewrite Es. by intros [? _]. }
    destruct (Z.eqb_spec (first_empty c) ARP_TABLE_SIZE) as [Ee|Ee]; cbn [andb negb].
    + apply Hnext; [|done]. apply Hnew, ld_snoc_new.
    + apply Hnext; [|done]. destruct (c_empty _ _ HC) as [[? _]|(d & Ed & Hd)]; [done|].
      destruct (Hnew (zlen pre) (ld_snoc_new _ _)) as [_ H1 H2 H3]. split; [|done..]. right. exists d. split; [by apply ld_snoc_old|done].
  - rewrite andb_false_r. cbn [negb]. destruct (Z.eqb_spec addr (ipaddr e)) as [->|Ha].
    + exists e. split; [|done]. rewrite ld_app_r, Z.sub_diag by lia. done.
    + apply Hnext; [|congruence]. by apply remember_ok.
Qed.

Lemma no_candidates_ok : CandOk [] no_candidates.
Proof. split; left; repeat split; constructor. Qed.

(** Which entry makes room: an empty one, or else the oldest stable one, or else the
    oldest pending one, one without a packet first. *)
Definition victim (t : list etharp_entry) (e : etharp_entry) : Prop :=
  state e = ETHARP_STATE_EMPTY \/
  Forall (fun d => state d <> ETHARP_STATE_EMPTY) t /\
  ((stable e /\ Forall (fun d => stable d -> ctime d <= ctime e) t) \/
   Forall (fun d => ~ stable d) t /\
   ((pending e /\ Forall (fun d => pending d -> ctime d <= ctime e) t) \/
    Forall (fun d => ~ pending d) t /\ queueing e /\ Forall (fun d => queueing d -> ctime d <= ctime e) t)).

Lemma recycle_victim t c : CandOk t c -> zlen t = ARP_TABLE_SIZE -> Forall entry_ok t ->
  exists i e, recycle c = Some i /\ ld t i = Some e /\ victim t e /\
    (if first_empty c <? ARP_TABLE_SIZE then state e = ETHARP_STATE_EMPTY else Forall (fun d => state d <> ETHARP_STATE_EMPTY) t).
Proof.
  intros [He Hs Hp Hq] Hz Hok. unfold recycle.
  destruct He as [[-> Hne]|(e & Ee & Hee)].
  2:{ pose proof (ld_Some_range _ _ _ Ee). replace (first_empty c <? ARP_TABLE_SIZE) with true by lia. exists (first_empty c), e. do 2 (split; [done|]). split; [by left|done]. }
  rewrite Z.ltb_irrefl. destruct Hs as [(-> & _ & Hns)|(e & Ee & Hse & Ha & HF)].
  2:{ pose proof (ld_Some_range _ _ _ Ee). replace (old_stable c <? ARP_TABLE_SIZE) with true by lia. exists (old_stable c), e.
      do 2 (split; [done|]). split; [|done]. right. split; [done|]. left. split; [done|]. by rewrite Ha. }
  rewrite Z.ltb_irrefl. destruct Hp as [(-> & _ & Hnp)|(e & Ee & Hpe & Ha & HF)].
  2:{ pose proof (ld_Some_range _ _ _ Ee). replace (old_pending c <? ARP_TABLE_SIZE) with true by lia. exists (old_pending c), e.
      do 2 (split; [done|]). split; [|done]. right. split; [done|]. right. split; [done|]. left. split; [done|]. by rewrite Ha. }
  rewrite Z.ltb_irrefl. destruct Hq as [(-> & _ & Hnq)|(e & Ee & Hqe & Ha & HF)].
  2:{ pose proof (ld_Some_range _ _ _ Ee). replace (old_queue c <? ARP_TABLE_SIZE) with true by lia. exists (old_queue c), e.
      do 2 (split; [done|]). split; [|done]. right. split; [done|]. right. split; [done|]. right. split; [done|]. split; [done|]. by rewrite Ha. }
  exfalso. destruct t as [|e t]; [done|]. apply Forall_cons_1 in Hne as [H1 _]. apply Forall_cons_1 in Hns as [H2 _].
  apply Forall_cons_1 in Hnp as [H3 _]. apply Forall_cons_1 in Hnq as [H4 _]. apply Forall_cons_1 in Hok as [H5 _].
  unfold stable in H2. assert (state e = ETHARP_STATE_PENDING) as Es by arp_lia.
  destruct (Z.eq_dec (q e) 0); [by apply H3|by apply H4].
Qed.

(** The entry for a new address. *)
Definition renewed (addr : Z) (e : etharp_entry) : etharp_entry := set_ctime 0 (set_ipaddr addr (freed e)).

Lemma absent_freed addr t i e : absent addr t -> absent addr (<[i := freed e]> t).
Proof. intros H. apply Forall_insert; [done|]. by intros. Qed.

Lemma find_entry_runs s own addr flags : AInv s own -> flags = ETHARP_FLAG_TRY_HARD \/ flags = ETHARP_FLAG_FIND_ONLY ->
  runs (etharp_find_entry addr flags) s (fun i s' =>
    (exists e, ld (arp_table s) i = Some e /\ state e <> ETHARP_STATE_EMPTY /\ ipaddr e = addr /\ s' = s) \/
    absent addr (arp_table s) /\
    ((flags = ETHARP_FLAG_FIND_ONLY /\ i = ERR_MEM /\ s' = s) \/
     (flags = ETHARP_FLAG_TRY_HARD /\ exists e m', ld (arp_table s) i = Some e /\ victim (arp_table s) e /\
        s' = set_bufs m' (set_table (<[Z.to_nat i := renewed addr e]> (arp_table s)) s) /\ AInv s' own /\ fewer m' (bufs s)))).
Proof.
  intros HA Hfl. pose proof HA as [Ht HH]. unfold etharp_find_entry. kdo.
  assert (Forall entry_ok (arp_table s)) as Hok by (apply Forall_lookup_2; apply Ht).
  pose proof (sweep_spec addr (arp_table s) [] no_candidates no_candidates_ok Hok ltac:(rewrite zlen_nil; apply Ht)) as HS.
  rewrite zlen_nil in HS. destruct (sweep addr 0 (arp_table s) no_candidates) as [i|c].
  { kret. left. destruct HS as (e & E & He & Ha). eauto 10. }
  destruct HS as [HC Hab]. destruct Hfl as [->| ->].
  2:{ cbn. kret. right. split; [done|]. by left. }
  cbn [Z.land ETHARP_FLAG_TRY_HARD ETHARP_FLAG_FIND_ONLY Pos.land negb Z.eqb orb andb]. rewrite andb_false_r.
  destruct (recycle_victim _ _ HC (table_size _ Ht) Hok) as (i & e & -> & E & Hv & Hcase). pose proof (ld_nat _ _ _ E) as En.
  pose proof (table_entries _ Ht _ _ En) as Hoke.
  assert (exists m', (if first_empty c <? ARP_TABLE_SIZE then mret tt else etharp_free_entry i) s =
      Done tt (set_bufs m' (set_table (<[Z.to_nat i := freed e]> (arp_table s)) s)) /\
      AInv (set_bufs m' (set_table (<[Z.to_nat i := freed e]> (arp_table s)) s)) own /\ fewer m' (bufs s)) as (m' & Em & HA' & Hf).
  { destruct (first_empty c <? ARP_TABLE_SIZE).
    - assert (freed e = e) as Ef by (assert (q e = 0) by arp_lia; destruct e; cbn in *; by subst).
      destruct (on_entry_none s own i e freed HA E Ef) as (m' & Es & _ & Hf). exists m'. rewrite <- Es. done.
    - destruct (proj1 (runs_done _ _ _) (free_entry_runs i s own e HA E)) as ([] & s1 & E1 & m' & -> & HA' & Hf). eauto. }
  eapply runs_bind_done; [exact Em|]. cbv beta. set (s1 := set_bufs m' _) in *.
  assert (ld (arp_table s1) i = Some (freed e)) as E1 by (by eapply ld_insert). xalter E1.
  set (s2 := set_table _ s1). assert (ld (arp_table s2) i = Some (set_ipaddr addr (freed e))) as E2 by (by eapply ld_insert). xalter E2. kret.
  right. split; [done|]. right. split; [done|]. exists e, m'. split; [done|]. split; [done|].
  assert (set_table (<[Z.to_nat i := set_ctime 0 (set_ipaddr addr (freed e))]> (arp_table s2)) s2 =
          set_bufs m' (set_table (<[Z.to_nat i := renewed addr e]> (arp_table s)) s)) as ->.
  { unfold s2, s1. cbn [set_table set_bufs arp_table]. by rewrite !list_insert_insert_eq. }
  split; [done|]. split; [|done]. destruct HA' as [Ht1 [Hc1 Hg1 Hl1]]. unfold s1 in *. cbn [set_bufs set_table arp_table bufs] in *.
  assert (forall e', q e' = q (freed e) -> waiting (<[Z.to_nat i := e']> (arp_table s)) ≡ₚ waiting (<[Z.to_nat i := freed e]> (arp_table s))) as Hw.
  { intros e' Eq. destruct (waiting_split _ _ _ En) as (R & _ & Hw). by rewrite !Hw, Eq. }
  split; cbn.
  - apply (table_insert _ _ e); [done|done|unfold renewed, freed; arp_lia|]. intros j d Ej Hne _ Hd. done.
  - split; cbn; [done|rewrite Hw by done; done|rewrite Hw by done; done].
Qed.
