(* ===== verification/EtharpSend.v ===== *)
(** Address resolution at work: what sending, requesting, updating an entry,
    querying and handling a frame do to the table, the buffers and the link,
    under the invariant of [EtharpTable]. *)
From S2P Require Import Prelude Pbuf PbufRef PbufData IpAddr Etharp EtharpBufs EtharpTable.
From stdpp Require Import list gmap.
#[local] Open Scope Z_scope.

Lemma set_bufs_same s p b : bufs s !! p = Some b -> set_bufs (<[p := b]> (bufs s)) s = s.
Proof. intros E. rewrite insert_id by done. by destruct s. Qed.

Lemma set_table_same s : set_table (arp_table s) s = s.
Proof. by destruct s. Qed.

Lemma rewritten_refl b : rewritten b b (bytes b).
Proof. exists (room b). split; [by destruct b|done]. Qed.

Lemma rewritten_self b b' d : rewritten b b' d -> rewritten b b' (bytes b').
Proof. intros (rm & -> & E & _). by exists rm. Qed.

Lemma rewritten_bytes b b' d : rewritten b b' d -> bytes b' = d.
Proof. by intros (rm & _ & _ & ?). Qed.

(** One write into buffer [p], which holds [d]. *)
Lemma put_step {A} (f : unit -> M Arp A) s m own p b0 b d off l Q :
  Good (<[p := b]> m) own -> rewritten b0 b d -> 0 <= off -> off + zlen l <= len b0 ->
  (forall b', Good (<[p := b']> m) own -> rewritten b0 b' (patch d off l) -> runs (f tt) (set_bufs (<[p := b']> m) s) Q) ->
  runs (onbufs (write p off l) ≫= f) (set_bufs (<[p := b]> m) s) Q.
Proof.
  intros HG Hw Ho Hl Hf. assert (len b = len b0) as El by (by destruct Hw as (? & -> & _)).
  destruct (write_good (<[p := b]> m) own p b off l HG (lookup_insert_eq _ _ _) Ho ltac:(lia)) as (b' & E & Hw' & HG').
  rewrite insert_insert_eq in E, HG'. eapply runs_bind_done; [by apply onbufs_done|]. cbv beta. rewrite (rewritten_bytes _ _ _ Hw) in Hw'.
  apply (Hf b' HG'). by eapply rewritten_trans.
Qed.

(** The first buffer of a chain with other bytes. *)
Lemma chain_insert_other m p bs l x b : chain m p bs -> seg (links m) p l -> x ∉ l -> chain (<[x := b]> m) p bs.
Proof.
  revert p l. induction bs as [|c bs IH]; intros p l; cbn [chain]; [done|]. intros (Hp & Ec & Hc & Hch) Hl Hx.
  destruct l as [|y l]; [by cbn in Hl|]. destruct Hl as (-> & _ & n & En & Hl). apply not_elem_of_cons in Hx as [Hxp Hx].
  split; [done|]. split; [by rewrite lookup_insert_ne|]. split; [done|]. apply (IH _ l); [done| |done].
  rewrite (links_lookup m p c Ec) in En. by injection En as ->.
Qed.

Lemma chain_replace m p b bs b' : chain m p (b :: bs) -> next b' = next b -> fits b' -> chain (<[p := b']> m) p (b' :: bs).
Proof.
  intros Hc En Hf. pose proof Hc as (Hp & Eb & Hb & Hrest). destruct (chain_seg _ _ _ Hc) as (l & Hl & _). pose proof (seg_nodup _ _ _ Hl) as Hnd.
  split; [done|]. split; [apply lookup_insert_eq|]. split; [done|]. rewrite En.
  destruct l as [|y l]; [by destruct Hl|]. destruct Hl as (-> & _ & n & Ex & Hl). apply NoDup_cons in Hnd as [Hnin _].
  rewrite (links_lookup m p b Eb) in Ex. injection Ex as <-. by eapply chain_insert_other.
Qed.

Lemma chain_rewrite m p b bs b' d : chain m p (b :: bs) -> rewritten b b' d -> chain (<[p := b']> m) p (b' :: bs).
Proof.
  intros Hc Hw. apply (chain_replace _ _ b); [done|by destruct Hw as (? & -> & _)|]. eapply rewritten_fits; [done|by destruct Hc as (_ & _ & ? & _)].
Qed.

Section Link.
Context `{PM : PbufMemory} {PML : PbufMemoryLaws} `{DR : Driver}.

Lemma linkoutput_done s p bs : chain (bufs s) p bs -> linkoutput p s = Done (link_result (sent s) (data bs)) (add_sent (data bs) s).
Proof.
  intros Hc. unfold linkoutput. rewrite (bind_done _ _ _ _ _ (onbufs_done _ s _ _ (frame_done _ _ _ Hc))).
  replace (set_bufs (bufs s) s) with s by (by destruct s). done.
Qed.

(** A frame of type IP. *)
Definition ip_frame (src dst packet : list Z) : list Z := dst ++ src ++ [8; 0] ++ packet.

Lemma send_runs s own p b bs src dst :
  Good (bufs s) own -> chain (bufs s) p (b :: bs) -> SIZEOF_ETH_HDR <= len b -> zlen src = 6 -> zlen dst = 6 ->
  runs (etharp_send_ip p src dst) s (fun _ s' => exists b', rewritten b b' (bytes b') /\ Good (<[p := b']> (bufs s)) own /\
    chain (<[p := b']> (bufs s)) p (b' :: bs) /\
    s' = add_sent (ip_frame src dst (zdrop 14 (data (b :: bs)))) (set_bufs (<[p := b']> (bufs s)) s)).
Proof.
  intros HG Hc Hl Hsrc Hdst. change SIZEOF_ETH_HDR with 14 in Hl. pose proof Hc as (Hp & Eb & Hfit & _).
  pose proof (bytes_len b Hfit) as Hbl. unfold etharp_send_ip. rewrite <- (set_bufs_same s p b Eb) at 1.
  eapply put_step; [by rewrite insert_id|apply rewritten_refl|lia|lia|]. intros b1 HG1 Hw1.
  eapply put_step; [exact HG1|exact Hw1|lia|lia|]. intros b2 HG2 Hw2.
  eapply put_step; [exact HG2|exact Hw2|lia|change (zlen (le16 (htons ETHTYPE_IP))) with 2; lia|]. intros b3 HG3 Hw3.
  pose proof (chain_rewrite _ _ _ _ _ _ Hc Hw3) as Hc3. unfold runs, wpe. rewrite (linkoutput_done (set_bufs (<[p := b3]> (bufs s)) s) p (b3 :: bs) Hc3).
  exists b3. split; [by eapply rewritten_self|]. split; [done|]. split; [done|]. f_equal.
  rewrite !data_cons, (rewritten_bytes _ _ _ Hw3). unfold ip_frame.
  rewrite <- Hdst at 1. rewrite <- (Z.add_0_l (zlen dst)), patch_patch by lia.
  change 12 with (6 + 6). rewrite <- Hdst at 1. rewrite <- Hsrc at 1. rewrite <- zlen_app, <- (Z.add_0_l (zlen (dst ++ src))).
  rewrite patch_patch by (rewrite ?zlen_app; change (zlen (le16 (htons ETHTYPE_IP))) with 2; lia).
  change (le16 (htons ETHTYPE_IP)) with [8; 0]. unfold patch. rewrite ztake_0, app_nil_l by lia. rewrite !zlen_app, Hdst, Hsrc.
  change (0 + (6 + 6 + zlen [8; 0])) with 14. rewrite zdrop_app_l by lia. by rewrite <- !app_assoc.
Qed.

(** ** ARP messages *)

(** An ARP message of RFC 826 in its frame. *)
Definition arp_frame (ethdst ethsrc hwsrc : list Z) (ipsrc : Z) (hwdst : list Z) (ipdst opcode : Z) : list Z :=
  ethdst ++ ethsrc ++ [8; 6; 0; 1; 8; 0; 6; 4] ++ le16 (htons opcode) ++ hwsrc ++ le32 ipsrc ++ hwdst ++ le32 ipdst.

Lemma six {A} (l : list A) : zlen l = 6 -> exists a b c d e f, l = [a; b; c; d; e; f].
Proof.
  intros H. assert (length l = 6%nat) as Hl by (unfold zlen in H; lia).
  do 6 (destruct l as [|? l]; [discriminate|]). destruct l; [by do 6 eexists|discriminate].
Qed.

(** What is written covers the buffer. *)
Lemma arp_frame_written d ethdst ethsrc hwsrc ipsrc hwdst ipdst opcode :
  zlen d = 42 -> zlen ethdst = 6 -> zlen ethsrc = 6 -> zlen hwsrc = 6 -> zlen hwdst = 6 ->
  patch (patch (patch (patch (patch (patch (patch (patch (patch (patch (patch (patch d
    20 (le16 (htons opcode))) 22 hwsrc) 32 hwdst) 0 ethdst) 6 ethsrc) 28 (le32 ipsrc)) 38 (le32 ipdst)) 14 (le16 (htons HWTYPE_ETHERNET)))
    16 (le16 (htons ETHTYPE_IP))) 18 [ETHARP_HWADDR_LEN]) 19 [4]) 12 (le16 (htons ETHTYPE_ARP)) =
  arp_frame ethdst ethsrc hwsrc ipsrc hwdst ipdst opcode.
Proof.
  intros Hd (? & ? & ? & ? & ? & ? & ->)%six (? & ? & ? & ? & ? & ? & ->)%six (? & ? & ? & ? & ? & ? & ->)%six (? & ? & ? & ? & ? & ? & ->)%six.
  assert (length d = 42%nat) as Hl by (unfold zlen in Hd; lia). clear Hd.
  do 42 (destruct d as [|? d]; [discriminate|]). destruct d; [reflexivity|discriminate].
Qed.

(** The state after a frame was sent. *)
Definition after_sent (f : list Z) (m : Pbufs) (s : Arp) : Arp := add_sent f (set_bufs m s).

(** A buffer of its own leaves no trace. *)
Lemma release_own s m p b : m !! p = None -> p <> 0 -> ref b = 1 -> next b = 0 ->
  release p (set_bufs (<[p := b]> m) s) = Done tt (set_bufs m s).
Proof.
  intros Hp Hp0 Hr Hn. unfold release. assert (pbuf_free p (<[p := b]> m) = Done 1 m) as E; [|by rewrite (bind_done _ _ _ _ _ (onbufs_done _ (set_bufs (<[p := b]> m) s) _ _ E))].
  unfold pbuf_free, walk. rewrite map_size_insert_None by done. cbn [free_loop]. replace (p =? 0) with false by lia.
  rewrite (bind_done _ _ _ _ _ (deref_done (<[p := b]> m) p b (lookup_insert_eq _ _ _))).
  rewrite (bind_done _ _ _ _ _ (upd_done (<[p := b]> m) p b _ (lookup_insert_eq _ _ _))), Hr, Hn. change (u16 (1 - 1)) with 0. cbn [Z.eqb]. unfold modify. erewrite bind_done by reflexivity.
  by rewrite insert_insert_eq, delete_insert_eq, delete_id.
Qed.

Lemma etharp_raw_runs s own ethsrc ethdst hwsrc ipsrc hwdst ipdst opcode :
  Good (bufs s) own -> zlen ethdst = 6 -> zlen ethsrc = 6 -> zlen hwsrc = 6 -> zlen hwdst = 6 ->
  runs (etharp_raw ethsrc ethdst hwsrc ipsrc hwdst ipdst opcode) s (fun r s' => r = ERR_MEM /\ s' = s \/
    s' = add_sent (arp_frame ethdst ethsrc hwsrc ipsrc hwdst ipdst opcode) s).
Proof.
  intros HG H1 H2 H3 H4. unfold etharp_raw.
  destruct (alloc_good (bufs s) own PBUF_RAW SIZEOF_ETHARP_PACKET HG ltac:(done)) as [E|(p & b & E & Hp & Hfr & Hn & Hl & _ & Hrf & Hfit & HGp)].
  { eapply runs_bind_done; [by apply onbufs_done|]. cbv beta. kret. left. split; [done|by destruct s]. }
  eapply runs_bind_done; [by apply onbufs_done|]. cbv beta. replace (p =? 0) with false by lia. change SIZEOF_ETHARP_PACKET with 42 in Hl.
  pose proof (bytes_len b Hfit) as Hb. rewrite Hl in Hb.
  eapply put_step; [exact HGp|apply rewritten_refl|lia|rewrite Hl; by vm_compute|]. clear HGp. intros ? ? ?.
  do 11 (eapply put_step; [eassumption|eassumption|lia|rewrite Hl; first [lia|by vm_compute]|]; intros ? ? ?).
  match goal with Hg : Good (<[p := ?b']> (bufs s)) _, Hr : rewritten b ?b' _ |- runs _ (set_bufs (<[p := ?b']> (bufs s)) s) _ => rename b' into b3; rename Hg into HG3; rename Hr into Hw3 end.
  rewrite arp_frame_written in Hw3 by done.
  assert (chain (<[p := b3]> (bufs s)) p [b3]) as Hc.
  { split; [lia|]. split; [apply lookup_insert_eq|]. split; [by eapply rewritten_fits|]. by destruct Hw3 as (? & -> & _). }
  eapply runs_bind_done; [by apply (linkoutput_done (set_bufs _ s))|]. cbv beta.
  assert (ref b3 = 1 /\ next b3 = 0) as [Hr3 Hn3] by (by destruct Hw3 as (? & -> & _)).
  eapply runs_bind_done; [apply (release_own (add_sent (data [b3]) s) (bufs s) p b3); [done|lia|done|done]|]. cbv beta. kret. right.
  assert (data [b3] = arp_frame ethdst ethsrc hwsrc ipsrc hwdst ipdst opcode) as Ed.
  { unfold data. cbn. rewrite app_nil_r. by apply (rewritten_bytes b). }
  rewrite Ed. by destruct s.
Qed.

Definition good_netif (n : netif) : Prop := zlen (hwaddr n) = 6.

(** The request for an address. *)
Definition request_frame (n : netif) (addr : Z) : list Z := arp_frame ethbroadcast (hwaddr n) (hwaddr n) (ip_addr n) ethzero addr ARP_REQUEST.

Lemma etharp_request_runs s own n addr : Good (bufs s) own -> good_netif n ->
  runs (etharp_request n addr) s (fun r s' => r = ERR_MEM /\ s' = s \/
    s' = add_sent (request_frame n addr) s).
Proof. intros HG Hn. by apply (etharp_raw_runs s own). Qed.

Lemma ainv_sent f s own : AInv s own -> AInv (add_sent f s) own.
Proof. intros [Ht [Hc Hg Hl]]. split; [done|]. by split. Qed.

(** ** Updating an entry *)

Definition FLAGS (flags : Z) : Prop := flags = ETHARP_FLAG_TRY_HARD \/ flags = ETHARP_FLAG_FIND_ONLY.

(** [etharp_find_entry] gives entry [i], [e] in the state [s1] afterwards: the one
    for the address, or a new one for it. *)
Definition got (s : Arp) (own : list Z) (addr : Z) (i : Z) (e : etharp_entry) (s1 : Arp) : Prop :=
  0 <= i /\ ld (arp_table s1) i = Some e /\ ipaddr e = addr /\ AInv s1 own /\ fewer (bufs s1) (bufs s) /\
  (exists m t, s1 = set_bufs m (set_table t s)) /\
  (state e <> ETHARP_STATE_EMPTY /\ s1 = s \/
   state e = ETHARP_STATE_EMPTY /\ ctime e = 0 /\ absent addr (arp_table s) /\ absent addr (arp_table s1) /\
   exists e0, ld (arp_table s) i = Some e0 /\ victim (arp_table s) e0 /\ arp_table s1 = <[Z.to_nat i := e]> (arp_table s)).

Lemma find_runs s own addr flags : AInv s own -> FLAGS flags ->
  runs (etharp_find_entry addr flags) s (fun i s1 =>
    i = ERR_MEM /\ s1 = s /\ flags = ETHARP_FLAG_FIND_ONLY /\ absent addr (arp_table s) \/
    exists e, got s own addr i e s1 /\ (flags = ETHARP_FLAG_FIND_ONLY -> ~ absent addr (arp_table s))).
Proof.
  intros HA Hf. eapply runs_mono; [by apply (find_entry_runs s own)|]. cbv beta.
  intros i s1 [(e & E & He & Ha & ->)|(Hab & [(-> & -> & ->)|(-> & e & m' & E & Hv & -> & HA' & Hfw)])].
  - right. exists e. split; [|intros _ Hab; exact (Forall_lookup_1 _ _ _ _ Hab (ld_nat _ _ _ E) He Ha)].
    pose proof (ld_Some_range _ _ _ E). split; [lia|]. split; [done|]. split; [done|]. split; [done|].
    split; [apply fewer_refl|]. split; [exists (bufs s), (arp_table s); by destruct s|]. by left.
  - by left.
  - right. exists (renewed addr e). split; [|by intros]. pose proof (ld_Some_range _ _ _ E). split; [lia|]. split; [by eapply ld_insert|]. split; [done|]. split; [done|].
    split; [done|]. split; [by eexists _, _|]. right. do 3 (split; [done|]). split; [|by eauto].
    cbn. apply Forall_insert; [done|]. by intros.
Qed.

(** The other entries are for other addresses. *)
Lemma got_apart s own addr i e s1 : got s own addr i e s1 ->
  forall j d, arp_table s1 !! j = Some d -> j <> Z.to_nat i -> state d <> ETHARP_STATE_EMPTY -> ipaddr d <> addr.
Proof.
  intros (Hi & E & Ha & HA & _ & _ & Hcase) j d Ed Hj Hd Heq. destruct Hcase as [[He _]|(_ & _ & _ & Hab & _)].
  - apply (table_apart _ (a_table _ _ HA) j (Z.to_nat i) d e Ed (ld_nat _ _ _ E) Hj Hd He). congruence.
  - by apply (Forall_lookup_1 _ _ j d Hab Ed Hd).
Qed.

(** A packet that waits there has waited before. *)
Lemma got_waiting s own addr i e s1 : got s own addr i e s1 -> q e <> 0 -> s1 = s /\ q e ∈ waiting (arp_table s).
Proof.
  intros (Hi & E & _ & HA & _ & _ & Hcase) Hq. pose proof (table_entries _ (a_table _ _ HA) _ _ (ld_nat _ _ _ E)) as Hok.
  destruct Hcase as [[_ ->]|(He & _)]; [|arp_lia]. split; [done|]. destruct (waiting_split _ _ _ (ld_nat _ _ _ E)) as (R & Hw & _).
  rewrite Hw. unfold hold. replace (q e =? 0) with false by lia. by left.
Qed.

(** Entry [i] in use for its address. *)
Lemma got_table s own addr i e s1 e' : got s own addr i e s1 -> entry_ok e' -> ipaddr e' = addr -> TableOk (<[Z.to_nat i := e']> (arp_table s1)).
Proof.
  intros HG Hok Ha. pose proof HG as (Hi & E & _ & HA & _). apply (table_insert _ _ e); [apply HA|by apply ld_nat|done|].
  intros j d Ed Hj Hd _. rewrite Ha. by eapply got_apart.
Qed.

Definition resolved (n : netif) (mac : list Z) (e : etharp_entry) : etharp_entry :=
  set_q 0 (set_ctime 0 (set_mac (self n) mac (set_state ETHARP_STATE_STABLE e))).

Definition unicast (n : netif) (addr : Z) : Prop :=
  (addr =? IPADDR_ANY) || ip4_addr_isbroadcast addr n || ip_addr_ismulticast addr = false.

(** What [etharp_update_arp_entry] did: the entry is stable, and the packet that
    waited for it has been sent. *)
Definition updated (n : netif) (mac : list Z) (i : Z) (e : etharp_entry) (s1 s' : Arp) : Prop :=
  let t' := <[Z.to_nat i := resolved n mac e]> (arp_table s1) in
  if q e =? 0 then s' = set_table t' s1
  else exists bs m', chain (bufs s1) (q e) bs /\
    s' = after_sent (ip_frame (hwaddr n) mac (zdrop 14 (data bs))) m' (set_table t' s1).

(** The packet that waits at entry [i] is sent. *)
Lemma flush_runs s own n mac i e :
  Held s own -> ld (arp_table s) i = Some e -> q e <> 0 -> TableOk (<[Z.to_nat i := set_q 0 e]> (arp_table s)) -> good_netif n -> zlen mac = 6 ->
  runs (alter_entry i (set_q 0);; _ ← etharp_send_ip (q e) (hwaddr n) mac; release (q e)) s (fun _ s' => AInv s' own /\ exists bs m',
    chain (bufs s) (q e) bs /\ undisturbed [q e] (bufs s) m' /\
    s' = after_sent (ip_frame (hwaddr n) mac (zdrop 14 (data bs))) m' (set_table (<[Z.to_nat i := set_q 0 e]> (arp_table s)) s)).
Proof.
  intros HH E Eq Ht' Hn Hm. pose proof HH as [Hc1 Hg1 Hl1]. destruct (waiting_split _ _ _ (ld_nat _ _ _ E)) as (R & Hw & Hw').
  rewrite Hw in Hg1, Hl1. unfold hold in Hg1, Hl1. replace (q e =? 0) with false in Hg1, Hl1 by lia.
  apply Forall_cons_1 in Hl1 as [(b & Eb & Hbl) Hl1].
  destruct (chain_of _ _ (q e) Hg1 ltac:(right; eauto)) as (bs & Hch). pose proof (chain_first _ _ _ Hch b Eb Eq) as (bs' & ->).
  xalter E. set (t' := <[Z.to_nat i := set_q 0 e]> (arp_table s)) in *.
  eapply runs_then_do; [by apply (send_runs (set_table t' s) (own ++ q e :: R) (q e) b bs')|]. cbv beta.
  intros _ s5 (b' & Hw5 & HG5 & _ & ->). eapply runs_mono; [apply (release_runs _ (own ++ R) (q e))|cbv beta].
  { cbn. unfold hold. replace (q e =? 0) with false by lia. by rewrite Permutation_middle. }
  intros _ s6 (m' & -> & HG6 & Hf6).
  assert (undisturbed [q e] (bufs s) m') as Hk.
  { eapply undisturbed_trans; [apply (insert_undisturbed (bufs s) _ (q e) b b' _ Eb Hw5); by left|by apply fewer_undisturbed]. }
  split; [|exists (b :: bs'), m'; by split]. refine (ainv_sent _ (set_bufs m' (set_table t' s)) own _).
  apply (ainv_change s own i e (set_q 0 e) m'); try done; [by rewrite Hw'|by left|by eapply undisturbed_kept].
Qed.

Definition update_post (s : Arp) (own : list Z) (n : netif) (addr : Z) (mac : list Z) (flags r : Z) (s' : Arp) : Prop :=
  AInv s' own /\ undisturbed (waiting (arp_table s)) (bufs s) (bufs s') /\ ip_inputs s' = ip_inputs s /\
  (s' = s /\ r <> ERR_OK /\ (unicast n addr -> absent addr (arp_table s) /\ flags = ETHARP_FLAG_FIND_ONLY) \/
   exists i e s1, unicast n addr /\ r = ERR_OK /\ got s own addr i e s1 /\ updated n mac i e s1 s' /\
     (flags = ETHARP_FLAG_FIND_ONLY -> ~ absent addr (arp_table s))).

Lemma etharp_update_runs s own n addr mac flags : AInv s own -> FLAGS flags -> good_netif n -> zlen mac = 6 ->
  runs (etharp_update_arp_entry n addr mac flags) s (update_post s own n addr mac flags).
Proof.
  intros HA Hf Hn Hm. unfold etharp_update_arp_entry, update_post, unicast.
  destruct ((addr =? IPADDR_ANY) || ip4_addr_isbroadcast addr n || ip_addr_ismulticast addr); [kret; split; [done|]; split; [apply undisturbed_refl|split; [done|by left]]|].
  eapply runs_then_do; [by apply (find_runs s own)|]. cbv beta. intros i s1 [(-> & -> & Hfl & Hab)|(e & HG & Hflag)].
  { kret. split; [done|]. split; [apply undisturbed_refl|]. split; [done|]. left. by repeat split. }
  pose proof HG as (Hi & E & Ha & HA1 & Hk1 & (m1 & t1 & Es1) & _). assert (ip_inputs s1 = ip_inputs s) as Hip by (by rewrite Es1). clear m1 t1 Es1. replace (i <? 0) with false by lia. pose proof (ld_nat _ _ _ E) as En.
  pose proof (table_entries _ (a_table _ _ HA1) _ _ En) as Hok.
  set (t' := <[Z.to_nat i := resolved n mac e]> (arp_table s1)).
  assert (TableOk t') as Ht' by (eapply got_table; [exact HG|unfold resolved; arp_lia|done]).
  xalter E. set (s2 := set_table _ s1). assert (ld (arp_table s2) i = Some (set_state ETHARP_STATE_STABLE e)) as E2 by (by eapply ld_insert).
  xalter E2. set (s3 := set_table _ s2). assert (ld (arp_table s3) i = Some (set_mac (self n) mac (set_state ETHARP_STATE_STABLE e))) as E3 by (by eapply ld_insert).
  xalter E3. set (s4 := set_table _ s3). assert (ld (arp_table s4) i = Some (set_ctime 0 (set_mac (self n) mac (set_state ETHARP_STATE_STABLE e)))) as E4 by (by eapply ld_insert).
  assert (s4 = set_table (<[Z.to_nat i := set_ctime 0 (set_mac (self n) mac (set_state ETHARP_STATE_STABLE e))]> (arp_table s1)) s1) as Es4.
  { unfold s4, s3, s2. cbn [set_table arp_table]. by rewrite !list_insert_insert_eq. }
  xentry E4. cbn [q set_ctime set_mac set_state].
  destruct (Z.eqb_spec (q e) 0) as [Eq|Eq].
  - kdo. kret. assert (s4 = set_table t' s1) as ->.
    { rewrite Es4. unfold t', resolved. repeat f_equal. rewrite <- Eq. by destruct e. }
    split; [|split; [by apply fewer_undisturbed|split; [exact Hip|]]].
    + apply (ainv_put s1 own i e); [apply HA1|done|done|]. by rewrite Eq.
    + right. exists i, e, s1. do 3 (split; [done|]). split; [|done]. unfold updated. by rewrite Eq.
  - destruct (got_waiting _ _ _ _ _ _ HG Eq) as [Es Hin].
    assert (Held s4 own) as HH4.
    { rewrite Es4. destruct (a_held _ _ HA1) as [Hc Hg Hl]. split; cbn; [done|..]; by rewrite (waiting_insert_same _ _ e). }
    set (e4 := set_ctime 0 _) in E4. assert (<[Z.to_nat i := set_q 0 e4]> (arp_table s4) = t') as Et4.
    { rewrite Es4. cbn [set_table arp_table]. by rewrite list_insert_insert_eq. }
    eapply runs_then_do; [apply (flush_runs s4 own n mac i e4); try done; by rewrite Et4|]. rewrite Et4. cbv beta.
    intros _ s' (HA' & bs & m' & Hch & Hk & ->). kret. rewrite Es4 in Hch, Hk. split; [done|]. split; [|split; [by rewrite Es4|]].
    + cbn. rewrite <- Es at 2. intros x c' Ec'. destruct (Hk x c' Ec') as (c & Ec & El & Enx & Eb). exists c. do 3 (split; [done|]).
      intros Hx. apply Eb. intros ->%list_elem_of_singleton. done.
    + right. exists i, e, s1. do 3 (split; [done|]). split; [|done]. unfold updated. replace (q e =? 0) with false by lia. exists bs, m'. split; [done|]. by rewrite Es4.
Qed.

(** ** Sending a packet *)

Lemma ainv_bufs s own m' : AInv s own -> Good m' (own ++ waiting (arp_table s)) -> kept (bufs s) m' -> AInv (set_bufs m' s) own.
Proof. intros [Ht [Hc Hg Hl]] HG Hk. split; [done|]. split; cbn; [done|done|]. by apply (long_kept (bufs s) m' _ own). Qed.

(** A packet that its owner may send: [d] are its bytes. *)
Definition packet (m : Pbufs) (own : list Z) (pk : Z) (d : list Z) : Prop :=
  pk ∈ own /\ exists b bs, m !! pk = Some b /\ chain m pk (b :: bs) /\ data (b :: bs) = d /\
  SIZEOF_ETH_HDR <= len b /\ ref b < 65535 /\ tot_len b <= 65460.

Lemma packet_fewer m m' own l pk d : packet m own pk d -> Good m' (own ++ l) -> fewer m' m -> packet m' own pk d.
Proof.
  intros (Hin & b & bs & Eb & Hc & Hd & Hl & Hr & Ht) HG Hf. split; [done|].
  assert (is_Some (m' !! pk)) as [b' Eb'] by (apply (good_live m' (own ++ l)); [done|by apply elem_of_app; left]).
  destruct (chain_fewer m m' (own ++ l) pk (b :: bs) Hc HG ltac:(right; eauto) Hf) as (bs' & Hc' & Hd').
  destruct (chain_first _ _ _ Hc' b' Eb') as (bs2 & ->); [by destruct Hc|]. destruct (Hf pk b' Eb') as (b1 & E1 & E2 & Hle).
  rewrite Eb in E1. injection E1 as <-. exists b', bs2. split; [done|]. split; [done|]. split; [congruence|].
  assert (len b' = len b /\ tot_len b' = tot_len b) as [-> ->] by (by rewrite E2). split; [done|]. lia.
Qed.

Lemma send_ainv s own pk d n mac : AInv s own -> packet (bufs s) own pk d -> good_netif n -> zlen mac = 6 ->
  runs (etharp_send_ip pk (hwaddr n) mac) s (fun _ s' => AInv s' own /\ sent s' = ip_frame (hwaddr n) mac (zdrop 14 d) :: sent s).
Proof.
  intros HA (Hin & b & bs & Eb & Hc & <- & Hl & _) Hn Hm.
  eapply runs_mono; [by apply (send_runs s (own ++ waiting (arp_table s)) pk b bs); try done; apply HA|]. cbv beta.
  intros _ s' (b' & Hw & HG & _ & ->). split; [|done]. refine (ainv_sent _ (set_bufs _ s) own _).
  apply ainv_bufs; [done|done|by eapply insert_kept].
Qed.

Lemma request_ainv s own n addr : AInv s own -> good_netif n ->
  runs (etharp_request n addr) s (fun r s' => AInv s' own /\ (s' = s \/ s' = add_sent (request_frame n addr) s)).
Proof.
  intros HA Hn. eapply runs_mono; [apply (etharp_request_runs s (own ++ waiting (arp_table s))); [apply HA|done]|]. cbv beta.
  intros r s' [[_ ->]| ->]; [auto|]. split; [by apply ainv_sent|auto].
Qed.

(** Sent are a frame for the entry, and before it perhaps a request. *)
Lemma etharp_output_to_arp_index_runs s own n pk d i e :
  AInv s own -> packet (bufs s) own pk d -> good_netif n -> ld (arp_table s) i = Some e -> stable e ->
  runs (etharp_output_to_arp_index n pk i) s (fun _ s' => AInv s' own /\ exists pre,
    (pre = [] \/ pre = [request_frame n (ipaddr e)]) /\ sent s' = ip_frame (hwaddr n) (ethaddr e) (zdrop 14 d) :: pre ++ sent s).
Proof.
  intros HA Hp Hn E Hst. unfold etharp_output_to_arp_index. xentry E. pose proof (table_entries _ (a_table _ _ HA) _ _ (ld_nat _ _ _ E)) as Hok.
  eapply (runs_then_do _ _ _ (fun _ s1 => AInv s1 own /\ bufs s1 = bufs s /\ (sent s1 = sent s \/ sent s1 = request_frame n (ipaddr e) :: sent s) /\
    exists e1, ld (arp_table s1) i = Some e1 /\ ethaddr e1 = ethaddr e)).
  - destruct ((state e =? ETHARP_STATE_STABLE) && (ARP_AGE_REREQUEST_USED <=? ctime e)); [|kret; eauto 10].
    eapply runs_then_do; [by apply (request_ainv s own)|]. cbv beta. intros r s1 [HA1 Hs1].
    assert (arp_table s1 = arp_table s /\ bufs s1 = bufs s /\ (sent s1 = sent s \/ sent s1 = request_frame n (ipaddr e) :: sent s)) as (Et & Eb & Es)
      by (destruct Hs1 as [->| ->]; auto).
    rewrite <- Et in E. destruct (r =? ERR_OK); [|kret; eauto 10].
    unfold runs, wpe. rewrite (alter_done s1 i e _ E). split; [|split; [done|]; split; [done|]; eexists; split; [by eapply ld_insert|done]].
    apply (ainv_put s1 own i e); [apply HA1|done| |done]. apply (table_change _ _ e); [apply HA1|by apply ld_nat|unfold stable in Hst; arp_lia|].
    right. split; [unfold stable in Hst; arp_lia|done].
  - cbv beta. intros _ s1 (HA1 & Eb & Es & e1 & E1 & Em). xentry E1. rewrite Em.
    eapply runs_mono; [apply (send_ainv s1 own pk d); [done|by rewrite Eb|done|apply Hok, Hst]|]. cbv beta. intros _ s' [HA' ->]. split; [done|].
    destruct Es as [->| ->]; [exists []; auto|exists [request_frame n (ipaddr e)]; auto].
Qed.

(** The packet [d] waits for the address, in a buffer with room for its header. *)
Definition waits (s : Arp) (addr : Z) (d : list Z) : Prop :=
  exists i e bs, ld (arp_table s) i = Some e /\ state e = ETHARP_STATE_PENDING /\ ipaddr e = addr /\ q e <> 0 /\
    chain (bufs s) (q e) bs /\ zdrop 14 (data bs) = d.

Definition stable_at (t : list etharp_entry) (addr : Z) (mac : list Z) : Prop :=
  exists i e, ld t i = Some e /\ stable e /\ ipaddr e = addr /\ ethaddr e = mac.

Definition unresolved (t : list etharp_entry) (addr : Z) : Prop := Forall (fun e => stable e -> ipaddr e <> addr) t.

Lemma stable_unique t i e mac : TableOk t -> ld t i = Some e -> stable e -> stable_at t (ipaddr e) mac -> ethaddr e = mac.
Proof.
  intros Ht E He (j & e' & E' & He' & Ha & <-). pose proof (ld_nat _ _ _ E) as En. pose proof (ld_nat _ _ _ E') as En'.
  destruct (decide (Z.to_nat j = Z.to_nat i)) as [Hj|Hne]; [rewrite Hj, En in En'; by injection En' as ->|].
  exfalso. apply (table_apart _ Ht _ _ e' e En' En Hne); [unfold stable in *; arp_lia|unfold stable in *; arp_lia|done].
Qed.

Lemma apart_stable t i e : TableOk t -> ld t i = Some e -> state e = ETHARP_STATE_PENDING -> unresolved t (ipaddr e).
Proof.
  intros Ht E He. apply Forall_lookup_2. intros j d Ed Hd Heq. pose proof (ld_nat _ _ _ E) as En.
  destruct (decide (j = Z.to_nat i)) as [->|Hne].
  - rewrite En in Ed. injection Ed as <-. unfold stable in Hd. arp_lia.
  - apply (table_apart _ Ht j _ d e Ed En Hne); [unfold stable in Hd; arp_lia|arp_lia|done].
Qed.

(** The part of [etharp_query] for a pending entry: the packet takes the place of
    the one that waited. *)
Lemma queue_runs s own pk d i e : AInv s own -> packet (bufs s) own pk d -> ld (arp_table s) i = Some e -> state e = ETHARP_STATE_PENDING ->
  runs (p ← onbufs (take_over pk);
        if negb (p =? 0) then (if negb (q e =? 0) then release (q e) else mret tt);; alter_entry i (set_q p);; mret ERR_OK else mret ERR_MEM) s
    (fun r s' => AInv s' own /\ sent s' = sent s /\ (r = ERR_OK -> waits s' (ipaddr e) (zdrop 14 d))).
Proof.
  intros HA (Hin & b & bs & Eb & Hc & Hd & Hl & Hr & Ht) E He. pose proof HA as [HT [Hc0 Hg Hlong]]. pose proof (ld_nat _ _ _ E) as En.
  pose proof (table_entries _ HT _ _ En) as Hok. destruct (waiting_split _ _ _ En) as (R & Hw & Hw').
  eapply onbufs_then; [apply (take_over_good (bufs s) (own ++ waiting (arp_table s)) pk b (b :: bs)); try done; apply elem_of_app; by left|].
  cbv beta. intros p m1 (Hk1 & HG1 & Hp). destruct (Z.eqb_spec p 0) as [->|Hp0]; cbn [negb].
  { kret. split; [|split; [done|by intros]]. by apply ainv_bufs. }
  destruct (Hp Hp0) as (bx & bsx & Ebx & Hlx & Hcx & Hdx).
  assert (Good m1 (hold (q e) (p :: own ++ R))) as HG1'.
  { unfold hold at 1 in HG1. replace (p =? 0) with false in HG1 by lia. rewrite Hw in HG1. unfold hold in *. destruct (q e =? 0); [done|].
    by rewrite Permutation_swap, Permutation_middle. }
  assert (exists m2, (if negb (q e =? 0) then release (q e) else mret tt) (set_bufs m1 s) = Done tt (set_bufs m2 s) /\ Good m2 (p :: own ++ R) /\ fewer m2 m1)
    as (m2 & Em2 & HG2 & Hf2).
  { unfold hold in HG1'. destruct (q e =? 0) eqn:Eq; cbn [negb]; [exists m1; split; [done|split; [done|apply fewer_refl]]|].
    destruct (proj1 (runs_done _ _ _) (release_runs (set_bufs m1 s) (p :: own ++ R) (q e) ltac:(unfold hold; by rewrite Eq))) as ([] & s2 & E2 & m2 & -> & ? & ?).
    exists m2. by rewrite E2. }
  eapply runs_bind_done; [exact Em2|]. cbv beta. xalter E. kret. cbn [sent set_table set_bufs].
  assert (Good m2 (own ++ waiting (<[Z.to_nat i := set_q p e]> (arp_table s)))) as HG3.
  { rewrite Hw'. unfold hold. cbn [q set_q]. replace (p =? 0) with false by lia. by rewrite <- Permutation_middle. }
  destruct (good_live m2 _ p HG2 ltac:(by left)) as [bp Ebp].
  destruct (chain_fewer m1 m2 _ p bsx Hcx HG2 ltac:(right; eauto) Hf2) as (bs2 & Hc2 & Hd2). pose proof (fewer_kept _ _ Hf2) as Hk2.
  split; [split; [apply (table_change _ _ e); [done|done|arp_lia|right; split; [arp_lia|done]]|split; cbn; [done|done|]]|split; [done|]].
  - rewrite Hw'. unfold hold. cbn [q set_q]. replace (p =? 0) with false by lia. constructor.
    + exists bp. split; [done|]. rewrite (Hk2 p bx bp) by done. lia.
    + rewrite Hw in Hlong. apply (long_kept (bufs s) m2 R (p :: own)); [|intros x c c2 Ec Ec2|done].
      * unfold hold in Hlong. destruct (q e =? 0); [done|]. by apply Forall_cons_1 in Hlong as [_ ?].
      * destruct (Hf2 x c2 Ec2) as (c1 & Ec1 & -> & _). cbn. by apply (Hk1 x c c1).
  - intros _. exists i, (set_q p e), bs2. split; [by eapply ld_insert|]. do 3 (split; [done|]). split; [exact Hc2|by rewrite Hd2, Hdx, Hd].
Qed.

(** Sending to a stable entry of the address. *)
Lemma stable_sent s own n addr pk d i e : AInv s own -> packet (bufs s) own pk d -> good_netif n ->
  ld (arp_table s) i = Some e -> stable e -> ipaddr e = addr ->
  runs (etharp_send_ip pk (hwaddr n) (ethaddr e)) (set_cached i s) (fun r s' => AInv s' own /\
    (forall mac, stable_at (arp_table s) addr mac -> sent s' = ip_frame (hwaddr n) mac (zdrop 14 d) :: sent s) /\
    (unresolved (arp_table s) addr ->
       (r = ERR_OK -> waits s' addr (zdrop 14 d)) /\ (sent s' = sent s \/ sent s' = request_frame n addr :: sent s))).
Proof.
  intros HA Hp Hn E Hst Ha. pose proof (a_table _ _ HA) as Ht. pose proof (table_entries _ Ht _ _ (ld_nat _ _ _ E)) as Hok.
  eapply runs_mono; [apply (send_ainv (set_cached i s) own pk d); [|done|done|by apply Hok]|].
  { destruct HA as [_ [Hc Hg Hl]]. split; [done|]. split; cbn; [|done|done]. rewrite <- (table_size _ Ht). by eapply ld_Some_range. }
  cbv beta. intros r s' [HA' Esn]. rewrite Esn. split; [done|]. split.
  - intros mac (j & e' & E' & Hst' & Ha' & <-). cbn. f_equal. f_equal.
    apply (stable_unique _ i e _ Ht E Hst). exists j, e'. rewrite Ha. by repeat split.
  - intros Hun. exfalso. by apply (Forall_lookup_1 _ _ _ _ Hun (ld_nat _ _ _ E)).
Qed.

(** A packet for a stable entry is sent at once; one for another address waits for
    the reply to a request, if the result is good. *)
Lemma etharp_query_runs s own n addr pk d :
  AInv s own -> packet (bufs s) own pk d -> pk <> 0 -> good_netif n -> unicast n addr ->
  runs (etharp_query n addr pk) s (fun r s' => AInv s' own /\
    (forall mac, stable_at (arp_table s) addr mac -> sent s' = ip_frame (hwaddr n) mac (zdrop 14 d) :: sent s) /\
    (unresolved (arp_table s) addr ->
       (r = ERR_OK -> waits s' addr (zdrop 14 d)) /\ (sent s' = sent s \/ sent s' = request_frame n addr :: sent s))).
Proof.
  intros HA Hp Hpk Hn Hu. unfold etharp_query.
  assert (ip4_addr_isbroadcast addr n || ip_addr_ismulticast addr || (addr =? IPADDR_ANY) = false) as ->.
  { unfold unicast in Hu. destruct (addr =? IPADDR_ANY), (ip4_addr_isbroadcast addr n), (ip_addr_ismulticast addr); done. }
  eapply runs_then_do; [apply (find_runs s own); [done|by left]|]. cbv beta. intros i s1 [(_ & _ & ? & _)|(e & HG & _)]; [done|].
  pose proof HG as (Hi & E & Ha & HA1 & Hf1 & (m1 & t1 & Es1) & Hcase). replace (i <? 0) with false by lia. xentry E.
  pose proof (table_entries _ (a_table _ _ HA1) _ _ (ld_nat _ _ _ E)) as Hok. pose proof (ld_Some_range _ _ _ E) as Hir.
  assert (packet (bufs s1) own pk d) as Hp1 by (eapply packet_fewer; [exact Hp|apply HA1|done]).
  assert (sent s1 = sent s) as Esent by (by rewrite Es1).
  destruct (Z.le_gt_cases ETHARP_STATE_STABLE (state e)) as [Hst|Hst].
  { replace (state e =? ETHARP_STATE_EMPTY) with false by arp_lia. kdo. xentry E.
    replace (state e =? ETHARP_STATE_PENDING) with false by arp_lia. replace (pk =? 0) with false by lia. cbn [orb]. kdo. xentry E.
    replace (ETHARP_STATE_STABLE <=? state e) with true by lia. eapply runs_bind_done; [reflexivity|]. cbv beta.
    destruct Hcase as [[_ ->]|(He & _)]; [|arp_lia]. by apply stable_sent. }
  set (e2 := if state e =? ETHARP_STATE_EMPTY then set_state ETHARP_STATE_PENDING e else e).
  set (s2 := set_table (<[Z.to_nat i := e2]> (arp_table s1)) s1).
  assert (state e2 = ETHARP_STATE_PENDING /\ ipaddr e2 = addr /\ q e2 = q e) as (He2 & Ha2 & Hq2).
  { unfold e2. destruct (Z.eqb_spec (state e) ETHARP_STATE_EMPTY); [done|]. split; [arp_lia|done]. }
  assert (entry_ok e2) as Hok2.
  { unfold e2. destruct (Z.eqb_spec (state e) ETHARP_STATE_EMPTY); [|done]. destruct Hcase as [[Hs _]|(Hs & Hc0 & _)]; arp_lia. }
  assert (AInv s2 own) as HA2 by (apply (ainv_put s1 own i e); [apply HA1|done|by eapply got_table|done]).
  assert (ld (arp_table s2) i = Some e2) as E2 by (by eapply ld_insert).
  assert ((if state e =? ETHARP_STATE_EMPTY then alter_entry i (set_state ETHARP_STATE_PENDING) else mret tt) s1 = Done tt s2) as Es2.
  { unfold s2, e2. destruct (state e =? ETHARP_STATE_EMPTY); [by rewrite (alter_done s1 i e _ E)|].
    rewrite list_insert_id by (by apply ld_nat). by rewrite set_table_same. }
  eapply runs_bind_done; [exact Es2|].
  fold e2 s2. cbv beta. xentry E2. rewrite He2, Z.eqb_refl. cbn [orb]. eapply runs_then_do; [by apply (request_ainv s2 own)|]. cbv beta.
  intros r s3 [HA3 Hs3]. replace (pk =? 0) with false by lia.
  assert (arp_table s3 = arp_table s2 /\ bufs s3 = bufs s2 /\ (sent s3 = sent s \/ sent s3 = request_frame n addr :: sent s)) as (Et3 & Eb3 & Esn3)
    by (destruct Hs3 as [->| ->]; cbn; rewrite Esent; auto).
  rewrite <- Et3 in E2. xentry E2. rewrite He2. cbn [Z.leb Z.eqb ETHARP_STATE_STABLE ETHARP_STATE_PENDING Z.compare Pos.compare Pos.compare_cont Pos.eqb].
  eapply runs_mono; [by apply (queue_runs s3 own pk d i e2); [|rewrite Eb3| |]|]. cbv beta. intros r' s' (HA' & Esn & Hw). rewrite Esn. split; [done|].
  split; [|intros _; rewrite Ha2 in Hw; split; [exact Hw|exact Esn3]]. intros mac (j & e' & E' & Hst' & Ha' & _). exfalso.
  destruct Hcase as [[He Es]|(_ & _ & Hab & _)]; [rewrite <- Es in E'|exact (Forall_lookup_1 _ _ _ _ Hab (ld_nat _ _ _ E') ltac:(unfold stable in Hst'; arp_lia) Ha')].
  apply (Forall_lookup_1 _ _ _ _ (apart_stable _ _ _ (a_table _ _ HA1) E ltac:(arp_lia)) (ld_nat _ _ _ E') Hst'). congruence.
Qed.
End Link.
