(* ===== verification/EtharpRecv.v ===== *)
(** Address resolution from its callers' side: sending a packet by the routes of
    the interface, and the frames that come in, under the invariant of
    [EtharpTable]. *)
From S2P Require Import Prelude Pbuf PbufRef PbufData IpAddr Etharp EtharpBufs EtharpTable EtharpSend.
From stdpp Require Import list gmap.
#[local] Open Scope Z_scope.

(** * Packets that go out *)

(** Where a packet goes: to a hardware address, to an address to be resolved, or nowhere. *)
Inductive route := Mac (mac : list Z) | Via (addr : Z) | Nowhere.

(** Byte [i] of an address as it is written. *)
Definition octet (addr : Z) (i : nat) : Z := nth i (le32 addr) 0.

(** On the network of the interface, or 169.254.x.x. *)
Definition on_link (n : netif) (addr : Z) : bool :=
  (Z.land addr (netmask n) =? Z.land (ip_addr n) (netmask n)) || ((octet addr 0 =? 169) && (octet addr 1 =? 254)).

(** Multicast addresses, 224.0.0.0 to 239.255.255.255, have hardware addresses of their own. *)
Definition route_of (n : netif) (addr : Z) : route :=
  if ip4_addr_isbroadcast addr n then Mac [255; 255; 255; 255; 255; 255]
  else if (224 <=? octet addr 0) && (octet addr 0 <? 240) then Mac [1; 0; 94; octet addr 1 mod 128; octet addr 2; octet addr 3]
  else if on_link n addr then Via addr
  else if gw n =? 0 then Nowhere else Via (gw n).

Lemma octet_range addr i : 0 <= octet addr i < 256.
Proof. unfold octet, le32. do 4 (destruct i as [|i]; [cbn; word_lia|]). destruct i; cbn; lia. Qed.

Lemma ismulticast_octet addr : ip_addr_ismulticast addr = (224 <=? octet addr 0) && (octet addr 0 <? 240).
Proof.
  unfold ip_addr_ismulticast. change (htonl 4026531840) with (Z.land 255 240). change (htonl 3758096384) with 224.
  rewrite Z.land_assoc. change 255 with (Z.ones 8). rewrite Z.land_ones by lia. change (addr mod 2 ^ 8) with (octet addr 0).
  assert (Forall (fun b => (Z.land b 240 =? 224) = (224 <=? b) && (b <? 240)) (seqZ 0 256)) as H by by_decide.
  rewrite Forall_forall in H. apply H, elem_of_seqZ. apply octet_range.
Qed.

Lemma islinklocal_octets addr : ip_addr_islinklocal addr = (octet addr 0 =? 169) && (octet addr 1 =? 254).
Proof.
  unfold ip_addr_islinklocal. change (htonl 4294901760) with (Z.ones 16). change (htonl 2851995648) with 65193.
  rewrite Z.land_ones by lia. change (octet addr 0) with (addr mod 256). change (octet addr 1) with (addr / 256 mod 256).
  destruct (Z.eqb_spec (addr mod 2 ^ 16) 65193), (Z.eqb_spec (addr mod 256) 169), (Z.eqb_spec (addr / 256 mod 256) 254); cbn [andb]; try done; word_lia.
Qed.

Lemma next_hop_spec n addr : next_hop n addr = if on_link n addr then Some addr else if gw n =? 0 then None else Some (gw n).
Proof.
  unfold next_hop, on_link. rewrite <- islinklocal_octets. change IPADDR_ANY with 0.
  destruct (Z.land addr (netmask n) =? _), (ip_addr_islinklocal addr), (gw n =? 0); done.
Qed.

(** A packet that the IP layer may send: [d] are its bytes. *)
Definition outgoing (m : Pbufs) (own : list Z) (pk : Z) (d : list Z) : Prop :=
  pk ∈ own /\ first m pk /\ exists b bs, m !! pk = Some b /\ chain m pk (b :: bs) /\ data (b :: bs) = d /\ ref b < 65535 /\ tot_len b <= 65446.

(** A buffer of the heap without room for an Ethernet header, or another buffer. *)
Definition no_room (m : Pbufs) (p : Z) : Prop := exists b, m !! p = Some b /\ (type b = PBUF_RAM -> payload b < SIZEOF_ETH_HDR).

Lemma header_room s own pk d : AInv s own -> outgoing (bufs s) own pk d ->
  exists bad m', pbuf_header pk SIZEOF_ETH_HDR (bufs s) = Done bad m' /\
    if bad : bool then m' = bufs s /\ no_room (bufs s) pk else AInv (set_bufs m' s) own /\ exists d', packet m' own pk d' /\ zdrop 14 d' = d.
Proof.
  intros [Ht [Hc0 Hg Hlong]] (Hin & [_ Hocc] & b & bs & Eb & Hc & <- & Hr & Htot). change SIZEOF_ETH_HDR with 14.
  destruct (header_good (bufs s) (own ++ waiting (arp_table s)) pk b 14) as (bad & m' & E & HG & Hm); [done|done|done|lia|lia|lia|].
  exists bad, m'. split; [done|]. pose proof Hc as (_ & _ & (_ & Hlen & _) & _).
  destruct bad; [destruct Hm as [-> Hm]; split; [done|]; exists b; split; [done|]; intros Hty; destruct (Hm Hty); change SIZEOF_ETH_HDR with 14; lia|]. pose proof Hc as (Hpk & _ & Hfit & Hrest).
  assert (m' !! pk = Some (moved 14 b)) as Eb' by (rewrite Hm; apply lookup_insert_eq). pose proof (good_fits _ _ HG _ _ Eb') as Hf'.
  pose proof Hfit as (_ & Hl & _). split.
  - split; [done|]. split; cbn; [done|done|]. eapply Forall_impl; [exact Hlong|]. cbn. intros x (c & Ec & Hlc). rewrite Hm.
    destruct (decide (x = pk)) as [->|]; [|exists c; by rewrite lookup_insert_ne]. rewrite Eb in Ec. injection Ec as <-.
    exists (moved 14 b). rewrite lookup_insert_eq. split; [done|]. cbn. lia.
  - exists (data (moved 14 b :: bs)). split.
    + split; [done|]. exists (moved 14 b), bs. split; [done|]. split; [|split; [done|]; split; [cbn; change SIZEOF_ETH_HDR with 14; lia|split; [done|cbn; lia]]].
      rewrite Hm. by apply (chain_replace _ _ b).
    + rewrite !data_cons. rewrite zdrop_app_l by (rewrite bytes_len by done; cbn; lia). f_equal. apply moved_bytes; [lia|]. by destruct Hf'.
Qed.

(** The sweep for a stable entry. *)
Lemma stable_entry_spec addr t : forall pre, match stable_entry addr (zlen pre) t with
  | Some i => exists e, ld (pre ++ t) i = Some e /\ stable e /\ ipaddr e = addr
  | None => unresolved t addr
  end.
Proof.
  induction t as [|e t IH]; intros pre; cbn [stable_entry]; [constructor|]. pose proof (zlen_nonneg pre).
  destruct (Z.leb_spec ETHARP_STATE_STABLE (state e)) as [Hs|Hs], (Z.eqb_spec addr (ipaddr e)) as [->|Ha]; cbn [andb].
  1: { exists e. rewrite ld_app_r, Z.sub_diag by lia. done. }
  all: specialize (IH (pre ++ [e])); rewrite zlen_app, <- app_assoc in IH; change (zlen [e]) with 1 in IH;
    destruct (stable_entry _ _ t); [exact IH|]; constructor; [unfold stable; first [congruence|lia]|exact IH].
Qed.

(** What [etharp_output] does for the packet [d] that goes via [a]. *)
Definition handled (n : netif) (a : Z) (d : list Z) (s : Arp) (r : Z) (s' : Arp) : Prop :=
  (forall mac, stable_at (arp_table s) a mac ->
     exists pre, (pre = [] \/ pre = [request_frame n a]) /\ sent s' = ip_frame (hwaddr n) mac d :: pre ++ sent s) /\
  (unresolved (arp_table s) a ->
     (r = ERR_OK -> waits s' a d) /\ (sent s' = sent s \/ sent s' = request_frame n a :: sent s)).

Section Link.
Context `{PM : PbufMemory} {PML : PbufMemoryLaws} `{DR : Driver}.

Lemma handled_stable s own n pk d i a : AInv s own -> packet (bufs s) own pk d -> good_netif n ->
  (exists e, ld (arp_table s) i = Some e /\ stable e /\ ipaddr e = a) ->
  runs (etharp_output_to_arp_index n pk i) s (fun r s' => AInv s' own /\ handled n a (zdrop 14 d) s r s').
Proof.
  intros HA Hp Hn (e & E & He & Ha). eapply runs_mono; [by apply (etharp_output_to_arp_index_runs s own n pk d i e)|]. cbv beta.
  intros r s' (HA' & pre & Hpre & Es). split; [done|]. rewrite Ha in Hpre. split.
  - intros mac Hmac. exists pre. split; [done|]. rewrite Es. do 2 f_equal. apply (stable_unique _ i e _ (a_table _ _ HA) E He). by rewrite Ha.
  - intros Hun. exfalso. by apply (Forall_lookup_1 _ _ _ _ Hun (ld_nat _ _ _ E)).
Qed.

Lemma query_bad s n addr pk : ~ unicast n addr -> etharp_query n addr pk s = Done ERR_ARG s.
Proof.
  intros Hu. unfold etharp_query. replace (ip4_addr_isbroadcast addr n || ip_addr_ismulticast addr || (addr =? IPADDR_ANY)) with true; [done|].
  unfold unicast in Hu. destruct (addr =? IPADDR_ANY), (ip4_addr_isbroadcast addr n), (ip_addr_ismulticast addr); done.
Qed.

Lemma via_runs s own n pk d a : AInv s own -> packet (bufs s) own pk d -> pk <> 0 -> good_netif n ->
  runs (c ← gets etharp_cached_entry;
        e ← entry c;
        if (ETHARP_STATE_STABLE <=? state e) && (a =? ipaddr e) then etharp_output_to_arp_index n pk c
        else t ← gets arp_table;
             match stable_entry a 0 t with
             | Some i => modify (set_cached i);; etharp_output_to_arp_index n pk i
             | None => etharp_query n a pk
             end) s (fun r s' => AInv s' own /\ handled n a (zdrop 14 d) s r s').
Proof.
  intros HA Hp Hpk Hn. pose proof HA as [Ht [Hc Hg Hl]]. kdo.
  destruct (lookup_lt_is_Some_2 (arp_table s) (Z.to_nat (etharp_cached_entry s))) as [e En].
  { pose proof (table_size _ Ht) as Hs. unfold zlen in Hs. lia. }
  assert (ld (arp_table s) (etharp_cached_entry s) = Some e) as E by (unfold ld; by replace (0 <=? etharp_cached_entry s) with true by lia).
  xentry E. destruct ((ETHARP_STATE_STABLE <=? state e) && (a =? ipaddr e)) eqn:Ec.
  { apply andb_true_iff in Ec as [Hs%Z.leb_le Ha%Z.eqb_eq]. apply (handled_stable s own); eauto. }
  clear Ec. kdo. pose proof (stable_entry_spec a (arp_table s) []) as HS. rewrite zlen_nil in HS.
  destruct (stable_entry a 0 (arp_table s)) as [i|].
  - eapply runs_bind_done; [reflexivity|]. cbv beta. apply (handled_stable (set_cached i s) own); try done.
    split; [done|]. split; [|done|done]. destruct HS as (d' & Ed & _). rewrite <- (table_size _ Ht). by eapply ld_Some_range.
  - destruct (decide ((a =? IPADDR_ANY) || ip4_addr_isbroadcast a n || ip_addr_ismulticast a = false)) as [Hu|Hu].
    + eapply runs_mono; [by apply (etharp_query_runs s own n a pk d)|]. cbv beta. intros r s' (HA' & Hst & Hun). split; [done|]. split; [|done].
      intros mac Hmac. exists []. split; [by left|]. by apply Hst.
    + unfold runs, wpe. rewrite query_bad by done. split; [done|]. split; [|intros _; split; [by intros|by left]].
      intros mac (i & e' & E' & He' & Ha & _). exfalso. by apply (Forall_lookup_1 _ _ _ _ HS (ld_nat _ _ _ E')).
Qed.

Lemma etharp_output_runs s own n pk addr d : AInv s own -> outgoing (bufs s) own pk d -> good_netif n ->
  runs (etharp_output n pk addr) s (fun r s' => AInv s' own /\
    (r = ERR_BUF /\ s' = s /\ no_room (bufs s) pk \/
     match route_of n addr with
     | Mac mac => sent s' = ip_frame (hwaddr n) mac d :: sent s
     | Via a => handled n a d s r s'
     | Nowhere => r = ERR_RTE /\ sent s' = sent s
     end)).
Proof.
  intros HA Ho Hn. unfold etharp_output, route_of. destruct (header_room s own pk d HA Ho) as (bad & m' & E & Hm).
  assert (pk <> 0) as Hpk by (destruct Ho as (_ & _ & b & bs & _ & (? & _) & _); done).
  eapply runs_bind_done; [by apply onbufs_done|]. cbv beta. destruct bad.
  { kret. destruct Hm as [-> Hm]. assert (set_bufs (bufs s) s = s) as -> by (by destruct s). split; [done|by left]. }
  destruct Hm as (HA1 & d' & Hp & <-). set (s1 := set_bufs m' s) in *.
  assert (forall mac, zlen mac = 6 -> runs (etharp_send_ip pk (hwaddr n) mac) s1 (fun r s' => AInv s' own /\
    (r = ERR_BUF /\ s' = s /\ no_room (bufs s) pk \/ sent s' = ip_frame (hwaddr n) mac (zdrop 14 d') :: sent s))) as Hsend.
  { intros mac Hmac. eapply runs_mono; [by apply (send_ainv s1 own pk d')|]. cbv beta. intros r s' [? ?]. auto. }
  destruct (ip4_addr_isbroadcast addr n); [by apply Hsend|]. rewrite ismulticast_octet, next_hop_spec.
  destruct ((224 <=? octet addr 0) && (octet addr 0 <? 240)).
  { unfold octet. change 127 with (Z.ones 7). rewrite Z.land_ones by lia. by apply Hsend. }
  destruct (on_link n addr); [|destruct (gw n =? 0); [kret; split; [done|by right]|]].
  all: eapply runs_mono; [by apply (via_runs s1 own n pk d' _)|]; cbv beta; intros r s' [? ?]; auto.
Qed.

(** * Frames that come in *)

Lemma release_ainv s own p : AInv s (p :: own) -> p <> 0 ->
  runs (release p) s (fun _ s' => exists m', s' = set_bufs m' s /\ AInv s' own /\ fewer m' (bufs s)).
Proof.
  intros [Ht [Hc Hg Hl]] Hp. eapply runs_mono; [apply (release_runs s (own ++ waiting (arp_table s)) p)|cbv beta].
  { unfold hold. by replace (p =? 0) with false by lia. }
  intros _ s' (m' & -> & HG & Hf). exists m'. split; [done|]. split; [|done]. split; [done|]. split; cbn; [done|done|].
  apply (long_kept (bufs s) m' _ own); [done|by apply fewer_kept|done].
Qed.

(** The answer to the request [d], in a buffer that holds [l]. *)
Definition answered (n : netif) (d l : list Z) : list Z :=
  patch (patch (patch (patch (patch (patch (patch l 20 (le16 (htons ARP_REPLY))) 38 (bytes_at d 28 4)) 28 (le32 (ip_addr n)))
    32 (bytes_at d 22 6)) 0 (bytes_at d 22 6)) 22 (hwaddr n)) 6 (hwaddr n).

Lemma bytes_at_length d off n : (off + n <= length d)%nat -> zlen (bytes_at d off n) = Z.of_nat n.
Proof. intros H. unfold bytes_at, zlen. rewrite length_take, length_drop. lia. Qed.

Lemma answer_runs s own n p b bs d : AInv s own -> chain (bufs s) p (b :: bs) -> 42 <= len b -> length d = 42%nat -> good_netif n ->
  runs (answer n p d) s (fun _ s' => exists m', s' = add_sent (answered n d (bytes b) ++ data bs) (set_bufs m' s) /\ AInv s' own).
Proof.
  intros HA Hc Hl Hd Hn. unfold good_netif in Hn. pose proof HA as [Ht [Hc0 Hg Hlong]]. pose proof Hc as (Hp & Eb & Hfit & _). unfold answer.
  rewrite <- (set_bufs_same s p b Eb) at 1. assert (Good (<[p := b]> (bufs s)) (own ++ waiting (arp_table s))) as HG0 by (by rewrite insert_id).
  pose proof (rewritten_refl b) as Hw0. pose proof (bytes_at_length d 28 4 ltac:(lia)) as H4. pose proof (bytes_at_length d 22 6 ltac:(lia)) as H6.
  assert (zlen (le16 (htons ARP_REPLY)) = 2 /\ zlen (le32 (ip_addr n)) = 4) as [H2 H32] by done.
  do 7 (eapply put_step; [eassumption|eassumption|lia|lia|]; intros ? ? ?).
  match goal with Hr : rewritten b ?b' (patch _ 6 _) |- _ => rename b' into b7; rename Hr into Hw7 end.
  pose proof (chain_rewrite _ _ _ _ _ _ Hc Hw7) as Hc7. eapply runs_bind_done; [by apply (linkoutput_done (set_bufs (<[p := b7]> (bufs s)) s))|]. cbv beta. kret.
  exists (<[p := b7]> (bufs s)). split.
  - rewrite data_cons, (rewritten_bytes _ _ _ Hw7). done.
  - refine (ainv_sent _ (set_bufs _ s) own _). apply ainv_bufs; [done|done|by eapply insert_kept].
Qed.

(** What an ARP message in a frame says to [etharp_arp_input]. *)
Section Message.
Context (ethdst ethsrc hwsrc : list Z) (sip : Z) (hwdst : list Z) (dip op : Z).
Context (H1 : zlen ethdst = 6) (H2 : zlen ethsrc = 6) (H3 : zlen hwsrc = 6) (H4 : zlen hwdst = 6).

Let d := arp_frame ethdst ethsrc hwsrc sip hwdst dip op.

Ltac open_frame :=
  unfold d; destruct (six ethdst H1) as (? & ? & ? & ? & ? & ? & ->), (six ethsrc H2) as (? & ? & ? & ? & ? & ? & ->),
    (six hwsrc H3) as (? & ? & ? & ? & ? & ? & ->), (six hwdst H4) as (? & ? & ? & ? & ? & ? & ->).

Lemma message_length : length d = 42%nat.
Proof. open_frame. reflexivity. Qed.

Lemma message_valid :
  negb (at16 d 14 =? htons HWTYPE_ETHERNET) || negb (at8 d 18 =? ETHARP_HWADDR_LEN) || negb (at8 d 19 =? 4) || negb (at16 d 16 =? htons ETHTYPE_IP) = false.
Proof. open_frame. reflexivity. Qed.

Lemma message_type pad : at16 (ztake 14 (d ++ pad)) 12 = htons ETHTYPE_ARP.
Proof. open_frame. reflexivity. Qed.

Lemma message_fields : bytes_at d 22 6 = hwsrc /\ at32 d 28 = of_le32 (le32 sip) /\ at32 d 38 = of_le32 (le32 dip) /\ at16 d 20 = of_le16 (le16 (htons op)).
Proof. open_frame. done. Qed.

Lemma message_answered n pad : good_netif n ->
  answered n d (d ++ pad) = arp_frame hwsrc (hwaddr n) (hwaddr n) (ip_addr n) hwsrc sip ARP_REPLY ++ pad.
Proof.
  unfold good_netif, answered. intros H. destruct (six (hwaddr n) H) as (? & ? & ? & ? & ? & ? & ->). open_frame. reflexivity.
Qed.
End Message.

Definition for_us (n : netif) (dip : Z) : bool := if ip_addr n =? IPADDR_ANY then false else dip =? ip_addr n.

Definition update_flags (n : netif) (dip : Z) : Z := if for_us n dip then ETHARP_FLAG_TRY_HARD else ETHARP_FLAG_FIND_ONLY.

(** What becomes of an ARP message: the sender's addresses are entered, then a
    request for our address is answered. *)
Definition message_post (s : Arp) (own : list Z) (n : netif) (p : Z) (bs : list pbuf) (l : list Z) (s' : Arp) : Prop :=
  forall ethdst ethsrc hwsrc sip hwdst dip op pad,
  l = arp_frame ethdst ethsrc hwsrc sip hwdst dip op ++ pad ->
  zlen ethdst = 6 -> zlen ethsrc = 6 -> zlen hwsrc = 6 -> zlen hwdst = 6 -> is_u32 sip -> is_u32 dip -> op = ARP_REQUEST \/ op = ARP_REPLY ->
  exists r s1, update_post s own n sip hwsrc (update_flags n dip) r s1 /\ arp_table s' = arp_table s1 /\
    exists pre, sent s' = pre ++ sent s1 /\
      (p ∉ waiting (arp_table s) -> bs = [] ->
       pre = if (op =? ARP_REQUEST) && for_us n dip
             then [arp_frame hwsrc (hwaddr n) (hwaddr n) (ip_addr n) hwsrc sip ARP_REPLY ++ pad] else []).

(** The part of [etharp_arp_input] behind the update of the table. *)
Definition respond (n : netif) (p sipaddr dipaddr : Z) : M Arp unit :=
  d ← onbufs (look p SIZEOF_ETHARP_PACKET);
  (if at16 d 20 =? htons ARP_REQUEST then if for_us n dipaddr then answer n p d else mret tt
   else if at16 d 20 =? htons ARP_REPLY then modify (add_dhcp_reply sipaddr)
   else mret tt);;
  release p.

Lemma respond_runs s own n p b bs sip dip : AInv s (p :: own) -> chain (bufs s) p (b :: bs) -> 42 <= len b -> good_netif n ->
  runs (respond n p sip dip) s (fun _ s' => AInv s' own /\ ip_inputs s' = ip_inputs s /\ arp_table s' = arp_table s /\
    exists pre, sent s' = pre ++ sent s /\
      pre = let d := ztake 42 (bytes b) in
            if (at16 d 20 =? htons ARP_REQUEST) && for_us n dip then [answered n d (bytes b) ++ data bs] else []).
Proof.
  intros HA Hc Hl Hn. pose proof Hc as (Hp & Eb & Hfit & _). unfold respond. pose proof (bytes_len b Hfit) as Hbl.
  eapply runs_bind_done; [apply onbufs_done; eapply look_done; [apply HA|done|change SIZEOF_ETHARP_PACKET with 42; lia]|]. cbv beta zeta.
  change SIZEOF_ETHARP_PACKET with 42. assert (set_bufs (bufs s) s = s) as -> by (by destruct s). set (d := ztake 42 (bytes b)).
  assert (length d = 42%nat) as Hd.
  { assert (zlen d = 42) as Hz by (unfold d; zlen_lia). unfold zlen in Hz. lia. }
  assert (forall s1 pre, AInv s1 (p :: own) -> ip_inputs s1 = ip_inputs s -> arp_table s1 = arp_table s -> sent s1 = pre ++ sent s ->
    runs (release p) s1 (fun _ s' => AInv s' own /\ ip_inputs s' = ip_inputs s /\ arp_table s' = arp_table s /\ exists pre', sent s' = pre' ++ sent s /\ pre' = pre)) as Hend.
  { intros s1 pre HA1 Hi Ht Hs. eapply runs_mono; [by apply release_ainv|]. cbv beta. intros _ s' (m' & -> & HA' & _). eauto 10. }
  destruct (at16 d 20 =? htons ARP_REQUEST); cbn [andb].
  - destruct (for_us n dip); [|kdo; by apply (Hend s [])].
    eapply runs_then_do; [by apply (answer_runs s (p :: own) n p b bs d)|]. cbv beta. intros _ s1 (m1 & -> & HA1). by apply (Hend _ [_]).
  - destruct (at16 d 20 =? htons ARP_REPLY); [|kdo; by apply (Hend s [])].
    eapply runs_bind_done; [reflexivity|]. cbv beta. apply (Hend _ []); try done. destruct HA as [Ht [Hc0 Hg Hlong]]. split; [done|]. by split.
Qed.

(** A valid message: the update and the response. *)
Lemma message_runs s own n p b bs : AInv s (p :: own) -> chain (bufs s) p (b :: bs) -> 42 <= len b -> good_netif n ->
  let d := ztake 42 (bytes b) in
  runs (_ ← etharp_update_arp_entry n (at32 d 28) (bytes_at d 22 6) (update_flags n (at32 d 38)); respond n p (at32 d 28) (at32 d 38)) s
    (fun _ s' => AInv s' own /\ ip_inputs s' = ip_inputs s /\ message_post s (p :: own) n p bs (bytes b) s').
Proof.
  intros HA Hc Hl Hn d. pose proof Hc as (Hp & Eb & Hfit & Hcn). pose proof (bytes_len b Hfit) as Hbl.
  assert (length d = 42%nat) as Hd.
  { assert (zlen d = 42) as Hz by (unfold d; zlen_lia). unfold zlen in Hz. lia. }
  eapply runs_then_do.
  { apply (etharp_update_runs s (p :: own)); [done|unfold FLAGS, update_flags; destruct (for_us _ _); auto|done|]. apply bytes_at_length. lia. }
  cbv beta. intros r s1 HU. pose proof HU as (HA1 & Hun & Hip & _).
  destruct (good_live _ _ p (a_good _ _ (a_held _ _ HA1)) ltac:(by left)) as [b1 Eb1].
  destruct (Hun p b1 Eb1) as (b0 & Eb0 & El1 & En1 & Eby1). rewrite Eb in Eb0. injection Eb0 as <-.
  destruct (chain_of _ _ p (a_good _ _ (a_held _ _ HA1)) ltac:(right; eauto)) as (bs' & Hc1). destruct (chain_first _ _ _ Hc1 b1 Eb1 Hp) as (bs1 & ->).
  eapply runs_mono; [by apply (respond_runs s1 own n p b1 bs1); [..|lia|]|]. cbv beta zeta. intros _ s' (HA' & Hip' & Ht' & pre & Es & Hpre).
  split; [done|]. split; [congruence|]. intros ethdst ethsrc hwsrc sip hwdst dip op pad E H1 H2 H3 H4 Hsip Hdip Hop.
  assert (d = arp_frame ethdst ethsrc hwsrc sip hwdst dip op) as Ed.
  { pose proof (message_length ethdst ethsrc hwsrc sip hwdst dip op H1 H2 H3 H4) as Hml. unfold d. rewrite E, ztake_app_l by (unfold zlen; lia). apply ztake_all. unfold zlen. lia. }
  destruct (message_fields ethdst ethsrc hwsrc sip hwdst dip op H1 H2 H3 H4) as (F1 & F2 & F3 & F4). rewrite <- Ed in F1, F2, F3, F4.
  rewrite of_le32_le32 in F2, F3 by done. rewrite F1, F2, F3 in *. exists r, s1. split; [done|]. split; [done|]. exists pre. split; [done|].
  intros Hnw ->. rewrite Hpre. rewrite (Eby1 Hnw) in *. fold d. rewrite F4.
  assert (bs1 = []) as ->.
  { destruct bs1 as [|c bs1]; [done|]. cbn in Hcn. destruct Hc1 as (_ & _ & _ & Hx & _). congruence. }
  assert ((of_le16 (le16 (htons op)) =? htons ARP_REQUEST) = (op =? ARP_REQUEST)) as -> by (by destruct Hop as [->| ->]).
  destruct ((op =? ARP_REQUEST) && for_us n dip); [|done]. change (data []) with (@nil Z). rewrite app_nil_r, E, Ed. by rewrite message_answered.
Qed.

Lemma etharp_arp_input_runs s own n p b bs : AInv s (p :: own) -> chain (bufs s) p (b :: bs) -> good_netif n ->
  runs (etharp_arp_input n p) s (fun _ s' => AInv s' own /\ ip_inputs s' = ip_inputs s /\ message_post s (p :: own) n p bs (bytes b) s').
Proof.
  intros HA Hc Hn. pose proof Hc as (Hp & Eb & Hfit & _). pose proof (bytes_len b Hfit) as Hbl. unfold etharp_arp_input.
  eapply runs_bind_done; [by apply onbufs_done, deref_done|]. cbv beta. assert (set_bufs (bufs s) s = s) as -> by (by destruct s).
  assert ((forall ethdst ethsrc hwsrc sip hwdst dip op pad, bytes b = arp_frame ethdst ethsrc hwsrc sip hwdst dip op ++ pad ->
      zlen ethdst = 6 -> zlen ethsrc = 6 -> zlen hwsrc = 6 -> zlen hwdst = 6 -> False) ->
    runs (release p) s (fun _ s' => AInv s' own /\ ip_inputs s' = ip_inputs s /\ message_post s (p :: own) n p bs (bytes b) s')) as Hdrop.
  { intros Hno. eapply runs_mono; [by apply release_ainv|]. cbv beta. intros _ s' (m' & -> & HA' & _). split; [done|]. split; [done|].
    intros ? ? ? ? ? ? ? ? E ? ? ? ?. exfalso. by eapply Hno. }
  destruct (Z.ltb_spec (len b) SIZEOF_ETHARP_PACKET) as [Hlt|Hge]; change SIZEOF_ETHARP_PACKET with 42 in *.
  { apply Hdrop. intros ethdst ethsrc hwsrc sip hwdst dip op pad E ? ? ? ?. pose proof (message_length ethdst ethsrc hwsrc sip hwdst dip op ltac:(done) ltac:(done) ltac:(done) ltac:(done)).
    assert (zlen (bytes b) >= 42); [|lia]. rewrite E, zlen_app. unfold zlen. lia. }
  eapply runs_bind_done; [apply onbufs_done; eapply look_done; [apply HA|done|lia]|]. cbv beta. assert (set_bufs (bufs s) s = s) as -> by (by destruct s).
  set (d := ztake 42 (bytes b)).
  assert (forall ethdst ethsrc hwsrc sip hwdst dip op pad, bytes b = arp_frame ethdst ethsrc hwsrc sip hwdst dip op ++ pad ->
      zlen ethdst = 6 -> zlen ethsrc = 6 -> zlen hwsrc = 6 -> zlen hwdst = 6 -> d = arp_frame ethdst ethsrc hwsrc sip hwdst dip op) as Hd.
  { intros ethdst ethsrc hwsrc sip hwdst dip op pad E ? ? ? ?. pose proof (message_length ethdst ethsrc hwsrc sip hwdst dip op ltac:(done) ltac:(done) ltac:(done) ltac:(done)) as Hml.
    unfold d. assert (zlen (arp_frame ethdst ethsrc hwsrc sip hwdst dip op) = 42) as Hz by (unfold zlen; lia).
    rewrite E, ztake_app_l by lia. apply ztake_all. lia. }
  destruct (_ || _) eqn:Evalid.
  { apply Hdrop. intros ? ? ? ? ? ? ? ? E ? ? ? ?. rewrite (Hd _ _ _ _ _ _ _ _ E), message_valid in Evalid by done. done. }
  by apply message_runs.
Qed.

Lemma mark_runs s own p b flag : AInv s own -> bufs s !! p = Some b ->
  exists b', mark p flag (bufs s) = Done tt (<[p := b']> (bufs s)) /\ alike b b' /\ ref b' = ref b /\ AInv (set_bufs (<[p := b']> (bufs s)) s) own.
Proof.
  intros HA Eb. eexists. split; [by apply upd_done|]. split; [done|]. split; [done|]. pose proof (a_good _ _ (a_held _ _ HA)) as Hg. apply ainv_bufs; [done| |].
  { apply good_insert; [apply (inv_same _ _ _ b); [apply Hg|done..]|done|exact (good_fits _ _ Hg p b Eb)]. }
  intros x c c' Ec. destruct (decide (x = p)) as [->|]; [rewrite lookup_insert_eq; rewrite Eb in Ec; injection Ec as <-; by intros [= <-]|].
  rewrite lookup_insert_ne by done. rewrite Ec. by intros [= <-].
Qed.

(** A buffer with one reference, held outside. *)
Lemma sole_holder m own l p b : Good m ((p :: own) ++ l) -> m !! p = Some b -> ref b = 1 -> (p ∉ l) /\ first m p.
Proof.
  intros [HI _] Eb Hr. destruct (inv_ref _ _ HI p b Eb) as [Ho _]. rewrite Hr in Ho. cbn [app] in Ho. rewrite occ_cons, !occ_app in Ho.
  rewrite decide_True in Ho by done. pose proof (occ_nonneg p own). pose proof (occ_nonneg p l). pose proof (occ_nonneg p (pointers (links m))).
  split; [apply occ_zero; lia|]. split; [eauto|lia].
Qed.

(** A frame handed to the IP layer has lost its header. *)
Definition passed_on (s : Arp) (p : Z) (d : list Z) (s' : Arp) : Prop :=
  ip_inputs s' = p :: ip_inputs s /\ exists bs, chain (bufs s') p bs /\ data bs = zdrop 14 d.

Lemma pass_on_runs s own p b bs : AInv s (p :: own) -> chain (bufs s) p (b :: bs) -> ref b = 1 ->
  runs (bad ← onbufs (pbuf_header p (- SIZEOF_ETH_HDR)); if (bad : bool) then release p else modify (add_ip_input p)) s
    (fun _ s' => AInv s' own /\ ip_inputs s' = ip_inputs s \/ AInv s' (p :: own) /\ passed_on s p (data (b :: bs)) s').
Proof.
  intros HA Hc Hr. pose proof HA as [Ht [Hc0 Hg Hlong]]. pose proof Hc as (Hp & Eb & Hfit & _). change SIZEOF_ETH_HDR with 14.
  destruct (sole_holder _ _ _ _ _ Hg Eb Hr) as [Hnw [_ Hocc]]. destruct (inv_len _ _ (good_inv _ _ Hg) p b Eb) as (_ & _ & Htot).
  destruct (header_good (bufs s) ((p :: own) ++ waiting (arp_table s)) p b (-14)) as (bad & m' & E & HG & Hm); [done|done|done|lia|lia|lia|].
  eapply runs_bind_done; [by apply onbufs_done|]. cbv beta. destruct bad.
  { destruct Hm as [-> _]. assert (set_bufs (bufs s) s = s) as -> by (by destruct s). eapply runs_mono; [by apply release_ainv|]. cbv beta. intros _ s' (m' & -> & HA' & _). by left. }
  unfold runs, wpe, modify. right. assert (m' !! p = Some (moved (-14) b)) as Eb' by (rewrite Hm; apply lookup_insert_eq).
  pose proof (good_fits _ _ HG _ _ Eb') as Hf'. split.
  - split; [done|]. split; cbn; [done|done|]. rewrite Forall_forall in Hlong |- *. intros x Hx. destruct (Hlong x Hx) as (c & Ec & Hlc).
    exists c. rewrite Hm, lookup_insert_ne by (by intros ->). done.
  - split; [done|]. exists (moved (-14) b :: bs). split; [cbn [add_ip_input set_bufs bufs]; rewrite Hm; by apply (chain_replace _ _ b)|]. rewrite !data_cons.
    destruct Hf' as (Hf1 & Hf2 & Hf3). cbn in Hf1, Hf2, Hf3. rewrite zdrop_app_l by (rewrite bytes_len by done; lia). f_equal.
    unfold bytes. cbn [moved payload len room set_tot_len set_len set_payload]. destruct Hfit as (? & ? & ?).
    replace (len b) with (14 + (len b + -14)) at 2 by lia. rewrite <- (ztake_zdrop (len b + -14) 14) by lia. rewrite zdrop_zdrop by lia. done.
Qed.

(** What comes of a frame whose first buffer is [b]: it is freed or handed over,
    and an ARP message is handled in a state [s1] that is [s] but for flags of
    the frame. *)
Definition frame_post (s : Arp) (own : list Z) (n : netif) (p : Z) (b : pbuf) (bs : list pbuf) (s' : Arp) : Prop :=
  (AInv s' own /\ ip_inputs s' = ip_inputs s \/ AInv s' (p :: own) /\ passed_on s p (data (b :: bs)) s') /\
  (SIZEOF_ETH_HDR < len b -> at16 (ztake 14 (bytes b)) 12 = htons ETHTYPE_ARP -> Z.land (netif_flags n) NETIF_FLAG_ETHARP <> 0 ->
   exists m bs1, AInv (set_bufs m s) (p :: own) /\ (forall x c, bufs s !! x = Some c -> exists c', m !! x = Some c' /\ alike c c') /\
     (bs = [] -> bs1 = []) /\ message_post (set_bufs m s) (p :: own) n p bs1 (bytes b) s').

(** The switch on the type of the frame. *)
Definition dispatch (n : netif) (p ty : Z) : M Arp unit :=
  if ty =? htons ETHTYPE_IP then
    if Z.land (netif_flags n) NETIF_FLAG_ETHARP =? 0 then release p
    else
      bad ← onbufs (pbuf_header p (- SIZEOF_ETH_HDR));
      if (bad : bool) then release p else modify (add_ip_input p)
  else if ty =? htons ETHTYPE_ARP then
    if Z.land (netif_flags n) NETIF_FLAG_ETHARP =? 0 then release p else etharp_arp_input n p
  else release p.

Lemma dispatch_runs s own n p b bs ty : AInv s (p :: own) -> chain (bufs s) p (b :: bs) -> good_netif n -> ref b = 1 ->
  runs (dispatch n p ty) s (fun _ s' =>
    (AInv s' own /\ ip_inputs s' = ip_inputs s \/ AInv s' (p :: own) /\ passed_on s p (data (b :: bs)) s') /\
    (ty = htons ETHTYPE_ARP -> Z.land (netif_flags n) NETIF_FLAG_ETHARP <> 0 -> message_post s (p :: own) n p bs (bytes b) s')).
Proof.
  intros HA Hc Hn Hr. pose proof Hc as (Hp & _). unfold dispatch.
  assert ((ty = htons ETHTYPE_ARP -> Z.land (netif_flags n) NETIF_FLAG_ETHARP <> 0 -> False) ->
    runs (release p) s (fun _ s' =>
    (AInv s' own /\ ip_inputs s' = ip_inputs s \/ AInv s' (p :: own) /\ passed_on s p (data (b :: bs)) s') /\
    (ty = htons ETHTYPE_ARP -> Z.land (netif_flags n) NETIF_FLAG_ETHARP <> 0 -> message_post s (p :: own) n p bs (bytes b) s'))) as Hrel.
  { intros Hno. eapply runs_mono; [by apply release_ainv|]. cbv beta. intros _ s' (m' & -> & HA' & _). split; [by left|]. intros; by exfalso; apply Hno. }
  destruct (Z.eqb_spec ty (htons ETHTYPE_IP)) as [->|Hip], (Z.eqb_spec (Z.land (netif_flags n) NETIF_FLAG_ETHARP) 0).
  - by apply Hrel.
  - eapply runs_mono; [by apply (pass_on_runs s own p b bs)|]. cbv beta. intros _ s' H. split; [exact H|discriminate].
  - destruct (ty =? htons ETHTYPE_ARP); by apply Hrel.
  - destruct (Z.eqb_spec ty (htons ETHTYPE_ARP)) as [->|]; [|by apply Hrel].
    eapply runs_mono; [by apply (etharp_arp_input_runs s own n p b bs)|]. cbv beta. intros _ s' (HA' & Hi & Hm). auto.
Qed.

Lemma ethernet_input_runs s own n p b bs : AInv s (p :: own) -> chain (bufs s) p (b :: bs) -> good_netif n -> ref b = 1 ->
  runs (ethernet_input p n) s (fun r s' => r = ERR_OK /\ frame_post s own n p b bs s').
Proof.
  intros HA Hc Hn Hr. pose proof Hc as (Hp & Eb & Hfit & Hcn). unfold ethernet_input.
  eapply runs_bind_done; [by apply onbufs_done, deref_done|]. cbv beta. assert (set_bufs (bufs s) s = s) as Esame by (by destruct s). rewrite Esame.
  destruct (Z.leb_spec (len b) SIZEOF_ETH_HDR) as [Hle|Hgt].
  { eapply runs_then_do; [by apply release_ainv|]. cbv beta. intros _ s' (m' & -> & HA' & _). kret. split; [done|]. split; [by left|lia]. }
  change SIZEOF_ETH_HDR with 14 in Hgt. eapply runs_bind_done; [apply onbufs_done; eapply look_done; [apply HA|done|change SIZEOF_ETH_HDR with 14; lia]|].
  cbv beta zeta. rewrite Esame. change SIZEOF_ETH_HDR with 14. set (d := ztake 14 (bytes b)).
  assert (forall m b1, AInv (set_bufs m s) (p :: own) -> (forall x c, bufs s !! x = Some c -> exists c', m !! x = Some c' /\ alike c c') ->
    m !! p = Some b1 -> alike b b1 -> ref b1 = 1 ->
    runs (dispatch n p (at16 d 12);; mret ERR_OK) (set_bufs m s) (fun r s' => r = ERR_OK /\ frame_post s own n p b bs s')) as Hdis.
  { intros m b1 HA1 Hal Eb1 (En1 & Eby & _) Hr1. destruct (chain_alike _ m _ _ Hc Hal) as (bs' & Hc1 & Ed).
    destruct (chain_first _ _ _ Hc1 b1 Eb1 Hp) as (bs1 & ->). eapply runs_then_do; [by apply (dispatch_runs (set_bufs m s) own n p b1 bs1)|].
    cbv beta. intros _ s' [Hs Hm]. kret. split; [done|]. rewrite Ed in Hs. split; [exact Hs|]. intros _ Hty Hfl. exists m, bs1. rewrite Eby in Hm.
    split; [done|]. split; [done|]. split; [|by apply Hm]. intros ->. destruct bs1 as [|c bs1]; [done|]. cbn in Hcn. destruct Hc1 as (_ & _ & _ & Hx & _). congruence. }
  assert (forall flag, runs (onbufs (mark p flag);; (dispatch n p (at16 d 12);; mret ERR_OK)) s (fun r s' => r = ERR_OK /\ frame_post s own n p b bs s')) as Hmark.
  { intros flag. destruct (mark_runs s (p :: own) p b flag HA Eb) as (b1 & E1 & Hal & Hr1 & HA1). eapply runs_bind_done; [by apply onbufs_done|]. cbv beta.
    apply (Hdis _ b1); [done|by eapply insert_alike|apply lookup_insert_eq|done|congruence]. }
  assert (runs (mret tt;; (dispatch n p (at16 d 12);; mret ERR_OK)) s (fun r s' => r = ERR_OK /\ frame_post s own n p b bs s')) as Hnone.
  { kdo. rewrite <- Esame. apply (Hdis _ b); rewrite ?Esame; try done. intros x c Ec. exists c. done. }
  destruct (negb (Z.land (at8 d 0) 1 =? 0)); [|exact Hnone]. destruct (at8 d 0 =? 1).
  - destruct ((at8 d 1 =? 0) && (at8 d 2 =? 94)); [exact (Hmark _)|exact Hnone].
  - case_bool_decide; [exact (Hmark _)|exact Hnone].
Qed.
End Link.
