(* ===== verification/EtharpSpec.v ===== *)
(** What address resolution achieves: over any run of its operations it is free
    of wild accesses and keeps its table in order; packets wait for the reply
    to a request and are sent when it comes; entries are used for as long as
    they are fresh; the least important entry makes room for a new one. *)
From S2P Require Import Prelude Pbuf PbufRef PbufData IpAddr Etharp EtharpBufs EtharpTable EtharpSend EtharpRecv.
From stdpp Require Import list gmap.
#[local] Open Scope Z_scope.

(** * Runs *)

(** What happens to address resolution, and what the holders of packet buffers do
    in between: the driver and the layers above allocate, fill and free buffers of
    their own. *)
Inductive AOp :=
  | AAlloc (layer length : Z)
  | AFill (p off : Z) (l : list Z)
  | AFree (p : Z)
  | ATick
  | ACleanup (n : netif)
  | ARequest (n : netif) (addr : Z)
  | AQuery (n : netif) (addr pk : Z)
  | AOutput (n : netif) (pk addr : Z)
  | AInput (n : netif) (p : Z).

(** The operation, and the pointers held afterwards; the IP layer holds the packets
    handed to it. *)
Definition ado `{PM : PbufMemory} `{DR : Driver} (o : AOp) (own : list Z) : M Arp (list Z) :=
  match o with
  | AAlloc layer length => p ← onbufs (pbuf_alloc layer length PBUF_RAM); mret (hold p own)
  | AFill p off l => onbufs (write p off l);; mret own
  | AFree p => release p;; mret (let_go p own)
  | ATick => etharp_tmr;; mret own
  | ACleanup n => etharp_cleanup_netif n;; mret own
  | ARequest n addr => _ ← etharp_request n addr; mret own
  | AQuery n addr pk => _ ← etharp_query n addr pk; mret own
  | AOutput n pk addr => _ ← etharp_output n pk addr; mret own
  | AInput n p =>
      before ← gets ip_inputs;
      _ ← ethernet_input p n;
      after ← gets ip_inputs;
      mret (if bool_decide (after = before) then let_go p own else own)
  end.

Definition with_buf (m : Pbufs) (p : Z) (P : pbuf -> Prop) : Prop := match m !! p with Some b => P b | None => False end.

#[export] Instance with_buf_dec m p P `{forall b, Decision (P b)} : Decision (with_buf m p P).
Proof. unfold with_buf. destruct (m !! p); apply _. Defined.

(** What the callers keep to: they use pointers they hold; a packet that goes out is
    not part of a longer one, so short that its header fits in 16 bits; a frame that
    comes in is held by the driver alone. *)
Definition arp_allowed (s : Arp) (own : list Z) (o : AOp) : Prop :=
  match o with
  | AAlloc _ length => 0 <= length <= 65460
  | AFill p off l => with_buf (bufs s) p (fun b => 0 <= off /\ off + zlen l <= len b)
  | AFree p => p ∈ own
  | ATick | ACleanup _ => True
  | ARequest n _ => good_netif n
  | AQuery n _ pk => good_netif n /\ pk ∈ own /\ with_buf (bufs s) pk (fun b => SIZEOF_ETH_HDR <= len b /\ ref b < 65535 /\ tot_len b <= 65460)
  | AOutput n pk _ => good_netif n /\ pk ∈ own /\ first (bufs s) pk /\ with_buf (bufs s) pk (fun b => ref b < 65535 /\ tot_len b <= 65446)
  | AInput n p => good_netif n /\ p ∈ own /\ with_buf (bufs s) p (fun b => ref b = 1)
  end.

#[export] Instance arp_allowed_dec s own o : Decision (arp_allowed s own o).
Proof. destruct o; unfold arp_allowed, good_netif; apply _. Defined.

Definition empty_entry : etharp_entry := mkEntry 0 0 0 ethzero ETHARP_STATE_EMPTY 0.

Definition arp_start : Arp := mkArp (replicate 10 empty_entry) 0 ∅ [] [] [].

Inductive areach `{PM : PbufMemory} `{DR : Driver} : Arp -> list Z -> Prop :=
  | areach_start : areach arp_start []
  | areach_step s own o own' s' : areach s own -> arp_allowed s own o -> ado o own s = Done own' s' -> areach s' own'.

Lemma start_ainv : AInv arp_start [].
Proof.
  split.
  - split; [done| |].
    + intros i e E. apply lookup_replicate in E as [-> _]. by_decide.
    + intros i j e e' E _ _ Hs. apply lookup_replicate in E as [-> _]. by destruct Hs.
  - split; [done| |constructor]. split; [|by intros]. change (Inv ∅ []). apply inv_start.
Qed.

Lemma with_buf_inv m p P : with_buf m p P -> exists b, m !! p = Some b /\ P b.
Proof. unfold with_buf. destruct (m !! p); [eauto|done]. Qed.

(** The packet at a pointer. *)
Lemma packet_at s own pk b : AInv s own -> bufs s !! pk = Some b -> exists bs, chain (bufs s) pk (b :: bs).
Proof.
  intros HA Eb. pose proof (a_good _ _ (a_held _ _ HA)) as Hg. pose proof (inv_nonzero _ _ _ _ (good_inv _ _ Hg) Eb) as Hp.
  destruct (chain_of _ _ pk Hg ltac:(right; eauto)) as (bs & Hc). destruct (chain_first _ _ _ Hc b Eb Hp) as (bs' & ->). eauto.
Qed.

Section Runs.
Context `{PM : PbufMemory} {PML : PbufMemoryLaws} `{DR : Driver}.

Lemma owned_nonzero s own p : AInv s own -> p ∈ own -> p <> 0.
Proof.
  intros HA Hp. pose proof (a_good _ _ (a_held _ _ HA)) as Hg. destruct (good_live _ _ p Hg ltac:(apply elem_of_app; by left)) as [b Eb].
  exact (inv_nonzero _ _ _ _ (good_inv _ _ Hg) Eb).
Qed.

Lemma runs_keep {A} (m : M Arp A) s own v (P : A -> Arp -> Prop) : runs m s P -> (forall a s', P a s' -> AInv s' own) ->
  v = own -> runs (_ ← m; mret v) s (fun own' s' => AInv s' own').
Proof. intros H HP ->. eapply runs_then_do; [exact H|]. cbv beta. intros a s' Ha. kret. by eapply HP. Qed.

Lemma ado_buffers o own s : AInv s own -> arp_allowed s own o -> match o with AAlloc _ _ | AFill _ _ _ | AFree _ => True | _ => False end ->
  runs (ado o own) s (fun own' s' => AInv s' own').
Proof.
  intros HA Hal Ho. pose proof HA as [Ht [Hc Hg Hl]]. destruct o as [layer k|p off l|p| | | | | |]; try done; cbn [ado arp_allowed] in *.
  - destruct (alloc_good _ _ layer k Hg Hal) as [E|(p & b & E & Hp & Hfr & _ & _ & _ & _ & _ & HGp)].
    { eapply runs_bind_done; [by apply onbufs_done|]. cbv beta. kret. change (hold 0 own) with own. by assert (set_bufs (bufs s) s = s) as -> by (by destruct s). }
    eapply runs_bind_done; [by apply onbufs_done|]. cbv beta. kret. unfold hold. replace (p =? 0) with false by lia.
    split; [done|]. split; cbn; [done|done|]. eapply Forall_impl; [exact Hl|]. cbn. intros x (c & Ec & Hlc). exists c. by rewrite lookup_insert_ne by congruence.
  - apply with_buf_inv in Hal as (b & Eb & Ho1 & Ho2). destruct (write_good _ _ p b off l Hg Eb Ho1 Ho2) as (b' & E & Hw & HG).
    eapply runs_bind_done; [by apply onbufs_done|]. cbv beta. kret. apply ainv_bufs; [done|done|by eapply insert_kept].
  - eapply runs_keep; [apply (release_ainv s (let_go p own) p); [by rewrite <- let_go_perm|by eapply owned_nonzero]| |done].
    cbv beta. by intros _ s' (m' & -> & ? & _).
Qed.

Lemma ado_input n p own s : AInv s own -> arp_allowed s own (AInput n p) -> runs (ado (AInput n p) own) s (fun own' s' => AInv s' own').
Proof.
  intros HA (Hn & Hp & (b & Eb & Hr)%with_buf_inv). cbn [ado]. kdo. destruct (packet_at s own p b HA Eb) as [bs Hc].
  eapply runs_then_do; [apply (ethernet_input_runs s (let_go p own) n p b bs); [by rewrite <- let_go_perm|done..]|].
  cbv beta. intros r s' (_ & Hs & _). kdo. kret. destruct Hs as [[HA' Hi]|[HA' [Hi _]]].
  - by rewrite bool_decide_eq_true_2.
  - rewrite bool_decide_eq_false_2; [by rewrite (let_go_perm p own Hp)|]. rewrite Hi. intros E. apply (f_equal length) in E. cbn in E. lia.
Qed.

Lemma query_ainv s own n addr pk : AInv s own -> arp_allowed s own (AQuery n addr pk) -> runs (etharp_query n addr pk) s (fun _ s' => AInv s' own).
Proof.
  intros HA (Hn & Hp & (b & Eb & Hl & Hr & Ht)%with_buf_inv). destruct (packet_at s own pk b HA Eb) as [bs Hc].
  destruct (decide ((addr =? IPADDR_ANY) || ip4_addr_isbroadcast addr n || ip_addr_ismulticast addr = false)) as [Hu|Hu].
  - eapply runs_mono; [apply (etharp_query_runs s own n addr pk (data (b :: bs))); try done|cbv beta; by intros ? ? [? _]].
    + split; [done|]. exists b, bs. auto 10.
    + by eapply owned_nonzero.
  - unfold runs, wpe. by rewrite query_bad.
Qed.

(** Every allowed operation returns and keeps the invariant. *)
Lemma ado_inv o own s : AInv s own -> arp_allowed s own o -> runs (ado o own) s (fun own' s' => AInv s' own').
Proof.
  intros HA Hal. destruct o as [layer k|p off l|p| |n|n addr|n addr pk|n pk addr|n p].
  1-3: by apply ado_buffers.
  - eapply runs_keep; [by apply etharp_tmr_runs| |done]. cbv beta. by intros _ s' (m' & -> & ? & _).
  - eapply runs_keep; [by apply (etharp_cleanup_netif_runs n s own)| |done]. cbv beta. by intros _ s' (m' & -> & ? & _).
  - eapply runs_keep; [by apply (request_ainv s own n addr)| |done]. cbv beta. by intros r s' [? _].
  - eapply runs_keep; [by apply (query_ainv s own n addr pk)| |done]. by intros.
  - destruct Hal as (Hn & Hp & Hf & (b & Eb & Hr & Ht)%with_buf_inv). destruct (packet_at s own pk b HA Eb) as [bs Hc].
    eapply runs_keep; [apply (etharp_output_runs s own n pk addr (data (b :: bs))); [done| |done]| |done].
    + split; [done|]. split; [done|]. exists b, bs. auto 10.
    + cbv beta. by intros ? ? [? _].
  - by apply ado_input.
Qed.

Lemma areach_ainv s own : areach s own -> AInv s own.
Proof.
  induction 1 as [|s own o own' s' _ IH HA E]; [apply start_ainv|]. pose proof (ado_inv o own s IH HA) as H.
  unfold runs, wpe in H. by rewrite E in H.
Qed.

(** C6: In every state that address resolution reaches, no two entries in use are for
    the same address; entries are in use for less than their maximal age; only a
    pending entry has a packet waiting; the reference count of every packet
    buffer is the number of pointers to it, from its holders, from the entries and
    from other buffers; and every allowed operation returns from there. *)
Theorem arp_safe s own :
  areach s own ->
  (forall i j e e', arp_table s !! i = Some e -> arp_table s !! j = Some e' -> i <> j ->
     state e <> ETHARP_STATE_EMPTY -> state e' <> ETHARP_STATE_EMPTY -> ipaddr e <> ipaddr e') /\
  (forall i e, arp_table s !! i = Some e -> (state e <> ETHARP_STATE_EMPTY -> 0 <= ctime e < ARP_MAXAGE) /\
     (state e = ETHARP_STATE_PENDING -> ctime e < ARP_MAXPENDING) /\ (q e <> 0 -> state e = ETHARP_STATE_PENDING)) /\
  (forall p b, bufs s !! p = Some b -> ref b = occ p ((own ++ waiting (arp_table s)) ++ pointers (links (bufs s))) /\ 1 <= ref b) /\
  forall o, arp_allowed s own o -> exists own' s', ado o own s = Done own' s'.
Proof.
  intros HA%areach_ainv. pose proof HA as [Ht [Hc Hg Hl]]. split; [|split; [|split]].
  - intros i j e e' E E' Hij. by apply (table_apart _ Ht i j).
  - intros i e E. destruct (table_entries _ Ht i e E) as (? & ? & ? & ? & _). auto.
  - intros p b E. destruct (inv_ref _ _ (good_inv _ _ Hg) p b E). split; [done|lia].
  - intros o Hal. pose proof (ado_inv o own s HA Hal) as H. apply runs_done in H as (own' & s' & E & _). eauto.
Qed.
End Runs.

(** * Sending and resolving *)

Section Resolve.
Context `{PM : PbufMemory} {PML : PbufMemoryLaws} `{DR : Driver}.

(** C28: [etharp_output] of a packet: broadcasts and multicasts are sent at once to
    their hardware address; a packet for an address, the destination or the gateway,
    that is resolved is sent to its hardware address, perhaps behind a renewed
    request; for another address it waits, if the result is good, and a request may
    have been sent.  What is sent is the packet behind an Ethernet header.  A
    packet without room for that header is refused. *)
Theorem arp_output_routes s own n pk addr b bs :
  areach s own -> arp_allowed s own (AOutput n pk addr) -> bufs s !! pk = Some b -> chain (bufs s) pk (b :: bs) ->
  exists r s', etharp_output n pk addr s = Done r s' /\
    (r = ERR_BUF /\ s' = s /\ no_room (bufs s) pk \/
     match route_of n addr with
     | Mac mac => sent s' = ip_frame (hwaddr n) mac (data (b :: bs)) :: sent s
     | Via a =>
         (forall mac, stable_at (arp_table s) a mac ->
            exists pre, (pre = [] \/ pre = [request_frame n a]) /\ sent s' = ip_frame (hwaddr n) mac (data (b :: bs)) :: pre ++ sent s) /\
         (unresolved (arp_table s) a ->
            (r = ERR_OK -> waits s' a (data (b :: bs))) /\ (sent s' = sent s \/ sent s' = request_frame n a :: sent s))
     | Nowhere => r = ERR_RTE /\ sent s' = sent s
     end).
Proof.
  intros HA%areach_ainv (Hn & Hp & Hf & (b' & Eb' & Hr & Ht)%with_buf_inv) Eb Hc. rewrite Eb in Eb'. injection Eb' as <-.
  pose proof (etharp_output_runs s own n pk addr (data (b :: bs)) HA) as H. apply runs_done in H as (r & s' & E & _ & H); [|split; [done|]; split; [done|]; exists b, bs; auto 10|done].
  exists r, s'. split; [exact E|exact H].
Qed.

(** An entry just made or renewed. *)
Definition fresh_at (t : list etharp_entry) (i addr : Z) (mac : list Z) : Prop :=
  exists e, ld t i = Some e /\ stable e /\ ctime e = 0 /\ ipaddr e = addr /\ ethaddr e = mac.

Lemma updated_table n mac i e s1 s' : updated n mac i e s1 s' -> arp_table s' = <[Z.to_nat i := resolved n mac e]> (arp_table s1).
Proof. unfold updated. destruct (q e =? 0); [by intros ->|by intros (bs & m' & _ & ->)]. Qed.

Lemma update_learns s own n addr mac flags r s' : update_post s own n addr mac flags r s' -> unicast n addr ->
  flags = ETHARP_FLAG_TRY_HARD \/ ~ absent addr (arp_table s) -> exists i, fresh_at (arp_table s') i addr mac.
Proof.
  intros (_ & _ & _ & [(_ & _ & H)|(i & e & s1 & _ & _ & (_ & E & Ha & _) & Hu & _)]) Huni Hk.
  - destruct (H Huni) as [Hab ->]. by destruct Hk.
  - exists i, (resolved n mac e). rewrite (updated_table _ _ _ _ _ _ Hu). split; [by eapply ld_insert|]. split; [|done]. unfold stable, resolved. cbn. lia.
Qed.

(** A packet that waits for the address is sent by the update. *)
Lemma update_delivers s own n addr mac flags r s' d : update_post s own n addr mac flags r s' -> AInv s own -> unicast n addr -> waits s addr d ->
  ip_frame (hwaddr n) mac d ∈ sent s'.
Proof.
  intros (_ & _ & _ & Hcase) HA Huni (j & f & bs & Ef & Hf & Haf & Hqf & Hc & <-). pose proof (ld_nat _ _ _ Ef) as Efn.
  assert (state f <> ETHARP_STATE_EMPTY) as Hne by (rewrite Hf; discriminate).
  destruct Hcase as [(_ & _ & H)|(i & e & s1 & _ & _ & HG & Hu & _)].
  { destruct (H Huni) as [Hab _]. exfalso. by apply (Forall_lookup_1 _ _ _ _ Hab Efn). }
  pose proof HG as (Hi & E & Ha & HA1 & _ & _ & [[He ->]|(He & _ & Hab & _)]); [|exfalso; by apply (Forall_lookup_1 _ _ _ _ Hab Efn)].
  assert (f = e) as ->.
  { destruct (decide (Z.to_nat j = Z.to_nat i)) as [Hj|Hj]; [apply ld_nat in E; rewrite Hj, E in Efn; by injection Efn|].
    exfalso. apply (table_apart _ (a_table _ _ HA) _ _ f e Efn (ld_nat _ _ _ E) Hj Hne He). congruence. }
  unfold updated in Hu. replace (q e =? 0) with false in Hu by lia. destruct Hu as (bs2 & m' & Hc2 & ->).
  rewrite (chain_inj _ _ _ _ Hc Hc2). by left.
Qed.

(** An ARP message as the bytes [l] of a frame, perhaps with padding. *)
Definition message (l hwsrc : list Z) (sip dip op : Z) (pad : list Z) : Prop :=
  is_u32 sip /\ is_u32 dip /\ (op = ARP_REQUEST \/ op = ARP_REPLY) /\ zlen hwsrc = 6 /\
  exists ethdst ethsrc hwdst, zlen ethdst = 6 /\ zlen ethsrc = 6 /\ zlen hwdst = 6 /\ l = arp_frame ethdst ethsrc hwsrc sip hwdst dip op ++ pad.

Lemma message_is_arp l hwsrc sip dip op pad : message l hwsrc sip dip op pad -> SIZEOF_ETH_HDR < zlen l /\ at16 (ztake 14 l) 12 = htons ETHTYPE_ARP.
Proof.
  intros (_ & _ & _ & H3 & ethdst & ethsrc & hwdst & H1 & H2 & H4 & ->). split; [|by apply message_type].
  pose proof (message_length ethdst ethsrc hwsrc sip hwdst dip op H1 H2 H3 H4). rewrite zlen_app. pose proof (zlen_nonneg pad). unfold zlen at 1.
  change SIZEOF_ETH_HDR with 14. lia.
Qed.

Lemma waits_alike s m addr d : waits s addr d -> (forall x c, bufs s !! x = Some c -> exists c', m !! x = Some c' /\ alike c c') -> waits (set_bufs m s) addr d.
Proof.
  intros (i & e & bs & E & Hs & Ha & Hq & Hc & <-) Hm. destruct (chain_alike _ m _ _ Hc Hm) as (bs' & Hc' & Ed). exists i, e, bs'. rewrite Ed. by repeat (split; [done|]).
Qed.

(** C15: An ARP message from a unicast address: if it is for us, or its sender has an
    entry, the sender's hardware address is entered, and a packet that waits for it is
    sent there; the table is left alone otherwise; and a request for our address is
    answered, in the frame it came in, with our hardware address. *)
Theorem arp_message_handled s own n p b hwsrc sip dip op pad :
  areach s own -> arp_allowed s own (AInput n p) -> bufs s !! p = Some b -> next b = 0 ->
  Z.land (netif_flags n) NETIF_FLAG_ETHARP <> 0 -> message (bytes b) hwsrc sip dip op pad -> unicast n sip ->
  exists s', ethernet_input p n s = Done ERR_OK s' /\
    (for_us n dip = true \/ ~ absent sip (arp_table s) ->
       (exists i, fresh_at (arp_table s') i sip hwsrc) /\ forall d, waits s sip d -> ip_frame (hwaddr n) hwsrc d ∈ sent s') /\
    (for_us n dip = false -> absent sip (arp_table s) -> arp_table s' = arp_table s) /\
    (op = ARP_REQUEST -> for_us n dip = true ->
       exists past, sent s' = (arp_frame hwsrc (hwaddr n) (hwaddr n) (ip_addr n) hwsrc sip ARP_REPLY ++ pad) :: past).
Proof.
  intros HA%areach_ainv (Hn & Hp & (b' & Eb' & Hr)%with_buf_inv) Eb Hnx Hfl Hmsg Hu. rewrite Eb in Eb'. injection Eb' as <-.
  destruct (packet_at s own p b HA Eb) as [bs Hc]. assert (bs = []) as ->.
  { destruct bs as [|c bs]; [done|]. destruct Hc as (_ & _ & _ & Hx & _). congruence. }
  assert (AInv s (p :: let_go p own)) as HA0 by (by rewrite <- let_go_perm).
  destruct (proj1 (runs_done _ _ _) (ethernet_input_runs s (let_go p own) n p b [] HA0 Hc Hn Hr)) as (r & s' & E & -> & Hs & Hm).
  exists s'. split; [exact E|]. destruct (message_is_arp _ _ _ _ _ _ Hmsg) as [Hl Hty]. destruct Hmsg as (Hsip & Hdip & Hop & H3 & ethdst & ethsrc & hwdst & H1 & H2 & H4 & Eby).
  assert (fits b) as Hfit by (by destruct Hc as (_ & _ & ? & _)). rewrite bytes_len in Hl by done.
  destruct (Hm Hl Hty Hfl) as (m & bs1 & HA1 & Hal & Hbs & Hpost). clear Hm.
  destruct (Hpost _ _ _ _ _ _ _ _ Eby H1 H2 H3 H4 Hsip Hdip Hop) as (r & s1 & HU & Et & pre & Es & Hpre). rewrite Et, Es. split; [|split].
  - intros Hk. split.
    + apply (update_learns _ _ _ _ _ _ _ _ HU Hu). unfold update_flags. destruct (for_us n dip); [by left|]. destruct Hk as [|Hk]; [done|by right].
    + intros d Hw. apply elem_of_app. right. apply (update_delivers _ _ _ _ _ _ _ _ d HU HA1 Hu). by apply waits_alike.
  - unfold update_flags in HU. intros Hus Hab. rewrite Hus in HU. destruct HU as (_ & _ & _ & [(-> & _)|(i & e & s2 & _ & _ & _ & _ & Hno)]); [done|].
    exfalso. by apply Hno.
  - intros -> Hus. destruct (Hal p b Eb) as (b1 & Eb1 & _). pose proof (a_good _ _ (a_held _ _ HA0)) as Hg0.
    destruct (sole_holder _ _ _ _ _ Hg0 Eb Hr) as [Hnw _]. rewrite (Hpre Hnw (Hbs eq_refl)), Hus. by exists (sent s1).
Qed.

(** * Entries over time *)

Fixpoint ticks (k : nat) : M Arp unit :=
  match k with
  | O => mret tt
  | S k => etharp_tmr;; ticks k
  end.

Lemma ticks_runs k s own : AInv s own -> runs (ticks k) s (fun _ s' => AInv s' own /\ forall i e, arp_table s !! i = Some e -> arp_table s' !! i = Some (Nat.iter k aged e)).
Proof.
  revert s. induction k as [|k IH]; intros s HA; cbn [ticks]; [kret; by split|].
  eapply runs_then_do; [by apply (etharp_tmr_runs s own)|]. cbv beta. intros _ s1 (m' & -> & HA1 & _).
  eapply runs_mono; [by apply IH|]. cbv beta. intros _ s' [HA' Ht]. split; [done|]. intros i e E. rewrite Nat.iter_succ_r. apply Ht.
  cbn. by rewrite list_lookup_fmap, E.
Qed.

Lemma aged_used e : state (aged e) <> ETHARP_STATE_EMPTY -> state e <> ETHARP_STATE_EMPTY /\ ipaddr (aged e) = ipaddr e.
Proof. unfold aged, freed. destruct (Z.eqb_spec (state e) ETHARP_STATE_EMPTY) as [Es|Es]; [by rewrite Es|]. repeat case_match; done. Qed.

Lemma iter_used k e : state (Nat.iter k aged e) <> ETHARP_STATE_EMPTY -> state e <> ETHARP_STATE_EMPTY /\ ipaddr (Nat.iter k aged e) = ipaddr e.
Proof.
  induction k as [|k IH]; [done|]. rewrite Nat.iter_succ. intros [H1 ->]%aged_used. by apply IH.
Qed.

Lemma aged_stable e : stable e ->
  if ARP_MAXAGE <=? ctime e + 1 then state (aged e) = ETHARP_STATE_EMPTY
  else stable (aged e) /\ ctime (aged e) = ctime e + 1 /\ ethaddr (aged e) = ethaddr e.
Proof.
  intros He. unfold aged, expired. unfold stable in He. replace (state e =? ETHARP_STATE_EMPTY) with false by arp_lia.
  replace (state e =? ETHARP_STATE_PENDING) with false by arp_lia. cbn [andb]. rewrite orb_false_r. destruct (ARP_MAXAGE <=? ctime e + 1); [done|].
  case_match; unfold stable; cbn [state ctime ethaddr set_state set_ctime]; (split; [arp_lia|done]).
Qed.

Lemma iter_stable k e : stable e -> ctime e = 0 -> Z.of_nat k < ARP_MAXAGE ->
  stable (Nat.iter k aged e) /\ ctime (Nat.iter k aged e) = Z.of_nat k /\ ethaddr (Nat.iter k aged e) = ethaddr e.
Proof.
  intros Hs H0. induction k as [|k IH]; intros Hk; [done|]. destruct (IH ltac:(lia)) as (IH1 & IH2 & IH3). rewrite Nat.iter_succ.
  pose proof (aged_stable _ IH1) as H. rewrite IH2 in H. replace (ARP_MAXAGE <=? Z.of_nat k + 1) with false in H by lia.
  destruct H as (H1 & H2 & H3). split; [done|]. split; [lia|congruence].
Qed.

Lemma iter_expired k e : stable e -> ctime e = 0 -> ARP_MAXAGE <= Z.of_nat k -> state (Nat.iter k aged e) = ETHARP_STATE_EMPTY.
Proof.
  intros Hs H0 Hk. replace k with ((k - 240) + S 239)%nat by (unfold ARP_MAXAGE in Hk; lia). rewrite Nat.iter_add.
  assert (state (Nat.iter (S 239) aged e) = ETHARP_STATE_EMPTY) as E.
  { destruct (iter_stable 239 e Hs H0 ltac:(done)) as (H1 & H2 & _). rewrite Nat.iter_succ. pose proof (aged_stable _ H1) as H. by rewrite H2 in H. }
  destruct (decide (state (Nat.iter (k - 240) aged (Nat.iter (S 239) aged e)) = ETHARP_STATE_EMPTY)) as [|Hne]; [done|].
  by apply iter_used in Hne as [? _].
Qed.

(** C29: A resolved address is found, with its hardware address, for 239 ticks of the
    timer, and no longer. *)
Theorem arp_lifetime s own i addr mac k :
  areach s own -> fresh_at (arp_table s) i addr mac ->
  exists s', ticks k s = Done tt s' /\
    etharp_find_addr addr s' = Done (if Z.of_nat k <? ARP_MAXAGE then Some (i, mac, addr) else None) s'.
Proof.
  intros HA%areach_ainv (e & E & He & H0 & Ha & Hm). pose proof (ld_nat _ _ _ E) as En.
  destruct (proj1 (runs_done _ _ _) (ticks_runs k s own HA)) as ([] & s' & E' & HA' & Ht). exists s'. split; [exact E'|].
  pose proof (a_table _ _ HA') as HT'. pose proof (table_size _ HT') as Hz'. pose proof (table_size _ (a_table _ _ HA)) as Hz.
  assert (state e <> ETHARP_STATE_EMPTY) as Hne by (unfold stable in He; arp_lia).
  assert (forall j d, arp_table s' !! j = Some d -> state d <> ETHARP_STATE_EMPTY -> ipaddr d = addr -> j = Z.to_nat i) as Huniq.
  { intros j d Ed Hd Hda. destruct (lookup_lt_is_Some_2 (arp_table s) j) as [d0 Ed0].
    { apply lookup_lt_Some in Ed. unfold zlen in *. lia. }
    rewrite (Ht j d0 Ed0) in Ed. injection Ed as <-. apply iter_used in Hd as [Hd0 Hi]. destruct (decide (j = Z.to_nat i)) as [|Hj]; [done|].
    exfalso. apply (table_apart _ (a_table _ _ HA) j _ d0 e Ed0 En Hj Hd0 Hne). congruence. }
  pose proof (ld_Some_range _ _ _ E) as Hir. unfold etharp_find_addr.
  destruct (proj1 (runs_done _ _ _) (find_entry_runs s' own addr ETHARP_FLAG_FIND_ONLY HA' ltac:(by right))) as (i' & s2 & E2 & Hcase).
  rewrite (bind_done _ _ _ _ _ E2). specialize (Ht _ e En). destruct Hcase as [(e' & Ee' & Hse' & Hae' & ->)|(Hab & [(_ & -> & ->)|[? _]])]; [| |done].
  - pose proof (ld_Some_range _ _ _ Ee') as Hir'. replace (0 <=? i') with true by lia. rewrite (bind_done _ _ _ _ _ (entry_done s' i' e' Ee')).
    pose proof (Huniq _ e' (ld_nat _ _ _ Ee') Hse' Hae') as Hj. assert (i' = i) as -> by lia. pose proof (ld_nat _ _ _ Ee') as En'. rewrite Ht in En'. injection En' as <-.
    destruct (Z.ltb_spec (Z.of_nat k) ARP_MAXAGE) as [Hk|Hk]; [|by rewrite iter_expired in Hse'].
    destruct (iter_stable k e He H0 Hk) as (H1 & _ & H3). unfold stable in H1. replace (ETHARP_STATE_STABLE <=? _) with true by lia. by rewrite H3, Hae', Hm.
  - cbn. destruct (Z.ltb_spec (Z.of_nat k) ARP_MAXAGE) as [Hk|Hk]; [|done]. exfalso. destruct (iter_stable k e He H0 Hk) as (H1 & _ & _).
    assert (state (Nat.iter k aged e) <> ETHARP_STATE_EMPTY) as Hne' by (unfold stable in H1; arp_lia).
    apply (Forall_lookup_1 _ _ _ _ Hab Ht Hne'). apply iter_used in Hne' as [_ ->]. exact Ha.
Qed.

(** A new address always gets an entry: an empty one, or else the oldest stable
    one, or else the oldest pending one, first one without a packet; the other
    entries are left alone. *)
Theorem arp_recycles s own addr :
  areach s own -> absent addr (arp_table s) ->
  exists i e s', etharp_find_entry addr ETHARP_FLAG_TRY_HARD s = Done i s' /\ ld (arp_table s) i = Some e /\ victim (arp_table s) e /\
    arp_table s' = <[Z.to_nat i := renewed addr e]> (arp_table s) /\ sent s' = sent s.
Proof.
  intros HA%areach_ainv Hab.
  destruct (proj1 (runs_done _ _ _) (find_entry_runs s own addr ETHARP_FLAG_TRY_HARD HA ltac:(by left))) as (i & s' & E & [(e & Ee & He & Ha & _)|(_ & [[? _]|(_ & e & m' & Ee & Hv & -> & _)])]).
  - exfalso. exact (Forall_lookup_1 _ _ _ _ Hab (ld_nat _ _ _ Ee) He Ha).
  - done.
  - by exists i, e, (set_bufs m' (set_table (<[Z.to_nat i := renewed addr e]> (arp_table s)) s)).
Qed.
End Resolve.

(** * A concrete network *)

Definition quiet_driver : Driver := fun _ _ => 0.

(** Runs a program as long as its operations are allowed. *)
Fixpoint aexec `{PM : PbufMemory} `{DR : Driver} (l : list AOp) (s : Arp) (own : list Z) : option (Arp * list Z) :=
  match l with
  | [] => Some (s, own)
  | o :: l => if decide (arp_allowed s own o) then match ado o own s with Done own' s' => aexec l s' own' | _ => None end else None
  end.

Lemma aexec_areach `{PM : PbufMemory} `{DR : Driver} l s own s' own' : areach s own -> aexec l s own = Some (s', own') -> areach s' own'.
Proof.
  revert s own. induction l as [|o l IH]; intros s own HR; cbn; [by intros [= <- <-]|]. case_decide as HA; [|done].
  destruct (ado o own s) as [own1 s1| |] eqn:E; [|done..]. apply IH. by eapply areach_step.
Qed.

(** 192.168.1.2, with the gateway 192.168.1.1, and its peer 192.168.1.5. *)
Definition demo_netif : netif := mkNetif 4096 (of_le32 [192; 168; 1; 2]) (of_le32 [255; 255; 255; 0]) (of_le32 [192; 168; 1; 1]) [2; 0; 0; 0; 0; 1] 34.
Definition demo_peer : Z := of_le32 [192; 168; 1; 5].
Definition demo_mac : list Z := [2; 0; 0; 0; 0; 9].
Definition demo_packet : list Z := [69; 0; 0; 24; 1; 2; 3; 4; 5; 6; 7; 8; 9; 10; 11; 12; 13; 14; 15; 16; 17; 18; 19; 20].
Definition demo_reply : list Z := arp_frame (hwaddr demo_netif) demo_mac demo_mac demo_peer (hwaddr demo_netif) (ip_addr demo_netif) ARP_REPLY.

(** A packet in buffer 1 goes out and waits; the reply has come, in buffer 3. *)
Definition demo_sends : list AOp := [AAlloc PBUF_TRANSPORT 24; AFill 1 0 demo_packet].
Definition demo_waits : list AOp := [AOutput demo_netif 1 demo_peer; ATick; AAlloc PBUF_RAW 42; AFill 3 0 demo_reply].

Definition outcome_of (l : list AOp) : Arp * list Z :=
  match @aexec small_memory quiet_driver l arp_start [] with Some r => r | None => (arp_start, []) end.

Lemma outcome_areach l : @areach small_memory quiet_driver (outcome_of l).1 (outcome_of l).2.
Proof.
  unfold outcome_of. destruct (@aexec small_memory quiet_driver l arp_start []) as [[s own]|] eqn:E; [|apply areach_start].
  by apply (aexec_areach l arp_start [] s own (@areach_start small_memory quiet_driver)).
Qed.

Definition buffer_at (s : Arp) (p : Z) : pbuf := default (mkPbuf 0 0 0 0 0 0 0 []) (bufs s !! p).

Definition sent_state : Arp := (outcome_of demo_sends).1.
Definition waiting_state : Arp := (outcome_of (demo_sends ++ demo_waits)).1.
Definition resolved_state : Arp := (outcome_of (demo_sends ++ demo_waits ++ [AInput demo_netif 3])).1.

Example arp_safe_witness :
  exists own' s', @ado small_memory quiet_driver (AInput demo_netif 3) (outcome_of (demo_sends ++ demo_waits)).2 waiting_state = Done own' s'.
Proof.
  apply (@arp_safe small_memory small_memory_laws quiet_driver waiting_state _ (outcome_areach (demo_sends ++ demo_waits))). by_decide.
Defined.

Example arp_output_routes_witness :
  exists r s', @etharp_output small_memory quiet_driver demo_netif 1 demo_peer sent_state = Done r s' /\
    (r = ERR_BUF /\ s' = sent_state /\ no_room (bufs sent_state) 1 \/
     (r = ERR_OK -> waits s' demo_peer (data [buffer_at sent_state 1]))).
Proof.
  destruct (@arp_output_routes small_memory small_memory_laws quiet_driver sent_state (outcome_of demo_sends).2 demo_netif 1 demo_peer
    (buffer_at sent_state 1) [] (outcome_areach demo_sends)) as (r & s' & E & H); [by_decide|by vm_compute|by_decide|].
  exists r, s'. split; [exact E|]. destruct H as [H|H]; [by left|right].
  replace (route_of demo_netif demo_peer) with (Via demo_peer) in H by (by vm_compute). apply H. by_decide.
Defined.

Lemma demo_message : message (bytes (buffer_at waiting_state 3)) demo_mac demo_peer (ip_addr demo_netif) ARP_REPLY [].
Proof.
  split; [by_decide|]. split; [by_decide|]. split; [by right|]. split; [done|].
  exists (hwaddr demo_netif), demo_mac, (hwaddr demo_netif). split; [done|]. split; [done|]. split; [done|]. by vm_compute.
Qed.

Lemma demo_waiting : waits waiting_state demo_peer demo_packet.
Proof.
  exists 0, (default empty_entry (ld (arp_table waiting_state) 0)), [buffer_at waiting_state 2].
  split; [by vm_compute|]. split; [by vm_compute|]. split; [by vm_compute|]. split; [by vm_compute|]. split; [by_decide|by vm_compute].
Qed.

Example arp_message_handled_witness :
  exists s', @ethernet_input quiet_driver 3 demo_netif waiting_state = Done ERR_OK s' /\
    (exists i, fresh_at (arp_table s') i demo_peer demo_mac) /\ ip_frame (hwaddr demo_netif) demo_mac demo_packet ∈ sent s'.
Proof.
  destruct (@arp_message_handled small_memory small_memory_laws quiet_driver waiting_state (outcome_of (demo_sends ++ demo_waits)).2 demo_netif 3
    (buffer_at waiting_state 3) demo_mac demo_peer (ip_addr demo_netif) ARP_REPLY [] (outcome_areach (demo_sends ++ demo_waits)))
    as (s' & E & H & _ & _); [by_decide|by vm_compute|by vm_compute|by vm_compute|exact demo_message|by vm_compute|].
  exists s'. split; [exact E|]. destruct (H (or_introl eq_refl)) as [Hf Hw]. split; [exact Hf|]. by apply Hw, demo_waiting.
Defined.

Example arp_lifetime_witness :
  exists s', ticks 239 resolved_state = Done tt s' /\ etharp_find_addr demo_peer s' = Done (Some (0, demo_mac, demo_peer)) s'.
Proof.
  apply (@arp_lifetime small_memory small_memory_laws quiet_driver resolved_state _ 0 demo_peer demo_mac 239 (outcome_areach (demo_sends ++ demo_waits ++ [AInput demo_netif 3]))).
  exists (default empty_entry (ld (arp_table resolved_state) 0)). split; [by vm_compute|]. split; [by_decide|]. by vm_compute.
Defined.

Example arp_recycles_witness :
  exists i e s', etharp_find_entry (gw demo_netif) ETHARP_FLAG_TRY_HARD resolved_state = Done i s' /\ ld (arp_table resolved_state) i = Some e /\
    victim (arp_table resolved_state) e /\ arp_table s' = <[Z.to_nat i := renewed (gw demo_netif) e]> (arp_table resolved_state) /\ sent s' = sent resolved_state.
Proof.
  apply (@arp_recycles small_memory small_memory_laws quiet_driver resolved_state _ (gw demo_netif) (outcome_areach (demo_sends ++ demo_waits ++ [AInput demo_netif 3]))).
  by_decide.
Defined.

(** A packet whose first buffer is in ROM and whose second is not is not taken over,
    although there is memory: the copy is as long as the rest from the second on. *)
Definition rom_first : Pbufs := {[ 1 := mkPbuf 2 0 5 3 PBUF_ROM 0 1 [7; 8; 9]; 2 := mkPbuf 0 0 2 2 PBUF_RAM 0 1 [4; 5] ]}.

Example take_over_rom_first : match @take_over small_memory 1 rom_first with Done p m => p = 0 /\ m = rom_first | _ => False end.
Proof. by vm_compute. Qed.
